(* ===== verification/_CoqProject ===== *)
-Q . S2P
Prelude.v
Interfaces.v
Bitops.v
DList.v
Queues.v
KTypes.v
KState.v
Sched.v
SchedSpec.v
Sample.v
ResPool.v
Cpu.v
Thread.v
ThreadSpec.v
Timer.v
Ipc.v
IpcSpec.v
SemSpec.v
Pcp.v
PcpSpec.v
Irq.v
Policy.v
PolicySpec.v
TimedThrd.v
TimedSpec.v
TimedTable.v
TimedTableSpec.v
Smp.v
SmpSpec.v
Dag.v
DagSpec.v
Kernel.v
Critical.v
Ringbuffer.v
Str.v
StrSpec.v
Print.v
PrintSpec.v
Shell.v
ShellSpec.v
ShellCmd.v
ShellFs.v
Monitor.v
MonitorSpec.v
Mmu.v
MmuSpec.v
MmuSpace.v
MmuTlb.v
Floats.v
Admis.v
AdmisSpec.v
AdmisResp.v
AdmisCtl.v
AdmisUndo.v
AdmisInit.v
AdmisInitSpec.v
VolMem.v
Buddy.v
