(* ===== verification/Prelude.v ===== *)
(** * aCoral kernel: verification library

    aCoral is a real-time kernel for multi-core ARM (Zynq 7020, two Cortex-A9).
    This library translates its own C code - [src/kernel/src], the parts of
    [src/libcpu/arm/cortex_a/zynq7020] the kernel calls, the libraries of
    [src/components] (strings, output, task graphs, timed threads, admission
    control, monitor, shell) and the MMU driver of [src/bsp/zynq7020/drivers] -
    into functions on an explicit state, and proves what they do.  The
    configuration is the one of [src/bsp/zynq7020/config.h]: [CFG_SMP] with two
    cores, 60 threads, priority-ordered wait queues, 1000 ticks per second, MPCP
    and DPCP on, the measuring code off.  Tracing, the shell and admission control
    are off in it; their code is modelled all the same, on states of its own.

    ** How the code is modelled

    - Integers are [Z]; each assignment to a narrower field, and each arithmetic
      operation that can leave its type, has its wrap written out ([u8] .. [s32]
      below).  Pointers are addresses, 0 is [NULL].
    - A function is a computation in the monad [M S A] below: it returns a value
      and a state, or one of four faults - an access to no object ([Wild]), a
      spin lock that nobody will release ([Deadlock]), an endless [while(1)]
      ([Hang]), or a loop that used up its fuel ([Diverge]).  Theorems state the
      result of a run, so they say that none of these happens.
    - A loop has fuel computed from the state: the number of list nodes for a
      walk over a list, of memory words for a walk over blocks, of bytes for a
      string.  A walk meets each of them at most once, which the proofs show;
      counted loops recurse on their count.  The loop of the release thread, which
      puts threads back into the queue it walks, takes its fuel as an argument.
    - One core runs at a time; a call runs to its end or to the point where its
      thread is switched out.  A waiting operation returns [None] there, and what
      its thread does when it runs again is a definition of its own.  The stack
      and registers of a thread are not part of the state (the first context
      that [hal_stack_init] writes is).
    - Every list node of the kernel is in one heap, by a location that names
      the object and field it is embedded in, so that aliasing is that of the C
      code.  An abstract map [L] from list heads to their members describes the
      heap ([DList.rep]); the theorems about kernel calls give the new [L].

    ** Files and sources

    - [Prelude]: integers, monad, lenses, total-correctness rules, arrays.
      [Interfaces]: what components need of the memory allocator, of a mutex and
      of the critical section, as classes, and the addresses of globals.
    - [Bitops]: bitops.c.  [DList]: list.c and list.h, refined to rings of
      locations.  [Queues]: queue.c; tick queues are difference lists.
    - [KTypes], [KState]: the control blocks of thread.h, ipc.h, res_pool.h,
      ipi.h and policy.h, the kernel state, and access to it.
    - [Sched]: sched.c, and the priority arrays of thread.c; the ready-queue
      invariant [sched_inv] and what every operation does to it.  [SchedSpec]:
      its theorems, a booted kernel.  [Sample]: a running kernel for witnesses.
    - [ResPool]: res_pool.c.  [Cpu]: cpu.c and the sending side of ipi.c.
    - [Thread], [ThreadSpec]: thread.c, the wait queues of ipc.c, and
      hal_thread.c.  [Timer]: timer.c.
    - [Ipc]: mutexes and semaphores of ipc.c; [IpcSpec] and [SemSpec] their
      theorems.  [Pcp], [PcpSpec]: the priority ceiling protocols of ipc.c.
    - [Irq]: int.c, the receiving side of ipi.c, and the tail of an interrupt in
      hal_int_s.S.
    - [Policy], [PolicySpec]: policy.c, comm_thrd.c and period_thrd.c.
      [TimedThrd], [TimedSpec]: timed_thrd.c.  [TimedTable], [TimedTableSpec]:
      lib/src/timed.c, which makes the timed threads of a configuration.
    - [Smp], [SmpSpec]: smp.c, hal_cmp_c.c and the initialisation functions; the
      start of the whole kernel, run on a concrete board.
    - [Kernel]: the kernel as a transition system of calls and interrupts on both
      cores.  [Critical]: what every call does to a critical section.
    - [VolMem], [Buddy]: the two allocators of mem.c, against [Interfaces].
    - [Ringbuffer]: ringbuffer.c.  [Str], [StrSpec]: lib/src/str.c.  [Print],
      [PrintSpec]: lib/src/print.c, on a memory of bytes.
    - [Dag], [DagSpec]: lib/src/dag.c, task graphs as periodic threads and their
      semaphores.
    - [Shell], [ShellSpec]: the line editor of components/ash; [ShellCmd] its
      command lines, [ShellFs] its commands on files.
    - [Monitor], [MonitorSpec]: monitor.c, the record of events and its packets.
    - [Mmu], [MmuSpec], [MmuSpace]: drivers/mmu, page tables as the words of a
      memory, and user spaces.  [MmuTlb]: switching between spaces on a processor
      with a translation buffer.
    - [Floats]: single and double precision as rounding on the rationals.
      [Admis]: the analysis of lib/src/admis_ctl.c, [AdmisSpec] its reference and
      loops, [AdmisResp] the response time.  [AdmisCtl]: the thread that admits
      tasks, [AdmisUndo] what a refused trial leaves.  [AdmisInit],
      [AdmisInitSpec]: the times at which that thread runs.

    Threads, timer, IPC, policies and interrupts all change the ready queues
    through [Sched]; a call for a thread of the other core becomes a command in
    a slot of [Cpu], which [Irq] carries out there.  [ResPool] takes memory from
    the allocator interface, which [Buddy.buddy_allocator] implements.

    ** What the theorems show

    - Scheduling: the thread of highest priority is chosen, and runs unless the
      preemption rules forbid it; the ready queues stay consistent.
    - Critical sections: while a core is in one, its thread stays the running one
      over any sequence of calls and interrupts on the two cores, as long as no
      interrupt of that core has switched before (from then on they switch inside
      of sections, too, which [Irq] states).
    - Data structures refine their abstract versions: rings, difference lists,
      bounded queues, tilings of a memory region.
    - Time: a tick wakes exactly the threads that are due, a period restarts
      exactly the ones that finished, and both loops end.
    - Mutexes, semaphores and ceilings: who gets the resource, who waits, who is
      woken, on every branch, refused calls included.
    - Timed threads walk their table of times cell by cell, once a hyperperiod.
    - Start-up is run on a concrete board.  A turn of the release thread ends
      with at most one thread that is still exiting in its queue, and never with
      two of them.
    - Across cores: a command posted by one core has on the other the effect of
      the local call.
    - Strings: moves and searches against reference definitions; a number that
      is printed can be read back.
    - Task graphs: a node's thread waits for the semaphores of its predecessors.
    - Admission control: the analysis returns the least time that covers all that
      delays a task, whenever its times have 24 bits (beyond, single precision
      loses a release); a refused trial is taken back but for the response times;
      the times of the admission thread are never more than an interval apart.
    - Timed threads of one section and one turn are made as configured, and the
      queues of times are in order.
    - Shell: any sequence of keys does to the line what it does to a text with a
      cursor, and the line's command runs with its words.
    - Monitor: events arrive as they were recorded, until the array is full.
    - Resource identifiers lead back to their resource.
    - Page tables: which addresses a region and a user space map, and that a space
      of less than a megabyte reaches into the next one; spaces with identifiers
      of their own can be switched without invalidating the translation buffer,
      which the activation of a space alone does not do.
    - Where the code does something else than it means to, the theorem states
      what it does, and the manifest lists it as a finding.

    ** Not modelled

    The network stack and its port (bsp/.../packages, third-party lwIP), the
    nanopb library (components/acosim/src/pb_*.c) and the message type generated
    for it; boot code, exception vectors and the linker script (assembly, hardware
    set-up); drivers of the interrupt controller, timer and serial port, and the
    caches (vendor code, hardware); the dump of the page tables; interrupts in the
    middle of a call; the monitor's text output; timed_decode of lib/src/timed.c, which
    reads a configuration through a file system that is not in the sources;
    applications and measuring code (bsp/.../applications).  Admission control
    keeps its own copy of the fields of a resource; where it calls the kernel, and
    where [Irq] calls it, the other is an argument. *)
From Stdlib Require Export ZArith Lia.
From stdpp Require Export base tactics list gmap fin_maps option numbers.

#[global] Open Scope Z_scope.
#[global] Set Default Goal Selector "!".

(** ** Machine integers

    The kernel is compiled for the Cortex-A9: [acoral_u8] .. [acoral_u32] are
    unsigned 8/16/32-bit integers and [acoral_8] .. [acoral_32] their
    two's-complement counterparts ([include/type.h]).  A value of each type is
    a [Z] in its range, and a conversion is one of the wrap functions below. *)
Definition wrapu (w : Z) (x : Z) : Z := x mod 2 ^ w.

Definition wraps (w : Z) (x : Z) : Z := (x + 2 ^ (w - 1)) mod 2 ^ w - 2 ^ (w - 1).

Abbreviation u8 := (wrapu 8).
Abbreviation u16 := (wrapu 16).
Abbreviation u32 := (wrapu 32).
Abbreviation s8 := (wraps 8).
Abbreviation s16 := (wraps 16).
Abbreviation s32 := (wraps 32).

(** ** The kernel monad

    C code is translated to functions of type [M S A]: they take the state,
    and either return a value with a new state or fail.  The failures are the
    ways in which C code does not return:
    - [Wild]: an access through a pointer that designates no live object, or
      out of the bounds of an array (undefined behaviour in C);
    - [Deadlock]: [hal_spin_lock] on a lock word that is not zero; the model
      runs one cpu at a time, so nobody else can release it;
    - [Hang]: a [while(1);] of the source;
    - [Diverge]: the fuel of a loop ran out.  No theorem hides it: the
      theorems about loops prove that the fuel given is enough. *)
Inductive fault : Type := Wild | Deadlock | Hang | Diverge.

Inductive outcome (A : Type) : Type :=
  | Ret (a : A)
  | Err (e : fault).
Arguments Ret {A} a.
Arguments Err {A} e.

#[export] Instance fault_eq_dec : EqDecision fault.
Proof. solve_decision. Defined.

Definition M (S A : Type) : Type := S → outcome (A * S).

Definition fail {S A} (e : fault) : M S A := λ _, Err e.

#[export] Instance M_ret {S} : MRet (M S) := λ A a s, Ret (a, s).

#[export] Instance M_bind {S} : MBind (M S) := λ A B f m s,
  match m s with
  | Ret (a, s') => f a s'
  | Err e => Err e
  end.

Definition get {S A} (f : S → A) : M S A := λ s, Ret (f s, s).

Definition modify {S} (f : S → S) : M S unit := λ s, Ret (tt, f s).

Definition when {S} (b : bool) (m : M S unit) : M S unit :=
  if b then m else mret tt.

(** [for(i = lo; i < lo + n; i++) body(i)]. *)
Fixpoint for_up {S} (n : nat) (i : Z) (body : Z → M S unit) : M S unit :=
  match n with
  | O => mret tt
  | S n => body i;; for_up n (i + 1) body
  end.

(** An array element or map entry that may be absent: absent is [Wild]. *)
Definition deref {S A} (f : S → option A) : M S A := λ s,
  match f s with
  | Some a => Ret (a, s)
  | None => Err Wild
  end.

(** C arrays.  An index is a [Z]; reading or writing outside the array is
    [Wild]. *)
Definition aget {A} (l : list A) (i : Z) : option A :=
  if 0 <=? i then l !! Z.to_nat i else None.

Definition aset {A} (i : Z) (x : A) (l : list A) : list A :=
  if 0 <=? i then <[Z.to_nat i := x]> l else l.

Definition rd {A} (i : Z) : M (list A) A := deref (λ l, aget l i).

Definition wr {A} (i : Z) (x : A) : M (list A) unit := λ l,
  match aget l i with
  | Some _ => Ret (tt, aset i x l)
  | None => Err Wild
  end.

(** ** Lenses: a component runs on its part of a larger state. *)
Record lens (S A : Type) : Type := Lens {
  view : S → A;
  update : A → S → S;
}.
Arguments Lens {S A} view update.
Arguments view {S A} l s.
Arguments update {S A} l a s.

Class LensLaws {S A} (l : lens S A) : Prop := {
  view_update : ∀ a s, view l (update l a s) = a;
  update_view : ∀ s, update l (view l s) s = s;
  update_update : ∀ a b s, update l a (update l b s) = update l a s;
}.

Definition zoom {S A X} (l : lens S A) (m : M A X) : M S X := λ s,
  match m (view l s) with
  | Ret (x, a) => Ret (x, update l a s)
  | Err e => Err e
  end.

(** ** Total correctness

    [wp m Q s]: from [s], [m] returns (it neither fails nor diverges), and its
    value and final state satisfy [Q]. *)
Definition wp {S A} (m : M S A) (Q : A → S → Prop) (s : S) : Prop :=
  match m s with
  | Ret (a, s') => Q a s'
  | Err _ => False
  end.

Section wp_rules.
Context {S : Type}.
Implicit Types s : S.

Lemma wp_iff {A} (m : M S A) Q s :
  wp m Q s ↔ ∃ a s', m s = Ret (a, s') ∧ Q a s'.
Proof. unfold wp. destruct (m s) as [[a s']|e]; naive_solver. Qed.

Lemma wp_run {A} (m : M S A) (Q : A → S → Prop) s a s' :
  m s = Ret (a, s') → Q a s' → wp m Q s.
Proof. intros Hm HQ. unfold wp. by rewrite Hm. Qed.

Lemma wp_ret {A} (a : A) (Q : A → S → Prop) s : Q a s → wp (mret a) Q s.
Proof. done. Qed.

Lemma wp_bind {A B} (m : M S A) (f : A → M S B) Q s :
  wp m (λ a s', wp (f a) Q s') s → wp (m ≫= f) Q s.
Proof.
  unfold wp, mbind, M_bind. destruct (m s) as [[a s']|e]; done.
Qed.

Lemma wp_get {A} (f : S → A) (Q : A → S → Prop) s : Q (f s) s → wp (get f) Q s.
Proof. done. Qed.

Lemma wp_modify (f : S → S) (Q : unit → S → Prop) s : Q tt (f s) → wp (modify f) Q s.
Proof. done. Qed.

Lemma wp_deref {A} (f : S → option A) (Q : A → S → Prop) s a :
  f s = Some a → Q a s → wp (deref f) Q s.
Proof. unfold wp, deref. by intros ->. Qed.

Lemma wp_mono {A} (m : M S A) (P Q : A → S → Prop) s :
  wp m P s → (∀ a s', P a s' → Q a s') → wp m Q s.
Proof. unfold wp. destruct (m s) as [[a s']|e]; naive_solver. Qed.

Lemma wp_zoom {B A} (l : lens S B) (m : M B A) (Q : A → S → Prop) s :
  wp m (λ a b, Q a (update l b s)) (view l s) → wp (zoom l m) Q s.
Proof.
  unfold wp, zoom. destruct (m (view l s)) as [[a s']|e]; done.
Qed.

Lemma run_bind {A B} (m : M S A) (f : A → M S B) s a s' :
  m s = Ret (a, s') → (m ≫= f) s = f a s'.
Proof. intros Hm. unfold mbind, M_bind. by rewrite Hm. Qed.

Lemma run_zoom {B A} (l : lens S B) (m : M B A) s a b :
  m (view l s) = Ret (a, b) → zoom l m s = Ret (a, update l b s).
Proof. intros Hm. unfold zoom. by rewrite Hm. Qed.

Lemma run_deref {A} (f : S → option A) s a :
  f s = Some a → deref f s = Ret (a, s).
Proof. intros Hf. unfold deref. by rewrite Hf. Qed.
End wp_rules.

(** The rules above as a database: [step] advances through a translated
    function one monadic operation at a time. *)
Create HintDb acoral discriminated.
Create Rewrite HintDb wraps.

Ltac step :=
  match goal with
  | |- wp (_ ≫= _) _ _ => apply wp_bind
  | |- wp (mret _) _ _ => apply wp_ret
  | |- wp (get _) _ _ => apply wp_get
  | |- wp (modify _) _ _ => apply wp_modify
  | |- wp (zoom _ _) _ _ => apply wp_zoom
  | |- wp (when true _) _ _ => unfold when at 1
  | |- wp (when false _) _ _ => unfold when at 1
  end.

Ltac steps := repeat (step; cbn beta iota).

(** ** Facts about machine integers *)
Lemma wrapu_small w x : 0 ≤ x < 2 ^ w → wrapu w x = x.
Proof. apply Z.mod_small. Qed.

Lemma wrapu_range w x : 0 ≤ w → 0 ≤ wrapu w x < 2 ^ w.
Proof. intros. apply Z.mod_pos_bound. by apply Z.pow_pos_nonneg. Qed.

Lemma wraps_small w x : 0 < w → - 2 ^ (w - 1) ≤ x < 2 ^ (w - 1) → wraps w x = x.
Proof.
  intros Hw Hx. unfold wraps.
  assert (2 ^ w = 2 * 2 ^ (w - 1)) as E.
  { rewrite <- Z.pow_succ_r by lia. f_equal. lia. }
  rewrite Z.mod_small; lia.
Qed.

Lemma wraps_range w x : 0 < w → - 2 ^ (w - 1) ≤ wraps w x < 2 ^ (w - 1).
Proof.
  intros Hw. unfold wraps.
  assert (2 ^ w = 2 * 2 ^ (w - 1)) as E.
  { rewrite <- Z.pow_succ_r by lia. f_equal. lia. }
  pose proof (Z.mod_pos_bound (x + 2 ^ (w - 1)) (2 ^ w)) as B.
  assert (0 < 2 ^ w) by (by apply Z.pow_pos_nonneg; lia). lia.
Qed.

Lemma wrapu_testbit w x i :
  0 ≤ w → 0 ≤ i → Z.testbit (wrapu w x) i = (bool_decide (i < w) && Z.testbit x i).
Proof.
  intros Hw Hi. unfold wrapu.
  case_bool_decide; [by rewrite Z.mod_pow2_bits_low by lia|].
  by rewrite Z.mod_pow2_bits_high by lia.
Qed.


Lemma shiftr_range w x n : 0 ≤ n → 0 ≤ x < 2 ^ w → 0 ≤ Z.shiftr x n < 2 ^ w.
Proof.
  intros Hn [Hx Hw]. rewrite Z.shiftr_div_pow2 by done.
  assert (0 < 2 ^ n) by (by apply Z.pow_pos_nonneg). split.
  - by apply Z.div_pos.
  - apply Z.le_lt_trans with x; [|done]. apply Z.div_le_upper_bound; nia.
Qed.

(** A field above a smaller number, and the extraction of a field. *)
Lemma lor_shiftl_add k a low : 0 ≤ a → 0 ≤ low < 2 ^ a → Z.lor (Z.shiftl k a) low = k * 2 ^ a + low.
Proof.
  intros Ha Hl. rewrite <- Z.add_nocarry_lor; [by rewrite Z.shiftl_mul_pow2|].
  apply Z.bits_inj_0. intros i. rewrite Z.land_spec.
  destruct (decide (0 ≤ i)); [|by rewrite Z.testbit_neg_r by lia].
  destruct (decide (i < a)).
  - by rewrite Z.shiftl_spec, Z.testbit_neg_r by lia.
  - rewrite <- (Z.mod_small low (2 ^ a)), Z.mod_pow2_bits_high by lia. apply andb_false_r.
Qed.

Lemma shiftr_land_field y n a : 0 ≤ n → 0 ≤ a →
  Z.shiftr (Z.land y (Z.shiftl (Z.ones n) a)) a = (y / 2 ^ a) mod 2 ^ n.
Proof.
  intros Hn Ha. rewrite Z.shiftr_land, Z.shiftr_shiftl_l, Z.sub_diag, Z.shiftl_0_r by lia.
  by rewrite Z.land_ones, Z.shiftr_div_pow2 by lia.
Qed.

Lemma land_field y n a : 0 ≤ n → 0 ≤ a →
  Z.land y (Z.shiftl (Z.ones n) a) = (y / 2 ^ a) mod 2 ^ n * 2 ^ a.
Proof.
  intros Hn Ha. rewrite <- shiftr_land_field, <- Z.shiftl_mul_pow2 by done.
  rewrite Z.shiftr_land, Z.shiftr_shiftl_l, Z.sub_diag, Z.shiftl_0_r by lia.
  apply Z.bits_inj'. intros i Hi. rewrite Z.shiftl_spec, !Z.land_spec by done.
  destruct (decide (i < a)).
  - rewrite (Z.shiftl_spec _ _ i), !(Z.testbit_neg_r _ (i - a)) by lia. by rewrite andb_false_r.
  - by rewrite Z.shiftl_spec, Z.shiftr_spec, Z.sub_add by lia.
Qed.

(** ** Facts about lists *)
Lemma list_filter_all {A} (P : A → Prop) `{∀ x, Decision (P x)} (l : list A) :
  Forall P l → filter P l = l.
Proof.
  induction 1; [done|]. rewrite filter_cons_True by done. by f_equal.
Qed.

Lemma list_filter_none {A} (P : A → Prop) `{∀ x, Decision (P x)} (l : list A) :
  Forall (λ x, ¬ P x) l → filter P l = [].
Proof. induction 1; [done|]. by rewrite filter_cons_False. Qed.

(** ** Facts about arrays *)
Section arrays.
Context {A : Type}.
Implicit Types l : list A.

Lemma aget_lt l i x : aget l i = Some x → 0 ≤ i < Z.of_nat (length l).
Proof.
  unfold aget. destruct (0 <=? i) eqn:E; [|done]. apply Z.leb_le in E.
  intros H%lookup_lt_Some. lia.
Qed.

Lemma aget_is_Some l i : is_Some (aget l i) ↔ 0 ≤ i < Z.of_nat (length l).
Proof.
  split.
  - intros [x Hx]. by eapply aget_lt.
  - intros Hi. unfold aget. rewrite (proj2 (Z.leb_le _ _)) by lia.
    apply lookup_lt_is_Some. lia.
Qed.

Lemma length_aset i x l : length (aset i x l) = length l.
Proof. unfold aset. case_match; [apply length_insert|done]. Qed.

Lemma aget_aset l i j x :
  is_Some (aget l i) → aget (aset i x l) j = if decide (i = j) then Some x else aget l j.
Proof.
  intros Hi%aget_is_Some. unfold aget, aset.
  rewrite (proj2 (Z.leb_le 0 i)) by lia.
  case_decide as Hij; subst.
  - rewrite (proj2 (Z.leb_le 0 j)) by lia. apply list_lookup_insert_eq. lia.
  - destruct (0 <=? j) eqn:E; [|done]. apply Z.leb_le in E.
    apply list_lookup_insert_ne. lia.
Qed.

Lemma aget_aset_eq i x y l : aget l i = Some y → aget (aset i x l) i = Some x.
Proof. intros Hi. rewrite aget_aset by eauto. by rewrite decide_True. Qed.

Lemma aget_aset_ne i j x l : is_Some (aget l i) → i ≠ j → aget (aset i x l) j = aget l j.
Proof. intros Hi Hne. rewrite aget_aset by done. by rewrite decide_False. Qed.

(** Two writes to one element. *)
Lemma aset_aset i x y l : aset i x (aset i y l) = aset i x l.
Proof. unfold aset. case_match; [|done]. apply list_insert_insert_eq. Qed.

Lemma aset_id i x l : aget l i = Some x → aset i x l = l.
Proof. unfold aget, aset. case_match; [|done]. intros. by apply list_insert_id. Qed.

Lemma Forall_aget (P : A → Prop) l i x : Forall P l → aget l i = Some x → P x.
Proof.
  unfold aget. case_match; [|done]. intros HP Hx.
  by eapply Forall_lookup_1.
Qed.

Lemma Forall_aset (P : A → Prop) l i x : Forall P l → P x → Forall P (aset i x l).
Proof. intros HP Hx. unfold aset. case_match; [by apply Forall_insert|done]. Qed.

Lemma wp_rd i l x (Q : A → list A → Prop) : aget l i = Some x → Q x l → wp (rd i) Q l.
Proof. intros. by eapply wp_deref. Qed.

Lemma wp_wr i x l (Q : unit → list A → Prop) :
  is_Some (aget l i) → Q tt (aset i x l) → wp (wr i x) Q l.
Proof. intros [y Hy] HQ. unfold wp, wr. by rewrite Hy. Qed.

Lemma run_wr i x l : is_Some (aget l i) → wr i x l = Ret (tt, aset i x l).
Proof. intros [y Hy]. unfold wr. by rewrite Hy. Qed.
End arrays.

#[export] Hint Rewrite wrapu_small wraps_small using lia : wraps.
