(* ===== verification/Interfaces.v ===== *)
(** * Interfaces between the components

    What a component uses of another one, as classes over the state [S] both
    run on.  The client's definitions and theorems are against the class; the
    laws it relies on are further classes next to the client. *)
From S2P Require Import Prelude.

(** [acoral_malloc_size], [acoral_malloc] and [acoral_free] (mem.h); 0 is
    [NULL].  Implemented by the buddy system ([Buddy.buddy_allocator]). *)
Class Allocator (S : Type) : Type := {
  al_malloc_size : Z → M S Z;
  al_malloc : Z → M S Z;
  al_free : Z → M S unit;
}.

(** [acoral_mutex_init], [_pend] and [_post] on one mutex (ipc.h). *)
Class Mutex (S : Type) : Type := {
  mx_init : M S unit;
  mx_pend : M S unit;
  mx_post : M S unit;
}.

(** [acoral_enter_critical] and [acoral_exit_critical] (lsched.h). *)
Class Critical (S : Type) : Type := {
  cr_enter : M S unit;
  cr_exit : M S unit;
}.

(** The addresses of the globals the code takes the address of: [acoral_pools],
    [acoral_thread_pool_ctrl] and [acoral_ipc_pool_ctrl]. *)
Class Layout : Type := {
  acoral_pools : Z;
  acoral_thread_pool_ctrl : Z;
  acoral_ipc_pool_ctrl : Z;
}.
