(* ===== verification/Bitops.v ===== *)
(** * kernel/src/bitops.c: bit maps

    A bit map is an array of 32-bit words, here the list of its words; the
    functions that update it run in [M (list Z)], and touching a word outside
    the array is [Wild].  [bit_set b p] is the abstract reading of bit [p]
    that the theorems use. *)
From S2P Require Import Prelude.
From stdpp Require Import list.
#[local] Open Scope Z_scope.

(** One step of the binary search: if a bit of [mask] is set in the word, the
    answer lies [s] lower and the word is shifted up by [s]. *)
Definition ffs_step (mask s : Z) (kw : Z * Z) : Z * Z :=
  let '(k, word) := kw in
  if Z.land word mask =? 0 then (k, word) else (k - s, u32 (Z.shiftl word s)).

Definition acoral_ffs (word : Z) : Z :=
  let kw := (31, word) in
  let kw := ffs_step 0x0000ffff 16 kw in
  let kw := ffs_step 0x00ff0000 8 kw in
  let kw := ffs_step 0x0f000000 4 kw in
  let kw := ffs_step 0x30000000 2 kw in
  let '(k, word) := kw in
  if Z.land word 0x40000000 =? 0 then k else k - 1.

(** The loop of [acoral_find_first_bit] reads [b[off]] before it compares
    [off] with [length]; it returns the last word read and its offset. *)
Fixpoint find_first_word (fuel : nat) (off len : Z) : M (list Z) (Z * Z) :=
  v ← rd off;
  if off <? len then
    if v =? 0 then
      match fuel with
      | O => fail Diverge
      | S fuel => find_first_word fuel (off + 1) len
      end
    else mret (v, off)
  else mret (v, off).

Definition acoral_find_first_bit (len : Z) : M (list Z) Z :=
  '(v, off) ← find_first_word (Z.to_nat len) 0 len;
  mret (u32 (acoral_ffs v + off * 32)).

Definition bit_mask (nr : Z) : Z := u32 (Z.shiftl 1 (Z.land nr 31)).

Definition acoral_set_bit (nr : Z) : M (list Z) unit :=
  oldval ← rd (Z.shiftr nr 5);
  wr (Z.shiftr nr 5) (Z.lor oldval (bit_mask nr)).

Definition acoral_clear_bit (nr : Z) : M (list Z) unit :=
  oldval ← rd (Z.shiftr nr 5);
  wr (Z.shiftr nr 5) (Z.land oldval (u32 (Z.lnot (bit_mask nr)))).

Definition acoral_get_bit (nr : Z) : M (list Z) Z :=
  oldval ← rd (Z.shiftr nr 5);
  mret (Z.land oldval (bit_mask nr)).

(** Bit [p] of the map, for the statements. *)
Definition bit_set (b : list Z) (p : Z) : bool :=
  match aget b (p / 32) with
  | Some w => Z.testbit w (p mod 32)
  | None => false
  end.

Definition word32 (w : Z) : Prop := 0 ≤ w < 2 ^ 32.

(** [m] is the lowest set bit of [w]. *)
Definition lsb (w m : Z) : Prop :=
  0 ≤ m ∧ Z.testbit w m = true ∧ ∀ i, 0 ≤ i < m → Z.testbit w i = false.

(** The mask of bits [lo .. hi-1]. *)
Definition bits_from (lo hi : Z) : Z := Z.shiftl (Z.ones (hi - lo)) lo.

Implicit Types b : list Z.

(** ** The lowest set bit of a word *)
Lemma bits_from_testbit lo hi i :
  0 ≤ lo ≤ hi → 0 ≤ i → Z.testbit (bits_from lo hi) i = bool_decide (lo ≤ i < hi).
Proof.
  intros Hlh Hi. unfold bits_from. rewrite Z.shiftl_spec by done.
  destruct (decide (i < lo)).
  - rewrite Z.testbit_neg_r by lia. rewrite bool_decide_eq_false_2; [done|lia].
  - rewrite Z.testbit_ones_nonneg by lia.
    destruct (i - lo <? hi - lo) eqn:E.
    + rewrite bool_decide_eq_true_2; [done|]. lia.
    + rewrite bool_decide_eq_false_2; [done|]. lia.
Qed.

Lemma lsb_land_mask w m lo hi :
  lsb w m → 0 ≤ lo ≤ hi → lo ≤ m → (Z.land w (bits_from lo hi) =? 0) = (hi <=? m).
Proof.
  intros (Hm & Hset & Hbelow) Hlh Hlo.
  destruct (hi <=? m) eqn:E.
  - apply Z.leb_le in E. apply Z.eqb_eq. apply Z.bits_inj_0. intros i.
    destruct (decide (0 ≤ i)); [|by apply Z.testbit_neg_r; lia].
    rewrite Z.land_spec, bits_from_testbit by lia.
    case_bool_decide; [|by rewrite andb_false_r].
    rewrite Hbelow by lia. done.
  - apply Z.leb_gt in E. apply Z.eqb_neq. intros Hz.
    assert (Z.testbit (Z.land w (bits_from lo hi)) m = true) as Hb.
    { rewrite Z.land_spec, Hset, bits_from_testbit by lia.
      by rewrite bool_decide_eq_true_2 by lia. }
    by rewrite Hz, Z.testbit_0_l in Hb.
Qed.

Lemma lsb_shift w m s :
  lsb w m → 0 ≤ s → m + s < 32 → lsb (u32 (Z.shiftl w s)) (m + s).
Proof.
  intros (Hm & Hset & Hbelow) Hs Hms. split_and!; [lia| |].
  - rewrite wrapu_testbit, Z.shiftl_spec by lia.
    rewrite bool_decide_eq_true_2 by lia. replace (m + s - s) with m by lia. done.
  - intros i Hi. rewrite wrapu_testbit, Z.shiftl_spec by lia.
    rewrite bool_decide_eq_true_2 by lia.
    destruct (decide (i < s)); [by rewrite Z.testbit_neg_r by lia|].
    rewrite Hbelow by lia. done.
Qed.

(** A step narrows the interval [lo .. 31] of the lowest bit to
    [lo + s .. 31], and keeps [k + m] where [m] is that bit. *)
Lemma ffs_step_spec mask s k w m lo :
  bits_from lo (lo + s) = mask → 0 ≤ lo → 0 ≤ s → lsb w m → lo ≤ m → m < 32 →
  lo + 2 * s = 32 →
  ∃ k' w' m', ffs_step mask s (k, w) = (k', w') ∧ lsb w' m' ∧
    lo + s ≤ m' < 32 ∧ k' + m' = k + m.
Proof.
  intros <- Hlo Hs Hl Hm Hm32 Hls. unfold ffs_step.
  rewrite (lsb_land_mask w m) by (done || lia).
  destruct (lo + s <=? m) eqn:E.
  - exists k, w, m. split_and!; [done..|lia|lia|lia].
  - exists (k - s), (u32 (Z.shiftl w s)), (m + s).
    split_and!; [done|apply lsb_shift; (done || lia)|lia|lia|lia].
Qed.

Lemma acoral_ffs_lsb w m : lsb w m → m < 32 → acoral_ffs w = m.
Proof.
  intros Hl Hm. unfold acoral_ffs.
  assert (0 ≤ m) by (by destruct Hl).
  destruct (ffs_step_spec 0x0000ffff 16 31 w m 0) as (k1&w1&m1&->&L1&?&?); [first [exact eq_refl | exact Hl | assumption | lia]..|].
  destruct (ffs_step_spec 0x00ff0000 8 k1 w1 m1 16) as (k2&w2&m2&->&L2&?&?); [first [exact eq_refl | exact Hl | assumption | lia]..|].
  destruct (ffs_step_spec 0x0f000000 4 k2 w2 m2 24) as (k3&w3&m3&->&L3&?&?); [first [exact eq_refl | exact Hl | assumption | lia]..|].
  destruct (ffs_step_spec 0x30000000 2 k3 w3 m3 28) as (k4&w4&m4&->&L4&?&?); [first [exact eq_refl | exact Hl | assumption | lia]..|].
  change 0x40000000 with (bits_from 30 31).
  rewrite (lsb_land_mask w4 m4) by (done || lia).
  destruct (31 <=? m4) eqn:E; lia.
Qed.

Lemma lsb_exists w : word32 w → w ≠ 0 → ∃ m, lsb w m ∧ m < 32.
Proof.
  intros Hw Hnz.
  assert (∃ m, (m < 32)%nat ∧ Z.testbit w (Z.of_nat m) = true) as (m & Hm & Hbit).
  { destruct (Z.log2_spec w) as [? ?]; [unfold word32 in Hw; lia|].
    exists (Z.to_nat (Z.log2 w)). pose proof (Z.log2_nonneg w). split.
    - assert (Z.log2 w < 32); [|lia]. apply Z.log2_lt_pow2; unfold word32 in Hw; lia.
    - rewrite Z2Nat.id by lia. apply Z.bit_log2. unfold word32 in Hw; lia. }
  induction m as [m IH] using lt_wf_ind.
  destruct (decide (Exists (λ j, Z.testbit w (Z.of_nat j) = true) (seq 0 m))) as [He|Hno].
  { apply list.Exists_exists in He as (j & Hj%elem_of_seq & Hb). apply (IH j); [lia|lia|done]. }
  exists (Z.of_nat m). split; [|lia]. split_and!; [lia|done|].
  intros i Hi. apply not_true_is_false. intros Hb. apply Hno, list.Exists_exists.
  exists (Z.to_nat i). rewrite elem_of_seq, Z2Nat.id by lia. split; [lia|done].
Qed.

(** ** Bits of a bit map *)
Lemma shiftr5_land31 p : 0 ≤ p → Z.shiftr p 5 = p / 32 ∧ Z.land p 31 = p mod 32.
Proof.
  intros Hp. split; [by rewrite Z.shiftr_div_pow2|].
  change 31 with (Z.ones 5). by rewrite Z.land_ones.
Qed.

Lemma bit_mask_testbit p i :
  0 ≤ p → 0 ≤ i → Z.testbit (bit_mask p) i = bool_decide (i = p mod 32).
Proof.
  intros Hp Hi. unfold bit_mask. rewrite (proj2 (shiftr5_land31 p Hp)).
  pose proof (Z.mod_pos_bound p 32). rewrite wrapu_testbit, Z.shiftl_spec by lia.
  case_bool_decide as H1; case_bool_decide as H2; try done; try lia.
  - subst. rewrite Z.sub_diag. done.
  - destruct (decide (i < p mod 32)); [by rewrite Z.testbit_neg_r by lia|].
    simpl. rewrite Z.bits_above_log2; simpl; [done|lia|lia].
Qed.

Lemma bit_set_inj p q : 0 ≤ p → 0 ≤ q → p / 32 = q / 32 → p mod 32 = q mod 32 → p = q.
Proof. intros. rewrite (Z.div_mod p 32), (Z.div_mod q 32); lia. Qed.

Lemma bit_set_aset b p w w' q :
  0 ≤ p → 0 ≤ q → aget b (p / 32) = Some w →
  (∀ i, 0 ≤ i < 32 → i ≠ p mod 32 → Z.testbit w' i = Z.testbit w i) →
  bit_set (aset (p / 32) w' b) q
  = if decide (q = p) then Z.testbit w' (p mod 32) else bit_set b q.
Proof.
  intros Hp Hq Hw Hsame. unfold bit_set.
  pose proof (Z.mod_pos_bound q 32). pose proof (Z.mod_pos_bound p 32).
  rewrite aget_aset by eauto. case_decide as Hd.
  - rewrite <- Hd. rewrite Hw. case_decide as He; [by rewrite He|].
    apply Hsame; [lia|]. intros ?. apply He. apply bit_set_inj; lia.
  - case_decide as He; [congruence|done].
Qed.

Lemma word32_testbit_inj w w' :
  word32 w → (∀ i, 0 ≤ i → Z.testbit w' i = true → i < 32) → 0 ≤ w' → word32 w'.
Proof.
  intros _ Hb Hw'. split; [done|].
  destruct (decide (w' = 0)) as [->|Hnz]; [done|].
  apply Z.log2_lt_pow2; [lia|]. apply Hb; [apply Z.log2_nonneg|].
  apply Z.bit_log2. lia.
Qed.

Lemma bit_mask_word32 p : word32 (bit_mask p).
Proof. apply wrapu_range. lia. Qed.

Lemma word32_bits w i : word32 w → 32 ≤ i → Z.testbit w i = false.
Proof.
  intros [H1 H2] Hi. destruct (decide (w = 0)) as [->|]; [apply Z.testbit_0_l|].
  apply Z.bits_above_log2; [lia|]. assert (Z.log2 w < 32); [|lia].
  apply Z.log2_lt_pow2; lia.
Qed.

Lemma lor_word32 w v : word32 w → word32 v → word32 (Z.lor w v).
Proof.
  intros Hw Hv. eapply word32_testbit_inj; [exact Hw| |apply Z.lor_nonneg; unfold word32 in *; lia].
  intros i Hi. rewrite Z.lor_spec. intros Hb. apply Z.nle_gt. intros Hge.
  by rewrite !word32_bits in Hb.
Qed.

Lemma land_word32 w v : word32 w → 0 ≤ v → word32 (Z.land w v).
Proof.
  intros Hw Hv. eapply word32_testbit_inj; [exact Hw| |apply Z.land_nonneg; unfold word32 in *; lia].
  intros i Hi. rewrite Z.land_spec. intros Hb. apply Z.nle_gt. intros Hge.
  by rewrite (word32_bits w) in Hb.
Qed.

(** The three accessors, as equations: each returns exactly when word
    [nr / 32] exists. *)
Lemma acoral_set_bit_run nr b w :
  0 ≤ nr → aget b (nr / 32) = Some w →
  acoral_set_bit nr b = Ret (tt, aset (nr / 32) (Z.lor w (bit_mask nr)) b).
Proof.
  intros Hnr Hw. unfold acoral_set_bit. rewrite (proj1 (shiftr5_land31 nr Hnr)).
  erewrite run_bind by (by apply run_deref). apply run_wr. eauto.
Qed.

Lemma acoral_clear_bit_run nr b w :
  0 ≤ nr → aget b (nr / 32) = Some w →
  acoral_clear_bit nr b
  = Ret (tt, aset (nr / 32) (Z.land w (u32 (Z.lnot (bit_mask nr)))) b).
Proof.
  intros Hnr Hw. unfold acoral_clear_bit. rewrite (proj1 (shiftr5_land31 nr Hnr)).
  erewrite run_bind by (by apply run_deref). apply run_wr. eauto.
Qed.

Lemma acoral_get_bit_run nr b w :
  0 ≤ nr → aget b (nr / 32) = Some w →
  acoral_get_bit nr b = Ret (Z.land w (bit_mask nr), b).
Proof.
  intros Hnr Hw. unfold acoral_get_bit. rewrite (proj1 (shiftr5_land31 nr Hnr)).
  erewrite run_bind by (by apply run_deref). done.
Qed.

Lemma bit_in_range (b : list Z) p : 0 ≤ p < 32 * Z.of_nat (length b) → is_Some (aget b (p / 32)).
Proof.
  intros Hp. apply aget_is_Some. split; [apply Z.div_pos; lia|].
  apply Z.div_lt_upper_bound; lia.
Qed.

(** [acoral_set_bit] sets its bit and no other. *)
Lemma set_bit_spec nr b :
  0 ≤ nr < 32 * Z.of_nat (length b) → Forall word32 b →
  ∃ b', acoral_set_bit nr b = Ret (tt, b') ∧ length b' = length b ∧ Forall word32 b' ∧
    ∀ p, 0 ≤ p → bit_set b' p = if decide (p = nr) then true else bit_set b p.
Proof.
  intros Hnr Hb. destruct (bit_in_range b nr Hnr) as [w Hw].
  exists (aset (nr / 32) (Z.lor w (bit_mask nr)) b). split_and!.
  - apply acoral_set_bit_run; [lia|done].
  - apply length_aset.
  - apply Forall_aset; [done|]. apply lor_word32; [by eapply Forall_aget|apply bit_mask_word32].
  - intros p Hp. rewrite (bit_set_aset b nr w); [|lia|lia|done|].
    + case_decide; [|done]. pose proof (Z.mod_pos_bound nr 32).
      rewrite Z.lor_spec, bit_mask_testbit by lia.
      rewrite bool_decide_eq_true_2 by done. apply orb_true_r.
    + intros i Hi Hne. rewrite Z.lor_spec, bit_mask_testbit by lia.
      rewrite bool_decide_eq_false_2 by done. apply orb_false_r.
Qed.

Lemma clear_mask_testbit nr i :
  0 ≤ nr → 0 ≤ i < 32 →
  Z.testbit (u32 (Z.lnot (bit_mask nr))) i = negb (bool_decide (i = nr mod 32)).
Proof.
  intros Hnr Hi. rewrite wrapu_testbit, Z.lnot_spec, bit_mask_testbit by lia.
  by rewrite bool_decide_eq_true_2 by lia.
Qed.

(** [acoral_clear_bit] clears its bit and no other. *)
Lemma clear_bit_spec nr b :
  0 ≤ nr < 32 * Z.of_nat (length b) → Forall word32 b →
  ∃ b', acoral_clear_bit nr b = Ret (tt, b') ∧ length b' = length b ∧ Forall word32 b' ∧
    ∀ p, 0 ≤ p → bit_set b' p = if decide (p = nr) then false else bit_set b p.
Proof.
  intros Hnr Hb. destruct (bit_in_range b nr Hnr) as [w Hw].
  exists (aset (nr / 32) (Z.land w (u32 (Z.lnot (bit_mask nr)))) b). split_and!.
  - apply acoral_clear_bit_run; [lia|done].
  - apply length_aset.
  - apply Forall_aset; [done|]. apply land_word32; [by eapply Forall_aget|].
    apply wrapu_range. lia.
  - intros p Hp. rewrite (bit_set_aset b nr w); [|lia|lia|done|].
    + case_decide; [|done]. pose proof (Z.mod_pos_bound nr 32).
      rewrite Z.land_spec, clear_mask_testbit by lia.
      rewrite bool_decide_eq_true_2 by done. apply andb_false_r.
    + intros i Hi Hne. rewrite Z.land_spec, clear_mask_testbit by lia.
      rewrite bool_decide_eq_false_2 by done. apply andb_true_r.
Qed.

(** ** Searching a bit map *)
Lemma find_first_word_hit fuel off len k b w :
  0 ≤ off ≤ k → k - off ≤ Z.of_nat fuel → k < len → aget b k = Some w → w ≠ 0 →
  (∀ j, off ≤ j < k → aget b j = Some 0) →
  find_first_word fuel off len b = Ret ((w, k), b).
Proof.
  revert off. induction fuel as [|fuel IH]; intros off Hoff Hfuel Hlen Hw Hnz Hzero; simpl.
  - assert (off = k) as -> by lia. erewrite run_bind by (by apply run_deref).
    rewrite (proj2 (Z.ltb_lt k len)), (proj2 (Z.eqb_neq w 0)) by done. done.
  - destruct (decide (off = k)) as [->|Hne].
    + erewrite run_bind by (by apply run_deref).
      rewrite (proj2 (Z.ltb_lt k len)), (proj2 (Z.eqb_neq w 0)) by done. done.
    + erewrite run_bind by (apply run_deref, Hzero; lia).
      rewrite (proj2 (Z.ltb_lt off len)) by lia. simpl.
      apply IH; [lia|lia|done|done|done|]. intros j Hj. apply Hzero. lia.
Qed.

Lemma word_zero_bits w : word32 w → (∀ i, 0 ≤ i < 32 → Z.testbit w i = false) → w = 0.
Proof.
  intros Hw Hb. apply Z.bits_inj_0. intros i.
  destruct (decide (i < 0)); [by apply Z.testbit_neg_r|].
  destruct (decide (i < 32)); [apply Hb; lia|apply word32_bits; [done|lia]].
Qed.

Lemma bit_set_word b k w i :
  0 ≤ k → aget b k = Some w → 0 ≤ i < 32 → bit_set b (32 * k + i) = Z.testbit w i.
Proof.
  intros Hk Hw Hi. unfold bit_set.
  replace ((32 * k + i) / 32) with k by (apply Z.div_unique with i; lia).
  replace ((32 * k + i) mod 32) with i by (apply Z.mod_unique with k; lia).
  by rewrite Hw.
Qed.

Lemma find_first_bit_hit b len p :
  Forall word32 b → 0 ≤ p < 32 * len → len ≤ Z.of_nat (length b) → 32 * len ≤ 2 ^ 32 →
  bit_set b p = true → (∀ q, 0 ≤ q < p → bit_set b q = false) →
  acoral_find_first_bit len b = Ret (p, b).
Proof.
  intros Hb Hp Hlen Hmax Hset Hbelow.
  pose proof (Z.div_mod p 32 ltac:(done)) as Hdm. pose proof (Z.mod_pos_bound p 32 ltac:(done)).
  assert (0 ≤ p / 32 < len) by (split; [apply Z.div_pos|apply Z.div_lt_upper_bound]; lia).
  destruct (bit_in_range b p) as [w Hw]; [lia|].
  assert (word32 w) as Hw32 by (by eapply Forall_aget).
  assert (Z.testbit w (p mod 32) = true) as Hbit.
  { unfold bit_set in Hset. by rewrite Hw in Hset. }
  assert (w ≠ 0) as Hnz by (intros ->; by rewrite Z.testbit_0_l in Hbit).
  unfold acoral_find_first_bit.
  erewrite run_bind; [|apply (find_first_word_hit _ _ _ (p / 32)); try done; try lia].
  - cbn beta iota. rewrite (acoral_ffs_lsb w (p mod 32)); [| |lia].
    + unfold mret, M_ret. rewrite wrapu_small by lia. do 2 f_equal. lia.
    + split_and!; [lia|done|]. intros i Hi.
      rewrite <- (bit_set_word b (p / 32)) by (done || lia). apply Hbelow. lia.
  - intros j Hj. destruct (proj2 (aget_is_Some b j)) as [v Hv]; [lia|].
    rewrite Hv. f_equal. apply word_zero_bits; [by eapply Forall_aget|].
    intros i Hi. rewrite <- (bit_set_word b j) by (done || lia). apply Hbelow. lia.
Qed.

Lemma find_first_word_miss fuel off len b :
  0 ≤ off ≤ len → len - off = Z.of_nat fuel → len = Z.of_nat (length b) →
  (∀ j, off ≤ j < len → aget b j = Some 0) →
  find_first_word fuel off len b = Err Wild.
Proof.
  revert off. induction fuel as [|fuel IH]; intros off Hoff Hfuel Hlen Hzero; simpl.
  - unfold mbind, M_bind, rd, deref.
    destruct (aget b off) as [w|] eqn:E; [|done]. apply aget_lt in E. lia.
  - erewrite run_bind by (apply run_deref, Hzero; lia).
    rewrite (proj2 (Z.ltb_lt off len)) by lia. simpl.
    apply IH; [lia|lia|done|]. intros j Hj. apply Hzero. lia.
Qed.

(** ** Properties *)

(** [acoral_ffs] computes the number of trailing zeros: on every non-zero
    32-bit word it returns the index of the lowest set bit.  On the zero word,
    which no caller may pass, it returns 31. *)
Theorem acoral_ffs_correct (w : Z) :
  word32 w →
  (w ≠ 0 → 0 ≤ acoral_ffs w < 32 ∧ Z.testbit w (acoral_ffs w) = true ∧
     ∀ i, 0 ≤ i < acoral_ffs w → Z.testbit w i = false) ∧
  (w = 0 → acoral_ffs w = 31).
Proof.
  intros Hw. split; [|by intros ->]. intros Hnz.
  destruct (lsb_exists w Hw Hnz) as (m & Hm & Hm32).
  rewrite (acoral_ffs_lsb w m Hm Hm32). destruct Hm as (? & ? & ?). auto.
Qed.

Lemma acoral_ffs_correct_witness :
  word32 0xa0 ∧ 0xa0 ≠ 0 ∧ acoral_ffs 0xa0 = 5 ∧ Z.testbit 0xa0 (acoral_ffs 0xa0) = true.
Proof.
  assert (word32 0xa0) as Hw by (split; lia).
  destruct (acoral_ffs_correct 0xa0 Hw) as [Hnz _].
  destruct (Hnz ltac:(lia)) as (_ & Hb & _). split_and!; [done|lia|reflexivity|exact Hb].
Defined.

(** On an array of 32-bit words and a bit number inside it,
    [acoral_set_bit] and [acoral_clear_bit] set and clear that bit and leave
    every other bit and the shape of the array alone, and [acoral_get_bit] is
    non-zero exactly on a set bit; with a bit number outside the array they
    touch memory that is not the array's. *)
Theorem bit_access_correct (nr : Z) b :
  0 ≤ nr → Forall word32 b →
  (nr < 32 * Z.of_nat (length b) →
    (∃ b', acoral_set_bit nr b = Ret (tt, b') ∧ length b' = length b ∧ Forall word32 b' ∧
      ∀ p, 0 ≤ p → bit_set b' p = if decide (p = nr) then true else bit_set b p) ∧
    (∃ b', acoral_clear_bit nr b = Ret (tt, b') ∧ length b' = length b ∧ Forall word32 b' ∧
      ∀ p, 0 ≤ p → bit_set b' p = if decide (p = nr) then false else bit_set b p) ∧
    (∃ v, acoral_get_bit nr b = Ret (v, b) ∧ (v ≠ 0 ↔ bit_set b nr = true))) ∧
  (32 * Z.of_nat (length b) ≤ nr →
    acoral_set_bit nr b = Err Wild ∧ acoral_clear_bit nr b = Err Wild ∧
    acoral_get_bit nr b = Err Wild).
Proof.
  intros Hnr Hb. split.
  - intros Hlt. split_and!; [by apply set_bit_spec|by apply clear_bit_spec|].
    destruct (bit_in_range b nr) as [w Hw]; [lia|].
    eexists. split; [by apply acoral_get_bit_run|].
    unfold bit_set. rewrite Hw. pose proof (Z.mod_pos_bound nr 32 ltac:(lia)).
    split.
    + intros Hne. apply not_false_iff_true. intros Hf. apply Hne.
      apply Z.bits_inj_0. intros i. destruct (decide (i < 0)); [by apply Z.testbit_neg_r|].
      rewrite Z.land_spec, bit_mask_testbit by lia.
      case_bool_decide; [subst; by rewrite Hf|apply andb_false_r].
    + intros Ht Hz. assert (Z.testbit (Z.land w (bit_mask nr)) (nr mod 32) = true) as Hc.
      { rewrite Z.land_spec, Ht, bit_mask_testbit by lia. by rewrite bool_decide_eq_true_2. }
      by rewrite Hz, Z.testbit_0_l in Hc.
  - intros Hge. unfold acoral_set_bit, acoral_clear_bit, acoral_get_bit.
    rewrite (proj1 (shiftr5_land31 nr Hnr)).
    assert (aget b (nr / 32) = None) as E.
    { destruct (aget b (nr / 32)) eqn:E; [|done]. apply aget_lt in E.
      assert (Z.of_nat (length b) ≤ nr / 32); [|lia].
      apply Z.div_le_lower_bound; lia. }
    unfold mbind, M_bind, rd, deref. by rewrite E.
Qed.

Lemma bit_access_correct_witness :
  ∃ b', acoral_set_bit 60 [5; 0] = Ret (tt, b') ∧ bit_set b' 60 = true ∧ bit_set b' 2 = true.
Proof.
  destruct (bit_access_correct 60 [5; 0]) as [Hin _]; [lia|repeat constructor; lia|].
  destruct (Hin ltac:(simpl; lia)) as ((b' & Hrun & _ & _ & Hbits) & _ & _).
  exists b'. split_and!; [exact Hrun|by rewrite Hbits by lia|by rewrite Hbits by lia].
Defined.

(** [acoral_find_first_bit], the priority search of the scheduler: if some
    bit is set, it returns the lowest one, without changing the map.  If no bit
    is set, its loop reads the word after the last before it checks the length:
    an access out of bounds. *)
Theorem find_first_bit_correct b :
  Forall word32 b → 32 * Z.of_nat (length b) ≤ 2 ^ 32 →
  (∀ p, 0 ≤ p → bit_set b p = true →
     ∃ m, acoral_find_first_bit (Z.of_nat (length b)) b = Ret (m, b) ∧
       0 ≤ m ≤ p ∧ bit_set b m = true ∧ ∀ q, 0 ≤ q < m → bit_set b q = false) ∧
  ((∀ p, 0 ≤ p → bit_set b p = false) →
     acoral_find_first_bit (Z.of_nat (length b)) b = Err Wild).
Proof.
  intros Hb Hmax. split.
  - intros p Hp Hset.
    assert (∃ m, 0 ≤ m ≤ p ∧ bit_set b m = true ∧ ∀ q, 0 ≤ q < m → bit_set b q = false)
      as (m & Hm & Hms & Hmin).
    { revert Hset. pattern p. apply Z_lt_induction; [|done]. clear p Hp. intros p IH Hset.
      destruct (decide (Exists (λ q, bit_set b (Z.of_nat q) = true) (seq 0 (Z.to_nat p)))) as [He|Hno].
      - apply list.Exists_exists in He as (q & Hq%elem_of_seq & Hqs).
        destruct (IH (Z.of_nat q)) as (m & ? & ? & ?); [lia|done|].
        exists m. split_and!; [lia|lia|done..].
      - assert (0 ≤ p).
        { destruct (decide (0 ≤ p)); [done|]. unfold bit_set, aget in Hset.
          rewrite (proj2 (Z.leb_gt _ _)) in Hset; [done|].
          apply Z.div_lt_upper_bound; lia. }
        exists p. split_and!; [lia..|done|]. intros q Hq. apply not_true_is_false. intros Hqs.
        apply Hno, list.Exists_exists. exists (Z.to_nat q).
        rewrite elem_of_seq, Z2Nat.id by lia. split; [lia|done]. }
    exists m. split_and!; [|lia|lia|done..].
    apply find_first_bit_hit; try done; try lia.
    unfold bit_set in Hms. destruct (aget b (m / 32)) eqn:E; [|done].
    apply aget_lt in E. pose proof (Z.div_mod m 32). pose proof (Z.mod_pos_bound m 32). lia.
  - intros Hz. unfold acoral_find_first_bit, mbind, M_bind.
    rewrite (find_first_word_miss _ 0); [done|lia|lia|done|].
    intros j Hj. destruct (proj2 (aget_is_Some b j)) as [w Hw]; [lia|].
    rewrite Hw. f_equal. apply word_zero_bits; [by eapply Forall_aget|].
    intros i Hi. rewrite <- (bit_set_word b j) by (done || lia). apply Hz. lia.
Qed.

Lemma find_first_bit_correct_witness :
  (∃ m, acoral_find_first_bit 2 [0; 0x18] = Ret (m, [0; 0x18]) ∧ bit_set [0; 0x18] m = true) ∧
  acoral_find_first_bit 2 [0; 0x18] = Ret (35, [0; 0x18]).
Proof.
  destruct (find_first_bit_correct [0; 0x18]) as [Hset _]; [repeat constructor; lia|done|].
  destruct (Hset 36 ltac:(lia) ltac:(reflexivity)) as (m & Hrun & _ & Hm & _).
  split; [by exists m|reflexivity].
Defined.
