(* ===== verification/DList.v ===== *)
(** * kernel/src/list.c: the intrusive circular lists

    A list node is embedded in the object it links ([acoral_thread_t.ready],
    [acoral_pool_t.free_list], ...), so the model keeps every node of the kernel
    in one heap: a finite map from the address of a node ([loc], abstract here)
    to its fields.  Reading a node that is not in the heap is [Wild]; a node
    enters the heap when [acoral_list_init] or [acoral_vlist_init] initialises
    it.  The build is multi-core ([CFG_SMP]), so each node carries its spin
    lock, and the functions take the locks the code takes, in its order.

    The abstract view of a heap is a map of _rings_: [L !! q = Some xs] says
    that [q] heads a circular list whose other nodes are [xs], in order.  A
    node that is on no list is the head of an empty ring.  The theorems show
    that the pointer operations implement operations on rings. *)
From S2P Require Import Prelude.
From stdpp Require Import list.
#[local] Open Scope Z_scope.

(** [struct acoral_list] of kernel/include/list.h, with [lock] the word of its
    [acoral_spinlock_t]. *)
Record acoral_list (loc : Type) : Type := mk_list {
  next : loc;
  prev : loc;
  value : Z;
  lock : Z;
}.
Arguments mk_list {loc} next prev value lock.
Arguments next {loc} a.
Arguments prev {loc} a.
Arguments value {loc} a.
Arguments lock {loc} a.

Abbreviation heap loc := (gmap loc (acoral_list loc)).

Section list_ops.
Context {loc : Type} `{Countable loc}.
Implicit Types p q : loc.

Definition set_next p (n : acoral_list loc) : acoral_list loc :=
  mk_list p (prev n) (value n) (lock n).

Definition set_prev p (n : acoral_list loc) : acoral_list loc :=
  mk_list (next n) p (value n) (lock n).

Definition set_value v (n : acoral_list loc) : acoral_list loc :=
  mk_list (next n) (prev n) v (lock n).

Definition set_lock k (n : acoral_list loc) : acoral_list loc :=
  mk_list (next n) (prev n) (value n) k.

(** [*p] and [p->f = x]. *)
Definition ld p : M (heap loc) (acoral_list loc) := deref (λ h, h !! p).

Definition st p (f : acoral_list loc → acoral_list loc) : M (heap loc) unit := λ h,
  match h !! p with
  | Some n => Ret (tt, <[p := f n]> h)
  | None => Err Wild
  end.

Definition get_next p : M (heap loc) loc := n ← ld p; mret (next n).

Definition get_prev p : M (heap loc) loc := n ← ld p; mret (prev n).

Definition get_value p : M (heap loc) Z := n ← ld p; mret (value n).

(** [hal_spin_lock] spins until the word is 0, then stores 1. *)
Definition spin_lock p : M (heap loc) unit :=
  n ← ld p;
  if lock n =? 0 then st p (set_lock 1) else fail Deadlock.

Definition spin_unlock p : M (heap loc) unit := st p (set_lock 0).

Definition acoral_list_empty p : M (heap loc) bool :=
  n ← ld p; mret (bool_decide (next n = p)).

Definition acoral_list_add (new head : loc) : M (heap loc) unit :=
  temp_next ← get_next head;
  spin_lock new;;
  spin_lock head;;
  when (negb (bool_decide (head = temp_next))) (spin_lock temp_next);;
  st new (set_prev head);;
  n1 ← get_next head;
  st new (set_next n1);;
  n2 ← get_next head;
  st n2 (set_prev new);;
  st head (set_next new);;
  spin_unlock new;;
  spin_unlock head;;
  when (negb (bool_decide (head = temp_next))) (spin_unlock temp_next).

Definition acoral_list_add_tail (new head : loc) : M (heap loc) unit :=
  temp_prev ← get_prev head;
  spin_lock new;;
  spin_lock head;;
  when (negb (bool_decide (head = temp_prev))) (spin_lock temp_prev);;
  n1 ← get_prev head;
  st new (set_prev n1);;
  st new (set_next head);;
  n2 ← get_prev head;
  st n2 (set_next new);;
  st head (set_prev new);;
  spin_unlock new;;
  spin_unlock head;;
  when (negb (bool_decide (head = temp_prev))) (spin_unlock temp_prev).

Definition acoral_list_del (entry : loc) : M (heap loc) unit :=
  temp_prev ← get_prev entry;
  temp_next ← get_next entry;
  spin_lock temp_prev;;
  spin_lock entry;;
  when (negb (bool_decide (temp_prev = temp_next))) (spin_lock temp_next);;
  p1 ← get_prev entry;
  n1 ← get_next entry;
  st p1 (set_next n1);;
  n2 ← get_next entry;
  p2 ← get_prev entry;
  st n2 (set_prev p2);;
  st entry (set_next entry);;
  st entry (set_prev entry);;
  spin_unlock temp_prev;;
  spin_unlock entry;;
  when (negb (bool_decide (temp_prev = temp_next))) (spin_unlock temp_next).

(** [acoral_list_init] leaves [value] alone (0 for a node that has never been
    written: the nodes of the kernel are in zeroed or recycled memory). *)
Definition acoral_list_init (ptr : loc) : M (heap loc) unit :=
  modify (λ h, <[ptr := mk_list ptr ptr (default 0 (value <$> h !! ptr)) 0]> h).

Definition acoral_vlist_init (ptr : loc) (v : Z) : M (heap loc) unit :=
  modify (λ h, <[ptr := mk_list ptr ptr v 0]> h).

(** ** The abstract view *)
Definition nextof (h : heap loc) p : option loc := next <$> h !! p.

Definition prevof (h : heap loc) p : option loc := prev <$> h !! p.

Definition valof (h : heap loc) p : option Z := value <$> h !! p.

Definition link (h : heap loc) p q : Prop := nextof h p = Some q ∧ prevof h q = Some p.

Fixpoint path (h : heap loc) p (ys : list loc) q : Prop :=
  match ys with
  | [] => link h p q
  | y :: ys => link h p y ∧ path h y ys q
  end.

Definition ring (h : heap loc) q (xs : list loc) : Prop :=
  path h q xs q ∧ NoDup (q :: xs).

Definition unlocked (h : heap loc) : Prop := ∀ p n, h !! p = Some n → lock n = 0.

Record rep (h : heap loc) (L : gmap loc (list loc)) : Prop := {
  rep_ring : ∀ q xs, L !! q = Some xs → ring h q xs;
  rep_disj : ∀ q q' xs xs' x, L !! q = Some xs → L !! q' = Some xs' →
    x ∈ q :: xs → x ∈ q' :: xs' → q = q';
  rep_unlocked : unlocked h;
}.

(** The ring operations. *)
Definition ring_insert (q new : loc) (a b : list loc) (L : gmap loc (list loc)) :=
  <[q := a ++ new :: b]> (delete new L).

Definition ring_remove (q e : loc) (a b : list loc) (L : gmap loc (list loc)) :=
  <[e := []]> (<[q := a ++ b]> L).

(** ** Running the pointer operations *)
Lemma run_ld p h n : h !! p = Some n → ld p h = Ret (n, h).
Proof. intros Hp. unfold ld. by apply run_deref. Qed.

Lemma run_get_next p h n : h !! p = Some n → get_next p h = Ret (next n, h).
Proof. intros Hp. unfold get_next. by erewrite run_bind by (by apply run_ld). Qed.

Lemma run_get_prev p h n : h !! p = Some n → get_prev p h = Ret (prev n, h).
Proof. intros Hp. unfold get_prev. by erewrite run_bind by (by apply run_ld). Qed.

Lemma run_get_value p h n : h !! p = Some n → get_value p h = Ret (value n, h).
Proof. intros Hp. unfold get_value. by erewrite run_bind by (by apply run_ld). Qed.

Lemma run_st p f h n : h !! p = Some n → st p f h = Ret (tt, <[p := f n]> h).
Proof. intros Hp. unfold st. by rewrite Hp. Qed.

Lemma run_spin_lock p h n :
  h !! p = Some n → lock n = 0 → spin_lock p h = Ret (tt, <[p := set_lock 1 n]> h).
Proof.
  intros Hp Hl. unfold spin_lock. erewrite run_bind by (by apply run_ld).
  rewrite Hl. simpl. by apply run_st.
Qed.

Lemma run_spin_lock_held p h n :
  h !! p = Some n → lock n ≠ 0 → spin_lock p h = Err Deadlock.
Proof.
  intros Hp Hl. unfold spin_lock. erewrite run_bind by (by apply run_ld).
  by rewrite (proj2 (Z.eqb_neq _ _)).
Qed.

End list_ops.

(** [hstep] runs the next heap operation of the goal, looking nodes up through
    the updates already made. *)
Ltac hlookup := simplify_map_eq; try reflexivity.

Ltac hstep :=
  first
    [ erewrite run_bind by (eapply run_ld; hlookup)
    | erewrite run_bind by (eapply run_get_next; hlookup)
    | erewrite run_bind by (eapply run_get_prev; hlookup)
    | erewrite run_bind by (eapply run_get_value; hlookup)
    | erewrite run_bind by (eapply run_spin_lock; [hlookup|simpl; eauto])
    | erewrite run_bind by (eapply run_st; hlookup)
    | erewrite run_bind by (unfold spin_unlock; eapply run_st; hlookup)
    | erewrite run_bind by reflexivity ];
  cbn beta iota; cbn [next prev value lock set_next set_prev set_value set_lock].

Section list_run.
Context {loc : Type} `{Countable loc}.
Implicit Types p q : loc.
Implicit Types h : heap loc.

Lemma when_bd_false {S} (P : Prop) `{Decision P} (m : M S unit) :
  P → when (negb (bool_decide P)) m = mret tt.
Proof. intros HP. by rewrite bool_decide_eq_true_2. Qed.

Lemma when_bd_true {S} (P : Prop) `{Decision P} (m : M S unit) :
  ¬ P → when (negb (bool_decide P)) m = m.
Proof. intros HP. by rewrite bool_decide_eq_false_2. Qed.

(** [solve_fields]: read a field of a node through a pile of updates. *)
Ltac solve_fields :=
  unfold nextof, prevof, valof;
  let p := fresh "p" in
  intros p; rewrite !lookup_insert;
  repeat case_decide; subst; simplify_eq/=; simplify_map_eq; done.

Ltac solve_unlocked :=
  let p := fresh "p" in let n := fresh "n" in let Hn := fresh "Hn" in
  intros p n Hn; rewrite !lookup_insert in Hn;
  repeat case_decide; simplify_eq/=; eauto.

Ltac hfinish :=
  first [eexists; split; [unfold spin_unlock; eapply run_st; hlookup|]
        |eexists; split; [reflexivity|]];
  split_and!; [solve_unlocked|solve_fields..].

Lemma list_add_run new head nx h n1 n2 n3 :
  unlocked h → h !! new = Some n1 → h !! head = Some n2 → next n2 = nx →
  h !! nx = Some n3 → new ≠ head → new ≠ nx →
  ∃ h', acoral_list_add new head h = Ret (tt, h') ∧ unlocked h' ∧
    (∀ p, nextof h' p = if decide (p = new) then Some nx
                        else if decide (p = head) then Some new else nextof h p) ∧
    (∀ p, prevof h' p = if decide (p = new) then Some head
                        else if decide (p = nx) then Some new else prevof h p) ∧
    (∀ p, valof h' p = valof h p).
Proof.
  intros Hu Hn1 Hn2 <- Hn3 Hne1 Hne2.
  assert (lock n1 = 0 ∧ lock n2 = 0 ∧ lock n3 = 0) as (?&?&?) by (split_and!; eauto).
  unfold acoral_list_add. hstep.
  destruct (decide (head = next n2)) as [Heq|Hneq].
  - rewrite !when_bd_false by done. rewrite <- Heq in *. simplify_eq.
    repeat hstep. hfinish.
  - rewrite !when_bd_true by done. repeat hstep. hfinish.
Qed.

Lemma list_add_tail_run new head pv h n1 n2 n3 :
  unlocked h → h !! new = Some n1 → h !! head = Some n2 → prev n2 = pv →
  h !! pv = Some n3 → new ≠ head → new ≠ pv →
  ∃ h', acoral_list_add_tail new head h = Ret (tt, h') ∧ unlocked h' ∧
    (∀ p, nextof h' p = if decide (p = new) then Some head
                        else if decide (p = pv) then Some new else nextof h p) ∧
    (∀ p, prevof h' p = if decide (p = new) then Some pv
                        else if decide (p = head) then Some new else prevof h p) ∧
    (∀ p, valof h' p = valof h p).
Proof.
  intros Hu Hn1 Hn2 <- Hn3 Hne1 Hne2.
  assert (lock n1 = 0 ∧ lock n2 = 0 ∧ lock n3 = 0) as (?&?&?) by (split_and!; eauto).
  unfold acoral_list_add_tail. hstep.
  destruct (decide (head = prev n2)) as [Heq|Hneq].
  - rewrite !when_bd_false by done. rewrite <- Heq in *. simplify_eq.
    repeat hstep. hfinish.
  - rewrite !when_bd_true by done. repeat hstep. hfinish.
Qed.

Lemma list_del_run e pv nx h n1 n2 n3 :
  unlocked h → h !! e = Some n1 → prev n1 = pv → next n1 = nx →
  h !! pv = Some n2 → h !! nx = Some n3 → e ≠ pv → e ≠ nx →
  ∃ h', acoral_list_del e h = Ret (tt, h') ∧ unlocked h' ∧
    (∀ p, nextof h' p = if decide (p = e) then Some e
                        else if decide (p = pv) then Some nx else nextof h p) ∧
    (∀ p, prevof h' p = if decide (p = e) then Some e
                        else if decide (p = nx) then Some pv else prevof h p) ∧
    (∀ p, valof h' p = valof h p).
Proof.
  intros Hu Hn1 <- <- Hn2 Hn3 Hne1 Hne2.
  assert (lock n1 = 0 ∧ lock n2 = 0 ∧ lock n3 = 0) as (?&?&?) by (split_and!; eauto).
  destruct n1 as [nx pv v1 l1]; simpl in *.
  unfold acoral_list_del. do 2 hstep.
  destruct (decide (pv = nx)) as [Heq|Hneq].
  - rewrite !when_bd_false by done. subst. simplify_eq. repeat hstep. hfinish.
  - rewrite !when_bd_true by done. repeat hstep. hfinish.
Qed.

(** Deleting a node that is on no list takes its own lock twice. *)
Lemma list_del_self_run e h n :
  h !! e = Some n → lock n = 0 → prev n = e → acoral_list_del e h = Err Deadlock.
Proof.
  intros He Hl Hp. unfold acoral_list_del. do 2 hstep. rewrite Hp.
  erewrite run_bind by (by eapply run_spin_lock).
  unfold mbind, M_bind. erewrite run_spin_lock_held; [done|by simplify_map_eq|done].
Qed.
End list_run.

Section rings.
Context {loc : Type} `{Countable loc}.
Implicit Types p q x y z : loc.
Implicit Types h : heap loc.
Implicit Types L : gmap loc (list loc).

(** A path reads the [next] of its nodes but the last and the [prev] of its
    nodes but the first. *)
Lemma path_frame h h' x ys z :
  (∀ p, p ∈ x :: ys → nextof h' p = nextof h p) →
  (∀ p, p ∈ ys ++ [z] → prevof h' p = prevof h p) →
  path h x ys z → path h' x ys z.
Proof.
  revert x. induction ys as [|y ys IH]; intros x Hn Hp; simpl.
  - intros [H1 H2]. split; [rewrite Hn|rewrite Hp]; set_solver.
  - intros [[H1 H2] H3]. split; [split; [rewrite Hn|rewrite Hp]; set_solver|].
    apply IH; set_solver.
Qed.

Lemma head_snoc_in b z y : head (b ++ [z]) = Some y → y = z ∨ y ∈ b.
Proof. destruct b; simpl; intros; simplify_eq; [by left|right; by left]. Qed.

Lemma path_insert h h' new x0 a b z x y :
  last (x0 :: a) = Some x → head (b ++ [z]) = Some y →
  NoDup (x0 :: a ++ b) → z ∉ a ++ b →
  nextof h' new = Some y → prevof h' new = Some x →
  nextof h' x = Some new → prevof h' y = Some new →
  (∀ p, p ≠ x → p ≠ new → nextof h' p = nextof h p) →
  (∀ p, p ≠ y → p ≠ new → prevof h' p = prevof h p) →
  new ∉ x0 :: a ++ b → new ≠ z →
  path h x0 (a ++ b) z → path h' x0 (a ++ new :: b) z.
Proof.
  intros Hx Hy Hnd Hz Hn1 Hn2 Hn3 Hn4 Hfn Hfp Hnew Hnz.
  revert x0 Hx Hnd Hnew. induction a as [|c a IH]; intros x0 Hx Hnd Hnew Hpath.
  - simpl in Hx; simplify_eq. rewrite app_nil_l in *. split; [done|].
    destruct b as [|y' b]; simplify_eq/=; [done|].
    destruct Hpath as [_ Hpath]. split; [done|].
    rewrite !NoDup_cons, !not_elem_of_cons in *. destruct_and!.
    eapply path_frame, Hpath.
    + intros p Hp%elem_of_cons. apply Hfn; intros E; subst p; destruct Hp; congruence.
    + intros p Hp%elem_of_app. rewrite list_elem_of_singleton in Hp.
      apply Hfp; intros E; subst p; destruct Hp; congruence.
  - simpl in *. destruct Hpath as [[H1 H2] Hpath].
    rewrite NoDup_cons, !not_elem_of_cons, not_elem_of_app in *. destruct_and!.
    assert (x ∈ c :: a) as Hxin by (by apply last_Some_elem_of).
    assert (c ≠ y).
    { intros E. subst y. destruct (head_snoc_in b z c) as [|Hb]; [done|congruence|].
      match goal with Hnd : NoDup (c :: _) |- _ => apply NoDup_cons in Hnd as [Hc _] end.
      apply Hc, elem_of_app. by right. }
    split.
    + split; [rewrite Hfn|rewrite Hfp]; try congruence.
      intros E. subst x. apply elem_of_cons in Hxin as [|]; congruence.
    + apply IH; try done. rewrite not_elem_of_cons, not_elem_of_app. done.
Qed.

Lemma path_remove h h' e x0 a b z x y :
  last (x0 :: a) = Some x → head (b ++ [z]) = Some y →
  NoDup (x0 :: a ++ e :: b) → z ∉ a ++ e :: b →
  nextof h' x = Some y → prevof h' y = Some x →
  (∀ p, p ≠ x → p ≠ e → nextof h' p = nextof h p) →
  (∀ p, p ≠ y → p ≠ e → prevof h' p = prevof h p) →
  path h x0 (a ++ e :: b) z → path h' x0 (a ++ b) z.
Proof.
  intros Hx Hy Hnd Hz Hn1 Hn2 Hfn Hfp.
  revert x0 Hx Hnd. induction a as [|c a IH]; intros x0 Hx Hnd Hpath.
  - simpl in Hx; simplify_eq. rewrite app_nil_l in *. destruct Hpath as [_ Hpath].
    destruct b as [|y' b]; simplify_eq/=; [done|].
    destruct Hpath as [_ Hpath]. split; [done|].
    rewrite !NoDup_cons, !not_elem_of_cons in *. destruct_and!.
    eapply path_frame, Hpath.
    + intros p Hp%elem_of_cons. apply Hfn; intros E; subst p; destruct Hp; congruence.
    + intros p Hp%elem_of_app. rewrite list_elem_of_singleton in Hp.
      apply Hfp; intros E; subst p; destruct Hp; congruence.
  - simpl in *. destruct Hpath as [[H1 H2] Hpath].
    rewrite NoDup_cons, !not_elem_of_cons, not_elem_of_app, not_elem_of_cons in *.
    destruct_and!.
    assert (x ∈ c :: a) as Hxin by (by apply last_Some_elem_of).
    assert (NoDup (c :: a ++ e :: b)) as Hnd' by done.
    rewrite NoDup_cons, not_elem_of_app, not_elem_of_cons in Hnd'. destruct_and!.
    assert (c ≠ y).
    { intros E. subst y. destruct (head_snoc_in b z c) as [|]; congruence. }
    split.
    + split; [rewrite Hfn|rewrite Hfp]; try congruence.
      intros E. subst x. apply elem_of_cons in Hxin as [|]; congruence.
    + by apply IH.
Qed.

(** The neighbours of a node on a path. *)
Lemma path_split h x0 a y b z :
  path h x0 (a ++ y :: b) z ↔ path h x0 a y ∧ path h y b z.
Proof.
  revert x0. induction a as [|c a IH]; intros x0; simpl; [naive_solver|].
  rewrite IH. naive_solver.
Qed.

Lemma path_next h x0 a b z x y :
  last (x0 :: a) = Some x → head (b ++ [z]) = Some y →
  path h x0 (a ++ b) z → link h x y.
Proof.
  revert x0. induction a as [|c a IH]; intros x0 Hx Hy Hpath; simplify_eq/=.
  - destruct b; simplify_eq/=; naive_solver.
  - destruct Hpath as [_ Hpath]. by eapply IH.
Qed.

Lemma nextof_lookup h x y : nextof h x = Some y → ∃ n, h !! x = Some n ∧ next n = y.
Proof. unfold nextof. intros (n & Hn & He)%fmap_Some. eauto. Qed.

Lemma prevof_lookup h x y : prevof h x = Some y → ∃ n, h !! x = Some n ∧ prev n = y.
Proof. unfold prevof. intros (n & Hn & He)%fmap_Some. eauto. Qed.

Lemma path_in h x0 ys z p :
  path h x0 ys z → p ∈ x0 :: ys → is_Some (h !! p).
Proof.
  revert x0. induction ys as [|y ys IH]; intros x0; simpl.
  - intros [(n & Hn & _)%nextof_lookup _] ->%list_elem_of_singleton. eauto.
  - intros [[(n & Hn & _)%nextof_lookup _] Hp] [->|Hin]%elem_of_cons; eauto.
Qed.

Lemma ring_nil h q : ring h q [] ↔ link h q q.
Proof.
  unfold ring. simpl. split; [by intros [? _]|]. intros ?. split; [done|].
  apply NoDup_singleton.
Qed.

Lemma rep_heap h L q xs p : rep h L → L !! q = Some xs → p ∈ q :: xs → is_Some (h !! p).
Proof. intros HR Hq Hp. destruct (rep_ring _ _ HR _ _ Hq) as [Hpath _]. by eapply path_in. Qed.

Lemma rep_lookup h L q xs p :
  rep h L → L !! q = Some xs → p ∈ q :: xs → ∃ n, h !! p = Some n ∧ lock n = 0.
Proof.
  intros HR Hq Hp. destruct (rep_heap _ _ _ _ _ HR Hq Hp) as [n Hn].
  exists n. split; [done|]. by eapply rep_unlocked.
Qed.

(** A ring is not disturbed by updates away from it. *)
Lemma ring_frame h h' q xs :
  (∀ p, p ∈ q :: xs → nextof h' p = nextof h p) →
  (∀ p, p ∈ q :: xs → prevof h' p = prevof h p) →
  ring h q xs → ring h' q xs.
Proof.
  intros Hn Hp [Hpath Hnd]. split; [|done].
  eapply path_frame, Hpath; [done|]. intros p Hin. apply Hp. set_solver.
Qed.

Lemma elem_of_mid (x y : loc) (a b : list loc) : x ∈ a ++ y :: b ↔ x = y ∨ x ∈ a ++ b.
Proof. rewrite !elem_of_app, elem_of_cons. tauto. Qed.

(** The node of an empty ring is in no other ring. *)
Lemma rep_lone h L q xs new :
  rep h L → L !! q = Some xs → L !! new = Some [] → new ≠ q → new ∉ q :: xs.
Proof.
  intros HR Hq Hnew Hne Hin. apply Hne.
  eapply (rep_disj _ _ HR new q [] xs new); [done|done|by apply elem_of_cons; left|done].
Qed.

Lemma ring_ends_in (a b : list loc) q x y :
  last (q :: a) = Some x → head (b ++ [q]) = Some y →
  x ∈ q :: a ++ b ∧ y ∈ q :: a ++ b.
Proof.
  intros Hx Hy. split.
  - apply last_Some_elem_of in Hx. rewrite elem_of_cons in Hx |- *.
    rewrite elem_of_app. tauto.
  - rewrite elem_of_cons, elem_of_app. destruct (head_snoc_in b q y Hy); tauto.
Qed.

Lemma ring_others h L q xs q' xs' x :
  rep h L → L !! q = Some xs → L !! q' = Some xs' → q ≠ q' → x ∈ q :: xs → x ∉ q' :: xs'.
Proof.
  intros HR Hq Hq' Hne Hx Hx'. apply Hne. exact (rep_disj _ _ HR q q' xs xs' x Hq Hq' Hx Hx').
Qed.

Lemma ring_insert_disj L q new a b :
  (∀ q q' xs xs' x, L !! q = Some xs → L !! q' = Some xs' →
     x ∈ q :: xs → x ∈ q' :: xs' → q = q') →
  L !! q = Some (a ++ b) → L !! new = Some [] → new ≠ q →
  ∀ q1 q2 xs1 xs2 x,
    ring_insert q new a b L !! q1 = Some xs1 → ring_insert q new a b L !! q2 = Some xs2 →
    x ∈ q1 :: xs1 → x ∈ q2 :: xs2 → q1 = q2.
Proof.
  intros Hd Hq Hnew Hne.
  assert (∀ q2 xs2 x, q2 ≠ q → q2 ≠ new → L !! q2 = Some xs2 → x ∈ q :: a ++ new :: b →
    x ∈ q2 :: xs2 → False) as Hoff.
  { intros q2 xs2 x Hq2 Hq2' Hl Hx1 Hx2.
    rewrite elem_of_cons, elem_of_mid in Hx1.
    destruct (decide (x = new)) as [->|Hxn].
    - apply Hq2'. exact (Hd q2 new xs2 [] new Hl Hnew Hx2 ltac:(by apply elem_of_cons; left)).
    - apply Hq2. refine (Hd q2 q xs2 (a ++ b) x Hl Hq Hx2 _).
      rewrite elem_of_cons. tauto. }
  intros q1 q2 xs1 xs2 x H1 H2 Hx1 Hx2. unfold ring_insert in *.
  rewrite lookup_insert_Some, lookup_delete_Some in H1, H2.
  destruct H1 as [[<- <-]|(?&?&H1)], H2 as [[<- <-]|(?&?&H2)].
  - done.
  - exfalso. by eapply (Hoff q2).
  - exfalso. by eapply (Hoff q1).
  - by eapply Hd.
Qed.

Lemma rep_insert h h' L q new a b x y :
  rep h L → L !! q = Some (a ++ b) → L !! new = Some [] → new ≠ q →
  last (q :: a) = Some x → head (b ++ [q]) = Some y → unlocked h' →
  (∀ p, nextof h' p = if decide (p = new) then Some y
                      else if decide (p = x) then Some new else nextof h p) →
  (∀ p, prevof h' p = if decide (p = new) then Some x
                      else if decide (p = y) then Some new else prevof h p) →
  rep h' (ring_insert q new a b L).
Proof.
  intros HR Hq Hnew Hne Hx Hy Hu Hn Hp.
  pose proof (rep_lone _ _ _ _ _ HR Hq Hnew Hne) as Hlone.
  destruct (rep_ring _ _ HR q _ Hq) as [Hpath Hnd].
  destruct (ring_ends_in a b q x y Hx Hy) as [Hxin Hyin].
  assert (x ≠ new ∧ y ≠ new) as [Hxn Hyn] by (split; congruence).
  split; [|eapply ring_insert_disj; [apply HR|done..]|done].
  intros q' xs' Hq'. unfold ring_insert in Hq'.
  rewrite lookup_insert_Some, lookup_delete_Some in Hq'.
  destruct Hq' as [[<- <-]|(Hqq&Hqn&Hq')].
  - split.
    + eapply (path_insert h h' new q a b q x y); try done.
      * by apply NoDup_cons in Hnd as [? _].
      * by rewrite Hn, decide_True.
      * by rewrite Hp, decide_True.
      * by rewrite Hn, decide_False, decide_True.
      * by rewrite Hp, decide_False, decide_True.
      * intros p ??. by rewrite Hn, !decide_False.
      * intros p ??. by rewrite Hp, !decide_False.
    + assert (q :: a ++ new :: b ≡ₚ new :: q :: a ++ b) as -> by solve_Permutation.
      apply NoDup_cons. done.
  - eapply ring_frame; [| |by eapply (rep_ring _ _ HR)].
    + intros p Hin. rewrite Hn, !decide_False; [done| |]; intros ->.
      * by eapply (ring_others h L q _ q' xs' x).
      * eapply (ring_others h L new [] q' xs' new); try done. by apply elem_of_cons; left.
    + intros p Hin. rewrite Hp, !decide_False; [done| |]; intros ->.
      * by eapply (ring_others h L q _ q' xs' y).
      * eapply (ring_others h L new [] q' xs' new); try done. by apply elem_of_cons; left.
Qed.

(** A member of a ring heads no ring itself. *)
Lemma ring_member_no_head h L q e a b xs :
  rep h L → L !! q = Some (a ++ e :: b) → L !! e = Some xs → False.
Proof.
  intros HR Hq He. destruct (rep_ring _ _ HR q _ Hq) as [_ Hnd].
  assert (q = e) as ->.
  { eapply (rep_disj _ _ HR q e _ _ e Hq He); rewrite elem_of_cons, ?elem_of_mid; tauto. }
  apply NoDup_cons in Hnd as [Hnin _]. apply Hnin. rewrite elem_of_mid. tauto.
Qed.

Lemma ring_remove_disj h L q e a b :
  rep h L → L !! q = Some (a ++ e :: b) →
  ∀ q1 q2 xs1 xs2 x,
    ring_remove q e a b L !! q1 = Some xs1 → ring_remove q e a b L !! q2 = Some xs2 →
    x ∈ q1 :: xs1 → x ∈ q2 :: xs2 → q1 = q2.
Proof.
  intros HR Hq.
  destruct (rep_ring _ _ HR q _ Hq) as [_ Hnd].
  assert (e ∉ q :: a ++ b) as Hnd'.
  { assert (q :: a ++ e :: b ≡ₚ e :: q :: a ++ b) as E by solve_Permutation.
    rewrite E in Hnd. by apply NoDup_cons in Hnd as [? _]. }
  assert (∀ q2 xs2, ring_remove q e a b L !! q2 = Some xs2 → q2 ≠ e → e ∉ q2 :: xs2) as Hoff.
  { intros q2 xs2 H2 Hne Hin. unfold ring_remove in H2. rewrite !lookup_insert_Some in H2.
    destruct H2 as [[? _]|(_&[[<- <-]|(Hqq&H2)])]; [congruence|done|].
    apply Hqq. refine (rep_disj _ _ HR q q2 _ xs2 e Hq H2 _ Hin).
    rewrite elem_of_cons, elem_of_mid. tauto. }
  intros q1 q2 xs1 xs2 x H1 H2 Hx1 Hx2.
  destruct (decide (x = e)) as [->|Hxe].
  { destruct (decide (q1 = e)) as [->|]; [|by destruct (Hoff q1 xs1)].
    destruct (decide (q2 = e)) as [->|]; [done|by destruct (Hoff q2 xs2)]. }
  assert (∀ q2 xs2, ring_remove q e a b L !! q2 = Some xs2 → x ∈ q2 :: xs2 →
    ∃ xs, L !! q2 = Some xs ∧ x ∈ q2 :: xs) as Hup.
  { clear -Hxe Hq. intros q2 xs2 H2 Hx. unfold ring_remove in H2. rewrite !lookup_insert_Some in H2.
    destruct H2 as [[<- <-]|(_&[[<- <-]|(Hqq&H2)])].
    - by apply list_elem_of_singleton in Hx.
    - eexists; split; [done|]. rewrite elem_of_cons, elem_of_mid in *. tauto.
    - eauto. }
  destruct (Hup q1 xs1) as (ys1&?&?); [done..|]. destruct (Hup q2 xs2) as (ys2&?&?); [done..|].
  exact (rep_disj _ _ HR q1 q2 ys1 ys2 x ltac:(done) ltac:(done) ltac:(done) ltac:(done)).
Qed.

Lemma rep_remove h h' L q e a b x y :
  rep h L → L !! q = Some (a ++ e :: b) →
  last (q :: a) = Some x → head (b ++ [q]) = Some y → unlocked h' →
  (∀ p, nextof h' p = if decide (p = e) then Some e
                      else if decide (p = x) then Some y else nextof h p) →
  (∀ p, prevof h' p = if decide (p = e) then Some e
                      else if decide (p = y) then Some x else prevof h p) →
  rep h' (ring_remove q e a b L).
Proof.
  intros HR Hq Hx Hy Hu Hn Hp.
  destruct (rep_ring _ _ HR q _ Hq) as [Hpath Hnd].
  destruct (ring_ends_in a b q x y Hx Hy) as [Hxin Hyin].
  assert (q :: a ++ e :: b ≡ₚ e :: q :: a ++ b) as E by solve_Permutation.
  pose proof Hnd as Hnd'. rewrite E in Hnd'. apply NoDup_cons in Hnd' as [He Hnd'].
  assert (x ≠ e ∧ y ≠ e) as [Hxn Hyn] by (split; congruence).
  assert (∀ p, p ∈ q :: a ++ b → p ∈ q :: a ++ e :: b) as Hsub.
  { intros p. rewrite !elem_of_cons, elem_of_mid. tauto. }
  split; [|by eapply ring_remove_disj|done].
  intros q' xs' Hq'. unfold ring_remove in Hq'. rewrite !lookup_insert_Some in Hq'.
  destruct Hq' as [[<- <-]|(Hqe&[[<- <-]|(Hqq&Hq')])].
  - apply ring_nil. split; [by rewrite Hn, decide_True|by rewrite Hp, decide_True].
  - split; [|done]. eapply (path_remove h h' e q a b q x y); try done.
    + by apply NoDup_cons in Hnd as [? _].
    + by rewrite Hn, decide_False, decide_True.
    + by rewrite Hp, decide_False, decide_True.
    + intros p ??. by rewrite Hn, !decide_False.
    + intros p ??. by rewrite Hp, !decide_False.
  - assert (∀ p, p ∈ q' :: xs' → p ∉ q :: a ++ e :: b) as Hoff.
    { intros p Hin Hin'. by eapply (ring_others h L q _ q' xs' p). }
    eapply ring_frame; [| |by eapply (rep_ring _ _ HR)].
    + intros p Hin%Hoff. rewrite Hn, !decide_False; [done| |]; intros ->; [auto|].
      apply Hin. rewrite elem_of_cons, elem_of_mid. tauto.
    + intros p Hin%Hoff. rewrite Hp, !decide_False; [done| |]; intros ->; [auto|].
      apply Hin. rewrite elem_of_cons, elem_of_mid. tauto.
Qed.

Lemma head_snoc_ex (b : list loc) q : ∃ y, head (b ++ [q]) = Some y.
Proof. destruct b; simpl; eauto. Qed.

Lemma last_cons_ex (a : list loc) q : ∃ x, last (q :: a) = Some x.
Proof. destruct (last_is_Some (q :: a)) as [_ []]; [done|eauto]. Qed.

Lemma rep_neighbours h L q a b x y :
  rep h L → L !! q = Some (a ++ b) → last (q :: a) = Some x → head (b ++ [q]) = Some y →
  ∃ nx ny, h !! x = Some nx ∧ next nx = y ∧ h !! y = Some ny ∧ prev ny = x.
Proof.
  intros HR Hq Hx Hy. destruct (rep_ring _ _ HR q _ Hq) as [Hpath _].
  destruct (path_next _ _ _ _ _ _ _ Hx Hy Hpath) as
    [(nx & ? & ?)%nextof_lookup (ny & ? & ?)%prevof_lookup]. eauto 10.
Qed.

Lemma rep_lone_lookup h L q : rep h L → L !! q = Some [] → ∃ n, h !! q = Some n ∧ next n = q ∧ prev n = q.
Proof.
  intros HR Hq. destruct (rep_neighbours h L q [] [] q q) as (n & n' & ? & ? & ? & ?); try done.
  simplify_eq. eauto.
Qed.

(** [list_add new x] inserts after [x]. *)
Lemma list_add_rep h L q new a b x :
  rep h L → L !! q = Some (a ++ b) → last (q :: a) = Some x → L !! new = Some [] → new ≠ q →
  ∃ h', acoral_list_add new x h = Ret (tt, h') ∧ rep h' (ring_insert q new a b L) ∧
    (∀ p, valof h' p = valof h p).
Proof.
  intros HR Hq Hx Hnew Hne. destruct (head_snoc_ex b q) as [y Hy].
  destruct (rep_neighbours _ _ _ _ _ _ _ HR Hq Hx Hy) as (nx & ny & Hhx & Hnx & Hhy & Hpy).
  destruct (rep_lone_lookup _ _ _ HR Hnew) as (nn & Hnn & _).
  pose proof (rep_lone _ _ _ _ _ HR Hq Hnew Hne) as Hlone.
  destruct (ring_ends_in a b q x y Hx Hy) as [Hxin Hyin].
  destruct (list_add_run new x y h nn nx ny) as (h' & Hrun & Hu & Hn & Hp & Hv);
    try done; try congruence; [apply HR|].
  exists h'. split_and!; [done| |done]. by eapply rep_insert.
Qed.

(** [list_add_tail new y] inserts before [y]. *)
Lemma list_add_tail_rep h L q new a b y :
  rep h L → L !! q = Some (a ++ b) → head (b ++ [q]) = Some y → L !! new = Some [] → new ≠ q →
  ∃ h', acoral_list_add_tail new y h = Ret (tt, h') ∧ rep h' (ring_insert q new a b L) ∧
    (∀ p, valof h' p = valof h p).
Proof.
  intros HR Hq Hy Hnew Hne. destruct (last_cons_ex a q) as [x Hx].
  destruct (rep_neighbours _ _ _ _ _ _ _ HR Hq Hx Hy) as (nx & ny & Hhx & Hnx & Hhy & Hpy).
  destruct (rep_lone_lookup _ _ _ HR Hnew) as (nn & Hnn & _).
  pose proof (rep_lone _ _ _ _ _ HR Hq Hnew Hne) as Hlone.
  destruct (ring_ends_in a b q x y Hx Hy) as [Hxin Hyin].
  destruct (list_add_tail_run new y x h nn ny nx) as (h' & Hrun & Hu & Hn & Hp & Hv);
    try done; try congruence; [apply HR|].
  exists h'. split_and!; [done| |done]. by eapply rep_insert.
Qed.

Lemma list_del_rep h L q e a b :
  rep h L → L !! q = Some (a ++ e :: b) →
  ∃ h', acoral_list_del e h = Ret (tt, h') ∧ rep h' (ring_remove q e a b L) ∧
    (∀ p, valof h' p = valof h p).
Proof.
  intros HR Hq. destruct (last_cons_ex a q) as [x Hx], (head_snoc_ex b q) as [y Hy].
  destruct (rep_neighbours h L q a (e :: b) x e) as (nx & ne & Hhx & Hnx & Hhe & Hpe); [done..|].
  destruct (rep_neighbours h L q (a ++ [e]) b e y) as (ne' & ny & Hhe' & Hne & Hhy & Hpy);
    [done|by rewrite <- (assoc_L (++))|by rewrite app_comm_cons, last_snoc|done|].
  assert (ne' = ne) as -> by congruence.
  destruct (rep_ring _ _ HR q _ Hq) as [_ Hnd].
  assert (q :: a ++ e :: b ≡ₚ e :: q :: a ++ b) as E by solve_Permutation.
  rewrite E in Hnd. apply NoDup_cons in Hnd as [He _].
  destruct (ring_ends_in a b q _ _ Hx Hy) as [Hxin Hyin].
  destruct (list_del_run e x y h ne nx ny) as (h' & Hrun & Hu & Hn & Hp & Hv);
    try done; try congruence; [apply HR|].
  exists h'. split_and!; [done| |done]. by eapply rep_remove.
Qed.

Lemma list_del_lone h L e :
  rep h L → L !! e = Some [] → acoral_list_del e h = Err Deadlock.
Proof.
  intros HR He. destruct (rep_lone_lookup _ _ _ HR He) as (n & Hn & _ & Hp).
  eapply list_del_self_run; [done| |done]. by eapply rep_unlocked.
Qed.

(** Initialising a node that no ring uses. *)
Lemma rep_init h L p v :
  rep h L → (∀ q xs, L !! q = Some xs → q ≠ p → p ∉ xs) → L !! p = None ∨ L !! p = Some [] →
  rep (<[p := mk_list p p v 0]> h) (<[p := []]> L).
Proof.
  intros HR Hfr Hp.
  assert (∀ q xs, L !! q = Some xs → q ≠ p → p ∉ q :: xs) as Hoff.
  { intros q xs Hq Hne. apply not_elem_of_cons. split; [done|by eapply Hfr]. }
  split.
  - intros q xs [[<- <-]|[Hne Hq]]%lookup_insert_Some.
    + apply ring_nil. split; [unfold nextof|unfold prevof]; by simplify_map_eq.
    + eapply ring_frame; [| |by eapply (rep_ring _ _ HR)]; intros x Hx;
        [unfold nextof|unfold prevof]; rewrite lookup_insert_ne; try done;
        intros ->; by eapply (Hoff q xs).
  - intros q1 q2 xs1 xs2 x H1 H2 Hx1 Hx2. rewrite lookup_insert_Some in H1, H2.
    destruct H1 as [[<- <-]|[? H1]], H2 as [[<- <-]|[? H2]].
    + done.
    + apply list_elem_of_singleton in Hx1 as ->. by destruct (Hoff q2 xs2).
    + apply list_elem_of_singleton in Hx2 as ->. by destruct (Hoff q1 xs1).
    + by eapply (rep_disj _ _ HR q1 q2).
  - intros q n [[<- <-]|[Hne Hq]]%lookup_insert_Some; [done|by eapply rep_unlocked].
Qed.

Lemma rep_empty : rep (∅ : heap loc) ∅.
Proof.
  split; [intros q xs|intros q q' xs xs' x|intros p n]; rewrite lookup_empty; done.
Qed.

(** Two heaps with the same links represent the same rings. *)
Lemma rep_links h h' L :
  rep h L → unlocked h' → (∀ p, nextof h' p = nextof h p) → (∀ p, prevof h' p = prevof h p) →
  rep h' L.
Proof.
  intros HR Hu Hn Hp. split; [|apply HR|done]. intros q xs Hq.
  eapply ring_frame; [| |by eapply (rep_ring _ _ HR)]; auto.
Qed.

Lemma list_empty_run h L q xs :
  rep h L → L !! q = Some xs →
  acoral_list_empty q h = Ret (bool_decide (xs = []), h).
Proof.
  intros HR Hq. unfold acoral_list_empty.
  destruct (head_snoc_ex xs q) as [y Hy].
  destruct (rep_neighbours h L q [] xs q y) as (n & _ & Hn & Hy' & _); [done..|].
  erewrite run_bind by (by apply run_ld). rewrite Hy'.
  unfold mret, M_ret. do 2 f_equal.
  destruct (rep_ring _ _ HR q _ Hq) as [_ Hnd]. apply NoDup_cons in Hnd as [Hnd _].
  destruct xs as [|z xs]; injection Hy as <-; [by rewrite !bool_decide_eq_true_2|].
  assert (z ≠ q) by (intros ->; apply Hnd; by apply elem_of_cons; left).
  by rewrite !bool_decide_eq_false_2.
Qed.

(** A ring has no more nodes than the heap, so [size h] is enough fuel to walk it. *)
Lemma ring_size h L q xs : rep h L → L !! q = Some xs → (length xs < size h)%nat.
Proof.
  intros HR Hq. destruct (rep_ring _ _ HR q _ Hq) as [Hpath Hnd].
  assert (list_to_set (q :: xs) ⊆@{gset loc} dom h) as Hsub.
  { intros x Hx%elem_of_list_to_set. apply elem_of_dom. by eapply path_in. }
  apply subseteq_size in Hsub. rewrite size_list_to_set in Hsub by done.
  rewrite size_dom in Hsub. simpl in Hsub. lia.
Qed.

(** Updates that leave the links alone. *)
Lemma set_value_links h p n v :
  h !! p = Some n →
  (∀ x, nextof (<[p := set_value v n]> h) x = nextof h x) ∧
  (∀ x, prevof (<[p := set_value v n]> h) x = prevof h x) ∧
  (∀ x, valof (<[p := set_value v n]> h) x = if decide (x = p) then Some v else valof h x).
Proof.
  intros Hp. unfold nextof, prevof, valof.
  split_and!; intros x; rewrite lookup_insert; destruct (decide (p = x)) as [<-|];
    rewrite ?Hp; simpl; try done; case_decide; simplify_eq; done.
Qed.

Lemma rep_set_value h L p v n :
  rep h L → h !! p = Some n → rep (<[p := set_value v n]> h) L.
Proof.
  intros HR Hp. destruct (set_value_links h p n v Hp) as (Hn & Hpv & _).
  eapply rep_links; [done| |done|done].
  intros x m [[<- <-]|[Hne Hx]]%lookup_insert_Some; simpl; by eapply rep_unlocked.
Qed.
End rings.

(** ** Properties *)
Section list_properties.
Context {loc : Type} `{Countable loc}.
Implicit Types (h : heap loc) (L : gmap loc (list loc)).

(** Insertion refines insertion into a ring.  In a heap that represents the
    rings [L], where [q] heads the ring [a ++ b] and [new] is a node on no
    other list, [acoral_list_add] after the last node of [q :: a] and
    [acoral_list_add_tail] before the first node of [b] (or before the head)
    both return, with all locks released, the stored values unchanged, and a
    heap that represents [L] with [new] between [a] and [b]. *)
Theorem list_insert_refines h L q new a b x y :
  rep h L → L !! q = Some (a ++ b) → L !! new = Some [] → new ≠ q →
  last (q :: a) = Some x → head (b ++ [q]) = Some y →
  (∃ h', acoral_list_add new x h = Ret (tt, h') ∧ rep h' (ring_insert q new a b L) ∧
     ∀ p, valof h' p = valof h p) ∧
  (∃ h', acoral_list_add_tail new y h = Ret (tt, h') ∧ rep h' (ring_insert q new a b L) ∧
     ∀ p, valof h' p = valof h p).
Proof.
  intros HR Hq Hnew Hne Hx Hy. split; [by apply list_add_rep|by apply list_add_tail_rep].
Qed.

(** Removal refines removal from a ring: [acoral_list_del] of a node of the
    ring of [q] returns with a heap where that node is alone and the others
    keep their order; of a node on no list, it never returns: on such a node
    [temp_prev] is the node itself and its lock is taken twice. *)
Theorem list_del_refines h L e :
  rep h L →
  (∀ q a b, L !! q = Some (a ++ e :: b) →
     ∃ h', acoral_list_del e h = Ret (tt, h') ∧ rep h' (ring_remove q e a b L) ∧
       ∀ p, valof h' p = valof h p) ∧
  (L !! e = Some [] → acoral_list_del e h = Err Deadlock).
Proof.
  intros HR. split; [intros; by apply list_del_rep|intros; by eapply list_del_lone].
Qed.
End list_properties.

(** A heap for the witnesses: three initialised nodes. *)
Definition heap3 : heap nat :=
  <[2%nat := mk_list 2%nat 2%nat 7 0]>
    (<[1%nat := mk_list 1%nat 1%nat 5 0]> (<[0%nat := mk_list 0%nat 0%nat 0 0]> ∅)).

Definition rings3 : gmap nat (list nat) := <[2%nat := []]> (<[1%nat := []]> (<[0%nat := []]> ∅)).

Lemma heap3_rep : rep heap3 rings3.
Proof.
  unfold heap3, rings3.
  repeat apply rep_init; try apply rep_empty; try (left; reflexivity);
    intros q xs Hq _; rewrite ?lookup_insert_Some, ?lookup_empty in Hq;
    repeat (destruct Hq as [[_ <-]|[_ Hq]]; [apply not_elem_of_nil|]); done.
Qed.

Lemma list_insert_refines_witness :
  ∃ h', acoral_list_add 1%nat 0%nat heap3 = Ret (tt, h') ∧
    rep h' (ring_insert 0%nat 1%nat [] [] rings3).
Proof.
  destruct (list_insert_refines heap3 rings3 0%nat 1%nat [] [] 0%nat 0%nat) as [(h' & ? & ? & _) _];
    [apply heap3_rep|reflexivity|reflexivity|lia|reflexivity|reflexivity|].
  exists h'. split; assumption.
Defined.

Lemma list_del_refines_witness :
  acoral_list_del 1%nat heap3 = Err Deadlock ∧
  ∃ h' h'', acoral_list_add 1%nat 0%nat heap3 = Ret (tt, h') ∧
    acoral_list_del 1%nat h' = Ret (tt, h'').
Proof.
  split.
  - apply (list_del_refines heap3 rings3 1%nat heap3_rep). reflexivity.
  - destruct (list_add_rep heap3 rings3 0%nat 1%nat [] [] 0%nat) as (h' & Hrun & HR & _);
      [apply heap3_rep|reflexivity|reflexivity|reflexivity|lia|].
    destruct (proj1 (list_del_refines h' _ 1%nat HR) 0%nat [] []) as (h'' & Hdel & _);
      [reflexivity|]. exists h', h''. split; assumption.
Defined.
