(* ===== verification/Queues.v ===== *)
(** * kernel/src/queue.c: tick, priority, FIFO and LIFO queues

    [acoral_queue_t] is a list head with a spin lock of its own.  The state of
    the queue operations is the node heap of [DList] and the lock words of the
    queues, by the address of their heads.

    Two of the four queues have an order of their own, specified here as
    functions on lists of (node, value) pairs:
    - the tick queue is a difference list: each node stores its delay relative
      to its predecessor ([dq_insert]), and [due] recovers the absolute times;
    - the priority queue is sorted by value, equal values in arrival order
      ([pq_insert]). *)
From S2P Require Import Prelude DList.
From stdpp Require Import list sorting.
#[local] Open Scope Z_scope.

Record qstate (loc : Type) `{Countable loc} : Type := mk_q {
  q_nodes : heap loc;
  q_lock : gmap loc Z;
}.
Arguments mk_q {loc _ _} q_nodes q_lock.
Arguments q_nodes {loc _ _} q.
Arguments q_lock {loc _ _} q.

Section queue_ops.
Context {loc : Type} `{Countable loc}.
Implicit Types q p : loc.

Definition lnodes : lens (qstate loc) (heap loc) :=
  Lens q_nodes (λ h s, mk_q h (q_lock s)).

Definition on_nodes {A} (m : M (heap loc) A) : M (qstate loc) A := zoom lnodes m.

Definition set_qlock q v : M (qstate loc) unit :=
  modify (λ s, mk_q (q_nodes s) (<[q := v]> (q_lock s))).

(** [acoral_spin_lock(&queue->lock)] and its release. *)
Definition queue_lock q : M (qstate loc) unit :=
  v ← deref (λ s, q_lock s !! q);
  if v =? 0 then set_qlock q 1 else fail Deadlock.

Definition queue_unlock q : M (qstate loc) unit :=
  _ ← deref (λ s, q_lock s !! q);
  set_qlock q 0.

Definition acoral_tick_queue_init q : M (qstate loc) unit :=
  on_nodes (acoral_vlist_init q 0);;
  set_qlock q 0.

(** The loop of [acoral_tick_queue_add]: [tick] becomes negative at the first
    node that is due later than the new one.  Returns [tmp] and [tick_tmp]. *)
Fixpoint tick_find (fuel : nat) (hd tmp : loc) (tick : Z) : M (heap loc) (loc * Z) :=
  if bool_decide (tmp = hd) then mret (tmp, tick) else
  v ← get_value tmp;
  if s32 (tick - v) <? 0 then mret (tmp, tick) else
  match fuel with
  | O => fail Diverge
  | S fuel => nx ← get_next tmp; tick_find fuel hd nx (s32 (tick - v))
  end.

Definition tick_queue_add_body (hd tnode : loc) : M (heap loc) unit :=
  tick ← get_value tnode;
  fuel ← get size;
  first ← get_next hd;
  '(tmp, tick_tmp) ← tick_find fuel hd first tick;
  st tnode (set_value tick_tmp);;
  pv ← get_prev tmp;
  acoral_list_add tnode pv;;
  when (negb (bool_decide (tmp = hd)))
    (v ← get_value tmp; st tmp (set_value (s32 (v - tick_tmp)))).

Definition acoral_tick_queue_add q (tnode : loc) : M (qstate loc) unit :=
  queue_lock q;;
  on_nodes (tick_queue_add_body q tnode);;
  queue_unlock q.

Definition acoral_tick_queue_del q (tnode : loc) : M (qstate loc) unit :=
  queue_lock q;;
  on_nodes (acoral_list_del tnode);;
  queue_unlock q.

Definition acoral_prio_queue_init q : M (qstate loc) unit :=
  on_nodes (acoral_vlist_init q 0);;
  set_qlock q 0.

(** The loop of [acoral_prio_queue_add], with its second exit: a node whose
    [next] is itself has been unlinked by somebody else. *)
Fixpoint prio_find (fuel : nat) (hd tmp pnode : loc) : M (heap loc) loc :=
  if bool_decide (tmp = hd) then mret tmp else
  v ← get_value tmp;
  w ← get_value pnode;
  if w <? v then mret tmp else
  nx ← get_next tmp;
  if bool_decide (tmp = nx) then mret tmp else
  match fuel with
  | O => fail Diverge
  | S fuel => prio_find fuel hd nx pnode
  end.

Definition prio_queue_add_body (hd pnode : loc) : M (heap loc) unit :=
  fuel ← get size;
  first ← get_next hd;
  tmp ← prio_find fuel hd first pnode;
  pv ← get_prev tmp;
  acoral_list_add pnode pv.

Definition acoral_prio_queue_add q (pnode : loc) : M (qstate loc) unit :=
  queue_lock q;;
  on_nodes (prio_queue_add_body q pnode);;
  queue_unlock q.

Definition acoral_prio_queue_del q (pnode : loc) : M (qstate loc) unit :=
  queue_lock q;;
  on_nodes (acoral_list_del pnode);;
  queue_unlock q.

Definition acoral_fifo_queue_init q : M (qstate loc) unit :=
  on_nodes (acoral_list_init q);;
  set_qlock q 0.

Definition acoral_fifo_queue_v_init q (v : Z) : M (qstate loc) unit :=
  on_nodes (acoral_vlist_init q v);;
  set_qlock q 0.

Definition acoral_fifo_queue_add q (node : loc) : M (qstate loc) unit :=
  queue_lock q;;
  on_nodes (acoral_list_add_tail node q);;
  queue_unlock q.

Definition acoral_fifo_queue_del q (node : loc) : M (qstate loc) unit :=
  queue_lock q;;
  on_nodes (acoral_list_del node);;
  queue_unlock q.

Definition acoral_lifo_queue_init q : M (qstate loc) unit :=
  on_nodes (acoral_list_init q);;
  set_qlock q 0.

Definition acoral_lifo_queue_v_init q (v : Z) : M (qstate loc) unit :=
  on_nodes (acoral_vlist_init q v);;
  set_qlock q 0.

Definition acoral_lifo_queue_add q (node : loc) : M (qstate loc) unit :=
  queue_lock q;;
  on_nodes (acoral_list_add node q);;
  queue_unlock q.

Definition acoral_lifo_queue_del q (node : loc) : M (qstate loc) unit :=
  queue_lock q;;
  on_nodes (acoral_list_del node);;
  queue_unlock q.

(** ** Specifications *)

(** The pairs [dq] are the nodes of a queue with their [value]s. *)
Definition dvals (h : heap loc) (dq : list (loc * Z)) : Prop :=
  Forall (λ yd, valof h yd.1 = Some yd.2) dq.

(** All delays are non-negative [acoral_32]. *)
Definition dnat (dq : list (loc * Z)) : Prop := Forall (λ yd, 0 ≤ yd.2 < 2 ^ 31) dq.

Fixpoint dq_insert (x : loc) (t : Z) (dq : list (loc * Z)) : list (loc * Z) :=
  match dq with
  | [] => [(x, t)]
  | (y, d) :: dq' =>
      if t <? d then (x, t) :: (y, d - t) :: dq'
      else (y, d) :: dq_insert x (t - d) dq'
  end.

(** Absolute times, [acc] ticks from now being the reference. *)
Fixpoint due (acc : Z) (dq : list (loc * Z)) : list (loc * Z) :=
  match dq with
  | [] => []
  | (y, d) :: dq => (y, acc + d) :: due (acc + d) dq
  end.

(** Insertion into a list sorted by value, behind the equal ones. *)
Fixpoint pq_insert (x : loc) (v : Z) (pq : list (loc * Z)) : list (loc * Z) :=
  match pq with
  | [] => [(x, v)]
  | (y, w) :: pq' => if v <? w then (x, v) :: (y, w) :: pq' else (y, w) :: pq_insert x v pq'
  end.

Record qrep (s : qstate loc) (L : gmap loc (list loc)) : Prop := {
  qrep_nodes : rep (q_nodes s) L;
  qrep_unlocked : ∀ q k, q_lock s !! q = Some k → k = 0;
}.

Definition is_queue (s : qstate loc) q : Prop := is_Some (q_lock s !! q).
End queue_ops.

Section queue_spec.
Context {loc : Type} `{Countable loc}.
Implicit Types (q p x y : loc) (h : heap loc) (s : qstate loc).
Implicit Types (dq pq da db : list (loc * Z)) (L : gmap loc (list loc)).

#[export] Instance lnodes_laws : LensLaws (lnodes (loc := loc)).
Proof. split; [done|by intros []|done]. Qed.

(** ** Locking *)
Lemma locked_run (m : M (heap loc) unit) q s L h' :
  qrep s L → is_queue s q → m (q_nodes s) = Ret (tt, h') →
  (queue_lock q;; on_nodes m;; queue_unlock q) s = Ret (tt, mk_q h' (q_lock s)).
Proof.
  intros HR [k Hk] Hm. pose proof (qrep_unlocked _ _ HR _ _ Hk) as ->.
  unfold queue_lock. erewrite run_bind.
  2:{ erewrite run_bind by (by apply run_deref). reflexivity. }
  erewrite run_bind by (by apply run_zoom).
  unfold queue_unlock. erewrite run_bind.
  2:{ apply run_deref. simpl. by rewrite lookup_insert_eq. }
  unfold set_qlock, modify. simpl. by rewrite insert_insert_eq, insert_id.
Qed.

Lemma locked_err (m : M (heap loc) unit) q s L e :
  qrep s L → is_queue s q → m (q_nodes s) = Err e →
  (queue_lock q;; on_nodes m;; queue_unlock q) s = Err e.
Proof.
  intros HR [k Hk] Hm. pose proof (qrep_unlocked _ _ HR _ _ Hk) as ->.
  unfold queue_lock. erewrite run_bind.
  2:{ erewrite run_bind by (by apply run_deref). reflexivity. }
  unfold on_nodes, mbind, M_bind, zoom. simpl. by rewrite Hm.
Qed.

Lemma qrep_nodes_upd s L h' L' :
  qrep s L → rep h' L' → qrep (mk_q h' (q_lock s)) L'.
Proof. intros [? ?] ?. by split. Qed.

(** ** FIFO, LIFO and removal *)
Lemma fifo_add_rep s L q new xs :
  qrep s L → is_queue s q → L !! q = Some xs → L !! new = Some [] → new ≠ q →
  ∃ s', acoral_fifo_queue_add q new s = Ret (tt, s') ∧
    qrep s' (<[q := xs ++ [new]]> (delete new L)) ∧ q_lock s' = q_lock s ∧
    (∀ p, valof (q_nodes s') p = valof (q_nodes s) p).
Proof.
  intros HR Hql Hq Hnew Hne.
  destruct (list_add_tail_rep (q_nodes s) L q new xs [] q) as (h' & Hrun & HR' & Hv);
    [apply HR|by rewrite app_nil_r|done..|].
  exists (mk_q h' (q_lock s)). split_and!; [by eapply locked_run| |done|done].
  by eapply qrep_nodes_upd.
Qed.

Lemma lifo_add_rep s L q new xs :
  qrep s L → is_queue s q → L !! q = Some xs → L !! new = Some [] → new ≠ q →
  ∃ s', acoral_lifo_queue_add q new s = Ret (tt, s') ∧
    qrep s' (<[q := new :: xs]> (delete new L)) ∧ q_lock s' = q_lock s ∧
    (∀ p, valof (q_nodes s') p = valof (q_nodes s) p).
Proof.
  intros HR Hql Hq Hnew Hne.
  destruct (list_add_rep (q_nodes s) L q new [] xs q) as (h' & Hrun & HR' & Hv);
    [apply HR|done..|].
  exists (mk_q h' (q_lock s)). split_and!; [by eapply locked_run| |done|done].
  by eapply qrep_nodes_upd.
Qed.

(** The four removals are one function: unlink the node under the lock. *)
Lemma queue_del_rep s L q q' e a b :
  qrep s L → is_queue s q → L !! q' = Some (a ++ e :: b) →
  ∃ s', acoral_fifo_queue_del q e s = Ret (tt, s') ∧
    qrep s' (<[e := []]> (<[q' := a ++ b]> L)) ∧ q_lock s' = q_lock s ∧
    (∀ p, valof (q_nodes s') p = valof (q_nodes s) p).
Proof.
  intros HR Hql Hq.
  destruct (list_del_rep (q_nodes s) L q' e a b) as (h' & Hrun & HR' & Hv);
    [apply HR|done..|].
  exists (mk_q h' (q_lock s)). split_and!; [by eapply locked_run| |done|done].
  by eapply qrep_nodes_upd.
Qed.

Lemma queue_del_lone s L q e :
  qrep s L → is_queue s q → L !! e = Some [] → acoral_fifo_queue_del q e s = Err Deadlock.
Proof.
  intros HR Hql He. eapply locked_err; [done..|]. eapply list_del_lone; [apply HR|done].
Qed.

(** ** Positions in a ring *)
Lemma ring_pos h L q (a b : list loc) :
  rep h L → L !! q = Some (a ++ b) →
  ∃ tmp pv n, head (b ++ [q]) = Some tmp ∧ last (q :: a) = Some pv ∧
    h !! tmp = Some n ∧ prev n = pv ∧ (tmp = q ↔ b = []).
Proof.
  intros HR Hq. destruct (last_cons_ex a q) as [pv Hpv], (head_snoc_ex b q) as [tmp Htmp].
  destruct (rep_neighbours h L q a b pv tmp) as (m & n & ? & ? & ? & ?); [done..|].
  exists tmp, pv, n. split_and!; try done.
  destruct (rep_ring _ _ HR q _ Hq) as [_ Hnd]. apply NoDup_cons in Hnd as [Hnd _].
  destruct b as [|y b]; simpl in Htmp; injection Htmp as <-; [done|].
  split; [|done]. intros ->. exfalso. apply Hnd. rewrite elem_of_mid. tauto.
Qed.

Lemma ring_step h L q (a b : list loc) y :
  rep h L → L !! q = Some (a ++ y :: b) →
  ∃ n nx, h !! y = Some n ∧ next n = nx ∧ head (b ++ [q]) = Some nx ∧ y ≠ q ∧ nx ≠ y.
Proof.
  intros HR Hq. destruct (head_snoc_ex b q) as [nx Hnx].
  destruct (rep_neighbours h L q (a ++ [y]) b y nx) as (n & m & ? & ? & ? & ?);
    [done|by rewrite <- (assoc_L (++))|by rewrite app_comm_cons, last_snoc|done|].
  exists n, nx. destruct (rep_ring _ _ HR q _ Hq) as [_ Hnd].
  rewrite NoDup_cons, elem_of_mid, NoDup_app, NoDup_cons in Hnd.
  split_and!; [done..|naive_solver|].
  destruct b; simpl in Hnx; injection Hnx as <-; [naive_solver|].
  destruct Hnd as (_ & _ & _ & Hnd & _). rewrite not_elem_of_cons in Hnd. naive_solver.
Qed.

Lemma valof_lookup h x v : valof h x = Some v → ∃ n, h !! x = Some n ∧ value n = v.
Proof. unfold valof. intros (n & ? & ?)%fmap_Some. eauto. Qed.

Lemma run_get_value_at h x v : valof h x = Some v → get_value x h = Ret (v, h).
Proof. intros (n & Hn & <-)%valof_lookup. by apply run_get_value. Qed.

(** ** The tick queue *)
Lemma s32_diff t d : 0 ≤ t < 2 ^ 31 → 0 ≤ d < 2 ^ 31 → s32 (t - d) = t - d.
Proof. intros. apply wraps_small; lia. Qed.

Lemma tick_find_run fuel h L q (a : list loc) dq t tmp x :
  rep h L → L !! q = Some (a ++ dq.*1) → head (dq.*1 ++ [q]) = Some tmp →
  dvals h dq → dnat dq → 0 ≤ t < 2 ^ 31 → (length dq < fuel)%nat →
  ∃ tmp' t' da db, tick_find fuel q tmp t h = Ret ((tmp', t'), h) ∧
    dq = da ++ db ∧ head (db.*1 ++ [q]) = Some tmp' ∧ 0 ≤ t' < 2 ^ 31 ∧
    match db with
    | [] => dq_insert x t dq = da ++ [(x, t')]
    | (y, d) :: db' => t' < d ∧ dq_insert x t dq = da ++ (x, t') :: (y, d - t') :: db'
    end.
Proof.
  intros HR. revert a t tmp dq.
  induction fuel as [|fuel IH]; intros a t tmp dq Hq Htmp Hv Hnat Ht Hlen; [lia|].
  destruct dq as [|[y d] dq].
  { simpl in Htmp. injection Htmp as <-. exists q, t, [], []. split_and!; try done; [|lia..].
    simpl. by rewrite bool_decide_eq_true_2. }
  simpl in Hq, Htmp. injection Htmp as <-.
  destruct (ring_step h L q a dq.*1 y HR Hq) as (n & nx & Hn & Hnx & Hhd & Hyq & Hne).
  apply Forall_cons in Hv as [Hy Hv], Hnat as [Hd Hnat]. simpl in Hy, Hd, Hlen.
  cbn [tick_find]. rewrite bool_decide_eq_false_2 by done.
  erewrite run_bind by (by apply run_get_value_at).
  rewrite s32_diff by done. cbn [dq_insert].
  destruct (Z.ltb_spec (t - d) 0) as [Hlt|Hge].
  - exists y, t, [], ((y, d) :: dq). split_and!; try done; [lia..|].
    rewrite (proj2 (Z.ltb_lt t d)) by lia. simpl. auto with lia.
  - erewrite run_bind by (by apply run_get_next). rewrite Hnx.
    destruct (IH (a ++ [y]) (t - d) nx dq) as (tmp' & t' & da & db & Hrun & -> & Hhd' & Ht' & Hins);
      [by rewrite <- (assoc_L (++))|done..|lia|lia|].
    exists tmp', t', ((y, d) :: da), db. split_and!; try done; [lia..|].
    rewrite (proj2 (Z.ltb_ge t d)) by lia.
    destruct db as [|[y' d'] db]; simpl; [by f_equal|].
    destruct Hins as [? ?]. split; [done|by f_equal].
Qed.

Lemma ring_first h L q xs :
  rep h L → L !! q = Some xs → ∃ n nx, h !! q = Some n ∧ next n = nx ∧ head (xs ++ [q]) = Some nx.
Proof.
  intros HR Hq. destruct (head_snoc_ex xs q) as [nx Hnx].
  destruct (rep_neighbours h L q [] xs q nx) as (n & _ & ? & ? & _); [done..|]. eauto.
Qed.

Lemma ring_lookup_last h L q (a b : list loc) pv :
  rep h L → L !! q = Some (a ++ b) → last (q :: a) = Some pv → is_Some (h !! pv).
Proof.
  intros HR Hq Hpv. destruct (head_snoc_ex b q) as [y Hy].
  destruct (rep_neighbours h L q a b pv y) as (n & _ & ? & _); [done..|]. eauto.
Qed.

Lemma dvals_ext h h' dq :
  (∀ x, x ∈ dq.*1 → valof h' x = valof h x) → dvals h dq → dvals h' dq.
Proof.
  intros He Hv. apply Forall_forall. intros [y d] Hin.
  rewrite He; [by eapply Forall_forall in Hv|]. simpl.
  apply list_elem_of_fmap. by exists (y, d).
Qed.

(** The store of the loop's result, then the insertion before [tmp]. *)
Lemma insert_before h L q new v (a b : list loc) tmp n :
  rep h L → L !! q = Some (a ++ b) → head (b ++ [q]) = Some tmp →
  L !! new = Some [] → new ≠ q → h !! new = Some n →
  ∃ pv h', get_prev tmp (<[new := set_value v n]> h) = Ret (pv, <[new := set_value v n]> h) ∧
    acoral_list_add new pv (<[new := set_value v n]> h) = Ret (tt, h') ∧
    rep h' (<[q := a ++ new :: b]> (delete new L)) ∧
    (∀ x, valof h' x = if decide (x = new) then Some v else valof h x).
Proof.
  intros HR Hq Htmp Hnew Hne Hn.
  pose proof (rep_set_value h L new v n HR Hn) as HR1.
  destruct (set_value_links h new n v Hn) as (_ & _ & Hval).
  destruct (last_cons_ex a q) as [pv Hpv].
  destruct (rep_neighbours _ L q a b pv tmp HR1 Hq Hpv Htmp) as (_ & m & _ & _ & Hm & Hmp).
  destruct (list_add_rep _ L q new a b pv HR1 Hq Hpv Hnew Hne) as (h' & Hrun & HR' & Hv').
  exists pv, h'. split_and!; [by rewrite (run_get_prev _ _ m), Hmp|done|done|].
  intros x. by rewrite Hv', Hval.
Qed.

(** How the two stores change the values seen by a queue. *)
Lemma dvals_insert h h' da db new t :
  dvals h (da ++ db) → new ∉ (da ++ db).*1 →
  (∀ x, valof h' x = if decide (x = new) then Some t else valof h x) →
  dvals h' (da ++ (new, t) :: db).
Proof.
  intros Hv Hnew Hval. apply Forall_app in Hv as [Ha Hb].
  rewrite fmap_app, not_elem_of_app in Hnew. destruct Hnew as [Hna Hnb].
  apply Forall_app. split; [|apply Forall_cons; split].
  - eapply dvals_ext, Ha. intros x Hx. rewrite Hval, decide_False; [done|]. by intros ->.
  - simpl. by rewrite Hval, decide_True.
  - eapply dvals_ext, Hb. intros x Hx. rewrite Hval, decide_False; [done|]. by intros ->.
Qed.

Lemma dvals_update h h' da db y d d' :
  dvals h (da ++ (y, d) :: db) → NoDup (da ++ (y, d) :: db).*1 →
  (∀ x, valof h' x = if decide (x = y) then Some d' else valof h x) →
  dvals h' (da ++ (y, d') :: db).
Proof.
  intros Hv Hnd Hval. rewrite fmap_app in Hnd. simpl in Hnd.
  apply NoDup_app in Hnd as (_ & Hdisj & [Hyb _]%NoDup_cons).
  eapply dvals_insert; [|rewrite fmap_app, not_elem_of_app; split; [|done]|done].
  - apply Forall_app in Hv as [? [_ ?]%Forall_cons]. by apply Forall_app.
  - intros Hin. apply (Hdisj y Hin). by apply elem_of_cons; left.
Qed.

Lemma tick_queue_add_body_rep h L q dq new t :
  rep h L → L !! q = Some dq.*1 → dvals h dq → dnat dq →
  L !! new = Some [] → new ≠ q → valof h new = Some t → 0 ≤ t < 2 ^ 31 →
  ∃ h', tick_queue_add_body q new h = Ret (tt, h') ∧
    rep h' (<[q := (dq_insert new t dq).*1]> (delete new L)) ∧
    dvals h' (dq_insert new t dq) ∧
    (∀ p, p ∉ new :: dq.*1 → valof h' p = valof h p).
Proof.
  intros HR Hq Hv Hnat Hnew Hne Ht Htr.
  destruct (ring_first h L q _ HR Hq) as (nq & first & Hnq & Hfst & Hhd).
  destruct (tick_find_run (size h) h L q [] dq t first new) as
    (tmp & t' & da & db & Hfind & -> & Htmp & Ht' & Hins); [done..| |].
  { pose proof (ring_size h L q _ HR Hq). by rewrite length_fmap in *. }
  destruct (valof_lookup _ _ _ Ht) as (n & Hn & Hnv).
  pose proof (rep_lone _ _ _ _ _ HR Hq Hnew Hne) as [_ Hlone]%not_elem_of_cons.
  rewrite fmap_app in Hq.
  destruct (insert_before h L q new t' _ _ tmp n HR Hq Htmp Hnew Hne Hn) as
    (pv & h1 & Hpv & Hadd & HR1 & Hval1).
  pose proof (dvals_insert _ _ _ _ _ _ Hv Hlone Hval1) as Hv1.
  assert (NoDup (da ++ (new, t') :: db).*1) as Hnd.
  { destruct (rep_ring _ _ HR1 q (da.*1 ++ new :: db.*1)) as [_ [_ ?]%NoDup_cons];
      [by rewrite lookup_insert_eq|by rewrite fmap_app]. }
  unfold tick_queue_add_body.
  erewrite run_bind by (by apply run_get_value_at).
  erewrite run_bind by reflexivity.
  erewrite run_bind by (by apply run_get_next). rewrite Hfst.
  erewrite run_bind by exact Hfind. cbn beta iota.
  erewrite run_bind by (by apply run_st).
  erewrite run_bind by exact Hpv. erewrite run_bind by exact Hadd.
  destruct db as [|[y d] db]; simpl in Htmp; injection Htmp as <-.
  - rewrite when_bd_false by done. exists h1. rewrite Hins, !fmap_app.
    split_and!; [done..|]. intros p [Hp _]%not_elem_of_cons. by rewrite Hval1, decide_False.
  - destruct Hins as [Htd Hins].
    destruct (ring_step h L q da.*1 db.*1 y HR Hq) as (_ & _ & _ & _ & _ & Hyq & _).
    rewrite when_bd_true by done.
    assert (valof h1 y = Some d) as Hy1.
    { apply Forall_app in Hv1 as [_ [_ [? _]%Forall_cons]%Forall_cons]. done. }
    destruct (valof_lookup _ _ _ Hy1) as (ny & Hny & _).
    destruct (set_value_links h1 y ny (d - t') Hny) as (_ & _ & Hval2).
    assert (0 ≤ d < 2 ^ 31) by (by apply Forall_app in Hnat as [_ [? _]%Forall_cons]).
    erewrite run_bind by (by apply run_get_value_at). rewrite s32_diff by done.
    erewrite run_st by done. eexists. split; [done|]. rewrite Hins, !fmap_app.
    split_and!; [by apply rep_set_value| |].
    + apply (dvals_update h1 _ (da ++ [(new, t')]) db y d (d - t')) in Hval2;
        by rewrite <- (assoc_L (++)) in *.
    + intros p [Hpn Hp]%not_elem_of_cons. simpl in Hp.
      rewrite elem_of_mid in Hp.
      rewrite Hval2, Hval1, !decide_False by tauto. done.
Qed.

Lemma tick_queue_add_rep s L q dq new t :
  qrep s L → is_queue s q → L !! q = Some dq.*1 → dvals (q_nodes s) dq → dnat dq →
  L !! new = Some [] → new ≠ q → valof (q_nodes s) new = Some t → 0 ≤ t < 2 ^ 31 →
  ∃ s', acoral_tick_queue_add q new s = Ret (tt, s') ∧
    qrep s' (<[q := (dq_insert new t dq).*1]> (delete new L)) ∧
    dvals (q_nodes s') (dq_insert new t dq) ∧ q_lock s' = q_lock s ∧
    (∀ p, p ∉ new :: dq.*1 → valof (q_nodes s') p = valof (q_nodes s) p).
Proof.
  intros HQ Hql Hq Hv Hnat Hnew Hne Ht Htr.
  destruct (tick_queue_add_body_rep _ L q dq new t (qrep_nodes _ _ HQ)) as
    (h' & Hrun & HR' & Hv' & Hoth); [done..|].
  exists (mk_q h' (q_lock s)). split_and!; [by eapply locked_run| |done|done|done].
  by eapply qrep_nodes_upd.
Qed.

(** ** The priority queue *)
Lemma prio_find_run fuel h L q (a : list loc) pq p v tmp :
  rep h L → L !! q = Some (a ++ pq.*1) → head (pq.*1 ++ [q]) = Some tmp →
  dvals h pq → valof h p = Some v → (length pq < fuel)%nat →
  ∃ tmp' pa pb, prio_find fuel q tmp p h = Ret (tmp', h) ∧
    pq = pa ++ pb ∧ head (pb.*1 ++ [q]) = Some tmp' ∧ pq_insert p v pq = pa ++ (p, v) :: pb.
Proof.
  intros HR Hq. revert a tmp pq Hq.
  induction fuel as [|fuel IH]; intros a tmp pq Hq Htmp Hv Hp Hlen; [lia|].
  destruct pq as [|[y w] pq].
  { simpl in Htmp. injection Htmp as <-. exists q, [], []. split_and!; try done.
    simpl. by rewrite bool_decide_eq_true_2. }
  simpl in Hq, Htmp. injection Htmp as <-.
  destruct (ring_step h L q a pq.*1 y HR Hq) as (n & nx & Hn & Hnx & Hhd & Hyq & Hne).
  apply Forall_cons in Hv as [Hy Hv]. simpl in Hy, Hlen.
  cbn [prio_find pq_insert]. rewrite bool_decide_eq_false_2 by done.
  erewrite run_bind by (by apply run_get_value_at).
  erewrite run_bind by (by apply run_get_value_at).
  destruct (v <? w); [by exists y, [], ((y, w) :: pq)|].
  erewrite run_bind by (by apply run_get_next). rewrite Hnx, bool_decide_eq_false_2 by done.
  destruct (IH (a ++ [y]) nx pq) as (tmp' & pa & pb & Hrun & -> & Hhd' & Hins);
    [by rewrite <- (assoc_L (++))|done..|lia|].
  exists tmp', ((y, w) :: pa), pb. split_and!; try done. simpl. by rewrite Hins.
Qed.

Lemma prio_queue_add_rep s L q pq new v :
  qrep s L → is_queue s q → L !! q = Some pq.*1 → dvals (q_nodes s) pq →
  L !! new = Some [] → new ≠ q → valof (q_nodes s) new = Some v →
  ∃ s', acoral_prio_queue_add q new s = Ret (tt, s') ∧
    qrep s' (<[q := (pq_insert new v pq).*1]> (delete new L)) ∧
    dvals (q_nodes s') (pq_insert new v pq) ∧ q_lock s' = q_lock s ∧
    (∀ p, valof (q_nodes s') p = valof (q_nodes s) p).
Proof.
  intros HQ Hql Hq Hv Hnew Hne Hval. pose proof (qrep_nodes _ _ HQ) as HR.
  destruct (ring_first _ L q _ HR Hq) as (nq & first & Hnq & Hfst & Hhd).
  destruct (prio_find_run (size (q_nodes s)) (q_nodes s) L q [] pq new v first) as
    (tmp & pa & pb & Hfind & -> & Htmp & Hins); [done..| |].
  { pose proof (ring_size _ L q _ HR Hq). by rewrite length_fmap in *. }
  rewrite fmap_app in Hq. destruct (last_cons_ex pa.*1 q) as [pv Hpv].
  destruct (rep_neighbours _ L q pa.*1 pb.*1 pv tmp HR Hq Hpv Htmp) as (_ & m & _ & _ & Hm & Hmp).
  destruct (list_add_rep _ L q new _ _ pv HR Hq Hpv Hnew Hne) as (h' & Hrun & HR' & Hv').
  exists (mk_q h' (q_lock s)). rewrite Hins, fmap_app. split_and!; [|by eapply qrep_nodes_upd| |done|done].
  - eapply locked_run; [done..|]. unfold prio_queue_add_body.
    erewrite run_bind by reflexivity.
    erewrite run_bind by (by apply run_get_next). rewrite Hfst.
    erewrite run_bind by exact Hfind.
    erewrite run_bind by (by apply run_get_prev). by rewrite Hmp.
  - eapply dvals_ext; [intros x _; apply Hv'|]. apply Forall_app in Hv as [??].
    apply Forall_app; split; [done|]. by apply Forall_cons.
Qed.

(** ** The orders of the tick and priority queues *)
Lemma due_insert acc x t dq :
  due acc (dq_insert x t dq) = pq_insert x (acc + t) (due acc dq).
Proof.
  revert acc t. induction dq as [|[y d] dq IH]; intros acc t; [done|]. simpl.
  destruct (Z.ltb_spec t d).
  - rewrite (proj2 (Z.ltb_lt (acc + t) (acc + d))) by lia. simpl.
    by replace (acc + t + (d - t)) with (acc + d) by lia.
  - rewrite (proj2 (Z.ltb_ge (acc + t) (acc + d))) by lia. simpl. f_equal.
    rewrite IH. f_equal. lia.
Qed.

Lemma due_fst acc dq : (due acc dq).*1 = dq.*1.
Proof. revert acc. induction dq as [|[y d] dq IH]; intros acc; simpl; [done|]. by rewrite IH. Qed.

Lemma due_app acc da (db : list (loc * Z)) :
  due acc (da ++ db) = due acc da ++ due (foldl (λ a yd, a + yd.2) acc da) db.
Proof.
  revert acc. induction da as [|[y d] da IH]; intros acc; simpl; [done|]. by rewrite IH.
Qed.

Lemma due_shift acc c dq : due (acc - c) dq = (λ yt, (yt.1, yt.2 - c)) <$> due acc dq.
Proof.
  revert acc. induction dq as [|[y d] dq IH]; intros acc; simpl; [done|].
  rewrite <- IH. by replace (acc - c + d) with (acc + d - c) by lia.
Qed.

Lemma due_sorted acc dq : dnat dq → StronglySorted (λ a b, a.2 ≤ b.2) (due acc dq).
Proof.
  revert acc. induction dq as [|[y d] dq IH]; intros acc Hn; simpl; [constructor|].
  apply Forall_cons in Hn as [Hd Hn]. constructor; [by apply IH|]. simpl.
  clear IH. generalize (acc + d). induction dq as [|[z e] dq IH]; intros c; simpl; [constructor|].
  apply Forall_cons in Hn as [He Hn]. simpl in He. constructor; [simpl; lia|].
  eapply Forall_impl; [by apply (IH Hn (c + e))|]. simpl. intros. lia.
Qed.

(** The insertion of a sorted list, by its definition: behind everything that
    is not greater. *)
Lemma pq_insert_filter x v pq :
  StronglySorted (λ a b, a.2 ≤ b.2) pq →
  pq_insert x v pq = filter (λ yw, yw.2 ≤ v) pq ++ (x, v) :: filter (λ yw, v < yw.2) pq.
Proof.
  induction pq as [|[y w] pq IH]; intros Hs; [done|]. simpl.
  apply StronglySorted_inv in Hs as [Hs Hle]. destruct (Z.ltb_spec v w).
  - rewrite (filter_cons_False (λ yw, yw.2 ≤ v)), (filter_cons_True (λ yw, v < yw.2)) by (simpl; lia).
    assert (Forall (λ yw : loc * Z, v < yw.2) pq) as Hgt.
    { eapply Forall_impl; [exact Hle|]. simpl. lia. }
    rewrite (list_filter_all (λ yw, v < yw.2)) by done.
    rewrite (list_filter_none (λ yw, yw.2 ≤ v)); [done|].
    eapply Forall_impl; [exact Hgt|]. simpl. lia.
  - rewrite (filter_cons_True (λ yw, yw.2 ≤ v)), (filter_cons_False (λ yw, v < yw.2)) by (simpl; lia).
    rewrite IH by done. done.
Qed.

Lemma pq_insert_sorted x v pq :
  StronglySorted (λ a b, a.2 ≤ b.2) pq → StronglySorted (λ a b, a.2 ≤ b.2) (pq_insert x v pq).
Proof.
  induction pq as [|[y w] pq IH]; intros Hs; simpl; [by repeat constructor|].
  pose proof Hs as [Hs' Hle]%StronglySorted_inv. destruct (Z.ltb_spec v w).
  - constructor; [done|]. constructor; [simpl; lia|].
    eapply Forall_impl; [exact Hle|]. simpl. lia.
  - constructor; [by apply IH|]. clear IH Hs Hs'.
    induction pq as [|[z u] pq IH]; simpl; [by repeat constructor|].
    apply Forall_cons in Hle as [? Hle]. simpl in *.
    destruct (v <? u); repeat constructor; simpl; auto.
Qed.

Lemma dq_insert_dnat x t dq : dnat dq → 0 ≤ t < 2 ^ 31 → dnat (dq_insert x t dq).
Proof.
  revert t. induction dq as [|[y d] dq IH]; intros t Hn Ht; simpl; [by apply Forall_singleton|].
  apply Forall_cons in Hn as [Hd Hn]. simpl in Hd. destruct (Z.ltb_spec t d).
  - constructor; [done|]. constructor; [simpl; lia|done].
  - constructor; [done|]. apply IH; [done|lia].
Qed.

(** ** Properties *)

(** C5 [acoral_tick_queue_add] inserts at the right absolute time.  If the
    queue [q] holds the delays [dq] and the new node carries the delay [t], the
    operation returns with a queue whose due times (the prefix sums of its
    delays) are the old ones, unchanged, with the new node at [t] behind
    everything due no later; the delays stay non-negative, so the due times
    stay sorted, and nodes outside the queue keep their values. *)
Theorem tick_queue_add_due s L q dq new t :
  qrep s L → is_queue s q → L !! q = Some dq.*1 → dvals (q_nodes s) dq → dnat dq →
  L !! new = Some [] → new ≠ q → valof (q_nodes s) new = Some t → 0 ≤ t < 2 ^ 31 →
  ∃ s' dq', acoral_tick_queue_add q new s = Ret (tt, s') ∧
    qrep s' (<[q := dq'.*1]> (delete new L)) ∧ dvals (q_nodes s') dq' ∧ dnat dq' ∧
    due 0 dq' = filter (λ yt, yt.2 ≤ t) (due 0 dq) ++ (new, t) :: filter (λ yt, t < yt.2) (due 0 dq) ∧
    StronglySorted (λ a b, a.2 ≤ b.2) (due 0 dq') ∧
    (∀ p, p ∉ new :: dq.*1 → valof (q_nodes s') p = valof (q_nodes s) p).
Proof.
  intros HQ Hql Hq Hv Hnat Hnew Hne Ht Htr.
  destruct (tick_queue_add_rep s L q dq new t) as (s' & Hrun & HQ' & Hv' & _ & Hoth); [done..|].
  exists s', (dq_insert new t dq). split_and!; try done.
  - by apply dq_insert_dnat.
  - rewrite due_insert. apply pq_insert_filter. by apply due_sorted.
  - apply due_sorted. by apply dq_insert_dnat.
Qed.

(** [acoral_tick_queue_del] does not give the delay of the removed node to
    its successor: the nodes in front keep their due times, and every node
    behind becomes due earlier by exactly the removed delay.  (The clock
    interrupt only removes nodes whose delay has reached 0; killing a delayed
    thread unlinks its node the same way.) *)
Theorem tick_queue_del_due s L q da e d db :
  qrep s L → is_queue s q → L !! q = Some (da ++ (e, d) :: db).*1 →
  dvals (q_nodes s) (da ++ (e, d) :: db) →
  ∃ s', acoral_tick_queue_del q e s = Ret (tt, s') ∧
    qrep s' (<[e := []]> (<[q := (da ++ db).*1]> L)) ∧ dvals (q_nodes s') (da ++ db) ∧
    ∃ front behind, due 0 (da ++ (e, d) :: db) = front ++ (e, (foldl (λ a yd, a + yd.2) 0 da) + d) :: behind ∧
      due 0 (da ++ db) = front ++ ((λ yt, (yt.1, yt.2 - d)) <$> behind).
Proof.
  intros HQ Hql Hq Hv. rewrite fmap_app in Hq.
  destruct (queue_del_rep s L q q e da.*1 db.*1) as (s' & Hrun & HQ' & _ & Hval); [done..|].
  exists s'. split_and!; [exact Hrun|by rewrite fmap_app| |].
  - eapply dvals_ext; [intros x _; apply Hval|].
    apply Forall_app in Hv as [? [_ ?]%Forall_cons]. by apply Forall_app.
  - eexists (due 0 da), (due (foldl (λ a yd, a + yd.2) 0 da + d) db). rewrite !due_app. split; [done|].
    f_equal. rewrite <- due_shift. f_equal. lia.
Qed.

(** [acoral_prio_queue_add] keeps a queue of waiting threads sorted by
    priority value, first come first served within a priority: the new node
    goes behind every node of smaller or equal value and before the others. *)
Theorem prio_queue_add_sorted s L q pq new v :
  qrep s L → is_queue s q → L !! q = Some pq.*1 → dvals (q_nodes s) pq →
  StronglySorted (λ a b, a.2 ≤ b.2) pq →
  L !! new = Some [] → new ≠ q → valof (q_nodes s) new = Some v →
  ∃ s' pq', acoral_prio_queue_add q new s = Ret (tt, s') ∧
    qrep s' (<[q := pq'.*1]> (delete new L)) ∧ dvals (q_nodes s') pq' ∧
    pq' = filter (λ yw, yw.2 ≤ v) pq ++ (new, v) :: filter (λ yw, v < yw.2) pq ∧
    StronglySorted (λ a b, a.2 ≤ b.2) pq'.
Proof.
  intros HQ Hql Hq Hv Hs Hnew Hne Hval.
  destruct (prio_queue_add_rep s L q pq new v) as (s' & Hrun & HQ' & Hv' & _); [done..|].
  exists s', (pq_insert new v pq). split_and!; try done.
  - by apply pq_insert_filter.
  - by apply pq_insert_sorted.
Qed.
End queue_spec.

(** A state for the witnesses: the queue 0, with nodes 1 and 2 outside it. *)
Definition queue3 : qstate nat := mk_q heap3 (<[0%nat := 0]> ∅).

Lemma queue3_rep : qrep queue3 rings3.
Proof.
  split; [apply heap3_rep|]. simpl. intros q k Hq. rewrite lookup_insert_Some in Hq.
  destruct Hq as [[_ <-]|[_ Hq]]; [done|]. by rewrite lookup_empty in Hq.
Qed.

Lemma tick_queue_add_due_witness :
  ∃ s' dq', acoral_tick_queue_add 0%nat 1%nat queue3 = Ret (tt, s') ∧
    due 0 dq' = [(1%nat, 5)] ∧ dvals (q_nodes s') dq'.
Proof.
  destruct (tick_queue_add_due queue3 rings3 0%nat [] 1%nat 5) as (s' & dq' & Hrun & _ & Hv & _ & Hdue & _);
    [apply queue3_rep|eexists; reflexivity|reflexivity|constructor|constructor
    |reflexivity|lia|reflexivity|lia|].
  exists s', dq'. split_and!; [exact Hrun|exact Hdue|exact Hv].
Defined.

(** Nodes 1 and 2 queued by running the code, for the removal. *)
Lemma tick_queue_del_due_witness :
  ∃ s1 s2 s3, acoral_tick_queue_add 0%nat 1%nat queue3 = Ret (tt, s1) ∧
    acoral_tick_queue_add 0%nat 2%nat s1 = Ret (tt, s2) ∧
    acoral_tick_queue_del 0%nat 1%nat s2 = Ret (tt, s3) ∧
    due 0 [(1%nat, 5); (2%nat, 2)] = [(1%nat, 5); (2%nat, 7)] ∧
    dvals (q_nodes s3) [(2%nat, 2)] ∧ due 0 [(2%nat, 2)] = [(2%nat, 2)].
Proof.
  destruct (tick_queue_add_rep queue3 rings3 0%nat [] 1%nat 5) as (s1 & H1 & R1 & V1 & E1 & O1);
    [apply queue3_rep|eexists; reflexivity|reflexivity|constructor|constructor
    |reflexivity|lia|reflexivity|lia|].
  destruct (tick_queue_add_rep s1 (<[0%nat := [1%nat]]> (delete 1%nat rings3)) 0%nat [(1%nat, 5)] 2%nat 7) as (s2 & H2 & R2 & V2 & E2 & _);
    [exact R1|unfold is_queue; rewrite E1; eexists; reflexivity|reflexivity|exact V1
    |by apply Forall_singleton|reflexivity|lia|rewrite O1 by (apply not_elem_of_cons; split; [lia|apply not_elem_of_nil]); reflexivity|lia|].
  destruct (tick_queue_del_due s2 _ 0%nat [] 1%nat 5 [(2%nat, 2)] R2) as (s3 & H3 & _ & V3 & _);
    [unfold is_queue; rewrite E2, E1; eexists; reflexivity|reflexivity|exact V2|].
  exists s1, s2, s3. split_and!; [exact H1|exact H2|exact H3|reflexivity|exact V3|reflexivity].
Defined.

Lemma prio_queue_add_sorted_witness :
  ∃ s' pq', acoral_prio_queue_add 0%nat 2%nat queue3 = Ret (tt, s') ∧
    dvals (q_nodes s') pq' ∧ pq' = [(2%nat, 7)].
Proof.
  destruct (prio_queue_add_sorted queue3 rings3 0%nat [] 2%nat 7) as (s' & pq' & Hrun & _ & Hv & Hpq & _);
    [apply queue3_rep|eexists; reflexivity|reflexivity|constructor|constructor
    |reflexivity|lia|reflexivity|].
  exists s', pq'. split_and!; [exact Hrun|exact Hv|exact Hpq].
Defined.
