(* ===== verification/KTypes.v ===== *)
(** * The data of the kernel

    One record for the globals of kernel/src, thread.h, ipc.h, res_pool.h and
    ipi.h.  The arrays indexed by core ([need_sched], [sched_lock],
    [critical_nesting], [intr_nesting], [running_thread], [ready_thread],
    [acoral_ready_queues]) are kept as one record [percpu] per core; the objects
    the code reaches through pointers (threads, IPC objects, pool control
    blocks) are finite maps from their addresses, and 0 is [NULL]; list nodes
    are in the heap of [DList], named by [loc]. *)
From S2P Require Import Prelude Bitops DList Queues.
From stdpp Require Import list countable.
#[local] Open Scope Z_scope.

(** ** Configuration (bsp/zynq7020/config.h, thread.h) *)
Definition CFG_MAX_CPU : Z := 2.
Definition CFG_MAX_THREAD : Z := 60.
Definition CFG_TICKS_PER_SEC : Z := 1000.
Definition CFG_MIN_STACK_SIZE : Z := 128.
Definition ACORAL_MAX_PRIO_NUM : Z := Z.land (CFG_MAX_THREAD + 1) 0xff.
Definition ACORAL_MINI_PRIO : Z := ACORAL_MAX_PRIO_NUM - 1.
Definition ACORAL_IDLE_PRIO : Z := ACORAL_MINI_PRIO.
Definition ACORAL_DAEMON_PRIO : Z := ACORAL_MINI_PRIO - 2.
Definition ACORAL_TIMED_PRIO : Z := 1.
Definition ACORAL_THREAD_PRIO_BITMAP_SIZE : Z := ((ACORAL_MAX_PRIO_NUM + 1 + 7) / 8 + 4 - 1) / 4.

(** The thread states, one bit each. *)
Definition ACORAL_THREAD_STATE_READY : Z := 1.
Definition ACORAL_THREAD_STATE_SUSPEND : Z := 2.
Definition ACORAL_THREAD_STATE_RUNNING : Z := 4.
Definition ACORAL_THREAD_STATE_EXIT : Z := 8.
Definition ACORAL_THREAD_STATE_RELEASE : Z := 16.
Definition ACORAL_THREAD_STATE_MOVE : Z := 32.
Definition ACORAL_THREAD_STATE_RELOAD : Z := 64.

Definition ACORAL_PREEMPT_TIMED : Z := 2.
Definition ACORAL_PREEMPT_GLOBAL : Z := 1.
Definition ACORAL_PREEMPT_LOCAL : Z := 0.

(** [kernel_error_t]; the functions return it as [acoral_err], which is
    [acoral_u32]. *)
Inductive kernel_error_t : Type :=
  | KR_MEM_ERR_LESS | KR_MEM_ERR_UNDEF | KR_MEM_ERR_MALLOC
  | KR_POLICY_ERR_NULL | KR_POLICY_ERR_THREAD
  | KR_RES_ERR_NO_POOL | KR_RES_ERR_NO_MEM | KR_RES_ERR_MAX_POOL
  | KR_THREAD_ERR_NO_STACK | KR_THREAD_ERR_STATE | KR_THREAD_ERR_CPU
  | KR_THREAD_ERR_PRIO | KR_THREAD_ERR_UNDEF
  | KR_IPC_ERR_NULL | KR_IPC_ERR_TYPE | KR_IPC_ERR_TASK_EXIST | KR_IPC_ERR_INTR
  | KR_IPC_ERR_UNDEF | KR_IPC_ERR_TIMEOUT | KR_IPC_ERR_THREAD | KR_IPC_ERR_CPU
  | KR_OK.

#[export] Instance kernel_error_eq_dec : EqDecision kernel_error_t.
Proof. solve_decision. Defined.

(** The number of an error constant: -255 upwards, [KR_OK] 0. *)
Definition err_code (e : kernel_error_t) : Z :=
  match e with
  | KR_MEM_ERR_LESS => -255 | KR_MEM_ERR_UNDEF => -254 | KR_MEM_ERR_MALLOC => -253
  | KR_POLICY_ERR_NULL => -252 | KR_POLICY_ERR_THREAD => -251
  | KR_RES_ERR_NO_POOL => -250 | KR_RES_ERR_NO_MEM => -249 | KR_RES_ERR_MAX_POOL => -248
  | KR_THREAD_ERR_NO_STACK => -247 | KR_THREAD_ERR_STATE => -246 | KR_THREAD_ERR_CPU => -245
  | KR_THREAD_ERR_PRIO => -244 | KR_THREAD_ERR_UNDEF => -243
  | KR_IPC_ERR_NULL => -242 | KR_IPC_ERR_TYPE => -241 | KR_IPC_ERR_TASK_EXIST => -240
  | KR_IPC_ERR_INTR => -239 | KR_IPC_ERR_UNDEF => -238 | KR_IPC_ERR_TIMEOUT => -237
  | KR_IPC_ERR_THREAD => -236 | KR_IPC_ERR_CPU => -235
  | KR_OK => 0
  end.

(** ** List nodes *)

(** The list nodes of a thread control block. *)
Inductive tlink : Type := ready | pending | timing | delaying | global_list.

(** The queues whose heads are in the heap. *)
Inductive kqueue : Type :=
  | QReady (cpu prio : Z)      (* acoral_ready_queues[cpu].array.queue[prio] *)
  | QThreads                   (* acoral_threads_queue *)
  | QRelease                   (* acoral_release_queue *)
  | QDelay                     (* time_delay_queue *)
  | QPolicy                    (* policy_queue *)
  | QPeriod                    (* period_time_queue *)
  | QTimed (cpu : Z)           (* timed_time_queue[cpu] *)
  | QWait (i : Z)              (* i->wait_queue *)
  | QTotalPools (c : Z)        (* c->total_pools *)
  | QFreePools (c : Z)         (* c->free_pools *)
  | QMpcpStack (cpu : Z)       (* acoral_mpcp_system[cpu].stack *)
  | QMpcpWait (cpu : Z)
  | QDpcpStack (ty cpu : Z)    (* acoral_dpcp_system[ty][cpu].stack *)
  | QDpcpWait (ty cpu : Z)
  | QDpcp (ty cpu : Z)         (* acoral_dpcp_queue[ty][cpu] *)
  | QDag                       (* acoral_dag_queue *)
  | QDagUser                   (* acoral_dag_user_queue *)
  | QDagUserNodes (d : Z)      (* d->dag_user_node_queue *)
  | QDagNodes (d : Z)          (* d->dag_node_queue *)
  | QDagEdges (d : Z).         (* d->dag_edge_queue *)

Inductive loc : Type :=
  | LThread (t : Z) (f : tlink)
  | LQueue (q : kqueue)
  | LPolicy (p : Z)            (* p->list of an acoral_sched_policy_t *)
  | LTotal (p : Z)             (* p->total_list of an acoral_pool_t *)
  | LFree (p : Z)              (* p->free_list *)
  | LMpcp (m : Z)              (* m->stacking of an acoral_mpcp_t *)
  | LDpcpStack (d : Z)         (* d->stacking of an acoral_dpcp_t *)
  | LDpcpList (d : Z)          (* d->list *)
  | LDagUserNode (n : Z)       (* n->list of an acoral_dag_user_node *)
  | LDagUser (d : Z)           (* d->list of an acoral_dag_user *)
  | LDagNode (n : Z)           (* n->list of an acoral_dag_node *)
  | LDagEdge (e : Z)           (* e->list of an acoral_dag_edge *)
  | LDag (d : Z).              (* d->list of an acoral_dag *)

#[export] Instance tlink_eq_dec : EqDecision tlink.
Proof. solve_decision. Defined.

#[export] Instance kqueue_eq_dec : EqDecision kqueue.
Proof. solve_decision. Defined.

#[export] Instance loc_eq_dec : EqDecision loc.
Proof. solve_decision. Defined.

Definition encode_queue (q : kqueue) : nat * Z * Z :=
  match q with
  | QReady c p => (0%nat, c, p) | QThreads => (1%nat, 0, 0) | QRelease => (2%nat, 0, 0)
  | QDelay => (3%nat, 0, 0) | QPolicy => (4%nat, 0, 0) | QPeriod => (5%nat, 0, 0)
  | QTimed c => (6%nat, c, 0) | QWait i => (7%nat, i, 0) | QTotalPools c => (8%nat, c, 0)
  | QFreePools c => (9%nat, c, 0) | QMpcpStack c => (10%nat, c, 0) | QMpcpWait c => (11%nat, c, 0)
  | QDpcpStack t c => (12%nat, t, c) | QDpcpWait t c => (13%nat, t, c) | QDpcp t c => (14%nat, t, c)
  | QDag => (15%nat, 0, 0) | QDagUser => (16%nat, 0, 0) | QDagUserNodes d => (17%nat, d, 0)
  | QDagNodes d => (18%nat, d, 0) | QDagEdges d => (19%nat, d, 0)
  end.

Definition decode_queue (x : nat * Z * Z) : kqueue :=
  let '(n, a, b) := x in
  match n with
  | 0 => QReady a b | 1 => QThreads | 2 => QRelease | 3 => QDelay | 4 => QPolicy
  | 5 => QPeriod | 6 => QTimed a | 7 => QWait a | 8 => QTotalPools a | 9 => QFreePools a
  | 10 => QMpcpStack a | 11 => QMpcpWait a | 12 => QDpcpStack a b | 13 => QDpcpWait a b
  | 14 => QDpcp a b | 15 => QDag | 16 => QDagUser | 17 => QDagUserNodes a | 18 => QDagNodes a
  | _ => QDagEdges a
  end%nat.

Definition encode_loc (l : loc) : nat * (nat * Z * Z) :=
  match l with
  | LQueue q => (0%nat, encode_queue q)
  | LThread t ready => (1%nat, (0%nat, t, 0)) | LThread t pending => (1%nat, (1%nat, t, 0))
  | LThread t timing => (1%nat, (2%nat, t, 0)) | LThread t delaying => (1%nat, (3%nat, t, 0))
  | LThread t global_list => (1%nat, (4%nat, t, 0))
  | LPolicy p => (2%nat, (0%nat, p, 0)) | LTotal p => (3%nat, (0%nat, p, 0)) | LFree p => (4%nat, (0%nat, p, 0))
  | LMpcp m => (5%nat, (0%nat, m, 0)) | LDpcpStack d => (6%nat, (0%nat, d, 0)) | LDpcpList d => (7%nat, (0%nat, d, 0))
  | LDagUserNode n => (8%nat, (0%nat, n, 0)) | LDagUser d => (9%nat, (0%nat, d, 0)) | LDagNode n => (10%nat, (0%nat, n, 0))
  | LDagEdge e => (11%nat, (0%nat, e, 0)) | LDag d => (12%nat, (0%nat, d, 0))
  end.

Definition decode_loc (x : nat * (nat * Z * Z)) : loc :=
  let '(k, (n, a, b)) := x in
  match k, n with
  | 0, _ => LQueue (decode_queue (n, a, b))
  | 1, 0 => LThread a ready | 1, 1 => LThread a pending | 1, 2 => LThread a timing
  | 1, 3 => LThread a delaying | 1, _ => LThread a global_list
  | 2, _ => LPolicy a | 3, _ => LTotal a | 4, _ => LFree a
  | 5, _ => LMpcp a | 6, _ => LDpcpStack a | 7, _ => LDpcpList a
  | 8, _ => LDagUserNode a | 9, _ => LDagUser a | 10, _ => LDagNode a | 11, _ => LDagEdge a | _, _ => LDag a
  end%nat.

#[export] Instance loc_countable : Countable loc.
Proof. apply (inj_countable' encode_loc decode_loc). by intros [t []|[]| | | | | | | | | | |]. Defined.

(** ** Records *)
(** [acoral_thread_t]; its list nodes are the locations [LThread t f], and its [res] is in [k_res]. *)
Record thread : Type := mk_thread {
  t_stack : Z;  (* stack *)
  t_stack_buttom : Z;  (* stack_buttom *)
  t_stack_size : Z;
  t_move_lock : Z;
  t_state : Z;  (* acoral_u8 *)
  t_prio : Z;  (* acoral_u8 *)
  t_cpu : Z;  (* acoral_u32 *)
  t_cpu_mask : Z;  (* acoral_u32 *)
  t_policy : Z;  (* acoral_u8 *)
  t_preempt_type : Z;  (* acoral_u8 *)
  t_ipc : Z;  (* acoral_ipc_t *, 0 for NULL *)
  t_delay : Z;
  t_time : Z;
  t_name : Z;
  t_console_id : Z;  (* acoral_32 *)
  t_deal_hook : Z;  (* hook.deal_hook *)
  t_release_hook : Z;  (* hook.release_hook *)
  t_private_data : Z;
  t_data : Z;
}.

Definition set_t_stack (new : Z) (th : thread) : thread :=
  mk_thread new (t_stack_buttom th) (t_stack_size th) (t_move_lock th) (t_state th)
    (t_prio th) (t_cpu th) (t_cpu_mask th) (t_policy th) (t_preempt_type th) (t_ipc th)
    (t_delay th) (t_time th) (t_name th) (t_console_id th) (t_deal_hook th)
    (t_release_hook th) (t_private_data th) (t_data th).
Definition set_t_stack_buttom (new : Z) (th : thread) : thread :=
  mk_thread (t_stack th) new (t_stack_size th) (t_move_lock th) (t_state th) (t_prio th)
    (t_cpu th) (t_cpu_mask th) (t_policy th) (t_preempt_type th) (t_ipc th) (t_delay th)
    (t_time th) (t_name th) (t_console_id th) (t_deal_hook th) (t_release_hook th)
    (t_private_data th) (t_data th).
Definition set_t_stack_size (new : Z) (th : thread) : thread :=
  mk_thread (t_stack th) (t_stack_buttom th) new (t_move_lock th) (t_state th) (t_prio th)
    (t_cpu th) (t_cpu_mask th) (t_policy th) (t_preempt_type th) (t_ipc th) (t_delay th)
    (t_time th) (t_name th) (t_console_id th) (t_deal_hook th) (t_release_hook th)
    (t_private_data th) (t_data th).
Definition set_t_move_lock (new : Z) (th : thread) : thread :=
  mk_thread (t_stack th) (t_stack_buttom th) (t_stack_size th) new (t_state th)
    (t_prio th) (t_cpu th) (t_cpu_mask th) (t_policy th) (t_preempt_type th) (t_ipc th)
    (t_delay th) (t_time th) (t_name th) (t_console_id th) (t_deal_hook th)
    (t_release_hook th) (t_private_data th) (t_data th).
Definition set_t_state (new : Z) (th : thread) : thread :=
  mk_thread (t_stack th) (t_stack_buttom th) (t_stack_size th) (t_move_lock th) new
    (t_prio th) (t_cpu th) (t_cpu_mask th) (t_policy th) (t_preempt_type th) (t_ipc th)
    (t_delay th) (t_time th) (t_name th) (t_console_id th) (t_deal_hook th)
    (t_release_hook th) (t_private_data th) (t_data th).
Definition set_t_prio (new : Z) (th : thread) : thread :=
  mk_thread (t_stack th) (t_stack_buttom th) (t_stack_size th) (t_move_lock th)
    (t_state th) new (t_cpu th) (t_cpu_mask th) (t_policy th) (t_preempt_type th)
    (t_ipc th) (t_delay th) (t_time th) (t_name th) (t_console_id th) (t_deal_hook th)
    (t_release_hook th) (t_private_data th) (t_data th).
Definition set_t_cpu (new : Z) (th : thread) : thread :=
  mk_thread (t_stack th) (t_stack_buttom th) (t_stack_size th) (t_move_lock th)
    (t_state th) (t_prio th) new (t_cpu_mask th) (t_policy th) (t_preempt_type th)
    (t_ipc th) (t_delay th) (t_time th) (t_name th) (t_console_id th) (t_deal_hook th)
    (t_release_hook th) (t_private_data th) (t_data th).
Definition set_t_cpu_mask (new : Z) (th : thread) : thread :=
  mk_thread (t_stack th) (t_stack_buttom th) (t_stack_size th) (t_move_lock th)
    (t_state th) (t_prio th) (t_cpu th) new (t_policy th) (t_preempt_type th) (t_ipc th)
    (t_delay th) (t_time th) (t_name th) (t_console_id th) (t_deal_hook th)
    (t_release_hook th) (t_private_data th) (t_data th).
Definition set_t_policy (new : Z) (th : thread) : thread :=
  mk_thread (t_stack th) (t_stack_buttom th) (t_stack_size th) (t_move_lock th)
    (t_state th) (t_prio th) (t_cpu th) (t_cpu_mask th) new (t_preempt_type th) (t_ipc th)
    (t_delay th) (t_time th) (t_name th) (t_console_id th) (t_deal_hook th)
    (t_release_hook th) (t_private_data th) (t_data th).
Definition set_t_preempt_type (new : Z) (th : thread) : thread :=
  mk_thread (t_stack th) (t_stack_buttom th) (t_stack_size th) (t_move_lock th)
    (t_state th) (t_prio th) (t_cpu th) (t_cpu_mask th) (t_policy th) new (t_ipc th)
    (t_delay th) (t_time th) (t_name th) (t_console_id th) (t_deal_hook th)
    (t_release_hook th) (t_private_data th) (t_data th).
Definition set_t_ipc (new : Z) (th : thread) : thread :=
  mk_thread (t_stack th) (t_stack_buttom th) (t_stack_size th) (t_move_lock th)
    (t_state th) (t_prio th) (t_cpu th) (t_cpu_mask th) (t_policy th)
    (t_preempt_type th) new (t_delay th) (t_time th) (t_name th) (t_console_id th)
    (t_deal_hook th) (t_release_hook th) (t_private_data th) (t_data th).
Definition set_t_delay (new : Z) (th : thread) : thread :=
  mk_thread (t_stack th) (t_stack_buttom th) (t_stack_size th) (t_move_lock th)
    (t_state th) (t_prio th) (t_cpu th) (t_cpu_mask th) (t_policy th) (t_preempt_type th)
    (t_ipc th) new (t_time th) (t_name th) (t_console_id th) (t_deal_hook th)
    (t_release_hook th) (t_private_data th) (t_data th).
Definition set_t_time (new : Z) (th : thread) : thread :=
  mk_thread (t_stack th) (t_stack_buttom th) (t_stack_size th) (t_move_lock th)
    (t_state th) (t_prio th) (t_cpu th) (t_cpu_mask th) (t_policy th) (t_preempt_type th)
    (t_ipc th) (t_delay th) new (t_name th) (t_console_id th) (t_deal_hook th)
    (t_release_hook th) (t_private_data th) (t_data th).
Definition set_t_name (new : Z) (th : thread) : thread :=
  mk_thread (t_stack th) (t_stack_buttom th) (t_stack_size th) (t_move_lock th)
    (t_state th) (t_prio th) (t_cpu th) (t_cpu_mask th) (t_policy th) (t_preempt_type th)
    (t_ipc th) (t_delay th) (t_time th) new (t_console_id th) (t_deal_hook th)
    (t_release_hook th) (t_private_data th) (t_data th).
Definition set_t_console_id (new : Z) (th : thread) : thread :=
  mk_thread (t_stack th) (t_stack_buttom th) (t_stack_size th) (t_move_lock th)
    (t_state th) (t_prio th) (t_cpu th) (t_cpu_mask th) (t_policy th) (t_preempt_type th)
    (t_ipc th) (t_delay th) (t_time th) (t_name th) new (t_deal_hook th)
    (t_release_hook th) (t_private_data th) (t_data th).
Definition set_t_deal_hook (new : Z) (th : thread) : thread :=
  mk_thread (t_stack th) (t_stack_buttom th) (t_stack_size th) (t_move_lock th)
    (t_state th) (t_prio th) (t_cpu th) (t_cpu_mask th) (t_policy th) (t_preempt_type th)
    (t_ipc th) (t_delay th) (t_time th) (t_name th) (t_console_id th) new
    (t_release_hook th) (t_private_data th) (t_data th).
Definition set_t_release_hook (new : Z) (th : thread) : thread :=
  mk_thread (t_stack th) (t_stack_buttom th) (t_stack_size th) (t_move_lock th)
    (t_state th) (t_prio th) (t_cpu th) (t_cpu_mask th) (t_policy th) (t_preempt_type th)
    (t_ipc th) (t_delay th) (t_time th) (t_name th) (t_console_id th) (t_deal_hook th) new
    (t_private_data th) (t_data th).
Definition set_t_private_data (new : Z) (th : thread) : thread :=
  mk_thread (t_stack th) (t_stack_buttom th) (t_stack_size th) (t_move_lock th)
    (t_state th) (t_prio th) (t_cpu th) (t_cpu_mask th) (t_policy th) (t_preempt_type th)
    (t_ipc th) (t_delay th) (t_time th) (t_name th) (t_console_id th) (t_deal_hook th)
    (t_release_hook th) new (t_data th).
Definition set_t_data (new : Z) (th : thread) : thread :=
  mk_thread (t_stack th) (t_stack_buttom th) (t_stack_size th) (t_move_lock th)
    (t_state th) (t_prio th) (t_cpu th) (t_cpu_mask th) (t_policy th) (t_preempt_type th)
    (t_ipc th) (t_delay th) (t_time th) (t_name th) (t_console_id th) (t_deal_hook th)
    (t_release_hook th) (t_private_data th) new.

(** [acoral_ipc_t]; its wait queue is [QWait] and its [res] is in [k_res]. *)
Record ipc : Type := mk_ipc {
  i_type : Z;  (* acoral_u8 *)
  i_lock : Z;
  i_count : Z;  (* acoral_16 *)
  i_number : Z;  (* acoral_u16 *)
  i_name : Z;
  i_data : Z;
}.

Definition set_i_type (new : Z) (i : ipc) : ipc :=
  mk_ipc new (i_lock i) (i_count i) (i_number i) (i_name i) (i_data i).
Definition set_i_lock (new : Z) (i : ipc) : ipc :=
  mk_ipc (i_type i) new (i_count i) (i_number i) (i_name i) (i_data i).
Definition set_i_count (new : Z) (i : ipc) : ipc :=
  mk_ipc (i_type i) (i_lock i) new (i_number i) (i_name i) (i_data i).
Definition set_i_number (new : Z) (i : ipc) : ipc :=
  mk_ipc (i_type i) (i_lock i) (i_count i) new (i_name i) (i_data i).
Definition set_i_name (new : Z) (i : ipc) : ipc :=
  mk_ipc (i_type i) (i_lock i) (i_count i) (i_number i) new (i_data i).
Definition set_i_data (new : Z) (i : ipc) : ipc :=
  mk_ipc (i_type i) (i_lock i) (i_count i) (i_number i) (i_name i) new.

(** What the kernel keeps for each core. *)
Record percpu : Type := mk_percpu {
  c_need_sched : Z;  (* need_sched[cpu] *)
  c_sched_lock : Z;  (* sched_lock[cpu] *)
  c_critical_nesting : Z;  (* critical_nesting[cpu] *)
  c_intr_nesting : Z;  (* intr_nesting[cpu] *)
  c_running : Z;  (* running_thread[cpu] *)
  c_ready : Z;  (* ready_thread[cpu] *)
  c_num : Z;  (* acoral_ready_queues[cpu].array.num *)
  c_bitmap : list Z;  (* acoral_ready_queues[cpu].array.bitmap *)
  c_irq_switch : Z;  (* hal_irq_switch[cpu] *)
  c_pmr : Z;  (* the ICCPMR register of the core *)
}.

Definition set_c_need_sched (new : Z) (c : percpu) : percpu :=
  mk_percpu new (c_sched_lock c) (c_critical_nesting c) (c_intr_nesting c) (c_running c)
    (c_ready c) (c_num c) (c_bitmap c) (c_irq_switch c) (c_pmr c).
Definition set_c_sched_lock (new : Z) (c : percpu) : percpu :=
  mk_percpu (c_need_sched c) new (c_critical_nesting c) (c_intr_nesting c) (c_running c)
    (c_ready c) (c_num c) (c_bitmap c) (c_irq_switch c) (c_pmr c).
Definition set_c_critical_nesting (new : Z) (c : percpu) : percpu :=
  mk_percpu (c_need_sched c) (c_sched_lock c) new (c_intr_nesting c) (c_running c)
    (c_ready c) (c_num c) (c_bitmap c) (c_irq_switch c) (c_pmr c).
Definition set_c_intr_nesting (new : Z) (c : percpu) : percpu :=
  mk_percpu (c_need_sched c) (c_sched_lock c) (c_critical_nesting c) new (c_running c)
    (c_ready c) (c_num c) (c_bitmap c) (c_irq_switch c) (c_pmr c).
Definition set_c_running (new : Z) (c : percpu) : percpu :=
  mk_percpu (c_need_sched c) (c_sched_lock c) (c_critical_nesting c)
    (c_intr_nesting c) new (c_ready c) (c_num c) (c_bitmap c) (c_irq_switch c) (c_pmr c).
Definition set_c_ready (new : Z) (c : percpu) : percpu :=
  mk_percpu (c_need_sched c) (c_sched_lock c) (c_critical_nesting c) (c_intr_nesting c)
    (c_running c) new (c_num c) (c_bitmap c) (c_irq_switch c) (c_pmr c).
Definition set_c_num (new : Z) (c : percpu) : percpu :=
  mk_percpu (c_need_sched c) (c_sched_lock c) (c_critical_nesting c) (c_intr_nesting c)
    (c_running c) (c_ready c) new (c_bitmap c) (c_irq_switch c) (c_pmr c).
Definition set_c_bitmap (new : list Z) (c : percpu) : percpu :=
  mk_percpu (c_need_sched c) (c_sched_lock c) (c_critical_nesting c) (c_intr_nesting c)
    (c_running c) (c_ready c) (c_num c) new (c_irq_switch c) (c_pmr c).
Definition set_c_irq_switch (new : Z) (c : percpu) : percpu :=
  mk_percpu (c_need_sched c) (c_sched_lock c) (c_critical_nesting c) (c_intr_nesting c)
    (c_running c) (c_ready c) (c_num c) (c_bitmap c) new (c_pmr c).
Definition set_c_pmr (new : Z) (c : percpu) : percpu :=
  mk_percpu (c_need_sched c) (c_sched_lock c) (c_critical_nesting c) (c_intr_nesting c)
    (c_running c) (c_ready c) (c_num c) (c_bitmap c) (c_irq_switch c) new.

(** [acoral_pool_t]. *)
Record pool : Type := mk_pool {
  p_base_adr : Z;
  p_res_free : Z;
  p_id : Z;  (* acoral_32 *)
  p_size : Z;  (* acoral_u32 *)
  p_num : Z;  (* acoral_u32 *)
  p_free_num : Z;  (* acoral_u32 *)
  p_ctrl : Z;  (* acoral_pool_ctrl_t * *)
  p_lock : Z;
}.

Definition set_p_base_adr (new : Z) (p : pool) : pool :=
  mk_pool new (p_res_free p) (p_id p) (p_size p) (p_num p) (p_free_num p) (p_ctrl p)
    (p_lock p).
Definition set_p_res_free (new : Z) (p : pool) : pool :=
  mk_pool (p_base_adr p) new (p_id p) (p_size p) (p_num p) (p_free_num p) (p_ctrl p)
    (p_lock p).
Definition set_p_id (new : Z) (p : pool) : pool :=
  mk_pool (p_base_adr p) (p_res_free p) new (p_size p) (p_num p) (p_free_num p) (p_ctrl p)
    (p_lock p).
Definition set_p_size (new : Z) (p : pool) : pool :=
  mk_pool (p_base_adr p) (p_res_free p) (p_id p) new (p_num p) (p_free_num p) (p_ctrl p)
    (p_lock p).
Definition set_p_num (new : Z) (p : pool) : pool :=
  mk_pool (p_base_adr p) (p_res_free p) (p_id p) (p_size p) new (p_free_num p) (p_ctrl p)
    (p_lock p).
Definition set_p_free_num (new : Z) (p : pool) : pool :=
  mk_pool (p_base_adr p) (p_res_free p) (p_id p) (p_size p) (p_num p) new (p_ctrl p)
    (p_lock p).
Definition set_p_ctrl (new : Z) (p : pool) : pool :=
  mk_pool (p_base_adr p) (p_res_free p) (p_id p) (p_size p) (p_num p) (p_free_num p) new
    (p_lock p).
Definition set_p_lock (new : Z) (p : pool) : pool :=
  mk_pool (p_base_adr p) (p_res_free p) (p_id p) (p_size p) (p_num p) (p_free_num p)
    (p_ctrl p) new.

(** [acoral_pool_ctrl_t]. *)
Record pool_ctrl : Type := mk_pool_ctrl {
  pc_type : Z;  (* acoral_u32 *)
  pc_size : Z;  (* acoral_u32 *)
  pc_num_per_pool : Z;  (* acoral_u32 *)
  pc_num : Z;  (* acoral_u32 *)
  pc_max_pools : Z;  (* acoral_u32 *)
  pc_lock : Z;
}.

Definition set_pc_type (new : Z) (pc : pool_ctrl) : pool_ctrl :=
  mk_pool_ctrl new (pc_size pc) (pc_num_per_pool pc) (pc_num pc) (pc_max_pools pc)
    (pc_lock pc).
Definition set_pc_size (new : Z) (pc : pool_ctrl) : pool_ctrl :=
  mk_pool_ctrl (pc_type pc) new (pc_num_per_pool pc) (pc_num pc) (pc_max_pools pc)
    (pc_lock pc).
Definition set_pc_num_per_pool (new : Z) (pc : pool_ctrl) : pool_ctrl :=
  mk_pool_ctrl (pc_type pc) (pc_size pc) new (pc_num pc) (pc_max_pools pc) (pc_lock pc).
Definition set_pc_num (new : Z) (pc : pool_ctrl) : pool_ctrl :=
  mk_pool_ctrl (pc_type pc) (pc_size pc) (pc_num_per_pool pc) new (pc_max_pools pc)
    (pc_lock pc).
Definition set_pc_max_pools (new : Z) (pc : pool_ctrl) : pool_ctrl :=
  mk_pool_ctrl (pc_type pc) (pc_size pc) (pc_num_per_pool pc) (pc_num pc) new (pc_lock pc).
Definition set_pc_lock (new : Z) (pc : pool_ctrl) : pool_ctrl :=
  mk_pool_ctrl (pc_type pc) (pc_size pc) (pc_num_per_pool pc) (pc_num pc)
    (pc_max_pools pc) new.

(** [acoral_ipi_cmd_t]. *)
Record ipi_cmd : Type := mk_ipi_cmd {
  m_lock : Z;
  m_cmd : Z;  (* acoral_u32 *)
  m_thread_id : Z;  (* acoral_id *)
  m_data : Z;
}.

Definition set_m_lock (new : Z) (m : ipi_cmd) : ipi_cmd :=
  mk_ipi_cmd new (m_cmd m) (m_thread_id m) (m_data m).
Definition set_m_cmd (new : Z) (m : ipi_cmd) : ipi_cmd :=
  mk_ipi_cmd (m_lock m) new (m_thread_id m) (m_data m).
Definition set_m_thread_id (new : Z) (m : ipi_cmd) : ipi_cmd :=
  mk_ipi_cmd (m_lock m) (m_cmd m) new (m_data m).
Definition set_m_data (new : Z) (m : ipi_cmd) : ipi_cmd :=
  mk_ipi_cmd (m_lock m) (m_cmd m) (m_thread_id m) new.

(** The functions a policy registers: none, or those of comm_thrd.c,
    period_thrd.c, timed_thrd.c or another one. *)
Inductive policy_fun : Type := FNull | FComm | FPeriod | FTimed | FOther (f : Z).

#[export] Instance policy_fun_eq_dec : EqDecision policy_fun.
Proof. solve_decision. Defined.

(** [acoral_sched_policy_t]; its list node is [LPolicy]. Its name is only printed. *)
Record policy : Type := mk_policy {
  po_type : Z;  (* acoral_u8 *)
  po_thread_init : policy_fun;
  po_thread_release : policy_fun;
  po_time_deal : policy_fun;
}.

Definition set_po_type (new : Z) (po : policy) : policy :=
  mk_policy new (po_thread_init po) (po_thread_release po) (po_time_deal po).
Definition set_po_thread_init (new : policy_fun) (po : policy) : policy :=
  mk_policy (po_type po) new (po_thread_release po) (po_time_deal po).
Definition set_po_thread_release (new : policy_fun) (po : policy) : policy :=
  mk_policy (po_type po) (po_thread_init po) new (po_time_deal po).
Definition set_po_time_deal (new : policy_fun) (po : policy) : policy :=
  mk_policy (po_type po) (po_thread_init po) (po_thread_release po) new.

(** [period_private_data_t]. *)
Record period_data : Type := mk_period_data {
  pd_time : Z;  (* acoral_time *)
  pd_route : Z;
  pd_args : Z;
}.

Definition set_pd_time (new : Z) (pd : period_data) : period_data :=
  mk_period_data new (pd_route pd) (pd_args pd).
Definition set_pd_route (new : Z) (pd : period_data) : period_data :=
  mk_period_data (pd_time pd) new (pd_args pd).
Definition set_pd_args (new : Z) (pd : period_data) : period_data :=
  mk_period_data (pd_time pd) (pd_route pd) new.

(** [acoral_mpcp_t]; its list node is [LMpcp]. *)
Record mpcp : Type := mk_mpcp {
  mp_sem : Z;  (* acoral_ipc_t * *)
  mp_type : Z;  (* acoral_u8 *)
  mp_cpu : Z;  (* acoral_u32 *)
  mp_prio_ceiling : Z;  (* acoral_u8 *)
  mp_prio_switch : Z;  (* acoral_u8 *)
  mp_lock : Z;
}.

Definition set_mp_sem (new : Z) (mp : mpcp) : mpcp :=
  mk_mpcp new (mp_type mp) (mp_cpu mp) (mp_prio_ceiling mp) (mp_prio_switch mp)
    (mp_lock mp).
Definition set_mp_type (new : Z) (mp : mpcp) : mpcp :=
  mk_mpcp (mp_sem mp) new (mp_cpu mp) (mp_prio_ceiling mp) (mp_prio_switch mp) (mp_lock mp).
Definition set_mp_cpu (new : Z) (mp : mpcp) : mpcp :=
  mk_mpcp (mp_sem mp) (mp_type mp) new (mp_prio_ceiling mp) (mp_prio_switch mp)
    (mp_lock mp).
Definition set_mp_prio_ceiling (new : Z) (mp : mpcp) : mpcp :=
  mk_mpcp (mp_sem mp) (mp_type mp) (mp_cpu mp) new (mp_prio_switch mp) (mp_lock mp).
Definition set_mp_prio_switch (new : Z) (mp : mpcp) : mpcp :=
  mk_mpcp (mp_sem mp) (mp_type mp) (mp_cpu mp) (mp_prio_ceiling mp) new (mp_lock mp).
Definition set_mp_lock (new : Z) (mp : mpcp) : mpcp :=
  mk_mpcp (mp_sem mp) (mp_type mp) (mp_cpu mp) (mp_prio_ceiling mp) (mp_prio_switch mp) new.

(** [acoral_dpcp_t]; its list nodes are [LDpcpStack] and [LDpcpList]. *)
Record dpcp : Type := mk_dpcp {
  dp_sem : Z;  (* acoral_ipc_t * *)
  dp_cpu : Z;  (* acoral_u32 *)
  dp_type : Z;  (* acoral_u8 *)
  dp_prio_ceiling : Z;  (* acoral_u8 *)
  dp_prio_switch : Z;  (* acoral_u8 *)
  dp_data : Z;
}.

Definition set_dp_sem (new : Z) (dp : dpcp) : dpcp :=
  mk_dpcp new (dp_cpu dp) (dp_type dp) (dp_prio_ceiling dp) (dp_prio_switch dp)
    (dp_data dp).
Definition set_dp_cpu (new : Z) (dp : dpcp) : dpcp :=
  mk_dpcp (dp_sem dp) new (dp_type dp) (dp_prio_ceiling dp) (dp_prio_switch dp)
    (dp_data dp).
Definition set_dp_type (new : Z) (dp : dpcp) : dpcp :=
  mk_dpcp (dp_sem dp) (dp_cpu dp) new (dp_prio_ceiling dp) (dp_prio_switch dp) (dp_data dp).
Definition set_dp_prio_ceiling (new : Z) (dp : dpcp) : dpcp :=
  mk_dpcp (dp_sem dp) (dp_cpu dp) (dp_type dp) new (dp_prio_switch dp) (dp_data dp).
Definition set_dp_prio_switch (new : Z) (dp : dpcp) : dpcp :=
  mk_dpcp (dp_sem dp) (dp_cpu dp) (dp_type dp) (dp_prio_ceiling dp) new (dp_data dp).
Definition set_dp_data (new : Z) (dp : dpcp) : dpcp :=
  mk_dpcp (dp_sem dp) (dp_cpu dp) (dp_type dp) (dp_prio_ceiling dp) (dp_prio_switch dp) new.

(** [timed_private_data_t]. *)
Record timed_data : Type := mk_timed_data {
  td_start_time : Z;  (* acoral_time * *)
  td_exe_time : Z;  (* acoral_time * *)
  td_ipc : Z;  (* acoral_ipc_t ** *)
  td_section_num : Z;  (* acoral_u8 *)
  td_frequency : Z;  (* acoral_u8 *)
  td_section : Z;  (* acoral_u8 *)
  td_run_num : Z;  (* acoral_u8 *)
  td_route : Z;
  td_section_route : Z;
  td_section_args : Z;
  td_args : Z;
}.

Definition set_td_start_time (new : Z) (td : timed_data) : timed_data :=
  mk_timed_data new (td_exe_time td) (td_ipc td) (td_section_num td) (td_frequency td)
    (td_section td) (td_run_num td) (td_route td) (td_section_route td)
    (td_section_args td) (td_args td).
Definition set_td_exe_time (new : Z) (td : timed_data) : timed_data :=
  mk_timed_data (td_start_time td) new (td_ipc td) (td_section_num td) (td_frequency td)
    (td_section td) (td_run_num td) (td_route td) (td_section_route td)
    (td_section_args td) (td_args td).
Definition set_td_ipc (new : Z) (td : timed_data) : timed_data :=
  mk_timed_data (td_start_time td) (td_exe_time td) new (td_section_num td)
    (td_frequency td) (td_section td) (td_run_num td) (td_route td) (td_section_route td)
    (td_section_args td) (td_args td).
Definition set_td_section_num (new : Z) (td : timed_data) : timed_data :=
  mk_timed_data (td_start_time td) (td_exe_time td) (td_ipc td) new (td_frequency td)
    (td_section td) (td_run_num td) (td_route td) (td_section_route td)
    (td_section_args td) (td_args td).
Definition set_td_frequency (new : Z) (td : timed_data) : timed_data :=
  mk_timed_data (td_start_time td) (td_exe_time td) (td_ipc td) (td_section_num td) new
    (td_section td) (td_run_num td) (td_route td) (td_section_route td)
    (td_section_args td) (td_args td).
Definition set_td_section (new : Z) (td : timed_data) : timed_data :=
  mk_timed_data (td_start_time td) (td_exe_time td) (td_ipc td) (td_section_num td)
    (td_frequency td) new (td_run_num td) (td_route td) (td_section_route td)
    (td_section_args td) (td_args td).
Definition set_td_run_num (new : Z) (td : timed_data) : timed_data :=
  mk_timed_data (td_start_time td) (td_exe_time td) (td_ipc td) (td_section_num td)
    (td_frequency td) (td_section td) new (td_route td) (td_section_route td)
    (td_section_args td) (td_args td).
Definition set_td_route (new : Z) (td : timed_data) : timed_data :=
  mk_timed_data (td_start_time td) (td_exe_time td) (td_ipc td) (td_section_num td)
    (td_frequency td) (td_section td) (td_run_num td) new (td_section_route td)
    (td_section_args td) (td_args td).
Definition set_td_section_route (new : Z) (td : timed_data) : timed_data :=
  mk_timed_data (td_start_time td) (td_exe_time td) (td_ipc td) (td_section_num td)
    (td_frequency td) (td_section td) (td_run_num td) (td_route td) new
    (td_section_args td) (td_args td).
Definition set_td_section_args (new : Z) (td : timed_data) : timed_data :=
  mk_timed_data (td_start_time td) (td_exe_time td) (td_ipc td) (td_section_num td)
    (td_frequency td) (td_section td) (td_run_num td) (td_route td)
    (td_section_route td) new (td_args td).
Definition set_td_args (new : Z) (td : timed_data) : timed_data :=
  mk_timed_data (td_start_time td) (td_exe_time td) (td_ipc td) (td_section_num td)
    (td_frequency td) (td_section td) (td_run_num td) (td_route td) (td_section_route td)
    (td_section_args td) new.

(** [acoral_dag_user_node]; its list node is [LDagUserNode]. *)
Record dag_user_node : Type := mk_dag_user_node {
  un_prev_route : Z;  (* acoral_func_point * *)
  un_prev_count : Z;  (* unsigned int *)
  un_route : Z;
  un_args : Z;
  un_processor : Z;  (* acoral_u32 *)
  un_prio : Z;  (* acoral_u8 *)
}.

Definition set_un_prev_route (new : Z) (un : dag_user_node) : dag_user_node :=
  mk_dag_user_node new (un_prev_count un) (un_route un) (un_args un) (un_processor un)
    (un_prio un).
Definition set_un_prev_count (new : Z) (un : dag_user_node) : dag_user_node :=
  mk_dag_user_node (un_prev_route un) new (un_route un) (un_args un) (un_processor un)
    (un_prio un).
Definition set_un_route (new : Z) (un : dag_user_node) : dag_user_node :=
  mk_dag_user_node (un_prev_route un) (un_prev_count un) new (un_args un)
    (un_processor un) (un_prio un).
Definition set_un_args (new : Z) (un : dag_user_node) : dag_user_node :=
  mk_dag_user_node (un_prev_route un) (un_prev_count un) (un_route un) new
    (un_processor un) (un_prio un).
Definition set_un_processor (new : Z) (un : dag_user_node) : dag_user_node :=
  mk_dag_user_node (un_prev_route un) (un_prev_count un) (un_route un) (un_args un) new
    (un_prio un).
Definition set_un_prio (new : Z) (un : dag_user_node) : dag_user_node :=
  mk_dag_user_node (un_prev_route un) (un_prev_count un) (un_route un) (un_args un)
    (un_processor un) new.

(** [acoral_dag_user]; its queue is [QDagUserNodes], its list node [LDagUser]. *)
Record dag_user : Type := mk_dag_user {
  du_period_time : Z;  (* acoral_time *)
}.

Definition set_du_period_time (new : Z) (du : dag_user) : dag_user :=
  mk_dag_user new.

(** [acoral_dag_node]; its list node is [LDagNode]. *)
Record dag_node : Type := mk_dag_node {
  dn_route : Z;
  dn_args : Z;
  dn_in_degree : Z;  (* acoral_u16 *)
  dn_sem : Z;  (* acoral_ipc_t * *)
  dn_processor : Z;  (* acoral_u32 *)
  dn_prio : Z;  (* acoral_u8 *)
}.

Definition set_dn_route (new : Z) (dn : dag_node) : dag_node :=
  mk_dag_node new (dn_args dn) (dn_in_degree dn) (dn_sem dn) (dn_processor dn) (dn_prio dn).
Definition set_dn_args (new : Z) (dn : dag_node) : dag_node :=
  mk_dag_node (dn_route dn) new (dn_in_degree dn) (dn_sem dn) (dn_processor dn)
    (dn_prio dn).
Definition set_dn_in_degree (new : Z) (dn : dag_node) : dag_node :=
  mk_dag_node (dn_route dn) (dn_args dn) new (dn_sem dn) (dn_processor dn) (dn_prio dn).
Definition set_dn_sem (new : Z) (dn : dag_node) : dag_node :=
  mk_dag_node (dn_route dn) (dn_args dn) (dn_in_degree dn) new (dn_processor dn)
    (dn_prio dn).
Definition set_dn_processor (new : Z) (dn : dag_node) : dag_node :=
  mk_dag_node (dn_route dn) (dn_args dn) (dn_in_degree dn) (dn_sem dn) new (dn_prio dn).
Definition set_dn_prio (new : Z) (dn : dag_node) : dag_node :=
  mk_dag_node (dn_route dn) (dn_args dn) (dn_in_degree dn) (dn_sem dn)
    (dn_processor dn) new.

(** [acoral_dag_edge]; its list node is [LDagEdge]. *)
Record dag_edge : Type := mk_dag_edge {
  de_prev_node : Z;  (* acoral_dag_node * *)
  de_next_node : Z;  (* acoral_dag_node * *)
}.

Definition set_de_prev_node (new : Z) (de : dag_edge) : dag_edge :=
  mk_dag_edge new (de_next_node de).
Definition set_de_next_node (new : Z) (de : dag_edge) : dag_edge :=
  mk_dag_edge (de_prev_node de) new.

(** [acoral_dag]; its queues are [QDagNodes] and [QDagEdges], its list node [LDag]. *)
Record dag : Type := mk_dag {
  dg_period_time : Z;  (* acoral_time *)
}.

Definition set_dg_period_time (new : Z) (dg : dag) : dag :=
  mk_dag new.

(** [dag_task_data_t]. *)
Record dag_task_data : Type := mk_dag_task_data {
  dt_pend_ipc : Z;  (* acoral_ipc_t ** *)
  dt_pend_ipc_cnt : Z;  (* acoral_u32 *)
  dt_post_ipc : Z;  (* acoral_ipc_t * *)
  dt_dag_route : Z;
  dt_dag_args : Z;
}.

Definition set_dt_pend_ipc (new : Z) (dt : dag_task_data) : dag_task_data :=
  mk_dag_task_data new (dt_pend_ipc_cnt dt) (dt_post_ipc dt) (dt_dag_route dt)
    (dt_dag_args dt).
Definition set_dt_pend_ipc_cnt (new : Z) (dt : dag_task_data) : dag_task_data :=
  mk_dag_task_data (dt_pend_ipc dt) new (dt_post_ipc dt) (dt_dag_route dt) (dt_dag_args dt).
Definition set_dt_post_ipc (new : Z) (dt : dag_task_data) : dag_task_data :=
  mk_dag_task_data (dt_pend_ipc dt) (dt_pend_ipc_cnt dt) new (dt_dag_route dt)
    (dt_dag_args dt).
Definition set_dt_dag_route (new : Z) (dt : dag_task_data) : dag_task_data :=
  mk_dag_task_data (dt_pend_ipc dt) (dt_pend_ipc_cnt dt) (dt_post_ipc dt) new
    (dt_dag_args dt).
Definition set_dt_dag_args (new : Z) (dt : dag_task_data) : dag_task_data :=
  mk_dag_task_data (dt_pend_ipc dt) (dt_pend_ipc_cnt dt) (dt_post_ipc dt)
    (dt_dag_route dt) new.

(** What the scheduling policies, the priority ceiling protocols, the start-up code and the task graphs keep. *)
Record kext : Type := mk_kext {
  x_policies : gmap Z policy;  (* the acoral_sched_policy_t, by address *)
  x_pdata : gmap Z period_data;  (* the period_private_data_t, by address *)
  x_mpcp : gmap Z mpcp;  (* the MPCP resources, by address *)
  x_mpcp_prio : list Z;  (* acoral_mpcp_system[cpu].prio *)
  x_dpcp : gmap Z dpcp;  (* the DPCP resources, by address *)
  x_dpcp_prio : list Z;  (* acoral_dpcp_system[ty][cpu].prio, at ty * CFG_MAX_CPU + cpu *)
  x_timed : gmap Z timed_data;  (* the timed_private_data_t, by address *)
  x_last_timed : list Z;  (* last_timed_thread[cpu] of timed_time_deal *)
  x_time_last : Z;  (* time_last of timed_start_time_reload *)
  x_words : gmap Z Z;  (* words of allocated memory *)
  x_core_cpu : Z;  (* core_cpu of acoral_start *)
  x_cmp_lock : Z;  (* cmp_lock *)
  x_ipi_status : list Z;  (* ipi_status *)
  x_idle_id : Z;  (* idle_id *)
  x_init_id : Z;  (* init_id *)
  x_dag_unodes : gmap Z dag_user_node;  (* the acoral_dag_user_node, by address *)
  x_dag_users : gmap Z dag_user;  (* the acoral_dag_user, by address *)
  x_dag_nodes : gmap Z dag_node;  (* the acoral_dag_node, by address *)
  x_dag_edges : gmap Z dag_edge;  (* the acoral_dag_edge, by address *)
  x_dags : gmap Z dag;  (* the acoral_dag, by address *)
  x_dag_tasks : gmap Z dag_task_data;  (* the dag_task_data_t, by address *)
}.

Definition set_x_policies (new : gmap Z policy) (x : kext) : kext :=
  mk_kext new (x_pdata x) (x_mpcp x) (x_mpcp_prio x) (x_dpcp x) (x_dpcp_prio x)
    (x_timed x) (x_last_timed x) (x_time_last x) (x_words x) (x_core_cpu x) (x_cmp_lock x)
    (x_ipi_status x) (x_idle_id x) (x_init_id x) (x_dag_unodes x) (x_dag_users x)
    (x_dag_nodes x) (x_dag_edges x) (x_dags x) (x_dag_tasks x).
Definition set_x_pdata (new : gmap Z period_data) (x : kext) : kext :=
  mk_kext (x_policies x) new (x_mpcp x) (x_mpcp_prio x) (x_dpcp x) (x_dpcp_prio x)
    (x_timed x) (x_last_timed x) (x_time_last x) (x_words x) (x_core_cpu x) (x_cmp_lock x)
    (x_ipi_status x) (x_idle_id x) (x_init_id x) (x_dag_unodes x) (x_dag_users x)
    (x_dag_nodes x) (x_dag_edges x) (x_dags x) (x_dag_tasks x).
Definition set_x_mpcp (new : gmap Z mpcp) (x : kext) : kext :=
  mk_kext (x_policies x) (x_pdata x) new (x_mpcp_prio x) (x_dpcp x) (x_dpcp_prio x)
    (x_timed x) (x_last_timed x) (x_time_last x) (x_words x) (x_core_cpu x) (x_cmp_lock x)
    (x_ipi_status x) (x_idle_id x) (x_init_id x) (x_dag_unodes x) (x_dag_users x)
    (x_dag_nodes x) (x_dag_edges x) (x_dags x) (x_dag_tasks x).
Definition set_x_mpcp_prio (new : list Z) (x : kext) : kext :=
  mk_kext (x_policies x) (x_pdata x) (x_mpcp x) new (x_dpcp x) (x_dpcp_prio x) (x_timed x)
    (x_last_timed x) (x_time_last x) (x_words x) (x_core_cpu x) (x_cmp_lock x)
    (x_ipi_status x) (x_idle_id x) (x_init_id x) (x_dag_unodes x) (x_dag_users x)
    (x_dag_nodes x) (x_dag_edges x) (x_dags x) (x_dag_tasks x).
Definition set_x_dpcp (new : gmap Z dpcp) (x : kext) : kext :=
  mk_kext (x_policies x) (x_pdata x) (x_mpcp x) (x_mpcp_prio x) new (x_dpcp_prio x)
    (x_timed x) (x_last_timed x) (x_time_last x) (x_words x) (x_core_cpu x) (x_cmp_lock x)
    (x_ipi_status x) (x_idle_id x) (x_init_id x) (x_dag_unodes x) (x_dag_users x)
    (x_dag_nodes x) (x_dag_edges x) (x_dags x) (x_dag_tasks x).
Definition set_x_dpcp_prio (new : list Z) (x : kext) : kext :=
  mk_kext (x_policies x) (x_pdata x) (x_mpcp x) (x_mpcp_prio x) (x_dpcp x) new (x_timed x)
    (x_last_timed x) (x_time_last x) (x_words x) (x_core_cpu x) (x_cmp_lock x)
    (x_ipi_status x) (x_idle_id x) (x_init_id x) (x_dag_unodes x) (x_dag_users x)
    (x_dag_nodes x) (x_dag_edges x) (x_dags x) (x_dag_tasks x).
Definition set_x_timed (new : gmap Z timed_data) (x : kext) : kext :=
  mk_kext (x_policies x) (x_pdata x) (x_mpcp x) (x_mpcp_prio x) (x_dpcp x)
    (x_dpcp_prio x) new (x_last_timed x) (x_time_last x) (x_words x) (x_core_cpu x)
    (x_cmp_lock x) (x_ipi_status x) (x_idle_id x) (x_init_id x) (x_dag_unodes x)
    (x_dag_users x) (x_dag_nodes x) (x_dag_edges x) (x_dags x) (x_dag_tasks x).
Definition set_x_last_timed (new : list Z) (x : kext) : kext :=
  mk_kext (x_policies x) (x_pdata x) (x_mpcp x) (x_mpcp_prio x) (x_dpcp x) (x_dpcp_prio x)
    (x_timed x) new (x_time_last x) (x_words x) (x_core_cpu x) (x_cmp_lock x)
    (x_ipi_status x) (x_idle_id x) (x_init_id x) (x_dag_unodes x) (x_dag_users x)
    (x_dag_nodes x) (x_dag_edges x) (x_dags x) (x_dag_tasks x).
Definition set_x_time_last (new : Z) (x : kext) : kext :=
  mk_kext (x_policies x) (x_pdata x) (x_mpcp x) (x_mpcp_prio x) (x_dpcp x) (x_dpcp_prio x)
    (x_timed x) (x_last_timed x) new (x_words x) (x_core_cpu x) (x_cmp_lock x)
    (x_ipi_status x) (x_idle_id x) (x_init_id x) (x_dag_unodes x) (x_dag_users x)
    (x_dag_nodes x) (x_dag_edges x) (x_dags x) (x_dag_tasks x).
Definition set_x_words (new : gmap Z Z) (x : kext) : kext :=
  mk_kext (x_policies x) (x_pdata x) (x_mpcp x) (x_mpcp_prio x) (x_dpcp x) (x_dpcp_prio x)
    (x_timed x) (x_last_timed x) (x_time_last x) new (x_core_cpu x) (x_cmp_lock x)
    (x_ipi_status x) (x_idle_id x) (x_init_id x) (x_dag_unodes x) (x_dag_users x)
    (x_dag_nodes x) (x_dag_edges x) (x_dags x) (x_dag_tasks x).
Definition set_x_core_cpu (new : Z) (x : kext) : kext :=
  mk_kext (x_policies x) (x_pdata x) (x_mpcp x) (x_mpcp_prio x) (x_dpcp x) (x_dpcp_prio x)
    (x_timed x) (x_last_timed x) (x_time_last x) (x_words x) new (x_cmp_lock x)
    (x_ipi_status x) (x_idle_id x) (x_init_id x) (x_dag_unodes x) (x_dag_users x)
    (x_dag_nodes x) (x_dag_edges x) (x_dags x) (x_dag_tasks x).
Definition set_x_cmp_lock (new : Z) (x : kext) : kext :=
  mk_kext (x_policies x) (x_pdata x) (x_mpcp x) (x_mpcp_prio x) (x_dpcp x) (x_dpcp_prio x)
    (x_timed x) (x_last_timed x) (x_time_last x) (x_words x) (x_core_cpu x) new
    (x_ipi_status x) (x_idle_id x) (x_init_id x) (x_dag_unodes x) (x_dag_users x)
    (x_dag_nodes x) (x_dag_edges x) (x_dags x) (x_dag_tasks x).
Definition set_x_ipi_status (new : list Z) (x : kext) : kext :=
  mk_kext (x_policies x) (x_pdata x) (x_mpcp x) (x_mpcp_prio x) (x_dpcp x) (x_dpcp_prio x)
    (x_timed x) (x_last_timed x) (x_time_last x) (x_words x) (x_core_cpu x)
    (x_cmp_lock x) new (x_idle_id x) (x_init_id x) (x_dag_unodes x) (x_dag_users x)
    (x_dag_nodes x) (x_dag_edges x) (x_dags x) (x_dag_tasks x).
Definition set_x_idle_id (new : Z) (x : kext) : kext :=
  mk_kext (x_policies x) (x_pdata x) (x_mpcp x) (x_mpcp_prio x) (x_dpcp x) (x_dpcp_prio x)
    (x_timed x) (x_last_timed x) (x_time_last x) (x_words x) (x_core_cpu x) (x_cmp_lock x)
    (x_ipi_status x) new (x_init_id x) (x_dag_unodes x) (x_dag_users x) (x_dag_nodes x)
    (x_dag_edges x) (x_dags x) (x_dag_tasks x).
Definition set_x_init_id (new : Z) (x : kext) : kext :=
  mk_kext (x_policies x) (x_pdata x) (x_mpcp x) (x_mpcp_prio x) (x_dpcp x) (x_dpcp_prio x)
    (x_timed x) (x_last_timed x) (x_time_last x) (x_words x) (x_core_cpu x) (x_cmp_lock x)
    (x_ipi_status x) (x_idle_id x) new (x_dag_unodes x) (x_dag_users x) (x_dag_nodes x)
    (x_dag_edges x) (x_dags x) (x_dag_tasks x).
Definition set_x_dag_unodes (new : gmap Z dag_user_node) (x : kext) : kext :=
  mk_kext (x_policies x) (x_pdata x) (x_mpcp x) (x_mpcp_prio x) (x_dpcp x) (x_dpcp_prio x)
    (x_timed x) (x_last_timed x) (x_time_last x) (x_words x) (x_core_cpu x) (x_cmp_lock x)
    (x_ipi_status x) (x_idle_id x) (x_init_id x) new (x_dag_users x) (x_dag_nodes x)
    (x_dag_edges x) (x_dags x) (x_dag_tasks x).
Definition set_x_dag_users (new : gmap Z dag_user) (x : kext) : kext :=
  mk_kext (x_policies x) (x_pdata x) (x_mpcp x) (x_mpcp_prio x) (x_dpcp x) (x_dpcp_prio x)
    (x_timed x) (x_last_timed x) (x_time_last x) (x_words x) (x_core_cpu x) (x_cmp_lock x)
    (x_ipi_status x) (x_idle_id x) (x_init_id x) (x_dag_unodes x) new (x_dag_nodes x)
    (x_dag_edges x) (x_dags x) (x_dag_tasks x).
Definition set_x_dag_nodes (new : gmap Z dag_node) (x : kext) : kext :=
  mk_kext (x_policies x) (x_pdata x) (x_mpcp x) (x_mpcp_prio x) (x_dpcp x) (x_dpcp_prio x)
    (x_timed x) (x_last_timed x) (x_time_last x) (x_words x) (x_core_cpu x) (x_cmp_lock x)
    (x_ipi_status x) (x_idle_id x) (x_init_id x) (x_dag_unodes x) (x_dag_users x) new
    (x_dag_edges x) (x_dags x) (x_dag_tasks x).
Definition set_x_dag_edges (new : gmap Z dag_edge) (x : kext) : kext :=
  mk_kext (x_policies x) (x_pdata x) (x_mpcp x) (x_mpcp_prio x) (x_dpcp x) (x_dpcp_prio x)
    (x_timed x) (x_last_timed x) (x_time_last x) (x_words x) (x_core_cpu x) (x_cmp_lock x)
    (x_ipi_status x) (x_idle_id x) (x_init_id x) (x_dag_unodes x) (x_dag_users x)
    (x_dag_nodes x) new (x_dags x) (x_dag_tasks x).
Definition set_x_dags (new : gmap Z dag) (x : kext) : kext :=
  mk_kext (x_policies x) (x_pdata x) (x_mpcp x) (x_mpcp_prio x) (x_dpcp x) (x_dpcp_prio x)
    (x_timed x) (x_last_timed x) (x_time_last x) (x_words x) (x_core_cpu x) (x_cmp_lock x)
    (x_ipi_status x) (x_idle_id x) (x_init_id x) (x_dag_unodes x) (x_dag_users x)
    (x_dag_nodes x) (x_dag_edges x) new (x_dag_tasks x).
Definition set_x_dag_tasks (new : gmap Z dag_task_data) (x : kext) : kext :=
  mk_kext (x_policies x) (x_pdata x) (x_mpcp x) (x_mpcp_prio x) (x_dpcp x) (x_dpcp_prio x)
    (x_timed x) (x_last_timed x) (x_time_last x) (x_words x) (x_core_cpu x) (x_cmp_lock x)
    (x_ipi_status x) (x_idle_id x) (x_init_id x) (x_dag_unodes x) (x_dag_users x)
    (x_dag_nodes x) (x_dag_edges x) (x_dags x) new.

(** Nothing above the scheduler yet. *)
Definition no_ext : kext := mk_kext ∅ ∅ ∅ [] ∅ [] ∅ [] 0 ∅ 1 0 [0; 0] 0 0 ∅ ∅ ∅ ∅ ∅ ∅.

(** The kernel. *)
Record kstate : Type := mk_kstate {
  k_cpu : Z;  (* the core that executes *)
  k_cpus : list percpu;  (* the arrays indexed by core *)
  k_q : qstate loc;  (* every list node and queue lock *)
  k_tcb : gmap Z thread;  (* the thread control blocks, by address *)
  k_ipc : gmap Z ipc;  (* the IPC objects, by address *)
  k_res : gmap Z Z;  (* the acoral_res_t word at the start of a resource *)
  k_pools : list pool;  (* acoral_pools *)
  k_free_pool : Z;  (* acoral_free_res_pool *)
  k_ctrls : gmap Z pool_ctrl;  (* the pool control blocks, by address *)
  k_ipi : list ipi_cmd;  (* ipi_cmd *)
  k_sgi : list Z;  (* software interrupts raised, by target, latest first *)
  k_sched_enable : Z;  (* acoral_sched_enable *)
  k_daemon_id : Z;  (* daemon_id *)
  k_ticks : Z;  (* ticks *)
  k_active_map : list Z;  (* active_map *)
  k_ctx : gmap Z (list Z);  (* contexts laid on thread stacks *)
  k_ext : kext;  (* the components above the scheduler *)
}.

Definition set_k_cpu (new : Z) (s : kstate) : kstate :=
  mk_kstate new (k_cpus s) (k_q s) (k_tcb s) (k_ipc s) (k_res s) (k_pools s)
    (k_free_pool s) (k_ctrls s) (k_ipi s) (k_sgi s) (k_sched_enable s) (k_daemon_id s)
    (k_ticks s) (k_active_map s) (k_ctx s) (k_ext s).
Definition set_k_cpus (new : list percpu) (s : kstate) : kstate :=
  mk_kstate (k_cpu s) new (k_q s) (k_tcb s) (k_ipc s) (k_res s) (k_pools s)
    (k_free_pool s) (k_ctrls s) (k_ipi s) (k_sgi s) (k_sched_enable s) (k_daemon_id s)
    (k_ticks s) (k_active_map s) (k_ctx s) (k_ext s).
Definition set_k_q (new : qstate loc) (s : kstate) : kstate :=
  mk_kstate (k_cpu s) (k_cpus s) new (k_tcb s) (k_ipc s) (k_res s) (k_pools s)
    (k_free_pool s) (k_ctrls s) (k_ipi s) (k_sgi s) (k_sched_enable s) (k_daemon_id s)
    (k_ticks s) (k_active_map s) (k_ctx s) (k_ext s).
Definition set_k_tcb (new : gmap Z thread) (s : kstate) : kstate :=
  mk_kstate (k_cpu s) (k_cpus s) (k_q s) new (k_ipc s) (k_res s) (k_pools s)
    (k_free_pool s) (k_ctrls s) (k_ipi s) (k_sgi s) (k_sched_enable s) (k_daemon_id s)
    (k_ticks s) (k_active_map s) (k_ctx s) (k_ext s).
Definition set_k_ipc (new : gmap Z ipc) (s : kstate) : kstate :=
  mk_kstate (k_cpu s) (k_cpus s) (k_q s) (k_tcb s) new (k_res s) (k_pools s)
    (k_free_pool s) (k_ctrls s) (k_ipi s) (k_sgi s) (k_sched_enable s) (k_daemon_id s)
    (k_ticks s) (k_active_map s) (k_ctx s) (k_ext s).
Definition set_k_res (new : gmap Z Z) (s : kstate) : kstate :=
  mk_kstate (k_cpu s) (k_cpus s) (k_q s) (k_tcb s) (k_ipc s) new (k_pools s)
    (k_free_pool s) (k_ctrls s) (k_ipi s) (k_sgi s) (k_sched_enable s) (k_daemon_id s)
    (k_ticks s) (k_active_map s) (k_ctx s) (k_ext s).
Definition set_k_pools (new : list pool) (s : kstate) : kstate :=
  mk_kstate (k_cpu s) (k_cpus s) (k_q s) (k_tcb s) (k_ipc s) (k_res s) new (k_free_pool s)
    (k_ctrls s) (k_ipi s) (k_sgi s) (k_sched_enable s) (k_daemon_id s) (k_ticks s)
    (k_active_map s) (k_ctx s) (k_ext s).
Definition set_k_free_pool (new : Z) (s : kstate) : kstate :=
  mk_kstate (k_cpu s) (k_cpus s) (k_q s) (k_tcb s) (k_ipc s) (k_res s) (k_pools s) new
    (k_ctrls s) (k_ipi s) (k_sgi s) (k_sched_enable s) (k_daemon_id s) (k_ticks s)
    (k_active_map s) (k_ctx s) (k_ext s).
Definition set_k_ctrls (new : gmap Z pool_ctrl) (s : kstate) : kstate :=
  mk_kstate (k_cpu s) (k_cpus s) (k_q s) (k_tcb s) (k_ipc s) (k_res s) (k_pools s)
    (k_free_pool s) new (k_ipi s) (k_sgi s) (k_sched_enable s) (k_daemon_id s) (k_ticks s)
    (k_active_map s) (k_ctx s) (k_ext s).
Definition set_k_ipi (new : list ipi_cmd) (s : kstate) : kstate :=
  mk_kstate (k_cpu s) (k_cpus s) (k_q s) (k_tcb s) (k_ipc s) (k_res s) (k_pools s)
    (k_free_pool s) (k_ctrls s) new (k_sgi s) (k_sched_enable s) (k_daemon_id s)
    (k_ticks s) (k_active_map s) (k_ctx s) (k_ext s).
Definition set_k_sgi (new : list Z) (s : kstate) : kstate :=
  mk_kstate (k_cpu s) (k_cpus s) (k_q s) (k_tcb s) (k_ipc s) (k_res s) (k_pools s)
    (k_free_pool s) (k_ctrls s) (k_ipi s) new (k_sched_enable s) (k_daemon_id s)
    (k_ticks s) (k_active_map s) (k_ctx s) (k_ext s).
Definition set_k_sched_enable (new : Z) (s : kstate) : kstate :=
  mk_kstate (k_cpu s) (k_cpus s) (k_q s) (k_tcb s) (k_ipc s) (k_res s) (k_pools s)
    (k_free_pool s) (k_ctrls s) (k_ipi s) (k_sgi s) new (k_daemon_id s) (k_ticks s)
    (k_active_map s) (k_ctx s) (k_ext s).
Definition set_k_daemon_id (new : Z) (s : kstate) : kstate :=
  mk_kstate (k_cpu s) (k_cpus s) (k_q s) (k_tcb s) (k_ipc s) (k_res s) (k_pools s)
    (k_free_pool s) (k_ctrls s) (k_ipi s) (k_sgi s) (k_sched_enable s) new (k_ticks s)
    (k_active_map s) (k_ctx s) (k_ext s).
Definition set_k_ticks (new : Z) (s : kstate) : kstate :=
  mk_kstate (k_cpu s) (k_cpus s) (k_q s) (k_tcb s) (k_ipc s) (k_res s) (k_pools s)
    (k_free_pool s) (k_ctrls s) (k_ipi s) (k_sgi s) (k_sched_enable s) (k_daemon_id s) new
    (k_active_map s) (k_ctx s) (k_ext s).
Definition set_k_active_map (new : list Z) (s : kstate) : kstate :=
  mk_kstate (k_cpu s) (k_cpus s) (k_q s) (k_tcb s) (k_ipc s) (k_res s) (k_pools s)
    (k_free_pool s) (k_ctrls s) (k_ipi s) (k_sgi s) (k_sched_enable s) (k_daemon_id s)
    (k_ticks s) new (k_ctx s) (k_ext s).
Definition set_k_ctx (new : gmap Z (list Z)) (s : kstate) : kstate :=
  mk_kstate (k_cpu s) (k_cpus s) (k_q s) (k_tcb s) (k_ipc s) (k_res s) (k_pools s)
    (k_free_pool s) (k_ctrls s) (k_ipi s) (k_sgi s) (k_sched_enable s) (k_daemon_id s)
    (k_ticks s) (k_active_map s) new (k_ext s).
Definition set_k_ext (new : kext) (s : kstate) : kstate :=
  mk_kstate (k_cpu s) (k_cpus s) (k_q s) (k_tcb s) (k_ipc s) (k_res s) (k_pools s)
    (k_free_pool s) (k_ctrls s) (k_ipi s) (k_sgi s) (k_sched_enable s) (k_daemon_id s)
    (k_ticks s) (k_active_map s) (k_ctx s) new.
