(* ===== verification/KState.v ===== *)
(** * Access to the kernel state

    The monad [K] of the kernel functions, and reading and writing the globals,
    the per-core arrays, the objects behind pointers and the list nodes. *)
From S2P Require Import Prelude Bitops DList Queues KTypes.
From stdpp Require Import list.
#[local] Open Scope Z_scope.

(** ** Access *)
Abbreviation K := (M kstate).

(** [acoral_current_cpu], read from the core's MPIDR. *)
Definition acoral_current_cpu : K Z := get k_cpu.

(** An element of the arrays indexed by core. *)
Definition at_cpu {A} (f : percpu → A) (cpu : Z) : K A :=
  deref (λ s, f <$> aget (k_cpus s) cpu).

Definition on_cpu (cpu : Z) (f : percpu → percpu) : K unit := λ s,
  match aget (k_cpus s) cpu with
  | Some c => Ret (tt, set_k_cpus (aset cpu (f c) (k_cpus s)) s)
  | None => Err Wild
  end.

(** [t->f] and [t->f = ...] for a thread pointer. *)
Definition thr {A} (f : thread → A) (t : Z) : K A := deref (λ s, f <$> k_tcb s !! t).

Definition on_thr (t : Z) (f : thread → thread) : K unit := λ s,
  match k_tcb s !! t with
  | Some th => Ret (tt, set_k_tcb (<[t := f th]> (k_tcb s)) s)
  | None => Err Wild
  end.

Definition res_id (t : Z) : K Z := deref (λ s, k_res s !! t).

Definition set_res (t : Z) (v : Z) : K unit := λ s,
  match k_res s !! t with
  | Some _ => Ret (tt, set_k_res (<[t := v]> (k_res s)) s)
  | None => Err Wild
  end.

Definition lq : lens kstate (qstate loc) := Lens k_q set_k_q.

Definition on_q {A} (m : M (qstate loc) A) : K A := zoom lq m.

(** An object of [k_ext], found by its address in the map [m]. *)
Definition xobj {A B} (m : kext → gmap Z A) (f : A → B) (p : Z) : K B := deref (λ s, f <$> m (k_ext s) !! p).

Definition on_xobj {A} (m : kext → gmap Z A) (set : gmap Z A → kext → kext) (p : Z) (f : A → A) : K unit := λ s,
  match m (k_ext s) !! p with
  | Some x => Ret (tt, set_k_ext (set (<[p := f x]> (m (k_ext s))) (k_ext s)) s)
  | None => Err Wild
  end.

(** Reading the links of the heap: [p->next], and [acoral_list_empty]. *)
Definition kget_next (p : loc) : K loc := on_q (on_nodes (get_next p)).
Definition kget_prev (p : loc) : K loc := on_q (on_nodes (get_prev p)).
Definition kget_value (p : loc) : K Z := on_q (on_nodes (get_value p)).
Definition kset_value (p : loc) (v : Z) : K unit := on_q (on_nodes (st p (set_value v))).
Definition klist_empty (p : loc) : K bool := on_q (on_nodes (acoral_list_empty p)).

(** [list_entry(p, acoral_thread_t, f)]: on a node that is not the field [f] of
    a thread it yields an address of no thread. *)
Definition thread_of (f : tlink) (p : loc) : K Z :=
  match p with
  | LThread t g => if decide (f = g) then mret t else fail Wild
  | _ => fail Wild
  end.

(** [x & flag], as a condition. *)
Definition has (x flag : Z) : bool := negb (Z.land x flag =? 0).

Definition add_flag (x flag : Z) : Z := Z.lor x flag.

Definition del_flag (x flag : Z) : Z := Z.land x (Z.lnot flag).

(** ** Running the accessors *)
Section runs.
Implicit Types s : kstate.

Lemma run_current_cpu s : acoral_current_cpu s = Ret (k_cpu s, s).
Proof. done. Qed.

Lemma run_at_cpu {A} (f : percpu → A) cpu s c :
  aget (k_cpus s) cpu = Some c → at_cpu f cpu s = Ret (f c, s).
Proof. intros Hc. apply run_deref. by rewrite Hc. Qed.

Lemma run_on_cpu cpu f s c :
  aget (k_cpus s) cpu = Some c →
  on_cpu cpu f s = Ret (tt, set_k_cpus (aset cpu (f c) (k_cpus s)) s).
Proof. intros Hc. unfold on_cpu. by rewrite Hc. Qed.

Lemma run_thr {A} (f : thread → A) t s th :
  k_tcb s !! t = Some th → thr f t s = Ret (f th, s).
Proof. intros Ht. apply run_deref. by rewrite Ht. Qed.

Lemma run_on_thr t f s th :
  k_tcb s !! t = Some th → on_thr t f s = Ret (tt, set_k_tcb (<[t := f th]> (k_tcb s)) s).
Proof. intros Ht. unfold on_thr. by rewrite Ht. Qed.

Lemma run_res_id t s v : k_res s !! t = Some v → res_id t s = Ret (v, s).
Proof. intros Ht. unfold res_id. by apply run_deref. Qed.

Lemma run_set_res t v w s :
  k_res s !! t = Some w → set_res t v s = Ret (tt, set_k_res (<[t := v]> (k_res s)) s).
Proof. intros Ht. unfold set_res. by rewrite Ht. Qed.

Lemma run_xobj {A B} (m : kext → gmap Z A) (f : A → B) p s x :
  m (k_ext s) !! p = Some x → xobj m f p s = Ret (f x, s).
Proof. intros Hx. apply run_deref. by rewrite Hx. Qed.

Lemma run_on_xobj {A} (m : kext → gmap Z A) set p f s x :
  m (k_ext s) !! p = Some x →
  on_xobj m set p f s = Ret (tt, set_k_ext (set (<[p := f x]> (m (k_ext s))) (k_ext s)) s).
Proof. intros Hx. unfold on_xobj. by rewrite Hx. Qed.

Lemma run_on_q {A} (m : M (qstate loc) A) s a q' :
  m (k_q s) = Ret (a, q') → on_q m s = Ret (a, set_k_q q' s).
Proof. intros Hm. unfold on_q. by apply (run_zoom lq). Qed.

Lemma run_on_q_err {A} (m : M (qstate loc) A) s e : m (k_q s) = Err e → on_q m s = Err e.
Proof. intros Hm. unfold on_q, zoom. simpl. by rewrite Hm. Qed.

Lemma set_k_q_id s : set_k_q (k_q s) s = s.
Proof. by destruct s. Qed.

Lemma nodes_id (q : qstate loc) : mk_q (q_nodes q) (q_lock q) = q.
Proof. by destruct q. Qed.

(** Operations that only read the heap. *)
Lemma run_kread {A} (m : M (heap loc) A) s a :
  m (q_nodes (k_q s)) = Ret (a, q_nodes (k_q s)) → on_q (on_nodes m) s = Ret (a, s).
Proof.
  intros Hm. erewrite run_on_q.
  - f_equal. f_equal. apply set_k_q_id.
  - unfold on_nodes. rewrite (run_zoom lnodes _ _ a (q_nodes (k_q s))) by done.
    simpl. by rewrite nodes_id.
Qed.

Lemma run_klist_empty s L q xs :
  qrep (k_q s) L → L !! q = Some xs → klist_empty q s = Ret (bool_decide (xs = []), s).
Proof. intros HR Hq. apply run_kread. eapply list_empty_run; [apply HR|done]. Qed.

Lemma run_kget_first s L q xs :
  qrep (k_q s) L → L !! q = Some xs → kget_next q s = Ret (default q (head xs), s).
Proof.
  intros HR Hq. destruct (ring_first _ L q xs (qrep_nodes _ _ HR) Hq) as (n & nx & Hn & Hnx & Hhd).
  apply run_kread. rewrite (run_get_next _ _ n) by done. rewrite Hnx.
  destruct xs; simpl in *; by injection Hhd as <-.
Qed.
End runs.

(** [kstep] runs the next accessor of the goal. *)
Ltac kside :=
  cbn [k_cpu k_cpus k_q k_tcb k_res k_ipc k_sched_enable k_ticks k_ipi k_sgi k_daemon_id
       set_k_cpus set_k_q set_k_tcb set_k_res set_k_ipc];
  repeat first
    [ done | eassumption
    | rewrite lookup_insert_eq | rewrite lookup_insert_ne by done
    | eapply aget_aset_eq ].

Ltac kstep :=
  first
    [ erewrite run_bind by apply run_current_cpu
    | erewrite run_bind by (eapply run_at_cpu; kside)
    | erewrite run_bind by (eapply run_on_cpu; kside)
    | erewrite run_bind by (eapply run_thr; kside)
    | erewrite run_bind by (eapply run_on_thr; kside)
    | erewrite run_bind by (eapply run_res_id; kside)
    | erewrite run_bind by (eapply run_set_res; kside)
    | erewrite run_bind by reflexivity ];
  cbn beta iota.

(** ** Flags *)
Definition is_flag (f : Z) : Prop := ∃ k, 0 ≤ k ∧ f = 2 ^ k.

Lemma flag_ready : is_flag ACORAL_THREAD_STATE_READY.
Proof. by exists 0. Qed.
Lemma flag_suspend : is_flag ACORAL_THREAD_STATE_SUSPEND.
Proof. by exists 1. Qed.
Lemma flag_running : is_flag ACORAL_THREAD_STATE_RUNNING.
Proof. by exists 2. Qed.
Lemma flag_exit : is_flag ACORAL_THREAD_STATE_EXIT.
Proof. by exists 3. Qed.
Lemma flag_release : is_flag ACORAL_THREAD_STATE_RELEASE.
Proof. by exists 4. Qed.
Lemma flag_move : is_flag ACORAL_THREAD_STATE_MOVE.
Proof. by exists 5. Qed.
Lemma flag_reload : is_flag ACORAL_THREAD_STATE_RELOAD.
Proof. by exists 6. Qed.

#[export] Hint Resolve flag_ready flag_suspend flag_running flag_exit flag_release flag_move
  flag_reload : acoral.

Lemma has_bit x k : 0 ≤ k → has x (2 ^ k) = Z.testbit x k.
Proof.
  intros Hk. unfold has. destruct (Z.testbit x k) eqn:E.
  - apply negb_true_iff, Z.eqb_neq. intros Hz.
    assert (Z.testbit (Z.land x (2 ^ k)) k = true) as Hc.
    { rewrite Z.land_spec, E, Z.pow2_bits_true by done. done. }
    by rewrite Hz, Z.testbit_0_l in Hc.
  - apply negb_false_iff, Z.eqb_eq, Z.bits_inj_0. intros i. rewrite Z.land_spec.
    destruct (decide (i = k)) as [->|]; [by rewrite E|].
    rewrite (Z.pow2_bits_false k) by done. apply andb_false_r.
Qed.

Lemma pow2_inj_bool j k : 0 ≤ j → 0 ≤ k → bool_decide (2 ^ j = 2 ^ k) = bool_decide (j = k).
Proof.
  intros Hj Hk. apply bool_decide_ext. split; [|by intros ->].
  intros E%Z.pow_inj_r; lia.
Qed.

Lemma has_add x f g :
  is_flag f → is_flag g → has (add_flag x f) g = bool_decide (f = g) || has x g.
Proof.
  intros (j & Hj & ->) (k & Hk & ->). unfold add_flag.
  rewrite !has_bit, Z.lor_spec, pow2_inj_bool by done. rewrite orb_comm. f_equal.
  case_bool_decide; [subst; by apply Z.pow2_bits_true|by apply Z.pow2_bits_false].
Qed.

Lemma has_del x f g :
  is_flag f → is_flag g → has (del_flag x f) g = negb (bool_decide (f = g)) && has x g.
Proof.
  intros (j & Hj & ->) (k & Hk & ->). unfold del_flag.
  rewrite !has_bit, Z.land_spec, Z.lnot_spec, pow2_inj_bool by done. rewrite andb_comm.
  f_equal. f_equal.
  case_bool_decide; [subst; by apply Z.pow2_bits_true|by apply Z.pow2_bits_false].
Qed.

(** [flags] evaluates the flags of a state expression. *)
Ltac flags :=
  repeat first [rewrite has_add by auto with acoral | rewrite has_del by auto with acoral];
  cbn -[has]; try reflexivity.
