(* ===== verification/Sched.v ===== *)
(** * kernel/src/sched.c: the scheduler

    Ready queues, critical sections, the choice of the next thread and the
    context switch.  The priority arrays of the ready queues are the functions
    [acoral_thread_prio_queue_*] of kernel/src/thread.c; they are here because
    sched.c calls them.

    [HAL_COMM_SWITCH] is the instruction [SWI 0]; its handler (hal_int_s.S)
    saves the registers on the stack of [running_thread], calls
    [acoral_switch_context] and restores the registers of the thread that is now
    [running_thread].  The model has the call; the register file is not part of
    the state. *)
From S2P Require Import Prelude Bitops DList Queues KTypes KState.
From stdpp Require Import list.
#[local] Open Scope Z_scope.

(** ** thread.c: the priority array of a core *)
Definition on_bitmap {A} (cpu : Z) (m : M (list Z) A) : K A := λ s,
  match aget (k_cpus s) cpu with
  | Some c =>
      match m (c_bitmap c) with
      | Ret (a, b) => Ret (a, set_k_cpus (aset cpu (set_c_bitmap b c) (k_cpus s)) s)
      | Err e => Err e
      end
  | None => Err Wild
  end.

Definition acoral_thread_prio_queue_add (cpu prio : Z) (list : loc) : K unit :=
  on_cpu cpu (λ c, set_c_num (u32 (c_num c + 1)) c);;
  on_q (acoral_fifo_queue_add (LQueue (QReady cpu prio)) list);;
  on_bitmap cpu (acoral_set_bit prio).

Definition acoral_thread_prio_queue_del (cpu prio : Z) (list : loc) : K unit :=
  on_cpu cpu (λ c, set_c_num (u32 (c_num c - 1)) c);;
  on_q (acoral_fifo_queue_del (LQueue (QReady cpu prio)) list);;
  empty ← klist_empty (LQueue (QReady cpu prio));
  if (empty : bool) then on_bitmap cpu (acoral_clear_bit prio) else mret tt.

Definition acoral_thread_get_high_prio (cpu : Z) : K Z :=
  on_bitmap cpu (acoral_find_first_bit ACORAL_THREAD_PRIO_BITMAP_SIZE).

Definition acoral_thread_prio_queue_init (cpu : Z) : K unit :=
  on_cpu cpu (set_c_num 0);;
  for_up (Z.to_nat ACORAL_THREAD_PRIO_BITMAP_SIZE) 0 (λ i, on_bitmap cpu (wr i 0));;
  for_up (Z.to_nat ACORAL_MAX_PRIO_NUM) 0
    (λ i, on_q (acoral_fifo_queue_init (LQueue (QReady cpu i)))).

(** ** sched.c *)
Definition acoral_cur_thread : K Z :=
  cpu ← acoral_current_cpu; at_cpu c_running cpu.

Definition acoral_set_need_sched (v : Z) : K unit :=
  cpu ← acoral_current_cpu; on_cpu cpu (set_c_need_sched v).

Definition acoral_sched_init : K unit :=
  for_up (Z.to_nat CFG_MAX_CPU) 0 (λ i,
    on_cpu i (set_c_sched_lock 0);;
    on_cpu i (set_c_critical_nesting 0);;
    on_cpu i (set_c_need_sched 0)).

Definition acoral_run_orig_thread (orig : Z) : K unit :=
  cpu ← acoral_current_cpu; on_cpu cpu (set_c_running orig).

Definition acoral_set_running_thread (thread : Z) : K unit :=
  cpu ← acoral_current_cpu;
  cur ← acoral_cur_thread;
  on_thr cur (λ th, set_t_state (del_flag (t_state th) ACORAL_THREAD_STATE_RUNNING) th);;
  on_thr thread (λ th, set_t_state (add_flag (t_state th) ACORAL_THREAD_STATE_RUNNING) th);;
  on_cpu cpu (set_c_running thread).

Definition acoral_sched_rdyqueue_init : K unit :=
  for_up (Z.to_nat CFG_MAX_CPU) 0 acoral_thread_prio_queue_init.

Definition ACORAL_RES_CPU_BIT : Z := 24.

Definition acoral_sched_rdyqueue_add (new : Z) : K unit :=
  cpu ← thr t_cpu new;
  prio ← thr t_prio new;
  acoral_thread_prio_queue_add cpu prio (LThread new ready);;
  on_thr new (λ th, set_t_state (del_flag (t_state th) ACORAL_THREAD_STATE_SUSPEND) th);;
  on_thr new (λ th, set_t_state (add_flag (t_state th) ACORAL_THREAD_STATE_READY) th);;
  (if cpu =? 0 then
     id ← res_id new; set_res new (Z.land id (Z.lnot (Z.shiftl 1 ACORAL_RES_CPU_BIT)))
   else if cpu =? 1 then
     id ← res_id new; set_res new (Z.lor id (Z.shiftl 1 ACORAL_RES_CPU_BIT))
   else mret tt);;
  acoral_set_need_sched 1.

Definition acoral_sched_rdyqueue_del (old : Z) : K unit :=
  cpu ← thr t_cpu old;
  prio ← thr t_prio old;
  acoral_thread_prio_queue_del cpu prio (LThread old ready);;
  on_thr old (λ th, set_t_state (del_flag (t_state th) ACORAL_THREAD_STATE_READY) th);;
  on_thr old (λ th, set_t_state (del_flag (t_state th) ACORAL_THREAD_STATE_RUNNING) th);;
  on_thr old (λ th, set_t_state (add_flag (t_state th) ACORAL_THREAD_STATE_SUSPEND) th);;
  acoral_set_need_sched 1.

Definition acoral_select_thread : K unit :=
  cpu ← acoral_current_cpu;
  index ← acoral_thread_get_high_prio cpu;
  first ← kget_next (LQueue (QReady cpu index));
  thread ← thread_of ready first;
  on_cpu cpu (set_c_ready thread).

(** The three outcomes of the comparison of [prev] and [next]. *)
Definition can_switch (prev next : thread) : bool :=
  if has (t_state prev) ACORAL_THREAD_STATE_SUSPEND then true
  else negb (((t_preempt_type prev =? ACORAL_PREEMPT_GLOBAL)
              && (t_preempt_type next =? ACORAL_PREEMPT_LOCAL))
             || (t_preempt_type prev =? ACORAL_PREEMPT_TIMED)).

Definition acoral_switch_context : K unit :=
  acoral_set_need_sched 0;;
  prev ← acoral_cur_thread;
  acoral_select_thread;;
  cpu ← acoral_current_cpu;
  next ← at_cpu c_ready cpu;
  pst ← thr t_state prev;
  if negb (prev =? next) || has pst ACORAL_THREAD_STATE_RELOAD then
    if pst =? ACORAL_THREAD_STATE_EXIT then
      acoral_set_running_thread next;;
      on_thr prev (set_t_state ACORAL_THREAD_STATE_RELEASE)
    else
      p ← thr id prev;
      n ← thr id next;
      if can_switch p n then
        acoral_set_running_thread next;;
        st1 ← thr t_state prev;
        if has st1 ACORAL_THREAD_STATE_RELOAD then
          on_thr prev (λ th, set_t_state (del_flag (t_state th) ACORAL_THREAD_STATE_RELOAD) th)
        else if has st1 ACORAL_THREAD_STATE_MOVE then
          on_thr prev (λ th, set_t_state (del_flag (t_state th) ACORAL_THREAD_STATE_MOVE) th);;
          on_thr prev (set_t_move_lock 0)
        else mret tt
      else mret tt
  else mret tt.

Definition HAL_COMM_SWITCH : K unit := acoral_switch_context.

Definition acoral_sched : K unit :=
  cpu ← acoral_current_cpu;
  need ← at_cpu c_need_sched cpu;
  nesting ← at_cpu c_intr_nesting cpu;
  locked ← at_cpu c_sched_lock cpu;
  enable ← get k_sched_enable;
  if need =? 0 then mret tt
  else if negb (nesting =? 0) then mret tt
  else if negb (locked =? 0) then mret tt
  else if enable =? 0 then mret tt
  else HAL_COMM_SWITCH.

Definition acoral_sched_unlock : K unit :=
  cpu ← acoral_current_cpu;
  on_cpu cpu (set_c_sched_lock 0);;
  acoral_sched.

(** [HAL_INTR_DISABLE_SAVE] and [HAL_INTR_RESTORE] set the interrupt priority
    mask of the core (hal_int_c.c). *)
Definition INTR_UNMASK : Z := 0xFF.
Definition INTR_MASK : Z := 0x90.

Definition hal_intr_disable_save : K unit :=
  cpu ← acoral_current_cpu; on_cpu cpu (set_c_pmr INTR_MASK).

Definition hal_intr_restore : K unit :=
  cpu ← acoral_current_cpu; on_cpu cpu (set_c_pmr INTR_UNMASK).

Definition acoral_enter_critical : K unit :=
  cpu ← acoral_current_cpu;
  hal_intr_disable_save;;
  locked ← at_cpu c_sched_lock cpu;
  when (locked =? 0) (on_cpu cpu (set_c_sched_lock 1));;
  on_cpu cpu (λ c, set_c_critical_nesting (u32 (c_critical_nesting c + 1)) c).

Definition acoral_exit_critical : K unit :=
  cpu ← acoral_current_cpu;
  n ← at_cpu c_critical_nesting cpu;
  when (0 <? n) (on_cpu cpu (set_c_critical_nesting (n - 1)));;
  n' ← at_cpu c_critical_nesting cpu;
  if n' =? 0 then hal_intr_restore;; acoral_sched_unlock else mret tt.

(** ** The invariant of the ready queues *)

(** The nodes in the ready queue of a core and a priority. *)
Definition rq (L : gmap loc (list loc)) (c p : Z) : list loc :=
  default [] (L !! LQueue (QReady c p)).

Definition ready_count (L : gmap loc (list loc)) (c : Z) : nat :=
  sum_list_with (λ p, length (rq L c (Z.of_nat p))) (seq 0 (Z.to_nat ACORAL_MAX_PRIO_NUM)).

Definition is_ready (th : thread) : bool := has (t_state th) ACORAL_THREAD_STATE_READY.

(** The bit map and the counter of a core agree with its queues. *)
Record cpu_ok (L : gmap loc (list loc)) (c : Z) (cs : percpu) : Prop := {
  co_len : Z.of_nat (length (c_bitmap cs)) = ACORAL_THREAD_PRIO_BITMAP_SIZE;
  co_words : Forall word32 (c_bitmap cs);
  co_bits : ∀ p, 0 ≤ p →
    bit_set (c_bitmap cs) p = true ↔ p < ACORAL_MAX_PRIO_NUM ∧ rq L c p ≠ [];
  co_num : c_num cs = u32 (Z.of_nat (ready_count L c));
}.

(** [L] is the state of all lists.  Each core has one queue per priority; bit
    [p] of its bit map is set exactly when its queue [p] is not empty; [num]
    counts the queued threads; a queue holds the [ready] nodes of threads in
    state ready, with that priority and on that core; and every thread in state
    ready is in its queue. *)
Record sched_inv (s : kstate) (L : gmap loc (list loc)) : Prop := {
  si_q : qrep (k_q s) L;
  si_len : Z.of_nat (length (k_cpus s)) = CFG_MAX_CPU;
  si_cpu : 0 ≤ k_cpu s < CFG_MAX_CPU;
  si_queue : ∀ c p, 0 ≤ c < CFG_MAX_CPU → 0 ≤ p < ACORAL_MAX_PRIO_NUM →
    is_queue (k_q s) (LQueue (QReady c p)) ∧ is_Some (L !! LQueue (QReady c p));
  si_cpus : ∀ c cs, aget (k_cpus s) c = Some cs → cpu_ok L c cs;
  si_member : ∀ c p x, 0 ≤ c < CFG_MAX_CPU → 0 ≤ p < ACORAL_MAX_PRIO_NUM → x ∈ rq L c p →
    ∃ t th, x = LThread t ready ∧ k_tcb s !! t = Some th ∧ is_ready th = true ∧
      t_cpu th = c ∧ t_prio th = p;
  si_ready : ∀ t th, k_tcb s !! t = Some th → is_ready th = true →
    0 ≤ t_cpu th < CFG_MAX_CPU ∧ 0 ≤ t_prio th < ACORAL_MAX_PRIO_NUM ∧
    LThread t ready ∈ rq L (t_cpu th) (t_prio th);
}.

(** What the queue operations leave alone. *)
Definition same_other (s s' : kstate) : Prop :=
  k_cpu s' = k_cpu s ∧ k_ipc s' = k_ipc s ∧ k_sched_enable s' = k_sched_enable s ∧
  k_ticks s' = k_ticks s ∧ k_ipi s' = k_ipi s ∧ k_sgi s' = k_sgi s ∧
  k_daemon_id s' = k_daemon_id s ∧ k_pools s' = k_pools s ∧ k_ctrls s' = k_ctrls s ∧
  k_free_pool s' = k_free_pool s ∧ k_active_map s' = k_active_map s ∧ k_ctx s' = k_ctx s ∧
  k_ext s' = k_ext s.

Lemma sum_seq_update n i (f f' : nat → nat) :
  (i < n)%nat → (∀ j, j ≠ i → f' j = f j) →
  (sum_list_with f' (seq 0 n) + f i = sum_list_with f (seq 0 n) + f' i)%nat.
Proof.
  intros Hi Hj. induction n as [|n IH]; [lia|].
  rewrite seq_S, !sum_list_with_app. simpl.
  destruct (decide (i = n)) as [->|Hne].
  - assert (sum_list_with f' (seq 0 n) = sum_list_with f (seq 0 n)) as ->; [|lia].
    clear IH. assert (∀ m, (m ≤ n)%nat → sum_list_with f' (seq 0 m) = sum_list_with f (seq 0 m)) as E.
    { induction m as [|m IHm]; intros Hm; [done|].
      rewrite seq_S, !sum_list_with_app, IHm by lia. simpl. rewrite Hj by lia. done. }
    by apply E.
  - rewrite (Hj n) by lia. specialize (IH ltac:(lia)). lia.
Qed.

Lemma prio_num_eq : ACORAL_MAX_PRIO_NUM = 61.
Proof. reflexivity. Qed.

Lemma bitmap_size_eq : ACORAL_THREAD_PRIO_BITMAP_SIZE = 2.
Proof. reflexivity. Qed.

(** Replacing one ready queue. *)
Lemma ready_count_update L L' c p :
  0 ≤ p < ACORAL_MAX_PRIO_NUM → (∀ p', 0 ≤ p' → p' ≠ p → rq L' c p' = rq L c p') →
  (ready_count L' c + length (rq L c p) = ready_count L c + length (rq L' c p))%nat.
Proof.
  intros Hp Hoth. unfold ready_count.
  pose proof (sum_seq_update (Z.to_nat ACORAL_MAX_PRIO_NUM) (Z.to_nat p)
    (λ p, length (rq L c (Z.of_nat p))) (λ p, length (rq L' c (Z.of_nat p)))) as E.
  simpl in E. rewrite !Z2Nat.id in E by lia. apply E; [lia|].
  intros j Hj. f_equal. apply Hoth; lia.
Qed.

Lemma ready_count_same L L' c :
  (∀ p, 0 ≤ p → rq L' c p = rq L c p) → ready_count L' c = ready_count L c.
Proof.
  intros Hr. unfold ready_count. generalize (seq 0 (Z.to_nat ACORAL_MAX_PRIO_NUM)).
  intros l. induction l as [|i l IH]; [done|]. simpl. rewrite Hr by lia. by rewrite IH.
Qed.

Lemma u32_succ n : u32 (u32 n + 1) = u32 (n + 1).
Proof. unfold wrapu. rewrite Zplus_mod_idemp_l. done. Qed.

Lemma u32_pred n : u32 (u32 n - 1) = u32 (n - 1).
Proof. unfold wrapu. rewrite Zminus_mod_idemp_l. done. Qed.

Lemma cpu_get s L c :
  sched_inv s L → 0 ≤ c < CFG_MAX_CPU → ∃ cs, aget (k_cpus s) c = Some cs.
Proof.
  intros HI Hc. destruct (proj2 (aget_is_Some (k_cpus s) c)) as [cs Hcs]; [|eauto].
  rewrite (si_len _ _ HI). done.
Qed.

Lemma run_on_bitmap {A} cpu (m : M (list Z) A) s c a b :
  aget (k_cpus s) cpu = Some c → m (c_bitmap c) = Ret (a, b) →
  on_bitmap cpu m s = Ret (a, set_k_cpus (aset cpu (set_c_bitmap b c) (k_cpus s)) s).
Proof. intros Hc Hm. unfold on_bitmap. by rewrite Hc, Hm. Qed.

(** ** Adding to the priority array *)
Lemma prio_queue_add_run s L cpu prio node :
  sched_inv s L → 0 ≤ cpu < CFG_MAX_CPU → 0 ≤ prio < ACORAL_MAX_PRIO_NUM →
  L !! node = Some [] → (∀ q, node ≠ LQueue q) →
  ∃ q' c b, aget (k_cpus s) cpu = Some c ∧
    acoral_thread_prio_queue_add cpu prio node s
      = Ret (tt, set_k_q q' (set_k_cpus
          (aset cpu (set_c_bitmap b (set_c_num (u32 (c_num c + 1)) c)) (k_cpus s)) s)) ∧
    qrep q' (<[LQueue (QReady cpu prio) := rq L cpu prio ++ [node]]> (delete node L)) ∧
    q_lock q' = q_lock (k_q s) ∧
    (∀ p, valof (q_nodes q') p = valof (q_nodes (k_q s)) p) ∧
    length b = length (c_bitmap c) ∧ Forall word32 b ∧
    (∀ p, 0 ≤ p → bit_set b p = if decide (p = prio) then true else bit_set (c_bitmap c) p).
Proof.
  intros HI Hc Hp Hnode Hnq. destruct (cpu_get s L cpu HI Hc) as [c Hcs].
  destruct (si_queue _ _ HI cpu prio Hc Hp) as [Hisq [xs Hxs]].
  destruct (si_cpus _ _ HI cpu c Hcs) as [Hlen Hw _ _].
  destruct (fifo_add_rep (k_q s) L (LQueue (QReady cpu prio)) node xs) as
    (q' & Hrun & HQ' & Hlk & Hval); [apply HI|done..|].
  destruct (set_bit_spec prio (c_bitmap c)) as (b & Hb & Hbl & Hbw & Hbits); [|done|].
  { rewrite Hlen, bitmap_size_eq. rewrite prio_num_eq in Hp. lia. }
  exists q', c, b. split_and!; try done.
  - unfold acoral_thread_prio_queue_add.
    erewrite run_bind by (by apply run_on_cpu).
    erewrite run_bind by (by apply run_on_q). cbn beta iota.
    erewrite run_on_bitmap; [|simpl; by eapply aget_aset_eq|exact Hb].
    unfold set_k_cpus, set_k_q. simpl. by rewrite aset_aset.
  - unfold rq. by rewrite Hxs.
Qed.

(** The lists after a thread enters or leaves its ready queue. *)
Definition rq_insert (cpu prio : Z) (node : loc) (L : gmap loc (list loc)) :=
  <[LQueue (QReady cpu prio) := rq L cpu prio ++ [node]]> (delete node L).

Definition rq_remove (cpu prio : Z) (node : loc) (a b : list loc) (L : gmap loc (list loc)) :=
  <[node := []]> (<[LQueue (QReady cpu prio) := a ++ b]> L).

Lemma rq_insert_rq L cpu prio t c p :
  rq (rq_insert cpu prio (LThread t ready) L) c p
  = if decide (c = cpu ∧ p = prio) then rq L cpu prio ++ [LThread t ready] else rq L c p.
Proof.
  unfold rq at 1, rq_insert. case_decide as Hd.
  - destruct Hd as [-> ->]. by rewrite lookup_insert_eq.
  - rewrite lookup_insert_ne, lookup_delete_ne by naive_solver. done.
Qed.

Lemma rq_remove_rq L cpu prio t a b c p :
  rq (rq_remove cpu prio (LThread t ready) a b L) c p
  = if decide (c = cpu ∧ p = prio) then a ++ b else rq L c p.
Proof.
  unfold rq at 1, rq_remove. rewrite lookup_insert_ne by done. case_decide as Hd.
  - destruct Hd as [-> ->]. by rewrite lookup_insert_eq.
  - rewrite lookup_insert_ne by naive_solver. done.
Qed.

Lemma cpu_ok_ext L L' c cs cs' :
  (∀ p, 0 ≤ p → rq L' c p = rq L c p) → c_bitmap cs' = c_bitmap cs → c_num cs' = c_num cs →
  cpu_ok L c cs → cpu_ok L' c cs'.
Proof.
  intros Hr Hb Hn [H1 H2 H3 H4]. split; rewrite ?Hb, ?Hn; try done.
  - intros p Hp. rewrite Hr by done. by apply H3.
  - by rewrite (ready_count_same L L').
Qed.

(** A core whose queue [prio] changed, with the bit and the counter updated. *)
Lemma cpu_ok_update L L' c prio cs cs' (v : bool) (d : Z) :
  cpu_ok L c cs → 0 ≤ prio < ACORAL_MAX_PRIO_NUM →
  (∀ p, 0 ≤ p → p ≠ prio → rq L' c p = rq L c p) →
  (v = true ↔ rq L' c prio ≠ []) →
  Z.of_nat (length (rq L' c prio)) = Z.of_nat (length (rq L c prio)) + d →
  c_num cs' = u32 (c_num cs + d) →
  length (c_bitmap cs') = length (c_bitmap cs) → Forall word32 (c_bitmap cs') →
  (∀ p, 0 ≤ p → bit_set (c_bitmap cs') p = if decide (p = prio) then v else bit_set (c_bitmap cs) p) →
  cpu_ok L' c cs'.
Proof.
  intros [H1 H2 H3 H4] Hp Hoth Hv Hd Hnum Hlen Hw Hbits. split; [congruence|done| |].
  - intros p Hp0. rewrite Hbits by done. case_decide as E; [subst p|].
    + rewrite Hv. split; [intros ?; split; [lia|done]|by intros [_ ?]].
    + rewrite Hoth by done. by apply H3.
  - rewrite Hnum, H4. pose proof (ready_count_update L L' c prio Hp Hoth) as E.
    replace (Z.of_nat (ready_count L' c)) with (Z.of_nat (ready_count L c) + d) by lia.
    unfold wrapu. by rewrite Zplus_mod_idemp_l.
Qed.

Lemma run_prio_add_step s L t th :
  sched_inv s L → k_tcb s !! t = Some th →
  0 ≤ t_cpu th < CFG_MAX_CPU → 0 ≤ t_prio th < ACORAL_MAX_PRIO_NUM →
  L !! LThread t ready = Some [] →
  ∃ q' cs', acoral_thread_prio_queue_add (t_cpu th) (t_prio th) (LThread t ready) s
      = Ret (tt, set_k_q q' (set_k_cpus cs' s)) ∧
    qrep q' (rq_insert (t_cpu th) (t_prio th) (LThread t ready) L) ∧
    q_lock q' = q_lock (k_q s) ∧ (∀ p, valof (q_nodes q') p = valof (q_nodes (k_q s)) p) ∧
    length cs' = length (k_cpus s) ∧
    (∀ c x, aget cs' c = Some x → cpu_ok (rq_insert (t_cpu th) (t_prio th) (LThread t ready) L) c x) ∧
    (∀ c x, aget (k_cpus s) c = Some x → ∃ b n, aget cs' c = Some (set_c_bitmap b (set_c_num n x))).
Proof.
  intros HI Ht Hc Hp Hnode.
  destruct (prio_queue_add_run s L (t_cpu th) (t_prio th) (LThread t ready))
    as (q' & c & b & Hcs & Hrun & HQ & Hlk & Hval & Hbl & Hbw & Hbits); [done..|].
  exists q', (aset (t_cpu th) (set_c_bitmap b (set_c_num (u32 (c_num c + 1)) c)) (k_cpus s)).
  split_and!; try done.
  - apply length_aset.
  - intros c' x Hx. rewrite aget_aset in Hx by eauto. case_decide as E.
    + subst c'. injection Hx as <-.
      eapply (cpu_ok_update L _ _ (t_prio th) c _ true 1); simpl;
        [by eapply si_cpus|done| | | |done|done|done|done].
      * intros p _ Hne. rewrite rq_insert_rq, decide_False by tauto. done.
      * rewrite rq_insert_rq, decide_True by done. split; [|done].
        intros _ Hnil. by apply app_nil in Hnil as [_ ?].
      * rewrite rq_insert_rq, decide_True by done. rewrite length_app. simpl. lia.
    + eapply cpu_ok_ext; [|done|done|by eapply (si_cpus _ _ HI)].
      intros p _. rewrite rq_insert_rq, decide_False by naive_solver. done.
  - intros c' x Hx. rewrite aget_aset by eauto. case_decide as E.
    + subst c'. rewrite Hcs in Hx. injection Hx as <-. eauto.
    + exists (c_bitmap x), (c_num x). rewrite Hx. by destruct x.
Qed.

(** The fields of a core that queue operations do not write. *)
Definition cpu_same (x x' : percpu) : Prop :=
  c_sched_lock x' = c_sched_lock x ∧ c_critical_nesting x' = c_critical_nesting x ∧
  c_intr_nesting x' = c_intr_nesting x ∧ c_running x' = c_running x ∧ c_ready x' = c_ready x ∧
  c_irq_switch x' = c_irq_switch x ∧ c_pmr x' = c_pmr x.

(** [need_sched] is raised on the executing core, the rest of every core is
    the same. *)
Definition cpus_raised (s s' : kstate) : Prop :=
  ∀ c x, aget (k_cpus s) c = Some x → ∃ x', aget (k_cpus s') c = Some x' ∧ cpu_same x x' ∧
    c_need_sched x' = if decide (c = k_cpu s) then 1 else c_need_sched x.

Definition ready_state (st : Z) : Z :=
  add_flag (del_flag st ACORAL_THREAD_STATE_SUSPEND) ACORAL_THREAD_STATE_READY.

Definition suspend_state (st : Z) : Z :=
  add_flag (del_flag (del_flag st ACORAL_THREAD_STATE_READY) ACORAL_THREAD_STATE_RUNNING)
    ACORAL_THREAD_STATE_SUSPEND.

(** The cpu bit of a resource id. *)
Definition id_on (cpu id : Z) : Z :=
  if cpu =? 0 then Z.land id (Z.lnot (Z.shiftl 1 ACORAL_RES_CPU_BIT))
  else if cpu =? 1 then Z.lor id (Z.shiftl 1 ACORAL_RES_CPU_BIT) else id.

Lemma run_set_need_sched v s c :
  aget (k_cpus s) (k_cpu s) = Some c →
  acoral_set_need_sched v s
  = Ret (tt, set_k_cpus (aset (k_cpu s) (set_c_need_sched v c) (k_cpus s)) s).
Proof. intros Hc. unfold acoral_set_need_sched. kstep. by apply run_on_cpu. Qed.

Lemma run_id_on s t cpu id :
  k_res s !! t = Some id →
  (if cpu =? 0 then
     id ← res_id t; set_res t (Z.land id (Z.lnot (Z.shiftl 1 ACORAL_RES_CPU_BIT)))
   else if cpu =? 1 then
     id ← res_id t; set_res t (Z.lor id (Z.shiftl 1 ACORAL_RES_CPU_BIT))
   else mret tt) s = Ret (tt, set_k_res (<[t := id_on cpu id]> (k_res s)) s).
Proof.
  intros Hid. unfold id_on. destruct (cpu =? 0); [|destruct (cpu =? 1)].
  - kstep. by eapply run_set_res.
  - kstep. by eapply run_set_res.
  - rewrite insert_id by done. by destruct s.
Qed.

(** The invariant after the queue of [t] changed with its state, from what the
    queue operation and the state updates give. *)
Lemma sched_inv_add s s' L t th th' :
  sched_inv s L → k_tcb s !! t = Some th → is_ready th = false →
  0 ≤ t_cpu th < CFG_MAX_CPU → 0 ≤ t_prio th < ACORAL_MAX_PRIO_NUM →
  qrep (k_q s') (rq_insert (t_cpu th) (t_prio th) (LThread t ready) L) →
  q_lock (k_q s') = q_lock (k_q s) → length (k_cpus s') = length (k_cpus s) →
  k_cpu s' = k_cpu s →
  (∀ c x, aget (k_cpus s') c = Some x → cpu_ok (rq_insert (t_cpu th) (t_prio th) (LThread t ready) L) c x) →
  k_tcb s' = <[t := th']> (k_tcb s) → is_ready th' = true →
  t_cpu th' = t_cpu th → t_prio th' = t_prio th →
  sched_inv s' (rq_insert (t_cpu th) (t_prio th) (LThread t ready) L).
Proof.
  intros HI Ht Hnr Hc Hp HQ Hlk Hlen Hcpu Hok Htcb Hr Htc Htp.
  split; [done|rewrite Hlen; apply HI|rewrite Hcpu; apply HI| |done| |].
  - intros c p Hc' Hp'. unfold is_queue. rewrite Hlk.
    destruct (si_queue _ _ HI c p Hc' Hp') as [Hq HL]. split; [done|].
    unfold rq_insert. rewrite lookup_insert. case_decide; [eauto|].
    by rewrite lookup_delete_ne.
  - intros c p x Hc' Hp'. rewrite rq_insert_rq, Htcb.
    assert (x ∈ rq L c p → ∃ t0 th0, x = LThread t0 ready ∧
      <[t := th']> (k_tcb s) !! t0 = Some th0 ∧ is_ready th0 = true ∧ t_cpu th0 = c ∧ t_prio th0 = p)
      as Hold.
    { intros Hx. destruct (si_member _ _ HI c p x Hc' Hp' Hx) as (t0 & th0 & -> & Ht0 & Hr0 & ? & ?).
      exists t0, th0. rewrite lookup_insert_ne; [done|]. intros ->. congruence. }
    case_decide as E; [destruct E as [-> ->]|done].
    intros [Hx| ->%list_elem_of_singleton]%elem_of_app; [by apply Hold|].
    exists t, th'. by rewrite lookup_insert_eq.
  - intros t0 th0. rewrite Htcb, rq_insert_rq.
    intros [[<- <-]|[Hne Ht0]]%lookup_insert_Some Hr0.
    + rewrite Htc, Htp, decide_True by done. do 2 (split; [done|]).
      apply elem_of_app. right. by apply list_elem_of_singleton.
    + destruct (si_ready _ _ HI t0 th0 Ht0 Hr0) as (? & ? & Hin). do 2 (split; [done|]).
      case_decide as E; [|done]. destruct E as [E1 E2]. rewrite E1, E2 in Hin.
      apply elem_of_app. by left.
Qed.

Lemma rdyqueue_add_spec s L t th id :
  sched_inv s L → k_tcb s !! t = Some th → is_ready th = false →
  0 ≤ t_cpu th < CFG_MAX_CPU → 0 ≤ t_prio th < ACORAL_MAX_PRIO_NUM →
  L !! LThread t ready = Some [] → k_res s !! t = Some id →
  ∃ s', acoral_sched_rdyqueue_add t s = Ret (tt, s') ∧
    sched_inv s' (rq_insert (t_cpu th) (t_prio th) (LThread t ready) L) ∧
    k_tcb s' = <[t := set_t_state (ready_state (t_state th)) th]> (k_tcb s) ∧
    k_res s' = <[t := id_on (t_cpu th) id]> (k_res s) ∧
    cpus_raised s s' ∧ same_other s s' ∧
    (∀ p, valof (q_nodes (k_q s')) p = valof (q_nodes (k_q s)) p) ∧
    q_lock (k_q s') = q_lock (k_q s).
Proof.
  intros HI Ht Hnr Hc Hp Hnode Hid.
  destruct (run_prio_add_step s L t th HI Ht Hc Hp Hnode)
    as (q' & cs' & Hrun & HQ & Hlk & Hval & Hlen & Hok & Hfr).
  destruct (cpu_get s L (k_cpu s) HI (si_cpu _ _ HI)) as [x Hx].
  destruct (Hfr _ _ Hx) as (b & n & Hx').
  eexists. split.
  { unfold acoral_sched_rdyqueue_add. kstep. kstep. erewrite run_bind by exact Hrun.
    kstep. kstep. erewrite run_bind by (apply run_id_on; kside).
    apply run_set_need_sched. simpl. exact Hx'. }
  split_and!; simpl; try done.
  - apply (sched_inv_add s _ L t th (set_t_state (ready_state (t_state th)) th)); simpl; try done.
    + by rewrite length_aset.
    + intros c y Hy. rewrite aget_aset in Hy by eauto. case_decide as E; [|by apply Hok].
      subst c. injection Hy as <-. by eapply cpu_ok_ext; [| | |by eapply Hok].
    + by rewrite insert_insert_eq.
    + unfold is_ready, ready_state. simpl. flags.
  - by rewrite insert_insert_eq.
  - intros c y Hy. simpl. rewrite aget_aset by eauto.
    destruct (Hfr _ _ Hy) as (b' & n' & Hy'). case_decide as E.
    + subst c. eexists. split; [done|]. rewrite decide_True by done.
      assert (x = y) as <- by congruence. by destruct x.
    + exists (set_c_bitmap b' (set_c_num n' y)). rewrite decide_False by done. by destruct y.
Qed.

(** ** Removing from the priority array *)
Lemma prio_queue_del_run s L cpu prio t a b :
  sched_inv s L → 0 ≤ cpu < CFG_MAX_CPU → 0 ≤ prio < ACORAL_MAX_PRIO_NUM →
  L !! LQueue (QReady cpu prio) = Some (a ++ LThread t ready :: b) →
  ∃ q' c b', aget (k_cpus s) cpu = Some c ∧
    acoral_thread_prio_queue_del cpu prio (LThread t ready) s
      = Ret (tt, set_k_q q' (set_k_cpus
          (aset cpu (set_c_bitmap b' (set_c_num (u32 (c_num c - 1)) c)) (k_cpus s)) s)) ∧
    qrep q' (rq_remove cpu prio (LThread t ready) a b L) ∧
    q_lock q' = q_lock (k_q s) ∧ (∀ p, valof (q_nodes q') p = valof (q_nodes (k_q s)) p) ∧
    length b' = length (c_bitmap c) ∧ Forall word32 b' ∧
    (∀ p, 0 ≤ p → bit_set b' p
       = if decide (p = prio) then negb (bool_decide (a ++ b = [])) else bit_set (c_bitmap c) p).
Proof.
  intros HI Hc Hp HL. destruct (cpu_get s L cpu HI Hc) as [c Hcs].
  destruct (si_queue _ _ HI cpu prio Hc Hp) as [Hisq _].
  destruct (si_cpus _ _ HI cpu c Hcs) as [Hlen Hw Hbits _].
  destruct (queue_del_rep (k_q s) L (LQueue (QReady cpu prio)) (LQueue (QReady cpu prio))
    (LThread t ready) a b) as (q' & Hrun & HQ' & Hlk & Hval); [apply HI|done..|].
  set (s1 := set_k_q q' (set_k_cpus (aset cpu (set_c_num (u32 (c_num c - 1)) c) (k_cpus s)) s)).
  assert (klist_empty (LQueue (QReady cpu prio)) s1 = Ret (bool_decide (a ++ b = []), s1)) as Hemp.
  { eapply run_klist_empty; [exact HQ'|]. by rewrite lookup_insert_ne, lookup_insert_eq. }
  assert (∀ b', aset cpu (set_c_bitmap b' (set_c_num (u32 (c_num c - 1)) c))
     (aset cpu (set_c_num (u32 (c_num c - 1)) c) (k_cpus s))
     = aset cpu (set_c_bitmap b' (set_c_num (u32 (c_num c - 1)) c)) (k_cpus s)) as Haa.
  { intros b'. apply aset_aset. }
  assert (acoral_thread_prio_queue_del cpu prio (LThread t ready) s
    = (if bool_decide (a ++ b = []) then on_bitmap cpu (acoral_clear_bit prio) else mret tt) s1) as Hgo.
  { unfold acoral_thread_prio_queue_del. erewrite run_bind by (by apply run_on_cpu).
    erewrite run_bind by (by apply run_on_q). cbn beta iota. by erewrite run_bind by exact Hemp. }
  rewrite Hgo. case_bool_decide as Hnil.
  - destruct (clear_bit_spec prio (c_bitmap c)) as (b' & Hb & Hbl & Hbw & Hb'); [|done|].
    { rewrite Hlen, bitmap_size_eq. rewrite prio_num_eq in Hp. lia. }
    exists q', c, b'. split_and!; try done.
    erewrite run_on_bitmap; [|simpl; by eapply aget_aset_eq|exact Hb].
    unfold set_k_cpus, set_k_q. simpl. by rewrite Haa.
  - exists q', c, (c_bitmap c). split_and!; try done.
    intros p Hp0. case_decide; [subst p|done]. simpl.
    apply Hbits; [done|]. split; [lia|]. unfold rq. rewrite HL. simpl. by destruct a.
Qed.

Lemma run_prio_del_step s L t th :
  sched_inv s L → k_tcb s !! t = Some th → is_ready th = true →
  ∃ a b q' cs', rq L (t_cpu th) (t_prio th) = a ++ LThread t ready :: b ∧
    acoral_thread_prio_queue_del (t_cpu th) (t_prio th) (LThread t ready) s
      = Ret (tt, set_k_q q' (set_k_cpus cs' s)) ∧
    qrep q' (rq_remove (t_cpu th) (t_prio th) (LThread t ready) a b L) ∧
    q_lock q' = q_lock (k_q s) ∧ (∀ p, valof (q_nodes q') p = valof (q_nodes (k_q s)) p) ∧
    length cs' = length (k_cpus s) ∧
    (∀ c x, aget cs' c = Some x →
       cpu_ok (rq_remove (t_cpu th) (t_prio th) (LThread t ready) a b L) c x) ∧
    (∀ c x, aget (k_cpus s) c = Some x → ∃ b n, aget cs' c = Some (set_c_bitmap b (set_c_num n x))).
Proof.
  intros HI Ht Hr. destruct (si_ready _ _ HI t th Ht Hr) as (Hc & Hp & Hin).
  apply list_elem_of_split in Hin as (a & b & Hab).
  assert (L !! LQueue (QReady (t_cpu th) (t_prio th)) = Some (a ++ LThread t ready :: b)) as HL.
  { unfold rq in Hab. destruct (L !! _) as [xs|]; [by f_equal|]. by destruct a. }
  destruct (prio_queue_del_run s L (t_cpu th) (t_prio th) t a b)
    as (q' & c & b' & Hcs & Hrun & HQ & Hlk & Hval & Hbl & Hbw & Hbits); [done..|].
  exists a, b, q', (aset (t_cpu th) (set_c_bitmap b' (set_c_num (u32 (c_num c - 1)) c)) (k_cpus s)).
  split_and!; try done.
  - apply length_aset.
  - intros c' x Hx. rewrite aget_aset in Hx by eauto. case_decide as E.
    + subst c'. injection Hx as <-.
      eapply (cpu_ok_update L _ _ (t_prio th) c _ (negb (bool_decide (a ++ b = []))) (-1)); simpl;
        [by eapply si_cpus|done| | | |done|done|done|done].
      * intros p _ Hne. rewrite rq_remove_rq, decide_False by tauto. done.
      * rewrite rq_remove_rq, decide_True by done. case_bool_decide; naive_solver.
      * rewrite rq_remove_rq, decide_True, Hab, !length_app by done. simpl. lia.
    + eapply cpu_ok_ext; [|done|done|by eapply (si_cpus _ _ HI)].
      intros p _. rewrite rq_remove_rq, decide_False by naive_solver. done.
  - intros c' x Hx. rewrite aget_aset by eauto. case_decide as E.
    + subst c'. rewrite Hcs in Hx. injection Hx as <-. eauto.
    + exists (c_bitmap x), (c_num x). rewrite Hx. by destruct x.
Qed.

Lemma sched_inv_del s s' L t th th' a b :
  sched_inv s L → k_tcb s !! t = Some th → is_ready th = true →
  rq L (t_cpu th) (t_prio th) = a ++ LThread t ready :: b →
  qrep (k_q s') (rq_remove (t_cpu th) (t_prio th) (LThread t ready) a b L) →
  q_lock (k_q s') = q_lock (k_q s) → length (k_cpus s') = length (k_cpus s) →
  k_cpu s' = k_cpu s →
  (∀ c x, aget (k_cpus s') c = Some x →
     cpu_ok (rq_remove (t_cpu th) (t_prio th) (LThread t ready) a b L) c x) →
  k_tcb s' = <[t := th']> (k_tcb s) → is_ready th' = false →
  sched_inv s' (rq_remove (t_cpu th) (t_prio th) (LThread t ready) a b L).
Proof.
  intros HI Ht Hr Hab HQ Hlk Hlen Hcpu Hok Htcb Hr'.
  destruct (si_ready _ _ HI t th Ht Hr) as (Hc & Hp & _).
  assert (LThread t ready ∉ a ++ b) as Hnin.
  { destruct (si_queue _ _ HI _ _ Hc Hp) as [_ [xs HL]].
    destruct (rep_ring _ _ (qrep_nodes _ _ (si_q _ _ HI)) _ _ HL) as [_ [_ Hnd]%NoDup_cons].
    unfold rq in Hab. rewrite HL in Hab. simpl in Hab. rewrite Hab in Hnd.
    rewrite (Permutation_middle a b (LThread t ready)) in Hnd || rewrite <- Permutation_middle in Hnd.
    by apply NoDup_cons in Hnd as [? _]. }
  split; [done|rewrite Hlen; apply HI|rewrite Hcpu; apply HI| |done| |].
  - intros c p Hc' Hp'. unfold is_queue. rewrite Hlk.
    destruct (si_queue _ _ HI c p Hc' Hp') as [Hq HL]. split; [done|].
    unfold rq_remove. rewrite lookup_insert_ne by done. rewrite lookup_insert. case_decide; eauto.
  - intros c p x Hc' Hp'. rewrite rq_remove_rq, Htcb. intros Hx.
    assert (x ∈ rq L c p ∧ x ≠ LThread t ready) as [Hx1 Hx2].
    { case_decide as E.
      - destruct E as [-> ->]. split; [|congruence]. rewrite Hab, elem_of_mid. by right.
      - split; [done|]. intros ->.
        destruct (si_member _ _ HI c p _ Hc' Hp' Hx) as (t0 & th0 & [= <-] & Ht0 & _ & ? & ?).
        apply E. rewrite Ht in Ht0. injection Ht0 as <-. done. }
    destruct (si_member _ _ HI c p x Hc' Hp' Hx1) as (t0 & th0 & -> & Ht0 & ? & ? & ?).
    exists t0, th0. rewrite lookup_insert_ne; [done|]. congruence.
  - intros t0 th0. rewrite Htcb, rq_remove_rq.
    intros [[<- <-]|[Hne Ht0]]%lookup_insert_Some Hr0; [congruence|].
    destruct (si_ready _ _ HI t0 th0 Ht0 Hr0) as (? & ? & Hin). do 2 (split; [done|]).
    case_decide as E; [|done]. destruct E as [E1 E2]. rewrite E1, E2, Hab, elem_of_mid in Hin.
    destruct Hin as [|]; congruence.
Qed.

Lemma rdyqueue_del_spec s L t th :
  sched_inv s L → k_tcb s !! t = Some th → is_ready th = true →
  ∃ s' a b, acoral_sched_rdyqueue_del t s = Ret (tt, s') ∧
    rq L (t_cpu th) (t_prio th) = a ++ LThread t ready :: b ∧
    sched_inv s' (rq_remove (t_cpu th) (t_prio th) (LThread t ready) a b L) ∧
    k_tcb s' = <[t := set_t_state (suspend_state (t_state th)) th]> (k_tcb s) ∧
    k_res s' = k_res s ∧
    cpus_raised s s' ∧ same_other s s' ∧
    (∀ p, valof (q_nodes (k_q s')) p = valof (q_nodes (k_q s)) p) ∧
    q_lock (k_q s') = q_lock (k_q s).
Proof.
  intros HI Ht Hr.
  destruct (run_prio_del_step s L t th HI Ht Hr)
    as (a & b & q' & cs' & Hab & Hrun & HQ & Hlk & Hval & Hlen & Hok & Hfr).
  destruct (cpu_get s L (k_cpu s) HI (si_cpu _ _ HI)) as [x Hx].
  destruct (Hfr _ _ Hx) as (bm & n & Hx').
  eexists _, a, b. split.
  { unfold acoral_sched_rdyqueue_del. kstep. kstep. erewrite run_bind by exact Hrun.
    kstep. kstep. kstep. apply run_set_need_sched. simpl. exact Hx'. }
  split_and!; simpl; try done.
  - apply (sched_inv_del s _ L t th (set_t_state (suspend_state (t_state th)) th)); simpl; try done.
    + by rewrite length_aset.
    + intros c y Hy. rewrite aget_aset in Hy by eauto. case_decide as E; [|by apply Hok].
      subst c. injection Hy as <-. by eapply cpu_ok_ext; [| | |by eapply Hok].
    + by rewrite !insert_insert_eq.
    + unfold is_ready, suspend_state. simpl. flags.
  - by rewrite !insert_insert_eq.
  - intros c y Hy. simpl. rewrite aget_aset by eauto.
    destruct (Hfr _ _ Hy) as (b' & n' & Hy'). case_decide as E.
    + subst c. eexists. split; [done|]. rewrite decide_True by done.
      assert (x = y) as <- by congruence. by destruct x.
    + exists (set_c_bitmap b' (set_c_num n' y)). rewrite decide_False by done. by destruct y.
Qed.

(** ** Changes the invariant does not see *)
Definition is_suspended (th : thread) : bool := has (t_state th) ACORAL_THREAD_STATE_SUSPEND.

Definition thread_rest (th : thread) : thread := set_t_move_lock 0 (set_t_state 0 th).

Definition thread_view (th : thread) : bool * bool * thread := (is_ready th, is_suspended th, thread_rest th).

(** What threads with one view have in common. *)
Lemma thread_view_eq th th' : thread_view th = thread_view th' →
  is_ready th = is_ready th' ∧ is_suspended th = is_suspended th' ∧ t_cpu th = t_cpu th' ∧ t_prio th = t_prio th'.
Proof.
  intros E. split_and!; [exact (f_equal (λ x, x.1.1) E)|exact (f_equal (λ x, x.1.2) E)
    |exact (f_equal (λ x, t_cpu x.2) E)|exact (f_equal (λ x, t_prio x.2) E)].
Qed.

Definition cpu_view (c : percpu) : list Z * Z := (c_bitmap c, c_num c).

Record view_same (s s' : kstate) : Prop := {
  vs_q : k_q s' = k_q s;
  vs_cpu : k_cpu s' = k_cpu s;
  vs_len : length (k_cpus s') = length (k_cpus s);
  vs_cpus : ∀ c, cpu_view <$> aget (k_cpus s') c = cpu_view <$> aget (k_cpus s) c;
  vs_tcb : ∀ t, thread_view <$> k_tcb s' !! t = thread_view <$> k_tcb s !! t;
}.

#[export] Instance view_same_preorder : PreOrder view_same.
Proof.
  split; [by intros ?; split|]. intros s1 s2 s3 [? ? ? Hc Ht] [? ? ? Hc' Ht'].
  split; try congruence; intros c; by rewrite ?Hc', ?Ht'.
Qed.

Lemma sched_inv_view s s' L : view_same s s' → sched_inv s L → sched_inv s' L.
Proof.
  intros [Hq Hcpu Hlen Hcs Htcb] HI. split.
  - rewrite Hq. apply HI.
  - rewrite Hlen. apply HI.
  - rewrite Hcpu. apply HI.
  - rewrite Hq. apply HI.
  - intros c x Hx. specialize (Hcs c). rewrite Hx in Hcs. simpl in Hcs.
    symmetry in Hcs. apply fmap_Some in Hcs as (y & Hy & [= Hb Hn]).
    eapply cpu_ok_ext; [done|exact Hb|exact Hn|by eapply si_cpus].
  - intros c p x Hc Hp Hx. destruct (si_member _ _ HI c p x Hc Hp Hx) as (t & th & -> & Ht & Hr & Hv).
    specialize (Htcb t). rewrite Ht in Htcb. apply fmap_Some in Htcb as (th' & Ht' & (E1 & _ & E2 & E3)%thread_view_eq).
    exists t, th'. destruct Hv. split_and!; [done|done|congruence..].
  - intros t th' Ht' Hr. specialize (Htcb t). rewrite Ht' in Htcb. symmetry in Htcb.
    apply fmap_Some in Htcb as (th & Ht & (E1 & _ & E2 & E3)%thread_view_eq).
    rewrite E2, E3. eapply (si_ready _ _ HI); [done|congruence].
Qed.

Lemma view_same_cpus s cpu c c' :
  aget (k_cpus s) cpu = Some c → cpu_view c' = cpu_view c →
  view_same s (set_k_cpus (aset cpu c' (k_cpus s)) s).
Proof.
  intros Hc Hv. split; simpl; try done.
  - apply length_aset.
  - intros i. rewrite aget_aset by eauto. case_decide; [subst; by rewrite Hc; simpl; f_equal|done].
Qed.

Lemma view_same_tcb s t th th' :
  k_tcb s !! t = Some th → thread_view th' = thread_view th →
  view_same s (set_k_tcb (<[t := th']> (k_tcb s)) s).
Proof.
  intros Ht Hv. split; simpl; try done. intros i. rewrite lookup_insert.
  case_decide; [subst; by rewrite Ht; simpl; f_equal|done].
Qed.

(** ** The choice of the next thread *)

(** [t] heads the first non-empty ready queue of core [c]. *)
Definition highest (L : gmap loc (list loc)) (c t : Z) : Prop :=
  ∃ p xs, 0 ≤ p < ACORAL_MAX_PRIO_NUM ∧ rq L c p = LThread t ready :: xs ∧
    ∀ p', 0 ≤ p' < p → rq L c p' = [].

(** Something is ready on the executing core (its idle thread always is), and
    its running thread exists. *)
Record core_inv (s : kstate) (L : gmap loc (list loc)) : Prop := {
  ci_ready : ∃ p, 0 ≤ p < ACORAL_MAX_PRIO_NUM ∧ rq L (k_cpu s) p ≠ [];
  ci_running : ∃ c th, aget (k_cpus s) (k_cpu s) = Some c ∧ k_tcb s !! c_running c = Some th ∧
    0 ≤ c_critical_nesting c;
}.

Lemma first_ready L c cs p :
  cpu_ok L c cs → 0 ≤ p < ACORAL_MAX_PRIO_NUM → rq L c p ≠ [] →
  ∃ m, acoral_find_first_bit ACORAL_THREAD_PRIO_BITMAP_SIZE (c_bitmap cs) = Ret (m, c_bitmap cs) ∧
    0 ≤ m ≤ p ∧ rq L c m ≠ [] ∧ ∀ p', 0 ≤ p' < m → rq L c p' = [].
Proof.
  intros [Hlen Hw Hb _] Hp Hne.
  assert (∃ m, (0 ≤ m ≤ p ∧ rq L c m ≠ []) ∧ ∀ p', 0 ≤ p' < m → rq L c p' = []) as (m & [Hm Hmne] & Hmin).
  { assert (∀ n : nat, Z.of_nat n ≤ p → rq L c (Z.of_nat n) ≠ [] →
      ∃ m, (0 ≤ m ≤ p ∧ rq L c m ≠ []) ∧ ∀ p', 0 ≤ p' < m → rq L c p' = []) as Hn.
    { induction n as [n IH] using lt_wf_ind. intros Hnp Hnne.
      destruct (decide (Exists (λ j, rq L c (Z.of_nat j) ≠ []) (seq 0 n))) as [He|Hno].
      - apply list.Exists_exists in He as (j & Hj%elem_of_seq & Hjne). apply (IH j); [lia|lia|done].
      - exists (Z.of_nat n). split; [split; [lia|done]|]. intros p' Hp'.
        destruct (decide (rq L c p' = [])); [done|]. exfalso. apply Hno, list.Exists_exists.
        exists (Z.to_nat p'). rewrite elem_of_seq, Z2Nat.id by lia. split; [lia|done]. }
    apply (Hn (Z.to_nat p)); rewrite Z2Nat.id by lia; [lia|done]. }
  exists m. split_and!; try done; [|lia..]. rewrite bitmap_size_eq in *. rewrite prio_num_eq in *.
  apply find_first_bit_hit; [done|lia|lia|lia| |].
  - apply Hb; [lia|]. split; [lia|done].
  - intros q Hq. apply not_true_is_false. intros Hbq. apply Hb in Hbq as [_ Hbq]; [|lia].
    apply Hbq, Hmin. lia.
Qed.

Lemma select_thread_run s L p :
  sched_inv s L → 0 ≤ p < ACORAL_MAX_PRIO_NUM → rq L (k_cpu s) p ≠ [] →
  ∃ t c, highest L (k_cpu s) t ∧ aget (k_cpus s) (k_cpu s) = Some c ∧
    acoral_select_thread s
    = Ret (tt, set_k_cpus (aset (k_cpu s) (set_c_ready t c) (k_cpus s)) s).
Proof.
  intros HI Hp Hne. pose proof (si_cpu _ _ HI) as Hcpu.
  destruct (cpu_get s L _ HI Hcpu) as [c Hc].
  destruct (first_ready L (k_cpu s) c p) as (m & Hff & Hm & Hmne & Hmin);
    [by eapply si_cpus|done|done|].
  destruct (rq L (k_cpu s) m) as [|x xs] eqn:Ex; [done|].
  destruct (si_member _ _ HI (k_cpu s) m x) as (t & th & -> & _);
    [done|lia|rewrite Ex; by apply elem_of_cons; left|].
  exists t, c. split_and!; [by exists m, xs; split; [lia|]|done|].
  unfold acoral_select_thread, acoral_thread_get_high_prio. kstep.
  erewrite run_bind by (by eapply run_on_bitmap). cbn beta iota.
  assert (set_c_bitmap (c_bitmap c) c = c) as -> by (by destruct c).
  rewrite aset_id by done.
  assert (set_k_cpus (k_cpus s) s = s) as -> by (by destruct s).
  erewrite run_bind; [|eapply run_kget_first; [apply HI|]].
  2:{ unfold rq in Ex. destruct (L !! LQueue (QReady (k_cpu s) m)) as [ys|] eqn:E; [|done].
      simpl in Ex. by rewrite Ex. }
  simpl. erewrite run_bind by reflexivity. by apply run_on_cpu.
Qed.

Lemma select_thread_none s L :
  sched_inv s L → (∀ p, 0 ≤ p < ACORAL_MAX_PRIO_NUM → rq L (k_cpu s) p = []) →
  acoral_select_thread s = Err Wild.
Proof.
  intros HI Hnone. destruct (cpu_get s L _ HI (si_cpu _ _ HI)) as [c Hc].
  destruct (si_cpus _ _ HI _ _ Hc) as [Hlen Hw Hb _].
  assert (acoral_find_first_bit ACORAL_THREAD_PRIO_BITMAP_SIZE (c_bitmap c) = Err Wild) as Hff.
  { rewrite <- Hlen. unfold acoral_find_first_bit, mbind, M_bind.
    rewrite (find_first_word_miss _ 0); [done|lia|lia|done|].
    intros j Hj. destruct (proj2 (aget_is_Some (c_bitmap c) j)) as [w Hww]; [lia|].
    rewrite Hww. f_equal. apply word_zero_bits; [by eapply Forall_aget|].
    intros i Hi. rewrite <- (bit_set_word (c_bitmap c) j) by (done || lia).
    apply not_true_is_false. intros Hbit. apply Hb in Hbit as [? Hbit]; [|lia].
    apply Hbit, Hnone. lia. }
  unfold acoral_select_thread, acoral_thread_get_high_prio. kstep.
  unfold mbind, M_bind, on_bitmap. by rewrite Hc, Hff.
Qed.

(** ** The context switch *)
Definition run_off (th : thread) : thread :=
  set_t_state (del_flag (t_state th) ACORAL_THREAD_STATE_RUNNING) th.

Definition run_on (th : thread) : thread :=
  set_t_state (add_flag (t_state th) ACORAL_THREAD_STATE_RUNNING) th.

Inductive decision : Type := Keep | Switch | SwitchExit.

(** What [acoral_switch_context] decides, from the running thread [prev] and
    the selected thread [next]. *)
Definition switch_decision (prev next : Z) (p n : thread) : decision :=
  if negb (prev =? next) || has (t_state p) ACORAL_THREAD_STATE_RELOAD then
    if t_state p =? ACORAL_THREAD_STATE_EXIT then SwitchExit
    else if can_switch p n then Switch else Keep
  else Keep.

(** What becomes of the previous thread after it is switched out. *)
Definition left_thread (th : thread) : thread :=
  if has (t_state th) ACORAL_THREAD_STATE_RELOAD then
    set_t_state (del_flag (t_state th) ACORAL_THREAD_STATE_RELOAD) th
  else if has (t_state th) ACORAL_THREAD_STATE_MOVE then
    set_t_move_lock 0 (set_t_state (del_flag (t_state th) ACORAL_THREAD_STATE_MOVE) th)
  else th.

(** The thread map after [acoral_set_running_thread next] on a core that ran
    [prev]. *)
Definition tcb_running (prev next : Z) (p n : thread) (tcb : gmap Z thread) :=
  <[next := run_on (if decide (next = prev) then run_off p else n)]> (<[prev := run_off p]> tcb).

Lemma set_running_run s c next p n :
  aget (k_cpus s) (k_cpu s) = Some c → k_tcb s !! c_running c = Some p → k_tcb s !! next = Some n →
  acoral_set_running_thread next s
  = Ret (tt, set_k_cpus (aset (k_cpu s) (set_c_running next c) (k_cpus s))
      (set_k_tcb (tcb_running (c_running c) next p n (k_tcb s)) s)).
Proof.
  intros Hc Hp Hn. unfold acoral_set_running_thread. kstep.
  erewrite run_bind.
  2:{ unfold acoral_cur_thread. kstep. by apply run_at_cpu. }
  kstep. erewrite run_bind.
  2:{ apply run_on_thr. simpl. rewrite lookup_insert.
      instantiate (1 := if decide (next = c_running c) then run_off p else n).
      destruct (decide (c_running c = next)) as [E|E], (decide (next = c_running c)) as [E'|E'];
        [reflexivity|congruence|congruence|exact Hn]. }
  erewrite run_on_cpu by done. reflexivity.
Qed.

Lemma view_run_off th : thread_view (run_off th) = thread_view th.
Proof. unfold thread_view, is_ready, is_suspended, run_off. simpl. by rewrite !has_del by auto with acoral. Qed.

Lemma view_run_on th : thread_view (run_on th) = thread_view th.
Proof. unfold thread_view, is_ready, is_suspended, run_on. simpl. by rewrite !has_add by auto with acoral. Qed.

Lemma view_left th : thread_view (left_thread th) = thread_view th.
Proof.
  unfold thread_view, is_ready, is_suspended, left_thread.
  destruct (has _ ACORAL_THREAD_STATE_RELOAD); [simpl; by rewrite !has_del by auto with acoral|].
  destruct (has _ ACORAL_THREAD_STATE_MOVE); [simpl; by rewrite !has_del by auto with acoral|done].
Qed.

Lemma tcb_running_view prev next p n tcb t :
  tcb !! prev = Some p → tcb !! next = Some n →
  thread_view <$> tcb_running prev next p n tcb !! t = thread_view <$> tcb !! t.
Proof.
  intros Hp Hn. unfold tcb_running. rewrite !lookup_insert.
  destruct (decide (next = t)) as [<-|].
  - simpl. rewrite view_run_on, Hn. simpl. f_equal.
    case_decide; [|done]. subst. rewrite view_run_off. congruence.
  - destruct (decide (prev = t)) as [<-|]; [|done]. simpl. by rewrite view_run_off, Hp.
Qed.

Lemma tcb_running_prev prev next p n tcb :
  ∃ p', tcb_running prev next p n tcb !! prev = Some p' ∧
    p' = if decide (next = prev) then run_on (run_off p) else run_off p.
Proof.
  unfold tcb_running. rewrite !lookup_insert. case_decide as E.
  - eexists. split; [done|]. done.
  - rewrite decide_True by done. eauto.
Qed.

(** The final states of the three decisions. *)
Definition switched (s : kstate) (c : percpu) (next : Z) (p n : thread) : kstate :=
  let s2 := set_k_cpus (aset (k_cpu s) (set_c_ready next (set_c_need_sched 0 c)) (k_cpus s)) s in
  let prev := c_running c in
  let run := set_k_cpus
    (aset (k_cpu s) (set_c_running next (set_c_ready next (set_c_need_sched 0 c))) (k_cpus s)) in
  let tcb := tcb_running prev next p n (k_tcb s) in
  match switch_decision prev next p n with
  | Keep => s2
  | Switch =>
      run (set_k_tcb (match tcb !! prev with
                      | Some p' => <[prev := left_thread p']> tcb
                      | None => tcb
                      end) s)
  | SwitchExit =>
      run (set_k_tcb (match tcb !! prev with
                      | Some p' => <[prev := set_t_state ACORAL_THREAD_STATE_RELEASE p']> tcb
                      | None => tcb
                      end) s)
  end.

Lemma left_tail_run s prev th :
  k_tcb s !! prev = Some th →
  (st1 ← thr t_state prev;
   if has st1 ACORAL_THREAD_STATE_RELOAD then
     on_thr prev (λ th, set_t_state (del_flag (t_state th) ACORAL_THREAD_STATE_RELOAD) th)
   else if has st1 ACORAL_THREAD_STATE_MOVE then
     on_thr prev (λ th, set_t_state (del_flag (t_state th) ACORAL_THREAD_STATE_MOVE) th);;
     on_thr prev (set_t_move_lock 0)
   else mret tt) s = Ret (tt, set_k_tcb (<[prev := left_thread th]> (k_tcb s)) s).
Proof.
  intros Ht. kstep. unfold left_thread.
  destruct (has _ ACORAL_THREAD_STATE_RELOAD); [by erewrite run_on_thr by done|].
  destruct (has _ ACORAL_THREAD_STATE_MOVE).
  - kstep. erewrite run_on_thr by (simpl; by rewrite lookup_insert_eq).
    simpl. by rewrite insert_insert_eq.
  - rewrite insert_id by done. by destruct s.
Qed.

Lemma switch_context_run s L :
  sched_inv s L → core_inv s L →
  ∃ t c p n, highest L (k_cpu s) t ∧ aget (k_cpus s) (k_cpu s) = Some c ∧
    k_tcb s !! c_running c = Some p ∧ k_tcb s !! t = Some n ∧
    acoral_switch_context s = Ret (tt, switched s c t p n).
Proof.
  intros HI [(pr & Hpr & Hne) (c & p & Hc & Hp & _)].
  set (s1 := set_k_cpus (aset (k_cpu s) (set_c_need_sched 0 c) (k_cpus s)) s).
  assert (view_same s s1) as Hv1 by (by eapply view_same_cpus).
  pose proof (sched_inv_view _ _ _ Hv1 HI) as HI1.
  destruct (select_thread_run s1 L pr HI1 Hpr Hne) as (t & c1 & Hhi & Hc1 & Hsel).
  assert (c1 = set_c_need_sched 0 c) as ->.
  { simpl in Hc1. erewrite aget_aset_eq in Hc1 by done. by injection Hc1. }
  assert (∃ n, k_tcb s !! t = Some n) as [n Hn].
  { destruct Hhi as (p0 & xs & Hp0 & Hrq & _).
    destruct (si_member _ _ HI (k_cpu s) p0 (LThread t ready)) as (t' & n & [= <-] & Hn & _);
      [apply HI|done|simpl in Hrq; rewrite Hrq; by apply elem_of_cons; left|eauto]. }
  exists t, c, p, n. split_and!; [done..|].
  simpl in Hsel. unfold s1 in Hsel at 2. simpl in Hsel. rewrite aset_aset in Hsel.
  set (s2 := set_k_cpus (aset (k_cpu s) (set_c_ready t (set_c_need_sched 0 c)) (k_cpus s)) s1) in Hsel.
  assert (aget (k_cpus s2) (k_cpu s2) = Some (set_c_ready t (set_c_need_sched 0 c))) as Hc2.
  { simpl. by eapply aget_aset_eq. }
  unfold acoral_switch_context.
  erewrite run_bind by (by apply run_set_need_sched).
  erewrite run_bind.
  2:{ unfold acoral_cur_thread. kstep. apply run_at_cpu. exact Hc1. }
  erewrite run_bind by exact Hsel. kstep.
  erewrite run_bind by (by apply run_at_cpu). kstep.
  unfold switched, switch_decision.
  change (c_running (set_c_need_sched 0 c)) with (c_running c).
  change (c_ready (set_c_ready t (set_c_need_sched 0 c))) with t.
  destruct (negb (c_running c =? t) || has (t_state p) ACORAL_THREAD_STATE_RELOAD); [|done].
  pose proof (set_running_run s2 _ t p n Hc2 Hp Hn) as Hset. simpl in Hset. rewrite aset_aset in Hset.
  destruct (tcb_running_prev (c_running c) t p n (k_tcb s)) as (p' & Hp' & _). rewrite Hp'.
  destruct (t_state p =? ACORAL_THREAD_STATE_EXIT).
  - erewrite run_bind by exact Hset. by erewrite run_on_thr by exact Hp'.
  - kstep. kstep. change (can_switch (id p) (id n)) with (can_switch p n).
    destruct (can_switch p n); [|done].
    erewrite run_bind by exact Hset. erewrite left_tail_run by exact Hp'. done.
Qed.

(** The thread map after the switch, by decision. *)
Definition tcb_switched (prev next : Z) (p n : thread) (tcb : gmap Z thread) : gmap Z thread :=
  let tcb' := tcb_running prev next p n tcb in
  match switch_decision prev next p n, tcb' !! prev with
  | Switch, Some p' => <[prev := left_thread p']> tcb'
  | SwitchExit, Some p' => <[prev := set_t_state ACORAL_THREAD_STATE_RELEASE p']> tcb'
  | _, _ => tcb
  end.

(** The thread that runs after the switch. *)
Definition now_running (prev next : Z) (p n : thread) : Z :=
  match switch_decision prev next p n with Keep => prev | _ => next end.

Lemma switched_eq s c t p n :
  k_tcb s !! c_running c = Some p →
  switched s c t p n
  = set_k_cpus (aset (k_cpu s)
      (set_c_running (now_running (c_running c) t p n) (set_c_ready t (set_c_need_sched 0 c))) (k_cpus s))
      (set_k_tcb (tcb_switched (c_running c) t p n (k_tcb s)) s).
Proof.
  intros Hp. unfold switched, tcb_switched, now_running.
  destruct (tcb_running_prev (c_running c) t p n (k_tcb s)) as (p' & Hp' & _). rewrite Hp'.
  destruct (switch_decision _ _ _ _); [|done..].
  destruct s, c; reflexivity.
Qed.

Lemma decision_exit prev next p n :
  switch_decision prev next p n = SwitchExit → t_state p = ACORAL_THREAD_STATE_EXIT.
Proof.
  unfold switch_decision. destruct (_ || _); [|done].
  destruct (Z.eqb_spec (t_state p) ACORAL_THREAD_STATE_EXIT); [done|]. by destruct (can_switch p n).
Qed.

Lemma tcb_switched_view prev next p n tcb t :
  tcb !! prev = Some p → tcb !! next = Some n →
  thread_view <$> tcb_switched prev next p n tcb !! t = thread_view <$> tcb !! t.
Proof.
  intros Hp Hn. pose proof (tcb_running_view prev next p n tcb) as Hv.
  destruct (tcb_running_prev prev next p n tcb) as (p' & Hp' & Hpe).
  assert (thread_view p' = thread_view p) as Hvp.
  { specialize (Hv prev Hp Hn). rewrite Hp', Hp in Hv. simpl in Hv. congruence. }
  unfold tcb_switched. rewrite Hp'. destruct (switch_decision prev next p n) eqn:Ed; [done| |].
  - rewrite lookup_insert. destruct (decide (prev = t)) as [<-|]; [|by apply Hv].
    simpl. by rewrite view_left, Hvp, Hp.
  - rewrite lookup_insert. destruct (decide (prev = t)) as [<-|]; [|by apply Hv].
    rewrite Hp. simpl. f_equal. apply decision_exit in Ed.
    apply (f_equal snd) in Hvp as E. unfold thread_view, is_ready, is_suspended. simpl. rewrite Ed.
    f_equal. exact (f_equal (set_t_state 0) E).
Qed.

Lemma switched_view_same s L c t p n :
  sched_inv s L → aget (k_cpus s) (k_cpu s) = Some c →
  k_tcb s !! c_running c = Some p → k_tcb s !! t = Some n →
  view_same s (switched s c t p n).
Proof.
  intros HI Hc Hp Hn. rewrite switched_eq by done. split; simpl; try done.
  - apply length_aset.
  - intros i. rewrite aget_aset by eauto. case_decide; [subst; by rewrite Hc|done].
  - intros i. by apply tcb_switched_view.
Qed.

Lemma view_dom s s' t : view_same s s' → is_Some (k_tcb s !! t) → is_Some (k_tcb s' !! t).
Proof. intros HV. rewrite <- !(fmap_is_Some thread_view), (vs_tcb _ _ HV). done. Qed.

Lemma switched_core s L c t p n :
  sched_inv s L → core_inv s L → aget (k_cpus s) (k_cpu s) = Some c →
  k_tcb s !! c_running c = Some p → k_tcb s !! t = Some n →
  core_inv (switched s c t p n) L.
Proof.
  intros HI HC Hc Hp Hn.
  assert (0 ≤ c_critical_nesting c) as Hnest.
  { destruct (ci_running _ _ HC) as (c' & _ & Hc' & _ & ?). by simplify_eq. }
  pose proof (switched_view_same s L c t p n HI Hc Hp Hn) as HV.
  split; [rewrite (vs_cpu _ _ HV); apply HC|].
  assert (is_Some (k_tcb (switched s c t p n) !! now_running (c_running c) t p n)) as [th Hth].
  { apply (view_dom s); [done|]. unfold now_running. destruct (switch_decision _ _ _ _); eauto. }
  rewrite switched_eq in * by done.
  eexists _, th. split; [simpl; by eapply aget_aset_eq|done].
Qed.

(** ** Critical sections *)

(** One step on the record of the executing core. *)
Lemma acoral_sched_run s c :
  aget (k_cpus s) (k_cpu s) = Some c →
  acoral_sched s =
    if bool_decide (c_need_sched c ≠ 0 ∧ c_intr_nesting c = 0 ∧ c_sched_lock c = 0 ∧ k_sched_enable s ≠ 0)
    then acoral_switch_context s else Ret (tt, s).
Proof.
  intros Hc. unfold acoral_sched. kstep. do 3 (erewrite run_bind by (by apply run_at_cpu)). kstep.
  destruct (Z.eqb_spec (c_need_sched c) 0); [rewrite bool_decide_eq_false_2 by tauto; done|].
  destruct (Z.eqb_spec (c_intr_nesting c) 0); [|rewrite bool_decide_eq_false_2 by tauto; done].
  destruct (Z.eqb_spec (c_sched_lock c) 0); [|rewrite bool_decide_eq_false_2 by tauto; done].
  destruct (Z.eqb_spec (k_sched_enable s) 0); [rewrite bool_decide_eq_false_2 by tauto; done|].
  by rewrite bool_decide_eq_true_2.
Qed.

(** The executing core inside one more critical section. *)
Definition entered (c : percpu) : percpu :=
  set_c_critical_nesting (u32 (c_critical_nesting c + 1))
    (set_c_sched_lock (if c_sched_lock c =? 0 then 1 else c_sched_lock c) (set_c_pmr INTR_MASK c)).

Lemma enter_critical_run s c :
  aget (k_cpus s) (k_cpu s) = Some c →
  acoral_enter_critical s
  = Ret (tt, set_k_cpus (aset (k_cpu s) (entered c) (k_cpus s)) s).
Proof.
  intros Hc. unfold acoral_enter_critical. kstep.
  erewrite run_bind.
  2:{ unfold hal_intr_disable_save. kstep. by apply run_on_cpu. }
  kstep. change (c_sched_lock (set_c_pmr INTR_MASK c)) with (c_sched_lock c).
  unfold entered, when. destruct (c_sched_lock c =? 0) eqn:E.
  - kstep. erewrite run_on_cpu by kside. unfold set_k_cpus. simpl. by rewrite !aset_aset.
  - kstep. erewrite run_on_cpu by kside. unfold set_k_cpus. simpl. by rewrite !aset_aset.
Qed.

Lemma exit_critical_nested s c :
  aget (k_cpus s) (k_cpu s) = Some c → 1 < c_critical_nesting c →
  acoral_exit_critical s
  = Ret (tt, set_k_cpus (aset (k_cpu s) (set_c_critical_nesting (c_critical_nesting c - 1) c) (k_cpus s)) s).
Proof.
  intros Hc Hn. unfold acoral_exit_critical. kstep. kstep.
  rewrite (proj2 (Z.ltb_lt 0 _)) by lia. kstep. kstep.
  simpl. rewrite (proj2 (Z.eqb_neq _ _)) by lia. done.
Qed.

(** The executing core outside every critical section. *)
Definition left_critical (c : percpu) : percpu :=
  set_c_sched_lock 0 (set_c_pmr INTR_UNMASK (set_c_critical_nesting 0 c)).

Lemma exit_critical_last s c :
  aget (k_cpus s) (k_cpu s) = Some c → c_critical_nesting c = 0 ∨ c_critical_nesting c = 1 →
  acoral_exit_critical s
  = acoral_sched (set_k_cpus (aset (k_cpu s) (left_critical c) (k_cpus s)) s).
Proof.
  intros Hc Hn. unfold acoral_exit_critical. kstep. kstep.
  assert (when (0 <? c_critical_nesting c) (on_cpu (k_cpu s) (set_c_critical_nesting (c_critical_nesting c - 1))) s
    = Ret (tt, set_k_cpus (aset (k_cpu s) (set_c_critical_nesting 0 c) (k_cpus s)) s)) as Hw.
  { destruct Hn as [Hn|Hn]; rewrite Hn; simpl.
    - assert (set_c_critical_nesting 0 c = c) as -> by (rewrite <- Hn; by destruct c).
      rewrite aset_id by done. by destruct s.
    - by apply run_on_cpu. }
  erewrite run_bind by exact Hw. kstep. simpl.
  erewrite run_bind.
  2:{ unfold hal_intr_restore. kstep. by apply run_on_cpu; simpl; eapply aget_aset_eq. }
  unfold acoral_sched_unlock. kstep. kstep.
  unfold set_k_cpus. simpl. rewrite !aset_aset. done.
Qed.

(** ** The frame of scheduling

    Entering and leaving critical sections and switching threads change the
    records of the executing core and state flags of threads that the ready
    queues do not depend on. *)
Record sched_frame (s s' : kstate) : Prop := {
  sf_view : view_same s s';
  sf_res : k_res s' = k_res s;
  sf_other : same_other s s';
}.

#[export] Instance sched_frame_preorder : PreOrder sched_frame.
Proof.
  split.
  - intros s. split; [reflexivity|done|]. unfold same_other. tauto.
  - intros s1 s2 s3 [V1 R1 O1] [V2 R2 O2]. split; [by etrans|congruence|].
    unfold same_other in *. destruct_and!. split_and!; congruence.
Qed.

Lemma frame_cpus s cpu c c' :
  aget (k_cpus s) cpu = Some c → cpu_view c' = cpu_view c →
  sched_frame s (set_k_cpus (aset cpu c' (k_cpus s)) s).
Proof. intros. split; [by eapply view_same_cpus|done|]. unfold same_other. simpl. tauto. Qed.

Lemma core_inv_cpus s L c c' :
  core_inv s L → aget (k_cpus s) (k_cpu s) = Some c → c_running c' = c_running c →
  0 ≤ c_critical_nesting c' →
  core_inv (set_k_cpus (aset (k_cpu s) c' (k_cpus s)) s) L.
Proof.
  intros [Hr (c0 & th & Hc0 & Hth & _)] Hc Hrun Hn. split; [done|]. simplify_eq.
  exists c', th. simpl. split_and!; [by eapply aget_aset_eq|congruence|done].
Qed.

Lemma switch_context_spec s L :
  sched_inv s L → core_inv s L →
  ∃ s', acoral_switch_context s = Ret (tt, s') ∧ sched_frame s s' ∧ sched_inv s' L ∧ core_inv s' L.
Proof.
  intros HI HC. destruct (switch_context_run s L HI HC) as (t & c & p & n & _ & Hc & Hp & Hn & Hrun).
  pose proof (switched_view_same s L c t p n HI Hc Hp Hn) as HV.
  exists (switched s c t p n). split_and!; [done| |by eapply sched_inv_view|by apply switched_core].
  split; [done|by rewrite switched_eq|]. rewrite switched_eq by done. unfold same_other. simpl. tauto.
Qed.

Lemma sched_spec s L :
  sched_inv s L → core_inv s L →
  ∃ s', acoral_sched s = Ret (tt, s') ∧ sched_frame s s' ∧ sched_inv s' L ∧ core_inv s' L.
Proof.
  intros HI HC. destruct (ci_running _ _ HC) as (c & _ & Hc & _).
  erewrite acoral_sched_run by done. case_bool_decide; [by apply switch_context_spec|].
  exists s. split_and!; [done|reflexivity|done|done].
Qed.

Lemma enter_critical_spec s L :
  sched_inv s L → core_inv s L →
  ∃ s', acoral_enter_critical s = Ret (tt, s') ∧ sched_frame s s' ∧ sched_inv s' L ∧ core_inv s' L ∧
    k_tcb s' = k_tcb s.
Proof.
  intros HI HC. destruct (ci_running _ _ HC) as (c & _ & Hc & _).
  eexists. split; [by apply enter_critical_run|].
  assert (sched_frame s (set_k_cpus (aset (k_cpu s) (entered c) (k_cpus s)) s)) as HF
    by (by eapply frame_cpus).
  split_and!; [done|eapply sched_inv_view; [apply HF|done]| |done].
  eapply core_inv_cpus; [done..|]. apply wrapu_range. lia.
Qed.

Lemma exit_critical_spec s L :
  sched_inv s L → core_inv s L →
  ∃ s', acoral_exit_critical s = Ret (tt, s') ∧ sched_frame s s' ∧ sched_inv s' L ∧ core_inv s' L.
Proof.
  intros HI HC. destruct (ci_running _ _ HC) as (c & th & Hc & Hth & Hn).
  destruct (decide (1 < c_critical_nesting c)) as [H1|H1].
  - eexists. split; [by apply exit_critical_nested|].
    assert (sched_frame s (set_k_cpus (aset (k_cpu s)
      (set_c_critical_nesting (c_critical_nesting c - 1) c) (k_cpus s)) s)) as HF by (by eapply frame_cpus).
    split_and!; [done|eapply sched_inv_view; [apply HF|done]|].
    eapply core_inv_cpus; [done..|]. simpl. lia.
  - erewrite exit_critical_last by (done || lia).
    set (s1 := set_k_cpus (aset (k_cpu s) (left_critical c) (k_cpus s)) s).
    assert (sched_frame s s1) as HF by (by eapply frame_cpus).
    destruct (sched_spec s1 L) as (s' & Hrun & HF' & HI' & HC').
    + eapply sched_inv_view; [apply HF|done].
    + by eapply core_inv_cpus.
    + exists s'. split_and!; [done|by etrans|done|done].
Qed.

(** Changes of lists that are not ready queues. *)
Lemma sched_inv_lists s q' L L' :
  sched_inv s L → qrep q' L' → q_lock q' = q_lock (k_q s) →
  (∀ c p, L' !! LQueue (QReady c p) = L !! LQueue (QReady c p)) →
  sched_inv (set_k_q q' s) L'.
Proof.
  intros HI HQ Hlk HL. assert (∀ c p, rq L' c p = rq L c p) as Hrq by (intros; unfold rq; by rewrite HL).
  destruct HI as [Hq Hlen Hcpu Hqueue Hcpus Hmem Hrdy]. split; simpl; try done.
  - intros c p Hc Hp. unfold is_queue. rewrite Hlk, HL. by apply Hqueue.
  - intros c cs Hcs. eapply cpu_ok_ext; [|done..|by apply Hcpus]. auto.
  - intros c p x Hc Hp. rewrite Hrq. by apply Hmem.
  - intros t th Ht Hr. rewrite Hrq. by apply Hrdy.
Qed.

Lemma core_inv_lists s q' L L' :
  core_inv s L → (∀ c p, L' !! LQueue (QReady c p) = L !! LQueue (QReady c p)) →
  core_inv (set_k_q q' s) L'.
Proof.
  intros [(p & Hp & Hne) Hrun] HL. split; [|done]. exists p. unfold rq in *. simpl. by rewrite HL.
Qed.

(** Changes outside the lists, the cores and the threads. *)
Lemma sched_inv_same s s' L :
  sched_inv s L → k_q s' = k_q s → k_cpu s' = k_cpu s → k_cpus s' = k_cpus s → k_tcb s' = k_tcb s →
  sched_inv s' L.
Proof.
  intros HI Hq Hc Hcs Ht. eapply sched_inv_view; [|done]. split; try congruence; intros; congruence.
Qed.

Lemma core_inv_same s s' L :
  core_inv s L → k_cpu s' = k_cpu s → k_cpus s' = k_cpus s → k_tcb s' = k_tcb s → core_inv s' L.
Proof. intros [? ?] Hc Hcs Ht. split; by rewrite ?Hc, ?Hcs, ?Ht. Qed.
