(* ===== verification/SchedSpec.v ===== *)
(** * Properties of the scheduler

    The initial state satisfies the invariant of the ready queues; adding and
    removing a thread preserve it; the scheduler picks the highest priority;
    the context switch follows the preemption rules; and a switch can only
    happen outside critical sections and interrupts. *)
From S2P Require Import Prelude Bitops DList Queues KTypes KState Sched.
From stdpp Require Import list.
#[local] Open Scope Z_scope.

(** ** Initialisation *)

(** [q] is on no list: it may be (re)initialised. *)
Definition unused (L : gmap loc (list loc)) (q : loc) : Prop :=
  (∀ q' xs, L !! q' = Some xs → q' ≠ q → q ∉ xs) ∧ (L !! q = None ∨ L !! q = Some []).

Lemma fifo_init_rep (s : qstate loc) L q :
  qrep s L → unused L q →
  ∃ s', acoral_fifo_queue_init q s = Ret (tt, s') ∧ qrep s' (<[q := []]> L) ∧
    q_lock s' = <[q := 0]> (q_lock s).
Proof.
  intros [HR Hl] [Hu Hq]. eexists. split; [reflexivity|]. split; [|done]. split; simpl.
  - by apply rep_init.
  - intros q' k. rewrite lookup_insert_Some. intros [[_ <-]|[_ Hk]]; [done|by eapply Hl].
Qed.

(** The lists after the heads of [n] ready queues of core [c], from priority
    [i], have been initialised. *)
Fixpoint ins_queues (c : Z) (n : nat) (i : Z) (L : gmap loc (list loc)) : gmap loc (list loc) :=
  match n with
  | O => L
  | S n => ins_queues c n (i + 1) (<[LQueue (QReady c i) := []]> L)
  end.

Lemma ins_queues_lookup c n i L x :
  ins_queues c n i L !! x =
    match x with
    | LQueue (QReady c' j) =>
        if decide (c' = c ∧ i ≤ j < i + Z.of_nat n) then Some [] else L !! x
    | _ => L !! x
    end.
Proof.
  revert i L. induction n as [|n IH]; intros i L; cbn [ins_queues].
  - destruct x as [| [] | | | | | | | | | | |]; try done. rewrite decide_False; [done|lia].
  - rewrite IH. destruct x as [| [c' j| | | | | | | | | | | | | | | | | | |] | | | | | | | | | | |];
      try (rewrite lookup_insert_ne; done).
    destruct (decide (c' = c ∧ i + 1 ≤ j < i + 1 + Z.of_nat n)) as [E|E].
    + rewrite decide_True; [done|lia].
    + rewrite lookup_insert.
      destruct (decide (LQueue (QReady c i) = LQueue (QReady c' j))) as [E'|E'].
      * injection E' as -> ->. rewrite decide_True; [done|lia].
      * rewrite decide_False; [done|]. intros [-> ?].
        apply E. split; [done|]. assert (i ≠ j); [|lia]. congruence.
Qed.

Lemma unused_insert L q q' : unused L q → unused L q' → unused (<[q := []]> L) q'.
Proof.
  intros [Hu Hq] [Hu' Hq']. split.
  - intros q0 xs [[_ <-]|[_ H0]]%lookup_insert_Some Hne; [apply not_elem_of_nil|by eapply Hu'].
  - rewrite lookup_insert. case_decide; [by right|done].
Qed.

Lemma init_queues_run n : ∀ i c s L,
  qrep (k_q s) L → (∀ j, unused L (LQueue (QReady c j))) →
  ∃ q', for_up n i (λ i, on_q (acoral_fifo_queue_init (LQueue (QReady c i)))) s
      = Ret (tt, set_k_q q' s) ∧
    qrep q' (ins_queues c n i L) ∧
    (∀ x, q_lock q' !! x = match x with
        | LQueue (QReady c' j) =>
            if decide (c' = c ∧ i ≤ j < i + Z.of_nat n) then Some 0 else q_lock (k_q s) !! x
        | _ => q_lock (k_q s) !! x
        end).
Proof.
  induction n as [|n IH]; intros i c s L HQ Hu.
  - exists (k_q s). split_and!; [by destruct s|done|].
    intros [| [] | | | | | | | | | | |]; try done. rewrite decide_False; [done|lia].
  - destruct (fifo_init_rep (k_q s) L (LQueue (QReady c i)) HQ (Hu i)) as (q1 & Hrun & HQ1 & Hl1).
    destruct (IH (i + 1) c (set_k_q q1 s) (<[LQueue (QReady c i) := []]> L)) as (q2 & Hrun2 & HQ2 & Hl2);
      [done|intros j; by apply unused_insert|].
    exists q2. split_and!; [|done|].
    + cbn [for_up]. erewrite run_bind by (by apply run_on_q). exact Hrun2.
    + intros x. rewrite Hl2. simpl. rewrite Hl1.
      destruct x as [| [c' j| | | | | | | | | | | | | | | | | | |] | | | | | | | | | | |];
        try (rewrite lookup_insert_ne; done).
      destruct (decide (c' = c ∧ i + 1 ≤ j < i + 1 + Z.of_nat n)) as [E|E];
        [rewrite decide_True; [done|lia]|].
      rewrite lookup_insert.
      destruct (decide (LQueue (QReady c i) = LQueue (QReady c' j))) as [E'|E'].
      * injection E' as -> ->. rewrite decide_True; [done|lia].
      * rewrite decide_False; [done|]. intros [-> ?]. apply E. split; [done|].
        assert (i ≠ j); [|lia]. congruence.
Qed.

Lemma prio_queue_init_run s L cpu cs :
  aget (k_cpus s) cpu = Some cs → length (c_bitmap cs) = 2%nat →
  qrep (k_q s) L → (∀ j, unused L (LQueue (QReady cpu j))) →
  ∃ q', acoral_thread_prio_queue_init cpu s
      = Ret (tt, set_k_q q' (set_k_cpus (aset cpu (set_c_bitmap [0; 0] (set_c_num 0 cs)) (k_cpus s)) s)) ∧
    qrep q' (ins_queues cpu 61 0 L) ∧
    (∀ x, q_lock q' !! x = match x with
        | LQueue (QReady c' j) =>
            if decide (c' = cpu ∧ 0 ≤ j < 61) then Some 0 else q_lock (k_q s) !! x
        | _ => q_lock (k_q s) !! x
        end).
Proof.
  intros Hc Hlen HQ Hu.
  destruct (c_bitmap cs) as [|w0 [|w1 [|]]] eqn:Eb; try done. clear Hlen.
  set (s1 := set_k_cpus (aset cpu (set_c_bitmap [0; 0] (set_c_num 0 cs)) (k_cpus s)) s).
  destruct (init_queues_run 61 0 cpu s1 L HQ Hu) as (q' & Hrun & HQ' & Hl).
  exists q'. split_and!; [|done|done].
  unfold acoral_thread_prio_queue_init. erewrite run_bind by (by apply run_on_cpu).
  erewrite run_bind; [exact Hrun|].
  change (Z.to_nat ACORAL_THREAD_PRIO_BITMAP_SIZE) with 2%nat. cbn [for_up].
  erewrite run_bind.
  2:{ eapply run_on_bitmap; [simpl; by eapply aget_aset_eq|]. simpl. rewrite Eb. reflexivity. }
  erewrite run_bind.
  2:{ eapply run_on_bitmap; [simpl; by do 2 eapply aget_aset_eq|]. simpl. reflexivity. }
  unfold mret, M_ret, s1, set_k_cpus. simpl. by rewrite !aset_aset.
Qed.

Lemma ins_queues_unused c n i L q :
  (∀ j, unused L (LQueue (QReady c j))) → unused L q → unused (ins_queues c n i L) q.
Proof.
  revert i L. induction n as [|n IH]; intros i L Hc Hq; [done|]. cbn [ins_queues].
  apply IH; [intros j|]; by apply unused_insert.
Qed.

(** All the lists after [acoral_sched_rdyqueue_init]. *)
Definition boot_lists (L : gmap loc (list loc)) : gmap loc (list loc) :=
  ins_queues 1 61 0 (ins_queues 0 61 0 L).

#[local] Opaque ins_queues.

Lemma boot_lists_ready L c p :
  0 ≤ c < CFG_MAX_CPU → 0 ≤ p < ACORAL_MAX_PRIO_NUM →
  boot_lists L !! LQueue (QReady c p) = Some [].
Proof.
  rewrite prio_num_eq. unfold CFG_MAX_CPU, boot_lists. intros Hc Hp.
  rewrite ins_queues_lookup. case_decide as E; [done|].
  rewrite ins_queues_lookup, decide_True; [done|lia].
Qed.

Lemma boot_lists_rq L c p :
  (∀ c p, unused L (LQueue (QReady c p))) → rq (boot_lists L) c p = [].
Proof.
  intros Hu. unfold rq, boot_lists. rewrite !ins_queues_lookup.
  case_decide; [done|]. case_decide; [done|]. by destruct (Hu c p) as [_ [-> | ->]].
Qed.

Lemma boot_count L c : (∀ c p, unused L (LQueue (QReady c p))) → ready_count (boot_lists L) c = O.
Proof.
  intros Hu. unfold ready_count. generalize (seq 0 (Z.to_nat ACORAL_MAX_PRIO_NUM)) as l.
  induction l as [|i l IH]; [done|]. cbn [sum_list_with]. rewrite IH, boot_lists_rq by done. done.
Qed.

Lemma boot_cpu_ok L c cs :
  (∀ c p, unused L (LQueue (QReady c p))) → cpu_ok (boot_lists L) c (set_c_bitmap [0; 0] (set_c_num 0 cs)).
Proof.
  intros Hu. split.
  - reflexivity.
  - repeat constructor; simpl; lia.
  - intros p Hp. rewrite boot_lists_rq by done. split; [|by intros [_ ?]]. simpl.
    unfold bit_set. destruct (aget [0; 0] (p / 32)) as [w|] eqn:E; [|done].
    assert (w = 0) as ->; [|by rewrite Z.testbit_0_l].
    assert (Forall (λ w, w = 0) [0; 0]) as HF by (by repeat constructor).
    by eapply Forall_aget in HF.
  - by rewrite boot_count.
Qed.

Lemma rdyqueue_init_spec s L :
  qrep (k_q s) L → (∀ c p, unused L (LQueue (QReady c p))) →
  Z.of_nat (length (k_cpus s)) = CFG_MAX_CPU → 0 ≤ k_cpu s < CFG_MAX_CPU →
  Forall (λ c, length (c_bitmap c) = 2%nat) (k_cpus s) →
  (∀ t th, k_tcb s !! t = Some th → is_ready th = false) →
  ∃ q' cs', acoral_sched_rdyqueue_init s = Ret (tt, set_k_q q' (set_k_cpus cs' s)) ∧
    sched_inv (set_k_q q' (set_k_cpus cs' s)) (boot_lists L) ∧
    cs' = (λ c, set_c_bitmap [0; 0] (set_c_num 0 c)) <$> k_cpus s.
Proof.
  intros HQ Hu Hlen Hcpu Hbm Hnr. unfold CFG_MAX_CPU in *.
  destruct (k_cpus s) as [|c0 [|c1 [|]]] eqn:Ec; simpl in Hlen; try lia.
  apply Forall_cons in Hbm as [Hb0 [Hb1 _]%Forall_cons].
  destruct (prio_queue_init_run s L 0 c0) as (q1 & Hrun1 & HQ1 & Hl1); [by rewrite Ec|done..|].
  rewrite Ec in Hrun1. simpl in Hrun1.
  set (s1 := set_k_q q1 (set_k_cpus (aset 0 (set_c_bitmap [0; 0] (set_c_num 0 c0)) [c0; c1]) s)) in Hrun1.
  destruct (prio_queue_init_run s1 (ins_queues 0 61 0 L) 1 c1) as (q2 & Hrun2 & HQ2 & Hl2);
    [done|done|done|intros j; by apply ins_queues_unused|].
  exists q2, [set_c_bitmap [0; 0] (set_c_num 0 c0); set_c_bitmap [0; 0] (set_c_num 0 c1)].
  split_and!; [|split; simpl|done].
  - unfold acoral_sched_rdyqueue_init. change (Z.to_nat CFG_MAX_CPU) with 2%nat. cbn [for_up].
    erewrite run_bind by exact Hrun1. cbn beta. change (0 + 1) with 1.
    erewrite run_bind by exact Hrun2. reflexivity.
  - done.
  - done.
  - done.
  - intros c p Hc Hp. split; [|rewrite boot_lists_ready by done; eauto].
    unfold is_queue. rewrite Hl2. rewrite prio_num_eq in Hp. case_decide as E; [eauto|].
    unfold s1. simpl. rewrite Hl1. rewrite decide_True; [eauto|]. unfold CFG_MAX_CPU in Hc. lia.
  - intros c cs. intros Hg. pose proof (aget_lt _ _ _ Hg) as Hlt. simpl in Hlt.
    assert (c = 0 ∨ c = 1) as [-> | ->] by lia; simpl in Hg; injection Hg as <-; by apply boot_cpu_ok.
  - intros c p x _ _. rewrite boot_lists_rq by done. by intros ?%not_elem_of_nil.
  - intros t th Ht Hr. rewrite (Hnr t th Ht) in Hr. done.
Qed.

Lemma running_flag_prev prev next p n tcb p' :
  prev ≠ next → tcb_running prev next p n tcb !! prev = Some p' →
  has (t_state p') ACORAL_THREAD_STATE_RUNNING = false.
Proof.
  intros Hne. unfold tcb_running. rewrite lookup_insert_ne by done.
  rewrite lookup_insert_eq. intros [= <-]. simpl. flags.
Qed.

Lemma left_running_flag th :
  has (t_state (left_thread th)) ACORAL_THREAD_STATE_RUNNING = has (t_state th) ACORAL_THREAD_STATE_RUNNING.
Proof.
  unfold left_thread. destruct (has _ ACORAL_THREAD_STATE_RELOAD); [simpl; flags|].
  destruct (has _ ACORAL_THREAD_STATE_MOVE); [simpl; flags|done].
Qed.

(** When the running thread changes, the flag moves with it. *)
Lemma switched_flags prev next p n tcb :
  prev ≠ next → switch_decision prev next p n ≠ Keep →
  ∃ p' n', tcb_switched prev next p n tcb !! prev = Some p' ∧
    tcb_switched prev next p n tcb !! next = Some n' ∧
    has (t_state p') ACORAL_THREAD_STATE_RUNNING = false ∧
    has (t_state n') ACORAL_THREAD_STATE_RUNNING = true ∧
    (switch_decision prev next p n = SwitchExit → t_state p' = ACORAL_THREAD_STATE_RELEASE).
Proof.
  intros Hne Hd. destruct (tcb_running_prev prev next p n tcb) as (p' & Hp' & _).
  pose proof (running_flag_prev prev next p n tcb p' Hne Hp') as Hoff.
  assert (∃ n', tcb_running prev next p n tcb !! next = Some n' ∧
    has (t_state n') ACORAL_THREAD_STATE_RUNNING = true) as (n' & Hn' & Hon).
  { unfold tcb_running. rewrite lookup_insert_eq. eexists. split; [done|]. simpl. flags. }
  unfold tcb_switched. rewrite Hp'. destruct (switch_decision prev next p n); [done| |].
  - exists (left_thread p'), n'. rewrite lookup_insert_eq, lookup_insert_ne by done.
    split_and!; [done|done|by rewrite left_running_flag|done|done].
  - exists (set_t_state ACORAL_THREAD_STATE_RELEASE p'), n'.
    rewrite lookup_insert_eq, lookup_insert_ne by done. done.
Qed.

(** ** Properties *)

(** [acoral_sched_rdyqueue_init] establishes the invariant of the ready
    queues on both cores, with every queue empty, whatever lists exist
    elsewhere, as long as no thread is marked ready. *)
Theorem rdyqueue_init_inv s L :
  qrep (k_q s) L → (∀ c p, unused L (LQueue (QReady c p))) →
  Z.of_nat (length (k_cpus s)) = CFG_MAX_CPU → 0 ≤ k_cpu s < CFG_MAX_CPU →
  Forall (λ c, length (c_bitmap c) = 2%nat) (k_cpus s) →
  (∀ t th, k_tcb s !! t = Some th → is_ready th = false) →
  ∃ s' L', acoral_sched_rdyqueue_init s = Ret (tt, s') ∧ sched_inv s' L' ∧
    (∀ c p, 0 ≤ c < CFG_MAX_CPU → 0 ≤ p < ACORAL_MAX_PRIO_NUM → L' !! LQueue (QReady c p) = Some []) ∧
    (∀ x, (∀ c p, x ≠ LQueue (QReady c p)) → L' !! x = L !! x).
Proof.
  intros HQ Hu Hlen Hcpu Hbm Hnr.
  destruct (rdyqueue_init_spec s L) as (q' & cs' & Hrun & HI & _); [done..|].
  eexists _, (boot_lists L). split_and!; [exact Hrun|exact HI| |].
  - intros. by apply boot_lists_ready.
  - intros x Hx. unfold boot_lists. rewrite !ins_queues_lookup.
    destruct x as [| [] | | | | | | | | | | |]; try done. by destruct (Hx cpu prio).
Qed.

(** C26 [acoral_sched_rdyqueue_add] puts a thread that is not ready at the tail
    of the queue of its core and priority, marks it ready and no longer
    suspended, raises [need_sched] on the executing core, and preserves the
    invariant: the bit of its priority is set, the counter is one higher. *)
Theorem rdyqueue_add_inv s L t th id :
  sched_inv s L → k_tcb s !! t = Some th → is_ready th = false →
  0 ≤ t_cpu th < CFG_MAX_CPU → 0 ≤ t_prio th < ACORAL_MAX_PRIO_NUM →
  L !! LThread t ready = Some [] → k_res s !! t = Some id →
  ∃ s' L' c, acoral_sched_rdyqueue_add t s = Ret (tt, s') ∧ sched_inv s' L' ∧
    rq L' (t_cpu th) (t_prio th) = rq L (t_cpu th) (t_prio th) ++ [LThread t ready] ∧
    (∀ c p, ¬ (c = t_cpu th ∧ p = t_prio th) → rq L' c p = rq L c p) ∧
    k_tcb s' = <[t := set_t_state (ready_state (t_state th)) th]> (k_tcb s) ∧
    aget (k_cpus s') (k_cpu s) = Some c ∧ c_need_sched c = 1.
Proof.
  intros HI Ht Hnr Hc Hp Hnode Hid.
  destruct (rdyqueue_add_spec s L t th id) as (s' & Hrun & HI' & Htcb & _ & Hraise & _); [done..|].
  destruct (cpu_get s L _ HI (si_cpu _ _ HI)) as [x Hx].
  destruct (Hraise _ _ Hx) as (x' & Hx' & _ & Hneed). rewrite decide_True in Hneed by done.
  eexists s', _, x'. split_and!; [done|exact HI'| | |done|done|done].
  - by rewrite rq_insert_rq, decide_True.
  - intros c p Hne. by rewrite rq_insert_rq, decide_False.
Qed.

(** [acoral_sched_rdyqueue_del] takes a ready thread out of its queue,
    keeping the order of the others, marks it suspended and neither ready nor
    running, raises [need_sched], and preserves the invariant: the bit of its
    priority is cleared exactly when it was the last one there. *)
Theorem rdyqueue_del_inv s L t th :
  sched_inv s L → k_tcb s !! t = Some th → is_ready th = true →
  ∃ s' L' a b c, acoral_sched_rdyqueue_del t s = Ret (tt, s') ∧ sched_inv s' L' ∧
    rq L (t_cpu th) (t_prio th) = a ++ LThread t ready :: b ∧
    rq L' (t_cpu th) (t_prio th) = a ++ b ∧
    (∀ c p, ¬ (c = t_cpu th ∧ p = t_prio th) → rq L' c p = rq L c p) ∧
    L' !! LThread t ready = Some [] ∧
    k_tcb s' = <[t := set_t_state (suspend_state (t_state th)) th]> (k_tcb s) ∧
    aget (k_cpus s') (k_cpu s) = Some c ∧ c_need_sched c = 1.
Proof.
  intros HI Ht Hr.
  destruct (rdyqueue_del_spec s L t th) as (s' & a & b & Hrun & Hab & HI' & Htcb & _ & Hraise & _); [done..|].
  destruct (cpu_get s L _ HI (si_cpu _ _ HI)) as [x Hx].
  destruct (Hraise _ _ Hx) as (x' & Hx' & _ & Hneed). rewrite decide_True in Hneed by done.
  eexists s', _, a, b, x'. split_and!; [done|exact HI'|done| | | |done|done|done].
  - by rewrite rq_remove_rq, decide_True.
  - intros c p Hne. by rewrite rq_remove_rq, decide_False.
  - unfold rq_remove. by rewrite lookup_insert_eq.
Qed.

(** C2 [acoral_select_thread] chooses, on the executing core, the head of the
    non-empty ready queue of the smallest priority number, and changes nothing
    but [ready_thread].  When nothing is ready it runs off the bit map (the
    idle thread, which is never suspended, prevents this). *)
Theorem select_thread_highest s L :
  sched_inv s L →
  ((∃ p, 0 ≤ p < ACORAL_MAX_PRIO_NUM ∧ rq L (k_cpu s) p ≠ []) →
     ∃ t c, highest L (k_cpu s) t ∧ aget (k_cpus s) (k_cpu s) = Some c ∧
       acoral_select_thread s
       = Ret (tt, set_k_cpus (aset (k_cpu s) (set_c_ready t c) (k_cpus s)) s)) ∧
  ((∀ p, 0 ≤ p < ACORAL_MAX_PRIO_NUM → rq L (k_cpu s) p = []) →
     acoral_select_thread s = Err Wild).
Proof.
  intros HI. split.
  - intros (p & Hp & Hne). by eapply select_thread_run.
  - intros Hnone. by eapply select_thread_none.
Qed.

(** C1 The preemption rules of [acoral_switch_context].  With [prev] running
    and [t] the highest ready thread of the core, the switch returns, keeps the
    invariant and the lists, clears [need_sched], and then
    - [prev] keeps running if [prev] is [t] and is not to be reloaded;
    - an exited [prev] is replaced by [t] and becomes releasable;
    - a suspended [prev] is replaced by [t];
    - a [prev] that is not suspended keeps running against [t] if it is a timed
      thread, or a global one and [t] is local; otherwise [t] preempts it;
    and when [t] replaces another thread, the running flag moves to [t]. *)
Theorem switch_context_rules s L :
  sched_inv s L → core_inv s L →
  ∃ s' t c c' p n, highest L (k_cpu s) t ∧ aget (k_cpus s) (k_cpu s) = Some c ∧
    k_tcb s !! c_running c = Some p ∧ k_tcb s !! t = Some n ∧
    acoral_switch_context s = Ret (tt, s') ∧ sched_inv s' L ∧ core_inv s' L ∧
    aget (k_cpus s') (k_cpu s) = Some c' ∧ c_need_sched c' = 0 ∧ c_ready c' = t ∧
    (c_running c = t → has (t_state p) ACORAL_THREAD_STATE_RELOAD = false → c_running c' = c_running c) ∧
    (c_running c ≠ t →
      (t_state p = ACORAL_THREAD_STATE_EXIT → c_running c' = t ∧
         ∃ p', k_tcb s' !! c_running c = Some p' ∧ t_state p' = ACORAL_THREAD_STATE_RELEASE) ∧
      (has (t_state p) ACORAL_THREAD_STATE_SUSPEND = true → c_running c' = t) ∧
      (has (t_state p) ACORAL_THREAD_STATE_SUSPEND = false → t_state p ≠ ACORAL_THREAD_STATE_EXIT →
         c_running c' =
           if bool_decide (t_preempt_type p = ACORAL_PREEMPT_TIMED ∨
                (t_preempt_type p = ACORAL_PREEMPT_GLOBAL ∧ t_preempt_type n = ACORAL_PREEMPT_LOCAL))
           then c_running c else t) ∧
      (c_running c' = t → ∃ p' n', k_tcb s' !! c_running c = Some p' ∧ k_tcb s' !! t = Some n' ∧
         has (t_state p') ACORAL_THREAD_STATE_RUNNING = false ∧
         has (t_state n') ACORAL_THREAD_STATE_RUNNING = true)).
Proof.
  intros HI HC. destruct (switch_context_run s L HI HC) as (t & c & p & n & Hhi & Hc & Hp & Hn & Hrun).
  pose proof (switched_view_same s L c t p n HI Hc Hp Hn) as HV.
  eexists (switched s c t p n), t, c, _, p, n.
  split; [done|]. split; [done|]. split; [done|]. split; [done|]. split; [done|].
  split; [by eapply sched_inv_view|]. split; [by apply switched_core|].
  rewrite switched_eq by done. simpl.
  split; [by eapply aget_aset_eq|]. do 2 (split; [done|]).
  unfold now_running, switch_decision.
  split.
  { intros Heq Hnr. rewrite (proj2 (Z.eqb_eq _ _) Heq), Hnr. done. }
  intros Hne. pose proof (switched_flags (c_running c) t p n (k_tcb s) Hne) as Hfl.
  unfold switch_decision in Hfl. rewrite (proj2 (Z.eqb_neq _ _) Hne) in *. cbn [negb orb] in *.
  split_and!.
  - intros He. rewrite He in *. cbn [Z.eqb] in *. split; [done|].
    destruct Hfl as (p' & n' & Hp' & _ & _ & _ & Hrel); [done|]. exists p'. split; [done|by apply Hrel].
  - intros Hs. destruct (t_state p =? ACORAL_THREAD_STATE_EXIT) eqn:He; [done|].
    unfold can_switch. by rewrite Hs.
  - intros Hs He. rewrite (proj2 (Z.eqb_neq _ _) He). unfold can_switch. rewrite Hs.
    destruct (Z.eqb_spec (t_preempt_type p) ACORAL_PREEMPT_GLOBAL),
      (Z.eqb_spec (t_preempt_type n) ACORAL_PREEMPT_LOCAL),
      (Z.eqb_spec (t_preempt_type p) ACORAL_PREEMPT_TIMED); simpl; case_bool_decide; try done; tauto.
  - intros Ht. destruct Hfl as (p' & n' & ? & ? & ? & ? & _); [|eauto 6].
    intros Hk. rewrite Hk in Ht. by apply Hne.
Qed.

(** The two ends of a critical section: after entering, the scheduler returns
    without any effect; leaving a nested section only decrements the nesting;
    leaving the outermost one restores the interrupt mask, opens the scheduler
    lock and calls the scheduler, which switches only if a switch is wanted, no
    interrupt is being served and scheduling is enabled. *)
Lemma critical_ends s c :
  aget (k_cpus s) (k_cpu s) = Some c →
  (∃ s1 c1, acoral_enter_critical s = Ret (tt, s1) ∧ aget (k_cpus s1) (k_cpu s) = Some c1 ∧
     c_critical_nesting c1 = u32 (c_critical_nesting c + 1) ∧ c_pmr c1 = INTR_MASK ∧
     acoral_sched s1 = Ret (tt, s1)) ∧
  (1 < c_critical_nesting c →
     acoral_exit_critical s = Ret (tt, set_k_cpus (aset (k_cpu s)
       (set_c_critical_nesting (c_critical_nesting c - 1) c) (k_cpus s)) s)) ∧
  (c_critical_nesting c = 1 →
     ∃ s1 c1, aget (k_cpus s1) (k_cpu s) = Some c1 ∧ k_cpu s1 = k_cpu s ∧
       c_sched_lock c1 = 0 ∧ c_pmr c1 = INTR_UNMASK ∧ c_critical_nesting c1 = 0 ∧
       acoral_exit_critical s =
         if bool_decide (c_need_sched c ≠ 0 ∧ c_intr_nesting c = 0 ∧ k_sched_enable s ≠ 0)
         then acoral_switch_context s1 else Ret (tt, s1)).
Proof.
  intros Hc. split_and!.
  - eexists _, (entered c). split; [by apply enter_critical_run|]. simpl.
    split; [by eapply aget_aset_eq|]. do 2 (split; [done|]).
    erewrite acoral_sched_run by (simpl; by eapply aget_aset_eq).
    rewrite bool_decide_eq_false_2; [done|]. simpl. intros (_ & _ & Hl & _).
    destruct (Z.eqb_spec (c_sched_lock c) 0); lia.
  - intros Hn. by apply exit_critical_nested.
  - intros Hn. set (s1 := set_k_cpus (aset (k_cpu s) (left_critical c) (k_cpus s)) s).
    assert (aget (k_cpus s1) (k_cpu s) = Some (left_critical c)) as Hc1 by (by eapply aget_aset_eq).
    exists s1, (left_critical c). split_and!; try done.
    erewrite exit_critical_last by eauto. fold s1. erewrite acoral_sched_run by exact Hc1. simpl.
    destruct (decide (c_need_sched c ≠ 0 ∧ c_intr_nesting c = 0 ∧ k_sched_enable s ≠ 0)).
    + rewrite !bool_decide_eq_true_2 by tauto. done.
    + rewrite !bool_decide_eq_false_2 by tauto. done.
Qed.

(** ** A concrete kernel

    Core 0 executes; threads 4096 (priority 5) and 8192 (the idle priority)
    exist, suspended, on core 0. *)
Definition blank_cpu : percpu := mk_percpu 0 0 0 0 0 0 0 [0; 0] 0 INTR_UNMASK.

Definition sample_thread (prio : Z) : thread :=
  mk_thread 0 0 0 0 ACORAL_THREAD_STATE_SUSPEND prio 0 0 21 ACORAL_PREEMPT_LOCAL 0 0 0 0 0 0 0 0 0.

Definition sample_nodes : heap loc :=
  <[LThread 8192 ready := mk_list (LThread 8192 ready) (LThread 8192 ready) 0 0]>
    (<[LThread 4096 ready := mk_list (LThread 4096 ready) (LThread 4096 ready) 0 0]> ∅).

Definition sample_lists : gmap loc (list loc) :=
  <[LThread 8192 ready := []]> (<[LThread 4096 ready := []]> ∅).

Definition sample : kstate :=
  mk_kstate 0 [set_c_running 8192 blank_cpu; blank_cpu] (mk_q sample_nodes ∅)
    (<[4096 := sample_thread 5]> (<[8192 := sample_thread ACORAL_IDLE_PRIO]> ∅)) ∅
    (<[4096 := 0x400]> (<[8192 := 0x4400]> ∅)) [] 0 ∅ [] [] 1 0 0 [0] ∅ no_ext.

Lemma sample_rep : qrep (k_q sample) sample_lists.
Proof.
  split; [|intros q k Hq; simpl in Hq; by rewrite lookup_empty in Hq].
  unfold sample_lists. simpl. unfold sample_nodes.
  repeat apply rep_init; try apply rep_empty; try (left; reflexivity);
    intros q xs Hq _; rewrite ?lookup_insert_Some, ?lookup_empty in Hq;
    repeat (destruct Hq as [[_ <-]|[_ Hq]]; [apply not_elem_of_nil|]); done.
Qed.

Lemma sample_unused c p : unused sample_lists (LQueue (QReady c p)).
Proof.
  split.
  - intros q xs Hq _. unfold sample_lists in Hq. rewrite !lookup_insert_Some, lookup_empty in Hq.
    repeat (destruct Hq as [[_ <-]|[_ Hq]]; [apply not_elem_of_nil|]); done.
  - left. unfold sample_lists. by rewrite !lookup_insert_ne by done.
Qed.

Lemma sample_not_ready t th : k_tcb sample !! t = Some th → is_ready th = false.
Proof.
  simpl. rewrite !lookup_insert_Some, lookup_empty.
  intros [[_ <-]|[_ [[_ <-]|[_ ?]]]]; done.
Qed.

Lemma rdyqueue_init_inv_witness :
  ∃ s' L', acoral_sched_rdyqueue_init sample = Ret (tt, s') ∧ sched_inv s' L'.
Proof.
  destruct (rdyqueue_init_inv sample sample_lists) as (s' & L' & Hrun & HI & _);
    [apply sample_rep|apply sample_unused|reflexivity|unfold CFG_MAX_CPU; simpl; lia
    |repeat constructor|apply sample_not_ready|].
  exists s', L'. split; assumption.
Defined.

(** The sample after the initialisation, and with its two threads ready. *)
Lemma sample_booted :
  ∃ s, sched_inv s (boot_lists sample_lists) ∧ k_tcb s = k_tcb sample ∧ k_res s = k_res sample ∧
    k_cpu s = 0 ∧ k_ipc s = k_ipc sample ∧
    k_cpus s = (λ c, set_c_bitmap [0; 0] (set_c_num 0 c)) <$> k_cpus sample ∧ k_sched_enable s = 1.
Proof.
  destruct (rdyqueue_init_spec sample sample_lists) as (q' & cs' & _ & HI & Hcs);
    [apply sample_rep|apply sample_unused|reflexivity|unfold CFG_MAX_CPU; simpl; lia
    |repeat constructor|apply sample_not_ready|].
  eexists. split; [exact HI|]. simpl. rewrite Hcs. done.
Qed.

Lemma sample_ready :
  ∃ s L, sched_inv s L ∧ core_inv s L ∧ k_cpu s = 0 ∧
    (∃ th, k_tcb s !! 4096 = Some th ∧ is_ready th = true ∧ t_cpu th = 0 ∧ t_prio th = 5) ∧
    rq L 0 5 = [LThread 4096 ready].
Proof.
  destruct sample_booted as (s & HI & Htcb & Hres & Hcpu & _ & Hcs & _).
  destruct (rdyqueue_add_spec s (boot_lists sample_lists) 4096 (sample_thread 5) 0x400)
    as (s1 & _ & HI1 & Htcb1 & Hres1 & Hr1 & Ho1 & _);
    [done|by rewrite Htcb|done|unfold CFG_MAX_CPU; simpl; lia|rewrite prio_num_eq; simpl; lia
    |unfold boot_lists; rewrite !ins_queues_lookup; reflexivity|by rewrite Hres|].
  exists s1, (rq_insert 0 5 (LThread 4096 ready) (boot_lists sample_lists)).
  assert (k_cpu s1 = 0) as Hcpu1 by (destruct Ho1 as [-> _]; done).
  split; [exact HI1|]. split; [split|split; [done|split]].
  - exists 5. rewrite prio_num_eq, Hcpu1. split; [lia|].
    rewrite rq_insert_rq, decide_True by done. by destruct (rq _ 0 5).
  - destruct (Hr1 0 (set_c_running 8192 blank_cpu)) as (x' & Hx' & (_ & Hn & _ & Hrun & _) & _);
      [by rewrite Hcs|].
    exists x', (sample_thread ACORAL_IDLE_PRIO). rewrite Hcpu1, Hrun, Hn, Htcb1, Htcb.
    split; [done|]. split; [reflexivity|]. simpl. lia.
  - exists (set_t_state (ready_state 2) (sample_thread 5)). rewrite Htcb1, lookup_insert_eq. done.
  - rewrite rq_insert_rq, decide_True by done. by rewrite boot_lists_rq by apply sample_unused.
Qed.

Lemma rdyqueue_add_inv_witness :
  ∃ s s' L', acoral_sched_rdyqueue_add 4096 s = Ret (tt, s') ∧ sched_inv s' L' ∧
    rq L' 0 5 = [LThread 4096 ready].
Proof.
  destruct sample_booted as (s & HI & Htcb & Hres & _).
  destruct (rdyqueue_add_inv s (boot_lists sample_lists) 4096 (sample_thread 5) 0x400)
    as (s' & L' & c & Hrun & HI' & Hrq & _);
    [done|by rewrite Htcb|done|unfold CFG_MAX_CPU; simpl; lia|rewrite prio_num_eq; simpl; lia
    |unfold boot_lists; rewrite !ins_queues_lookup; reflexivity|by rewrite Hres|].
  exists s, s', L'. split_and!; [done|done|].
  simpl in Hrq. rewrite Hrq, boot_lists_rq by apply sample_unused. reflexivity.
Defined.

Lemma rdyqueue_del_inv_witness :
  ∃ s s' L', acoral_sched_rdyqueue_del 4096 s = Ret (tt, s') ∧ sched_inv s' L' ∧
    L' !! LThread 4096 ready = Some [].
Proof.
  destruct sample_ready as (s & L & HI & _ & _ & (th & Ht & Hr & _) & _).
  destruct (rdyqueue_del_inv s L 4096 th HI Ht Hr) as (s' & L' & a & b & c & Hrun & HI' & _ & _ & _ & Hl & _).
  exists s, s', L'. split_and!; assumption.
Defined.

Lemma select_thread_highest_witness :
  ∃ s s', acoral_select_thread s = Ret (tt, s') ∧ k_cpu s = 0.
Proof.
  destruct sample_ready as (s & L & HI & HC & Hcpu & _).
  destruct (proj1 (select_thread_highest s L HI) (ci_ready _ _ HC)) as (t & c & _ & _ & Hrun).
  eexists s, _. split; [exact Hrun|exact Hcpu].
Defined.

Lemma switch_context_rules_witness :
  ∃ s s' L, acoral_switch_context s = Ret (tt, s') ∧ sched_inv s' L ∧ core_inv s' L.
Proof.
  destruct sample_ready as (s & L & HI & HC & _).
  destruct (switch_context_rules s L HI HC) as (s' & t & c & c' & p & n & _ & _ & _ & _ & Hrun & HI' & HC' & _).
  exists s, s', L. split_and!; assumption.
Defined.
