(* ===== verification/Sample.v ===== *)
(** * A concrete kernel for the witnesses

    Core 0 executes thread 4096 (priority 5, running); the idle thread 8192 is
    ready.  [add_loc] adds a list node or a queue head to a kernel. *)
From S2P Require Import Prelude Bitops DList Queues KTypes KState Sched SchedSpec.
From stdpp Require Import list.
#[local] Open Scope Z_scope.

Definition sample_L : gmap loc (list loc) :=
  rq_insert 0 60 (LThread 8192 ready) (rq_insert 0 5 (LThread 4096 ready) (boot_lists sample_lists)).

Definition ready_thread (prio : Z) : thread := set_t_state 1 (sample_thread prio).
Definition running_thread (prio : Z) : thread := set_t_state 5 (sample_thread prio).

Lemma sample_boot_node t : (t = 4096 ∨ t = 8192) → boot_lists sample_lists !! LThread t ready = Some [].
Proof. intros [-> | ->]; unfold boot_lists; by rewrite !ins_queues_lookup. Qed.

Lemma sample_rq c p :
  rq sample_L c p =
    if decide (c = 0 ∧ p = 60) then [LThread 8192 ready]
    else if decide (c = 0 ∧ p = 5) then [LThread 4096 ready] else [].
Proof.
  assert (∀ c p, rq (boot_lists sample_lists) c p = []) as Hb by (intros; apply boot_lists_rq, sample_unused).
  unfold sample_L. rewrite !rq_insert_rq, !Hb.
  case_decide; [rewrite decide_False by lia; done|]. by case_decide.
Qed.

Record sampled (s : kstate) : Prop := {
  sm_inv : sched_inv s sample_L;
  sm_core : core_inv s sample_L;
  sm_cpu : k_cpu s = 0;
  sm_tcb : k_tcb s = <[4096 := running_thread 5]> (<[8192 := ready_thread 60]> ∅);
  sm_res : k_res s = <[4096 := 0x400]> (<[8192 := 0x4400]> ∅);
  sm_enable : k_sched_enable s = 1;
  sm_c0 : ∃ c, aget (k_cpus s) 0 = Some c ∧ c_running c = 4096 ∧ c_critical_nesting c = 0 ∧
    c_intr_nesting c = 0 ∧ c_sched_lock c = 0;
}.

Lemma sample_kernel : ∃ s, sampled s.
Proof.
  destruct sample_booted as (s & HI & Htcb & Hres & Hcpu & _ & Hcs & Hen).
  destruct (rdyqueue_add_spec s (boot_lists sample_lists) 4096 (sample_thread 5) 0x400)
    as (s1 & _ & HI1 & Htcb1 & Hres1 & Hr1 & Ho1 & _);
    [done|by rewrite Htcb|done|unfold CFG_MAX_CPU; simpl; lia|rewrite prio_num_eq; simpl; lia
    |apply sample_boot_node; auto|by rewrite Hres|].
  destruct (rdyqueue_add_spec s1 _ 8192 (sample_thread ACORAL_IDLE_PRIO) 0x4400 HI1)
    as (s2 & _ & HI2 & Htcb2 & Hres2 & Hr2 & Ho2 & _);
    [by rewrite Htcb1, Htcb|done|unfold CFG_MAX_CPU; simpl; lia|by vm_compute
    | |by rewrite Hres1, Hres|].
  { unfold rq_insert. rewrite lookup_insert_ne, lookup_delete_ne by done. apply sample_boot_node. auto. }
  change (rq_insert (t_cpu (sample_thread ACORAL_IDLE_PRIO)) _ _ _) with sample_L in HI2.
  assert (k_cpu s1 = 0 ∧ k_sched_enable s1 = 1) as [Hcpu1 He1].
  { unfold same_other in Ho1. destruct_and!. split; congruence. }
  assert (k_cpu s2 = 0 ∧ k_sched_enable s2 = 1) as [Hcpu2 He2].
  { unfold same_other in Ho2. destruct_and!. split; congruence. }
  destruct (Hr1 0 (set_c_running 8192 blank_cpu)) as (x1 & Hx1 & Hs1 & _); [by rewrite Hcs|].
  destruct (Hr2 0 x1 Hx1) as (x2 & Hx2 & Hs2 & _).
  unfold cpu_same in Hs1, Hs2. destruct_and!. simpl in *.
  set (s3 := set_k_cpus (aset 0 (set_c_running 4096 x2) (k_cpus s2)) s2).
  assert (sched_inv s3 sample_L) as HI3.
  { eapply sched_inv_view; [by eapply view_same_cpus|done]. }
  assert (k_tcb s3 !! 4096 = Some (ready_thread 5)) as Ht.
  { simpl. by rewrite Htcb2, lookup_insert_ne, Htcb1, lookup_insert_eq. }
  exists (set_k_tcb (<[4096 := running_thread 5]> (k_tcb s3)) s3).
  split; try done.
  - eapply sched_inv_view; [by eapply view_same_tcb|done].
  - split.
    + exists 5. simpl. rewrite Hcpu2, prio_num_eq. split; [lia|]. by rewrite sample_rq.
    + exists (set_c_running 4096 x2), (running_thread 5). simpl. rewrite Hcpu2. simpl.
      split; [by eapply aget_aset_eq|]. split; [apply lookup_insert_eq|]. lia.
  - simpl. rewrite Htcb2, Htcb1, Htcb. by vm_compute.
  - simpl. rewrite Hres2, Hres1, Hres. by vm_compute.
  - exists (set_c_running 4096 x2). split; [by eapply aget_aset_eq|]. simpl. split_and!; congruence.
Qed.

(** ** Adding nodes *)

(** A node that nothing refers to; with [head] it is the head of a queue. *)
Definition add_loc (head : bool) (x : loc) (v : Z) (s : kstate) : kstate :=
  set_k_q (mk_q (<[x := mk_list x x v 0]> (q_nodes (k_q s)))
    (if head then <[x := 0]> (q_lock (k_q s)) else q_lock (k_q s))) s.

Lemma add_loc_rep head x v s L :
  qrep (k_q s) L → (∀ q xs, L !! q = Some xs → q ≠ x → x ∉ xs) → L !! x = None →
  qrep (k_q (add_loc head x v s)) (<[x := []]> L).
Proof.
  intros [HR Hl] Hu Hx. split; simpl.
  - apply rep_init; auto.
  - intros q k. destruct head; [|by apply Hl]. rewrite lookup_insert_Some.
    intros [[_ <-]|[_ Hk]]; [done|by eapply Hl].
Qed.

Lemma add_loc_inv head x v s L :
  sched_inv s L → core_inv s L → (∀ q xs, L !! q = Some xs → q ≠ x → x ∉ xs) → L !! x = None →
  (∀ c p, x ≠ LQueue (QReady c p)) →
  sched_inv (add_loc head x v s) (<[x := []]> L) ∧ core_inv (add_loc head x v s) (<[x := []]> L).
Proof.
  intros HI HC Hu Hx Hne.
  assert (∀ c p, (<[x := []]> L) !! LQueue (QReady c p) = L !! LQueue (QReady c p)) as HL.
  { intros c p. by rewrite lookup_insert_ne. }
  split; [|by apply core_inv_lists with L].
  pose proof (add_loc_rep head x v s L (si_q _ _ HI) Hu Hx) as HQ.
  assert (∀ q', is_queue (k_q s) q' → is_queue (k_q (add_loc head x v s)) q') as Hq.
  { intros q' [k Hk]. unfold is_queue. destruct head; simpl; [|by exists k].
    rewrite lookup_insert. case_decide; eauto. }
  assert (∀ c p, rq (<[x := []]> L) c p = rq L c p) as Hrq by (intros; unfold rq; by rewrite HL).
  destruct HI as [_ Hlen Hcpu Hqueue Hcpus Hmem Hrdy]. split; simpl; try done.
  - intros c p Hc Hp. destruct (Hqueue c p Hc Hp) as [? ?]. split; [by apply Hq|by rewrite HL].
  - intros c cs Hcs. eapply cpu_ok_ext; [|done..|by apply Hcpus]. auto.
  - intros c p y Hc Hp. rewrite Hrq. by apply Hmem.
  - intros t th Ht Hr. rewrite Hrq. by apply Hrdy.
Qed.

(** A thread that is not ready can appear in the table. *)
Lemma sched_inv_new s L t th :
  sched_inv s L → k_tcb s !! t = None → is_ready th = false → sched_inv (set_k_tcb (<[t := th]> (k_tcb s)) s) L.
Proof.
  intros [Hq Hlen Hcpu Hqueue Hcpus Hmem Hrdy] Ht Hr. split; simpl; try done.
  - intros c p x Hc Hp Hx. destruct (Hmem c p x Hc Hp Hx) as (t0 & th0 & -> & H0 & Hr0 & Hv).
    exists t0, th0. rewrite lookup_insert_ne by congruence. done.
  - intros t0 th0. rewrite lookup_insert_Some. intros [[<- <-]|[_ H0]]; [congruence|by apply Hrdy].
Qed.

(** A location no list of [L] has. *)
Definition unlisted (L : gmap loc (list loc)) (x : loc) : Prop :=
  L !! x = None ∧ ∀ q xs, L !! q = Some xs → x ∉ xs.

Lemma unlisted_insert L q xs x : unlisted L x → x ≠ q → x ∉ xs → unlisted (<[q := xs]> L) x.
Proof.
  intros [Hn Hf] Hq Hxs. split; [by rewrite lookup_insert_ne|].
  intros q' ys. rewrite lookup_insert_Some. intros [[_ <-]|[_ ?]]; eauto.
Qed.

Lemma unlisted_delete L q x : unlisted L x → unlisted (delete q L) x.
Proof.
  intros [Hn Hf]. split; [rewrite lookup_delete_None; auto|].
  intros q' ys. rewrite lookup_delete_Some. intros [_ ?]; eauto.
Qed.

Lemma unlisted_rq_insert L c p y x :
  unlisted L x → x ≠ LQueue (QReady c p) → x ≠ y → unlisted (rq_insert c p y L) x.
Proof.
  intros Hf Hq Hy. apply unlisted_insert; [by apply unlisted_delete|done|].
  rewrite not_elem_of_app. split; [|by rewrite list_elem_of_singleton].
  unfold rq. destruct (L !! LQueue (QReady c p)) eqn:E; [by eapply Hf|apply not_elem_of_nil].
Qed.

Lemma unlisted_ins_queues L x c n i :
  unlisted L x → (∀ c p, x ≠ LQueue (QReady c p)) → unlisted (ins_queues c n i L) x.
Proof.
  intros [Hn Hf] Hq. split.
  - rewrite ins_queues_lookup. destruct x as [|[c' p'| | | | | | | | | | | | | | | | | | |]| | | | | | | | | | |]; try done. by destruct (Hq c' p').
  - intros q xs. rewrite ins_queues_lookup. repeat case_match; try (intros [= <-]; apply not_elem_of_nil); by apply Hf.
Qed.

Lemma sample_unlisted_at x :
  (∀ c p, x ≠ LQueue (QReady c p)) → x ≠ LThread 4096 ready → x ≠ LThread 8192 ready → unlisted sample_L x.
Proof.
  intros Hq Ht1 Ht2. unfold sample_L, boot_lists, sample_lists.
  repeat first [apply unlisted_rq_insert; auto|apply unlisted_ins_queues; auto|apply unlisted_insert; [|auto|apply not_elem_of_nil]].
  split; [done|]. intros q xs. by rewrite lookup_empty.
Qed.

Lemma sample_unlisted x :
  (∀ c p, x ≠ LQueue (QReady c p)) → (∀ t, x ≠ LThread t ready) → unlisted sample_L x.
Proof. intros Hq Ht. by apply sample_unlisted_at. Qed.

(** A kernel with one more queue [q], whose only member is [y]. *)
Lemma with_queue s L q y (v : Z) :
  sched_inv s L → core_inv s L → unlisted L q → unlisted L y → q ≠ y →
  (∀ c p, q ≠ LQueue (QReady c p)) → (∀ c p, y ≠ LQueue (QReady c p)) →
  ∃ s' L' h, s' = set_k_q h s ∧ sched_inv s' L' ∧ core_inv s' L' ∧ is_queue h q ∧
    L' = <[q := [y]]> L ∧ valof (q_nodes h) y = Some v ∧
    (∀ z, z ≠ q → z ≠ y → valof (q_nodes h) z = valof (q_nodes (k_q s)) z).
Proof.
  intros HI HC [Hq Hqf] [Hy Hyf] Hne Hqr Hyr.
  destruct (add_loc_inv true q 0 s L) as [HI1 HC1]; [done|done|eauto|done|done|].
  destruct (add_loc_inv false y v _ _ HI1 HC1) as [HI2 HC2]; [|by rewrite lookup_insert_ne|done|].
  { intros q' xs. rewrite lookup_insert_Some. intros [[_ <-]|[_ Hxs]] _; [apply not_elem_of_nil|by eapply Hyf]. }
  set (s2 := add_loc false y v (add_loc true q 0 s)) in *.
  destruct (fifo_add_rep (k_q s2) _ q y [] (si_q _ _ HI2)) as (h & _ & HQ & Hlk & Hval).
  - exists 0. simpl. apply lookup_insert_eq.
  - rewrite lookup_insert_ne by done. apply lookup_insert_eq.
  - apply lookup_insert_eq.
  - done.
  - exists (set_k_q h s), (<[q := [y]]> L), h. split; [done|].
    assert (<[q:=[y]]> (delete y (<[y:=[]]> (<[q:=[]]> L))) = <[q := [y]]> L) as HL.
    { rewrite delete_insert_eq, delete_id, insert_insert_eq by (by rewrite lookup_insert_ne). done. }
    simpl in HQ. rewrite HL in HQ.
    assert (∀ c p, (<[q := [y]]> L) !! LQueue (QReady c p) =
      (<[y:=[]]> (<[q:=[]]> L) : gmap loc (list loc)) !! LQueue (QReady c p)) as Hr.
    { intros c p. by rewrite !lookup_insert_ne by auto. }
    split; [|split; [|split; [|split; [done|]]]].
    + apply (sched_inv_same (set_k_q h s2)); [|done..]. exact (sched_inv_lists s2 h _ _ HI2 HQ Hlk Hr).
    + apply (core_inv_same (set_k_q h s2)); [|done..]. exact (core_inv_lists s2 h _ _ HC2 Hr).
    + exists 0. rewrite Hlk. simpl. apply lookup_insert_eq.
    + split; [rewrite Hval; unfold valof; simpl; by rewrite lookup_insert_eq|].
      intros z Hz1 Hz2. rewrite Hval. unfold valof. simpl. by rewrite !lookup_insert_ne.
Qed.
