(* ===== verification/ResPool.v ===== *)
(** * kernel/src/res_pool.c: pools of equal-sized resources

    A pool is an array of resources of one type.  The first word of a resource
    is a union: while the resource is free its upper half is its index and its
    lower half ([next_id]) the index of the next free resource; while it is
    allocated it is the identifier of the resource: pool, type and index.

    The words are in [k_res] by address, the pools in [k_pools] ([acoral_pools],
    at the address [acoral_pools] of the section), the control blocks in
    [k_ctrls] by address. *)
From S2P Require Import Prelude Interfaces Bitops DList Queues KTypes KState Sched SchedSpec Sample.
From stdpp Require Import list.
#[local] Open Scope Z_scope.

Definition ACORAL_MAX_POOLS : Z := 40.
Definition ACORAL_RES_THREAD : Z := 1.
Definition ACORAL_RES_IPC : Z := 2.
Definition ACORAL_POOL_INDEX_MASK : Z := 0x000003FF.
Definition ACORAL_POOL_INDEX_BIT : Z := 0.
Definition ACORAL_RES_TYPE_MASK : Z := 0x00003c00.
Definition ACORAL_RES_TYPE_BIT : Z := 10.
Definition ACORAL_RES_INDEX_MASK : Z := 0x00FFC000.
Definition ACORAL_RES_INDEX_BIT : Z := 14.
Definition ACORAL_RES_INDEX_INIT_BIT : Z := 16.
Definition ACORAL_RES_CPU_MASK : Z := 0xFF000000.

Definition ACORAL_RES_TYPE (id : Z) : Z := Z.shiftr (Z.land id ACORAL_RES_TYPE_MASK) ACORAL_RES_TYPE_BIT.
Definition ACORAL_RES_CPU (id : Z) : Z := Z.shiftr (Z.land id ACORAL_RES_CPU_MASK) ACORAL_RES_CPU_BIT.

(** [sizeof(acoral_pool_t)]. *)
Definition sizeof_pool : Z := 64.

(** [res->next_id]: the lower half of the word. *)
Definition next_id (w : Z) : Z := u16 w.
Definition with_next_id (w n : Z) : Z := s32 (Z.lor (Z.land w (Z.lnot 0xffff)) (u16 n)).

Definition set_next_id (res n : Z) : K unit := w ← res_id res; set_res res (with_next_id w n).

(** [c->f] and [c->f = ...] for a control block. *)
Definition pc {A} (f : pool_ctrl → A) (c : Z) : K A := deref (λ s, f <$> k_ctrls s !! c).

Definition on_pc (c : Z) (f : pool_ctrl → pool_ctrl) : K unit := λ s,
  match k_ctrls s !! c with
  | Some x => Ret (tt, set_k_ctrls (<[c := f x]> (k_ctrls s)) s)
  | None => Err Wild
  end.

Definition pc_spin_lock (c : Z) : K unit :=
  l ← pc pc_lock c; if (l : Z) =? 0 then on_pc c (set_pc_lock 1) else fail Deadlock.
Definition pc_spin_unlock (c : Z) : K unit := on_pc c (set_pc_lock 0).

(** [list_entry(list, acoral_pool_t, free_list)]. *)
Definition pool_of_free (p : loc) : K Z := match p with LFree pool => mret pool | _ => fail Wild end.

Section res_pool.
Context `{!Allocator kstate} (acoral_pools : Z).

(** A pool pointer, and the index of the pool it points to. *)
Definition pool_adr (i : Z) : Z := acoral_pools + sizeof_pool * i.

Definition pool_index (p : Z) : option Z :=
  let d := p - acoral_pools in
  if (0 <=? d) && (d mod sizeof_pool =? 0) && (d / sizeof_pool <? ACORAL_MAX_POOLS)
  then Some (d / sizeof_pool) else None.

Definition pl {A} (f : pool → A) (p : Z) : K A :=
  deref (λ s, i ← pool_index p; f <$> aget (k_pools s) i).

Definition on_pl (p : Z) (f : pool → pool) : K unit := λ s,
  match (i ← pool_index p; x ← aget (k_pools s) i; Some (i, x)) with
  | Some (i, x) => Ret (tt, set_k_pools (aset i (f x) (k_pools s)) s)
  | None => Err Wild
  end.

Definition pl_spin_lock (p : Z) : K unit :=
  l ← pl p_lock p; if (l : Z) =? 0 then on_pl p (set_p_lock 1) else fail Deadlock.
Definition pl_spin_unlock (p : Z) : K unit := on_pl p (set_p_lock 0).

(** The free pools are linked by [base_adr]; the code then reads the word at
    [tmp->base_adr], which is the [base_adr] of the next pool. *)
Definition acoral_get_free_pool : K Z :=
  acoral_enter_critical;;
  tmp ← get k_free_pool;
  (if tmp =? 0 then mret tt
   else
     pl_spin_lock tmp;;
     base ← pl p_base_adr tmp;
     next ← pl p_base_adr base;
     modify (set_k_free_pool next);;
     pl_spin_unlock tmp);;
  acoral_exit_critical;;
  mret tmp.

(** The loop of [acoral_pool_res_init]; [res] is the current resource. *)
Fixpoint res_init_loop (n : nat) (i res size : Z) : K Z :=
  match n with
  | O => mret res
  | S n =>
      set_res res (s32 (Z.shiftl i ACORAL_RES_INDEX_INIT_BIT));;
      set_next_id res (i + 1);;
      res_init_loop n (i + 1) (res + size) size
  end.

Definition acoral_pool_res_init (pool : Z) : K unit :=
  blks ← pl p_num pool;
  base ← pl p_base_adr pool;
  size ← pl p_size pool;
  res ← res_init_loop (Z.to_nat (u32 (blks - 1))) 0 base size;
  set_res res (s32 (Z.shiftl (u32 (blks - 1)) ACORAL_RES_INDEX_INIT_BIT));;
  set_next_id res 0.

Definition acoral_create_pool (c : Z) : K Z :=
  num ← pc pc_num c;
  max_pools ← pc pc_max_pools c;
  if max_pools <=? num then mret (u32 (err_code KR_RES_ERR_MAX_POOL)) else
  pool ← acoral_get_free_pool;
  if pool =? 0 then mret (u32 (err_code KR_RES_ERR_NO_POOL)) else
  type ← pc pc_type c;
  on_pl pool (λ p, set_p_id (s32 (Z.lor (Z.shiftl type ACORAL_RES_TYPE_BIT) (p_id p))) p);;
  size ← pc pc_size c;
  on_pl pool (set_p_size size);;
  n ← pc pc_num_per_pool c;
  on_pl pool (set_p_num n);;
  base ← al_malloc (u32 (size * n));
  on_pl pool (set_p_base_adr base);;
  if base =? 0 then mret (u32 (err_code KR_RES_ERR_NO_MEM)) else
  on_pl pool (set_p_res_free base);;
  on_pl pool (set_p_free_num n);;
  on_pl pool (set_p_ctrl c);;
  acoral_pool_res_init pool;;
  on_q (acoral_fifo_queue_add (LQueue (QTotalPools c)) (LTotal pool));;
  on_q (acoral_fifo_queue_add (LQueue (QFreePools c)) (LFree pool));;
  on_pc c (λ x, set_pc_num (u32 (pc_num x + 1)) x);;
  mret 0.

(** What both loops below do to a pool they give back. *)
Definition give_back (pool : Z) : K unit :=
  on_q (on_nodes (acoral_list_del (LTotal pool)));;
  on_q (on_nodes (acoral_list_del (LFree pool)));;
  base ← pl p_base_adr pool;
  al_free base;;
  free ← get k_free_pool;
  on_pl pool (set_p_base_adr free);;
  on_pl pool (λ p, set_p_id (Z.land (p_id p) ACORAL_POOL_INDEX_MASK) p);;
  modify (set_k_free_pool pool).

Fixpoint release_loop (fuel : nat) (head list : loc) : K unit :=
  if decide (list = head) then mret tt else
  pool ← pool_of_free list;
  give_back pool;;
  next ← kget_next list;
  match fuel with O => fail Diverge | S fuel => release_loop fuel head next end.

Definition acoral_release_pool (c : Z) : K unit :=
  let head := LQueue (QTotalPools c) in
  empty ← klist_empty head;
  if (empty : bool) then mret tt else
  first ← kget_next head;
  release_loop (Z.to_nat ACORAL_MAX_POOLS) head first.

Fixpoint collect_loop (fuel : nat) (head list : loc) : K unit :=
  if decide (list = head) then mret tt else
  pool ← pool_of_free list;
  free_num ← pl p_free_num pool;
  num ← pl p_num pool;
  when (free_num =? num) (give_back pool);;
  next ← kget_next list;
  match fuel with O => fail Diverge | S fuel => collect_loop fuel head next end.

Definition acoral_collect_pool (c : Z) : K unit :=
  let head := LQueue (QFreePools c) in
  empty ← klist_empty head;
  if (empty : bool) then mret tt else
  first ← kget_next head;
  collect_loop (Z.to_nat ACORAL_MAX_POOLS) head first.

(** The part of [acoral_get_res] after the pool is chosen. *)
Definition take_res (pool : Z) : K Z :=
  res ← pl p_res_free pool;
  base ← pl p_base_adr pool;
  size ← pl p_size pool;
  w ← res_id res;
  on_pl pool (set_p_res_free (u32 (base + next_id w * size)));;
  id ← pl p_id pool;
  set_res res (Z.lor (Z.land (Z.shiftr w (ACORAL_RES_INDEX_INIT_BIT - ACORAL_RES_INDEX_BIT)) ACORAL_RES_INDEX_MASK) id);;
  on_pl pool (λ p, set_p_free_num (u32 (p_free_num p - 1)) p);;
  n ← pl p_free_num pool;
  when (n =? 0) (on_q (on_nodes (acoral_list_del (LFree pool))));;
  mret res.

Definition acoral_get_res (c : Z) : K Z :=
  acoral_enter_critical;;
  pc_spin_lock c;;
  first ← kget_next (LQueue (QFreePools c));
  empty ← klist_empty first;
  err ← (if (empty : bool) then acoral_create_pool c else mret 0);
  if negb (err =? 0) then
    pc_spin_unlock c;;
    acoral_exit_critical;;
    mret 0
  else
    first ← (if (empty : bool) then kget_next (LQueue (QFreePools c)) else mret first);
    pool ← pool_of_free first;
    res ← take_res pool;
    pc_spin_unlock c;;
    acoral_exit_critical;;
    mret res.

Definition acoral_get_pool_by_id (res_id : Z) : Z :=
  let index := Z.shiftr (Z.land res_id ACORAL_POOL_INDEX_MASK) ACORAL_POOL_INDEX_BIT in
  if index <? ACORAL_MAX_POOLS then pool_adr index else 0.

Definition acoral_get_res_by_id (id : Z) : K Z :=
  let pool := acoral_get_pool_by_id id in
  if pool =? 0 then mret 0 else
  let index := Z.shiftr (Z.land id ACORAL_RES_INDEX_MASK) ACORAL_RES_INDEX_BIT in
  base ← pl p_base_adr pool;
  size ← pl p_size pool;
  mret (u32 (base + index * size)).

Definition acoral_release_res (res : Z) : K unit :=
  id ← res_id res;
  let pool := acoral_get_pool_by_id id in
  if pool =? 0 then mret tt else
  c ← pl p_ctrl pool;
  pc_spin_lock c;;
  base ← pl p_base_adr pool;
  if res <? base then mret tt else
  size ← pl p_size pool;
  num ← pl p_num pool;
  if size =? 0 then fail Wild else
  let index := (res - base) / size in
  if num <=? index then mret tt else
  tmp ← pl p_res_free pool;
  on_pl pool (set_p_res_free res);;
  set_res res (s32 (Z.shiftl index ACORAL_RES_INDEX_INIT_BIT));;
  w ← res_id tmp;
  set_next_id res (Z.shiftr w ACORAL_RES_INDEX_INIT_BIT);;
  on_pl pool (λ p, set_p_free_num (u32 (p_free_num p + 1)) p);;
  empty ← klist_empty (LFree pool);
  when (empty : bool) (on_q (acoral_fifo_queue_add (LQueue (QFreePools c)) (LFree pool)));;
  pc_spin_unlock c.

Definition acoral_pools_init : K unit :=
  for_up (Z.to_nat (ACORAL_MAX_POOLS - 1)) 0 (λ i,
    on_pl (pool_adr i) (set_p_base_adr (pool_adr (i + 1)));;
    on_pl (pool_adr i) (set_p_id i);;
    on_pl (pool_adr (i + 1)) (set_p_lock 0));;
  on_pl (pool_adr (ACORAL_MAX_POOLS - 1)) (set_p_base_adr 0);;
  modify (set_k_free_pool (pool_adr 0));;
  on_pl (pool_adr 0) (set_p_lock 0).

Definition acoral_res_pool_sys_init : K unit := acoral_pools_init.

Definition acoral_pool_ctrl_init (c : Z) : K unit :=
  on_pc c (set_pc_num 0);;
  on_q (acoral_fifo_queue_init (LQueue (QTotalPools c)));;
  on_q (acoral_fifo_queue_init (LQueue (QFreePools c)));;
  on_pc c (set_pc_lock 0);;
  size ← pc pc_size c;
  n ← pc pc_num_per_pool c;
  total ← al_malloc_size (u32 (size * n));
  if total <? size then on_pc c (set_pc_num_per_pool 0)
  else if size =? 0 then fail Wild
  else
    on_pc c (set_pc_num_per_pool (total / size));;
    acoral_create_pool c;;
    mret tt.
End res_pool.

(** ** Identifiers *)

(** The identifier of resource [k] of a pool whose [id] is [pid]. *)
Definition res_word (pid k : Z) : Z := Z.lor (Z.shiftl k ACORAL_RES_INDEX_BIT) pid.

Definition pool_word (ty i : Z) : Z := Z.lor (Z.shiftl ty ACORAL_RES_TYPE_BIT) i.

Lemma pool_word_add ty i : 0 ≤ i < 1024 → pool_word ty i = ty * 1024 + i.
Proof. intros Hi. unfold pool_word, ACORAL_RES_TYPE_BIT. by rewrite lor_shiftl_add. Qed.

Lemma res_word_add ty i k : 0 ≤ i < 1024 → 0 ≤ ty < 16 →
  res_word (pool_word ty i) k = k * 16384 + ty * 1024 + i.
Proof.
  intros Hi Ht. unfold res_word, ACORAL_RES_INDEX_BIT. rewrite pool_word_add by done.
  rewrite lor_shiftl_add; lia.
Qed.

(** The fields of an identifier, with anything above the index. *)
Lemma res_word_fields c k ty i :
  0 ≤ i < 1024 → 0 ≤ ty < 16 → 0 ≤ k < 1024 →
  let id := c * 16777216 + (k * 16384 + ty * 1024 + i) in
  Z.shiftr (Z.land id ACORAL_POOL_INDEX_MASK) ACORAL_POOL_INDEX_BIT = i ∧
  ACORAL_RES_TYPE id = ty ∧
  Z.shiftr (Z.land id ACORAL_RES_INDEX_MASK) ACORAL_RES_INDEX_BIT = k ∧
  ACORAL_RES_CPU id = c mod 256.
Proof.
  intros Hi Ht Hk id.
  assert (∀ a n hi mid lo, id = (hi * 2 ^ n + mid) * 2 ^ a + lo → 0 ≤ a → 0 ≤ n →
    0 ≤ mid < 2 ^ n → 0 ≤ lo < 2 ^ a → (id / 2 ^ a) mod 2 ^ n = mid) as Hf.
  { intros a n hi mid lo -> Ha Hn Hmid Hlo. rewrite Z.div_add_l, (Z.div_small lo), Z.add_0_r by lia.
    rewrite Z.add_comm, Z.mod_add by lia. by apply Z.mod_small. }
  split_and!.
  - change ACORAL_POOL_INDEX_MASK with (Z.shiftl (Z.ones 10) 0).
    unfold ACORAL_POOL_INDEX_BIT. rewrite shiftr_land_field by done.
    apply (Hf 0 10 (c * 16384 + k * 16 + ty) i 0); unfold id; lia.
  - unfold ACORAL_RES_TYPE, ACORAL_RES_TYPE_BIT. change ACORAL_RES_TYPE_MASK with (Z.shiftl (Z.ones 4) 10).
    rewrite shiftr_land_field by done. apply (Hf 10 4 (c * 1024 + k) ty i); unfold id; lia.
  - unfold ACORAL_RES_INDEX_BIT. change ACORAL_RES_INDEX_MASK with (Z.shiftl (Z.ones 10) 14).
    rewrite shiftr_land_field by done. apply (Hf 14 10 c k (ty * 1024 + i)); unfold id; lia.
  - unfold ACORAL_RES_CPU, ACORAL_RES_CPU_BIT. change ACORAL_RES_CPU_MASK with (Z.shiftl (Z.ones 8) 24).
    rewrite shiftr_land_field by done.
    apply (Hf 24 8 (c / 256) (c mod 256) (k * 16384 + ty * 1024 + i)); unfold id.
    + pose proof (Z.div_mod c 256 ltac:(done)). lia.
    + done.
    + done.
    + pose proof (Z.mod_pos_bound c 256 ltac:(done)). lia.
    + lia.
Qed.

(** Becoming ready on core 0 or 1 changes the core bits only. *)
Lemma id_on_word cpu c r :
  0 ≤ cpu < 2 → 0 ≤ c < 256 → 0 ≤ r < 16777216 →
  id_on cpu (c * 16777216 + r) = (c - c mod 2 + cpu) * 16777216 + r.
Proof.
  intros Hcpu Hc Hr.
  assert (c * 16777216 + r = Z.lor (Z.shiftl c 24) r) as -> by (rewrite lor_shiftl_add; lia).
  assert ((c - c mod 2 + cpu) * 16777216 + r = Z.lor (Z.shiftl (c - c mod 2 + cpu) 24) r) as ->.
  { rewrite lor_shiftl_add; lia. }
  assert (Z.testbit r 24 = false) as Hr24.
  { rewrite Z.testbit_eqb by done. by rewrite Z.div_small. }
  assert (∀ n, 24 < n → Z.testbit (c - c mod 2 + cpu) (n - 24) = Z.testbit c (n - 24)) as Hhi.
  { intros n Hn. replace (n - 24) with (Z.succ (n - 25)) by lia. rewrite <- (Z.div2_bits c), <- (Z.div2_bits (c - c mod 2 + cpu)) by lia.
    f_equal. Z.div_mod_to_equations. lia. }
  assert (Z.testbit (c - c mod 2 + cpu) 0 = (cpu =? 1)) as H0.
  { rewrite Z.bit0_odd. assert (c - c mod 2 = 2 * (c / 2)) as -> by (Z.div_mod_to_equations; lia).
    rewrite Z.add_comm, Z.odd_add_mul_2. assert (cpu = 0 ∨ cpu = 1) as [-> | ->] by lia; done. }
  assert (∀ n, 0 ≤ n → Z.testbit (2 ^ 24) n = bool_decide (n = 24)) as H1.
  { intros n Hn. destruct (decide (n = 24)) as [->|Hne].
    - done.
    - rewrite Z.pow2_bits_false by lia. by rewrite bool_decide_eq_false_2. }
  unfold id_on, ACORAL_RES_CPU_BIT. change (Z.shiftl 1 24) with (2 ^ 24). apply Z.bits_inj'. intros n Hn.
  assert (cpu = 0 ∨ cpu = 1) as [-> | ->] by lia; cbn [Z.eqb Pos.eqb];
    rewrite ?Z.land_spec, ?Z.lnot_spec, ?Z.lor_spec, ?Z.shiftl_spec, H1 by done;
    (destruct (Z.lt_trichotomy n 24) as [Hlt|[->|Hgt]];
      [rewrite bool_decide_eq_false_2 by lia; rewrite !(Z.testbit_neg_r _ (n - 24)) by lia
      |rewrite bool_decide_eq_true_2 by done; change (24 - 24) with 0; rewrite H0, Hr24
      |rewrite bool_decide_eq_false_2 by lia; rewrite Hhi by done]);
    cbn; rewrite ?andb_true_r, ?andb_false_r, ?orb_true_r, ?orb_false_r; done.
Qed.

Lemma last_core cpus :
  Forall (λ c, 0 ≤ c < CFG_MAX_CPU) cpus → 0 ≤ default 0 (last cpus) < CFG_MAX_CPU.
Proof.
  intros Hcpus. destruct (last cpus) as [c|] eqn:E; simpl; [|unfold CFG_MAX_CPU; lia].
  apply (proj1 (Forall_forall _ _) Hcpus). apply last_Some in E as [l ->]. apply elem_of_app. right. by left.
Qed.

(** An identifier with [c] in its core bits. *)
Definition id_word (c k ty i : Z) : Z := c * 16777216 + (k * 16384 + ty * 1024 + i).

(** One that belongs to a thread of core 0 or 1, on core [cpu] now. *)
Lemma id_on_id_word cpu c k ty i :
  0 ≤ cpu < CFG_MAX_CPU → 0 ≤ c < CFG_MAX_CPU → 0 ≤ i < 1024 → 0 ≤ ty < 16 → 0 ≤ k < 1024 →
  id_on cpu (id_word c k ty i) = id_word cpu k ty i.
Proof.
  unfold CFG_MAX_CPU. intros Hcpu Hc Hi Hty Hk. unfold id_word. rewrite id_on_word by lia.
  rewrite (Z.mod_small c) by lia. f_equal. lia.
Qed.

Lemma bind_returns {S A B} (m : M S A) (f : A → M S B) s b s' :
  (m ≫= f) s = Ret (b, s') → ∃ a s1, m s = Ret (a, s1) ∧ f a s1 = Ret (b, s').
Proof. unfold mbind, M_bind. destruct (m s) as [[a s1]|e]; [eauto|done]. Qed.

Tactic Notation "returns" hyp(H) "as" simple_intropattern(pat) :=
  apply bind_returns in H; destruct H as pat.

(** What [acoral_sched_rdyqueue_add] does to the words, whenever it returns. *)
Lemma rdyqueue_add_words t s s' th id :
  acoral_sched_rdyqueue_add t s = Ret (tt, s') → k_tcb s !! t = Some th → k_res s !! t = Some id →
  k_res s' = <[t := id_on (t_cpu th) id]> (k_res s).
Proof.
  intros Hrun Ht Hid. unfold acoral_sched_rdyqueue_add in Hrun.
  assert (∀ f x y, on_thr t f x = Ret (tt, y) → k_res y = k_res x) as Hthr.
  { intros f x y. unfold on_thr. destruct (k_tcb x !! t); [|done]. by intros [= <-]. }
  returns Hrun as (cpu & s1 & H1 & Hrun). unfold thr, deref in H1. rewrite Ht in H1. injection H1 as <- <-.
  returns Hrun as (prio & s1 & H1 & Hrun). unfold thr, deref in H1. rewrite Ht in H1. injection H1 as <- <-.
  returns Hrun as ([] & s1 & H1 & Hrun). assert (k_res s1 = k_res s) as Hr1.
  { unfold acoral_thread_prio_queue_add, on_cpu, on_bitmap in H1. returns H1 as (a & s2 & H2 & H1).
    destruct (aget (k_cpus s) (t_cpu th)); [|done]. injection H2 as <- <-. returns H1 as ([] & s3 & H3 & H1).
    unfold on_q, zoom in H3. destruct (acoral_fifo_queue_add _ _ _) as [[b q]|]; [|done]. injection H3 as _ <-.
    revert H1. cbn. destruct (aget _ _); [|done]. destruct (acoral_set_bit _ _) as [[]|]; [|done]. by intros [= _ <-]. }
  returns Hrun as ([] & s2 & H2 & Hrun). apply Hthr in H2.
  returns Hrun as ([] & s3 & H3 & Hrun). apply Hthr in H3.
  returns Hrun as ([] & s4 & H4 & Hrun). rewrite (run_id_on s3 t (t_cpu th) id) in H4 by congruence.
  injection H4 as <-. unfold acoral_set_need_sched, on_cpu in Hrun. returns Hrun as (c & s5 & H5 & Hrun).
  injection H5 as <- <-. revert Hrun. destruct (aget _ _); [|done]. intros [= <-]. simpl. congruence.
Qed.

(** The resource at [t] became ready on the cores [cs], one after the other;
    what happened in between left its word alone. *)
Inductive requeued (t : Z) (s0 : kstate) : list Z → kstate → Prop :=
  | requeued_nil : requeued t s0 [] s0
  | requeued_snoc cs s1 s2 th s3 :
      requeued t s0 cs s1 → k_res s2 !! t = k_res s1 !! t →
      k_tcb s2 !! t = Some th → 0 ≤ t_cpu th < CFG_MAX_CPU →
      acoral_sched_rdyqueue_add t s2 = Ret (tt, s3) → requeued t s0 (cs ++ [t_cpu th]) s3.

Lemma requeued_word t s0 cs s k ty i :
  requeued t s0 cs s → k_res s0 !! t = Some (id_word 0 k ty i) → 0 ≤ i < 1024 → 0 ≤ ty < 16 → 0 ≤ k < 1024 →
  Forall (λ c, 0 ≤ c < CFG_MAX_CPU) cs ∧ k_res s !! t = Some (id_word (default 0 (last cs)) k ty i).
Proof.
  intros Hrq Hw Hi Hty Hk. induction Hrq as [|cs s1 s2 th s3 _ [Hcs IH] Heq Hth Hcpu Hrun]; [done|].
  rewrite IH in Heq. rewrite (rdyqueue_add_words _ _ _ _ _ Hrun Hth Heq), lookup_insert_eq, last_snoc.
  split; [by apply Forall_app; split; [|constructor]|]. f_equal. apply id_on_id_word; try done. by apply last_core.
Qed.

(** The word of a free resource, and the identifier made from it. *)
Lemma take_word pid k nx : 0 ≤ k < 1024 → 0 ≤ nx < 65536 →
  Z.lor (Z.land (Z.shiftr (k * 65536 + nx) (ACORAL_RES_INDEX_INIT_BIT - ACORAL_RES_INDEX_BIT))
    ACORAL_RES_INDEX_MASK) pid = res_word pid k.
Proof.
  intros Hk Hn. unfold res_word. f_equal.
  change (ACORAL_RES_INDEX_INIT_BIT - ACORAL_RES_INDEX_BIT) with 2.
  change ACORAL_RES_INDEX_MASK with (Z.shiftl (Z.ones 10) 14).
  rewrite land_field, Z.shiftr_div_pow2, Z.div_div by done. unfold ACORAL_RES_INDEX_BIT.
  rewrite Z.shiftl_mul_pow2 by done. f_equal. change (2 ^ 2 * 2 ^ 14) with 65536.
  rewrite Z.div_add_l, (Z.div_small nx), Z.add_0_r by lia. by apply Z.mod_small.
Qed.

Lemma free_word k nx : 0 ≤ k < 1024 → 0 ≤ nx < 65536 →
  with_next_id (s32 (Z.shiftl k ACORAL_RES_INDEX_INIT_BIT)) nx = k * 65536 + nx.
Proof.
  intros Hk Hn. unfold with_next_id, ACORAL_RES_INDEX_INIT_BIT.
  rewrite Z.shiftl_mul_pow2 by done. change (2 ^ 16) with 65536. rewrite (wraps_small 32 (k * 65536)) by lia.
  rewrite (wrapu_small 16 nx) by lia. change 0xffff with (Z.ones 16).
  rewrite <- Z.ldiff_land, Z.ldiff_ones_r, Z.shiftr_div_pow2 by done.
  change (2 ^ 16) with 65536. rewrite Z.div_mul, lor_shiftl_add by (done || (simpl; lia)).
  change (2 ^ 16) with 65536. apply wraps_small; lia.
Qed.

Lemma next_id_word k nx : 0 ≤ nx < 65536 → next_id (k * 65536 + nx) = nx.
Proof.
  intros Hn. unfold next_id, wrapu. change (2 ^ 16) with 65536.
  rewrite Z.add_comm, Z.mod_add by done. by apply Z.mod_small.
Qed.

(** ** A pool and its free resources *)
Section pool_spec.
Context `{!Allocator kstate} (acoral_pools : Z).
Implicit Types s : kstate.

Lemma pool_index_adr i : 0 ≤ i < ACORAL_MAX_POOLS → pool_index acoral_pools (pool_adr acoral_pools i) = Some i.
Proof.
  intros Hi. unfold pool_index, pool_adr, sizeof_pool in *. unfold ACORAL_MAX_POOLS in *.
  replace (acoral_pools + 64 * i - acoral_pools) with (i * 64) by lia.
  rewrite Z.mod_mul, Z.div_mul, (proj2 (Z.leb_le _ _)), (proj2 (Z.ltb_lt _ _)) by lia. done.
Qed.

Lemma run_pl {A} (f : pool → A) i s x :
  0 ≤ i < ACORAL_MAX_POOLS → aget (k_pools s) i = Some x →
  pl acoral_pools f (pool_adr acoral_pools i) s = Ret (f x, s).
Proof. intros Hi Hx. apply run_deref. rewrite pool_index_adr by done. simpl. by rewrite Hx. Qed.

Lemma run_on_pl i f s x :
  0 ≤ i < ACORAL_MAX_POOLS → aget (k_pools s) i = Some x →
  on_pl acoral_pools (pool_adr acoral_pools i) f s = Ret (tt, set_k_pools (aset i (f x) (k_pools s)) s).
Proof. intros Hi Hx. unfold on_pl. rewrite pool_index_adr by done. simpl. by rewrite Hx. Qed.

Lemma run_pc {A} (f : pool_ctrl → A) c s x : k_ctrls s !! c = Some x → pc f c s = Ret (f x, s).
Proof. intros Hx. apply run_deref. by rewrite Hx. Qed.

Lemma run_on_pc c f s x :
  k_ctrls s !! c = Some x → on_pc c f s = Ret (tt, set_k_ctrls (<[c := f x]> (k_ctrls s)) s).
Proof. intros Hx. unfold on_pc. by rewrite Hx. Qed.

Definition slot (x : pool) (k : Z) : Z := p_base_adr x + p_size x * k.

(** The free resources are linked through the lower halves of their words. *)
Fixpoint chain (m : gmap Z Z) (adr : Z → Z) (fs : list Z) : Prop :=
  match fs with
  | [] => True
  | k :: fs' => ∃ nx, m !! adr k = Some (k * 65536 + nx) ∧ 0 ≤ nx < 65536 ∧
      (match fs' with [] => True | k' :: _ => nx = k' end) ∧ chain m adr fs'
  end.

(** Pool [i] is [x]; [fs] are the indices of its free resources, in the order
    in which they will be handed out. *)
Record pool_rep (s : kstate) (i : Z) (x : pool) (fs : list Z) : Prop := {
  pr_pool : 0 ≤ i < ACORAL_MAX_POOLS ∧ aget (k_pools s) i = Some x;
  pr_size : 0 < p_size x ∧ 0 < p_base_adr x ∧ p_num x ≤ 1024 ∧ slot x (p_num x) < 2 ^ 32;
  pr_free : NoDup fs ∧ Forall (λ k, 0 ≤ k < p_num x) fs ∧ p_free_num x = Z.of_nat (length fs);
  pr_head : ∀ k fs', fs = k :: fs' → p_res_free x = slot x k;
  pr_chain : chain (k_res s) (slot x) fs;
  pr_words : ∀ k, 0 ≤ k < p_num x → is_Some (k_res s !! slot x k);
}.

Lemma slot_inj x k k' : 0 < p_size x → slot x k = slot x k' → k = k'.
Proof. unfold slot. intros Hs E. nia. Qed.

Lemma chain_insert m x fs k w :
  0 < p_size x → k ∉ fs → chain m (slot x) fs → chain (<[slot x k := w]> m) (slot x) fs.
Proof.
  intros Hs. induction fs as [|j fs IH]; simpl; [done|].
  rewrite not_elem_of_cons. intros [Hne Hn] (nx & Hj & Hnx & Hnext & Hc).
  exists nx. split; [|auto]. rewrite lookup_insert_ne; [done|]. intros E%slot_inj; done.
Qed.

(** The pool without its first free resource. *)
Definition taken (x : pool) (nx : Z) : pool :=
  set_p_free_num (p_free_num x - 1) (set_p_res_free (u32 (slot x nx)) x).

Lemma slot_u32 x nx : u32 (p_base_adr x + nx * p_size x) = u32 (slot x nx).
Proof. unfold slot. f_equal. lia. Qed.

(** Running on pool [i] of [s] step by step. *)
Ltac plstep :=
  first
    [ erewrite run_bind by (eapply run_pl; [done|kside])
    | erewrite run_bind by (eapply run_on_pl; [done|kside])
    | erewrite run_bind by (eapply run_pc; kside)
    | erewrite run_bind by (eapply run_on_pc; kside)
    | kstep ];
  cbn beta iota.

Lemma run_list_del s L q a b e :
  qrep (k_q s) L → L !! q = Some (a ++ e :: b) →
  ∃ q', on_q (on_nodes (acoral_list_del e)) s = Ret (tt, set_k_q q' s) ∧
    qrep q' (<[e := []]> (<[q := a ++ b]> L)) ∧ q_lock q' = q_lock (k_q s).
Proof.
  intros HR Hq. destruct (list_del_rep (q_nodes (k_q s)) L q e a b) as (h' & Hrun & HR' & _); [apply HR|done|].
  exists (mk_q h' (q_lock (k_q s))). split_and!; [|by eapply qrep_nodes_upd|done].
  apply run_on_q. by apply (run_zoom lnodes _ (k_q s)).
Qed.

(** The lists after pool [p] of control block [c] gave its last resource. *)
Definition unlinked (c p : Z) (ps : list loc) (L : gmap loc (list loc)) :=
  <[LFree p := []]> (<[LQueue (QFreePools c) := ps]> L).

(** What taking a resource leaves alone, apart from the pools and the words. *)
Definition same_but_pools (s s' : kstate) : Prop :=
  k_cpu s' = k_cpu s ∧ k_cpus s' = k_cpus s ∧ k_tcb s' = k_tcb s ∧ k_ctrls s' = k_ctrls s ∧
  k_ipc s' = k_ipc s ∧ k_free_pool s' = k_free_pool s.

Lemma take_res_run s L i x k fs c ps :
  let p := pool_adr acoral_pools i in
  pool_rep s i x (k :: fs) → qrep (k_q s) L → L !! LQueue (QFreePools c) = Some (LFree p :: ps) →
  ∃ s' x', take_res acoral_pools p s = Ret (slot x k, s') ∧ same_but_pools s s' ∧
    k_res s' = <[slot x k := res_word (p_id x) k]> (k_res s) ∧
    pool_rep s' i x' fs ∧ (∃ nx, x' = taken x nx) ∧
    q_lock (k_q s') = q_lock (k_q s) ∧
    qrep (k_q s') (if decide (fs = []) then unlinked c p ps L else L).
Proof.
  intros p [[Hi Hx] (Hsz & Hbase & Hnum & Hmax) (Hnd & Hrange & Hfree) Hhead Hch Hw] HQ HL.
  destruct Hch as (nx & Hk & Hnx & Hnext & Hch). specialize (Hhead k fs eq_refl).
  apply NoDup_cons in Hnd as [Hkfs Hnd]. apply Forall_cons in Hrange as [Hkr Hrange].
  assert (p_res_free x = slot x k) as Hrf by done. simpl length in Hfree.
  assert (p_free_num x - 1 = Z.of_nat (length fs)) as Hfn by lia.
  assert (Z.of_nat (length fs) < 2 ^ 32) as Hlen.
  { assert (fs ⊆ seqZ 0 (p_num x)) as Hsub.
    { intros j Hj. apply elem_of_seqZ. rewrite Forall_forall in Hrange. specialize (Hrange j Hj). lia. }
    apply NoDup_submseteq in Hsub; [|done]. apply submseteq_length in Hsub. rewrite length_seqZ in Hsub. lia. }
  set (x' := taken x nx).
  set (s1 := set_k_pools (aset i x' (k_pools s)) (set_k_res (<[slot x k := res_word (p_id x) k]> (k_res s)) s)).
  assert (take_res acoral_pools p s =
    (when (Z.of_nat (length fs) =? 0) (on_q (on_nodes (acoral_list_del (LFree p))));; mret (slot x k)) s1) as Hrun.
  { unfold take_res, p. do 3 plstep. rewrite Hrf.
    erewrite run_bind by (by apply run_res_id). plstep. plstep.
    rewrite slot_u32, next_id_word, take_word by (done || lia).
    erewrite run_bind by (eapply run_set_res; exact Hk). plstep. plstep.
    cbn [p_free_num set_p_free_num set_p_res_free]. rewrite Hfn, wrapu_small by lia.
    match goal with |- _ ?a = _ => replace a with s1; [done|] end.
    unfold s1, set_k_pools, set_k_res, x', taken. cbn. by rewrite !aset_aset, Hfn. }
  assert (pool_rep s1 i x' fs) as HP.
  { unfold x', taken. split; simpl; try done.
    - split; [done|by eapply aget_aset_eq].
    - intros k' fs' ->. simpl in Hnext. subst nx. unfold slot in *. simpl.
      apply Forall_cons in Hrange as [? _]. apply wrapu_small. nia.
    - unfold s1. apply (chain_insert _ x); done.
    - intros j Hj. rewrite lookup_insert_is_Some'. right. by apply Hw. }
  rewrite Hrun. case_decide as Hfs.
  - subst fs. simpl. destruct (run_list_del s1 L (LQueue (QFreePools c)) [] ps (LFree p)) as (q' & Hdel & HQ' & Hlk); [done..|].
    exists (set_k_q q' s1), x'. erewrite run_bind by done.
    split_and!; try done; [destruct HP as [? ? ? ? ? ?]; by split|by exists nx].
  - exists s1, x'. assert ((Z.of_nat (length fs) =? 0) = false) as ->; [|by split_and!; try done; exists nx].
    apply Z.eqb_neq. destruct fs; [done|simpl; lia].
Qed.

Lemma pool_rep_ext s s' i x fs :
  k_pools s' = k_pools s → k_res s' = k_res s → pool_rep s i x fs → pool_rep s' i x fs.
Proof. intros Hp Hr [? ? ? ? ? ?]. split; by rewrite ?Hp, ?Hr. Qed.

Lemma frame_pools s s' : sched_frame s s' →
  k_pools s' = k_pools s ∧ k_res s' = k_res s ∧ k_ctrls s' = k_ctrls s ∧ k_q s' = k_q s ∧ k_free_pool s' = k_free_pool s.
Proof. intros [[Hq _ _ _ _] Hr Ho]. unfold same_other in Ho. destruct_and!. split_and!; done. Qed.

Lemma run_pc_lock c cc s :
  k_ctrls s !! c = Some cc → pc_lock cc = 0 →
  pc_spin_lock c s = Ret (tt, set_k_ctrls (<[c := set_pc_lock 1 cc]> (k_ctrls s)) s).
Proof. intros Hc Hl. unfold pc_spin_lock. erewrite run_bind by (by apply run_pc). rewrite Hl. by apply run_on_pc. Qed.

Lemma run_pc_unlock c cc s :
  k_ctrls s !! c = Some (set_pc_lock 1 cc) → pc_lock cc = 0 →
  pc_spin_unlock c s = Ret (tt, set_k_ctrls (<[c := cc]> (k_ctrls s)) s).
Proof.
  intros Hc Hl. unfold pc_spin_unlock. rewrite (run_on_pc _ _ _ _ Hc). do 4 f_equal.
  destruct cc; simpl in *; by subst.
Qed.

(** A list node that is a member of a ring is not empty. *)
Lemma run_member_empty s L q a b e :
  qrep (k_q s) L → L !! q = Some (a ++ e :: b) → klist_empty e s = Ret (false, s).
Proof.
  intros HR Hq. destruct (ring_step _ L q a b e (qrep_nodes _ _ HR) Hq) as (n & nx & Hn & Hnx & _ & _ & Hne).
  apply run_kread. unfold acoral_list_empty. erewrite run_bind by (by apply run_ld).
  rewrite Hnx, bool_decide_eq_false_2 by done. done.
Qed.

Lemma unlinked_ready c p ps L c' p' : unlinked c p ps L !! LQueue (QReady c' p') = L !! LQueue (QReady c' p').
Proof. unfold unlinked. by rewrite !lookup_insert_ne. Qed.

Lemma get_pool_by_id_eq c k ty i :
  0 ≤ i < 1024 → 0 ≤ ty < 16 → 0 ≤ k < 1024 →
  acoral_get_pool_by_id acoral_pools (id_word c k ty i) = if i <? ACORAL_MAX_POOLS then pool_adr acoral_pools i else 0.
Proof.
  intros Hi Hty Hk. unfold acoral_get_pool_by_id.
  destruct (res_word_fields c k ty i Hi Hty Hk) as (F1 & _). fold (id_word c k ty i) in F1. by rewrite F1.
Qed.

Lemma get_res_by_id_run s i x c k ty :
  0 ≤ i < ACORAL_MAX_POOLS → aget (k_pools s) i = Some x → 0 ≤ ty < 16 → 0 ≤ k < 1024 →
  0 ≤ acoral_pools → acoral_pools ≠ 0 → 0 ≤ slot x k < 2 ^ 32 →
  acoral_get_res_by_id acoral_pools (id_word c k ty i) s = Ret (slot x k, s).
Proof.
  intros Hi Hx Hty Hk Hnn Hnz Hslot. unfold acoral_get_res_by_id, acoral_get_pool_by_id.
  destruct (res_word_fields c k ty i) as (F1 & _ & F3 & _); [unfold ACORAL_MAX_POOLS in Hi; lia|done|done|].
  fold (id_word c k ty i) in F1, F3. rewrite F1, F3, (proj2 (Z.ltb_lt _ _)) by lia.
  rewrite (proj2 (Z.eqb_neq _ 0)) by (unfold pool_adr, sizeof_pool; lia).
  do 2 erewrite run_bind by (by eapply run_pl).
  unfold slot in *. rewrite (Z.mul_comm k), wrapu_small by lia. done.
Qed.

(** [acoral_get_res] on a control block with a pool that has free resources
    returns the first free one; its word becomes the identifier made of pool,
    type and index, by which [acoral_get_res_by_id] finds it again.  The other
    free resources stay free in their order; the pool leaves the list of pools
    with free resources exactly when it has none left; the lock of the control
    block is free and the scheduler's invariants hold. *)
Theorem get_res_correct s L c cc i ty x k fs ps :
  let p := pool_adr acoral_pools i in
  sched_inv s L → core_inv s L → k_ctrls s !! c = Some cc → pc_lock cc = 0 → acoral_pools ≠ 0 → 0 ≤ acoral_pools →
  L !! LQueue (QFreePools c) = Some (LFree p :: ps) → pool_rep s i x (k :: fs) →
  p_id x = pool_word ty i → 0 ≤ ty < 16 →
  ∃ s' x', acoral_get_res acoral_pools c s = Ret (slot x k, s') ∧
    k_res s' = <[slot x k := res_word (p_id x) k]> (k_res s) ∧
    acoral_get_res_by_id acoral_pools (res_word (p_id x) k) s' = Ret (slot x k, s') ∧
    pool_rep s' i x' fs ∧ k_ctrls s' = k_ctrls s ∧
    let L' := if decide (fs = []) then unlinked c p ps L else L in
    sched_inv s' L' ∧ core_inv s' L'.
Proof.
  intros p HI HC Hc Hl Hnz Hnn HL HP Hid Hty.
  destruct (enter_critical_spec s L HI HC) as (s1 & Hen & HF1 & HI1 & HC1 & _).
  destruct (frame_pools _ _ HF1) as (Hp1 & Hr1 & Hc1 & Hq1 & _).
  set (s2 := set_k_ctrls (<[c := set_pc_lock 1 cc]> (k_ctrls s1)) s1).
  destruct (take_res_run s2 L i x k fs c ps) as (s3 & x' & Htake & Hsame & Hr3 & HP3 & (nx & Hx3) & Hlk & HQ3);
    [by apply (pool_rep_ext s)|apply HI1|done|].
  set (L' := if decide (fs = []) then unlinked c p ps L else L) in *.
  assert (∀ c' p', L' !! LQueue (QReady c' p') = L !! LQueue (QReady c' p')) as HLr.
  { intros c' p'. unfold L'. case_decide; [apply unlinked_ready|done]. }
  destruct Hsame as (Hcpu & Hcpus & Htcb & Hctrls & _). simpl in Hcpu, Hcpus, Htcb, Hctrls.
  set (s4 := set_k_ctrls (<[c := cc]> (k_ctrls s3)) s3).
  assert (sched_inv s4 L' ∧ core_inv s4 L') as [HI4 HC4].
  { split.
    - eapply (sched_inv_same (set_k_q (k_q s3) s1)); [|done..]. by eapply sched_inv_lists.
    - eapply (core_inv_same (set_k_q (k_q s3) s1)); [|done..]. by eapply core_inv_lists. }
  destruct (exit_critical_spec s4 L' HI4 HC4) as (s5 & Hex & HF5 & HI5 & HC5).
  destruct (frame_pools _ _ HF5) as (Hp5 & Hr5 & Hc5 & _).
  assert (k_ctrls s3 !! c = Some (set_pc_lock 1 cc)) as Hlk3 by (rewrite Hctrls; apply lookup_insert_eq).
  exists s5, x'. split; [|split; [|split; [|split; [|split; [|done]]]]].
  - unfold acoral_get_res. erewrite run_bind by done.
    erewrite run_bind by (apply run_pc_lock; [by rewrite Hc1|done]). fold s2.
    erewrite run_bind by (eapply run_kget_first; [apply HI1|done]). cbn [head default from_option id].
    erewrite run_bind by (eapply (run_member_empty _ L _ []); [apply HI1|done]).
    erewrite run_bind by reflexivity. cbn [negb Z.eqb]. erewrite run_bind by reflexivity.
    unfold pool_of_free. erewrite run_bind by reflexivity. erewrite run_bind by done.
    erewrite run_bind by (by apply run_pc_unlock). by erewrite run_bind by done.
  - rewrite Hr5. simpl. rewrite Hr3. simpl. by rewrite Hr1.
  - destruct (pr_pool _ _ _ _ HP3) as [Hi Hx'].
    destruct (pr_size _ _ _ _ HP) as (Hs & Hb & Hn & Hmax).
    destruct (pr_free _ _ _ _ HP) as (_ & Hrange & _). apply Forall_cons in Hrange as [Hk _].
    rewrite Hid, res_word_add by (unfold ACORAL_MAX_POOLS in Hi; lia).
    assert (slot x' k = slot x k) as Hsl by (by rewrite Hx3). rewrite <- Hsl.
    replace (k * 16384 + ty * 1024 + i) with (id_word 0 k ty i) by (unfold id_word; lia).
    apply get_res_by_id_run; try done; [by rewrite Hp5|lia|]. rewrite Hsl. unfold slot in *. nia.
  - eapply pool_rep_ext; [..|exact HP3]; [by rewrite Hp5|by rewrite Hr5].
  - rewrite Hc5. simpl. rewrite Hctrls, Hc1. by rewrite insert_insert_eq, insert_id.
Qed.

(** C27 Identifiers lead back to their resource.  [acoral_get_res] gives out
    resource [k] of pool [i], which holds resources of type [ty].  However often
    the thread in it then becomes ready on whichever core, which rewrites the
    core bits of its identifier each time, the identifier names that pool, that
    type and, in the core bits, the core where it became ready last (core 0
    before that), and [acoral_get_pool_by_id] and [acoral_get_res_by_id] return
    the pool and the resource that were given out, as long as the pool is where
    it was.  An identifier whose pool index is beyond the array gives NULL. *)
Theorem id_roundtrip s L c cc i ty x k fs ps :
  let p := pool_adr acoral_pools i in
  sched_inv s L → core_inv s L → k_ctrls s !! c = Some cc → pc_lock cc = 0 → acoral_pools ≠ 0 → 0 ≤ acoral_pools →
  L !! LQueue (QFreePools c) = Some (LFree p :: ps) → pool_rep s i x (k :: fs) →
  p_id x = pool_word ty i → 0 ≤ ty < 16 →
  ∃ res s1, acoral_get_res acoral_pools c s = Ret (res, s1) ∧ res = slot x k ∧
    (∀ cs s2 y, requeued res s1 cs s2 →
      aget (k_pools s2) i = Some y → p_base_adr y = p_base_adr x → p_size y = p_size x →
      ∃ id, k_res s2 !! res = Some id ∧ ACORAL_RES_TYPE id = ty ∧ ACORAL_RES_CPU id = default 0 (last cs) ∧
        acoral_get_pool_by_id acoral_pools id = p ∧ acoral_get_res_by_id acoral_pools id s2 = Ret (res, s2)) ∧
    (∀ id s2, ACORAL_MAX_POOLS ≤ Z.land id ACORAL_POOL_INDEX_MASK → acoral_get_res_by_id acoral_pools id s2 = Ret (0, s2)).
Proof.
  intros p HI HC Hc Hl Hnz Hnn HL HP Hid Hty.
  destruct (get_res_correct s L c cc i ty x k fs ps) as (s1 & x' & Hrun & Hw & _); [done..|].
  destruct (pr_pool _ _ _ _ HP) as [Hi _]. destruct (pr_size _ _ _ _ HP) as (Hs & Hb & Hn & Hmax).
  destruct (pr_free _ _ _ _ HP) as (_ & Hrange & _). apply Forall_cons in Hrange as [Hk _].
  assert (0 ≤ i < 1024) as Hi' by (unfold ACORAL_MAX_POOLS in Hi; lia).
  assert (k_res s1 !! slot x k = Some (id_word 0 k ty i)) as Hword.
  { rewrite Hw, lookup_insert_eq, Hid, res_word_add by lia. f_equal. }
  assert (0 ≤ slot x k < 2 ^ 32) as Hslot by (unfold slot in *; nia).
  exists (slot x k), s1. split_and!; [done|done| |].
  - intros cs s2 y Hrq Hy Hby Hsy.
    destruct (requeued_word _ _ _ _ k ty i Hrq Hword Hi' Hty ltac:(lia)) as [Hcs Hw2].
    pose proof (last_core cs Hcs) as Hlast. set (b := default 0 (last cs)) in *.
    exists (id_word b k ty i). destruct (res_word_fields b k ty i Hi' Hty ltac:(lia)) as (_ & F2 & _ & F4).
    assert (slot y k = slot x k) as Hsl by (unfold slot; by rewrite Hby, Hsy).
    split_and!; [done|exact F2| | |].
    + etransitivity; [exact F4|]. apply Z.mod_small. unfold CFG_MAX_CPU in Hlast. lia.
    + rewrite get_pool_by_id_eq by lia. by rewrite (proj2 (Z.ltb_lt _ _)) by lia.
    + rewrite <- Hsl. apply get_res_by_id_run; try done; [lia|]. by rewrite Hsl.
  - intros id s2 Hbig. unfold acoral_get_res_by_id, acoral_get_pool_by_id, ACORAL_POOL_INDEX_BIT.
    rewrite Z.shiftr_0_r, (proj2 (Z.ltb_ge _ _)) by lia. done.
Qed.

(** The pool with resource [k] free again, at the head. *)
Definition given (x : pool) (k : Z) : pool :=
  set_p_free_num (p_free_num x + 1) (set_p_res_free (slot x k) x).

(** The words, pools and head after [acoral_release_res], before the list. *)
Lemma release_words s0 s i x fs k w0 :
  pool_rep s0 i x fs → k_res s = k_res s0 → 0 ≤ k < p_num x → k ∉ fs → k_res s !! p_res_free x = Some w0 →
  ∃ m, (set_res (slot x k) (s32 (Z.shiftl k ACORAL_RES_INDEX_INIT_BIT));;
        w ← res_id (p_res_free x);
        set_next_id (slot x k) (Z.shiftr w ACORAL_RES_INDEX_INIT_BIT)) s = Ret (tt, set_k_res m s) ∧
    chain m (slot x) (k :: fs) ∧ (∀ a, a ≠ slot x k → m !! a = k_res s !! a) ∧ is_Some (m !! slot x k).
Proof.
  intros [_ (Hsz & _ & Hnum & _) (_ & Hrange & _) Hhead Hch Hw] Heq Hk Hkf Hw0.
  rewrite <- Heq in Hch. setoid_rewrite <- Heq in Hw.
  destruct (Hw k Hk) as [w1 Hw1]. set (w2 := s32 (Z.shiftl k ACORAL_RES_INDEX_INIT_BIT)).
  set (s1 := set_k_res (<[slot x k := w2]> (k_res s)) s).
  assert (∃ w, k_res s1 !! p_res_free x = Some w ∧ (∀ j fs', fs = j :: fs' → w = w0)) as (w & Hw' & Hweq).
  { unfold s1. simpl. destruct (decide (slot x k = p_res_free x)) as [E|Hne].
    - exists w2. rewrite E, lookup_insert_eq. split; [done|]. intros j fs' ->.
      rewrite (Hhead j fs' eq_refl) in E. apply slot_inj in E; [|done]. subst. set_solver.
    - exists w0. by rewrite lookup_insert_ne. }
  exists (<[slot x k := with_next_id w2 (Z.shiftr w 16)]> (k_res s)).
  set (nx := u16 (Z.shiftr w 16)).
  assert (0 ≤ nx < 65536) as Hnx by (apply (wrapu_range 16); done).
  assert (with_next_id w2 (Z.shiftr w 16) = k * 65536 + nx) as Hword.
  { rewrite <- free_word by lia. fold w2. unfold with_next_id. by rewrite (wrapu_small 16 nx). }
  split; [|split; [|split]].
  - erewrite run_bind by (eapply run_set_res; exact Hw1). fold s1.
    erewrite run_bind by (eapply run_res_id; exact Hw').
    unfold set_next_id. erewrite run_bind by (eapply run_res_id; apply lookup_insert_eq).
    erewrite run_set_res by apply lookup_insert_eq. unfold s1, set_k_res. simpl. by rewrite insert_insert_eq.
  - simpl. exists nx. rewrite lookup_insert_eq, Hword. split; [done|]. split; [done|]. split; [|by apply chain_insert].
    destruct fs as [|j fs]; [done|]. unfold nx. rewrite (Hweq j fs eq_refl).
    destruct Hch as (nj & Hj & Hnj & _). rewrite (Hhead j fs eq_refl), Hj in Hw0. injection Hw0 as <-.
    rewrite Z.shiftr_div_pow2 by done. change (2 ^ 16) with 65536.
    rewrite Z.div_add_l, (Z.div_small nj), Z.add_0_r by lia.
    apply Forall_cons in Hrange as [Hj' _]. apply wrapu_small. simpl. lia.
  - intros a Ha. by rewrite lookup_insert_ne.
  - rewrite lookup_insert_eq. eauto.
Qed.

(** The lists after pool [p] of control block [c] got its first resource back. *)
Definition relinked (c p : Z) (ps : list loc) (L : gmap loc (list loc)) :=
  <[LQueue (QFreePools c) := ps ++ [LFree p]]> (delete (LFree p) L).

Lemma free_list_spec s L c p ps (full : bool) :
  qrep (k_q s) L → is_queue (k_q s) (LQueue (QFreePools c)) → L !! LQueue (QFreePools c) = Some ps →
  (if full then L !! LFree p = Some [] else LFree p ∈ ps) →
  ∃ q', (empty ← klist_empty (LFree p);
         when (empty : bool) (on_q (acoral_fifo_queue_add (LQueue (QFreePools c)) (LFree p)))) s
      = Ret (tt, set_k_q q' s) ∧ q_lock q' = q_lock (k_q s) ∧
    qrep q' (if full then relinked c p ps L else L).
Proof.
  intros HQ Hq HL Hp. destruct full.
  - erewrite run_bind by (by eapply run_klist_empty). rewrite bool_decide_eq_true_2 by done. cbn [when].
    destruct (fifo_add_rep (k_q s) L (LQueue (QFreePools c)) (LFree p) ps) as (q' & Hrun & HQ' & Hlk & _); [done..|].
    exists q'. by rewrite (run_on_q _ _ _ _ Hrun).
  - apply list_elem_of_split in Hp as (a & b & ->).
    erewrite run_bind by (by eapply run_member_empty). exists (k_q s). by rewrite set_k_q_id.
Qed.

(** [acoral_release_res] of an allocated resource returns; the resource is
    the first free one of its pool, before those that were free already, the
    pool is in the list of pools with free resources again, the lock of the
    control block is free, and the scheduler's invariants hold.  (For an
    exhausted pool the code reads the word at [res_free], which must be
    readable.) *)
Theorem release_res_correct s L c cc i x k w fs ps w0 :
  let p := pool_adr acoral_pools i in
  sched_inv s L → core_inv s L → k_ctrls s !! c = Some cc → pc_lock cc = 0 → p ≠ 0 →
  pool_rep s i x fs → p_ctrl x = c → 0 ≤ k < p_num x → k ∉ fs → p_free_num x < 2 ^ 32 - 1 →
  k_res s !! slot x k = Some w → acoral_get_pool_by_id acoral_pools w = p →
  k_res s !! p_res_free x = Some w0 →
  is_queue (k_q s) (LQueue (QFreePools c)) → L !! LQueue (QFreePools c) = Some ps →
  (if decide (fs = []) then L !! LFree p = Some [] else LFree p ∈ ps) →
  ∃ s', acoral_release_res acoral_pools (slot x k) s = Ret (tt, s') ∧
    pool_rep s' i (given x k) (k :: fs) ∧ k_ctrls s' = k_ctrls s ∧
    (∀ a, a ≠ slot x k → k_res s' !! a = k_res s !! a) ∧
    let L' := if decide (fs = []) then relinked c p ps L else L in
    sched_inv s' L' ∧ core_inv s' L'.
Proof.
  intros p HI HC Hc Hl Hpnz HP Hctrl Hk Hkf Hfn Hw Hpool Hw0 Hq HL Hmem.
  destruct (pr_pool _ _ _ _ HP) as [Hi Hx]. destruct (pr_size _ _ _ _ HP) as (Hs & Hb & Hn & Hmax).
  set (s1 := set_k_ctrls (<[c := set_pc_lock 1 cc]> (k_ctrls s)) s).
  set (s2 := set_k_pools (aset i (set_p_res_free (slot x k) x) (k_pools s1)) s1).
  destruct (release_words s s2 i x fs k w0) as (m & Hwords & Hch & Hoth & Hsome); [done..|].
  set (s3 := set_k_res m s2). set (s4 := set_k_pools (aset i (given x k) (k_pools s3)) s3).
  destruct (free_list_spec s4 L c p ps (bool_decide (fs = []))) as (q' & Hlist & Hlk & HQ'); [apply HI|done|done| |].
  { case_decide as E; [by rewrite bool_decide_eq_true_2|by rewrite bool_decide_eq_false_2]. }
  set (L' := if decide (fs = []) then relinked c p ps L else L).
  assert (qrep q' L') as HQ2.
  { unfold L'. case_decide as E; [by rewrite bool_decide_eq_true_2 in HQ'|by rewrite bool_decide_eq_false_2 in HQ']. }
  assert (∀ c' p', L' !! LQueue (QReady c' p') = L !! LQueue (QReady c' p')) as HLr.
  { intros c' p'. unfold L', relinked. case_decide; [|done]. by rewrite lookup_insert_ne, lookup_delete_ne. }
  set (s5 := set_k_ctrls (<[c := cc]> (k_ctrls (set_k_q q' s4))) (set_k_q q' s4)).
  destruct (pr_free _ _ _ _ HP) as (Hnd & Hrange & Hfree).
  assert (p_free_num x + 1 = Z.of_nat (length (k :: fs))) as Hlen by (simpl; lia).
  exists s5. split; [|split; [|split; [|split; [exact Hoth|]]]].
  - unfold acoral_release_res. erewrite run_bind by (by apply run_res_id). rewrite Hpool.
    rewrite (proj2 (Z.eqb_neq p 0)) by done. erewrite run_bind by (by apply run_pl). rewrite Hctrl.
    erewrite run_bind by (by apply run_pc_lock). fold s1.
    erewrite run_bind by (by apply run_pl). rewrite (proj2 (Z.ltb_ge _ _)) by (unfold slot; nia).
    do 2 erewrite run_bind by (by apply run_pl). rewrite (proj2 (Z.eqb_neq (p_size x) 0)) by lia.
    assert ((slot x k - p_base_adr x) / p_size x = k) as ->.
    { unfold slot. replace (_ - p_base_adr x) with (k * p_size x) by lia. apply Z.div_mul. lia. }
    rewrite (proj2 (Z.leb_gt _ _)) by lia. erewrite run_bind by (by apply run_pl).
    erewrite run_bind by (by apply run_on_pl). fold s2.
    set (rest := on_pl acoral_pools p (λ p, set_p_free_num (u32 (p_free_num p + 1)) p);;
      empty ← klist_empty (LFree p);
      when (empty : bool) (on_q (acoral_fifo_queue_add (LQueue (QFreePools c)) (LFree p)));;
      pc_spin_unlock c).
    assert (rest s3 = Ret (tt, s5)) as Hrest.
    { unfold rest. erewrite run_bind by (apply run_on_pl; [done|by eapply aget_aset_eq]).
      cbn [p_free_num set_p_res_free]. rewrite (wrapu_small 32) by lia.
      replace (set_k_pools _ s3) with s4 by (unfold s4, s3, s2, set_k_pools, given; simpl; by rewrite aset_aset).
      revert Hlist. unfold mbind, M_bind. destruct (klist_empty (LFree p) s4) as [[e t]|]; [|done].
      intros ->. apply run_pc_unlock; [by apply lookup_insert_eq|done]. }
    rewrite <- Hrest. revert Hwords. unfold mbind, M_bind.
    destruct (set_res (slot x k) (s32 (Z.shiftl k ACORAL_RES_INDEX_INIT_BIT)) s2) as [[[] t1]|]; [|done].
    destruct (res_id (p_res_free x) t1) as [[w' t2]|]; [|done]. by intros ->.
  - split; simpl; try done.
    + split; [done|]. apply (aget_aset_eq _ _ (set_p_res_free (slot x k) x)). by eapply aget_aset_eq.
    + split; [by constructor|]. split; [by constructor|]. simpl in Hlen. lia.
    + by intros k' fs' [= <- <-].
    + intros j Hj. destruct (decide (slot x j = slot x k)) as [E|Hne]; [change (slot (given x k) j) with (slot x j); by rewrite E|].
      change (slot (given x k) j) with (slot x j). rewrite Hoth by done. by apply HP.
  - unfold s5, s4, s3, s2, s1. simpl. by rewrite insert_insert_eq, insert_id.
  - split.
    + eapply (sched_inv_same (set_k_q q' s)); [|done..]. by eapply sched_inv_lists.
    + eapply (core_inv_same (set_k_q q' s)); [|done..]. by eapply core_inv_lists.
Qed.

(** ** The list of free pools *)

(** The pools [acoral_pools_init] leaves: each is linked to the next. *)
Definition linked (P : list pool) : Prop :=
  Z.of_nat (length P) = ACORAL_MAX_POOLS ∧
  ∀ i x, aget P i = Some x → p_lock x = 0 ∧
    p_base_adr x = if decide (i = ACORAL_MAX_POOLS - 1) then 0 else pool_adr acoral_pools (i + 1).

Definition init_step (i : Z) : K unit :=
  on_pl acoral_pools (pool_adr acoral_pools i) (set_p_base_adr (pool_adr acoral_pools (i + 1)));;
  on_pl acoral_pools (pool_adr acoral_pools i) (set_p_id i);;
  on_pl acoral_pools (pool_adr acoral_pools (i + 1)) (set_p_lock 0).

Lemma init_step_run i s :
  0 ≤ i < ACORAL_MAX_POOLS - 1 → Z.of_nat (length (k_pools s)) = ACORAL_MAX_POOLS →
  ∃ P, init_step i s = Ret (tt, set_k_pools P s) ∧ length P = length (k_pools s) ∧
    (∀ j x, aget P j = Some x → ∃ y, aget (k_pools s) j = Some y ∧
      p_base_adr x = (if decide (j = i) then pool_adr acoral_pools (i + 1) else p_base_adr y) ∧
      p_lock x = (if decide (j = i + 1) then 0 else p_lock y)).
Proof.
  intros Hi Hlen.
  assert (0 ≤ i < ACORAL_MAX_POOLS) as Hi1 by (unfold ACORAL_MAX_POOLS in *; lia).
  assert (0 ≤ i + 1 < ACORAL_MAX_POOLS) as Hi2 by (unfold ACORAL_MAX_POOLS in *; lia).
  destruct (proj2 (aget_is_Some (k_pools s) i)) as [x0 Hx0]; [lia|].
  destruct (proj2 (aget_is_Some (k_pools s) (i + 1))) as [x1 Hx1]; [lia|].
  set (y := set_p_base_adr (pool_adr acoral_pools (i + 1)) x0).
  exists (aset (i + 1) (set_p_lock 0 x1) (aset i (set_p_id i y) (k_pools s))).
  split; [|split; [by rewrite !length_aset|]].
  - unfold init_step. erewrite run_bind by (by apply run_on_pl).
    erewrite run_bind by (apply run_on_pl; [done|by eapply aget_aset_eq]).
    erewrite run_on_pl; [|done|].
    + unfold set_k_pools. simpl. by rewrite aset_aset.
    + simpl. rewrite aset_aset. rewrite aget_aset_ne; [done|eauto|lia].
  - intros j x. rewrite aget_aset.
    + case_decide as E1; [intros [= <-]; subst j; exists x1; split; [done|]; simpl; rewrite decide_False by lia; by rewrite decide_True|].
      rewrite aget_aset by eauto. case_decide as E2.
      * intros [= <-]. subst j. exists x0. split; [done|]. simpl. rewrite decide_True by done. by rewrite decide_False by lia.
      * intros Hx. exists x. by rewrite !decide_False by lia.
    + rewrite aget_aset_ne; [eauto|eauto|lia].
Qed.

Lemma init_loop_run n : ∀ i s,
  0 ≤ i → i + Z.of_nat n ≤ ACORAL_MAX_POOLS - 1 → Z.of_nat (length (k_pools s)) = ACORAL_MAX_POOLS →
  ∃ P, for_up n i init_step s = Ret (tt, set_k_pools P s) ∧ length P = length (k_pools s) ∧
    (∀ j x, aget P j = Some x → ∃ y, aget (k_pools s) j = Some y ∧
      p_base_adr x = (if decide (i ≤ j < i + Z.of_nat n) then pool_adr acoral_pools (j + 1) else p_base_adr y) ∧
      p_lock x = (if decide (i < j ≤ i + Z.of_nat n) then 0 else p_lock y)).
Proof.
  induction n as [|n IH]; intros i s Hi Hn Hlen; cbn [for_up].
  - exists (k_pools s). split; [by destruct s|]. split; [done|]. intros j x Hx. exists x.
    by rewrite !decide_False by lia.
  - destruct (init_step_run i s) as (P1 & Hrun1 & Hl1 & H1); [lia|done|]. erewrite run_bind by done.
    destruct (IH (i + 1) (set_k_pools P1 s)) as (P & Hrun & Hl & H); [lia|lia|simpl; congruence|].
    exists P. split; [done|]. split; [simpl in Hl; congruence|]. intros j x Hx.
    destruct (H j x Hx) as (y1 & Hy1 & Hb1 & Hk1). destruct (H1 j y1 Hy1) as (y & Hy & Hb & Hk).
    exists y. split; [done|]. rewrite Hb1, Hb, Hk1, Hk. split; repeat case_decide; subst; (done || lia).
Qed.

(** The free pools.  [acoral_pools_init] links the forty pools, and makes the
    first one the head of the free ones.  [acoral_get_free_pool] returns the
    head, but reads the link of the next pool instead of the head's own, so the
    pool after it is skipped: the head becomes the pool two further, [NULL]
    after pool 38.  Every second pool is never handed out. *)
Theorem free_pools_skipped s :
  Z.of_nat (length (k_pools s)) = ACORAL_MAX_POOLS → 0 < acoral_pools →
  (∃ s', acoral_res_pool_sys_init acoral_pools s = Ret (tt, s') ∧ linked (k_pools s') ∧
    k_free_pool s' = pool_adr acoral_pools 0) ∧
  (∀ s1 L i, linked (k_pools s1) → sched_inv s1 L → core_inv s1 L →
    0 ≤ i < ACORAL_MAX_POOLS - 1 → k_free_pool s1 = pool_adr acoral_pools i →
    ∃ s', acoral_get_free_pool acoral_pools s1 = Ret (pool_adr acoral_pools i, s') ∧
      k_free_pool s' = (if decide (i = ACORAL_MAX_POOLS - 2) then 0 else pool_adr acoral_pools (i + 2)) ∧
      linked (k_pools s') ∧ sched_inv s' L ∧ core_inv s' L) ∧
  (∀ s1 L, sched_inv s1 L → core_inv s1 L → k_free_pool s1 = 0 →
    ∃ s', acoral_get_free_pool acoral_pools s1 = Ret (0, s') ∧ k_free_pool s' = 0).
Proof.
  intros Hlen Hpos. split; [|split].
  - destruct (init_loop_run (Z.to_nat (ACORAL_MAX_POOLS - 1)) 0 s) as (P & Hrun & Hl & HP); [done|done|done|].
    unfold ACORAL_MAX_POOLS in *. change (Z.of_nat (Z.to_nat (40 - 1))) with 39 in HP.
    destruct (proj2 (aget_is_Some P 39)) as [x39 Hx39]; [lia|].
    destruct (proj2 (aget_is_Some P 0)) as [x0 Hx0]; [lia|].
    eexists. split; [|split].
    + unfold acoral_res_pool_sys_init, acoral_pools_init. erewrite run_bind by exact Hrun.
      erewrite run_bind by (apply run_on_pl; [done|exact Hx39]). erewrite run_bind by reflexivity.
      apply run_on_pl; [done|]. simpl. rewrite aget_aset_ne by (eauto || done). exact Hx0.
    + split; simpl; [rewrite !length_aset; unfold ACORAL_MAX_POOLS; lia|]. intros j x. unfold ACORAL_MAX_POOLS.
      rewrite aget_aset by (rewrite aget_aset_ne by (eauto || done); eauto).
      case_decide as E0; [|rewrite aget_aset by eauto; case_decide as E39].
      * intros [= <-]. subst j. simpl. split; [done|]. destruct (HP 0 x0 Hx0) as (y & _ & Hb & _). by rewrite Hb.
      * intros [= <-]. subst j. simpl. destruct (HP 39 x39 Hx39) as (y & _ & _ & Hk). split; [|done]. by rewrite Hk.
      * intros Hx. destruct (HP j x Hx) as (y & Hy & Hb & Hk). apply aget_lt in Hx.
        rewrite Hb, Hk. split; repeat case_decide; (done || lia).
    + done.
  - intros s1 L i [Hl1 Hlink] HI HC Hi Hfree.
    destruct (enter_critical_spec s1 L HI HC) as (s2 & Hen & HF & HI2 & HC2 & _).
    destruct (frame_pools _ _ HF) as (Hp2 & _ & _ & _ & Hf2).
    unfold ACORAL_MAX_POOLS in *.
    destruct (proj2 (aget_is_Some (k_pools s1) i)) as [x Hx]; [lia|].
    destruct (proj2 (aget_is_Some (k_pools s1) (i + 1))) as [y Hy]; [lia|].
    destruct (Hlink i x Hx) as [Hlx Hbx]. destruct (Hlink (i + 1) y Hy) as [Hly Hby].
    rewrite decide_False in Hbx by lia.
    set (s3 := set_k_free_pool (p_base_adr y) s2).
    destruct (exit_critical_spec s3 L) as (s4 & Hex & HF4 & HI4 & HC4);
      [by eapply sched_inv_same|by eapply core_inv_same|].
    destruct (frame_pools _ _ HF4) as (Hp4 & _ & _ & _ & Hf4).
    exists s4. split; [|split; [|split; [|done]]].
    + unfold acoral_get_free_pool. erewrite run_bind by done. erewrite run_bind by reflexivity.
      rewrite Hf2, Hfree. rewrite (proj2 (Z.eqb_neq _ 0)) by (unfold pool_adr, sizeof_pool; lia).
      assert (0 ≤ i < ACORAL_MAX_POOLS) as Hi1 by (unfold ACORAL_MAX_POOLS; lia).
      assert (0 ≤ i + 1 < ACORAL_MAX_POOLS) as Hi2 by (unfold ACORAL_MAX_POOLS; lia).
      rewrite <- Hp2 in Hx, Hy.
      erewrite run_bind; [erewrite run_bind by exact Hex; done|].
      unfold pl_spin_lock. erewrite run_bind by (erewrite run_bind by (by apply run_pl); rewrite Hlx; by apply run_on_pl).
      erewrite run_bind by (apply run_pl; [done|by eapply aget_aset_eq]).
      cbn [p_base_adr set_p_lock]. rewrite Hbx.
      erewrite run_bind by (apply run_pl; [exact Hi2|simpl; by rewrite aget_aset_ne by (eauto || lia)]).
      erewrite run_bind by reflexivity. unfold pl_spin_unlock.
      erewrite run_on_pl; [|done|by eapply aget_aset_eq].
      do 2 f_equal. unfold s3, set_k_pools, set_k_free_pool. simpl. f_equal. rewrite aset_aset. apply aset_id.
      rewrite Hx. f_equal. destruct x; simpl in *; by subst.
    + rewrite Hf4. simpl. rewrite Hby. repeat case_decide; try lia. f_equal. lia.
    + rewrite Hp4. simpl. by rewrite Hp2.
  - intros s1 L HI HC Hfree.
    destruct (enter_critical_spec s1 L HI HC) as (s2 & Hen & HF & HI2 & HC2 & _).
    destruct (exit_critical_spec s2 L HI2 HC2) as (s3 & Hex & HF3 & _).
    destruct (frame_pools _ _ HF) as (_ & _ & _ & _ & Hf2). destruct (frame_pools _ _ HF3) as (_ & _ & _ & _ & Hf3).
    exists s3. split; [|congruence]. unfold acoral_get_free_pool.
    erewrite run_bind by done. erewrite run_bind by reflexivity. rewrite Hf2, Hfree. cbn [Z.eqb].
    erewrite run_bind by reflexivity. by erewrite run_bind by done.
Qed.
End pool_spec.

(** ** A concrete pool for the witnesses *)

(** An allocator without memory. *)
Definition no_memory : Allocator kstate :=
  {| al_malloc_size := λ _, mret 0; al_malloc := λ _, mret 0; al_free := λ _, mret tt |}.

(** Pool 0 at address 65536, of four 16-byte resources at 131072; resource 0 is
    allocated; the pools after it are linked by [base_adr]. *)
Definition pool0 : pool :=
  mk_pool 131072 (131072 + 16) (pool_word ACORAL_RES_IPC 0) 16 4 3 12288 0.

Definition ctrl0 : pool_ctrl := mk_pool_ctrl ACORAL_RES_IPC 16 4 1 10 0.

Definition words0 : gmap Z Z :=
  <[131072 := res_word (p_id pool0) 0]>
    (<[131088 := 1 * 65536 + 2]> (<[131104 := 2 * 65536 + 3]> (<[131120 := 3 * 65536 + 0]> ∅))).

Definition free_pool_array : list pool :=
  (λ i : Z, mk_pool (if decide (i = 39) then 0 else 65536 + 64 * (i + 1)) 0 i 0 0 0 0 0) <$> seqZ 0 40.

Lemma sample_pools : ∃ s L,
  sched_inv s L ∧ core_inv s L ∧ k_ctrls s !! 12288 = Some ctrl0 ∧ pool_rep s 0 pool0 [1; 2; 3] ∧
  is_queue (k_q s) (LQueue (QFreePools 12288)) ∧
  L !! LQueue (QFreePools 12288) = Some [LFree (pool_adr 65536 0)] ∧ k_res s = words0.
Proof.
  destruct sample_kernel as [s0 Hs0].
  destruct (with_queue s0 sample_L (LQueue (QFreePools 12288)) (LFree (pool_adr 65536 0)) 0)
    as (s1 & L & h & -> & HI & HC & Hq & -> & _); [apply Hs0|apply Hs0|by apply sample_unlisted..|done|done|done|].
  exists (set_k_pools [pool0] (set_k_res words0 (set_k_ctrls {[12288 := ctrl0]} (set_k_q h s0)))).
  eexists. split; [by eapply sched_inv_same|]. split; [by eapply core_inv_same|].
  split; [by simpl; rewrite lookup_singleton_eq|].
  split; [|by rewrite lookup_insert_eq]. split; simpl.
  - split; [unfold ACORAL_MAX_POOLS; lia|done].
  - unfold slot. simpl. lia.
  - split; [by apply (bool_decide_unpack _); vm_compute|]. split; [|done].
    repeat constructor; simpl; lia.
  - by intros k fs' [= <- <-].
  - exists 2. split; [done|]. split; [lia|]. split; [done|]. exists 3. split; [done|]. split; [lia|]. split; [done|].
    exists 0. done.
  - intros k Hk. simpl in Hk. assert (k = 0 ∨ k = 1 ∨ k = 2 ∨ k = 3) as [->|[->|[->| ->]]] by lia; by eexists.
Qed.

(** Later, the resource is a suspended thread of core 1. *)
Definition suspended_there : kstate :=
  let core := mk_percpu 0 0 0 0 0 0 0 [0; 0; 0] 0 0xFF in
  mk_kstate 0 [core; core]
    (mk_q (<[LQueue (QReady 1 3) := mk_list (LQueue (QReady 1 3)) (LQueue (QReady 1 3)) 0 0]>
             (<[LThread 131088 ready := mk_list (LThread 131088 ready) (LThread 131088 ready) 0 0]> ∅))
          (<[LQueue (QReady 1 3) := 0]> ∅))
    (<[131088 := mk_thread 0 0 0 0 2 3 1 0 21 0 0 0 0 0 0 0 0 0 0]> ∅) ∅
    (<[131088 := 1 * 16384 + 2 * 1024 + 0]> ∅) [pool0] 0 ∅ [] [] 1 0 0 [] ∅ no_ext.

Lemma id_roundtrip_witness : ∃ s s1 s2 id,
  @acoral_get_res no_memory 65536 12288 s = Ret (131088, s1) ∧
  acoral_sched_rdyqueue_add 131088 suspended_there = Ret (tt, s2) ∧ k_res s2 !! 131088 = Some id ∧
  ACORAL_RES_CPU id = 1 ∧ acoral_get_res_by_id 65536 id s2 = Ret (131088, s2).
Proof.
  pose (s2 := match acoral_sched_rdyqueue_add 131088 suspended_there with Ret (_, s) => s | Err _ => suspended_there end).
  assert (acoral_sched_rdyqueue_add 131088 suspended_there = Ret (tt, s2)) as H2 by (vm_compute; reflexivity).
  destruct sample_pools as (s & L & HI & HC & Hc & HP & _ & HL & Hw). exists s.
  destruct (@get_res_correct no_memory 65536 s L 12288 ctrl0 0 ACORAL_RES_IPC pool0 1 [2; 3] [])
    as (s1' & _ & Hrun' & Hw1 & _); [done..|].
  destruct (@id_roundtrip no_memory 65536 s L 12288 ctrl0 0 ACORAL_RES_IPC pool0 1 [2; 3] [])
    as (res & s1 & Hrun & -> & Hback & _); [done..|].
  rewrite Hrun in Hrun'. injection Hrun' as <-. exists s1, s2.
  destruct (Hback [1] s2 pool0) as (id & H3 & _ & H4 & _ & H5); [|done..|].
  - apply (requeued_snoc _ _ [] s1 suspended_there (mk_thread 0 0 0 0 2 3 1 0 21 0 0 0 0 0 0 0 0 0 0));
      [apply requeued_nil| | | |exact H2].
    + etransitivity; [|symmetry; rewrite Hw1; apply lookup_insert_eq]. reflexivity.
    + reflexivity.
    + unfold CFG_MAX_CPU. simpl. lia.
  - exists id. split; [exact Hrun|]. split; [exact H2|]. split; [exact H3|]. split; [exact H4|exact H5].
Defined.

Lemma get_res_correct_witness : ∃ s s',
  @acoral_get_res no_memory 65536 12288 s = Ret (131072 + 16, s') ∧
  @acoral_get_res_by_id 65536 (res_word (p_id pool0) 1) s' = Ret (131072 + 16, s').
Proof.
  destruct sample_pools as (s & L & HI & HC & Hc & HP & _ & HL & _). exists s.
  destruct (@get_res_correct no_memory 65536 s L 12288 ctrl0 0 ACORAL_RES_IPC pool0 1 [2; 3] [])
    as (s' & x' & Hrun & _ & Hid & _); [done..|]. exists s'. by split.
Defined.

Lemma release_res_correct_witness : ∃ s s',
  @acoral_release_res 65536 131072 s = Ret (tt, s') ∧ pool_rep s' 0 (given pool0 0) [0; 1; 2; 3].
Proof.
  destruct sample_pools as (s & L & HI & HC & Hc & HP & Hq & HL & Hw). exists s.
  destruct (@release_res_correct 65536 s L 12288 ctrl0 0 pool0 0 (res_word (p_id pool0) 0) [1; 2; 3]
    [LFree (pool_adr 65536 0)] (1 * 65536 + 2)) as (s' & Hrun & HP' & _); try done.
  - set_solver.
  - by rewrite Hw.
  - by rewrite Hw.
  - rewrite decide_False by done. by left.
  - exists s'. by split.
Defined.

Lemma free_pools_skipped_witness : ∃ s s' s'',
  @acoral_get_free_pool 65536 s = Ret (pool_adr 65536 0, s') ∧
  @acoral_get_free_pool 65536 s' = Ret (pool_adr 65536 2, s'').
Proof.
  destruct sample_kernel as [s0 Hs0].
  set (s := set_k_free_pool 65536 (set_k_pools free_pool_array s0)). exists s.
  destruct (free_pools_skipped 65536 s) as (_ & Hget & _); [done|done|].
  assert (linked 65536 (k_pools s)) as Hl.
  { split; [done|]. intros i x. simpl. unfold free_pool_array, aget.
    destruct (0 <=? i) eqn:E; [|done]. apply Z.leb_le in E. rewrite list_lookup_fmap.
    destruct (seqZ 0 40 !! Z.to_nat i) as [j|] eqn:Ej; [|done]. apply lookup_seqZ in Ej as [-> Hj].
    intros [= <-]. simpl. split; [done|]. rewrite !Z2Nat.id by done.
    unfold pool_adr, sizeof_pool. change (ACORAL_MAX_POOLS - 1) with 39. repeat case_decide; lia. }
  destruct (Hget s sample_L 0) as (s1 & Hr1 & Hf1 & Hl1 & HI1 & HC1); [done| | |done|done|].
  { eapply sched_inv_same; [apply Hs0|done..]. }
  { eapply core_inv_same; [apply Hs0|done..]. }
  destruct (Hget s1 sample_L 2) as (s2 & Hr2 & _); [done..|]. by exists s1, s2.
Defined.
