(* ===== verification/Cpu.v ===== *)
(** * kernel/src/cpu.c, and the sending side of kernel/src/ipi.c

    The map of active cores, the search for the idlest core, and the slots by
    which a core sends a command to another one.  A slot is locked from the
    sender's [acoral_ipi_cmd_send] until the handler on the target core. *)
From S2P Require Import Prelude Bitops DList Queues KTypes KState Sched.
From stdpp Require Import list.
#[local] Open Scope Z_scope.

(** ** cpu.c *)
Definition on_active {A} (m : M (list Z) A) : K A := zoom (Lens k_active_map set_k_active_map) m.

Definition acoral_cpu_is_active (cpu : Z) : K Z := on_active (acoral_get_bit cpu).
Definition acoral_cpu_set_active (cpu : Z) : K unit := on_active (acoral_set_bit cpu).

(** The loop of both searches; [ok i] is the mask condition on core [i]. *)
Fixpoint idlest_loop (ok : Z → bool) (n : nat) (i count cpu : Z) : K Z :=
  match n with
  | O => mret cpu
  | S n =>
      num ← at_cpu c_num i;
      if (num <? count) && ok i then idlest_loop ok n (i + 1) num i
      else idlest_loop ok n (i + 1) count cpu
  end.

(** [cpu] is not initialised in the source; [indeterminate] is what it holds. *)
Definition acoral_get_idlest_cpu (indeterminate : Z) : K Z :=
  idlest_loop (λ _, true) (Z.to_nat CFG_MAX_CPU) 0 (u32 (-1)) indeterminate.

Definition acoral_get_idle_maskcpu (cpu_mask : Z) : K Z :=
  idlest_loop (λ i, negb (Z.land (Z.shiftl 1 i) cpu_mask =? 0)) (Z.to_nat CFG_MAX_CPU) 0 (u32 (-1)) 0.

(** ** ipi.c: the commands *)
Definition ACORAL_IPI_THREAD_KILL : Z := 1.
Definition ACORAL_IPI_THREAD_READY : Z := 2.
Definition ACORAL_IPI_THREAD_SUSPEND : Z := 4.
Definition ACORAL_IPI_THREAD_CHG_PRIO : Z := 8.
Definition ACORAL_IPI_THREAD_MOVETO : Z := 16.
Definition ACORAL_IPI_THREAD_MOVEIN : Z := 32.
Definition ACORAL_IPI_ADMIS_CHG_PRIO : Z := 512.
Definition ACORAL_IPI_ADMIS_CHG_RES : Z := 1024.

Definition slot_of {A} (f : ipi_cmd → A) (cpu : Z) : K A := deref (λ s, f <$> aget (k_ipi s) cpu).

Definition on_slot (cpu : Z) (f : ipi_cmd → ipi_cmd) : K unit := λ s,
  match aget (k_ipi s) cpu with
  | Some m => Ret (tt, set_k_ipi (aset cpu (f m) (k_ipi s)) s)
  | None => Err Wild
  end.

(** A software interrupt for core 0 or 1; for another core nothing. *)
Definition acoral_ipi_send (cpu : Z) : K unit :=
  if (cpu =? 0) || (cpu =? 1) then modify (λ s, set_k_sgi (cpu :: k_sgi s) s) else mret tt.

Definition acoral_ipi_cmd_init : K unit :=
  for_up (Z.to_nat CFG_MAX_CPU) 0 (λ i, on_slot i (set_m_lock 0)).

Definition acoral_ipi_cmd_send (cpu cmd thread_id data : Z) : K unit :=
  let cpu := if CFG_MAX_CPU <=? cpu then CFG_MAX_CPU - 1 else cpu in
  l ← slot_of m_lock cpu;
  (if (l : Z) =? 0 then on_slot cpu (set_m_lock 1) else fail Deadlock);;
  on_slot cpu (set_m_cmd cmd);;
  on_slot cpu (set_m_thread_id thread_id);;
  on_slot cpu (set_m_data data);;
  acoral_ipi_send cpu.

(** [acoral_get_ipi_cmd]: the slot of a core, whatever the command. *)
Definition acoral_get_ipi_cmd (cmd cpu : Z) : K ipi_cmd := slot_of id cpu.

(** ** Specifications *)
Section cpu_spec.
Implicit Types s : kstate.

Definition ipi_target (cpu : Z) : Z := if CFG_MAX_CPU <=? cpu then CFG_MAX_CPU - 1 else cpu.

(** The kernel after command [m] was posted on the slot of core [cpu]. *)
Definition posted (cpu : Z) (m : ipi_cmd) (s : kstate) : kstate :=
  set_k_sgi (cpu :: k_sgi s) (set_k_ipi (aset cpu m (k_ipi s)) s).

Lemma ipi_cmd_send_run s cpu cmd id data m :
  0 ≤ cpu → aget (k_ipi s) (ipi_target cpu) = Some m → m_lock m = 0 →
  acoral_ipi_cmd_send cpu cmd id data s = Ret (tt, posted (ipi_target cpu) (mk_ipi_cmd 1 cmd id data) s).
Proof.
  intros Hc Hm Hl. unfold acoral_ipi_cmd_send. fold (ipi_target cpu). set (c := ipi_target cpu) in *.
  erewrite run_bind by (apply run_deref; by rewrite Hm). rewrite Hl. cbn [Z.eqb].
  assert (∀ f s x, aget (k_ipi s) c = Some x →
    on_slot c f s = Ret (tt, set_k_ipi (aset c (f x) (k_ipi s)) s)) as Hon by (intros f t x Hx; unfold on_slot; by rewrite Hx).
  erewrite run_bind by (by apply Hon). do 3 erewrite run_bind by (apply Hon; simpl; repeat eapply aget_aset_eq; exact Hm).
  unfold acoral_ipi_send. assert ((c =? 0) || (c =? 1) = true) as ->.
  { unfold c, ipi_target, CFG_MAX_CPU. destruct (2 <=? cpu) eqn:E; [done|]. apply Z.leb_gt in E.
    assert (cpu = 0 ∨ cpu = 1) as [-> | ->] by lia; done. }
  unfold modify, posted, set_k_ipi, set_k_sgi. simpl. by rewrite !aset_aset.
Qed.

Lemma idlest_loop_run ok nums n : ∀ i count cpu s,
  (∀ j x, aget nums j = Some x → ∃ c, aget (k_cpus s) j = Some c ∧ c_num c = x) →
  0 ≤ i → i + Z.of_nat n ≤ Z.of_nat (length nums) →
  ∃ r, idlest_loop ok n i count cpu s = Ret (r, s) ∧
    ((r = cpu ∧ ∀ j x, i ≤ j < i + Z.of_nat n → aget nums j = Some x → ok j = true → count ≤ x) ∨
     (∃ y, i ≤ r < i + Z.of_nat n ∧ ok r = true ∧ aget nums r = Some y ∧ y < count ∧
        ∀ j x, i ≤ j < i + Z.of_nat n → aget nums j = Some x → ok j = true → y ≤ x)).
Proof.
  induction n as [|n IH]; intros i count cpu s Hn Hi Hlen; cbn [idlest_loop].
  - exists cpu. split; [done|]. left. split; [done|]. intros; lia.
  - destruct (proj2 (aget_is_Some nums i)) as [x Hx]; [lia|]. destruct (Hn i x Hx) as (c & Hc & Hcx).
    erewrite run_bind by (by apply run_at_cpu). rewrite Hcx.
    destruct ((x <? count) && ok i) eqn:E.
    + apply andb_true_iff in E as [Ex%Z.ltb_lt Hok].
      destruct (IH (i + 1) x i s Hn) as (r & Hr & H); [lia|lia|]. exists r. split; [done|]. right.
      destruct H as [[-> H]|(y & Hry & Hokr & Hy & Hyx & H)].
      * exists x. split_and!; try done; try lia. intros j z Hj Hz Hokj.
        destruct (decide (j = i)) as [->|]; [assert (z = x) by congruence; lia|eapply H; [|done..]; lia].
      * exists y. split_and!; try done; try lia. intros j z Hj Hz Hokj.
        destruct (decide (j = i)) as [->|]; [assert (z = x) by congruence; lia|eapply H; [|done..]; lia].
    + destruct (IH (i + 1) count cpu s Hn) as (r & Hr & H); [lia|lia|]. exists r. split; [done|].
      assert (ok i = true → count ≤ x) as Hcx'.
      { intros Hok. rewrite Hok, andb_true_r in E. by apply Z.ltb_ge in E. }
      destruct H as [[-> H]|(y & Hry & Hokr & Hy & Hyx & H)]; [left|right].
      * split; [done|]. intros j z Hj Hz Hokj.
        destruct (decide (j = i)) as [->|]; [assert (z = x) by congruence; subst; auto|eapply H; [|done..]; lia].
      * exists y. split_and!; try done; try lia. intros j z Hj Hz Hokj.
        destruct (decide (j = i)) as [->|]; [assert (z = x) by congruence; subst; specialize (Hcx' Hokj); lia|].
        eapply H; [|done..]; lia.
Qed.

(** [acoral_get_idle_maskcpu] returns, of the cores whose bit is set in the
    mask, the first one with the fewest ready threads; core 0 when the mask
    names no core.  With the mask of all cores [acoral_get_idlest_cpu] agrees
    with it, whatever its uninitialised variable holds. *)
Theorem idlest_cpu_correct s c0 c1 mask indeterminate :
  k_cpus s = [c0; c1] → 0 ≤ c_num c0 < 2 ^ 32 - 1 → 0 ≤ c_num c1 < 2 ^ 32 - 1 → 0 ≤ mask →
  acoral_get_idle_maskcpu mask s =
    Ret (if Z.testbit mask 1 && (negb (Z.testbit mask 0) || (c_num c1 <? c_num c0)) then 1 else 0, s) ∧
  acoral_get_idlest_cpu indeterminate s = acoral_get_idle_maskcpu 3 s.
Proof.
  intros Hs H0 H1 Hm.
  assert (∀ k, 0 ≤ k → negb (Z.land (Z.shiftl 1 k) mask =? 0) = Z.testbit mask k) as Hb.
  { intros k Hk. rewrite Z.land_comm, Z.shiftl_mul_pow2, Z.mul_1_l by done. by apply has_bit. }
  unfold acoral_get_idlest_cpu, acoral_get_idle_maskcpu. change (Z.to_nat CFG_MAX_CPU) with 2%nat.
  cbn [idlest_loop]. change (0 + 1) with 1.
  assert (aget (k_cpus s) 0 = Some c0 ∧ aget (k_cpus s) 1 = Some c1) as [Hc0 Hc1] by (rewrite Hs; done).
  rewrite !(run_bind _ _ _ _ _ (run_at_cpu c_num 0 s c0 Hc0)).
  change (u32 (-1)) with (2 ^ 32 - 1). rewrite (proj2 (Z.ltb_lt _ _)) by lia.
  rewrite !Hb by done. generalize (Z.testbit mask 0) (Z.testbit mask 1). intros b0 b1. split.
  - destruct b0; cbn [andb negb orb]; rewrite (run_bind _ _ _ _ _ (run_at_cpu c_num 1 s c1 Hc1));
      rewrite ?(proj2 (Z.ltb_lt (c_num c1) (2 ^ 32 - 1))) by lia;
      destruct b1; rewrite ?andb_true_r, ?andb_false_r; try done; by destruct (_ <? _).
  - reflexivity.
Qed.

(** [acoral_ipi_cmd_send] to core [cpu] fills the slot of that core (of the
    last core if there is no such core), leaves it locked, and raises one
    software interrupt on the same core; when a command is still pending there
    it waits for its handler. *)
Theorem ipi_cmd_send_correct s cpu cmd id data m :
  0 ≤ cpu → aget (k_ipi s) (ipi_target cpu) = Some m →
  (m_lock m = 0 → acoral_ipi_cmd_send cpu cmd id data s =
      Ret (tt, posted (ipi_target cpu) (mk_ipi_cmd 1 cmd id data) s) ∧
    ∀ cmd' id' data', acoral_ipi_cmd_send cpu cmd' id' data'
      (posted (ipi_target cpu) (mk_ipi_cmd 1 cmd id data) s) = Err Deadlock) ∧
  (m_lock m ≠ 0 → acoral_ipi_cmd_send cpu cmd id data s = Err Deadlock).
Proof.
  assert (∀ t x cmd id data, aget (k_ipi t) (ipi_target cpu) = Some x → m_lock x ≠ 0 →
    acoral_ipi_cmd_send cpu cmd id data t = Err Deadlock) as Hdead.
  { intros t x cmd' id' data' Hx Hl. unfold acoral_ipi_cmd_send. fold (ipi_target cpu).
    erewrite run_bind by (apply run_deref; by rewrite Hx). by rewrite (proj2 (Z.eqb_neq _ 0)). }
  intros Hc Hm. split; [|by apply Hdead with (1 := Hm)]. intros Hl.
  split; [by apply ipi_cmd_send_run with m|]. intros cmd' id' data'.
  eapply Hdead; [by eapply aget_aset_eq|done].
Qed.
End cpu_spec.

Lemma idlest_cpu_correct_witness :
  let c n := mk_percpu 0 0 0 0 0 0 n [0; 0] 0 0 in
  let s := mk_kstate 0 [c 3; c 1] (mk_q ∅ ∅) ∅ ∅ ∅ [] 0 ∅ [] [] 1 0 0 [0] ∅ no_ext in
  acoral_get_idle_maskcpu 3 s = Ret (1, s) ∧ acoral_get_idlest_cpu 7 s = acoral_get_idle_maskcpu 3 s.
Proof.
  intros c s. destruct (idlest_cpu_correct s (c 3) (c 1) 3 7) as [H1 H2]; [done|simpl; lia|simpl; lia|done|].
  split; [exact H1|exact H2].
Defined.

Lemma ipi_cmd_send_correct_witness :
  let m := mk_ipi_cmd 0 0 0 0 in
  let s := mk_kstate 0 [] (mk_q ∅ ∅) ∅ ∅ ∅ [] 0 ∅ [m; m] [] 1 0 0 [0] ∅ no_ext in
  ∃ s', acoral_ipi_cmd_send 1 ACORAL_IPI_THREAD_READY 1024 0 s = Ret (tt, s') ∧ k_sgi s' = [1] ∧
    acoral_ipi_cmd_send 1 ACORAL_IPI_THREAD_KILL 1024 0 s' = Err Deadlock.
Proof.
  intros m s. destruct (proj1 (ipi_cmd_send_correct s 1 ACORAL_IPI_THREAD_READY 1024 0 m ltac:(done) eq_refl) eq_refl)
    as [H1 H2]. eexists. split; [exact H1|]. split; [done|]. apply H2.
Defined.
