(* ===== verification/Thread.v ===== *)
(** * kernel/src/thread.c: the operations on threads

    With the wait queues of ipc.c and the delay queue of timer.c they use, and
    the first context of a thread (hal_thread.c).  The release of a thread's
    policy data ([acoral_policy_thread_release], policy.c) is an argument. *)
From S2P Require Import Prelude Interfaces Bitops DList Queues KTypes KState Sched Cpu ResPool.
From stdpp Require Import list.
#[local] Open Scope Z_scope.

(** ** ipc.c: the wait queue of an IPC object *)
Definition ipcf {A} (f : ipc → A) (i : Z) : K A := deref (λ s, f <$> k_ipc s !! i).

Definition on_ipc (i : Z) (f : ipc → ipc) : K unit := λ s,
  match k_ipc s !! i with
  | Some x => Ret (tt, set_k_ipc (<[i := f x]> (k_ipc s)) s)
  | None => Err Wild
  end.

(** [acoral_spin_lock(&ipc->lock)] and its release. *)
Definition ipc_spin_lock (i : Z) : K unit :=
  l ← ipcf i_lock i; if (l : Z) =? 0 then on_ipc i (set_i_lock 1) else fail Deadlock.
Definition ipc_spin_unlock (i : Z) : K unit := on_ipc i (set_i_lock 0).

Definition acoral_ipc_init (ipc : Z) : K unit :=
  on_ipc ipc (set_i_lock 0);;
  on_q (acoral_prio_queue_init (LQueue (QWait ipc))).

Definition acoral_ipc_wait_queue_empty (ipc : Z) : K bool := klist_empty (LQueue (QWait ipc)).

Definition acoral_ipc_high_thread (ipc : Z) : K Z :=
  empty ← klist_empty (LQueue (QWait ipc));
  if (empty : bool) then mret 0 else
  first ← kget_next (LQueue (QWait ipc));
  thread_of pending first.

Definition acoral_ipc_wait_queue_add (ipc thread : Z) : K unit :=
  on_thr thread (set_t_ipc ipc);;
  on_q (acoral_prio_queue_add (LQueue (QWait ipc)) (LThread thread pending)).

Definition acoral_ipc_wait_queue_del (ipc thread : Z) : K unit :=
  on_q (acoral_prio_queue_del (LQueue (QWait ipc)) (LThread thread pending));;
  on_thr thread (set_t_ipc 0).

(** ** hal_thread.c: the context of a new thread *)
Definition ctx_words (route exit args : Z) : list Z :=
  [args; 1; 2; 3; 4; 5; 6; 7; 8; 9; 10; 11; 12; exit; route; 0x1f].

(** [stk] is the value of [*stk]; the result is its new value. *)
Definition hal_stack_init (stk route exit args : Z) : K Z :=
  let ctx := stk - 64 + 4 in
  modify (λ s, set_k_ctx (<[ctx := ctx_words route exit args]> (k_ctx s)) s);;
  mret ctx.

(** ** thread.c *)
(** [sizeof(acoral_thread_t)] in the SMP build for the 32-bit target. *)
Definition sizeof_thread : Z := 156.

(** [TIME_TO_TICKS(time)]: the product is an [acoral_u32]. *)
Definition TIME_TO_TICKS (time : Z) : Z := u32 (time * CFG_TICKS_PER_SEC) / 1000.

Definition ret_err (e : kernel_error_t) : Z := u32 (err_code e).

Section thread.
Context `{!Allocator kstate, !Layout}.

Definition acoral_rdy_thread (thread : Z) : K Z :=
  st ← thr t_state thread;
  if negb (has st ACORAL_THREAD_STATE_SUSPEND) then mret (ret_err KR_THREAD_ERR_STATE) else
  cpu ← thr t_cpu thread;
  cur ← acoral_current_cpu;
  if negb (cpu =? cur) then
    id ← res_id thread;
    acoral_ipi_cmd_send cpu ACORAL_IPI_THREAD_READY id 0;;
    mret (ret_err KR_OK)
  else
    acoral_enter_critical;;
    acoral_sched_rdyqueue_add thread;;
    acoral_exit_critical;;
    mret (ret_err KR_OK).

Definition acoral_suspend_thread (thread : Z) : K Z :=
  st ← thr t_state thread;
  if negb (has st ACORAL_THREAD_STATE_READY) then mret (ret_err KR_THREAD_ERR_STATE) else
  cpu ← thr t_cpu thread;
  cur ← acoral_current_cpu;
  if negb (cpu =? cur) then
    id ← res_id thread;
    acoral_ipi_cmd_send cpu ACORAL_IPI_THREAD_SUSPEND id 0;;
    mret (ret_err KR_OK)
  else
    acoral_enter_critical;;
    acoral_sched_rdyqueue_del thread;;
    acoral_exit_critical;;
    mret (ret_err KR_OK).

Definition acoral_suspend_self : K Z := cur ← acoral_cur_thread; acoral_suspend_thread cur.

Definition acoral_thread_change_prio (thread prio : Z) : K unit :=
  cpu ← thr t_cpu thread;
  cur ← acoral_current_cpu;
  if negb (cpu =? cur) then
    id ← res_id thread;
    acoral_ipi_cmd_send cpu ACORAL_IPI_THREAD_CHG_PRIO id prio
  else
    acoral_enter_critical;;
    st ← thr t_state thread;
    (if has st ACORAL_THREAD_STATE_READY then
       acoral_sched_rdyqueue_del thread;;
       on_thr thread (set_t_prio (u8 prio));;
       acoral_sched_rdyqueue_add thread
     else on_thr thread (set_t_prio (u8 prio)));;
    acoral_exit_critical.

Definition acoral_thread_change_prio_self (prio : Z) : K unit :=
  cur ← acoral_cur_thread; acoral_thread_change_prio cur prio.

(** The delay queue of timer.c. *)
Definition acoral_time_delay_queue_add (thread : Z) : K unit :=
  acoral_enter_critical;;
  on_q (acoral_tick_queue_add (LQueue QDelay) (LThread thread delaying));;
  acoral_suspend_thread thread;;
  acoral_exit_critical.

Definition acoral_delay_thread (thread time : Z) : K Z :=
  empty ← klist_empty (LThread thread delaying);
  if negb (empty : bool) then mret (ret_err KR_THREAD_ERR_UNDEF) else
  cpu ← thr t_cpu thread;
  cur ← acoral_current_cpu;
  if negb (cpu =? cur) then mret (ret_err KR_THREAD_ERR_CPU) else
  let real_ticks := TIME_TO_TICKS time in
  on_thr thread (set_t_delay real_ticks);;
  on_q (on_nodes (acoral_vlist_init (LThread thread delaying) (s32 real_ticks)));;
  acoral_time_delay_queue_add thread;;
  mret (ret_err KR_OK).

Definition acoral_delay_ms (time : Z) : K Z := cur ← acoral_cur_thread; acoral_delay_thread cur time.

(** [thread->move_lock]. *)
Definition move_spin_lock (thread : Z) : K unit :=
  l ← thr t_move_lock thread; if (l : Z) =? 0 then on_thr thread (set_t_move_lock 1) else fail Deadlock.
Definition move_spin_unlock (thread : Z) : K unit := on_thr thread (set_t_move_lock 0).

Definition acoral_moveto_thread (thread cpu : Z) : K Z :=
  if CFG_MAX_CPU <=? cpu then mret (ret_err KR_THREAD_ERR_CPU) else
  tcpu ← thr t_cpu thread;
  if tcpu =? cpu then mret (ret_err KR_OK) else
  cur ← acoral_cur_thread;
  acoral_enter_critical;;
  move_spin_lock thread;;
  tcpu ← thr t_cpu thread;
  this ← acoral_current_cpu;
  if negb (tcpu =? this) then
    id ← res_id thread;
    acoral_ipi_cmd_send tcpu ACORAL_IPI_THREAD_MOVETO id cpu;;
    move_spin_unlock thread;;
    acoral_exit_critical;;
    mret (ret_err KR_THREAD_ERR_CPU)
  else
    acoral_suspend_thread thread;;
    on_thr thread (λ th, set_t_state (add_flag (t_state th) ACORAL_THREAD_STATE_MOVE) th);;
    id ← res_id thread;
    acoral_ipi_cmd_send cpu ACORAL_IPI_THREAD_MOVEIN id 0;;
    if negb (thread =? cur) then
      move_spin_unlock thread;;
      acoral_exit_critical;;
      mret (ret_err KR_OK)
    else
      acoral_exit_critical;;
      mret (ret_err KR_OK).

Definition acoral_jump_cpu (cpu : Z) : K Z := cur ← acoral_cur_thread; acoral_moveto_thread cur cpu.

Definition acoral_movein_thread (thread : Z) : K Z :=
  move_spin_lock thread;;
  cpu ← acoral_current_cpu;
  on_thr thread (set_t_cpu cpu);;
  err ← acoral_rdy_thread thread;
  move_spin_unlock thread;;
  mret err.

Definition acoral_prerelease_thread (thread : Z) : K Z :=
  on_thr thread (set_t_state ACORAL_THREAD_STATE_EXIT);;
  on_q (acoral_fifo_queue_add (LQueue QRelease) (LThread thread pending));;
  id ← get k_daemon_id;
  daem ← acoral_get_res_by_id acoral_pools id;
  acoral_rdy_thread daem.

Definition acoral_kill_thread (thread : Z) : K unit :=
  cpu ← thr t_cpu thread;
  cur ← acoral_current_cpu;
  if negb (cpu =? cur) then
    id ← res_id thread;
    acoral_ipi_cmd_send cpu ACORAL_IPI_THREAD_KILL id 0
  else
    acoral_enter_critical;;
    st ← thr t_state thread;
    when (has st ACORAL_THREAD_STATE_SUSPEND)
      (ipc ← thr t_ipc thread;
       timing_empty ← klist_empty (LThread thread timing);
       when (negb (timing_empty : bool)) (on_q (on_nodes (acoral_list_del (LThread thread timing))));;
       delaying_empty ← klist_empty (LThread thread delaying);
       when (negb (delaying_empty : bool)) (on_q (on_nodes (acoral_list_del (LThread thread delaying))));;
       when (negb (ipc =? 0))
         (ipc_spin_lock ipc;;
          acoral_ipc_wait_queue_del ipc thread;;
          ipc_spin_unlock ipc));;
    acoral_suspend_thread thread;;
    acoral_prerelease_thread thread;;
    acoral_exit_critical.

Definition acoral_thread_exit : K unit := cur ← acoral_cur_thread; acoral_kill_thread cur.

(** The operations by identifier. *)
Definition acoral_kill_thread_by_id (id : Z) : K unit :=
  t ← acoral_get_res_by_id acoral_pools id; acoral_kill_thread t.
Definition acoral_rdy_thread_by_id (id : Z) : K Z :=
  t ← acoral_get_res_by_id acoral_pools id; acoral_rdy_thread t.
Definition acoral_suspend_thread_by_id (id : Z) : K Z :=
  t ← acoral_get_res_by_id acoral_pools id; acoral_suspend_thread t.
Definition acoral_thread_change_prio_by_id (id prio : Z) : K unit :=
  t ← acoral_get_res_by_id acoral_pools id; acoral_thread_change_prio t prio.
Definition acoral_moveto_thread_by_id (id cpu : Z) : K Z :=
  t ← acoral_get_res_by_id acoral_pools id; acoral_moveto_thread t cpu.
Definition acoral_movein_thread_by_id (id : Z) : K Z :=
  t ← acoral_get_res_by_id acoral_pools id; acoral_movein_thread t.

Definition acoral_release_thread (acoral_policy_thread_release : Z → K unit) (thread : Z) : K unit :=
  on_q (acoral_lifo_queue_del (LQueue QThreads) (LThread thread global_list));;
  acoral_policy_thread_release thread;;
  stack ← thr t_stack_buttom thread;
  al_free stack;;
  on_thr thread (set_t_stack_buttom 0);;
  acoral_release_res acoral_pools thread.

Definition acoral_set_thread_console (id : Z) : K unit :=
  cur ← acoral_cur_thread; on_thr cur (set_t_console_id id).

(** A fresh resource is memory of the block allocator: a control block that was
    never used holds what [raw] says, a recycled one what was left in it. *)
Definition acoral_alloc_thread (raw : Z → thread) : K Z :=
  t ← acoral_get_res acoral_pools acoral_thread_pool_ctrl;
  (if t =? 0 then mret tt
   else modify (λ s, match k_tcb s !! t with
                     | Some _ => s
                     | None => set_k_tcb (<[t := raw t]> (k_tcb s)) s
                     end));;
  mret t.

(** The stack of [acoral_thread_init]: the caller's, or a new one. *)
Definition thread_stack (thread : Z) : K (option Z) :=
  size ← thr t_stack_size thread;
  bottom ← thr t_stack_buttom thread;
  if negb (bottom =? 0) then mret (Some size) else
  let size := if size <? CFG_MIN_STACK_SIZE then CFG_MIN_STACK_SIZE else size in
  stack ← al_malloc size;
  on_thr thread (set_t_stack_buttom stack);;
  if stack =? 0 then mret None else
  on_thr thread (set_t_stack_size size);;
  mret (Some size).

Definition acoral_thread_init (thread route exit args : Z) : K Z :=
  st ← thread_stack thread;
  match st with
  | None => mret (ret_err KR_THREAD_ERR_NO_STACK)
  | Some size =>
    bottom ← thr t_stack_buttom thread;
    stk ← hal_stack_init (u32 (bottom + size - 4)) route exit args;
    on_thr thread (set_t_stack stk);;
    on_thr thread (set_t_delay 0);;
    on_thr thread (set_t_time 0);;
    on_thr thread (set_t_ipc 0);;
    on_thr thread (set_t_preempt_type ACORAL_PREEMPT_LOCAL);;
    mask ← thr t_cpu_mask thread;
    when (mask =? u32 (-1)) (on_thr thread (set_t_cpu_mask 0xefffffff));;
    cpu ← thr t_cpu thread;
    when (cpu <? 0)
      (mask ← thr t_cpu_mask thread;
       idle ← acoral_get_idle_maskcpu mask;
       on_thr thread (set_t_cpu idle));;
    cpu ← thr t_cpu thread;
    when (CFG_MAX_CPU <=? cpu) (on_thr thread (set_t_cpu (CFG_MAX_CPU - 1)));;
    on_thr thread (set_t_data 0);;
    on_thr thread (set_t_state ACORAL_THREAD_STATE_SUSPEND);;
    cur ← acoral_cur_thread;
    console ← thr t_console_id cur;
    on_thr thread (set_t_console_id console);;
    prio ← thr t_prio thread;
    on_q (on_nodes (acoral_vlist_init (LThread thread timing) 0));;
    on_q (on_nodes (acoral_vlist_init (LThread thread delaying) 0));;
    on_q (on_nodes (acoral_vlist_init (LThread thread pending) prio));;
    on_q (on_nodes (acoral_list_init (LThread thread ready)));;
    on_q (on_nodes (acoral_list_init (LThread thread global_list)));;
    on_thr thread (set_t_move_lock 0);;
    acoral_enter_critical;;
    on_q (acoral_fifo_queue_add (LQueue QThreads) (LThread thread global_list));;
    acoral_exit_critical;;
    mret (ret_err KR_OK)
  end.

Definition acoral_thread_pool_init : K unit :=
  on_pc acoral_thread_pool_ctrl (set_pc_type ACORAL_RES_THREAD);;
  on_pc acoral_thread_pool_ctrl (set_pc_size sizeof_thread);;
  let n := if 20 <? CFG_MAX_THREAD then 20 else CFG_MAX_THREAD in
  on_pc acoral_thread_pool_ctrl (set_pc_num_per_pool n);;
  on_pc acoral_thread_pool_ctrl (set_pc_max_pools (CFG_MAX_THREAD / n));;
  acoral_pool_ctrl_init acoral_pools acoral_thread_pool_ctrl.

Definition acoral_sched_mechanism_init : K unit :=
  acoral_thread_pool_init;;
  acoral_sched_rdyqueue_init;;
  on_q (acoral_fifo_queue_init (LQueue QThreads)).

Definition acoral_thread_sys_init (acoral_sched_policy_init : K unit) : K unit :=
  acoral_sched_mechanism_init;;
  acoral_sched_policy_init.
End thread.
