(* ===== verification/ThreadSpec.v ===== *)
(** * Correctness of the operations on threads

    Each operation on a thread of the executing core, from any state of the
    scheduler's invariants, inside or outside of a critical section; then the
    delay queue. *)
From S2P Require Import Prelude Interfaces Bitops DList Queues KTypes KState Sched SchedSpec Sample Cpu ResPool Thread.
From stdpp Require Import list.
#[local] Open Scope Z_scope.

(** ** What scheduling sees of all threads *)
Definition tcb_view (s : kstate) : gmap Z (bool * bool * thread) := thread_view <$> k_tcb s.

Lemma frame_tcb_view s s' : sched_frame s s' → tcb_view s' = tcb_view s.
Proof.
  intros [HV _ _]. apply map_eq. intros t. unfold tcb_view. rewrite !lookup_fmap. apply (vs_tcb _ _ HV).
Qed.

Lemma tcb_view_insert s t th : thread_view <$> <[t := th]> (k_tcb s) = <[t := thread_view th]> (tcb_view s).
Proof. unfold tcb_view. by rewrite fmap_insert. Qed.

Lemma tcb_view_lookup s t v : tcb_view s !! t = Some v → ∃ th, k_tcb s !! t = Some th ∧ thread_view th = v.
Proof. unfold tcb_view. rewrite lookup_fmap, fmap_Some. intros (th & ? & ->). eauto. Qed.

Lemma lookup_tcb_view s t th : k_tcb s !! t = Some th → tcb_view s !! t = Some (thread_view th).
Proof. intros Ht. unfold tcb_view. by rewrite lookup_fmap, Ht. Qed.

(** A thread made ready, and one taken out of its ready queue. *)
Definition readied (th : thread) : thread := set_t_state (ready_state (t_state th)) th.
Definition suspended (th : thread) : thread := set_t_state (suspend_state (t_state th)) th.

(** What the operations below keep of the rest of the kernel. *)
Record kept (s s' : kstate) : Prop := {
  kp_other : same_other s s';
  kp_vals : ∀ p, valof (q_nodes (k_q s')) p = valof (q_nodes (k_q s)) p;
  kp_lock : q_lock (k_q s') = q_lock (k_q s);
}.

#[export] Instance kept_preorder : PreOrder kept.
Proof.
  split.
  - intros s. split; [unfold same_other; tauto|done|done].
  - intros s1 s2 s3 [O1 V1 L1] [O2 V2 L2]. split; [|intros p; by rewrite V2|congruence].
    unfold same_other in *. destruct_and!. split_and!; congruence.
Qed.

Lemma frame_kept s s' : sched_frame s s' → kept s s'.
Proof. intros [HV _ HO]. split; [done|by rewrite (vs_q _ _ HV)|by rewrite (vs_q _ _ HV)]. Qed.

(** Core [s] still runs an existing thread after its cores and threads changed
    only as [cpus_raised] says. *)
Lemma core_inv_raised s s' L L' t th' :
  core_inv s L → cpus_raised s s' → same_other s s' → k_tcb s' = <[t := th']> (k_tcb s) →
  (∃ p, 0 ≤ p < ACORAL_MAX_PRIO_NUM ∧ rq L' (k_cpu s) p ≠ []) → core_inv s' L'.
Proof.
  intros [_ (c & th & Hc & Hth & Hn)] Hr Ho Ht Hp. assert (k_cpu s' = k_cpu s) as E by apply Ho.
  split; rewrite E; [done|]. destruct (Hr _ _ Hc) as (c' & Hc' & Hs & _).
  destruct Hs as (_ & Hcr & _ & Hrun & _).
  assert (is_Some (k_tcb s' !! c_running c)) as [th1 Hth1].
  { rewrite Ht, lookup_insert. case_decide; eauto. }
  exists c', th1. rewrite Hrun, Hcr. done.
Qed.

Lemma rq_insert_ready L c p t c' p' : rq (rq_insert c p (LThread t ready) L) c' p' = [] → rq L c' p' = [].
Proof. rewrite rq_insert_rq. case_decide as E; [|done]. destruct E as [-> ->]. by destruct (rq L c p). Qed.

Section thread_spec.
Context `{!Allocator kstate, !Layout}.

(** *** Making a thread ready *)
Lemma rdy_thread_spec s L t th id :
  sched_inv s L → core_inv s L → k_tcb s !! t = Some th → is_suspended th = true → is_ready th = false →
  t_cpu th = k_cpu s → 0 ≤ t_prio th < ACORAL_MAX_PRIO_NUM →
  L !! LThread t ready = Some [] → k_res s !! t = Some id →
  let L' := rq_insert (t_cpu th) (t_prio th) (LThread t ready) L in
  ∃ s', acoral_rdy_thread t s = Ret (ret_err KR_OK, s') ∧ sched_inv s' L' ∧ core_inv s' L' ∧
    tcb_view s' = <[t := thread_view (readied th)]> (tcb_view s) ∧
    k_res s' = <[t := id_on (t_cpu th) id]> (k_res s) ∧ kept s s'.
Proof.
  intros HI HC Ht Hs Hnr Hcpu Hp Hn Hid L'.
  destruct (enter_critical_spec s L HI HC) as (s1 & Hen & HF1 & HI1 & HC1 & Htcb1).
  destruct (rdyqueue_add_spec s1 L t th id) as (s2 & Hadd & HI2 & Htcb2 & Hres2 & Hr2 & Ho2 & Hv2 & Hl2);
    [done|by rewrite Htcb1|done|rewrite Hcpu; apply HI|done|done|by rewrite (sf_res _ _ HF1)|].
  assert (core_inv s2 L') as HC2.
  { eapply core_inv_raised; [exact HC1|done..|]. destruct (ci_ready _ _ HC1) as (p & Hp' & Hne).
    exists p. split; [done|]. intros E. apply Hne. by eapply rq_insert_ready. }
  destruct (exit_critical_spec s2 L' HI2 HC2) as (s3 & Hex & HF3 & HI3 & HC3).
  exists s3. split_and!; try done.
  - unfold acoral_rdy_thread. kstep. fold (is_suspended th). rewrite Hs. cbn [negb].
    kstep. kstep. rewrite Hcpu, Z.eqb_refl. cbn [negb].
    do 3 erewrite run_bind by done. done.
  - rewrite (frame_tcb_view _ _ HF3). unfold tcb_view at 1. rewrite Htcb2, Htcb1. apply tcb_view_insert.
  - by rewrite (sf_res _ _ HF3), Hres2, (sf_res _ _ HF1).
  - etrans; [by apply frame_kept|]. etrans; [|by apply frame_kept]. by split.
Qed.

(** *** Suspending a thread *)

(** Some other thread is ready on the executing core. *)
Definition other_ready (s : kstate) (L : gmap loc (list loc)) (t : Z) : Prop :=
  ∃ p x, 0 ≤ p < ACORAL_MAX_PRIO_NUM ∧ x ∈ rq L (k_cpu s) p ∧ x ≠ LThread t ready.

Lemma rq_remove_ready L cpu prio t a b c p x :
  rq L cpu prio = a ++ LThread t ready :: b → x ∈ rq L c p → x ≠ LThread t ready →
  x ∈ rq (rq_remove cpu prio (LThread t ready) a b L) c p.
Proof.
  intros Hab Hx Hne. rewrite rq_remove_rq. case_decide as E; [|done]. destruct E as [-> ->].
  rewrite Hab in Hx. set_solver.
Qed.

Lemma suspend_thread_spec s L t th :
  sched_inv s L → core_inv s L → k_tcb s !! t = Some th → is_ready th = true → t_cpu th = k_cpu s →
  other_ready s L t →
  ∃ s' a b, let L' := rq_remove (t_cpu th) (t_prio th) (LThread t ready) a b L in
    acoral_suspend_thread t s = Ret (ret_err KR_OK, s') ∧
    rq L (t_cpu th) (t_prio th) = a ++ LThread t ready :: b ∧ sched_inv s' L' ∧ core_inv s' L' ∧
    tcb_view s' = <[t := thread_view (suspended th)]> (tcb_view s) ∧
    k_res s' = k_res s ∧ kept s s'.
Proof.
  intros HI HC Ht Hr Hcpu (p & x & Hp & Hx & Hne).
  destruct (enter_critical_spec s L HI HC) as (s1 & Hen & HF1 & HI1 & HC1 & Htcb1).
  destruct (rdyqueue_del_spec s1 L t th) as (s2 & a & b & Hdel & Hab & HI2 & Htcb2 & Hres2 & Hr2 & Ho2 & Hv2 & Hl2);
    [done|by rewrite Htcb1|done|].
  set (L' := rq_remove (t_cpu th) (t_prio th) (LThread t ready) a b L) in *.
  assert (k_cpu s1 = k_cpu s) as Hc1 by apply HF1.
  assert (core_inv s2 L') as HC2.
  { eapply core_inv_raised; [exact HC1|done..|]. exists p. split; [done|]. rewrite Hc1. intros E.
    assert (x ∈ rq L' (k_cpu s) p) as Hin by (by apply rq_remove_ready). rewrite E in Hin.
    by apply not_elem_of_nil in Hin. }
  destruct (exit_critical_spec s2 L' HI2 HC2) as (s3 & Hex & HF3 & HI3 & HC3).
  exists s3, a, b. split_and!; try done.
  - unfold acoral_suspend_thread. kstep. fold (is_ready th). rewrite Hr. cbn [negb].
    kstep. kstep. rewrite Hcpu, Z.eqb_refl. cbn [negb].
    do 3 erewrite run_bind by done. done.
  - rewrite (frame_tcb_view _ _ HF3). unfold tcb_view at 1. rewrite Htcb2, Htcb1. apply tcb_view_insert.
  - by rewrite (sf_res _ _ HF3), Hres2, (sf_res _ _ HF1).
  - etrans; [by apply frame_kept|]. etrans; [|by apply frame_kept]. by split.
Qed.

(** *** Changing a priority *)

(** A thread that is not ready may change while the ready queues stand. *)
Lemma sched_inv_unready s L t th th' :
  sched_inv s L → k_tcb s !! t = Some th → is_ready th = false → is_ready th' = false →
  sched_inv (set_k_tcb (<[t := th']> (k_tcb s)) s) L.
Proof.
  intros [Hq Hlen Hcpu Hqueue Hcpus Hmem Hrdy] Ht Hr Hr'. split; simpl; try done.
  - intros c p x Hc Hp Hx. destruct (Hmem c p x Hc Hp Hx) as (t0 & th0 & -> & H0 & Hr0 & Hv).
    exists t0, th0. rewrite lookup_insert_ne by congruence. done.
  - intros t0 th0. rewrite lookup_insert_Some. intros [[<- <-]|[_ H0]]; [congruence|by apply Hrdy].
Qed.

Lemma core_inv_tcb s L t th' :
  core_inv s L → core_inv (set_k_tcb (<[t := th']> (k_tcb s)) s) L.
Proof.
  intros [Hp (c & th & Hc & Hth & Hn)]. split; [done|]. simpl.
  destruct (decide (t = c_running c)) as [->|]; eexists c, _; simpl;
    [rewrite lookup_insert_eq|rewrite lookup_insert_ne by done]; done.
Qed.

Lemma suspended_not_ready th : is_ready (suspended th) = false.
Proof. unfold is_ready, suspended, suspend_state. simpl. flags. Qed.

Definition reprioritised (prio : Z) (th : thread) : thread :=
  set_t_state (ready_state (suspend_state (t_state th))) (set_t_prio prio th).

Lemma change_prio_ready_spec s L t th id prio :
  sched_inv s L → core_inv s L → k_tcb s !! t = Some th → is_ready th = true → t_cpu th = k_cpu s →
  k_res s !! t = Some id → 0 ≤ prio < ACORAL_MAX_PRIO_NUM →
  ∃ s2 s' a b, let L' := rq_insert (k_cpu s) prio (LThread t ready)
      (rq_remove (k_cpu s) (t_prio th) (LThread t ready) a b L) in
    acoral_thread_change_prio t prio s = Ret (tt, s') ∧ acoral_exit_critical s2 = Ret (tt, s') ∧
    rq L (k_cpu s) (t_prio th) = a ++ LThread t ready :: b ∧ sched_inv s' L' ∧ core_inv s' L' ∧
    k_tcb s2 = <[t := reprioritised prio th]> (k_tcb s) ∧ tcb_view s' = tcb_view s2 ∧
    k_res s' = <[t := id_on (k_cpu s) id]> (k_res s) ∧ kept s s' ∧
    (∀ c, aget (k_cpus s) (k_cpu s) = Some c → ∃ c', aget (k_cpus s2) (k_cpu s2) = Some c' ∧
       c_critical_nesting c' = u32 (c_critical_nesting c + 1)).
Proof.
  intros HI HC Ht Hready Hcpu Hid Hp.
  assert (∃ c0, aget (k_cpus s) (k_cpu s) = Some c0) as [c0 Hc0].
  { destruct (ci_running _ _ HC) as (c0 & _ & Hc0 & _). eauto. }
  pose proof (enter_critical_run s c0 Hc0) as Hen.
  set (s1 := set_k_cpus (aset (k_cpu s) (entered c0) (k_cpus s)) s) in *.
  destruct (enter_critical_spec s L HI HC) as (s1' & Hen' & HF1 & HI1 & HC1 & _).
  assert (s1' = s1) as -> by congruence. clear Hen'.
  destruct (rdyqueue_del_spec s1 L t th) as (s2 & a & b & Hdel & Hab & HI2 & Htcb2 & Hres2 & Hr2 & Ho2 & Hv2 & Hl2);
    [done|done|done|].
  rewrite Hcpu in *. set (L1 := rq_remove (k_cpu s) (t_prio th) (LThread t ready) a b L) in *.
  assert (k_cpu s2 = k_cpu s) as Hc2 by apply Ho2.
  set (th1 := set_t_prio prio (suspended th)).
  set (s3 := set_k_tcb (<[t := th1]> (k_tcb s2)) s2).
  assert (sched_inv s3 L1) as HI3.
  { eapply sched_inv_unready; [done|rewrite Htcb2; apply lookup_insert_eq|..]; apply suspended_not_ready. }
  destruct (rdyqueue_add_spec s3 L1 t th1 id) as (s4 & Hadd & HI4 & Htcb4 & Hres4 & Hr4 & Ho4 & Hv4 & Hl4).
  { done. } { simpl. apply lookup_insert_eq. } { apply suspended_not_ready. }
  { simpl. rewrite Hcpu. apply HI. } { done. } { unfold L1, rq_remove. apply lookup_insert_eq. }
  { simpl. by rewrite Hres2. }
  change (t_cpu th1) with (t_cpu th) in *. change (t_prio th1) with prio in *. rewrite Hcpu in *.
  set (L2 := rq_insert (k_cpu s) prio (LThread t ready) L1) in *.
  assert (k_tcb s4 = <[t := reprioritised prio th]> (k_tcb s)) as Htcb.
  { rewrite Htcb4. simpl. rewrite Htcb2, !insert_insert_eq. done. }
  assert (cpus_raised s1 s4) as Hr.
  { intros c x Hx. destruct (Hr2 c x Hx) as (x2 & Hx2 & Hs2 & Hn2).
    destruct (Hr4 c x2 Hx2) as (x4 & Hx4 & Hs4 & Hn4). exists x4. split; [done|]. simpl in Hn4. rewrite Hc2 in Hn4.
    unfold cpu_same in *. destruct_and!. split_and!; try congruence. rewrite Hn4, Hn2. by repeat case_decide. }
  assert (same_other s1 s4) as Ho.
  { unfold same_other in *. simpl in *. destruct_and!. split_and!; congruence. }
  assert (core_inv s4 L2) as HC4.
  { eapply core_inv_raised; [exact HC1|done|done|exact Htcb|]. exists prio. split; [done|].
    unfold L2. rewrite rq_insert_rq, decide_True by done. by destruct (rq L1 _ _). }
  destruct (exit_critical_spec s4 L2 HI4 HC4) as (s5 & Hex & HF5 & HI5 & HC5).
  exists s4, s5, a, b. split_and!; try done.
  - unfold acoral_thread_change_prio. kstep. kstep. rewrite Hcpu, Z.eqb_refl. cbn [negb].
    erewrite run_bind by done. kstep. change (has (t_state th) ACORAL_THREAD_STATE_READY) with (is_ready th).
    rewrite Hready. erewrite run_bind; [exact Hex|].
    erewrite run_bind by done. erewrite run_bind; [exact Hadd|].
    erewrite run_on_thr by (rewrite Htcb2; apply lookup_insert_eq).
    rewrite (wrapu_small 8) by (rewrite prio_num_eq in Hp; lia). done.
  - by apply frame_tcb_view.
  - rewrite (sf_res _ _ HF5), Hres4. simpl. by rewrite Hres2.
  - etrans; [by apply frame_kept|]. etrans; [|by apply frame_kept].
    split; [done|intros p; by rewrite Hv4, <- Hv2|by rewrite Hl4].
  - intros c Hc. destruct (Hr (k_cpu s) (entered c0)) as (c' & Hc' & Hs' & _); [by eapply aget_aset_eq|].
    assert (c = c0) as -> by congruence. exists c'. destruct Hs' as (_ & -> & _).
    assert (k_cpu s4 = k_cpu s) as -> by apply Ho. done.
Qed.

Lemma change_prio_unready_spec s L t th prio :
  sched_inv s L → core_inv s L → k_tcb s !! t = Some th → is_ready th = false → t_cpu th = k_cpu s →
  0 ≤ prio < 256 →
  ∃ s', acoral_thread_change_prio t prio s = Ret (tt, s') ∧ sched_inv s' L ∧ core_inv s' L ∧
    tcb_view s' = <[t := thread_view (set_t_prio prio th)]> (tcb_view s) ∧ k_res s' = k_res s ∧ kept s s'.
Proof.
  intros HI HC Ht Hr Hcpu Hp.
  destruct (enter_critical_spec s L HI HC) as (s1 & Hen & HF1 & HI1 & HC1 & Htcb1).
  set (s2 := set_k_tcb (<[t := set_t_prio prio th]> (k_tcb s1)) s1).
  destruct (exit_critical_spec s2 L) as (s3 & Hex & HF3 & HI3 & HC3).
  { eapply sched_inv_unready; [done|by rewrite Htcb1|done|done]. } { by apply core_inv_tcb. }
  exists s3. split_and!; try done.
  - unfold acoral_thread_change_prio. kstep. kstep. rewrite Hcpu, Z.eqb_refl. cbn [negb].
    erewrite run_bind by done. erewrite run_bind by (apply run_thr; by rewrite Htcb1).
    change (has (t_state th) ACORAL_THREAD_STATE_READY) with (is_ready th). rewrite Hr.
    erewrite run_bind; [exact Hex|]. rewrite (wrapu_small 8) by lia. apply run_on_thr. by rewrite Htcb1.
  - rewrite (frame_tcb_view _ _ HF3). unfold tcb_view at 1. simpl. rewrite Htcb1. apply tcb_view_insert.
  - by rewrite (sf_res _ _ HF3), <- (sf_res _ _ HF1).
  - etrans; [by apply frame_kept|]. etrans; [|by apply frame_kept]. split; [unfold same_other; simpl; tauto|done|done].
Qed.

(** *** Properties *)

(** [acoral_rdy_thread].  A thread that is not suspended is refused with
    [KR_THREAD_ERR_STATE] and nothing changes.  A suspended thread of another
    core is left to that core: the command [READY] with its identifier is
    posted there.  A suspended thread of this core becomes ready at the end of
    the queue of its priority, its identifier names this core, no other thread
    changes its readiness, core, priority or data, and the invariants hold
    (whether or not the operation ends in a context switch). *)
Theorem rdy_thread_correct s L t th id :
  sched_inv s L → core_inv s L → k_tcb s !! t = Some th → k_res s !! t = Some id →
  (is_suspended th = false → acoral_rdy_thread t s = Ret (ret_err KR_THREAD_ERR_STATE, s)) ∧
  (∀ m, is_suspended th = true → t_cpu th ≠ k_cpu s → 0 ≤ t_cpu th →
    aget (k_ipi s) (ipi_target (t_cpu th)) = Some m → m_lock m = 0 →
    acoral_rdy_thread t s = Ret (ret_err KR_OK,
      posted (ipi_target (t_cpu th)) (mk_ipi_cmd 1 ACORAL_IPI_THREAD_READY id 0) s)) ∧
  (is_suspended th = true → is_ready th = false → t_cpu th = k_cpu s →
    0 ≤ t_prio th < ACORAL_MAX_PRIO_NUM → L !! LThread t ready = Some [] →
    let L' := rq_insert (t_cpu th) (t_prio th) (LThread t ready) L in
    ∃ s', acoral_rdy_thread t s = Ret (ret_err KR_OK, s') ∧ sched_inv s' L' ∧ core_inv s' L' ∧
      tcb_view s' = <[t := thread_view (readied th)]> (tcb_view s) ∧
      k_res s' = <[t := id_on (t_cpu th) id]> (k_res s) ∧ kept s s').
Proof.
  intros HI HC Ht Hid. split_and!.
  - intros Hs. unfold acoral_rdy_thread. kstep. fold (is_suspended th). by rewrite Hs.
  - intros m Hs Hcpu Hpos Hm Hl. unfold acoral_rdy_thread. kstep. fold (is_suspended th). rewrite Hs. cbn [negb].
    kstep. kstep. rewrite (proj2 (Z.eqb_neq _ _)) by done. cbn [negb]. kstep.
    by erewrite run_bind by (by eapply ipi_cmd_send_run).
  - intros Hs Hr Hcpu Hp Hn. by apply rdy_thread_spec.
Qed.

(** [acoral_suspend_thread].  A thread that is not ready is refused with
    [KR_THREAD_ERR_STATE]; for a ready thread of another core the command
    [SUSPEND] is posted there.  A ready thread of this core leaves its ready
    queue, whose other members keep their order, and is suspended; the
    invariants hold as long as some other thread is ready on this core. *)
Theorem suspend_thread_correct s L t th id :
  sched_inv s L → core_inv s L → k_tcb s !! t = Some th → k_res s !! t = Some id →
  (is_ready th = false → acoral_suspend_thread t s = Ret (ret_err KR_THREAD_ERR_STATE, s)) ∧
  (∀ m, is_ready th = true → t_cpu th ≠ k_cpu s →
    aget (k_ipi s) (ipi_target (t_cpu th)) = Some m → m_lock m = 0 →
    acoral_suspend_thread t s = Ret (ret_err KR_OK,
      posted (ipi_target (t_cpu th)) (mk_ipi_cmd 1 ACORAL_IPI_THREAD_SUSPEND id 0) s)) ∧
  (is_ready th = true → t_cpu th = k_cpu s → other_ready s L t →
    ∃ s' a b, let L' := rq_remove (t_cpu th) (t_prio th) (LThread t ready) a b L in
      acoral_suspend_thread t s = Ret (ret_err KR_OK, s') ∧
      rq L (t_cpu th) (t_prio th) = a ++ LThread t ready :: b ∧ sched_inv s' L' ∧ core_inv s' L' ∧
      tcb_view s' = <[t := thread_view (suspended th)]> (tcb_view s) ∧ k_res s' = k_res s ∧ kept s s').
Proof.
  intros HI HC Ht Hid. split_and!.
  - intros Hr. unfold acoral_suspend_thread. kstep. fold (is_ready th). by rewrite Hr.
  - intros m Hr Hcpu Hm Hl. unfold acoral_suspend_thread. kstep. fold (is_ready th). rewrite Hr. cbn [negb].
    kstep. kstep. rewrite (proj2 (Z.eqb_neq _ _)) by done. cbn [negb]. kstep.
    erewrite run_bind by (eapply ipi_cmd_send_run; [|done|done]; by apply (si_ready _ _ HI t th)). done.
  - intros Hr Hcpu Ho. by apply suspend_thread_spec.
Qed.

(** C25 [acoral_thread_change_prio] on this core.  A thread that is not ready
    only gets the new priority.  A ready thread leaves its queue and joins the
    end of the queue of the new priority, still ready.  On the way it loses the
    flag [RUNNING], also when it is the running thread: inside a critical
    section it stays without the flag until the next switch. *)
Theorem change_prio_correct s L t th id prio :
  sched_inv s L → core_inv s L → k_tcb s !! t = Some th → t_cpu th = k_cpu s →
  k_res s !! t = Some id → 0 ≤ prio < ACORAL_MAX_PRIO_NUM →
  (is_ready th = false → ∃ s', acoral_thread_change_prio t prio s = Ret (tt, s') ∧
    sched_inv s' L ∧ core_inv s' L ∧
    tcb_view s' = <[t := thread_view (set_t_prio prio th)]> (tcb_view s) ∧ k_res s' = k_res s ∧ kept s s') ∧
  (is_ready th = true → ∃ s' a b, let L' := rq_insert (k_cpu s) prio (LThread t ready)
      (rq_remove (k_cpu s) (t_prio th) (LThread t ready) a b L) in
    acoral_thread_change_prio t prio s = Ret (tt, s') ∧
    rq L (k_cpu s) (t_prio th) = a ++ LThread t ready :: b ∧ sched_inv s' L' ∧ core_inv s' L' ∧
    tcb_view s' = <[t := thread_view (reprioritised prio th)]> (tcb_view s) ∧ is_ready (reprioritised prio th) = true ∧
    (∀ c, aget (k_cpus s) (k_cpu s) = Some c → 0 < c_critical_nesting c < 2 ^ 32 - 1 →
      k_tcb s' = <[t := reprioritised prio th]> (k_tcb s) ∧
      has (t_state (reprioritised prio th)) ACORAL_THREAD_STATE_RUNNING = false)).
Proof.
  intros HI HC Ht Hcpu Hid Hp. split.
  - intros Hr. apply change_prio_unready_spec; try done. rewrite prio_num_eq in Hp. lia.
  - intros Hr. destruct (change_prio_ready_spec s L t th id prio)
      as (s2 & s' & a & b & Hrun & Hex & Hab & HI' & HC' & Htcb & Hv & _ & _ & Hn); [done..|].
    exists s', a, b. split_and!; try done.
    + rewrite Hv. unfold tcb_view at 1. rewrite Htcb. apply tcb_view_insert.
    + unfold is_ready, reprioritised, ready_state. simpl. flags.
    + intros c Hc Hnest. destruct (Hn c Hc) as (c' & Hc' & Hn').
      rewrite wrapu_small in Hn' by lia. split.
      * erewrite exit_critical_nested in Hex by (done || lia). injection Hex as <-. done.
      * unfold reprioritised, ready_state, suspend_state. simpl. flags.
Qed.
End thread_spec.

(** *** Witnesses *)
Definition sample_layout : Layout := Build_Layout 65536 12288 12544.

Lemma sample_other_ready s : sampled s → other_ready s sample_L 4096.
Proof.
  intros Hs. exists 60, (LThread 8192 ready). rewrite (sm_cpu _ Hs), sample_rq, prio_num_eq.
  split; [lia|]. split; [by left|done].
Qed.

Lemma sample_lookup s : sampled s → k_tcb s !! 4096 = Some (running_thread 5) ∧ k_res s !! 4096 = Some 0x400.
Proof. intros Hs. rewrite (sm_tcb _ Hs), (sm_res _ Hs). done. Qed.

(** The sample kernel with thread 4096 suspended. *)
Lemma sample_suspended : ∃ s L th,
  sched_inv s L ∧ core_inv s L ∧ k_cpu s = 0 ∧ k_tcb s !! 4096 = Some th ∧
  thread_view th = thread_view (suspended (running_thread 5)) ∧
  k_res s !! 4096 = Some 0x400 ∧ L = rq_remove 0 5 (LThread 4096 ready) [] [] sample_L.
Proof.
  destruct sample_kernel as [s Hs]. destruct (sample_lookup s Hs) as [Ht Hid].
  pose proof (sm_cpu _ Hs) as Hcpu.
  destruct (suspend_thread_spec s sample_L 4096 (running_thread 5)) as
    (s' & a & b & _ & Hab & HI & HC & Hv & Hr & Hk); [apply Hs|apply Hs|done|done|done|by apply sample_other_ready|].
  assert (a = [] ∧ b = []) as [-> ->].
  { change (t_cpu (running_thread 5)) with 0 in Hab. change (t_prio (running_thread 5)) with 5 in Hab.
    rewrite sample_rq in Hab. rewrite decide_False in Hab by lia. rewrite decide_True in Hab by done.
    destruct a as [|? [|]]; simpl in Hab; by simplify_eq. }
  destruct (tcb_view_lookup s' 4096 (thread_view (suspended (running_thread 5)))) as (th & Hth & Hvt).
  { rewrite Hv. apply lookup_insert_eq. }
  eexists s', _, th. split_and!; [exact HI|exact HC| |done|done|by rewrite Hr|done].
  rewrite <- Hcpu. apply Hk.
Qed.

Lemma rdy_thread_correct_witness : ∃ s s' th,
  acoral_rdy_thread 4096 s = Ret (ret_err KR_OK, s') ∧ k_tcb s' !! 4096 = Some th ∧ is_ready th = true.
Proof.
  destruct sample_suspended as (s & L & th & HI & HC & Hcpu & Ht & Hv & Hid & HL).
  apply thread_view_eq in Hv as (Hr & Hs & Hc & Hp). exists s.
  destruct (rdy_thread_correct s L 4096 th 0x400 HI HC Ht Hid) as (_ & _ & H).
  destruct H as (s' & Hrun & _ & _ & Hv' & _); try by rewrite ?Hr, ?Hs, ?Hc, ?Hcpu.
  - rewrite Hp, prio_num_eq. simpl. lia.
  - rewrite HL. unfold rq_remove. apply lookup_insert_eq.
  - destruct (tcb_view_lookup s' 4096 (thread_view (readied th))) as (th' & Hth' & Hvt).
    { rewrite Hv'. apply lookup_insert_eq. }
    exists s', th'. split_and!; [done|done|]. apply thread_view_eq in Hvt as [-> _].
    unfold is_ready, readied, ready_state. simpl. flags.
Defined.

Lemma suspend_thread_correct_witness : ∃ s s' th,
  acoral_suspend_thread 4096 s = Ret (ret_err KR_OK, s') ∧ k_tcb s' !! 4096 = Some th ∧ is_suspended th = true.
Proof.
  destruct sample_kernel as [s Hs]. destruct (sample_lookup s Hs) as [Ht Hid]. exists s.
  destruct (suspend_thread_correct s sample_L 4096 (running_thread 5) 0x400) as (_ & _ & H); [apply Hs|apply Hs|done|done|].
  destruct H as (s' & a & b & Hrun & _ & _ & _ & Hv & _); [done|by rewrite (sm_cpu _ Hs)|by apply sample_other_ready|].
  destruct (tcb_view_lookup s' 4096 (thread_view (suspended (running_thread 5)))) as (th & Hth & Hvt).
  { rewrite Hv. apply lookup_insert_eq. }
  exists s', th. split_and!; [done|done|]. by apply thread_view_eq in Hvt as (_ & -> & _).
Defined.

Lemma change_prio_correct_witness : ∃ s s' th,
  acoral_thread_change_prio 4096 7 s = Ret (tt, s') ∧ k_tcb s' !! 4096 = Some th ∧ t_prio th = 7.
Proof.
  destruct sample_kernel as [s Hs]. destruct (sample_lookup s Hs) as [Ht Hid]. exists s.
  destruct (change_prio_correct s sample_L 4096 (running_thread 5) 0x400 7) as [_ H];
    [apply Hs|apply Hs|done|by rewrite (sm_cpu _ Hs)|done|by rewrite prio_num_eq|].
  destruct (H eq_refl) as (s' & a & b & Hrun & _ & _ & _ & Hv & _).
  destruct (tcb_view_lookup s' 4096 (thread_view (reprioritised 7 (running_thread 5)))) as (th & Hth & Hvt).
  { rewrite Hv. apply lookup_insert_eq. }
  exists s', th. split_and!; [done|done|]. by apply thread_view_eq in Hvt as (_ & _ & _ & ->).
Defined.
