(* ===== verification/Timer.v ===== *)
(** * kernel/src/timer.c: ticks and delayed threads

    The delay queue holds the [delaying] nodes of the delayed threads, each
    with its delay after the one in front of it.  Reading and clearing the
    timer's interrupt flag is hardware: whether the timer expired is an
    argument, and the time part of the policies ([acoral_policy_time_deal],
    policy.c) is one, too. *)
From S2P Require Import Prelude Interfaces Bitops DList Queues KTypes KState Sched SchedSpec Sample Cpu ResPool Thread ThreadSpec.
From stdpp Require Import list.
#[local] Open Scope Z_scope.

Definition acoral_time_sys_init : K unit := on_q (acoral_tick_queue_init (LQueue QDelay)).

Definition acoral_get_ticks : K Z := get k_ticks.
Definition acoral_set_ticks (time : Z) : K unit := modify (set_k_ticks time).

(** The loop of [time_delay_deal] from the node [tmp]. *)
Fixpoint delay_loop (fuel : nat) (head tmp : loc) : K unit :=
  if decide (tmp = head) then mret tt else
  thread ← thread_of delaying tmp;
  v ← kget_value tmp;
  if 0 <? v then mret tt else
  tmp1 ← kget_next tmp;
  on_q (acoral_tick_queue_del (LQueue QDelay) (LThread thread delaying));;
  acoral_rdy_thread thread;;
  match fuel with
  | O => fail Diverge
  | S fuel => delay_loop fuel head tmp1
  end.

Definition time_delay_deal : K unit :=
  let head := LQueue QDelay in
  empty ← klist_empty head;
  if (empty : bool) then mret tt else
  first ← kget_next head;
  v ← kget_value first;
  when (0 <? v) (kset_value first (s32 (v - 1)));;
  tmp ← kget_next head;
  fuel ← get (λ s, size (q_nodes (k_q s)));
  delay_loop fuel head tmp.

Definition acoral_ticks_handler (expired : bool) (acoral_policy_time_deal : K unit) : K unit :=
  when expired
    (modify (λ s, set_k_ticks (u32 (k_ticks s + 1)) s);;
     enable ← get k_sched_enable;
     when (enable =? 1) (time_delay_deal;; acoral_policy_time_deal)).

(** ** The delay queue *)
(** The tick queue [q] of [s] holds the nodes and delays [dq]. *)
Record tickq (q : loc) (s : kstate) (L : gmap loc (list loc)) (dq : list (loc * Z)) : Prop := {
  dl_list : L !! q = Some dq.*1;
  dl_vals : dvals (q_nodes (k_q s)) dq;
  dl_nat : dnat dq;
  dl_queue : is_queue (k_q s) q;
}.

Abbreviation delayq := (tickq (LQueue QDelay)).

Section timer.

Lemma kept_tickq q s s' L L' dq :
  kept s s' → L' !! q = L !! q → tickq q s L dq → tickq q s' L' dq.
Proof.
  intros [_ Hv Hl] HL [H1 H2 H3 H4]. split; [by rewrite HL| |done|unfold is_queue; by rewrite Hl].
  eapply dvals_ext; [|exact H2]. intros x _. apply Hv.
Qed.

(** Replacing a thread by one of the same readiness, core and priority. *)
Lemma sched_inv_thr s L t th th' :
  sched_inv s L → k_tcb s !! t = Some th → is_ready th' = is_ready th → t_cpu th' = t_cpu th →
  t_prio th' = t_prio th → sched_inv (set_k_tcb (<[t := th']> (k_tcb s)) s) L.
Proof.
  intros [Hq Hlen Hcpu Hqueue Hcpus Hmem Hrdy] Ht Hr Hc Hp. split; simpl; try done.
  - intros c p x Hcr Hpr Hx. destruct (Hmem c p x Hcr Hpr Hx) as (t0 & th0 & -> & H0 & Hr0 & Hc0 & Hp0).
    destruct (decide (t0 = t)) as [->|Hne].
    + assert (th0 = th) as -> by congruence. exists t, th'. rewrite lookup_insert_eq. split_and!; try done; congruence.
    + exists t0, th0. by rewrite lookup_insert_ne.
  - intros t0 th0. rewrite lookup_insert_Some. intros [[<- <-]|[_ H0]]; [|by apply Hrdy].
    rewrite Hc, Hp, Hr. by apply Hrdy.
Qed.

(** [acoral_vlist_init] of a node that is on no list. *)
Lemma vlist_init_spec s L x v :
  sched_inv s L → core_inv s L → L !! x = Some [] → (∀ c p, x ≠ LQueue (QReady c p)) →
  let q' := mk_q (<[x := mk_list x x v 0]> (q_nodes (k_q s))) (q_lock (k_q s)) in
  on_q (on_nodes (acoral_vlist_init x v)) s = Ret (tt, set_k_q q' s) ∧
  sched_inv (set_k_q q' s) L ∧ core_inv (set_k_q q' s) L ∧
  valof (q_nodes q') x = Some v ∧ (∀ p, p ≠ x → valof (q_nodes q') p = valof (q_nodes (k_q s)) p).
Proof.
  intros HI HC Hx Hne q'.
  assert (qrep q' L) as HQ.
  { destruct (si_q _ _ HI) as [HR Hl]. split; [|done]. simpl. rewrite <- (insert_id L x []) by done.
    apply rep_init; [done| |by right]. intros q xs Hq Hqx Hin.
    eapply (rep_lone _ L q xs x HR Hq Hx); [done|by right]. }
  split_and!.
  - apply run_on_q. by apply (run_zoom lnodes _ (k_q s)).
  - by eapply sched_inv_lists.
  - by eapply core_inv_lists.
  - unfold valof. simpl. by rewrite lookup_insert_eq.
  - intros p Hp. unfold valof. simpl. by rewrite lookup_insert_ne.
Qed.

Context `{!Allocator kstate, !Layout}.

(** The lists after a ready thread [t] was delayed. *)
Definition delayed_lists (t ticks : Z) (dq : list (loc * Z)) (L : gmap loc (list loc)) :=
  <[LQueue QDelay := (dq_insert (LThread t delaying) ticks dq).*1]> (delete (LThread t delaying) L).

Lemma time_delay_queue_add_spec s L dq t th ticks :
  sched_inv s L → core_inv s L → delayq s L dq → k_tcb s !! t = Some th → is_ready th = true →
  t_cpu th = k_cpu s → other_ready s L t →
  L !! LThread t delaying = Some [] → valof (q_nodes (k_q s)) (LThread t delaying) = Some ticks → 0 ≤ ticks < 2 ^ 31 →
  ∃ s' a b, let L' := rq_remove (k_cpu s) (t_prio th) (LThread t ready) a b (delayed_lists t ticks dq L) in
    acoral_time_delay_queue_add t s = Ret (tt, s') ∧
    rq L (k_cpu s) (t_prio th) = a ++ LThread t ready :: b ∧ sched_inv s' L' ∧ core_inv s' L' ∧
    delayq s' L' (dq_insert (LThread t delaying) ticks dq) ∧
    tcb_view s' = <[t := thread_view (suspended th)]> (tcb_view s) ∧ k_res s' = k_res s ∧ same_other s s' ∧
    (∀ p, p ∉ LThread t delaying :: dq.*1 → valof (q_nodes (k_q s')) p = valof (q_nodes (k_q s)) p).
Proof.
  intros HI HC [Hd1 Hd2 Hd3 Hd4] Ht Hr Hcpu Ho Hx Hv Hticks.
  destruct (enter_critical_spec s L HI HC) as (s1 & Hen & HF1 & HI1 & HC1 & Htcb1).
  assert (k_q s1 = k_q s ∧ k_cpu s1 = k_cpu s) as [Hq1 Hc1] by (split; apply HF1).
  destruct (tick_queue_add_rep (k_q s1) L (LQueue QDelay) dq (LThread t delaying) ticks)
    as (q' & Hadd & HQ & Hdv & Hlk & Hoth); try done; [apply HI1|by rewrite Hq1..|].
  set (L1 := delayed_lists t ticks dq L).
  assert (∀ c p, L1 !! LQueue (QReady c p) = L !! LQueue (QReady c p)) as HL1.
  { intros c p. unfold L1, delayed_lists. by rewrite lookup_insert_ne, lookup_delete_ne. }
  assert (∀ c p, rq L1 c p = rq L c p) as Hrq1 by (intros c p; unfold rq; by rewrite HL1).
  set (s2 := set_k_q q' s1).
  assert (sched_inv s2 L1 ∧ core_inv s2 L1) as [HI2 HC2] by (split; [by eapply sched_inv_lists|by eapply core_inv_lists]).
  destruct (suspend_thread_spec s2 L1 t th) as (s3 & a & b & Hsus & Hab & HI3 & HC3 & Hv3 & Hr3 & Hk3);
    [done|done|by simpl; rewrite Htcb1|done|by rewrite Hcpu, <- Hc1| |].
  { destruct Ho as (p & y & Hp & Hy & Hne). exists p, y. simpl. by rewrite Hrq1, Hc1. }
  rewrite Hcpu in *. rewrite Hrq1 in Hab.
  set (L3 := rq_remove (k_cpu s) (t_prio th) (LThread t ready) a b L1) in *.
  destruct (exit_critical_spec s3 L3 HI3 HC3) as (s4 & Hex & HF4 & HI4 & HC4).
  assert (kept s2 s4) as Hk by (etrans; [done|by apply frame_kept]).
  assert (delayq s4 L3 (dq_insert (LThread t delaying) ticks dq)) as HD.
  { eapply (kept_tickq _ s2 s4 L1); [done|unfold L3, rq_remove; by rewrite !lookup_insert_ne|].
    split; [unfold L1, delayed_lists; by rewrite lookup_insert_eq|done|by apply dq_insert_dnat|].
    unfold is_queue. simpl. rewrite Hlk, Hq1. exact Hd4. }
  exists s4, a, b. split_and!; try done.
  - unfold acoral_time_delay_queue_add. erewrite run_bind by done.
    erewrite run_bind by (by apply run_on_q). erewrite run_bind by done. done.
  - rewrite (frame_tcb_view _ _ HF4), Hv3. f_equal. unfold tcb_view. simpl. by rewrite Htcb1.
  - rewrite (sf_res _ _ HF4), Hr3. apply HF1.
  - pose proof (kp_other _ _ Hk) as Hkp. pose proof (sf_other _ _ HF1) as Hs1.
    unfold same_other in *. simpl in *. destruct_and!. split_and!; congruence.
  - intros p Hp. rewrite (kp_vals _ _ Hk p). simpl. rewrite Hoth by done. by rewrite Hq1.
Qed.

Lemma time_to_ticks_range time : 0 ≤ TIME_TO_TICKS time < 2 ^ 31.
Proof.
  unfold TIME_TO_TICKS. pose proof (wrapu_range 32 (time * CFG_TICKS_PER_SEC) ltac:(done)).
  split; [apply Z.div_pos; lia|]. apply Z.div_lt_upper_bound; lia.
Qed.

Lemma run_lone_empty s L x : qrep (k_q s) L → L !! x = Some [] → klist_empty x s = Ret (true, s).
Proof. intros HQ Hx. by rewrite (run_klist_empty s L x []). Qed.

(** C6 [acoral_delay_thread].  A thread that is already delayed is refused with
    [KR_THREAD_ERR_UNDEF], one of another core with [KR_THREAD_ERR_CPU].  A
    ready thread of this core leaves its ready queue and joins the delay queue,
    due exactly [TIME_TO_TICKS time] ticks from now and behind everything due
    no later, while the due times of the others stay.  One tick is a
    millisecond, but the multiplication overflows: a delay of 4294968 ms is one
    of 0 ticks. *)
Theorem delay_thread_correct s L dq t th time :
  sched_inv s L → core_inv s L → delayq s L dq → k_tcb s !! t = Some th →
  (LThread t delaying ∈ dq.*1 → acoral_delay_thread t time s = Ret (ret_err KR_THREAD_ERR_UNDEF, s)) ∧
  (L !! LThread t delaying = Some [] → t_cpu th ≠ k_cpu s →
    acoral_delay_thread t time s = Ret (ret_err KR_THREAD_ERR_CPU, s)) ∧
  (L !! LThread t delaying = Some [] → t_cpu th = k_cpu s → is_ready th = true → other_ready s L t →
    ∃ s' dq' a b, let ticks := TIME_TO_TICKS time in
      let L' := rq_remove (k_cpu s) (t_prio th) (LThread t ready) a b (delayed_lists t ticks dq L) in
      acoral_delay_thread t time s = Ret (ret_err KR_OK, s') ∧
      rq L (k_cpu s) (t_prio th) = a ++ LThread t ready :: b ∧
      sched_inv s' L' ∧ core_inv s' L' ∧ delayq s' L' dq' ∧
      due 0 dq' = filter (λ yt, yt.2 ≤ ticks) (due 0 dq) ++
        (LThread t delaying, ticks) :: filter (λ yt, ticks < yt.2) (due 0 dq) ∧
      tcb_view s' = <[t := thread_view (suspended (set_t_delay ticks th))]> (tcb_view s)) ∧
  (0 ≤ time ≤ 4294967 → TIME_TO_TICKS time = time) ∧ TIME_TO_TICKS 4294968 = 0.
Proof.
  intros HI HC HD Ht. split_and!; [| | |intros ?|done].
  - intros Hin. apply list_elem_of_split in Hin as (a & b & Hab). unfold acoral_delay_thread.
    erewrite run_bind by (eapply (run_member_empty s L (LQueue QDelay) a b);
      [apply HI|by rewrite (dl_list _ _ _ _ HD), Hab]). done.
  - intros Hx Hc. unfold acoral_delay_thread.
    erewrite run_bind by (eapply run_lone_empty; [apply HI|done]). cbn [negb].
    kstep. kstep. by rewrite (proj2 (Z.eqb_neq _ _)).
  - intros Hx Hcpu Hr Ho. pose proof (time_to_ticks_range time) as Htr. set (ticks := TIME_TO_TICKS time) in *.
    set (th1 := set_t_delay ticks th). set (s1 := set_k_tcb (<[t := th1]> (k_tcb s)) s).
    destruct (vlist_init_spec s1 L (LThread t delaying) ticks) as (Hrun & HI2 & HC2 & Hv & Hoth);
      [by eapply sched_inv_thr|by apply core_inv_tcb|done|done|].
    cbv zeta in HI2, HC2, Hrun.
    set (s2 := set_k_q (mk_q (<[LThread t delaying := mk_list (LThread t delaying) (LThread t delaying) ticks 0]>
      (q_nodes (k_q s1))) (q_lock (k_q s1))) s1) in *.
    assert (delayq s2 L dq) as HD2.
    { destruct HD as [H1 H2 H3 H4]. split; try done. eapply dvals_ext; [|exact H2]. intros x Hin.
      apply Hoth. intros ->. eapply (rep_lone _ L (LQueue QDelay) dq.*1); [apply (si_q _ _ HI)|done|exact Hx|done|by right]. }
    destruct (time_delay_queue_add_spec s2 L dq t th1 ticks) as
      (s3 & a & b & Hadd & Hab & HI3 & HC3 & HD3 & Hv3 & _ & _); try done; [apply lookup_insert_eq|].
    exists s3, (dq_insert (LThread t delaying) ticks dq), a, b. split_and!; try done.
    + unfold acoral_delay_thread. erewrite run_bind by (eapply run_lone_empty; [apply HI|done]). cbn [negb].
      kstep. kstep. rewrite Hcpu, Z.eqb_refl. cbn [negb]. fold ticks. kstep.
      rewrite (wraps_small 32) by lia. erewrite run_bind by exact Hrun. by erewrite run_bind by done.
    + rewrite due_insert. apply pq_insert_filter. apply due_sorted, HD.
    + rewrite Hv3. unfold tcb_view at 1. simpl. rewrite tcb_view_insert. by rewrite insert_insert_eq.
  - unfold TIME_TO_TICKS, CFG_TICKS_PER_SEC. rewrite wrapu_small by lia. apply Z.div_mul. done.
Qed.

(** ** Waking threads *)

(** Thread [t] can be made ready by this core. *)
Definition wakeable (s : kstate) (L : gmap loc (list loc)) (t : Z) : Prop :=
  ∃ th id, k_tcb s !! t = Some th ∧ is_ready th = false ∧ is_suspended th = true ∧
    t_cpu th = k_cpu s ∧ 0 ≤ t_prio th < ACORAL_MAX_PRIO_NUM ∧
    L !! LThread t ready = Some [] ∧ k_res s !! t = Some id.

Definition ready_view (v : bool * bool * thread) : bool * bool * thread := (true, false, v.2).

Lemma readied_view th : thread_view (readied th) = ready_view (thread_view th).
Proof.
  unfold ready_view, thread_view, is_ready, is_suspended, readied, ready_state. simpl.
  rewrite !has_add, !has_del by auto with acoral. reflexivity.
Qed.

(** A wakeable thread stays so when others change. *)
Lemma wakeable_other s s' L L' t t' v :
  wakeable s L t → t ≠ t' → tcb_view s' = <[t' := v]> (tcb_view s) → k_cpu s' = k_cpu s →
  L' !! LThread t ready = L !! LThread t ready → k_res s' !! t = k_res s !! t → wakeable s' L' t.
Proof.
  intros (th & id & Ht & Hr & Hs & Hc & Hp & HL & Hid) Hne Hv Hcpu HL' Hres.
  assert (tcb_view s' !! t = Some (thread_view th)) as Hv'.
  { rewrite Hv, lookup_insert_ne by done. by apply lookup_tcb_view. }
  apply tcb_view_lookup in Hv' as (th' & Ht' & (E1 & E2 & E3 & E4)%thread_view_eq).
  exists th', id. rewrite E1, E2, E3, E4, HL', Hres, Hcpu. done.
Qed.

(** The lists after the head [t] of the delay queue was made ready. *)
Definition woken_lists (c p t : Z) (rest : list loc) (L : gmap loc (list loc)) :=
  rq_insert c p (LThread t ready) (<[LThread t delaying := []]> (<[LQueue QDelay := rest]> L)).

Lemma wake_first_run s L t d rest :
  sched_inv s L → core_inv s L → delayq s L ((LThread t delaying, d) :: rest) → wakeable s L t →
  ∃ s' p, let L' := woken_lists (k_cpu s) p t rest.*1 L in
    (on_q (acoral_tick_queue_del (LQueue QDelay) (LThread t delaying));; acoral_rdy_thread t) s
      = Ret (ret_err KR_OK, s') ∧
    sched_inv s' L' ∧ core_inv s' L' ∧ delayq s' L' rest ∧
    (∃ v, tcb_view s !! t = Some v ∧ tcb_view s' = <[t := ready_view v]> (tcb_view s)) ∧ same_other s s' ∧
    (∀ t', t' ≠ t → k_res s' !! t' = k_res s !! t').
Proof.
  intros HI HC [Hd1 Hd2 Hd3 Hd4] (th & id & Ht & Hr & Hs & Hc & Hp & HL & Hid).
  destruct (queue_del_rep (k_q s) L (LQueue QDelay) (LQueue QDelay) (LThread t delaying) [] rest.*1)
    as (q' & Hdel & HQ & Hlk & Hval); [apply HI|done|done|].
  set (L1 := <[LThread t delaying := []]> (<[LQueue QDelay := rest.*1]> L)).
  set (s1 := set_k_q q' s).
  assert (sched_inv s1 L1 ∧ core_inv s1 L1) as [HI1 HC1].
  { assert (∀ c p, L1 !! LQueue (QReady c p) = L !! LQueue (QReady c p)) as HLr.
    { intros. unfold L1. by rewrite !lookup_insert_ne. }
    split; [by eapply sched_inv_lists|by eapply core_inv_lists]. }
  assert (L1 !! LThread t ready = Some []) as HL1 by (unfold L1; by rewrite !lookup_insert_ne).
  destruct (rdy_thread_spec s1 L1 t th id) as (s2 & Hrdy & HI2 & HC2 & Hv2 & Hr2 & Hk2); [done..|].
  rewrite Hc in *. exists s2, (t_prio th). split_and!; try done.
  - erewrite run_bind by (by apply run_on_q). done.
  - eapply kept_tickq; [exact Hk2|unfold woken_lists, rq_insert; by rewrite lookup_insert_ne, lookup_delete_ne|].
    split; [unfold L1; by rewrite lookup_insert_ne, lookup_insert_eq| |by apply Forall_cons in Hd3 as [_ ?]|].
    + apply Forall_cons in Hd2 as [_ Hd2]. eapply dvals_ext; [|exact Hd2]. intros x _. apply Hval.
    + unfold is_queue. simpl. by rewrite Hlk.
  - exists (thread_view th). split; [by apply lookup_tcb_view|]. by rewrite Hv2, readied_view.
  - apply (kp_other _ _ Hk2).
  - intros t' Hne. rewrite Hr2. by rewrite lookup_insert_ne.
Qed.

Definition delaying_node (x : loc) : Prop := ∃ t, x = LThread t delaying.

Lemma delay_loop_run ts rest : ∀ s L fuel tmp,
  sched_inv s L → core_inv s L →
  delayq s L (((λ t, (LThread t delaying, 0)) <$> ts) ++ rest) →
  (∀ x d rest', rest = (x, d) :: rest' → 0 < d ∧ delaying_node x) →
  NoDup ts → Forall (wakeable s L) ts → (length ts ≤ fuel)%nat →
  head (((λ t, LThread t delaying) <$> ts) ++ rest.*1 ++ [LQueue QDelay]) = Some tmp →
  ∃ s' L', delay_loop fuel (LQueue QDelay) tmp s = Ret (tt, s') ∧ sched_inv s' L' ∧ core_inv s' L' ∧
    delayq s' L' rest ∧ same_other s s' ∧
    (∀ t, tcb_view s' !! t = if decide (t ∈ ts) then ready_view <$> tcb_view s !! t else tcb_view s !! t).
Proof.
  induction ts as [|t ts IH]; intros s L fuel tmp HI HC HD Hrest Hnd Hw Hfuel Htmp.
  - assert (∀ t, tcb_view s !! t = if decide (t ∈ @nil Z) then ready_view <$> tcb_view s !! t else tcb_view s !! t) as Hv.
    { intros t. by rewrite decide_False by apply not_elem_of_nil. }
    assert (same_other s s) as Hs by (unfold same_other; tauto).
    exists s, L. split; [|done]. destruct rest as [|[x d] rest].
    { simpl in Htmp. injection Htmp as <-. destruct fuel; cbn [delay_loop]; by rewrite decide_True. }
    simpl in Htmp. injection Htmp as <-. destruct (Hrest x d rest eq_refl) as [Hd [t ->]].
    assert (kget_value (LThread t delaying) s = Ret (d, s)) as Hval.
    { apply run_kread, run_get_value_at. pose proof (dl_vals _ _ _ _ HD) as Hv'. by apply Forall_cons in Hv' as [? _]. }
    destruct fuel; cbn [delay_loop]; (rewrite decide_False by done); erewrite run_bind by done;
      erewrite run_bind by exact Hval; by rewrite (proj2 (Z.ltb_lt _ _)).
  - simpl in Htmp. injection Htmp as <-. apply NoDup_cons in Hnd as [Hni Hnd]. apply Forall_cons in Hw as [Hwt Hw].
    destruct fuel as [|fuel]; [simpl in Hfuel; lia|]. cbn [fmap list_fmap app] in HD.
    pose proof (dl_list _ _ _ _ HD) as HL. rewrite fmap_cons, fmap_app in HL. simpl in HL.
    rewrite <- list_fmap_compose in HL. change (fst ∘ _) with (λ t : Z, LThread t delaying) in HL.
    destruct (ring_step _ L (LQueue QDelay) [] _ (LThread t delaying) (si_q _ _ HI).(qrep_nodes _ _) HL)
      as (n & nx & Hn & Hnx & Hhd & Hne & _).
    destruct (wake_first_run s L t 0 _ HI HC HD Hwt) as (s1 & p & Hrun & HI1 & HC1 & HD1 & (v & Hv & Hv1) & Ho1 & Hr1).
    destruct (IH s1 _ fuel nx HI1 HC1 HD1 Hrest Hnd) as (s2 & L2 & Hloop & HI2 & HC2 & HD2 & Ho2 & Hv2).
    { apply Forall_forall. intros t' Hin. eapply Forall_forall in Hw; [|done].
      assert (t' ≠ t) as Htt by (intros ->; done).
      eapply wakeable_other; [done|done|done|apply Ho1| |by apply Hr1].
      unfold woken_lists, rq_insert. rewrite lookup_insert_ne, lookup_delete_ne by congruence. by rewrite !lookup_insert_ne. }
    { simpl in Hfuel. lia. }
    { by rewrite app_assoc. }
    exists s2, L2. split_and!; try done.
    + cbn [delay_loop]. rewrite decide_False by done. erewrite run_bind by done.
      erewrite run_bind.
      2:{ apply run_kread, run_get_value_at. pose proof (dl_vals _ _ _ _ HD) as Hv'. by apply Forall_cons in Hv' as [? _]. }
      change (0 <? (LThread t delaying, 0).2) with false. cbn iota.
      erewrite run_bind by (apply run_kread; by apply run_get_next). rewrite Hnx.
      revert Hrun. unfold mbind, M_bind. destruct (on_q _ s) as [[[] s']|]; [|done]. intros ->. exact Hloop.
    + unfold same_other in *. destruct_and!. split_and!; congruence.
    + intros t'. rewrite Hv2, Hv1. destruct (decide (t' = t)) as [->|Hne'].
      * rewrite decide_False by done. rewrite lookup_insert_eq, decide_True by (by left). by rewrite Hv.
      * rewrite lookup_insert_ne by done. destruct (decide (t' ∈ ts)) as [Hin|Hin].
        -- rewrite decide_True; [done|by right].
        -- rewrite decide_False; [done|]. rewrite elem_of_cons. naive_solver.
Qed.

(** ** One tick *)

(** The delays after [time_delay_deal] counted one tick off the first one; how
    much earlier everything is due is [elapsed dq]. *)
Definition count_down (dq : list (loc * Z)) : list (loc * Z) :=
  match dq with (x, d) :: r => (x, if 0 <? d then d - 1 else d) :: r | [] => [] end.

Definition elapsed (dq : list (loc * Z)) : Z :=
  match dq with (x, d) :: _ => if 0 <? d then 1 else 0 | [] => 0 end.

Lemma due_count_down dq : due 0 dq = due (elapsed dq) (count_down dq).
Proof.
  destruct dq as [|[x d] r]; [done|]. simpl. destruct (0 <? d); [|done].
  by replace (1 + (d - 1)) with (0 + d) by lia.
Qed.

Lemma count_down_nat dq : dnat dq → dnat (count_down dq).
Proof.
  destruct dq as [|[x d] r]; [done|]. intros [Hd Hr]%Forall_cons. simpl in Hd. constructor; [|done]. simpl.
  destruct (Z.ltb_spec 0 d); lia.
Qed.

(** A difference list is a run of zeros and the rest. *)
Lemma split_zeros dq : dnat dq → ∃ z rest, dq = ((λ x : loc, (x, 0)) <$> z) ++ rest ∧
  ∀ x d r, rest = (x, d) :: r → 0 < d.
Proof.
  induction dq as [|[x d] dq IH]; [by exists [], []|]. intros [Hd Hn]%Forall_cons. simpl in Hd.
  destruct (decide (d = 0)) as [->|Hne].
  - destruct (IH Hn) as (z & rest & -> & Hz). by exists (x :: z), rest.
  - exists [], ((x, d) :: dq). split; [done|]. intros ? ? ? [= <- <- <-]. lia.
Qed.

Lemma due_zeros e (z : list loc) rest :
  due e (((λ x : loc, (x, 0)) <$> z) ++ rest) = ((λ x : loc, (x, e)) <$> z) ++ due e rest.
Proof. induction z as [|x z IH]; [done|]. rewrite !fmap_cons. cbn [app due]. by rewrite Z.add_0_r, IH. Qed.

Lemma due_later e rest : dnat rest → (∀ x d r, rest = (x, d) :: r → 0 < d) → Forall (λ yt : loc * Z, e < yt.2) (due e rest).
Proof.
  intros Hn Hd. destruct rest as [|[x d] r]; [constructor|]. specialize (Hd x d r eq_refl).
  pose proof (due_sorted e _ Hn) as Hs. simpl in Hs. inversion Hs as [|? ? _ Hall]; subst.
  constructor; [simpl; lia|]. eapply Forall_impl; [exact Hall|]. simpl. intros. lia.
Qed.

(** What a tick makes due is the zeros at the front of the counted-down list. *)
Lemma tick_split (node : Z → loc) dq ts :
  dnat dq → node <$> ts = (filter (λ yt, yt.2 ≤ elapsed dq) (due 0 dq)).*1 →
  ∃ rest, count_down dq = ((λ t, (node t, 0)) <$> ts) ++ rest ∧ dnat rest ∧
    (∀ x d r, rest = (x, d) :: r → 0 < d) ∧
    (λ yt, (yt.1, yt.2 - elapsed dq)) <$> filter (λ yt, elapsed dq < yt.2) (due 0 dq) = due 0 rest.
Proof.
  intros Hn Hts. rewrite due_count_down in Hts |- *. set (e := elapsed dq) in *.
  pose proof (count_down_nat _ Hn) as Hn'. destruct (split_zeros _ Hn') as (z & rest & Hsplit & Hpos).
  rewrite Hsplit in Hn'. apply Forall_app in Hn' as [_ Hnr].
  pose proof (due_later e rest Hnr Hpos) as Hlate.
  rewrite Hsplit, due_zeros in Hts |- *. rewrite !filter_app in Hts |- *.
  rewrite (list_filter_none _ (due e rest)), app_nil_r in Hts by (eapply Forall_impl; [exact Hlate|simpl; intros; lia]).
  rewrite list_filter_all in Hts by (apply Forall_fmap, Forall_true; simpl; lia).
  rewrite <- list_fmap_compose in Hts. unfold compose in Hts. simpl in Hts. rewrite list_fmap_id in Hts. subst z.
  rewrite (list_filter_none _ (_ <$> _)) by (apply Forall_fmap, Forall_true; simpl; lia).
  rewrite (list_filter_all _ (due e rest)) by done. cbn [app].
  exists rest. rewrite <- list_fmap_compose, <- due_shift, Z.sub_diag. done.
Qed.

Lemma count_down_run q s L x d r :
  sched_inv s L → core_inv s L → tickq q s L ((x, d) :: r) →
  ∃ s', when (0 <? d) (kset_value x (s32 (d - 1))) s = Ret (tt, s') ∧ sched_inv s' L ∧ core_inv s' L ∧
    tickq q s' L (count_down ((x, d) :: r)) ∧ k_tcb s' = k_tcb s ∧ k_res s' = k_res s ∧ same_other s s'.
Proof.
  intros HI HC HD. unfold count_down. destruct (Z.ltb_spec 0 d) as [Hd|Hd].
  2:{ exists s. split_and!; try done; unfold same_other; tauto. }
  destruct HD as [H1 H2 H3 H4].
  assert (s32 (d - 1) = d - 1) as ->.
  { apply Forall_cons in H3 as [Hdr _]. simpl in Hdr. apply wraps_small; lia. }
  assert (valof (q_nodes (k_q s)) x = Some d) as Hv by (by apply Forall_cons in H2 as [? _]).
  destruct (valof_lookup _ _ _ Hv) as (n & Hn & _).
  destruct (set_value_links _ x n (d - 1) Hn) as (_ & _ & Hval).
  set (q' := mk_q (<[x := set_value (d - 1) n]> (q_nodes (k_q s))) (q_lock (k_q s))).
  exists (set_k_q q' s). split_and!; try done.
  - cbn [when]. unfold kset_value. apply run_on_q. apply (run_zoom lnodes _ (k_q s)). by apply run_st.
  - eapply sched_inv_lists; [done| |done|done]. destruct (si_q _ _ HI). split; [by apply rep_set_value|done].
  - by eapply core_inv_lists.
  - split; [done| |by apply (count_down_nat ((x, d) :: r)) in H3; unfold count_down in H3; rewrite (proj2 (Z.ltb_lt 0 d)) in H3|done].
    eapply (dvals_update _ _ [] r x d (d - 1)); [done| |exact Hval].
    destruct (rep_ring _ _ (qrep_nodes _ _ (si_q _ _ HI)) _ _ H1) as [_ Hnd]. by apply NoDup_cons in Hnd as [_ ?].
Qed.

(** C24 [time_delay_deal], once per tick.  It wakes exactly the threads due
    within [elapsed] ticks and leaves the others delayed, due [elapsed] ticks
    earlier; [elapsed] is 1, except that it is 0 when the first delay in the
    queue is 0: then nobody else comes closer in this tick.  The woken threads
    are ready, all other threads keep their readiness, core, priority and data,
    and the invariants hold. *)
Theorem time_delay_deal_correct s L dq ts :
  sched_inv s L → core_inv s L → delayq s L dq → Forall (λ x, delaying_node x) dq.*1 →
  (λ t, LThread t delaying) <$> ts = (filter (λ yt, yt.2 ≤ elapsed dq) (due 0 dq)).*1 →
  Forall (wakeable s L) ts →
  ∃ s' L' dq', time_delay_deal s = Ret (tt, s') ∧ sched_inv s' L' ∧ core_inv s' L' ∧ delayq s' L' dq' ∧
    due 0 dq' = (λ yt, (yt.1, yt.2 - elapsed dq)) <$> filter (λ yt, elapsed dq < yt.2) (due 0 dq) ∧
    same_other s s' ∧
    (∀ t, tcb_view s' !! t = if decide (t ∈ ts) then ready_view <$> tcb_view s !! t else tcb_view s !! t).
Proof.
  intros HI HC HD Hnodes Hts Hw. set (e := elapsed dq) in *.
  unfold time_delay_deal. cbv zeta.
  rewrite (run_bind _ _ _ _ _ (run_klist_empty s L (LQueue QDelay) dq.*1 (si_q _ _ HI) (dl_list _ _ _ _ HD))).
  destruct dq as [|[x d] r].
  { cbn. exists s, L, []. destruct ts; [|done]. by split_and!. }
  rewrite bool_decide_eq_false_2 by done.
  erewrite run_bind by (eapply run_kget_first; [apply HI|apply HD]). cbn [head default from_option id fmap list_fmap fst].
  erewrite run_bind by (apply run_kread, run_get_value_at; pose proof (dl_vals _ _ _ _ HD) as Hv; by apply Forall_cons in Hv as [? _]).
  destruct (count_down_run _ s L x d r HI HC HD) as (s1 & Hdown & HI1 & HC1 & HD1 & Htcb1 & Hres1 & Ho1).
  cbn [snd]. erewrite run_bind by exact Hdown.
  destruct (tick_split (λ t, LThread t delaying) _ ts (dl_nat _ _ _ _ HD) Hts) as (rest & Hsplit & Hnr & Hpos & Hrest).
  fold e in Hrest. rewrite Hrest, Hsplit in *.
  assert (Hlist : L !! LQueue QDelay = Some (((λ t, LThread t delaying) <$> ts) ++ rest.*1)).
  { rewrite (dl_list _ _ _ _ HD1), fmap_app, <- list_fmap_compose. done. }
  destruct (ring_first _ L _ _ (qrep_nodes _ _ (si_q _ _ HI1)) Hlist) as (n & nx & Hn & Hnx & Hhd).
  destruct (rep_ring _ _ (qrep_nodes _ _ (si_q _ _ HI1)) _ _ Hlist) as [_ Hnd].
  destruct (delay_loop_run ts rest s1 L (size (q_nodes (k_q s1))) nx) as (s2 & L2 & Hloop & HI2 & HC2 & HD2 & Ho2 & Hv2);
    [done..| | | | |by rewrite <- app_assoc in Hhd|].
  - intros y dy r' ->. split; [by eapply Hpos|].
    assert (y ∈ ((x, d) :: r).*1) as Hy.
    { change (((x, d) :: r).*1) with ((count_down ((x, d) :: r)).*1). rewrite Hsplit, fmap_app. apply elem_of_app. right. by left. }
    by eapply Forall_forall in Hy; [|exact Hnodes].
  - apply NoDup_cons in Hnd as [_ Hnd]. apply NoDup_app in Hnd as [Hnd _]. by apply NoDup_fmap_1 in Hnd.
  - eapply Forall_impl; [exact Hw|]. intros t (th & id & Ht & Hr & Hs & Hc & Hp & HL & Hid).
    exists th, id. rewrite Htcb1, Hres1. destruct Ho1 as (-> & _). done.
  - pose proof (ring_size _ L _ _ (qrep_nodes _ _ (si_q _ _ HI1)) Hlist) as Hsz. rewrite length_app, length_fmap in Hsz. lia.
  - exists s2, L2, rest. split_and!; try done.
    + erewrite run_bind by (apply run_kread; by apply run_get_next). rewrite Hnx.
      erewrite run_bind by reflexivity. exact Hloop.
    + unfold same_other in *. destruct_and!. split_and!; congruence.
    + intros t. rewrite Hv2. unfold tcb_view. by rewrite Htcb1.
Qed.
End timer.

(** ** Witnesses *)
Lemma delay_thread_correct_witness : ∃ s s' dq',
  acoral_delay_thread 4096 25 s = Ret (ret_err KR_OK, s') ∧ due 0 dq' = [(LThread 4096 delaying, 25)] ∧
  ∃ L', delayq s' L' dq'.
Proof.
  destruct sample_kernel as [s0 Hs0]. destruct (sample_lookup s0 Hs0) as [Ht _]. pose proof (sm_cpu _ Hs0) as Hcpu.
  destruct (sample_unlisted (LQueue QDelay)) as [Hq1 Hq2]; [done..|].
  destruct (sample_unlisted (LThread 4096 delaying)) as [Hx1 Hx2]; [done..|].
  destruct (add_loc_inv true (LQueue QDelay) 0 s0 sample_L) as [HI1 HC1];
    [apply Hs0|apply Hs0|eauto|done|done|].
  set (L1 := <[LQueue QDelay := []]> sample_L) in *. set (s1 := add_loc true (LQueue QDelay) 0 s0) in *.
  destruct (add_loc_inv false (LThread 4096 delaying) 0 s1 L1) as [HI2 HC2];
    [done|done| |unfold L1; by rewrite lookup_insert_ne|done|].
  { intros q xs. unfold L1. rewrite lookup_insert_Some. intros [[_ <-]|[_ Hxs]] _; [apply not_elem_of_nil|by eapply Hx2]. }
  set (L2 := <[LThread 4096 delaying := []]> L1) in *. set (s2 := add_loc false (LThread 4096 delaying) 0 s1) in *.
  assert (delayq s2 L2 []) as HD.
  { split; [unfold L2, L1; by rewrite lookup_insert_ne, lookup_insert_eq|constructor|constructor|].
    exists 0. simpl. apply lookup_insert_eq. }
  exists s2. destruct (delay_thread_correct s2 L2 [] 4096 (running_thread 5) 25 HI2 HC2 HD Ht) as (_ & _ & H & _).
  destruct H as (s' & dq' & a & b & Hrun & _ & _ & _ & HD' & Hdue & _).
  - unfold L2. apply lookup_insert_eq.
  - simpl. by rewrite Hcpu.
  - done.
  - destruct (sample_other_ready s0 Hs0) as (p & x & Hp & Hx & Hne). exists p, x. unfold L2, L1, rq.
    rewrite !lookup_insert_ne by done. done.
  - exists s', dq'. split_and!; [done|exact Hdue|eauto].
Defined.

Lemma time_delay_deal_correct_witness : ∃ s s' th,
  time_delay_deal s = Ret (tt, s') ∧ k_tcb s' !! 4096 = Some th ∧ is_ready th = true.
Proof.
  destruct sample_suspended as (s0 & L0 & th & HI0 & HC0 & Hcpu & Ht & Hv & Hid & HL).
  apply thread_view_eq in Hv as (Hr & Hs & Hc & Hp).
  assert (∀ x, (∀ c p, x ≠ LQueue (QReady c p)) → (∀ t, x ≠ LThread t ready) → unlisted L0 x) as Hf.
  { intros x H1 H2. rewrite HL. unfold rq_remove. apply unlisted_insert; [|done|apply not_elem_of_nil].
    apply unlisted_insert; [by apply sample_unlisted|done|apply not_elem_of_nil]. }
  destruct (with_queue s0 L0 (LQueue QDelay) (LThread 4096 delaying) 1)
    as (s & L & h & Hsh & HI & HC & Hq & HLq & Hval & _); [done|done|by apply Hf..|done|done|done|].
  assert (delayq s L [(LThread 4096 delaying, 1)]) as HD.
  { rewrite Hsh, HLq. split; [by rewrite lookup_insert_eq| | |done].
    - constructor; [done|constructor].
    - constructor; [simpl; lia|constructor]. }
  exists s. destruct (time_delay_deal_correct s L _ [4096] HI HC HD) as (s' & L' & dq' & Hrun & _ & _ & _ & _ & _ & Hv').
  - constructor; [by exists 4096|constructor].
  - reflexivity.
  - constructor; [|constructor]. exists th, 0x400. rewrite Hr, Hs, Hc, Hp, Hsh. simpl. rewrite Hcpu, prio_num_eq.
    split_and!; try done. rewrite HLq, HL. unfold rq_remove. rewrite lookup_insert_ne by done. apply lookup_insert_eq.
  - specialize (Hv' 4096). rewrite decide_True in Hv' by (by left).
    assert (tcb_view s !! 4096 = Some (thread_view th)) as Hv0 by (rewrite Hsh; by apply lookup_tcb_view).
    rewrite Hv0 in Hv'. apply tcb_view_lookup in Hv' as (th' & Hth' & Hvt). exists s', th'. split_and!; [done|done|].
    exact (f_equal (λ x, x.1.1) Hvt).
Defined.
