(* ===== verification/Ipc.v ===== *)
(** * kernel/src/ipc.c: mutexes and semaphores

    A thread that has to wait is suspended, put on the wait queue, and gives up
    the processor where its code leaves the critical section; what it does when
    it runs again is [acoral_mutex_pend_resume] and the like.  [acoral_mutex_pend]
    and the other waiting operations therefore return [None] when the thread was
    switched out there; when it was not, they go on at once. *)
From S2P Require Import Prelude Interfaces Bitops DList Queues KTypes KState Sched Cpu ResPool Thread.
From stdpp Require Import list.
#[local] Open Scope Z_scope.

Definition ACORAL_IPC_MUTEX : Z := 0.
Definition ACORAL_IPC_SEM : Z := 1.
Definition MUTEX_AVAI : Z := 0x00FF.
Definition MUTEX_NOAVAI : Z := 0xFF00.
Definition SEM_AVAI : Z := 0.
Definition SEM_NOAVAI : Z := 1.

(** [sizeof(acoral_ipc_t)] on the 32-bit target. *)
Definition sizeof_ipc : Z := 48.

(** [acoral_intr_nesting] of the executing core. *)
Definition acoral_intr_nesting : K Z := cpu ← acoral_current_cpu; at_cpu c_intr_nesting cpu.

(** [ipc->count = v]: the field is an [acoral_16]. *)
Definition set_count (v : Z) (x : ipc) : ipc := set_i_count (s16 v) x.

Section ipc.
Context `{!Allocator kstate, !Layout}.

Definition acoral_ipc_pool_init : K unit :=
  on_pc acoral_ipc_pool_ctrl (set_pc_type ACORAL_RES_IPC);;
  on_pc acoral_ipc_pool_ctrl (set_pc_size sizeof_ipc);;
  on_pc acoral_ipc_pool_ctrl (set_pc_num_per_pool 8);;
  on_pc acoral_ipc_pool_ctrl (set_pc_num 0);;
  on_pc acoral_ipc_pool_ctrl (set_pc_max_pools 4);;
  acoral_pool_ctrl_init acoral_pools acoral_ipc_pool_ctrl.

Definition acoral_ipc_sys_init : K unit := acoral_ipc_pool_init.

(** As for threads, fresh memory holds what [raw] says. *)
Definition acoral_ipc_alloc (raw : Z → ipc) : K Z :=
  i ← acoral_get_res acoral_pools acoral_ipc_pool_ctrl;
  (if i =? 0 then mret tt
   else modify (λ s, match k_ipc s !! i with
                     | Some _ => s
                     | None => set_k_ipc (<[i := raw i]> (k_ipc s)) s
                     end));;
  mret i.

(** Leaving with an error value or a result. *)
Definition leave (ipc : Z) (e : Z) : K Z :=
  ipc_spin_unlock ipc;;
  acoral_exit_critical;;
  mret e.

(** The end of the first part of a waiting operation: whoever runs now. *)
Definition park {A} (cur : Z) (resume : K A) : K (option A) :=
  running ← acoral_cur_thread;
  if running =? cur then r ← resume; mret (Some r) else mret None.

(** ** Mutexes *)
Definition mutex_setup (ipc : Z) : K unit :=
  on_ipc ipc (set_count MUTEX_AVAI);;
  on_ipc ipc (set_i_type ACORAL_IPC_MUTEX);;
  on_ipc ipc (set_i_data 0);;
  acoral_ipc_init ipc.

Definition acoral_mutex_init (ipc : Z) : K Z :=
  if ipc =? 0 then mret (ret_err KR_IPC_ERR_NULL) else
  mutex_setup ipc;;
  mret (ret_err KR_OK).

Definition acoral_mutex_create (raw : Z → KTypes.ipc) : K Z :=
  ipc ← acoral_ipc_alloc raw;
  if ipc =? 0 then mret 0 else
  mutex_setup ipc;;
  mret ipc.

Definition acoral_mutex_del (ipc : Z) : K Z :=
  nesting ← acoral_intr_nesting;
  if negb (nesting =? 0) then mret (ret_err KR_IPC_ERR_INTR) else
  if ipc =? 0 then mret (ret_err KR_IPC_ERR_NULL) else
  type ← ipcf i_type ipc;
  if negb (type =? ACORAL_IPC_MUTEX) then mret (ret_err KR_IPC_ERR_TYPE) else
  acoral_enter_critical;;
  ipc_spin_lock ipc;;
  empty ← acoral_ipc_wait_queue_empty ipc;
  leave ipc (if (empty : bool) then ret_err KR_OK else ret_err KR_IPC_ERR_TASK_EXIST).

(** Taking the mutex for the thread [cur]. *)
Definition mutex_take (ipc cur : Z) : K Z :=
  on_ipc ipc (set_count MUTEX_NOAVAI);;
  on_ipc ipc (set_i_data cur);;
  leave ipc (ret_err KR_OK).

Definition acoral_mutex_trypend (ipc : Z) : K Z :=
  nesting ← acoral_intr_nesting;
  if 0 <? nesting then mret (ret_err KR_IPC_ERR_INTR) else
  cur ← acoral_cur_thread;
  if ipc =? 0 then mret (ret_err KR_IPC_ERR_NULL) else
  type ← ipcf i_type ipc;
  if negb (type =? ACORAL_IPC_MUTEX) then mret (ret_err KR_IPC_ERR_TYPE) else
  acoral_enter_critical;;
  ipc_spin_lock ipc;;
  count ← ipcf i_count ipc;
  if count =? MUTEX_AVAI then mutex_take ipc cur
  else leave ipc (ret_err KR_IPC_ERR_TIMEOUT).

(** Lines 309 to 331: the waiting thread [cur] runs again. *)
Definition acoral_mutex_pend_resume (ipc cur : Z) : K Z :=
  acoral_enter_critical;;
  ipc_spin_lock ipc;;
  data ← ipcf i_data ipc;
  if data =? 0 then
    acoral_ipc_wait_queue_del ipc cur;;
    mutex_take ipc cur
  else leave ipc (ret_err KR_IPC_ERR_UNDEF).

Definition acoral_mutex_pend (ipc : Z) : K (option Z) :=
  nesting ← acoral_intr_nesting;
  if 0 <? nesting then mret (Some (ret_err KR_IPC_ERR_INTR)) else
  cur ← acoral_cur_thread;
  if ipc =? 0 then mret (Some (ret_err KR_IPC_ERR_NULL)) else
  type ← ipcf i_type ipc;
  if negb (type =? ACORAL_IPC_MUTEX) then mret (Some (ret_err KR_IPC_ERR_TYPE)) else
  acoral_enter_critical;;
  ipc_spin_lock ipc;;
  count ← ipcf i_count ipc;
  if count =? MUTEX_AVAI then r ← mutex_take ipc cur; mret (Some r)
  else
    acoral_suspend_self;;
    acoral_ipc_wait_queue_add ipc cur;;
    leave ipc 0;;
    park cur (acoral_mutex_pend_resume ipc cur).

Definition acoral_mutex_post (ipc : Z) : K Z :=
  cur ← acoral_cur_thread;
  if ipc =? 0 then mret (ret_err KR_IPC_ERR_NULL) else
  type ← ipcf i_type ipc;
  if negb (type =? ACORAL_IPC_MUTEX) then mret (ret_err KR_IPC_ERR_TYPE) else
  data ← ipcf i_data ipc;
  if negb (data =? cur) then mret (ret_err KR_IPC_ERR_THREAD) else
  on_thr cur (set_t_ipc 0);;
  acoral_enter_critical;;
  ipc_spin_lock ipc;;
  on_ipc ipc (set_count MUTEX_AVAI);;
  on_ipc ipc (set_i_data 0);;
  thread ← acoral_ipc_high_thread ipc;
  if thread =? 0 then leave ipc (ret_err KR_OK)
  else
    leave ipc 0;;
    acoral_rdy_thread thread;;
    mret (ret_err KR_OK).

(** ** Semaphores *)
Definition sem_setup (ipc semNum : Z) : K unit :=
  on_ipc ipc (set_count (1 - semNum));;
  on_ipc ipc (set_i_number (u16 semNum));;
  on_ipc ipc (set_i_type ACORAL_IPC_SEM);;
  on_ipc ipc (set_i_data 0);;
  acoral_ipc_init ipc.

Definition acoral_sem_init (ipc semNum : Z) : K Z :=
  if ipc =? 0 then mret 0 else
  sem_setup ipc semNum;;
  mret (ret_err KR_OK).

Definition acoral_sem_create (raw : Z → KTypes.ipc) (semNum : Z) : K Z :=
  ipc ← acoral_ipc_alloc raw;
  if ipc =? 0 then mret 0 else
  sem_setup ipc semNum;;
  mret ipc.

Definition acoral_sem_del (ipc : Z) : K Z :=
  nesting ← acoral_intr_nesting;
  if negb (nesting =? 0) then mret (ret_err KR_IPC_ERR_INTR) else
  if ipc =? 0 then mret (ret_err KR_IPC_ERR_NULL) else
  type ← ipcf i_type ipc;
  if negb (type =? ACORAL_IPC_SEM) then mret (ret_err KR_IPC_ERR_TYPE) else
  acoral_enter_critical;;
  ipc_spin_lock ipc;;
  empty ← acoral_ipc_wait_queue_empty ipc;
  leave ipc (if (empty : bool) then ret_err KR_IPC_ERR_UNDEF else ret_err KR_IPC_ERR_TASK_EXIST).

(** [(acoral_8)ipc->count <= SEM_AVAI]. *)
Definition sem_available (count : Z) : bool := wraps 8 count <=? SEM_AVAI.

Definition count_up (x : ipc) : ipc := set_count (i_count x + 1) x.
Definition count_off (x : ipc) : ipc := set_count (i_count x - 1) x.

Definition acoral_sem_trypend (ipc : Z) : K Z :=
  nesting ← acoral_intr_nesting;
  if negb (nesting =? 0) then mret (ret_err KR_IPC_ERR_INTR) else
  if ipc =? 0 then mret (ret_err KR_IPC_ERR_NULL) else
  type ← ipcf i_type ipc;
  if negb (type =? ACORAL_IPC_SEM) then mret (ret_err KR_IPC_ERR_TYPE) else
  acoral_enter_critical;;
  ipc_spin_lock ipc;;
  count ← ipcf i_count ipc;
  if sem_available count then
    on_ipc ipc count_up;;
    leave ipc (ret_err KR_OK)
  else leave ipc (ret_err KR_IPC_ERR_TIMEOUT).

(** The waiting thread [cur] runs again. *)
Definition sem_pend_resume (ipc cur : Z) : K Z :=
  acoral_enter_critical;;
  ipc_spin_lock ipc;;
  acoral_ipc_wait_queue_del ipc cur;;
  leave ipc (ret_err KR_OK).

(** [acoral_sem_pend] takes a unit ([take]), [acoral_sem_pends] does not. *)
Definition sem_pend_body (take : bool) (ipc : Z) : K (option Z) :=
  cur ← acoral_cur_thread;
  nesting ← acoral_intr_nesting;
  if negb (nesting =? 0) then mret (Some (ret_err KR_IPC_ERR_INTR)) else
  if ipc =? 0 then mret (Some (ret_err KR_IPC_ERR_NULL)) else
  type ← ipcf i_type ipc;
  if negb (type =? ACORAL_IPC_SEM) then mret (Some (ret_err KR_IPC_ERR_TYPE)) else
  acoral_enter_critical;;
  ipc_spin_lock ipc;;
  count ← ipcf i_count ipc;
  if sem_available count then
    when take (on_ipc ipc count_up);;
    r ← leave ipc (ret_err KR_OK);
    mret (Some r)
  else
    when take (on_ipc ipc count_up);;
    acoral_suspend_self;;
    acoral_ipc_wait_queue_add ipc cur;;
    leave ipc 0;;
    park cur (sem_pend_resume ipc cur).

Definition acoral_sem_pend : Z → K (option Z) := sem_pend_body true.
Definition acoral_sem_pends : Z → K (option Z) := sem_pend_body false.

(** The loop of [acoral_sem_posts] from the node [tmp]. *)
Fixpoint posts_loop (fuel : nat) (ipc : Z) (tmp : loc) : K Z :=
  if decide (tmp = LQueue (QWait ipc)) then leave ipc (ret_err KR_OK) else
  thread ← thread_of pending tmp;
  if thread =? 0 then leave ipc (ret_err KR_IPC_ERR_UNDEF) else
  acoral_rdy_thread thread;;
  next ← kget_next tmp;
  match fuel with
  | O => fail Diverge
  | S fuel => posts_loop fuel ipc next
  end.

Definition acoral_sem_posts (ipc : Z) : K Z :=
  if ipc =? 0 then mret (ret_err KR_IPC_ERR_NULL) else
  type ← ipcf i_type ipc;
  if negb (type =? ACORAL_IPC_SEM) then mret (ret_err KR_IPC_ERR_TYPE) else
  acoral_enter_critical;;
  ipc_spin_lock ipc;;
  count ← ipcf i_count ipc;
  if -32768 <=? count then
    when (count <=? SEM_NOAVAI) (on_ipc ipc count_off);;
    empty ← klist_empty (LQueue (QWait ipc));
    if (empty : bool) then leave ipc (ret_err KR_OK)
    else
      fuel ← get (λ s, size (q_nodes (k_q s)));
      tmp ← kget_next (LQueue (QWait ipc));
      posts_loop fuel ipc tmp
  else mret (ret_err KR_OK).

Definition acoral_sem_post (ipc : Z) : K Z :=
  if ipc =? 0 then mret (ret_err KR_IPC_ERR_NULL) else
  type ← ipcf i_type ipc;
  if negb (type =? ACORAL_IPC_SEM) then mret (ret_err KR_IPC_ERR_TYPE) else
  acoral_enter_critical;;
  ipc_spin_lock ipc;;
  count ← ipcf i_count ipc;
  if -32768 <=? count then
    if count <=? SEM_NOAVAI then
      on_ipc ipc count_off;;
      leave ipc (ret_err KR_OK)
    else
      on_ipc ipc count_off;;
      thread ← acoral_ipc_high_thread ipc;
      if thread =? 0 then leave ipc (ret_err KR_IPC_ERR_UNDEF)
      else
        acoral_rdy_thread thread;;
        leave ipc (ret_err KR_OK)
  else
    ipc_spin_unlock ipc;;
    mret (ret_err KR_IPC_ERR_UNDEF).

Definition acoral_sem_getnum (ipc : Z) : K Z :=
  if ipc =? 0 then mret (s32 (err_code KR_IPC_ERR_NULL)) else
  acoral_enter_critical;;
  ipc_spin_lock ipc;;
  count ← ipcf i_count ipc;
  leave ipc (1 - count).
End ipc.
