(* ===== verification/IpcSpec.v ===== *)
(** * Correctness of mutexes and semaphores

    The operations by the running thread, from any state of the scheduler's
    invariants: taking, blocking, releasing, and running again after a wait. *)
From S2P Require Import Prelude Interfaces Bitops DList Queues KTypes KState Sched SchedSpec Sample Cpu ResPool Thread ThreadSpec Timer Ipc.
From stdpp Require Import list.
#[local] Open Scope Z_scope.

(** The wait queue of object [i] holds the nodes and priorities [pq]. *)
Record waitq (s : kstate) (L : gmap loc (list loc)) (i : Z) (pq : list (loc * Z)) : Prop := {
  wq_list : L !! LQueue (QWait i) = Some pq.*1;
  wq_vals : dvals (q_nodes (k_q s)) pq;
  wq_queue : is_queue (k_q s) (LQueue (QWait i));
}.

(** The executing core runs [cur], outside of interrupts. *)
Definition runs (s : kstate) (cur : Z) : Prop :=
  ∃ c, aget (k_cpus s) (k_cpu s) = Some c ∧ c_running c = cur ∧ c_intr_nesting c = 0.

Section ipc_runs.
Implicit Types s : kstate.

Lemma run_ipcf {A} (f : ipc → A) i s x : k_ipc s !! i = Some x → ipcf f i s = Ret (f x, s).
Proof. intros Hx. apply run_deref. by rewrite Hx. Qed.

Lemma run_on_ipc i f s x : k_ipc s !! i = Some x → on_ipc i f s = Ret (tt, set_k_ipc (<[i := f x]> (k_ipc s)) s).
Proof. intros Hx. unfold on_ipc. by rewrite Hx. Qed.

Lemma run_intr_nesting s cur : runs s cur → acoral_intr_nesting s = Ret (0, s).
Proof. intros (c & Hc & _ & Hn). unfold acoral_intr_nesting. kstep. by rewrite (run_at_cpu _ _ _ _ Hc), Hn. Qed.

Lemma run_cur s cur : runs s cur → acoral_cur_thread s = Ret (cur, s).
Proof. intros (c & Hc & Hr & _). unfold acoral_cur_thread. kstep. by rewrite (run_at_cpu _ _ _ _ Hc), Hr. Qed.

Lemma ipc_same_inv s L m : sched_inv s L → core_inv s L →
  sched_inv (set_k_ipc m s) L ∧ core_inv (set_k_ipc m s) L.
Proof. intros HI HC. split; [by eapply sched_inv_same|by eapply core_inv_same]. Qed.

Lemma run_ipc_lock s i x : k_ipc s !! i = Some x → i_lock x = 0 →
  ipc_spin_lock i s = Ret (tt, set_k_ipc (<[i := set_i_lock 1 x]> (k_ipc s)) s).
Proof.
  intros Hx Hl. unfold ipc_spin_lock. erewrite run_bind by (by apply run_ipcf). rewrite Hl. by apply run_on_ipc.
Qed.

(** Entering: the critical section and the lock of the object. *)
Lemma ipc_enter s L i x c :
  sched_inv s L → core_inv s L → k_ipc s !! i = Some x → i_lock x = 0 → aget (k_cpus s) (k_cpu s) = Some c →
  let s' := set_k_ipc (<[i := set_i_lock 1 x]> (k_ipc s)) (set_k_cpus (aset (k_cpu s) (entered c) (k_cpus s)) s) in
  (∀ (A : Type) (f : K A), (acoral_enter_critical;; ipc_spin_lock i;; f) s = f s') ∧ sched_inv s' L ∧ core_inv s' L.
Proof.
  intros HI HC Hx Hl Hc s'.
  pose proof (enter_critical_run s c Hc) as Hen.
  destruct (enter_critical_spec s L HI HC) as (s1 & Hen' & _ & HI1 & HC1 & _).
  rewrite Hen in Hen'. injection Hen' as <-. split; [|by apply ipc_same_inv].
  intros A f. erewrite run_bind by exact Hen. by erewrite run_bind by (by apply run_ipc_lock).
Qed.

(** Leaving with the object [x], which is locked. *)
Lemma ipc_leave s L i x e :
  sched_inv s L → core_inv s L → k_ipc s !! i = Some x →
  ∃ s', leave i e s = Ret (e, s') ∧ sched_frame (set_k_ipc (<[i := set_i_lock 0 x]> (k_ipc s)) s) s' ∧
    sched_inv s' L ∧ core_inv s' L.
Proof.
  intros HI HC Hx. destruct (ipc_same_inv s L (<[i := set_i_lock 0 x]> (k_ipc s)) HI HC) as [HI1 HC1].
  destruct (exit_critical_spec _ L HI1 HC1) as (s' & Hex & HF & HI' & HC').
  exists s'. split_and!; try done. unfold leave, ipc_spin_unlock.
  erewrite run_bind by (by apply run_on_ipc). by erewrite run_bind by done.
Qed.

Lemma frame_ipc s s' : sched_frame s s' → k_ipc s' = k_ipc s ∧ k_q s' = k_q s ∧ k_res s' = k_res s.
Proof. intros [HV HR HO]. split_and!; [apply HO|apply HV|done]. Qed.

(** What an operation that ends with an unlocked object [x'] leaves alone. *)
Record ipc_done (s s' : kstate) (L : gmap loc (list loc)) (i : Z) (x' : ipc) : Prop := {
  id_inv : sched_inv s' L;
  id_core : core_inv s' L;
  id_ipc : k_ipc s' = <[i := x']> (k_ipc s);
  id_view : tcb_view s' = tcb_view s;
  id_res : k_res s' = k_res s;
  id_q : k_q s' = k_q s;
  id_ext : k_ext s' = k_ext s;
  id_cpu : k_cpu s' = k_cpu s;
}.

(** Leaving from a state that differs from [s] in its cores and in object [i]. *)
Lemma leave_done s s1 L i x1 e :
  sched_inv s1 L → core_inv s1 L → k_ipc s1 = <[i := x1]> (k_ipc s) →
  k_tcb s1 = k_tcb s → k_res s1 = k_res s → k_q s1 = k_q s → k_ext s1 = k_ext s → k_cpu s1 = k_cpu s →
  ∃ s', leave i e s1 = Ret (e, s') ∧ ipc_done s s' L i (set_i_lock 0 x1).
Proof.
  intros HI HC Hx Ht Hr Hq Hext Hcpu.
  destruct (ipc_leave s1 L i x1 e HI HC) as (s' & Hrun & HF & HI' & HC'); [by rewrite Hx, lookup_insert_eq|].
  destruct (frame_ipc _ _ HF) as (Hi & Hq' & Hr'). simpl in Hi, Hq', Hr'.
  exists s'. split; [done|]. split; try done; try congruence.
  - by rewrite Hi, Hx, insert_insert_eq.
  - rewrite (frame_tcb_view _ _ HF). unfold tcb_view. simpl. by rewrite Ht.
  - rewrite <- Hext. apply HF.
  - rewrite <- Hcpu. apply HF.
Qed.

Lemma mutex_take_done s s1 L i x1 cur :
  sched_inv s1 L → core_inv s1 L → k_ipc s1 = <[i := x1]> (k_ipc s) →
  k_tcb s1 = k_tcb s → k_res s1 = k_res s → k_q s1 = k_q s → k_ext s1 = k_ext s → k_cpu s1 = k_cpu s →
  ∃ s', mutex_take i cur s1 = Ret (ret_err KR_OK, s') ∧
    ipc_done s s' L i (set_i_lock 0 (set_i_data cur (set_count MUTEX_NOAVAI x1))).
Proof.
  intros HI HC Hx Ht Hr Hq Hext Hcpu. unfold mutex_take.
  assert (k_ipc s1 !! i = Some x1) as Hi by (by rewrite Hx, lookup_insert_eq).
  erewrite run_bind by (by apply run_on_ipc).
  erewrite run_bind by (apply run_on_ipc; simpl; apply lookup_insert_eq). simpl.
  match goal with |- ∃ _, leave _ _ ?a = _ ∧ _ => apply (leave_done s a) end; simpl; try done;
    try (by eapply sched_inv_same); try (by eapply core_inv_same).
  by rewrite Hx, !insert_insert_eq.
Qed.
End ipc_runs.

(** ** Blocking *)
Section block.
Implicit Types s : kstate.

(** Leaving the outermost critical section when the running thread is
    suspended: the highest ready thread runs. *)
Lemma exit_switches s L c p :
  sched_inv s L → core_inv s L → aget (k_cpus s) (k_cpu s) = Some c → c_critical_nesting c = 1 →
  c_need_sched c ≠ 0 → c_intr_nesting c = 0 → k_sched_enable s ≠ 0 →
  k_tcb s !! c_running c = Some p → is_suspended p = true → is_ready p = false →
  ∃ s' t, acoral_exit_critical s = Ret (tt, s') ∧ sched_frame s s' ∧ sched_inv s' L ∧ core_inv s' L ∧
    highest L (k_cpu s) t ∧ t ≠ c_running c ∧ acoral_cur_thread s' = Ret (t, s').
Proof.
  intros HI HC Hc Hn Hneed Hin Hen Hp Hs Hr.
  destruct (exit_critical_spec s L HI HC) as (s' & Hex & HF & HI' & HC').
  pose proof Hex as Hrun. erewrite exit_critical_last in Hrun by (done || (right; done)).
  set (s1 := set_k_cpus (aset (k_cpu s) (left_critical c) (k_cpus s)) s) in *.
  assert (aget (k_cpus s1) (k_cpu s1) = Some (left_critical c)) as Hc1 by (by eapply aget_aset_eq).
  erewrite acoral_sched_run in Hrun by exact Hc1. rewrite bool_decide_eq_true_2 in Hrun by done.
  assert (sched_inv s1 L) as HI1 by (eapply sched_inv_view; [by eapply view_same_cpus|done]).
  assert (core_inv s1 L) as HC1 by (by eapply core_inv_cpus).
  destruct (switch_context_run s1 L HI1 HC1) as (t & c1 & p1 & n & Hhi & Hc1' & Hp1 & Hnn & Hsw).
  assert (c1 = left_critical c) as -> by congruence. simpl in Hp1.
  assert (p1 = p) as -> by congruence. rewrite Hsw in Hrun. injection Hrun as <-.
  assert (t ≠ c_running c) as Hne.
  { intros ->. destruct Hhi as (pr & xs & Hpr & Hrq & _).
    destruct (si_member _ _ HI1 (k_cpu s1) pr (LThread (c_running c) ready)) as (t' & th' & [= <-] & Ht' & Hr' & _);
      [apply HI1|done|rewrite Hrq; by left|]. simpl in Ht'. congruence. }
  exists (switched s1 (left_critical c) t p n), t. split_and!; try done.
  rewrite switched_eq by done. unfold acoral_cur_thread. kstep.
  assert (now_running (c_running (left_critical c)) t p n = t) as ->.
  { unfold now_running, switch_decision. simpl. rewrite (proj2 (Z.eqb_neq _ _)) by done. simpl.
    destruct (Z.eqb_spec (t_state p) ACORAL_THREAD_STATE_EXIT) as [E|]; [|].
    { exfalso. unfold is_suspended in Hs. by rewrite E in Hs. }
    unfold can_switch. unfold is_suspended in Hs. by rewrite Hs. }
  erewrite run_at_cpu by (simpl; by eapply aget_aset_eq). done.
Qed.

(** Suspending inside of a critical section: the core stays with its thread. *)
Lemma suspend_nested s L t th c :
  sched_inv s L → core_inv s L → k_tcb s !! t = Some th → is_ready th = true → t_cpu th = k_cpu s →
  other_ready s L t → aget (k_cpus s) (k_cpu s) = Some c → 0 < c_critical_nesting c < 2 ^ 32 - 1 →
  ∃ s' a b c', let L' := rq_remove (t_cpu th) (t_prio th) (LThread t ready) a b L in
    acoral_suspend_thread t s = Ret (ret_err KR_OK, s') ∧ rq L (t_cpu th) (t_prio th) = a ++ LThread t ready :: b ∧
    sched_inv s' L' ∧ core_inv s' L' ∧ k_tcb s' = <[t := suspended th]> (k_tcb s) ∧
    k_res s' = k_res s ∧ kept s s' ∧ aget (k_cpus s') (k_cpu s) = Some c' ∧ c_running c' = c_running c ∧
    c_critical_nesting c' = c_critical_nesting c ∧ c_intr_nesting c' = c_intr_nesting c ∧ c_need_sched c' = 1.
Proof.
  intros HI HC Ht Hr Hcpu Ho Hc Hn.
  destruct (suspend_thread_spec s L t th) as (s' & a & b & Hrun & Hab & HI' & HC' & _ & Hres & Hk); [done..|].
  exists s', a, b. pose proof (enter_critical_run s c Hc) as Hen.
  set (s1 := set_k_cpus (aset (k_cpu s) (entered c) (k_cpus s)) s) in *.
  assert (sched_inv s1 L) as HI1 by (eapply sched_inv_view; [by eapply view_same_cpus|done]).
  destruct (rdyqueue_del_spec s1 L t th HI1 Ht Hr) as (s2 & a2 & b2 & Hdel & _ & _ & Htcb2 & _ & Hr2 & Ho2 & _).
  destruct (Hr2 (k_cpu s) (entered c)) as (c2 & Hc2 & Hs2 & Hn2); [by eapply aget_aset_eq|].
  destruct Hs2 as (_ & Hcn & Hin & Hrn & _). simpl in Hcn. rewrite wrapu_small in Hcn by lia.
  assert (k_cpu s2 = k_cpu s) as Hcpu2 by apply Ho2.
  assert (acoral_exit_critical s2 = Ret (tt, set_k_cpus (aset (k_cpu s2)
    (set_c_critical_nesting (c_critical_nesting c2 - 1) c2) (k_cpus s2)) s2)) as Hex
    by (apply exit_critical_nested; [by rewrite Hcpu2|lia]).
  assert (s' = set_k_cpus (aset (k_cpu s2) (set_c_critical_nesting (c_critical_nesting c2 - 1) c2) (k_cpus s2)) s2) as ->.
  { revert Hrun. unfold acoral_suspend_thread. kstep. fold (is_ready th). rewrite Hr. cbn [negb].
    kstep. kstep. rewrite Hcpu, Z.eqb_refl. cbn [negb]. do 3 erewrite run_bind by done. by intros [= <-]. }
  exists (set_c_critical_nesting (c_critical_nesting c2 - 1) c2). split_and!; try done; simpl.
  - rewrite Hcpu2. by eapply aget_aset_eq.
  - lia.
  - by rewrite Hn2, decide_True.
Qed.

(** The lists after the ready thread [cur] joined a wait queue. *)
Definition blocked_lists (cpu prio cur i v : Z) (a b : list loc) (pq : list (loc * Z)) (L : gmap loc (list loc)) :=
  <[LQueue (QWait i) := (pq_insert (LThread cur pending) v pq).*1]>
    (delete (LThread cur pending) (rq_remove cpu prio (LThread cur ready) a b L)).

(** Joining a wait queue, for a suspended thread. *)
Lemma wait_queue_add_spec s L i cur th pq v :
  sched_inv s L → core_inv s L → k_tcb s !! cur = Some th → is_ready th = false → waitq s L i pq →
  L !! LThread cur pending = Some [] → valof (q_nodes (k_q s)) (LThread cur pending) = Some v →
  ∃ q', let L' := <[LQueue (QWait i) := (pq_insert (LThread cur pending) v pq).*1]> (delete (LThread cur pending) L) in
    let s' := set_k_q q' (set_k_tcb (<[cur := set_t_ipc i th]> (k_tcb s)) s) in
    acoral_ipc_wait_queue_add i cur s = Ret (tt, s') ∧ sched_inv s' L' ∧ core_inv s' L' ∧
    waitq s' L' i (pq_insert (LThread cur pending) v pq).
Proof.
  intros HI HC Ht Hr [Hl Hv Hq] Hx Hval.
  set (s1 := set_k_tcb (<[cur := set_t_ipc i th]> (k_tcb s)) s).
  assert (sched_inv s1 L ∧ core_inv s1 L) as [HI1 HC1].
  { split; [by eapply sched_inv_unready|by apply core_inv_tcb]. }
  destruct (prio_queue_add_rep (k_q s) L (LQueue (QWait i)) pq (LThread cur pending) v)
    as (q' & Hadd & HQ & Hdv & Hlk & _); [apply HI|done..|].
  exists q'. cbv zeta. set (L' := <[LQueue (QWait i) := _]> _) in *.
  assert (∀ c p, L' !! LQueue (QReady c p) = L !! LQueue (QReady c p)) as HL.
  { intros c p. unfold L'. by rewrite lookup_insert_ne, lookup_delete_ne. }
  split_and!.
  - unfold acoral_ipc_wait_queue_add. erewrite run_bind by (by apply run_on_thr).
    by erewrite run_on_q by done.
  - by eapply (sched_inv_lists s1).
  - by eapply (core_inv_lists s1).
  - split; [unfold L'; apply lookup_insert_eq|done|]. unfold is_queue. simpl. by rewrite Hlk.
Qed.

(** Suspending, waiting and leaving, from inside of the object's lock. *)
Lemma block_spec {A} s L i x cur th c pq v (resume : K A) :
  sched_inv s L → core_inv s L → aget (k_cpus s) (k_cpu s) = Some c → c_running c = cur →
  c_critical_nesting c = 1 → c_intr_nesting c = 0 → k_sched_enable s ≠ 0 →
  k_tcb s !! cur = Some th → is_ready th = true → t_cpu th = k_cpu s → other_ready s L cur →
  k_ipc s !! i = Some x → waitq s L i pq → L !! LThread cur pending = Some [] →
  valof (q_nodes (k_q s)) (LThread cur pending) = Some v →
  ∃ s' a b t, let L' := blocked_lists (k_cpu s) (t_prio th) cur i v a b pq L in
    (acoral_suspend_self;; acoral_ipc_wait_queue_add i cur;; leave i 0;; park cur resume) s = Ret (None, s') ∧
    rq L (k_cpu s) (t_prio th) = a ++ LThread cur ready :: b ∧ sched_inv s' L' ∧ core_inv s' L' ∧
    waitq s' L' i (pq_insert (LThread cur pending) v pq) ∧
    k_ipc s' = <[i := set_i_lock 0 x]> (k_ipc s) ∧
    tcb_view s' = <[cur := thread_view (set_t_ipc i (suspended th))]> (tcb_view s) ∧
    highest L' (k_cpu s) t ∧ t ≠ cur ∧ acoral_cur_thread s' = Ret (t, s').
Proof.
  intros HI HC Hc Hrun Hn Hin Hen Ht Hr Hcpu Ho Hx [Hw1 Hw2 Hw3] Hlone Hval.
  destruct (suspend_nested s L cur th c) as
    (s1 & a & b & c1 & Hsus & Hab & HI1 & HC1 & Htcb1 & _ & Hk1 & Hc1 & Hr1 & Hn1 & Hi1 & Hneed1); [done..|lia|].
  rewrite Hcpu in *. set (L1 := rq_remove (k_cpu s) (t_prio th) (LThread cur ready) a b L) in *.
  assert (k_cpu s1 = k_cpu s ∧ k_ipc s1 = k_ipc s ∧ k_sched_enable s1 = k_sched_enable s) as (Hcpu1 & Hipc1 & Hen1).
  { pose proof (kp_other _ _ Hk1) as Hso. unfold same_other in Hso. by destruct_and!. }
  assert (k_tcb s1 !! cur = Some (suspended th)) as Ht1 by (rewrite Htcb1; apply lookup_insert_eq).
  destruct (wait_queue_add_spec s1 L1 i cur (suspended th) pq v) as (q' & Hadd & HI2 & HC2 & Hw);
    [done|done|done|apply suspended_not_ready| | |by rewrite (kp_vals _ _ Hk1)|].
  { split; [unfold L1, rq_remove; by rewrite !lookup_insert_ne| |unfold is_queue; by rewrite (kp_lock _ _ Hk1)].
    eapply dvals_ext; [|exact Hw2]. intros y _. apply Hk1. }
  { unfold L1, rq_remove. by rewrite !lookup_insert_ne. }
  cbv zeta in Hadd, HI2, HC2, Hw. set (L2 := <[LQueue (QWait i) := _]> _) in *.
  set (s2 := set_k_q q' (set_k_tcb (<[cur := set_t_ipc i (suspended th)]> (k_tcb s1)) s1)) in *.
  set (s3 := set_k_ipc (<[i := set_i_lock 0 x]> (k_ipc s2)) s2).
  destruct (ipc_same_inv s2 L2 (<[i := set_i_lock 0 x]> (k_ipc s2)) HI2 HC2) as [HI3 HC3]. fold s3 in HI3, HC3.
  destruct (exit_switches s3 L2 c1 (set_t_ipc i (suspended th))) as
    (s4 & t & Hex & HF & HI4 & HC4 & Hhi & Hne & Hcur4); try done.
  { simpl. by rewrite Hcpu1. } { lia. } { by rewrite Hneed1. } { congruence. } { simpl. congruence. }
  { simpl. rewrite Hr1, Hrun. apply lookup_insert_eq. }
  { unfold is_suspended. simpl. unfold suspend_state. flags. }
  { apply suspended_not_ready. }
  simpl in Hhi, Hne. rewrite Hcpu1 in Hhi. rewrite Hr1, Hrun in Hne.
  destruct (frame_ipc _ _ HF) as (Hipc4 & Hq4 & _).
  exists s4, a, b, t. cbv zeta. change (blocked_lists _ _ _ _ _ _ _ _ _) with L2. split_and!; try done.
  - assert (acoral_cur_thread s = Ret (cur, s)) as Hcur.
    { unfold acoral_cur_thread. kstep. by rewrite (run_at_cpu _ _ _ _ Hc), Hrun. }
    unfold acoral_suspend_self. erewrite run_bind; [|by erewrite run_bind by exact Hcur].
    erewrite run_bind by exact Hadd.
    erewrite run_bind; [|unfold leave, ipc_spin_unlock].
    2:{ erewrite run_bind by (apply run_on_ipc; simpl; by rewrite Hipc1). by erewrite run_bind by exact Hex. }
    unfold park. erewrite run_bind by exact Hcur4. by rewrite (proj2 (Z.eqb_neq _ _)).
  - destruct Hw as [H1 H2 H3]. split; [done|by rewrite Hq4|by rewrite Hq4].
  - rewrite Hipc4. simpl. by rewrite Hipc1.
  - rewrite (frame_tcb_view _ _ HF). unfold tcb_view. simpl. rewrite Htcb1, insert_insert_eq. by rewrite fmap_insert.
Qed.
End block.

Section mutex.
Context `{!Allocator kstate, !Layout}.
Implicit Types s : kstate.

(** A mutex object: free, or held by a thread. *)
Definition mutex_free (x : ipc) : Prop := i_type x = ACORAL_IPC_MUTEX ∧ i_count x = MUTEX_AVAI ∧ i_data x = 0.
Definition mutex_held (x : ipc) (t : Z) : Prop :=
  i_type x = ACORAL_IPC_MUTEX ∧ i_count x = s16 MUTEX_NOAVAI ∧ i_data x = t ∧ t ≠ 0.

Definition hold (cur : Z) (x : ipc) : ipc := set_i_data cur (set_count MUTEX_NOAVAI x).

Lemma hold_held x cur : i_type x = ACORAL_IPC_MUTEX → cur ≠ 0 → mutex_held (hold cur x) cur.
Proof. intros Ht Hc. by split_and!. Qed.

Lemma set_i_lock_id x : i_lock x = 0 → set_i_lock 0 (set_i_lock 1 x) = x.
Proof. intros Hl. destruct x; simpl in *. by subst. Qed.

(** The calls that fail before they touch anything. *)
Lemma mutex_refused s cur i x c :
  runs s cur → (k_ipc s !! i = Some x → i_type x ≠ ACORAL_IPC_MUTEX → i ≠ 0 →
    acoral_mutex_trypend i s = Ret (ret_err KR_IPC_ERR_TYPE, s) ∧
    acoral_mutex_pend i s = Ret (Some (ret_err KR_IPC_ERR_TYPE), s) ∧
    acoral_mutex_post i s = Ret (ret_err KR_IPC_ERR_TYPE, s)) ∧
  acoral_mutex_trypend 0 s = Ret (ret_err KR_IPC_ERR_NULL, s) ∧
  acoral_mutex_pend 0 s = Ret (Some (ret_err KR_IPC_ERR_NULL), s) ∧
  acoral_mutex_post 0 s = Ret (ret_err KR_IPC_ERR_NULL, s) ∧
  (∀ s1, aget (k_cpus s1) (k_cpu s1) = Some c → 0 < c_intr_nesting c →
    acoral_mutex_trypend i s1 = Ret (ret_err KR_IPC_ERR_INTR, s1) ∧
    acoral_mutex_pend i s1 = Ret (Some (ret_err KR_IPC_ERR_INTR), s1)).
Proof.
  intros Hruns. pose proof (run_intr_nesting s cur Hruns) as Hn. pose proof (run_cur s cur Hruns) as Hcur.
  split; [intros Hx Ht Hi|split_and!].
  - unfold acoral_mutex_trypend, acoral_mutex_pend, acoral_mutex_post.
    rewrite (proj2 (Z.eqb_neq i 0)) by done.
    split_and!; [rewrite (run_bind _ _ _ _ _ Hn); cbn [Z.ltb Z.compare]..|]; rewrite (run_bind _ _ _ _ _ Hcur);
      rewrite (run_bind _ _ _ _ _ (run_ipcf i_type i s x Hx)); by rewrite (proj2 (Z.eqb_neq (i_type x) _)).
  - unfold acoral_mutex_trypend. erewrite run_bind by exact Hn. cbn [Z.ltb Z.compare]. by erewrite run_bind by exact Hcur.
  - unfold acoral_mutex_pend. erewrite run_bind by exact Hn. cbn [Z.ltb Z.compare]. by erewrite run_bind by exact Hcur.
  - unfold acoral_mutex_post. by erewrite run_bind by exact Hcur.
  - intros s1 Hc Hn1. assert (acoral_intr_nesting s1 = Ret (c_intr_nesting c, s1)) as Hn'.
    { unfold acoral_intr_nesting. kstep. by apply run_at_cpu. }
    unfold acoral_mutex_trypend, acoral_mutex_pend.
    split; erewrite run_bind by exact Hn'; by rewrite (proj2 (Z.ltb_lt 0 _)).
Qed.

(** The common beginning of [trypend] and [pend], up to the decision. *)
Lemma mutex_pend_start s L i x cur :
  sched_inv s L → core_inv s L → runs s cur → i ≠ 0 → k_ipc s !! i = Some x →
  i_type x = ACORAL_IPC_MUTEX → i_lock x = 0 →
  ∃ s1 c, aget (k_cpus s) (k_cpu s) = Some c ∧
    s1 = set_k_ipc (<[i := set_i_lock 1 x]> (k_ipc s)) (set_k_cpus (aset (k_cpu s) (entered c) (k_cpus s)) s) ∧
    sched_inv s1 L ∧ core_inv s1 L ∧
    acoral_mutex_trypend i s = (if i_count x =? MUTEX_AVAI then mutex_take i cur
      else leave i (ret_err KR_IPC_ERR_TIMEOUT)) s1 ∧
    acoral_mutex_pend i s = (if i_count x =? MUTEX_AVAI then r ← mutex_take i cur; mret (Some r)
      else acoral_suspend_self;; acoral_ipc_wait_queue_add i cur;; leave i 0;;
        park cur (acoral_mutex_pend_resume i cur)) s1.
Proof.
  intros HI HC Hruns Hi Hx Ht Hl. pose proof Hruns as (c & Hc & _).
  pose proof (run_intr_nesting s cur Hruns) as Hn. pose proof (run_cur s cur Hruns) as Hcur.
  destruct (ipc_enter s L i x c HI HC Hx Hl Hc) as (Hen & HI1 & HC1).
  eexists _, c. split; [done|]. split; [done|]. split; [done|]. split; [done|].
  unfold acoral_mutex_trypend, acoral_mutex_pend.
  split; (erewrite run_bind by exact Hn); cbn [Z.ltb Z.compare]; erewrite run_bind by exact Hcur;
    rewrite (proj2 (Z.eqb_neq i 0)) by done; cbn iota; (erewrite run_bind by (by apply run_ipcf));
    rewrite Ht, Z.eqb_refl; cbn [negb]; rewrite Hen;
    erewrite run_bind by (apply run_ipcf; simpl; apply lookup_insert_eq); done.
Qed.

(** Taking a mutex.  On a free mutex [acoral_mutex_trypend] and
    [acoral_mutex_pend] both return [KR_OK] and the mutex is held by the running
    thread; on a held one [acoral_mutex_trypend] returns [KR_IPC_ERR_TIMEOUT]
    and the mutex stays as it is.  Nothing else changes but the scheduling, and
    the object is unlocked.  [NULL], an object of another type and a call from
    an interrupt are refused with their error and without any change. *)
Theorem mutex_take_correct s L i x cur c :
  sched_inv s L → core_inv s L → runs s cur → i ≠ 0 → cur ≠ 0 → k_ipc s !! i = Some x →
  i_lock x = 0 →
  (mutex_free x → ∃ s', acoral_mutex_trypend i s = Ret (ret_err KR_OK, s') ∧
    acoral_mutex_pend i s = Ret (Some (ret_err KR_OK), s') ∧
    ipc_done s s' L i (hold cur x) ∧ mutex_held (hold cur x) cur) ∧
  (∀ t, mutex_held x t → ∃ s', acoral_mutex_trypend i s = Ret (ret_err KR_IPC_ERR_TIMEOUT, s') ∧
    ipc_done s s' L i x) ∧
  (i_type x ≠ ACORAL_IPC_MUTEX → acoral_mutex_trypend i s = Ret (ret_err KR_IPC_ERR_TYPE, s) ∧
    acoral_mutex_pend i s = Ret (Some (ret_err KR_IPC_ERR_TYPE), s)) ∧
  acoral_mutex_trypend 0 s = Ret (ret_err KR_IPC_ERR_NULL, s) ∧
  (∀ s1, aget (k_cpus s1) (k_cpu s1) = Some c → 0 < c_intr_nesting c →
    acoral_mutex_pend i s1 = Ret (Some (ret_err KR_IPC_ERR_INTR), s1)).
Proof.
  intros HI HC Hruns Hi Hcur Hx Hl.
  destruct (mutex_refused s cur i x c Hruns) as (Hty & Hnull & _ & _ & Hintr). split_and!.
  - intros (Ht & Hcnt & _).
    destruct (mutex_pend_start s L i x cur) as (s1 & c1 & Hc1 & Hs1 & HI1 & HC1 & Htry & Hpend); [done..|].
    rewrite Hcnt in Htry, Hpend. change (MUTEX_AVAI =? MUTEX_AVAI) with true in Htry, Hpend. cbn iota in Htry, Hpend.
    destruct (mutex_take_done s s1 L i (set_i_lock 1 x) cur) as (s' & Htake & Hd); [done|done|by rewrite Hs1..|].
    exists s'. split_and!; [by rewrite Htry|rewrite Hpend; by erewrite run_bind by done| |by apply hold_held].
    replace (hold cur x) with (set_i_lock 0 (hold cur (set_i_lock 1 x))); [done|].
    destruct x; simpl in *. by subst.
  - intros t (Ht & Hcnt & _).
    destruct (mutex_pend_start s L i x cur) as (s1 & c1 & Hc1 & Hs1 & HI1 & HC1 & Htry & _); [done..|].
    rewrite Hcnt in Htry. change (s16 MUTEX_NOAVAI =? MUTEX_AVAI) with false in Htry. cbn iota in Htry.
    destruct (leave_done s s1 L i (set_i_lock 1 x) (ret_err KR_IPC_ERR_TIMEOUT)) as (s' & Hleave & Hd); [done|done|by rewrite Hs1..|].
    exists s'. rewrite set_i_lock_id in Hd by done. by rewrite Htry.
  - intros Ht. destruct (Hty Hx Ht Hi) as (H1 & H2 & _). done.
  - done.
  - intros s1 Hc1 Hn1. by apply Hintr.
Qed.

(** C33 Blocking on a mutex.  [acoral_mutex_pend] on a held mutex, called outside
    of critical sections, does not return to its thread: the running thread is
    suspended, refers to the mutex, leaves its ready queue and joins the wait
    queue behind every waiter of no lower priority (by the value of its
    [pending] node); the mutex keeps its holder and is unlocked; and the core
    goes on with the highest-priority ready thread. *)
Theorem mutex_pend_blocks s L i x cur th c pq v holder :
  sched_inv s L → core_inv s L → aget (k_cpus s) (k_cpu s) = Some c → c_running c = cur →
  c_critical_nesting c = 0 → c_intr_nesting c = 0 → k_sched_enable s ≠ 0 →
  i ≠ 0 → k_ipc s !! i = Some x → i_lock x = 0 → mutex_held x holder →
  k_tcb s !! cur = Some th → is_ready th = true → t_cpu th = k_cpu s → other_ready s L cur →
  waitq s L i pq → L !! LThread cur pending = Some [] →
  valof (q_nodes (k_q s)) (LThread cur pending) = Some v →
  ∃ s' a b t, let L' := blocked_lists (k_cpu s) (t_prio th) cur i v a b pq L in
    acoral_mutex_pend i s = Ret (None, s') ∧ rq L (k_cpu s) (t_prio th) = a ++ LThread cur ready :: b ∧
    sched_inv s' L' ∧ core_inv s' L' ∧ waitq s' L' i (pq_insert (LThread cur pending) v pq) ∧
    k_ipc s' = k_ipc s ∧
    tcb_view s' = <[cur := thread_view (set_t_ipc i (suspended th))]> (tcb_view s) ∧
    highest L' (k_cpu s) t ∧ t ≠ cur ∧ acoral_cur_thread s' = Ret (t, s').
Proof.
  intros HI HC Hc Hrun Hn Hin Hen Hi Hx Hl (Hty & Hcnt & _) Ht Hr Hcpu Ho [Hw1 Hw2 Hw3] Hlone Hval.
  destruct (mutex_pend_start s L i x cur) as (s1 & c1 & Hc1 & Hs1 & HI1 & HC1 & _ & Hpend);
    [done|done|by exists c|done..|].
  assert (c1 = c) as -> by congruence. rewrite Hcnt in Hpend.
  change (s16 MUTEX_NOAVAI =? MUTEX_AVAI) with false in Hpend. cbn iota in Hpend.
  subst s1. set (s1 := set_k_ipc _ _) in *.
  destruct (block_spec s1 L i (set_i_lock 1 x) cur th (entered c) pq v (acoral_mutex_pend_resume i cur)) as
    (s' & a & b & t & Hblock & Hab & HI' & HC' & Hw & Hipc & Hv & Hhi & Hne & Hcur); try done.
  { by eapply aget_aset_eq. } { simpl. by rewrite Hn. } { simpl. apply lookup_insert_eq. }
  exists s', a, b, t. split_and!; try done.
  - by rewrite Hpend.
  - rewrite Hipc. simpl. rewrite insert_insert_eq, set_i_lock_id by done. by apply insert_id.
Qed.

Lemma wait_queue_del_spec s L i cur th v pa pb :
  sched_inv s L → core_inv s L → k_tcb s !! cur = Some th → waitq s L i (pa ++ (LThread cur pending, v) :: pb) →
  let L' := <[LThread cur pending := []]> (<[LQueue (QWait i) := (pa ++ pb).*1]> L) in
  ∃ q', let s' := set_k_tcb (<[cur := set_t_ipc 0 th]> (k_tcb s)) (set_k_q q' s) in
    acoral_ipc_wait_queue_del i cur s = Ret (tt, s') ∧ sched_inv s' L' ∧ core_inv s' L' ∧ waitq s' L' i (pa ++ pb).
Proof.
  intros HI HC Ht [Hl Hv Hq] L'. rewrite fmap_app in Hl. simpl in Hl.
  destruct (queue_del_rep (k_q s) L (LQueue (QWait i)) (LQueue (QWait i)) (LThread cur pending) pa.*1 pb.*1)
    as (q' & Hdel & HQ & Hlk & Hval); [apply HI|done|done|]. rewrite <- fmap_app in HQ.
  assert (∀ c p, L' !! LQueue (QReady c p) = L !! LQueue (QReady c p)) as HL.
  { intros c p. unfold L'. by rewrite !lookup_insert_ne. }
  assert (sched_inv (set_k_q q' s) L' ∧ core_inv (set_k_q q' s) L') as [HI1 HC1].
  { split; [by eapply sched_inv_lists|by eapply core_inv_lists]. }
  exists q'. cbv zeta. split_and!.
  - unfold acoral_ipc_wait_queue_del. erewrite run_bind by (by apply run_on_q).
    exact (run_on_thr cur _ (set_k_q q' s) th Ht).
  - by eapply (sched_inv_thr (set_k_q q' s)).
  - exact (core_inv_tcb (set_k_q q' s) L' cur _ HC1).
  - split; [unfold L'; rewrite lookup_insert_ne by done; apply lookup_insert_eq| |unfold is_queue; simpl; by rewrite Hlk].
    eapply dvals_ext; [intros y _; apply Hval|]. apply Forall_app in Hv as [? [_ ?]%Forall_cons]. by apply Forall_app.
Qed.

(** Running again after a wait.  If the mutex has no holder by then, the
    thread takes it and leaves the wait queue, whose other members keep their
    order.  If another thread took it first, [acoral_mutex_pend] returns
    [KR_IPC_ERR_UNDEF] without the mutex, and the thread stays on the wait
    queue although it is not waiting any more. *)
Theorem mutex_pend_resumed s L i x cur th v pa pb :
  sched_inv s L → core_inv s L → runs s cur → k_ipc s !! i = Some x → i_lock x = 0 →
  k_tcb s !! cur = Some th → waitq s L i (pa ++ (LThread cur pending, v) :: pb) →
  (i_data x = 0 → ∃ s', let L' := <[LThread cur pending := []]> (<[LQueue (QWait i) := (pa ++ pb).*1]> L) in
    acoral_mutex_pend_resume i cur s = Ret (ret_err KR_OK, s') ∧ sched_inv s' L' ∧ core_inv s' L' ∧
    waitq s' L' i (pa ++ pb) ∧ k_ipc s' = <[i := hold cur x]> (k_ipc s) ∧
    tcb_view s' = <[cur := thread_view (set_t_ipc 0 th)]> (tcb_view s)) ∧
  (i_data x ≠ 0 → ∃ s', acoral_mutex_pend_resume i cur s = Ret (ret_err KR_IPC_ERR_UNDEF, s') ∧ ipc_done s s' L i x).
Proof.
  intros HI HC (c & Hc & _) Hx Hl Ht Hw.
  destruct (ipc_enter s L i x c HI HC Hx Hl Hc) as (Hen & HI1 & HC1).
  set (s1 := set_k_ipc (<[i := set_i_lock 1 x]> (k_ipc s)) (set_k_cpus (aset (k_cpu s) (entered c) (k_cpus s)) s)) in *.
  assert (k_ipc s1 !! i = Some (set_i_lock 1 x)) as Hx1 by (simpl; apply lookup_insert_eq).
  split; intros Hd; unfold acoral_mutex_pend_resume; rewrite Hen;
    erewrite run_bind by (by apply run_ipcf); change (i_data (set_i_lock 1 x)) with (i_data x).
  - rewrite Hd. cbn [Z.eqb].
    destruct (wait_queue_del_spec s1 L i cur th v pa pb) as (q' & Hdel & HI2 & HC2 & Hw2);
      [done|done|done|by destruct Hw as [? ? ?]; split|].
    set (s2 := set_k_tcb (<[cur := set_t_ipc 0 th]> (k_tcb s1)) (set_k_q q' s1)) in *.
    destruct (mutex_take_done s2 s2 _ i (set_i_lock 1 x) cur HI2 HC2) as (s' & Htake & [HI3 HC3 Hi3 Hv3 Hr3 Hq3]);
      [by rewrite insert_id|done..|].
    exists s'. split_and!; try done.
    + by erewrite run_bind by exact Hdel.
    + destruct Hw2 as [? ? ?]. by split; rewrite ?Hq3.
    + rewrite Hi3. simpl. rewrite insert_insert_eq. f_equal. destruct x; simpl in *. by subst.
    + rewrite Hv3. unfold tcb_view. simpl. by rewrite fmap_insert.
  - rewrite (proj2 (Z.eqb_neq _ _)) by done.
    destruct (leave_done s s1 L i (set_i_lock 1 x) (ret_err KR_IPC_ERR_UNDEF)) as (s' & Hleave & Hdn); [done..|].
    exists s'. rewrite set_i_lock_id in Hdn by done. done.
Qed.

Lemma run_high_thread s L i pq :
  sched_inv s L → waitq s L i pq →
  (pq = [] → acoral_ipc_high_thread i s = Ret (0, s)) ∧
  (∀ w v pq', pq = (LThread w pending, v) :: pq' → acoral_ipc_high_thread i s = Ret (w, s)).
Proof.
  intros HI [Hl _ _]. unfold acoral_ipc_high_thread.
  split; [intros ->|intros w v pq' ->];
    erewrite run_bind by (eapply run_klist_empty; [apply HI|exact Hl]); [done|].
  rewrite bool_decide_eq_false_2 by done. by erewrite run_bind by (eapply run_kget_first; [apply HI|exact Hl]).
Qed.

Definition release (x : ipc) : ipc := set_i_data 0 (set_count MUTEX_AVAI x).

(** [acoral_mutex_post] by the holder, up to the end of its critical section. *)
Lemma mutex_post_start s L i x cur th pq :
  sched_inv s L → core_inv s L → runs s cur → i ≠ 0 → k_ipc s !! i = Some x → i_lock x = 0 →
  mutex_held x cur → k_tcb s !! cur = Some th → waitq s L i pq →
  ∃ s1 s2, k_ipc s1 = <[i := set_i_lock 1 (release x)]> (k_ipc s) ∧
    leave i 0 s1 = Ret (0, s2) ∧ leave i (ret_err KR_OK) s1 = Ret (ret_err KR_OK, s2) ∧
    acoral_mutex_post i s = (thread ← acoral_ipc_high_thread i;
      if thread =? 0 then leave i (ret_err KR_OK)
      else leave i 0;; acoral_rdy_thread thread;; mret (ret_err KR_OK)) s1 ∧
    sched_inv s1 L ∧ waitq s1 L i pq ∧ sched_inv s2 L ∧ core_inv s2 L ∧ waitq s2 L i pq ∧
    k_ipc s2 = <[i := release x]> (k_ipc s) ∧ k_res s2 = k_res s ∧ k_cpu s2 = k_cpu s ∧
    tcb_view s2 = <[cur := thread_view (set_t_ipc 0 th)]> (tcb_view s).
Proof.
  intros HI HC Hruns Hi Hx Hl (Hty & _ & Hdat & _) Ht [Hw1 Hw2 Hw3]. pose proof Hruns as (c & Hc & _).
  set (s0 := set_k_tcb (<[cur := set_t_ipc 0 th]> (k_tcb s)) s).
  assert (sched_inv s0 L ∧ core_inv s0 L) as [HI0 HC0].
  { split; [by eapply sched_inv_thr|by apply core_inv_tcb]. }
  destruct (ipc_enter s0 L i x c HI0 HC0 Hx Hl Hc) as (Hen & HI1 & HC1).
  set (s0' := set_k_ipc _ _) in *. set (s1 := set_k_ipc (<[i := set_i_lock 1 (release x)]> (k_ipc s)) s0').
  destruct (ipc_same_inv s0' L (<[i := set_i_lock 1 (release x)]> (k_ipc s)) HI1 HC1) as [HI1' HC1']. fold s1 in HI1', HC1'.
  assert (k_ipc s1 !! i = Some (set_i_lock 1 (release x))) as Hx1 by (simpl; apply lookup_insert_eq).
  destruct (ipc_leave s1 L i _ 0 HI1' HC1' Hx1) as (s2 & Hleave & HF & HI2 & HC2).
  exists s1, s2. destruct (frame_ipc _ _ HF) as (Hi2 & Hq2 & Hr2). split_and!; try done.
  - unfold acoral_mutex_post. erewrite run_bind by (by apply run_cur).
    rewrite (proj2 (Z.eqb_neq i 0)) by done. erewrite run_bind by (by apply run_ipcf).
    rewrite Hty, Z.eqb_refl. cbn [negb]. erewrite run_bind by (by apply run_ipcf). rewrite Hdat, Z.eqb_refl. cbn [negb].
    erewrite run_bind by (by apply run_on_thr). fold s0. rewrite Hen.
    erewrite run_bind by (apply run_on_ipc; simpl; apply lookup_insert_eq).
    erewrite run_bind by (apply run_on_ipc; simpl; apply lookup_insert_eq).
    match goal with |- _ ?a = _ => replace a with s1; [done|] end.
    unfold s1, s0', set_k_ipc, release. simpl. f_equal. by rewrite !insert_insert_eq.
  - split; [done|by rewrite Hq2|by rewrite Hq2].
  - rewrite Hi2. simpl. rewrite insert_insert_eq. f_equal. destruct x; simpl in *. by subst.
  - assert (k_cpu s2 = k_cpu s) as -> by (apply HF). done.
  - rewrite (frame_tcb_view _ _ HF). unfold tcb_view. simpl. by rewrite fmap_insert.
Qed.

(** C8 Releasing a mutex.  A thread that does not hold the mutex gets
    [KR_IPC_ERR_THREAD] and nothing changes.  For the holder the mutex becomes
    free and unlocked; if threads wait, the first one of the wait queue becomes
    ready, but it stays on the queue, and the mutex is free for anybody until it
    runs. *)
Theorem mutex_post_correct s L i x cur th pq :
  sched_inv s L → core_inv s L → runs s cur → i ≠ 0 → k_ipc s !! i = Some x → i_lock x = 0 →
  k_tcb s !! cur = Some th → waitq s L i pq →
  (i_type x = ACORAL_IPC_MUTEX → i_data x ≠ cur →
    acoral_mutex_post i s = Ret (ret_err KR_IPC_ERR_THREAD, s)) ∧
  (mutex_held x cur → pq = [] → ∃ s', acoral_mutex_post i s = Ret (ret_err KR_OK, s') ∧
    sched_inv s' L ∧ core_inv s' L ∧ waitq s' L i [] ∧ k_ipc s' = <[i := release x]> (k_ipc s) ∧
    mutex_free (release x) ∧ tcb_view s' = <[cur := thread_view (set_t_ipc 0 th)]> (tcb_view s)) ∧
  (∀ w v pq', mutex_held x cur → pq = (LThread w pending, v) :: pq' → w ≠ 0 → w ≠ cur → wakeable s L w →
    ∃ s' thw, k_tcb s !! w = Some thw ∧
      let L' := rq_insert (k_cpu s) (t_prio thw) (LThread w ready) L in
      acoral_mutex_post i s = Ret (ret_err KR_OK, s') ∧ sched_inv s' L' ∧ core_inv s' L' ∧ waitq s' L' i pq ∧
      k_ipc s' = <[i := release x]> (k_ipc s) ∧
      tcb_view s' = <[w := ready_view (thread_view thw)]> (<[cur := thread_view (set_t_ipc 0 th)]> (tcb_view s))).
Proof.
  intros HI HC Hruns Hi Hx Hl Ht Hw. split_and!.
  - intros Hty Hd. unfold acoral_mutex_post. erewrite run_bind by (by apply run_cur).
    rewrite (proj2 (Z.eqb_neq i 0)) by done. erewrite run_bind by (by apply run_ipcf).
    rewrite Hty, Z.eqb_refl. cbn [negb]. erewrite run_bind by (by apply run_ipcf). by rewrite (proj2 (Z.eqb_neq (i_data x) cur)).
  - intros Hheld ->. destruct (mutex_post_start s L i x cur th []) as
      (s1 & s2 & _ & _ & Hleave & Hrun & HI1 & Hw1 & HI2 & HC2 & Hw2 & Hipc & _ & _ & Hv); [done..|].
    exists s2. split_and!; try done; [|by destruct Hheld as (? & _)].
    rewrite Hrun. by erewrite run_bind by (by apply (run_high_thread s1 L i [])).
  - intros w v pq' Hheld -> Hwnz Hwc Hwake. destruct (mutex_post_start s L i x cur th ((LThread w pending, v) :: pq')) as
      (s1 & s2 & _ & Hleave & _ & Hrun & HI1 & Hw1 & HI2 & HC2 & Hw2 & Hipc & Hres & Hcpu & Hv); [done..|].
    assert (wakeable s2 L w) as (thw2 & id & Ht2 & Hr2 & Hs2 & Hc2 & Hp2 & HL2 & Hid2).
    { eapply (wakeable_other s); [done|done|done|done|done|by rewrite Hres]. }
    destruct Hwake as (thw & _ & Htw & _).
    assert (thread_view thw2 = thread_view thw) as Hvw.
    { apply lookup_tcb_view in Ht2. rewrite Hv, lookup_insert_ne in Ht2 by done.
      rewrite (lookup_tcb_view _ _ _ Htw) in Ht2. congruence. }
    destruct (rdy_thread_spec s2 L w thw2 id) as (s3 & Hrdy & HI3 & HC3 & Hv3 & _ & Hk3); [done..|].
    assert (t_prio thw2 = t_prio thw) as Hpr by (by apply thread_view_eq in Hvw as (_ & _ & _ & ?)).
    rewrite Hc2, Hcpu, Hpr in HI3, HC3.
    exists s3, thw. cbv zeta. split; [done|]. split_and!; try done.
    + rewrite Hrun, (run_bind _ _ _ _ _ (proj2 (run_high_thread s1 L i _ HI1 Hw1) w v pq' eq_refl)).
      rewrite (proj2 (Z.eqb_neq w 0)) by done.
      erewrite run_bind by exact Hleave. by erewrite run_bind by exact Hrdy.
    + destruct Hw2 as [H1 H2 H3]. destruct Hk3 as [_ Hkv Hkl].
      split; [unfold rq_insert; by rewrite lookup_insert_ne, lookup_delete_ne| |unfold is_queue; by rewrite Hkl].
      eapply dvals_ext; [|exact H2]. intros y _. apply Hkv.
    + assert (k_ipc s3 = k_ipc s2) as -> by apply Hk3. done.
    + by rewrite Hv3, readied_view, Hvw, Hv.
Qed.
End mutex.

(** ** Witnesses *)

Definition waiting_thread : thread := set_t_state 2 (sample_thread 3).

(** The sample kernel with object 512, on which thread 16384 may wait; the
    running thread 4096 has a free [pending] node of value 5. *)
Record ipc_sampled (x : ipc) (pq : list (loc * Z)) (s : kstate) (L : gmap loc (list loc)) : Prop := {
  is_inv : sched_inv s L;
  is_core : core_inv s L;
  is_cpu : ∃ c, aget (k_cpus s) (k_cpu s) = Some c ∧ c_running c = 4096 ∧ c_critical_nesting c = 0 ∧ c_intr_nesting c = 0;
  is_k_cpu : k_cpu s = 0;
  is_enable : k_sched_enable s = 1;
  is_ipc : k_ipc s !! 512 = Some x;
  is_run : k_tcb s !! 4096 = Some (running_thread 5);
  is_wait : k_tcb s !! 16384 = Some waiting_thread;
  is_wakeable : wakeable s L 16384;
  is_other : other_ready s L 4096;
  is_waitq : waitq s L 512 pq;
}.

Definition with_ipc (x : ipc) (s : kstate) : kstate :=
  set_k_res (<[16384 := 0x8400]> (k_res s)) (set_k_ipc (<[512 := x]> (k_ipc s)) (set_k_tcb (<[16384 := waiting_thread]> (k_tcb s)) s)).

(** The list of [y], then a wait queue with the member [w]. *)
Lemma sample_ipc x y v w u :
  y ≠ w → y = LThread 4096 pending ∨ y = LThread 16384 pending → w = LThread 4096 pending ∨ w = LThread 16384 pending →
  ∃ s L, ipc_sampled x [(w, u)] s L ∧ L !! y = Some [] ∧ valof (q_nodes (k_q s)) y = Some v.
Proof.
  intros Hne Hy Hw. destruct sample_kernel as [s0 Hs0].
  assert (sched_inv (with_ipc x s0) sample_L ∧ core_inv (with_ipc x s0) sample_L) as [HI0 HC0].
  { assert (sched_inv (set_k_tcb (<[16384 := waiting_thread]> (k_tcb s0)) s0) sample_L).
    { apply sched_inv_new; [apply Hs0|by rewrite (sm_tcb _ Hs0)|done]. }
    split; [by eapply sched_inv_same|]. eapply core_inv_same; [apply (core_inv_tcb s0); apply Hs0|done..]. }
  set (s1 := with_ipc x s0) in *.
  destruct (sample_unlisted_at (LThread 16384 ready)) as [Hx1 Hx2]; [done..|].
  destruct (add_loc_inv false (LThread 16384 ready) 0 s1 sample_L HI0 HC0 (λ q xs Hq _, Hx2 q xs Hq) Hx1) as [HI2 HC2]; [done|].
  set (L2 := <[LThread 16384 ready := []]> sample_L) in *.
  set (s2 := add_loc false (LThread 16384 ready) 0 s1) in *.
  assert (∀ t m, m ≠ ready → unlisted L2 (LThread t m)) as Hu2.
  { intros t m Hm. apply unlisted_insert; [by apply sample_unlisted; congruence|congruence|apply not_elem_of_nil]. }
  assert (∃ ty tw, y = LThread ty pending ∧ w = LThread tw pending) as (ty & tw & Ey & Ew).
  { destruct Hy as [-> | ->], Hw as [-> | ->]; eauto. }
  assert (unlisted L2 y) as Hy' by (rewrite Ey; by apply Hu2). destruct Hy' as [Hy1 Hy2].
  assert (∀ c p, y ≠ LQueue (QReady c p)) as Hyq by (by rewrite Ey).
  destruct (add_loc_inv false y v s2 L2 HI2 HC2 (λ q xs Hq _, Hy2 q xs Hq) Hy1 Hyq) as [HI3 HC3].
  set (L3 := <[y := []]> L2) in *. set (s3 := add_loc false y v s2) in *.
  assert (unlisted L3 w) as Hw3 by (apply unlisted_insert; [rewrite Ew; by apply Hu2|congruence|apply not_elem_of_nil]).
  assert (unlisted L3 (LQueue (QWait 512))) as Hq3.
  { do 2 (apply unlisted_insert; [|congruence|apply not_elem_of_nil]). by apply sample_unlisted. }
  destruct (with_queue s3 L3 (LQueue (QWait 512)) w u HI3 HC3 Hq3 Hw3) as (s & L & h & Hsh & HI & HC & Hq & HL & Hval & Hvals);
    [by rewrite Ew|done|by rewrite Ew|].
  assert (∀ c p, rq L c p = rq sample_L c p) as Hrq.
  { intros c p. unfold rq. rewrite HL. unfold L3, L2. by rewrite !lookup_insert_ne by (by rewrite ?Ey). }
  exists s, L. subst s. split; [split|].
  - done.
  - done.
  - destruct (sm_c0 _ Hs0) as (c & Hc & Hr & Hn & Hi & _). exists c. simpl. by rewrite (sm_cpu _ Hs0).
  - apply (sm_cpu _ Hs0).
  - apply (sm_enable _ Hs0).
  - simpl. apply lookup_insert_eq.
  - simpl. rewrite lookup_insert_ne by done. by apply sample_lookup.
  - simpl. apply lookup_insert_eq.
  - exists waiting_thread, 0x8400. simpl. rewrite !lookup_insert_eq, (sm_cpu _ Hs0), prio_num_eq.
    assert (L !! LThread 16384 ready = Some []) as ->; [|by split_and!].
    rewrite HL. unfold L3, L2. rewrite !lookup_insert_ne by (by rewrite ?Ey). apply lookup_insert_eq.
  - destruct (sample_other_ready s0 Hs0) as (p & z & Hp & Hz & Hzne). exists p, z. by rewrite Hrq.
  - split; [by rewrite HL, lookup_insert_eq|by constructor|done].
  - change (k_q (set_k_q h s3)) with h. rewrite Hvals by first [exact Hne|by rewrite Ey]. rewrite HL. unfold L3. split.
    + rewrite lookup_insert_ne by (by rewrite Ey). apply lookup_insert_eq.
    + unfold valof, s3, add_loc. cbn [set_k_q k_q q_nodes]. by rewrite lookup_insert_eq.
Qed.

Definition sample_mutex (count data : Z) : ipc := mk_ipc ACORAL_IPC_MUTEX 0 count 0 0 data.

Definition sample_waiter : loc := LThread 16384 pending.

Lemma ipc_runs x pq s L : ipc_sampled x pq s L → runs s 4096.
Proof. intros Hs. destruct (is_cpu _ _ _ _ Hs) as (c & ? & ? & _ & ?). by exists c. Qed.

(** One waiter, thread 16384 of priority 3. *)
Lemma sample_one_waiter x : ∃ s L, ipc_sampled x [(sample_waiter, 3)] s L ∧
  L !! LThread 4096 pending = Some [] ∧ valof (q_nodes (k_q s)) (LThread 4096 pending) = Some 5.
Proof. apply sample_ipc; auto. Qed.

Lemma mutex_take_correct_witness : ∃ s s' : kstate,
  acoral_mutex_pend 512 s = Ret (Some (ret_err KR_OK), s') ∧
  k_ipc s' !! 512 = Some (hold 4096 (sample_mutex MUTEX_AVAI 0)).
Proof.
  destruct (sample_one_waiter (sample_mutex MUTEX_AVAI 0)) as (s & L & Hs & _ & _). exists s.
  destruct (mutex_take_correct s L 512 (sample_mutex MUTEX_AVAI 0) 4096 blank_cpu) as [H _];
    [apply Hs|apply Hs|by eapply ipc_runs|done|done|apply Hs|done|].
  destruct H as (s' & _ & Hrun & Hd & _); [done|]. exists s'. split; [done|].
  rewrite (id_ipc _ _ _ _ _ Hd). apply lookup_insert_eq.
Defined.

Lemma mutex_pend_blocks_witness : ∃ (s s' : kstate) t, acoral_cur_thread s = Ret (4096, s) ∧
  acoral_mutex_pend 512 s = Ret (None, s') ∧ acoral_cur_thread s' = Ret (t, s') ∧ t ≠ 4096.
Proof.
  set (x := sample_mutex (s16 MUTEX_NOAVAI) 16384).
  destruct (sample_one_waiter x) as (s & L & Hs & Hl & Hv). exists s.
  pose proof (run_cur s 4096 (ipc_runs _ _ _ _ Hs)) as Hcur.
  destruct (is_cpu _ _ _ _ Hs) as (c & Hc & Hr & Hn & Hi).
  destruct (mutex_pend_blocks s L 512 x 4096 (running_thread 5) c [(sample_waiter, 3)] 5 16384) as
    (s' & a & b & t & Hrun & _ & _ & _ & _ & _ & _ & _ & Hne & Hcur');
    [apply Hs|apply Hs|done|done|done|done|by rewrite (is_enable _ _ _ _ Hs)|done|apply Hs|done|done|apply Hs|done
    |by rewrite (is_k_cpu _ _ _ _ Hs)|apply Hs|apply Hs|done|done|].
  by exists s', t.
Defined.

Lemma mutex_pend_resumed_witness : ∃ s s' : kstate,
  acoral_mutex_pend_resume 512 4096 s = Ret (ret_err KR_OK, s') ∧
  k_ipc s' !! 512 = Some (hold 4096 (sample_mutex MUTEX_AVAI 0)).
Proof.
  set (x := sample_mutex MUTEX_AVAI 0).
  destruct (sample_ipc x (LThread 16384 pending) 3 (LThread 4096 pending) 5) as (s & L & Hs & _);
    [done|auto|auto|]. exists s.
  destruct (mutex_pend_resumed s L 512 x 4096 (running_thread 5) 5 [] []) as [H _];
    [apply Hs|apply Hs|by eapply ipc_runs|apply Hs|done|apply Hs|apply Hs|].
  destruct (H eq_refl) as (s' & Hrun & _ & _ & _ & Hi & _). exists s'. split; [done|].
  rewrite Hi. apply lookup_insert_eq.
Defined.

Lemma mutex_post_correct_witness : ∃ (s s' : kstate) v,
  acoral_mutex_post 512 s = Ret (ret_err KR_OK, s') ∧ k_ipc s' !! 512 = Some (sample_mutex MUTEX_AVAI 0) ∧
  tcb_view s' !! 16384 = Some (ready_view v).
Proof.
  set (x := sample_mutex (s16 MUTEX_NOAVAI) 4096).
  destruct (sample_one_waiter x) as (s & L & Hs & _). exists s.
  destruct (mutex_post_correct s L 512 x 4096 (running_thread 5) [(sample_waiter, 3)]) as (_ & _ & H);
    [apply Hs|apply Hs|by eapply ipc_runs|done|apply Hs|done|apply Hs|apply Hs|].
  destruct (H 16384 3 []) as (s' & th & _ & Hrun & _ & _ & _ & Hi & Hv); [done|done|done|done|apply Hs|].
  exists s', (thread_view th). split; [done|]. rewrite Hi, Hv. by rewrite !lookup_insert_eq.
Defined.
