(* ===== verification/SemSpec.v ===== *)
(** * Correctness of semaphores

    The operations of the semaphores in kernel/src/ipc.c, by the running thread:
    taking a unit, blocking, giving back a unit and waking every waiter. *)
From S2P Require Import Prelude Interfaces Bitops DList Queues KTypes KState Sched SchedSpec Sample Cpu ResPool Thread ThreadSpec Timer Ipc IpcSpec.
From stdpp Require Import list.
#[local] Open Scope Z_scope.

(** The units that the code sees in a count: it compares the low 8 bits. *)
Definition units (count : Z) : Z := (1 - count + 126) mod 256 - 126.

Lemma sem_available_units count : sem_available count = (1 <=? units count).
Proof.
  unfold sem_available, units, wraps, SEM_AVAI. change (2 ^ (8 - 1)) with 128. change (2 ^ 8) with 256.
  assert ((1 - count + 126) mod 256 = 255 - (count + 128) mod 256) as ->.
  { symmetry. apply Z.mod_unique with (- ((count + 128) / 256)); Z.div_mod_to_equations; lia. }
  destruct (Z.leb_spec ((count + 128) mod 256 - 128) 0), (Z.leb_spec 1 (255 - (count + 128) mod 256 - 126)); lia.
Qed.

Lemma units_exact n : -126 ≤ n ≤ 129 → units (1 - n) = n.
Proof. intros Hn. unfold units. rewrite Z.mod_small; lia. Qed.

Section sem.
Context `{!Allocator kstate, !Layout}.
Implicit Types s : kstate.

Definition locked_in (i : Z) (x : ipc) (c : percpu) (s : kstate) : kstate :=
  set_k_ipc (<[i := set_i_lock 1 x]> (k_ipc s)) (set_k_cpus (aset (k_cpu s) (entered c) (k_cpus s)) s).

(** The common beginning of the operations, up to their decision. *)
Lemma sem_start s L i x cur :
  sched_inv s L → core_inv s L → runs s cur → i ≠ 0 → k_ipc s !! i = Some x →
  i_type x = ACORAL_IPC_SEM → i_lock x = 0 → -32768 ≤ i_count x →
  ∃ c, aget (k_cpus s) (k_cpu s) = Some c ∧ let s1 := locked_in i x c s in
    sched_inv s1 L ∧ core_inv s1 L ∧ k_ipc s1 !! i = Some (set_i_lock 1 x) ∧
    acoral_sem_trypend i s = (if sem_available (i_count x) then on_ipc i count_up;; leave i (ret_err KR_OK)
      else leave i (ret_err KR_IPC_ERR_TIMEOUT)) s1 ∧
    (∀ take, sem_pend_body take i s = (if sem_available (i_count x) then
        when take (on_ipc i count_up);; r ← leave i (ret_err KR_OK); mret (Some r)
      else when take (on_ipc i count_up);; acoral_suspend_self;; acoral_ipc_wait_queue_add i cur;; leave i 0;;
        park cur (sem_pend_resume i cur)) s1) ∧
    acoral_sem_post i s = (if i_count x <=? SEM_NOAVAI then on_ipc i count_off;; leave i (ret_err KR_OK)
      else on_ipc i count_off;; thread ← acoral_ipc_high_thread i;
        if thread =? 0 then leave i (ret_err KR_IPC_ERR_UNDEF)
        else acoral_rdy_thread thread;; leave i (ret_err KR_OK)) s1 ∧
    acoral_sem_posts i s = (when (i_count x <=? SEM_NOAVAI) (on_ipc i count_off);;
      empty ← klist_empty (LQueue (QWait i));
      if (empty : bool) then leave i (ret_err KR_OK)
      else fuel ← get (λ s, size (q_nodes (k_q s))); tmp ← kget_next (LQueue (QWait i)); posts_loop fuel i tmp) s1.
Proof.
  intros HI HC Hruns Hi Hx Ht Hl Hcnt. pose proof Hruns as (c & Hc & _). exists c. split; [done|]. cbv zeta.
  pose proof (run_intr_nesting s cur Hruns) as Hn. pose proof (run_cur s cur Hruns) as Hcur.
  destruct (ipc_enter s L i x c HI HC Hx Hl Hc) as (Hen & HI1 & HC1). fold (locked_in i x c s) in *.
  assert (k_ipc (locked_in i x c s) !! i = Some (set_i_lock 1 x)) as Hx1 by apply lookup_insert_eq.
  split; [done|]. split; [done|]. split; [done|].
  unfold acoral_sem_trypend, sem_pend_body, acoral_sem_post, acoral_sem_posts.
  rewrite (proj2 (Z.eqb_neq i 0)) by done.
  assert (∀ (A : Type) (f g : K A), (type ← ipcf i_type i; if negb (type =? ACORAL_IPC_SEM) then g else f) s = f s) as Hty.
  { intros A f g. erewrite run_bind by (by apply run_ipcf). by rewrite Ht, Z.eqb_refl. }
  assert (∀ (A : Type) (f : Z → K A), (acoral_enter_critical;; ipc_spin_lock i;; count ← ipcf i_count i; f count) s =
    f (i_count x) (locked_in i x c s)) as Hcn.
  { intros A f. rewrite Hen. by rewrite (run_bind _ _ _ _ _ (run_ipcf i_count i _ _ Hx1)). }
  split; [|split; [intros take|split]].
  - rewrite (run_bind _ _ _ _ _ Hn). cbn [Z.eqb negb]. by rewrite Hty, Hcn.
  - rewrite (run_bind _ _ _ _ _ Hcur), (run_bind _ _ _ _ _ Hn). cbn [Z.eqb negb]. by rewrite Hty, Hcn.
  - rewrite Hty, Hcn. by rewrite (proj2 (Z.leb_le _ _) Hcnt).
  - rewrite Hty, Hcn. by rewrite (proj2 (Z.leb_le _ _) Hcnt).
Qed.

(** Changing the object and leaving. *)
Lemma update_leave_done s s1 L i x1 f e :
  sched_inv s1 L → core_inv s1 L → k_ipc s1 = <[i := x1]> (k_ipc s) →
  k_tcb s1 = k_tcb s → k_res s1 = k_res s → k_q s1 = k_q s → k_ext s1 = k_ext s → k_cpu s1 = k_cpu s →
  ∃ s', (on_ipc i f;; leave i e) s1 = Ret (e, s') ∧ ipc_done s s' L i (set_i_lock 0 (f x1)).
Proof.
  intros HI HC Hx Ht Hr Hq Hext Hcpu.
  erewrite run_bind by (apply run_on_ipc; rewrite Hx; apply lookup_insert_eq).
  destruct (ipc_same_inv s1 L (<[i := f x1]> (k_ipc s1)) HI HC) as [HI1 HC1].
  apply (leave_done s _ L i (f x1)); simpl; try done. by rewrite Hx, insert_insert_eq.
Qed.

Lemma unlock_up x : i_lock x = 0 → set_i_lock 0 (count_up (set_i_lock 1 x)) = count_up x.
Proof. intros Hl. destruct x; simpl in *. by subst. Qed.
Lemma unlock_off x : i_lock x = 0 → set_i_lock 0 (count_off (set_i_lock 1 x)) = count_off x.
Proof. intros Hl. destruct x; simpl in *. by subst. Qed.

(** Taking a unit that shows, and giving one back when nobody waits. *)
Lemma sem_pend_takes s L i x cur :
  sched_inv s L → core_inv s L → runs s cur → i ≠ 0 → k_ipc s !! i = Some x →
  i_type x = ACORAL_IPC_SEM → i_lock x = 0 → -32768 ≤ i_count x → 1 ≤ units (i_count x) →
  ∃ s', acoral_sem_trypend i s = Ret (ret_err KR_OK, s') ∧
    acoral_sem_pend i s = Ret (Some (ret_err KR_OK), s') ∧ ipc_done s s' L i (count_up x).
Proof.
  intros HI HC Hruns Hi Hx Ht Hl Hcnt Hu.
  destruct (sem_start s L i x cur) as (c & Hc & HI1 & HC1 & Hx1 & Htry & Hpend & _); [done..|].
  rewrite sem_available_units, (proj2 (Z.leb_le _ _) Hu) in Htry.
  destruct (update_leave_done s (locked_in i x c s) L i (set_i_lock 1 x) count_up (ret_err KR_OK))
    as (s' & Hrun & Hd); [done..|]. rewrite unlock_up in Hd by done.
  exists s'. split_and!; [by rewrite Htry| |done]. unfold acoral_sem_pend.
  rewrite Hpend, sem_available_units, (proj2 (Z.leb_le _ _) Hu). cbn [when].
  revert Hrun. unfold mbind, M_bind. destruct (on_ipc i count_up _) as [[[] s3]|]; [|done]. by intros ->.
Qed.

Lemma sem_post_returns s L i x cur :
  sched_inv s L → core_inv s L → runs s cur → i ≠ 0 → k_ipc s !! i = Some x →
  i_type x = ACORAL_IPC_SEM → i_lock x = 0 → -32768 ≤ i_count x → i_count x ≤ SEM_NOAVAI →
  ∃ s', acoral_sem_post i s = Ret (ret_err KR_OK, s') ∧ ipc_done s s' L i (count_off x).
Proof.
  intros HI HC Hruns Hi Hx Hty Hl Hcnt Hle.
  destruct (sem_start s L i x cur) as (c & Hc & HI1 & HC1 & Hx1 & _ & _ & Hpost & _); [done..|].
  rewrite Hpost, (proj2 (Z.leb_le _ _) Hle). rewrite <- (unlock_off x) by done.
  by apply (update_leave_done s (locked_in i x c s)).
Qed.

(** C34 Taking a unit of a semaphore.  [acoral_sem_trypend] and [acoral_sem_pend]
    return [KR_OK] and count one unit off exactly when the low 8 bits of the
    count show a unit; [acoral_sem_pends] returns [KR_OK] then without taking
    it.  Otherwise [acoral_sem_trypend] returns [KR_IPC_ERR_TIMEOUT] and the
    semaphore stays as it is.  What the code sees are the real units up to 129
    of them; with 130 to 256 units it sees none. *)
Theorem sem_take_correct s L i x cur :
  sched_inv s L → core_inv s L → runs s cur → i ≠ 0 → k_ipc s !! i = Some x →
  i_type x = ACORAL_IPC_SEM → i_lock x = 0 → -32768 ≤ i_count x →
  (1 ≤ units (i_count x) → (∃ s', acoral_sem_trypend i s = Ret (ret_err KR_OK, s') ∧
      acoral_sem_pend i s = Ret (Some (ret_err KR_OK), s') ∧ ipc_done s s' L i (count_up x)) ∧
    ∃ s', acoral_sem_pends i s = Ret (Some (ret_err KR_OK), s') ∧ ipc_done s s' L i x) ∧
  (units (i_count x) < 1 → ∃ s', acoral_sem_trypend i s = Ret (ret_err KR_IPC_ERR_TIMEOUT, s') ∧ ipc_done s s' L i x) ∧
  (∀ n, (-126 ≤ n ≤ 129 → units (1 - n) = n) ∧ (130 ≤ n ≤ 256 → units (1 - n) < 1)).
Proof.
  intros HI HC Hruns Hi Hx Ht Hl Hcnt.
  destruct (sem_start s L i x cur) as (c & Hc & HI1 & HC1 & Hx1 & Htry & Hpend & _); [done..|].
  rewrite sem_available_units in Htry. split_and!.
  - intros Hu. rewrite (proj2 (Z.leb_le _ _) Hu) in Htry.
    destruct (leave_done s (locked_in i x c s) L i (set_i_lock 1 x) (ret_err KR_OK)) as (s2 & Hrun2 & Hd2); [done..|].
    rewrite set_i_lock_id in Hd2 by done. split; [by apply (sem_pend_takes s L i x cur)|].
    exists s2. split; [|done]. unfold acoral_sem_pends.
    rewrite Hpend, sem_available_units, (proj2 (Z.leb_le _ _) Hu). cbn [when].
    erewrite run_bind by done. by erewrite run_bind by done.
  - intros Hu. rewrite (proj2 (Z.leb_gt _ _) Hu) in Htry.
    destruct (leave_done s (locked_in i x c s) L i (set_i_lock 1 x) (ret_err KR_IPC_ERR_TIMEOUT)) as (s2 & Hrun2 & Hd2); [done..|].
    rewrite set_i_lock_id in Hd2 by done. exists s2. by rewrite Htry.
  - intros n. split; [apply units_exact|]. intros Hn. unfold units.
    replace (1 - (1 - n) + 126) with (n - 130 + 1 * 256) by lia. rewrite Z.mod_add, Z.mod_small; lia.
Qed.
(** Blocking on a semaphore.  When no unit shows, [acoral_sem_pend] counts
    its caller in ([acoral_sem_pends] does not), and the running thread is
    suspended, joins the wait queue by its priority and gives up the core to
    the highest-priority ready thread; the object is unlocked. *)
Theorem sem_pend_blocks s L i x cur th c pq v take :
  sched_inv s L → core_inv s L → aget (k_cpus s) (k_cpu s) = Some c → c_running c = cur →
  c_critical_nesting c = 0 → c_intr_nesting c = 0 → k_sched_enable s ≠ 0 →
  i ≠ 0 → k_ipc s !! i = Some x → i_type x = ACORAL_IPC_SEM → i_lock x = 0 → -32768 ≤ i_count x →
  units (i_count x) < 1 →
  k_tcb s !! cur = Some th → is_ready th = true → t_cpu th = k_cpu s → other_ready s L cur →
  waitq s L i pq → L !! LThread cur pending = Some [] →
  valof (q_nodes (k_q s)) (LThread cur pending) = Some v →
  ∃ s' a b t, let L' := blocked_lists (k_cpu s) (t_prio th) cur i v a b pq L in
    (if (take : bool) then acoral_sem_pend i else acoral_sem_pends i) s = Ret (None, s') ∧
    rq L (k_cpu s) (t_prio th) = a ++ LThread cur ready :: b ∧
    sched_inv s' L' ∧ core_inv s' L' ∧ waitq s' L' i (pq_insert (LThread cur pending) v pq) ∧
    k_ipc s' = <[i := if take then count_up x else x]> (k_ipc s) ∧
    tcb_view s' = <[cur := thread_view (set_t_ipc i (suspended th))]> (tcb_view s) ∧
    highest L' (k_cpu s) t ∧ t ≠ cur ∧ acoral_cur_thread s' = Ret (t, s').
Proof.
  intros HI HC Hc Hrun Hn Hin Hen Hi Hx Hty Hl Hcnt Hu Ht Hr Hcpu Ho [Hw1 Hw2 Hw3] Hlone Hval.
  destruct (sem_start s L i x cur) as (c1 & Hc1 & HI1 & HC1 & Hx1 & _ & Hpend & _); [done|done|by exists c|done..|].
  assert (c1 = c) as -> by congruence. rewrite sem_available_units, (proj2 (Z.leb_gt _ _) Hu) in Hpend. cbn iota in Hpend.
  set (x1 := if take then count_up (set_i_lock 1 x) else set_i_lock 1 x).
  set (s1 := set_k_ipc (<[i := x1]> (k_ipc (locked_in i x c s))) (locked_in i x c s)).
  destruct (ipc_same_inv _ L (<[i := x1]> (k_ipc (locked_in i x c s))) HI1 HC1) as [HI2 HC2]. fold s1 in HI2, HC2.
  destruct (block_spec s1 L i x1 cur th (entered c) pq v (sem_pend_resume i cur)) as
    (s' & a & b & t & Hblock & Hab & HI' & HC' & Hw & Hipc & Hv & Hhi & Hne & Hcur); try done.
  { by eapply aget_aset_eq. } { simpl. by rewrite Hn. } { apply lookup_insert_eq. }
  exists s', a, b, t. split_and!; try done.
  - transitivity (sem_pend_body take i s); [by destruct take|]. rewrite Hpend. unfold x1 in s1. destruct take; cbn [when].
    + by erewrite run_bind by (by apply run_on_ipc).
    + erewrite run_bind by done. replace (locked_in i x c s) with s1; [done|].
      unfold s1, set_k_ipc. simpl. by rewrite insert_insert_eq.
  - rewrite Hipc. simpl. rewrite !insert_insert_eq. f_equal. unfold x1.
    destruct take; [by apply unlock_up|by apply set_i_lock_id].
Qed.

(** Making the first waiter ready inside of the object's lock. *)
Lemma wake_nested s L i pq w :
  sched_inv s L → core_inv s L → waitq s L i pq → wakeable s L w →
  ∃ s' thw, k_tcb s !! w = Some thw ∧ let L' := rq_insert (k_cpu s) (t_prio thw) (LThread w ready) L in
    acoral_rdy_thread w s = Ret (ret_err KR_OK, s') ∧ sched_inv s' L' ∧ core_inv s' L' ∧ waitq s' L' i pq ∧
    kept s s' ∧ tcb_view s' = <[w := ready_view (thread_view thw)]> (tcb_view s) ∧
    (∀ t, t ≠ w → k_res s' !! t = k_res s !! t).
Proof.
  intros HI HC [H1 H2 H3] (thw & id & Ht & Hr & Hs & Hc & Hp & HL & Hid).
  destruct (rdy_thread_spec s L w thw id) as (s' & Hrdy & HI' & HC' & Hv & Hres & Hk); [done..|].
  rewrite Hc in HI', HC'. exists s', thw. split; [done|]. split_and!; try done.
  - destruct Hk as [_ Hkv Hkl]. split.
    + unfold rq_insert. by rewrite lookup_insert_ne, lookup_delete_ne.
    + eapply dvals_ext; [|exact H2]. intros y _. apply Hkv.
    + unfold is_queue. by rewrite Hkl.
  - by rewrite Hv, readied_view.
  - intros t Hne. by rewrite Hres, lookup_insert_ne.
Qed.

(** Giving back a unit.  Every [acoral_sem_post] by a thread counts one unit
    back.  If the count was at most [SEM_NOAVAI], that is all.  Otherwise the
    first waiter of the wait queue becomes ready and stays on the queue until it
    runs; if it is ready already, because an earlier post woke it and it has not
    run since, nobody is woken, although other threads may wait behind it.
    With nobody on the queue the result is [KR_IPC_ERR_UNDEF]. *)
Theorem sem_post_correct s L i x cur pq :
  sched_inv s L → core_inv s L → runs s cur → i ≠ 0 → k_ipc s !! i = Some x →
  i_type x = ACORAL_IPC_SEM → i_lock x = 0 → -32768 ≤ i_count x → waitq s L i pq →
  (i_count x ≤ SEM_NOAVAI → ∃ s', acoral_sem_post i s = Ret (ret_err KR_OK, s') ∧ ipc_done s s' L i (count_off x)) ∧
  (SEM_NOAVAI < i_count x → pq = [] → ∃ s', acoral_sem_post i s = Ret (ret_err KR_IPC_ERR_UNDEF, s') ∧
    ipc_done s s' L i (count_off x)) ∧
  (∀ w v pq', SEM_NOAVAI < i_count x → pq = (LThread w pending, v) :: pq' → w ≠ 0 →
    (wakeable s L w → ∃ s' thw, k_tcb s !! w = Some thw ∧
      let L' := rq_insert (k_cpu s) (t_prio thw) (LThread w ready) L in
      acoral_sem_post i s = Ret (ret_err KR_OK, s') ∧ sched_inv s' L' ∧ core_inv s' L' ∧ waitq s' L' i pq ∧
      k_ipc s' = <[i := count_off x]> (k_ipc s) ∧
      tcb_view s' = <[w := ready_view (thread_view thw)]> (tcb_view s)) ∧
    (∀ thw, k_tcb s !! w = Some thw → is_suspended thw = false →
      ∃ s', acoral_sem_post i s = Ret (ret_err KR_OK, s') ∧ ipc_done s s' L i (count_off x))).
Proof.
  intros HI HC Hruns Hi Hx Hty Hl Hcnt Hw.
  destruct (sem_start s L i x cur) as (c & Hc & HI1 & HC1 & Hx1 & _ & _ & Hpost & _); [done..|].
  set (s1 := locked_in i x c s) in *.
  set (s2 := set_k_ipc (<[i := count_off (set_i_lock 1 x)]> (k_ipc s1)) s1).
  destruct (ipc_same_inv s1 L (<[i := count_off (set_i_lock 1 x)]> (k_ipc s1)) HI1 HC1) as [HI2 HC2]. fold s2 in HI2, HC2.
  assert (waitq s2 L i pq) as Hw2 by (destruct Hw as [? ? ?]; by split).
  assert (k_ipc s2 = <[i := count_off (set_i_lock 1 x)]> (k_ipc s)) as Hi2 by (simpl; by rewrite insert_insert_eq).
  assert (SEM_NOAVAI < i_count x → acoral_sem_post i s = (thread ← acoral_ipc_high_thread i;
      if thread =? 0 then leave i (ret_err KR_IPC_ERR_UNDEF) else acoral_rdy_thread thread;; leave i (ret_err KR_OK)) s2) as Hpost2.
  { intros Hgt. rewrite Hpost, (proj2 (Z.leb_gt _ _) Hgt). by erewrite run_bind by (by apply run_on_ipc). }
  split_and!.
  - intros Hle. by apply (sem_post_returns s L i x cur).
  - intros Hgt ->. rewrite (Hpost2 Hgt).
    rewrite (run_bind _ _ _ _ _ (proj1 (run_high_thread s2 L i [] HI2 Hw2) eq_refl)). cbn [Z.eqb].
    rewrite <- (unlock_off x) by done. by apply (leave_done s s2).
  - intros w v pq' Hgt -> Hwnz. rewrite (Hpost2 Hgt).
    rewrite (run_bind _ _ _ _ _ (proj2 (run_high_thread s2 L i _ HI2 Hw2) w v pq' eq_refl)).
    rewrite (proj2 (Z.eqb_neq w 0)) by done. split.
    + intros Hwake. destruct (wake_nested s2 L i _ w HI2 HC2 Hw2) as (s3 & thw & Ht & Hrdy & HI3 & HC3 & Hw3 & Hk & Hv & _).
      { done. }
      assert (k_ipc s3 = k_ipc s2) as Hi3 by apply Hk.
      destruct (ipc_leave s3 _ i (count_off (set_i_lock 1 x)) (ret_err KR_OK) HI3 HC3) as (s4 & Hrun & HF & HI4 & HC4).
      { rewrite Hi3, Hi2. apply lookup_insert_eq. }
      destruct (frame_ipc _ _ HF) as (Hi4 & Hq4 & _).
      exists s4, thw. cbv zeta. split; [done|]. split_and!; try done.
      * erewrite run_bind by exact Hrdy. exact Hrun.
      * destruct Hw3 as [? ? ?]. split; [done|by rewrite Hq4|by rewrite Hq4].
      * rewrite Hi4. simpl. rewrite Hi3, Hi2, insert_insert_eq. by rewrite unlock_off.
      * by rewrite (frame_tcb_view _ _ HF).
    + intros thw Ht Hs. assert (acoral_rdy_thread w s2 = Ret (ret_err KR_THREAD_ERR_STATE, s2)) as Hrdy.
      { unfold acoral_rdy_thread. erewrite run_bind by (apply run_thr; exact Ht). fold (is_suspended thw). by rewrite Hs. }
      erewrite run_bind by exact Hrdy. rewrite <- (unlock_off x) by done. by apply (leave_done s s2).
Qed.
(** ** Waking every waiter *)
Definition waiters (ws : list (Z * Z)) : list (loc * Z) := (λ wv, (LThread wv.1 pending, wv.2)) <$> ws.

Lemma waiters_nodes ws : (waiters ws).*1 = (λ w, LThread w pending) <$> ws.*1.
Proof. unfold waiters. by rewrite <- !list_fmap_compose. Qed.

Lemma posts_loop_run i ws : ∀ s L pq fuel tmp pre x,
  sched_inv s L → core_inv s L → waitq s L i pq → pq.*1 = pre ++ ((λ w, LThread w pending) <$> ws) →
  k_ipc s !! i = Some x → NoDup ws → Forall (λ w, w ≠ 0 ∧ wakeable s L w) ws → (length ws ≤ fuel)%nat →
  head (((λ w, LThread w pending) <$> ws) ++ [LQueue (QWait i)]) = Some tmp →
  ∃ s' L', posts_loop fuel i tmp s = Ret (ret_err KR_OK, s') ∧ sched_inv s' L' ∧ core_inv s' L' ∧
    waitq s' L' i pq ∧ k_ipc s' = <[i := set_i_lock 0 x]> (k_ipc s) ∧
    (∀ t, tcb_view s' !! t = if decide (t ∈ ws) then ready_view <$> tcb_view s !! t else tcb_view s !! t).
Proof.
  induction ws as [|w ws IH]; intros s L pq fuel tmp pre x HI HC Hw Hpq Hx Hnd Hall Hfuel Htmp.
  - simpl in Htmp. injection Htmp as <-.
    destruct (ipc_leave s L i x (ret_err KR_OK) HI HC Hx) as (s' & Hrun & HF & HI' & HC').
    destruct (frame_ipc _ _ HF) as (Hi & Hq & _). destruct Hw as [? ? ?].
    exists s', L. split_and!; try done; [|by split; rewrite ?Hq|].
    + destruct fuel; cbn [posts_loop]; by rewrite decide_True.
    + intros t. rewrite decide_False by apply not_elem_of_nil. by rewrite (frame_tcb_view _ _ HF).
  - simpl in Htmp. injection Htmp as <-. apply NoDup_cons in Hnd as [Hni Hnd].
    apply Forall_cons in Hall as [[Hnz Hwk] Hall]. destruct fuel as [|fuel]; [simpl in Hfuel; lia|].
    destruct (wake_nested s L i pq w HI HC Hw Hwk) as (s1 & thw & Ht & Hrdy & HI1 & HC1 & Hw1 & Hk & Hv & Hres).
    pose proof (wq_list _ _ _ _ Hw1) as HL1. rewrite Hpq in HL1. simpl in HL1.
    destruct (ring_step _ _ _ _ _ _ (qrep_nodes _ _ (si_q _ _ HI1)) HL1) as (n & nx & Hn & Hnx & Hhd & Hne & _).
    destruct (IH s1 _ pq fuel nx (pre ++ [LThread w pending]) x HI1 HC1 Hw1) as
      (s2 & L2 & Hloop & HI2 & HC2 & Hw2 & Hi2 & Hv2).
    + by rewrite Hpq, fmap_cons, <- app_assoc.
    + assert (k_ipc s1 = k_ipc s) as -> by apply Hk. done.
    + done.
    + apply Forall_forall. intros w' Hin. assert (w' ≠ w) as Hne' by (intros ->; done).
      apply (proj1 (Forall_forall _ _) Hall) in Hin as [? Hwk']. split; [done|].
      eapply wakeable_other; [exact Hwk'|exact Hne'|exact Hv|apply Hk| |by apply Hres].
      unfold rq_insert. by rewrite lookup_insert_ne, lookup_delete_ne by congruence.
    + simpl in Hfuel. lia.
    + done.
    + exists s2, L2. split_and!; try done.
      * cbn [posts_loop]. rewrite decide_False by done. erewrite run_bind by done.
        rewrite (proj2 (Z.eqb_neq w 0)) by done. erewrite run_bind by exact Hrdy.
        erewrite run_bind by (apply run_kread; by apply run_get_next). by rewrite Hnx.
      * rewrite Hi2. assert (k_ipc s1 = k_ipc s) as -> by apply Hk. done.
      * intros t. rewrite Hv2, Hv. destruct (decide (t = w)) as [->|Hne'].
        -- rewrite decide_False by done. rewrite lookup_insert_eq, decide_True by (by left).
           by rewrite (lookup_tcb_view _ _ _ Ht).
        -- rewrite lookup_insert_ne by done. destruct (decide (t ∈ ws)) as [Hin|Hin].
           ++ rewrite decide_True; [done|by right].
           ++ rewrite decide_False; [done|]. rewrite elem_of_cons. naive_solver.
Qed.

(** C9 Waking all waiters.  [acoral_sem_posts] ends, returns [KR_OK], and every
    thread of the wait queue is ready afterwards, whatever their number; no
    other thread changes, the queue keeps its members (each leaves when it
    runs), and a unit is counted back only if the count was at most
    [SEM_NOAVAI]. *)
Theorem sem_posts_wakes_all s L i x cur ws :
  sched_inv s L → core_inv s L → runs s cur → i ≠ 0 → k_ipc s !! i = Some x →
  i_type x = ACORAL_IPC_SEM → i_lock x = 0 → -32768 ≤ i_count x → waitq s L i (waiters ws) →
  Forall (λ w, w ≠ 0 ∧ wakeable s L w) ws.*1 →
  ∃ s' L', acoral_sem_posts i s = Ret (ret_err KR_OK, s') ∧ sched_inv s' L' ∧ core_inv s' L' ∧
    waitq s' L' i (waiters ws) ∧ k_ipc s' = <[i := if i_count x <=? SEM_NOAVAI then count_off x else x]> (k_ipc s) ∧
    (∀ t, tcb_view s' !! t = if decide (t ∈ ws.*1) then ready_view <$> tcb_view s !! t else tcb_view s !! t).
Proof.
  intros HI HC Hruns Hi Hx Hty Hl Hcnt Hw Hall.
  destruct (sem_start s L i x cur) as (c & Hc & HI1 & HC1 & Hx1 & _ & _ & _ & Hposts); [done..|].
  set (s1 := locked_in i x c s) in *.
  set (x2 := if i_count x <=? SEM_NOAVAI then count_off (set_i_lock 1 x) else set_i_lock 1 x).
  set (s2 := set_k_ipc (<[i := x2]> (k_ipc s1)) s1).
  destruct (ipc_same_inv s1 L (<[i := x2]> (k_ipc s1)) HI1 HC1) as [HI2 HC2]. fold s2 in HI2, HC2.
  assert (waitq s2 L i (waiters ws)) as Hw2 by (destruct Hw as [? ? ?]; by split).
  assert (k_ipc s2 !! i = Some x2) as Hx2 by apply lookup_insert_eq.
  assert (set_i_lock 0 x2 = if i_count x <=? SEM_NOAVAI then count_off x else x) as Hunlock.
  { unfold x2. destruct (i_count x <=? SEM_NOAVAI); [by apply unlock_off|by apply set_i_lock_id]. }
  assert (when (i_count x <=? SEM_NOAVAI) (on_ipc i count_off) s1 = Ret (tt, s2)) as Hwhen.
  { unfold s2, x2. destruct (i_count x <=? SEM_NOAVAI); cbn [when]; [by apply run_on_ipc|].
    unfold s1, locked_in, set_k_ipc. simpl. by rewrite insert_insert_eq. }
  pose proof (wq_list _ _ _ _ Hw2) as HL. rewrite waiters_nodes in HL.
  pose proof (ring_size _ L _ _ (qrep_nodes _ _ (si_q _ _ HI2)) HL) as Hsz. rewrite length_fmap in Hsz.
  destruct (rep_ring _ _ (qrep_nodes _ _ (si_q _ _ HI2)) _ _ HL) as [_ Hnd].
  assert (NoDup ws.*1) as Hnd' by (apply NoDup_cons in Hnd as [_ Hnd]; by apply NoDup_fmap_1 in Hnd).
  destruct (posts_loop_run i ws.*1 s2 L (waiters ws) (size (q_nodes (k_q s2)))
    (default (LQueue (QWait i)) (head ((λ w, LThread w pending) <$> ws.*1))) [] x2) as
    (s3 & L3 & Hrun & HI3 & HC3 & Hw3 & Hi3 & Hv3); [done|done|done|apply waiters_nodes|done|done| |lia|by destruct ws|].
  { eapply Forall_impl; [exact Hall|]. intros w [? Hwk]. split; [done|exact Hwk]. }
  exists s3, L3. split_and!; try done.
  - rewrite Hposts. erewrite run_bind by exact Hwhen.
    erewrite run_bind by (eapply run_klist_empty; [apply HI2|exact HL]).
    destruct ws as [|[w v] ws]; [|rewrite bool_decide_eq_false_2 by done].
    + rewrite bool_decide_eq_true_2 by done. rewrite <- Hrun. cbn [fmap list_fmap head default].
      destruct (size (q_nodes (k_q s2))); cbn [posts_loop]; by rewrite decide_True.
    + erewrite run_bind by reflexivity. erewrite run_bind by (eapply run_kget_first; [apply HI2|exact HL]). exact Hrun.
  - rewrite Hi3, <- Hunlock. simpl. by rewrite !insert_insert_eq.
Qed.
End sem.

(** ** Witnesses *)
Definition sample_sem (count : Z) : ipc := mk_ipc ACORAL_IPC_SEM 0 count 1 0 0.

Lemma sem_take_correct_witness : ∃ s s' : kstate,
  acoral_sem_pend 512 s = Ret (Some (ret_err KR_OK), s') ∧ k_ipc s' !! 512 = Some (sample_sem 1).
Proof.
  destruct (sample_one_waiter (sample_sem 0)) as (s & L & Hs & _). exists s.
  destruct (sem_take_correct s L 512 (sample_sem 0) 4096) as [H _];
    [apply Hs|apply Hs|by eapply ipc_runs|done|apply Hs|done|done|done|].
  destruct H as [(s' & _ & Hrun & Hd) _]; [done|]. exists s'. split; [done|].
  rewrite (id_ipc _ _ _ _ _ Hd). apply lookup_insert_eq.
Defined.

Lemma sem_pend_blocks_witness : ∃ (s s' : kstate) t, acoral_cur_thread s = Ret (4096, s) ∧
  acoral_sem_pend 512 s = Ret (None, s') ∧ acoral_cur_thread s' = Ret (t, s') ∧ t ≠ 4096 ∧
  k_ipc s' !! 512 = Some (sample_sem 3).
Proof.
  destruct (sample_one_waiter (sample_sem 2)) as (s & L & Hs & Hl & Hv). exists s.
  pose proof (run_cur s 4096 (ipc_runs _ _ _ _ Hs)) as Hcur.
  destruct (is_cpu _ _ _ _ Hs) as (c & Hc & Hr & Hn & Hi).
  destruct (sem_pend_blocks s L 512 (sample_sem 2) 4096 (running_thread 5) c [(sample_waiter, 3)] 5 true) as
    (s' & a & b & t & Hrun & _ & _ & _ & _ & Hipc & _ & _ & Hne & Hcur');
    [apply Hs|apply Hs|done|done|done|done|by rewrite (is_enable _ _ _ _ Hs)|done|apply Hs|done|done|done|done|apply Hs|done
    |by rewrite (is_k_cpu _ _ _ _ Hs)|apply Hs|apply Hs|done|done|].
  exists s', t. split_and!; try done. rewrite Hipc. apply lookup_insert_eq.
Defined.

Lemma sem_post_correct_witness : ∃ (s s' : kstate) v,
  acoral_sem_post 512 s = Ret (ret_err KR_OK, s') ∧ k_ipc s' !! 512 = Some (sample_sem 1) ∧
  tcb_view s' !! 16384 = Some (ready_view v).
Proof.
  destruct (sample_one_waiter (sample_sem 2)) as (s & L & Hs & _). exists s.
  destruct (sem_post_correct s L 512 (sample_sem 2) 4096 [(sample_waiter, 3)]) as (_ & _ & H);
    [apply Hs|apply Hs|by eapply ipc_runs|done|apply Hs|done|done|done|apply Hs|].
  destruct (H 16384 3 []) as [H1 _]; [done|done|done|].
  destruct H1 as (s' & th & _ & Hrun & _ & _ & _ & Hi & Hv); [apply Hs|].
  exists s', (thread_view th). split; [done|]. rewrite Hi, Hv. by rewrite !lookup_insert_eq.
Defined.

Lemma sem_posts_wakes_all_witness : ∃ (s s' : kstate) v,
  acoral_sem_posts 512 s = Ret (ret_err KR_OK, s') ∧ tcb_view s' !! 16384 = Some (ready_view v).
Proof.
  destruct (sample_one_waiter (sample_sem 2)) as (s & L & Hs & _). exists s.
  destruct (sem_posts_wakes_all s L 512 (sample_sem 2) 4096 [(16384, 3)]) as (s' & L' & Hrun & _ & _ & _ & _ & Hv);
    [apply Hs|apply Hs|by eapply ipc_runs|done|apply Hs|done|done|done|apply Hs| |].
  { constructor; [|constructor]. split; [done|apply Hs]. }
  exists s', (thread_view waiting_thread). split; [done|]. rewrite Hv, decide_True by (by left).
  rewrite (lookup_tcb_view _ _ _ (is_wait _ _ _ _ Hs)). done.
Defined.
