(* ===== verification/Pcp.v ===== *)
(** * kernel/src/ipc.c: the priority ceiling protocols MPCP and DPCP

    A resource is a binary semaphore with a priority ceiling.  A core keeps the
    ceiling of the local resources in use as its system priority and their
    stack; the DPCP keeps one such pair for its local and one for its global
    resources.  As in [Ipc], an operation returns [None] where its thread was
    switched out, and has a definition of its own for what the thread does when
    it runs again.  Where a call may let a thread of higher priority run first
    (a priority change, a thread made ready), the rest follows at once.  The
    head of a stack is a node whose value is the priority of an empty stack. *)
From S2P Require Import Prelude Interfaces Bitops DList Queues KTypes KState Sched Cpu ResPool Thread Ipc.
From stdpp Require Import list.
#[local] Open Scope Z_scope.

Definition ACORAL_MPCP_GLOBAL : Z := 1.
Definition ACORAL_MPCP_LOCAL : Z := 0.
Definition ACORAL_DPCP_GLOBAL : Z := 1.
Definition ACORAL_DPCP_LOCAL : Z := 0.
Definition UNBIND_CPU : Z := 0xff.
Definition PRIO_SWITCH_FLAG_SHIFT : Z := 31.
Definition PRIO_SWITCH_FLAG_MASK : Z := 0x8000.
Definition PRIO_SWITCH_MASK : Z := 0x7fff.

(** [sizeof(acoral_mpcp_t)] and [sizeof(acoral_dpcp_t)]. *)
Definition sizeof_mpcp : Z := 36.
Definition sizeof_dpcp : Z := 48.

Definition mpf {A} (f : mpcp → A) (m : Z) : K A := xobj x_mpcp f m.
Definition on_mp (m : Z) (f : mpcp → mpcp) : K unit := on_xobj x_mpcp set_x_mpcp m f.
Definition dpf {A} (f : dpcp → A) (d : Z) : K A := xobj x_dpcp f d.
Definition on_dp (d : Z) (f : dpcp → dpcp) : K unit := on_xobj x_dpcp set_x_dpcp d f.

(** The system priorities, by core, and by kind and core. *)
Definition mpcp_prio (cpu : Z) : K Z := deref (λ s, aget (x_mpcp_prio (k_ext s)) cpu).
Definition set_mpcp_prio (cpu v : Z) : K unit := λ s,
  match aget (x_mpcp_prio (k_ext s)) cpu with
  | Some _ => Ret (tt, set_k_ext (set_x_mpcp_prio (aset cpu v (x_mpcp_prio (k_ext s))) (k_ext s)) s)
  | None => Err Wild
  end.

Definition dpcp_prio (ty cpu : Z) : K Z := deref (λ s, aget (x_dpcp_prio (k_ext s)) (ty * CFG_MAX_CPU + cpu)).
Definition set_dpcp_prio (ty cpu v : Z) : K unit := λ s,
  let i := ty * CFG_MAX_CPU + cpu in
  match aget (x_dpcp_prio (k_ext s)) i with
  | Some _ => Ret (tt, set_k_ext (set_x_dpcp_prio (aset i v (x_dpcp_prio (k_ext s))) (k_ext s)) s)
  | None => Err Wild
  end.

(** [list_entry] of a stack's node. *)
Definition mpcp_of (l : loc) : K Z := match l with LMpcp m => mret m | _ => fail Wild end.
Definition dpcp_of (l : loc) : K Z := match l with LDpcpStack d => mret d | _ => fail Wild end.

(** Going on when the calling thread still runs. *)
Definition unless_switched {A} (cur : Z) (rest : K (option A)) : K (option A) :=
  running ← acoral_cur_thread; if running =? cur then rest else mret None.

Section pcp.
Context `{!Allocator kstate, !Layout}.

(** ** MPCP *)
Definition acoral_mpcp_system_init : K unit :=
  for_up (Z.to_nat CFG_MAX_CPU) 0 (λ i,
    set_mpcp_prio i ACORAL_MAX_PRIO_NUM;;
    on_q (acoral_lifo_queue_v_init (LQueue (QMpcpStack i)) ACORAL_MAX_PRIO_NUM);;
    on_q (acoral_prio_queue_init (LQueue (QMpcpWait i)))).

Definition mpcp_spin_lock (m : Z) : K unit :=
  l ← mpf mp_lock m; if (l : Z) =? 0 then on_mp m (set_mp_lock 1) else fail Deadlock.
Definition mpcp_spin_unlock (m : Z) : K unit := on_mp m (set_mp_lock 0).

(** Fresh memory holds what [raw] and [raw_ipc] say. *)
Definition acoral_mpcp_create (raw : Z → mpcp) (raw_ipc : Z → ipc) (type prio_ceiling : Z) : K Z :=
  m ← al_malloc sizeof_mpcp;
  (if m =? 0 then fail Wild
   else modify (λ s, set_k_ext (set_x_mpcp (<[m := raw m]> (x_mpcp (k_ext s))) (k_ext s)) s));;
  on_mp m (set_mp_type type);;
  cpu ← (if type =? ACORAL_MPCP_GLOBAL then mret (Some 0xff)
         else if type =? ACORAL_MPCP_LOCAL then c ← acoral_current_cpu; mret (Some c)
         else mret None);
  match cpu with
  | None => mret 0
  | Some c =>
      on_mp m (set_mp_cpu c);;
      on_mp m (set_mp_prio_ceiling prio_ceiling);;
      on_mp m (set_mp_prio_switch 0);;
      on_q (on_nodes (acoral_vlist_init (LMpcp m) prio_ceiling));;
      on_mp m (set_mp_lock 0);;
      sem ← acoral_sem_create raw_ipc 1;
      on_mp m (set_mp_sem sem);;
      mret m
  end.

Definition acoral_mpcp_del (m : Z) : K Z :=
  sem ← mpf mp_sem m;
  r ← acoral_sem_del sem;
  al_free m;;
  mret r.

(** After the semaphore was obtained. *)
Definition mpcp_pend_end (m r : Z) : K Z :=
  type ← mpf mp_type m;
  when (type =? ACORAL_MPCP_GLOBAL) (mpcp_spin_unlock m);;
  mret r.

(** Running again after waiting for the semaphore. *)
Definition acoral_mpcp_sem_resume (m cur : Z) : K Z :=
  sem ← mpf mp_sem m;
  r ← sem_pend_resume sem cur;
  mpcp_pend_end m r.

(** The owner and the semaphore. *)
Definition mpcp_pend_sem (m cur : Z) : K (option Z) :=
  sem ← mpf mp_sem m;
  owner ← ipcf i_data sem;
  when (owner =? 0) (on_ipc sem (set_i_data cur));;
  r ← acoral_sem_pend sem;
  match r with
  | Some r => r ← mpcp_pend_end m r; mret (Some r)
  | None => mret None
  end.

(** From the second comparison of a local resource on: also what a thread does
    when it runs again after waiting for the system priority. *)
Definition mpcp_pend_local (m cur cur_cpu : Z) : K (option Z) :=
  prio ← thr t_prio cur;
  sysprio ← mpcp_prio cur_cpu;
  when (prio <? sysprio)
    (ceiling ← mpf mp_prio_ceiling m;
     set_mpcp_prio cur_cpu ceiling;;
     on_q (acoral_lifo_queue_add (LQueue (QMpcpStack cur_cpu)) (LMpcp m));;
     on_mp m (set_mp_prio_switch prio));;
  mpcp_pend_sem m cur.

Definition acoral_mpcp_pend (m : Z) : K (option Z) :=
  cur ← acoral_cur_thread;
  cur_cpu ← acoral_current_cpu;
  type ← mpf mp_type m;
  if type =? ACORAL_MPCP_LOCAL then
    cpu ← mpf mp_cpu m;
    if negb (cpu =? cur_cpu) then mret (Some (ret_err KR_IPC_ERR_CPU)) else
    prio ← thr t_prio cur;
    sysprio ← mpcp_prio cur_cpu;
    if sysprio <=? prio then
      top ← kget_next (LQueue (QMpcpStack cur_cpu));
      last ← mpcp_of top;
      last_sem ← mpf mp_sem last;
      owner ← ipcf i_data last_sem;
      acoral_thread_change_prio owner prio;;
      on_q (acoral_prio_queue_add (LQueue (QMpcpWait cur_cpu)) (LThread cur pending));;
      acoral_suspend_self;;
      unless_switched cur (mpcp_pend_local m cur cur_cpu)
    else mpcp_pend_local m cur cur_cpu
  else if type =? ACORAL_MPCP_GLOBAL then
    mpcp_spin_lock m;;
    pt ← thr t_preempt_type cur;
    when (pt =? ACORAL_PREEMPT_LOCAL) (on_thr cur (set_t_preempt_type ACORAL_PREEMPT_GLOBAL));;
    sem ← mpf mp_sem m;
    owner ← ipcf i_data sem;
    when (owner =? 0)
      (prio ← thr t_prio cur;
       on_mp m (set_mp_prio_switch prio);;
       ceiling ← mpf mp_prio_ceiling m;
       acoral_thread_change_prio cur ceiling);;
    mpcp_pend_sem m cur
  else mpcp_pend_sem m cur.

(** The end of [acoral_mpcp_post]: the owner's priority and the semaphore. *)
Definition mpcp_post_end (m mpcp_thread : Z) : K Z :=
  sem ← mpf mp_sem m;
  when (negb (mpcp_thread =? 0))
    (prio ← thr t_prio mpcp_thread;
     saved ← mpf mp_prio_switch m;
     when (negb (prio =? saved)) (acoral_thread_change_prio mpcp_thread saved);;
     on_mp m (set_mp_prio_switch 0);;
     on_ipc sem (set_i_data 0));;
  r ← acoral_sem_post sem;
  mpcp_pend_end m r.

Definition acoral_mpcp_post (m : Z) : K Z :=
  cur ← acoral_cur_thread;
  sem ← mpf mp_sem m;
  mpcp_thread ← ipcf i_data sem;
  cur_cpu ← acoral_current_cpu;
  if negb (mpcp_thread =? cur) then mret (ret_err KR_IPC_ERR_THREAD) else
  type ← mpf mp_type m;
  (if type =? ACORAL_MPCP_LOCAL then
     on_q (acoral_lifo_queue_del (LQueue (QMpcpStack cur_cpu)) (LMpcp m));;
     top ← kget_next (LQueue (QMpcpStack cur_cpu));
     v ← kget_value top;
     set_mpcp_prio cur_cpu (u8 v);;
     empty ← klist_empty (LQueue (QMpcpWait cur_cpu));
     when (negb (empty : bool))
       (first ← kget_next (LQueue (QMpcpWait cur_cpu));
        thread ← thread_of pending first;
        acoral_rdy_thread thread;;
        mret tt)
   else if type =? ACORAL_MPCP_GLOBAL then
     mpcp_spin_lock m;;
     pt ← thr t_preempt_type cur;
     when (pt =? ACORAL_PREEMPT_GLOBAL) (on_thr cur (set_t_preempt_type ACORAL_PREEMPT_LOCAL))
   else mret tt);;
  mpcp_post_end m mpcp_thread.

(** ** DPCP *)
Context (acoral_vol_malloc : Z → K Z) (acoral_vol_free : Z → K unit).

Definition acoral_dpcp_system_init : K unit :=
  for_up (Z.to_nat CFG_MAX_CPU) 0 (λ i,
    set_dpcp_prio 0 i ACORAL_MAX_PRIO_NUM;;
    set_dpcp_prio 1 i ACORAL_MAX_PRIO_NUM;;
    on_q (acoral_lifo_queue_v_init (LQueue (QDpcpStack ACORAL_DPCP_LOCAL i)) ACORAL_MAX_PRIO_NUM);;
    on_q (acoral_prio_queue_init (LQueue (QDpcpWait ACORAL_DPCP_LOCAL i)));;
    on_q (acoral_lifo_queue_v_init (LQueue (QDpcpStack ACORAL_DPCP_GLOBAL i)) ACORAL_MAX_PRIO_NUM);;
    on_q (acoral_prio_queue_init (LQueue (QDpcpWait ACORAL_DPCP_GLOBAL i)));;
    on_q (acoral_lifo_queue_init (LQueue (QDpcp ACORAL_DPCP_LOCAL i)));;
    on_q (acoral_lifo_queue_init (LQueue (QDpcp ACORAL_DPCP_GLOBAL i)))).

Definition acoral_dpcp_set (d type prio_ceiling : Z) : K unit :=
  ty ← dpf dp_type d;
  cpu ← dpf dp_cpu d;
  top ← kget_next (LQueue (QDpcpStack ty cpu));
  (if decide (top = LDpcpStack d) then
     if negb (ty =? type) then
       on_q (acoral_lifo_queue_del (LQueue (QDpcpStack ty cpu)) (LDpcpStack d));;
       below ← kget_next (LQueue (QDpcpStack ty cpu));
       v ← kget_value below;
       set_dpcp_prio ty cpu (u8 v);;
       set_dpcp_prio type cpu prio_ceiling;;
       on_q (acoral_lifo_queue_add (LQueue (QDpcpStack type cpu)) (LDpcpStack d));;
       on_q (acoral_lifo_queue_del (LQueue (QDpcp ty cpu)) (LDpcpList d));;
       on_q (acoral_lifo_queue_add (LQueue (QDpcp type cpu)) (LDpcpList d))
     else set_dpcp_prio ty cpu prio_ceiling
   else mret tt);;
  on_dp d (set_dp_type type);;
  on_dp d (set_dp_prio_ceiling prio_ceiling);;
  kset_value (LDpcpStack d) prio_ceiling.

Definition acoral_dpcp_create (raw : Z → dpcp) (raw_ipc : Z → ipc) : K Z :=
  d ← al_malloc sizeof_dpcp;
  (if d =? 0 then fail Wild
   else modify (λ s, set_k_ext (set_x_dpcp (<[d := raw d]> (x_dpcp (k_ext s))) (k_ext s)) s));;
  on_dp d (set_dp_type ACORAL_DPCP_LOCAL);;
  on_dp d (set_dp_cpu UNBIND_CPU);;
  on_dp d (set_dp_prio_ceiling ACORAL_MAX_PRIO_NUM);;
  on_dp d (set_dp_prio_switch 0);;
  on_q (on_nodes (acoral_vlist_init (LDpcpStack d) ACORAL_MAX_PRIO_NUM));;
  on_q (on_nodes (acoral_list_init (LDpcpList d)));;
  sem ← acoral_sem_create raw_ipc 1;
  on_dp d (set_dp_sem sem);;
  mret d.

Definition acoral_dpcp_del (d : Z) : K Z :=
  sem ← dpf dp_sem d;
  r ← acoral_sem_del sem;
  empty ← klist_empty (LDpcpStack d);
  ty ← dpf dp_type d;
  cpu ← dpf dp_cpu d;
  when (negb (empty : bool)) (on_q (acoral_lifo_queue_del (LQueue (QDpcpStack ty cpu)) (LDpcpStack d)));;
  data ← dpf dp_data d;
  when (negb (data =? 0))
    (acoral_vol_free data;;
     on_dp d (set_dp_data 0));;
  al_free d;;
  mret r.

(** The end of [acoral_dpcp_pend]. *)
Definition dpcp_sem_resume (d cur : Z) : K Z :=
  sem ← dpf dp_sem d;
  r ← sem_pend_resume sem cur;
  acoral_exit_critical;;
  mret r.

Definition dpcp_pend_sem (d cur : Z) : K (option Z) :=
  sem ← dpf dp_sem d;
  owner ← ipcf i_data sem;
  when (owner =? 0) (on_ipc sem (set_i_data cur));;
  r ← acoral_sem_pend sem;
  match r with
  | Some r => acoral_exit_critical;; mret (Some r)
  | None => mret None
  end.

(** Entering a resource: its ceiling becomes the system priority. *)
Definition dpcp_push (d ty cpu : Z) : K unit :=
  ceiling ← dpf dp_prio_ceiling d;
  set_dpcp_prio ty cpu ceiling;;
  on_q (acoral_lifo_queue_add (LQueue (QDpcpStack ty cpu)) (LDpcpStack d)).

(** The loop for a local resource; [prio_switch] is an [acoral_u8]. *)
Fixpoint dpcp_local_loop (fuel : nat) (d cur cur_cpu : Z) : K (option Z) :=
  prio ← thr t_prio cur;
  sysprio ← dpcp_prio ACORAL_DPCP_LOCAL cur_cpu;
  if sysprio <=? prio then
    top ← kget_next (LQueue (QDpcpStack ACORAL_DPCP_LOCAL cur_cpu));
    last ← dpcp_of top;
    last_sem ← dpf dp_sem last;
    owner ← ipcf i_data last_sem;
    acoral_thread_change_prio owner prio;;
    on_q (acoral_prio_queue_add (LQueue (QDpcpWait ACORAL_DPCP_LOCAL cur_cpu)) (LThread cur pending));;
    acoral_exit_critical;;
    acoral_suspend_self;;
    unless_switched cur
      (acoral_enter_critical;;
       match fuel with
       | O => fail Diverge
       | S fuel => dpcp_local_loop fuel d cur cur_cpu
       end)
  else
    dpcp_push d ACORAL_DPCP_LOCAL cur_cpu;;
    on_dp d (set_dp_prio_switch (u8 (Z.lor (s32 (Z.shiftl 1 PRIO_SWITCH_FLAG_SHIFT)) prio)));;
    dpcp_pend_sem d cur.

(** Running again after waiting for the system priority. *)
Definition dpcp_local_resume (fuel : nat) (d cur cur_cpu : Z) : K (option Z) :=
  acoral_enter_critical;;
  dpcp_local_loop fuel d cur cur_cpu.

(** The loop for a global resource.  A thread that was woken goes on at the
    second comparison. *)
Fixpoint dpcp_global_loop (fuel : nat) (d cur : Z) : K (option Z) :=
  prio ← thr t_prio cur;
  cpu ← dpf dp_cpu d;
  sysprio ← dpcp_prio ACORAL_DPCP_GLOBAL cpu;
  if sysprio <=? prio then
    on_q (acoral_prio_queue_add (LQueue (QDpcpWait ACORAL_DPCP_GLOBAL cpu)) (LThread cur pending));;
    acoral_exit_critical;;
    acoral_suspend_self;;
    unless_switched cur
      (acoral_enter_critical;;
       prio ← thr t_prio cur;
       cpu ← dpf dp_cpu d;
       sysprio ← dpcp_prio ACORAL_DPCP_GLOBAL cpu;
       if prio <? sysprio then dpcp_push d ACORAL_DPCP_GLOBAL cpu;; dpcp_pend_sem d cur
       else match fuel with
            | O => fail Diverge
            | S fuel => dpcp_global_loop fuel d cur
            end)
  else
    dpcp_push d ACORAL_DPCP_GLOBAL cpu;;
    dpcp_pend_sem d cur.

Definition dpcp_global_resume (fuel : nat) (d cur : Z) : K (option Z) :=
  acoral_enter_critical;;
  prio ← thr t_prio cur;
  cpu ← dpf dp_cpu d;
  sysprio ← dpcp_prio ACORAL_DPCP_GLOBAL cpu;
  if prio <? sysprio then dpcp_push d ACORAL_DPCP_GLOBAL cpu;; dpcp_pend_sem d cur
  else dpcp_global_loop fuel d cur.

(** A global resource, once the thread is on the resource's core. *)
Definition dpcp_pend_global (fuel : nat) (d cur : Z) : K (option Z) :=
  pt ← thr t_preempt_type cur;
  when (pt =? ACORAL_PREEMPT_LOCAL) (on_thr cur (set_t_preempt_type ACORAL_PREEMPT_GLOBAL));;
  dpcp_global_loop fuel d cur.

Definition acoral_dpcp_pend (fuel : nat) (d : Z) : K (option Z) :=
  cur ← acoral_cur_thread;
  cur_cpu ← acoral_current_cpu;
  acoral_enter_critical;;
  type ← dpf dp_type d;
  cpu ← dpf dp_cpu d;
  if type =? ACORAL_DPCP_LOCAL then
    if negb (cpu =? cur_cpu) then mret (Some (ret_err KR_IPC_ERR_CPU))
    else dpcp_local_loop fuel d cur cur_cpu
  else if type =? ACORAL_DPCP_GLOBAL then
    tcpu ← thr t_cpu cur;
    if negb (tcpu =? cpu) then
      word ← acoral_vol_malloc 4;
      (if word =? 0 then fail Wild
       else modify (λ s, set_k_ext (set_x_words (<[word := tcpu]> (x_words (k_ext s))) (k_ext s)) s));;
      on_thr cur (set_t_data word);;
      acoral_exit_critical;;
      acoral_jump_cpu cpu;;
      unless_switched cur (acoral_enter_critical;; dpcp_pend_global fuel d cur)
    else dpcp_pend_global fuel d cur
  else dpcp_pend_sem d cur.

(** Leaving a resource of one kind: the system priority goes back, and the first
    waiting thread is ready. *)
Definition dpcp_pop (d ty cpu : Z) : K unit :=
  on_q (acoral_lifo_queue_del (LQueue (QDpcpStack ty cpu)) (LDpcpStack d));;
  top ← kget_next (LQueue (QDpcpStack ty cpu));
  v ← kget_value top;
  set_dpcp_prio ty cpu (u8 v);;
  empty ← klist_empty (LQueue (QDpcpWait ty cpu));
  when (negb (empty : bool))
    (first ← kget_next (LQueue (QDpcpWait ty cpu));
     thread ← thread_of pending first;
     on_q (acoral_prio_queue_del (LQueue (QDpcpWait ty cpu)) (LThread thread pending));;
     acoral_rdy_thread thread;;
     mret tt).

(** The owner's priority and the lock of the semaphore. *)
Definition dpcp_restore (d sem dpcp_thread : Z) : K unit :=
  when (negb (dpcp_thread =? 0))
    (saved ← dpf dp_prio_switch d;
     when (has saved PRIO_SWITCH_FLAG_MASK)
       (prio ← thr t_prio dpcp_thread;
        when (negb (prio =? Z.land saved PRIO_SWITCH_MASK)) (acoral_thread_change_prio dpcp_thread saved);;
        on_dp d (set_dp_prio_switch 0));;
     on_ipc sem (set_i_data 0)).

(** After the jump back to the core the thread came from. *)
Definition acoral_dpcp_post (d : Z) : K (option Z) :=
  cur ← acoral_cur_thread;
  sem ← dpf dp_sem d;
  dpcp_thread ← ipcf i_data sem;
  cur_cpu ← acoral_current_cpu;
  origin_cpu_p ← thr t_data cur;
  acoral_enter_critical;;
  if negb (dpcp_thread =? cur) then mret (Some (ret_err KR_IPC_ERR_THREAD)) else
  type ← dpf dp_type d;
  cpu ← dpf dp_cpu d;
  if (type =? ACORAL_DPCP_LOCAL) && negb (cpu =? cur_cpu) then mret (Some (ret_err KR_IPC_ERR_CPU)) else
  (if type =? ACORAL_DPCP_LOCAL then dpcp_pop d ACORAL_DPCP_LOCAL cur_cpu
   else if type =? ACORAL_DPCP_GLOBAL then
     pt ← thr t_preempt_type cur;
     when (pt =? ACORAL_PREEMPT_GLOBAL) (on_thr cur (set_t_preempt_type ACORAL_PREEMPT_LOCAL));;
     dpcp_pop d ACORAL_DPCP_GLOBAL cpu
   else mret tt);;
  dpcp_restore d sem dpcp_thread;;
  r ← acoral_sem_post sem;
  if (type =? ACORAL_DPCP_GLOBAL) && negb (origin_cpu_p =? 0) then
    origin ← deref (λ s, x_words (k_ext s) !! origin_cpu_p);
    if negb (origin =? cur_cpu) then
      data ← thr t_data cur;
      acoral_vol_free data;;
      on_thr cur (set_t_data 0);;
      acoral_exit_critical;;
      acoral_jump_cpu origin;;
      unless_switched cur (acoral_enter_critical;; acoral_exit_critical;; mret (Some r))
    else acoral_exit_critical;; mret (Some r)
  else acoral_exit_critical;; mret (Some r).
End pcp.
