(* ===== verification/PcpSpec.v ===== *)
(** * Correctness of the priority ceiling protocols *)
From S2P Require Import Prelude Interfaces Bitops DList Queues KTypes KState Sched SchedSpec Sample Cpu ResPool Thread ThreadSpec Timer Ipc IpcSpec SemSpec Pcp.
From stdpp Require Import list.
#[local] Open Scope Z_scope.

(** The system priority that goes with a stack of resources and ceilings. *)
Definition ceiling_of (stk : list (Z * Z)) : Z :=
  match stk with (_, c) :: _ => c | [] => ACORAL_MAX_PRIO_NUM end.

(** The local resources in use on a core, last taken first. *)
Record mpcp_rep (s : kstate) (L : gmap loc (list loc)) (cpu : Z) (stk : list (Z * Z)) : Prop := {
  mr_list : L !! LQueue (QMpcpStack cpu) = Some ((λ mc, LMpcp mc.1) <$> stk);
  mr_vals : Forall (λ mc, valof (q_nodes (k_q s)) (LMpcp mc.1) = Some mc.2 ∧ 0 ≤ mc.2 < 256) stk;
  mr_head : valof (q_nodes (k_q s)) (LQueue (QMpcpStack cpu)) = Some ACORAL_MAX_PRIO_NUM;
  mr_queue : is_queue (k_q s) (LQueue (QMpcpStack cpu));
  mr_prio : aget (x_mpcp_prio (k_ext s)) cpu = Some (ceiling_of stk);
}.

Section mpcp.
Context `{!Allocator kstate, !Layout}.
Implicit Types s : kstate.

Lemma run_mpf {A} (f : mpcp → A) m s mp : x_mpcp (k_ext s) !! m = Some mp → mpf f m s = Ret (f mp, s).
Proof. apply run_xobj. Qed.

Lemma run_on_mp m f s mp : x_mpcp (k_ext s) !! m = Some mp →
  on_mp m f s = Ret (tt, set_k_ext (set_x_mpcp (<[m := f mp]> (x_mpcp (k_ext s))) (k_ext s)) s).
Proof. apply run_on_xobj. Qed.

Lemma run_mpcp_prio cpu s v : aget (x_mpcp_prio (k_ext s)) cpu = Some v → mpcp_prio cpu s = Ret (v, s).
Proof. intros Hv. by apply run_deref. Qed.

Lemma run_set_mpcp_prio cpu w s v : aget (x_mpcp_prio (k_ext s)) cpu = Some v →
  set_mpcp_prio cpu w s = Ret (tt, set_k_ext (set_x_mpcp_prio (aset cpu w (x_mpcp_prio (k_ext s))) (k_ext s)) s).
Proof. intros Hv. unfold set_mpcp_prio. by rewrite Hv. Qed.

(** Entering a local resource: the stack and the system priority. *)
Lemma mpcp_push_spec s L m mp cur th stk :
  sched_inv s L → core_inv s L → k_tcb s !! cur = Some th → x_mpcp (k_ext s) !! m = Some mp →
  mpcp_rep s L (k_cpu s) stk → L !! LMpcp m = Some [] → valof (q_nodes (k_q s)) (LMpcp m) = Some (mp_prio_ceiling mp) →
  0 ≤ mp_prio_ceiling mp < 256 → t_prio th < ceiling_of stk →
  let L' := <[LQueue (QMpcpStack (k_cpu s)) := LMpcp m :: ((λ mc, LMpcp mc.1) <$> stk)]> (delete (LMpcp m) L) in
  ∃ s', mpcp_pend_local m cur (k_cpu s) s = mpcp_pend_sem m cur s' ∧ sched_inv s' L' ∧ core_inv s' L' ∧
    mpcp_rep s' L' (k_cpu s) ((m, mp_prio_ceiling mp) :: stk) ∧
    x_mpcp (k_ext s') = <[m := set_mp_prio_switch (t_prio th) mp]> (x_mpcp (k_ext s)) ∧
    k_tcb s' = k_tcb s ∧ k_ipc s' = k_ipc s ∧ k_cpu s' = k_cpu s ∧ k_cpus s' = k_cpus s ∧
    (∀ y, valof (q_nodes (k_q s')) y = valof (q_nodes (k_q s)) y) ∧ q_lock (k_q s') = q_lock (k_q s).
Proof.
  intros HI HC Ht Hm [Hl Hv Hh Hq Hp] Hx Hval Hceil Hlt L'.
  set (s1 := set_k_ext (set_x_mpcp_prio (aset (k_cpu s) (mp_prio_ceiling mp) (x_mpcp_prio (k_ext s))) (k_ext s)) s).
  destruct (lifo_add_rep (k_q s) L (LQueue (QMpcpStack (k_cpu s))) (LMpcp m) _ (si_q _ _ HI) Hq Hl Hx)
    as (q' & Hadd & HQ & Hlk & Hvals); [done|].
  set (s2 := set_k_q q' s1).
  set (s3 := set_k_ext (set_x_mpcp (<[m := set_mp_prio_switch (t_prio th) mp]> (x_mpcp (k_ext s2))) (k_ext s2)) s2).
  assert (∀ c p, L' !! LQueue (QReady c p) = L !! LQueue (QReady c p)) as HL.
  { intros c p. unfold L'. by rewrite lookup_insert_ne, lookup_delete_ne. }
  exists s3. split_and!; try done.
  - unfold mpcp_pend_local. erewrite run_bind by (by apply run_thr). erewrite run_bind by (by apply run_mpcp_prio).
    rewrite (proj2 (Z.ltb_lt _ _) Hlt). cbn [when].
    erewrite run_bind; [done|]. erewrite run_bind by (by apply run_mpf).
    erewrite run_bind by (by eapply run_set_mpcp_prio). fold s1.
    erewrite run_bind by (by apply (run_on_q _ s1)). fold s2. by apply run_on_mp.
  - eapply (sched_inv_same (set_k_q q' s)); [by eapply sched_inv_lists|done..].
  - eapply (core_inv_same (set_k_q q' s)); [by eapply core_inv_lists|done..].
  - split.
    + unfold L'. by rewrite lookup_insert_eq.
    + constructor; [by rewrite Hvals|]. eapply Forall_impl; [exact Hv|]. intros mc. by rewrite Hvals.
    + by rewrite Hvals.
    + unfold is_queue. simpl. by rewrite Hlk.
    + simpl. by eapply aget_aset_eq.
Qed.

(** The binary semaphore of a free resource, and of one that [t] holds. *)
Definition sem_free (x : ipc) : Prop :=
  i_type x = ACORAL_IPC_SEM ∧ i_lock x = 0 ∧ i_count x = 0 ∧ i_data x = 0.
Definition sem_owned (t : Z) (x : ipc) : ipc := count_up (set_i_data t x).

Lemma mpcp_sem_spec s L m mp x cur :
  sched_inv s L → core_inv s L → runs s cur → x_mpcp (k_ext s) !! m = Some mp → mp_type mp = ACORAL_MPCP_LOCAL →
  mp_sem mp ≠ 0 → k_ipc s !! mp_sem mp = Some x → sem_free x →
  ∃ s', mpcp_pend_sem m cur s = Ret (Some (ret_err KR_OK), s') ∧
    ipc_done s s' L (mp_sem mp) (sem_owned cur x).
Proof.
  intros HI HC Hruns Hm Hty Hnz Hx (Ht & Hl & Hcnt & Hd).
  unfold mpcp_pend_sem. erewrite run_bind by (by apply run_mpf).
  erewrite run_bind by (by apply run_ipcf). rewrite Hd. cbn [Z.eqb when].
  erewrite run_bind by (by apply run_on_ipc).
  set (s1 := set_k_ipc (<[mp_sem mp := set_i_data cur x]> (k_ipc s)) s).
  destruct (ipc_same_inv s L (<[mp_sem mp := set_i_data cur x]> (k_ipc s)) HI HC) as [HI1 HC1].
  destruct (sem_pend_takes s1 L (mp_sem mp) (set_i_data cur x) cur) as (s2 & _ & Hrun & [HI2 HC2 Hi2 Hv2 Hr2 Hq2 He2 Hc2]);
    [done|done|done|done|apply lookup_insert_eq|done|done|simpl; lia|simpl; rewrite Hcnt; done|].
  exists s2. split.
  - erewrite run_bind by exact Hrun. cbn beta iota.
    erewrite run_bind; [reflexivity|]. unfold mpcp_pend_end.
    erewrite run_bind by (apply run_mpf; by rewrite He2). by rewrite Hty.
  - split; try done. rewrite Hi2. simpl. by rewrite insert_insert_eq.
Qed.

Lemma mpcp_pop_spec s L m c stk mp x cur th :
  sched_inv s L → core_inv s L → runs s cur → k_tcb s !! cur = Some th →
  x_mpcp (k_ext s) !! m = Some mp → mp_type mp = ACORAL_MPCP_LOCAL → mp_prio_switch mp = t_prio th →
  mp_sem mp ≠ 0 → k_ipc s !! mp_sem mp = Some (sem_owned cur x) → sem_free x → cur ≠ 0 →
  mpcp_rep s L (k_cpu s) ((m, c) :: stk) → L !! LQueue (QMpcpWait (k_cpu s)) = Some [] →
  let L' := <[LMpcp m := []]> (<[LQueue (QMpcpStack (k_cpu s)) := (λ mc, LMpcp mc.1) <$> stk]> L) in
  ∃ s', acoral_mpcp_post m s = Ret (ret_err KR_OK, s') ∧ sched_inv s' L' ∧ core_inv s' L' ∧
    mpcp_rep s' L' (k_cpu s) stk ∧ x_mpcp (k_ext s') = <[m := set_mp_prio_switch 0 mp]> (x_mpcp (k_ext s)) ∧
    k_ipc s' = <[mp_sem mp := x]> (k_ipc s) ∧ tcb_view s' = tcb_view s.
Proof.
  intros HI HC Hruns Ht Hm Hty Hsw Hnz Hx (Hxt & Hxl & Hxc & Hxd) Hcur [Hl Hv Hh Hq Hp] Hwait L'.
  rewrite fmap_cons in Hl. simpl in Hl.
  destruct (queue_del_rep (k_q s) L (LQueue (QMpcpStack (k_cpu s))) (LQueue (QMpcpStack (k_cpu s))) (LMpcp m) []
    ((λ mc, LMpcp mc.1) <$> stk) (si_q _ _ HI) Hq Hl) as (q' & Hdel & HQ & Hlk & Hvals).
  set (s1 := set_k_q q' s). cbn [app] in HQ. fold L' in HQ.
  assert (∀ c p, L' !! LQueue (QReady c p) = L !! LQueue (QReady c p)) as HLr.
  { intros c' p. unfold L'. by rewrite !lookup_insert_ne. }
  assert (sched_inv s1 L' ∧ core_inv s1 L') as [HI1 HC1] by (split; [by eapply sched_inv_lists|by eapply core_inv_lists]).
  assert (L' !! LQueue (QMpcpStack (k_cpu s)) = Some ((λ mc, LMpcp mc.1) <$> stk)) as Hl1.
  { unfold L'. by rewrite lookup_insert_ne, lookup_insert_eq. }
  apply Forall_cons in Hv as [[_ Hc] Hv].
  assert (valof (q_nodes (k_q s1)) (default (LQueue (QMpcpStack (k_cpu s))) (head ((λ mc, LMpcp mc.1) <$> stk)))
    = Some (ceiling_of stk) ∧ 0 ≤ ceiling_of stk < 256) as [Hceil Hrange].
  { destruct stk as [|[m' c'] stk]; simpl; rewrite Hvals.
    - rewrite prio_num_eq in *. split; [done|lia].
    - apply Forall_cons in Hv as [[? ?] _]. done. }
  set (s2 := set_k_ext (set_x_mpcp_prio (aset (k_cpu s) (ceiling_of stk) (x_mpcp_prio (k_ext s1))) (k_ext s1)) s1).
  set (s3 := set_k_ext (set_x_mpcp (<[m := set_mp_prio_switch 0 mp]> (x_mpcp (k_ext s2))) (k_ext s2)) s2).
  set (x3 := set_i_data 0 (sem_owned cur x)).
  set (s4 := set_k_ipc (<[mp_sem mp := x3]> (k_ipc s3)) s3).
  assert (sched_inv s4 L' ∧ core_inv s4 L') as [HI4 HC4] by (split; [by eapply sched_inv_same|by eapply core_inv_same]).
  assert (count_off x3 = x) as Hx3.
  { unfold x3, sem_owned, count_off, count_up, set_count. destruct x as [a b d e f g]. simpl in *. subst. done. }
  destruct (sem_post_returns s4 L' (mp_sem mp) x3 cur) as (s5 & Hrun & [HI5 HC5 Hi5 Hv5 Hr5 Hq5 He5 Hc5]);
    [done|done|done|done|apply lookup_insert_eq|done|done| | |].
  { unfold x3. simpl. rewrite Hxc. done. } { unfold x3. simpl. rewrite Hxc. done. }
  rewrite Hx3 in Hi5. exists s5. split_and!; try done.
  - unfold acoral_mpcp_post. erewrite run_bind by (by apply run_cur). erewrite run_bind by (by apply run_mpf).
    erewrite run_bind by (by apply run_ipcf). kstep. cbn [i_data sem_owned count_up set_count set_i_count set_i_data].
    rewrite Z.eqb_refl. cbn [negb]. erewrite run_bind by (by apply run_mpf). rewrite Hty, Z.eqb_refl.
    erewrite run_bind.
    2:{ erewrite run_bind by (by apply run_on_q). fold s1.
        erewrite run_bind by (eapply run_kget_first; [apply HI1|exact Hl1]).
        erewrite run_bind by (apply run_kread, run_get_value_at; exact Hceil).
        rewrite (wrapu_small 8) by lia. erewrite run_bind by (by eapply run_set_mpcp_prio). fold s2.
        erewrite run_bind by (eapply (run_klist_empty s2 L'); [apply HI1|unfold L'; by rewrite !lookup_insert_ne]). done. }
    unfold mpcp_post_end. erewrite run_bind by (by apply run_mpf).
    rewrite (proj2 (Z.eqb_neq cur 0)) by done. cbn [negb when].
    erewrite run_bind.
    2:{ erewrite run_bind by (by apply run_thr). erewrite run_bind by (by apply run_mpf). rewrite Hsw, Z.eqb_refl.
        cbn [negb when]. erewrite run_bind by reflexivity. erewrite run_bind by (by apply run_on_mp). fold s3.
        by apply run_on_ipc. }
    fold x3. fold s4. erewrite run_bind by exact Hrun.
    unfold mpcp_pend_end. erewrite run_bind by (apply run_mpf; rewrite He5; apply lookup_insert_eq). simpl. by rewrite Hty.
  - split; [done| | | |].
    + eapply Forall_impl; [exact Hv|]. intros mc. rewrite Hq5. simpl. by rewrite Hvals.
    + rewrite Hq5. simpl. by rewrite Hvals.
    + unfold is_queue. rewrite Hq5. simpl. by rewrite Hlk.
    + rewrite He5. simpl. by eapply aget_aset_eq.
  - by rewrite He5.
  - rewrite Hi5. simpl. by rewrite insert_insert_eq.
Qed.

(** C11 A local MPCP resource, taken and given back.  On another core than the
    resource's, [acoral_mpcp_pend] is refused.  A thread whose priority is above
    the system priority of its core gets the free resource: the ceiling becomes
    the system priority, the resource is on top of the stack of its core, and
    the thread owns the semaphore.  When it then calls [acoral_mpcp_post] while
    nobody waits, the stack, the system priority, the semaphore, the lists and
    what scheduling sees of all threads are as before; a thread that is not the
    owner gets [KR_IPC_ERR_THREAD]. *)
Theorem mpcp_local_roundtrip s L m mp x cur th stk :
  sched_inv s L → core_inv s L → runs s cur → cur ≠ 0 → k_tcb s !! cur = Some th →
  x_mpcp (k_ext s) !! m = Some mp → mp_type mp = ACORAL_MPCP_LOCAL → 0 ≤ mp_prio_ceiling mp < 256 →
  mp_sem mp ≠ 0 → k_ipc s !! mp_sem mp = Some x → sem_free x →
  mpcp_rep s L (k_cpu s) stk → L !! LQueue (QMpcpWait (k_cpu s)) = Some [] →
  L !! LMpcp m = Some [] → valof (q_nodes (k_q s)) (LMpcp m) = Some (mp_prio_ceiling mp) →
  (mp_cpu mp ≠ k_cpu s → acoral_mpcp_pend m s = Ret (Some (ret_err KR_IPC_ERR_CPU), s)) ∧
  acoral_mpcp_post m s = Ret (ret_err KR_IPC_ERR_THREAD, s) ∧
  (mp_cpu mp = k_cpu s → t_prio th < ceiling_of stk →
    ∃ s1 L1, acoral_mpcp_pend m s = Ret (Some (ret_err KR_OK), s1) ∧ sched_inv s1 L1 ∧ core_inv s1 L1 ∧
      mpcp_rep s1 L1 (k_cpu s) ((m, mp_prio_ceiling mp) :: stk) ∧
      k_ipc s1 = <[mp_sem mp := sem_owned cur x]> (k_ipc s) ∧ tcb_view s1 = tcb_view s ∧
      (runs s1 cur → ∃ s2, acoral_mpcp_post m s1 = Ret (ret_err KR_OK, s2) ∧ sched_inv s2 L ∧ core_inv s2 L ∧
        mpcp_rep s2 L (k_cpu s) stk ∧ k_ipc s2 = k_ipc s ∧ tcb_view s2 = tcb_view s)).
Proof.
  intros HI HC Hruns Hcur Ht Hm Hty Hceil Hnz Hx Hfree Hrep Hwait Hlone Hval.
  pose proof (run_cur s cur Hruns) as Hrc. split_and!.
  - intros Hc. unfold acoral_mpcp_pend. erewrite run_bind by exact Hrc. kstep.
    erewrite run_bind by (by apply run_mpf). rewrite Hty, Z.eqb_refl.
    erewrite run_bind by (by apply run_mpf). by rewrite (proj2 (Z.eqb_neq _ _)).
  - unfold acoral_mpcp_post. erewrite run_bind by exact Hrc. erewrite run_bind by (by apply run_mpf).
    erewrite run_bind by (by apply run_ipcf). kstep. destruct Hfree as (_ & _ & _ & ->).
    by rewrite (proj2 (Z.eqb_neq 0 cur)).
  - intros Hcpu Hlt.
    destruct (mpcp_push_spec s L m mp cur th stk) as
      (s1 & Hpush & HI1 & HC1 & Hrep1 & Hm1 & Htcb1 & Hipc1 & Hcpu1 & Hcpus1 & Hvals1 & Hlk1); [done..|].
    set (L1 := <[LQueue (QMpcpStack (k_cpu s)) := _]> (delete (LMpcp m) L)) in *.
    set (mp1 := set_mp_prio_switch (t_prio th) mp) in *.
    assert (x_mpcp (k_ext s1) !! m = Some mp1) as Hm1' by (rewrite Hm1; apply lookup_insert_eq).
    destruct (mpcp_sem_spec s1 L1 m mp1 x cur) as (s2 & Hsem & [HI2 HC2 Hi2 Hv2 Hr2 Hq2 He2 Hc2]); try done.
    { destruct Hruns as (c & ? & ? & ?). exists c. by rewrite Hcpus1, Hcpu1. } { by rewrite Hipc1. }
    change (mp_sem mp1) with (mp_sem mp) in *. rewrite Hipc1 in Hi2.
    assert (mpcp_rep s2 L1 (k_cpu s) ((m, mp_prio_ceiling mp) :: stk)) as Hrep2.
    { destruct Hrep1 as [H1 H2 H3 H4 H5]. split; rewrite ?Hq2, ?He2; done. }
    exists s2, L1. split_and!; try done.
    + unfold acoral_mpcp_pend. erewrite run_bind by exact Hrc. kstep.
      erewrite run_bind by (by apply run_mpf). rewrite Hty, Z.eqb_refl.
      erewrite run_bind by (by apply run_mpf). rewrite Hcpu, Z.eqb_refl. cbn [negb].
      erewrite run_bind by (by apply run_thr). erewrite run_bind by (apply run_mpcp_prio; apply Hrep).
      rewrite (proj2 (Z.leb_gt _ _)) by done. by rewrite Hpush.
    + rewrite Hv2. unfold tcb_view. by rewrite Htcb1.
    + intros Hruns2.
      destruct (tcb_view_lookup s2 cur (thread_view th)) as (th2 & Ht2 & Hvt).
      { rewrite Hv2. apply lookup_tcb_view. by rewrite Htcb1. }
      apply thread_view_eq in Hvt as (_ & _ & _ & Hp2).
      assert (k_cpu s2 = k_cpu s) as Hcpu2 by (by rewrite Hc2).
      destruct (mpcp_pop_spec s2 L1 m (mp_prio_ceiling mp) stk mp1 x cur th2) as
        (s3 & Hpost & HI3 & HC3 & Hrep3 & _ & Hi3 & Hv3); try done.
      { by rewrite He2. } { by rewrite Hi2, lookup_insert_eq. } { by rewrite Hcpu2. }
      { rewrite Hcpu2. unfold L1. by rewrite lookup_insert_ne, lookup_delete_ne. }
      assert (<[LMpcp m := []]> (<[LQueue (QMpcpStack (k_cpu s2)) := (λ mc, LMpcp mc.1) <$> stk]> L1) = L) as HL.
      { rewrite Hcpu2. unfold L1. rewrite insert_insert_eq, insert_insert_ne by done.
        rewrite insert_delete_eq, insert_insert_ne by done. rewrite (insert_id L) by apply Hrep. by apply insert_id. }
      rewrite HL, Hcpu2 in *. exists s3. split_and!; try done.
      * rewrite Hi3, Hi2, insert_insert_eq. by apply insert_id.
      * rewrite Hv3, Hv2. unfold tcb_view. by rewrite Htcb1.
Qed.
End mpcp.

(** ** Two defects of the DPCP *)
Section dpcp.
Context `{!Allocator kstate, !Layout}.
Context (vol_malloc : Z → K Z).
Implicit Types s : kstate.

Lemma run_dpf {A} (f : dpcp → A) d s dp : x_dpcp (k_ext s) !! d = Some dp → dpf f d s = Ret (f dp, s).
Proof. apply run_xobj. Qed.

(** The saved priority never has the flag that says it was saved: the flag is
    bit 31 of an [acoral_u8], and it is tested as bit 15. *)
Lemma saved_unflagged v : has (u8 v) PRIO_SWITCH_FLAG_MASK = false.
Proof.
  change PRIO_SWITCH_FLAG_MASK with (2 ^ 15). rewrite has_bit by done.
  rewrite Z.testbit_eqb by done. pose proof (wrapu_range 8 v ltac:(done)).
  rewrite Z.div_small by lia. done.
Qed.

(** C36 The DPCP and the priority of a resource's owner.  What
    [acoral_dpcp_pend] saves of the owner's priority is cut to 8 bits, so that
    the flag it sets at bit 31 is lost and [acoral_dpcp_post] never finds it:
    whatever priority the owner inherited meanwhile, the end of
    [acoral_dpcp_post] only takes the owner off the semaphore, and the owner
    keeps the inherited priority for good. *)
Theorem dpcp_priority_kept s d dp v x owner th :
  x_dpcp (k_ext s) !! d = Some dp →
  dp_prio_switch dp = u8 (Z.lor (s32 (Z.shiftl 1 PRIO_SWITCH_FLAG_SHIFT)) v) →
  k_ipc s !! dp_sem dp = Some x → k_tcb s !! owner = Some th → owner ≠ 0 →
  dpcp_restore d (dp_sem dp) owner s = Ret (tt, set_k_ipc (<[dp_sem dp := set_i_data 0 x]> (k_ipc s)) s) ∧
  (0 ≤ v < 256 → dp_prio_switch dp = v).
Proof.
  intros Hd Hsw Hx Ht Ho. split.
  - unfold dpcp_restore. rewrite (proj2 (Z.eqb_neq owner 0)) by done. cbn [negb when].
    erewrite run_bind by (by apply run_dpf). rewrite Hsw, saved_unflagged. cbn [when].
    erewrite run_bind by reflexivity. by apply run_on_ipc.
  - intros Hv. rewrite Hsw. change (s32 (Z.shiftl 1 PRIO_SWITCH_FLAG_SHIFT)) with (-8388608 * 2 ^ 8).
    rewrite <- (Z.shiftl_mul_pow2 (-8388608) 8), lor_shiftl_add by lia.
    unfold wrapu. rewrite Z.add_comm, Z.mod_add by done. by apply Z.mod_small.
Qed.

(** A local DPCP resource of another core.  [acoral_dpcp_pend] refuses with
    [KR_IPC_ERR_CPU], but it returns inside of its critical section: the nesting
    counter stays one higher and the scheduler stays locked, and no later
    balanced critical section of the core reschedules. *)
Theorem dpcp_pend_keeps_critical s L d dp c fuel :
  sched_inv s L → core_inv s L → aget (k_cpus s) (k_cpu s) = Some c →
  0 ≤ c_critical_nesting c < 2 ^ 32 - 2 → x_dpcp (k_ext s) !! d = Some dp →
  dp_type dp = ACORAL_DPCP_LOCAL → dp_cpu dp ≠ k_cpu s →
  ∃ s' c', acoral_dpcp_pend vol_malloc fuel d s = Ret (Some (ret_err KR_IPC_ERR_CPU), s') ∧
    aget (k_cpus s') (k_cpu s') = Some c' ∧ c_critical_nesting c' = c_critical_nesting c + 1 ∧
    c_sched_lock c' ≠ 0 ∧
    ∃ s2, (acoral_enter_critical;; acoral_exit_critical) s' = Ret (tt, s2) ∧
      ∃ c2, aget (k_cpus s2) (k_cpu s2) = Some c2 ∧ c_sched_lock c2 ≠ 0 ∧ c_running c2 = c_running c.
Proof.
  intros HI HC Hc Hn Hd Hty Hcpu.
  pose proof (enter_critical_run s c Hc) as Hen.
  set (s1 := set_k_cpus (aset (k_cpu s) (entered c) (k_cpus s)) s) in *.
  assert (aget (k_cpus s1) (k_cpu s1) = Some (entered c)) as Hc1 by (by eapply aget_aset_eq).
  assert (c_critical_nesting (entered c) = c_critical_nesting c + 1) as Hn1 by (simpl; apply wrapu_small; lia).
  assert (c_sched_lock (entered c) ≠ 0) as Hlk.
  { unfold entered. simpl. destruct (Z.eqb_spec (c_sched_lock c) 0); [done|]. simpl. done. }
  exists s1, (entered c). split_and!; try done.
  - unfold acoral_dpcp_pend. erewrite run_bind by (unfold acoral_cur_thread; kstep; by apply run_at_cpu).
    kstep. erewrite run_bind by exact Hen.
    do 2 erewrite run_bind by (by apply run_dpf). rewrite Hty, Z.eqb_refl.
    by rewrite (proj2 (Z.eqb_neq _ _)).
  - pose proof (enter_critical_run s1 _ Hc1) as Hen2.
    set (s2 := set_k_cpus (aset (k_cpu s1) (entered (entered c)) (k_cpus s1)) s1) in *.
    assert (aget (k_cpus s2) (k_cpu s2) = Some (entered (entered c))) as Hc2 by (by eapply aget_aset_eq).
    assert (1 < c_critical_nesting (entered (entered c))) as Hn2.
    { cbn [entered]. change (c_critical_nesting (entered (entered c))) with (u32 (c_critical_nesting (entered c) + 1)).
      rewrite Hn1, wrapu_small; lia. }
    eexists. split.
    + erewrite run_bind by exact Hen2. by apply exit_critical_nested.
    + eexists. split; [by eapply aget_aset_eq|]. split; [|done].
      simpl. destruct (Z.eqb_spec (c_sched_lock c) 0); simpl; [done|]. by destruct (Z.eqb_spec (c_sched_lock c) 0).
Qed.
End dpcp.


(** ** Witnesses *)
Definition sample_mpcp : mpcp := mk_mpcp 512 ACORAL_MPCP_LOCAL 0 3 0 0.
Definition sample_dpcp : dpcp := mk_dpcp 512 1 ACORAL_DPCP_LOCAL 3 (u8 (Z.lor (s32 (Z.shiftl 1 PRIO_SWITCH_FLAG_SHIFT)) 20)) 0.
Definition free_sem : ipc := mk_ipc ACORAL_IPC_SEM 0 0 1 0 0.

(** The sampled kernel with resource 256, whose semaphore is 512. *)
Definition with_mpcp (s : kstate) : kstate :=
  set_k_ext (set_x_mpcp_prio [ACORAL_MAX_PRIO_NUM; ACORAL_MAX_PRIO_NUM] (set_x_mpcp (<[256 := sample_mpcp]> ∅) no_ext))
    (set_k_ipc (<[512 := free_sem]> ∅) s).

Definition mpcp_nodes (s : kstate) : kstate :=
  add_loc false (LMpcp 256) 3 (add_loc true (LQueue (QMpcpWait 0)) 0 (add_loc true (LQueue (QMpcpStack 0)) ACORAL_MAX_PRIO_NUM s)).

Definition mpcp_lists : gmap loc (list loc) :=
  <[LMpcp 256 := []]> (<[LQueue (QMpcpWait 0) := []]> (<[LQueue (QMpcpStack 0) := []]> sample_L)).

Lemma sample_mpcp_inv s : sched_inv s sample_L → core_inv s sample_L →
  sched_inv (mpcp_nodes s) mpcp_lists ∧ core_inv (mpcp_nodes s) mpcp_lists.
Proof.
  intros HI HC.
  destruct (sample_unlisted (LQueue (QMpcpStack 0))) as [A1 A2]; [done..|].
  destruct (unlisted_insert sample_L (LQueue (QMpcpStack 0)) [] (LQueue (QMpcpWait 0))) as [B1 B2];
    [by apply sample_unlisted|done|apply not_elem_of_nil|].
  destruct (unlisted_insert (<[LQueue (QMpcpStack 0) := []]> sample_L) (LQueue (QMpcpWait 0)) [] (LMpcp 256)) as [C1 C2];
    [apply unlisted_insert; [by apply sample_unlisted|done|apply not_elem_of_nil]|done|apply not_elem_of_nil|].
  destruct (add_loc_inv true (LQueue (QMpcpStack 0)) ACORAL_MAX_PRIO_NUM s sample_L) as [HI1 HC1]; [done|done|eauto|done|done|].
  destruct (add_loc_inv true (LQueue (QMpcpWait 0)) 0 _ _ HI1 HC1) as [HI2 HC2]; [eauto|done|done|].
  destruct (add_loc_inv false (LMpcp 256) 3 _ _ HI2 HC2) as [HI3 HC3]; [eauto|done|done|]. done.
Qed.

Lemma mpcp_local_roundtrip_witness : ∃ s s1 : kstate,
  acoral_mpcp_pend 256 s = Ret (Some (ret_err KR_OK), s1) ∧ k_ipc s1 !! 512 = Some (sem_owned 4096 free_sem).
Proof.
  destruct sample_kernel as [s0 Hs].
  assert (sched_inv (with_mpcp s0) sample_L ∧ core_inv (with_mpcp s0) sample_L) as [HI HC].
  { split; [by eapply sched_inv_same; [apply Hs|..]|by eapply core_inv_same; [apply Hs|..]]. }
  destruct (sample_mpcp_inv _ HI HC) as [HI1 HC1]. pose proof (sm_cpu _ Hs) as Hcpu.
  destruct (sm_c0 _ Hs) as (c & Hc & Hr & _ & Hi & _).
  set (s1 := mpcp_nodes (with_mpcp s0)) in *. exists s1.
  assert (runs s1 4096) as Hruns by (exists c; change (k_cpu s1) with (k_cpu s0); by rewrite Hcpu).
  assert (mpcp_rep s1 mpcp_lists (k_cpu s1) []) as Hrep.
  { change (k_cpu s1) with (k_cpu s0). rewrite Hcpu. split; [|constructor| | |reflexivity].
    - unfold mpcp_lists. rewrite lookup_insert_ne by done. rewrite lookup_insert_ne by done. apply lookup_insert_eq.
    - unfold valof. simpl. do 2 rewrite lookup_insert_ne by done. by rewrite lookup_insert_eq.
    - exists 0. simpl. by rewrite lookup_insert_ne, lookup_insert_eq. }
  assert (mpcp_lists !! LQueue (QMpcpWait (k_cpu s1)) = Some []) as Hw.
  { change (k_cpu s1) with (k_cpu s0). rewrite Hcpu. unfold mpcp_lists. rewrite lookup_insert_ne by done. apply lookup_insert_eq. }
  assert (k_tcb s1 !! 4096 = Some (running_thread 5)) as Ht by (simpl; rewrite (sm_tcb _ Hs); apply lookup_insert_eq).
  destruct (mpcp_local_roundtrip s1 mpcp_lists 256 sample_mpcp free_sem 4096 (running_thread 5) []
    HI1 HC1 Hruns ltac:(lia) Ht (lookup_insert_eq _ _ _) eq_refl ltac:(simpl; lia) ltac:(simpl; lia)
    (lookup_insert_eq _ _ _) ltac:(repeat split) Hrep Hw (lookup_insert_eq _ _ _)) as (_ & _ & H).
  - unfold valof. simpl. by rewrite lookup_insert_eq.
  - destruct H as (s2 & L2 & Hrun & _ & _ & _ & Hipc & _); [exact (eq_sym Hcpu)|reflexivity|].
    exists s2. split; [exact Hrun|]. rewrite Hipc. apply lookup_insert_eq.
Defined.

Lemma dpcp_priority_kept_witness : ∃ s s' : kstate,
  dpcp_restore 256 512 4096 s = Ret (tt, s') ∧ k_tcb s' !! 4096 = Some (running_thread 5) ∧ dp_prio_switch sample_dpcp = 20.
Proof.
  destruct sample_kernel as [s0 Hs].
  set (s := set_k_ext (set_x_dpcp (<[256 := sample_dpcp]> ∅) no_ext) (set_k_ipc (<[512 := free_sem]> ∅) s0)).
  assert (k_tcb s !! 4096 = Some (running_thread 5)) as Ht by (simpl; rewrite (sm_tcb _ Hs); apply lookup_insert_eq).
  destruct (dpcp_priority_kept s 256 sample_dpcp 20 free_sem 4096 (running_thread 5)) as [Hrun Hv];
    [apply lookup_insert_eq|done|apply lookup_insert_eq|done|done|].
  eexists s, _. split; [exact Hrun|]. split; [done|]. by apply Hv.
Defined.

Lemma dpcp_pend_keeps_critical_witness : ∃ s s' c',
  acoral_dpcp_pend (λ _, mret 0) 1 256 s = Ret (Some (ret_err KR_IPC_ERR_CPU), s') ∧
  aget (k_cpus s') (k_cpu s') = Some c' ∧ c_critical_nesting c' = 1.
Proof.
  destruct sample_kernel as [s0 Hs]. pose proof (sm_cpu _ Hs) as Hcpu.
  destruct (sm_c0 _ Hs) as (c & Hc & _ & Hn & _).
  set (s := set_k_ext (set_x_dpcp (<[256 := sample_dpcp]> ∅) no_ext) s0).
  destruct (dpcp_pend_keeps_critical (λ _, mret 0) s sample_L 256 sample_dpcp c 1) as (s' & c' & Hrun & Hc' & Hn' & _);
    [by eapply sched_inv_same; [apply Hs|..]|by eapply core_inv_same; [apply Hs|..]|by simpl; rewrite Hcpu
    |rewrite Hn; done|apply lookup_insert_eq|done|simpl; rewrite Hcpu; done|].
  exists s, s', c'. split_and!; [done|done|]. by rewrite Hn', Hn.
Defined.
