(* ===== verification/Irq.v ===== *)
(** * kernel/src/int.c, the receiving side of kernel/src/ipi.c, and the tail of
      an interrupt (libcpu/.../hal_int_s.S)

    The interrupt controller's driver is not in the repository's sources: the
    vector table [vectors] (the handler of an interrupt number on a core) and
    its size are arguments, and enabling or disabling the processor's
    interrupts around a handler leaves the modelled state alone.  The admission
    control functions that two commands call are arguments too. *)
From S2P Require Import Prelude Interfaces Bitops DList Queues KTypes KState Sched SchedSpec Sample ResPool Cpu Thread ThreadSpec Timer.
From stdpp Require Import list.
#[local] Open Scope Z_scope.

(** ** int.c *)
Definition acoral_intr_nesting_inc : K unit :=
  cpu ← acoral_current_cpu; on_cpu cpu (λ c, set_c_intr_nesting (u32 (c_intr_nesting c + 1)) c).

Definition acoral_intr_nesting_dec : K unit :=
  cpu ← acoral_current_cpu;
  n ← at_cpu c_intr_nesting cpu;
  when (0 <? n) (on_cpu cpu (set_c_intr_nesting (n - 1))).

Definition acoral_intr_exit : K unit :=
  cpu ← acoral_current_cpu;
  need ← at_cpu c_need_sched cpu;
  if need =? 0 then mret tt else
  nesting ← at_cpu c_intr_nesting cpu;
  if negb (nesting =? 0) then mret tt else
  locked ← at_cpu c_sched_lock cpu;
  if negb (locked =? 0) then mret tt else
  enable ← get k_sched_enable;
  if enable =? 0 then mret tt else
  on_cpu cpu (set_c_irq_switch 1).

Section irq.
Context (vectors : Z → Z → K unit) (XSCUGIC_MAX_NUM_INTR_INPUTS : Z).

Definition acoral_intr_handler (ulICCIAR : Z) : K unit :=
  cpu ← acoral_current_cpu;
  let ulInterruptID := Z.land ulICCIAR 0x3FF in
  when (ulInterruptID <? XSCUGIC_MAX_NUM_INTR_INPUTS) (vectors cpu ulInterruptID).

Definition acoral_intr_entry (ulICCIAR : Z) : K unit :=
  acoral_intr_nesting_inc;;
  acoral_intr_handler ulICCIAR;;
  acoral_intr_nesting_dec;;
  acoral_intr_exit.

(** From the vector to the return: [HAL_CORE_IRQ_ENTRY] and its copy for the
    other core, without the registers. *)
Definition hal_irq_entry (ulICCIAR : Z) : K unit :=
  acoral_intr_entry ulICCIAR;;
  cpu ← acoral_current_cpu;
  flag ← at_cpu c_irq_switch cpu;
  if flag =? 0 then mret tt else acoral_switch_context.
End irq.

(** ** ipi.c: the handler of a command *)
Section ipi.
Context `{!Allocator kstate, !Layout}.
Context (acoral_admis_ctl_change_prio acoral_admis_ctl_change_res : Z → K unit).

(** The [switch] on the command. *)
Definition ipi_dispatch (cmd thread_id data : Z) : K unit :=
  if cmd =? ACORAL_IPI_THREAD_KILL then acoral_kill_thread_by_id thread_id
  else if cmd =? ACORAL_IPI_THREAD_READY then acoral_rdy_thread_by_id thread_id;; mret tt
  else if cmd =? ACORAL_IPI_THREAD_SUSPEND then acoral_suspend_thread_by_id thread_id;; mret tt
  else if cmd =? ACORAL_IPI_THREAD_CHG_PRIO then acoral_thread_change_prio_by_id thread_id (u32 data)
  else if cmd =? ACORAL_IPI_THREAD_MOVETO then acoral_moveto_thread_by_id thread_id (u32 data);; mret tt
  else if cmd =? ACORAL_IPI_THREAD_MOVEIN then acoral_movein_thread_by_id thread_id;; mret tt
  else if cmd =? ACORAL_IPI_ADMIS_CHG_PRIO then acoral_admis_ctl_change_prio data
  else if cmd =? ACORAL_IPI_ADMIS_CHG_RES then acoral_admis_ctl_change_res data
  else mret tt.

Definition acoral_ipi_cmd_handler : K unit :=
  cpu ← acoral_current_cpu;
  cmd ← slot_of m_cmd cpu;
  thread_id ← slot_of m_thread_id cpu;
  data ← slot_of m_data cpu;
  on_slot cpu (set_m_lock 0);;
  ipi_dispatch cmd thread_id data.
End ipi.

(** ** Interrupts and the switch flag *)
Section irq_spec.
Implicit Types s : kstate.

(** When an interrupt may end in a context switch. *)
Definition may_switch (c : percpu) (s : kstate) : bool :=
  negb (c_need_sched c =? 0) && (c_intr_nesting c =? 0) && (c_sched_lock c =? 0) && negb (k_sched_enable s =? 0).

Lemma intr_exit_run s c :
  aget (k_cpus s) (k_cpu s) = Some c →
  acoral_intr_exit s = Ret (tt, if may_switch c s
    then set_k_cpus (aset (k_cpu s) (set_c_irq_switch 1 c) (k_cpus s)) s else s).
Proof.
  intros Hc. unfold acoral_intr_exit, may_switch. kstep.
  erewrite run_bind by (by apply run_at_cpu). destruct (c_need_sched c =? 0); [done|]. cbn [negb andb].
  erewrite run_bind by (by apply run_at_cpu). destruct (c_intr_nesting c =? 0); [|done]. cbn [negb andb].
  erewrite run_bind by (by apply run_at_cpu). destruct (c_sched_lock c =? 0); [|done]. cbn [negb andb].
  erewrite run_bind by reflexivity. destruct (k_sched_enable s =? 0); [done|]. by apply run_on_cpu.
Qed.

(** An interrupt whose number is outside of the table. *)
Lemma spurious_entry_run vectors n s c iccar :
  aget (k_cpus s) (k_cpu s) = Some c → n ≤ Z.land iccar 0x3FF → 0 ≤ c_intr_nesting c < 2 ^ 32 - 1 →
  acoral_intr_entry vectors n iccar s = acoral_intr_exit s.
Proof.
  intros Hc Hn Hnest. unfold acoral_intr_entry, acoral_intr_nesting_inc, acoral_intr_nesting_dec.
  erewrite run_bind by (kstep; by apply run_on_cpu).
  erewrite run_bind by (unfold acoral_intr_handler; kstep; by rewrite (proj2 (Z.ltb_ge _ _))).
  erewrite run_bind.
  2:{ kstep. erewrite run_bind by (apply run_at_cpu; simpl; by eapply aget_aset_eq).
      rewrite (proj2 (Z.ltb_lt _ _)) by (simpl; rewrite wrapu_small; lia).
      cbn [when]. apply run_on_cpu. simpl. by eapply aget_aset_eq. }
  match goal with |- _ ?a = _ => replace a with s; [done|] end.
  simpl. rewrite aset_aset, wrapu_small by lia. replace (c_intr_nesting c + 1 - 1) with (c_intr_nesting c) by lia.
  destruct c as [c1 c2 c3 c4 c5 c6 c7 c8 c9 c10]. simpl in *. unfold set_c_intr_nesting. simpl.
  rewrite aset_id by done. by destruct s.
Qed.
Lemma switch_keeps_flag s L c :
  sched_inv s L → core_inv s L → aget (k_cpus s) (k_cpu s) = Some c →
  ∃ s' t p n c', acoral_switch_context s = Ret (tt, s') ∧ sched_inv s' L ∧ core_inv s' L ∧
    highest L (k_cpu s) t ∧ k_tcb s !! c_running c = Some p ∧ k_tcb s !! t = Some n ∧
    aget (k_cpus s') (k_cpu s') = Some c' ∧ c_irq_switch c' = c_irq_switch c ∧
    c_running c' = now_running (c_running c) t p n.
Proof.
  intros HI HC Hc. destruct (switch_context_run s L HI HC) as (t & c0 & p & n & Hhi & Hc0 & Hp & Hn & Hrun).
  assert (c0 = c) as -> by congruence.
  pose proof (switched_view_same s L c t p n HI Hc Hp Hn) as HV.
  exists (switched s c t p n), t, p, n,
    (set_c_running (now_running (c_running c) t p n) (set_c_ready t (set_c_need_sched 0 c))).
  split_and!; try done.
  - by eapply sched_inv_view.
  - by apply switched_core.
  - rewrite switched_eq by done. by eapply aget_aset_eq.
Qed.

(** C35 The end of an interrupt (one without a handler).  It switches context when
    a reschedule is pending, no outer interrupt or scheduler lock forbids it and
    the scheduler runs; then [hal_irq_switch] is set, and nothing ever clears it:
    from then on every interrupt on that core ends in [acoral_switch_context],
    also inside of a critical section, inside of another interrupt or with
    nothing to reschedule. *)
Theorem irq_switch_sticky s L c vectors n iccar :
  sched_inv s L → core_inv s L → aget (k_cpus s) (k_cpu s) = Some c →
  n ≤ Z.land iccar 0x3FF → 0 ≤ c_intr_nesting c < 2 ^ 32 - 1 →
  (may_switch c s = false → c_irq_switch c = 0 → hal_irq_entry vectors n iccar s = Ret (tt, s)) ∧
  (may_switch c s = true ∨ c_irq_switch c ≠ 0 → ∃ s' t p q c',
    hal_irq_entry vectors n iccar s = Ret (tt, s') ∧ sched_inv s' L ∧ core_inv s' L ∧
    highest L (k_cpu s) t ∧ k_tcb s !! c_running c = Some p ∧ k_tcb s !! t = Some q ∧
    aget (k_cpus s') (k_cpu s') = Some c' ∧ c_irq_switch c' ≠ 0 ∧
    c_running c' = now_running (c_running c) t p q).
Proof.
  intros HI HC Hc Hn Hnest. unfold hal_irq_entry.
  rewrite (run_bind (acoral_intr_entry vectors n iccar) _ s tt
    (if may_switch c s then set_k_cpus (aset (k_cpu s) (set_c_irq_switch 1 c) (k_cpus s)) s else s))
    by (rewrite (spurious_entry_run vectors n s c) by done; by apply intr_exit_run).
  split.
  - intros -> Hf. kstep. erewrite run_bind by (by apply run_at_cpu). by rewrite Hf.
  - intros Hor. destruct (may_switch c s) eqn:Hm.
    + set (s1 := set_k_cpus _ s).
      assert (aget (k_cpus s1) (k_cpu s1) = Some (set_c_irq_switch 1 c)) as Hc1 by (by eapply aget_aset_eq).
      assert (sched_inv s1 L) as HI1 by (eapply sched_inv_view; [by eapply view_same_cpus|done]).
      assert (core_inv s1 L) as HC1.
      { destruct (ci_running _ _ HC) as (c0 & _ & Hc0 & _ & Hn0). simplify_eq. by eapply core_inv_cpus. }
      destruct (switch_keeps_flag s1 L _ HI1 HC1 Hc1) as (s' & t & p & q & c' & Hrun & HI' & HC' & Hhi & Hp & Hq & Hc' & Hf & Hr).
      exists s', t, p, q, c'. split_and!; try done; [|by rewrite Hf].
      kstep. erewrite run_bind by (by apply run_at_cpu). exact Hrun.
    + destruct Hor as [|Hf0]; [done|].
      destruct (switch_keeps_flag s L c HI HC Hc) as (s' & t & p & q & c' & Hrun & HI' & HC' & Hhi & Hp & Hq & Hc' & Hf & Hr).
      exists s', t, p, q, c'. split_and!; try done; [|by rewrite Hf].
      kstep. erewrite run_bind by (by apply run_at_cpu). by rewrite (proj2 (Z.eqb_neq _ _)).
Qed.
End irq_spec.

(** ** A command to another core *)
Section remote.
Context `{!Allocator kstate, !Layout}.
Context (change_prio change_res : Z → K unit).
Implicit Types s : kstate.

Lemma ipi_handler_run s m :
  aget (k_ipi s) (k_cpu s) = Some m →
  acoral_ipi_cmd_handler change_prio change_res s =
    ipi_dispatch change_prio change_res (m_cmd m) (m_thread_id m) (m_data m)
      (set_k_ipi (aset (k_cpu s) (set_m_lock 0 m) (k_ipi s)) s).
Proof.
  intros Hm. unfold acoral_ipi_cmd_handler. kstep.
  do 3 erewrite run_bind by (apply run_deref; by rewrite Hm).
  erewrite run_bind by (unfold on_slot; by rewrite Hm). done.
Qed.

(** C12 Making a thread of another core ready.  Called on core [k_cpu s] for a
    suspended thread of core [b], [acoral_rdy_thread] only posts a command; when
    core [b] then handles the interrupt, the thread is found by its identifier
    and becomes ready at the end of its queue on core [b].  Both cores'
    invariants hold, the slot is free for the next command, and no other thread
    changes. *)
Theorem remote_ready_correct s L t th b i x c k ty m :
  sched_inv s L → core_inv s L → core_inv (set_k_cpu b s) L → 0 ≤ b < CFG_MAX_CPU → b ≠ k_cpu s →
  k_tcb s !! t = Some th → is_suspended th = true → is_ready th = false → t_cpu th = b →
  0 ≤ t_prio th < ACORAL_MAX_PRIO_NUM → L !! LThread t ready = Some [] →
  aget (k_ipi s) b = Some m → m_lock m = 0 →
  k_res s !! t = Some (id_word c k ty i) → t = slot x k → 0 ≤ t < 2 ^ 32 →
  0 ≤ i < ACORAL_MAX_POOLS → aget (k_pools s) i = Some x → 0 ≤ ty < 16 → 0 ≤ k < 1024 →
  0 < acoral_pools →
  let L' := rq_insert b (t_prio th) (LThread t ready) L in
  ∃ s1 s2, acoral_rdy_thread t s = Ret (ret_err KR_OK, s1) ∧ k_sgi s1 = b :: k_sgi s ∧ k_tcb s1 = k_tcb s ∧
    acoral_ipi_cmd_handler change_prio change_res (set_k_cpu b s1) = Ret (tt, s2) ∧
    sched_inv s2 L' ∧ core_inv s2 L' ∧ tcb_view s2 = <[t := thread_view (readied th)]> (tcb_view s) ∧
    (∃ m', aget (k_ipi s2) b = Some m' ∧ m_lock m' = 0).
Proof.
  intros HI HC HCb Hb Hne Ht Hs Hnr Hcpu Hp HL Hm Hlk Hid Hslot Hrange Hi Hx Hty Hk Hpools L'.
  set (cmd := mk_ipi_cmd 1 ACORAL_IPI_THREAD_READY (id_word c k ty i) 0).
  assert (ipi_target b = b) as Htgt by (unfold ipi_target; rewrite (proj2 (Z.leb_gt _ _)); lia).
  set (s1 := posted b cmd s).
  assert (acoral_rdy_thread t s = Ret (ret_err KR_OK, s1)) as Hrun.
  { unfold acoral_rdy_thread. kstep. fold (is_suspended th). rewrite Hs. cbn [negb]. kstep. kstep.
    rewrite Hcpu, (proj2 (Z.eqb_neq b _)) by done. cbn [negb]. kstep.
    erewrite run_bind by (eapply ipi_cmd_send_run; [lia|by rewrite Htgt|done]). by rewrite Htgt. }
  set (s1b := set_k_cpu b s1).
  assert (aget (k_ipi s1b) (k_cpu s1b) = Some cmd) as Hcmd by (by eapply aget_aset_eq).
  set (s2 := set_k_ipi (aset b (set_m_lock 0 cmd) (k_ipi s1b)) s1b).
  assert (sched_inv s2 L) as HI2.
  { destruct HI as [Hq Hlen Hcpu0 Hqueue Hcpus Hmem Hrdy]. by split. }
  assert (core_inv s2 L) as HC2 by (by eapply core_inv_same).
  destruct (rdy_thread_spec s2 L t th (id_word c k ty i)) as (s3 & Hrdy & HI3 & HC3 & Hv3 & _ & Hk3);
    [done|done|done|done|done|done|done|done|done|].
  rewrite Hcpu in HI3, HC3. exists s1, s3. split_and!; try done.
  - fold s1b. rewrite (ipi_handler_run s1b cmd Hcmd).
    change (ipi_dispatch change_prio change_res (m_cmd cmd) (m_thread_id cmd) (m_data cmd))
      with (acoral_rdy_thread_by_id (id_word c k ty i);; mret tt).
    unfold acoral_rdy_thread_by_id. erewrite run_bind; [done|].
    erewrite run_bind by (eapply (get_res_by_id_run _ _ i x); try done; simpl; lia).
    rewrite <- Hslot. exact Hrdy.
  - exists (set_m_lock 0 cmd). split; [|done].
    assert (k_ipi s3 = k_ipi s2) as -> by apply Hk3. simpl. rewrite aset_aset. by eapply aget_aset_eq.
Qed.
End remote.

(** ** Witnesses *)
Lemma irq_switch_sticky_witness : ∃ (s s' : kstate) (c c' : percpu),
  aget (k_cpus s) (k_cpu s) = Some c ∧ c_sched_lock c = 1 ∧ c_need_sched c = 0 ∧ c_running c = 8192 ∧
  hal_irq_entry (λ _ _, mret tt) 95 1023 s = Ret (tt, s') ∧
  aget (k_cpus s') (k_cpu s') = Some c' ∧ c_running c' = 4096.
Proof.
  destruct sample_kernel as [s0 Hs]. destruct (sm_c0 _ Hs) as (c0 & Hc0 & Hr & Hn & Hi & Hl).
  set (c := set_c_running 8192 (set_c_need_sched 0 (set_c_sched_lock 1 (set_c_irq_switch 1 c0)))).
  rewrite <- (sm_cpu _ Hs) in Hc0.
  set (s := set_k_cpus (aset (k_cpu s0) c (k_cpus s0)) s0).
  assert (aget (k_cpus s) (k_cpu s) = Some c) as Hc by (by eapply aget_aset_eq).
  assert (sched_inv s sample_L) as HI by (eapply sched_inv_view; [by eapply view_same_cpus|apply Hs]).
  assert (k_tcb s !! 4096 = Some (running_thread 5) ∧ k_tcb s !! 8192 = Some (ready_thread 60)) as [Ht1 Ht2].
  { simpl. by rewrite (sm_tcb _ Hs). }
  assert (core_inv s sample_L) as HC.
  { split; [apply (sm_core _ Hs)|]. exists c, (ready_thread 60). split_and!; [done|done|simpl; lia]. }
  destruct (irq_switch_sticky s sample_L c (λ _ _, mret tt) 95 1023 HI HC Hc) as [_ H]; [done|simpl; lia|].
  destruct H as (s' & t & p & q & c' & Hrun & _ & _ & Hhi & Hp & Hq & Hc' & _ & Hrc); [by right|].
  assert (t = 4096) as ->.
  { destruct Hhi as (pr & xs & Hpr & Hrq & Hlow). change (k_cpu s) with (k_cpu s0) in *.
    rewrite (sm_cpu _ Hs) in *. destruct (decide (5 < pr)) as [Hlt|].
    - specialize (Hlow 5 ltac:(lia)). by rewrite sample_rq in Hlow.
    - rewrite sample_rq in Hrq. rewrite decide_False in Hrq by lia. by case_decide; simplify_eq. }
  exists s, s', c, c'. split_and!; try done. rewrite Hrc. change (c_running c) with 8192 in *.
  assert (p = ready_thread 60) as -> by congruence. assert (q = running_thread 5) as -> by congruence. done.
Defined.

(** Core 1 runs its idle thread 12288; thread 16384 of core 1 is suspended. *)
Definition idle1 : thread := set_t_cpu 1 (sample_thread 60).
Definition remote_thread : thread := set_t_cpu 1 (sample_thread 3).
Definition remote_pool : pool := mk_pool 16384 0 (pool_word ACORAL_RES_THREAD 0) 156 1 0 12288 0.

Definition with_remote (s : kstate) : kstate :=
  set_k_pools [remote_pool] (set_k_ipi [mk_ipi_cmd 0 0 0 0; mk_ipi_cmd 0 0 0 0]
    (set_k_res (<[16384 := id_word 0 0 ACORAL_RES_THREAD 0]> (<[12288 := 0x8400]> (k_res s)))
      (set_k_tcb (<[16384 := remote_thread]> (<[12288 := idle1]> (k_tcb s))) s))).

Lemma sample_remote : ∃ s L, sched_inv s L ∧ core_inv s L ∧ core_inv (set_k_cpu 1 s) L ∧ k_cpu s = 0 ∧
  k_tcb s !! 16384 = Some remote_thread ∧ L !! LThread 16384 ready = Some [] ∧
  k_ipi s = [mk_ipi_cmd 0 0 0 0; mk_ipi_cmd 0 0 0 0] ∧ k_pools s = [remote_pool] ∧
  k_res s !! 16384 = Some (id_word 0 0 ACORAL_RES_THREAD 0).
Proof.
  destruct sample_kernel as [s0 Hs]. pose proof (sm_cpu _ Hs) as Hcpu0.
  set (s1 := with_remote s0).
  set (sa := set_k_tcb (<[12288 := idle1]> (k_tcb s0)) s0).
  assert (sched_inv sa sample_L) as HIa by (apply sched_inv_new; [apply Hs|by rewrite (sm_tcb _ Hs)|done]).
  assert (k_tcb sa !! 16384 = None) as Hna by (simpl; by rewrite (sm_tcb _ Hs)).
  pose proof (sched_inv_new sa sample_L 16384 remote_thread HIa Hna eq_refl) as HIb.
  pose proof (core_inv_tcb sa sample_L 16384 remote_thread
    (core_inv_tcb s0 sample_L 12288 idle1 (sm_core _ Hs))) as HCb.
  assert (sched_inv s1 sample_L) as HI1 by (by eapply sched_inv_same).
  assert (core_inv s1 sample_L) as HC1 by (by eapply core_inv_same).
  destruct (sample_unlisted_at (LThread 12288 ready)) as [Hx1 Hx2]; [done..|].
  destruct (add_loc_inv false (LThread 12288 ready) 0 s1 sample_L HI1 HC1 (λ q xs Hq _, Hx2 q xs Hq) Hx1) as [HI2 HC2]; [done|].
  set (L2 := <[LThread 12288 ready := []]> sample_L) in *. set (s2 := add_loc false (LThread 12288 ready) 0 s1) in *.
  assert (unlisted L2 (LThread 16384 ready)) as [Hy1 Hy2].
  { apply unlisted_insert; [by apply sample_unlisted_at|done|apply not_elem_of_nil]. }
  destruct (add_loc_inv false (LThread 16384 ready) 0 s2 L2 HI2 HC2 (λ q xs Hq _, Hy2 q xs Hq) Hy1) as [HI3 HC3]; [done|].
  set (L3 := <[LThread 16384 ready := []]> L2) in *. set (s3 := add_loc false (LThread 16384 ready) 0 s2) in *.
  destruct (rdyqueue_add_spec s3 L3 12288 idle1 0x8400) as (s4 & _ & HI4 & Htcb4 & Hres4 & Hr4 & Ho4 & _).
  { done. }
  { unfold s3, s2, s1, add_loc, with_remote. cbn [k_tcb set_k_q set_k_pools set_k_ipi set_k_res set_k_tcb].
    rewrite lookup_insert_ne by done. apply lookup_insert_eq. }
  { done. } { unfold CFG_MAX_CPU. simpl. lia. } { rewrite prio_num_eq. simpl. lia. }
  { unfold L3. rewrite lookup_insert_ne by done. apply lookup_insert_eq. }
  { unfold s3, s2, s1, add_loc, with_remote. cbn [k_res set_k_q set_k_pools set_k_ipi set_k_res set_k_tcb].
    rewrite lookup_insert_ne by done. apply lookup_insert_eq. }
  change (t_cpu idle1) with 1 in *. change (t_prio idle1) with 60 in *.
  set (L4 := rq_insert 1 60 (LThread 12288 ready) L3) in *.
  assert (k_cpu s4 = 0 ∧ k_ipi s4 = k_ipi s1 ∧ k_pools s4 = k_pools s1) as (Hcpu4 & Hipi4 & Hpl4).
  { unfold same_other in Ho4. destruct_and!. split_and!; [|done|done]. by rewrite <- Hcpu0. }
  destruct (proj2 (aget_is_Some (k_cpus s4) 1)) as [c1 Hc1].
  { rewrite (si_len _ _ HI4). unfold CFG_MAX_CPU. lia. }
  set (s5 := set_k_cpus (aset 1 (set_c_critical_nesting 0 (set_c_running 12288 c1)) (k_cpus s4)) s4).
  assert (view_same s4 s5) as HV.
  { split; simpl; try done; [apply length_aset|]. intros i. rewrite aget_aset by eauto.
    case_decide; [subst; by rewrite Hc1|done]. }
  exists s5, L4. split_and!.
  - by eapply sched_inv_view.
  - destruct HC3 as [(p & Hp & Hne) (c & th & Hc & Hth & Hn)].
    change (k_cpu s3) with (k_cpu s0) in *. rewrite Hcpu0 in *. split.
    + exists p. change (k_cpu s5) with (k_cpu s4). rewrite Hcpu4. split; [done|].
      unfold L4. intros E. apply Hne. by eapply rq_insert_ready.
    + destruct (Hr4 0 c Hc) as (c' & Hc' & (_ & Hcn & _ & Hcr & _) & _).
      assert (is_Some (k_tcb s4 !! c_running c)) as [th' Hth'].
      { rewrite Htcb4, lookup_insert. case_decide; [eauto|]. by rewrite Hth. }
      exists c', th'. change (k_cpu s5) with (k_cpu s4). rewrite Hcpu4, Hcr, Hcn. split_and!; [|done|done].
      simpl. rewrite aget_aset_ne by (eauto || done). done.
  - split.
    + exists 60. rewrite prio_num_eq. split; [lia|]. change (k_cpu (set_k_cpu 1 s5)) with 1.
      unfold L4. rewrite rq_insert_rq, decide_True by done. by destruct (rq L3 1 60).
    + eexists _, _. split; [by eapply aget_aset_eq|]. split; [|simpl; lia].
      change (k_tcb (set_k_cpu 1 s5)) with (k_tcb s4). rewrite Htcb4. apply lookup_insert_eq.
  - done.
  - change (k_tcb s5) with (k_tcb s4). rewrite Htcb4, lookup_insert_ne by done.
    unfold s3, s2, s1, add_loc, with_remote. cbn [k_tcb set_k_q set_k_pools set_k_ipi set_k_res set_k_tcb].
    apply lookup_insert_eq.
  - unfold L4, rq_insert. rewrite lookup_insert_ne, lookup_delete_ne by done. apply lookup_insert_eq.
  - done.
  - done.
  - change (k_res s5) with (k_res s4). rewrite Hres4, lookup_insert_ne by done.
    unfold s3, s2, s1, add_loc, with_remote. cbn [k_res set_k_q set_k_pools set_k_ipi set_k_res set_k_tcb].
    apply lookup_insert_eq.
Qed.

Lemma remote_ready_correct_witness : ∃ (s s1 s2 : kstate) th,
  acoral_rdy_thread 16384 s = Ret (ret_err KR_OK, s1) ∧ k_cpu s = 0 ∧
  @acoral_ipi_cmd_handler sample_layout (λ _, mret tt) (λ _, mret tt) (set_k_cpu 1 s1) = Ret (tt, s2) ∧
  k_tcb s2 !! 16384 = Some th ∧ is_ready th = true ∧ t_cpu th = 1.
Proof.
  destruct sample_remote as (s & L & HI & HC & HC1 & Hcpu & Ht & HL & Hipi & Hpl & Hid).
  destruct (@remote_ready_correct sample_layout (λ _, mret tt) (λ _, mret tt) s L 16384 remote_thread 1 0 remote_pool
    0 0 ACORAL_RES_THREAD (mk_ipi_cmd 0 0 0 0)) as (s1 & s2 & Hrun & _ & _ & Hh & _ & _ & Hv & _).
  { done. } { done. } { done. } { unfold CFG_MAX_CPU; lia. } { by rewrite Hcpu. } { done. } { done. } { done. } { done. }
  { rewrite prio_num_eq. simpl. lia. } { done. } { by rewrite Hipi. } { done. } { done. } { done. } { lia. }
  { unfold ACORAL_MAX_POOLS; lia. } { by rewrite Hpl. } { unfold ACORAL_RES_THREAD; lia. } { lia. } { done. }
  destruct (tcb_view_lookup s2 16384 (thread_view (readied remote_thread))) as (th & Hth & Hvt).
  { rewrite Hv. apply lookup_insert_eq. }
  apply thread_view_eq in Hvt as (Hr & _ & Hc & _).
  exists s, s1, s2, th. split_and!; [done|done|done|done| |by rewrite Hc].
  rewrite Hr. unfold is_ready, readied, ready_state. simpl. flags.
Defined.
