(* ===== verification/Policy.v ===== *)
(** * kernel/src/policy.c, comm_thrd.c and period_thrd.c: scheduling policies

    A policy is a record on [policy_queue] with up to three functions; creating
    a thread, the timer's tick and releasing a thread go through the record of
    the policy's type.  The functions of the common and of the periodic policy
    are here; those of any other policy (timed_thrd.c is [TimedThrd]) are an argument,
    like the hooks of a thread and the variable-size allocator.  The policy
    data a caller passes is the value of the structure it points to. *)
From S2P Require Import Prelude Interfaces Bitops DList Queues KTypes KState Sched Cpu ResPool Thread Timer.
From stdpp Require Import list.
#[local] Open Scope Z_scope.

Definition ACORAL_SCHED_POLICY_BASE : Z := 20.
Definition ACORAL_SCHED_POLICY_COMM : Z := ACORAL_SCHED_POLICY_BASE + 1.
Definition ACORAL_SCHED_POLICY_PERIOD : Z := ACORAL_SCHED_POLICY_BASE + 2.
Definition ACORAL_SCHED_POLICY_TIMED : Z := ACORAL_SCHED_POLICY_BASE + 3.

(** What [p_data] points to: the structures of comm_thrd.h, period_thrd.h and
    timed_thrd.h, or the address of another one. *)
Inductive policy_arg : Type :=
  | comm_policy_data (cpu prio : Z)
  | period_policy_data (cpu prio time : Z)
  | timed_policy_data (cpu start_time exe_time section_num frequency section_route section_args : Z)
  | other_policy_data (adr : Z).

(** [hook], when it is not [NULL]. *)
Record thread_hook : Type := mk_thread_hook { h_deal : Z; h_release : Z }.

Definition pol {A} (f : policy → A) (p : Z) : K A := xobj x_policies f p.
Definition pdat {A} (f : period_data → A) (p : Z) : K A := xobj x_pdata f p.

(** [list_entry(tmp, acoral_sched_policy_t, list)]. *)
Definition policy_of (l : loc) : K Z := match l with LPolicy p => mret p | _ => fail Wild end.

(** ** policy.c: the queue of the policies *)
Fixpoint policy_find (fuel : nat) (type : Z) (tmp : loc) : K Z :=
  if decide (tmp = LQueue QPolicy) then mret 0 else
  p ← policy_of tmp;
  t ← pol po_type p;
  if t =? type then mret p else
  next ← kget_next tmp;
  match fuel with
  | O => fail Diverge
  | S fuel => policy_find fuel type next
  end.

Definition acoral_get_policy_ctrl (type : Z) : K Z :=
  fuel ← get (λ s, size (q_nodes (k_q s)));
  tmp ← kget_next (LQueue QPolicy);
  policy_find fuel type tmp.

Definition acoral_register_sched_policy (p : Z) : K unit :=
  on_q (acoral_fifo_queue_add (LQueue QPolicy) (LPolicy p)).

(** ** The functions of a policy *)
Section policy.
Context `{!Allocator kstate, !Layout}.
(** The variable-size allocator, the hooks of threads, and the addresses of the
    functions a thread returns to. *)
Context (acoral_vol_malloc : Z → K Z) (acoral_vol_free : Z → K unit) (call_hook : Z → Z → K unit).
Context (acoral_thread_exit_adr period_thread_exit_adr : Z).

(** [sizeof(period_private_data_t)]. *)
Definition sizeof_period_data : Z := 12.

(** The thread's resource goes back when its creation fails. *)
Definition give_back (thread : Z) : K unit :=
  acoral_enter_critical;;
  acoral_release_res acoral_pools thread;;
  acoral_exit_critical.

(** *** comm_thrd.c *)
Definition comm_policy_thread_init (thread route args : Z) (p_data : policy_arg) (data : Z) : K Z :=
  policy ← thr t_policy thread;
  when (policy =? ACORAL_SCHED_POLICY_COMM)
    (match p_data with
     | comm_policy_data cpu prio =>
         on_thr thread (set_t_cpu cpu);;
         on_thr thread (set_t_prio prio)
     | _ => fail Wild
     end);;
  err ← acoral_thread_init thread route acoral_thread_exit_adr args;
  if negb (err =? ret_err KR_OK) then
    give_back thread;;
    mret (s32 err)
  else
    on_thr thread (set_t_data data);;
    acoral_rdy_thread thread;;
    res_id thread.

Definition comm_policy_init (comm_policy : Z) : K unit :=
  modify (λ s, set_k_ext (set_x_policies
    (<[comm_policy := mk_policy ACORAL_SCHED_POLICY_COMM FComm FNull FNull]> (x_policies (k_ext s))) (k_ext s)) s);;
  acoral_register_sched_policy comm_policy.

(** *** period_thrd.c *)
Definition acoral_period_time_queue_add (new : Z) : K unit :=
  on_q (acoral_tick_queue_add (LQueue QPeriod) (LThread new timing)).

Definition acoral_period_queue_del (old : Z) : K unit :=
  on_q (acoral_tick_queue_del (LQueue QPeriod) (LThread old timing)).

Definition period_thread_reload (thread : Z) : K unit :=
  pd ← thr t_private_data thread;
  time ← pdat pd_time pd;
  on_thr thread (set_t_time (TIME_TO_TICKS time));;
  time ← thr t_time thread;
  on_q (on_nodes (acoral_vlist_init (LThread thread timing) (s32 time)));;
  acoral_period_time_queue_add thread.

Definition period_thread_exit : K unit := acoral_suspend_self;; mret tt.

(** The private data of a periodic thread; [false] when there is no memory. *)
Definition period_private (thread route args : Z) (p_data : policy_arg) : K bool :=
  match p_data with
  | period_policy_data cpu prio time =>
      on_thr thread (set_t_cpu cpu);;
      on_thr thread (set_t_prio prio);;
      pd ← acoral_vol_malloc sizeof_period_data;
      if pd =? 0 then
        give_back thread;;
        mret false
      else
        modify (λ s, set_k_ext (set_x_pdata (<[pd := mk_period_data time route args]> (x_pdata (k_ext s))) (k_ext s)) s);;
        on_thr thread (set_t_private_data pd);;
        on_thr thread (set_t_cpu_mask (u32 (-1)));;
        mret true
  | _ => fail Wild
  end.

Definition period_policy_thread_init (thread route args : Z) (p_data : policy_arg) (data : Z) : K Z :=
  policy ← thr t_policy thread;
  ok ← (if policy =? ACORAL_SCHED_POLICY_PERIOD then period_private thread route args p_data else mret true);
  if negb (ok : bool) then mret (s32 (err_code KR_MEM_ERR_MALLOC)) else
  err ← acoral_thread_init thread route period_thread_exit_adr args;
  if negb (err =? ret_err KR_OK) then
    give_back thread;;
    mret (s32 err)
  else
    on_thr thread (set_t_data data);;
    acoral_enter_critical;;
    period_thread_reload thread;;
    acoral_exit_critical;;
    acoral_rdy_thread thread;;
    res_id thread.

Definition period_policy_thread_release (thread : Z) : K unit :=
  pd ← thr t_private_data thread;
  acoral_vol_free pd;;
  on_thr thread (set_t_private_data 0);;
  hook ← thr t_release_hook thread;
  when (negb (hook =? 0)) (call_hook hook thread).

(** A due periodic thread that has finished its last run starts again. *)
Definition period_restart (thread pd : Z) : K unit :=
  hook ← thr t_deal_hook thread;
  when (negb (hook =? 0)) (call_hook hook thread);;
  bottom ← thr t_stack_buttom thread;
  size ← thr t_stack_size thread;
  on_thr thread (set_t_stack (u32 (bottom + size - 4)));;
  stk ← thr t_stack thread;
  route ← pdat pd_route pd;
  args ← pdat pd_args pd;
  stk' ← hal_stack_init stk route period_thread_exit_adr args;
  on_thr thread (set_t_stack stk');;
  acoral_rdy_thread thread;;
  mret tt.

(** The loop of [period_time_deal] from the node [tmp]. *)
Fixpoint period_loop (fuel : nat) (tmp : loc) : K unit :=
  if decide (tmp = LQueue QPeriod) then mret tt else
  thread ← thread_of timing tmp;
  v ← kget_value tmp;
  if 0 <? v then mret tt else
  pd ← thr t_private_data thread;
  tmp1 ← kget_next tmp;
  acoral_period_queue_del thread;;
  st ← thr t_state thread;
  when (has st ACORAL_THREAD_STATE_SUSPEND) (period_restart thread pd);;
  period_thread_reload thread;;
  match fuel with
  | O => fail Diverge
  | S fuel => period_loop fuel tmp1
  end.

Definition period_time_deal : K unit :=
  let head := LQueue QPeriod in
  empty ← klist_empty head;
  if (empty : bool) then mret tt else
  first ← kget_next head;
  v ← kget_value first;
  when (0 <? v) (kset_value first (s32 (v - 1)));;
  tmp ← kget_next head;
  fuel ← get (λ s, size (q_nodes (k_q s)));
  period_loop fuel tmp.

Definition period_policy_init (period_policy : Z) : K unit :=
  on_q (acoral_tick_queue_init (LQueue QPeriod));;
  modify (λ s, set_k_ext (set_x_policies
    (<[period_policy := mk_policy ACORAL_SCHED_POLICY_PERIOD FPeriod FPeriod FPeriod]> (x_policies (k_ext s))) (k_ext s)) s);;
  acoral_register_sched_policy period_policy.

(** ** policy.c: dispatch *)
(** The functions of the policies that are not modelled. *)
Context (other_thread_init : policy_fun → Z → Z → Z → policy_arg → Z → K Z).
Context (other_thread_release : policy_fun → Z → K unit) (other_time_deal : policy_fun → K unit).

Definition call_thread_init (f : policy_fun) (thread route args : Z) (p_data : policy_arg) (data : Z) : K Z :=
  match f with
  | FNull => fail Wild
  | FComm => comm_policy_thread_init thread route args p_data data
  | FPeriod => period_policy_thread_init thread route args p_data data
  | _ => other_thread_init f thread route args p_data data
  end.

Definition call_thread_release (f : policy_fun) (thread : Z) : K unit :=
  match f with
  | FNull | FComm => fail Wild
  | FPeriod => period_policy_thread_release thread
  | _ => other_thread_release f thread
  end.

Definition call_time_deal (f : policy_fun) : K unit :=
  match f with
  | FNull | FComm => fail Wild
  | FPeriod => period_time_deal
  | _ => other_time_deal f
  end.

Definition acoral_policy_thread_init (policy_type thread route args : Z) (p_data : policy_arg) (data : Z) : K Z :=
  p ← acoral_get_policy_ctrl (u8 policy_type);
  init ← (if p =? 0 then mret FNull else pol po_thread_init p);
  if decide (init = FNull) then
    give_back thread;;
    mret (s32 (err_code KR_POLICY_ERR_NULL))
  else call_thread_init init thread route args p_data data.

Definition create_thread_by_policy (raw : Z → thread) (route stack_size args name stack policy_type : Z)
    (p_data : policy_arg) (data : Z) (hook : option thread_hook) : K Z :=
  thread ← acoral_alloc_thread raw;
  if thread =? 0 then mret (s32 (err_code KR_POLICY_ERR_THREAD)) else
  on_thr thread (set_t_name name);;
  on_thr thread (set_t_stack_size (Z.land stack_size (u32 (Z.lnot 3))));;
  on_thr thread (set_t_stack_buttom stack);;
  on_thr thread (set_t_policy (u8 policy_type));;
  on_thr thread (set_t_deal_hook (match hook with Some h => h_deal h | None => 0 end));;
  on_thr thread (set_t_release_hook (match hook with Some h => h_release h | None => 0 end));;
  acoral_policy_thread_init policy_type thread route args p_data data.

Fixpoint policy_time_loop (fuel : nat) (tmp : loc) : K unit :=
  if decide (tmp = LQueue QPolicy) then mret tt else
  p ← policy_of tmp;
  f ← pol po_time_deal p;
  when (negb (bool_decide (f = FNull))) (call_time_deal f);;
  next ← kget_next tmp;
  match fuel with
  | O => fail Diverge
  | S fuel => policy_time_loop fuel next
  end.

Definition acoral_policy_time_deal : K unit :=
  fuel ← get (λ s, size (q_nodes (k_q s)));
  tmp ← kget_next (LQueue QPolicy);
  policy_time_loop fuel tmp.

Definition acoral_policy_thread_release (thread : Z) : K unit :=
  type ← thr t_policy thread;
  p ← acoral_get_policy_ctrl type;
  f ← pol po_thread_release p;
  when (negb (bool_decide (f = FNull))) (call_thread_release f thread).

Definition acoral_sched_policy_init (comm_policy period_policy : Z) (timed_policy_init : K unit) : K unit :=
  on_q (acoral_fifo_queue_init (LQueue QPolicy));;
  comm_policy_init comm_policy;;
  period_policy_init period_policy;;
  timed_policy_init.
End policy.
