(* ===== verification/PolicySpec.v ===== *)
(** * Correctness of the periodic policy and of the dispatch over policies *)
From S2P Require Import Prelude Interfaces Bitops DList Queues KTypes KState Sched SchedSpec Sample Cpu ResPool Thread ThreadSpec Timer Policy.
From stdpp Require Import list.
#[local] Open Scope Z_scope.

(** ** One due thread *)

(** The stack pointer of a thread that starts again: its context is 16 words. *)
Definition restart_stack (th : thread) : Z := u32 (t_stack_buttom th + t_stack_size th - 4) - 64 + 4.

(** What scheduling sees of a thread after its period [ticks] ended. *)
Definition after_period (ticks : Z) (v : bool * bool * thread) : bool * bool * thread :=
  let '(r, su, th) := v in
  if (su : bool) then (true, false, set_t_time ticks (set_t_stack (restart_stack th) th))
  else (r, su, set_t_time ticks th).

Lemma after_period_suspended ticks th :
  is_suspended th = true →
  after_period ticks (thread_view th) = ready_view (thread_view (set_t_time ticks (set_t_stack (restart_stack th) th))).
Proof. intros Hs. unfold after_period, ready_view, thread_view. by rewrite Hs. Qed.

Lemma after_period_active ticks th :
  is_suspended th = false → after_period ticks (thread_view th) = thread_view (set_t_time ticks th).
Proof. intros Hs. unfold after_period, thread_view. rewrite Hs. unfold is_suspended in *. simpl. by rewrite Hs. Qed.

(** A positive node stays positive when another one is inserted. *)
Lemma dq_insert_pos (y x : loc) d t dq :
  (y, d) ∈ dq → 0 < d → 0 ≤ t → ∃ d', (y, d') ∈ dq_insert x t dq ∧ 0 < d'.
Proof.
  revert t. induction dq as [|[z e] dq IH]; intros t Hin Hd Ht; [by apply not_elem_of_nil in Hin|].
  simpl. destruct (Z.ltb_spec t e).
  - apply elem_of_cons in Hin as [[= <- <-]|Hin].
    + exists (d - t). split; [right; by left|lia].
    + exists d. split; [by do 2 right|done].
  - apply elem_of_cons in Hin as [[= <- <-]|Hin].
    + exists d. split; [by left|done].
    + destruct (IH (t - e) Hin Hd) as (d' & Hin' & Hd'); [lia|]. exists d'. split; [by right|done].
Qed.

Lemma dq_insert_perm (x : loc) t dq : (dq_insert x t dq).*1 ≡ₚ x :: dq.*1.
Proof.
  revert t. induction dq as [|[z e] dq IH]; intros t; [done|]. simpl.
  destruct (t <? e); [done|]. simpl. rewrite IH. apply Permutation_swap.
Qed.

Lemma dvals_elem (h : heap loc) dq (y : loc) d : dvals h dq → (y, d) ∈ dq → valof h y = Some d.
Proof. intros Hv Hin. by apply (proj1 (Forall_forall _ _) Hv) in Hin. Qed.

(** The [timing] node of a thread, initialised anew and put into a tick queue. *)
Lemma requeue_spec s L q dq t ticks :
  sched_inv s L → core_inv s L → tickq q s L dq → L !! LThread t timing = Some [] →
  q ≠ LThread t timing → (∀ c p, q ≠ LQueue (QReady c p)) → 0 ≤ ticks < 2 ^ 31 →
  let L' := <[q := (dq_insert (LThread t timing) ticks dq).*1]> (delete (LThread t timing) L) in
  ∃ q', (on_q (on_nodes (acoral_vlist_init (LThread t timing) ticks));; on_q (acoral_tick_queue_add q (LThread t timing))) s
      = Ret (tt, set_k_q q' s) ∧
    sched_inv (set_k_q q' s) L' ∧ core_inv (set_k_q q' s) L' ∧
    tickq q (set_k_q q' s) L' (dq_insert (LThread t timing) ticks dq).
Proof.
  intros HI HC [H1 H2 H3 H4] Hx Hne Hq Htr L'.
  destruct (vlist_init_spec s L (LThread t timing) ticks) as (Hrun & HI2 & HC2 & Hv & Hoth); [done..|].
  cbv zeta in HI2, HC2, Hrun. set (q2 := mk_q _ _) in *. set (s2 := set_k_q q2 s) in *.
  assert (dvals (q_nodes (k_q s2)) dq) as Hdv2.
  { eapply dvals_ext; [|exact H2]. intros y Hin. apply Hoth. intros ->.
    eapply (rep_lone _ L q dq.*1); [apply (si_q _ _ HI)|done|exact Hx|done|by right]. }
  destruct (tick_queue_add_rep (k_q s2) L q dq (LThread t timing) ticks)
    as (q' & Hadd & HQ & Hdv & Hlk & _); [apply HI2|done..|].
  exists q'.
  assert (∀ c p, L' !! LQueue (QReady c p) = L !! LQueue (QReady c p)) as HL.
  { intros c p. unfold L'. by rewrite lookup_insert_ne, lookup_delete_ne. }
  split_and!.
  - erewrite run_bind by exact Hrun. by rewrite (run_on_q _ s2 tt q') by exact Hadd.
  - exact (sched_inv_lists s2 q' L L' HI2 HQ Hlk HL).
  - exact (core_inv_lists s2 q' L L' HC2 HL).
  - split; [unfold L'; apply lookup_insert_eq|done|by apply dq_insert_dnat|].
    unfold is_queue. simpl. by rewrite Hlk.
Qed.

Section period.
Context `{!Allocator kstate, !Layout}.
Context (call_hook : Z → Z → K unit) (exit : Z).
Implicit Types s : kstate.

Definition periodq := (tickq (LQueue QPeriod)).

(** A thread of the period queue, without a hook, with a period of [per t]
    ticks; it finished its last run and can be made ready, or it still runs. *)
Definition period_ok (per : Z → Z) (s : kstate) (L : gmap loc (list loc)) (t : Z) : Prop :=
  ∃ th pd, k_tcb s !! t = Some th ∧ t_deal_hook th = 0 ∧
    x_pdata (k_ext s) !! t_private_data th = Some pd ∧ per t = TIME_TO_TICKS (pd_time pd) ∧ 0 < per t ∧
    (is_suspended th = false ∨ wakeable s L t).

(** The contexts laid down by the restart of thread [t]. *)
Definition restart_ctx (s : kstate) (m : gmap Z (list Z)) (t : Z) : gmap Z (list Z) :=
  match tcb_view s !! t with
  | Some (_, su, th) =>
      match x_pdata (k_ext s) !! t_private_data th with
      | Some pd => if (su : bool) then <[restart_stack th := ctx_words (pd_route pd) exit (pd_args pd)]> m else m
      | None => m
      end
  | None => m
  end.

(** Reloading a thread whose [timing] node is on no list. *)
Lemma reload_spec s L rest t th pd :
  sched_inv s L → core_inv s L → periodq s L rest → L !! LThread t timing = Some [] →
  k_tcb s !! t = Some th → x_pdata (k_ext s) !! t_private_data th = Some pd →
  let ticks := TIME_TO_TICKS (pd_time pd) in
  let L' := <[LQueue QPeriod := (dq_insert (LThread t timing) ticks rest).*1]> (delete (LThread t timing) L) in
  ∃ q', let s' := set_k_q q' (set_k_tcb (<[t := set_t_time ticks th]> (k_tcb s)) s) in
    period_thread_reload t s = Ret (tt, s') ∧ sched_inv s' L' ∧ core_inv s' L' ∧
    periodq s' L' (dq_insert (LThread t timing) ticks rest).
Proof.
  intros HI HC HD Hx Ht Hpd ticks L'.
  pose proof (time_to_ticks_range (pd_time pd)) as Htr. fold ticks in Htr.
  set (s1 := set_k_tcb (<[t := set_t_time ticks th]> (k_tcb s)) s).
  destruct (requeue_spec s1 L (LQueue QPeriod) rest t ticks) as (q' & Hrun & HI' & HC' & HD');
    [by eapply sched_inv_thr|by apply core_inv_tcb|by destruct HD; split|done..|lia|].
  exists q'. cbv zeta. split_and!; [|done..].
  unfold period_thread_reload. erewrite run_bind by (by apply run_thr).
  erewrite run_bind by (by eapply run_xobj). fold ticks. erewrite run_bind by (by apply run_on_thr). fold s1.
  erewrite run_bind by (apply run_thr; simpl; apply lookup_insert_eq).
  cbn [t_time set_t_time]. rewrite (wraps_small 32) by lia. exact Hrun.
Qed.

(** Restarting a suspended thread of this core. *)
Lemma restart_spec s L t th pd pa :
  sched_inv s L → core_inv s L → wakeable s L t → k_tcb s !! t = Some th → t_deal_hook th = 0 →
  x_pdata (k_ext s) !! pa = Some pd →
  ∃ s' p, let L' := rq_insert (k_cpu s) p (LThread t ready) L in
    period_restart call_hook exit t pa s = Ret (tt, s') ∧ sched_inv s' L' ∧ core_inv s' L' ∧
    tcb_view s' = <[t := ready_view (thread_view (set_t_stack (restart_stack th) th))]> (tcb_view s) ∧
    k_ctx s' = <[restart_stack th := ctx_words (pd_route pd) exit (pd_args pd)]> (k_ctx s) ∧
    k_ext s' = k_ext s ∧ k_cpu s' = k_cpu s ∧
    (∀ y, valof (q_nodes (k_q s')) y = valof (q_nodes (k_q s)) y) ∧ q_lock (k_q s') = q_lock (k_q s) ∧
    (∀ t', t' ≠ t → k_res s' !! t' = k_res s !! t').
Proof.
  intros HI HC (th0 & id & Ht0 & Hr & Hs & Hc & Hp & HL & Hid) Ht Hhook Hpd. assert (th0 = th) as -> by congruence.
  set (stk := u32 (t_stack_buttom th + t_stack_size th - 4)).
  set (s1 := set_k_tcb (<[t := set_t_stack stk th]> (k_tcb s)) s).
  set (s2 := set_k_ctx (<[restart_stack th := ctx_words (pd_route pd) exit (pd_args pd)]> (k_ctx s1)) s1).
  set (s3 := set_k_tcb (<[t := set_t_stack (restart_stack th) th]> (k_tcb s)) s2).
  assert (sched_inv s3 L) as HI3.
  { eapply (sched_inv_same (set_k_tcb (<[t := set_t_stack (restart_stack th) th]> (k_tcb s)) s)); [by eapply sched_inv_thr|done..]. }
  assert (core_inv s3 L) as HC3.
  { eapply (core_inv_same (set_k_tcb (<[t := set_t_stack (restart_stack th) th]> (k_tcb s)) s)); [by apply core_inv_tcb|done..]. }
  destruct (rdy_thread_spec s3 L t (set_t_stack (restart_stack th) th) id) as (s4 & Hrdy & HI4 & HC4 & Hv4 & Hr4 & Hk4);
    [done|done|apply lookup_insert_eq|done|done|done|done|done|done|].
  change (t_cpu (set_t_stack _ th)) with (t_cpu th) in *. change (t_prio (set_t_stack _ th)) with (t_prio th) in *.
  rewrite Hc in *. exists s4, (t_prio th).
  pose proof (kp_other _ _ Hk4) as Ho4. unfold same_other in Ho4. destruct_and!. split_and!; try done.
  - unfold period_restart. erewrite run_bind by (by apply run_thr). rewrite Hhook. cbn [Z.eqb negb when].
    erewrite run_bind by reflexivity. do 2 erewrite run_bind by (by apply run_thr). fold stk.
    erewrite run_bind by (by apply run_on_thr). fold s1.
    erewrite run_bind by (apply run_thr; simpl; apply lookup_insert_eq).
    do 2 erewrite run_bind by (by eapply run_xobj). cbn [t_stack set_t_stack].
    erewrite run_bind by reflexivity.
    change (stk - 64 + 4) with (restart_stack th). fold s2.
    erewrite run_bind by (apply run_on_thr; apply lookup_insert_eq).
    replace (set_k_tcb _ s2) with s3; [by erewrite run_bind by exact Hrdy|].
    unfold s3. simpl. by rewrite insert_insert_eq.
  - rewrite Hv4, readied_view. unfold tcb_view. simpl. by rewrite fmap_insert, insert_insert_eq.
  - apply Hk4.
  - apply Hk4.
  - intros t' Hne. by rewrite Hr4, lookup_insert_ne.
Qed.

(** Removing the first thread of the queue. *)
Lemma period_del_spec s L t d rest :
  sched_inv s L → core_inv s L → periodq s L ((LThread t timing, d) :: rest) →
  let L' := <[LThread t timing := []]> (<[LQueue QPeriod := rest.*1]> L) in
  ∃ q', acoral_period_queue_del t s = Ret (tt, set_k_q q' s) ∧ sched_inv (set_k_q q' s) L' ∧
    core_inv (set_k_q q' s) L' ∧ periodq (set_k_q q' s) L' rest.
Proof.
  intros HI HC [H1 H2 H3 H4] L'.
  destruct (queue_del_rep (k_q s) L (LQueue QPeriod) (LQueue QPeriod) (LThread t timing) [] rest.*1)
    as (q' & Hdel & HQ & Hlk & Hval); [apply HI|done|done|].
  assert (∀ c p, L' !! LQueue (QReady c p) = L !! LQueue (QReady c p)) as HLr.
  { intros. unfold L'. by rewrite !lookup_insert_ne. }
  exists q'. split_and!.
  - unfold acoral_period_queue_del. by apply run_on_q.
  - by eapply sched_inv_lists.
  - by eapply core_inv_lists.
  - split; [unfold L'; by rewrite lookup_insert_ne, lookup_insert_eq| |by apply Forall_cons in H3 as [_ ?]|].
    + apply Forall_cons in H2 as [_ H2]. eapply dvals_ext; [|exact H2]. intros x _. apply Hval.
    + unfold is_queue. simpl. by rewrite Hlk.
Qed.

(** What one turn of the loop does to the first thread of the queue. *)
Lemma period_step s L per t rest :
  sched_inv s L → core_inv s L → periodq s L ((LThread t timing, 0) :: rest) → period_ok per s L t →
  ∃ s' L' pa, (∀ th, k_tcb s !! t = Some th → t_private_data th = pa) ∧
    (acoral_period_queue_del t;; st ← thr t_state t;
     when (has st ACORAL_THREAD_STATE_SUSPEND) (period_restart call_hook exit t pa);; period_thread_reload t) s = Ret (tt, s') ∧
    sched_inv s' L' ∧ core_inv s' L' ∧ periodq s' L' (dq_insert (LThread t timing) (per t) rest) ∧
    (∃ v, tcb_view s !! t = Some v ∧ tcb_view s' = <[t := after_period (per t) v]> (tcb_view s)) ∧
    k_ctx s' = restart_ctx s (k_ctx s) t ∧ k_ext s' = k_ext s ∧ k_cpu s' = k_cpu s ∧
    (∀ t', t' ≠ t → k_res s' !! t' = k_res s !! t') ∧
    (∀ t', t' ≠ t → L' !! LThread t' ready = L !! LThread t' ready).
Proof.
  intros HI HC HD (th & pd & Ht & Hhook & Hpd & Hper & Hpos & Hor).
  destruct (period_del_spec s L t 0 rest HI HC HD) as (q1 & Hdel & HI1 & HC1 & HD1).
  cbv zeta in HI1, HC1, HD1.
  set (L1 := <[LThread t timing := []]> (<[LQueue QPeriod := rest.*1]> L)) in *.
  set (s1 := set_k_q q1 s) in *.
  assert (tcb_view s !! t = Some (thread_view th)) as Hv by (by apply lookup_tcb_view).
  assert (∀ t', L1 !! LThread t' ready = L !! LThread t' ready) as HLr1.
  { intros t'. unfold L1. by rewrite !lookup_insert_ne. }
  destruct (is_suspended th) eqn:Hs.
  - destruct Hor as [|Hw]; [done|].
    assert (wakeable s1 L1 t) as Hw1.
    { destruct Hw as (th0 & id & Hrest). exists th0, id. by rewrite HLr1. }
    destruct (restart_spec s1 L1 t th pd (t_private_data th) HI1 HC1 Hw1) as
      (s2 & p & Hrs & HI2 & HC2 & Hv2 & Hctx2 & Hext2 & Hcpu2 & Hval2 & Hlk2 & Hres2); [done..|].
    cbv zeta in HI2, HC2. set (L2 := rq_insert _ _ _ L1) in *.
    assert (periodq s2 L2 rest) as HD2.
    { destruct HD1 as [H1 H2 H3 H4]. split; [unfold L2, rq_insert; by rewrite lookup_insert_ne, lookup_delete_ne| |done|].
      - eapply dvals_ext; [|exact H2]. intros y _. apply Hval2.
      - unfold is_queue. by rewrite Hlk2. }
    destruct (tcb_view_lookup s2 t (ready_view (thread_view (set_t_stack (restart_stack th) th)))) as (th2 & Ht2 & Hvt2).
    { rewrite Hv2. apply lookup_insert_eq. }
    assert (thread_rest th2 = thread_rest (set_t_stack (restart_stack th) th)) as Hrest2 by exact (f_equal snd Hvt2).
    destruct (reload_spec s2 L2 rest t th2 pd HI2 HC2 HD2) as (q3 & Hrl & HI3 & HC3 & HD3).
    { unfold L2, rq_insert. rewrite lookup_insert_ne, lookup_delete_ne by done. apply lookup_insert_eq. }
    { done. }
    { rewrite Hext2. assert (t_private_data th2 = t_private_data th) as -> by exact (f_equal t_private_data Hrest2). done. }
    cbv zeta in Hrl, HI3, HC3, HD3. rewrite <- Hper in *.
    eexists _, _, (t_private_data th). split; [intros; congruence|].
    split; [|split; [exact HI3|split; [exact HC3|split; [exact HD3|]]]].
    + erewrite run_bind by exact Hdel. erewrite run_bind by (by apply run_thr). fold (is_suspended th).
      rewrite Hs. cbn [when]. by erewrite run_bind by exact Hrs.
    + split_and!; simpl; try done.
      * exists (thread_view th). split; [done|]. rewrite after_period_suspended by done.
        unfold tcb_view at 1. simpl. rewrite tcb_view_insert, Hv2, insert_insert_eq. f_equal.
        apply (f_equal (λ v : bool * bool * thread, (v.1, set_t_time (per t) v.2))) in Hvt2. exact Hvt2.
      * rewrite Hctx2. unfold restart_ctx. rewrite Hv. cbn [thread_view]. simpl. by rewrite Hpd, Hs.
      * intros t' Hne. unfold L2, rq_insert.
        rewrite lookup_insert_ne, lookup_delete_ne, lookup_insert_ne, lookup_delete_ne by congruence. apply HLr1.
  - destruct (reload_spec s1 L1 rest t th pd HI1 HC1 HD1) as (q3 & Hrl & HI3 & HC3 & HD3);
      [apply lookup_insert_eq|done|done|].
    cbv zeta in Hrl, HI3, HC3, HD3. rewrite <- Hper in *.
    eexists _, _, (t_private_data th). split; [intros; congruence|].
    split; [|split; [exact HI3|split; [exact HC3|split; [exact HD3|]]]].
    + erewrite run_bind by exact Hdel. erewrite run_bind by (by apply run_thr). fold (is_suspended th).
      rewrite Hs. cbn [when]. by erewrite run_bind by reflexivity.
    + split_and!; simpl; try done.
      * exists (thread_view th). split; [done|]. rewrite after_period_active by done.
        unfold tcb_view at 1. simpl. by rewrite tcb_view_insert.
      * unfold restart_ctx. rewrite Hv. simpl. by rewrite Hpd, Hs.
      * intros t' Hne. rewrite lookup_insert_ne, lookup_delete_ne by congruence. apply HLr1.
Qed.

(** Other threads of the queue wait for their turn unchanged. *)
Lemma period_ok_other per s s' L L' t t' v :
  period_ok per s L t' → t' ≠ t → tcb_view s' = <[t := v]> (tcb_view s) → k_ext s' = k_ext s → k_cpu s' = k_cpu s →
  k_res s' !! t' = k_res s !! t' → L' !! LThread t' ready = L !! LThread t' ready → period_ok per s' L' t'.
Proof.
  intros (th & pd & Ht & Hhook & Hpd & Hper & Hpos & Hor) Hne Hv Hext Hcpu Hres HL.
  assert (tcb_view s' !! t' = Some (thread_view th)) as Hv'.
  { rewrite Hv, lookup_insert_ne by done. by apply lookup_tcb_view. }
  apply tcb_view_lookup in Hv' as (th' & Ht' & Hvt).
  assert (thread_rest th' = thread_rest th) as Hrest by exact (f_equal snd Hvt).
  exists th', pd. split_and!; try done.
  - by rewrite (f_equal t_deal_hook Hrest : t_deal_hook th' = t_deal_hook th).
  - by rewrite Hext, (f_equal t_private_data Hrest : t_private_data th' = t_private_data th).
  - destruct Hor as [Hs|Hw]; [left|right].
    + by apply thread_view_eq in Hvt as (_ & -> & _).
    + by eapply wakeable_other.
Qed.

Lemma restart_ctx_other s s' m t t' v :
  t' ≠ t → tcb_view s' = <[t := v]> (tcb_view s) → k_ext s' = k_ext s → restart_ctx s' m t' = restart_ctx s m t'.
Proof. intros Hne Hv Hext. unfold restart_ctx. by rewrite Hv, lookup_insert_ne, Hext. Qed.

Lemma restart_ctx_foldl s s' t v ts m :
  t ∉ ts → tcb_view s' = <[t := v]> (tcb_view s) → k_ext s' = k_ext s →
  foldl (restart_ctx s') m ts = foldl (restart_ctx s) m ts.
Proof.
  intros Hni Hv Hext. revert m. induction ts as [|t' ts IH]; intros m; [done|].
  apply not_elem_of_cons in Hni as [Hne Hni]. simpl. rewrite IH by done.
  by rewrite (restart_ctx_other s s' m t t' v).
Qed.

(** Behind the zeros, for a positive time. *)
Lemma dq_insert_zeros p x (ts : list Z) (r : list (loc * Z)) :
  0 < p → dq_insert x p (((λ t, (LThread t timing, 0)) <$> ts) ++ r)
    = ((λ t, (LThread t timing, 0)) <$> ts) ++ dq_insert x p r.
Proof.
  intros Hp. induction ts as [|t ts IH]; [done|]. rewrite !fmap_cons. cbn [app dq_insert].
  rewrite (proj2 (Z.ltb_ge p 0)) by lia. by rewrite Z.sub_0_r, IH.
Qed.

Lemma period_loop_run per ts : ∀ s L rest fuel tmp,
  sched_inv s L → core_inv s L → periodq s L (((λ t, (LThread t timing, 0)) <$> ts) ++ rest) →
  NoDup ts → Forall (period_ok per s L) ts → (length ts ≤ fuel)%nat →
  (match ts with
   | t :: _ => tmp = LThread t timing
   | [] => tmp = LQueue QPeriod ∨ ∃ t d, tmp = LThread t timing ∧ (tmp, d) ∈ rest ∧ 0 < d
   end) →
  (rest = [] ∨ ∃ t d r, rest = (LThread t timing, d) :: r ∧ 0 < d) ∨ ts = [] →
  ∃ s' L', period_loop call_hook exit fuel tmp s = Ret (tt, s') ∧ sched_inv s' L' ∧ core_inv s' L' ∧
    periodq s' L' (foldl (λ r t, dq_insert (LThread t timing) (per t) r) rest ts) ∧
    k_ctx s' = foldl (restart_ctx s) (k_ctx s) ts ∧
    (∀ t, tcb_view s' !! t = if decide (t ∈ ts) then after_period (per t) <$> tcb_view s !! t else tcb_view s !! t).
Proof.
  induction ts as [|t ts IH]; intros s L rest fuel tmp HI HC HD Hnd Hok Hfuel Htmp Hrest.
  - exists s, L. split.
    { destruct Htmp as [->|(t & d & -> & Hin & Hd)].
      - destruct fuel; cbn [period_loop]; by rewrite decide_True.
      - assert (kget_value (LThread t timing) s = Ret (d, s)) as Hval.
        { apply run_kread, run_get_value_at. eapply dvals_elem; [apply HD|done]. }
        destruct fuel; cbn [period_loop]; (rewrite decide_False by done); erewrite run_bind by done;
          erewrite run_bind by exact Hval; by rewrite (proj2 (Z.ltb_lt _ _)). }
    split_and!; try done.
  - subst tmp. destruct Hrest as [Hrest|]; [|done].
    apply NoDup_cons in Hnd as [Hni Hnd]. apply Forall_cons in Hok as [Hokt Hok].
    destruct fuel as [|fuel]; [simpl in Hfuel; lia|]. cbn [fmap list_fmap app] in HD.
    pose proof (dl_list _ _ _ _ HD) as HL. rewrite fmap_cons, fmap_app in HL. simpl in HL.
    rewrite <- list_fmap_compose in HL. change (fst ∘ _) with (λ t : Z, LThread t timing) in HL.
    destruct (ring_step _ L (LQueue QPeriod) [] _ (LThread t timing) (si_q _ _ HI).(qrep_nodes _ _) HL)
      as (n & nx & Hn & Hnx & Hhd & _ & _).
    destruct (period_step s L per t _ HI HC HD Hokt) as
      (s1 & L1 & pa & Hpa & Hrun & HI1 & HC1 & HD1 & (v & Hv & Hv1) & Hctx1 & Hext1 & Hcpu1 & Hres1 & HLr1).
    pose proof Hokt as (th & pd & Ht & _ & _ & _ & Hpos & _).
    rewrite dq_insert_zeros in HD1 by done.
    destruct (IH s1 L1 (dq_insert (LThread t timing) (per t) rest) fuel nx HI1 HC1 HD1 Hnd) as
      (s2 & L2 & Hloop & HI2 & HC2 & HD2 & Hctx2 & Hv2).
    { apply Forall_forall. intros t' Hin. eapply (proj1 (Forall_forall _ _)) in Hok; [|exact Hin].
      assert (t' ≠ t) as Hne by (intros ->; done). eapply period_ok_other; [done..|by apply Hres1|by apply HLr1]. }
    { simpl in Hfuel. lia. }
    { destruct ts as [|t1 ts]; [|simpl in Hhd; by injection Hhd as <-].
      destruct Hrest as [->|(t1 & d & r & -> & Hd)]; simpl in Hhd; injection Hhd as <-; [by left|right].
      destruct (dq_insert_pos (LThread t1 timing) (LThread t timing) d (per t) ((LThread t1 timing, d) :: r))
        as (d' & Hin & Hd'); [by left|done|lia|]. by exists t1, d'. }
    { destruct ts as [|t1 ts']; [by right|left]. right.
      destruct Hrest as [->|(t1' & d & r & -> & Hd)]; simpl; [by exists t, (per t), []|].
      destruct (Z.ltb_spec (per t) d); eauto. }
    exists s2, L2. split_and!; try done.
    + cbn [period_loop]. rewrite decide_False by done. erewrite run_bind by done.
      erewrite run_bind by (apply run_kread, run_get_value_at; eapply dvals_elem; [apply HD|by left]).
      change (0 <? 0) with false. cbn iota.
      erewrite run_bind by (by apply run_thr).
      erewrite run_bind by (apply run_kread; by apply run_get_next). rewrite Hnx, (Hpa th Ht).
      revert Hrun. unfold mbind, M_bind. destruct (acoral_period_queue_del t s) as [[[] sa]|]; [|done].
      destruct (thr t_state t sa) as [[st sb]|]; [|done].
      destruct (when _ _ sb) as [[[] sc]|]; [|done]. intros ->. exact Hloop.
    + rewrite Hctx2, Hctx1. simpl. by apply (restart_ctx_foldl s s1 t (after_period (per t) v)).
    + intros t'. rewrite Hv2, Hv1. destruct (decide (t' = t)) as [->|Hne'].
      * rewrite decide_False by done. rewrite lookup_insert_eq, decide_True by (by left). by rewrite Hv.
      * rewrite lookup_insert_ne by done. destruct (decide (t' ∈ ts)) as [Hin|Hin].
        -- rewrite decide_True; [done|by right].
        -- rewrite decide_False; [done|]. rewrite elem_of_cons. naive_solver.
Qed.

Lemma due_reloaded per ts (rest : list (loc * Z)) :
  due 0 (foldl (λ r t, dq_insert (LThread t timing) (per t) r) rest ts)
    ≡ₚ ((λ t, (LThread t timing, per t)) <$> ts) ++ due 0 rest.
Proof.
  revert rest. induction ts as [|t ts IH]; intros rest; [done|]. simpl. rewrite IH, due_insert.
  assert (∀ (x : loc) v pq, pq_insert x v pq ≡ₚ (x, v) :: pq) as Hperm.
  { intros x v pq. induction pq as [|[y w] pq IHp]; [done|]. simpl. destruct (v <? w); [done|].
    rewrite IHp. apply Permutation_swap. }
  rewrite Hperm, Z.add_0_l. symmetry. apply Permutation_middle.
Qed.

Definition timing_node (x : loc) : Prop := ∃ t, x = LThread t timing.

(** C10 [period_time_deal], once per tick, with periods of at least one tick.  It
    ends; every periodic thread that is due goes back into the queue, due again
    one period from now, and all others stay, due [elapsed] ticks earlier.  A
    due thread that finished its last run is ready again, with a fresh context
    that starts at its function; one that still runs is left alone, so that this
    activation is lost.  No other thread changes, and the invariants hold. *)
Theorem period_time_deal_correct s L dq ts per :
  sched_inv s L → core_inv s L → periodq s L dq → Forall timing_node dq.*1 →
  (λ t, LThread t timing) <$> ts = (filter (λ yt, yt.2 ≤ elapsed dq) (due 0 dq)).*1 →
  Forall (period_ok per s L) ts →
  ∃ s' L' dq', period_time_deal call_hook exit s = Ret (tt, s') ∧ sched_inv s' L' ∧ core_inv s' L' ∧
    periodq s' L' dq' ∧
    due 0 dq' ≡ₚ ((λ t, (LThread t timing, per t)) <$> ts) ++
      ((λ yt, (yt.1, yt.2 - elapsed dq)) <$> filter (λ yt, elapsed dq < yt.2) (due 0 dq)) ∧
    k_ctx s' = foldl (restart_ctx s) (k_ctx s) ts ∧
    (∀ t, tcb_view s' !! t = if decide (t ∈ ts) then after_period (per t) <$> tcb_view s !! t else tcb_view s !! t).
Proof.
  intros HI HC HD Hnodes Hts Hok. unfold period_time_deal. cbv zeta.
  rewrite (run_bind _ _ _ _ _ (run_klist_empty s L (LQueue QPeriod) dq.*1 (si_q _ _ HI) (dl_list _ _ _ _ HD))).
  destruct dq as [|[x d] r].
  { exists s, L, []. destruct ts; [|done]. by split_and!. }
  rewrite bool_decide_eq_false_2 by done.
  erewrite run_bind by (eapply run_kget_first; [apply HI|apply HD]). cbn [head default from_option id fmap list_fmap fst].
  erewrite run_bind by (apply run_kread, run_get_value_at; eapply dvals_elem; [apply HD|by left]).
  destruct (count_down_run _ s L x d r HI HC HD) as (s1 & Hdown & HI1 & HC1 & HD1 & Htcb1 & Hres1 & Ho1).
  erewrite run_bind by exact Hdown.
  destruct (tick_split (λ t, LThread t timing) _ ts (dl_nat _ _ _ _ HD) Hts) as (rest & Hsplit & Hnr & Hpos & Hrest).
  rewrite Hrest. rewrite Hsplit in HD1.
  assert (k_ext s1 = k_ext s ∧ k_cpu s1 = k_cpu s ∧ k_ctx s1 = k_ctx s) as (Hext1 & Hcpu1 & Hctx1).
  { unfold same_other in Ho1. by destruct_and!. }
  assert (tcb_view s1 = tcb_view s) as Hv1 by (unfold tcb_view; by rewrite Htcb1).
  assert (Hlist : L !! LQueue QPeriod = Some (((λ t, LThread t timing) <$> ts) ++ rest.*1)).
  { rewrite (dl_list _ _ _ _ HD1), fmap_app, <- list_fmap_compose. done. }
  destruct (ring_first _ L _ _ (qrep_nodes _ _ (si_q _ _ HI1)) Hlist) as (n & nx & Hn & Hnx & Hhd).
  destruct (rep_ring _ _ (qrep_nodes _ _ (si_q _ _ HI1)) _ _ Hlist) as [_ Hnd].
  assert (rest = [] ∨ ∃ t d r, rest = (LThread t timing, d) :: r ∧ 0 < d) as Hfirst.
  { destruct rest as [|[y dy] r']; [by left|right]. specialize (Hpos y dy r' eq_refl).
    assert (y ∈ ((x, d) :: r).*1) as Hy.
    { change (((x, d) :: r).*1) with ((count_down ((x, d) :: r)).*1). rewrite Hsplit, fmap_app. apply elem_of_app. right. by left. }
    apply (proj1 (Forall_forall _ _) Hnodes) in Hy as [t ->]. by exists t, dy, r'. }
  destruct (period_loop_run per ts s1 L rest (size (q_nodes (k_q s1))) nx HI1 HC1 HD1) as
    (s2 & L2 & Hloop & HI2 & HC2 & HD2 & Hctx2 & Hv2); [| | | |by left|].
  - apply NoDup_cons in Hnd as [_ Hnd]. apply NoDup_app in Hnd as [Hnd _]. by apply NoDup_fmap_1 in Hnd.
  - eapply Forall_impl; [exact Hok|]. intros t (th & pd & Ht & H1 & H2 & H3 & H4 & H5).
    exists th, pd. rewrite Htcb1, Hext1. split_and!; try done. destruct H5 as [?|Hw]; [by left|right].
    destruct Hw as (th' & id & Hw). exists th', id. by rewrite Htcb1, Hcpu1, Hres1.
  - pose proof (ring_size _ L _ _ (qrep_nodes _ _ (si_q _ _ HI1)) Hlist) as Hsz. rewrite length_app, length_fmap in Hsz. lia.
  - destruct ts as [|t ts]; [|simpl in Hhd; by injection Hhd as <-].
    destruct Hfirst as [->|(t & dt & r' & -> & Hdt)]; simpl in Hhd; injection Hhd as <-; [by left|right].
    exists t, dt. split_and!; [done|by left|done].
  - eexists s2, L2, _. split; [|split; [exact HI2|split; [exact HC2|split; [exact HD2|split; [apply due_reloaded|split]]]]].
    + erewrite run_bind by (apply run_kread; by apply run_get_next). rewrite Hnx.
      erewrite run_bind by reflexivity. exact Hloop.
    + rewrite Hctx2, Hctx1. clear - Hv1 Hext1. generalize (k_ctx s). induction ts as [|t ts IH]; intros m; [done|].
      simpl. rewrite IH. unfold restart_ctx at 2 4. by rewrite Hv1, Hext1.
    + intros t. by rewrite Hv2, Hv1.
Qed.
End period.

(** ** Witness *)
(** Thread 4096 is suspended, due in one tick, and has a period of 10. *)
Lemma period_time_deal_correct_witness : ∃ s s' th,
  @period_time_deal (λ _ _, mret tt) 77 s = Ret (tt, s') ∧
  k_tcb s' !! 4096 = Some th ∧ is_ready th = true ∧ t_time th = 10 ∧
  k_ctx s' !! t_stack th = Some (ctx_words 4660 77 7).
Proof.
  destruct sample_suspended as (s0 & L0 & th & HI0 & HC0 & Hcpu & Ht & Hv & Hid & HL).
  assert (thread_rest th = thread_rest (suspended (running_thread 5))) as Hrest by exact (f_equal snd Hv).
  apply thread_view_eq in Hv as (Hr & Hs & Hc & Hp).
  set (th1 := set_t_private_data 24576 th).
  set (s1 := set_k_ext (set_x_pdata (<[24576 := mk_period_data 10 4660 7]> ∅) no_ext)
    (set_k_tcb (<[4096 := th1]> (k_tcb s0)) s0)).
  assert (sched_inv s1 L0) as HI1.
  { eapply (sched_inv_same (set_k_tcb (<[4096 := th1]> (k_tcb s0)) s0)); [by eapply sched_inv_thr|done..]. }
  assert (core_inv s1 L0) as HC1.
  { eapply (core_inv_same (set_k_tcb (<[4096 := th1]> (k_tcb s0)) s0)); [by apply core_inv_tcb|done..]. }
  assert (∀ x, (∀ c p, x ≠ LQueue (QReady c p)) → (∀ t, x ≠ LThread t ready) → unlisted L0 x) as Hf.
  { intros x H1 H2. rewrite HL. unfold rq_remove. apply unlisted_insert; [|done|apply not_elem_of_nil].
    apply unlisted_insert; [by apply sample_unlisted|done|apply not_elem_of_nil]. }
  destruct (with_queue s1 L0 (LQueue QPeriod) (LThread 4096 timing) 1)
    as (s & L & h & Hsh & HI & HC & Hq & HLq & Hval & _); [done|done|by apply Hf..|done|done|done|].
  assert (periodq s L [(LThread 4096 timing, 1)]) as HD.
  { rewrite Hsh, HLq. split; [by rewrite lookup_insert_eq| | |done].
    - constructor; [done|constructor].
    - constructor; [simpl; lia|constructor]. }
  assert (k_tcb s !! 4096 = Some th1) as Ht1 by (rewrite Hsh; apply lookup_insert_eq).
  exists s. destruct (period_time_deal_correct (λ _ _, mret tt) 77 s L _ [4096] (λ _, 10) HI HC HD)
    as (s' & L' & dq' & Hrun & _ & _ & _ & _ & Hctx & Hv').
  - constructor; [by exists 4096|constructor].
  - reflexivity.
  - constructor; [|constructor]. exists th1, (mk_period_data 10 4660 7). split; [done|].
    split; [exact (f_equal t_deal_hook Hrest)|]. split; [by rewrite Hsh|]. split; [done|]. split; [lia|]. right.
    exists th1, 0x400. split; [done|]. change (is_ready th1) with (is_ready th). change (is_suspended th1) with (is_suspended th).
    change (t_cpu th1) with (t_cpu th). change (t_prio th1) with (t_prio th).
    rewrite Hr, Hs, Hc, Hp, Hsh. simpl. rewrite Hcpu, prio_num_eq.
    split_and!; try done. rewrite HLq, HL. unfold rq_remove. rewrite lookup_insert_ne by done. apply lookup_insert_eq.
  - specialize (Hv' 4096). rewrite decide_True in Hv' by (by left).
    rewrite (lookup_tcb_view _ _ _ Ht1) in Hv'.
    assert (is_suspended th1 = true) as Hs1 by (change (is_suspended th = true); by rewrite Hs).
    cbn [fmap option_fmap option_map] in Hv'. rewrite after_period_suspended in Hv' by done.
    apply tcb_view_lookup in Hv' as (th' & Hth' & Hvt). exists s', th'.
    assert (thread_rest th' = thread_rest (set_t_time 10 (set_t_stack (restart_stack th1) th1))) as Hrest'
      by exact (f_equal snd Hvt).
    split_and!; [done|done|exact (f_equal (λ x, x.1.1) Hvt)|exact (f_equal t_time Hrest')|].
    rewrite (f_equal t_stack Hrest' : t_stack th' = restart_stack th1). rewrite Hctx. simpl. unfold restart_ctx.
    rewrite (lookup_tcb_view _ _ _ Ht1). cbn [thread_view]. unfold thread_view. rewrite Hs1.
    change (t_private_data (thread_rest th1)) with 24576. rewrite Hsh. simpl. rewrite lookup_insert_eq.
    change (restart_stack (thread_rest th1)) with (restart_stack th1). apply lookup_insert_eq.
Defined.
