(* ===== verification/TimedThrd.v ===== *)
(** * kernel/src/timed_thrd.c: threads that run at given times

    A timed thread runs in sections.  A table gives the start of every section
    of every run within a hyperperiod; the thread's [timing] node waits in the
    tick queue of its core for the next entry.  When the entry is due, the
    thread is restarted (the start of a run) or gets the semaphore it waits for
    (the start of a section).  The tables of times, semaphores, functions and
    arguments are words of memory.  The functions of the sections, the hooks of
    threads and the variable-size allocator are arguments. *)
From S2P Require Import Prelude Interfaces Bitops DList Queues KTypes KState Sched Cpu ResPool Thread Timer Ipc Policy.
From stdpp Require Import list.
#[local] Open Scope Z_scope.

(** [sizeof(timed_private_data_t)]. *)
Definition sizeof_timed_data : Z := 32.

Definition tdat {A} (f : timed_data → A) (p : Z) : K A := xobj x_timed f p.
Definition on_td (p : Z) (f : timed_data → timed_data) : K unit := on_xobj x_timed set_x_timed p f.

(** [p[i]] for a table of words, reading and writing. *)
Definition word_at (p i : Z) : K Z := deref (λ s, x_words (k_ext s) !! (p + 4 * i)).
Definition set_word_at (p i v : Z) : K unit :=
  if p =? 0 then fail Wild
  else modify (λ s, set_k_ext (set_x_words (<[p + 4 * i := v]> (x_words (k_ext s))) (k_ext s)) s).

Definition set_time_last (v : Z) : K unit := modify (λ s, set_k_ext (set_x_time_last v (k_ext s)) s).
Definition last_timed (cpu : Z) : K Z := deref (λ s, aget (x_last_timed (k_ext s)) cpu).
Definition set_last_timed (cpu t : Z) : K unit := λ s,
  match aget (x_last_timed (k_ext s)) cpu with
  | Some _ => Ret (tt, set_k_ext (set_x_last_timed (aset cpu t (x_last_timed (k_ext s))) (k_ext s)) s)
  | None => Err Wild
  end.

Definition acoral_timed_time_queue_add (new : Z) : K unit :=
  cpu ← thr t_cpu new; on_q (acoral_tick_queue_add (LQueue (QTimed cpu)) (LThread new timing)).

Definition acoral_timed_queue_del (old : Z) : K unit :=
  cpu ← thr t_cpu old; on_q (acoral_tick_queue_del (LQueue (QTimed cpu)) (LThread old timing)).

(** The place of the next start in the table. *)
Definition start_offset (td : timed_data) : Z :=
  u32 (u32 ((td_run_num td - 1) * (td_section_num td + 1)) + (td_section td - 1)).

Definition timed_start_time_reload (thread : Z) : K unit :=
  pd ← thr t_private_data thread;
  td ← tdat id pd;
  when ((td_run_num td =? 1) && (td_section td =? 1)) (set_time_last 0);;
  time_last ← thr t_time thread;
  set_time_last time_last;;
  start ← word_at (td_start_time td) (start_offset td);
  on_thr thread (set_t_time (TIME_TO_TICKS start));;
  time ← thr t_time thread;
  on_q (on_nodes (acoral_vlist_init (LThread thread timing) (s32 (time - time_last))));;
  acoral_timed_time_queue_add thread.

Section timed.
Context `{!Allocator kstate, !Layout}.
Context (acoral_vol_malloc : Z → K Z) (acoral_vol_free : Z → K unit) (call_hook call_route : Z → Z → K unit).
Context (timed_thread_exit_adr : Z) (raw_ipc : Z → ipc).

Definition timed_thread_exit : K unit := acoral_suspend_self;; mret tt.

(** The private data of a timed thread; [false] when there is no memory. *)
Definition timed_private (thread route args : Z) (p_data : policy_arg) : K bool :=
  match p_data with
  | timed_policy_data cpu start_time exe_time section_num frequency section_route section_args =>
      on_thr thread (set_t_cpu cpu);;
      on_thr thread (set_t_prio ACORAL_TIMED_PRIO);;
      pd ← acoral_vol_malloc sizeof_timed_data;
      if pd =? 0 then
        give_back thread;;
        mret false
      else
        ipcs ← acoral_vol_malloc (section_num * 4);
        modify (λ s, set_k_ext (set_x_timed (<[pd :=
          mk_timed_data start_time exe_time ipcs section_num frequency 1 1 route section_route section_args args]>
          (x_timed (k_ext s))) (k_ext s)) s);;
        for_up (Z.to_nat section_num) 0 (λ i,
          sem ← acoral_sem_create raw_ipc 0;
          set_word_at ipcs i sem);;
        on_thr thread (set_t_private_data pd);;
        on_thr thread (set_t_cpu_mask (u32 (-1)));;
        mret true
  | _ => fail Wild
  end.

Definition timed_policy_thread_init (thread route args : Z) (p_data : policy_arg) (data : Z) : K Z :=
  policy ← thr t_policy thread;
  ok ← (if policy =? ACORAL_SCHED_POLICY_TIMED then timed_private thread route args p_data else mret true);
  if negb (ok : bool) then mret (s32 (err_code KR_MEM_ERR_MALLOC)) else
  err ← acoral_thread_init thread route timed_thread_exit_adr args;
  if negb (err =? ret_err KR_OK) then
    give_back thread;;
    mret (s32 err)
  else
    on_thr thread (set_t_data data);;
    on_thr thread (set_t_preempt_type ACORAL_PREEMPT_TIMED);;
    acoral_enter_critical;;
    timed_start_time_reload thread;;
    acoral_exit_critical;;
    acoral_rdy_thread thread;;
    res_id thread.

(** [acoral_timed_task] from section [i] on; [n] sections are left.  [None]
    when the thread waits for its section. *)
Fixpoint timed_task_loop (n : nat) (pd i : Z) : K (option unit) :=
  match n with
  | O => mret (Some tt)
  | S n =>
      td ← tdat id pd;
      sem ← word_at (td_ipc td) i;
      r ← acoral_sem_pend sem;
      match r with
      | None => mret None
      | Some _ =>
          route ← word_at (td_section_route td) i;
          args ← word_at (td_section_args td) i;
          call_route route args;;
          timed_task_loop n pd (i + 1)
      end
  end.

Definition acoral_timed_task : K (option unit) :=
  cur ← acoral_cur_thread;
  pd ← thr t_private_data cur;
  num ← tdat td_section_num pd;
  timed_task_loop (Z.to_nat num) pd 0.

(** The thread runs again in section [i]. *)
Definition timed_task_resume (cur i : Z) : K (option unit) :=
  pd ← thr t_private_data cur;
  td ← tdat id pd;
  sem ← word_at (td_ipc td) i;
  sem_pend_resume sem cur;;
  route ← word_at (td_section_route td) i;
  args ← word_at (td_section_args td) i;
  call_route route args;;
  timed_task_loop (Z.to_nat (td_section_num td - i - 1)) pd (i + 1).

Definition timed_policy_thread_release (thread : Z) : K unit :=
  pd ← thr t_private_data thread;
  td ← tdat id pd;
  acoral_vol_free (td_section_route td);;
  on_td pd (set_td_section_route 0);;
  acoral_vol_free (td_section_args td);;
  on_td pd (set_td_section_args 0);;
  acoral_vol_free (td_ipc td);;
  on_td pd (set_td_ipc 0);;
  acoral_vol_free pd;;
  on_thr thread (set_t_private_data 0);;
  hook ← thr t_release_hook thread;
  when (negb (hook =? 0)) (call_hook hook thread).

(** The thread that ran last on the core has not stopped: it is suspended and
    marked, and its next start is that of its next run. *)
Definition timed_overrun (last : Z) : K unit :=
  pd ← thr t_private_data last;
  acoral_suspend_thread last;;
  on_thr last (λ th, set_t_state (add_flag (t_state th) ACORAL_THREAD_STATE_RELOAD) th);;
  num ← tdat td_section_num pd;
  on_td pd (set_td_section (u8 (num + 1))).

(** [private_data->section++]. *)
Definition timed_next_section (pd : Z) : K unit :=
  td ← tdat id pd; on_td pd (set_td_section (u8 (td_section td + 1))).

(** The start of a section: the thread waits for its semaphore. *)
Definition timed_section (pd : Z) : K unit :=
  td ← tdat id pd;
  when (td_section td <=? td_section_num td)
    (sem ← word_at (td_ipc td) (td_section td - 1);
     acoral_sem_post sem;;
     timed_next_section pd).

(** The next run, or the first one of the next hyperperiod. *)
Definition timed_next_run (thread pd : Z) : K unit :=
  on_td pd (λ td, set_td_run_num (u8 (td_run_num td + 1)) td);;
  on_td pd (set_td_section 1);;
  td ← tdat id pd;
  when (td_frequency td <? td_run_num td)
    (on_td pd (set_td_run_num 1);;
     on_thr thread (set_t_time 0)).

(** The start of a run. *)
Definition timed_restart (thread pd : Z) : K unit :=
  timed_next_run thread pd;;
  td ← tdat id pd;
  for_up (Z.to_nat (td_section_num td)) 0 (λ i,
    sem ← word_at (td_ipc td) i;
    acoral_sem_init sem 0;;
    mret tt);;
  hook ← thr t_deal_hook thread;
  when (negb (hook =? 0)) (call_hook hook thread);;
  bottom ← thr t_stack_buttom thread;
  size ← thr t_stack_size thread;
  on_thr thread (set_t_stack (u32 (bottom + size - 4)));;
  stk ← thr t_stack thread;
  stk' ← hal_stack_init stk (td_route td) timed_thread_exit_adr (td_args td);
  on_thr thread (set_t_stack stk');;
  acoral_rdy_thread thread;;
  mret tt.

(** A due thread, taken off the queue; [timed_error] says that a thread overran
    during this tick. *)
Definition timed_due (thread pd : Z) (timed_error : bool) : K unit :=
  ipc ← thr t_ipc thread;
  (if negb (ipc =? 0) then timed_section pd
   else when (negb timed_error) (timed_restart thread pd));;
  td ← tdat id pd;
  when (td_run_num td <=? td_frequency td) (timed_start_time_reload thread).

(** The loop for one core from the node [tmp]; the result is [timed_error]. *)
Fixpoint timed_loop (fuel : nat) (cpu : Z) (tmp : loc) (timed_error : bool) : K bool :=
  if decide (tmp = LQueue (QTimed cpu)) then mret timed_error else
  thread ← thread_of timing tmp;
  v ← kget_value tmp;
  if 0 <? v then mret timed_error else
  last ← last_timed cpu;
  running ← at_cpu c_running cpu;
  when (last =? running) (timed_overrun last);;
  let timed_error := timed_error || (last =? running) in
  pd ← thr t_private_data thread;
  tmp1 ← kget_next tmp;
  acoral_timed_queue_del thread;;
  set_last_timed cpu thread;;
  timed_due thread pd timed_error;;
  match fuel with
  | O => fail Diverge
  | S fuel => timed_loop fuel cpu tmp1 timed_error
  end.

(** The cores from [cpu] on; [n] are left. *)
Fixpoint timed_cores (n : nat) (cpu : Z) (timed_error : bool) : K unit :=
  match n with
  | O => mret tt
  | S n =>
      let head := LQueue (QTimed cpu) in
      empty ← klist_empty head;
      if (empty : bool) then timed_cores n (cpu + 1) timed_error
      else
        first ← kget_next head;
        v ← kget_value first;
        when (0 <? v) (kset_value first (s32 (v - 1)));;
        tmp ← kget_next head;
        fuel ← get (λ s, size (q_nodes (k_q s)));
        e ← timed_loop fuel cpu tmp timed_error;
        timed_cores n (cpu + 1) e
  end.

Definition timed_time_deal : K unit := timed_cores (Z.to_nat CFG_MAX_CPU) 0 false.

Definition timed_policy_init (timed_policy : Z) : K unit :=
  for_up (Z.to_nat CFG_MAX_CPU) 0 (λ cpu, on_q (acoral_tick_queue_init (LQueue (QTimed cpu))));;
  modify (λ s, set_k_ext (set_x_policies
    (<[timed_policy := mk_policy ACORAL_SCHED_POLICY_TIMED FTimed FTimed FTimed]> (x_policies (k_ext s))) (k_ext s)) s);;
  acoral_register_sched_policy timed_policy.

(** The functions that [Policy] leaves open, with this policy as the third. *)
Definition third_thread_init (f : policy_fun) (thread route args : Z) (p_data : policy_arg) (data : Z) : K Z :=
  match f with FTimed => timed_policy_thread_init thread route args p_data data | _ => fail Wild end.
Definition third_thread_release (f : policy_fun) (thread : Z) : K unit :=
  match f with FTimed => timed_policy_thread_release thread | _ => fail Wild end.
Definition third_time_deal (f : policy_fun) : K unit :=
  match f with FTimed => timed_time_deal | _ => fail Wild end.
End timed.
