(* ===== verification/TimedSpec.v ===== *)
(** * Correctness of the walk of a timed thread through its table of times *)
From S2P Require Import Prelude Interfaces Bitops DList Queues KTypes KState Sched SchedSpec Sample Cpu ResPool Thread ThreadSpec Timer Ipc Policy PolicySpec TimedThrd.
From stdpp Require Import list.
#[local] Open Scope Z_scope.

(** The table has a row per run and a column per section, and one more for the
    end of the period. *)
Definition table_size (td : timed_data) : Z := td_frequency td * (td_section_num td + 1).

(** The position in the table is one of it, and the counters do not overflow. *)
Definition in_table (td : timed_data) : Prop :=
  1 ≤ td_run_num td ≤ td_frequency td ∧ td_frequency td < 255 ∧
  1 ≤ td_section td ≤ td_section_num td + 1 ∧ td_section_num td < 255.

Lemma offset_cell run sec num :
  1 ≤ run < 256 → 1 ≤ sec ≤ num + 1 → num < 256 →
  u32 (u32 ((run - 1) * (num + 1)) + (sec - 1)) = (run - 1) * (num + 1) + (sec - 1).
Proof.
  intros. assert (0 ≤ (run - 1) * (num + 1) ≤ 254 * 256) by nia.
  rewrite (wrapu_small 32 (_ * _)) by lia. apply wrapu_small. lia.
Qed.

Lemma offset_in_table td :
  in_table td → start_offset td = (td_run_num td - 1) * (td_section_num td + 1) + (td_section td - 1) ∧
  0 ≤ start_offset td < table_size td.
Proof.
  intros (Hr & Hf & Hs & Hn). unfold start_offset. rewrite offset_cell by lia.
  split; [done|]. unfold table_size. nia.
Qed.

Lemma time_last_id (s : kstate) : set_k_ext (set_x_time_last (x_time_last (k_ext s)) (k_ext s)) s = s.
Proof. destruct s as [???????????????? e]. by destruct e. Qed.

Lemma on_q_tcb {A} (m : M (qstate loc) A) s a s' : on_q m s = Ret (a, s') → k_tcb s' = k_tcb s.
Proof. unfold on_q, zoom. simpl. intros H. destruct (m (k_q s)) as [[b q]|e]; [|done]. injection H as _ <-. done. Qed.

Section timed_spec.
Context `{!Allocator kstate, !Layout}.
Implicit Types s : kstate.

Definition timedq (cpu : Z) := (tickq (LQueue (QTimed cpu))).

(** [s] with the private data at [pd] replaced. *)
Definition with_td (pd : Z) (td : timed_data) (s : kstate) : kstate :=
  set_k_ext (set_x_timed (<[pd := td]> (x_timed (k_ext s))) (k_ext s)) s.

Lemma run_on_td pd f s td :
  x_timed (k_ext s) !! pd = Some td → on_td pd f s = Ret (tt, with_td pd (f td) s).
Proof. intros Ht. unfold on_td. by erewrite run_on_xobj by exact Ht. Qed.

Lemma with_td_lookup pd td s : x_timed (k_ext (with_td pd td s)) !! pd = Some td.
Proof. apply lookup_insert_eq. Qed.

Lemma with_td_twice pd td td' s : with_td pd td' (with_td pd td s) = with_td pd td' s.
Proof. unfold with_td. simpl. by rewrite insert_insert_eq. Qed.

Lemma next_section_run s pd td :
  x_timed (k_ext s) !! pd = Some td →
  timed_next_section pd s = Ret (tt, with_td pd (set_td_section (u8 (td_section td + 1)) td) s).
Proof.
  intros Ht. unfold timed_next_section. erewrite run_bind by (by eapply run_xobj). by apply run_on_td.
Qed.

(** The private data at the start of the run after the one of [td]. *)
Definition next_run (td : timed_data) : timed_data := set_td_section 1 (set_td_run_num (u8 (td_run_num td + 1)) td).

Lemma next_run_run s thread th pd td :
  x_timed (k_ext s) !! pd = Some td → k_tcb s !! thread = Some th →
  timed_next_run thread pd s = Ret (tt,
    if td_frequency td <? u8 (td_run_num td + 1)
    then set_k_tcb (<[thread := set_t_time 0 th]> (k_tcb s)) (with_td pd (set_td_run_num 1 (next_run td)) s)
    else with_td pd (next_run td) s).
Proof.
  intros Htd Hth. unfold timed_next_run.
  erewrite run_bind by (by apply run_on_td). erewrite run_bind by (apply run_on_td, with_td_lookup).
  rewrite with_td_twice. erewrite run_bind by (eapply run_xobj, with_td_lookup).
  cbn [id]. change (td_frequency (set_td_section 1 _)) with (td_frequency td).
  change (td_run_num (set_td_section 1 _)) with (u8 (td_run_num td + 1)). fold (next_run td).
  destruct (_ <? _); [|done]. cbn [when].
  erewrite run_bind by (apply run_on_td, with_td_lookup). rewrite with_td_twice.
  exact (run_on_thr thread (set_t_time 0) (with_td pd _ s) th Hth).
Qed.

(** C28 The position of a timed thread in its table.  It is always a cell of the
    table.  The start of a section moves it to the next cell of its row, and the
    end of the last one to the first cell of the next row; after the last row it
    is the first cell again, with the clock of the thread set back to 0.  One
    hyperperiod so reads every cell once, in order. *)
Theorem table_walked s thread th pd td :
  x_timed (k_ext s) !! pd = Some td → k_tcb s !! thread = Some th → in_table td →
  0 ≤ start_offset td < table_size td ∧
  (td_section td ≤ td_section_num td → ∃ s' td', timed_next_section pd s = Ret (tt, s') ∧
     x_timed (k_ext s') !! pd = Some td' ∧ in_table td' ∧ start_offset td' = start_offset td + 1 ∧ k_tcb s' = k_tcb s) ∧
  (td_section td = td_section_num td + 1 → ∃ s' td' th', timed_next_run thread pd s = Ret (tt, s') ∧
     x_timed (k_ext s') !! pd = Some td' ∧ in_table td' ∧ table_size td' = table_size td ∧
     start_offset td' = (start_offset td + 1) mod table_size td ∧ k_tcb s' !! thread = Some th' ∧
     th' = if start_offset td' =? 0 then set_t_time 0 th else th).
Proof.
  intros Htd Hth Hin. pose proof (offset_in_table td Hin) as [Hoff Hrange]. pose proof Hin as (Hr & Hf & Hs & Hn).
  split; [done|]. split.
  - intros Hle. eexists _, _. split; [by apply next_section_run|]. split; [apply with_td_lookup|].
    rewrite (wrapu_small 8) by lia.
    assert (in_table (set_td_section (td_section td + 1) td)) as Hin' by (unfold in_table; simpl; lia).
    split_and!; [done| |done]. rewrite (proj1 (offset_in_table _ Hin')), Hoff. simpl. lia.
  - intros Hend. pose proof (next_run_run s thread th pd td Htd Hth) as Hrun. rewrite (wrapu_small 8) in Hrun by lia.
    unfold table_size in *. destruct (Z.ltb_spec (td_frequency td) (td_run_num td + 1)).
    + eexists _, _, _. split; [exact Hrun|]. split; [simpl; apply lookup_insert_eq|].
      assert (in_table (set_td_run_num 1 (next_run td))) as Hin' by (unfold in_table; simpl; lia).
      assert (start_offset (set_td_run_num 1 (next_run td)) = 0) as E.
      { rewrite (proj1 (offset_in_table _ Hin')). simpl. lia. }
      rewrite E, Hoff. split_and!; [done|done| |simpl; apply lookup_insert_eq|done].
      replace (_ + 1) with (td_frequency td * (td_section_num td + 1)) by nia. symmetry. apply Z_mod_same_full.
    + eexists _, _, _. split; [exact Hrun|]. split; [simpl; apply lookup_insert_eq|].
      assert (in_table (next_run td)) as Hin'.
      { unfold in_table, next_run. rewrite (wrapu_small 8) by lia. simpl. lia. }
      pose proof (offset_in_table _ Hin') as [E _]. unfold next_run in E at 2 3 4.
      rewrite (wrapu_small 8) in E by lia. simpl in E.
      assert (start_offset (next_run td) = start_offset td + 1) as E2 by (rewrite E, Hoff; lia).
      rewrite E2. split_and!; [done|done| |exact Hth|].
      * symmetry. apply Z.mod_small. rewrite Hoff. nia.
      * by rewrite (proj2 (Z.eqb_neq _ _)) by lia.
Qed.

(** With 255 runs in a hyperperiod the count of runs overflows instead: the
    position after the last row lies outside of the table. *)
Lemma frequency_255_overruns td :
  td_frequency td = 255 → td_run_num td = 255 → 0 ≤ td_section_num td < 255 →
  td_run_num (next_run td) = 0 ∧ table_size (next_run td) < start_offset (next_run td).
Proof.
  intros Hf Hr Hn. assert (td_run_num (next_run td) = 0) as E by (unfold next_run; simpl; by rewrite Hr).
  split; [done|]. unfold start_offset, table_size. rewrite E.
  change (td_section (next_run td)) with 1. change (td_section_num (next_run td)) with (td_section_num td).
  change (td_frequency (next_run td)) with (td_frequency td). rewrite Hf.
  replace (u32 (u32 ((0 - 1) * (td_section_num td + 1)) + (1 - 1))) with (2 ^ 32 - (td_section_num td + 1)); [lia|].
  rewrite (wrapu_small 32 (_ + _)).
  - unfold wrapu. rewrite <- (Z_mod_plus_full ((0 - 1) * (td_section_num td + 1)) 1).
    rewrite Z.mod_small; lia.
  - pose proof (wrapu_range 32 ((0 - 1) * (td_section_num td + 1)) ltac:(done)). lia.
Qed.

(** C29 [timed_start_time_reload], once the thread's [timing] node is on no list.
    The thread is due again when the time of its cell in the table is as many
    ticks away from now as from the time of the cell before; its clock is set to
    that time, and the invariants hold. *)
Theorem timed_reload_correct s L dq t th td start :
  sched_inv s L → core_inv s L → timedq (t_cpu th) s L dq → L !! LThread t timing = Some [] →
  k_tcb s !! t = Some th → x_timed (k_ext s) !! t_private_data th = Some td → in_table td →
  x_words (k_ext s) !! (td_start_time td + 4 * start_offset td) = Some start →
  t_time th ≤ TIME_TO_TICKS start → 0 ≤ t_time th →
  ∃ s' L' dq', timed_start_time_reload t s = Ret (tt, s') ∧ sched_inv s' L' ∧ core_inv s' L' ∧
    timedq (t_cpu th) s' L' dq' ∧
    due 0 dq' = pq_insert (LThread t timing) (TIME_TO_TICKS start - t_time th) (due 0 dq) ∧
    k_tcb s' = <[t := set_t_time (TIME_TO_TICKS start) th]> (k_tcb s) ∧
    x_timed (k_ext s') = x_timed (k_ext s) ∧ x_time_last (k_ext s') = t_time th.
Proof.
  intros HI HC HD Hx Ht Htd Hin Hw Hle H0. set (ticks := TIME_TO_TICKS start) in *.
  pose proof (time_to_ticks_range start) as Htr. fold ticks in Htr.
  set (s0 := set_k_ext (set_x_time_last (t_time th) (k_ext s)) s).
  set (s1 := set_k_tcb (<[t := set_t_time ticks th]> (k_tcb s)) s0).
  assert (sched_inv s1 L) as HI1.
  { eapply (sched_inv_same (set_k_tcb (<[t := set_t_time ticks th]> (k_tcb s)) s)); [by eapply sched_inv_thr|done..]. }
  assert (core_inv s1 L) as HC1.
  { eapply (core_inv_same (set_k_tcb (<[t := set_t_time ticks th]> (k_tcb s)) s)); [by apply core_inv_tcb|done..]. }
  destruct (requeue_spec s1 L (LQueue (QTimed (t_cpu th))) dq t (ticks - t_time th)) as (q' & Hrun & HI' & HC' & HD');
    [done|done|by destruct HD; split|done..|lia|].
  exists (set_k_q q' s1). eexists _, _. split; [|split; [exact HI'|split; [exact HC'|split; [exact HD'|]]]].
  - unfold timed_start_time_reload. erewrite run_bind by (by apply run_thr).
    erewrite run_bind by (by eapply run_xobj). cbn [id].
    assert (∃ z, when ((td_run_num td =? 1) && (td_section td =? 1)) (set_time_last 0) s
      = Ret (tt, set_k_ext (set_x_time_last z (k_ext s)) s)) as [z Hz].
    { destruct (_ && _); [by exists 0|]. exists (x_time_last (k_ext s)). by rewrite time_last_id. }
    erewrite run_bind by exact Hz. erewrite run_bind by (by apply run_thr).
    erewrite run_bind by reflexivity.
    erewrite run_bind by (apply run_deref; exact Hw). fold ticks.
    erewrite run_bind by (apply run_on_thr; exact Ht).
    match goal with |- _ ?x = _ => change x with s1 end.
    erewrite run_bind by (apply run_thr; simpl; apply lookup_insert_eq).
    cbn [t_time set_t_time]. rewrite (wraps_small 32) by lia.
    revert Hrun. unfold acoral_timed_time_queue_add, mbind, M_bind.
    destruct (on_q (on_nodes _) s1) as [[[] s2]|e] eqn:E; [|done].
    apply on_q_tcb in E. intros Hadd.
    erewrite run_thr by (rewrite E; simpl; apply lookup_insert_eq). exact Hadd.
  - split_and!; [by rewrite due_insert, Z.add_0_l|done..].
Qed.
End timed_spec.

(** ** Witnesses *)
Definition sample_td : timed_data := mk_timed_data 1000 2000 3000 2 3 3 1 4660 0 0 0.

Lemma table_walked_witness : ∃ s s' td',
  timed_next_run 4096 24576 s = Ret (tt, s') ∧ x_timed (k_ext s') !! 24576 = Some td' ∧
  start_offset sample_td = 2 ∧ start_offset td' = 3.
Proof.
  destruct sample_suspended as (s0 & L0 & th & _ & _ & _ & Ht & _).
  exists (set_k_ext (set_x_timed (<[24576 := sample_td]> ∅) no_ext) s0).
  destruct (table_walked (set_k_ext (set_x_timed (<[24576 := sample_td]> ∅) no_ext) s0) 4096 th 24576 sample_td)
    as (_ & _ & H); [reflexivity|exact Ht|unfold in_table; simpl; lia|].
  destruct H as (s' & td' & th' & Hrun & Htd & _ & _ & Hoff & _); [reflexivity|].
  exists s', td'. split_and!; [done|done|reflexivity|]. rewrite Hoff. reflexivity.
Defined.

(** Thread 4096 ended its second section, 5 ticks after the start of its
    hyperperiod; its period ends after 20. *)
Lemma timed_reload_correct_witness : ∃ s s' L' dq',
  timed_start_time_reload 4096 s = Ret (tt, s') ∧ timedq 0 s' L' dq' ∧
  due 0 dq' = [(LThread 4096 timing, 15)] ∧ x_time_last (k_ext s') = 5.
Proof.
  destruct sample_suspended as (s0 & L0 & th & HI0 & HC0 & Hcpu & Ht & Hv & Hid & HL).
  apply thread_view_eq in Hv as (Hr & Hs & Hc & Hp).
  set (th1 := set_t_time 5 (set_t_private_data 24576 th)).
  set (s1 := set_k_ext (set_x_words (<[1008 := 20]> ∅) (set_x_timed (<[24576 := sample_td]> ∅) no_ext))
    (set_k_tcb (<[4096 := th1]> (k_tcb s0)) s0)).
  assert (sched_inv s1 L0) as HI1.
  { eapply (sched_inv_same (set_k_tcb (<[4096 := th1]> (k_tcb s0)) s0)); [by eapply sched_inv_thr|done..]. }
  assert (core_inv s1 L0) as HC1.
  { eapply (core_inv_same (set_k_tcb (<[4096 := th1]> (k_tcb s0)) s0)); [by apply core_inv_tcb|done..]. }
  assert (∀ x, (∀ c p, x ≠ LQueue (QReady c p)) → (∀ t, x ≠ LThread t ready) → unlisted L0 x) as Hf.
  { intros x H1 H2. rewrite HL. unfold rq_remove. apply unlisted_insert; [|done|apply not_elem_of_nil].
    apply unlisted_insert; [by apply sample_unlisted|done|apply not_elem_of_nil]. }
  destruct (Hf (LQueue (QTimed 0))) as [Hq Hqf]; [done..|].
  destruct (Hf (LThread 4096 timing)) as [Hx Hxf]; [done..|].
  destruct (add_loc_inv true (LQueue (QTimed 0)) 0 s1 L0) as [HI2 HC2]; [done|done|eauto|done|done|].
  destruct (add_loc_inv false (LThread 4096 timing) 0 _ _ HI2 HC2) as [HI3 HC3];
    [|by rewrite lookup_insert_ne|done|].
  { intros q' xs. rewrite lookup_insert_Some. intros [[_ <-]|[_ Hxs]] _; [apply not_elem_of_nil|by eapply Hxf]. }
  set (s2 := add_loc false (LThread 4096 timing) 0 (add_loc true (LQueue (QTimed 0)) 0 s1)) in *.
  assert (t_cpu th1 = 0) as Hc1 by exact Hc.
  destruct (timed_reload_correct s2 _ [] 4096 th1 sample_td 20 HI3 HC3) as
    (s' & L' & dq' & Hrun & _ & _ & HD & Hdue & _ & _ & Hlast).
  - rewrite Hc1. split; [by rewrite lookup_insert_ne, lookup_insert_eq|constructor|constructor|].
    exists 0. apply lookup_insert_eq.
  - apply lookup_insert_eq.
  - apply lookup_insert_eq.
  - reflexivity.
  - unfold in_table. simpl. lia.
  - reflexivity.
  - done.
  - done.
  - rewrite Hc1 in HD. exists s2, s', L', dq'. by split_and!.
Defined.
