(* ===== verification/TimedTable.v ===== *)
(** * components/tmp/lib/src/timed.c: the tables of the timed threads

    [timed_decode_without_fs] makes the timed threads of a configuration in
    memory: their arrays of times, the queue of starts and ends of each core
    ([acoral_timed_time], read by admission control), the longest section of each
    core, and the threads.  A new array is a list of cells without a value yet; to
    read such a cell is [Wild], like a cell that is not there.  The creation of a
    thread and the console are arguments over a state [K].  [timed_decode], which
    takes the configuration from a file, needs a file system that is not in the
    sources. *)
From S2P Require Import Prelude KTypes.
From stdpp Require Import list sorting.
#[local] Open Scope Z_scope.

Definition TIMED_STACK_SIZE : Z := 256.

Record timed_exec_section_t : Type := mk_section { ts_exe_time : Z; ts_start_time : Z; sec_func : Z }.
Record timed_thread_config_t : Type := mk_thread_config {
  tc_period : Z;
  tc_section_num : Z;
  tc_frequency : Z;
  tc_cpu : Z;
  exec_time_sections : list timed_exec_section_t;
}.
Record timed_global_config_t : Type := mk_global_config { magic_number : list Z; hyper_period : list Z; timed_thread_number : Z }.

Abbreviation cells := (list (option Z)).

(** The data of the policy, with the stack size and the last character of the
    name. *)
Record table_data : Type := mk_table_data {
  da_cpu : Z;
  da_start_time : cells;
  da_exe_time : cells;
  da_section_num : Z;
  da_frequency : Z;
  da_route : cells;
  da_stack_size : Z;
  da_name_end : Z;
}.

Record timed_tables (K : Type) : Type := mk_tables {
  acoral_timed_time : list (list Z);
  acoral_timed_h_period : list Z;
  timed_task_id : cells;
  max_exe_time : list Z;
  tb_kernel : K;
}.
Arguments mk_tables {K}. Arguments acoral_timed_time {K}. Arguments acoral_timed_h_period {K}. Arguments timed_task_id {K}.
Arguments max_exe_time {K}. Arguments tb_kernel {K}.

(** [test[0] == 0x3e || test[1] == 0x13 || ...] *)
Definition timed_test (test : list Z) : option bool :=
  a ← aget test 0; b ← aget test 1; c ← aget test 2; d ← aget test 3;
  Some ((a =? 0x3e) || (b =? 0x13) || (c =? 0xff) || (d =? 0xff)).

(** [acoral_prio_queue_add] on the values of the nodes. *)
Fixpoint add_time (v : Z) (q : list Z) : list Z :=
  match q with
  | [] => [v]
  | x :: q' => if v <? x then v :: q else x :: add_time v q'
  end.

(** A cell of an array. *)
Definition put_cell (i v : Z) (a : cells) : option cells := _ ← aget a i; Some (aset i (Some v) a).
Definition peek (i : Z) (a : cells) : option Z := x ← aget a i; x.

Section decode.
Context {K : Type}.
Context (acoral_create_thread : table_data → M K Z) (acoral_print : Z → M K unit).

Abbreviation T := (M (timed_tables K)).

Definition set_timed_time v (s : timed_tables K) := mk_tables v (acoral_timed_h_period s) (timed_task_id s) (max_exe_time s) (tb_kernel s).
Definition set_h_period v (s : timed_tables K) := mk_tables (acoral_timed_time s) v (timed_task_id s) (max_exe_time s) (tb_kernel s).
Definition set_ids v (s : timed_tables K) := mk_tables (acoral_timed_time s) (acoral_timed_h_period s) v (max_exe_time s) (tb_kernel s).
Definition set_max_exe v (s : timed_tables K) := mk_tables (acoral_timed_time s) (acoral_timed_h_period s) (timed_task_id s) v (tb_kernel s).
Definition lkernel : lens (timed_tables K) K :=
  Lens tb_kernel (λ k s, mk_tables (acoral_timed_time s) (acoral_timed_h_period s) (timed_task_id s) (max_exe_time s) k).
Definition kern {X} (m : M K X) : T X := zoom lkernel m.

(** A time into the queue of a core. *)
Definition queue_time (cpu v : Z) : T unit :=
  q ← deref (λ s, aget (acoral_timed_time s) cpu);
  modify (λ s, set_timed_time (aset cpu (add_time (s32 v) q) (acoral_timed_time s)) s).

(** The inner [for(int j...)], which hides the round: the start of the first
    section goes to the first cell of each round. *)
Fixpoint fill_starts (n : nat) (j : Z) (c : timed_thread_config_t) (a : cells) : option cells :=
  match n with
  | O => Some a
  | S n =>
      x ← aget (exec_time_sections c) 0;
      a ← put_cell ((tc_section_num c + 1) * j) (ts_start_time x) a;
      fill_starts n (j + 1) c a
  end.

(** The starts and ends of one round. *)
Fixpoint queue_round (n : nat) (k j : Z) (c : timed_thread_config_t) (start exe : cells) : T unit :=
  match n with
  | O => mret tt
  | S n =>
      v ← deref (λ _, peek ((tc_section_num c + 1) * j + k) start);
      queue_time (tc_cpu c) v;;
      e ← deref (λ _, peek k exe);
      queue_time (tc_cpu c) (u32 (v + e));;
      queue_round n (k + 1) j c start exe
  end.

Fixpoint rounds (n : nat) (j : Z) (c : timed_thread_config_t) (exe start : cells) : T cells :=
  match n with
  | O => mret start
  | S n =>
      start ← deref (λ _, fill_starts (Z.to_nat (tc_section_num c)) 0 c start);
      start ← deref (λ _, put_cell ((tc_section_num c + 1) * (j + 1) - 1) (u32 ((j + 1) * tc_period c)) start);
      queue_round (Z.to_nat (tc_section_num c)) 0 j c start exe;;
      rounds n (j + 1) c exe start
  end.

(** Every section gets the time of the first one; [sec_func + j] is the first
    function's address and [j]. *)
Fixpoint fill_exe (n : nat) (j : Z) (c : timed_thread_config_t) (a : cells) : option cells :=
  match n with
  | O => Some a
  | S n => x ← aget (exec_time_sections c) 0; a ← put_cell j (ts_exe_time x) a; fill_exe n (j + 1) c a
  end.
Fixpoint fill_route (n : nat) (j : Z) (c : timed_thread_config_t) (a : cells) : option cells :=
  match n with
  | O => Some a
  | S n => x ← aget (exec_time_sections c) 0; a ← put_cell j (u32 (sec_func x + j)) a; fill_route n (j + 1) c a
  end.

Fixpoint longest_section (n : nat) (j cpu : Z) (exe : cells) : T unit :=
  match n with
  | O => mret tt
  | S n =>
      m ← deref (λ s, aget (max_exe_time s) cpu);
      e ← deref (λ _, peek j exe);
      when (m <? e) (modify (λ s, set_max_exe (aset cpu e (max_exe_time s)) s));;
      longest_section n (j + 1) cpu exe
  end.

(** One thread of the configuration. *)
Definition timed_thread (i : Z) (c : timed_thread_config_t) : T unit :=
  let sn := tc_section_num c in
  let start_time_cnt := u8 (tc_frequency c * (sn + 1)) in
  let start := replicate (Z.to_nat start_time_cnt) None in
  let fresh := replicate (Z.to_nat sn) None in
  route ← deref (λ _, fill_route (Z.to_nat sn) 0 c fresh);
  exe ← deref (λ _, fill_exe (Z.to_nat sn) 0 c fresh);
  start ← rounds (Z.to_nat (tc_frequency c)) 0 c exe start;
  longest_section (Z.to_nat sn) 0 (tc_cpu c) exe;;
  id ← kern (acoral_create_thread (mk_table_data (tc_cpu c) start exe sn (tc_frequency c) route (TIMED_STACK_SIZE * (sn + 1)) (u8 (48 + i))));
  ids ← deref (λ s, put_cell i id (timed_task_id s));
  modify (set_ids ids);;
  kern (acoral_print i).

Fixpoint timed_threads (n : nat) (i : Z) (cfgs : list timed_thread_config_t) : T unit :=
  match n with
  | O => mret tt
  | S n => c ← deref (λ _, aget cfgs i); timed_thread i c;; timed_threads n (i + 1) cfgs
  end.

(** The messages are numbers: -1 a NULL pointer, -2 a wrong head, -3 the start. *)
Definition timed_decode_without_fs (g_cfg : option timed_global_config_t) (t_cfg_list : option (list timed_thread_config_t)) : T unit :=
  match g_cfg, t_cfg_list with
  | Some g, Some cfgs =>
      modify (set_max_exe (replicate (Z.to_nat CFG_MAX_CPU) 0));;
      modify (set_timed_time (replicate (Z.to_nat CFG_MAX_CPU) []));;
      ok ← deref (λ _, timed_test (magic_number g));
      if negb ok then kern (acoral_print (-2)) else
      h ← deref (λ _, h0 ← aget (hyper_period g) 0; h1 ← aget (hyper_period g) 1; Some [h0; h1]);
      modify (set_h_period h);;
      modify (set_ids (replicate (Z.to_nat (timed_thread_number g)) None));;
      kern (acoral_print (-3));;
      timed_threads (Z.to_nat (timed_thread_number g)) 0 cfgs
  | _, _ => kern (acoral_print (-1))
  end.
End decode.
