(* ===== verification/TimedTableSpec.v ===== *)
(** * Correctness of the tables of the timed threads

    For threads of one section that run once in the hyperperiod, which is what the
    repository's configuration has, [timed_decode_without_fs] makes each thread
    with the data of its configuration, and the queue of each core lists the starts
    and ends of its threads in order of time.  Other threads read cells that were
    never written, or write behind their array. *)
From S2P Require Import Prelude KTypes TimedTable.
From stdpp Require Import list sorting.
#[local] Open Scope Z_scope.

(** ** A queue of times *)
Lemma add_time_perm v q : add_time v q ≡ₚ v :: q.
Proof. induction q as [|x q IH]; cbn; [done|]. destruct (v <? x); [done|]. rewrite IH. apply Permutation_swap. Qed.

Lemma add_time_sorted v q : StronglySorted Z.le q → StronglySorted Z.le (add_time v q).
Proof.
  induction 1 as [|x q Hq IH Hx]; cbn; [by repeat constructor|]. destruct (Z.ltb_spec v x).
  - constructor; [by constructor|]. constructor; [lia|]. eapply Forall_impl; [exact Hx|]. intros y Hy. cbv beta in *. lia.
  - constructor; [done|]. rewrite add_time_perm. constructor; [lia|done].
Qed.

(** ** Reference *)

(** The first section, that of the thread's only turn. *)
Definition slot (c : timed_thread_config_t) : Z * Z :=
  match exec_time_sections c with x :: _ => (ts_start_time x, ts_exe_time x) | [] => (0, 0) end.
Definition func (c : timed_thread_config_t) : Z := match exec_time_sections c with x :: _ => sec_func x | [] => 0 end.

Definition of_core (cpu : Z) (cfgs : list timed_thread_config_t) : list (Z * Z) := slot <$> filter (λ c, tc_cpu c = cpu) cfgs.

(** Starts and ends. *)
Definition times (slots : list (Z * Z)) : list Z := slots ≫= λ p, [p.1; p.1 + p.2].

(** One section, one turn, within 31 bits of time. *)
Record single (c : timed_thread_config_t) : Prop := {
  si_section : tc_section_num c = 1;
  si_frequency : tc_frequency c = 1;
  si_cpu : tc_cpu c = 0 ∨ tc_cpu c = 1;
  si_first : exec_time_sections c ≠ [];
  si_slot : 0 ≤ (slot c).1 ∧ 0 ≤ (slot c).2 ∧ (slot c).1 + (slot c).2 < 2 ^ 31;
  si_func : 0 ≤ func c < 2 ^ 32;
  si_period : 0 ≤ tc_period c < 2 ^ 32;
}.

(** The policy's data of a single thread, the [i]th. *)
Definition expected (i : Z) (c : timed_thread_config_t) : table_data :=
  mk_table_data (tc_cpu c) [Some (slot c).1; Some (tc_period c)] [Some (slot c).2] 1 1 [Some (func c)] (2 * TIMED_STACK_SIZE) (u8 (48 + i)).

Section decode.
Context {K : Type}.
Context (acoral_create_thread : table_data → M K Z) (acoral_print : Z → M K unit).
Abbreviation timed_thread := (timed_thread acoral_create_thread acoral_print).
Abbreviation timed_threads := (timed_threads acoral_create_thread acoral_print).
Abbreviation timed_decode_without_fs := (timed_decode_without_fs acoral_create_thread acoral_print).

(** The kernel's part: the threads in the order of the configuration. *)
Fixpoint create_all (i : Z) (cfgs : list timed_thread_config_t) : M K (list Z) :=
  match cfgs with
  | [] => mret []
  | c :: cfgs => id ← acoral_create_thread (expected i c); acoral_print i;; ids ← create_all (i + 1) cfgs; mret (id :: ids)
  end.

Lemma kern_run {X} (m : M K X) s x k : m (tb_kernel s) = Ret (x, k) → kern m s = Ret (x, update lkernel k s).
Proof. intros Hm. unfold kern, zoom. cbn. by rewrite Hm. Qed.

Lemma s32_small v : 0 ≤ v < 2 ^ 31 → s32 v = v.
Proof. intros Hv. apply wraps_small; lia. Qed.

Lemma queue_time_run cpu v q (s : timed_tables K) :
  aget (acoral_timed_time s) cpu = Some q → 0 ≤ v < 2 ^ 31 →
  queue_time cpu v s = Ret (tt, set_timed_time (aset cpu (add_time v q) (acoral_timed_time s)) s).
Proof. intros Hq Hv. unfold queue_time. erewrite run_bind by (by apply run_deref). by rewrite s32_small. Qed.

(** The core's queue, and its longest section, with one thread more. *)
Definition with_slot (p : Z * Z) (q : list Z) : list Z := add_time (p.1 + p.2) (add_time p.1 q).
Definition on_core {B} (cpu : Z) (f : B → B) (l : B * B) : B * B := if cpu =? 0 then (f l.1, l.2) else (l.1, f l.2).
Definition pair_list {B} (l : B * B) : list B := [l.1; l.2].

Lemma pair_get {B} (l : B * B) cpu : cpu = 0 ∨ cpu = 1 → ∃ x, aget (pair_list l) cpu = Some x ∧
  ∀ f, aset cpu (f x) (pair_list l) = pair_list (on_core cpu f l).
Proof. intros [-> | ->]; by eexists. Qed.

Lemma on_core_twice {B} cpu (f g : B → B) l : on_core cpu g (on_core cpu f l) = on_core cpu (λ x, g (f x)) l.
Proof. unfold on_core. by destruct (cpu =? 0). Qed.

Lemma queue_round_run c st e per qs h ids ms (k : K) :
  tc_section_num c = 1 → tc_cpu c = 0 ∨ tc_cpu c = 1 → 0 ≤ st → 0 ≤ e → st + e < 2 ^ 31 →
  queue_round 1 0 0 c [Some st; Some per] [Some e] (mk_tables (pair_list qs) h ids ms k) =
  Ret (tt, mk_tables (pair_list (on_core (tc_cpu c) (with_slot (st, e)) qs)) h ids ms k).
Proof.
  intros E1 Hcpu Hst He Hb. cbn [queue_round]. rewrite E1.
  erewrite run_bind by (by apply (run_deref _ _ st)).
  destruct (pair_get qs (tc_cpu c) Hcpu) as (q & Hq & Hset).
  erewrite run_bind by (apply queue_time_run; [exact Hq|lia]).
  cbn [set_timed_time acoral_timed_time acoral_timed_h_period timed_task_id max_exe_time tb_kernel]. rewrite Hset.
  erewrite run_bind by (by apply (run_deref _ _ e)). rewrite (wrapu_small 32 (st + e)) by lia.
  destruct (pair_get (on_core (tc_cpu c) (add_time st) qs) (tc_cpu c) Hcpu) as (q' & Hq' & Hset').
  erewrite run_bind by (apply queue_time_run; [exact Hq'|lia]).
  cbn [set_timed_time acoral_timed_time acoral_timed_h_period timed_task_id max_exe_time tb_kernel]. by rewrite Hset', on_core_twice.
Qed.

Lemma longest_section_run cpu e qs h ids ms (k : K) :
  cpu = 0 ∨ cpu = 1 →
  longest_section 1 0 cpu [Some e] (mk_tables qs h ids (pair_list ms) k) =
  Ret (tt, mk_tables qs h ids (pair_list (on_core cpu (λ m, Z.max m e) ms)) k).
Proof.
  intros Hcpu. cbn [longest_section]. destruct (pair_get ms cpu Hcpu) as (m & Hm & Hset).
  erewrite run_bind by (by apply (run_deref _ _ m)). erewrite run_bind by (by apply (run_deref _ _ e)).
  specialize (Hset (λ m, Z.max m e)). cbv beta in Hset. destruct (Z.ltb_spec m e) as [L|L]; cbn [when].
  - rewrite Z.max_r in Hset by lia. erewrite run_bind by done. unfold set_max_exe.
    cbn [acoral_timed_time acoral_timed_h_period timed_task_id max_exe_time tb_kernel]. by rewrite Hset.
  - rewrite <- Hset, Z.max_l by lia. rewrite aset_id by done. done.
Qed.

Lemma timed_thread_run i c qs h ids ms k id k1 k2 :
  single c → 0 ≤ i < Z.of_nat (length ids) → acoral_create_thread (expected i c) k = Ret (id, k1) → acoral_print i k1 = Ret (tt, k2) →
  timed_thread i c (mk_tables (pair_list qs) h ids (pair_list ms) k) =
  Ret (tt, mk_tables (pair_list (on_core (tc_cpu c) (with_slot (slot c)) qs)) h (aset i (Some id) ids)
    (pair_list (on_core (tc_cpu c) (λ m, Z.max m (slot c).2) ms)) k2).
Proof.
  intros [E1 E2 Hcpu Hne (H1 & H2 & H3) Hfunc Hper] Hi Hc Hp.
  destruct c as [per sn fr cpu [|[e st f] secs]]; [done|]. unfold slot, func in *. cbn in *. subst sn fr.
  unfold timed_thread. cbn [tc_section_num tc_frequency exec_time_sections tc_cpu]. set (c := mk_thread_config _ _ _ _ _) in *.
  change (replicate (Z.to_nat (u8 (1 * (1 + 1)))) None) with [None; None : option Z].
  change (Z.to_nat 1) with 1%nat. change (replicate 1 None) with [None : option Z].
  assert (fill_route 1 0 c [None] = Some [Some f]) as Hr.
  { transitivity (Some [Some (u32 (f + 0))]); [reflexivity|by rewrite Z.add_0_r, (wrapu_small 32 f) by done]. }
  erewrite run_bind by (by apply run_deref). erewrite run_bind by (by apply (run_deref _ _ [Some e])).
  assert (rounds 1 0 c [Some e] [None; None] (mk_tables (pair_list qs) h ids (pair_list ms) k) =
    Ret ([Some st; Some per], mk_tables (pair_list (on_core cpu (with_slot (st, e)) qs)) h ids (pair_list ms) k)) as Hround.
  { cbn [rounds]. erewrite run_bind by (by apply (run_deref _ _ [Some st; None])).
    assert (put_cell ((tc_section_num c + 1) * (0 + 1) - 1) (u32 ((0 + 1) * tc_period c)) [Some st; None] = Some [Some st; Some per]) as Hput.
    { cbn [tc_period c]. rewrite Z.mul_1_l, (wrapu_small 32 per) by done. reflexivity. }
    erewrite run_bind by (by apply run_deref). by erewrite run_bind by (by apply queue_round_run). }
  erewrite run_bind by exact Hround. erewrite run_bind by (by apply longest_section_run).
  erewrite run_bind by (by apply kern_run).
  assert (is_Some (aget ids i)) as [y Hy] by (by apply aget_is_Some).
  erewrite run_bind by (apply (run_deref _ _ (aset i (Some id) ids)); cbn; unfold put_cell; by rewrite Hy).
  erewrite run_bind by done. by apply kern_run.
Qed.

(** All threads: the queues and the longest sections. *)
Definition queues (qs : list Z * list Z) (cfgs : list timed_thread_config_t) : list Z * list Z :=
  foldl (λ qs c, on_core (tc_cpu c) (with_slot (slot c)) qs) qs cfgs.
Definition longest (ms : Z * Z) (cfgs : list timed_thread_config_t) : Z * Z :=
  foldl (λ ms c, on_core (tc_cpu c) (λ m, Z.max m (slot c).2) ms) ms cfgs.

Lemma aget_app (l : list timed_thread_config_t) c r : aget (l ++ c :: r) (Z.of_nat (length l)) = Some c.
Proof. unfold aget. rewrite (proj2 (Z.leb_le _ _)), Nat2Z.id, list_lookup_middle by lia. done. Qed.

Lemma timed_threads_run cfgs : ∀ pre all qs h ids ms k new k',
  all = pre ++ cfgs → Forall single cfgs → length ids = length pre →
  create_all (Z.of_nat (length pre)) cfgs k = Ret (new, k') →
  timed_threads (length cfgs) (Z.of_nat (length pre)) all
    (mk_tables (pair_list qs) h ((Some <$> ids) ++ replicate (length cfgs) None) (pair_list ms) k) =
  Ret (tt, mk_tables (pair_list (queues qs cfgs)) h (Some <$> ids ++ new) (pair_list (longest ms cfgs)) k').
Proof.
  induction cfgs as [|c cfgs IH]; intros pre all qs h ids ms k new k' -> Hs Hids Hnew; cbn [length timed_threads create_all] in *.
  { injection Hnew as <- <-. by rewrite !app_nil_r. }
  apply Forall_cons in Hs as [Hc Hs]. unfold mbind, M_bind in Hnew.
  destruct (acoral_create_thread _ k) as [[id k1]|] eqn:E1; [|done]. destruct (acoral_print _ k1) as [[[] k2]|] eqn:E2; [|done].
  destruct (create_all _ cfgs k2) as [[new' k3]|] eqn:E3; [|done]. injection Hnew as <- <-.
  erewrite run_bind by (apply run_deref, aget_app).
  erewrite run_bind by (apply (timed_thread_run _ c qs h _ ms k id k1 k2); [done| |done|done];
    rewrite length_app, length_fmap, length_replicate; lia).
  assert (aset (Z.of_nat (length pre)) (Some id) ((Some <$> ids) ++ replicate (S (length cfgs)) None) =
    (Some <$> ids ++ [id]) ++ replicate (length cfgs) None) as ->.
  { unfold aset. rewrite (proj2 (Z.leb_le _ _)) by lia. cbn [replicate]. rewrite Nat2Z.id, insert_app_r_alt by (rewrite length_fmap; lia). rewrite length_fmap, Hids, Nat.sub_diag.
    rewrite fmap_app, <- app_assoc. reflexivity. }
  replace (Z.of_nat (length pre) + 1) with (Z.of_nat (length (pre ++ [c]))) in E3 |- * by (rewrite length_app; cbn; lia).
  rewrite (IH (pre ++ [c]) _ _ h (ids ++ [id]) _ k2 new' k3); [by rewrite <- app_assoc|by rewrite <- app_assoc|done|rewrite !length_app; cbn; lia|done].
Qed.

Lemma on_core_get {B} (f : B → B) (l : B * B) cpu cpu' :
  cpu = 0 ∨ cpu = 1 → cpu' = 0 ∨ cpu' = 1 →
  (if cpu =? 0 then (on_core cpu' f l).1 else (on_core cpu' f l).2) =
  (if decide (cpu' = cpu) then f (if cpu =? 0 then l.1 else l.2) else if cpu =? 0 then l.1 else l.2).
Proof. by intros [-> | ->] [-> | ->]. Qed.

(** The queue of a core is that of its threads' slots. *)
Lemma queues_sorted cpu cfgs : ∀ qs,
  cpu = 0 ∨ cpu = 1 → Forall single cfgs → let at_core (x : list Z * list Z) := if cpu =? 0 then x.1 else x.2 in
  StronglySorted Z.le (at_core qs) →
  StronglySorted Z.le (at_core (queues qs cfgs)) ∧ at_core (queues qs cfgs) ≡ₚ at_core qs ++ times (of_core cpu cfgs).
Proof.
  induction cfgs as [|c cfgs IH]; intros qs Hcpu Hs at_core Hq; [by rewrite app_nil_r|].
  apply Forall_cons in Hs as [Hc Hs]. pose proof (on_core_get (with_slot (slot c)) qs cpu (tc_cpu c) Hcpu (si_cpu _ Hc)) as E.
  destruct (IH (on_core (tc_cpu c) (with_slot (slot c)) qs) Hcpu Hs) as [I1 I2].
  { rewrite E. case_decide; [|done]. by do 2 apply add_time_sorted. }
  split; [exact I1|]. etransitivity; [exact I2|]. rewrite E. fold (at_core qs). unfold of_core. rewrite filter_cons. case_decide; [|done].
  cbn. unfold with_slot. rewrite !add_time_perm. cbn. by rewrite <- !Permutation_middle, Permutation_swap.
Qed.

Lemma longest_max cpu cfgs : ∀ ms,
  cpu = 0 ∨ cpu = 1 → Forall single cfgs → let at_core (x : Z * Z) := if cpu =? 0 then x.1 else x.2 in
  at_core (longest ms cfgs) = foldl Z.max (at_core ms) (snd <$> of_core cpu cfgs).
Proof.
  induction cfgs as [|c cfgs IH]; intros ms Hcpu Hs at_core; [done|].
  apply Forall_cons in Hs as [Hc Hs]. pose proof (on_core_get (λ m, Z.max m (slot c).2) ms cpu (tc_cpu c) Hcpu (si_cpu _ Hc)) as E.
  etransitivity; [by apply IH|]. unfold at_core. rewrite E. unfold of_core. rewrite filter_cons. by case_decide.
Qed.

(** Slots one after the other are in order of time. *)
Lemma times_sorted slots :
  Forall (λ p : Z * Z, 0 ≤ p.2) slots → StronglySorted (λ p p', p.1 + p.2 ≤ p'.1) slots → StronglySorted Z.le (times slots).
Proof.
  intros Hnn. induction 1 as [|p slots Hs IH Hp]; [constructor|]. apply Forall_cons in Hnn as [Hp0 Hnn]. cbn.
  assert (Forall (λ y, p.1 + p.2 ≤ y) (times slots)) as Hall.
  { unfold times. apply Forall_bind. apply Forall_forall. intros p' Hin.
    eapply Forall_forall in Hp; [|exact Hin]. eapply Forall_forall in Hnn; [|exact Hin]. cbv beta in *. repeat constructor; lia. }
  constructor; [constructor; [by apply IH|exact Hall]|]. constructor; [lia|].
  eapply Forall_impl; [exact Hall|]. intros y Hy. cbv beta in *. lia.
Qed.

(** C19 For a configuration of threads of one section that run once, with a right
    head, [timed_decode_without_fs] creates the threads in order, each with the
    data of its configuration, keeps their ids and the hyperperiods, and the queue
    of each core has the starts and ends of its threads in order of time: where the
    slots of the core do not overlap they are in it one after the other, start
    before end. *)
Theorem timed_tables_correct g cfgs s h k1 ids k2 :
  timed_test (magic_number g) = Some true → hyper_period g = pair_list h → timed_thread_number g = Z.of_nat (length cfgs) →
  Forall single cfgs → acoral_print (-3) (tb_kernel s) = Ret (tt, k1) → create_all 0 cfgs k1 = Ret (ids, k2) →
  ∃ s', timed_decode_without_fs (Some g) (Some cfgs) s = Ret (tt, s') ∧
    acoral_timed_h_period s' = hyper_period g ∧ timed_task_id s' = Some <$> ids ∧ tb_kernel s' = k2 ∧
    ∀ cpu, cpu = 0 ∨ cpu = 1 → ∃ q,
      aget (acoral_timed_time s') cpu = Some q ∧ StronglySorted Z.le q ∧ q ≡ₚ times (of_core cpu cfgs) ∧
      (∀ slots, slots ≡ₚ of_core cpu cfgs → StronglySorted (λ p p', p.1 + p.2 ≤ p'.1) slots → q = times slots) ∧
      aget (max_exe_time s') cpu = Some (foldl Z.max 0 (snd <$> of_core cpu cfgs)).
Proof.
  intros Hmagic Hh Hn Hs Hp Hc.
  pose proof (timed_threads_run cfgs [] cfgs ([], []) (pair_list h) [] (0, 0) k1 ids k2 eq_refl Hs eq_refl Hc) as Hrun.
  eexists. split.
  { unfold timed_decode_without_fs. do 2 erewrite run_bind by done. erewrite run_bind by (by apply run_deref). cbn [negb].
    erewrite run_bind by (by apply (run_deref _ _ (pair_list h)); rewrite Hh). do 2 erewrite run_bind by done.
    erewrite run_bind by (by apply kern_run). rewrite Hn, !Nat2Z.id. exact Hrun. }
  cbn. split_and!; [done|done|done|]. intros cpu Hcpu.
  destruct (queues_sorted cpu cfgs ([], []) Hcpu Hs) as [Q1 Q2]; [by destruct (cpu =? 0); constructor|].
  pose proof (longest_max cpu cfgs (0, 0) Hcpu Hs) as Q3. cbv zeta in Q1, Q2, Q3.
  exists (if cpu =? 0 then (queues ([], []) cfgs).1 else (queues ([], []) cfgs).2).
  assert ((if cpu =? 0 then (queues ([], []) cfgs).1 else (queues ([], []) cfgs).2) ≡ₚ times (of_core cpu cfgs)) as Hq.
  { etransitivity; [exact Q2|]. by destruct (cpu =? 0). }
  split_and!; [by destruct Hcpu as [-> | ->]|exact Q1|exact Hq| |].
  - intros slots Hperm Hdis. apply (StronglySorted_unique Z.le); [exact Q1| |by rewrite Hq; unfold times; rewrite Hperm].
    apply times_sorted; [|done]. rewrite Hperm. apply Forall_fmap, Forall_forall. intros c [_ Hin]%list_elem_of_filter.
    eapply Forall_forall in Hs; [|exact Hin]. apply Hs.
  - assert (foldl Z.max 0 (snd <$> of_core cpu cfgs) = if cpu =? 0 then (longest (0, 0) cfgs).1 else (longest (0, 0) cfgs).2) as ->.
    { etransitivity; [|symmetry; exact Q3]. by destruct (cpu =? 0). }
    by destruct Hcpu as [-> | ->].
Qed.
End decode.

(** ** Two threads *)
Module Plan.
Definition create (d : table_data) : M (list table_data) Z := λ l, Ret (100 + Z.of_nat (length l), l ++ [d]).
Definition print (_ : Z) : M (list table_data) unit := mret tt.
Definition late : timed_thread_config_t := mk_thread_config 40000 1 1 0 [mk_section 2000 10000 64].
Definition early : timed_thread_config_t := mk_thread_config 40000 1 1 0 [mk_section 4000 1000 96].
Definition global : timed_global_config_t := mk_global_config [0x3e; 0x13; 0xff; 0xff] [40000; 40000] 2.
Definition state : timed_tables (list table_data) := mk_tables [] [] [] [] [].
(** A thread that runs twice, and one of two sections. *)
Definition twice : timed_thread_config_t := mk_thread_config 20000 1 2 0 [mk_section 2000 10000 64].
Definition double : timed_thread_config_t := mk_thread_config 40000 2 1 0 [mk_section 2000 10000 64; mk_section 1000 20000 96].
End Plan.

Lemma timed_tables_correct_witness :
  ∃ s', timed_decode_without_fs Plan.create Plan.print (Some Plan.global) (Some [Plan.late; Plan.early]) Plan.state = Ret (tt, s') ∧
    aget (acoral_timed_time s') 0 = Some [1000; 5000; 10000; 12000] ∧ timed_task_id s' = [Some 100; Some 101].
Proof.
  destruct (timed_tables_correct Plan.create Plan.print Plan.global [Plan.late; Plan.early] Plan.state (40000, 40000) []
    [100; 101] [expected 0 Plan.late; expected 1 Plan.early]) as (s' & Hrun & _ & Hids & _ & Hq); [done..| |done|done|].
  - repeat constructor; cbn; (lia || done || by left).
  - exists s'. split; [exact Hrun|]. split; [|exact Hids].
    destruct (Hq 0) as (q & Hget & _ & _ & Hslots & _); [by left|]. rewrite Hget.
    rewrite (Hslots [(1000, 4000); (10000, 2000)]); [done|by apply Permutation_swap|]. repeat constructor. cbn. lia.
Defined.

(** The start of a second turn is never written, and neither is that of a second
    section, whose cell is behind the array. *)
Example other_threads_fail :
  timed_thread Plan.create Plan.print 0 Plan.twice (mk_tables [[]; []] [] [None] [0; 0] []) = Err Wild ∧
  timed_thread Plan.create Plan.print 0 Plan.double (mk_tables [[]; []] [] [None] [0; 0] []) = Err Wild.
Proof. split; vm_compute; reflexivity. Qed.
