(* ===== verification/Smp.v ===== *)
(** * kernel/src/smp.c: start-up, the initial threads and the release of threads

    With the parts of int.c, ipi.c, timer.c, hal_cmp_c.c and hal_comm_c.c that
    only run at start-up.  Both cores enter [acoral_start]; the first one wakes
    the second and waits until its idle thread answers, so that the start of the
    second core is a call within that of the first.  What a driver or the
    processor does is the argument [hw], addresses of functions and objects are
    a record [image]. *)
From S2P Require Import Prelude Interfaces Bitops DList Queues KTypes KState Sched Cpu ResPool Thread Timer Ipc Pcp Policy TimedThrd.
From stdpp Require Import list.
#[local] Open Scope Z_scope.

(** What start-up asks of the hardware and its drivers. *)
Inductive hw_call : Type :=
  | HwMemInit
  | HwIntrDisable
  | HwIntrEnable
  | HwIntrInit (cpu : Z)
  | HwConnectIpi (cpu : Z)
  | HwTimerStart
  | HwFollowEntry
  | HwSev.

(** Addresses of functions, constants and global objects. *)
Record image : Type := mk_image {
  adr_idle : Z;
  adr_init : Z;
  adr_daem : Z;
  adr_idle_follow : Z;
  adr_in_init : Z;  (* the argument of init *)
  adr_thread_exit : Z;
  adr_period_exit : Z;
  adr_timed_exit : Z;
  adr_orig_thread : Z;
  adr_comm_policy : Z;
  adr_period_policy : Z;
  adr_timed_policy : Z;
}.

Definition IDLE_STACK_SIZE : Z := 128.
Definition DAEM_STACK_SIZE : Z := 256.
Definition INIT_STACK_SIZE : Z := 2048.
Definition INIT_PRIO : Z := 0.
Definition ACORAL_IPI_READY : Z := 1.

Definition on_ext (f : kext → kext) : K unit := modify (λ s, set_k_ext (f (k_ext s)) s).
Definition ext {A} (f : kext → A) : K A := get (λ s, f (k_ext s)).

(** [m], as the core [cpu] runs it. *)
Definition as_core {A} (cpu : Z) (m : K A) : K A :=
  cur ← acoral_current_cpu;
  modify (set_k_cpu cpu);;
  a ← m;
  modify (set_k_cpu cur);;
  mret a.

(** ** hal_cmp_c.c *)
Definition hal_cmp_ack : K unit := on_ext (set_x_cmp_lock 0).
Definition hal_wait_ack : K unit :=
  l ← ext x_cmp_lock; if l =? 0 then on_ext (set_x_cmp_lock 1) else fail Deadlock.

(** ** hal_comm_c.c *)
Definition hal_intr_nesting_init_comm : K unit :=
  for_up (Z.to_nat CFG_MAX_CPU) 0 (λ i, on_cpu i (set_c_intr_nesting 0)).

(** [HAL_START_OS]: the registers of the running thread are restored; the result
    is where it continues. *)
Definition HAL_START_OS : K Z :=
  cur ← acoral_cur_thread;
  stk ← thr t_stack cur;
  deref (λ s, k_ctx s !! stk ≫= λ ctx, ctx !! 14%nat).

Section smp.
Context `{!Allocator kstate, !Layout}.
Context (acoral_vol_malloc : Z → K Z) (acoral_vol_free : Z → K unit) (call_hook : Z → Z → K unit).
Context (raw : Z → thread) (raw_ipc : Z → ipc) (hw : hw_call → K unit) (acoral_mem_init acoral_vol_mem_init : K unit).
Context (im : image).

(** ** int.c, ipi.c, timer.c and mem.c at start-up *)
Definition acoral_intr_init (cpu : Z) : K unit := hw (HwIntrInit cpu).

Definition acoral_intr_sys_init : K unit :=
  hw HwIntrDisable;;
  hal_intr_nesting_init_comm;;
  cpu ← acoral_current_cpu;
  acoral_intr_init cpu.

Definition acoral_core_ipi_init : K unit :=
  hw (HwConnectIpi 0);;
  on_ext (λ x, set_x_ipi_status (aset 0 ACORAL_IPI_READY (x_ipi_status x)) x);;
  hw HwIntrEnable;;
  acoral_ipi_cmd_init.

Definition acoral_follow_ipi_init : K unit :=
  hw (HwConnectIpi 1);;
  on_ext (λ x, set_x_ipi_status (aset 1 ACORAL_IPI_READY (x_ipi_status x)) x);;
  hw HwIntrEnable.

Definition acoral_ticks_init : K unit :=
  modify (set_k_ticks 0);;
  hw HwTimerStart;;
  hw HwIntrEnable.

Definition acoral_mem_sys_init : K unit :=
  hw HwMemInit;;
  acoral_mem_init;;
  acoral_vol_mem_init.

(** ** The functions of the initial threads

    [idle] loops without any effect. *)
Definition init : K unit := acoral_ticks_init;; modify (set_k_sched_enable 1).

Definition idle_follow : K unit := hal_cmp_ack.

(** *** The release thread *)
Definition policy_release : Z → K unit :=
  acoral_policy_thread_release acoral_vol_free call_hook (third_thread_release acoral_vol_free call_hook).

(** The thread at [tmp], taken off the queue. *)
Definition daem_take (tmp : loc) : K Z :=
  acoral_enter_critical;;
  thread ← thread_of pending tmp;
  on_q (acoral_fifo_queue_del (LQueue QRelease) tmp);;
  acoral_exit_critical;;
  mret thread.

(** It is released, or goes back to the end of the queue. *)
Definition daem_thread (thread : Z) : K unit :=
  st ← thr t_state thread;
  if st =? ACORAL_THREAD_STATE_RELEASE then
    acoral_release_thread policy_release thread
  else
    acoral_enter_critical;;
    kget_prev (LQueue QRelease);;
    on_q (acoral_fifo_queue_add (LQueue QRelease) (LThread thread pending));;
    acoral_exit_critical.

(** The loop over the queue from [tmp]. *)
Fixpoint daem_pass (fuel : nat) (tmp : loc) : K unit :=
  if decide (tmp = LQueue QRelease) then mret tt else
  match fuel with
  | O => fail Diverge
  | S fuel =>
      tmp1 ← kget_next tmp;
      thread ← daem_take tmp;
      daem_thread thread;;
      daem_pass fuel tmp1
  end.

(** One turn of [while(1)]: from its start, or from when the thread is made
    ready again, to when it suspends itself. *)
Definition daem (fuel : nat) : K unit :=
  tmp ← kget_next (LQueue QRelease);
  daem_pass fuel tmp;;
  acoral_suspend_self;;
  mret tt.

(** ** The start of a core *)
Definition acoral_create_thread (route stack_size args policy_type : Z) (p_data : policy_arg) : K Z :=
  create_thread_by_policy acoral_vol_malloc (adr_thread_exit im) (adr_period_exit im)
    (third_thread_init acoral_vol_malloc (adr_timed_exit im) raw_ipc)
    raw route stack_size args 0 0 policy_type p_data 0 None.

Definition acoral_core_cpu_init : K unit := cpu ← acoral_current_cpu; acoral_cpu_set_active cpu.

Definition acoral_follow_cpu_init : K unit :=
  cpu ← acoral_current_cpu;
  acoral_cpu_set_active cpu;;
  acoral_intr_init cpu;;
  acoral_follow_ipi_init.

Definition acoral_start_os : K Z :=
  acoral_sched_init;;
  acoral_select_thread;;
  cpu ← acoral_current_cpu;
  next ← at_cpu c_ready cpu;
  acoral_set_running_thread next;;
  HAL_START_OS.

(** A thread of the common policy; [while(1)] without one. *)
Definition create_or_stop (route stack_size args prio : Z) : K Z :=
  cpu ← acoral_current_cpu;
  id ← acoral_create_thread route stack_size args ACORAL_SCHED_POLICY_COMM (comm_policy_data cpu prio);
  if id =? -1 then fail Hang else mret id.

Definition acoral_core_cpu_start : K Z :=
  modify (set_k_sched_enable 0);;
  id ← create_or_stop (adr_idle im) IDLE_STACK_SIZE 0 ACORAL_IDLE_PRIO;
  on_ext (set_x_idle_id id);;
  id ← create_or_stop (adr_init im) INIT_STACK_SIZE (adr_in_init im) INIT_PRIO;
  on_ext (set_x_init_id id);;
  on_q (acoral_fifo_queue_init (LQueue QRelease));;
  id ← create_or_stop (adr_daem im) DAEM_STACK_SIZE 0 ACORAL_DAEMON_PRIO;
  modify (set_k_daemon_id id);;
  acoral_start_os.

Definition acoral_follow_cpu_start : K Z :=
  create_or_stop (adr_idle_follow im) 128 0 ACORAL_IDLE_PRIO;;
  acoral_start_os.

Definition acoral_module_init : K unit :=
  acoral_intr_sys_init;;
  acoral_mem_sys_init;;
  acoral_res_pool_sys_init acoral_pools;;
  acoral_thread_sys_init
    (acoral_sched_policy_init (adr_comm_policy im) (adr_period_policy im) (timed_policy_init (adr_timed_policy im)));;
  acoral_time_sys_init;;
  acoral_ipc_sys_init.

(** The two ways through [acoral_start]: that of a further core, and [first]. *)
Definition acoral_start_on (first : K Z) : K Z :=
  core_cpu ← ext x_core_cpu;
  if core_cpu =? 0 then
    acoral_run_orig_thread (adr_orig_thread im);;
    acoral_follow_cpu_init;;
    acoral_follow_cpu_start
  else first.

(** [acoral_start] on a further core, and the first instructions of the thread
    that it starts. *)
Definition follow_core : K unit :=
  route ← acoral_start_on (fail Wild);
  if route =? adr_idle_follow im then idle_follow else fail Wild.

Definition hal_start_cpu (cpu : Z) : K unit :=
  hw HwSev;;
  as_core cpu follow_core;;
  hal_wait_ack.

Definition hal_prepare_cpus : K unit :=
  hw HwFollowEntry;;
  on_ext (set_x_cmp_lock 1).

Definition acoral_prepare_cpus : K unit := hal_prepare_cpus.

Definition acoral_start_cpus : K unit :=
  for_up (Z.to_nat CFG_MAX_CPU) 0 (λ i,
    active ← acoral_cpu_is_active i;
    when (active =? 0) (hal_start_cpu i)).

Definition acoral_smp_init : K unit :=
  acoral_prepare_cpus;;
  acoral_start_cpus;;
  acoral_core_ipi_init.

(** [acoral_start]; the result is where the first thread of the core starts. *)
Definition acoral_start : K Z := acoral_start_on (
  on_ext (set_x_core_cpu 0);;
  acoral_core_cpu_init;;
  on_thr (adr_orig_thread im) (set_t_console_id 1);;
  acoral_run_orig_thread (adr_orig_thread im);;
  acoral_module_init;;
  acoral_smp_init;;
  acoral_mpcp_system_init;;
  acoral_dpcp_system_init;;
  acoral_core_cpu_start).
End smp.
