(* ===== verification/SmpSpec.v ===== *)
(** * Correctness of start-up and of the release thread *)
From S2P Require Import Prelude Interfaces Bitops DList Queues KTypes KState Sched SchedSpec Sample Cpu ResPool Thread ThreadSpec Timer Ipc Pcp Policy TimedThrd Smp.
From stdpp Require Import list.
#[local] Open Scope Z_scope.

(** ** The release thread and threads that never stop exiting *)
Section daemon.
Context `{!Allocator kstate, !Layout}.
Context (acoral_vol_free : Z → K unit) (call_hook : Z → Z → K unit).
Implicit Types s : kstate.

(** The executing core is outside of critical sections, with no switch pending. *)
Definition quiet (s : kstate) (c : percpu) : Prop :=
  aget (k_cpus s) (k_cpu s) = Some c ∧ c_need_sched c = 0 ∧ c_critical_nesting c = 0.

Definition with_core (s : kstate) (c : percpu) : kstate := set_k_cpus (aset (k_cpu s) c (k_cpus s)) s.

Lemma quiet_left s c q : quiet s c → quiet (set_k_q q (with_core s (left_critical c))) (left_critical c).
Proof. intros (Hc & Hn & _). split; [|done]. by eapply aget_aset_eq. Qed.

(** A critical section of a quiet core that only changes the lists. *)
Lemma quiet_section {A} (m : K A) s c q a :
  quiet s c → m (with_core s (entered c)) = Ret (a, set_k_q q (with_core s (entered c))) →
  (acoral_enter_critical;; b ← m; acoral_exit_critical;; mret b) s
    = Ret (a, set_k_q q (with_core s (left_critical c))).
Proof.
  intros (Hc & Hneed & Hn) Hm. erewrite run_bind by (by apply enter_critical_run). fold (with_core s (entered c)).
  erewrite run_bind by exact Hm.
  assert (aget (k_cpus (set_k_q q (with_core s (entered c)))) (k_cpu s) = Some (entered c)) as Hc'
    by (by eapply aget_aset_eq).
  erewrite run_bind; [done|]. erewrite exit_critical_last; [|exact Hc'|].
  - erewrite acoral_sched_run by (by eapply aget_aset_eq).
    rewrite bool_decide_eq_false_2 by (simpl; tauto).
    unfold with_core. simpl. unfold set_k_cpus, set_k_q. simpl. by rewrite aset_aset.
  - right. simpl. rewrite Hn. done.
Qed.

Lemma run_kget_next_mid s L q a y b :
  qrep (k_q s) L → L !! q = Some (a ++ y :: b) → kget_next y s = Ret (default q (head b), s).
Proof.
  intros HR Hq. destruct (ring_step _ L q a b y (qrep_nodes _ _ HR) Hq) as (n & nx & Hn & Hnx & Hhd & _).
  apply run_kread. rewrite (run_get_next _ _ n) by done. rewrite Hnx.
  destruct b; simpl in *; by injection Hhd as <-.
Qed.

Definition released (ts : list Z) : list loc := (λ t, LThread t pending) <$> ts.

Definition exiting (s : kstate) (t : Z) : Prop :=
  ∃ th, k_tcb s !! t = Some th ∧ t_state th = ACORAL_THREAD_STATE_EXIT.

(** The release queue of [s] holds the threads [ts], all of them exiting. *)
Record daemq (s : kstate) (L : gmap loc (list loc)) (ts : list Z) : Prop := {
  dq_rep : qrep (k_q s) L;
  dq_queue : is_queue (k_q s) (LQueue QRelease);
  dq_list : L !! LQueue QRelease = Some (released ts);
  dq_exit : Forall (exiting s) ts;
}.

(** An exiting thread at the head of the queue goes to its end. *)
Lemma daem_step s c L t ts :
  quiet s c → daemq s L (t :: ts) →
  ∃ q L', let s' := set_k_q q (with_core s (left_critical c)) in
    (thread ← daem_take (LThread t pending); daem_thread acoral_vol_free call_hook thread) s = Ret (tt, s') ∧
    quiet s' (left_critical c) ∧ daemq s' L' (ts ++ [t]).
Proof.
  intros Hs [HR Hql HL Hex]. pose proof Hex as Hex'. apply Forall_cons in Hex' as [(th & Ht & Hst) _].
  destruct (queue_del_rep (k_q s) L (LQueue QRelease) (LQueue QRelease) (LThread t pending) [] (released ts))
    as (q1 & Hdel & HR1 & Hlk1 & _); [done|done|exact HL|].
  set (L1 := <[LThread t pending := []]> (<[LQueue QRelease := [] ++ released ts]> L)) in *.
  set (s1 := set_k_q q1 (with_core s (left_critical c))).
  assert (quiet s1 (left_critical c)) as Hs1 by (by apply quiet_left).
  destruct (fifo_add_rep q1 L1 (LQueue QRelease) (LThread t pending) (released ts)) as (q2 & Hadd & HR2 & Hlk2 & _);
    [done|unfold is_queue; by rewrite Hlk1|unfold L1; by rewrite lookup_insert_ne, lookup_insert_eq
    |unfold L1; by rewrite lookup_insert_eq|done|].
  destruct (ring_pos _ L1 (LQueue QRelease) (released ts) [] (qrep_nodes _ _ HR1)) as (tmp & pv & n & Htmp & _ & Hn & Hpv & _).
  { unfold L1. rewrite lookup_insert_ne, lookup_insert_eq by done. by rewrite app_nil_r. }
  simpl in Htmp. injection Htmp as <-.
  exists q2. eexists. cbv zeta.
  assert (daem_take (LThread t pending) s = Ret (t, s1)) as Htake.
  { unfold daem_take, s1. rewrite <- (quiet_section (thread ← thread_of pending (LThread t pending);
      on_q (acoral_fifo_queue_del (LQueue QRelease) (LThread t pending));; mret thread) s c q1 t Hs).
    - unfold mbind, M_bind. destruct (acoral_enter_critical s) as [[]|]; [|done]. simpl.
      destruct (on_q _ _) as [[]|]; done.
    - erewrite run_bind by reflexivity. erewrite run_bind by (apply run_on_q; exact Hdel). done. }
  assert (daem_thread acoral_vol_free call_hook t s1 = Ret (tt, set_k_q q2 (with_core s1 (left_critical (left_critical c))))) as Hback.
  { unfold daem_thread. erewrite run_bind by (by apply run_thr). rewrite Hst.
    change (ACORAL_THREAD_STATE_EXIT =? ACORAL_THREAD_STATE_RELEASE) with false. cbn iota.
    rewrite <- (quiet_section (kget_prev (LQueue QRelease);;
      on_q (acoral_fifo_queue_add (LQueue QRelease) (LThread t pending))) s1 (left_critical c) q2 tt Hs1).
    - unfold mbind, M_bind. destruct (acoral_enter_critical s1) as [[]|]; [|done]. destruct (kget_prev _ _) as [[]|]; [|done].
      destruct (on_q _ _) as [[[]]|]; [|done]. by destruct (acoral_exit_critical _) as [[[]]|].
    - erewrite run_bind by (apply run_kread; by apply run_get_prev). by apply run_on_q. }
  assert (set_k_q q2 (with_core s1 (left_critical (left_critical c))) = set_k_q q2 (with_core s (left_critical c))) as E.
  { unfold s1, with_core, set_k_q, set_k_cpus. simpl. by rewrite aset_aset. }
  split; [erewrite run_bind by exact Htake; by rewrite Hback, E|]. split; [by apply quiet_left|].
  split; [exact HR2|unfold is_queue; simpl; by rewrite Hlk2, Hlk1| |].
  - unfold released. rewrite fmap_app. apply lookup_insert_eq.
  - apply Forall_app. apply Forall_cons in Hex as [??]. by repeat constructor.
Qed.

Lemma daem_pass_step fuel s c L t ts :
  quiet s c → daemq s L (t :: ts) →
  ∃ s' c' L', daem_pass acoral_vol_free call_hook (S fuel) (LThread t pending) s
      = daem_pass acoral_vol_free call_hook fuel (default (LQueue QRelease) (head (released ts))) s' ∧
    quiet s' c' ∧ daemq s' L' (ts ++ [t]) ∧ k_tcb s' = k_tcb s.
Proof.
  intros Hs HD. destruct (daem_step s c L t ts Hs HD) as (q & L' & Hrun & Hs' & HD').
  eexists _, _, _. split; [|split; [exact Hs'|split; [exact HD'|done]]].
  cbn [daem_pass]. rewrite decide_False by done.
  erewrite run_bind by (eapply (run_kget_next_mid s L (LQueue QRelease) []); [apply HD|apply (dq_list _ _ _ HD)]).
  revert Hrun. unfold mbind, M_bind. destruct (daem_take _ _) as [[]|]; [|done]. by intros ->.
Qed.

(** C7 The release thread, while every thread in its queue is exiting and nothing
    else runs.  With one thread its turn ends, and leaves the queue and the
    threads as they are.  With two or more it never ends: every thread goes back
    to the end of the queue that the loop walks.  A thread that is killed while it
    does not run stays exiting for ever. *)
Theorem daemon_exiting s c L ts :
  quiet s c → daemq s L ts →
  ((length ts ≤ 1)%nat → ∃ s' L', (tmp ← kget_next (LQueue QRelease); daem_pass acoral_vol_free call_hook 1 tmp) s = Ret (tt, s') ∧
     daemq s' L' ts ∧ k_tcb s' = k_tcb s) ∧
  ((2 ≤ length ts)%nat → ∀ fuel, daem acoral_vol_free call_hook fuel s = Err Diverge).
Proof.
  intros Hs HD. split.
  - intros Hlen. erewrite run_bind by (eapply run_kget_first; [apply HD|apply (dq_list _ _ _ HD)]).
    destruct ts as [|t [|t2 ts]]; [by exists s, L| |simpl in Hlen; lia].
    change (default _ _) with (LThread t pending).
    destruct (daem_pass_step 0 s c L t [] Hs HD) as (s' & c' & L' & Hrun & _ & HD' & Htcb).
    exists s', L'. split; [|done]. rewrite Hrun. done.
  - intros Hlen fuel. unfold daem.
    erewrite run_bind by (eapply run_kget_first; [apply HD|apply (dq_list _ _ _ HD)]).
    assert (daem_pass acoral_vol_free call_hook fuel (default (LQueue QRelease) (head (released ts))) s = Err Diverge) as E;
      [|unfold mbind, M_bind; by rewrite E].
    revert s c L ts Hs HD Hlen. induction fuel as [|fuel IH]; intros s c L ts Hs HD Hlen.
    + by destruct ts as [|t ts]; [simpl in Hlen; lia|].
    + destruct ts as [|t [|t2 ts]]; [simpl in Hlen; lia..|].
      destruct (daem_pass_step fuel s c L t (t2 :: ts) Hs HD) as (s' & c' & L' & Hrun & Hs' & HD' & _).
      change (default (LQueue QRelease) (head (released (t :: t2 :: ts)))) with (LThread t pending). rewrite Hrun.
      apply (IH s' c' L' ((t2 :: ts) ++ [t]) Hs' HD'). simpl. rewrite length_app. simpl. lia.
Qed.
End daemon.

(** ** A machine at power-on

    All variables are 0, as the start-up code leaves them; [core_cpu] is 1. *)
Definition cold_cpu : percpu := mk_percpu 0 0 0 0 0 0 0 [0; 0] 0 0.
Definition cold_pool : pool := mk_pool 0 0 0 0 0 0 0 0.
Definition cold_ctrl : pool_ctrl := mk_pool_ctrl 0 0 0 0 0 0.
Definition cold_cmd : ipi_cmd := mk_ipi_cmd 0 0 0 0.
Definition cold_thread : thread := mk_thread 0 0 0 0 0 0 0 0 0 0 0 0 0 0 0 0 0 0 0.
Definition cold_ext : kext := mk_kext ∅ ∅ ∅ [0; 0] ∅ [0; 0; 0; 0] ∅ [0; 0] 0 ∅ 1 0 [0; 0] 0 0 ∅ ∅ ∅ ∅ ∅ ∅.

(** The addresses of the image; the heap is from [0x100000] on. *)
Definition board : image := mk_image 0x10 0x20 0x30 0x40 0x50 0x60 0x70 0x80 0x1000 0x2000 0x2100 0x2200.
#[local] Instance board_layout : Layout := {| acoral_pools := 0x4000; acoral_thread_pool_ctrl := 0x3000; acoral_ipc_pool_ctrl := 0x3100 |}.

(** The list nodes of global objects: those of the pools and the policies. *)
Definition cold_nodes : heap loc :=
  foldr (λ x h, <[x := mk_list x x 0 0]> h) ∅
    (((λ i, LTotal (0x4000 + sizeof_pool * i)) <$> seqZ 0 ACORAL_MAX_POOLS) ++
    ((λ i, LFree (0x4000 + sizeof_pool * i)) <$> seqZ 0 ACORAL_MAX_POOLS) ++
    [LPolicy 0x2000; LPolicy 0x2100; LPolicy 0x2200]).

Definition cold : kstate :=
  mk_kstate 0 [cold_cpu; cold_cpu] (mk_q cold_nodes ∅) {[0x1000 := cold_thread]} ∅ ∅
    (replicate (Z.to_nat ACORAL_MAX_POOLS) cold_pool) 0 (<[0x3000 := cold_ctrl]> {[0x3100 := cold_ctrl]})
    [cold_cmd; cold_cmd] [] 0 0 0 [0] ∅ cold_ext.

(** An allocator that never gives memory back; the word at 0 is what is left.
    Every word of a block may hold a resource. *)
Definition words_of (p n : Z) (m : gmap Z Z) : gmap Z Z :=
  foldr (λ i, <[p + 4 * i := 0]>) m (seqZ 0 (n / 4)).

#[local] Instance bump : Allocator kstate :=
  {| al_malloc_size := λ n, mret n;
     al_malloc := λ n s,
       let top := default 0x100000 (x_words (k_ext s) !! 0) in
       Ret (top, set_k_res (words_of top n (k_res s))
         (set_k_ext (set_x_words (<[0 := top + n]> (x_words (k_ext s))) (k_ext s)) s));
     al_free := λ _, mret tt |}.

Definition boot : K Z :=
  acoral_start (λ _, mret 0) (λ _, cold_thread) (λ _, mk_ipc 0 0 0 0 0 0) (λ _, mret tt) (mret tt) (mret tt) board.
(** ** Runs of the whole start *)

Definition state_of {A} (o : outcome (A * kstate)) : kstate := match o with Ret p => p.2 | Err _ => cold end.

Definition result_of {A} (o : outcome (A * kstate)) : option A := match o with Ret p => Some p.1 | Err _ => None end.

Lemma run_state {A} (o : outcome (A * kstate)) a : result_of o = Some a → o = Ret (a, state_of o).
Proof. destruct o as [[b s]|]; [|done]. by intros [= ->]. Qed.

(** The members of a list, as far as [fuel] links lead. *)
Fixpoint walk (fuel : nat) (h : heap loc) (q x : loc) : list loc :=
  match fuel with
  | O => []
  | S fuel => if decide (x = q) then [] else x :: match h !! x with Some n => walk fuel h q (next n) | None => [] end
  end.
Definition members (s : kstate) (q : loc) : list loc :=
  match q_nodes (k_q s) !! q with Some n => walk 64 (q_nodes (k_q s)) q (next n) | None => [] end.

(** The threads in the ready queues of a core, by priority. *)
Definition ready_table (s : kstate) (c : Z) : list (Z * list loc) :=
  filter (λ e, e.2 ≠ []) ((λ p, (p, members s (LQueue (QReady c p)))) <$> seqZ 0 ACORAL_MAX_PRIO_NUM).

Definition runs (s : kstate) (c : Z) : option (Z * Z) :=
  cs ← aget (k_cpus s) c; th ← k_tcb s !! c_running cs; Some (c_running cs, t_state th).

(** Ready and running. *)
Definition ACTIVE : Z := Z.lor ACORAL_THREAD_STATE_READY ACORAL_THREAD_STATE_RUNNING.

(** The first thread of the board runs [init] and then exits. *)
Definition first_life : K unit := init (λ _, mret tt);; acoral_thread_exit.
Definition release_turn (fuel : nat) : K unit := daem (λ _, mret tt) (λ _ _, mret tt) fuel.

(** The threads in the order of their creation. *)
Definition t_follow : Z := 0x100000.
Definition t_idle : Z := t_follow + sizeof_thread.
Definition t_init : Z := t_idle + sizeof_thread.
Definition t_daem : Z := t_init + sizeof_thread.

(** A run: the start of the two cores, and the life of the first thread.  Core 1 is
    started by core 0 and runs its idle thread; core 0 then runs [init], at the
    highest priority, with the release thread and its idle thread ready behind
    it.  When [init] is over, the release thread runs, and one turn of it gives
    the control block back; then it waits, and core 0 idles. *)
Example start_run :
  let s := state_of (boot cold) in
  let s1 := state_of (first_life s) in
  let s2 := state_of (release_turn 1 s1) in
  boot cold = Ret (adr_init board, s) ∧
  runs s 0 = Some (t_init, ACTIVE) ∧ runs s 1 = Some (t_follow, ACTIVE) ∧
  ready_table s 0 = [(INIT_PRIO, [LThread t_init ready]); (ACORAL_DAEMON_PRIO, [LThread t_daem ready]);
    (ACORAL_IDLE_PRIO, [LThread t_idle ready])] ∧
  ready_table s 1 = [(ACORAL_IDLE_PRIO, [LThread t_follow ready])] ∧
  k_active_map s = [3] ∧ x_ipi_status (k_ext s) = [ACORAL_IPI_READY; ACORAL_IPI_READY] ∧ k_sched_enable s = 0 ∧
  first_life s = Ret (tt, s1) ∧ k_sched_enable s1 = 1 ∧ runs s1 0 = Some (t_daem, ACTIVE) ∧
  members s1 (LQueue QRelease) = [LThread t_init pending] ∧
  t_state <$> k_tcb s1 !! t_init = Some ACORAL_THREAD_STATE_RELEASE ∧
  release_turn 1 s1 = Ret (tt, s2) ∧ runs s2 0 = Some (t_idle, ACTIVE) ∧
  members s2 (LQueue QRelease) = [] ∧ ready_table s2 0 = [(ACORAL_IDLE_PRIO, [LThread t_idle ready])] ∧
  members s2 (LQueue QThreads) = [LThread t_follow global_list; LThread t_idle global_list; LThread t_daem global_list] ∧
  p_free_num <$> aget (k_pools s2) 0 = (λ x, p_free_num x + 1) <$> aget (k_pools s1) 0.
Proof.
  cbv zeta. repeat (apply conj; [first [apply run_state; vm_compute; reflexivity|vm_compute; reflexivity]|]).
  vm_compute. reflexivity.
Qed.

(** Two threads killed while they are ready: the release thread never gets past
    them. *)
Definition victim (prio : Z) : K unit :=
  id ← create_or_stop (λ _, mret 0) (λ _, cold_thread) (λ _, mk_ipc 0 0 0 0 0 0) board 0x90 256 0 prio;
  acoral_kill_thread_by_id id.

Lemma killed_ready_stay_exiting :
  let s := state_of ((boot;; victim 10;; victim 11;; first_life) cold) in
  (boot;; victim 10;; victim 11;; first_life) cold = Ret (tt, s) ∧ runs s 0 = Some (t_daem, ACTIVE) ∧
  release_turn 100 s = Err Diverge.
Proof.
  cbv zeta. repeat (apply conj; [first [apply run_state; vm_compute; reflexivity|vm_compute; reflexivity]|]).
  vm_compute. reflexivity.
Qed.

(** ** Witness *)
(** Threads 4096 and 8192 wait for their release. *)
Lemma daemon_exiting_witness : ∃ s L,
  daemq s L [4096; 8192] ∧ ∀ fuel, daem (λ _, mret tt) (λ _ _, mret tt) fuel s = Err Diverge.
Proof.
  destruct sample_kernel as [s0 Hs0]. destruct (sm_c0 _ Hs0) as (c & Hc & _ & Hn & _).
  assert (∃ L, sched_inv s0 L ∧ core_inv s0 L ∧ unlisted L (LQueue QRelease) ∧ ∀ t, unlisted L (LThread t pending))
    as (L0 & HI0 & HC0 & Hq0 & Hu).
  { exists sample_L. split; [apply Hs0|]. split; [apply Hs0|]. split; [|intros t]; by apply sample_unlisted. }
  destruct (with_queue s0 L0 (LQueue QRelease) (LThread 4096 pending) 0)
    as (s1 & L1 & h & -> & HI & HC & Hq & -> & _); [done|done|done|apply Hu|done|done|done|].
  destruct (Hu 8192) as [Hx Hxf].
  destruct (add_loc_inv false (LThread 8192 pending) 0 _ _ HI HC) as [HI2 _];
    [|by rewrite lookup_insert_ne|done|].
  { intros q' xs. rewrite lookup_insert_Some. intros [[_ <-]|[_ Hxs]] _; [|by eapply Hxf].
    rewrite not_elem_of_cons. split; [done|apply not_elem_of_nil]. }
  destruct (fifo_add_rep _ _ (LQueue QRelease) (LThread 8192 pending) [LThread 4096 pending] (si_q _ _ HI2))
    as (q & _ & HQ & Hlk & _); [done|by rewrite lookup_insert_ne, lookup_insert_eq|by rewrite lookup_insert_eq|done|].
  set (th := set_t_state ACORAL_THREAD_STATE_EXIT (sample_thread 5)).
  set (s := set_k_cpus (aset 0 (set_c_need_sched 0 c) (k_cpus s0)) (set_k_q q (set_k_tcb (<[4096 := th]> (<[8192 := th]> ∅)) s0))).
  assert (k_cpu s0 = 0) as Hcpu by apply Hs0.
  assert (quiet s (set_c_need_sched 0 c)) as Hquiet.
  { split; [|done]. simpl. rewrite Hcpu. by eapply aget_aset_eq. }
  assert (∃ L, daemq s L [4096; 8192]) as [L HD].
  { eexists. split; [exact HQ|unfold is_queue; simpl; by rewrite Hlk|by rewrite lookup_insert_eq|].
    repeat constructor; exists th; split; reflexivity. }
  exists s, L. split; [done|].
  apply (daemon_exiting (λ _, mret tt) (λ _ _, mret tt) s _ L [4096; 8192] Hquiet HD). simpl. lia.
Defined.
