(* ===== verification/Dag.v ===== *)
(** * components/tmp/lib/src/dag.c: task graphs

    A program describes graphs of tasks: a user node has a function and the
    functions of its predecessors.  [dag_decode] turns each graph into nodes with
    a semaphore and edges between them, and then into one periodic thread per
    node, which waits for the semaphores of the predecessors, calls the function
    and posts its own.  Addresses of functions are numbers, tables of pointers
    words of memory; the functions of the nodes, the graph that the program sets
    up ([dag_user_init]), the variable-size allocator and the creation of a
    periodic thread are arguments. *)
From S2P Require Import Prelude Interfaces Bitops DList Queues KTypes KState Sched Cpu ResPool Thread Timer Ipc Policy TimedThrd.
From stdpp Require Import list.
#[local] Open Scope Z_scope.

Definition sizeof_dag_node : Z := 40.
Definition sizeof_dag_edge : Z := 24.
Definition sizeof_dag : Z := 60.
Definition sizeof_dag_task_data : Z := 20.
Definition sizeof_period_policy_data : Z := 12.

(** The fields behind the pointers of this file. *)
Definition unode {A} (f : dag_user_node → A) (p : Z) : K A := xobj x_dag_unodes f p.
Definition duser {A} (f : dag_user → A) (p : Z) : K A := xobj x_dag_users f p.
Definition dnode {A} (f : dag_node → A) (p : Z) : K A := xobj x_dag_nodes f p.
Definition dedge {A} (f : dag_edge → A) (p : Z) : K A := xobj x_dag_edges f p.
Definition ddag {A} (f : dag → A) (p : Z) : K A := xobj x_dags f p.
Definition dtask {A} (f : dag_task_data → A) (p : Z) : K A := xobj x_dag_tasks f p.
Definition on_dtask : Z → (dag_task_data → dag_task_data) → K unit := on_xobj x_dag_tasks set_x_dag_tasks.

(** [list_entry] for the list nodes of this file. *)
Definition unode_of (l : loc) : K Z := match l with LDagUserNode p => mret p | _ => fail Wild end.
Definition duser_of (l : loc) : K Z := match l with LDagUser p => mret p | _ => fail Wild end.
Definition dnode_of (l : loc) : K Z := match l with LDagNode p => mret p | _ => fail Wild end.
Definition dedge_of (l : loc) : K Z := match l with LDagEdge p => mret p | _ => fail Wild end.
Definition ddag_of (l : loc) : K Z := match l with LDag p => mret p | _ => fail Wild end.

(** A first write through the pointer that an allocator returned. *)
Definition new_object (p : Z) (f : kext → kext) : K unit :=
  if p =? 0 then fail Wild else modify (λ s, set_k_ext (f (k_ext s)) s).

(** [for(tmp=head->next;tmp!=head;tmp=tmp->next)] with the body [m]. *)
Fixpoint for_list (fuel : nat) (head tmp : loc) (m : loc → K unit) : K unit :=
  if decide (tmp = head) then mret tt else
  m tmp;;
  next ← kget_next tmp;
  match fuel with
  | O => fail Diverge
  | S fuel => for_list fuel head next m
  end.
Definition for_each (head : loc) (m : loc → K unit) : K unit :=
  fuel ← get (λ s, size (q_nodes (k_q s)));
  tmp ← kget_next head;
  for_list fuel head tmp m.

(** The search for the node of a function; [last] is the variable [next_node],
    which after a search in vain holds the last node. *)
Fixpoint dag_find_next (fuel : nat) (route : Z) (head tmp : loc) (last : option Z) : K (option Z) :=
  if decide (tmp = head) then mret last else
  n ← dnode_of tmp;
  r ← dnode dn_route n;
  if r =? route then mret (Some n) else
  next ← kget_next tmp;
  match fuel with
  | O => fail Diverge
  | S fuel => dag_find_next fuel route head next (Some n)
  end.

(** The search for a predecessor, which passes the node itself; [None] when
    there is none. *)
Fixpoint dag_find_prev (fuel : nat) (route prev_route : Z) (head tmp : loc) : K (option Z) :=
  if decide (tmp = head) then mret None else
  n ← dnode_of tmp;
  r ← dnode dn_route n;
  if negb (r =? route) && (r =? prev_route) then mret (Some n) else
  next ← kget_next tmp;
  match fuel with
  | O => fail Diverge
  | S fuel => dag_find_prev fuel route prev_route head next
  end.

(** The semaphores of the predecessors of [node], from the edge [tmp] on;
    [edge_cnt] of them were found. *)
Fixpoint dag_pend_loop (fuel : nat) (node in_degree pend : Z) (head tmp : loc) (edge_cnt : Z) : K unit :=
  if decide (tmp = head) then mret tt else
  e ← dedge_of tmp;
  next_node ← dedge de_next_node e;
  if next_node =? node then
    prev ← dedge de_prev_node e;
    sem ← dnode dn_sem prev;
    set_word_at pend edge_cnt sem;;
    let edge_cnt := u8 (edge_cnt + 1) in
    if in_degree <=? edge_cnt then mret tt else
    next ← kget_next tmp;
    match fuel with
    | O => fail Diverge
    | S fuel => dag_pend_loop fuel node in_degree pend head next edge_cnt
    end
  else
    next ← kget_next tmp;
    match fuel with
    | O => fail Diverge
    | S fuel => dag_pend_loop fuel node in_degree pend head next edge_cnt
    end.

Section dag.
Context `{!Allocator kstate, !Layout}.
Context (acoral_vol_malloc : Z → K Z) (acoral_vol_free : Z → K unit).
Context (raw_ipc : Z → ipc) (raw_args raw_prev : Z → Z) (dag_user_init : K unit) (call_route : Z → Z → K unit).
Context (create_periodic : Z → Z → policy_arg → Z → option thread_hook → K Z) (acoral_dag_task_adr : Z) (dag_hook : thread_hook).

(** ** From the user's graph to nodes and edges

    [node->args] is not assigned: it stays what the memory held ([raw_args]). *)
Definition dag_node_init (dag user_node : Z) : K unit :=
  node ← al_malloc sizeof_dag_node;
  un ← unode id user_node;
  new_object node (λ x, set_x_dag_nodes (<[node :=
    mk_dag_node (un_route un) (raw_args node) (u16 (un_prev_count un)) 0 (un_processor un) (un_prio un)]> (x_dag_nodes x)) x);;
  sem ← acoral_sem_create raw_ipc 0;
  on_xobj x_dag_nodes set_x_dag_nodes node (set_dn_sem sem);;
  on_q (on_nodes (acoral_list_init (LDagNode node)));;
  on_q (acoral_lifo_queue_add (LQueue (QDagNodes dag)) (LDagNode node)).

Definition dag_node_create (dag dag_user : Z) : K unit :=
  for_each (LQueue (QDagUserNodes dag_user)) (λ tmp, user_node ← unode_of tmp; dag_node_init dag user_node).

(** The edge of predecessor [i]; without one, [edge->prev_node] is not assigned. *)
Definition dag_edge_new (dag user_node next_node i : Z) : K unit :=
  let head := LQueue (QDagNodes dag) in
  edge ← al_malloc sizeof_dag_edge;
  new_object edge (λ x, set_x_dag_edges (<[edge := mk_dag_edge (raw_prev edge) next_node]> (x_dag_edges x)) x);;
  prev_route ← unode un_prev_route user_node;
  pr ← word_at prev_route i;
  (if pr =? 0 then on_xobj x_dag_edges set_x_dag_edges edge (set_de_prev_node 0)
   else
     route ← unode un_route user_node;
     fuel ← get (λ s, size (q_nodes (k_q s)));
     tmp ← kget_next head;
     r ← dag_find_prev fuel route pr head tmp;
     match r with
     | Some prev => on_xobj x_dag_edges set_x_dag_edges edge (set_de_prev_node prev)
     | None => mret tt
     end);;
  on_q (on_nodes (acoral_list_init (LDagEdge edge)));;
  on_q (acoral_lifo_queue_add (LQueue (QDagEdges dag)) (LDagEdge edge)).

Definition dag_edge_init (dag user_node : Z) : K unit :=
  let head := LQueue (QDagNodes dag) in
  route ← unode un_route user_node;
  fuel ← get (λ s, size (q_nodes (k_q s)));
  tmp ← kget_next head;
  r ← dag_find_next fuel route head tmp None;
  match r with
  | Some next_node =>
      in_degree ← dnode dn_in_degree next_node;
      for_up (Z.to_nat in_degree) 0 (dag_edge_new dag user_node next_node)
  | None => fail Wild
  end.

Definition dag_edge_create (dag dag_user : Z) : K unit :=
  for_each (LQueue (QDagUserNodes dag_user)) (λ tmp, user_node ← unode_of tmp; dag_edge_init dag user_node).

Definition acoral_dag_init (dag_user : Z) : K unit :=
  dag ← al_malloc sizeof_dag;
  new_object dag id;;
  on_q (acoral_lifo_queue_init (LQueue (QDagNodes dag)));;
  on_q (acoral_lifo_queue_init (LQueue (QDagEdges dag)));;
  time ← duser du_period_time dag_user;
  new_object dag (λ x, set_x_dags (<[dag := mk_dag time]> (x_dags x)) x);;
  dag_node_create dag dag_user;;
  dag_edge_create dag dag_user;;
  on_q (on_nodes (acoral_list_init (LDag dag)));;
  on_q (acoral_lifo_queue_add (LQueue QDag) (LDag dag)).

Definition acoral_dag_create : K unit :=
  for_each (LQueue QDagUser) (λ tmp, dag_user ← duser_of tmp; acoral_dag_init dag_user).

(** ** The thread of a node *)

(** The pends from [i] on; [n] are left.  [None] when the thread waits. *)
Fixpoint dag_pends (n : nat) (data i : Z) : K (option unit) :=
  match n with
  | O => mret (Some tt)
  | S n =>
      pend ← dtask dt_pend_ipc data;
      sem ← word_at pend i;
      r ← acoral_sem_pends sem;
      match r with
      | None => mret None
      | Some _ => dag_pends n data (i + 1)
      end
  end.

(** What follows the pends. *)
Definition dag_run (data : Z) : K unit :=
  route ← dtask dt_dag_route data;
  args ← dtask dt_dag_args data;
  call_route route args;;
  post ← dtask dt_post_ipc data;
  acoral_sem_posts post;;
  mret tt.

Definition dag_task_from (data i : Z) : K (option unit) :=
  cnt ← dtask dt_pend_ipc_cnt data;
  r ← dag_pends (Z.to_nat (cnt - i)) data i;
  match r with
  | None => mret None
  | Some _ => dag_run data;; mret (Some tt)
  end.

Definition acoral_dag_task : K (option unit) :=
  cur ← acoral_cur_thread;
  data ← thr t_data cur;
  if data =? 0 then mret (Some tt) else dag_task_from data 0.

(** The thread [cur] runs again in its pend [i]. *)
Definition dag_task_resume (cur i : Z) : K (option unit) :=
  data ← thr t_data cur;
  pend ← dtask dt_pend_ipc data;
  sem ← word_at pend i;
  sem_pend_resume sem cur;;
  dag_task_from data (i + 1).

Definition dag_deal_hook (thread : Z) : K unit :=
  data ← thr t_data thread;
  post ← dtask dt_post_ipc data;
  acoral_sem_init post 0;;
  mret tt.

Definition dag_release_hook (thread : Z) : K unit :=
  data ← thr t_data thread;
  on_dtask data (set_dt_dag_route 0);;
  on_dtask data (set_dt_dag_args 0);;
  pend ← dtask dt_pend_ipc data;
  acoral_vol_free pend;;
  on_dtask data (set_dt_pend_ipc 0);;
  on_dtask data (set_dt_post_ipc 0);;
  acoral_vol_free data;;
  on_thr thread (set_t_data 0).

(** ** From nodes to threads *)
Definition dag_node_to_thread (dag node : Z) : K unit :=
  data ← acoral_vol_malloc sizeof_dag_task_data;
  nd ← dnode id node;
  pend ← acoral_vol_malloc (dn_in_degree nd * 4);
  new_object data (λ x, set_x_dag_tasks (<[data :=
    mk_dag_task_data pend (dn_in_degree nd) (dn_sem nd) (dn_route nd) (dn_args nd)]> (x_dag_tasks x)) x);;
  when (0 <? dn_in_degree nd)
    (fuel ← get (λ s, size (q_nodes (k_q s)));
     tmp ← kget_next (LQueue (QDagEdges dag));
     dag_pend_loop fuel node (dn_in_degree nd) pend (LQueue (QDagEdges dag)) tmp 0);;
  policy_data ← acoral_vol_malloc sizeof_period_policy_data;
  new_object policy_data id;;
  time ← ddag dg_period_time dag;
  create_periodic acoral_dag_task_adr 1024 (period_policy_data (dn_processor nd) (dn_prio nd) time) data (Some dag_hook);;
  acoral_vol_free policy_data.

Definition acoral_dag_to_thread : K unit :=
  for_each (LQueue QDag) (λ dag_tmp,
    dag ← ddag_of dag_tmp;
    for_each (LQueue (QDagNodes dag)) (λ node_tmp, node ← dnode_of node_tmp; dag_node_to_thread dag node)).

Definition dag_decode : K unit :=
  on_q (acoral_lifo_queue_init (LQueue QDag));;
  on_q (acoral_lifo_queue_init (LQueue QDagUser));;
  dag_user_init;;
  acoral_dag_create;;
  acoral_dag_to_thread.

(** ** What the program calls to describe its graphs *)
Definition dag_add_user_node (dag_user user_node : Z) : K unit :=
  on_q (on_nodes (acoral_list_init (LDagUserNode user_node)));;
  on_q (acoral_lifo_queue_add (LQueue (QDagUserNodes dag_user)) (LDagUserNode user_node)).

Definition dag_add_user (dag_user : Z) : K unit :=
  on_q (on_nodes (acoral_list_init (LDagUser dag_user)));;
  on_q (acoral_lifo_queue_init (LQueue (QDagUserNodes dag_user)));;
  on_q (acoral_lifo_queue_add (LQueue QDagUser) (LDagUser dag_user)).
End dag.
