(* ===== verification/DagSpec.v ===== *)
(** * Correctness of the edges and semaphore tables of task graphs *)
From S2P Require Import Prelude Interfaces Bitops DList Queues KTypes KState Sched SchedSpec Sample Cpu ResPool Thread ThreadSpec Timer Ipc Pcp Policy TimedThrd Smp SmpSpec Dag.
From stdpp Require Import list.
#[local] Open Scope Z_scope.

Section dag_spec.
Context `{!Allocator kstate, !Layout}.
Context (raw_prev : Z → Z).
Implicit Types s : kstate.

(** The nodes [ns] of a graph, with the functions [rt]. *)
Definition dag_nodes_ok (s : kstate) (rt : Z → Z) (ns : list Z) : Prop :=
  Forall (λ n, ∃ x, x_dag_nodes (k_ext s) !! n = Some x ∧ dn_route x = rt n) ns.

Definition node_locs (ns : list Z) : list loc := LDagNode <$> ns.
Definition edge_locs (es : list Z) : list loc := LDagEdge <$> es.

(** The node of the predecessor with function [pr] of a node with [route]. *)
Definition prev_of (rt : Z → Z) (route pr : Z) (ns : list Z) : option Z :=
  snd <$> list_find (λ n, rt n ≠ route ∧ rt n = pr) ns.

(** The node that the edges of a user node with [route] lead to. *)
Definition next_of (rt : Z → Z) (route : Z) (ns : list Z) : option Z :=
  match list_find (λ n, rt n = route) ns with Some (_, n) => Some n | None => last ns end.

Lemma dag_find_prev_run fuel s L rt route pr q a b :
  qrep (k_q s) L → L !! q = Some (node_locs (a ++ b)) → dag_nodes_ok s rt b → (length b ≤ fuel)%nat →
  (∀ n, q ≠ LDagNode n) →
  dag_find_prev fuel route pr q (default q (head (node_locs b))) s = Ret (prev_of rt route pr b, s).
Proof.
  intros HR HL Hok Hf Hq. revert a fuel HL Hf. induction b as [|n b IH]; intros a fuel HL Hf.
  - destruct fuel; simpl; by rewrite decide_True.
  - apply Forall_cons in Hok as [(x & Hx & Hrt) Hok].
    destruct fuel as [|fuel]; simpl in Hf; [lia|].
    cbn [dag_find_prev node_locs fmap list_fmap head default from_option id]. rewrite decide_False by done.
    erewrite run_bind by reflexivity. erewrite run_bind by (by eapply run_xobj). rewrite Hrt.
    unfold prev_of. simpl. destruct (Z.eqb_spec (rt n) route) as [E1|E1]; simpl.
    + rewrite decide_False by tauto.
      erewrite run_bind by (eapply (run_kget_next_mid s L q (node_locs a)); [done|rewrite HL; unfold node_locs; by rewrite fmap_app]).
      erewrite (IH Hok (a ++ [n])) by (try lia; by rewrite <- (assoc_L (++))).
      unfold prev_of. by destruct (list_find _ b) as [[]|].
    + destruct (Z.eqb_spec (rt n) pr) as [E2|E2]; [by rewrite decide_True by tauto|].
      rewrite decide_False by tauto.
      erewrite run_bind by (eapply (run_kget_next_mid s L q (node_locs a)); [done|rewrite HL; unfold node_locs; by rewrite fmap_app]).
      erewrite (IH Hok (a ++ [n])) by (try lia; by rewrite <- (assoc_L (++))).
      unfold prev_of. by destruct (list_find _ b) as [[]|].
Qed.

Lemma find_next_run fuel s L rt route q a b lst :
  qrep (k_q s) L → L !! q = Some (node_locs (a ++ b)) → dag_nodes_ok s rt b → (length b ≤ fuel)%nat →
  (∀ n, q ≠ LDagNode n) →
  dag_find_next fuel route q (default q (head (node_locs b))) lst s
    = Ret (if decide (b = []) then lst else next_of rt route b, s).
Proof.
  intros HR HL Hok Hf Hq. revert a fuel lst HL Hf. induction b as [|n b IH]; intros a fuel lst HL Hf.
  - destruct fuel; simpl; by rewrite decide_True.
  - apply Forall_cons in Hok as [(x & Hx & Hrt) Hok].
    destruct fuel as [|fuel]; simpl in Hf; [lia|].
    cbn [dag_find_next node_locs fmap list_fmap head default from_option id]. rewrite decide_False by done.
    erewrite run_bind by reflexivity. erewrite run_bind by (by eapply run_xobj). rewrite Hrt.
    unfold next_of. simpl. destruct (Z.eqb_spec (rt n) route) as [E1|E1]; [by rewrite decide_True|].
    rewrite decide_False by done.
    erewrite run_bind by (eapply (run_kget_next_mid s L q (node_locs a)); [done|rewrite HL; unfold node_locs; by rewrite fmap_app]).
    erewrite (IH Hok (a ++ [n])) by (try lia; by rewrite <- (assoc_L (++))).
    f_equal. f_equal. destruct b as [|m b]; [done|]. rewrite decide_False by done.
    unfold next_of. destruct (list_find _ (m :: b)) as [[]|]; [done|]. simpl. by destruct b.
Qed.

(** A node put at the front of a list: [acoral_list_init], then the LIFO queue. *)
Lemma fresh_node_pushed s L q x xs :
  qrep (k_q s) L → unlisted L x → is_queue (k_q s) q → L !! q = Some xs → x ≠ q →
  ∃ q', (on_q (on_nodes (acoral_list_init x));; on_q (acoral_lifo_queue_add q x)) s = Ret (tt, set_k_q q' s) ∧
    qrep q' (<[q := x :: xs]> L) ∧ q_lock q' = q_lock (k_q s).
Proof.
  intros HR [Hx Hu] Hq HL Hne.
  set (v := default 0 (value <$> q_nodes (k_q s) !! x)).
  assert (qrep (k_q (add_loc false x v s)) (<[x := []]> L)) as HR1 by (by apply add_loc_rep; eauto).
  destruct (lifo_add_rep _ _ q x xs HR1) as (q' & Hadd & HR2 & Hlk & _);
    [done|by rewrite lookup_insert_ne|apply lookup_insert_eq|done|].
  exists q'. split_and!; [| |done].
  - erewrite run_bind by (by apply run_on_q). exact (run_on_q _ (add_loc false x v s) tt q' Hadd).
  - by rewrite delete_insert_id in HR2.
Qed.

(** One edge of the system's graph, for the predecessor [i] of a user node.
    It is put in front of the graph's edges; it leads to [next_node], from the
    node with the function of the predecessor.  Without a predecessor it starts
    at [NULL], and when no other node has that function it starts wherever the
    memory of the edge points. *)
Theorem dag_edge_new_correct s s1 L dag un u next_node rt ns es i pr e :
  al_malloc sizeof_dag_edge s = Ret (e, s1) → e ≠ 0 →
  qrep (k_q s1) L → unlisted L (LDagEdge e) → is_queue (k_q s1) (LQueue (QDagEdges dag)) →
  L !! LQueue (QDagNodes dag) = Some (node_locs ns) → L !! LQueue (QDagEdges dag) = Some (edge_locs es) →
  dag_nodes_ok s1 rt ns → x_dag_unodes (k_ext s1) !! un = Some u →
  x_words (k_ext s1) !! (un_prev_route u + 4 * i) = Some pr →
  let prev := if pr =? 0 then 0 else default (raw_prev e) (prev_of rt (un_route u) pr ns) in
  ∃ s' L', dag_edge_new raw_prev dag un next_node i s = Ret (tt, s') ∧ qrep (k_q s') L' ∧
    L' !! LQueue (QDagEdges dag) = Some (edge_locs (e :: es)) ∧
    (∀ q, q ≠ LQueue (QDagEdges dag) → L' !! q = L !! q) ∧
    x_dag_edges (k_ext s') = <[e := mk_dag_edge prev next_node]> (x_dag_edges (k_ext s1)) ∧
    x_dag_nodes (k_ext s') = x_dag_nodes (k_ext s1).
Proof.
  intros Hal He HR Hu Hq HLn HLe Hok Hun Hpr prev. unfold dag_edge_new. erewrite run_bind by exact Hal.
  set (s2 := set_k_ext (set_x_dag_edges (<[e := mk_dag_edge (raw_prev e) next_node]> (x_dag_edges (k_ext s1))) (k_ext s1)) s1).
  erewrite run_bind; [|unfold new_object; rewrite (proj2 (Z.eqb_neq e 0)) by done; reflexivity]. fold s2.
  erewrite run_bind by (eapply run_xobj; exact Hun).
  erewrite run_bind by (eapply run_deref; exact Hpr).
  set (s3 := set_k_ext (set_x_dag_edges (<[e := mk_dag_edge prev next_node]> (x_dag_edges (k_ext s1))) (k_ext s1)) s1).
  destruct (fresh_node_pushed s3 L (LQueue (QDagEdges dag)) (LDagEdge e) (edge_locs es)) as (q' & Hpush & HR' & _); [done..|].
  exists (set_k_q q' s3). eexists. split; [|split; [exact HR'|]].
  - erewrite run_bind; [exact Hpush|].
    assert (∀ v, prev = v → on_xobj x_dag_edges set_x_dag_edges e (set_de_prev_node v) s2 = Ret (tt, s3)) as Hset.
    { intros v <-. erewrite run_on_xobj by apply lookup_insert_eq. unfold s2, s3. cbn. do 2 f_equal.
      unfold set_k_ext, set_x_dag_edges. cbn. by rewrite insert_insert_eq. }
    destruct (Z.eqb_spec pr 0) as [->|Hne]; [by apply Hset|].
    erewrite run_bind by (eapply run_xobj; exact Hun). erewrite run_bind by reflexivity.
    erewrite run_bind by (eapply run_kget_first; [exact HR|exact HLn]).
    pose proof (ring_size _ L _ _ (qrep_nodes _ _ HR) HLn) as Hsz. unfold node_locs in Hsz. rewrite length_fmap in Hsz.
    erewrite run_bind by (eapply (dag_find_prev_run _ s2 L rt (un_route u) pr _ [] ns); [exact HR|exact HLn|exact Hok|simpl; lia|done]).
    unfold prev in *. destruct (prev_of rt (un_route u) pr ns) as [n|]; [by apply Hset|]. done.
  - split_and!; [apply lookup_insert_eq| |done|done]. intros q Hne. by apply lookup_insert_ne.
Qed.

(** ** The semaphores a thread waits for *)

(** Those of the nodes from which the edges [es] lead to [node]. *)
Definition pend_sems (s : kstate) (node : Z) (es : list Z) : list Z :=
  omap (λ e, x ← x_dag_edges (k_ext s) !! e;
             if decide (de_next_node x = node) then dn_sem <$> x_dag_nodes (k_ext s) !! de_prev_node x else None) es.

(** Every edge is there, and those that lead to [node] start at a node. *)
Definition dag_edges_ok (s : kstate) (node : Z) (es : list Z) : Prop :=
  Forall (λ e, ∃ x, x_dag_edges (k_ext s) !! e = Some x ∧
    (de_next_node x = node → is_Some (x_dag_nodes (k_ext s) !! de_prev_node x))) es.

(** The words [vs] from entry [i] of a table on. *)
Fixpoint write_table (p i : Z) (vs : list Z) (m : gmap Z Z) : gmap Z Z :=
  match vs with
  | [] => m
  | v :: vs => write_table p (i + 1) vs (<[p + 4 * i := v]> m)
  end.

Definition with_words (w : gmap Z Z) (s : kstate) : kstate := set_k_ext (set_x_words w (k_ext s)) s.

Lemma write_table_out p i vs m a :
  (∀ k, i ≤ k < i + Z.of_nat (length vs) → a ≠ p + 4 * k) → write_table p i vs m !! a = m !! a.
Proof.
  revert i m. induction vs as [|v vs IH]; intros i m Ha; [done|]. simpl in *.
  rewrite IH by (intros k Hk; apply Ha; lia). apply lookup_insert_ne. intros <-. apply (Ha i); lia.
Qed.

Lemma write_table_in p i vs m (k : nat) v :
  vs !! k = Some v → write_table p i vs m !! (p + 4 * (i + Z.of_nat k)) = Some v.
Proof.
  revert i k m. induction vs as [|w vs IH]; intros i k m Hv; [done|]. destruct k as [|k]; simpl in *.
  - injection Hv as ->. rewrite Z.add_0_r, write_table_out by lia. apply lookup_insert_eq.
  - replace (i + Z.of_nat (S k)) with (i + 1 + Z.of_nat k) by lia. by apply IH.
Qed.

Lemma pend_loop_run fuel s L node deg pend q a b cnt :
  qrep (k_q s) L → L !! q = Some (edge_locs (a ++ b)) → dag_edges_ok s node b → (length b ≤ fuel)%nat →
  (∀ e, q ≠ LDagEdge e) → 0 ≤ cnt < deg → deg < 256 → pend ≠ 0 →
  dag_pend_loop fuel node deg pend q (default q (head (edge_locs b))) cnt s
    = Ret (tt, with_words (write_table pend cnt (take (Z.to_nat (deg - cnt)) (pend_sems s node b)) (x_words (k_ext s))) s).
Proof.
  intros HR HL Hok Hf Hq. revert s a fuel cnt HR HL Hok Hf. induction b as [|e b IH]; intros s a fuel cnt HR HL Hok Hf Hc Hd Hp.
  - assert (with_words (x_words (k_ext s)) s = s) as E by (destruct s as [???????????????? x]; by destruct x).
    destruct fuel; simpl; rewrite decide_True by done; rewrite take_nil; simpl; by rewrite E.
  - pose proof Hok as Hok'. apply Forall_cons in Hok' as [(x & Hx & Hpv) Hok'].
    destruct fuel as [|fuel]; simpl in Hf; [lia|].
    cbn [dag_pend_loop edge_locs fmap list_fmap head default from_option id]. rewrite decide_False by done.
    erewrite run_bind by reflexivity. erewrite run_bind by (by eapply run_xobj).
    assert (pend_sems s node (e :: b) =
      match (if decide (de_next_node x = node) then dn_sem <$> x_dag_nodes (k_ext s) !! de_prev_node x else None) with
      | Some v => v :: pend_sems s node b | None => pend_sems s node b end) as Hsems.
    { unfold pend_sems. simpl. rewrite Hx. done. }
    rewrite Hsems. destruct (Z.eqb_spec (de_next_node x) node) as [E|E].
    + rewrite decide_True by done. destruct (Hpv E) as [y Hy]. rewrite Hy. cbn [fmap option_fmap option_map].
      erewrite run_bind by (by eapply run_xobj). erewrite run_bind by (by eapply run_xobj).
      set (s1 := with_words (<[pend + 4 * cnt := dn_sem y]> (x_words (k_ext s))) s).
      erewrite run_bind; [|unfold set_word_at; rewrite (proj2 (Z.eqb_neq pend 0)) by done; reflexivity].
      change (set_k_ext _ s) with s1. rewrite (wrapu_small 8) by lia.
      replace (Z.to_nat (deg - cnt)) with (S (Z.to_nat (deg - (cnt + 1)))) by lia. cbn [take write_table].
      destruct (Z.leb_spec deg (cnt + 1)).
      * replace (Z.to_nat (deg - (cnt + 1))) with 0%nat by lia. done.
      * erewrite run_bind by (eapply (run_kget_next_mid s1 L q (edge_locs a)); [done|rewrite HL; unfold edge_locs; by rewrite fmap_app]).
        erewrite (IH s1 (a ++ [e])) by (try done; try lia; by rewrite <- (assoc_L (++))). done.
    + rewrite decide_False by done.
      erewrite run_bind by (eapply (run_kget_next_mid s L q (edge_locs a)); [done|rewrite HL; unfold edge_locs; by rewrite fmap_app]).
      by erewrite (IH s (a ++ [e])) by (try done; try lia; by rewrite <- (assoc_L (++))).
Qed.

(** C16 The table of semaphores of a node's thread, for at most 255 predecessors.
    Its entries are the semaphores of the nodes from which edges lead to the
    node, in the order of the edges; at most [in_degree] are written, and nothing
    outside of the table changes. *)
Theorem dag_pend_correct s L dag node es deg pend :
  qrep (k_q s) L → L !! LQueue (QDagEdges dag) = Some (edge_locs es) → dag_edges_ok s node es →
  0 < deg < 256 → pend ≠ 0 →
  ∃ s', (fuel ← get (λ s, size (q_nodes (k_q s)));
         tmp ← kget_next (LQueue (QDagEdges dag));
         dag_pend_loop fuel node deg pend (LQueue (QDagEdges dag)) tmp 0) s = Ret (tt, s') ∧
    (∀ k : nat, (k < Z.to_nat deg)%nat → ∀ v, pend_sems s node es !! k = Some v → x_words (k_ext s') !! (pend + 4 * Z.of_nat k) = Some v) ∧
    (∀ a, (∀ k, 0 ≤ k < deg → a ≠ pend + 4 * k) → x_words (k_ext s') !! a = x_words (k_ext s) !! a) ∧
    s = with_words (x_words (k_ext s)) s'.
Proof.
  intros HR HL Hok Hd Hp. erewrite run_bind by reflexivity.
  erewrite run_bind by (eapply run_kget_first; [exact HR|exact HL]).
  pose proof (ring_size _ L _ _ (qrep_nodes _ _ HR) HL) as Hsz. unfold edge_locs in Hsz. rewrite length_fmap in Hsz.
  eexists. split; [eapply (pend_loop_run _ s L node deg pend _ [] es); [done|done|done|lia|done|lia|lia|done]|].
  rewrite Z.sub_0_r. split_and!.
  - intros k Hk v Hv. simpl. apply (write_table_in pend 0). by rewrite lookup_take_lt.
  - intros a Ha. simpl. apply write_table_out. intros k Hk. rewrite length_take in Hk. apply Ha. lia.
  - destruct s as [???????????????? x]. by destruct x.
Qed.
End dag_spec.

(** ** A graph of four tasks on the board

    Task 2 and task 3 wait for task 1, task 4 waits for both. *)
#[local] Existing Instances board_layout bump.

Definition task_node (i count : Z) : dag_user_node := mk_dag_user_node (0x5000 + 16 * i) count i 0 0 20.

Definition diamond_user : K unit :=
  on_ext (set_x_dag_users {[0x6000 := mk_dag_user 10]});;
  on_ext (set_x_dag_unodes (list_to_map [(0x7001, task_node 1 0); (0x7002, task_node 2 1); (0x7003, task_node 3 1); (0x7004, task_node 4 2)]));;
  set_word_at 0x5020 0 1;; set_word_at 0x5030 0 1;; set_word_at 0x5040 0 2;; set_word_at 0x5040 1 3;;
  dag_add_user 0x6000;;
  for_up 4 1 (λ i, dag_add_user_node 0x6000 (0x7000 + i)).

Definition create_periodic (route stack_size : Z) (p : policy_arg) (data : Z) (hook : option thread_hook) : K Z :=
  create_thread_by_policy al_malloc (adr_thread_exit board) (adr_period_exit board) (λ _ _ _ _ _ _, fail Wild)
    (λ _, cold_thread) route stack_size 0 0 0 ACORAL_SCHED_POLICY_PERIOD p data hook.

Definition diamond_decode : K unit :=
  dag_decode al_malloc (λ _, mret tt) (λ _, mk_ipc 0 0 0 0 0 0) (λ _, 0) (λ _, 0) diamond_user create_periodic 0x90 (mk_thread_hook 0xa0 0xb0).

(** For every periodic thread: the function of its node, the functions of the
    nodes whose semaphores it waits for, and its core. *)
Definition owner_of (s : kstate) (sem : Z) : list Z :=
  (λ nx, dn_route nx.2) <$> filter (λ nx, dn_sem nx.2 = sem) (map_to_list (x_dag_nodes (k_ext s))).
Definition waits (s : kstate) : list (Z * list Z * Z) :=
  omap (λ t, th ← k_tcb s !! t.1; d ← x_dag_tasks (k_ext s) !! t_data th;
    Some (dt_dag_route d, mjoin ((λ k, owner_of s (default 0 (x_words (k_ext s) !! (dt_pend_ipc d + 4 * k)))) <$> seqZ 0 (dt_pend_ipc_cnt d)), t_cpu th))
    (map_to_list (k_tcb s)).

(** The graph becomes four periodic threads on core 0 with the right tables, all
    waiting for their period; none of them is due. *)
Lemma diamond_decoded :
  let s := state_of ((boot;; diamond_decode) cold) in
  (boot;; diamond_decode) cold = Ret (tt, s) ∧ waits s = [(2, [1], 0); (4, [3; 2], 0); (3, [1], 0); (1, [], 0)] ∧
  length (members s (LQueue QPeriod)) = 4%nat.
Proof. cbv zeta. apply conj; [apply run_state; vm_compute; reflexivity|]. apply conj; vm_compute; reflexivity. Qed.

(** ** Witnesses *)

(** A list of fresh nodes with a fresh head. *)
Lemma build_list k L q xs :
  qrep k L → unlisted L q → Forall (unlisted L) xs → NoDup (q :: xs) →
  ∃ k', qrep k' (<[q := xs]> L) ∧ is_queue k' q ∧ ∀ q', is_queue k q' → is_queue k' q'.
Proof.
  intros HR [Hq Hqu]. induction xs as [|x xs IH]; intros Hxs Hnd.
  - exists (k_q (add_loc true q 0 (set_k_q k cold))). split; [by apply add_loc_rep; eauto|]. unfold is_queue. simpl.
    split; [rewrite lookup_insert_eq; eauto|]. intros q' Hq'. rewrite lookup_insert. case_decide; eauto.
  - apply Forall_cons in Hxs as [Hx Hxs]. apply NoDup_cons in Hnd as [Hnq Hnd]. apply NoDup_cons in Hnd as [Hnx Hnd].
    apply not_elem_of_cons in Hnq as [Hne Hnq].
    destruct IH as (k1 & HR1 & Hq1 & Hall); [done|by apply NoDup_cons|].
    destruct (fresh_node_pushed (set_k_q k1 cold) (<[q := xs]> L) q x xs) as (k2 & _ & HR2 & Hlk);
      [done|by apply unlisted_insert|done|apply lookup_insert_eq|done|].
    exists k2. rewrite insert_insert_eq in HR2. split; [done|]. unfold is_queue in *. rewrite Hlk. eauto.
Qed.

Lemma empty_rep : qrep (mk_q ∅ ∅ : qstate loc) ∅.
Proof. split; [apply rep_empty|]. intros q v. simpl. by rewrite lookup_empty. Qed.

Lemma unlisted_empty x : unlisted ∅ x.
Proof. split; [apply lookup_empty|]. intros q xs. by rewrite lookup_empty. Qed.

(** Two nodes, at 16 and 32, with the functions 1 and 2. *)
Definition sample_dag_nodes : gmap Z dag_node :=
  <[16 := mk_dag_node 1 0 0 101 0 20]> {[32 := mk_dag_node 2 0 1 102 0 20]}.
Definition sample_rt (n : Z) : Z := n / 16.

Definition one_block : Allocator kstate :=
  {| al_malloc_size := λ n, mret n; al_malloc := λ _, mret 64; al_free := λ _, mret tt |}.

(** The user node of function 2 has function 1 as its predecessor. *)
Lemma dag_edge_new_correct_witness : ∃ s s',
  @dag_edge_new one_block (λ _, 0) 0x6000 0x7002 32 0 s = Ret (tt, s') ∧ x_dag_edges (k_ext s') !! 64 = Some (mk_dag_edge 16 32).
Proof.
  destruct (build_list _ _ (LQueue (QDagNodes 0x6000)) (node_locs [16; 32]) empty_rep) as (k1 & HR1 & _);
    [apply unlisted_empty|repeat constructor; apply unlisted_empty|by apply (bool_decide_unpack _); vm_compute|].
  destruct (build_list k1 _ (LQueue (QDagEdges 0x6000)) [] HR1) as (k2 & HR2 & Hq2 & _);
    [apply unlisted_insert; [apply unlisted_empty|done|by apply (bool_decide_unpack _); vm_compute]
    |constructor|by apply (bool_decide_unpack _); vm_compute|].
  set (L := <[LQueue (QDagEdges 0x6000) := []]> (<[LQueue (QDagNodes 0x6000) := node_locs [16; 32]]> ∅)) in *.
  set (s := set_k_ext (set_x_words (<[0x5020 := 1]> ∅) (set_x_dag_unodes {[0x7002 := task_node 2 1]}
    (set_x_dag_nodes sample_dag_nodes cold_ext))) (set_k_q k2 cold)).
  destruct (@dag_edge_new_correct one_block (λ _, 0) s s L 0x6000 0x7002 (task_node 2 1) 32 sample_rt [16; 32] [] 0 1 64)
    as (s' & L' & Hrun & _ & _ & _ & He & _).
  - reflexivity.
  - done.
  - exact HR2.
  - unfold L. repeat (apply unlisted_insert; [|done|by apply (bool_decide_unpack _); vm_compute]). apply unlisted_empty.
  - done.
  - unfold L. by rewrite lookup_insert_ne, lookup_insert_eq.
  - unfold L. by rewrite lookup_insert_eq.
  - repeat constructor; eexists; split; reflexivity.
  - reflexivity.
  - reflexivity.
  - exists s, s'. split; [exact Hrun|]. rewrite He. reflexivity.
Defined.

(** Of three edges, two lead to node 48. *)
Lemma dag_pend_correct_witness : ∃ s s',
  (fuel ← get (λ s, size (q_nodes (k_q s))); tmp ← kget_next (LQueue (QDagEdges 0x6000));
   dag_pend_loop fuel 48 2 0x8000 (LQueue (QDagEdges 0x6000)) tmp 0) s = Ret (tt, s') ∧
  x_words (k_ext s') !! 0x8000 = Some 102 ∧ x_words (k_ext s') !! 0x8004 = Some 101.
Proof.
  destruct (build_list _ _ (LQueue (QDagEdges 0x6000)) (edge_locs [64; 80; 96]) empty_rep) as (k1 & HR1 & _);
    [apply unlisted_empty|repeat constructor; apply unlisted_empty|by apply (bool_decide_unpack _); vm_compute|].
  set (s := set_k_ext (set_x_dag_edges (<[64 := mk_dag_edge 32 48]> (<[80 := mk_dag_edge 16 32]> {[96 := mk_dag_edge 16 48]}))
    (set_x_dag_nodes sample_dag_nodes cold_ext)) (set_k_q k1 cold)).
  destruct (dag_pend_correct s _ 0x6000 48 [64; 80; 96] 2 0x8000 HR1) as (s' & Hrun & Htab & _).
  - apply lookup_insert_eq.
  - repeat constructor; eexists; (split; [reflexivity|]); intros E; vm_compute in E; try discriminate; eexists; reflexivity.
  - done.
  - done.
  - exists s, s'. split; [exact Hrun|].
    split; [apply (Htab 0%nat)|apply (Htab 1%nat)]; (reflexivity || vm_compute; lia).
Defined.
