(* ===== verification/Kernel.v ===== *)
(** * The kernel as a transition system

    The calls that threads and interrupts make to the kernel, on either core and
    in any order, are the steps of one system.  A call, or an interrupt with its
    handler, is one step. *)
From S2P Require Import Prelude Interfaces Bitops DList Queues KTypes KState Sched Cpu ResPool Thread Timer Ipc Irq Policy.
From stdpp Require Import list.
#[local] Open Scope Z_scope.

(** ** The system *)
Section system.
Context `{!Allocator kstate, !Layout}.
(** As in [Policy] and [Irq]: hooks, other policies, other interrupts, and the
    two commands of the admission control. *)
Context (call_hook : Z → Z → K unit) (period_thread_exit_adr : Z) (other_time_deal : policy_fun → K unit).
Context (tick_id ipi_id max_id : Z) (other_vectors : Z → Z → K unit) (admis_prio admis_res : Z → K unit).

(** The vector table once the timer and the inter-core commands are attached. *)
Definition kernel_vectors (cpu id : Z) : K unit :=
  if id =? tick_id then
    acoral_ticks_handler true (acoral_policy_time_deal call_hook period_thread_exit_adr other_time_deal)
  else if id =? ipi_id then acoral_ipi_cmd_handler admis_prio admis_res
  else other_vectors cpu id.

(** What a thread can call, and interrupts.  A waiting operation has a second
    part for the thread that runs again. *)
Inductive kcall : Type :=
  | CRdy (thread : Z) | CSuspend (thread : Z) | CSuspendSelf | CChangePrio (thread prio : Z)
  | CDelay (thread time : Z) | CMoveto (thread cpu : Z) | CKill (thread : Z)
  | CMutexInit (ipc : Z) | CMutexDel (ipc : Z) | CMutexTrypend (ipc : Z) | CMutexPend (ipc : Z)
  | CMutexResumed (ipc cur : Z) | CMutexPost (ipc : Z)
  | CSemInit (ipc num : Z) | CSemDel (ipc : Z) | CSemTrypend (ipc : Z) | CSemPend (take : bool) (ipc : Z)
  | CSemResumed (ipc cur : Z) | CSemPost (ipc : Z) | CSemPosts (ipc : Z) | CSemGetnum (ipc : Z)
  | CEnter | CExit | CSched | CIrq (ulICCIAR : Z).

#[global] Instance kcall_eq_dec : EqDecision kcall.
Proof. solve_decision. Defined.

Definition exec (c : kcall) : K unit :=
  match c with
  | CRdy t => acoral_rdy_thread t;; mret tt
  | CSuspend t => acoral_suspend_thread t;; mret tt
  | CSuspendSelf => acoral_suspend_self;; mret tt
  | CChangePrio t p => acoral_thread_change_prio t p
  | CDelay t time => acoral_delay_thread t time;; mret tt
  | CMoveto t cpu => acoral_moveto_thread t cpu;; mret tt
  | CKill t => acoral_kill_thread t
  | CMutexInit i => acoral_mutex_init i;; mret tt
  | CMutexDel i => acoral_mutex_del i;; mret tt
  | CMutexTrypend i => acoral_mutex_trypend i;; mret tt
  | CMutexPend i => acoral_mutex_pend i;; mret tt
  | CMutexResumed i t => acoral_mutex_pend_resume i t;; mret tt
  | CMutexPost i => acoral_mutex_post i;; mret tt
  | CSemInit i n => acoral_sem_init i n;; mret tt
  | CSemDel i => acoral_sem_del i;; mret tt
  | CSemTrypend i => acoral_sem_trypend i;; mret tt
  | CSemPend take i => sem_pend_body take i;; mret tt
  | CSemResumed i t => sem_pend_resume i t;; mret tt
  | CSemPost i => acoral_sem_post i;; mret tt
  | CSemPosts i => acoral_sem_posts i;; mret tt
  | CSemGetnum i => acoral_sem_getnum i;; mret tt
  | CEnter => acoral_enter_critical
  | CExit => acoral_exit_critical
  | CSched => acoral_sched
  | CIrq icciar => hal_irq_entry kernel_vectors max_id icciar
  end.

(** One call on one of the cores, or an interrupt there. *)
Inductive kstep (s : kstate) (cpu : Z) (c : kcall) (s' : kstate) : Prop :=
  | kstep_call : 0 ≤ cpu < CFG_MAX_CPU → exec c (set_k_cpu cpu s) = Ret (tt, s') → kstep s cpu c s'.

(** The nesting of the critical sections of core [me] after a call. *)
Definition nesting_after (me cpu : Z) (c : kcall) (n : Z) : Z :=
  if negb (cpu =? me) then n else match c with CEnter => n + 1 | CExit => n - 1 | _ => n end.

(** The deepest nesting the system is looked at with.  The calls themselves
    nest at most [spare] sections more. *)
Definition spare : Z := 16.

(** One step while core [me] is in a critical section, and stays in it. *)
Inductive section_step (me : Z) : Z * kstate → Z * kstate → Prop :=
  | section_call n s cpu c s' :
      kstep s cpu c s' → 1 ≤ nesting_after me cpu c n → nesting_after me cpu c n + spare < 2 ^ 32 →
      section_step me (n, s) (nesting_after me cpu c n, s').
End system.
