(* ===== verification/Critical.v ===== *)
(** * Critical sections

    What every operation of the kernel does to a critical section that a core is
    in: the thread that runs there, the scheduler lock, the nesting, the interrupt
    mask and the switch flag.  [shifts] is a triple on the nesting; its rules and
    the lemmas about operations are the hints of [shift], which takes a
    translated function apart and counts the sections it enters and leaves. *)
From S2P Require Import Prelude Interfaces Bitops DList Queues KTypes KState Sched SchedSpec Cpu ResPool Thread Timer Ipc Irq Policy Kernel.
From stdpp Require Import list.
#[local] Open Scope Z_scope.

Abbreviation anything := (λ _, True).

(** Core [me] runs [t] inside of [n] nested critical sections. *)
Definition inside (me t n : Z) (s : kstate) : Prop :=
  ∃ c, aget (k_cpus s) me = Some c ∧ c_running c = t ∧ c_critical_nesting c = n ∧
    c_sched_lock c ≠ 0 ∧ c_pmr c = INTR_MASK ∧ c_irq_switch c = 0.

(** The counts of the IPC objects are 16-bit numbers. *)
Definition counts_16 (s : kstate) : Prop := map_Forall (λ _ x, - 2 ^ 15 ≤ i_count x) (k_ipc s).

(** The same, seen while [who] executes and has itself entered [k] more
    sections. *)
Definition section_at (me t n who : Z) (k : nat) (s : kstate) : Prop :=
  k_cpu s = who ∧ counts_16 s ∧ inside me t (if who =? me then n + Z.of_nat k else n) s.

(** From [k] to [k'] sections. *)
Definition shifts (me t n who : Z) {A} (k : nat) (m : K A) (k' : nat) (Q : A → Prop) : Prop :=
  ∀ s, section_at me t n who k s →
    match m s with Ret (a, s') => section_at me t n who k' s' ∧ Q a | Err _ => True end.

(** Code that leaves every critical section as it is, if at most [b] more were
    entered before. *)
Definition neutral {A} (b : nat) (m : K A) : Prop :=
  ∀ me t n who k, 1 ≤ n → n + spare < 2 ^ 32 → (k ≤ b)%nat → shifts me t n who k m k anything.

Section shifts_rules.
Context (me t n who : Z) (Hn : 1 ≤ n) (Hmax : n + spare < 2 ^ 32).
Abbreviation sh := (shifts me t n who).

Lemma sh_ret {A} k (a : A) (Q : A → Prop) : Q a → sh k (mret a) k Q.
Proof. by intros HQ s Hs. Qed.

Lemma sh_fail {A} k e k' (Q : A → Prop) : sh k (fail e) k' Q.
Proof. by intros s Hs. Qed.

Lemma sh_bind {A B} k k1 k2 (m : K A) (f : A → K B) R Q :
  sh k m k1 R → (∀ a, R a → sh k1 (f a) k2 Q) → sh k (m ≫= f) k2 Q.
Proof.
  intros Hm Hf s Hs. specialize (Hm s Hs). unfold mbind, M_bind. destruct (m s) as [[a s']|e]; [|done].
  destruct Hm as [Hs' HR]. by apply (Hf a HR).
Qed.

Lemma sh_when k (b : bool) (m : K unit) : sh k m k anything → sh k (when b m) k anything.
Proof. destruct b; [done|]. intros _. by apply sh_ret. Qed.

Lemma sh_weaken {A} k (m : K A) k' (R Q : A → Prop) : sh k m k' R → (∀ a, R a → Q a) → sh k m k' Q.
Proof. intros Hm HQ s Hs. specialize (Hm s Hs). destruct (m s) as [[a s']|e]; naive_solver. Qed.

Lemma sh_get {A} k (f : kstate → A) : sh k (get f) k anything.
Proof. by intros s Hs. Qed.

Lemma sh_deref {A} k (f : kstate → option A) : sh k (deref f) k anything.
Proof. intros s Hs. unfold deref. by destruct (f s). Qed.

Lemma sh_for_up k m i (body : Z → K unit) : (∀ j, sh k (body j) k anything) → sh k (for_up m i body) k anything.
Proof.
  intros Hb. revert i. induction m as [|m IH]; intros i; cbn [for_up]; [by apply sh_ret|].
  eapply sh_bind; [apply Hb|]. auto.
Qed.

(** A section sees the cores' variables only. *)
Lemma section_at_cpus k s s' :
  k_cpu s' = k_cpu s → k_cpus s' = k_cpus s → k_ipc s' = k_ipc s → section_at me t n who k s → section_at me t n who k s'.
Proof. unfold section_at, inside, counts_16. by intros -> -> ->. Qed.

Lemma sh_modify k (f : kstate → kstate) :
  (∀ s, k_cpu (f s) = k_cpu s ∧ k_cpus (f s) = k_cpus s ∧ k_ipc (f s) = k_ipc s) → sh k (modify f) k anything.
Proof. intros Hf s Hs. split; [|done]. destruct (Hf s) as (? & ? & ?). by eapply section_at_cpus. Qed.

Lemma sh_on_q {A} k (m : M (qstate loc) A) : sh k (on_q m) k anything.
Proof.
  intros s Hs. unfold on_q, zoom. destruct (m _) as [[a q]|e]; [|done]. split; [|done].
  by eapply section_at_cpus; [..|exact Hs].
Qed.

Lemma sh_on_thr k x f : sh k (on_thr x f) k anything.
Proof.
  intros s Hs. unfold on_thr. destruct (k_tcb s !! x); [|done]. split; [|done]. by eapply section_at_cpus; [..|exact Hs].
Qed.
Lemma sh_on_ipc k x f :
  (∀ i, - 2 ^ 15 ≤ i_count i → - 2 ^ 15 ≤ i_count (f i)) → sh k (on_ipc x f) k anything.
Proof.
  intros Hf s (Hw & Hc & Hi). unfold on_ipc. destruct (k_ipc s !! x) eqn:E; [|done]. split; [|done].
  split_and!; [done| |done]. apply map_Forall_insert_2; [|done]. by apply Hf, (Hc x).
Qed.
Lemma sh_count k x : sh k (ipcf i_count x) k (λ c, - 2 ^ 15 ≤ c).
Proof.
  intros s Hs. unfold ipcf, deref. destruct (k_ipc s !! x) eqn:E; [|done]. split; [done|]. by apply (proj1 (proj2 Hs) x).
Qed.
Lemma sh_on_slot k x f : sh k (on_slot x f) k anything.
Proof.
  intros s Hs. unfold on_slot. destruct (aget (k_ipi s) x); [|done]. split; [|done]. by eapply section_at_cpus; [..|exact Hs].
Qed.
Lemma sh_set_res k x v : sh k (set_res x v) k anything.
Proof.
  intros s Hs. unfold set_res. destruct (k_res s !! x); [|done]. split; [|done]. by eapply section_at_cpus; [..|exact Hs].
Qed.
Lemma sh_thread_of k f p : sh k (thread_of f p) k anything.
Proof. destruct p; try apply sh_fail. unfold thread_of. case_decide; [by apply sh_ret|apply sh_fail]. Qed.
Lemma sh_current_cpu k : sh k acoral_current_cpu k (λ c, c = who).
Proof. intros s Hs. split; [done|apply Hs]. Qed.

(** Writing a variable of a core that is not one of the section. *)
Definition aside (f : percpu → percpu) : Prop := ∀ c,
  c_running (f c) = c_running c ∧ c_critical_nesting (f c) = c_critical_nesting c ∧
  c_sched_lock (f c) = c_sched_lock c ∧ c_pmr (f c) = c_pmr c ∧ c_irq_switch (f c) = c_irq_switch c.

Lemma sh_on_cpu k cpu f : aside f → sh k (on_cpu cpu f) k anything.
Proof.
  intros Hf s (Hw & H16 & c & Hc & Hrest). unfold on_cpu. destruct (aget (k_cpus s) cpu) as [x|] eqn:E; [|done].
  split; [|done]. split_and!; [done|done|]. destruct (decide (cpu = me)) as [->|Hm].
  - assert (x = c) as -> by congruence. destruct (Hf c) as (H1 & H2 & H3 & H4 & H5).
    exists (f c). rewrite H1, H2, H3, H4, H5. split; [by eapply aget_aset_eq|done].
  - exists c. simpl. by rewrite aget_aset_ne.
Qed.

(** Writing any variable of another core. *)
Lemma sh_on_other k cpu f : cpu ≠ me → sh k (on_cpu cpu f) k anything.
Proof.
  intros Hm s (Hw & H16 & c & Hc & Hrest). unfold on_cpu. destruct (aget (k_cpus s) cpu) as [x|] eqn:E; [|done].
  split; [|done]. split_and!; [done|done|]. exists c. simpl. by rewrite aget_aset_ne.
Qed.

(** What another core enters or leaves does not count. *)
Lemma sh_recount {A} k k' (m : K A) Q : who ≠ me → sh k m k Q → sh k m k' Q.
Proof.
  intros Hw Hm s Hs. specialize (Hm s Hs). unfold section_at in *. by rewrite (proj2 (Z.eqb_neq _ _) Hw) in *.
Qed.

Lemma sh_at_cpu {A} k (f : percpu → A) cpu : sh k (at_cpu f cpu) k anything.
Proof. apply sh_deref. Qed.

Lemma sh_on_bitmap {A} k cpu (m : M (list Z) A) : sh k (on_bitmap cpu m) k anything.
Proof.
  intros s Hs. pose proof (sh_on_cpu k cpu) as H. unfold on_bitmap.
  destruct (aget (k_cpus s) cpu) as [c|] eqn:E; [|done]. destruct (m _) as [[a b]|e]; [|done].
  specialize (H (set_c_bitmap b) ltac:(done) s Hs). unfold on_cpu in H. rewrite E in H. exact H.
Qed.
End shifts_rules.

Create HintDb shifts discriminated.

(** [shift] takes a computation apart; the lemmas about calls are the hints. *)
Ltac shift_step :=
  match goal with
  | |- shifts _ _ _ _ _ (mret _) _ _ => apply sh_ret
  | |- shifts _ _ _ _ _ (fail _) _ _ => apply sh_fail
  | |- shifts _ _ _ _ _ (when _ _) _ _ => apply sh_when
  | |- shifts _ _ _ _ _ (match ?x with (_, _) => _ end) _ _ => destruct x; cbn [fst snd] in *
  | |- shifts _ _ _ _ _ (if ?b then _ else _) _ _ => let E := fresh "E" in destruct b eqn:E
  | |- shifts _ _ _ _ _ _ _ _ => solve [eauto 4 with shifts nocore | eapply sh_weaken; [solve [eauto 4 with shifts nocore]|done]]
  | |- shifts _ _ _ _ ?k (_ ≫= _) _ _ =>
      first [eapply sh_bind; [solve [eauto 4 with shifts nocore]|intros ? ?; cbn beta in *]
            |apply (sh_bind _ _ _ _ k k _ _ _ anything); [|intros ? _]]
  end.
Ltac shift := repeat (shift_step; cbn beta zeta); try done; try tauto.

Ltac neutrally := intros me t n who k Hn Hmax Hk; shift.

(** Depths. *)
#[export] Hint Extern 1 (_ ≤ _)%nat => lia : shifts.
#[export] Hint Extern 1 (_ < _)%nat => lia : shifts.

Lemma sh_neutral me t n who {A} b (m : K A) k :
  1 ≤ n → n + spare < 2 ^ 32 → neutral b m → (k ≤ b)%nat → shifts me t n who k m k anything.
Proof. intros Hn Hmax Hm Hk. by apply Hm. Qed.

Lemma neutral_le {A} b b' (m : K A) : neutral b m → (b' ≤ b)%nat → neutral b' m.
Proof. intros Hm Hb me t n who k Hn Hmax Hk. apply Hm; [done..|lia]. Qed.

#[export] Hint Resolve sh_get sh_deref sh_on_q sh_on_thr sh_on_slot sh_set_res sh_thread_of sh_current_cpu
  sh_at_cpu sh_on_bitmap sh_neutral : shifts.
#[export] Hint Extern 1 (shifts _ _ _ _ _ (on_cpu _ _) _ _) => apply sh_on_cpu; by intros [] : shifts.
#[export] Hint Extern 1 (shifts _ _ _ _ _ (on_ipc _ _) _ _) =>
  apply sh_on_ipc; first [by intros []|intros ? _; apply (proj1 (wraps_range 16 _ eq_refl))] : shifts.
#[export] Hint Extern 0 (shifts _ _ _ _ _ (ipcf i_count _) _ _) => apply sh_count : shifts.
#[export] Hint Extern 1 (shifts _ _ _ _ _ (thr _ _) _ _) => apply sh_deref : shifts.
#[export] Hint Extern 1 (shifts _ _ _ _ _ (ipcf _ _) _ _) => apply sh_deref : shifts.
#[export] Hint Extern 1 (shifts _ _ _ _ _ (slot_of _ _) _ _) => apply sh_deref : shifts.
#[export] Hint Extern 1 (shifts _ _ _ _ _ (pl _ _ _) _ _) => apply sh_deref : shifts.
#[export] Hint Extern 1 (shifts _ _ _ _ _ (res_id _) _ _) => apply sh_deref : shifts.
#[export] Hint Extern 1 (shifts _ _ _ _ _ (klist_empty _) _ _) => apply sh_on_q : shifts.
#[export] Hint Extern 1 (shifts _ _ _ _ _ (kget_next _) _ _) => apply sh_on_q : shifts.
#[export] Hint Extern 1 (shifts _ _ _ _ _ (kget_value _) _ _) => apply sh_on_q : shifts.
#[export] Hint Extern 1 (shifts _ _ _ _ _ (kset_value _ _) _ _) => apply sh_on_q : shifts.

(** ** The scheduler and the ends of a section *)
Lemma neutral_set_need_sched v : neutral 16 (acoral_set_need_sched v).
Proof. unfold acoral_set_need_sched. neutrally. Qed.
Lemma neutral_cur_thread : neutral 16 acoral_cur_thread.
Proof. unfold acoral_cur_thread. neutrally. Qed.
#[export] Hint Resolve neutral_set_need_sched neutral_cur_thread : shifts.

Lemma neutral_prio_queue_add cpu prio l : neutral 16 (acoral_thread_prio_queue_add cpu prio l).
Proof. unfold acoral_thread_prio_queue_add. neutrally. Qed.
Lemma neutral_prio_queue_del cpu prio l : neutral 16 (acoral_thread_prio_queue_del cpu prio l).
Proof. unfold acoral_thread_prio_queue_del. neutrally. Qed.
#[export] Hint Resolve neutral_prio_queue_add neutral_prio_queue_del : shifts.

Lemma neutral_rdyqueue_add x : neutral 16 (acoral_sched_rdyqueue_add x).
Proof. unfold acoral_sched_rdyqueue_add. neutrally. Qed.
Lemma neutral_rdyqueue_del x : neutral 16 (acoral_sched_rdyqueue_del x).
Proof. unfold acoral_sched_rdyqueue_del. neutrally. Qed.
Lemma neutral_select_thread : neutral 16 acoral_select_thread.
Proof. unfold acoral_select_thread, acoral_thread_get_high_prio. neutrally. Qed.
#[export] Hint Resolve neutral_rdyqueue_add neutral_rdyqueue_del neutral_select_thread : shifts.

Section ends.
Context (me t n who : Z) (Hn : 1 ≤ n) (Hmax : n + spare < 2 ^ 32).
Abbreviation sh := (shifts me t n who).

(** The other core may switch. *)
Lemma sh_set_running k x : who ≠ me → (k ≤ 16)%nat → sh k (acoral_set_running_thread x) k anything.
Proof. intros Hw Hk. unfold acoral_set_running_thread. shift. subst. by apply sh_on_other. Qed.
#[local] Hint Resolve sh_set_running : shifts.

Lemma sh_switch_context k : who ≠ me → (k ≤ 16)%nat → sh k acoral_switch_context k anything.
Proof. intros Hw Hk. unfold acoral_switch_context. shift. Qed.

(** This one does not, as its scheduler lock is taken. *)
Lemma sh_sched k : (k ≤ 16)%nat → sh k acoral_sched k anything.
Proof.
  intros Hk. destruct (decide (who = me)) as [->|Hw].
  - intros s (Hw & H16 & c & Hc & Hr & Hne & Hl & Hrest). rewrite <- Hw in Hc. rewrite (acoral_sched_run s c Hc).
    rewrite bool_decide_eq_false_2 by tauto. split; [|done]. split_and!; [done|done|]. rewrite Hw in Hc. by exists c.
  - pose proof (sh_switch_context k Hw Hk). unfold acoral_sched, HAL_COMM_SWITCH. shift.
Qed.

Lemma sh_enter k : (k < 16)%nat → sh k acoral_enter_critical (S k) anything.
Proof.
  intros Hk. destruct (decide (who = me)) as [->|Hw].
  - intros s (Hw & H16 & c & Hc & Hr & Hne & Hl & Hp & Hi). rewrite Z.eqb_refl in Hne. rewrite <- Hw in Hc.
    rewrite (enter_critical_run s c Hc). split; [|done]. split_and!; [done|done|]. rewrite Hw in *. exists (entered c).
    split; [by eapply aget_aset_eq|]. simpl. rewrite (proj2 (Z.eqb_neq _ _) Hl), Z.eqb_refl. split_and!; try done.
    rewrite wrapu_small by (unfold spare in Hmax; lia). lia.
  - apply sh_recount; [done|]. unfold acoral_enter_critical, hal_intr_disable_save. shift; subst; by (apply sh_on_other).
Qed.

Lemma sh_exit k : (k < 16)%nat → sh (S k) acoral_exit_critical k anything.
Proof.
  intros Hk. destruct (decide (who = me)) as [->|Hw].
  - intros s (Hw & H16 & c & Hc & Hr & Hne & Hl & Hrest). rewrite Z.eqb_refl in Hne. rewrite <- Hw in Hc.
    rewrite (exit_critical_nested s c Hc) by lia. split; [|done]. split_and!; [done|done|]. rewrite Hw in *.
    eexists. split; [by eapply aget_aset_eq|]. rewrite Z.eqb_refl. destruct Hrest. split_and!; try done. simpl. lia.
  - apply sh_recount; [done|]. pose proof (sh_sched (S k) ltac:(lia)). unfold acoral_exit_critical, acoral_sched_unlock, hal_intr_restore.
    shift; subst; by apply sh_on_other.
Qed.
End ends.

#[export] Hint Resolve sh_sched sh_enter sh_exit : shifts.

(** ** The operations *)
Section operations.
Context `{!Allocator kstate, !Layout}.

Lemma neutral_ipi_cmd_send cpu cmd id data : neutral 16 (acoral_ipi_cmd_send cpu cmd id data).
Proof. unfold acoral_ipi_cmd_send, acoral_ipi_send. neutrally. Qed.
Lemma neutral_get_res_by_id id : neutral 16 (acoral_get_res_by_id acoral_pools id).
Proof. unfold acoral_get_res_by_id. neutrally. Qed.
Lemma neutral_ipc_spin_lock i : neutral 16 (ipc_spin_lock i).
Proof. unfold ipc_spin_lock. neutrally. Qed.
Lemma neutral_ipc_spin_unlock i : neutral 16 (ipc_spin_unlock i).
Proof. unfold ipc_spin_unlock. neutrally. Qed.
Lemma neutral_move_spin_lock x : neutral 16 (move_spin_lock x).
Proof. unfold move_spin_lock. neutrally. Qed.
Lemma neutral_move_spin_unlock x : neutral 16 (move_spin_unlock x).
Proof. unfold move_spin_unlock. neutrally. Qed.
Lemma neutral_high_thread i : neutral 16 (acoral_ipc_high_thread i).
Proof. unfold acoral_ipc_high_thread. neutrally. Qed.
Lemma neutral_wait_queue_add i x : neutral 16 (acoral_ipc_wait_queue_add i x).
Proof. unfold acoral_ipc_wait_queue_add. neutrally. Qed.
Lemma neutral_wait_queue_del i x : neutral 16 (acoral_ipc_wait_queue_del i x).
Proof. unfold acoral_ipc_wait_queue_del. neutrally. Qed.
#[local] Hint Resolve neutral_ipi_cmd_send neutral_get_res_by_id neutral_ipc_spin_lock neutral_ipc_spin_unlock
  neutral_move_spin_lock neutral_move_spin_unlock neutral_high_thread neutral_wait_queue_add neutral_wait_queue_del : shifts.

Lemma neutral_rdy_thread x : neutral 15 (acoral_rdy_thread x).
Proof. unfold acoral_rdy_thread. neutrally. Qed.
Lemma neutral_suspend_thread x : neutral 15 (acoral_suspend_thread x).
Proof. unfold acoral_suspend_thread. neutrally. Qed.
Lemma neutral_change_prio x p : neutral 15 (acoral_thread_change_prio x p).
Proof. unfold acoral_thread_change_prio. neutrally. Qed.
#[local] Hint Resolve neutral_rdy_thread neutral_suspend_thread neutral_change_prio : shifts.

Lemma neutral_suspend_self : neutral 15 acoral_suspend_self.
Proof. unfold acoral_suspend_self. neutrally. Qed.
Lemma neutral_delay_thread x time : neutral 14 (acoral_delay_thread x time).
Proof. unfold acoral_delay_thread, acoral_time_delay_queue_add. neutrally. Qed.
Lemma neutral_moveto x cpu : neutral 14 (acoral_moveto_thread x cpu).
Proof. unfold acoral_moveto_thread. neutrally. Qed.
Lemma neutral_movein x : neutral 15 (acoral_movein_thread x).
Proof. unfold acoral_movein_thread. neutrally. Qed.
Lemma neutral_prerelease x : neutral 15 (acoral_prerelease_thread x).
Proof. unfold acoral_prerelease_thread. neutrally. Qed.
#[local] Hint Resolve neutral_suspend_self neutral_delay_thread neutral_moveto neutral_movein neutral_prerelease : shifts.

Lemma neutral_kill x : neutral 14 (acoral_kill_thread x).
Proof. unfold acoral_kill_thread. neutrally. Qed.

Lemma neutral_intr_nesting : neutral 16 acoral_intr_nesting.
Proof. unfold acoral_intr_nesting. neutrally. Qed.

(** The value a waiting operation is left with. *)
Lemma sh_leave me t n who k i e : 1 ≤ n → n + spare < 2 ^ 32 → (k < 16)%nat →
  shifts me t n who (S k) (leave i e) k anything.
Proof. intros Hn Hmax Hk. unfold leave. shift. Qed.
Lemma neutral_park {A} cur b (m : K A) : neutral b m → (b ≤ 16)%nat → neutral b (park cur m).
Proof. intros Hm Hb. unfold park. neutrally. Qed.
Lemma neutral_ipc_init i : neutral 16 (acoral_ipc_init i).
Proof. unfold acoral_ipc_init. neutrally. Qed.
#[local] Hint Resolve neutral_kill neutral_intr_nesting sh_leave neutral_park neutral_ipc_init : shifts.
Lemma sh_mutex_take me t n who k i x : 1 ≤ n → n + spare < 2 ^ 32 → (k < 16)%nat →
  shifts me t n who (S k) (mutex_take i x) k anything.
Proof. intros Hn Hmax Hk. unfold mutex_take. shift. Qed.
#[local] Hint Resolve sh_mutex_take : shifts.

Lemma neutral_mutex_init i : neutral 13 (acoral_mutex_init i).
Proof. unfold acoral_mutex_init, mutex_setup. neutrally. Qed.
Lemma neutral_mutex_del i : neutral 13 (acoral_mutex_del i).
Proof. unfold acoral_mutex_del, acoral_ipc_wait_queue_empty. neutrally. Qed.
Lemma neutral_mutex_trypend i : neutral 13 (acoral_mutex_trypend i).
Proof. unfold acoral_mutex_trypend. neutrally. Qed.
Lemma neutral_mutex_resume i x : neutral 13 (acoral_mutex_pend_resume i x).
Proof. unfold acoral_mutex_pend_resume. neutrally. Qed.
Lemma neutral_mutex_post i : neutral 13 (acoral_mutex_post i).
Proof. unfold acoral_mutex_post. neutrally. Qed.
#[local] Hint Resolve neutral_mutex_init neutral_mutex_del neutral_mutex_trypend neutral_mutex_resume neutral_mutex_post : shifts.
Lemma neutral_mutex_pend i : neutral 13 (acoral_mutex_pend i).
Proof. unfold acoral_mutex_pend. neutrally. Qed.

Lemma neutral_sem_init i m : neutral 13 (acoral_sem_init i m).
Proof. unfold acoral_sem_init, sem_setup. neutrally. Qed.
Lemma neutral_sem_del i : neutral 13 (acoral_sem_del i).
Proof. unfold acoral_sem_del, acoral_ipc_wait_queue_empty. neutrally. Qed.
Lemma neutral_sem_resume i x : neutral 13 (sem_pend_resume i x).
Proof. unfold sem_pend_resume. neutrally. Qed.
#[local] Hint Resolve neutral_mutex_pend neutral_sem_init neutral_sem_del neutral_sem_resume : shifts.
Lemma neutral_sem_trypend i : neutral 13 (acoral_sem_trypend i).
Proof. unfold acoral_sem_trypend. neutrally. Qed.
Lemma neutral_sem_body take i : neutral 13 (sem_pend_body take i).
Proof. unfold sem_pend_body. neutrally. Qed.
Lemma sh_posts_loop me t n who k fuel i p : 1 ≤ n → n + spare < 2 ^ 32 → (k < 15)%nat →
  shifts me t n who (S k) (posts_loop fuel i p) k anything.
Proof. intros Hn Hmax Hk. revert p. induction fuel as [|fuel IH]; intros p; cbn [posts_loop]; shift. Qed.
Lemma neutral_sem_post i : neutral 13 (acoral_sem_post i).
Proof. unfold acoral_sem_post. neutrally. lia. Qed.
Lemma neutral_sem_getnum i : neutral 13 (acoral_sem_getnum i).
Proof. unfold acoral_sem_getnum. neutrally. Qed.
#[local] Hint Resolve neutral_sem_trypend neutral_sem_body sh_posts_loop neutral_sem_post neutral_sem_getnum : shifts.
Lemma neutral_sem_posts i : neutral 13 (acoral_sem_posts i).
Proof. unfold acoral_sem_posts. neutrally. lia. Qed.
End operations.

#[export] Hint Resolve neutral_get_res_by_id neutral_rdy_thread neutral_suspend_thread neutral_change_prio neutral_suspend_self
  neutral_delay_thread neutral_moveto neutral_movein neutral_kill neutral_mutex_init neutral_mutex_del neutral_mutex_trypend
  neutral_mutex_resume neutral_mutex_post neutral_mutex_pend neutral_sem_init neutral_sem_del neutral_sem_resume
  neutral_sem_trypend neutral_sem_body neutral_sem_post neutral_sem_getnum neutral_sem_posts : shifts.

(** ** Interrupts *)
Section interrupts.
Context `{!Allocator kstate, !Layout}.
Context (call_hook : Z → Z → K unit) (period_thread_exit_adr : Z) (other_time_deal : policy_fun → K unit).
Context (tick_id ipi_id max_id : Z) (other_vectors : Z → Z → K unit) (admis_prio admis_res : Z → K unit).
(** The code that is not modelled leaves critical sections as it finds them. *)
Context (hook_neutral : ∀ h t, neutral 10 (call_hook h t)) (time_neutral : ∀ f, neutral 10 (other_time_deal f)).
Context (vectors_neutral : ∀ cpu id, neutral 10 (other_vectors cpu id)).
Context (prio_neutral : ∀ d, neutral 10 (admis_prio d)) (res_neutral : ∀ d, neutral 10 (admis_res d)).
#[local] Hint Resolve hook_neutral time_neutral vectors_neutral prio_neutral res_neutral : shifts.

Lemma neutral_delay_loop fuel hd p : neutral 12 (delay_loop fuel hd p).
Proof. revert p. induction fuel as [|fuel IH]; intros p; cbn [delay_loop]; neutrally. Qed.
#[local] Hint Resolve neutral_delay_loop : shifts.
Lemma neutral_time_delay_deal : neutral 12 time_delay_deal.
Proof. unfold time_delay_deal. neutrally. Qed.

Lemma neutral_stack_init stk route e args : neutral 16 (hal_stack_init stk route e args).
Proof. unfold hal_stack_init. neutrally. Qed.
Lemma neutral_reload x : neutral 12 (period_thread_reload x).
Proof. unfold period_thread_reload, acoral_period_time_queue_add. neutrally. Qed.
#[local] Hint Resolve neutral_time_delay_deal neutral_stack_init neutral_reload : shifts.
Lemma neutral_restart x pd : neutral 10 (period_restart call_hook period_thread_exit_adr x pd).
Proof. unfold period_restart. neutrally. Qed.
#[local] Hint Resolve neutral_restart : shifts.
Lemma neutral_period_loop fuel p : neutral 10 (period_loop call_hook period_thread_exit_adr fuel p).
Proof.
  revert p. induction fuel as [|fuel IH]; intros p; cbn [period_loop]; unfold acoral_period_queue_del; neutrally.
Qed.
#[local] Hint Resolve neutral_period_loop : shifts.
Lemma neutral_period_deal : neutral 10 (period_time_deal call_hook period_thread_exit_adr).
Proof. unfold period_time_deal. neutrally. Qed.
#[local] Hint Resolve neutral_period_deal : shifts.

Lemma neutral_time_deal f : neutral 10 (call_time_deal call_hook period_thread_exit_adr other_time_deal f).
Proof. destruct f; cbn [call_time_deal]; neutrally. Qed.
#[local] Hint Resolve neutral_time_deal : shifts.
Lemma neutral_policy_loop fuel p :
  neutral 10 (policy_time_loop call_hook period_thread_exit_adr other_time_deal fuel p).
Proof.
  revert p. induction fuel as [|fuel IH]; intros p; cbn [policy_time_loop]; neutrally.
  all: destruct p; (apply sh_ret || apply sh_fail); done.
Qed.
#[local] Hint Resolve neutral_policy_loop : shifts.
Lemma neutral_policy_time : neutral 10 (acoral_policy_time_deal call_hook period_thread_exit_adr other_time_deal).
Proof. unfold acoral_policy_time_deal. neutrally. Qed.
#[local] Hint Resolve neutral_policy_time : shifts.

Lemma neutral_ticks_handler b m : neutral 10 m → neutral 10 (acoral_ticks_handler b m).
Proof. intros Hm. unfold acoral_ticks_handler. neutrally. Qed.
Lemma neutral_ipi_dispatch cmd id data : neutral 10 (ipi_dispatch admis_prio admis_res cmd id data).
Proof.
  unfold ipi_dispatch, acoral_kill_thread_by_id, acoral_rdy_thread_by_id, acoral_suspend_thread_by_id,
    acoral_thread_change_prio_by_id, acoral_moveto_thread_by_id, acoral_movein_thread_by_id. neutrally.
Qed.
#[local] Hint Resolve neutral_ticks_handler neutral_ipi_dispatch : shifts.
Lemma neutral_ipi_handler : neutral 10 (acoral_ipi_cmd_handler admis_prio admis_res).
Proof. unfold acoral_ipi_cmd_handler. neutrally. Qed.
#[local] Hint Resolve neutral_ipi_handler : shifts.

Abbreviation vectors :=
  (kernel_vectors call_hook period_thread_exit_adr other_time_deal tick_id ipi_id other_vectors admis_prio admis_res).

Lemma neutral_vectors cpu id : neutral 10 (vectors cpu id).
Proof. unfold kernel_vectors. neutrally. Qed.
#[local] Hint Resolve neutral_vectors : shifts.

(** The end of an interrupt: with the scheduler lock taken it does not ask for a
    switch, and the flag that was not set stays so. *)
Lemma neutral_intr_exit : neutral 10 acoral_intr_exit.
Proof.
  intros me t n who k Hn Hmax Hk. destruct (decide (who = me)) as [->|Hw].
  - intros s (Hw & H16 & c & Hc & Hr & Hne & Hl & Hrest). rewrite <- Hw in Hc. rewrite (intr_exit_run s c Hc).
    unfold may_switch. rewrite (proj2 (Z.eqb_neq _ _) Hl), andb_false_r. split; [|done].
    rewrite Hw in Hc. split_and!; [done|done|]. by exists c.
  - unfold acoral_intr_exit. shift; subst; by apply sh_on_other.
Qed.
#[local] Hint Resolve neutral_intr_exit : shifts.

Lemma neutral_irq icciar : neutral 10 (hal_irq_entry vectors max_id icciar).
Proof.
  intros me t n who k Hn Hmax Hk.
  assert (shifts me t n who k (acoral_intr_entry vectors max_id icciar) k anything) as Hentry.
  { unfold acoral_intr_entry, acoral_intr_handler, acoral_intr_nesting_inc, acoral_intr_nesting_dec. shift. }
  destruct (decide (who = me)) as [->|Hw].
  - unfold hal_irq_entry. eapply sh_bind; [exact Hentry|intros _ _]. intros s (Hw & H16 & c & Hc & Hrest).
    rewrite <- Hw in Hc. kstep. erewrite run_bind by (by apply run_at_cpu).
    rewrite (proj2 (Z.eqb_eq (c_irq_switch c) 0)) by apply Hrest. split; [|done].
    rewrite Hw in Hc. split_and!; [done|done|]. by exists c.
  - pose proof (sh_switch_context me t n who Hn Hmax k Hw ltac:(lia)). unfold hal_irq_entry. shift.
Qed.
#[local] Hint Resolve neutral_irq : shifts.

(** ** The whole system *)
Abbreviation kexec := (exec call_hook period_thread_exit_adr other_time_deal tick_id ipi_id max_id other_vectors admis_prio admis_res).
Abbreviation ksection :=
  (section_step call_hook period_thread_exit_adr other_time_deal tick_id ipi_id max_id other_vectors admis_prio admis_res).

Lemma exec_neutral c : c ≠ CEnter → c ≠ CExit → neutral 10 (kexec c).
Proof. intros H1 H2. destruct c; cbn [exec]; try done; neutrally. Qed.

Lemma nesting_after_other me cpu c n : cpu ≠ me → nesting_after me cpu c n = n.
Proof. intros Hne. unfold nesting_after. by rewrite (proj2 (Z.eqb_neq _ _) Hne). Qed.
Lemma nesting_after_self me c n :
  (c = CEnter ∧ nesting_after me me c n = n + 1) ∨ (c = CExit ∧ nesting_after me me c n = n - 1) ∨
  (c ≠ CEnter ∧ c ≠ CExit ∧ nesting_after me me c n = n).
Proof. unfold nesting_after. rewrite Z.eqb_refl. destruct c; auto. Qed.

Lemma section_step_inside me t n s n' s' :
  1 ≤ n → counts_16 s ∧ inside me t n s → ksection me (n, s) (n', s') → counts_16 s' ∧ inside me t n' s'.
Proof.
  intros Hn [H16 Hin] Hstep. inversion Hstep as [? ? cpu c ? [Hcpu Hrun] Hlow Hhigh]; subst.
  assert (∀ m k k', section_at me t m cpu k (set_k_cpu cpu s) → shifts me t m cpu k (kexec c) k' anything →
    counts_16 s' ∧ inside me t (if cpu =? me then m + Z.of_nat k' else m) s') as Hlift.
  { intros m k k' Hat Hsh. specialize (Hsh _ Hat). rewrite Hrun in Hsh. by destruct Hsh as [(_ & ? & ?) _]. }
  destruct (decide (cpu = me)) as [->|Hne].
  - assert (∀ m k, m + Z.of_nat k = n → section_at me t m me k (set_k_cpu me s)) as Hat
      by (intros m k <-; split_and!; [done|done|by rewrite Z.eqb_refl]).
    rewrite Z.eqb_refl in Hlift. revert Hlow Hhigh. destruct (nesting_after_self me c n) as [[-> ->]|[[-> ->]|(He & Hx & ->)]].
    + intros _ Hhigh. apply (Hlift n 0%nat 1%nat); [apply Hat; lia|]. apply sh_enter; lia.
    + intros Hlow Hhigh. specialize (Hlift (n - 1) 1%nat 0%nat). rewrite Z.add_0_r in Hlift.
      apply Hlift; [apply Hat; lia|]. apply sh_exit; lia.
    + intros _ Hhigh. specialize (Hlift n 0%nat 0%nat). rewrite Z.add_0_r in Hlift.
      apply Hlift; [apply Hat; lia|]. by apply exec_neutral; [| | | |lia].
  - assert (∀ k, section_at me t n cpu k (set_k_cpu cpu s)) as Hat
      by (intros k; split_and!; [done|done|by rewrite (proj2 (Z.eqb_neq _ _) Hne)]).
    rewrite (proj2 (Z.eqb_neq _ _) Hne) in Hlift. rewrite nesting_after_other in * by done.
    destruct (decide (c = CEnter)) as [->|He]; [|destruct (decide (c = CExit)) as [->|Hx]].
    + apply (Hlift n 0%nat 1%nat); [done|]. apply sh_enter; lia.
    + apply (Hlift n 1%nat 0%nat); [done|]. apply sh_exit; lia.
    + apply (Hlift n 0%nat 0%nat); [done|]. by apply exec_neutral; [| | | |lia].
Qed.

Lemma section_steps_inside me t x y :
  rtc (ksection me) x y → 1 ≤ x.1 → counts_16 x.2 → inside me t x.1 x.2 → inside me t y.1 y.2.
Proof.
  induction 1 as [|x z y Hstep _ IH]; intros Hx H16 Hin; [done|].
  destruct x as [n s], z as [n' s']. destruct (section_step_inside me t n s n' s' Hx (conj H16 Hin) Hstep) as [H16' Hin'].
  apply IH; try done. by inversion Hstep.
Qed.

(** C3 Critical sections exclude the scheduler.  A thread that is in no critical
    section, on a core whose interrupts have not switched context yet
    ([hal_irq_switch] is 0), enters one.  From then on it stays the running
    thread of its core, with the scheduler locked and the interrupt mask set,
    whichever of the calls [kcall] it makes - the scheduler, suspending or
    killing itself, waiting for a mutex or a semaphore included -, however deep
    it nests further sections (up to 2^32 less [spare]), whichever of these calls
    the other core makes and whatever interrupts either core serves, and the
    nesting is the number of sections it is in.  Only at the exit of the
    outermost section are the mask and the lock opened and a wanted switch made.
    Calls and interrupts are taken as a whole; hooks, handlers and policies that
    are not modelled leave sections as they find them, and the counts of the IPC
    objects are 16-bit numbers. *)
Theorem critical_section_excludes s c :
  counts_16 s → aget (k_cpus s) (k_cpu s) = Some c → c_critical_nesting c = 0 → c_irq_switch c = 0 →
  ∃ s1, acoral_enter_critical s = Ret (tt, s1) ∧ inside (k_cpu s) (c_running c) 1 s1 ∧
    ∀ n s2, rtc (ksection (k_cpu s)) (1, s1) (n, s2) →
      inside (k_cpu s) (c_running c) n s2 ∧
      (n = 1 → ∃ c2, let s3 := set_k_cpus (aset (k_cpu s) (left_critical c2) (k_cpus s2)) (set_k_cpu (k_cpu s) s2) in
        aget (k_cpus s2) (k_cpu s) = Some c2 ∧
        acoral_exit_critical (set_k_cpu (k_cpu s) s2) =
          if bool_decide (c_need_sched c2 ≠ 0 ∧ c_intr_nesting c2 = 0 ∧ k_sched_enable s2 ≠ 0)
          then acoral_switch_context s3 else Ret (tt, s3)).
Proof.
  intros H16 Hc Hn Hi. exists (set_k_cpus (aset (k_cpu s) (entered c) (k_cpus s)) s).
  set (s1 := set_k_cpus _ s).
  assert (inside (k_cpu s) (c_running c) 1 s1) as Hin.
  { exists (entered c). split; [by eapply aget_aset_eq|]. simpl. rewrite Hn. split_and!; try done.
    by destruct (Z.eqb_spec (c_sched_lock c) 0). }
  split_and!; [by apply enter_critical_run|done|]. intros n s2 Hsteps.
  pose proof (section_steps_inside _ (c_running c) _ _ Hsteps ltac:(done) H16 Hin) as Hin2. split; [done|].
  intros ->. destruct Hin2 as (c2 & Hc2 & _ & Hn2 & _). exists c2. split; [done|].
  rewrite (exit_critical_last (set_k_cpu (k_cpu s) s2) c2 Hc2) by auto.
  rewrite (acoral_sched_run _ (left_critical c2)) by (by eapply aget_aset_eq).
  cbn [c_need_sched c_intr_nesting c_sched_lock left_critical]. repeat case_bool_decide; tauto.
Qed.
End interrupts.

(** ** A witness: a thread of core 1 wakes a more urgent one inside of a section *)
Definition busy_core : percpu := mk_percpu 0 0 0 0 4096 4096 1 [0x20; 0; 0] 0 INTR_UNMASK.
Definition other_core : percpu := mk_percpu 0 0 0 0 0 0 0 [0; 0; 0] 0 INTR_UNMASK.

Definition two_threads : kstate :=
  mk_kstate 1 [other_core; busy_core]
    (mk_q (<[LQueue (QReady 1 5) := mk_list (LThread 4096 ready) (LThread 4096 ready) 0 0]>
             (<[LThread 4096 ready := mk_list (LQueue (QReady 1 5)) (LQueue (QReady 1 5)) 0 0]>
             (<[LQueue (QReady 1 3) := mk_list (LQueue (QReady 1 3)) (LQueue (QReady 1 3)) 0 0]>
             (<[LThread 8192 ready := mk_list (LThread 8192 ready) (LThread 8192 ready) 0 0]> ∅))))
          (<[LQueue (QReady 1 5) := 0]> (<[LQueue (QReady 1 3) := 0]> ∅)))
    (<[4096 := mk_thread 0 0 0 0 5 5 1 0 21 0 0 0 0 0 0 0 0 0 0]>
       (<[8192 := mk_thread 0 0 0 0 2 3 1 0 21 0 0 0 0 0 0 0 0 0 0]> ∅)) ∅
    (<[8192 := 0]> ∅) [] 0 ∅ [] [] 1 0 0 [] ∅ no_ext.

#[local] Instance no_layout : Layout := {| acoral_pools := 65536; acoral_thread_pool_ctrl := 8192; acoral_ipc_pool_ctrl := 12288 |}.
#[local] Instance no_alloc : Allocator kstate := no_memory.

Abbreviation quiet f := (f (λ _ _, mret tt) 0 (λ _, mret tt) 29 0 96 (λ _ _, mret tt) (λ _, mret tt) (λ _, mret tt)).

(** The thread wakes the other one and calls the scheduler, an interrupt comes in
    a nested section, core 0 runs through a section of its own: thread 4096 runs
    on.  The exit switches to thread 8192. *)
Definition section_calls : list (Z * kcall) :=
  [(1, CRdy 8192); (1, CSched); (1, CEnter); (0, CEnter); (1, CIrq 0x3FF); (0, CExit); (1, CExit)].

Fixpoint run_calls (cs : list (Z * kcall)) (s : kstate) : option kstate :=
  match cs with
  | [] => Some s
  | (cpu, c) :: cs => match quiet exec c (set_k_cpu cpu s) with Ret (_, s) => run_calls cs s | Err _ => None end
  end.

Lemma run_calls_steps me n cs s s' :
  run_calls cs s = Some s' →
  Forall (λ m, 1 ≤ m ∧ m + spare < 2 ^ 32) (imap (λ i _, foldl (λ m x, nesting_after me x.1 x.2 m) n (take (S i) cs)) cs) →
  Forall (λ x, 0 ≤ x.1 < CFG_MAX_CPU) cs →
  rtc (quiet section_step me) (n, s) (foldl (λ m x, nesting_after me x.1 x.2 m) n cs, s').
Proof.
  revert n s. induction cs as [|[cpu c] cs IH]; intros n s Hrun Hn Hcpu; simpl in Hrun.
  - injection Hrun as ->. apply rtc_refl.
  - destruct (exec _ _ _ _ _ _ _ _ _ c _) as [[[] s1]|] eqn:E; [|done].
    rewrite Forall_cons in Hcpu. rewrite imap_cons, Forall_cons in Hn. simpl in Hn. destruct Hn as [[H1 H2] Hn].
    eapply rtc_l; [apply (section_call _ _ _ _ _ _ _ _ _ me n s cpu c s1); [split; [apply Hcpu|exact E]|exact H1|exact H2]|].
    apply (IH _ s1); [done| |apply Hcpu]. exact Hn.
Qed.

Lemma critical_section_excludes_witness :
  ∃ s1 s2 s3 c3, acoral_enter_critical two_threads = Ret (tt, s1) ∧ run_calls section_calls s1 = Some s2 ∧
    inside 1 4096 1 s2 ∧ acoral_exit_critical (set_k_cpu 1 s2) = Ret (tt, s3) ∧
    aget (k_cpus s3) 1 = Some c3 ∧ c_running c3 = 8192.
Proof.
  pose (s1 := match acoral_enter_critical two_threads with Ret (_, s) => s | Err _ => two_threads end).
  pose (s2 := default s1 (run_calls section_calls s1)).
  pose (s3 := match acoral_exit_critical (set_k_cpu 1 s2) with Ret (_, s) => s | Err _ => s2 end).
  assert (acoral_enter_critical two_threads = Ret (tt, s1)) as H1 by (vm_compute; reflexivity).
  assert (run_calls section_calls s1 = Some s2) as H2 by (vm_compute; reflexivity).
  assert (acoral_exit_critical (set_k_cpu 1 s2) = Ret (tt, s3)) as H3 by (vm_compute; reflexivity).
  assert (∃ c3, aget (k_cpus s3) 1 = Some c3 ∧ c_running c3 = 8192) as [c3 [Hc3 Hr3]].
  { eexists. split; vm_compute; reflexivity. }
  exists s1, s2, s3, c3. split; [exact H1|]. split; [exact H2|]. split; [|split; [exact H3|split; [exact Hc3|exact Hr3]]].
  destruct (critical_section_excludes (λ _ _, mret tt) 0 (λ _, mret tt) 29 0 96 (λ _ _, mret tt) (λ _, mret tt) (λ _, mret tt))
    with (s := two_threads) (c := busy_core) as (s1' & H1' & _ & Hall).
  1-5: intros; apply neutral_le with (b := 16%nat); [intros ? ? ? ? ? ? ? ?; by apply sh_ret|lia].
  1: by intros ? ?.
  1-3: reflexivity.
  rewrite H1 in H1'. injection H1' as <-. apply Hall.
  apply (run_calls_steps 1 1 section_calls s1 s2 H2).
  - unfold section_calls, spare. cbn. repeat apply Forall_cons_2; try apply Forall_nil_2; lia.
  - unfold section_calls, CFG_MAX_CPU. repeat apply Forall_cons_2; try apply Forall_nil_2; cbn; lia.
Defined.
