(* ===== verification/Ringbuffer.v ===== *)
(** * kernel/src/ringbuffer.c: the byte ring buffer

    A buffer of [2^k] bytes with head and tail indices, [ring_mask = 2^k - 1];
    one slot is kept free, and writing to a full buffer overwrites the oldest
    byte.  The specification is a bounded queue: [contents] reads the stored
    bytes, oldest first. *)
From S2P Require Import Prelude.
From stdpp Require Import list.
#[local] Open Scope Z_scope.

(** [struct _cat_ringbuffer_t]; [rb_buffer] is the memory at [p_buffer]. *)
Record ringbuffer : Type := mk_rb {
  rb_buffer : list Z;
  ring_mask : Z;
  tail_index : Z;
  head_index : Z;
}.

Definition CAT_EOK : Z := 0.
Definition CAT_ERROR : Z := -1.

Definition IS_POWER_OF_TWO (num : Z) : bool := Z.land num (u32 (num - 1)) =? 0.

(** [RINGBUFFER_INDEX_MOVE_FOWARD] *)
Definition move_forward (mask i : Z) : Z := Z.land (u32 (i + 1)) mask.

Definition set_tail (i : Z) (rb : ringbuffer) : ringbuffer :=
  mk_rb (rb_buffer rb) (ring_mask rb) i (head_index rb).

Definition set_head (i : Z) (rb : ringbuffer) : ringbuffer :=
  mk_rb (rb_buffer rb) (ring_mask rb) (tail_index rb) i.

Definition set_buffer (b : list Z) (rb : ringbuffer) : ringbuffer :=
  mk_rb b (ring_mask rb) (tail_index rb) (head_index rb).

Definition rb_lens : lens ringbuffer (list Z) := Lens rb_buffer set_buffer.

(** The assertions spin forever when they fail; [buf] is [None] for [NULL]. *)
Definition cat_ringbuffer_init (buf : option (list Z)) (buffer_size : Z) : M ringbuffer unit :=
  match buf with
  | None => fail Hang
  | Some b =>
      if IS_POWER_OF_TWO buffer_size then
        modify (λ _, mk_rb b (u32 (buffer_size - 1)) 0 0)
      else fail Hang
  end.

Definition cat_ringbuffer_clear : M ringbuffer unit :=
  modify (λ rb : ringbuffer, set_head 0 (set_tail 0 rb)).

Definition cat_ringbuffer_is_full (rb : ringbuffer) : bool :=
  Z.land (u32 (head_index rb - tail_index rb)) (ring_mask rb) =? ring_mask rb.

Definition cat_ringbuffer_is_empty (rb : ringbuffer) : bool :=
  head_index rb =? tail_index rb.

Definition cat_ringbuffer_put (data : Z) : M ringbuffer Z :=
  full ← get cat_ringbuffer_is_full;
  (if (full : bool) then
     modify (λ rb : ringbuffer, set_tail (move_forward (ring_mask rb) (tail_index rb)) rb)
   else mret tt);;
  head ← get head_index;
  zoom rb_lens (wr head data);;
  modify (λ rb : ringbuffer, set_head (move_forward (ring_mask rb) (head_index rb)) rb);;
  mret (if (full : bool) then CAT_ERROR else CAT_EOK).

(** Returns the result and the byte stored at [p_data], if any. *)
Definition cat_ringbuffer_get : M ringbuffer (Z * option Z) :=
  empty ← get cat_ringbuffer_is_empty;
  if (empty : bool) then mret (CAT_ERROR, None) else
  tail ← get tail_index;
  d ← zoom rb_lens (rd tail);
  modify (λ rb : ringbuffer, set_tail (move_forward (ring_mask rb) (tail_index rb)) rb);;
  mret (CAT_EOK, Some d).

Fixpoint put_loop (data : list Z) (ret : Z) : M ringbuffer Z :=
  match data with
  | [] => mret ret
  | d :: data => r ← cat_ringbuffer_put d; put_loop data (s32 (ret + r))
  end.

(** [data] is [p_data[0 .. size-1]]. *)
Definition cat_ringbuffer_put_more (data : list Z) : M ringbuffer Z :=
  ret ← put_loop data 0;
  mret (if ret =? 0 then ret else CAT_ERROR).

(** The [do]-[while] of [get_more]: the count and the bytes stored from
    [p_data] on. *)
Fixpoint get_loop (fuel : nat) (cnt size : Z) (out : list Z) : M ringbuffer (Z * list Z) :=
  '(err, d) ← cat_ringbuffer_get;
  let cnt := u32 (cnt + 1) in
  let out := match d with Some d => out ++ [d] | None => out end in
  if (cnt <? size) && (err =? CAT_EOK) then
    match fuel with
    | O => fail Diverge
    | S fuel => get_loop fuel cnt size out
    end
  else mret (cnt, out).

Definition cat_ringbuffer_get_more (size : Z) : M ringbuffer (Z * list Z) :=
  empty ← get cat_ringbuffer_is_empty;
  if (empty : bool) then mret (0, []) else
  n ← get (λ rb : ringbuffer, length (rb_buffer rb));
  get_loop n 0 size [].

(** The bytes [cat_ringbuffer_print_all] visits, with their indices. *)
Fixpoint print_loop (fuel : nat) (idx : Z) (out : list (Z * Z)) : M ringbuffer (list (Z * Z)) :=
  head ← get head_index;
  if idx =? head then mret out else
  d ← zoom rb_lens (rd idx);
  mask ← get ring_mask;
  match fuel with
  | O => fail Diverge
  | S fuel => print_loop fuel (Z.land (u32 (idx + 1)) mask) (out ++ [(idx, d)])
  end.

Definition cat_ringbuffer_print_all : M ringbuffer (list (Z * Z)) :=
  idx ← get tail_index;
  n ← get (λ rb : ringbuffer, length (rb_buffer rb));
  print_loop n idx [].

(** ** Specification *)

(** A buffer of [2^k] bytes with its indices in range. *)
Record rb_ok (rb : ringbuffer) (k : Z) : Prop := {
  ro_k : 0 ≤ k < 32;
  ro_len : Z.of_nat (length (rb_buffer rb)) = 2 ^ k;
  ro_mask : ring_mask rb = Z.ones k;
  ro_tail : 0 ≤ tail_index rb < 2 ^ k;
  ro_head : 0 ≤ head_index rb < 2 ^ k;
}.

Definition count (rb : ringbuffer) : Z := Z.land (head_index rb - tail_index rb) (ring_mask rb).

(** The stored bytes, oldest first. *)
Definition contents (rb : ringbuffer) : list Z :=
  (λ i : nat, default 0 (aget (rb_buffer rb) (Z.land (tail_index rb + Z.of_nat i) (ring_mask rb))))
    <$> seq 0 (Z.to_nat (count rb)).

(** The bounded queue that overwrites its oldest element. *)
Definition push_over (cap : Z) (q : list Z) (d : Z) : list Z :=
  if Z.of_nat (length q) =? cap then tail q ++ [d] else q ++ [d].

Lemma land_ones_mod x k : 0 ≤ k → Z.land x (Z.ones k) = x mod 2 ^ k.
Proof. apply Z.land_ones. Qed.

Lemma mod_add_inj a i j n : 0 < n → 0 ≤ i < n → 0 ≤ j < n → (a + i) mod n = (a + j) mod n → i = j.
Proof.
  intros Hn Hi Hj E. pose proof (Z.div_mod (a + i) n ltac:(lia)). pose proof (Z.div_mod (a + j) n ltac:(lia)).
  assert (i - j = n * ((a + i) / n - (a + j) / n)) by lia.
  assert ((a + i) / n - (a + j) / n = 0) by nia. lia.
Qed.

Section ops.
Implicit Types rb : ringbuffer.

Lemma pow_pos k : 0 ≤ k → 0 < 2 ^ k.
Proof. intros. by apply Z.pow_pos_nonneg. Qed.

Lemma move_forward_mod rb k i :
  rb_ok rb k → 0 ≤ i < 2 ^ k → move_forward (ring_mask rb) i = (i + 1) mod 2 ^ k.
Proof.
  intros [Hk _ -> _ _] Hi. unfold move_forward. rewrite land_ones_mod by lia.
  rewrite wrapu_small; [done|]. assert (2 ^ k < 2 ^ 32) by (apply Z.pow_lt_mono_r; lia). lia.
Qed.

Lemma count_mod rb k : rb_ok rb k → count rb = (head_index rb - tail_index rb) mod 2 ^ k.
Proof. intros [Hk _ Hm _ _]. unfold count. rewrite Hm. apply land_ones_mod. lia. Qed.

Lemma length_contents rb k : rb_ok rb k → Z.of_nat (length (contents rb)) = count rb.
Proof.
  intros HR. unfold contents. rewrite length_fmap, length_seq, Z2Nat.id; [done|].
  rewrite (count_mod rb k HR). apply Z.mod_pos_bound. apply pow_pos. by destruct HR; lia.
Qed.

Lemma is_full_count rb k : rb_ok rb k → cat_ringbuffer_is_full rb = (count rb =? 2 ^ k - 1).
Proof.
  intros HR. pose proof (count_mod rb k HR) as Hc. destruct HR as [Hk _ Hm Ht Hh].
  unfold cat_ringbuffer_is_full. rewrite Hm, land_ones_mod, Hc, Z.ones_equiv by lia.
  f_equal. unfold wrapu. rewrite Z.mod_mod_divide; [done|].
  exists (2 ^ (32 - k)). rewrite <- Z.pow_add_r by lia. f_equal. lia.
Qed.

Lemma is_empty_count rb k : rb_ok rb k → cat_ringbuffer_is_empty rb = (count rb =? 0).
Proof.
  intros HR. rewrite (count_mod rb k HR). destruct HR as [Hk _ Hm Ht Hh].
  unfold cat_ringbuffer_is_empty. destruct (Z.eqb_spec (head_index rb) (tail_index rb)) as [E|E].
  - rewrite E, Z.sub_diag. rewrite Z.mod_0_l; [done|]. pose proof (pow_pos k). lia.
  - symmetry. apply Z.eqb_neq. intros Hz. apply E.
    destruct (decide (tail_index rb ≤ head_index rb)).
    + rewrite Z.mod_small in Hz; lia.
    + rewrite <- (Z.mod_add _ 1) in Hz by lia. rewrite Z.mod_small in Hz; lia.
Qed.

Lemma contents_eq rb k : rb_ok rb k →
  contents rb = (λ i : nat, default 0 (aget (rb_buffer rb) ((tail_index rb + Z.of_nat i) mod 2 ^ k)))
    <$> seq 0 (Z.to_nat (count rb)).
Proof.
  intros HR. unfold contents. apply list_fmap_ext. intros i x _.
  rewrite (ro_mask _ _ HR), land_ones_mod; [done|]. by destruct HR; lia.
Qed.

Lemma rb_index rb k i : rb_ok rb k → is_Some (aget (rb_buffer rb) (i mod 2 ^ k)).
Proof.
  intros HR. apply aget_is_Some. rewrite (ro_len _ _ HR). apply Z.mod_pos_bound.
  apply pow_pos. by destruct HR; lia.
Qed.

Lemma head_is_count rb k :
  rb_ok rb k → (tail_index rb + count rb) mod 2 ^ k = head_index rb.
Proof.
  intros HR. rewrite (count_mod rb k HR), Zplus_mod_idemp_r. destruct HR as [Hk _ _ _ Hh].
  replace (tail_index rb + (head_index rb - tail_index rb)) with (head_index rb) by lia.
  by apply Z.mod_small.
Qed.

(** Writing at the head and moving it, when there is room. *)
Lemma append_ok rb k d :
  rb_ok rb k → count rb < 2 ^ k - 1 →
  let rb' := set_head ((head_index rb + 1) mod 2 ^ k) (set_buffer (aset (head_index rb) d (rb_buffer rb)) rb) in
  rb_ok rb' k ∧ contents rb' = contents rb ++ [d].
Proof.
  intros HR Hroom rb'. pose proof (pow_pos k ltac:(destruct HR; lia)) as Hpos.
  assert (rb_ok rb' k) as HR'.
  { destruct HR. split; simpl; try done; [by rewrite length_aset|by apply Z.mod_pos_bound]. }
  split; [done|].
  pose proof (count_mod rb k HR) as Hc.
  assert (0 ≤ count rb) by (rewrite Hc; by apply Z.mod_pos_bound).
  assert (count rb' = count rb + 1) as Hc'.
  { rewrite (count_mod rb' k HR'). simpl. rewrite Zminus_mod_idemp_l.
    replace (head_index rb + 1 - tail_index rb) with (head_index rb - tail_index rb + 1) by lia.
    rewrite <- Zplus_mod_idemp_l, <- Hc. apply Z.mod_small. lia. }
  rewrite (contents_eq rb' k HR'), (contents_eq rb k HR), Hc'.
  replace (Z.to_nat (count rb + 1)) with (S (Z.to_nat (count rb))) by lia.
  rewrite seq_S, fmap_app. simpl.
  assert (is_Some (aget (rb_buffer rb) (head_index rb))) as Hsome.
  { rewrite <- (head_is_count rb k HR). by apply rb_index. }
  f_equal.
  - apply list_fmap_ext. intros j i Hi%lookup_seq. f_equal.
    apply aget_aset_ne; [done|]. intros E. rewrite <- (head_is_count rb k HR) in E.
    apply mod_add_inj in E; lia.
  - rewrite Z2Nat.id, (head_is_count rb k HR) by lia. by rewrite aget_aset, decide_True.
Qed.

(** Moving the tail drops the oldest byte. *)
Lemma drop_ok rb k :
  rb_ok rb k → 0 < count rb →
  let rb' := set_tail ((tail_index rb + 1) mod 2 ^ k) rb in
  ∃ d rest, rb_ok rb' k ∧ aget (rb_buffer rb) (tail_index rb) = Some d ∧
    contents rb = d :: rest ∧ contents rb' = rest ∧ count rb' = count rb - 1.
Proof.
  intros HR Hc0 rb'. pose proof (pow_pos k ltac:(destruct HR; lia)) as Hpos.
  assert (rb_ok rb' k) as HR'.
  { destruct HR. split; simpl; try done. by apply Z.mod_pos_bound. }
  pose proof (count_mod rb k HR) as Hc.
  assert (count rb < 2 ^ k) by (rewrite Hc; by apply Z.mod_pos_bound).
  assert (count rb' = count rb - 1) as Hc'.
  { rewrite (count_mod rb' k HR'). simpl. rewrite Zminus_mod_idemp_r.
    replace (head_index rb - (tail_index rb + 1)) with (head_index rb - tail_index rb - 1) by lia.
    rewrite <- Zminus_mod_idemp_l, <- Hc. apply Z.mod_small. lia. }
  destruct (rb_index rb k (tail_index rb) HR) as [d Hd].
  assert (tail_index rb mod 2 ^ k = tail_index rb) as Htm by (apply Z.mod_small; apply HR).
  rewrite Htm in Hd.
  exists d, (contents rb'). split_and!; try done.
  rewrite (contents_eq rb k HR), (contents_eq rb' k HR'), Hc'.
  replace (Z.to_nat (count rb)) with (S (Z.to_nat (count rb - 1))) by lia.
  simpl. rewrite Z.add_0_r, Htm, Hd. simpl. f_equal.
  rewrite <- fmap_S_seq, <- list_fmap_compose. apply list_fmap_ext. intros j i _. simpl.
  do 2 f_equal. rewrite Zplus_mod_idemp_l. f_equal. lia.
Qed.

Lemma rb_get rb k :
  rb_ok rb k → ∃ rb', rb_ok rb' k ∧
    match contents rb with
    | [] => cat_ringbuffer_get rb = Ret ((CAT_ERROR, None), rb) ∧ rb' = rb
    | d :: q => cat_ringbuffer_get rb = Ret ((CAT_EOK, Some d), rb') ∧ contents rb' = q
    end.
Proof.
  intros HR. pose proof (is_empty_count rb k HR) as He.
  pose proof (length_contents rb k HR) as Hl.
  destruct (decide (count rb = 0)) as [Hz|Hz].
  - exists rb. split; [done|]. destruct (contents rb) as [|d q]; [|simpl in Hl; lia].
    split; [|done]. unfold cat_ringbuffer_get. erewrite run_bind by reflexivity.
    by rewrite He, Hz.
  - assert (0 < count rb) as Hpos.
    { destruct (contents rb); simpl in Hl; lia. }
    destruct (drop_ok rb k HR Hpos) as (d & q & HR' & Hd & Hc & Hc' & _).
    eexists. split; [exact HR'|]. rewrite Hc. split; [|done].
    unfold cat_ringbuffer_get. erewrite run_bind by reflexivity.
    rewrite He, (proj2 (Z.eqb_neq _ _) Hz). erewrite run_bind by reflexivity.
    erewrite run_bind by (apply run_zoom, run_deref; exact Hd). simpl.
    erewrite run_bind by reflexivity. cbn beta.
    unfold mret, M_ret. do 2 f_equal. simpl.
    rewrite (move_forward_mod rb k) by (done || apply HR).
    by destruct rb.
Qed.

Lemma rb_put rb k d :
  rb_ok rb k → 0 < k → ∃ rb', rb_ok rb' k ∧
    cat_ringbuffer_put d rb
      = Ret (if Z.of_nat (length (contents rb)) =? 2 ^ k - 1 then CAT_ERROR else CAT_EOK, rb') ∧
    contents rb' = push_over (2 ^ k - 1) (contents rb) d.
Proof.
  intros HR Hk. pose proof (is_full_count rb k HR) as Hf.
  pose proof (length_contents rb k HR) as Hl.
  assert (2 ≤ 2 ^ k) by (change 2 with (2 ^ 1) at 1; apply Z.pow_le_mono_r; lia).
  assert (∃ rb1, rb_ok rb1 k ∧ count rb1 < 2 ^ k - 1 ∧ ring_mask rb1 = ring_mask rb ∧
    contents rb1 = (if count rb =? 2 ^ k - 1 then tail (contents rb) else contents rb) ∧
    (if count rb =? 2 ^ k - 1 then
       modify (λ rb : ringbuffer, set_tail (move_forward (ring_mask rb) (tail_index rb)) rb)
     else mret tt) rb = Ret (tt, rb1)) as (rb1 & HR1 & Hroom & Hm1 & Hc1 & Hrun1).
  { destruct (Z.eqb_spec (count rb) (2 ^ k - 1)) as [E|E].
    - destruct (drop_ok rb k HR) as (x & q & HR' & _ & Hc & Hc' & Hcnt); [lia|].
      eexists. split; [exact HR'|]. split_and!; [lia|done|by rewrite Hc, Hc'|].
      unfold modify. by rewrite (move_forward_mod rb k) by (done || apply HR).
    - exists rb. split_and!; try done. rewrite (count_mod rb k HR) in *.
      pose proof (Z.mod_pos_bound (head_index rb - tail_index rb) (2 ^ k)). lia. }
  destruct (append_ok rb1 k d HR1 Hroom) as [HR2 Hc2].
  eexists. split; [exact HR2|]. split.
  - unfold cat_ringbuffer_put. erewrite run_bind by reflexivity.
    rewrite Hf. erewrite run_bind by exact Hrun1. erewrite run_bind by reflexivity.
    erewrite run_bind.
    2:{ apply run_zoom, run_wr. simpl. rewrite <- (head_is_count rb1 k HR1). by apply rb_index. }
    erewrite run_bind by reflexivity. unfold mret, M_ret. rewrite Hl. do 2 f_equal. simpl.
    unfold set_head. simpl. f_equal.
    rewrite (move_forward_mod rb1 k) by (done || apply HR1). done.
  - rewrite Hc2, Hc1. unfold push_over. rewrite Hl. by destruct (_ =? _).
Qed.
Lemma get_loop_run fuel : ∀ rb k cnt size out,
  rb_ok rb k → 0 ≤ cnt < size → size < 2 ^ 31 → (length (contents rb) < fuel)%nat →
  ∃ rb', rb_ok rb' k ∧
    let q := contents rb in let n := Z.to_nat (size - cnt) in
    get_loop fuel cnt size out rb
    = Ret ((if size - cnt <=? Z.of_nat (length q) then size else cnt + Z.of_nat (length q) + 1,
            out ++ take n q), rb') ∧
    contents rb' = drop n q.
Proof.
  induction fuel as [|fuel IH]; intros rb k cnt size out HR Hcnt Hsz Hlen; [lia|].
  destruct (rb_get rb k HR) as (rb1 & HR1 & Hg). cbn [get_loop].
  assert (u32 (cnt + 1) = cnt + 1) as Hu by (apply wrapu_small; lia).
  destruct (contents rb) as [|d q] eqn:Eq.
  - destruct Hg as [Hg ->]. exists rb. split; [done|]. cbn zeta. split; [|by rewrite drop_nil, Eq].
    erewrite run_bind by exact Hg. cbn beta iota. rewrite Hu, andb_false_r, take_nil, app_nil_r.
    simpl. rewrite (proj2 (Z.leb_gt _ _)) by lia. unfold mret, M_ret. do 3 f_equal. lia.
  - destruct Hg as [Hg Hq]. erewrite run_bind by exact Hg. cbn beta iota. rewrite Hu, andb_true_r.
    destruct (Z.ltb_spec (cnt + 1) size) as [Hlt|Hge].
    + destruct (IH rb1 k (cnt + 1) size (out ++ [d])) as (rb2 & HR2 & Hrun & Hc); [done|lia|done|..].
      { rewrite Hq. simpl in Hlen. lia. }
      exists rb2. split; [done|]. cbn zeta in *. rewrite Hq in *.
      replace (Z.to_nat (size - cnt)) with (S (Z.to_nat (size - (cnt + 1)))) by lia.
      split; [|done]. rewrite Hrun. simpl. rewrite <- (assoc_L (++)). simpl.
      do 3 f_equal.
      destruct (Z.leb_spec (size - (cnt + 1)) (Z.of_nat (length q)));
        destruct (Z.leb_spec (size - cnt) (Z.of_nat (S (length q)))); lia.
    + exists rb1. split; [done|]. cbn zeta.
      replace (Z.to_nat (size - cnt)) with 1%nat by lia. simpl. rewrite drop_0, take_0.
      split; [|done]. rewrite (proj2 (Z.leb_le _ _)) by lia. unfold mret, M_ret.
      do 3 f_equal. lia.
Qed.

Lemma put_loop_run data : ∀ rb k ret,
  rb_ok rb k → 0 < k → - 2 ^ 31 + Z.of_nat (length data) ≤ ret ≤ 0 →
  ∃ rb' r, put_loop data ret rb = Ret (r, rb') ∧ rb_ok rb' k ∧
    contents rb' = foldl (push_over (2 ^ k - 1)) (contents rb) data ∧
    r ≤ ret ∧ (r = 0 ↔ ret = 0 ∧ Z.of_nat (length (contents rb)) + Z.of_nat (length data) ≤ 2 ^ k - 1).
Proof.
  induction data as [|d data IH]; intros rb k ret HR Hk Hret.
  - exists rb, ret. split_and!; try done.
    pose proof (length_contents rb k HR). pose proof (count_mod rb k HR).
    pose proof (Z.mod_pos_bound (head_index rb - tail_index rb) (2 ^ k) (pow_pos k ltac:(lia))).
    simpl. split; [intros ->; split; [done|lia]|tauto].
  - destruct (rb_put rb k d HR Hk) as (rb1 & HR1 & Hrun & Hc1). cbn [put_loop].
    simpl length in Hret. rewrite Nat2Z.inj_succ in Hret.
    set (full := Z.of_nat (length (contents rb)) =? 2 ^ k - 1) in *.
    set (r1 := if full then CAT_ERROR else CAT_EOK) in *.
    assert (r1 = 0 ∨ r1 = -1) as Hr1 by (unfold r1; destruct full; auto).
    assert (s32 (ret + r1) = ret + r1) as Hs by (apply wraps_small; lia).
    destruct (IH rb1 k (ret + r1)) as (rb2 & r & Hrun2 & HR2 & Hc2 & Hle & Hiff); [done|done|lia|].
    exists rb2, r. erewrite run_bind by exact Hrun. rewrite Hs. split_and!; try done.
    + by rewrite Hc2, Hc1.
    + lia.
    + rewrite Hiff, Hc1. unfold push_over. fold full. unfold r1, full.
      simpl length. destruct (Z.eqb_spec (Z.of_nat (length (contents rb))) (2 ^ k - 1)) as [E|E].
      * unfold CAT_ERROR. lia.
      * unfold CAT_EOK. rewrite length_app. simpl. lia.
Qed.
End ops.

(** ** Properties *)

(** C30 The ring buffer is a bounded queue.  Over [2^k] bytes with [k > 0],
    [cat_ringbuffer_put] appends the byte, first dropping the oldest one when
    [2^k - 1] bytes are stored, in which case it returns -1; [cat_ringbuffer_get]
    takes the oldest byte, or returns -1 and changes nothing when there is
    none; both keep the indices in range. *)
Theorem ringbuffer_refines_queue rb k :
  rb_ok rb k → 0 < k →
  (∀ d, ∃ rb', cat_ringbuffer_put d rb
      = Ret (if Z.of_nat (length (contents rb)) =? 2 ^ k - 1 then CAT_ERROR else CAT_EOK, rb') ∧
     rb_ok rb' k ∧ contents rb' = push_over (2 ^ k - 1) (contents rb) d) ∧
  (contents rb = [] → cat_ringbuffer_get rb = Ret ((CAT_ERROR, None), rb)) ∧
  (∀ d q, contents rb = d :: q →
     ∃ rb', cat_ringbuffer_get rb = Ret ((CAT_EOK, Some d), rb') ∧ rb_ok rb' k ∧ contents rb' = q).
Proof.
  intros HR Hk. split_and!.
  - intros d. destruct (rb_put rb k d HR Hk) as (rb' & ? & ? & ?). eauto.
  - intros Hc. destruct (rb_get rb k HR) as (rb' & _ & Hg). rewrite Hc in Hg. by destruct Hg.
  - intros d q Hc. destruct (rb_get rb k HR) as (rb' & HR' & Hg). rewrite Hc in Hg.
    destruct Hg. eauto.
Qed.

(** Bulk operations.  [cat_ringbuffer_put_more] pushes its bytes in order
    and returns 0 exactly when all fit.  [cat_ringbuffer_get_more] of [size > 0]
    takes the [size] oldest bytes, or all when there are fewer; but its result
    is the number of bytes it stored only when there were enough: a buffer that
    runs out (without being empty at the start) makes it one too large. *)
Theorem ringbuffer_bulk rb k :
  rb_ok rb k → 0 < k →
  (∀ data, Z.of_nat (length data) < 2 ^ 31 →
     ∃ rb' r, cat_ringbuffer_put_more data rb = Ret (r, rb') ∧ rb_ok rb' k ∧
       contents rb' = foldl (push_over (2 ^ k - 1)) (contents rb) data ∧
       (r = 0 ↔ Z.of_nat (length (contents rb)) + Z.of_nat (length data) ≤ 2 ^ k - 1)) ∧
  (∀ size, 0 < size < 2 ^ 31 →
     ∃ rb' cnt out, cat_ringbuffer_get_more size rb = Ret ((cnt, out), rb') ∧ rb_ok rb' k ∧
       out = take (Z.to_nat size) (contents rb) ∧ contents rb' = drop (Z.to_nat size) (contents rb) ∧
       cnt = Z.of_nat (length out)
             + (if bool_decide (0 < Z.of_nat (length (contents rb)) < size) then 1 else 0)).
Proof.
  intros HR Hk. split.
  - intros data Hlen. destruct (put_loop_run data rb k 0) as (rb' & r & Hrun & HR' & Hc & _ & Hiff);
      [done|done|lia|].
    unfold cat_ringbuffer_put_more. eexists rb', _. erewrite run_bind by exact Hrun.
    split_and!; [done|done|done|]. destruct (Z.eqb_spec r 0) as [->|Hr]; [naive_solver|].
    unfold CAT_ERROR. split; [done|]. intros. exfalso. apply Hr, Hiff. by split.
  - intros size Hsz. unfold cat_ringbuffer_get_more. erewrite run_bind by reflexivity.
    rewrite (is_empty_count rb k HR), <- (length_contents rb k HR).
    destruct (contents rb) as [|d q] eqn:Eq.
    + exists rb, 0, []. split_and!; try done; by rewrite ?take_nil, ?drop_nil.
    + rewrite (proj2 (Z.eqb_neq (Z.of_nat (length (d :: q))) 0)) by (simpl; lia).
      erewrite run_bind by reflexivity.
      destruct (get_loop_run (length (rb_buffer rb)) rb k 0 size []) as (rb' & HR' & Hrun & Hc);
        [done|lia|lia|..].
      { pose proof (length_contents rb k HR). rewrite (count_mod rb k HR) in *.
        pose proof (ro_len _ _ HR). pose proof (pow_pos k ltac:(lia)).
        pose proof (Z.mod_pos_bound (head_index rb - tail_index rb) (2 ^ k)). lia. }
      cbn zeta in *. rewrite Eq, Z.sub_0_r in *.
      eexists rb', _, _. split; [exact Hrun|]. split_and!; [done|done|done|].
      rewrite app_nil_l, length_take. cbn [length]. case_bool_decide as Hb.
      * rewrite (proj2 (Z.leb_gt _ _)) by lia. lia.
      * rewrite (proj2 (Z.leb_le _ _)) by lia. lia.
Qed.

(** [cat_ringbuffer_init] gives an empty ring over the buffer when the size
    is a power of two and equals the length of the buffer, and stops on a null
    buffer or another size; but its test lets size 0 through, with the mask
    that of a 4 GB buffer. *)
Theorem ringbuffer_init_correct rb b k :
  0 ≤ k < 32 → Z.of_nat (length b) = 2 ^ k →
  (∃ rb', cat_ringbuffer_init (Some b) (2 ^ k) rb = Ret (tt, rb') ∧ rb_ok rb' k ∧ contents rb' = []) ∧
  cat_ringbuffer_init None (2 ^ k) rb = Err Hang ∧
  (∀ n, 0 < n < 2 ^ 32 → n ≠ 2 ^ Z.log2 n → cat_ringbuffer_init (Some b) n rb = Err Hang) ∧
  (∃ rb', cat_ringbuffer_init (Some b) 0 rb = Ret (tt, rb') ∧ ring_mask rb' = 2 ^ 32 - 1).
Proof.
  intros Hk Hlen. pose proof (pow_pos k ltac:(lia)) as Hpos.
  assert (2 ^ k ≤ 2 ^ 31) by (apply Z.pow_le_mono_r; lia).
  assert (u32 (2 ^ k - 1) = Z.ones k) as Hm by (rewrite wrapu_small, Z.ones_equiv; lia).
  split_and!; [|done| |by eexists].
  - exists (mk_rb b (Z.ones k) 0 0).
    assert (rb_ok (mk_rb b (Z.ones k) 0 0) k) as HR by (split; simpl; try done; lia).
    split_and!; [|done|].
    + unfold cat_ringbuffer_init, IS_POWER_OF_TWO. rewrite Hm, Z.land_ones, Z.mod_same by lia. done.
    + rewrite (contents_eq _ k HR), (count_mod _ k HR). reflexivity.
  - intros n Hn Hne. unfold cat_ringbuffer_init, IS_POWER_OF_TWO.
    rewrite wrapu_small by lia. rewrite (proj2 (Z.eqb_neq _ _)); [done|]. intros Hz.
    destruct (Z.log2_spec n) as [Hl Hu]; [lia|]. pose proof (Z.log2_nonneg n) as Hnn.
    assert (Z.testbit (Z.land n (n - 1)) (Z.log2 n) = true) as Hb; [|by rewrite Hz, Z.testbit_0_l in Hb].
    rewrite Z.land_spec, Z.bit_log2 by lia. simpl.
    assert (Z.log2 (n - 1) = Z.log2 n) as <-; [|apply Z.bit_log2; lia].
    apply Z.log2_unique; lia.
Qed.

(** A ring over four bytes holding [10; 11]. *)
Definition ring4 : ringbuffer := mk_rb [10; 11; 0; 0] 3 0 2.

Lemma ring4_ok : rb_ok ring4 2.
Proof. split; simpl; (reflexivity || lia). Qed.

Lemma ringbuffer_refines_queue_witness :
  ∃ rb', cat_ringbuffer_put 12 ring4 = Ret (0, rb') ∧ contents rb' = [10; 11; 12].
Proof.
  destruct (ringbuffer_refines_queue ring4 2 ring4_ok) as (Hput & _ & _); [lia|].
  destruct (Hput 12) as (rb' & Hrun & _ & Hc). exists rb'. split; [exact Hrun|exact Hc].
Defined.

(** Three bytes asked, two stored, three reported. *)
Lemma ringbuffer_bulk_witness :
  ∃ rb' cnt out, cat_ringbuffer_get_more 3 ring4 = Ret ((cnt, out), rb') ∧
    out = [10; 11] ∧ cnt = 3.
Proof.
  destruct (ringbuffer_bulk ring4 2 ring4_ok) as [_ Hget]; [lia|].
  destruct (Hget 3) as (rb' & cnt & out & Hrun & _ & Hout & _ & Hcnt); [lia|].
  exists rb', cnt, out. split_and!; [exact Hrun|exact Hout|]. rewrite Hcnt, Hout. reflexivity.
Defined.

Lemma ringbuffer_init_correct_witness :
  ∃ rb', cat_ringbuffer_init (Some [1; 2; 3; 4]) 4 ring4 = Ret (tt, rb') ∧ contents rb' = [].
Proof.
  destruct (ringbuffer_init_correct ring4 [1; 2; 3; 4] 2) as ((rb' & Hrun & _ & Hc) & _);
    [lia|reflexivity|].
  exists rb'. split; [exact Hrun|exact Hc].
Defined.
