(* ===== verification/Str.v ===== *)
(** * components/tmp/lib/src/str.c: strings and areas of memory

    Memory is a finite map from addresses to bytes; an address that is not in
    it is not to be accessed.  An [acoral_char] is the plain [char] of the ARM
    compilers, which has no sign.  A loop that runs up to the NUL of a string
    has as its fuel one more than the number of bytes there are, since every
    turn reads another address. *)
From S2P Require Import Prelude.
From stdpp Require Import list.
#[local] Open Scope Z_scope.

Abbreviation bytemem := (gmap Z Z).
Abbreviation B := (M bytemem).

Definition load8 (p : Z) : B Z := deref (λ m, m !! p).
Definition store8 (p v : Z) : B unit := λ m,
  match m !! p with Some _ => Ret (tt, <[p := v]> m) | None => Err Wild end.

(** Enough turns for a loop that reads another address on each. *)
Definition scan {A} (loop : nat → B A) : B A := λ m, loop (S (size m)) m.

(** ** Characters *)
Definition IS_DIGIT (c : Z) : bool := (48 <=? c) && (c <? 57).
Definition IS_LOWER (c : Z) : bool := (97 <=? c) && (c <=? 122).
Definition IS_UPPER (c : Z) : bool := (65 <=? c) && (c <=? 90).

Definition acoral_tolower (c : Z) : Z :=
  if IS_LOWER c then c else if IS_UPPER c then u8 (c + 32) else 0.

Definition acoral_toupper (c : Z) : Z :=
  if IS_LOWER c then u8 (c - 32) else if IS_UPPER c then c else 0.

Fixpoint upr_loop (fuel : nat) (p : Z) : B unit :=
  c ← load8 p;
  if c =? 0 then mret tt else
  when ((97 <=? c) && (c <=? 122)) (store8 p (c - 32));;
  match fuel with O => fail Diverge | S fuel => upr_loop fuel (p + 1) end.

Definition acoral_str_upr (str : Z) : B Z := scan (λ n, upr_loop n str);; mret str.

Fixpoint lwr_loop (fuel : nat) (p : Z) : B unit :=
  c ← load8 p;
  if c =? 0 then mret tt else
  when ((65 <=? c) && (c <=? 90)) (store8 p (c + 32));;
  match fuel with O => fail Diverge | S fuel => lwr_loop fuel (p + 1) end.

Definition acoral_str_lwr (s : Z) : B Z := scan (λ n, lwr_loop n s);; mret s.

(** ** Length and copies *)
Fixpoint len_loop (fuel : nat) (p i : Z) : B Z :=
  c ← load8 p;
  if c =? 0 then mret i else
  match fuel with O => fail Diverge | S fuel => len_loop fuel (p + 1) (u32 (i + 1)) end.

Definition acoral_str_len (str : Z) : B Z := scan (λ n, len_loop n str 0).

Fixpoint cpy_loop (fuel : nat) (to from : Z) : B unit :=
  c ← load8 from;
  store8 to c;;
  if c =? 0 then mret tt else
  match fuel with O => fail Diverge | S fuel => cpy_loop fuel (to + 1) (from + 1) end.

Definition acoral_str_cpy (to from : Z) : B Z := scan (λ n, cpy_loop n to from);; mret to.

Fixpoint ncpy_loop (count : nat) (tmp src : Z) : B unit :=
  match count with
  | O => store8 tmp 0
  | S count =>
      c ← load8 src;
      store8 tmp c;;
      if c =? 0 then mret tt else ncpy_loop count (tmp + 1) (src + 1)
  end.

Definition acoral_str_ncpy (dest src count : Z) : B Z := ncpy_loop (Z.to_nat count) dest src;; mret dest.

(** Up to the end of a string. *)
Fixpoint seek_end (fuel : nat) (p : Z) : B Z :=
  c ← load8 p;
  if c =? 0 then mret p else
  match fuel with O => fail Diverge | S fuel => seek_end fuel (p + 1) end.

Definition acoral_str_cat (dest src : Z) : B Z :=
  p ← scan (λ n, seek_end n dest);
  scan (λ n, cpy_loop n p src);;
  mret dest.

(** [count] is one less than the bytes that may still be copied. *)
Fixpoint ncat_loop (count : nat) (dest src : Z) : B unit :=
  c ← load8 src;
  store8 dest c;;
  if c =? 0 then mret tt else
  match count with
  | O => store8 (dest + 1) 0
  | S count => ncat_loop count (dest + 1) (src + 1)
  end.

Definition acoral_str_ncat (dest src count : Z) : B Z :=
  when (negb (count =? 0))
    (p ← scan (λ n, seek_end n dest);
     ncat_loop (Z.to_nat (count - 1)) p src);;
  mret dest.

(** ** Areas of memory *)
Fixpoint set_loop (count : nat) (xs c : Z) : B unit :=
  match count with
  | O => mret tt
  | S count => store8 xs (u8 c);; set_loop count (xs + 1) c
  end.

Definition acoral_memset (s c count : Z) : B Z := set_loop (Z.to_nat count) s c;; mret s.

Fixpoint copy_up (count : nat) (tmp s : Z) : B unit :=
  match count with
  | O => mret tt
  | S count => c ← load8 s; store8 tmp c;; copy_up count (tmp + 1) (s + 1)
  end.

(** From the ends down: [tmp] and [s] are one above the bytes copied next. *)
Fixpoint copy_down (count : nat) (tmp s : Z) : B unit :=
  match count with
  | O => mret tt
  | S count => c ← load8 (s - 1); store8 (tmp - 1) c;; copy_down count (tmp - 1) (s - 1)
  end.

Definition acoral_memcpy (dest src count : Z) : B Z := copy_up (Z.to_nat count) dest src;; mret dest.

Definition acoral_memmove (dest src count : Z) : B Z :=
  (if dest <=? src then copy_up (Z.to_nat count) dest src
   else copy_down (Z.to_nat count) (dest + count) (src + count));;
  mret dest.

Fixpoint memcmp_loop (count : nat) (su1 su2 res : Z) : B Z :=
  match count with
  | O => mret res
  | S count =>
      a ← load8 su1;
      b ← load8 su2;
      if negb (a - b =? 0) then mret (a - b) else memcmp_loop count (su1 + 1) (su2 + 1) (a - b)
  end.

Definition acoral_memcmp (cs ct count : Z) : B Z := memcmp_loop (Z.to_nat count) cs ct 0.

Fixpoint memscan_loop (size : nat) (p c : Z) : B Z :=
  match size with
  | O => mret p
  | S size => x ← load8 p; if x =? c then mret p else memscan_loop size (p + 1) c
  end.

Definition acoral_memscan (addr c size : Z) : B Z := memscan_loop (Z.to_nat size) addr c.

Fixpoint memchr_loop (n : nat) (p c : Z) : B Z :=
  match n with
  | O => mret 0
  | S n => x ← load8 p; if u8 c =? x then mret p else memchr_loop n (p + 1) c
  end.

Definition acoral_memchr (s c n : Z) : B Z := memchr_loop (Z.to_nat n) s c.

Definition acoral_str_lcpy (dest src size : Z) : B Z :=
  ret ← acoral_str_len src;
  when (negb (size =? 0))
    (let len := if size <=? ret then size - 1 else ret in
     acoral_memcpy dest src len;;
     store8 (dest + len) 0);;
  mret ret.

Definition acoral_str_lcat (dest src count : Z) : B Z :=
  dsize ← acoral_str_len dest;
  len ← acoral_str_len src;
  let count := u32 (count - dsize) in
  let n := if count <=? len then u32 (count - 1) else len in
  acoral_memcpy (dest + dsize) src n;;
  store8 (dest + dsize + n) 0;;
  mret (u32 (dsize + len)).

(** ** Comparisons *)
(** [c] is the difference of the last characters compared. *)
Fixpoint cmp_loop (fuel : nat) (des src c : Z) : B Z :=
  a ← load8 des;
  if a =? 0 then mret c else
  b ← load8 src;
  let c := u32 (a - b) in
  if negb (c =? 0) then mret c else
  match fuel with O => fail Diverge | S fuel => cmp_loop fuel (des + 1) (src + 1) c end.

(** [c] has no value before the loop: [junk]. *)
Definition acoral_str_cmp (junk des src : Z) : B Z :=
  if (des =? 0) || (src =? 0) then mret (u32 (-1)) else
  len1 ← acoral_str_len des;
  len2 ← acoral_str_len src;
  if negb (len1 =? len2) then mret (u32 (len1 - len2)) else
  scan (λ n, cmp_loop n des src junk).

(** [len] is one less than the characters that may still be compared. *)
Fixpoint nicmp_loop (len : nat) (s1 s2 : Z) : B (Z * Z) :=
  c1 ← load8 s1;
  c2 ← load8 s2;
  if c1 =? 0 then mret (c1, c2) else
  if c2 =? 0 then mret (c1, c2) else
  let d1 := if c1 =? c2 then c1 else acoral_tolower c1 in
  let d2 := if c1 =? c2 then c2 else acoral_tolower c2 in
  if negb (d1 =? d2) then mret (d1, d2) else
  match len with
  | O => mret (d1, d2)
  | S len => nicmp_loop len (s1 + 1) (s2 + 1)
  end.

Definition acoral_str_nicmp (s1 s2 len : Z) : B Z :=
  '(c1, c2) ← (if negb (len =? 0) then nicmp_loop (Z.to_nat (len - 1)) s1 s2 else mret (0, 0));
  mret (c1 - c2).

Fixpoint ncmp_loop (count : nat) (cs ct res : Z) : B Z :=
  match count with
  | O => mret res
  | S count =>
      a ← load8 cs;
      b ← load8 ct;
      let res := s8 (a - b) in
      if negb (res =? 0) || (a =? 0) then mret res else ncmp_loop count (cs + 1) (ct + 1) res
  end.

Definition acoral_str_ncmp (cs ct count : Z) : B Z := ncmp_loop (Z.to_nat count) cs ct 0.

(** ** Searches; positions count from 1 *)
Fixpoint chr_loop (fuel : nat) (s c pos : Z) : B Z :=
  x ← load8 s;
  if x =? u8 c then mret (s32 pos) else
  if x =? 0 then mret 0 else
  match fuel with O => fail Diverge | S fuel => chr_loop fuel (s + 1) c (u32 (pos + 1)) end.

Definition acoral_str_chr (s c : Z) : B Z := scan (λ n, chr_loop n s c 1).

Fixpoint rchr_loop (fuel : nat) (s p c pos : Z) : B Z :=
  x ← load8 p;
  if x =? u8 c then mret (s32 pos) else
  if s <=? p - 1 then
    match fuel with O => fail Diverge | S fuel => rchr_loop fuel s (p - 1) c (u32 (pos - 1)) end
  else mret 0.

Definition acoral_str_rchr (s c : Z) : B Z :=
  pos ← acoral_str_len s;
  rchr_loop (Z.to_nat pos) s (s + pos - 1) c pos.

Fixpoint nchr_loop (count : nat) (s c pos : Z) : B Z :=
  match count with
  | O => mret 0
  | S count =>
      x ← load8 s;
      if x =? 0 then mret 0 else
      if x =? u8 c then mret (s32 pos) else nchr_loop count (s + 1) c (u32 (pos + 1))
  end.

Definition acoral_str_nchr (s count c : Z) : B Z := nchr_loop (Z.to_nat count) s c 1.

Fixpoint nlen_loop (count : nat) (s sc : Z) : B Z :=
  match count with
  | O => mret (sc - s)
  | S count => x ← load8 sc; if x =? 0 then mret (sc - s) else nlen_loop count s (sc + 1)
  end.

Definition acoral_str_nlen (s count : Z) : B Z := nlen_loop (Z.to_nat count) s s.

(** Whether the string at [a] has the character [x]. *)
Fixpoint has_char (fuel : nat) (a x : Z) : B bool :=
  y ← load8 a;
  if y =? 0 then mret false else
  if x =? y then mret true else
  match fuel with O => fail Diverge | S fuel => has_char fuel (a + 1) x end.

Fixpoint spn_loop (fuel : nat) (p accept count : Z) : B Z :=
  x ← load8 p;
  if x =? 0 then mret count else
  found ← scan (λ n, has_char n accept x);
  if negb found then mret count else
  match fuel with O => fail Diverge | S fuel => spn_loop fuel (p + 1) accept (u32 (count + 1)) end.

Definition acoral_str_spn (s accept : Z) : B Z := scan (λ n, spn_loop n s accept 0).

Fixpoint cspn_loop (fuel : nat) (p reject count : Z) : B Z :=
  x ← load8 p;
  if x =? 0 then mret count else
  found ← scan (λ n, has_char n reject x);
  if (found : bool) then mret count else
  match fuel with O => fail Diverge | S fuel => cspn_loop fuel (p + 1) reject (u32 (count + 1)) end.

Definition acoral_str_cspn (s reject : Z) : B Z := scan (λ n, cspn_loop n s reject 0).

Fixpoint pbrk_loop (fuel : nat) (sc1 ct : Z) : B Z :=
  x ← load8 sc1;
  if x =? 0 then mret 0 else
  found ← scan (λ n, has_char n ct x);
  if (found : bool) then mret sc1 else
  match fuel with O => fail Diverge | S fuel => pbrk_loop fuel (sc1 + 1) ct end.

Definition acoral_str_pbrk (cs ct : Z) : B Z := scan (λ n, pbrk_loop n cs ct).

(** [sbegin] is the value of [*s]; the second result is its new value. *)
Definition acoral_str_sep (sbegin ct : Z) : B (Z * Z) :=
  if sbegin =? 0 then mret (0, sbegin) else
  found ← acoral_str_pbrk sbegin ct;
  if negb (found =? 0) then store8 found 0;; mret (sbegin, found + 1)
  else mret (sbegin, 0).

Fixpoint strstr_loop (fuel : nat) (s1 s2 l1 l2 : Z) : B Z :=
  if l2 <=? l1 then
    r ← acoral_memcmp s1 s2 (u32 l2);
    if r =? 0 then mret s1 else
    match fuel with O => fail Diverge | S fuel => strstr_loop fuel (s1 + 1) s2 (l1 - 1) l2 end
  else mret 0.

Definition acoral_strstr (s1 s2 : Z) : B Z :=
  n2 ← acoral_str_len s2;
  let l2 := s32 n2 in
  if l2 =? 0 then mret s1 else
  n1 ← acoral_str_len s1;
  let l1 := s32 n1 in
  strstr_loop (Z.to_nat l1) s1 s2 l1 l2.
