(* ===== verification/StrSpec.v ===== *)
(** * Correctness of the strings and areas of memory *)
From S2P Require Import Prelude Str.
From stdpp Require Import list.
#[local] Open Scope Z_scope.

(** The bytes from [p] on are those of [l]. *)
Fixpoint bytes (m : bytemem) (p : Z) (l : list Z) : Prop :=
  match l with
  | [] => True
  | x :: l => m !! p = Some x ∧ bytes m (p + 1) l
  end.

(** A string ends with a NUL, which is not in it. *)
Definition cstr (m : bytemem) (p : Z) (l : list Z) : Prop :=
  Forall (λ c, 0 < c < 256) l ∧ bytes m p (l ++ [0]).

(** [n] bytes from [p] on can be accessed. *)
Definition room (m : bytemem) (p : Z) (n : nat) : Prop := ∀ k, p ≤ k < p + Z.of_nat n → is_Some (m !! k).

(** The bytes of [l] written from [p] on. *)
Fixpoint poke (p : Z) (l : list Z) (m : bytemem) : bytemem :=
  match l with
  | [] => m
  | x :: l => poke (p + 1) l (<[p := x]> m)
  end.

(** ** Bytes in memory *)
Section bytes.
Implicit Types (m : bytemem) (l : list Z).

Lemma run_load8 m p x : m !! p = Some x → load8 p m = Ret (x, m).
Proof. apply run_deref. Qed.

Lemma run_store8 m p v : is_Some (m !! p) → store8 p v m = Ret (tt, <[p := v]> m).
Proof. intros [x Hx]. unfold store8. by rewrite Hx. Qed.

Lemma run_scan {A} (loop : nat → B A) m : scan loop m = loop (S (size m)) m.
Proof. done. Qed.

Lemma bytes_lookup m p l i x : bytes m p l → l !! i = Some x → m !! (p + Z.of_nat i) = Some x.
Proof.
  revert p i. induction l as [|y l IH]; intros p i; [done|]. intros [Hy Hl].
  destruct i as [|i]; simpl.
  - intros [= <-]. by rewrite Z.add_0_r.
  - intros Hi. rewrite <- (IH (p + 1) i Hl Hi). f_equal. lia.
Qed.

Lemma bytes_intro m p l : (∀ i x, l !! i = Some x → m !! (p + Z.of_nat i) = Some x) → bytes m p l.
Proof.
  revert p. induction l as [|y l IH]; intros p H; [done|]. split.
  - rewrite <- (H 0%nat y eq_refl). f_equal. lia.
  - apply IH. intros i x Hi. rewrite <- (H (S i) x Hi). f_equal. lia.
Qed.

Lemma bytes_app m p l l' : bytes m p (l ++ l') ↔ bytes m p l ∧ bytes m (p + Z.of_nat (length l)) l'.
Proof.
  revert p. induction l as [|y l IH]; intros p; simpl.
  - rewrite Z.add_0_r. tauto.
  - rewrite IH. replace (p + 1 + Z.of_nat (length l)) with (p + Z.of_nat (S (length l))) by lia. tauto.
Qed.

Lemma bytes_insert_ne m p l k v : bytes m p l → ¬ (p ≤ k < p + Z.of_nat (length l)) → bytes (<[k := v]> m) p l.
Proof.
  intros Hl Hk. apply bytes_intro. intros i x Hi.
  pose proof (lookup_lt_Some _ _ _ Hi). rewrite lookup_insert_ne by lia. by apply bytes_lookup with l.
Qed.

Lemma bytes_room m p l : bytes m p l → room m p (length l).
Proof.
  intros Hl k Hk. destruct (lookup_lt_is_Some_2 l (Z.to_nat (k - p))) as [x Hx]; [lia|].
  exists x. rewrite <- (bytes_lookup m p l _ x Hl Hx). f_equal. lia.
Qed.

(** A loop over addresses that can be accessed has no more turns than there
    are bytes. *)
Lemma room_size m p n : room m p n → (n ≤ size m)%nat.
Proof.
  intros Hr. rewrite <- size_dom.
  assert (NoDup (seqZ p (Z.of_nat n))) as Hnd by apply NoDup_seqZ.
  assert (list_to_set (seqZ p (Z.of_nat n)) ⊆@{gset Z} dom m) as Hsub.
  { intros k. rewrite elem_of_list_to_set, elem_of_seqZ, elem_of_dom. apply Hr. }
  apply subseteq_size in Hsub. rewrite size_list_to_set, length_seqZ in Hsub by done. lia.
Qed.

Lemma bytes_size m p l : bytes m p l → (length l ≤ size m)%nat.
Proof. intros Hl. by apply (room_size m p), bytes_room. Qed.

Lemma room_insert m p n k v : room m p n → room (<[k := v]> m) p n.
Proof. intros Hr j Hj. rewrite lookup_insert. case_decide; [by eexists|by apply Hr]. Qed.

Lemma room_tail m p n : room m p (S n) → room m (p + 1) n.
Proof. intros Hr k Hk. apply Hr. lia. Qed.

Lemma poke_lookup p l m k :
  poke p l m !! k = if decide (p ≤ k < p + Z.of_nat (length l)) then l !! Z.to_nat (k - p) else m !! k.
Proof.
  revert p m. induction l as [|x l IH]; intros p m; simpl.
  - by rewrite decide_False by lia.
  - rewrite IH. destruct (decide (p + 1 ≤ k < p + 1 + Z.of_nat (length l))).
    + rewrite decide_True by lia. replace (Z.to_nat (k - p)) with (S (Z.to_nat (k - (p + 1)))) by lia. done.
    + destruct (decide (k = p)) as [->|Hne].
      * rewrite lookup_insert_eq, decide_True by lia. by rewrite Z.sub_diag.
      * rewrite lookup_insert_ne by done. by rewrite decide_False by lia.
Qed.

Lemma poke_bytes p l m : bytes (poke p l m) p l.
Proof.
  apply bytes_intro. intros i x Hi. pose proof (lookup_lt_Some _ _ _ Hi).
  rewrite poke_lookup, decide_True by lia. rewrite <- Hi. f_equal. lia.
Qed.

Lemma poke_snoc p l x m : poke p (l ++ [x]) m = poke p l (<[p + Z.of_nat (length l) := x]> m).
Proof.
  apply map_eq. intros k. rewrite !poke_lookup, length_app. simpl.
  destruct (decide (p ≤ k < p + Z.of_nat (length l))).
  - rewrite decide_True by lia. apply lookup_app_l. lia.
  - destruct (decide (k = p + Z.of_nat (length l))) as [->|Hne].
    + rewrite decide_True, lookup_insert_eq by lia.
      replace (Z.to_nat _) with (length l) by lia. by rewrite lookup_app_r, Nat.sub_diag by lia.
    + rewrite decide_False, lookup_insert_ne by lia. done.
Qed.
End bytes.

(** ** Copies *)
Section copies.
Implicit Types (m : bytemem) (l : list Z).

Lemma copy_up_spec l dest src m :
  bytes m src l → room m dest (length l) → dest ≤ src ∨ src + Z.of_nat (length l) ≤ dest →
  copy_up (length l) dest src m = Ret (tt, poke dest l m).
Proof.
  revert dest src m. induction l as [|x l IH]; intros dest src m; [done|]. intros [Hx Hl] Hr Hd. simpl in *.
  erewrite run_bind by (by apply run_load8). erewrite run_bind by (apply run_store8, Hr; lia).
  apply IH; [apply bytes_insert_ne; [done|lia]|by apply room_insert, room_tail|lia].
Qed.

Lemma copy_down_spec l dest src m :
  bytes m src l → room m dest (length l) → src < dest →
  copy_down (length l) (dest + Z.of_nat (length l)) (src + Z.of_nat (length l)) m = Ret (tt, poke dest l m).
Proof.
  revert m. induction l as [|x l IH] using rev_ind; intros m; [done|]. intros [Hl [Hx _]]%bytes_app Hr Hd.
  rewrite poke_snoc. rewrite !length_app in *. simpl in *.
  replace (length l + 1)%nat with (S (length l)) in * by lia. cbn [copy_down].
  replace (dest + Z.of_nat (S (length l)) - 1) with (dest + Z.of_nat (length l)) by lia.
  replace (src + Z.of_nat (S (length l)) - 1) with (src + Z.of_nat (length l)) by lia.
  erewrite run_bind by (by apply run_load8). erewrite run_bind by (apply run_store8, Hr; lia).
  apply IH; [apply bytes_insert_ne; [done|lia]| |done]. apply room_insert. intros k Hk. apply Hr. lia.
Qed.

(** Copying upwards to a place above the source: each byte is the one [dest -
    src] below it, as it is in the end. *)
Lemma copy_up_overlap n dest src m :
  src < dest → room m dest n → room m src n →
  ∃ m', copy_up n dest src m = Ret (tt, m') ∧
    (∀ k, ¬ (dest ≤ k < dest + Z.of_nat n) → m' !! k = m !! k) ∧
    (∀ k, dest ≤ k < dest + Z.of_nat n → m' !! k = m' !! (k - (dest - src))).
Proof.
  revert dest src m. induction n as [|n IH]; intros dest src m Hd Hr Hs.
  { exists m. split; [done|]. split; [done|lia]. }
  destruct (Hs src) as [x Hx]; [lia|]. cbn [copy_up].
  erewrite run_bind by (by apply run_load8). erewrite run_bind by (apply run_store8, Hr; lia).
  destruct (IH (dest + 1) (src + 1) (<[dest := x]> m)) as (m' & Hrun & Hout & Hin);
    [lia|by apply room_insert, room_tail|by apply room_insert, room_tail|].
  exists m'. split; [done|]. split.
  - intros k Hk. rewrite Hout, lookup_insert_ne by lia. done.
  - intros k Hk. destruct (decide (k = dest)) as [->|Hne].
    + rewrite !Hout by lia. replace (dest - (dest - src)) with src by lia.
      by rewrite lookup_insert_eq, lookup_insert_ne by lia.
    + rewrite Hin by lia. f_equal. lia.
Qed.

Lemma copy_up_period l dest src m :
  src < dest → room m dest (length l) → bytes m src l →
  ∃ m', copy_up (length l) dest src m = Ret (tt, m') ∧
    (∀ k, ¬ (dest ≤ k < dest + Z.of_nat (length l)) → m' !! k = m !! k) ∧
    (∀ i, (i < length l)%nat → m' !! (dest + Z.of_nat i) = l !! (i `mod` Z.to_nat (dest - src))%nat).
Proof.
  intros Hd Hr Hl.
  destruct (copy_up_overlap (length l) dest src m Hd Hr (bytes_room _ _ _ Hl)) as (m' & Hrun & Hout & Hin).
  exists m'. split; [done|]. split; [done|]. set (d := Z.to_nat (dest - src)).
  intros i. induction i as [i IH] using lt_wf_ind. intros Hi.
  rewrite Hin by lia. destruct (decide (i < d)%nat) as [Hlt|Hge].
  - rewrite Nat.mod_small by done. destruct (lookup_lt_is_Some_2 l i Hi) as [x Hx]. rewrite Hx, Hout by lia.
    rewrite <- (bytes_lookup m src l i x Hl Hx). f_equal. lia.
  - replace (dest + Z.of_nat i - (dest - src)) with (dest + Z.of_nat (i - d)) by lia.
    rewrite (IH (i - d)%nat) by lia. f_equal.
    replace i with (i - d + 1 * d)%nat at 2 by lia. by rewrite Nat.Div0.mod_add.
Qed.
End copies.

(** C37 [acoral_memmove] and [acoral_memcpy] against the copy that reads all
    bytes before it writes the first.  Wherever the areas lie, [acoral_memmove]
    is that copy.  [acoral_memcpy] gives the same memory unless [dest] is inside
    of the source above its first byte; there it repeats the first [dest - src]
    bytes of the source over the whole destination. *)
Theorem memmove_equivalent (l : list Z) (dest src : Z) (m : bytemem) :
  bytes m src l → room m dest (length l) →
  let n := Z.of_nat (length l) in
  acoral_memmove dest src n m = Ret (dest, poke dest l m) ∧
  bytes (poke dest l m) dest l ∧
  (∀ k, ¬ (dest ≤ k < dest + n) → poke dest l m !! k = m !! k) ∧
  (dest ≤ src ∨ src + n ≤ dest → acoral_memcpy dest src n m = acoral_memmove dest src n m) ∧
  (src < dest → ∃ m', acoral_memcpy dest src n m = Ret (dest, m') ∧
    (∀ k, ¬ (dest ≤ k < dest + n) → m' !! k = m !! k) ∧
    (∀ i, (i < length l)%nat → m' !! (dest + Z.of_nat i) = l !! (i `mod` Z.to_nat (dest - src))%nat)).
Proof.
  intros Hl Hr n.
  assert (acoral_memmove dest src n m = Ret (dest, poke dest l m)) as Hmove.
  { unfold acoral_memmove, n. rewrite Nat2Z.id. destruct (Z.leb_spec dest src).
    - erewrite run_bind by (apply copy_up_spec; [done|done|by left]). done.
    - erewrite run_bind by (by apply copy_down_spec). done. }
  split_and!; [done|apply poke_bytes| | |].
  - intros k Hk. by rewrite poke_lookup, decide_False.
  - intros Hd. rewrite Hmove. unfold acoral_memcpy, n. rewrite Nat2Z.id.
    by erewrite run_bind by (by apply copy_up_spec).
  - intros Hd. destruct (copy_up_period l dest src m Hd Hr Hl) as (m' & Hrun & Hout & Hin).
    exists m'. split; [|done]. unfold acoral_memcpy, n. rewrite Nat2Z.id. by erewrite run_bind by done.
Qed.

(** ** Strings *)
Section strings.
Implicit Types (m : bytemem) (l : list Z).

Lemma cstr_nil m p : cstr m p [] ↔ m !! p = Some 0.
Proof. unfold cstr. simpl. split; [tauto|]. intros. by split_and!. Qed.

Lemma cstr_cons m p x l : cstr m p (x :: l) ↔ (0 < x < 256 ∧ m !! p = Some x) ∧ cstr m (p + 1) l.
Proof. unfold cstr. simpl. rewrite Forall_cons. tauto. Qed.

Lemma cstr_bytes m p l : cstr m p l → bytes m p l.
Proof. intros [_ H]. by apply bytes_app in H as [? _]. Qed.

Lemma cstr_size m p l : cstr m p l → (length l < size m)%nat.
Proof. intros [_ H]. apply bytes_size in H. rewrite length_app in H. simpl in H. lia. Qed.

(** A string begins in two ways. *)
Lemma cstr_first m p l : cstr m p l → ∃ x, m !! p = Some x ∧ 0 ≤ x < 256 ∧ (x = 0 ↔ l = []).
Proof.
  destruct l as [|x l].
  - intros ->%cstr_nil. by exists 0.
  - intros [[Hx Hm] _]%cstr_cons. exists x. split_and!; [done|lia|lia|]. split; [lia|done].
Qed.

Lemma len_loop_spec l fuel p i m :
  cstr m p l → (length l ≤ fuel)%nat → 0 ≤ i → i + Z.of_nat (length l) < 2 ^ 32 →
  len_loop fuel p i m = Ret (i + Z.of_nat (length l), m).
Proof.
  revert fuel p i. induction l as [|x l IH]; intros fuel p i Hs Hf Hi Hb.
  - apply cstr_nil in Hs. destruct fuel; simpl; erewrite run_bind by (by apply run_load8); simpl; by rewrite Z.add_0_r.
  - apply cstr_cons in Hs as [[Hx Hm] Hs]. simpl in Hf, Hb. destruct fuel as [|fuel]; [lia|]. cbn [len_loop].
    erewrite run_bind by (by apply run_load8). rewrite (proj2 (Z.eqb_neq x 0)) by lia.
    rewrite wrapu_small by lia. rewrite (IH fuel) by (done || lia). simpl. do 2 f_equal. lia.
Qed.

Lemma str_len_spec m p l :
  cstr m p l → Z.of_nat (length l) < 2 ^ 32 → acoral_str_len p m = Ret (Z.of_nat (length l), m).
Proof.
  intros Hs Hb. unfold acoral_str_len. rewrite run_scan. pose proof (cstr_size _ _ _ Hs).
  by rewrite (len_loop_spec l) by (done || lia).
Qed.

Lemma memcmp_spec l1 l2 p q m :
  bytes m p l1 → bytes m q l2 → length l1 = length l2 →
  ∃ r, memcmp_loop (length l1) p q 0 m = Ret (r, m) ∧ (r = 0 ↔ l1 = l2).
Proof.
  revert l2 p q. induction l1 as [|x l1 IH]; intros [|y l2] p q H1 H2 Hl; try done.
  { by exists 0. }
  destruct H1 as [Hx H1], H2 as [Hy H2]. cbn [length memcmp_loop].
  do 2 erewrite run_bind by (by apply run_load8).
  destruct (Z.eqb_spec (x - y) 0) as [E|E]; cbn [negb].
  - rewrite E. destruct (IH l2 (p + 1) (q + 1)) as (r & Hrun & Hr); [done|done|by injection Hl|].
    exists r. split; [done|]. rewrite Hr. assert (x = y) as -> by lia. split; [by intros ->|by intros [= ->]].
  - exists (x - y). split; [done|]. split; [lia|]. intros [= -> _]. lia.
Qed.
End strings.

(** ** Substrings *)
(** The place of the first occurrence of [l2] in [l1]. *)
Fixpoint find_sub (l2 l1 : list Z) : option nat :=
  if decide (l2 `prefix_of` l1) then Some 0%nat else
  match l1 with
  | [] => None
  | _ :: l1 => S <$> find_sub l2 l1
  end.

Lemma find_sub_Some l2 l1 k :
  find_sub l2 l1 = Some k ↔ l2 `prefix_of` drop k l1 ∧ (∀ j, (j < k)%nat → ¬ l2 `prefix_of` drop j l1).
Proof.
  revert k. induction l1 as [|x l1 IH]; intros k; simpl; case_decide as Hp.
  - split; [intros [= <-]; split; [done|lia]|]. destruct k as [|k]; [done|]. intros [_ H]. by destruct (H 0%nat); [lia|].
  - split; [done|]. intros [H _]. rewrite drop_nil in H. done.
  - split; [intros [= <-]; split; [done|lia]|]. destruct k as [|k]; [done|]. intros [_ H]. by destruct (H 0%nat); [lia|].
  - rewrite fmap_Some. split.
    + intros (k' & Hk%IH & ->). destruct Hk as [Hk Hj]. split; [done|]. intros [|j] Hlt; [done|]. apply Hj. lia.
    + intros [Hk Hj]. destruct k as [|k]; [done|]. exists k. split; [|done]. apply IH. split; [done|].
      intros j Hlt. apply (Hj (S j)). lia.
Qed.

Lemma find_sub_short l2 l1 : (length l1 < length l2)%nat → find_sub l2 l1 = None.
Proof.
  induction l1 as [|x l1 IH]; simpl; intros Hl; case_decide as Hp; try done;
    try (apply prefix_length in Hp; simpl in Hp; lia). by rewrite IH by lia.
Qed.

(** A prefix is what [memcmp] finds equal. *)
Lemma prefix_take (l2 l1 : list Z) : (length l2 ≤ length l1)%nat → l2 `prefix_of` l1 ↔ take (length l2) l1 = l2.
Proof.
  intros Hl. split.
  - intros [k ->]. by rewrite take_app_length.
  - intros H. exists (drop (length l2) l1). by rewrite <- H at 1; rewrite take_drop.
Qed.

Lemma strstr_loop_spec m p2 l2 l1 p1 fuel :
  bytes m p1 l1 → bytes m p2 l2 → l2 ≠ [] → (length l1 ≤ fuel)%nat → Z.of_nat (length l2) < 2 ^ 31 →
  strstr_loop fuel p1 p2 (Z.of_nat (length l1)) (Z.of_nat (length l2)) m =
    Ret (match find_sub l2 l1 with Some k => p1 + Z.of_nat k | None => 0 end, m).
Proof.
  revert p1 fuel. induction l1 as [|x l1 IH]; intros p1 fuel H1 H2 Hne Hf Hb.
  { rewrite find_sub_short by (destruct l2; [done|simpl; lia]).
    destruct fuel; cbn [strstr_loop]; by rewrite (proj2 (Z.leb_gt _ _)) by (destruct l2; [done|simpl; lia]). }
  destruct (Z.leb_spec (Z.of_nat (length l2)) (Z.of_nat (length (x :: l1)))) as [Hle|Hgt].
  2:{ rewrite find_sub_short by lia. destruct fuel; cbn [strstr_loop]; by rewrite (proj2 (Z.leb_gt _ _)) by lia. }
  destruct fuel as [|fuel]; [simpl in Hf; lia|]. cbn [strstr_loop].
  rewrite (proj2 (Z.leb_le _ _)) by lia. unfold acoral_memcmp. rewrite wrapu_small, Nat2Z.id by lia.
  pose proof H1 as H1'. rewrite <- (take_drop (length l2) (x :: l1)) in H1'. apply bytes_app in H1' as [H1' _].
  assert (length (take (length l2) (x :: l1)) = length l2) as Hlen by (rewrite length_take; lia).
  destruct (memcmp_spec _ _ _ _ _ H1' H2 Hlen) as (r & Hrun & Hr).
  rewrite Hlen in Hrun. erewrite run_bind by exact Hrun. rewrite <- prefix_take in Hr by lia.
  cbn [find_sub]. destruct (Z.eqb_spec r 0) as [E|E].
  - rewrite decide_True by (by apply Hr). by rewrite Z.add_0_r.
  - rewrite decide_False by (by rewrite <- Hr). destruct H1 as [_ H1].
    replace (Z.of_nat (length (x :: l1)) - 1) with (Z.of_nat (length l1)) by (simpl; lia).
    rewrite (IH (p1 + 1) fuel) by (done || simpl in Hf; lia).
    destruct (find_sub l2 l1); simpl; [|done]. do 2 f_equal. lia.
Qed.

(** C38 [acoral_strstr] against the search for the first place of the first
    string where the second is a prefix of the rest: it returns the address of
    that place, and NULL when there is none.  The empty string is found at the
    beginning. *)
Theorem strstr_equivalent m p1 p2 l1 l2 :
  cstr m p1 l1 → cstr m p2 l2 → Z.of_nat (length l1) < 2 ^ 31 → Z.of_nat (length l2) < 2 ^ 31 →
  acoral_strstr p1 p2 m = Ret (match find_sub l2 l1 with Some k => p1 + Z.of_nat k | None => 0 end, m) ∧
  (∀ k, find_sub l2 l1 = Some k ↔ l2 `prefix_of` drop k l1 ∧ (∀ j, (j < k)%nat → ¬ l2 `prefix_of` drop j l1)).
Proof.
  intros H1 H2 Hb1 Hb2. split; [|intros; apply find_sub_Some].
  unfold acoral_strstr. erewrite run_bind by (apply str_len_spec; [done|lia]).
  rewrite wraps_small by (simpl; lia). destruct (Z.eqb_spec (Z.of_nat (length l2)) 0) as [E|E].
  - destruct l2; [|simpl in E; lia]. destruct l1; simpl; by rewrite Z.add_0_r.
  - erewrite run_bind by (apply str_len_spec; [done|lia]). rewrite wraps_small by (simpl; lia). cbv zeta.
    rewrite strstr_loop_spec; [done|by apply cstr_bytes|by apply cstr_bytes|by intros ->|lia|done].
Qed.

(** ** Comparisons *)
Section comparisons.
Implicit Types (m : bytemem) (l : list Z).

Lemma cmp_loop_spec l1 l2 fuel p q c m :
  cstr m p l1 → cstr m q l2 → length l1 = length l2 → (length l1 ≤ fuel)%nat →
  ∃ r, cmp_loop fuel p q c m = Ret (r, m) ∧ (l1 = [] → r = c) ∧ (l1 ≠ [] → r = 0 ↔ l1 = l2).
Proof.
  revert l2 fuel p q c. induction l1 as [|x l1 IH]; intros [|y l2] fuel p q c H1 H2 Hl Hf; try done.
  { apply cstr_nil in H1. exists c. split; [|done]. destruct fuel; simpl; by erewrite run_bind by (by apply run_load8). }
  apply cstr_cons in H1 as [[Hx Hm1] H1], H2 as [[Hy Hm2] H2]. injection Hl as Hl. simpl in Hf.
  destruct fuel as [|fuel]; [lia|]. cbn [cmp_loop].
  erewrite run_bind by (by apply run_load8). rewrite (proj2 (Z.eqb_neq x 0)) by lia.
  erewrite run_bind by (by apply run_load8).
  assert (u32 (x - y) = 0 ↔ x = y) as Hxy.
  { unfold wrapu. destruct (Z.lt_trichotomy x y) as [?|[->|?]].
    - replace (x - y) with (x - y + 2 ^ 32 + (-1) * 2 ^ 32) by lia. rewrite Z.mod_add, Z.mod_small by lia. lia.
    - by rewrite Z.sub_diag.
    - rewrite Z.mod_small by lia. lia. }
  destruct (Z.eqb_spec (u32 (x - y)) 0) as [E|E]; cbn [negb].
  - rewrite E. destruct (IH l2 fuel (p + 1) (q + 1) 0) as (r & Hrun & He & Hr); [done..|lia|].
    exists r. split; [done|]. split; [done|]. intros _. apply Hxy in E as ->.
    destruct l1 as [|x1 l1]; [|rewrite Hr by done; split; [by intros ->|by intros [= ->]]].
    destruct l2; [|done]. rewrite He by done. done.
  - eexists. split; [done|]. split; [done|]. intros _. split; [done|]. intros [= -> _]. by destruct E; apply Hxy.
Qed.

Lemma ncmp_loop_spec n l1 l2 p q m :
  cstr m p l1 → cstr m q l2 →
  ∃ r, ncmp_loop n p q 0 m = Ret (r, m) ∧ (r = 0 ↔ take n l1 = take n l2).
Proof.
  revert l1 l2 p q. induction n as [|n IH]; intros l1 l2 p q H1 H2; [by exists 0|].
  destruct (cstr_first _ _ _ H1) as (a & Ha & Hra & Ha0), (cstr_first _ _ _ H2) as (b & Hb & Hrb & Hb0).
  cbn [ncmp_loop]. do 2 erewrite run_bind by (by apply run_load8).
  assert (s8 (a - b) = 0 ↔ a = b) as Hab.
  { unfold wraps. destruct (decide (a = b)) as [->|Hne]; [by rewrite Z.sub_diag|]. split; [|done]. intros E.
    pose proof (Z.div_mod (a - b + 2 ^ (8 - 1)) (2 ^ 8)). lia. }
  destruct (Z.eqb_spec (s8 (a - b)) 0) as [E|E]; cbn [negb orb].
  - rewrite E. apply Hab in E as <-. destruct (Z.eqb_spec a 0) as [Ez|Ez].
    + exists 0. split; [done|]. apply Ha0 in Ez as El. apply Hb0 in Ez as ->. by rewrite El.
    + destruct l1 as [|x l1]; [naive_solver|]. destruct l2 as [|y l2]; [naive_solver|].
      apply cstr_cons in H1 as [[_ Hm1] H1], H2 as [[_ Hm2] H2].
      destruct (IH l1 l2 (p + 1) (q + 1)) as (r & Hrun & Hr); [done..|]. exists r. split; [done|].
      simpl. rewrite Hr. assert (x = y) as -> by congruence. split; [by intros ->|by intros [= ->]].
  - eexists. split; [done|]. split; [done|]. intros Ht. destruct E. apply Hab.
    destruct l1 as [|x l1], l2 as [|y l2]; simpl in Ht; try done.
    + rewrite (proj2 Ha0), (proj2 Hb0); done.
    + apply cstr_cons in H1 as [[_ Hm1] _], H2 as [[_ Hm2] _]. congruence.
Qed.

(** What [acoral_str_nicmp] takes as one letter. *)
Definition same_letter (a b : Z) : Prop := a = b ∨ acoral_tolower a = acoral_tolower b.

Lemma nicmp_loop_spec n l1 l2 p q m :
  cstr m p l1 → cstr m q l2 →
  ∃ c1 c2, nicmp_loop n p q m = Ret ((c1, c2), m) ∧
    (c1 - c2 = 0 ↔ Forall2 same_letter (take (S n) l1) (take (S n) l2)).
Proof.
  revert l1 l2 p q. induction n as [|n IH]; intros l1 l2 p q H1 H2.
  all: destruct (cstr_first _ _ _ H1) as (a & Ha & Hra & Ha0), (cstr_first _ _ _ H2) as (b & Hb & Hrb & Hb0).
  all: cbn [nicmp_loop]; do 2 erewrite run_bind by (by apply run_load8).
  all: destruct l1 as [|x l1];
    [rewrite (proj2 (Z.eqb_eq a 0)) by (by apply Ha0); exists a, b; split; [done|];
     rewrite (proj2 Ha0) by done; destruct l2; [rewrite (proj2 Hb0) by done; split; [constructor|done]|];
     split; [intros; exfalso; assert (b = 0) as E by lia; by apply Hb0 in E|inversion 1]|].
  all: rewrite (proj2 (Z.eqb_neq a 0)) by (by rewrite Ha0).
  all: destruct l2 as [|y l2];
    [rewrite (proj2 (Z.eqb_eq b 0)) by (by apply Hb0); exists a, b; split; [done|];
     rewrite (proj2 Hb0) by done; split; [intros; exfalso; assert (a = 0) as E by lia; by apply Ha0 in E|inversion 1]|].
  all: rewrite (proj2 (Z.eqb_neq b 0)) by (by rewrite Hb0); cbv zeta.
  all: apply cstr_cons in H1 as [[_ Hm1] H1], H2 as [[_ Hm2] H2].
  all: assert (x = a) as -> by congruence; assert (y = b) as -> by congruence.
  all: set (d1 := if a =? b then a else _); set (d2 := if a =? b then b else _).
  all: assert (d1 = d2 ↔ same_letter a b) as Hd by
    (unfold d1, d2, same_letter; destruct (Z.eqb_spec a b); [tauto|tauto]).
  all: destruct (Z.eqb_spec d1 d2) as [E|E]; cbn [negb];
    [|exists d1, d2; split; [done|]; split; [lia|]; intros Hf; inversion Hf; subst; tauto].
  - exists d1, d2. split; [done|]. split; [intros _|lia]. constructor; [tauto|constructor].
  - destruct (IH l1 l2 (p + 1) (q + 1) H1 H2) as (c1 & c2 & Hrun & Hc). exists c1, c2. split; [done|].
    change (take (S (S n)) (?x :: ?l)) with (x :: take (S n) l).
    rewrite Hc. split; [intros; by constructor; [tauto|]|by inversion 1].
Qed.
End comparisons.

Lemma str_cmp_spec m p1 p2 l1 l2 junk :
  cstr m p1 l1 → cstr m p2 l2 → p1 ≠ 0 → p2 ≠ 0 → Z.of_nat (length l1) < 2 ^ 31 → Z.of_nat (length l2) < 2 ^ 31 →
  ∃ r, acoral_str_cmp junk p1 p2 m = Ret (r, m) ∧
    (l1 = [] → l2 = [] → r = junk) ∧ (l1 ≠ [] ∨ l2 ≠ [] → r = 0 ↔ l1 = l2).
Proof.
  intros H1 H2 Hp1 Hp2 Hb1 Hb2.
  unfold acoral_str_cmp. rewrite !(proj2 (Z.eqb_neq _ 0)) by done. cbn [orb].
  do 2 erewrite run_bind by (apply str_len_spec; [done|lia]).
  destruct (Z.eqb_spec (Z.of_nat (length l1)) (Z.of_nat (length l2))) as [E|E]; cbn [negb].
  - rewrite run_scan. pose proof (cstr_size _ _ _ H1).
    destruct (cmp_loop_spec l1 l2 (S (size m)) p1 p2 junk m) as (r & Hrun & He & Hr); [done|done|lia|lia|].
    exists r. split; [done|]. split; [auto|]. intros [Hne|Hne]; [auto|]. apply Hr.
    intros ->. destruct l2; [done|]. simpl in E. lia.
  - eexists. split; [done|]. split; [by intros -> ->|]. intros _. split; [|by intros ->].
    unfold wrapu. intros Hz. pose proof (Z.div_mod (Z.of_nat (length l1) - Z.of_nat (length l2)) (2 ^ 32)). lia.
Qed.

(** What the result 0 of the comparisons means.  [acoral_str_cmp] returns it
    for equal strings only, but for two empty strings its result has no value.
    [acoral_str_ncmp] returns it exactly for strings with the same first [n]
    characters.  [acoral_str_nicmp], which is to ignore case, returns it exactly
    when the first [n] characters agree up to [acoral_tolower]; since that maps
    every character that is no letter to 0, any two of those are the same. *)
Theorem comparisons_zero m p1 p2 l1 l2 junk n :
  cstr m p1 l1 → cstr m p2 l2 → p1 ≠ 0 → p2 ≠ 0 →
  Z.of_nat (length l1) < 2 ^ 31 → Z.of_nat (length l2) < 2 ^ 31 → 0 ≤ n →
  (∃ r, acoral_str_cmp junk p1 p2 m = Ret (r, m) ∧
    (l1 = [] → l2 = [] → r = junk) ∧ (l1 ≠ [] ∨ l2 ≠ [] → r = 0 ↔ l1 = l2)) ∧
  (∃ r, acoral_str_ncmp p1 p2 n m = Ret (r, m) ∧ (r = 0 ↔ take (Z.to_nat n) l1 = take (Z.to_nat n) l2)) ∧
  (∃ r, acoral_str_nicmp p1 p2 n m = Ret (r, m) ∧
    (r = 0 ↔ Forall2 same_letter (take (Z.to_nat n) l1) (take (Z.to_nat n) l2))) ∧
  (∀ a b, IS_LOWER a = false → IS_UPPER a = false → IS_LOWER b = false → IS_UPPER b = false → same_letter a b).
Proof.
  intros H1 H2 Hp1 Hp2 Hb1 Hb2 Hn. split_and!.
  - by apply str_cmp_spec.
  - unfold acoral_str_ncmp. by apply ncmp_loop_spec.
  - unfold acoral_str_nicmp. destruct (Z.eqb_spec n 0) as [->|Hz]; cbn [negb].
    + exists 0. split; [done|]. split; [constructor|done].
    + destruct (nicmp_loop_spec (Z.to_nat (n - 1)) l1 l2 p1 p2 m H1 H2) as (c1 & c2 & Hrun & Hc).
      exists (c1 - c2). split; [by erewrite run_bind by exact Hrun|].
      replace (Z.to_nat n) with (S (Z.to_nat (n - 1))) by lia. done.
  - intros a b Ha1 Ha2 Hb3 Hb4. right. unfold acoral_tolower. by rewrite Ha1, Ha2, Hb3, Hb4.
Qed.

(** ** Witnesses *)
Definition sample_mem : bytemem := poke 100 [97; 98; 99; 0] (poke 200 [98; 99; 0] (poke 300 [66; 57; 0] (poke 400 [98; 48; 0] ∅))).

Lemma memmove_equivalent_witness : ∃ m m' : bytemem,
  acoral_memmove 101 100 3 sample_mem = Ret (101, m) ∧ m !! 102 = Some 98 ∧
  acoral_memcpy 101 100 3 sample_mem = Ret (101, m') ∧ m' !! 102 = Some 97.
Proof.
  destruct (memmove_equivalent [97; 98; 99] 101 100 sample_mem) as (Hrun & (_ & Hb & _) & _ & _ & Hcpy).
  - by vm_compute.
  - intros k Hk. assert (k = 101 ∨ k = 102 ∨ k = 103) as [-> | [-> | ->]] by (simpl in Hk; lia); by vm_compute; eexists.
  - destruct Hcpy as (m' & Hrun' & _ & Hi); [lia|].
    eexists _, m'. split; [exact Hrun|]. split; [exact Hb|]. split; [exact Hrun'|].
    exact (Hi 1%nat ltac:(simpl; lia)).
Defined.

Lemma strstr_equivalent_witness : acoral_strstr 100 200 sample_mem = Ret (101, sample_mem).
Proof.
  destruct (strstr_equivalent sample_mem 100 200 [97; 98; 99] [98; 99]) as [H _].
  - split; [repeat constructor; lia|by vm_compute].
  - split; [repeat constructor; lia|by vm_compute].
  - simpl; lia.
  - simpl; lia.
  - exact H.
Defined.

(** ["B9"] and ["b0"] are equal but for case. *)
Lemma comparisons_zero_witness : acoral_str_nicmp 300 400 2 sample_mem = Ret (0, sample_mem).
Proof.
  destruct (comparisons_zero sample_mem 300 400 [66; 57] [98; 48] 7 2) as (_ & _ & (r & Hrun & Hr) & _).
  - split; [repeat constructor; lia|by vm_compute].
  - split; [repeat constructor; lia|by vm_compute].
  - done.
  - done.
  - simpl; lia.
  - simpl; lia.
  - lia.
  - rewrite Hrun. rewrite (proj2 Hr); [done|]. repeat constructor; by right.
Defined.
