(* ===== verification/Print.v ===== *)
(** * components/tmp/lib/src/print.c: formatted output

    [smp_print] walks a format string in memory and sends characters to the
    console.  The variable arguments are a list of words; taking one that is not
    there is an access to no object.  [outbuf] of [outnum] is a list of 32
    characters.  The 64-bit variants and the flag [l] do nothing on this target.
    Entering and leaving the critical section is the interface [Critical]. *)
From S2P Require Import Prelude Interfaces Str.
From stdpp Require Import list.
#[local] Open Scope Z_scope.

(** The memory, what the console got so far, and the two statics. *)
Record pstate : Type := mk_pstate {
  p_mem : bytemem;
  p_out : list Z;
  p_print_init : Z;
  p_print_lock : Z;
}.
Definition set_p_mem (m : bytemem) (s : pstate) : pstate := mk_pstate m (p_out s) (p_print_init s) (p_print_lock s).
Definition set_p_out (o : list Z) (s : pstate) : pstate := mk_pstate (p_mem s) o (p_print_init s) (p_print_lock s).
Definition set_p_print_init (v : Z) (s : pstate) : pstate := mk_pstate (p_mem s) (p_out s) v (p_print_lock s).
Definition set_p_print_lock (v : Z) (s : pstate) : pstate := mk_pstate (p_mem s) (p_out s) (p_print_init s) v.

Abbreviation P := (M pstate).

Definition on_mem {A} (m : B A) : P A := zoom (Lens p_mem set_p_mem) m.
Definition outbyte (c : Z) : P unit := modify (λ s, set_p_out (p_out s ++ [u8 c]) s).

(** [params_t]. *)
Record params : Type := mk_params {
  len : Z;
  num1 : Z;
  num2 : Z;
  pad_character : Z;
  do_padding : Z;
  left_flag : Z;
  unsigned_flag : Z;
}.
Definition set_len v p := mk_params v (num1 p) (num2 p) (pad_character p) (do_padding p) (left_flag p) (unsigned_flag p).
Definition set_num1 v p := mk_params (len p) v (num2 p) (pad_character p) (do_padding p) (left_flag p) (unsigned_flag p).
Definition set_num2 v p := mk_params (len p) (num1 p) v (pad_character p) (do_padding p) (left_flag p) (unsigned_flag p).
Definition set_pad_character v p := mk_params (len p) (num1 p) (num2 p) v (do_padding p) (left_flag p) (unsigned_flag p).
Definition set_do_padding v p := mk_params (len p) (num1 p) (num2 p) (pad_character p) v (left_flag p) (unsigned_flag p).
Definition set_left_flag v p := mk_params (len p) (num1 p) (num2 p) (pad_character p) (do_padding p) v (unsigned_flag p).
Definition set_unsigned_flag v p := mk_params (len p) (num1 p) (num2 p) (pad_character p) (do_padding p) (left_flag p) v.

Definition default_params : params := mk_params 0 0 32767 32 0 0 0.

(** [isdigit] and [tolower] of the C library. *)
Definition isdigit (c : Z) : bool := (48 <=? c) && (c <=? 57).
Definition tolower (c : Z) : Z := if IS_UPPER c then c + 32 else c.

Fixpoint pad_loop (n : nat) (c : Z) : P unit :=
  match n with O => mret tt | S n => outbyte c;; pad_loop n c end.

(** [l_flag] is nonzero or zero. *)
Definition padding (l_flag : bool) (par : params) : P unit :=
  if negb (do_padding par =? 0) && l_flag && (len par <? num1 par)
  then pad_loop (Z.to_nat (num1 par - len par)) (pad_character par)
  else mret tt.

(** [strlen] of the C library. *)
Fixpoint strlen_loop (fuel : nat) (p i : Z) : B Z :=
  c ← load8 p;
  if c =? 0 then mret i else
  match fuel with O => fail Diverge | S fuel => strlen_loop fuel (p + 1) (i + 1) end.
Definition strlen (p : Z) : B Z := scan (λ n, strlen_loop n p 0).

(** The loop of [outs]; each turn reads another address. *)
Fixpoint outs_loop (fuel : nat) (p n2 : Z) : P Z :=
  c ← on_mem (load8 p);
  if (c =? 0) || (n2 =? 0) then mret n2 else
  outbyte c;;
  match fuel with O => fail Diverge | S fuel => outs_loop fuel (p + 1) (n2 - 1) end.

Definition outs (lp : Z) (par : params) : P params :=
  par ← (if lp =? 0 then mret par else l ← on_mem (strlen lp); mret (set_len (s32 l) par));
  padding (left_flag par =? 0) par;;
  fuel ← get (λ s, S (size (p_mem s)));
  n2 ← outs_loop fuel lp (num2 par);
  let par := set_num2 n2 par in
  padding (negb (left_flag par =? 0)) par;;
  mret par.

Definition digits : list Z := [48; 49; 50; 51; 52; 53; 54; 55; 56; 57; 65; 66; 67; 68; 69; 70].

(** [outbuf[i] = c]. *)
Definition put (outbuf : list Z) (i c : Z) : P (list Z) :=
  if (0 <=? i) && (i <? 32) then mret (<[Z.to_nat i := c]> outbuf) else fail Wild.

(** The digits of [num], from the last one on; the result is [outbuf] and [i]. *)
Fixpoint build_loop (fuel : nat) (num base : Z) (outbuf : list Z) (i : Z) : P (list Z * Z) :=
  c ← deref (λ _, digits !! Z.to_nat (num mod base));
  outbuf ← put outbuf i c;
  let i := i + 1 in
  let num := num / base in
  if num <=? 0 then mret (outbuf, i) else
  match fuel with O => fail Diverge | S fuel => build_loop fuel num base outbuf i end.

(** [strlen(outbuf)]. *)
Definition buf_len (outbuf : list Z) : Z :=
  match list_find (λ c, c = 0) outbuf with Some (n, _) => Z.of_nat n | None => 32 end.

(** The characters from index [n - 1] down. *)
Fixpoint back_loop (n : nat) (outbuf : list Z) : P unit :=
  match n with
  | O => mret tt
  | S n => c ← deref (λ _, outbuf !! n); outbyte c;; back_loop n outbuf
  end.

Definition outnum (n base : Z) (par : params) : P params :=
  let negative := (unsigned_flag par =? 0) && (base =? 10) && (n <? 0) in
  let num := u32 (if negative then s32 (- n) else n) in
  '(outbuf, i) ← build_loop 32 num base (replicate 32 48) 0;
  '(outbuf, i) ← (if negative : bool then outbuf ← put outbuf i 45; mret (outbuf, i + 1) else mret (outbuf, i));
  outbuf ← put outbuf i 0;
  let par := set_len (buf_len outbuf) par in
  padding (left_flag par =? 0) par;;
  back_loop (Z.to_nat i) outbuf;;
  padding (negb (left_flag par =? 0)) par;;
  mret par.

Fixpoint getnum_loop (fuel : nat) (p n : Z) : B (Z * Z) :=
  c ← load8 p;
  if isdigit c then
    match fuel with
    | O => fail Diverge
    | S fuel => getnum_loop fuel (p + 1) (s32 (s32 (n * 10) + (c - 48)))
    end
  else mret (n, p).

(** The number and the pointer behind it. *)
Definition getnum (p : Z) : B (Z * Z) := scan (λ f, getnum_loop f p 0).

(** [va_arg]. *)
Definition va_arg (argp : list Z) : P (Z * list Z) :=
  match argp with a :: argp => mret (a, argp) | [] => fail Wild end.

(** What a conversion character does: the arguments that are left, and the new
    flags when the conversion goes on ([Check] is 0), with the number of
    characters [ctrl] moves by. *)
Inductive checked : Type :=
  | Done (argp : list Z)
  | More (dot : bool) (par : params) (argp : list Z) (step : Z).

Definition convert (ch : Z) (dot : bool) (par : params) (argp : list Z) : P checked :=
  let c := tolower ch in
  if c =? 37 then outbyte 37;; mret (Done argp)
  else if c =? 45 then mret (More dot (set_left_flag 1 par) argp 0)
  else if c =? 46 then mret (More true par argp 0)
  else if c =? 108 then mret (More dot par argp 0)
  else if (c =? 117) || (c =? 105) || (c =? 100) then
    let par := if c =? 117 then set_unsigned_flag 1 par else par in
    '(a, argp) ← va_arg argp;
    outnum (s32 a) 10 par;;
    mret (Done argp)
  else if (c =? 112) || (c =? 120) then
    '(a, argp) ← va_arg argp;
    outnum (s32 a) 16 (set_unsigned_flag 1 par);;
    mret (Done argp)
  else if c =? 115 then
    '(a, argp) ← va_arg argp;
    outs a par;;
    mret (Done argp)
  else if c =? 99 then
    '(a, argp) ← va_arg argp;
    outbyte a;;
    mret (Done argp)
  else if c =? 92 then
    outbyte ch;;  (* the inner switch is on this same character *)
    mret (More dot par argp 1)
  else mret (Done argp).

(** The loop over the format; [st] is the state of a conversion under way
    (from [try_next] on).  Each turn reads another character. *)
Fixpoint print_loop (fuel : nat) (st : option (bool * params)) (ctrl : Z) (argp : list Z) : P unit :=
  match fuel with
  | O => fail Diverge
  | S fuel =>
      match st with
      | None =>
          c ← on_mem (load8 ctrl);
          if c =? 0 then mret tt
          else if negb (c =? 37) then outbyte c;; print_loop fuel None (ctrl + 1) argp
          else print_loop fuel (Some (false, default_params)) ctrl argp
      | Some (dot, par) =>
          let ctrl := ctrl + 1 in
          ch ← on_mem (load8 ctrl);
          if isdigit ch then
            '(n, ctrl) ← on_mem (getnum ctrl);
            let par := if dot : bool then set_num2 n par
                       else set_do_padding 1 (set_num1 n (if ch =? 48 then set_pad_character 48 par else par)) in
            print_loop fuel (Some (dot, par)) (ctrl - 1) argp
          else
            r ← convert ch dot par argp;
            match r with
            | Done argp => print_loop fuel None (ctrl + 1) argp
            | More dot par argp step => print_loop fuel (Some (dot, par)) (ctrl + step) argp
            end
      end
  end.

(** The loop from the start of a format, under the lock. *)
Definition print_format (ctrl1 : Z) (argp : list Z) : P unit :=
  fuel ← get (λ s, S (S (size (p_mem s))));
  if ctrl1 =? 0 then mret tt else print_loop fuel None ctrl1 argp.

Definition print_lock_init : P unit :=
  i ← get p_print_init;
  when (i =? 0) (modify (set_p_print_init 1);; modify (set_p_print_lock 0)).
Definition print_spin_lock : P unit :=
  l ← get p_print_lock; if l =? 0 then modify (set_p_print_lock 1) else fail Deadlock.
Definition print_spin_unlock : P unit := modify (set_p_print_lock 0).

Section print.
Context {S : Type} `{!Critical S} (lp : lens S pstate).

Definition smp_print (ctrl1 : Z) (argp : list Z) : M S unit :=
  zoom lp print_lock_init;;
  cr_enter;;
  zoom lp print_spin_lock;;
  zoom lp (print_format ctrl1 argp);;
  zoom lp print_spin_unlock;;
  cr_exit.
End print.
