(* ===== verification/PrintSpec.v ===== *)
(** * Correctness of formatted output

    The reference is a list of pieces: characters that stand for themselves and
    conversions with their flags and argument.  A piece has a text in the format
    ([fmt]), words on the argument list ([words]), and an output ([render]). *)
From S2P Require Import Prelude Interfaces Str StrSpec Print.
From stdpp Require Import list.
#[local] Open Scope Z_scope.

(** ** Reference: numerals *)

(** The digit for [d]. *)
Definition digit (d : Z) : Z := if d <? 10 then 48 + d else 55 + d.

(** The numeral of [n], from the first digit; [k] bounds the number of digits
    after it. *)
Fixpoint show_in (k : nat) (base n : Z) : list Z :=
  match k with
  | O => [digit (n mod base)]
  | S k => (if n <? base then [] else show_in k base (n / base)) ++ [digit (n mod base)]
  end.
Definition show (base n : Z) : list Z := show_in 31 base n.

(** What a string of decimal digits stands for. *)
Definition decimal (ds : list Z) : Z := fold_left (λ n d, n * 10 + (d - 48)) ds 0.

(** ** Reference: formats *)
Inductive conversion : Type :=
  | Signed (a : Z)
  | Unsigned (a : Z)
  | Hexadecimal (a : Z)
  | Text (p : Z) (l : list Z)
  | Character (a : Z)
  | Percent.

(** The flag [-], the digits of a width, and those of a precision. *)
Inductive piece : Type :=
  | Literal (c : Z)
  | Convert (minus : bool) (width : list Z) (precision : option (list Z)) (c : conversion).

Definition letter (c : conversion) : Z :=
  match c with
  | Signed _ => 100 | Unsigned _ => 117 | Hexadecimal _ => 120
  | Text _ _ => 115 | Character _ => 99 | Percent => 37
  end.

Definition fmt_piece (x : piece) : list Z :=
  match x with
  | Literal c => [c]
  | Convert minus width precision c =>
      37 :: (if minus then [45] else []) ++ width ++
      (match precision with Some ds => 46 :: ds | None => [] end) ++ [letter c]
  end.

Definition word (c : conversion) : list Z :=
  match c with
  | Signed a | Unsigned a | Hexadecimal a | Character a => [a]
  | Text p _ => [p]
  | Percent => []
  end.

Definition words_piece (x : piece) : list Z :=
  match x with Literal _ => [] | Convert _ _ _ c => word c end.

(** [width - len] filling characters in front or behind. *)
Definition padded (minus : bool) (width : list Z) (len : nat) (text : list Z) : list Z :=
  let fill := replicate (Z.to_nat (decimal width) - len) (if decide (head width = Some 48) then 48 else 32) in
  if minus then text ++ fill else fill ++ text.

Definition number (c : conversion) : list Z :=
  match c with
  | Signed a => if s32 a <? 0 then 45 :: show 10 (- s32 a) else show 10 (s32 a)
  | Unsigned a => show 10 (u32 a)
  | Hexadecimal a => show 16 (u32 a)
  | _ => []
  end.

Definition render_piece (x : piece) : list Z :=
  match x with
  | Literal c => [c]
  | Convert minus width precision c =>
      match c with
      | Text _ l =>
          padded minus width (length l)
            (take (Z.to_nat (match precision with Some ds => decimal ds | None => 32767 end)) l)
      | Character a => [u8 a]
      | Percent => [37]
      | _ => padded minus width (length (number c)) (number c)
      end
  end.

Definition fmt (xs : list piece) : list Z := xs ≫= fmt_piece.
Definition words (xs : list piece) : list Z := xs ≫= words_piece.
Definition render (xs : list piece) : list Z := xs ≫= render_piece.

Definition numeral (ds : list Z) : Prop := Forall (λ d, 48 ≤ d ≤ 57) ds ∧ decimal ds < 2 ^ 31.

(** A string argument is a string of the memory. *)
Definition conversion_ok (m : bytemem) (c : conversion) : Prop :=
  match c with Text p l => p ≠ 0 ∧ cstr m p l ∧ Z.of_nat (length l) < 2 ^ 31 | _ => True end.

Definition piece_ok (m : bytemem) (x : piece) : Prop :=
  match x with
  | Literal c => 0 < c < 256 ∧ c ≠ 37
  | Convert _ width precision c =>
      numeral width ∧ match precision with Some ds => ds ≠ [] ∧ numeral ds | None => True end ∧ conversion_ok m c
  end.

(** ** Numerals *)
Section numerals.
Implicit Types (ds : list Z).

Lemma decimal_snoc ds d : decimal (ds ++ [d]) = decimal ds * 10 + (d - 48).
Proof. unfold decimal. by rewrite fold_left_app. Qed.

Lemma decimal_nonneg ds : Forall (λ d, 48 ≤ d ≤ 57) ds → 0 ≤ decimal ds.
Proof.
  induction ds as [|d ds IH] using rev_ind; [done|]. intros [Hds [Hd _]%Forall_cons]%Forall_app.
  rewrite decimal_snoc. specialize (IH Hds). lia.
Qed.

Lemma numeral_snoc ds d : numeral (ds ++ [d]) → numeral ds ∧ 48 ≤ d ≤ 57 ∧ 0 ≤ decimal ds * 10 + (d - 48) < 2 ^ 31.
Proof.
  intros [[Hds [Hd _]%Forall_cons]%Forall_app Hb]. rewrite decimal_snoc in Hb.
  pose proof (decimal_nonneg ds Hds). split_and!; [|lia..]. split; [done|lia].
Qed.

Lemma isdigit_iff c : isdigit c = true ↔ 48 ≤ c ≤ 57.
Proof. unfold isdigit. rewrite andb_true_iff, !Z.leb_le. done. Qed.

(** [getnum_loop] over the digits it meets; the last step first. *)
Lemma getnum_loop_digits ds : ∀ m p fuel, numeral ds → bytes m p ds → 
  getnum_loop (length ds + fuel) p 0 m = getnum_loop fuel (p + Z.of_nat (length ds)) (decimal ds) m.
Proof.
  induction ds as [|d ds IH] using rev_ind; intros m p fuel Hn Hb; [simpl; by rewrite Z.add_0_r|].
  apply numeral_snoc in Hn as (Hn & Hd & Hv). apply bytes_app in Hb as [Hb [Hc _]].
  rewrite length_app. simpl length. rewrite <- Nat.add_assoc, IH by done. simpl.
  erewrite run_bind by (by apply run_load8). rewrite (proj2 (isdigit_iff d)) by done.
  pose proof (decimal_nonneg _ (proj1 Hn)).
  rewrite decimal_snoc, !wraps_small by (lia || (rewrite wraps_small by lia; lia)). f_equal; lia.
Qed.

Lemma getnum_spec ds c m p :
  numeral ds → bytes m p (ds ++ [c]) → isdigit c = false →
  getnum p m = Ret ((decimal ds, p + Z.of_nat (length ds)), m).
Proof.
  intros Hn Hb Hc. unfold getnum. rewrite run_scan. pose proof (bytes_size _ _ _ Hb) as Hsz.
  rewrite length_app in Hsz. simpl in Hsz. apply bytes_app in Hb as [Hb [Hx _]].
  replace (S (size m)) with (length ds + (S (size m) - length ds))%nat by lia.
  rewrite getnum_loop_digits by done. destruct (S (size m) - length ds)%nat; simpl.
  all: erewrite run_bind by (by apply run_load8); by rewrite Hc.
Qed.

Lemma digit_lookup d : 0 ≤ d < 16 → digits !! Z.to_nat d = Some (digit d).
Proof.
  intros Hd. assert (d ∈ seqZ 0 16) as Hin by (apply elem_of_seqZ; lia). clear Hd. revert d Hin.
  apply Forall_forall. by repeat constructor.
Qed.

Lemma digit_range d : 0 ≤ d < 16 → 48 ≤ digit d < 71.
Proof. unfold digit. case_match eqn:E; lia. Qed.

Lemma show_in_unfold k base n : show_in (S k) base n = (if n <? base then [] else show_in k base (n / base)) ++ [digit (n mod base)].
Proof. done. Qed.

Lemma show_in_digits k base n : 10 ≤ base ≤ 16 → 0 ≤ n → Forall (λ d, 48 ≤ d < 71) (show_in k base n).
Proof.
  intros Hb. revert n. induction k as [|k IH]; intros n Hn; [|rewrite show_in_unfold; apply Forall_app; split].
  2: { case_match; [done|]. apply IH. apply Z.div_pos; lia. }
  all: apply Forall_singleton, digit_range; pose proof (Z.mod_pos_bound n base); lia.
Qed.

(** A numeral has as many digits as it takes. *)
Lemma show_in_length k base n j : 10 ≤ base ≤ 16 → 0 ≤ n < 10 ^ Z.of_nat j → (1 ≤ j)%nat → (length (show_in k base n) ≤ j)%nat.
Proof.
  intros Hb. revert n j. induction k as [|k IH]; intros n j Hn Hj; [done|]. rewrite show_in_unfold, length_app. simpl.
  case_match eqn:E; [simpl; lia|]. apply Z.ltb_ge in E.
  destruct j as [|[|j]]; [lia|simpl in Hn; lia|]. rewrite (Nat2Z.inj_succ (S j)), Z.pow_succ_r in Hn by lia.
  assert (0 ≤ n / base < 10 ^ Z.of_nat (S j)) as Hd.
  { split; [apply Z.div_pos; lia|]. apply Z.div_lt_upper_bound; nia. }
  specialize (IH _ (S j) Hd). lia.
Qed.

Lemma show_nonempty base n : show base n ≠ [].
Proof. unfold show. rewrite show_in_unfold. by destruct (if n <? base then _ else _). Qed.

(** Reading a decimal numeral gives the number back. *)
Lemma decimal_show_in k n : 0 ≤ n < 10 ^ Z.of_nat (S k) → decimal (show_in k 10 n) = n ∧ Forall (λ d, 48 ≤ d ≤ 57) (show_in k 10 n).
Proof.
  assert (∀ n, digit (n mod 10) = 48 + n mod 10) as Hd.
  { intros x. unfold digit. pose proof (Z.mod_pos_bound x 10). by rewrite (proj2 (Z.ltb_lt _ _)) by lia. }
  revert n. induction k as [|k IH]; intros n Hn.
  - simpl in *. rewrite Hd. unfold decimal. simpl. rewrite Z.mod_small by lia. split; [lia|]. constructor; [lia|done].
  - rewrite show_in_unfold, Hd, decimal_snoc. pose proof (Z.mod_pos_bound n 10). pose proof (Z.div_mod n 10).
    case_match eqn:E; [apply Z.ltb_lt in E|apply Z.ltb_ge in E].
    + rewrite Z.mod_small by lia. unfold decimal. simpl. split; [lia|]. constructor; [lia|done].
    + rewrite Nat2Z.inj_succ, Z.pow_succ_r in Hn by lia.
      destruct (IH (n / 10)) as [Hv Hf]; [split; [apply Z.div_pos; lia|apply Z.div_lt_upper_bound; lia]|].
      rewrite Hv. split; [lia|]. apply Forall_app. split; [done|]. constructor; [lia|done].
Qed.
End numerals.

(** ** Output of characters *)
Section output.
Implicit Types (s : pstate) (l : list Z) (par : params).

(** The console got [l] more. *)
Definition out l s : pstate := set_p_out (p_out s ++ l) s.

Lemma run_ret {T A} (a b : A) (s : T) : a = b → mret (M := M T) a s = Ret (b, s).
Proof. by intros ->. Qed.

Lemma run_ret_state {T A} (a : A) (s t : T) : s = t → mret (M := M T) a s = Ret (a, t).
Proof. by intros ->. Qed.

Lemma out_nil s : out [] s = s.
Proof. destruct s. unfold out, set_p_out. simpl. by rewrite app_nil_r. Qed.

Lemma out_out l l' s : out l' (out l s) = out (l ++ l') s.
Proof. destruct s. unfold out, set_p_out. simpl. by rewrite app_assoc. Qed.

Lemma run_outbyte c s : 0 ≤ c < 256 → outbyte c s = Ret (tt, out [c] s).
Proof. intros. unfold outbyte, modify. by rewrite wrapu_small. Qed.

Lemma run_on_mem {A} (m : B A) s a : m (p_mem s) = Ret (a, p_mem s) → on_mem m s = Ret (a, s).
Proof. intros Hm. unfold on_mem. erewrite run_zoom by done. by destruct s. Qed.

Lemma pad_loop_spec n c s : 0 ≤ c < 256 → pad_loop n c s = Ret (tt, out (replicate n c) s).
Proof.
  intros Hc. revert s. induction n as [|n IH]; intros s; [by rewrite out_nil|]. simpl.
  erewrite run_bind by (by apply run_outbyte). by rewrite IH, out_out.
Qed.

(** The flags a conversion with the flag [-] and these digits starts with. *)
Record flags_ok (minus : bool) (width : list Z) par : Prop := {
  fl_minus : left_flag par = if minus then 1 else 0;
  fl_pad : width ≠ [] → do_padding par = 1;
  fl_nopad : width = [] → do_padding par = 0;
  fl_num1 : num1 par = decimal width;
  fl_char : pad_character par = if decide (head width = Some 48) then 48 else 32;
}.

(** What padding puts on the side that [b] stands for. *)
Lemma padding_spec minus width par (b : bool) (len0 : nat) s :
  flags_ok minus width par → len par = Z.of_nat len0 →
  padding b par s = Ret (tt, out (if b then replicate (Z.to_nat (decimal width) - len0)
                                             (if decide (head width = Some 48) then 48 else 32) else []) s).
Proof.
  intros [Hm Hp Hn H1 Hc] Hl. unfold padding. rewrite H1, Hl. destruct b; [|by rewrite andb_false_r, out_nil].
  destruct (decide (width = [])) as [->|Hw]; [by rewrite Hn, out_nil|]. rewrite Hp by done. simpl.
  destruct (Z.ltb_spec (Z.of_nat len0) (decimal width)).
  - rewrite Hc, pad_loop_spec by (by case_decide). do 4 f_equal. lia.
  - replace (Z.to_nat (decimal width) - len0)%nat with 0%nat by lia. by rewrite out_nil.
Qed.

Lemma flags_set_len minus width par v : flags_ok minus width par → flags_ok minus width (set_len v par).
Proof. by intros []. Qed.
Lemma flags_set_num2 minus width par v : flags_ok minus width par → flags_ok minus width (set_num2 v par).
Proof. by intros []. Qed.
Lemma flags_set_unsigned minus width par v : flags_ok minus width par → flags_ok minus width (set_unsigned_flag v par).
Proof. by intros []. Qed.

(** The three parts of what is printed: padding, text, padding. *)
Lemma padded_parts minus width len text :
  padded minus width len text =
  (if negb minus then replicate (Z.to_nat (decimal width) - len) (if decide (head width = Some 48) then 48 else 32) else [])
  ++ text ++ (if minus then replicate (Z.to_nat (decimal width) - len) (if decide (head width = Some 48) then 48 else 32) else []).
Proof. destruct minus; simpl; [done|by rewrite app_nil_r]. Qed.
End output.

(** ** Numbers *)
Section numbers.
Implicit Types (s : pstate) (l : list Z) (par : params).

Lemma run_put pre x rest c s : length (pre ++ x :: rest) = 32%nat →
  put (pre ++ x :: rest) (Z.of_nat (length pre)) c s = Ret (pre ++ c :: rest, s).
Proof.
  intros Hl. rewrite length_app in Hl. simpl in Hl. unfold put.
  rewrite (proj2 (Z.leb_le _ _)), (proj2 (Z.ltb_lt _ _)) by lia. simpl.
  by rewrite Nat2Z.id, insert_app_r_alt, Nat.sub_diag by lia.
Qed.

(** The digits come out from the last one on. *)
Lemma build_loop_spec k fuel num base pre rest s :
  10 ≤ base ≤ 16 → 0 ≤ num < 10 ^ Z.of_nat (S k) → (k ≤ fuel)%nat →
  length (pre ++ rest) = 32%nat → (S k ≤ length rest)%nat →
  let ds := show_in k base num in
  build_loop fuel num base (pre ++ rest) (Z.of_nat (length pre)) s =
  Ret ((pre ++ rev ds ++ drop (length ds) rest, Z.of_nat (length pre + length ds)), s).
Proof.
  intros Hb. revert fuel num pre rest. induction k as [|k IH]; intros fuel num pre rest Hn Hf Hl Hr ds.
  all: destruct rest as [|x rest]; [simpl in Hr; lia|].
  all: assert (digits !! Z.to_nat (num mod base) = Some (digit (num mod base))) as Hd
    by (apply digit_lookup; pose proof (Z.mod_pos_bound num base); lia).
  all: destruct fuel as [|fuel]; [try lia|]; cbn [build_loop];
    erewrite run_bind by (by apply run_deref); erewrite run_bind by (by apply run_put).
  1,2: simpl in Hn; rewrite Z.div_small by lia; apply run_ret; f_equal; simpl; lia.
  unfold ds. rewrite show_in_unfold. destruct (Z.ltb_spec num base).
  { rewrite Z.div_small by lia. apply run_ret. f_equal. simpl. lia. }
  assert (1 ≤ num / base) by (apply Z.div_le_lower_bound; lia).
  rewrite (proj2 (Z.leb_gt _ _)) by lia.
  rewrite cons_middle, (app_assoc pre [_] rest).
  replace (Z.of_nat (length pre) + 1) with (Z.of_nat (length (pre ++ [digit (num mod base)]))) by (rewrite length_app; simpl; lia).
  rewrite IH.
  - rewrite (length_app pre), rev_app_distr, <- (app_assoc pre).
    replace (length (_ ++ [digit _])) with (S (length (show_in k base (num / base)))) by (rewrite length_app; simpl; lia).
    do 3 f_equal. simpl. lia.
  - split; [lia|]. rewrite (Nat2Z.inj_succ (S k)), Z.pow_succ_r in Hn by lia. apply Z.div_lt_upper_bound; nia.
  - lia.
  - rewrite <- Hl, !length_app. simpl. lia.
  - simpl in Hr. lia.
Qed.

Lemma back_loop_spec pre rest s : Forall (λ c, 0 ≤ c < 256) pre →
  back_loop (length pre) (pre ++ rest) s = Ret (tt, out (rev pre) s).
Proof.
  revert s rest. induction pre as [|x pre IH] using rev_ind; intros s rest Hp; [by rewrite out_nil|].
  apply Forall_app in Hp as [Hp [Hx _]%Forall_cons].
  rewrite length_app, Nat.add_1_r. cbn [back_loop].
  erewrite run_bind by (apply run_deref; rewrite <- app_assoc, lookup_app_r, Nat.sub_diag by lia; done).
  erewrite run_bind by (by apply run_outbyte). rewrite <- app_assoc, IH, out_out, rev_app_distr by done. done.
Qed.

Lemma buf_len_spec pre rest : Forall (λ c, c ≠ 0) pre → buf_len (pre ++ 0 :: rest) = Z.of_nat (length pre).
Proof.
  intros Hp. unfold buf_len. rewrite list_find_app_r.
  - done.
  - apply list_find_None. eapply Forall_impl; [done|]. naive_solver.
Qed.
(** [outnum] prints the numeral, with a sign in front of it. *)
Definition signed_show (n base : Z) (uns : bool) : list Z :=
  if negb uns && (base =? 10) && (n <? 0) then 45 :: show 10 (- n) else show base (u32 n).

Lemma show_lengths base n : 10 ≤ base ≤ 16 → 0 ≤ n < 2 ^ 32 →
  (length (show base n) ≤ 10)%nat ∧ Forall (λ d, 48 ≤ d < 71) (show base n).
Proof. intros. split; [apply show_in_length; lia|apply show_in_digits; lia]. Qed.

(** The digits, and at least two characters behind them. *)
Lemma outnum_digits num base s : 10 ≤ base ≤ 16 → 0 ≤ num < 2 ^ 32 →
  ∃ rest, build_loop 32 num base (replicate 32 48) 0 s =
            Ret ((rev (show base num) ++ 48 :: 48 :: rest, Z.of_nat (length (show base num))), s)
    ∧ length (rev (show base num) ++ 48 :: 48 :: rest) = 32%nat.
Proof.
  intros Hb Hn. destruct (show_lengths base num) as [Hlen _]; [done..|].
  pose proof (build_loop_spec 31 32 num base [] (replicate 32 48) s Hb) as Hbl. cbv zeta in Hbl.
  change (show_in 31 base num) with (show base num) in Hbl. rewrite drop_replicate in Hbl.
  replace (32 - length (show base num))%nat with (S (S (30 - length (show base num)))) in Hbl by lia.
  eexists. split.
  - apply Hbl; [lia|lia|done|simpl; lia].
  - rewrite length_app, length_rev. simpl length. rewrite length_replicate. lia.
Qed.

(** The sign, and a character behind it. *)
Lemma outnum_sign (neg : bool) ds rest s : length (rev ds ++ 48 :: 48 :: rest) = 32%nat →
  let text := (if neg then [45] else []) ++ ds in
  ∃ x rest',
    (if neg then outbuf ← put (rev ds ++ 48 :: 48 :: rest) (Z.of_nat (length ds)) 45; mret (outbuf, Z.of_nat (length ds) + 1)
     else mret (rev ds ++ 48 :: 48 :: rest, Z.of_nat (length ds))) s =
    Ret ((rev text ++ x :: rest', Z.of_nat (length text)), s) ∧
    length (rev text ++ x :: rest') = 32%nat.
Proof.
  intros Hl text. unfold text. exists 48. destruct neg; cbn [app rev length].
  - exists rest. rewrite <- (length_rev ds) at 1. erewrite run_bind by (apply run_put; exact Hl).
    rewrite <- app_assoc. split; [apply run_ret; f_equal; lia|]. rewrite length_app in *. simpl in *. lia.
  - by exists (48 :: rest).
Qed.

Lemma signed_show_parts n base uns : - 2 ^ 31 ≤ n < 2 ^ 31 →
  let neg := negb uns && (base =? 10) && (n <? 0) in
  signed_show n base uns = (if neg then [45] else []) ++ show base (u32 (if neg then s32 (- n) else n)).
Proof.
  intros Hn neg. unfold signed_show. fold neg. destruct neg eqn:E; [|done]. unfold neg in E.
  apply andb_true_iff in E as [[_ ->%Z.eqb_eq]%andb_true_iff Hneg%Z.ltb_lt]. cbn [app]. do 2 f_equal.
  destruct (decide (n = - 2 ^ 31)) as [->|]; [done|]. by rewrite wraps_small, wrapu_small by lia.
Qed.

Lemma outnum_spec minus width n base par s :
  flags_ok minus width par → 10 ≤ base ≤ 16 → - 2 ^ 31 ≤ n < 2 ^ 31 →
  let text := signed_show n base (negb (unsigned_flag par =? 0)) in
  ∃ par', outnum n base par s = Ret (par', out (padded minus width (length text) text) s).
Proof.
  intros Hfl Hb Hn text. pose proof (signed_show_parts n base (negb (unsigned_flag par =? 0)) Hn) as Htext.
  cbv zeta in Htext. rewrite negb_involutive in Htext. fold text in Htext. unfold outnum.
  set (neg := (unsigned_flag par =? 0) && (base =? 10) && (n <? 0)) in *.
  set (num := u32 (if neg then s32 (- n) else n)) in *.
  assert (0 ≤ num < 2 ^ 32) as Hnum by (by apply wrapu_range).
  destruct (show_lengths base num Hb Hnum) as [_ Hds].
  destruct (outnum_digits num base s Hb Hnum) as (rest & Hbuild & Hl).
  erewrite run_bind by exact Hbuild. cbn beta iota.
  destruct (outnum_sign neg _ _ s Hl) as (x & rest' & Hneg & Hl').
  erewrite run_bind by exact Hneg. cbn beta iota. rewrite <- Htext in *.
  assert (Forall (λ c, 0 < c < 256) (rev text)) as Hc.
  { rewrite Htext. apply Forall_rev, Forall_app. split; [destruct neg; repeat constructor; lia|].
    eapply Forall_impl; [exact Hds|]. simpl. lia. }
  clearbody text num neg. rewrite <- (length_rev text). erewrite run_bind by (apply run_put; exact Hl').
  rewrite buf_len_spec by (eapply Forall_impl; [exact Hc|]; simpl; lia). rewrite length_rev.
  apply (flags_set_len _ _ _ (Z.of_nat (length text))) in Hfl.
  erewrite run_bind by (by eapply padding_spec). rewrite Nat2Z.id, <- (length_rev text).
  erewrite run_bind by (apply back_loop_spec; eapply Forall_impl; [exact Hc|]; simpl; lia).
  rewrite length_rev, rev_involutive. erewrite run_bind by (by eapply padding_spec).
  rewrite (fl_minus _ _ _ Hfl). eexists. apply run_ret_state. rewrite !out_out, padded_parts. by destruct minus.
Qed.
End numbers.

(** ** Strings *)
Lemma strlen_loop_spec l fuel p i m :
  cstr m p l → (length l ≤ fuel)%nat → strlen_loop fuel p i m = Ret (i + Z.of_nat (length l), m).
Proof.
  revert fuel p i. induction l as [|x l IH]; intros fuel p i Hs Hf.
  - apply cstr_nil in Hs. destruct fuel; simpl; erewrite run_bind by (by apply run_load8); simpl; by rewrite Z.add_0_r.
  - apply cstr_cons in Hs as [[Hx Hm] Hs]. simpl in Hf. destruct fuel as [|fuel]; [lia|]. cbn [strlen_loop].
    erewrite run_bind by (by apply run_load8). rewrite (proj2 (Z.eqb_neq x 0)) by lia.
    rewrite (IH fuel) by (done || lia). simpl. do 2 f_equal. lia.
Qed.

Lemma strlen_spec l p m : cstr m p l → strlen p m = Ret (Z.of_nat (length l), m).
Proof. intros Hs. unfold strlen. rewrite run_scan. pose proof (cstr_size _ _ _ Hs). by rewrite (strlen_loop_spec l) by (done || lia). Qed.

Lemma outs_loop_spec l fuel p n2 s :
  cstr (p_mem s) p l → (length l ≤ fuel)%nat → 0 ≤ n2 →
  ∃ n2', outs_loop fuel p n2 s = Ret (n2', out (take (Z.to_nat n2) l) s).
Proof.
  revert fuel p n2 s. induction l as [|x l IH]; intros fuel p n2 s Hs Hf Hn.
  - apply cstr_nil in Hs. exists n2. destruct fuel; cbn [outs_loop].
    all: erewrite run_bind by (by apply run_on_mem, run_load8); by rewrite take_nil, out_nil.
  - apply cstr_cons in Hs as [[Hx Hm] Hs]. simpl in Hf. destruct fuel as [|fuel]; [lia|]. cbn [outs_loop].
    erewrite run_bind by (by apply run_on_mem, run_load8). rewrite (proj2 (Z.eqb_neq x 0)) by lia.
    destruct (Z.eqb_spec n2 0) as [->|]; [exists 0; by rewrite out_nil|].
    cbn [orb]. erewrite run_bind by (apply run_outbyte; lia).
    destruct (IH fuel (p + 1) (n2 - 1) (out [x] s)) as [n2' Hr]; [done|lia|lia|]. exists n2'. rewrite Hr.
    replace (Z.to_nat n2) with (S (Z.to_nat (n2 - 1))) by lia. by rewrite out_out.
Qed.

Lemma outs_spec minus width p l par s :
  flags_ok minus width par → conversion_ok (p_mem s) (Text p l) → 0 ≤ num2 par →
  ∃ par', outs p par s = Ret (par', out (padded minus width (length l) (take (Z.to_nat (num2 par)) l)) s).
Proof.
  intros Hfl (Hp & Hs & Hl) Hn. unfold outs. rewrite (proj2 (Z.eqb_neq p 0)) by done.
  erewrite run_bind; [|erewrite run_bind; [done|apply run_on_mem; by apply strlen_spec]].
  cbv beta. rewrite wraps_small by lia. apply (flags_set_len _ _ _ (Z.of_nat (length l))) in Hfl.
  erewrite run_bind by (by eapply padding_spec). erewrite run_bind by done.
  match goal with |- context [(outs_loop ?f p ?n ≫= _) ?t] =>
    destruct (outs_loop_spec l f p n t) as [n2' Hr]; [done|pose proof (cstr_size _ _ _ Hs); simpl; lia|done|] end.
  erewrite run_bind by exact Hr. apply (flags_set_num2 _ _ _ n2') in Hfl.
  erewrite run_bind by (by eapply padding_spec). pose proof (fl_minus _ _ _ Hfl) as Hm. cbn in Hm |- *. rewrite Hm.
  eexists. apply run_ret_state. rewrite !out_out, padded_parts. by destruct minus.
Qed.

(** ** Conversions *)
Definition precision_of (precision : option (list Z)) : Z :=
  match precision with Some ds => decimal ds | None => 32767 end.

Lemma u32_s32 a : u32 (s32 a) = u32 a.
Proof.
  unfold wrapu, wraps. rewrite Zminus_mod, Zmod_mod, <- Zminus_mod. f_equal. lia.
Qed.

(** Take an argument, print it, and go on. *)
Lemma run_va_arg {A} (print : Z → P A) (k : list Z → P checked) a argp r s s' :
  print a s = Ret (r, s') →
  (p ← mret (a, argp); let '(a, argp) := p in print a;; k argp) s = k argp s'.
Proof. intros H. erewrite run_bind by done. cbn beta iota. by erewrite run_bind by exact H. Qed.

Lemma convert_spec minus width precision c dot par rest s :
  flags_ok minus width par → conversion_ok (p_mem s) c → unsigned_flag par = 0 →
  num2 par = precision_of precision → 0 ≤ num2 par →
  convert (letter c) dot par (word c ++ rest) s = Ret (Done rest, out (render_piece (Convert minus width precision c)) s).
Proof.
  intros Hfl Hc Hu Hn2 Hn.
  assert (∀ a, - 2 ^ 31 ≤ s32 a < 2 ^ 31) as Hr by (intros a; by apply (wraps_range 32)).
  destruct c as [a|a|a|p l|a|].
  - unfold convert. simpl. destruct (outnum_spec minus width (s32 a) 10 par s) as [par' Hrun]; [done|lia|done|].
    rewrite (run_va_arg (λ a, outnum (s32 a) 10 par) (λ argp, mret (Done argp)) _ _ _ _ _ Hrun). apply run_ret_state. unfold signed_show. rewrite Hu. simpl.
    destruct (Z.ltb_spec (s32 a) 0); [done|]. by rewrite wrapu_small by (specialize (Hr a); lia).
  - unfold convert. simpl. apply flags_set_unsigned with (v := 1) in Hfl.
    destruct (outnum_spec minus width (s32 a) 10 (set_unsigned_flag 1 par) s) as [par' Hrun]; [done|lia|done|].
    rewrite (run_va_arg (λ a, outnum (s32 a) 10 (set_unsigned_flag 1 par)) (λ argp, mret (Done argp)) _ _ _ _ _ Hrun). apply run_ret_state. unfold signed_show. simpl. by rewrite u32_s32.
  - unfold convert. simpl. apply flags_set_unsigned with (v := 1) in Hfl.
    destruct (outnum_spec minus width (s32 a) 16 (set_unsigned_flag 1 par) s) as [par' Hrun]; [done|lia|done|].
    rewrite (run_va_arg (λ a, outnum (s32 a) 16 (set_unsigned_flag 1 par)) (λ argp, mret (Done argp)) _ _ _ _ _ Hrun). apply run_ret_state. unfold signed_show. simpl. by rewrite u32_s32.
  - unfold convert. simpl. destruct (outs_spec minus width p l par s Hfl Hc Hn) as [par' Hrun].
    rewrite (run_va_arg (λ a, outs a par) (λ argp, mret (Done argp)) _ _ _ _ _ Hrun). apply run_ret_state. unfold precision_of in Hn2. by rewrite <- Hn2.
  - done.
  - done.
Qed.

(** ** The loop over the format

    Each part of a piece takes the loop some turns, no more than it has
    characters. *)
Section loop.
Implicit Types (s : pstate) (st : option (bool * params)).

(** [n] turns or fewer lead from one state of the loop to another, whatever
    fuel there is for the rest. *)
Definition leads (n : nat) st ctrl argp s st' ctrl' argp' s' : Prop :=
  ∃ k, (k ≤ n)%nat ∧ ∀ fuel, print_loop (k + fuel) st ctrl argp s = print_loop fuel st' ctrl' argp' s'.

Lemma leads_refl st ctrl ctrl' argp s : ctrl = ctrl' → leads 0 st ctrl argp s st ctrl' argp s.
Proof. intros ->. by exists 0%nat. Qed.

Lemma leads_trans n1 n2 st1 c1 a1 s1 st2 c2 a2 s2 st3 c3 a3 s3 :
  leads n1 st1 c1 a1 s1 st2 c2 a2 s2 → leads n2 st2 c2 a2 s2 st3 c3 a3 s3 →
  leads (n1 + n2) st1 c1 a1 s1 st3 c3 a3 s3.
Proof.
  intros (k1 & H1 & E1) (k2 & H2 & E2). exists (k1 + k2)%nat. split; [lia|]. intros fuel.
  by rewrite <- Nat.add_assoc, E1, E2.
Qed.

Lemma leads_eq n st ctrl argp s st' ctrl1 ctrl2 argp' s' :
  leads n st ctrl argp s st' ctrl1 argp' s' → ctrl1 = ctrl2 → leads n st ctrl argp s st' ctrl2 argp' s'.
Proof. by intros ? <-. Qed.

Lemma run_on_load p x s : p_mem s !! p = Some x → on_mem (load8 p) s = Ret (x, s).
Proof. intros. by apply run_on_mem, run_load8. Qed.

(** What stands for one character of a conversion. *)
Lemma leads_flag ch dot par dot' par' ctrl argp s :
  p_mem s !! (ctrl + 1) = Some ch → isdigit ch = false →
  convert ch dot par argp s = Ret (More dot' par' argp 0, s) →
  leads 1 (Some (dot, par)) ctrl argp s (Some (dot', par')) (ctrl + 1) argp s.
Proof.
  intros Hb Hd Hc. exists 1%nat. split; [done|]. intros fuel. cbn [Nat.add print_loop].
  erewrite run_bind by (by apply run_on_load). rewrite Hd. erewrite run_bind by exact Hc. cbn beta iota zeta. by rewrite Z.add_0_r.
Qed.

Lemma leads_minus (minus : bool) ctrl argp s :
  bytes (p_mem s) (ctrl + 1) (if minus then [45] else []) →
  ∃ par, flags_ok minus [] par ∧ unsigned_flag par = 0 ∧ num2 par = 32767 ∧
    leads (if minus then 1 else 0) (Some (false, default_params)) ctrl argp s
      (Some (false, par)) (ctrl + if minus then 1 else 0) argp s.
Proof.
  destruct minus; intros Hb.
  - destruct Hb as [Hb _]. exists (set_left_flag 1 default_params). split_and!; [by split|done..|].
    by eapply leads_flag.
  - exists default_params. split_and!; [by split|done..|]. apply leads_refl. lia.
Qed.

(** The digits of a number in the format. *)
Lemma leads_number d ds c (dot : bool) par ctrl argp s :
  numeral (d :: ds) → bytes (p_mem s) (ctrl + 1) ((d :: ds) ++ [c]) → isdigit c = false →
  let n := decimal (d :: ds) in
  leads 1 (Some (dot, par)) ctrl argp s
    (Some (dot, if dot then set_num2 n par
                else set_do_padding 1 (set_num1 n (if d =? 48 then set_pad_character 48 par else par))))
    (ctrl + Z.of_nat (length (d :: ds))) argp s.
Proof.
  intros Hn Hb Hc n. exists 1%nat. split; [done|]. intros fuel. cbn [Nat.add print_loop].
  pose proof Hb as [Hd _]. erewrite run_bind by (by apply run_on_load).
  assert (isdigit d = true) as ->. { apply isdigit_iff. destruct Hn as [[Hn _]%Forall_cons _]. lia. }
  erewrite run_bind by (apply run_on_mem; by eapply getnum_spec). cbn beta iota zeta.
  replace (ctrl + 1 + Z.of_nat (length (d :: ds)) - 1) with (ctrl + Z.of_nat (length (d :: ds))) by lia. done.
Qed.

Lemma leads_width minus width c par ctrl argp s :
  flags_ok minus [] par → numeral width → bytes (p_mem s) (ctrl + 1) (width ++ [c]) → isdigit c = false →
  pad_character par = 32 →
  ∃ par', flags_ok minus width par' ∧ unsigned_flag par' = unsigned_flag par ∧ num2 par' = num2 par ∧
    leads (length width) (Some (false, par)) ctrl argp s
      (Some (false, par')) (ctrl + Z.of_nat (length width)) argp s.
Proof.
  intros Hfl Hn Hb Hc Hp. destruct width as [|d ds].
  - exists par. split_and!; [done..|]. apply leads_refl. simpl. lia.
  - destruct (leads_number d ds c false par ctrl argp s Hn Hb Hc) as (k & Hk & E). eexists. split_and!;
      [| | |exists k; split; [simpl; lia|exact E]].
    + destruct Hfl as [Hm _ _ _ _]. destruct (Z.eqb_spec d 48) as [->|Hne].
      * split; done.
      * split; try done. simpl. rewrite decide_False by congruence. done.
    + by destruct (d =? 48).
    + by destruct (d =? 48).
Qed.

Lemma leads_precision minus width precision c par ctrl argp s :
  flags_ok minus width par → unsigned_flag par = 0 → num2 par = 32767 →
  match precision with Some ds => ds ≠ [] ∧ numeral ds | None => True end →
  let txt := match precision with Some ds => 46 :: ds | None => [] end in
  bytes (p_mem s) (ctrl + 1) (txt ++ [c]) → isdigit c = false →
  ∃ par' dot, flags_ok minus width par' ∧ unsigned_flag par' = 0 ∧ num2 par' = precision_of precision ∧
    leads (length txt) (Some (false, par)) ctrl argp s
      (Some (dot, par')) (ctrl + Z.of_nat (length txt)) argp s.
Proof.
  intros Hfl Hu Hn2 Hok txt Hb Hc. destruct precision as [[|d ds]|].
  - by destruct Hok.
  - destruct Hok as [_ Hok]. destruct Hb as [Hdot Hb].
    exists (set_num2 (decimal (d :: ds)) par), true. split_and!; [by apply flags_set_num2|done..|].
    replace (length txt) with (1 + length (d :: ds))%nat by done.
    eapply leads_trans; [by eapply (leads_flag 46 false par true par)|].
    destruct (leads_number d ds c true par (ctrl + 1) argp s Hok Hb Hc) as (k & Hk & E).
    eapply leads_eq; [exists k; split; [simpl; lia|exact E]|]. simpl. lia.
  - exists par, false. split_and!; [done..|]. apply leads_refl. simpl. lia.
Qed.

Lemma letter_ok c : isdigit (letter c) = false.
Proof. by destruct c. Qed.
Lemma leads_conversion minus width precision c ctrl argp s :
  let x := Convert minus width precision c in
  piece_ok (p_mem s) x → bytes (p_mem s) ctrl (fmt_piece x) →
  leads (length (fmt_piece x)) None ctrl (words_piece x ++ argp) s
    None (ctrl + Z.of_nat (length (fmt_piece x))) argp (out (render_piece x) s).
Proof.
  intros x (Hw & Hp & Hc) [Hpc Hb]. set (txt := match precision with Some ds => 46 :: ds | None => [] end).
  change (bytes (p_mem s) (ctrl + 1) ((if minus then [45] else []) ++ width ++ txt ++ [letter c])) in Hb.
  assert (length (fmt_piece x) = 1 + ((if minus then 1 else 0) + (length width + (length txt + 1))))%nat as Hlen.
  { simpl. rewrite !length_app. by destruct minus. }
  apply bytes_app in Hb as [Hb1 Hb]. pose proof Hb as [_ Hb3]%bytes_app.
  destruct (leads_minus minus ctrl (word c ++ argp) s Hb1) as (par1 & Hfl1 & Hu1 & Hn1 & L1).
  replace (ctrl + 1 + Z.of_nat (length (if minus then [45] else []))) with (ctrl + (if minus then 1 else 0) + 1) in Hb, Hb3
    by (destruct minus; simpl; lia).
  assert (∃ c', bytes (p_mem s) (ctrl + (if minus then 1 else 0) + 1) (width ++ [c']) ∧ isdigit c' = false) as (c' & Hb2 & Hc').
  { destruct (txt ++ [letter c]) as [|c' rest] eqn:E; [by destruct txt|]. exists c'. split.
    - rewrite (cons_middle c' width), app_assoc in Hb. by apply bytes_app in Hb as [? _].
    - revert E. unfold txt. destruct precision; intros [= <- _]; [done|apply letter_ok]. }
  destruct (leads_width minus width c' par1 (ctrl + if minus then 1 else 0) (word c ++ argp) s) as (par2 & Hfl2 & Hu2 & Hn2 & L2);
    [done..|by destruct Hfl1|].
  rewrite Hu1 in Hu2. rewrite Hn1 in Hn2.
  replace (ctrl + (if minus then 1 else 0) + 1 + Z.of_nat (length width))
    with (ctrl + (if minus then 1 else 0) + Z.of_nat (length width) + 1) in Hb3 by lia.
  destruct (leads_precision minus width precision (letter c) par2 _ (word c ++ argp) s Hfl2 Hu2 Hn2 Hp Hb3 (letter_ok c))
    as (par3 & dot & Hfl3 & Hu3 & Hn3 & L3). fold txt in L3.
  apply bytes_app in Hb3 as [_ [Hl _]]. rewrite Hlen.
  eapply leads_trans; [|eapply leads_trans; [exact L1|eapply leads_trans; [exact L2|eapply leads_trans; [exact L3|]]]].
  - exists 1%nat. split; [done|]. intros fuel. cbn [Nat.add print_loop]. by erewrite run_bind by (by apply run_on_load).
  - exists 1%nat. split; [done|]. intros fuel. cbn [Nat.add print_loop].
    erewrite run_bind by (apply run_on_load; rewrite <- Hl; f_equal; lia). rewrite letter_ok.
    erewrite run_bind by (eapply convert_spec; [done|done|done|done|]; rewrite Hn3; unfold precision_of;
      destruct precision; [apply decimal_nonneg, Hp|lia]).
    cbn beta iota. f_equal. destruct minus; lia.
Qed.

Lemma leads_piece x ctrl argp s :
  piece_ok (p_mem s) x → bytes (p_mem s) ctrl (fmt_piece x) →
  leads (length (fmt_piece x)) None ctrl (words_piece x ++ argp) s
    None (ctrl + Z.of_nat (length (fmt_piece x))) argp (out (render_piece x) s).
Proof.
  destruct x as [c|minus width precision c]; [|apply leads_conversion].
  intros [Hc Hne] [Hb _]. exists 1%nat. split; [done|]. intros fuel. cbn [Nat.add print_loop].
  erewrite run_bind by (by apply run_on_load). rewrite (proj2 (Z.eqb_neq c 0)), (proj2 (Z.eqb_neq c 37)) by lia.
  cbn [negb]. by erewrite run_bind by (apply run_outbyte; lia).
Qed.

Lemma leads_pieces xs ctrl argp s :
  Forall (piece_ok (p_mem s)) xs → bytes (p_mem s) ctrl (fmt xs) →
  leads (length (fmt xs)) None ctrl (words xs ++ argp) s
    None (ctrl + Z.of_nat (length (fmt xs))) argp (out (render xs) s).
Proof.
  revert ctrl s. induction xs as [|x xs IH]; intros ctrl s Hok Hb.
  - rewrite out_nil. apply leads_refl. simpl. lia.
  - apply Forall_cons in Hok as [Hx Hok]. unfold fmt, words, render in *. cbn [mbind list_bind] in *.
    apply bytes_app in Hb as [Hb1 Hb2]. rewrite length_app, <- app_assoc, <- out_out.
    eapply leads_trans; [by apply leads_piece|]. eapply leads_eq; [by apply IH|]. lia.
Qed.
End loop.

(** ** The whole of a print *)
Lemma print_format_spec xs ctrl argp s :
  ctrl ≠ 0 → Forall (piece_ok (p_mem s)) xs → bytes (p_mem s) ctrl (fmt xs ++ [0]) →
  print_format ctrl (words xs ++ argp) s = Ret (tt, out (render xs) s).
Proof.
  intros Hc Hok Hb. unfold print_format. erewrite run_bind by done. rewrite (proj2 (Z.eqb_neq ctrl 0)) by done.
  pose proof (bytes_size _ _ _ Hb) as Hsz. rewrite length_app in Hsz. simpl in Hsz.
  apply bytes_app in Hb as [Hb [Hz _]]. destruct (leads_pieces xs ctrl argp s Hok Hb) as (k & Hk & E).
  replace (S (S (size (p_mem s)))) with (k + S (S (size (p_mem s)) - k))%nat by lia.
  rewrite E. cbn [print_loop]. by erewrite run_bind by (by apply run_on_load).
Qed.

(** The critical section is one of the state around, and leaves the printer
    alone. *)
Class PrintCritical {S : Type} `{!Critical S} (lp : lens S pstate) : Prop := {
  pc_enter : ∀ s, ∃ s', cr_enter s = Ret (tt, s') ∧ view lp s' = view lp s;
  pc_exit : ∀ s, ∃ s', cr_exit s = Ret (tt, s') ∧ view lp s' = view lp s;
}.

(** C14 [smp_print] on a format of characters and conversions: the output is that
    of the pieces in order, in which a number is its numeral, a string is cut to
    its precision, and a width fills up with blanks or zeros on the side that
    [-] says.  It runs inside of one critical section, entered and left once,
    and gives its lock back.  The zeros go in front of a sign, behind a number
    with [-], and a string is filled up as if it had not been cut. *)
Theorem smp_print_correct {S : Type} `{!Critical S} (lp : lens S pstate) `{!LensLaws lp, !PrintCritical lp}
    (xs : list piece) (ctrl : Z) (argp : list Z) (s : S) :
  ctrl ≠ 0 →
  Forall (piece_ok (p_mem (view lp s))) xs →
  bytes (p_mem (view lp s)) ctrl (fmt xs ++ [0]) →
  p_print_init (view lp s) = 0 ∨ p_print_lock (view lp s) = 0 →
  ∃ s1 s2 s', smp_print lp ctrl (words xs ++ argp) s = Ret (tt, s') ∧
    cr_enter s1 = Ret (tt, s2) ∧
    cr_exit (update lp (out (render xs) (view lp s2)) s2) = Ret (tt, s') ∧
    p_mem (view lp s') = p_mem (view lp s) ∧
    p_out (view lp s') = p_out (view lp s) ++ render xs ∧
    p_print_init (view lp s') ≠ 0 ∧ p_print_lock (view lp s') = 0.
Proof.
  intros Hc Hok Hb Hl. unfold smp_print.
  assert (∃ i, i ≠ 0 ∧ print_lock_init (view lp s) = Ret (tt, mk_pstate (p_mem (view lp s)) (p_out (view lp s)) i 0)) as (i & Hi & Hinit).
  { unfold print_lock_init. destruct (view lp s) as [m o i l]. simpl in *. erewrite run_bind by done. simpl.
    destruct (Z.eqb_spec i 0); [by exists 1|exists i]. destruct Hl as [?| ->]; done. }
  set (v0 := mk_pstate _ _ i 0) in Hinit. erewrite run_bind by (by apply run_zoom).
  destruct (pc_enter (update lp v0 s)) as (s2 & He & Hv). rewrite view_update in Hv.
  erewrite run_bind by exact He.
  erewrite run_bind by (apply run_zoom; by rewrite Hv).
  erewrite run_bind by (apply run_zoom, print_format_spec; [done|by rewrite view_update|by rewrite view_update]).
  erewrite run_bind by (by apply run_zoom).
  rewrite !view_update, !update_update. simpl.
  assert (out (render xs) (view lp s2) = set_p_print_lock 0 (out (render xs) (set_p_print_lock 1 v0))) as <- by (by rewrite Hv).
  destruct (pc_exit (update lp (out (render xs) (view lp s2)) s2)) as (s' & Hx & Hv').
  rewrite view_update in Hv'. exists (update lp v0 s), s2, s'. rewrite Hv', Hv in *. split_and!; done.
Qed.

(** A printer inside of a kernel that counts critical sections. *)
#[local] Instance counted : Critical (Z * pstate) := {
  cr_enter := modify (λ '(n, s), (n + 1, s));
  cr_exit := modify (λ '(n, s), (n - 1, s));
}.
#[local] Instance counted_laws : LensLaws (Lens snd (λ a '(n, _), (n, a)) : lens (Z * pstate) pstate).
Proof. split; [by intros ? []|by intros []|by intros ? ? []]. Qed.
#[local] Instance counted_print : PrintCritical (Lens snd (λ a '(n, _), (n, a)) : lens (Z * pstate) pstate).
Proof. split; intros [n s]; by eexists (_, _). Qed.

(** The string "idle" at 100, and at 200 the format "%-6s|%06d|%x%%" and a NUL. *)
Definition sample_pieces : list piece :=
  [Convert true [54] None (Text 100 [105; 100; 108; 101]); Literal 124;
   Convert false [48; 54] None (Signed (-42)); Literal 124;
   Convert false [] None (Hexadecimal (-1)); Convert false [] None Percent].
Definition sample_mem : bytemem := poke 100 [105; 100; 108; 101; 0] (poke 200 (fmt sample_pieces ++ [0]) ∅).

(** It prints "idle  |000-42|FFFFFFFF%". *)
Lemma smp_print_correct_witness :
  ∃ s', smp_print (Lens snd (λ a '(n, _), (n, a))) 200 (words sample_pieces ++ []) (0, mk_pstate sample_mem [] 0 5) = Ret (tt, (0, s')) ∧
    p_out s' = [105; 100; 108; 101; 32; 32; 124; 48; 48; 48; 45; 52; 50; 124; 70; 70; 70; 70; 70; 70; 70; 70; 37].
Proof.
  destruct (smp_print_correct (Lens snd (λ a '(n, _), (n, a)) : lens (Z * pstate) pstate)
    sample_pieces 200 [] (0, mk_pstate sample_mem [] 0 5)) as (s1 & s2 & s' & Hrun & _ & _ & _ & Hout & _).
  - done.
  - repeat constructor; simpl; try done.
  - repeat constructor.
  - by left.
  - exists (snd s'). split.
    + rewrite Hrun. revert Hrun. vm_compute. intros [= <-]. done.
    + exact Hout.
Defined.

(** C39 Numbers are read back: [outnum] prints every number from 0 to [2^31 - 1],
    without flags, as a text from which [getnum] gets the number again, wherever
    the text stands in memory and whatever follows it other than a digit; and
    its buffer of 32 characters is enough. *)
Theorem number_roundtrip (n : Z) (s : pstate) :
  0 ≤ n < 2 ^ 31 →
  ∃ (ds : list Z) (par : params),
    outnum n 10 default_params s = Ret (par, out ds s) ∧
    (length ds ≤ 10)%nat ∧
    ∀ m p c, bytes m p (ds ++ [c]) → isdigit c = false →
      getnum p m = Ret ((n, p + Z.of_nat (length ds)), m).
Proof.
  intros Hn. destruct (outnum_spec false [] n 10 default_params s) as [par Hrun]; [by split|lia|lia|].
  cbv zeta in Hrun. rewrite padded_parts in Hrun. unfold signed_show in Hrun.
  rewrite (proj2 (Z.ltb_ge n 0)), wrapu_small in Hrun by lia. simpl in Hrun. rewrite app_nil_r in Hrun.
  exists (show 10 n), par. split; [exact Hrun|]. split; [apply show_lengths; lia|].
  intros m p c Hb Hc. unfold show in *.
  destruct (decimal_show_in 31 n) as [Hv Hf]; [lia|]. assert (numeral (show_in 31 10 n)) as Hnum by (split; [done|lia]).
  pose proof (getnum_spec _ c m p Hnum Hb Hc) as Hread. by rewrite Hv in Hread.
Qed.

Lemma number_roundtrip_witness :
  ∃ ds par, outnum 2147483647 10 default_params (mk_pstate ∅ [] 1 0) = Ret (par, out ds (mk_pstate ∅ [] 1 0)) ∧
    getnum 5 (poke 5 [50; 49; 52; 55; 52; 56; 51; 54; 52; 55; 0] ∅) =
      Ret ((2147483647, 15), poke 5 [50; 49; 52; 55; 52; 56; 51; 54; 52; 55; 0] ∅).
Proof.
  destruct (number_roundtrip 2147483647 (mk_pstate ∅ [] 1 0)) as (ds & par & Hrun & _ & Hread); [done|].
  exists ds, par. split; [exact Hrun|].
  assert (ds = [50; 49; 52; 55; 52; 56; 51; 54; 52; 55]) as -> by (revert Hrun; vm_compute; by intros [= _ <-]).
  apply (Hread _ 5 0); [repeat constructor|done].
Defined.

(** A format that ends with the character [%] does not end the print: the NUL
    is taken for an unknown conversion, and what stands behind it in memory is
    printed as the rest of the format. *)
Theorem percent_end_overruns (xs ys : list piece) (ctrl : Z) (argp : list Z) (s : pstate) :
  ctrl ≠ 0 →
  Forall (piece_ok (p_mem s)) xs → Forall (piece_ok (p_mem s)) ys →
  bytes (p_mem s) ctrl (fmt xs ++ [37; 0] ++ fmt ys ++ [0]) →
  print_format ctrl (words xs ++ words ys ++ argp) s = Ret (tt, out (render xs ++ render ys) s).
Proof.
  intros Hc Hx Hy Hb. unfold print_format. erewrite run_bind by done. rewrite (proj2 (Z.eqb_neq ctrl 0)) by done.
  pose proof (bytes_size _ _ _ Hb) as Hsz. rewrite !length_app in Hsz. simpl in Hsz.
  apply bytes_app in Hb as [Hb1 (Hp & Hz & Hb)]. cbn [app] in Hb. apply bytes_app in Hb as [Hb2 [Hz' _]].
  destruct (leads_pieces xs ctrl (words ys ++ argp) s Hx Hb1) as (k1 & Hk1 & E1).
  destruct (leads_pieces ys _ argp (out (render xs) s) Hy Hb2) as (k2 & Hk2 & E2).
  set (f := S (S (size (p_mem s)))) in *.
  replace f with (k1 + S (S (k2 + S (f - k1 - k2 - 3))))%nat by lia. rewrite E1. cbn [print_loop].
  erewrite run_bind by (by apply run_on_load). cbn beta iota zeta delta [Z.eqb Pos.eqb negb].
  erewrite run_bind by (apply run_on_load; exact Hz). cbn beta iota zeta.
  replace (isdigit 0) with false by done. erewrite run_bind by done. cbn beta iota.
  rewrite E2, out_out. cbn [print_loop]. by erewrite run_bind by (by apply run_on_load).
Qed.

(** "7%" and behind it "key". *)
Lemma percent_end_overruns_witness :
  let s := mk_pstate (poke 100 [55; 37; 0; 107; 101; 121; 0] ∅) [] 1 0 in
  print_format 100 [] s = Ret (tt, out [55; 107; 101; 121] s).
Proof.
  apply (percent_end_overruns [Literal 55] [Literal 107; Literal 101; Literal 121] 100 []
    (mk_pstate (poke 100 [55; 37; 0; 107; 101; 121; 0] ∅) [] 1 0)); [done|repeat constructor; done..].
Defined.
