(* ===== verification/Shell.v ===== *)
(** * components/ash: the shell's line editor, command parser and commands

    The arrays of the shell ([line], [cmd_history], [shell_input], the prompt)
    and the string literals are in the memory of bytes of [Str], at the places
    that [ShellLayout] gives; printing is [Print.smp_print] on that memory; the
    queue of commands is one of [Queues].  What the driver of the serial line
    receives is an argument: the bytes that come before it says that there are
    no more.  The file system is the interface [FileSystem]. *)
From S2P Require Import Prelude Interfaces DList Queues Str Print.
From stdpp Require Import list strings.
#[local] Open Scope Z_scope.

(** The characters of a Rocq string, for the literals of the source. *)
Fixpoint txt (s : string) : list Z :=
  match s with
  | EmptyString => []
  | String a s => Z.of_nat (Ascii.nat_of_ascii a) :: txt s
  end.

Definition ASH_HISTORY_LINES : Z := 5.
Definition ASH_CMD_SIZE : Z := 80.
Definition ASH_PROMPT_SIZE : Z := 81.
Definition MAX_ARGS_NUM : Z := 8.

(** Where the compiler and linker put the arrays, and the literal of each text. *)
Class ShellLayout : Type := {
  ash_line : Z;
  ash_history : Z;
  ash_input : Z;
  ash_prompt : Z;
  ash_path : Z;
  lit : list Z → Z;
  adr_ls : Z;
  adr_cd : Z;
  adr_help : Z;
}.

Inductive input_stat : Type := WAIT_NORMAL | WAIT_SPEC_KEY | WAIT_FUNC_KEY.

(** A node of the command queue: its head, or the [list] of a command. *)
Inductive cmd_loc : Type := CmdQueue | CmdNode (cmd : nat).
#[export] Instance cmd_loc_eq_dec : EqDecision cmd_loc.
Proof. solve_decision. Defined.
#[export] Instance cmd_loc_countable : Countable cmd_loc.
Proof.
  apply (inj_countable' (λ l, match l with CmdQueue => None | CmdNode n => Some n end)
    (λ o, match o with None => CmdQueue | Some n => CmdNode n end)). by intros [].
Defined.

(** [acoral_ash_cmd_t]. *)
Record acoral_ash_cmd : Type := mk_cmd { cmd_name : Z; cmd_exe : Z; cmd_comment : Z }.

(** [struct ash_shell] without its arrays, the positions in [shell_input], the
    printer with the memory, and the commands. *)
Record shell : Type := mk_shell {
  sh_stat : input_stat;
  echo_mode : Z;
  current_history : Z;
  history_count : Z;
  cur_dir : Z;
  dir_change : Z;
  line_position : Z;
  line_curpos : Z;
  get_pos : Z;
  input_pos : Z;
  sh_printer : pstate;
  sh_cmdq : qstate cmd_loc;
  sh_cmds : list acoral_ash_cmd;
}.
Definition set_sh_stat v s : shell := mk_shell v (echo_mode s) (current_history s) (history_count s) (cur_dir s) (dir_change s) (line_position s) (line_curpos s) (get_pos s) (input_pos s) (sh_printer s) (sh_cmdq s) (sh_cmds s).
Definition set_echo_mode v s : shell := mk_shell (sh_stat s) v (current_history s) (history_count s) (cur_dir s) (dir_change s) (line_position s) (line_curpos s) (get_pos s) (input_pos s) (sh_printer s) (sh_cmdq s) (sh_cmds s).
Definition set_current_history v s : shell := mk_shell (sh_stat s) (echo_mode s) v (history_count s) (cur_dir s) (dir_change s) (line_position s) (line_curpos s) (get_pos s) (input_pos s) (sh_printer s) (sh_cmdq s) (sh_cmds s).
Definition set_history_count v s : shell := mk_shell (sh_stat s) (echo_mode s) (current_history s) v (cur_dir s) (dir_change s) (line_position s) (line_curpos s) (get_pos s) (input_pos s) (sh_printer s) (sh_cmdq s) (sh_cmds s).
Definition set_cur_dir v s : shell := mk_shell (sh_stat s) (echo_mode s) (current_history s) (history_count s) v (dir_change s) (line_position s) (line_curpos s) (get_pos s) (input_pos s) (sh_printer s) (sh_cmdq s) (sh_cmds s).
Definition set_dir_change v s : shell := mk_shell (sh_stat s) (echo_mode s) (current_history s) (history_count s) (cur_dir s) v (line_position s) (line_curpos s) (get_pos s) (input_pos s) (sh_printer s) (sh_cmdq s) (sh_cmds s).
Definition set_line_position v s : shell := mk_shell (sh_stat s) (echo_mode s) (current_history s) (history_count s) (cur_dir s) (dir_change s) v (line_curpos s) (get_pos s) (input_pos s) (sh_printer s) (sh_cmdq s) (sh_cmds s).
Definition set_line_curpos v s : shell := mk_shell (sh_stat s) (echo_mode s) (current_history s) (history_count s) (cur_dir s) (dir_change s) (line_position s) v (get_pos s) (input_pos s) (sh_printer s) (sh_cmdq s) (sh_cmds s).
Definition set_get_pos v s : shell := mk_shell (sh_stat s) (echo_mode s) (current_history s) (history_count s) (cur_dir s) (dir_change s) (line_position s) (line_curpos s) v (input_pos s) (sh_printer s) (sh_cmdq s) (sh_cmds s).
Definition set_input_pos v s : shell := mk_shell (sh_stat s) (echo_mode s) (current_history s) (history_count s) (cur_dir s) (dir_change s) (line_position s) (line_curpos s) (get_pos s) v (sh_printer s) (sh_cmdq s) (sh_cmds s).
Definition set_sh_printer v s : shell := mk_shell (sh_stat s) (echo_mode s) (current_history s) (history_count s) (cur_dir s) (dir_change s) (line_position s) (line_curpos s) (get_pos s) (input_pos s) v (sh_cmdq s) (sh_cmds s).
Definition set_sh_cmdq v s : shell := mk_shell (sh_stat s) (echo_mode s) (current_history s) (history_count s) (cur_dir s) (dir_change s) (line_position s) (line_curpos s) (get_pos s) (input_pos s) (sh_printer s) v (sh_cmds s).
Definition set_sh_cmds v s : shell := mk_shell (sh_stat s) (echo_mode s) (current_history s) (history_count s) (cur_dir s) (dir_change s) (line_position s) (line_curpos s) (get_pos s) (input_pos s) (sh_printer s) (sh_cmdq s) v.

Abbreviation H := (M shell).

Definition printer_of : lens shell pstate := Lens sh_printer set_sh_printer.
Definition sh_mem (s : shell) : bytemem := p_mem (sh_printer s).

Definition on_bytes {A} (m : B A) : H A := zoom printer_of (on_mem m).
Definition on_cmdq {A} (m : M (qstate cmd_loc) A) : H A := zoom (Lens sh_cmdq set_sh_cmdq) m.

Section shell.
Context `{!ShellLayout, !Critical shell}.

(** [acoral_prints] with a literal. *)
Definition acoral_prints (format : list Z) (argp : list Z) : H unit := smp_print printer_of (lit format) argp.

(** ** The commands of cmd.c *)
Inductive parse_state : Type := PS_WHITESPACE | PS_TOKEN | PS_STRING | PS_ESCAPE.

(** [argv[i] = p]. *)
Definition set_argv (argv : list Z) (i p : Z) : H (list Z) :=
  if (0 <=? i) && (i <? MAX_ARGS_NUM) then mret (aset i p argv) else fail Wild.

(** What one character does: the new state, where the next character is, and
    the arguments. *)
Definition parse_char (argstr c argc : Z) (argv : list Z) (lastState stacked_state : parse_state) :
    H (Z * Z * list Z * parse_state * parse_state) :=
  match lastState with
  | PS_ESCAPE => mret (argstr + 1, argc, argv, stacked_state, stacked_state)
  | PS_STRING =>
      if c =? 34 then on_bytes (store8 argstr 0);; mret (argstr + 1, argc, argv, PS_WHITESPACE, stacked_state)
      else mret (argstr + 1, argc, argv, PS_STRING, stacked_state)
  | _ =>
      if (c =? 32) || (c =? 9) then
        on_bytes (store8 argstr 0);; mret (argstr + 1, argc, argv, PS_WHITESPACE, stacked_state)
      else if c =? 34 then
        on_bytes (store8 argstr 0);;
        let argstr := argstr + 1 in
        argv ← set_argv argv argc argstr;
        mret (argstr + 1, argc + 1, argv, PS_STRING, stacked_state)
      else if c =? 92 then mret (argstr + 1, argc, argv, PS_ESCAPE, lastState)
      else
        match lastState with
        | PS_WHITESPACE => argv ← set_argv argv argc argstr; mret (argstr + 1, argc + 1, argv, PS_TOKEN, stacked_state)
        | _ => mret (argstr + 1, argc, argv, PS_TOKEN, stacked_state)
        end
  end.

Definition ends_command (c : Z) (lastState : parse_state) : bool :=
  (c =? 59) && match lastState with PS_STRING | PS_ESCAPE => false | _ => true end.

(** The loop of [parse_args]; each turn reads another character. *)
Fixpoint parse_loop (fuel : nat) (argstr argc : Z) (argv : list Z) (lastState stacked_state : parse_state) :
    H (Z * Z * list Z * parse_state) :=
  c ← on_bytes (load8 argstr);
  if negb (c =? 0) && (argc <? MAX_ARGS_NUM) then
    if ends_command c lastState then mret (argstr, argc, argv, stacked_state) else
    '(argstr, argc, argv, newState, stacked_state) ← parse_char argstr c argc argv lastState stacked_state;
    match fuel with O => fail Diverge | S fuel => parse_loop fuel argstr argc argv newState stacked_state end
  else mret (argstr, argc, argv, stacked_state).

(** [argc], [argv], [resid] and [stacked]. *)
Definition parse_args (argstr : Z) (argv : list Z) (stacked : parse_state) : H (Z * list Z * Z * parse_state) :=
  fuel ← get (λ s, S (size (sh_mem s)));
  '(argstr, argc, argv, stacked_state) ← parse_loop fuel argstr 0 argv PS_WHITESPACE stacked;
  argv ← set_argv argv argc 0;
  c ← on_bytes (load8 argstr);
  if c =? 59 then on_bytes (store8 argstr 0);; mret (argc, argv, argstr + 1, stacked_state)
  else mret (argc, argv, argstr, stacked_state).

Definition ash_cmd_register (cmd : nat) : H unit := on_cmdq (acoral_fifo_queue_add CmdQueue (CmdNode cmd)).

Definition cmd_of (tmp : cmd_loc) : H acoral_ash_cmd :=
  deref (λ s, match tmp with CmdNode n => sh_cmds s !! n | CmdQueue => None end).
Definition cmd_next (tmp : cmd_loc) : H cmd_loc := on_cmdq (on_nodes (get_next tmp)).
Definition queue_turns (s : shell) : nat := S (size (q_nodes (sh_cmdq s))).

Fixpoint find_loop (fuel : nat) (junk : Z) (tmp : cmd_loc) (cmdname : Z) : H (option acoral_ash_cmd) :=
  if bool_decide (tmp = CmdQueue) then mret None else
  cmd ← cmd_of tmp;
  r ← on_bytes (acoral_str_cmp junk (cmd_name cmd) cmdname);
  if r =? 0 then mret (Some cmd) else
  match fuel with
  | O => fail Diverge
  | S fuel => tmp ← cmd_next tmp; find_loop fuel junk tmp cmdname
  end.

Definition find_cmd (junk cmdname : Z) : H (option acoral_ash_cmd) :=
  empty ← on_cmdq (on_nodes (acoral_list_empty CmdQueue));
  if (empty : bool) then mret None else
  tmp ← cmd_next CmdQueue;
  fuel ← get queue_turns;
  find_loop fuel junk tmp cmdname.

Fixpoint help_loop (fuel : nat) (tmp : cmd_loc) : H unit :=
  if bool_decide (tmp = CmdQueue) then mret tt else
  cmd ← cmd_of tmp;
  acoral_prints (txt "%s  " ++ [9] ++ txt "%s" ++ [13; 10]) [cmd_name cmd; cmd_comment cmd];;
  match fuel with O => fail Diverge | S fuel => tmp ← cmd_next tmp; help_loop fuel tmp end.

Definition help (argc : Z) (argv : list Z) : H unit :=
  empty ← on_cmdq (on_nodes (acoral_list_empty CmdQueue));
  if (empty : bool) then mret tt else
  tmp ← cmd_next CmdQueue;
  fuel ← get queue_turns;
  help_loop fuel tmp.

(** [cmd->exe(argc, argv)]. *)
Context (exe : Z → Z → list Z → H unit).

Definition real_cmd_exec (junk argc : Z) (argv : list Z) : H unit :=
  name ← deref (λ _, aget argv 0);
  cmd ← find_cmd junk name;
  match cmd with
  | None =>
      acoral_prints (txt "Could not found '%s' command" ++ [13; 10]) [name];;
      acoral_prints (txt "you can type 'help'" ++ [13; 10]) []
  | Some cmd => exe (cmd_exe cmd) argc argv
  end.

(** The loop over the commands of a line; [junk] is what [stacked_state] holds
    before the first.  Each turn begins at another address. *)
Fixpoint exe_loop (fuel : nat) (junk buf : Z) (stacked_state : parse_state) : H unit :=
  c ← on_bytes (load8 buf);
  if c =? 0 then mret tt else
  '(argc, argv, resid, stacked_state) ← parse_args buf (replicate 8 0) stacked_state;
  when (0 <? argc) (real_cmd_exec junk argc argv);;
  match fuel with O => fail Diverge | S fuel => exe_loop fuel junk resid stacked_state end.

Definition acoral_ash_cmd_exe (junk : Z) (stacked_state : parse_state) (buf : Z) : H unit :=
  fuel ← get (λ s, S (size (sh_mem s)));
  exe_loop fuel junk buf stacked_state.

(** ** The line editor of shell.c *)
Definition ash_get_prompt : H Z :=
  d ← get dir_change;
  when (d =? 1)
    (on_bytes (acoral_memset ash_prompt 0 ASH_PROMPT_SIZE);;
     on_bytes (acoral_str_cat ash_prompt (lit (txt "aCoral:")));;
     cur ← get cur_dir;
     on_bytes (acoral_str_cat ash_prompt cur);;
     on_bytes (acoral_str_cat ash_prompt (lit (txt "$")));;
     modify (set_dir_change 0));;
  mret ash_prompt.

Definition shell_handle_history : H bool :=
  acoral_prints [27; 91; 50; 75; 13] [];;
  prompt ← ash_get_prompt;
  acoral_prints (txt "%s%s") [prompt; ash_line];;
  mret false.

(** [&cmd_history[i]]. *)
Definition history_row (i : Z) : Z := ash_history + i * ASH_CMD_SIZE.

(** The line into an emptied row. *)
Definition keep_line (i position : Z) : H unit :=
  on_bytes (acoral_memset (history_row i) 0 ASH_CMD_SIZE);;
  on_bytes (acoral_memcpy (history_row i) ash_line position);;
  mret tt.

Definition shell_push_history : H unit :=
  position ← get line_position;
  when (negb (position =? 0))
    (count ← get history_count;
     if ASH_HISTORY_LINES <=? count then
       r ← on_bytes (acoral_memcmp (history_row (ASH_HISTORY_LINES - 1)) ash_line ASH_CMD_SIZE);
       when (negb (r =? 0))
         (for_up (Z.to_nat (ASH_HISTORY_LINES - 1)) 0
            (λ index, on_bytes (acoral_memcpy (history_row index) (history_row (index + 1)) ASH_CMD_SIZE);; mret tt);;
          keep_line (ASH_HISTORY_LINES - 1) position;;
          modify (set_history_count ASH_HISTORY_LINES))
     else
       r ← (if count =? 0 then mret 1 else on_bytes (acoral_memcmp (history_row (count - 1)) ash_line ASH_CMD_SIZE));
       when (negb (r =? 0))
         (modify (set_current_history count);;
          keep_line count position;;
          modify (set_history_count (u16 (count + 1)))));;
  count ← get history_count;
  modify (set_current_history count).

(** [line[i] = v]. *)
Definition set_line (i v : Z) : H unit :=
  if (0 <=? i) && (i <? ASH_CMD_SIZE) then on_bytes (store8 (ash_line + i) v) else fail Wild.

(** A line of the history becomes the line. *)
Definition recall_history : H unit :=
  c ← get current_history;
  on_bytes (acoral_memcpy ash_line (history_row c) ASH_CMD_SIZE);;
  l ← on_bytes (strlen ash_line);
  modify (set_line_position (u16 l));;
  modify (set_line_curpos (u16 l));;
  shell_handle_history;;
  mret tt.

Definition up_key : H unit :=
  c ← get current_history;
  if 0 <? c then modify (set_current_history (c - 1));; recall_history
  else modify (set_current_history 0).

Definition down_key : H unit :=
  c ← get current_history;
  count ← get history_count;
  if c <? count - 1 then modify (set_current_history (u16 (c + 1)));; recall_history
  else if negb (count =? 0) then modify (set_current_history (count - 1));; recall_history
  else mret tt.

Definition left_key : H unit :=
  cur ← get line_curpos;
  when (negb (cur =? 0)) (acoral_prints [8] [];; modify (set_line_curpos (cur - 1))).

Definition right_key : H unit :=
  cur ← get line_curpos;
  position ← get line_position;
  when (cur <? position)
    (c ← on_bytes (load8 (ash_line + cur));
     acoral_prints (txt "%c") [c];;
     modify (set_line_curpos (u16 (cur + 1)))).

(** The cursor goes [n] characters back. *)
Definition cursor_back (n : Z) : H unit := for_up (Z.to_nat n) 0 (λ _, acoral_prints [8] []).

Definition backspace_key : H unit :=
  cur ← get line_curpos;
  when (negb (cur =? 0))
    (position ← get line_position;
     let position := u16 (position - 1) in
     let cur := u16 (cur - 1) in
     modify (set_line_position position);;
     modify (set_line_curpos cur);;
     if cur <? position then
       on_bytes (acoral_memmove (ash_line + cur) (ash_line + cur + 1) (position - cur));;
       set_line position 0;;
       acoral_prints ([8] ++ txt "%s  " ++ [8]) [ash_line + cur];;
       cursor_back (position - cur + 1)
     else
       acoral_prints ([8] ++ txt " " ++ [8]) [];;
       set_line position 0).

(** [true]: [ash_cmd_process] returns. *)
Definition enter_key (junk : Z) (stacked : parse_state) : H bool :=
  shell_push_history;;
  acoral_prints [13; 10] [];;
  acoral_ash_cmd_exe junk stacked ash_line;;
  on_bytes (acoral_memset ash_line 0 ASH_CMD_SIZE);;
  modify (set_line_curpos 0);;
  modify (set_line_position 0);;
  mret true.

Definition insert_key (ch : Z) : H bool :=
  position ← get line_position;
  cur ← get line_curpos;
  if position <? ASH_CMD_SIZE then
    (if cur <? position then
       on_bytes (acoral_memmove (ash_line + cur + 1) (ash_line + cur) (position - cur));;
       set_line cur ch;;
       set_line (position + 1) 0;;
       acoral_prints (txt "%s") [ash_line + cur];;
       cursor_back (position - cur)
     else
       set_line cur ch;;
       e ← get echo_mode;
       when (negb (e =? 0)) (zoom printer_of (outbyte ch)));;
    modify (set_line_position (u16 (position + 1)));;
    modify (set_line_curpos (u16 (cur + 1)));;
    mret false
  else
    acoral_prints ([13; 10] ++ txt "beyond cmd size, please try again" ++ [13; 10]) [];;
    modify (set_line_position 0);;
    modify (set_line_curpos 0);;
    mret true.

(** The switch on a character. *)
Definition char_key (junk : Z) (stacked : parse_state) (ch : Z) : H bool :=
  if (ch =? 8) || (ch =? 127) then backspace_key;; mret false
  else if (ch =? 13) || (ch =? 10) then enter_key junk stacked
  else insert_key ch.

(** The body of the loop over the characters, behind the buffer. *)
Definition process_key (junk : Z) (stacked : parse_state) (ch : Z) : H bool :=
  stat ← get sh_stat;
  if ch =? 27 then modify (set_sh_stat WAIT_SPEC_KEY);; mret false
  else
    match stat with
    | WAIT_SPEC_KEY =>
        if ch =? 91 then modify (set_sh_stat WAIT_FUNC_KEY);; mret false
        else modify (set_sh_stat WAIT_NORMAL);; char_key junk stacked ch
    | WAIT_FUNC_KEY =>
        modify (set_sh_stat WAIT_NORMAL);;
        if ch =? 65 then up_key;; mret false
        else if ch =? 66 then down_key;; mret false
        else if ch =? 68 then left_key;; mret false
        else if ch =? 67 then right_key;; mret false
        else char_key junk stacked ch
    | WAIT_NORMAL => char_key junk stacked ch
    end.

(** ** The buffer of the characters received *)
Definition next_pos (p : Z) : Z := if p + 1 =? ASH_CMD_SIZE then 0 else p + 1.

(** [avail] is what the driver gives, one byte a call; the result is what is
    rest of it. *)
Fixpoint receive_loop (avail : list Z) : H (list Z) :=
  p ← get input_pos;
  c ← on_bytes (load8 (ash_input + p));
  if negb (c =? 0) then mret avail else
  match avail with
  | [] => mret []
  | b :: avail =>
      on_bytes (store8 (ash_input + p) b);;
      modify (set_input_pos (next_pos p));;
      receive_loop avail
  end.

(** Each turn empties a cell of the buffer. *)
Fixpoint keys_loop (fuel : nat) (junk : Z) (stacked : parse_state) : H bool :=
  g ← get get_pos;
  ch ← on_bytes (load8 (ash_input + g));
  if ch =? 0 then mret false else
  on_bytes (store8 (ash_input + g) 0);;
  modify (set_get_pos (next_pos g));;
  ret ← process_key junk stacked ch;
  if (ret : bool) then mret true else
  match fuel with O => fail Diverge | S fuel => keys_loop fuel junk stacked end.

(** What follows each [acoral_sem_pend]. *)
Definition ash_wake (junk : Z) (stacked : parse_state) (avail : list Z) : H (bool * list Z) :=
  avail ← receive_loop avail;
  ret ← keys_loop (Z.to_nat ASH_CMD_SIZE) junk stacked;
  mret (ret, avail).

(** [ash_cmd_process] as far as it gets with the bytes that arrive before each
    wake-up: [None] when it still waits, and what is left when it
    returned. *)
Fixpoint ash_cmd_process (junk : Z) (stacked : parse_state) (rest : list Z) (arrivals : list (list Z)) :
    H (option (list Z * list (list Z))) :=
  match arrivals with
  | [] => mret None
  | a :: arrivals =>
      '(ret, rest) ← ash_wake junk stacked (rest ++ a);
      if (ret : bool) then mret (Some (rest, arrivals)) else ash_cmd_process junk stacked rest arrivals
  end.

(** The shell's thread, until it waits for bytes that do not come. *)
Fixpoint ash_shell_thread (fuel : nat) (junk : Z) (stacked : parse_state) (rest : list Z) (arrivals : list (list Z)) : H unit :=
  prompt ← ash_get_prompt;
  smp_print printer_of prompt [];;
  r ← ash_cmd_process junk stacked rest arrivals;
  match r with
  | None => mret tt
  | Some (rest, arrivals) =>
      match fuel with O => fail Diverge | S fuel => ash_shell_thread fuel junk stacked rest arrivals end
  end.

(** ** Initialisation; the serial line's and the semaphore's are arguments *)
Definition ash_cmd_init : H unit :=
  on_cmdq (acoral_fifo_queue_init CmdQueue);;
  ash_cmd_register 0;;
  ash_cmd_register 1;;
  ash_cmd_register 2.

Definition acoral_ash_shell_init (shell_uart_init shell_sem_init : H unit) : H unit :=
  ash_cmd_init;;
  shell_uart_init;;
  shell_sem_init;;
  modify (set_echo_mode 1);;
  modify (set_current_history 0);;
  modify (set_history_count 0);;
  modify (set_line_curpos 0);;
  modify (set_line_position 0);;
  modify (set_cur_dir (lit (txt "/")));;
  modify (set_dir_change 1);;
  on_bytes (acoral_memset ash_history 0 (ASH_HISTORY_LINES * ASH_CMD_SIZE));;
  on_bytes (acoral_memset ash_line 0 ASH_CMD_SIZE);;
  mret tt.
End shell.
