(* ===== verification/ShellSpec.v ===== *)
(** * Correctness of the shell's line editor

    The abstract editor is a line as the characters before the cursor, the last
    one first, and those after it, and the history as a list of lines.  [edits] relates it to the arrays and
    positions of the shell; each key has its step on the abstract side. *)
From S2P Require Import Prelude Interfaces DList Queues Str StrSpec Print PrintSpec Shell.
From stdpp Require Import list strings.
#[local] Open Scope Z_scope.

(** ** Memory of the shell *)
Section memory.
Implicit Types (m : bytemem) (l : list Z) (s : shell).

Definition set_sh_mem m s : shell := set_sh_printer (set_p_mem m (sh_printer s)) s.

Lemma run_on_bytes {A} (f : B A) s a m : f (sh_mem s) = Ret (a, m) → on_bytes f s = Ret (a, set_sh_mem m s).
Proof. intros Hf. unfold on_bytes. erewrite run_zoom; [done|]. unfold on_mem. by erewrite run_zoom by done. Qed.

Lemma run_on_bytes_id {A} (f : B A) s a : f (sh_mem s) = Ret (a, sh_mem s) → on_bytes f s = Ret (a, s).
Proof. intros Hf. erewrite run_on_bytes by done. by destruct s as [??????????[]??]. Qed.

Definition apart (p : Z) (n : nat) (q : Z) (k : nat) : Prop := p + Z.of_nat n ≤ q ∨ q + Z.of_nat k ≤ p.

Lemma poke_bytes_ne p l m q l' : bytes m q l' → apart p (length l) q (length l') → bytes (poke p l m) q l'.
Proof.
  intros Hb Ha. apply bytes_intro. intros i x Hi. pose proof (lookup_lt_Some _ _ _ Hi).
  rewrite poke_lookup, decide_False by (unfold apart in Ha; lia). by apply bytes_lookup with l'.
Qed.

Lemma poke_app p l l' m : poke p (l ++ l') m = poke (p + Z.of_nat (length l)) l' (poke p l m).
Proof.
  revert p m. induction l as [|x l IH]; intros p m; simpl; [by rewrite Z.add_0_r|].
  rewrite IH. f_equal. lia.
Qed.

(** Writing over a part of what is known. *)
Lemma poke_bytes_over p a l b c m :
  bytes m p (a ++ b ++ c) → length l = length b → bytes (poke (p + Z.of_nat (length a)) l m) p (a ++ l ++ c).
Proof.
  intros Hb Hl. apply bytes_app in Hb as [Ha Hb]. apply bytes_app in Hb as [Hb Hc].
  apply bytes_app. split; [apply poke_bytes_ne; [done|unfold apart; lia]|].
  apply bytes_app. split; [apply poke_bytes|]. rewrite Hl. apply poke_bytes_ne; [done|unfold apart; lia].
Qed.

Lemma poke_out p l m k : ¬ (p ≤ k < p + Z.of_nat (length l)) → poke p l m !! k = m !! k.
Proof. intros Hk. by rewrite poke_lookup, decide_False. Qed.

Lemma memset_spec n p c m : room m p n → 0 ≤ c < 256 →
  acoral_memset p c (Z.of_nat n) m = Ret (p, poke p (replicate n c) m).
Proof.
  intros Hr Hc. unfold acoral_memset. rewrite Nat2Z.id.
  assert (set_loop n p c m = Ret (tt, poke p (replicate n c) m)) as Hrun; [|by erewrite run_bind by exact Hrun].
  revert p m Hr. induction n as [|n IH]; intros p m Hr; [done|]. cbn [set_loop].
  erewrite run_bind by (apply run_store8, Hr; lia). rewrite IH by (by apply room_insert, room_tail).
  by rewrite wrapu_small.
Qed.

Lemma memcpy_spec l dest src m : bytes m src l → room m dest (length l) → apart dest (length l) src (length l) →
  acoral_memcpy dest src (Z.of_nat (length l)) m = Ret (dest, poke dest l m).
Proof.
  intros Hl Hr Ha. unfold acoral_memcpy. rewrite Nat2Z.id.
  by erewrite run_bind by (apply copy_up_spec; [done|done|unfold apart in Ha; lia]).
Qed.

Lemma memmove_spec l dest src m : bytes m src l → room m dest (length l) →
  acoral_memmove dest src (Z.of_nat (length l)) m = Ret (dest, poke dest l m).
Proof.
  intros Hl Hr. unfold acoral_memmove. rewrite Nat2Z.id. destruct (Z.leb_spec dest src).
  - by erewrite run_bind by (apply copy_up_spec; [done|done|by left]).
  - by erewrite run_bind by (by apply copy_down_spec).
Qed.

Lemma poke_insert_ne p l m k x : ¬ (p ≤ k < p + Z.of_nat (length l)) → poke p l (<[k := x]> m) = <[k := x]> (poke p l m).
Proof.
  intros Hk. apply map_eq. intros j. rewrite poke_lookup, !lookup_insert, poke_lookup.
  repeat case_decide; subst; done || lia.
Qed.

Lemma poke_one p x m : poke p [x] m = <[p := x]> m.
Proof. done. Qed.

Lemma room_poke p l m q n : room m q n → room (poke p l m) q n.
Proof.
  intros Hr k Hk. rewrite poke_lookup. case_decide; [|by apply Hr]. apply lookup_lt_is_Some_2. lia.
Qed.
End memory.

(** ** The layout *)

(** The literals of the editor. *)
Definition two_strings : list Z := txt "%s%s".
Definition echo_char : list Z := txt "%c".
Definition echo_string : list Z := txt "%s".
Definition back_string : list Z := [8] ++ txt "%s  " ++ [8].

Definition erase_string : list Z := [8] ++ txt " " ++ [8].
Definition beyond_string : list Z := [13; 10] ++ txt "beyond cmd size, please try again" ++ [13; 10].
Definition unknown_string : list Z := txt "Could not found '%s' command" ++ [13; 10].
Definition advice_string : list Z := txt "you can type 'help'" ++ [13; 10].

Definition shell_literals : list (list Z) :=
  [[8]; echo_char; echo_string; back_string; erase_string; [27; 91; 50; 75; 13]; two_strings; [13; 10]; beyond_string;
   unknown_string; advice_string].

(** The arrays and literals are objects of their own. *)
Class ShellLaid `{!ShellLayout} : Prop := {
  sl_pos : 0 < ash_line ∧ 0 < ash_history ∧ 0 < ash_input ∧ 0 < ash_prompt;
  sl_line_history : apart ash_line 80 ash_history 400;
  sl_line_input : apart ash_line 80 ash_input 80;
  sl_line_prompt : apart ash_line 80 ash_prompt 81;
  sl_history_input : apart ash_history 400 ash_input 80;
  sl_history_prompt : apart ash_history 400 ash_prompt 81;
  sl_input_prompt : apart ash_input 80 ash_prompt 81;
  sl_lit_pos : ∀ l, 0 < lit l;
  sl_lit : ∀ l, l ∈ shell_literals →
    apart ash_line 80 (lit l) (S (length l)) ∧ apart ash_history 400 (lit l) (S (length l)) ∧
    apart ash_input 80 (lit l) (S (length l)) ∧ apart ash_prompt 81 (lit l) (S (length l));
}.

(** Critical sections do not change what the shell knows. *)
Class ShellCritical `{!Critical shell} : Prop := {
  sc_enter : ∀ s : shell, cr_enter s = Ret (tt, s);
  sc_exit : ∀ s : shell, cr_exit s = Ret (tt, s);
}.

Section editor.
Context `{!ShellLayout, !ShellLaid, !Critical shell, !ShellCritical}.
Implicit Types (m : bytemem) (s : shell) (a b l : list Z).

Definition char_ok (c : Z) : Prop := 0 < c < 256.

(** What [l] becomes on the console. *)
Definition say (l : list Z) (s : shell) : shell := set_sh_printer (out l (sh_printer s)) s.

Definition printer_ready s : Prop := p_print_init (sh_printer s) ≠ 0 ∧ p_print_lock (sh_printer s) = 0.

#[export] Instance printer_laws : LensLaws printer_of.
Proof. split; [done|by intros []|done]. Qed.

(** Every literal is in memory. *)
Definition has_literals m : Prop := ∀ l, l ∈ shell_literals → bytes m (lit l) (l ++ [0]).

Lemma lit_in i l : shell_literals !! i = Some l → l ∈ shell_literals.
Proof. apply list_elem_of_lookup_2. Qed.

Lemma smp_print_run xs ctrl s :
  printer_ready s → ctrl ≠ 0 → Forall (piece_ok (sh_mem s)) xs → bytes (sh_mem s) ctrl (fmt xs ++ [0]) →
  smp_print printer_of ctrl (words xs) s = Ret (tt, say (render xs) s).
Proof.
  intros [Hi Hl] Hc Hok Hb. destruct s as [? ? ? ? ? ? ? ? ? ? [m o i l] ? ?]. simpl in *. subst l. unfold smp_print.
  erewrite run_bind.
  2:{ apply run_zoom. unfold print_lock_init. erewrite run_bind by done. simpl. by rewrite (proj2 (Z.eqb_neq i 0)). }
  simpl. erewrite run_bind by apply sc_enter. erewrite run_bind by (by apply run_zoom). simpl.
  rewrite <- (app_nil_r (words xs)).
  erewrite run_bind by (by apply run_zoom, print_format_spec).
  erewrite run_bind by (by apply run_zoom). apply sc_exit.
Qed.

Lemma prints_run xs l s : l = fmt xs →
  printer_ready s → has_literals (sh_mem s) → l ∈ shell_literals → Forall (piece_ok (sh_mem s)) xs →
  acoral_prints l (words xs) s = Ret (tt, say (render xs) s).
Proof.
  intros -> Hr Hl Hin Hok. unfold acoral_prints. apply smp_print_run; [done| |done|by apply Hl].
  pose proof (sl_lit_pos (fmt xs)). lia.
Qed.

(** A literal without conversions. *)
Lemma prints_literal i l s : shell_literals !! i = Some l → forallb (λ c, (0 <? c) && (c <? 256) && negb (c =? 37)) l = true →
  printer_ready s → has_literals (sh_mem s) → acoral_prints l [] s = Ret (tt, say l s).
Proof.
  intros Hi Hok Hr Hl. set (xs := Literal <$> l).
  assert (fmt xs = l ∧ words xs = [] ∧ render xs = l ∧ Forall (piece_ok (sh_mem s)) xs) as (Hf & Hw & Hrd & Hp).
  { unfold xs. clear Hi. induction l as [|c l IH]; [done|]. simpl in Hok. apply andb_true_iff in Hok as [Hc Hok].
    destruct (IH Hok) as (Hf & Hw & Hrd & Hp). unfold fmt, words, render in *. cbn. rewrite Hf, Hw, Hrd. split_and!; [done..|].
    apply Forall_cons. split; [|done]. apply andb_true_iff in Hc as [[?%Z.ltb_lt ?%Z.ltb_lt]%andb_true_iff Hc].
    split; [done|]. intros ->. done. }
  pose proof (prints_run xs l s) as Hrun. rewrite Hw, Hrd in Hrun. apply Hrun; [done|done|done|by eapply lit_in|done].
Qed.

(** ** The abstract editor *)
Record editor : Type := mk_editor {
  ed_before : list Z;
  ed_after : list Z;
  ed_hist : list (list Z);
  ed_cur : nat;
}.

Definition ed_line (e : editor) : list Z := rev (ed_before e) ++ ed_after e.

(** A line as it stands in its array of 80 characters. *)
Definition row (l : list Z) : list Z := l ++ replicate (80 - length l) 0.

Definition line_ok (l : list Z) : Prop := Forall char_ok l ∧ (length l ≤ 79)%nat.

Record edits (prompt : list Z) (e : editor) (s : shell) : Prop := {
  er_line : bytes (sh_mem s) ash_line (row (ed_line e));
  er_line_ok : line_ok (ed_line e);
  er_hist : ∀ i, (i < 5)%nat → bytes (sh_mem s) (history_row (Z.of_nat i)) (row (default [] (ed_hist e !! i)));
  er_hist_ok : Forall line_ok (ed_hist e);
  er_hist_len : (length (ed_hist e) ≤ 5)%nat;
  er_count : history_count s = Z.of_nat (length (ed_hist e));
  er_current : current_history s = Z.of_nat (ed_cur e);
  er_cur : (ed_cur e ≤ length (ed_hist e))%nat;
  er_position : line_position s = Z.of_nat (length (ed_line e));
  er_curpos : line_curpos s = Z.of_nat (length (ed_before e));
  er_echo : echo_mode s = 1;
  er_prompt : dir_change s = 0 ∧ cstr (sh_mem s) ash_prompt prompt ∧ (length prompt ≤ 80)%nat;
  er_literals : has_literals (sh_mem s);
  er_ready : printer_ready s;
}.

(** What the editor does not own stays as it is. *)
Record keeps (s s' : shell) : Prop := {
  kp_mem : ∀ k, ¬ (ash_line ≤ k < ash_line + 80) → ¬ (ash_history ≤ k < ash_history + 400) → sh_mem s' !! k = sh_mem s !! k;
  kp_pos : get_pos s' = get_pos s ∧ input_pos s' = input_pos s;
  kp_cmds : sh_cmdq s' = sh_cmdq s ∧ sh_cmds s' = sh_cmds s ∧ cur_dir s' = cur_dir s;
}.

#[export] Instance keeps_preorder : PreOrder keeps.
Proof.
  split; [by split|]. intros s1 s2 s3 [M1 [P1 Q1] [C1 [D1 E1]]] [M2 [P2 Q2] [C2 [D2 E2]]]. split; [|split; congruence|split_and!; congruence].
  intros k Hk Hk'. by rewrite M2, M1.
Qed.

Lemma length_row l : (length l ≤ 80)%nat → length (row l) = 80%nat.
Proof. intros. unfold row. rewrite length_app, length_replicate. lia. Qed.

Lemma row_split l : (length l ≤ 79)%nat → row l = l ++ 0 :: replicate (79 - length l) 0.
Proof. intros. unfold row. by replace (80 - length l)%nat with (S (79 - length l)) by lia. Qed.

(** Areas that a change leaves alone. *)
Lemma bytes_frame m m' p l (P : Z → Prop) :
  bytes m p l → (∀ k, ¬ P k → m' !! k = m !! k) → (∀ k, p ≤ k < p + Z.of_nat (length l) → ¬ P k) → bytes m' p l.
Proof.
  intros Hb Hm Hp. apply bytes_intro. intros i x Hi. pose proof (lookup_lt_Some _ _ _ Hi).
  rewrite Hm by (apply Hp; lia). by apply bytes_lookup with l.
Qed.

Lemma literals_frame m m' : has_literals m →
  (∀ k, ¬ (ash_line ≤ k < ash_line + 80) → ¬ (ash_history ≤ k < ash_history + 400) → m' !! k = m !! k) → has_literals m'.
Proof.
  intros Hl Hm l Hin. destruct (sl_lit l Hin) as (A1 & A2 & _ & _). unfold apart in *.
  apply (bytes_frame m _ _ _ (λ k, (ash_line ≤ k < ash_line + 80) ∨ (ash_history ≤ k < ash_history + 400))); [by apply Hl| |].
  - intros k Hk. apply Hm; tauto.
  - intros k Hk. rewrite length_app in Hk. simpl in Hk. lia.
Qed.

(** A change of the line. *)
Lemma edits_write prompt e s s' b a cur :
  edits prompt e s →
  bytes (sh_mem s') ash_line (row (rev b ++ a)) →
  (∀ k, ¬ (ash_line ≤ k < ash_line + 80) → sh_mem s' !! k = sh_mem s !! k) →
  line_ok (rev b ++ a) → (cur ≤ length (ed_hist e))%nat →
  line_position s' = Z.of_nat (length (rev b ++ a)) → line_curpos s' = Z.of_nat (length b) →
  current_history s' = Z.of_nat cur →
  history_count s' = history_count s → echo_mode s' = echo_mode s → dir_change s' = dir_change s →
  printer_ready s' →
  edits prompt (mk_editor b a (ed_hist e) cur) s'.
Proof.
  intros [Hl Hok Hh Hhok Hlen Hcount Hcur Hc Hp Hcp He (Hd & Hpr & Hpl) Hlit Hr] Hl' Hm Hok' Hc' Hp' Hcp' Hcur' Ec Ee Ed Hr'.
  split; simpl; rewrite ?Ec, ?Ee, ?Ed; try done.
  - intros i Hi. pose proof sl_line_history as Ha. unfold apart in Ha. eapply bytes_frame; [by apply Hh|exact Hm|].
    intros k Hk. cbv beta. rewrite length_row in Hk; [unfold history_row, ASH_CMD_SIZE in Hk; lia|].
    destruct (ed_hist e !! i) eqn:E; simpl; [|lia]. apply (Forall_lookup_1 _ _ _ _ Hhok) in E as [_ ?]. lia.
  - split_and!; [done| |done]. split; [apply Hpr|]. pose proof sl_line_prompt as Ha. unfold apart in Ha.
    eapply bytes_frame; [apply Hpr|exact Hm|]. intros k Hk. cbv beta. rewrite length_app in Hk. simpl in Hk. lia.
  - eapply literals_frame; [done|]. intros k Hk _. by apply Hm.
Qed.

(** ** Keys on the abstract side: the new editor, and what is printed *)
Definition recall (e : editor) (i : nat) : editor := mk_editor (rev (default [] (ed_hist e !! i))) [] (ed_hist e) i.
Definition with_line (prompt : list Z) (e : editor) : editor * list Z :=
  (e, [27; 91; 50; 75; 13] ++ prompt ++ ed_line e).

Definition up_step (prompt : list Z) (e : editor) : editor * list Z :=
  match ed_cur e with O => (e, []) | S i => with_line prompt (recall e i) end.

Definition down_step (prompt : list Z) (e : editor) : editor * list Z :=
  if decide (S (ed_cur e) < length (ed_hist e))%nat then with_line prompt (recall e (S (ed_cur e)))
  else if decide (ed_hist e = []) then (e, [])
  else with_line prompt (recall e (length (ed_hist e) - 1)).

Definition left_step (e : editor) : editor * list Z :=
  match ed_before e with
  | [] => (e, [])
  | x :: b => (mk_editor b (x :: ed_after e) (ed_hist e) (ed_cur e), [8])
  end.

Definition right_step (e : editor) : editor * list Z :=
  match ed_after e with
  | [] => (e, [])
  | x :: a => (mk_editor (x :: ed_before e) a (ed_hist e) (ed_cur e), [x])
  end.

Definition backspace_step (e : editor) : editor * list Z :=
  match ed_before e with
  | [] => (e, [])
  | x :: b =>
      (mk_editor b (ed_after e) (ed_hist e) (ed_cur e),
       if decide (ed_after e = []) then [8; 32; 8]
       else [8] ++ ed_after e ++ [32; 32; 8] ++ replicate (S (length (ed_after e))) 8)
  end.

Definition insert_step (c : Z) (e : editor) : editor * list Z :=
  (mk_editor (c :: ed_before e) (ed_after e) (ed_hist e) (ed_cur e),
   if decide (ed_after e = []) then [c] else (c :: ed_after e) ++ replicate (length (ed_after e)) 8).

(** [f] does on [s] what the step does on [e], and keeps the rest. *)
Definition refines {A} (prompt : list Z) (r : A) (step : editor * list Z) (f : M shell A) (s : shell) : Prop :=
  ∃ s', f s = Ret (r, s') ∧ edits prompt step.1 s' ∧ keeps s s' ∧ sh_stat s' = sh_stat s ∧
    p_out (sh_printer s') = p_out (sh_printer s) ++ step.2.

Lemma refines_same {A} prompt (r : A) e f s : edits prompt e s → f s = Ret (r, s) → refines prompt r (e, []) f s.
Proof. intros He Hm. exists s. simpl. rewrite app_nil_r. by split_and!. Qed.

Lemma say_say l l' s : say l' (say l s) = say (l ++ l') s.
Proof. destruct s as [??????????[]??]. unfold say, out, set_p_out, set_sh_printer. simpl. by rewrite app_assoc. Qed.

Lemma say_nil s : say [] s = s.
Proof. destruct s as [??????????[]??]. unfold say, out, set_p_out, set_sh_printer. simpl. by rewrite app_nil_r. Qed.

(** [b] backspaces. *)
Lemma cursor_back_run n s : printer_ready s → has_literals (sh_mem s) →
  cursor_back (Z.of_nat n) s = Ret (tt, say (replicate n 8) s).
Proof.
  unfold cursor_back. rewrite Nat2Z.id. generalize 0. revert s. induction n as [|n IH]; intros s z Hr Hl; [by rewrite say_nil|].
  cbn [for_up]. erewrite run_bind.
  2:{ by apply (prints_literal 0). }
  rewrite IH by done. by rewrite say_say.
Qed.

(** The characters from the cursor on are a string, and so is the line. *)
Lemma edits_after prompt e s : edits prompt e s →
  cstr (sh_mem s) (ash_line + Z.of_nat (length (ed_before e))) (ed_after e).
Proof.
  intros He. pose proof (er_line _ _ _ He) as Hb. destruct (er_line_ok _ _ _ He) as [Hc Hl].
  unfold ed_line in *. rewrite row_split in Hb by done. apply Forall_app in Hc as [_ Hc]. split; [done|].
  rewrite <- app_assoc in Hb. apply bytes_app in Hb as [_ Hb]. rewrite length_rev in Hb.
  rewrite cons_middle, app_assoc in Hb. by apply bytes_app in Hb as [? _].
Qed.

Lemma edits_cstr prompt e s : edits prompt e s → cstr (sh_mem s) ash_line (ed_line e).
Proof.
  intros He. pose proof (er_line _ _ _ He) as Hb. destruct (er_line_ok _ _ _ He) as [Hc Hl]. split; [done|].
  rewrite row_split, cons_middle, app_assoc in Hb by done. by apply bytes_app in Hb as [? _].
Qed.

Lemma edits_room prompt e s : edits prompt e s → room (sh_mem s) ash_line 80.
Proof.
  intros He. destruct (er_line_ok _ _ _ He). rewrite <- (length_row (ed_line e)) by lia. apply bytes_room, He.
Qed.

(** A change that leaves memory alone. *)
Lemma refines_move prompt e s s' b a cur o :
  edits prompt e s → rev b ++ a = ed_line e → (cur ≤ length (ed_hist e))%nat →
  sh_mem s' = sh_mem s → p_out (sh_printer s') = p_out (sh_printer s) ++ o →
  line_position s' = line_position s → line_curpos s' = Z.of_nat (length b) → current_history s' = Z.of_nat cur →
  history_count s' = history_count s → echo_mode s' = echo_mode s → dir_change s' = dir_change s →
  printer_ready s' → keeps s s' → sh_stat s' = sh_stat s →
  edits prompt (mk_editor b a (ed_hist e) cur) s' ∧ keeps s s' ∧ sh_stat s' = sh_stat s ∧
    p_out (sh_printer s') = p_out (sh_printer s) ++ o.
Proof.
  intros He Hline Hc Hm Ho Hp Hcp Hcur Hcnt Hecho Hdir Hr Hk Hst. split; [|done].
  eapply edits_write; try done.
  - rewrite Hm, Hline. apply He.
  - by rewrite Hm.
  - rewrite Hline. apply He.
  - rewrite Hp, Hline. apply He.
Qed.

Lemma left_key_refines prompt e s : edits prompt e s → refines prompt tt (left_step e) left_key s.
Proof.
  intros He. pose proof (er_curpos _ _ _ He) as Hcp. unfold left_step. destruct (ed_before e) as [|x b] eqn:E.
  - apply refines_same; [done|]. unfold left_key. erewrite run_bind by done. by rewrite Hcp.
  - eexists. split.
    + unfold left_key. erewrite run_bind by done. rewrite Hcp, (proj2 (Z.eqb_neq _ 0)) by (simpl; lia). cbn [negb when].
      erewrite run_bind.
      2:{ apply (prints_literal 0); [done|done|apply He|apply He]. }
      done.
    + apply (refines_move prompt e); try done; simpl.
      * unfold ed_line. rewrite E. simpl. by rewrite <- app_assoc.
      * apply He.
      * lia.
      * apply He.
      * apply He.
Qed.

Lemma right_key_refines prompt e s : edits prompt e s → refines prompt tt (right_step e) right_key s.
Proof.
  intros He. pose proof (er_curpos _ _ _ He) as Hcp. pose proof (er_position _ _ _ He) as Hp.
  pose proof (edits_after _ _ _ He) as Ha. destruct (er_line_ok _ _ _ He) as [_ Hlen].
  unfold ed_line in *. rewrite length_app, length_rev in *.
  unfold right_step. destruct (ed_after e) as [|x a] eqn:E; simpl in *.
  - apply refines_same; [done|]. unfold right_key. erewrite run_bind by done. erewrite run_bind by done.
    rewrite Hcp, Hp. by rewrite (proj2 (Z.ltb_ge _ _)) by lia.
  - apply cstr_cons in Ha as [[Hx Hm] _]. eexists. split.
    + unfold right_key. erewrite run_bind by done. erewrite run_bind by done.
      rewrite Hcp, Hp, (proj2 (Z.ltb_lt _ _)) by lia. cbn [when].
      erewrite run_bind by (by apply run_on_bytes_id, run_load8).
      erewrite run_bind.
      2:{ apply (prints_run [Convert false [] None (Character x)] echo_char); [done|apply He|apply He|by apply (lit_in 1)|].
          repeat constructor. }
      done.
    + apply (refines_move prompt e); try done; simpl.
      * unfold ed_line. rewrite E. by rewrite <- app_assoc.
      * apply He.
      * by rewrite wrapu_small by lia.
      * rewrite wrapu_small by lia. lia.
      * apply He.
      * apply He.
Qed.

(** ** Keys that change the line *)
Lemma render_string p l : Z.of_nat (length l) ≤ 32767 → render_piece (Convert false [] None (Text p l)) = l.
Proof. intros Hl. unfold render_piece, padded. rewrite take_ge by lia. done. Qed.

Lemma string_ok m p l : p ≠ 0 → cstr m p l → Z.of_nat (length l) ≤ 32767 → piece_ok m (Convert false [] None (Text p l)).
Proof. intros. split; [by repeat constructor|]. split; [done|]. split_and!; [done|done|lia]. Qed.

Lemma ash_line_pos k : ash_line + Z.of_nat k ≠ 0.
Proof. pose proof sl_pos. lia. Qed.

(** A string alone, and between the characters that erase. *)
Lemma print_string_run a p s : printer_ready s → has_literals (sh_mem s) → cstr (sh_mem s) p a → p ≠ 0 → (length a ≤ 79)%nat →
  acoral_prints echo_string [p] s = Ret (tt, say a s).
Proof.
  intros Hr Hl Ha Hp Hlen. replace (say a s) with (say (render [Convert false [] None (Text p a)]) s).
  - apply (prints_run [Convert false [] None (Text p a)] echo_string); [done|done|done|by apply (lit_in 2)|].
    apply Forall_singleton, string_ok; [done|done|lia].
  - unfold render. cbn [mbind list_bind]. by rewrite render_string, app_nil_r by lia.
Qed.

Lemma print_back_run a p s : printer_ready s → has_literals (sh_mem s) → cstr (sh_mem s) p a → p ≠ 0 → (length a ≤ 79)%nat →
  acoral_prints back_string [p] s = Ret (tt, say ([8] ++ a ++ [32; 32; 8]) s).
Proof.
  intros Hr Hl Ha Hp Hlen. set (xs := [Literal 8; Convert false [] None (Text p a); Literal 32; Literal 32; Literal 8]).
  replace (say ([8] ++ a ++ [32; 32; 8]) s) with (say (render xs) s).
  - apply (prints_run xs back_string); [done|done|done|by apply (lit_in 3)|].
    repeat (apply Forall_cons; split); try done. apply string_ok; [done|done|lia].
  - unfold render, xs. cbn [mbind list_bind]. rewrite render_string by lia. done.
Qed.

Lemma run_set_line i v m' s : 0 ≤ i < 80 → room (sh_mem s) ash_line 80 → <[ash_line + i := v]> (sh_mem s) = m' →
  set_line i v s = Ret (tt, set_sh_mem m' s).
Proof.
  intros Hi Hr <-. unfold set_line, ASH_CMD_SIZE. rewrite (proj2 (Z.leb_le _ _)), (proj2 (Z.ltb_lt _ _)) by lia. simpl.
  apply run_on_bytes, run_store8, Hr. lia.
Qed.

(** A change of the line from the place [length b] on. *)
Lemma line_over m b l1 l2 z : bytes m ash_line (rev b ++ l1 ++ z) → length l2 = length l1 →
  bytes (poke (ash_line + Z.of_nat (length b)) l2 m) ash_line (rev b ++ l2 ++ z).
Proof. intros Hb Hl. rewrite <- (length_rev b). by eapply poke_bytes_over. Qed.

Lemma poke_line_out b l m k  : (length b + length l ≤ 80)%nat →
  ¬ (ash_line ≤ k < ash_line + 80) → poke (ash_line + Z.of_nat (length b)) l m !! k = m !! k.
Proof. intros Hl Hk. apply poke_out. lia. Qed.

(** What [edits_write] asks for, of a line that is written from the place
    [length b] on. *)
Lemma refines_write prompt e s s' (b0 a0 l1 l2 z b a o : list Z) :
  edits prompt e s → ed_line e = rev b0 ++ a0 → row (ed_line e) = rev b0 ++ l1 ++ z → row (rev b ++ a) = rev b0 ++ l2 ++ z →
  length l2 = length l1 → line_ok (rev b ++ a) →
  sh_mem s' = poke (ash_line + Z.of_nat (length b0)) l2 (sh_mem s) →
  p_out (sh_printer s') = p_out (sh_printer s) ++ o →
  line_position s' = Z.of_nat (length (rev b ++ a)) → line_curpos s' = Z.of_nat (length b) →
  current_history s' = current_history s → history_count s' = history_count s →
  echo_mode s' = echo_mode s → dir_change s' = dir_change s → printer_ready s' →
  get_pos s' = get_pos s ∧ input_pos s' = input_pos s →
  sh_cmdq s' = sh_cmdq s ∧ sh_cmds s' = sh_cmds s ∧ cur_dir s' = cur_dir s → sh_stat s' = sh_stat s →
  edits prompt (mk_editor b a (ed_hist e) (ed_cur e)) s' ∧ keeps s s' ∧ sh_stat s' = sh_stat s ∧
    p_out (sh_printer s') = p_out (sh_printer s) ++ o.
Proof.
  intros He Hl0 Hr0 Hr1 Hlen Hok Hm Ho Hp Hcp Hcur Hcnt Hecho Hdir Hr Hpos Hcmd Hst.
  pose proof (er_line_ok _ _ _ He) as [_ H79].
  assert (length (row (ed_line e)) = 80%nat) as H80 by (apply length_row; lia).
  rewrite Hr0, !length_app, length_rev in H80.
  assert (∀ k, ¬ (ash_line ≤ k < ash_line + 80) → sh_mem s' !! k = sh_mem s !! k) as Hout.
  { intros k Hk. rewrite Hm. apply poke_line_out; [lia|done]. }
  split_and!; [|split; [intros k Hk _; by apply Hout|done|done]|done|done].
  eapply edits_write; try done.
  - rewrite Hm, Hr1. eapply line_over; [|done]. rewrite <- Hr0. apply He.
  - apply He.
  - rewrite Hcur. apply He.
Qed.

(** The end of a line in its array. *)
Lemma row_app a b n : (length (rev b ++ a) + n ≤ 80)%nat →
  row (rev b ++ a) = rev b ++ (a ++ replicate n 0) ++ replicate (80 - length (rev b ++ a) - n) 0.
Proof.
  intros Hn. unfold row. rewrite <- !app_assoc, <- replicate_add. do 4 f_equal. lia.
Qed.

Lemma poke_line_snoc p a x m : <[p + Z.of_nat (length a) := x]> (poke p a m) = poke p (a ++ [x]) m.
Proof. by rewrite poke_app. Qed.

Lemma poke_literals b l m : (length b + length l ≤ 80)%nat → has_literals m →
  has_literals (poke (ash_line + Z.of_nat (length b)) l m).
Proof. intros Hl Hm. apply (literals_frame m); [done|]. intros k Hk _. by apply poke_line_out. Qed.

(** The run of the key on a cursor that is behind [b] and [x]. *)
Lemma backspace_key_run a b x s :
  line_curpos s = Z.of_nat (S (length b)) → line_position s = Z.of_nat (S (length b + length a)) →
  (length b + length a ≤ 78)%nat → bytes (sh_mem s) ash_line (rev b ++ x :: a) →
  room (sh_mem s) ash_line 80 → printer_ready s → Forall char_ok a → has_literals (sh_mem s) →
  backspace_key s = Ret (tt, say (if decide (a = []) then [8; 32; 8] else [8] ++ a ++ [32; 32; 8] ++ replicate (S (length a)) 8)
    (set_sh_mem (poke (ash_line + Z.of_nat (length b)) (a ++ [0]) (sh_mem s))
      (set_line_curpos (Z.of_nat (length b)) (set_line_position (Z.of_nat (length b + length a)) s)))).
Proof.
  intros Hcp Hp Hlen Hrow Hroom Hr Hch Hlit.
  assert (has_literals (poke (ash_line + Z.of_nat (length b)) (a ++ [0]) (sh_mem s))) as Hlit'
    by (apply poke_literals; [rewrite length_app; simpl; lia|done]).
  unfold backspace_key. erewrite run_bind by done. rewrite Hcp, (proj2 (Z.eqb_neq _ 0)) by lia. cbn [negb when].
  erewrite run_bind by done. rewrite Hp.
  replace (u16 (Z.of_nat (S (length b)) - 1)) with (Z.of_nat (length b)) by (rewrite wrapu_small; lia).
  replace (u16 (Z.of_nat (S (length b + length a)) - 1)) with (Z.of_nat (length b + length a)) by (rewrite wrapu_small; lia).
  erewrite run_bind by done. erewrite run_bind by done.
  destruct (decide (a = [])) as [->|Ha].
  - simpl length. rewrite Nat.add_0_r, Z.ltb_irrefl.
    erewrite run_bind by (by apply (prints_literal 4)).
    erewrite run_set_line; [done|lia|done|done].
  - assert (0 < length a)%nat by (destruct a; [done|simpl; lia]).
    rewrite (proj2 (Z.ltb_lt _ _)) by lia.
    replace (Z.of_nat (length b + length a) - Z.of_nat (length b)) with (Z.of_nat (length a)) by lia.
    apply bytes_app in Hrow as [_ [_ Hrow]]. rewrite length_rev in Hrow.
    erewrite run_bind by (apply run_on_bytes, memmove_spec; [exact Hrow|intros k Hk; apply Hroom; lia]).
    erewrite run_bind.
    2:{ apply (run_set_line _ _ (poke (ash_line + Z.of_nat (length b)) (a ++ [0]) (sh_mem s))); [lia|by apply room_poke|].
        simpl. rewrite <- poke_line_snoc. f_equal. lia. }
    erewrite run_bind.
    2:{ apply (print_back_run a); [done|exact Hlit'| |apply ash_line_pos|lia].
        split; [done|apply poke_bytes]. }
    replace (Z.of_nat (length a) + 1) with (Z.of_nat (S (length a))) by lia.
    rewrite cursor_back_run; [|done|exact Hlit'].
    by rewrite say_say, <- !app_assoc.
Qed.

Lemma backspace_key_refines prompt e s : edits prompt e s → refines prompt tt (backspace_step e) backspace_key s.
Proof.
  intros He. pose proof (er_curpos _ _ _ He) as Hcp. pose proof (er_position _ _ _ He) as Hp.
  pose proof (er_line_ok _ _ _ He) as [Hch Hlen]. pose proof (cstr_bytes _ _ _ (edits_cstr _ _ _ He)) as Hrow.
  unfold backspace_step. destruct (ed_before e) as [|x b] eqn:E.
  { apply refines_same; [done|]. unfold backspace_key. erewrite run_bind by done. by rewrite Hcp. }
  assert (ed_line e = rev b ++ x :: ed_after e) as Hline by (unfold ed_line; rewrite E; simpl; by rewrite <- app_assoc).
  rewrite Hline in Hch, Hlen, Hp, Hrow. set (a := ed_after e) in *. clearbody a.
  assert (length (rev b ++ x :: a) = S (length b + length a)) as Hll by (rewrite length_app, length_rev; simpl; lia).
  apply Forall_app in Hch as [Hch1 [Hx Hch2]%Forall_cons].
  eexists. split.
  { apply (backspace_key_run a b x); [exact Hcp|by rewrite Hp, Hll|lia|done|by eapply edits_room|apply He|done|apply He]. }
  assert (length (rev b ++ a) = length b + length a)%nat as Hll' by (rewrite length_app, length_rev; lia).
  eapply (refines_write prompt e) with (a0 := x :: a) (l1 := x :: a) (l2 := a ++ [0]) (z := replicate (79 - length b - length a) 0);
    try done; try apply He.
  - rewrite Hline, (row_app _ b 0) by lia. cbn [replicate]. rewrite app_nil_r. do 3 f_equal. lia.
  - rewrite (row_app _ b 1) by lia. do 3 f_equal. lia.
  - rewrite length_app. simpl. lia.
  - split; [by apply Forall_app|lia].
  - by rewrite Hll'.
Qed.

(** The same for a character that is inserted. *)
Lemma insert_key_run a b c s :
  line_curpos s = Z.of_nat (length b) → line_position s = Z.of_nat (length b + length a) →
  (length b + length a ≤ 78)%nat → bytes (sh_mem s) ash_line (rev b ++ a) →
  room (sh_mem s) ash_line 80 → printer_ready s → Forall char_ok (c :: a) → has_literals (sh_mem s) → echo_mode s = 1 →
  insert_key c s = Ret (false, set_line_curpos (Z.of_nat (S (length b))) (set_line_position (Z.of_nat (S (length b + length a)))
    (say (if decide (a = []) then [c] else (c :: a) ++ replicate (length a) 8)
      (set_sh_mem (poke (ash_line + Z.of_nat (length b)) (c :: if decide (a = []) then [] else a ++ [0]) (sh_mem s)) s)))).
Proof.
  intros Hcp Hp Hlen Hrow Hroom Hr [Hc Hch]%Forall_cons Hl Hecho.
  unfold insert_key. erewrite run_bind by done. erewrite run_bind by done. rewrite Hcp, Hp.
  rewrite (proj2 (Z.ltb_lt _ _)) by (unfold ASH_CMD_SIZE; lia).
  replace (u16 (Z.of_nat (length b + length a) + 1)) with (Z.of_nat (S (length b + length a))) by (rewrite wrapu_small; lia).
  replace (u16 (Z.of_nat (length b) + 1)) with (Z.of_nat (S (length b))) by (rewrite wrapu_small; lia).
  destruct (decide (a = [])) as [->|Ha].
  - simpl length. rewrite Nat.add_0_r, Z.ltb_irrefl. erewrite run_bind; [done|].
    erewrite run_bind by (by apply run_set_line; [lia| |]). erewrite run_bind by done. simpl. rewrite Hecho. simpl.
    unfold char_ok in Hc. erewrite run_zoom by (by apply run_outbyte; lia). done.
  - assert (0 < length a)%nat by (destruct a; [done|simpl; lia]).
    rewrite (proj2 (Z.ltb_lt _ _)) by lia.
    replace (Z.of_nat (length b + length a) - Z.of_nat (length b)) with (Z.of_nat (length a)) by lia.
    apply bytes_app in Hrow as [_ Hrow]. rewrite length_rev in Hrow.
    assert (has_literals (poke (ash_line + Z.of_nat (length b)) (c :: a ++ [0]) (sh_mem s))) as Hl'
      by (apply poke_literals; [simpl; rewrite length_app; simpl; lia|done]).
    erewrite run_bind; [done|].
    erewrite run_bind by (apply run_on_bytes, memmove_spec; [exact Hrow|intros k Hk; apply Hroom; lia]).
    erewrite run_bind by (apply run_set_line; [lia|by apply room_poke|done]).
    erewrite run_bind.
    2:{ apply (run_set_line _ _ (poke (ash_line + Z.of_nat (length b)) (c :: a ++ [0]) (sh_mem s))); [lia|by apply room_insert, room_poke|].
        simpl. rewrite <- poke_line_snoc, (poke_insert_ne _ a) by lia.
        replace (Z.of_nat (length b + length a) + 1) with (Z.of_nat (length b) + 1 + Z.of_nat (length a)) by lia.
        by rewrite !Z.add_assoc. }
    erewrite run_bind.
    2:{ apply (print_string_run (c :: a)); [done|exact Hl'| |apply ash_line_pos|simpl; lia].
        split; [by constructor|apply (poke_bytes _ ((c :: a) ++ [0]))]. }
    rewrite cursor_back_run; [|done|exact Hl']. by rewrite say_say.
Qed.

Lemma insert_key_refines prompt e c s : edits prompt e s → char_ok c → (length (ed_line e) ≤ 78)%nat →
  refines prompt false (insert_step c e) (insert_key c) s.
Proof.
  intros He Hc H78. pose proof (er_curpos _ _ _ He) as Hcp. pose proof (er_position _ _ _ He) as Hp.
  pose proof (er_line_ok _ _ _ He) as [Hch _]. pose proof (cstr_bytes _ _ _ (edits_cstr _ _ _ He)) as Hrow.
  assert (ed_line e = rev (ed_before e) ++ ed_after e) as Hline by done.
  rewrite Hline in Hch, Hp, Hrow, H78. unfold insert_step.
  set (b := ed_before e) in *. set (a := ed_after e) in *. clearbody a b.
  assert (length (rev b ++ a) = length b + length a)%nat as Hll by (rewrite length_app, length_rev; lia).
  rewrite Hll in H78, Hp. pose proof Hch as [Hch1 Hch2]%Forall_app.
  eexists. split.
  { apply (insert_key_run a b c); [exact Hcp|exact Hp|lia|done|by eapply edits_room|apply He|by constructor|apply He|apply He]. }
  assert (length (rev (c :: b) ++ a) = S (length b + length a))%nat as Hll' by (rewrite length_app, length_rev; simpl; lia).
  assert (line_ok (rev (c :: b) ++ a)) as Hok.
  { split; [|lia]. simpl. rewrite <- app_assoc. apply Forall_app. split; [done|]. by constructor. }
  destruct (decide (a = [])) as [->|Ha].
  - eapply (refines_write prompt e) with (a0 := []) (l1 := [0]) (l2 := [c]) (z := replicate (79 - length b) 0); try done; try apply He.
    + rewrite Hline, (row_app _ b 1) by lia. cbn [replicate app]. do 3 f_equal. rewrite Hll. simpl. lia.
    + unfold row. rewrite Hll'. cbn [rev]. rewrite app_nil_r, <- app_assoc. do 3 f_equal. simpl. lia.
    + rewrite Hll'. done.
  - eapply (refines_write prompt e) with (a0 := a) (l1 := a ++ [0; 0]) (l2 := c :: a ++ [0]) (z := replicate (78 - length b - length a) 0);
      try done; try apply He.
    + rewrite Hline, (row_app _ b 2) by lia. do 3 f_equal. lia.
    + rewrite (row_app _ (c :: b) 1) by lia. rewrite Hll'. cbn [rev]. rewrite <- !app_assoc. cbn [replicate app]. rewrite <- app_assoc. cbn [app]. do 5 f_equal. lia.
    + simpl. rewrite !length_app. simpl. lia.
    + rewrite Hll'. done.
Qed.

(** ** The history *)
Lemma hist_row_ok e i prompt s : edits prompt e s → line_ok (default [] (ed_hist e !! i)).
Proof.
  intros He. destruct (ed_hist e !! i) eqn:E; simpl.
  - eapply (Forall_lookup_1 line_ok); [apply He|exact E].
  - split; [done|simpl; lia].
Qed.

Lemma print_line_run prompt e s : printer_ready s → has_literals (sh_mem s) → dir_change s = 0 →
  cstr (sh_mem s) ash_prompt prompt → (length prompt ≤ 80)%nat → cstr (sh_mem s) ash_line (ed_line e) → (length (ed_line e) ≤ 79)%nat →
  shell_handle_history s = Ret (false, say (with_line prompt e).2 s).
Proof.
  intros Hr Hl Hd Hp Hpl Hline Hll. unfold shell_handle_history.
  erewrite run_bind by (by apply (prints_literal 5)).
  erewrite run_bind.
  2:{ unfold ash_get_prompt. erewrite run_bind by done. simpl. by rewrite Hd. }
  set (xs := [Convert false [] None (Text ash_prompt prompt); Convert false [] None (Text ash_line (ed_line e))]).
  erewrite run_bind.
  2:{ apply (prints_run xs two_strings); [done|done|done|by apply (lit_in 6)|]. pose proof sl_pos.
      repeat (apply Forall_cons; split); [apply string_ok; [lia|done|lia]..|done]. }
  unfold render, xs. cbn [mbind list_bind]. rewrite !render_string by lia. rewrite app_nil_r, say_say. done.
Qed.

Lemma recall_history_run prompt e i s : edits prompt e s → (i < length (ed_hist e))%nat →
  let step := with_line prompt (recall e i) in
  ∃ s', recall_history (set_current_history (Z.of_nat i) s) = Ret (tt, s') ∧ edits prompt step.1 s' ∧ keeps s s' ∧
    sh_stat s' = sh_stat s ∧ p_out (sh_printer s') = p_out (sh_printer s) ++ step.2.
Proof.
  intros He Hi step. pose proof (hist_row_ok e i prompt s He) as [Hch Hlen]. pose proof (er_hist_len _ _ _ He).
  set (h := default [] (ed_hist e !! i)) in *.
  assert (length (row h) = 80%nat) as H80 by (apply length_row; lia).
  assert (bytes (sh_mem s) (history_row (Z.of_nat i)) (row h)) as Hh by (apply He; lia).
  set (m' := poke ash_line (row h) (sh_mem s)).
  assert (cstr m' ash_line h) as Hcstr.
  { split; [done|]. pose proof (poke_bytes ash_line (row h) (sh_mem s)) as Hb. rewrite row_split, cons_middle, app_assoc in Hb by done.
    apply bytes_app in Hb as [Hb _]. unfold m'. by rewrite row_split, cons_middle, app_assoc by done. }
  assert (∀ k, ¬ (ash_line ≤ k < ash_line + 80) → m' !! k = sh_mem s !! k) as Hout by (intros k Hk; apply poke_out; lia).
  pose proof (er_prompt _ _ _ He) as (Hd & Hp & Hpl).
  eexists. split.
  - unfold recall_history. erewrite run_bind by done.
    erewrite run_bind.
    2:{ apply run_on_bytes. replace ASH_CMD_SIZE with (Z.of_nat (length (row h))) by (rewrite H80; done).
        apply memcpy_spec; [exact Hh|rewrite H80; exact (edits_room _ _ _ He)|]. rewrite H80. pose proof sl_line_history as Ha.
        unfold apart, history_row, ASH_CMD_SIZE in *. simpl current_history. lia. }
    erewrite run_bind by (apply run_on_bytes_id, strlen_spec; exact Hcstr).
    rewrite wrapu_small by lia. erewrite run_bind by done. erewrite run_bind by done.
    erewrite run_bind; [done|]. apply (print_line_run prompt (recall e i)).
    + apply He.
    + eapply literals_frame; [apply He|]. intros k Hk _. by apply Hout.
    + done.
    + split; [apply Hp|]. eapply bytes_frame; [apply Hp|exact Hout|]. intros k Hk. cbv beta. rewrite length_app in Hk.
      simpl in Hk. pose proof sl_line_prompt as Ha. unfold apart in Ha. lia.
    + done.
    + unfold ed_line, recall. simpl. by rewrite rev_involutive, app_nil_r.
    + unfold ed_line, recall. simpl. by rewrite rev_involutive, app_nil_r.
  - assert (rev (rev h) ++ [] = h) as Hline by (by rewrite rev_involutive, app_nil_r).
    split_and!; [|split; [intros k Hk _; by apply Hout|done|done]|done|done].
    unfold step, with_line. simpl fst. eapply (edits_write prompt e s); try done; fold h.
    + rewrite Hline. apply poke_bytes.
    + by rewrite Hline.
    + lia.
    + by rewrite Hline.
    + by rewrite length_rev.
    + apply He.
Qed.

Lemma up_key_refines prompt e s : edits prompt e s → refines prompt tt (up_step prompt e) up_key s.
Proof.
  intros He. pose proof (er_current _ _ _ He) as Hcur. pose proof (er_cur _ _ _ He) as Hle.
  unfold up_step. destruct (ed_cur e) as [|i] eqn:E.
  - apply refines_same; [done|]. unfold up_key. erewrite run_bind by done. rewrite Hcur. simpl.
    unfold modify. do 2 f_equal. destruct s. simpl in *. by rewrite Hcur.
  - destruct (recall_history_run prompt e i s He) as (s' & Hrun & Hs'); [lia|].
    exists s'. split; [|exact Hs']. unfold up_key. erewrite run_bind by done.
    rewrite Hcur, (proj2 (Z.ltb_lt _ _)) by lia. erewrite run_bind by done.
    by replace (Z.of_nat (S i) - 1) with (Z.of_nat i) by lia.
Qed.

Lemma down_key_refines prompt e s : edits prompt e s → refines prompt tt (down_step prompt e) down_key s.
Proof.
  intros He. pose proof (er_current _ _ _ He) as Hcur. pose proof (er_count _ _ _ He) as Hcount.
  pose proof (er_hist_len _ _ _ He). unfold down_step. case_decide as Hlt.
  - destruct (recall_history_run prompt e (S (ed_cur e)) s He Hlt) as (s' & Hrun & Hs').
    exists s'. split; [|exact Hs']. unfold down_key. erewrite run_bind by done. erewrite run_bind by done.
    rewrite Hcur, Hcount, (proj2 (Z.ltb_lt _ _)) by lia. erewrite run_bind by done.
    rewrite wrapu_small by lia. by replace (Z.of_nat (ed_cur e) + 1) with (Z.of_nat (S (ed_cur e))) by lia.
  - case_decide as Hnil.
    + apply refines_same; [done|]. unfold down_key. erewrite run_bind by done. erewrite run_bind by done.
      rewrite Hcur, Hcount, Hnil, (proj2 (Z.ltb_ge _ _)) by (simpl; lia). done.
    + assert (0 < length (ed_hist e))%nat by (destruct (ed_hist e); [done|simpl; lia]).
      destruct (recall_history_run prompt e (length (ed_hist e) - 1) s He) as (s' & Hrun & Hs'); [lia|].
      exists s'. split; [|exact Hs']. unfold down_key. erewrite run_bind by done. erewrite run_bind by done.
      rewrite Hcur, Hcount, (proj2 (Z.ltb_ge _ _)), (proj2 (Z.eqb_neq _ 0)) by lia. cbn [negb].
      erewrite run_bind by done. by replace (Z.of_nat (length (ed_hist e)) - 1) with (Z.of_nat (length (ed_hist e) - 1)) by lia.
Qed.

(** ** All keys but Enter *)
Definition char_step (c : Z) (e : editor) : editor * list Z :=
  if decide (c = 8 ∨ c = 127) then backspace_step e else insert_step c e.

Definition key_step (prompt : list Z) (st : input_stat) (c : Z) (e : editor) : input_stat * (editor * list Z) :=
  if decide (c = 27) then (WAIT_SPEC_KEY, (e, []))
  else
    match st with
    | WAIT_NORMAL => (WAIT_NORMAL, char_step c e)
    | WAIT_SPEC_KEY => if decide (c = 91) then (WAIT_FUNC_KEY, (e, [])) else (WAIT_NORMAL, char_step c e)
    | WAIT_FUNC_KEY =>
        (WAIT_NORMAL,
         if decide (c = 65) then up_step prompt e else if decide (c = 66) then down_step prompt e
         else if decide (c = 68) then left_step e else if decide (c = 67) then right_step e
         else char_step c e)
    end.

Lemma set_sh_stat_edits prompt e st s : edits prompt e s → edits prompt e (set_sh_stat st s).
Proof. by intros []. Qed.

Lemma char_key_refines prompt e c exe junk stacked s : edits prompt e s → char_ok c → c ≠ 13 → c ≠ 10 → (length (ed_line e) ≤ 78)%nat →
  refines prompt false (char_step c e) (char_key exe junk stacked c) s.
Proof.
  intros He Hc H13 H10 H78. unfold char_step, char_key. destruct (Z.eqb_spec c 8) as [->|H8]; simpl.
  { destruct (backspace_key_refines prompt e s He) as (s' & Hrun & Hs'). exists s'. by erewrite run_bind by exact Hrun. }
  destruct (Z.eqb_spec c 127) as [->|H127]; simpl.
  { destruct (backspace_key_refines prompt e s He) as (s' & Hrun & Hs'). exists s'. by erewrite run_bind by exact Hrun. }
  rewrite decide_False by naive_solver. rewrite (proj2 (Z.eqb_neq c 13)), (proj2 (Z.eqb_neq c 10)) by done.
  by apply insert_key_refines.
Qed.

(** A key in a state: the new state is set, then the key's step is done. *)
Definition does (prompt : list Z) (r : bool) (step : input_stat * (editor * list Z)) (f : M shell bool) (s : shell) : Prop :=
  ∃ s', f s = Ret (r, s') ∧ edits prompt step.2.1 s' ∧ keeps s s' ∧ sh_stat s' = step.1 ∧
    p_out (sh_printer s') = p_out (sh_printer s) ++ step.2.2.

Lemma does_refines {A} prompt r st step (f : M shell A) (g : M shell bool) s (v : A) :
  refines prompt v step f (set_sh_stat st s) →
  (∀ s', f (set_sh_stat st s) = Ret (v, s') → g s = Ret (r, s')) →
  does prompt r (st, step) g s.
Proof.
  intros (s' & Hrun & He & Hk & Hst & Ho) Hg. exists s'. split_and!; [by apply Hg|done| |done|done].
  transitivity (set_sh_stat st s); [by split|done].
Qed.

Lemma process_key_does prompt e c exe junk stacked s : edits prompt e s → char_ok c → c ≠ 13 → c ≠ 10 → (length (ed_line e) ≤ 78)%nat →
  does prompt false (key_step prompt (sh_stat s) c e) (process_key exe junk stacked c) s.
Proof.
  intros He Hc H13 H10 H78.
  assert (∀ st, edits prompt e (set_sh_stat st s)) as He' by (intros; by apply set_sh_stat_edits).
  assert (∀ st, refines prompt false (char_step c e) (char_key exe junk stacked c) (set_sh_stat st s)) as Hchar
    by (intros; by apply char_key_refines).
  assert (set_sh_stat (sh_stat s) s = s) as Hid by (by destruct s).
  unfold key_step, process_key. case_decide as H27.
  { subst c. eapply (does_refines _ _ _ (e, []) (mret tt)); [by apply refines_same|]. by intros s' [= <-]. }
  apply Z.eqb_neq in H27. destruct (sh_stat s) eqn:Hst.
  - eapply does_refines; [apply Hchar|]. intros s' Hrun. erewrite run_bind by done. rewrite H27, Hst. by rewrite <- Hid.
  - case_decide as H91.
    + subst c. eapply (does_refines _ _ _ (e, []) (mret tt)); [by apply refines_same|]. intros s' [= <-].
      erewrite run_bind by done. by rewrite Hst.
    + apply Z.eqb_neq in H91. eapply does_refines; [apply Hchar|]. intros s' Hrun. erewrite run_bind by done.
      by rewrite H27, Hst, H91.
  - assert (∀ (step : editor * list Z) (f : M shell unit), refines prompt tt step f (set_sh_stat WAIT_NORMAL s) →
      refines prompt false step (f;; mret false) (set_sh_stat WAIT_NORMAL s)) as Hthen.
    { intros step f (s' & Hrun & Hs'). exists s'. by erewrite run_bind by exact Hrun. }
    apply (does_refines _ _ _ _ (if c =? 65 then up_key;; mret false else if c =? 66 then down_key;; mret false
        else if c =? 68 then left_key;; mret false else if c =? 67 then right_key;; mret false else char_key exe junk stacked c) _ _ false).
    + repeat case_decide; subst; [apply Hthen; by (apply up_key_refines || apply down_key_refines || apply left_key_refines || apply right_key_refines)..|].
      by rewrite !(proj2 (Z.eqb_neq c _)) by done.
    + intros s' Hrun. erewrite run_bind by done. by rewrite H27, Hst.
Qed.

(** ** Enter *)

(** The last five different lines; an empty line is not kept. *)
Definition push_history (l : list Z) (hist : list (list Z)) : list (list Z) :=
  if decide (l = [] ∨ last hist = Some l) then hist
  else drop (length hist + 1 - 5) (hist ++ [l]).

(** The five rows, as a function of their number. *)
Definition hist_rows m (f : nat → list Z) : Prop :=
  ∀ i, (i < 5)%nat → bytes m (history_row (Z.of_nat i)) (row (f i)) ∧ line_ok (f i).

Definition hist_only m m' : Prop := ∀ k, ¬ (ash_history ≤ k < ash_history + 400) → m' !! k = m !! k.

Lemma hist_rows_write m f i l : hist_rows m f → (i < 5)%nat → line_ok l →
  hist_rows (poke (history_row (Z.of_nat i)) (row l) m) (λ j, if decide (j = i) then l else f j) ∧
  hist_only m (poke (history_row (Z.of_nat i)) (row l) m).
Proof.
  intros Hf Hi Hl. assert (∀ h, line_ok h → length (row h) = 80%nat) as H80 by (intros h [_ ?]; apply length_row; lia).
  split.
  - intros j Hj. case_decide as Hji; [subst; split; [apply poke_bytes|done]|]. destruct (Hf j Hj) as [Hb Hok]. split; [|done].
    apply poke_bytes_ne; [done|]. rewrite !H80 by done. unfold apart, history_row, ASH_CMD_SIZE. lia.
  - intros k Hk. apply poke_out. rewrite H80 by done. unfold history_row, ASH_CMD_SIZE. lia.
Qed.

Lemma hist_only_trans m1 m2 m3 : hist_only m1 m2 → hist_only m2 m3 → hist_only m1 m3.
Proof. intros A B k Hk. by rewrite B, A. Qed.

Lemma row_room m f i : hist_rows m f → (i < 5)%nat → room m (history_row (Z.of_nat i)) 80.
Proof.
  intros Hf Hi. destruct (Hf i Hi) as [Hb [_ Hl]]. rewrite <- (length_row (f i)) by lia. by apply bytes_room.
Qed.

(** A row copied over another. *)
Lemma copy_row_run f i j s : hist_rows (sh_mem s) f → (i < 5)%nat → (j < 5)%nat → i ≠ j →
  on_bytes (acoral_memcpy (history_row (Z.of_nat i)) (history_row (Z.of_nat j)) ASH_CMD_SIZE) s =
  Ret (history_row (Z.of_nat i), set_sh_mem (poke (history_row (Z.of_nat i)) (row (f j)) (sh_mem s)) s).
Proof.
  intros Hf Hi Hj Hij. destruct (Hf j Hj) as [Hb [_ Hl]]. assert (length (row (f j)) = 80%nat) as H80 by (apply length_row; lia).
  apply run_on_bytes. replace ASH_CMD_SIZE with (Z.of_nat (length (row (f j)))) by (by rewrite H80).
  apply memcpy_spec; [done|rewrite H80; by eapply row_room|]. rewrite H80. unfold apart, history_row, ASH_CMD_SIZE. lia.
Qed.

(** [line] in a row that was emptied before. *)
Lemma poke_row p l m : (length l ≤ 80)%nat → poke p l (poke p (replicate 80 0) m) = poke p (row l) m.
Proof.
  intros Hl. apply map_eq. intros k. rewrite !poke_lookup, length_replicate, length_row by done. unfold row.
  destruct (decide (p ≤ k < p + Z.of_nat (length l))).
  - rewrite decide_True, lookup_app_l by lia. done.
  - destruct (decide (p ≤ k < p + Z.of_nat 80)); [|done].
    rewrite lookup_app_r, !lookup_replicate_2 by lia. done.
Qed.

Lemma keep_line_run f i l s : hist_rows (sh_mem s) f → (i < 5)%nat → bytes (sh_mem s) ash_line l → (length l ≤ 79)%nat →
  keep_line (Z.of_nat i) (Z.of_nat (length l)) s = Ret (tt, set_sh_mem (poke (history_row (Z.of_nat i)) (row l) (sh_mem s)) s).
Proof.
  intros Hf Hi Hl H79. pose proof (row_room _ _ _ Hf Hi) as Hr. unfold keep_line.
  erewrite run_bind by (apply run_on_bytes, (memset_spec 80); [done|lia]).
  set (m1 := poke (history_row (Z.of_nat i)) (replicate 80 0) (sh_mem s)).
  pose proof sl_line_history as Ha. unfold apart in Ha.
  erewrite run_bind.
  2:{ apply (run_on_bytes _ _ _ (poke (history_row (Z.of_nat i)) l m1)), memcpy_spec.
      - apply poke_bytes_ne; [done|]. rewrite length_replicate. unfold apart, history_row, ASH_CMD_SIZE. lia.
      - apply room_poke. intros k Hk. apply Hr. lia.
      - unfold apart, history_row, ASH_CMD_SIZE. lia. }
  apply run_ret_state. unfold m1. by rewrite poke_row by lia.
Qed.

Lemma until_zero l1 l2 z1 z2 : Forall char_ok l1 → Forall char_ok l2 → l1 ++ 0 :: z1 = l2 ++ 0 :: z2 → l1 = l2.
Proof.
  unfold char_ok. revert l2. induction l1 as [|x l1 IH]; intros [|y l2] F1 F2 Heq; [done|..]; simpl in Heq.
  - apply Forall_cons in F2 as [Hy _]. injection Heq as Heq _. lia.
  - apply Forall_cons in F1 as [Hx _]. injection Heq as Heq _. lia.
  - apply Forall_cons in F1 as [_ F1]. apply Forall_cons in F2 as [_ F2]. injection Heq as -> Heq. f_equal. by apply IH.
Qed.

Lemma row_inj l1 l2 : line_ok l1 → line_ok l2 → row l1 = row l2 → l1 = l2.
Proof. intros [H1c H1l] [H2c H2l] Heq. rewrite !row_split in Heq by done. by eapply until_zero. Qed.

Lemma hist_cmp_run f i l s : hist_rows (sh_mem s) f → (i < 5)%nat → bytes (sh_mem s) ash_line (row l) → line_ok l →
  ∃ r, on_bytes (acoral_memcmp (history_row (Z.of_nat i)) ash_line ASH_CMD_SIZE) s = Ret (r, s) ∧ (r = 0 ↔ f i = l).
Proof.
  intros Hf Hi Hl Hok. destruct (Hf i Hi) as [Hb Hok']. 
  assert (∀ h, line_ok h → length (row h) = 80%nat) as H80 by (intros h [_ ?]; apply length_row; lia).
  destruct (memcmp_spec (row (f i)) (row l) (history_row (Z.of_nat i)) ash_line (sh_mem s)) as (r & Hrun & Hr); [done|done|by rewrite !H80|].
  exists r. split.
  - apply run_on_bytes_id. unfold acoral_memcmp. rewrite H80 in Hrun by done. exact Hrun.
  - rewrite Hr. split; [by apply row_inj|by intros ->].
Qed.

(** The first four rows get what is in the next one. *)
Lemma shift_rows_run n j f s : hist_rows (sh_mem s) f → (j + n = 4)%nat →
  ∃ m', for_up n (Z.of_nat j) (λ index, on_bytes (acoral_memcpy (history_row index) (history_row (index + 1)) ASH_CMD_SIZE);; mret tt) s =
    Ret (tt, set_sh_mem m' s) ∧ hist_only (sh_mem s) m' ∧
    hist_rows m' (λ i, if decide (j ≤ i < 4)%nat then f (S i) else f i).
Proof.
  revert j f s. induction n as [|n IH]; intros j f s Hf Hj.
  - exists (sh_mem s). split_and!; [by destruct s as [??????????[]??]|done|].
    intros i Hi. rewrite decide_False by lia. by apply Hf.
  - cbn [for_up]. assert (line_ok (f (S j))) as Hok by (by apply Hf; lia).
    destruct (hist_rows_write (sh_mem s) f j (f (S j)) Hf) as [Hf' Ho]; [lia|done|].
    set (m1 := poke (history_row (Z.of_nat j)) (row (f (S j))) (sh_mem s)) in *.
    destruct (IH (S j) (λ i, if decide (i = j) then f (S j) else f i) (set_sh_mem m1 s)) as (m' & Hrun & Ho' & Hf''); [done|lia|].
    exists m'. split_and!; [|by eapply hist_only_trans|].
    + replace (Z.of_nat j + 1) with (Z.of_nat (S j)) by lia.
      erewrite run_bind by (erewrite run_bind; [done|apply (copy_row_run f); [done|lia..]]).
      exact Hrun.
    + intros i Hi. destruct (Hf'' i Hi) as [Hb Hok']. revert Hb Hok'. repeat case_decide; subst; try lia; auto.
Qed.

Lemma edits_hist_rows prompt e s : edits prompt e s → hist_rows (sh_mem s) (λ i, default [] (ed_hist e !! i)).
Proof. intros He i Hi. split; [by apply He|]. by eapply hist_row_ok. Qed.

(** A change of the history. *)
Lemma edits_hist prompt e s s' f hist :
  edits prompt e s → hist_only (sh_mem s) (sh_mem s') → hist_rows (sh_mem s') f →
  (∀ i, (i < 5)%nat → f i = default [] (hist !! i)) → (length hist ≤ 5)%nat →
  history_count s' = Z.of_nat (length hist) → current_history s' = Z.of_nat (length hist) →
  line_position s' = line_position s → line_curpos s' = line_curpos s →
  echo_mode s' = echo_mode s → dir_change s' = dir_change s → printer_ready s' →
  edits prompt (mk_editor (ed_before e) (ed_after e) hist (length hist)) s'.
Proof.
  intros He Ho Hf Hfh Hlen Hcnt Hcur Hp Hcp Hecho Hdir Hr. pose proof (er_line_ok _ _ _ He) as [Hc Hl].
  pose proof (er_prompt _ _ _ He) as (Hd & Hpr & Hpl).
  assert (∀ p l, bytes (sh_mem s) p l → apart ash_history 400 p (length l) → bytes (sh_mem s') p l) as Hkeep.
  { intros p l Hb Ha. eapply bytes_frame; [exact Hb|exact Ho|]. intros k Hk. cbv beta. unfold apart in Ha. lia. }
  split; simpl; try done; rewrite ?Hp, ?Hcp, ?Hecho, ?Hdir; try apply He; try done.
  - apply (Hkeep _ _ (er_line _ _ _ He)). rewrite length_row by lia. pose proof sl_line_history as Ha. unfold apart in *. lia.
  - intros i Hi. rewrite <- Hfh by done. by apply Hf.
  - apply Forall_lookup_2. intros i x Hx. pose proof (lookup_lt_Some _ _ _ Hx).
    specialize (Hfh i ltac:(lia)). rewrite Hx in Hfh. simpl in Hfh. rewrite <- Hfh. apply Hf. lia.
  - split_and!; [done| |done]. split; [apply Hpr|]. apply Hkeep; [apply Hpr|]. rewrite length_app. simpl.
    pose proof sl_history_prompt as Ha. unfold apart in *. lia.
  - eapply literals_frame; [apply He|]. intros k _ Hk. by apply Ho.
Qed.

(** What pushing the line does; [f] is the history afterwards. *)
Definition pushes (s s' : shell) : Prop :=
  keeps s s' ∧ hist_only (sh_mem s) (sh_mem s') ∧ sh_stat s' = sh_stat s ∧ p_out (sh_printer s') = p_out (sh_printer s).

Lemma last_lookup_row (hist : list (list Z)) l : hist ≠ [] →
  last hist = Some l ↔ default [] (hist !! (length hist - 1)%nat) = l.
Proof.
  intros Hne. rewrite last_lookup. replace (pred (length hist)) with (length hist - 1)%nat by lia.
  destruct (lookup_lt_is_Some_2 hist (length hist - 1)) as [x Hx]; [destruct hist; [done|simpl; lia]|].
  rewrite Hx. simpl. split; [by intros [= ->]|by intros ->].
Qed.

(** With room for another line. *)
Lemma push_room_run prompt e s : edits prompt e s → ed_line e ≠ [] → (length (ed_hist e) < 5)%nat →
  let hist := push_history (ed_line e) (ed_hist e) in
  ∃ s', shell_push_history s = Ret (tt, s') ∧ edits prompt (mk_editor (ed_before e) (ed_after e) hist (length hist)) s' ∧ pushes s s'.
Proof.
  intros He Hne H5 hist. pose proof (edits_hist_rows _ _ _ He) as Hf. pose proof (er_count _ _ _ He) as Hcnt.
  pose proof (er_position _ _ _ He) as Hp. pose proof (er_line_ok _ _ _ He) as Hok.
  set (n := length (ed_hist e)) in *. set (f := λ i, default [] (ed_hist e !! i)) in *.
  assert (Z.of_nat (length (ed_line e)) ≠ 0) as Hp0 by (destruct (ed_line e); [done|simpl; lia]).
  assert (∃ r, (if Z.of_nat n =? 0 then mret 1 else on_bytes (acoral_memcmp (history_row (Z.of_nat n - 1)) ash_line ASH_CMD_SIZE)) s = Ret (r, s) ∧
      (r = 0 ↔ last (ed_hist e) = Some (ed_line e))) as (r & Hcmp & Hr).
  { destruct (Z.eqb_spec (Z.of_nat n) 0) as [Hz|Hz].
    - exists 1. split; [done|]. destruct (ed_hist e); [done|unfold n in Hz; simpl in Hz; lia].
    - replace (Z.of_nat n - 1) with (Z.of_nat (n - 1)) by lia.
      destruct (hist_cmp_run f (n - 1) (ed_line e) s Hf) as (r & Hrun & Hr); [lia|apply He|done|].
      exists r. split; [done|]. rewrite Hr, last_lookup_row; [done|]. intros Hnil. unfold n in Hz. by rewrite Hnil in Hz. }
  unfold shell_push_history. erewrite run_bind by done. rewrite Hp, (proj2 (Z.eqb_neq _ 0)) by done. cbn [negb when].
  unfold hist, push_history. destruct (Z.eqb_spec r 0) as [Hr0|Hr0].
  - rewrite decide_True by (right; by apply Hr). exists (set_current_history (Z.of_nat n) s). split_and!.
    + erewrite run_bind; [erewrite run_bind by done; by rewrite Hcnt|].
      erewrite run_bind by done. rewrite Hcnt, (proj2 (Z.leb_gt _ _)) by (unfold ASH_HISTORY_LINES; lia).
      erewrite run_bind by exact Hcmp. by subst r.
    + eapply (edits_hist prompt e s _ f); try done; apply He.
    + by split_and!.
  - rewrite decide_False by (intros [?|?]; [done|by apply Hr0, Hr]). fold n. replace (n + 1 - 5)%nat with 0%nat by lia. rewrite drop_0.
    destruct (hist_rows_write _ f n (ed_line e) Hf) as [Hf' Ho]; [lia|done|].
    set (m' := poke (history_row (Z.of_nat n)) (row (ed_line e)) (sh_mem s)) in *.
    eexists. split_and!.
    + erewrite run_bind; [by erewrite run_bind by done|].
      erewrite run_bind by done. rewrite Hcnt, (proj2 (Z.leb_gt _ _)) by (unfold ASH_HISTORY_LINES; lia).
      erewrite run_bind by exact Hcmp. rewrite (proj2 (Z.eqb_neq _ _)) by done. cbn [negb when]. erewrite run_bind by done.
      erewrite run_bind by (apply (keep_line_run f); [done|lia|exact (cstr_bytes _ _ _ (edits_cstr _ _ _ He))|apply Hok]).
      rewrite wrapu_small by lia. done.
    + eapply (edits_hist prompt e s _ (λ j, if decide (j = n) then ed_line e else f j)); try done; rewrite ?length_app; simpl; fold n; try lia.
      * intros i Hi. unfold f. case_decide as Hin; [rewrite Hin; by rewrite list_lookup_middle by done|].
        destruct (decide (i < n)%nat); [by rewrite lookup_app_l|]. rewrite !lookup_ge_None_2; [done|..]; rewrite ?length_app; simpl; fold n; lia.
      * apply He.
    + split; [|done]. split; [intros k _ Hk; by apply Ho|done|done].
Qed.

(** With five lines already. *)
Lemma push_full_run prompt e s : edits prompt e s → ed_line e ≠ [] → length (ed_hist e) = 5%nat →
  let hist := push_history (ed_line e) (ed_hist e) in
  ∃ s', shell_push_history s = Ret (tt, s') ∧ edits prompt (mk_editor (ed_before e) (ed_after e) hist (length hist)) s' ∧ pushes s s'.
Proof.
  intros He Hne H5 hist. pose proof (edits_hist_rows _ _ _ He) as Hf. pose proof (er_count _ _ _ He) as Hcnt.
  pose proof (er_position _ _ _ He) as Hp. pose proof (er_line_ok _ _ _ He) as Hok. rewrite H5 in Hcnt.
  set (f := λ i, default [] (ed_hist e !! i)) in *.
  assert (Z.of_nat (length (ed_line e)) ≠ 0) as Hp0 by (destruct (ed_line e); [done|simpl; lia]).
  destruct (hist_cmp_run f 4 (ed_line e) s Hf) as (r & Hcmp & Hr); [lia|apply He|done|].
  assert (r = 0 ↔ last (ed_hist e) = Some (ed_line e)) as Hr'.
  { rewrite Hr, last_lookup_row by (intros Hnil; by rewrite Hnil in H5). by rewrite H5. }
  unfold shell_push_history. erewrite run_bind by done. rewrite Hp, (proj2 (Z.eqb_neq _ 0)) by done. cbn [negb when].
  unfold hist, push_history. destruct (Z.eqb_spec r 0) as [Hr0|Hr0].
  - rewrite decide_True by (right; by apply Hr'). exists (set_current_history (Z.of_nat 5) s). rewrite H5. split_and!.
    + erewrite run_bind; [erewrite run_bind by done; by rewrite Hcnt|].
      erewrite run_bind by done. rewrite Hcnt. change (ASH_HISTORY_LINES <=? Z.of_nat 5) with true. cbv iota. erewrite run_bind by exact Hcmp. by subst r.
    + rewrite <- H5 at 1. eapply (edits_hist prompt e s _ f); rewrite ?H5; try done; apply He.
    + by split_and!.
  - rewrite decide_False by (intros [?|?]; [done|by apply Hr0, Hr']). rewrite H5.
    destruct (shift_rows_run 4 0 f s Hf eq_refl) as (m1 & Hshift & Ho1 & Hf1).
    set (f1 := λ i, if decide (0 ≤ i < 4)%nat then f (S i) else f i) in *.
    destruct (hist_rows_write m1 f1 4 (ed_line e) Hf1) as [Hf2 Ho2]; [lia|done|].
    assert (bytes m1 ash_line (ed_line e)) as Hline.
    { eapply bytes_frame; [exact (cstr_bytes _ _ _ (edits_cstr _ _ _ He))|exact Ho1|]. intros k Hk. cbv beta.
      destruct Hok. pose proof sl_line_history as Ha. unfold apart in Ha. lia. }
    eexists. split_and!.
    + erewrite run_bind; [by erewrite run_bind by done|].
      erewrite run_bind by done. rewrite Hcnt. change (ASH_HISTORY_LINES <=? Z.of_nat 5) with true. cbv iota. erewrite run_bind by exact Hcmp.
      rewrite (proj2 (Z.eqb_neq _ _)) by done. cbn [negb when]. erewrite run_bind by exact Hshift.
      erewrite run_bind by (apply (keep_line_run f1 4); [done|lia|done|apply Hok]). done.
    + eapply (edits_hist prompt e s _ (λ j, if decide (j = 4%nat) then ed_line e else f1 j)); try done;
        rewrite ?length_drop, ?length_app, ?H5; simpl; try done.
      * by eapply hist_only_trans.
      * intros i Hi. rewrite lookup_drop. unfold f1, f. case_decide as Hi4; [rewrite Hi4; by rewrite list_lookup_middle|].
        rewrite decide_True by lia. by rewrite lookup_app_l by lia.
      * apply He.
    + split; [|split; [by eapply hist_only_trans|done]]. split; [|done|done].
      intros k _ Hk. by rewrite (hist_only_trans _ _ _ Ho1 Ho2).
Qed.

Lemma push_history_run prompt e s : edits prompt e s →
  let hist := push_history (ed_line e) (ed_hist e) in
  ∃ s', shell_push_history s = Ret (tt, s') ∧ edits prompt (mk_editor (ed_before e) (ed_after e) hist (length hist)) s' ∧ pushes s s'.
Proof.
  intros He hist. destruct (decide (ed_line e = [])) as [Hnil|Hne].
  - unfold hist, push_history. rewrite decide_True by auto. exists (set_current_history (history_count s) s). split_and!.
    + unfold shell_push_history. erewrite run_bind by done. by rewrite (er_position _ _ _ He), Hnil.
    + rewrite <- (er_count _ _ _ He) || idtac. eapply (edits_hist prompt e s _ (λ i, default [] (ed_hist e !! i))); try done; try apply He.
      by apply (edits_hist_rows prompt e s).
    + by split_and!.
  - pose proof (er_hist_len _ _ _ He). destruct (decide (length (ed_hist e) = 5)%nat).
    + by apply push_full_run.
    + apply push_room_run; [done|done|lia].
Qed.

(** What the commands of a line must leave alone: the shell's own data. *)
Record command_frame (s s' : shell) : Prop := {
  cf_mem : ∀ k, ¬ (ash_line ≤ k < ash_line + 80) → sh_mem s' !! k = sh_mem s !! k;
  cf_room : room (sh_mem s') ash_line 80;
  cf_fields : history_count s' = history_count s ∧ current_history s' = current_history s ∧
    echo_mode s' = echo_mode s ∧ dir_change s' = dir_change s;
  cf_pos : get_pos s' = get_pos s ∧ input_pos s' = input_pos s;
  cf_ready : printer_ready s';
}.

Lemma enter_key_run prompt e exe junk stacked s : edits prompt e s →
  let hist := push_history (ed_line e) (ed_hist e) in
  ∃ s1, edits prompt (mk_editor (ed_before e) (ed_after e) hist (length hist)) s1 ∧ keeps s s1 ∧
    p_out (sh_printer s1) = p_out (sh_printer s) ++ [13; 10] ∧
    ∀ s2, acoral_ash_cmd_exe exe junk stacked ash_line s1 = Ret (tt, s2) → command_frame s1 s2 →
      ∃ s', enter_key exe junk stacked s = Ret (true, s') ∧
        edits prompt (mk_editor [] [] hist (length hist)) s' ∧ p_out (sh_printer s') = p_out (sh_printer s2) ∧
        (∀ k, ¬ (ash_line ≤ k < ash_line + 80) → sh_mem s' !! k = sh_mem s2 !! k) ∧
        get_pos s' = get_pos s2 ∧ input_pos s' = input_pos s2 ∧ sh_stat s' = sh_stat s2.
Proof.
  intros He hist. destruct (push_history_run prompt e s He) as (s0 & Hpush & He0 & Hk & _ & _ & Ho). fold hist in He0.
  exists (say [13; 10] s0). split; [by destruct He0|]. split; [by destruct Hk|]. split; [simpl; by rewrite Ho|].
  intros s2 Hexe [Hm Hr (Hcnt & Hcur & Hecho & Hdir) Hpos Hrd].
  eexists. split_and!.
  - unfold enter_key. erewrite run_bind by exact Hpush.
    erewrite run_bind by (apply (prints_literal 7); [done|done|apply He0|apply He0]).
    erewrite run_bind by exact Hexe. erewrite run_bind by (apply run_on_bytes, (memset_spec 80); [done|lia]).
    erewrite run_bind by done. erewrite run_bind by done. done.
  - eapply (edits_write prompt (mk_editor (ed_before e) (ed_after e) hist (length hist)) (say [13; 10] s0) _ [] [] (length hist));
      [by destruct He0| | |split; [done|simpl; lia]|done|done|done|simpl; rewrite Hcur; apply He0|exact Hcnt|exact Hecho|exact Hdir|exact Hrd].
    + apply (poke_bytes ash_line (replicate 80 0)).
    + intros k Hk'. rewrite <- Hm by done. apply poke_out. rewrite length_replicate. lia.
  - done.
  - intros k Hk'. apply poke_out. rewrite length_replicate. lia.
  - done.
  - done.
  - done.
Qed.

(** ** A sequence of keys *)
Fixpoint keys_step (prompt : list Z) (st : input_stat) (e : editor) (ks : list Z) : input_stat * (editor * list Z) :=
  match ks with
  | [] => (st, (e, []))
  | c :: ks =>
      let '(st, (e, o)) := key_step prompt st c e in
      let '(st, (e, o')) := keys_step prompt st e ks in (st, (e, o ++ o'))
  end.

(** No key is Enter, and the line never gets 80 characters. *)
Fixpoint plain_keys (prompt : list Z) (st : input_stat) (e : editor) (ks : list Z) : Prop :=
  match ks with
  | [] => True
  | c :: ks =>
      char_ok c ∧ c ≠ 13 ∧ c ≠ 10 ∧ (length (ed_line e) ≤ 78)%nat ∧
      plain_keys prompt (key_step prompt st c e).1 (key_step prompt st c e).2.1 ks
  end.

(** ** The buffer of the characters received *)
Definition cell (i : nat) : Z := ash_input + Z.of_nat (i mod 80).

(** The buffer holds [q], from [get_pos] on; the other cells are empty. *)
Record buffers (q : list Z) (s : shell) : Prop := {
  bf_get : ∃ g, (g < 80)%nat ∧ get_pos s = Z.of_nat g ∧ input_pos s = Z.of_nat ((g + length q) mod 80) ∧
    ∀ i, (i < 80)%nat → sh_mem s !! cell (g + i) = Some (default 0 (q !! i));
  bf_len : (length q ≤ 80)%nat;
  bf_chars : Forall char_ok q;
}.

Lemma next_pos_mod g : (g < 80)%nat → next_pos (Z.of_nat g) = Z.of_nat ((g + 1) mod 80).
Proof.
  intros Hg. unfold next_pos, ASH_CMD_SIZE. destruct (Z.eqb_spec (Z.of_nat g + 1) 80).
  - by replace g with 79%nat by lia.
  - rewrite Nat.mod_small by lia. lia.
Qed.

Lemma cell_inj i j : (i < 80)%nat → (j < 80)%nat → ∀ g, cell (g + i) = cell (g + j) → i = j.
Proof.
  intros Hi Hj g. unfold cell. pose proof (Nat.mod_upper_bound (g + i) 80). pose proof (Nat.mod_upper_bound (g + j) 80).
  pose proof (Nat.div_mod_eq (g + i) 80). pose proof (Nat.div_mod_eq (g + j) 80). lia.
Qed.

Lemma cell_input i : ash_input ≤ cell i < ash_input + 80.
Proof. unfold cell. pose proof (Nat.mod_upper_bound i 80). lia. Qed.

(** What only the buffer's functions change. *)
Definition input_only (s s' : shell) : Prop :=
  ∃ m g p, (∀ k, ¬ (ash_input ≤ k < ash_input + 80) → m !! k = sh_mem s !! k) ∧
    s' = set_sh_mem m (set_get_pos g (set_input_pos p s)).

Lemma input_only_refl s : input_only s s.
Proof. exists (sh_mem s), (get_pos s), (input_pos s). split; [done|]. by destruct s as [??????????[]??]. Qed.

Lemma input_only_trans s1 s2 s3 : input_only s1 s2 → input_only s2 s3 → input_only s1 s3.
Proof.
  intros (m1 & g1 & p1 & F1 & ->) (m2 & g2 & p2 & F2 & ->). exists m2, g2, p2. split; [|done].
  intros k Hk. by rewrite F2, <- F1.
Qed.

Lemma edits_input prompt e s s' : edits prompt e s → input_only s s' → edits prompt e s' ∧ sh_stat s' = sh_stat s ∧
  p_out (sh_printer s') = p_out (sh_printer s).
Proof.
  intros He (m & g & p & Hm & ->). split; [|done].
  assert (∀ q l, bytes (sh_mem s) q l → apart ash_input 80 q (length l) → bytes m q l) as Hkeep.
  { intros q l Hb Ha. eapply bytes_frame; [exact Hb|exact Hm|]. intros k Hk. cbv beta. unfold apart in Ha. lia. }
  destruct He as [Hl Hok Hh Hhok Hlen Hcount Hcur Hc Hp Hcp Hecho (Hd & Hpr & Hpl) Hlit Hr].
  split; try done.
  - apply Hkeep; [done|]. rewrite length_row by (destruct Hok; lia). pose proof sl_line_input as Ha. unfold apart in *. lia.
  - intros i Hi. apply Hkeep; [by apply Hh|]. pose proof sl_history_input as Ha. unfold apart, history_row, ASH_CMD_SIZE in *.
    rewrite length_row; [lia|]. destruct (ed_hist e !! i) eqn:E; simpl; [|lia]. apply (Forall_lookup_1 _ _ _ _ Hhok) in E as [_ ?]. lia.
  - split_and!; [done| |done]. split; [apply Hpr|]. apply Hkeep; [apply Hpr|]. rewrite length_app. simpl.
    pose proof sl_input_prompt as Ha. unfold apart in *. lia.
  - intros l Hin. destruct (sl_lit l Hin) as (_ & _ & A & _). apply Hkeep; [by apply Hlit|]. rewrite length_app. simpl.
    unfold apart in *. lia.
Qed.

(** A byte received goes behind the others. *)
Lemma receive_one q (b : Z) s : buffers q s → (length q < 80)%nat → char_ok b →
  let p := input_pos s in
  let s' := set_input_pos (next_pos p) (set_sh_mem (<[ash_input + p := b]> (sh_mem s)) s) in
  sh_mem s !! (ash_input + p) = Some 0 ∧ buffers (q ++ [b]) s' ∧ input_only s s'.
Proof.
  intros [(g & Hg & Hgp & Hip & Hc) Hlen Hch] Hq Hb p s'.
  assert (ash_input + p = cell (g + length q)) as Hp by (unfold p; by rewrite Hip).
  split_and!.
  - rewrite Hp, Hc, lookup_ge_None_2 by lia. done.
  - split; [exists g|rewrite length_app; simpl; lia|apply Forall_app; split; [done|by constructor]].
    split_and!; [done|done| |].
    + change (input_pos s') with (next_pos p). unfold p. rewrite Hip, next_pos_mod by (apply Nat.mod_upper_bound; lia).
      rewrite Nat.Div0.add_mod_idemp_l, length_app. cbn [length]. by rewrite Nat.add_assoc.
    + intros i Hi. change (sh_mem s') with (<[ash_input + p := b]> (sh_mem s)). rewrite Hp. destruct (decide (i = length q)) as [->|Hne].
      * by rewrite lookup_insert_eq, lookup_app_r, Nat.sub_diag by lia.
      * rewrite lookup_insert_ne by (intros Heq; apply Hne; symmetry; by apply (cell_inj (length q) i Hq Hi g)).
        rewrite Hc by done. destruct (decide (i < length q)%nat); [by rewrite lookup_app_l|].
        rewrite !lookup_ge_None_2; [done|rewrite length_app; simpl; lia|lia].
  - exists (<[ash_input + p := b]> (sh_mem s)), (get_pos s), (next_pos p). split; [|by destruct s].
    intros k Hk. rewrite lookup_insert_ne; [done|]. rewrite Hp. pose proof (cell_input (g + length q)). lia.
Qed.

(** The receive loop takes what the buffer has room for. *)
Lemma receive_loop_run q avail s : buffers q s → Forall char_ok avail →
  ∃ s', receive_loop avail s = Ret (drop (80 - length q) avail, s') ∧
    buffers (q ++ take (80 - length q) avail) s' ∧ input_only s s'.
Proof.
  revert q s. induction avail as [|b avail IH]; intros q s Hbuf Hav.
  - exists s. rewrite drop_nil, take_nil, app_nil_r. split_and!; [|done|apply input_only_refl].
    cbn [receive_loop]. erewrite run_bind by done. destruct Hbuf as [(g & Hg & Hgp & Hip & Hc) Hlen Hch].
    assert (is_Some (sh_mem s !! cell (g + length q))) as [x Hx].
    { destruct (decide (length q = 80)%nat) as [->|]; [|rewrite Hc by lia; by eexists].
      replace (cell (g + 80)) with (cell (g + 0)); [rewrite Hc by lia; by eexists|].
      unfold cell. rewrite Nat.add_0_r. rewrite (Nat.Div0.add_mod g 80 80). by rewrite Nat.Div0.mod_same, Nat.add_0_r, Nat.Div0.mod_mod. }
    erewrite run_bind by (apply run_on_bytes_id, run_load8; rewrite Hip; exact Hx). by case_match.
  - apply Forall_cons in Hav as [Hb Hav]. destruct (decide (length q = 80)%nat) as [Hfull|Hroom].
    + exists s. rewrite Hfull, app_nil_r. split_and!; [|done|apply input_only_refl].
      cbn [receive_loop]. erewrite run_bind by done. destruct Hbuf as [(g & Hg & Hgp & Hip & Hc) Hlen Hch].
      destruct q as [|x q]; [done|]. specialize (Hc 0%nat ltac:(lia)). simpl in Hc. rewrite Hfull in Hip.
      assert (ash_input + input_pos s = cell (g + 0)) as Hp.
      { rewrite Hip. unfold cell. rewrite Nat.add_0_r. rewrite (Nat.Div0.add_mod g 80 80). by rewrite Nat.Div0.mod_same, Nat.add_0_r, Nat.Div0.mod_mod. }
      erewrite run_bind by (apply run_on_bytes_id, run_load8; rewrite Hp; exact Hc).
      apply Forall_cons in Hch as [Hx _]. unfold char_ok in Hx. by rewrite (proj2 (Z.eqb_neq x 0)) by lia.
    + pose proof (bf_len _ _ Hbuf). destruct (receive_one q b s Hbuf) as (Hz & Hbuf' & Hio); [lia|done|].
      set (s1 := set_input_pos _ _) in *. destruct (IH (q ++ [b]) s1 Hbuf' Hav) as (s' & Hrun & Hbuf'' & Hio').
      exists s'. rewrite length_app in Hrun, Hbuf''. simpl in Hrun, Hbuf''.
      replace (80 - length q)%nat with (S (80 - (length q + 1))) by lia. cbn [drop take].
      split_and!; [|by rewrite <- app_assoc in Hbuf''|by eapply input_only_trans].
      cbn [receive_loop]. erewrite run_bind by done. erewrite run_bind by (by apply run_on_bytes_id, run_load8).
      cbn [Z.eqb negb]. erewrite run_bind by (apply run_on_bytes, run_store8; by eexists). by erewrite run_bind by done.
Qed.

(** A key taken from the buffer. *)
Lemma take_one c q s : buffers (c :: q) s →
  let g := get_pos s in
  let s' := set_get_pos (next_pos g) (set_sh_mem (<[ash_input + g := 0]> (sh_mem s)) s) in
  sh_mem s !! (ash_input + g) = Some c ∧ buffers q s' ∧ input_only s s'.
Proof.
  intros [(g0 & Hg & Hgp & Hip & Hc) Hlen Hch] g s'. apply Forall_cons in Hch as [Hc0 Hch]. simpl in Hlen.
  assert (ash_input + g = cell (g0 + 0)) as Hp.
  { unfold g, cell. rewrite Hgp, Nat.add_0_r, Nat.mod_small by lia. done. }
  split_and!.
  - rewrite Hp, Hc by lia. done.
  - split; [exists ((g0 + 1) mod 80)%nat|lia|done]. split_and!.
    + apply Nat.mod_upper_bound. lia.
    + unfold s'. simpl. unfold g. rewrite Hgp. by apply next_pos_mod.
    + change (input_pos s') with (input_pos s). rewrite Hip, Nat.Div0.add_mod_idemp_l. cbn [length]. by rewrite <- Nat.add_assoc.
    + intros i Hi. change (sh_mem s') with (<[ash_input + g := 0]> (sh_mem s)). rewrite Hp.
      assert (cell ((g0 + 1) mod 80 + i) = cell (g0 + S i)) as ->.
      { unfold cell. rewrite Nat.Div0.add_mod_idemp_l. do 3 f_equal. lia. }
      destruct (decide (i = 79)%nat) as [->|Hne].
      * replace (cell (g0 + 80)) with (cell (g0 + 0)).
        -- rewrite lookup_insert_eq, lookup_ge_None_2 by lia. done.
        -- unfold cell. rewrite Nat.add_0_r. rewrite (Nat.Div0.add_mod g0 80 80). by rewrite Nat.Div0.mod_same, Nat.add_0_r, Nat.Div0.mod_mod.
      * rewrite lookup_insert_ne by (intros Heq; pose proof (cell_inj 0 (S i) ltac:(lia) ltac:(lia) g0 Heq); lia).
        by rewrite Hc by lia.
  - exists (<[ash_input + g := 0]> (sh_mem s)), (next_pos g), (input_pos s). split; [|by destruct s].
    intros k Hk. rewrite lookup_insert_ne; [done|]. rewrite Hp. pose proof (cell_input (g0 + 0)). lia.
Qed.

(** A key leaves the buffer alone. *)
Lemma buffers_keeps q s s' : buffers q s → keeps s s' → buffers q s'.
Proof.
  intros [(g & Hg & Hgp & Hip & Hc) Hlen Hch] [Hm [Hg' Hi'] _]. split; [exists g|done|done].
  rewrite Hg', Hi'. split_and!; [done|done|done|]. intros i Hi. rewrite Hm; [by apply Hc|..].
  all: pose proof (cell_input (g + i)); pose proof sl_line_input as A1; pose proof sl_history_input as A2; unfold apart in *; lia.
Qed.

(** ** The loop over the buffer *)
Lemma keys_loop_prefix prompt q rest fuel e exe junk stacked s :
  buffers (q ++ rest) s → edits prompt e s → plain_keys prompt (sh_stat s) e q →
  ∃ s', keys_loop exe (length q + fuel) junk stacked s = keys_loop exe fuel junk stacked s' ∧ buffers rest s' ∧
    let '(st, (e', o)) := keys_step prompt (sh_stat s) e q in
    edits prompt e' s' ∧ sh_stat s' = st ∧ p_out (sh_printer s') = p_out (sh_printer s) ++ o.
Proof.
  revert e s. induction q as [|c q IH]; intros e s Hbuf He Hks.
  - exists s. simpl. rewrite app_nil_r. by split_and!.
  - simpl in Hks. destruct Hks as (Hc & H13 & H10 & H78 & Hks). cbn [app] in Hbuf.
    destruct (take_one c (q ++ rest) s Hbuf) as (Hload & Hbuf1 & Hio). set (s1 := set_get_pos _ _) in *.
    destruct (edits_input _ _ _ _ He Hio) as (He1 & Hst1 & Ho1).
    destruct (process_key_does prompt e c exe junk stacked s1 He1 Hc H13 H10 H78) as (s2 & Hrun & He2 & Hk2 & Hst2 & Ho2).
    rewrite Hst1 in *. pose proof (buffers_keeps _ _ _ Hbuf1 Hk2) as Hbuf2. cbn [keys_step].
    destruct (key_step prompt (sh_stat s) c e) as [st [e2 o2]]. cbn [fst snd] in He2, Hst2, Ho2, Hks. rewrite <- Hst2 in Hks.
    destruct (IH e2 s2 Hbuf2 He2 Hks) as (s' & Hrun' & Hbuf' & Hres). rewrite <- Hst2 in *.
    destruct (keys_step prompt (sh_stat s2) e2 q) as [st' [e' o']]. exists s'. split_and!; [|done|apply Hres..|].
    + cbn [length Nat.add keys_loop]. erewrite run_bind by done. erewrite run_bind by (by apply run_on_bytes_id, run_load8).
      unfold char_ok in Hc. rewrite (proj2 (Z.eqb_neq c 0)) by lia.
      erewrite run_bind by (apply run_on_bytes, run_store8; by eexists). erewrite run_bind by done.
      erewrite run_bind by exact Hrun. exact Hrun'.
    + destruct Hres as (_ & _ & ->). by rewrite Ho2, Ho1, app_assoc.
Qed.

Lemma keys_loop_empty exe fuel junk stacked s : buffers [] s → keys_loop exe fuel junk stacked s = Ret (false, s).
Proof.
  intros [(g & Hg & Hgp & Hip & Hc) _ _]. specialize (Hc 0%nat ltac:(lia)). unfold cell in Hc.
  rewrite Nat.add_0_r, Nat.mod_small in Hc by lia.
  destruct fuel; cbn [keys_loop]; erewrite run_bind by done.
  all: by erewrite run_bind by (apply run_on_bytes_id, run_load8; rewrite Hgp; exact Hc).
Qed.

Lemma process_enter_run exe junk stacked s :
  process_key exe junk stacked 13 s = enter_key exe junk stacked (set_sh_stat WAIT_NORMAL s).
Proof. unfold process_key. erewrite run_bind by done. destruct s as [[] ????????????]; done. Qed.
End editor.

(** C13 Editing.  The bytes that come in a wake-up of the shell are handled in
    the order they came, whatever was left in the buffer before them, and each
    does to the line, the cursor, the history and the screen what its step on
    the abstract editor says: characters are inserted at the cursor, backspace
    removes the one before it, the arrows move the cursor and call up the lines
    of the history.  This is for bytes without Enter, up to the 79th character
    of a line, and no more than the buffer of 80 has room for. *)
Theorem keys_refine `{!ShellLayout, !ShellLaid, !Critical shell, !ShellCritical}
    (prompt : list Z) (e : editor) (q avail : list Z) (s : shell) (exe : Z → Z → list Z → M shell unit) (junk : Z) (stacked : parse_state) :
  edits prompt e s → buffers q s → Forall char_ok avail → (length (q ++ avail) ≤ 80)%nat →
  plain_keys prompt (sh_stat s) e (q ++ avail) →
  ∃ s', ash_wake exe junk stacked avail s = Ret ((false, []), s') ∧ buffers [] s' ∧
    let '(st, (e', o)) := keys_step prompt (sh_stat s) e (q ++ avail) in
    edits prompt e' s' ∧ sh_stat s' = st ∧ p_out (sh_printer s') = p_out (sh_printer s) ++ o.
Proof.
  intros He Hbuf Hav Hlen Hks. rewrite length_app in Hlen.
  destruct (receive_loop_run q avail s Hbuf Hav) as (s1 & Hrec & Hbuf1 & Hio).
  rewrite drop_ge in Hrec by lia. rewrite take_ge in Hbuf1 by lia.
  destruct (edits_input _ _ _ _ He Hio) as (He1 & Hst1 & Ho1). rewrite <- Hst1 in Hks.
  rewrite <- (app_nil_r (q ++ avail)) in Hbuf1.
  destruct (keys_loop_prefix prompt (q ++ avail) [] (80 - length (q ++ avail)) e exe junk stacked s1 Hbuf1 He1 Hks)
    as (s' & Hrun & Hbuf' & Hres).
  rewrite Hst1, Ho1 in Hres. exists s'. split_and!; [|done|exact Hres].
  unfold ash_wake. erewrite run_bind by exact Hrec.
  replace (Z.to_nat ASH_CMD_SIZE) with (length (q ++ avail) + (80 - length (q ++ avail)))%nat
    by (rewrite length_app; unfold ASH_CMD_SIZE; lia).
  erewrite run_bind; [done|]. rewrite Hrun. by apply keys_loop_empty.
Qed.

(** Enter.  When a line has been typed and Enter follows, its text - all of
    it, wherever the cursor is - is on [line] as a string when the commands run,
    and it is the last line of the history, which has the last five lines and no
    line twice in a row, nor an empty one.  Then the line is empty again, and
    what was received behind Enter waits in the buffer. *)
Theorem enter_executes `{!ShellLayout, !ShellLaid, !Critical shell, !ShellCritical}
    (prompt : list Z) (e : editor) (keys rest : list Z) (s : shell) (exe : Z → Z → list Z → M shell unit) (junk : Z) (stacked : parse_state) :
  edits prompt e s → buffers [] s → Forall char_ok (keys ++ 13 :: rest) → (length (keys ++ 13%Z :: rest) ≤ 80)%nat →
  plain_keys prompt (sh_stat s) e keys →
  let e' := (keys_step prompt (sh_stat s) e keys).2.1 in
  let hist := push_history (ed_line e') (ed_hist e') in
  ∃ s1, cstr (sh_mem s1) ash_line (ed_line e') ∧
    edits prompt (mk_editor (ed_before e') (ed_after e') hist (length hist)) s1 ∧
    ∀ s2, acoral_ash_cmd_exe exe junk stacked ash_line s1 = Ret (tt, s2) → command_frame s1 s2 →
      ∃ s', ash_wake exe junk stacked (keys ++ 13 :: rest) s = Ret ((true, []), s') ∧
        edits prompt (mk_editor [] [] hist (length hist)) s' ∧ buffers rest s' ∧
        p_out (sh_printer s') = p_out (sh_printer s2).
Proof.
  intros He Hbuf Hav Hlen Hks e' hist.
  destruct (receive_loop_run [] (keys ++ 13 :: rest) s Hbuf Hav) as (s1 & Hrec & Hbuf1 & Hio).
  rewrite drop_ge in Hrec by (simpl; lia). rewrite take_ge in Hbuf1 by (simpl; lia). cbn [app] in Hbuf1.
  destruct (edits_input _ _ _ _ He Hio) as (He1 & Hst1 & Ho1). rewrite <- Hst1 in Hks.
  rewrite length_app in Hlen. simpl in Hlen.
  destruct (keys_loop_prefix prompt keys (13 :: rest) (80 - length keys) e exe junk stacked s1 Hbuf1 He1 Hks)
    as (s2 & Hrun & Hbuf2 & Hres).
  unfold hist, e' in *. rewrite Hst1 in Hres. clear e' hist. destruct (keys_step prompt (sh_stat s) e keys) as [st [e' o]].
  destruct Hres as (He2 & Hst2 & Ho2). simpl.
  destruct (take_one 13 rest s2 Hbuf2) as (Hload & Hbuf3 & Hio3). set (s3 := set_get_pos _ _) in *.
  destruct (edits_input _ _ _ _ He2 Hio3) as (He3 & _ & _).
  destruct (enter_key_run prompt e' exe junk stacked (set_sh_stat WAIT_NORMAL s3)) as (s4 & He4 & Hk4 & Ho4 & Hent);
    [by apply set_sh_stat_edits|].
  exists s4. split; [exact (edits_cstr _ _ _ He4)|]. split; [exact He4|].
  intros s5 Hexe Hfr. destruct (Hent s5 Hexe Hfr) as (s6 & Hrun6 & He6 & Ho6 & Hm6 & Hg6 & Hi6 & _).
  exists s6. split_and!; [|exact He6| |done].
  - unfold ash_wake. erewrite run_bind by exact Hrec.
    replace (Z.to_nat ASH_CMD_SIZE) with (length keys + (80 - length keys))%nat by (unfold ASH_CMD_SIZE; lia).
    erewrite run_bind; [done|]. rewrite Hrun. replace (80 - length keys)%nat with (S (79 - length keys)) by lia.
    cbn [keys_loop]. erewrite run_bind by done. erewrite run_bind by (by apply run_on_bytes_id, run_load8).
    cbn [Z.eqb]. erewrite run_bind by (apply run_on_bytes, run_store8; by eexists). erewrite run_bind by done.
    by erewrite run_bind by (rewrite process_enter_run; exact Hrun6).
  - assert (buffers rest s4) as Hbuf4 by (eapply buffers_keeps; [|exact Hk4]; by destruct Hbuf3).
    destruct Hbuf4 as [(g & Hg & Hgp & Hip & Hc) Hl Hch]. destruct Hfr as [Hm5 _ _ [Hg5 Hi5] _].
    split; [exists g|done|done]. rewrite Hg6, Hi6, Hg5, Hi5. split_and!; [done..|]. intros i Hi.
    pose proof (cell_input (g + i)). pose proof sl_line_input as Ha. unfold apart in Ha.
    rewrite Hm6, Hm5 by lia. by apply Hc.
Qed.

(** ** A full line *)
Lemma run_bind_err {S A B} (m : M S A) (f : A → M S B) (s : S) (e : fault) : m s = Err e → (m ≫= f) s = Err e.
Proof. intros Hm. unfold mbind, M_bind. by rewrite Hm. Qed.

(** A line of 79 characters.  Another one in front of the cursor's last is
    written, but the NUL behind the line then goes past the array.  One at the
    end makes a line of 80 characters without a NUL.  The next key is refused:
    the positions go back to 0, but the characters stay where they are. *)
Theorem full_line `{!ShellLayout, !ShellLaid, !Critical shell, !ShellCritical}
    (prompt : list Z) (e : editor) (c c' : Z) (s : shell) :
  edits prompt e s → length (ed_line e) = 79%nat → char_ok c → 
  (ed_after e ≠ [] → insert_key c s = Err Wild) ∧
  (ed_after e = [] → ∃ s', insert_key c s = Ret (false, s') ∧
     bytes (sh_mem s') ash_line (ed_line e ++ [c]) ∧ line_position s' = 80 ∧
     ∃ s'', insert_key c' s' = Ret (true, s'') ∧
       line_position s'' = 0 ∧ line_curpos s'' = 0 ∧ bytes (sh_mem s'') ash_line (ed_line e ++ [c])).
Proof.
  intros He H79 Hc. pose proof (er_curpos _ _ _ He) as Hcp. pose proof (er_position _ _ _ He) as Hp.
  pose proof (cstr_bytes _ _ _ (edits_cstr _ _ _ He)) as Hrow. pose proof (edits_room _ _ _ He) as Hroom.
  rewrite H79 in Hp. assert (ed_line e = rev (ed_before e) ++ ed_after e) as Hline by done.
  assert (length (ed_before e) + length (ed_after e) = 79)%nat as Hlen by (rewrite Hline, length_app, length_rev in H79; done).
  rewrite Hline in Hrow. apply bytes_app in Hrow as [_ Hrow]. rewrite length_rev in Hrow.
  split; intros Ha.
  - assert (0 < length (ed_after e))%nat by (destruct (ed_after e); [done|simpl; lia]).
    unfold insert_key. erewrite run_bind by done. erewrite run_bind by done. rewrite Hcp, Hp.
    change (Z.of_nat 79 <? ASH_CMD_SIZE) with true. cbv iota. rewrite (proj2 (Z.ltb_lt _ _)) by lia. apply run_bind_err.
    replace (Z.of_nat 79 - Z.of_nat (length (ed_before e))) with (Z.of_nat (length (ed_after e))) by lia.
    erewrite run_bind by (apply run_on_bytes, memmove_spec; [exact Hrow|intros k Hk; apply Hroom; lia]).
    erewrite run_bind by (apply run_set_line; [lia|by apply room_poke|done]). by apply run_bind_err.
  - rewrite Ha in *. simpl in Hlen. rewrite Nat.add_0_r in Hlen.
    set (m' := <[ash_line + 79 := c]> (sh_mem s)).
    assert (insert_key c s = Ret (false, set_line_curpos 80 (set_line_position 80 (say [c] (set_sh_mem m' s))))) as Hrun.
    { unfold insert_key. erewrite run_bind by done. erewrite run_bind by done. rewrite Hcp, Hp, Hlen.
      change (Z.of_nat 79 <? ASH_CMD_SIZE) with true. cbv iota. rewrite Z.ltb_irrefl. erewrite run_bind; [done|].
      erewrite run_bind by (by apply (run_set_line _ _ m'); [lia| |]). erewrite run_bind by done.
      change (echo_mode (set_sh_mem m' s)) with (echo_mode s). rewrite (er_echo _ _ _ He). cbn [Z.eqb negb when].
      unfold char_ok in Hc. by erewrite run_zoom by (by apply run_outbyte; lia). }
    assert (bytes m' ash_line (ed_line e ++ [c])) as Hb.
    { unfold m'. rewrite <- poke_one. apply bytes_app. rewrite H79. split; [|apply poke_bytes].
      apply poke_bytes_ne; [exact (cstr_bytes _ _ _ (edits_cstr _ _ _ He))|]. rewrite H79. unfold apart. lia. }
    eexists. split; [exact Hrun|]. split; [exact Hb|]. split; [done|]. eexists. split.
    + unfold insert_key. erewrite run_bind by done. erewrite run_bind by done.
      change (line_position _ <? ASH_CMD_SIZE) with false. cbv iota.
      erewrite run_bind.
      2:{ apply (prints_literal 8); [done|done|apply He|].
          eapply literals_frame; [apply He|]. intros k Hk _. change (m' !! k = sh_mem s !! k). unfold m'. by rewrite lookup_insert_ne by lia. }
      done.
    + done.
Qed.

(** ** A shell in memory *)
Module Desk.
(** The arrays below 1000, the literal number [i] at [2000 + 64 * i]. *)
#[export] Instance desk_layout : ShellLayout := {
  ash_line := 100;
  ash_history := 200;
  ash_input := 700;
  ash_prompt := 800;
  ash_path := 900;
  lit l := 2000 + 64 * match list_find (λ l', l' = l) shell_literals with Some (i, _) => Z.of_nat i | None => 20 end;
  adr_ls := 1;
  adr_cd := 2;
  adr_help := 3;
}.

#[export] Instance desk_critical : Critical shell := { cr_enter := mret tt; cr_exit := mret tt }.
#[export] Instance desk_critical_laws : ShellCritical.
Proof. by split. Qed.

#[export] Instance desk_laid : ShellLaid.
Proof.
  split; unfold apart; simpl; try lia.
  - intros l. case_match; [destruct p|]; lia.
  - apply Forall_forall. unfold shell_literals. repeat (apply Forall_cons; split); [vm_compute; intuition congruence..|done].
Qed.

Definition desk_prompt : list Z := txt "aCoral:/$".

(** Empty arrays, the prompt, and the literals. *)
Definition desk_mem : bytemem :=
  foldr (λ l, poke (lit l) (l ++ [0]))
    (poke 100 (replicate 80 0) (poke 200 (replicate 400 0) (poke 700 (replicate 80 0) (poke 800 (desk_prompt ++ replicate 72 0) ∅))))
    shell_literals.

Definition desk : shell :=
  mk_shell WAIT_NORMAL 1 0 0 0 0 0 0 0 0 (mk_pstate desk_mem [] 1 0)
    (mk_q (<[CmdQueue := mk_list CmdQueue CmdQueue 0 0]> ∅) (<[CmdQueue := 0]> ∅)) [].

Fixpoint bytesb (m : bytemem) (p : Z) (l : list Z) : bool :=
  match l with [] => true | x :: l => bool_decide (m !! p = Some x) && bytesb m (p + 1) l end.

Lemma bytesb_ok m p l : bytesb m p l = true → bytes m p l.
Proof. revert p. induction l as [|x l IH]; intros p; simpl; [done|]. intros [?%bool_decide_eq_true_1 ?]%andb_true_iff. auto. Qed.

Definition empty_editor : editor := mk_editor [] [] [] 0.

Lemma desk_edits : edits desk_prompt empty_editor desk.
Proof.
  split; [by apply bytesb_ok; vm_compute|split; [done|simpl; lia]| |done|simpl; lia|done|done|simpl; lia|done|done|done| | |done].
  - intros i Hi. do 5 (destruct i as [|i]; [by apply bytesb_ok; vm_compute|]). lia.
  - split_and!; [done| |simpl; lia]. split; [by repeat constructor|by apply bytesb_ok; vm_compute].
  - unfold has_literals. apply (Forall_forall (λ l, bytes desk_mem (lit l) (l ++ [0]))).
    repeat (apply Forall_cons; split); [by apply bytesb_ok; vm_compute..|done].
Qed.

Lemma desk_buffers : buffers [] desk.
Proof.
  split; [exists 0%nat|simpl; lia|done]. split_and!; [lia|done|done|]. intros i Hi. unfold cell. rewrite Nat.add_0_l, Nat.mod_small by done.
  assert (bytes desk_mem 700 (replicate 80 0)) as Hb by (by apply bytesb_ok; vm_compute).
  apply (bytes_lookup desk_mem 700 (replicate 80 0)); [done|]. by apply lookup_replicate_2.
Qed.

(** The keys a, b, left, c and the key for the line before: the line is "acb". *)
Lemma keys_refine_witness : ∃ s', ash_wake (λ _ _ _, mret tt) 0 PS_TOKEN [97; 98; 27; 91; 68; 99; 27; 91; 65] desk = Ret ((false, []), s') ∧
  edits desk_prompt (mk_editor [99; 97] [98] [] 0) s' ∧ p_out (sh_printer s') = [97; 98; 8; 99; 98; 8].
Proof.
  assert (keys_step desk_prompt (sh_stat desk) empty_editor [97; 98; 27; 91; 68; 99; 27; 91; 65] =
    (WAIT_NORMAL, (mk_editor [99; 97] [98] [] 0, [97; 98; 8; 99; 98; 8]))) as Hstep by (vm_compute; reflexivity).
  pose proof (keys_refine desk_prompt empty_editor [] [97; 98; 27; 91; 68; 99; 27; 91; 65] desk (λ _ _ _, mret tt) 0 PS_TOKEN
    desk_edits desk_buffers) as Hkeys.
  cbn [app] in Hkeys. rewrite Hstep in Hkeys. destruct Hkeys as (s' & Hrun & _ & He & _ & Ho).
  - repeat constructor.
  - simpl. lia.
  - simpl. unfold char_ok. repeat split; lia.
  - exists s'. split; [exact Hrun|]. split; [exact He|]. exact Ho.
Defined.

(** A character that is deleted again, Enter, and a character behind it. *)
Lemma enter_executes_witness : ∃ s', ash_wake (λ _ _ _, mret tt) 0 PS_TOKEN [97; 127; 13; 98] desk = Ret ((true, []), s') ∧
  edits desk_prompt empty_editor s' ∧ buffers [98] s'.
Proof.
  assert (keys_step desk_prompt (sh_stat desk) empty_editor [97; 127] = (WAIT_NORMAL, (empty_editor, [97; 8; 32; 8]))) as Hstep
    by (vm_compute; reflexivity).
  pose proof (enter_executes desk_prompt empty_editor [97; 127] [98] desk (λ _ _ _, mret tt) 0 PS_TOKEN desk_edits desk_buffers) as Hent.
  rewrite Hstep in Hent. destruct Hent as (s1 & Hline & He & Hent).
  - repeat constructor.
  - simpl. lia.
  - simpl. unfold char_ok. repeat split; lia.
  - apply cstr_nil in Hline. destruct (Hent s1) as (s' & Hrun & He' & Hbuf & _).
    + unfold acoral_ash_cmd_exe. erewrite run_bind by done. cbn [exe_loop]. by erewrite run_bind by (by apply run_on_bytes_id, run_load8).
    + split; try done; [exact (edits_room _ _ _ He)|apply He].
    + exists s'. split; [exact Hrun|]. split; [exact He'|exact Hbuf].
Defined.

(** 79 times the letter a, with the cursor in front of the last one. *)
Definition desk_full : shell :=
  set_line_curpos 78 (set_line_position 79 (set_sh_mem (poke 100 (row (replicate 79 97)) desk_mem) desk)).

Lemma full_line_witness : insert_key 98 desk_full = Err Wild.
Proof.
  assert (rev (replicate 78 97) ++ [97] = replicate 79 97) as Hline by done.
  assert (edits desk_prompt (mk_editor (replicate 78 97) [97] [] 0) desk_full) as He.
  { apply (edits_write desk_prompt empty_editor desk); [apply desk_edits|rewrite Hline; apply poke_bytes| | |simpl; lia|done..].
    - intros k Hk. apply poke_out. rewrite length_row by (rewrite length_replicate; lia). exact Hk.
    - rewrite Hline. split; [|rewrite length_replicate; lia]. apply Forall_replicate. unfold char_ok. lia. }
  destruct (full_line desk_prompt (mk_editor (replicate 78 97) [97] [] 0) 98 0 desk_full He) as [Hmid _]; [done|unfold char_ok; lia|].
  by apply Hmid.
Defined.
End Desk.
