(* ===== verification/ShellCmd.v ===== *)
(** * Correctness of the shell's command line

    The reference is a line as a list of items: blanks, words, and texts in
    quotes.  [fmt_items] is the line, [args] its arguments, [erased] what the
    parser leaves in memory: the characters between the arguments become NULs. *)
From S2P Require Import Prelude Interfaces DList Queues Str StrSpec Print PrintSpec Shell ShellSpec.
From stdpp Require Import list strings.
#[local] Open Scope Z_scope.

Inductive item : Type :=
  | Blank (c : Z)
  | Word (w : list Z)
  | Quoted (q : list Z).

Definition plain (c : Z) : Prop := char_ok c ∧ c ∉ [32; 9; 34; 92; 59].

Definition item_ok (x : item) : Prop :=
  match x with
  | Blank c => c = 32 ∨ c = 9
  | Word w => w ≠ [] ∧ Forall plain w
  | Quoted q => q ≠ [] ∧ Forall (λ c, char_ok c ∧ c ≠ 34) q
  end.

(** Between two words there is something else. *)
Fixpoint separated (xs : list item) : Prop :=
  match xs with
  | Word _ :: (Word _ :: _) => False
  | _ :: xs => separated xs
  | [] => True
  end.

Definition fmt_item (x : item) : list Z :=
  match x with Blank c => [c] | Word w => w | Quoted q => 34 :: q ++ [34] end.
Definition erased_item (x : item) : list Z :=
  match x with Blank _ => [0] | Word w => w | Quoted q => 0 :: q ++ [0] end.
Definition arg_item (x : item) : list (list Z) :=
  match x with Blank _ => [] | Word w => [w] | Quoted q => [q] end.

Definition fmt_items (xs : list item) : list Z := xs ≫= fmt_item.
Definition erased (xs : list item) : list Z := xs ≫= erased_item.
Definition args (xs : list item) : list (list Z) := xs ≫= arg_item.

(** Where the arguments of a line at [p] are. *)
Fixpoint places (p : Z) (xs : list item) : list Z :=
  match xs with
  | [] => []
  | x :: xs =>
      (match x with Blank _ => [] | Word _ => [p] | Quoted _ => [p + 1] end)
      ++ places (p + Z.of_nat (length (fmt_item x))) xs
  end.

(** [argv] with the places from index [k] on. *)
Fixpoint fill (k : Z) (ps : list Z) (argv : list Z) : list Z :=
  match ps with [] => argv | p :: ps => fill (k + 1) ps (aset k p argv) end.

Definition after (ls : parse_state) (xs : list item) : parse_state :=
  match last xs with None => ls | Some (Word _) => PS_TOKEN | Some _ => PS_WHITESPACE end.

Lemma length_erased_item x : length (erased_item x) = length (fmt_item x).
Proof. by destruct x; simpl; rewrite ?length_app. Qed.

Lemma length_erased xs : length (erased xs) = length (fmt_items xs).
Proof.
  induction xs as [|x xs IH]; [done|]. unfold erased, fmt_items in *. cbn [mbind list_bind].
  by rewrite !length_app, length_erased_item, IH.
Qed.

Lemma length_places p xs : length (places p xs) = length (args xs).
Proof.
  revert p. induction xs as [|x xs IH]; intros p; [done|]. unfold args in *. cbn [mbind list_bind places].
  rewrite !length_app, IH. by destruct x.
Qed.

Section parser.
Context `{!ShellLayout}.
Implicit Types (s : shell) (l : list Z) (argv : list Z) (m : bytemem).

Lemma set_mem_set m m' s : set_sh_mem m' (set_sh_mem m s) = set_sh_mem m' s.
Proof. done. Qed.

Lemma set_mem_id s : set_sh_mem (sh_mem s) s = s.
Proof. by destruct s as [??????????[]??]. Qed.

(** A turn of the loop on a character that does not end the command. *)
Lemma parse_turn fuel p c k argv ls st s p' k' argv' ls' st' s' :
  sh_mem s !! p = Some c → c ≠ 0 → k < 8 → ends_command c ls = false →
  parse_char p c k argv ls st s = Ret ((p', k', argv', ls', st'), s') →
  parse_loop (S fuel) p k argv ls st s = parse_loop fuel p' k' argv' ls' st' s'.
Proof.
  intros Hm Hc Hk He Hrun. cbn [parse_loop]. erewrite run_bind by (by apply run_on_bytes_id, run_load8).
  rewrite (proj2 (Z.eqb_neq c 0)), (proj2 (Z.ltb_lt _ _)) by (unfold MAX_ARGS_NUM; lia). cbn [negb andb].
  rewrite He. by erewrite run_bind by exact Hrun.
Qed.

Lemma plain_eqb c : plain c → (c =? 32) = false ∧ (c =? 9) = false ∧ (c =? 34) = false ∧ (c =? 92) = false ∧ (c =? 59) = false.
Proof. intros [_ Hc]. rewrite !not_elem_of_cons in Hc. rewrite !Z.eqb_neq. tauto. Qed.

Lemma plain_ends c ls : plain c → ends_command c ls = false.
Proof. intros (_ & _ & _ & _ & H59)%plain_eqb. unfold ends_command. by rewrite H59. Qed.

(** The rest of a word. *)
Lemma word_loop fuel w p k argv st s : bytes (sh_mem s) p w → Forall plain w → k < 8 →
  parse_loop (length w + fuel) p k argv PS_TOKEN st s = parse_loop fuel (p + Z.of_nat (length w)) k argv PS_TOKEN st s.
Proof.
  revert p. induction w as [|c w IH]; intros p Hb Hw Hk; [simpl; by rewrite Z.add_0_r|].
  destruct Hb as [Hc Hb]. apply Forall_cons in Hw as [Hp Hw]. pose proof (plain_eqb c Hp) as (E1 & E2 & E3 & E4 & E5).
  cbn [length Nat.add]. erewrite parse_turn; [|done|destruct Hp as [[]]; lia|done|by apply plain_ends|].
  2:{ unfold parse_char. by rewrite E1, E2, E3, E4. }
  rewrite IH by done. f_equal. lia.
Qed.

(** The rest of a text in quotes. *)
Lemma quote_loop fuel q p k argv st s : bytes (sh_mem s) p q → Forall (λ c, char_ok c ∧ c ≠ 34) q → k < 8 →
  parse_loop (length q + fuel) p k argv PS_STRING st s = parse_loop fuel (p + Z.of_nat (length q)) k argv PS_STRING st s.
Proof.
  revert p. induction q as [|c q IH]; intros p Hb Hq Hk; [simpl; by rewrite Z.add_0_r|].
  destruct Hb as [Hc Hb]. apply Forall_cons in Hq as [[Hp H34] Hq].
  cbn [length Nat.add]. erewrite parse_turn; [|done|unfold char_ok in Hp; lia|done|by unfold ends_command; rewrite andb_false_r|].
  2:{ unfold parse_char. by rewrite (proj2 (Z.eqb_neq c 34)) by done. }
  rewrite IH by done. f_equal. lia.
Qed.

Lemma run_set_argv argv i p s : 0 ≤ i < 8 → set_argv argv i p s = Ret (aset i p argv, s).
Proof. intros Hi. unfold set_argv, MAX_ARGS_NUM. by rewrite (proj2 (Z.leb_le _ _)), (proj2 (Z.ltb_lt _ _)) by lia. Qed.

(** [n] turns or fewer on the text [txt] at [p], and what they leave. *)
Definition parses (n : nat) p k argv ls st s p' k' argv' ls' m' : Prop :=
  ∃ t, (t ≤ n)%nat ∧ ∀ fuel, parse_loop (t + fuel) p k argv ls st s = parse_loop fuel p' k' argv' ls' st (set_sh_mem m' s).

Lemma blank_parses c p k argv ls st s :
  sh_mem s !! p = Some c → c = 32 ∨ c = 9 → ls = PS_WHITESPACE ∨ ls = PS_TOKEN → k < 8 →
  parses 1 p k argv ls st s (p + 1) k argv PS_WHITESPACE (<[p := 0]> (sh_mem s)).
Proof.
  intros Hm Hc Hls Hk. exists 1%nat. split; [done|]. intros fuel. cbn [Nat.add].
  erewrite parse_turn; [done|exact Hm|lia|done|unfold ends_command; by rewrite (proj2 (Z.eqb_neq c 59)) by lia|].
  assert (((c =? 32) || (c =? 9)) = true) as Hbl by (destruct Hc as [-> | ->]; done).
  unfold parse_char. destruct Hls as [-> | ->]; rewrite Hbl; by erewrite run_bind by (apply run_on_bytes, run_store8; by eexists).
Qed.

Lemma word_parses c w p k argv st s :
  bytes (sh_mem s) p (c :: w) → Forall plain (c :: w) → 0 ≤ k < 7 →
  parses (length (c :: w)) p k argv PS_WHITESPACE st s (p + Z.of_nat (length (c :: w))) (k + 1) (aset k p argv) PS_TOKEN (sh_mem s).
Proof.
  intros Hb Hw Hk. exists (length (c :: w)). split; [done|]. intros fuel.
  destruct Hb as [Hc Hb]. apply Forall_cons in Hw as [Hp Hw]. pose proof (plain_eqb c Hp) as (E1 & E2 & E3 & E4 & E5).
  cbn [length Nat.add]. erewrite parse_turn; [|done|destruct Hp as [[]]; lia|lia|by apply plain_ends|].
  2:{ unfold parse_char. rewrite E1, E2, E3, E4. cbn [orb]. by erewrite run_bind by (apply run_set_argv; lia). }
  rewrite word_loop by (done || lia). rewrite set_mem_id. f_equal. lia.
Qed.

(** The opening quote takes the first character with it. *)
Lemma quote_turn fuel p k argv ls st s :
  sh_mem s !! p = Some 34 → ls = PS_WHITESPACE ∨ ls = PS_TOKEN → 0 ≤ k < 8 →
  parse_loop (S fuel) p k argv ls st s =
  parse_loop fuel (p + 1 + 1) (k + 1) (aset k (p + 1) argv) PS_STRING st (set_sh_mem (<[p := 0]> (sh_mem s)) s).
Proof.
  intros Hm Hls Hk. erewrite parse_turn; [done|done|done|lia|done|].
  unfold parse_char. destruct Hls as [-> | ->]; cbn [Z.eqb Pos.eqb orb].
  all: erewrite run_bind by (apply run_on_bytes, run_store8; by eexists); by erewrite run_bind by (apply run_set_argv; lia).
Qed.

Lemma quote_parses c q p k argv ls st s :
  bytes (sh_mem s) p (34 :: (c :: q) ++ [34]) → Forall (λ c, char_ok c ∧ c ≠ 34) q →
  ls = PS_WHITESPACE ∨ ls = PS_TOKEN → 0 ≤ k < 7 →
  parses (length (34 :: (c :: q) ++ [34])) p k argv ls st s (p + Z.of_nat (length (34 :: (c :: q) ++ [34]))) (k + 1)
    (aset k (p + 1) argv) PS_WHITESPACE (<[p + Z.of_nat (length q) + 2 := 0]> (<[p := 0]> (sh_mem s))).
Proof.
  intros [H34 [_ Hb]] Hq Hls Hk. apply bytes_app in Hb as [Hb1 [Hb2 _]].
  exists (S (length q + 1)). split; [simpl; rewrite length_app; simpl; lia|]. intros fuel.
  set (m1 := <[p := 0]> (sh_mem s)).
  assert (bytes m1 (p + 1 + 1) q) as Hb1' by (apply bytes_insert_ne; [done|lia]).
  assert (m1 !! (p + 1 + 1 + Z.of_nat (length q)) = Some 34) as Hb2' by (unfold m1; by rewrite lookup_insert_ne by lia).
  cbn [Nat.add]. rewrite quote_turn by (done || lia). fold m1. rewrite <- Nat.add_assoc. cbn [Nat.add].
  rewrite quote_loop by (done || lia).
  erewrite parse_turn; [|exact Hb2'|done|lia|done|].
  2:{ unfold parse_char. cbn [Z.eqb Pos.eqb]. erewrite run_bind by (apply run_on_bytes, run_store8; by eexists). done. }
  rewrite set_mem_set. simpl length. rewrite length_app. simpl length.
  replace (p + 1 + 1 + Z.of_nat (length q)) with (p + Z.of_nat (length q) + 2) by lia. f_equal. lia.
Qed.

(** One item, from a state that does not stand in a word before a word. *)
Lemma item_parses x p k argv ls st s :
  bytes (sh_mem s) p (fmt_item x) → item_ok x → (ls = PS_WHITESPACE ∨ ls = PS_TOKEN ∧ ∀ w, x ≠ Word w) →
  0 ≤ k → k + Z.of_nat (length (arg_item x)) < 8 →
  parses (length (fmt_item x)) p k argv ls st s
    (p + Z.of_nat (length (fmt_item x))) (k + Z.of_nat (length (arg_item x)))
    (fill k (places p [x]) argv) (after ls [x]) (poke p (erased_item x) (sh_mem s)).
Proof.
  intros Hb Hok Hls Hk Hk8. assert (ls = PS_WHITESPACE ∨ ls = PS_TOKEN) as Hls' by tauto.
  destruct x as [c|w|q]; cbn [fmt_item arg_item erased_item places app length fill item_ok last after Z.of_nat] in *.
  - rewrite Z.add_0_r. destruct Hb as [Hc _]. apply (blank_parses c); [done|done|done|simpl in Hk8; lia].
  - destruct Hok as [Hne Hw]. destruct Hls as [-> |[_ Hls]]; [|by destruct (Hls w)]. destruct w as [|c w]; [done|].
    replace (poke p (c :: w) (sh_mem s)) with (sh_mem s); [apply word_parses; [done|done|simpl in Hk8; lia]|].
    symmetry. apply map_eq. intros j. rewrite poke_lookup. case_decide as Hj; [|done].
    destruct (lookup_lt_is_Some_2 (c :: w) (Z.to_nat (j - p))) as [y Hy]; [lia|]. rewrite Hy.
    rewrite <- (bytes_lookup _ _ _ _ _ Hb Hy). f_equal. lia.
  - destruct Hok as [Hne Hq]. destruct q as [|c q]; [done|]. apply Forall_cons in Hq as [_ Hq].
    replace (poke p (0 :: (c :: q) ++ [0]) (sh_mem s)) with (<[p + Z.of_nat (length q) + 2 := 0]> (<[p := 0]> (sh_mem s))).
    { apply quote_parses; [done|done|done|simpl in Hk8; lia]. }
    apply map_eq. intros j. cbn [poke app]. rewrite poke_app. cbn [poke].
    destruct (decide (j = p + Z.of_nat (length q) + 2)) as [->|Hj].
    + rewrite lookup_insert_eq. replace (p + Z.of_nat (length q) + 2) with (p + 1 + 1 + Z.of_nat (length q)) by lia.
      by rewrite lookup_insert_eq.
    + rewrite lookup_insert_ne by lia. rewrite (lookup_insert_ne (poke _ _ _)) by lia. rewrite poke_lookup. case_decide as Hjq.
      * destruct Hb as [_ Hb]. cbn [app] in Hb. destruct Hb as [_ Hb]. apply bytes_app in Hb as [Hb _].
        rewrite lookup_insert_ne by lia.
        destruct (lookup_lt_is_Some_2 q (Z.to_nat (j - (p + 1 + 1)))) as [y Hy]; [lia|]. rewrite Hy.
        rewrite <- (bytes_lookup _ _ _ _ _ Hb Hy). f_equal. lia.
      * rewrite (lookup_insert (<[p := 0]> (sh_mem s))). case_decide as Hjp; [|done]. subst j.
        rewrite lookup_insert_ne by lia. destruct Hb as [_ [Hc _]]. exact Hc.
Qed.
(** ** A line *)
Lemma fill_app k ps qs argv : fill k (ps ++ qs) argv = fill (k + Z.of_nat (length ps)) qs (fill k ps argv).
Proof.
  revert k argv. induction ps as [|p ps IH]; intros k argv; simpl; [by rewrite Z.add_0_r|]. rewrite IH. f_equal. lia.
Qed.

(** An empty [argv] gets the places in its first cells. *)
Lemma fill_spec pre ps j : (length ps ≤ j)%nat →
  fill (Z.of_nat (length pre)) ps (pre ++ replicate j 0) = pre ++ ps ++ replicate (j - length ps) 0.
Proof.
  revert pre j. induction ps as [|p ps IH]; intros pre j Hj; simpl; [by rewrite Nat.sub_0_r|].
  destruct j as [|j]; [simpl in Hj; lia|]. simpl in Hj. cbn [replicate].
  replace (aset (Z.of_nat (length pre)) p (pre ++ 0 :: replicate j 0)) with ((pre ++ [p]) ++ replicate j 0).
  - replace (Z.of_nat (length pre) + 1) with (Z.of_nat (length (pre ++ [p]))) by (rewrite length_app; simpl; lia).
    rewrite IH by lia. by rewrite <- app_assoc.
  - unfold aset. rewrite (proj2 (Z.leb_le _ _)), Nat2Z.id by lia.
    by rewrite insert_app_r_alt, Nat.sub_diag, <- app_assoc by lia.
Qed.

Lemma parses_trans n1 n2 st s p1 k1 a1 ls1 p2 k2 a2 ls2 m2 p3 k3 a3 ls3 m3 :
  parses n1 p1 k1 a1 ls1 st s p2 k2 a2 ls2 m2 → parses n2 p2 k2 a2 ls2 st (set_sh_mem m2 s) p3 k3 a3 ls3 m3 →
  parses (n1 + n2) p1 k1 a1 ls1 st s p3 k3 a3 ls3 m3.
Proof.
  intros (t1 & T1 & E1) (t2 & T2 & E2). exists (t1 + t2)%nat. split; [lia|]. intros fuel.
  by rewrite <- Nat.add_assoc, E1, E2, set_mem_set.
Qed.

Lemma after_cons ls x xs : after (after ls [x]) xs = after ls (x :: xs).
Proof. unfold after. rewrite (last_cons x xs). by destruct (last xs). Qed.

Lemma items_parse xs p k argv ls st s :
  bytes (sh_mem s) p (fmt_items xs) → Forall item_ok xs → separated xs →
  (ls = PS_WHITESPACE ∨ ls = PS_TOKEN ∧ ∀ w, head xs ≠ Some (Word w)) →
  0 ≤ k → k + Z.of_nat (length (args xs)) < 8 →
  parses (length (fmt_items xs)) p k argv ls st s
    (p + Z.of_nat (length (fmt_items xs))) (k + Z.of_nat (length (args xs)))
    (fill k (places p xs) argv) (after ls xs) (poke p (erased xs) (sh_mem s)).
Proof.
  revert p k argv ls s. induction xs as [|x xs IH]; intros p k argv ls s Hb Hok Hsep Hls Hk Hk8.
  - exists 0%nat. split; [done|]. intros fuel. simpl. by rewrite !Z.add_0_r, set_mem_id.
  - apply Forall_cons in Hok as [Hx Hok]. unfold fmt_items, args, erased in *. cbn [mbind list_bind places] in *.
    rewrite !length_app in *. pose proof Hb as [Hb1 Hb2]%bytes_app.
    rewrite fill_app, poke_app, length_erased_item, <- after_cons, !Nat2Z.inj_add, !Z.add_assoc.
    eapply parses_trans.
    + apply item_parses; [done|done|destruct Hls as [?|[? Hh]]; [by left|right; split; [done|]; intros w ->; by apply (Hh w)]|done|lia].
    + set (s1 := set_sh_mem (poke p (erased_item x) (sh_mem s)) s).
      pose proof (IH (p + Z.of_nat (length (fmt_item x))) (k + Z.of_nat (length (arg_item x))) (fill k (places p [x]) argv)
        (after ls [x]) s1) as Hrest.
      replace (length (match x with Blank _ => [] | Word _ => [p] | Quoted _ => [p + 1] end)) with (length (arg_item x)) by (by destruct x).
      replace (match x with Blank _ => [] | Word _ => [p] | Quoted _ => [p + 1] end) with (places p [x]) by (simpl; by rewrite app_nil_r).
      apply Hrest; [|done| | |lia|lia].
      * apply poke_bytes_ne; [exact Hb2|]. rewrite length_erased_item. unfold apart. lia.
      * by destruct x, xs as [|[] xs].
      * destruct x as [c|w|q]; [by left| |by left]. right. split; [done|]. intros w' Hw'. destruct xs as [|[] xs]; try done.
Qed.
(** What is left in memory has the arguments as strings. *)
Lemma args_strings xs p m :
  Forall item_ok xs → separated xs → bytes m p (erased xs ++ [0]) →
  ∀ i a q, args xs !! i = Some a → places p xs !! i = Some q → cstr m q a.
Proof.
  revert p. induction xs as [|x xs IH]; intros p Hok Hsep Hb i a q Ha Hq; [done|].
  apply Forall_cons in Hok as [Hx Hok]. unfold args, erased in *. cbn [mbind list_bind places] in *.
  rewrite <- app_assoc in Hb. pose proof Hb as [Hb1 Hb2]%bytes_app. rewrite length_erased_item in Hb2.
  assert (separated xs) as Hsep' by (by destruct x, xs as [|[] xs]).
  specialize (IH _ Hok Hsep' Hb2). destruct x as [c|w|qt]; cbn [arg_item erased_item fmt_item app] in *.
  - by apply (IH i).
  - destruct i as [|i]; [|by apply (IH i)]. injection Ha as <-. injection Hq as <-. destruct Hx as [_ Hw]. split.
    + eapply Forall_impl; [exact Hw|]. by intros c [? _].
    + destruct xs as [|[c|w'|q'] xs]; cbn in Hb; [exact Hb| |done|].
      all: apply bytes_app in Hb as [Hb [H0' _]]; by apply bytes_app.
  - destruct i as [|i]; [|by apply (IH i)]. injection Ha as <-. injection Hq as <-. destruct Hx as [_ Hx]. split.
    + eapply Forall_impl; [exact Hx|]. by intros c [? _].
    + destruct Hb1 as [_ Hb1]. exact Hb1.
Qed.

Lemma after_ends xs ls : ls = PS_WHITESPACE ∨ ls = PS_TOKEN → after ls xs = PS_WHITESPACE ∨ after ls xs = PS_TOKEN.
Proof. unfold after. destruct (last xs) as [[]|]; auto. Qed.

(** The loop from the start of a line to its end. *)
Lemma line_parses xs p t st s :
  Forall item_ok xs → separated xs → bytes (sh_mem s) p (fmt_items xs ++ [t]) → t = 0 ∨ t = 59 → (length (args xs) ≤ 7)%nat →
  let s' := set_sh_mem (poke p (erased xs) (sh_mem s)) s in
  parse_loop (S (size (sh_mem s))) p 0 (replicate 8 0) PS_WHITESPACE st s =
    Ret ((p + Z.of_nat (length (fmt_items xs)), Z.of_nat (length (args xs)), places p xs ++ replicate (8 - length (args xs)) 0, st), s') ∧
  sh_mem s' !! (p + Z.of_nat (length (fmt_items xs))) = Some t.
Proof.
  intros Hok Hsep Hb Ht Hn s'. pose proof (bytes_size _ _ _ Hb) as Hsz. rewrite length_app in Hsz. simpl in Hsz.
  pose proof Hb as [Hb1 [Hb2 _]]%bytes_app.
  assert (sh_mem s' !! (p + Z.of_nat (length (fmt_items xs))) = Some t) as Hend.
  { unfold s'. change (poke p (erased xs) (sh_mem s) !! (p + Z.of_nat (length (fmt_items xs))) = Some t).
    rewrite poke_out; [done|]. rewrite length_erased. lia. }
  split; [|done].
  destruct (items_parse xs p 0 (replicate 8 0) PS_WHITESPACE st s Hb1 Hok Hsep) as (n & Hnle & E); [by left|lia|lia|].
  replace (S (size (sh_mem s))) with (n + S (size (sh_mem s) - n))%nat by lia. rewrite E. fold s'.
  cbn [parse_loop]. erewrite run_bind by (by apply run_on_bytes_id, run_load8).
  pose proof (fill_spec [] (places p xs) 8) as Hfill. simpl length in Hfill. rewrite length_places in Hfill.
  cbn [app] in Hfill. rewrite Z.add_0_l. change (Z.of_nat 0) with 0 in Hfill. rewrite Hfill by lia.
  destruct Ht as [-> | ->]; [done|]. rewrite (proj2 (Z.ltb_lt _ _)) by (unfold MAX_ARGS_NUM; lia). cbn [Z.eqb negb andb].
  destruct (after_ends xs PS_WHITESPACE) as [-> | ->]; [by left|done|done].
Qed.

Lemma parse_args_run xs p t st s :
  Forall item_ok xs → separated xs → bytes (sh_mem s) p (fmt_items xs ++ [t]) → t = 0 ∨ t = 59 → (length (args xs) ≤ 7)%nat →
  let n := length (args xs) in
  parse_args p (replicate 8 0) st s =
    Ret ((Z.of_nat n, places p xs ++ replicate (8 - n) 0, p + Z.of_nat (length (fmt_items xs)) + (if t =? 59 then 1 else 0), st),
         set_sh_mem (poke p (erased xs ++ [0]) (sh_mem s)) s).
Proof.
  intros Hok Hsep Hb Ht Hn n. destruct (line_parses xs p t st s Hok Hsep Hb Ht Hn) as [Hrun Hend].
  set (e := p + Z.of_nat (length (fmt_items xs))) in *. set (s' := set_sh_mem _ s) in *.
  assert (aset (Z.of_nat n) 0 (places p xs ++ replicate (8 - n) 0) = places p xs ++ replicate (8 - n) 0) as Hnull.
  { apply aset_id. unfold aget. rewrite (proj2 (Z.leb_le _ _)), Nat2Z.id by lia.
    rewrite lookup_app_r, length_places by (rewrite length_places; unfold n; lia). apply lookup_replicate_2. unfold n. lia. }
  assert (poke p (erased xs ++ [0]) (sh_mem s) = <[e := 0]> (sh_mem s')) as -> by (unfold e; by rewrite poke_app, length_erased).
  unfold parse_args. erewrite run_bind by done. erewrite run_bind by exact Hrun. cbn beta iota.
  erewrite run_bind by (apply run_set_argv; lia). fold n. rewrite Hnull.
  erewrite run_bind by (apply run_on_bytes_id, run_load8; exact Hend).
  destruct Ht as [-> | ->]; cbn [Z.eqb Pos.eqb].
  - rewrite Z.add_0_r, insert_id by exact Hend. done.
  - erewrite run_bind by (apply run_on_bytes, run_store8; by eexists). done.
Qed.

Lemma before_word ys w : separated (ys ++ [Word w]) → after PS_WHITESPACE ys = PS_WHITESPACE.
Proof.
  unfold after. induction ys as [|y ys IH]; [done|]. intros Hsep.
  destruct ys as [|y' ys]; [by destruct y|]. change (last (y :: y' :: ys)) with (last (y' :: ys)).
  apply IH. by destruct y, y'.
Qed.

Lemma separated_init ys x : separated (ys ++ [x]) → separated ys.
Proof.
  induction ys as [|y ys IH]; [done|]. intros Hsep. destruct ys as [|y' ys]; [by destruct y|].
  assert (separated ((y' :: ys) ++ [x])) as Hs by (by destruct y, y'). specialize (IH Hs). by destruct y, y'.
Qed.

(** The eighth argument ends the loop. *)
Lemma eighth_argument ys x p t st s :
  Forall item_ok (ys ++ [x]) → separated (ys ++ [x]) → bytes (sh_mem s) p (fmt_items (ys ++ [x]) ++ [t]) →
  length (args ys) = 7%nat → length (arg_item x) = 1%nat →
  ∃ argstr argv s', parse_loop (S (size (sh_mem s))) p 0 (replicate 8 0) PS_WHITESPACE st s = Ret ((argstr, 8, argv, st), s').
Proof.
  intros [Hok [Hx _]%Forall_cons]%Forall_app Hsep Hb Hn Hx1.
  pose proof (bytes_size _ _ _ Hb) as Hsz. unfold fmt_items in Hb, Hsz. rewrite bind_app in Hb, Hsz. fold (fmt_items ys) in Hb, Hsz.
  cbn [mbind list_bind] in Hb, Hsz. rewrite app_nil_r in Hb, Hsz. rewrite <- app_assoc in Hb. rewrite !length_app in Hsz. cbn [length] in Hsz.
  apply bytes_app in Hb as [Hb1 Hb2].
  destruct (items_parse ys p 0 (replicate 8 0) PS_WHITESPACE st s Hb1 Hok (separated_init _ _ Hsep)) as (n & Hnle & E); [by left|lia|lia|].
  rewrite Hn in E. set (p1 := p + Z.of_nat (length (fmt_items ys))) in *. set (s1 := set_sh_mem _ s) in *.
  assert (bytes (sh_mem s1) p1 (fmt_item x ++ [t])) as Hb3.
  { apply poke_bytes_ne; [done|]. rewrite length_erased. unfold apart. lia. }
  destruct x as [c|[|c w]|[|c q]]; try done; [by destruct Hx| |by destruct Hx|].
  - cbn [fmt_item] in *. destruct Hx as [_ Hw]. apply Forall_cons in Hw as [Hp _].
    pose proof (plain_eqb c Hp) as (E1 & E2 & E3 & E4 & E5). rewrite (before_word _ _ Hsep) in E.
    destruct Hb3 as [Hc Hb3]. assert (∃ c', sh_mem s1 !! (p1 + 1) = Some c') as [c' Hc'] by (destruct w; destruct Hb3; by eexists).
    replace (S (size (sh_mem s))) with (n + S (S (size (sh_mem s) - n - 1)))%nat by (cbn [length] in Hsz; lia). rewrite E.
    erewrite parse_turn; [|exact Hc|destruct Hp as [[]]; lia|done|by apply plain_ends|].
    2:{ unfold parse_char. rewrite E1, E2, E3, E4. cbn [orb]. by erewrite run_bind by (apply run_set_argv; lia). }
    cbn [parse_loop]. erewrite run_bind by (by apply run_on_bytes_id, run_load8).
    change (0 + Z.of_nat 7 + 1 <? MAX_ARGS_NUM) with false. rewrite andb_false_r. by do 3 eexists.
  - cbn [fmt_item app] in *. destruct Hb3 as [H34 [_ Hb3]].
    assert (∃ c', sh_mem s1 !! (p1 + 1 + 1) = Some c') as [c' Hc'] by (destruct q; destruct Hb3; by eexists).
    replace (S (size (sh_mem s))) with (n + S (S (size (sh_mem s) - n - 1)))%nat by (cbn [length] in Hsz; lia). rewrite E.
    rewrite quote_turn; [|done|apply after_ends; by left|lia].
    cbn [parse_loop]. erewrite run_bind.
    2:{ apply run_on_bytes_id, (run_load8 _ _ c').
        change (<[p1 := 0]> (sh_mem s1) !! (p1 + 1 + 1) = Some c'). by rewrite lookup_insert_ne by lia. }
    change (0 + Z.of_nat 7 + 1 <? MAX_ARGS_NUM) with false. rewrite andb_false_r. by do 3 eexists.
Qed.
End parser.

(** Parsing a line of words, texts in quotes and blanks, up to its end or a
    semicolon: [argc] counts the words and texts, [argv] has the addresses at
    which they then stand as strings, in order, and NULs behind them, [resid] is
    where the next command begins, and nothing outside of the line changes.
    This is for up to seven arguments; an eighth makes the NUL that ends [argv]
    go past the array. *)
Theorem parse_args_correct `{!ShellLayout} (xs : list item) (p t : Z) (stacked : parse_state) (s : shell) :
  Forall item_ok xs → separated xs → bytes (sh_mem s) p (fmt_items xs ++ [t]) → t = 0 ∨ t = 59 →
  let n := length (args xs) in
  let m' := poke p (erased xs ++ [0]) (sh_mem s) in
  ((n ≤ 7)%nat →
     parse_args p (replicate 8 0) stacked s =
       Ret ((Z.of_nat n, places p xs ++ replicate (8 - n) 0, p + Z.of_nat (length (fmt_items xs)) + (if t =? 59 then 1 else 0), stacked),
            set_sh_mem m' s) ∧
     (∀ i a q, args xs !! i = Some a → places p xs !! i = Some q → cstr m' q a) ∧
     (∀ k, ¬ (p ≤ k ≤ p + Z.of_nat (length (fmt_items xs))) → m' !! k = sh_mem s !! k)) ∧
  (∀ ys x, xs = ys ++ [x] → length (args ys) = 7%nat → length (arg_item x) = 1%nat →
     parse_args p (replicate 8 0) stacked s = Err Wild).
Proof.
  intros Hok Hsep Hb Ht n m'. split.
  - intros Hn. split_and!.
    + by apply parse_args_run.
    + apply args_strings; [done|done|apply poke_bytes].
    + intros k Hk. apply poke_out. rewrite length_app, length_erased. simpl. lia.
  - intros ys x -> Hn Hx. destruct (eighth_argument ys x p t stacked s Hok Hsep Hb Hn Hx) as (argstr & argv & s' & Hrun).
    unfold parse_args. erewrite run_bind by done. by erewrite run_bind by exact Hrun.
Qed.

(** ** Commands *)
Section commands.
Context `{!ShellLayout, !ShellLaid, !Critical shell, !ShellCritical}.
Implicit Types (s : shell) (l name : list Z) (m : bytemem).

(** The commands of the queue in order, with their names. *)
Record registered (cs : list (list Z * acoral_ash_cmd)) (s : shell) : Prop := {
  rg_queue : ∃ (ids : list nat) L, qrep (sh_cmdq s) L ∧ L !! CmdQueue = Some (CmdNode <$> ids) ∧
    Forall2 (λ i c, sh_cmds s !! i = Some c.2) ids cs;
  rg_names : Forall (λ c, cstr (sh_mem s) (cmd_name c.2) c.1 ∧ cmd_name c.2 ≠ 0 ∧ Z.of_nat (length c.1) < 2 ^ 31) cs;
}.

Definition lookup_cmd (name : list Z) (cs : list (list Z * acoral_ash_cmd)) : option acoral_ash_cmd :=
  snd <$> find (λ c, bool_decide (c.1 = name)) cs.

Lemma run_cmd_next s x n : q_nodes (sh_cmdq s) !! x = Some n → cmd_next x s = Ret (next n, s).
Proof.
  intros Hn. unfold cmd_next, on_cmdq. erewrite run_zoom; [|unfold on_nodes; erewrite run_zoom by (by apply run_get_next); done].
  by destruct s as [???????????[]?].
Qed.

Lemma find_loop_run pre ids cs fuel junk tmp p name s L :
  qrep (sh_cmdq s) L → L !! CmdQueue = Some (CmdNode <$> (pre ++ ids)) →
  Forall2 (λ i c, sh_cmds s !! i = Some c.2) ids cs →
  Forall (λ c, cstr (sh_mem s) (cmd_name c.2) c.1 ∧ cmd_name c.2 ≠ 0 ∧ Z.of_nat (length c.1) < 2 ^ 31) cs →
  cstr (sh_mem s) p name → p ≠ 0 → name ≠ [] → Z.of_nat (length name) < 2 ^ 31 →
  head ((CmdNode <$> ids) ++ [CmdQueue]) = Some tmp → (length ids ≤ fuel)%nat →
  find_loop fuel junk tmp p s = Ret (lookup_cmd name cs, s).
Proof.
  intros HR Hq Hids. revert pre fuel tmp Hq. induction Hids as [|i [cname c] ids cs Hi Hids IH];
    intros pre fuel tmp Hq Hcs Hname Hp Hne Hlen Htmp Hf.
  { injection Htmp as <-. by destruct fuel. }
  injection Htmp as <-. apply Forall_cons in Hcs as [(Hcn & Hc0 & Hcl) Hcs]. simpl in Hi, Hcn, Hc0, Hcl, Hf.
  destruct fuel as [|fuel]; [lia|]. cbn [find_loop]. rewrite bool_decide_eq_false_2 by done.
  erewrite run_bind by (apply run_deref; exact Hi).
  destruct (str_cmp_spec (sh_mem s) (cmd_name c) p cname name junk) as (r & Hrun & _ & Hr); [done..|].
  erewrite run_bind by (by apply run_on_bytes_id). unfold lookup_cmd. cbn [find fst].
  destruct (Z.eqb_spec r 0) as [Hz|Hz].
  - rewrite bool_decide_eq_true_2 by (apply Hr; auto). done.
  - rewrite bool_decide_eq_false_2 by (intros ->; apply Hz, Hr; auto).
    rewrite fmap_app, fmap_cons in Hq.
    destruct (ring_step (q_nodes (sh_cmdq s)) L CmdQueue _ _ _ (qrep_nodes _ _ HR) Hq) as (n & nx & Hn & Hnx & Hhd & _ & _).
    erewrite run_bind by (by apply run_cmd_next). rewrite Hnx.
    apply (IH (pre ++ [i])); try done; [|lia]. by rewrite <- app_assoc, fmap_app.
Qed.

Lemma find_cmd_run cs junk p name s : registered cs s →
  cstr (sh_mem s) p name → p ≠ 0 → name ≠ [] → Z.of_nat (length name) < 2 ^ 31 →
  find_cmd junk p s = Ret (lookup_cmd name cs, s).
Proof.
  intros [(ids & L & HR & Hq & Hids) Hcs] Hname Hp Hne Hlen. unfold find_cmd.
  erewrite run_bind.
  2:{ unfold on_cmdq. erewrite run_zoom; [|unfold on_nodes; erewrite run_zoom by (eapply list_empty_run; [apply HR|exact Hq]); done].
      replace (set_sh_cmdq _ s) with s by (by destruct s as [???????????[]?]). done. }
  destruct ids as [|i ids].
  { inversion Hids; subst. done. }
  rewrite bool_decide_eq_false_2 by done.
  destruct (ring_first _ _ _ _ (qrep_nodes _ _ HR) Hq) as (n & nx & Hn & Hnx & Hhd).
  erewrite run_bind by (by apply run_cmd_next). rewrite Hnx. erewrite run_bind by done.
  eapply (find_loop_run [] (i :: ids)); try done.
  pose proof (ring_size _ _ _ _ (qrep_nodes _ _ HR) Hq) as Hsz. rewrite length_fmap in Hsz. unfold queue_turns. lia.
Qed.

(** What the user reads of a command that there is not. *)
Definition unknown_command (name : list Z) : list Z :=
  txt "Could not found '" ++ name ++ txt "' command" ++ [13; 10] ++ advice_string.

(** What a command does: nothing without a name, the function of the first one
    registered under its name with its arguments, or the message. *)
Definition command_does (exe : Z → Z → list Z → M shell unit) cs (p : Z) (xs : list item) (s1 s2 : shell) : Prop :=
  match args xs with
  | [] => s2 = s1
  | name :: _ =>
      let n := length (args xs) in
      match lookup_cmd name cs with
      | Some c => exe (cmd_exe c) (Z.of_nat n) (places p xs ++ replicate (8 - n) 0) s1 = Ret (tt, s2)
      | None => s2 = say (unknown_command name) s1
      end
  end.

Definition command_ok (xs : list item) : Prop :=
  Forall item_ok xs ∧ separated xs ∧ (length (args xs) ≤ 7)%nat ∧ Forall (λ a, Z.of_nat (length a) ≤ 32767) (args xs).

Lemma print_unknown name p s : cstr (sh_mem s) p name → p ≠ 0 → Z.of_nat (length name) ≤ 32767 →
  printer_ready s → has_literals (sh_mem s) →
  (acoral_prints (txt "Could not found '%s' command" ++ [13; 10]) [p];; acoral_prints (txt "you can type 'help'" ++ [13; 10]) []) s =
  Ret (tt, say (unknown_command name) s).
Proof.
  intros Hname Hp Hlen Hr Hl.
  set (xs := (Literal <$> txt "Could not found '") ++ [Convert false [] None (Text p name)] ++ (Literal <$> txt "' command" ++ [13; 10])).
  assert (fmt xs = unknown_string ∧ words xs = [p]) as [Hf Hw] by (split; vm_compute; reflexivity).
  assert (render xs = txt "Could not found '" ++ name ++ txt "' command" ++ [13; 10]) as Hrd.
  { unfold render, xs. rewrite !bind_app. cbn [mbind list_bind]. rewrite render_string, app_nil_r by done. done. }
  pose proof (prints_run xs unknown_string s) as Hrun. rewrite Hw, Hrd in Hrun.
  erewrite run_bind.
  2:{ apply Hrun; [by rewrite Hf|done|done|by apply (lit_in 9)|]. unfold xs. apply Forall_app. split; [by repeat constructor|].
      apply Forall_cons. split; [by apply string_ok|]. by repeat constructor. }
  rewrite (prints_literal 10) by done. rewrite say_say. unfold unknown_command. by rewrite <- !app_assoc.
Qed.

Lemma real_cmd_exec_run exe cs junk p xs name s1 s2 :
  registered cs s1 → printer_ready s1 → has_literals (sh_mem s1) → 0 < p → command_ok xs → head (args xs) = Some name →
  (∀ i a q, args xs !! i = Some a → places p xs !! i = Some q → cstr (sh_mem s1) q a) →
  command_does exe cs p xs s1 s2 →
  real_cmd_exec exe junk (Z.of_nat (length (args xs))) (places p xs ++ replicate (8 - length (args xs)) 0) s1 = Ret (tt, s2).
Proof.
  intros Hreg Hr Hl Hp (Hok & Hsep & Hn & Hlens) Hname Hstr Hdo.
  pose proof (length_places p xs) as Hpl. unfold command_does in Hdo. destruct (args xs) as [|a rest] eqn:Ea; [done|].
  injection Hname as ->. destruct (places p xs) as [|q qs] eqn:Eq; [done|].
  assert (cstr (sh_mem s1) q name) as Hq by (by apply (Hstr 0%nat)).
  assert (0 < q) as Hq0.
  { assert (Forall (λ q, p ≤ q) (places p xs)) as Hge; [|rewrite Eq in Hge; apply Forall_cons in Hge as [? _]; lia].
    clear. revert p. induction xs as [|x xs IH]; intros p; [done|]. cbn [places]. apply Forall_app. split.
    - destruct x; repeat constructor; lia.
    - eapply Forall_impl; [apply IH|]. simpl. lia. }
  assert (name ≠ []) as Hne.
  { assert (Forall (λ a, a ≠ []) (args xs)) as Hnes; [|rewrite Ea in Hnes; by apply Forall_cons in Hnes as [? _]].
    clear - Hok. induction Hok as [|x xs Hx Hok IH]; [done|]. unfold args. cbn [mbind list_bind]. apply Forall_app. split; [|done].
    destruct x; repeat constructor; by destruct Hx. }
  apply Forall_cons in Hlens as [Hlen _].
  unfold real_cmd_exec. erewrite run_bind by (by apply run_deref).
  erewrite run_bind by (apply (find_cmd_run cs); [done|done|lia|done|lia]).
  destruct (lookup_cmd name cs) as [c|]; [exact Hdo|]. rewrite Hdo. apply print_unknown; [done|lia|done|done|done].
Qed.

(** ** A line of commands *)
Fixpoint line_text (xss : list (list item)) : list Z :=
  match xss with
  | [] => [0]
  | [xs] => fmt_items xs ++ [0]
  | xs :: xss => fmt_items xs ++ 59 :: line_text xss
  end.

(** What a line means: its commands run one after the other, each on the memory
    in which its arguments stand as strings.  A command may change memory, but
    not the rest of the line, nor the commands that are registered. *)
Inductive runs (exe : Z → Z → list Z → M shell unit) (cs : list (list Z * acoral_ash_cmd)) : list (list item) → Z → shell → shell → Prop :=
  | runs_end p s : runs exe cs [] p s s
  | runs_command xs xss p s s2 s3 :
      let s1 := set_sh_mem (poke p (erased xs ++ [0]) (sh_mem s)) s in
      let resid := p + Z.of_nat (length (fmt_items xs)) + (if decide (xss = []) then 0 else 1) in
      bytes (sh_mem s) p (line_text (xs :: xss)) → command_ok xs →
      registered cs s1 → printer_ready s1 → has_literals (sh_mem s1) →
      command_does exe cs p xs s1 s2 →
      bytes (sh_mem s2) resid (line_text xss) →
      runs exe cs xss resid s2 s3 →
      runs exe cs (xs :: xss) p s s3.

Lemma exe_loop_command exe cs xs xss p fuel junk st s s2 :
  let s1 := set_sh_mem (poke p (erased xs ++ [0]) (sh_mem s)) s in
  let resid := p + Z.of_nat (length (fmt_items xs)) + (if decide (xss = []) then 0 else 1) in
  0 < p → xs ≠ [] ∨ xss ≠ [] → bytes (sh_mem s) p (line_text (xs :: xss)) → command_ok xs →
  registered cs s1 → printer_ready s1 → has_literals (sh_mem s1) → command_does exe cs p xs s1 s2 →
  exe_loop exe (S fuel) junk p st s = exe_loop exe fuel junk resid st s2.
Proof.
  intros s1 resid Hp Hne Hb Hcmd Hreg Hr Hl Hdo. pose proof Hcmd as (Hok & Hsep & Hn & _).
  set (t := if decide (xss = []) then 0 else 59).
  assert (bytes (sh_mem s) p (fmt_items xs ++ [t])) as Hbt.
  { unfold t. destruct xss as [|xs' xss]; [done|]. change (line_text _) with (fmt_items xs ++ 59 :: line_text (xs' :: xss)) in Hb.
    rewrite cons_middle, app_assoc in Hb. by apply bytes_app in Hb as [? _]. }
  assert (t = 0 ∨ t = 59) as Ht by (unfold t; case_decide; auto).
  assert (∃ c, sh_mem s !! p = Some c ∧ c ≠ 0) as (c & Hc & Hc0).
  { destruct xs as [|x xs].
    - destruct Hne as [?|Hne]; [done|]. exists 59. split; [|done]. unfold t in Hbt. rewrite decide_False in Hbt by done. by destruct Hbt.
    - apply Forall_cons in Hok as [Hx _]. destruct x as [c|[|c w]|q]; cbn in Hbt.
      + exists c. split; [by destruct Hbt|destruct Hx as [-> | ->]; done].
      + by destruct Hx.
      + exists c. split; [by destruct Hbt|]. destruct Hx as [_ Hw]. apply Forall_cons in Hw as [[Hc _] _]. unfold char_ok in Hc. lia.
      + exists 34. by destruct Hbt. }
  cbn [exe_loop]. erewrite run_bind by (by apply run_on_bytes_id, run_load8). rewrite (proj2 (Z.eqb_neq c 0)) by done.
  erewrite run_bind by (by apply parse_args_run). cbn beta iota. fold s1.
  assert (when (0 <? Z.of_nat (length (args xs)))
    (real_cmd_exec exe junk (Z.of_nat (length (args xs))) (places p xs ++ replicate (8 - length (args xs)) 0)) s1 = Ret (tt, s2)) as Hwhen.
  { destruct (args xs) as [|name rest] eqn:Ea.
    - unfold command_does in Hdo. rewrite Ea in Hdo. by subst s2.
    - rewrite (proj2 (Z.ltb_lt _ _)) by (simpl; lia). cbn [when]. rewrite <- Ea.
      apply (real_cmd_exec_run _ cs _ _ _ name); [done|done|done|done|done|by rewrite Ea| |done].
      apply args_strings; [done|done|apply poke_bytes]. }
  erewrite run_bind by exact Hwhen. f_equal. unfold resid, t. by case_decide.
Qed.

Lemma runs_exe_loop exe cs xss p s s3 : runs exe cs xss p s s3 → 0 < p → bytes (sh_mem s) p (line_text xss) →
  ∀ fuel junk st, (length xss ≤ fuel)%nat → exe_loop exe fuel junk p st s = Ret (tt, s3).
Proof.
  assert (∀ fuel junk st q s, sh_mem s !! q = Some 0 → exe_loop exe fuel junk q st s = Ret (tt, s)) as Hend.
  { intros fuel junk st q t Hq. destruct fuel; cbn [exe_loop]; by erewrite run_bind by (by apply run_on_bytes_id, run_load8). }
  induction 1 as [p s|xs xss p s s2 s3 s1 resid Hb Hcmd Hreg Hr Hl Hdo Hb2 Hruns IH]; intros Hp Hline fuel junk st Hf.
  - apply Hend. by destruct Hline.
  - destruct (decide (xs = [] ∧ xss = [])) as [[-> ->]|Hne].
    + assert (s3 = s) as ->.
      { assert (s2 = s1) as -> by exact Hdo. assert (s1 = s) as Hs1; [|inversion Hruns; congruence].
        unfold s1. cbn. destruct Hline as [Hz _]. rewrite insert_id by done. by destruct s as [??????????[]??]. }
      apply Hend. by destruct Hline.
    + destruct fuel as [|fuel]; [simpl in Hf; lia|].
      rewrite (exe_loop_command exe cs xs xss _ _ _ _ _ s2); try done.
      * apply IH; [unfold resid; case_decide; lia|done|simpl in Hf; lia].
      * destruct (decide (xs = [])); [right; intros ->; by apply Hne|by left].
Qed.

Lemma line_text_length xss : (length xss ≤ length (line_text xss))%nat.
Proof.
  induction xss as [|xs [|xs' xss] IH]; [simpl; lia|simpl; rewrite length_app; simpl; lia|].
  change (line_text _) with (fmt_items xs ++ 59 :: line_text (xs' :: xss)). rewrite length_app. simpl length in *. lia.
Qed.
End commands.

(** C15 Running a line: [acoral_ash_cmd_exe] ends, and does what the line means -
    its commands, parted by semicolons, one after the other.  Each is the
    function of the first command registered under the name that the line gives,
    called with [argc] and [argv], or the message that there is none; what
    [stacked_state] holds before the first does not matter. *)
Theorem line_executes `{!ShellLayout, !ShellLaid, !Critical shell, !ShellCritical}
    (exe : Z → Z → list Z → M shell unit) (cs : list (list Z * acoral_ash_cmd)) (xss : list (list item)) (p : Z) (s s' : shell) :
  0 < p → bytes (sh_mem s) p (line_text xss) → runs exe cs xss p s s' →
  ∀ junk stacked, acoral_ash_cmd_exe exe junk stacked p s = Ret (tt, s').
Proof.
  intros Hp Hb Hruns junk stacked. unfold acoral_ash_cmd_exe. erewrite run_bind by done.
  apply (runs_exe_loop exe cs xss); [done|done|done|]. pose proof (bytes_size _ _ _ Hb). pose proof (line_text_length xss). lia.
Qed.

(** ** A line on the desk *)
Module Line.
Import Desk.

(** A command "hi", whose function prints its number of arguments. *)
Definition hi_exe (f argc : Z) (argv : list Z) : M shell unit := zoom printer_of (outbyte (48 + argc)).

Definition nodes : qstate cmd_loc :=
  mk_q (<[CmdNode 0 := mk_list (CmdNode 0) (CmdNode 0) 0 0]> (<[CmdQueue := mk_list CmdQueue CmdQueue 0 0]> ∅)) (<[CmdQueue := 0]> ∅).
Definition hi_queue : qstate cmd_loc :=
  match acoral_fifo_queue_add CmdQueue (CmdNode 0) nodes with Ret (_, q) => q | Err _ => nodes end.

Lemma hi_queue_rep : ∃ L, qrep hi_queue L ∧ L !! CmdQueue = Some [CmdNode 0].
Proof.
  assert (qrep nodes (<[CmdNode 0 := []]> (<[CmdQueue := []]> ∅))) as HR.
  { split.
    - apply rep_init; [apply rep_init; [apply rep_empty|intros q xs Hq; by rewrite lookup_empty in Hq|by left]| |by left].
      intros q xs [[<- <-]|[_ Hq]]%lookup_insert_Some _; [by apply not_elem_of_nil|by rewrite lookup_empty in Hq].
    - intros q k Hq. simpl in Hq. apply lookup_insert_Some in Hq as [[<- <-]|[_ Hq]]; [done|by rewrite lookup_empty in Hq]. }
  destruct (fifo_add_rep nodes _ CmdQueue (CmdNode 0) [] HR) as (s' & Hrun & HR' & _); [by eexists|done..|].
  unfold hi_queue. rewrite Hrun. eexists. split; [exact HR'|]. done.
Qed.

(** The line [hi "a b";no]. *)
Definition hi_line : list (list item) := [[Word (txt "hi"); Blank 32; Quoted [97; 32; 98]]; [Word (txt "no")]].

Definition hi_shell : shell :=
  set_sh_cmds [mk_cmd 3000 7 0] (set_sh_cmdq hi_queue
    (set_sh_mem (poke 3000 (txt "hi" ++ [0]) (poke 100 (line_text hi_line) desk_mem)) desk)).

Lemma hi_registered (s : shell) : sh_cmdq s = hi_queue → sh_cmds s = [mk_cmd 3000 7 0] →
  bytesb (sh_mem s) 3000 (txt "hi" ++ [0]) = true → registered [(txt "hi", mk_cmd 3000 7 0)] s.
Proof.
  intros Hq Hc Hm. destruct hi_queue_rep as (L & HR & HL). split.
  - exists [0%nat], L. rewrite Hq, Hc. split; [exact HR|]. split; [exact HL|]. by repeat constructor.
  - apply Forall_singleton. split; [|split; [done|simpl; lia]]. split; [by repeat constructor|]. by apply bytesb_ok.
Qed.

Lemma bytesb_literals m : forallb (λ l, bytesb m (lit l) (l ++ [0])) shell_literals = true → has_literals m.
Proof.
  intros Hm l Hin. apply bytesb_ok. rewrite forallb_forall in Hm. apply Hm. by apply list_elem_of_In.
Qed.

Lemma hi_ok : Forall command_ok hi_line.
Proof.
  assert (∀ w, forallb (λ c, (0 <? c) && (c <? 256) && bool_decide (c ∉ [32; 9; 34; 92; 59])) w = true → Forall plain w) as Hplain.
  { induction w as [|c w IH]; [done|]. simpl. intros [[[?%Z.ltb_lt ?%Z.ltb_lt]%andb_true_iff Hc%bool_decide_eq_true_1]%andb_true_iff Hw]%andb_true_iff.
    constructor; [by split|by apply IH]. }
  repeat (apply Forall_cons; split); [| |done].
  all: split_and!; [|done|simpl; lia|repeat constructor; simpl; lia].
  - repeat (apply Forall_cons; split); [split; [done|by apply Hplain]|by left|split; [done|]|done].
    unfold char_ok. repeat constructor; lia.
  - apply Forall_singleton. split; [done|by apply Hplain].
Qed.

(** The first command: the arguments are at 100 and 104, the next command at 109. *)
Lemma parse_args_correct_witness : ∃ m, parse_args 100 (replicate 8 0) PS_TOKEN hi_shell =
    Ret ((2, [100; 104; 0; 0; 0; 0; 0; 0], 109, PS_TOKEN), set_sh_mem m hi_shell) ∧ cstr m 104 [97; 32; 98].
Proof.
  pose proof hi_ok as Hok. apply Forall_cons in Hok as [(Hok & Hsep & _) _].
  destruct (parse_args_correct [Word (txt "hi"); Blank 32; Quoted [97; 32; 98]] 100 59 PS_TOKEN hi_shell Hok Hsep) as [Hrun _].
  - by apply bytesb_ok; vm_compute.
  - by right.
  - destruct Hrun as (Hrun & Hstr & _); [simpl; lia|]. eexists. split; [exact Hrun|]. by apply (Hstr 1%nat).
Defined.

(** It prints "2", and then that there is no "no". *)
Lemma line_executes_witness : ∃ s', acoral_ash_cmd_exe hi_exe 0 PS_TOKEN 100 hi_shell = Ret (tt, s') ∧
  p_out (sh_printer s') = 50 :: unknown_command (txt "no").
Proof.
  eexists. split.
  - apply (line_executes hi_exe [(txt "hi", mk_cmd 3000 7 0)] hi_line).
    + done.
    + by apply bytesb_ok; vm_compute.
    + pose proof hi_ok as Hok. apply Forall_cons in Hok as [Hok1 [Hok2 _]%Forall_cons].
      eapply runs_command; [by apply bytesb_ok; vm_compute|exact Hok1|by apply hi_registered; [| |vm_compute]|done|
        by apply bytesb_literals; vm_compute|reflexivity|by apply bytesb_ok; vm_compute|].
      eapply runs_command; [by apply bytesb_ok; vm_compute|exact Hok2|by apply hi_registered; [| |vm_compute]|done|
        by apply bytesb_literals; vm_compute|reflexivity|by apply bytesb_ok; vm_compute|].
      apply runs_end.
  - vm_compute. reflexivity.
Defined.
End Line.
