(* ===== verification/ShellFs.v ===== *)
(** * The shell's commands on directories: ls and cd of cmd.c

    The file system is the interface [FileSystem]: [f_opendir] on the address of
    a path, [f_readdir] with the address of the name it read.  [path], 80 bytes
    of the stack, is at [ash_path].  The number of turns of a loop that a file
    system or a user decides on is an argument.  At the end are runs of [cd] on a
    concrete memory. *)
From S2P Require Import Prelude Interfaces DList Queues Str StrSpec Print Shell ShellSpec.
From stdpp Require Import list strings.
#[local] Open Scope Z_scope.

Class FileSystem : Type := {
  f_opendir : Z → M shell Z;
  f_readdir : M shell (Z * Z);
  f_closedir : M shell unit;
}.

Section directories.
Context `{!ShellLayout, !Critical shell, !FileSystem}.
Context (acoral_vol_malloc : Z → M shell Z) (acoral_vol_free : Z → M shell unit).
Context (turns : nat) (junk : Z).

Definition FR_OK : Z := 0.
Definition arg (argv : list Z) (i : Z) : M shell Z := deref (λ _, aget argv i).

(** [path] with its initialiser. *)
Definition path_init : M shell unit := on_bytes (acoral_memset ash_path 0 ASH_CMD_SIZE);; mret tt.

(** The loop over the entries. *)
Fixpoint ls_loop (fuel : nat) : M shell unit :=
  '(res, fname) ← f_readdir;
  c ← (if res =? FR_OK then on_bytes (load8 fname) else mret 1);
  if negb (res =? FR_OK) || (c =? 0) then acoral_prints [13; 10] [] else
  acoral_prints (txt "%s   ") [fname];;
  match fuel with O => fail Diverge | S fuel => ls_loop fuel end.

(** A slash at the end of the argument goes; the result is its last place. *)
Definition drop_slash (a : Z) : M shell Z :=
  n ← on_bytes (acoral_str_chr a 0);
  let pos_last := s32 (n - 2) in
  c ← on_bytes (load8 (a + pos_last));
  when (c =? 47) (on_bytes (store8 (a + pos_last) 0));;
  mret pos_last.

Definition ls_dir (argc : Z) (argv : list Z) : M shell unit :=
  path_init;;
  cur ← get cur_dir;
  on_bytes (acoral_str_cpy ash_path cur);;
  when (argc =? 2)
    (a ← arg argv 1;
     drop_slash a;;
     on_bytes (acoral_str_cat ash_path a);;
     mret tt);;
  res ← f_opendir ash_path;
  when (res =? FR_OK) (ls_loop turns;; f_closedir).

(** ".." on [path]: the last part goes. *)
Definition path_up : M shell unit :=
  n ← on_bytes (acoral_str_rchr ash_path 47);
  let pos_2 := s32 (n - 1) in
  e ← on_bytes (acoral_str_chr ash_path 0);
  let pos_last := s32 (e - 2) in
  when (0 <=? pos_2)
    (for_up (Z.to_nat (pos_last - pos_2 + 1)) pos_2 (λ i, on_bytes (store8 (ash_path + i) 0))).

(** A part of the path is added, with a slash before it. *)
Definition path_down (name : Z) : M shell unit :=
  on_bytes (acoral_str_cat ash_path (lit (txt "/")));;
  on_bytes (acoral_str_cat ash_path name);;
  mret tt.

(** An empty path is the root. *)
Definition path_root : M shell unit :=
  c ← on_bytes (load8 ash_path);
  when (c =? 0) (on_bytes (store8 ash_path 47)).

(** The new directory is [path], unless it is the old one. *)
Definition cd_to_path : M shell unit :=
  cur ← get cur_dir;
  r ← on_bytes (acoral_str_cmp junk cur ash_path);
  when (negb (r =? 0))
    (on_bytes (acoral_str_cpy cur ash_path);;
     modify (set_dir_change 1)).

(** The part of the argument up to its first slash. *)
Definition cd_part (a pos_1 : Z) : M shell unit :=
  tmp ← acoral_vol_malloc pos_1;
  on_bytes (acoral_str_ncpy tmp a pos_1);;
  up ← on_bytes (acoral_str_cmp junk tmp (lit (txt "..")));
  (if up =? 0 then path_up
   else
     here ← on_bytes (acoral_str_cmp junk tmp (lit (txt ".")));
     when (negb (here =? 0)) (path_down tmp));;
  res ← f_opendir ash_path;
  if res =? FR_OK then
    on_bytes (acoral_str_cpy a (a + pos_1));;
    on_bytes (acoral_memset tmp 0 pos_1);;
    acoral_vol_free tmp;;
    f_closedir
  else acoral_prints (txt "Wrong directory!" ++ [13; 10]) [].

(** The last part of the argument. *)
Definition cd_last (a : Z) : M shell unit :=
  up ← on_bytes (acoral_str_cmp junk a (lit (txt "..")));
  (if up =? 0 then path_up;; path_root
   else
     here ← on_bytes (acoral_str_cmp junk a (lit (txt ".")));
     if here =? 0 then path_root else path_down a);;
  res ← f_opendir ash_path;
  if res =? FR_OK then cd_to_path;; f_closedir
  else acoral_prints (txt "Wrong directory!" ++ [13; 10]) [].

Fixpoint cd_loop (fuel : nat) (a : Z) : M shell unit :=
  c ← on_bytes (load8 a);
  when (c =? 47) (on_bytes (acoral_str_cpy a (a + 1));; mret tt);;
  n ← on_bytes (acoral_str_chr a 47);
  let pos_1 := s32 (n - 1) in
  if 0 <=? pos_1 then
    cd_part a pos_1;;
    match fuel with O => fail Diverge | S fuel => cd_loop fuel a end
  else cd_last a.

Definition cd_dir (argc : Z) (argv : list Z) : M shell unit :=
  path_init;;
  if argc =? 2 then
    cur ← get cur_dir;
    r ← on_bytes (acoral_str_cmp junk cur (lit (txt "/")));
    when (negb (r =? 0)) (on_bytes (acoral_str_cpy ash_path cur);; mret tt);;
    a ← arg argv 1;
    drop_slash a;;
    cd_loop turns a
  else when (argc =? 1)
    (on_bytes (acoral_str_cpy ash_path (lit (txt "/")));;
     cur ← get cur_dir;
     r ← on_bytes (acoral_str_cmp junk ash_path cur);
     when (negb (r =? 0))
       (on_bytes (acoral_str_cpy cur ash_path);;
        modify (set_dir_change 1))).

(** [cmd->exe] of the commands that [ash_cmd_init] registers; other functions
    are an argument. *)
Definition ash_exe (others : Z → Z → list Z → M shell unit) (f argc : Z) (argv : list Z) : M shell unit :=
  if f =? adr_ls then ls_dir argc argv
  else if f =? adr_cd then cd_dir argc argv
  else if f =? adr_help then help argc argv
  else others f argc argv.
End directories.

(** ** Runs of cd *)
Module Runs.
Import Desk.

(** Every directory can be opened, or none; a directory has no entries. *)
Definition open_all : FileSystem := {| f_opendir _ := mret 0; f_readdir := mret (0, 3900); f_closedir := mret tt |}.
Definition open_none : FileSystem := {| f_opendir _ := mret 4; f_readdir := mret (4, 3900); f_closedir := mret tt |}.

(** The literals of cd in memory; behind each is no object. *)
#[local] Instance cd_layout : ShellLayout := {
  ash_line := 100; ash_history := 200; ash_input := 700; ash_prompt := 800; ash_path := 900;
  lit l := if decide (l = txt "/") then 5000 else if decide (l = txt "..") then 5010
           else if decide (l = txt ".") then 5020 else 5030;
  adr_ls := 1; adr_cd := 2; adr_help := 3;
}.

(** A shell in the directory [dir], which stands at 6000 with [room] bytes for
    it, and the argument at 7000; the root is the literal. *)
Definition cd_shell (dir : list Z) (room : nat) (a : list Z) : shell :=
  let m := poke 5000 (txt "/" ++ [0]) (poke 5010 (txt ".." ++ [0]) (poke 5020 (txt "." ++ [0])
             (poke 5030 (txt "Wrong directory!" ++ [13; 10; 0])
               (poke 6000 (dir ++ replicate (room - length dir) 0) (poke 7000 (a ++ [0]) (poke 900 (replicate 80 0) ∅)))))) in
  set_cur_dir (if decide (room = 0%nat) then 5000 else 6000) (set_sh_printer (mk_pstate m [] 1 0) desk).

Definition cd_run (fs : FileSystem) (n : nat) (s : shell) : outcome (unit * shell) :=
  @cd_dir _ _ fs (λ _, mret 7100) (λ _, mret tt) n 0 2 [0; 7000; 0; 0; 0; 0; 0; 0] s.

(** With room for the path in [cur_dir], cd goes down and up. *)
Lemma cd_moves :
  (∃ s', cd_run open_all 5 (cd_shell (txt "/a") 20 (txt "b")) = Ret (tt, s') ∧
     bytesb (sh_mem s') 6000 (txt "/a/b" ++ [0]) = true ∧ dir_change s' = 1) ∧
  (∃ s', cd_run open_all 5 (cd_shell (txt "/a/b") 20 (txt "..")) = Ret (tt, s') ∧
     bytesb (sh_mem s') 6000 (txt "/a" ++ [0]) = true ∧ dir_change s' = 1).
Proof. split; (eexists; split; [vm_compute; reflexivity|]; split; vm_compute; reflexivity). Qed.

(** Four defects.  The directory the shell starts in is the literal "/", and cd
    writes the new path over it, past its end.  ".." in the root looks for a
    slash in front of [path].  A part that cannot be opened is not given up: the
    loop goes on with the same argument and a path that has grown, until the
    path is longer than its array.  The buffer for a part has no place for its
    NUL. *)
Lemma cd_defects :
  cd_run open_all 5 (cd_shell [] 0 (txt "ab")) = Err Wild ∧
  cd_run open_all 5 (cd_shell [] 0 (txt "..")) = Err Wild ∧
  (let s := cd_shell (txt "/a") 20 (txt "b/c") in
   cd_run open_none 100 (set_sh_mem (poke 7100 [0; 0; 0; 0] (sh_mem s)) s) = Err Wild) ∧
  (let s := cd_shell (txt "/a") 20 (txt "b/c") in
   cd_run open_all 5 (set_sh_mem (poke 7100 [0] (sh_mem s)) s) = Err Wild).
Proof. split_and!; vm_compute; reflexivity. Qed.
End Runs.
