(* ===== verification/Monitor.v ===== *)
(** * kernel/src/monitor.c: records of threads and of their switches

    The variant that sends its records to the simulator
    ([CFG_TRACE_THREADS_SWITCH_WITH_SIM_ENABLE], which the configuration turns on
    with tracing).  A set of records is its counters and its array; a record is
    sent as the bytes of its structure, which has no padding, behind a header of
    12 bytes.  The kernel's values that a record takes are arguments: the thread
    with its address, its name, the tick and the core. *)
From S2P Require Import Prelude Interfaces KTypes KState Policy.
From stdpp Require Import list strings.
#[local] Open Scope Z_scope.

Definition MONITOR_CMD_CREATE : Z := 1.
Definition MONITOR_CMD_SWITCH : Z := Z.shiftl MONITOR_CMD_CREATE 1.
Definition MONITOR_ITEMS : Z := 60.  (* CFG_MAX_THREAD *)

Record CPUcore_info : Type := mk_core { ci_id : Z; ci_frequency : Z; ci_name : list Z }.

Record thread_info : Type := mk_tinfo {
  ti_policy : Z;
  ti_prio : Z;
  ti_tcb_ptr : Z;
  ti_period : Z;
  ti_supercycle : Z;
  ti_cpu : Z;
  ti_create_tick : Z;
  ti_name : list Z;
}.

Record thread_switch_info : Type := mk_tswinfo { ts_cpu : Z; ts_tick : Z; ts_from : Z; ts_to : Z }.

(** [thread_info_set] and [thread_switch_info_set]; the threshold of the latter
    is never read. *)
Record info_set (A : Type) : Type := mk_set {
  total_size : Z;
  st_idx : Z;
  ed_idx : Z;
  info_type : Z;
  set_size : Z;
  item_bsize : Z;
  overflow : Z;
  items : list A;
}.
Arguments mk_set {A} total_size st_idx ed_idx info_type set_size item_bsize overflow items.
Arguments total_size {A} i.
Arguments st_idx {A} i.
Arguments ed_idx {A} i.
Arguments info_type {A} i.
Arguments set_size {A} i.
Arguments item_bsize {A} i.
Arguments overflow {A} i.
Arguments items {A} i.

Record mstate : Type := mk_mstate {
  ms_tinfos : info_set thread_info;
  ms_tswinfos : info_set thread_switch_info;
  ms_symbel : Z;
  ms_type : Z;
  ms_length : Z;
  ms_send_lock : Z;
  ms_out : list Z;
}.
Definition set_ms_tinfos v s : mstate := mk_mstate v (ms_tswinfos s) (ms_symbel s) (ms_type s) (ms_length s) (ms_send_lock s) (ms_out s).
Definition set_ms_tswinfos v s : mstate := mk_mstate (ms_tinfos s) v (ms_symbel s) (ms_type s) (ms_length s) (ms_send_lock s) (ms_out s).
Definition set_ms_symbel v s : mstate := mk_mstate (ms_tinfos s) (ms_tswinfos s) v (ms_type s) (ms_length s) (ms_send_lock s) (ms_out s).
Definition set_ms_header t n s : mstate := mk_mstate (ms_tinfos s) (ms_tswinfos s) (ms_symbel s) t n (ms_send_lock s) (ms_out s).
Definition set_ms_send_lock v s : mstate := mk_mstate (ms_tinfos s) (ms_tswinfos s) (ms_symbel s) (ms_type s) (ms_length s) v (ms_out s).
Definition set_ms_out v s : mstate := mk_mstate (ms_tinfos s) (ms_tswinfos s) (ms_symbel s) (ms_type s) (ms_length s) (ms_send_lock s) v.

Definition tinfos_lens : lens mstate (info_set thread_info) := Lens ms_tinfos set_ms_tinfos.
Definition tswinfos_lens : lens mstate (info_set thread_switch_info) := Lens ms_tswinfos set_ms_tswinfos.

(** The sets with their initialisers. *)
Definition tinfos_real : info_set thread_info :=
  mk_set MONITOR_ITEMS 0 0 MONITOR_CMD_CREATE 0 60 0 (replicate 60 (mk_tinfo 0 0 0 0 0 0 0 (replicate 32 0))).
Definition tswinfos_real : info_set thread_switch_info :=
  mk_set MONITOR_ITEMS 0 0 MONITOR_CMD_SWITCH 0 60 0 (replicate 60 (mk_tswinfo 0 0 0 0)).

Section sets.
Context {A : Type}.
Implicit Types i : info_set A.

Definition set_items l i : info_set A := mk_set (total_size i) (st_idx i) (ed_idx i) (info_type i) (set_size i) (item_bsize i) (overflow i) l.
Definition set_ed_idx v i : info_set A := mk_set (total_size i) (st_idx i) v (info_type i) (set_size i) (item_bsize i) (overflow i) (items i).
Definition set_set_size v i : info_set A := mk_set (total_size i) (st_idx i) (ed_idx i) (info_type i) v (item_bsize i) (overflow i) (items i).
Definition set_overflow v i : info_set A := mk_set (total_size i) (st_idx i) (ed_idx i) (info_type i) (set_size i) (item_bsize i) v (items i).
Definition set_st_idx v i : info_set A := mk_set (total_size i) v (ed_idx i) (info_type i) (set_size i) (item_bsize i) (overflow i) (items i).

(** The record at [ed_idx] changes. *)
Definition fill_item (f : A → A) : M (info_set A) unit :=
  e ← get ed_idx;
  x ← deref (λ i, aget (items i) e);
  modify (λ i, set_items (aset e (f x) (items i)) i).

(** [ed_idx] moves on; at the end of the array it goes back to its start, where
    [full] says whether [size] still grows. *)
Definition advance (full : Z → Z → bool) : M (info_set A) unit :=
  e ← get ed_idx;
  total ← get total_size;
  if e <? u32 (total - 1) then
    modify (set_ed_idx (u32 (e + 1)));;
    modify (λ i, set_set_size (u32 (set_size i + 1)) i)
  else
    modify (set_ed_idx 0);;
    modify (λ i, set_overflow (u32 (overflow i + 1)) i);;
    n ← get set_size;
    when (negb (full n total)) (modify (set_set_size (u32 (n + 1)))).

(** What a send does to a set. *)
Definition reset_set : M (info_set A) unit :=
  modify (set_set_size 0);;
  modify (set_st_idx 0);;
  modify (set_ed_idx 0).
End sets.

(** [acoral_str_cpy] into the 32 characters of a name. *)
Definition copy_name (name old : list Z) : option (list Z) :=
  if decide (length name < 32)%nat then Some (name ++ 0 :: drop (S (length name)) old) else None.

(** [period_time] is the time of the policy data at an address. *)
Definition acoral_tinfos_add (period_time : Z → option Z) (name : list Z) (acoral_ticks thread : Z) (th : KTypes.thread) : M mstate unit :=
  zoom tinfos_lens
    (let policy := t_policy th in
     fill_item (λ x, mk_tinfo policy (u32 (t_prio th)) thread (ti_period x) (ti_supercycle x) (ti_cpu x) (ti_create_tick x) (ti_name x));;
     (if policy =? ACORAL_SCHED_POLICY_COMM then
        fill_item (λ x, mk_tinfo (ti_policy x) (ti_prio x) (ti_tcb_ptr x) 0 0 (ti_cpu x) (ti_create_tick x) (ti_name x))
      else
        when ((policy =? ACORAL_SCHED_POLICY_PERIOD) || (policy =? ACORAL_SCHED_POLICY_TIMED))
          (when (policy =? ACORAL_SCHED_POLICY_PERIOD)
             (t ← deref (λ _, period_time (t_private_data th));
              fill_item (λ x, mk_tinfo (ti_policy x) (ti_prio x) (ti_tcb_ptr x) t 40000 (ti_cpu x) (ti_create_tick x) (ti_name x)));;
           fill_item (λ x, mk_tinfo (ti_policy x) (ti_prio x) (ti_tcb_ptr x) 40000 40000 (ti_cpu x) (ti_create_tick x) (ti_name x))));;
     fill_item (λ x, mk_tinfo (ti_policy x) (ti_prio x) (ti_tcb_ptr x) (ti_period x) (ti_supercycle x) (t_cpu th) acoral_ticks (ti_name x));;
     e ← get ed_idx;
     x ← deref (λ i, aget (items i) e);
     n ← deref (λ _, copy_name name (ti_name x));
     fill_item (λ x, mk_tinfo (ti_policy x) (ti_prio x) (ti_tcb_ptr x) (ti_period x) (ti_supercycle x) (ti_cpu x) (ti_create_tick x) n);;
     advance (λ n total, total <=? n)).

Definition acoral_tswinfos_add (acoral_current_cpu acoral_ticks from to : Z) : M mstate unit :=
  zoom tswinfos_lens
    (fill_item (λ _, mk_tswinfo acoral_current_cpu acoral_ticks from to);;
     advance (λ _ _, false)).

(** ** Sending *)

(** The four bytes of a word, the lowest first. *)
Definition word_bytes (w : Z) : list Z := [u8 w; u8 (Z.shiftr w 8); u8 (Z.shiftr w 16); u8 (Z.shiftr w 24)].

Definition core_bytes (c : CPUcore_info) : list Z := word_bytes (ci_id c) ++ word_bytes (ci_frequency c) ++ ci_name c.
Definition tinfo_bytes (t : thread_info) : list Z :=
  ([ti_policy t; ti_prio t; ti_tcb_ptr t; ti_period t; ti_supercycle t; ti_cpu t; ti_create_tick t] ≫= word_bytes) ++ ti_name t.
Definition tswinfo_bytes (t : thread_switch_info) : list Z := [ts_cpu t; ts_tick t; ts_from t; ts_to t] ≫= word_bytes.

(** [header.title] is "++++" from [acoral_monitor_init] on. *)
Definition header_bytes (s : mstate) : list Z := [43; 43; 43; 43] ++ word_bytes (ms_type s) ++ word_bytes (ms_length s).

Fixpoint send_loop (data : list Z) : M mstate unit :=
  match data with
  | [] => mret tt
  | b :: data => modify (λ s, set_ms_out (ms_out s ++ [b]) s);; send_loop data
  end.

Section send.
Context {S : Type} `{!Critical S} (lm : lens S mstate).
Context (acoral_vol_malloc : Z → M S Z) (acoral_vol_free : Z → M S unit).

Definition send_spin_lock : M mstate unit :=
  l ← get ms_send_lock; if l =? 0 then modify (set_ms_send_lock 1) else fail Deadlock.

Definition acoral_bytes_send (data : list Z) : M S unit :=
  cr_enter;;
  zoom lm send_spin_lock;;
  zoom lm (h ← get header_bytes; send_loop h);;
  zoom lm (send_loop data);;
  zoom lm (modify (set_ms_send_lock 0));;
  cr_exit.

(** [for(i = 0; i < n; i++)] over the records of a copied set. *)
Fixpoint send_items {A} (n : nat) (i : Z) (bytes : A → list Z) (l : list A) : M S unit :=
  match n with
  | O => mret tt
  | Datatypes.S n =>
      x ← deref (λ _, aget l i);
      acoral_bytes_send (bytes x);;
      send_items n (i + 1) bytes l
  end.

Definition send_set {A} (type length : Z) (bytes : A → list Z) (i : info_set A) : M S unit :=
  when (0 <? set_size i)
    (zoom lm (modify (set_ms_header type length));;
     let print_num := if 0 <? overflow i then total_size i else set_size i in
     send_items (Z.to_nat print_num) 0 bytes (items i)).

(** [name] with a string copied over its start. *)
Definition core_name (name old : list Z) : list Z := name ++ 0 :: drop (Datatypes.S (length name)) old.

(** [junk] is what the memory of the core's record holds before. *)
Definition send_cores (junk : list Z) : M S unit :=
  s ← zoom lm (get ms_symbel);
  when (s =? 0)
    (zoom lm (modify (set_ms_symbel 1));;
     zoom lm (modify (set_ms_header 1 40));;
     p ← acoral_vol_malloc 40;
     (if p =? 0 then fail Wild else mret tt);;
     let name0 := core_name [67; 80; 85; 32; 48] junk in
     acoral_bytes_send (core_bytes (mk_core 0 666000000 name0));;
     acoral_bytes_send (core_bytes (mk_core 1 666000000 (core_name [67; 80; 85; 32; 49] name0)));;
     acoral_vol_free p).

Definition sizeof_thread_info_set : Z := 28 + 60 * 60.
Definition sizeof_thread_switch_info_set : Z := 32 + 60 * 16.

Definition acoral_infos_send (junk : list Z) : M S unit :=
  p ← acoral_vol_malloc sizeof_thread_info_set;
  q ← acoral_vol_malloc sizeof_thread_switch_info_set;
  cr_enter;;
  (if (p =? 0) || (q =? 0) then fail Wild else mret tt);;
  tinfos_tmp ← zoom lm (get ms_tinfos);
  tswinfos_tmp ← zoom lm (get ms_tswinfos);
  zoom lm (zoom tinfos_lens reset_set;; zoom tswinfos_lens reset_set);;
  cr_exit;;
  send_cores junk;;
  send_set 2 60 tinfo_bytes tinfos_tmp;;
  send_set 3 16 tswinfo_bytes tswinfos_tmp;;
  acoral_vol_free p;;
  acoral_vol_free q.

(** The thread that sends every ten seconds; its creation is an argument. *)
Definition acoral_monitor_init (create_thread : Z → Z → Z → M S unit) : M S unit :=
  zoom lm (modify (set_ms_header 0 0));;
  zoom lm (modify (set_ms_send_lock 0));;
  p ← acoral_vol_malloc 12;
  (if p =? 0 then fail Wild else mret tt);;
  create_thread 8 0 10000;;
  acoral_vol_free p.
End send.
