(* ===== verification/MonitorSpec.v ===== *)
(** * Correctness of the monitor

    The reference is the receiver's side: a stream of bytes is decoded into
    packets ([decode]).  What is recorded is a list of events; a session adds the
    events of each round and sends.  The theorems relate the events of all rounds
    to the packets that arrive. *)
From S2P Require Import Prelude Interfaces KTypes Policy Monitor.
From stdpp Require Import list strings.
From Stdlib Require Import ZifyNat.
#[local] Open Scope Z_scope.

(** [lia] with quotients and remainders. *)
#[local] Ltac Zify.zify_post_hook ::= Z.to_euclidean_division_equations.

(** ** Reference: packets *)

Inductive packet : Type :=
  | Core (c : CPUcore_info)
  | Created (t : thread_info)
  | Switched (w : thread_switch_info).

Definition is_word (w : Z) : Prop := 0 ≤ w < 2 ^ 32.

Definition tinfo_ok (t : thread_info) : Prop :=
  Forall is_word [ti_policy t; ti_prio t; ti_tcb_ptr t; ti_period t; ti_supercycle t; ti_cpu t; ti_create_tick t] ∧
  length (ti_name t) = 32%nat.
Definition switch_ok (w : thread_switch_info) : Prop := Forall is_word [ts_cpu w; ts_tick w; ts_from w; ts_to w].

Definition packet_ok (p : packet) : Prop :=
  match p with
  | Core c => is_word (ci_id c) ∧ is_word (ci_frequency c) ∧ length (ci_name c) = 32%nat
  | Created t => tinfo_ok t
  | Switched w => switch_ok w
  end.

(** The word of four bytes, the lowest first. *)
Definition word_of (b0 b1 b2 b3 : Z) : Z := b0 + 2 ^ 8 * b1 + 2 ^ 16 * b2 + 2 ^ 24 * b3.

(** The first [n] words of a stream and the rest of it. *)
Fixpoint take_words (n : nat) (l : list Z) : option (list Z * list Z) :=
  match n, l with
  | O, _ => Some ([], l)
  | S n, b0 :: b1 :: b2 :: b3 :: l =>
      '(ws, l) ← take_words n l; Some (word_of b0 b1 b2 b3 :: ws, l)
  | _, _ => None
  end.

Definition decode_body (type : Z) (body : list Z) : option packet :=
  if type =? 1 then
    match take_words 2 body with Some ([i; f], name) => Some (Core (mk_core i f name)) | _ => None end
  else if type =? 2 then
    match take_words 7 body with
    | Some ([policy; prio; tcb; period; cycle; cpu; tick], name) => Some (Created (mk_tinfo policy prio tcb period cycle cpu tick name))
    | _ => None
    end
  else if type =? 3 then
    match take_words 4 body with Some ([cpu; tick; from; to], []) => Some (Switched (mk_tswinfo cpu tick from to)) | _ => None end
  else None.

(** One packet and the rest: "++++", the type, the length, the body. *)
Definition decode1 (l : list Z) : option (packet * list Z) :=
  match l with
  | 43 :: 43 :: 43 :: 43 :: l =>
      match take_words 2 l with
      | Some ([type; n], l) =>
          p ← decode_body type (take (Z.to_nat n) l); Some (p, drop (Z.to_nat n) l)
      | _ => None
      end
  | _ => None
  end.

Fixpoint decode_in (fuel : nat) (l : list Z) : option (list packet) :=
  match l, fuel with
  | [], _ => Some []
  | _, O => None
  | _, S fuel => '(p, l) ← decode1 l; ps ← decode_in fuel l; Some (p :: ps)
  end.
Definition decode (l : list Z) : option (list packet) := decode_in (length l) l.

(** What the monitor sends for a packet. *)
Definition packet_type (p : packet) : Z := match p with Core _ => 1 | Created _ => 2 | Switched _ => 3 end.
Definition packet_length (p : packet) : Z := match p with Core _ => 40 | Created _ => 60 | Switched _ => 16 end.
Definition body_bytes (p : packet) : list Z :=
  match p with Core c => core_bytes c | Created t => tinfo_bytes t | Switched w => tswinfo_bytes w end.
Definition packet_bytes (p : packet) : list Z :=
  [43; 43; 43; 43] ++ word_bytes (packet_type p) ++ word_bytes (packet_length p) ++ body_bytes p.

(** ** Decoding what is sent *)
Lemma word_of_bytes w : is_word w → word_of (u8 w) (u8 (Z.shiftr w 8)) (u8 (Z.shiftr w 16)) (u8 (Z.shiftr w 24)) = w.
Proof.
  unfold is_word, word_of, u8, wrapu. intros Hw. rewrite !Z.shiftr_div_pow2 by lia.
  change (2 ^ 8) with 256. change (2 ^ 16) with 65536. change (2 ^ 24) with 16777216. change (2 ^ 32) with 4294967296 in Hw.
  lia.
Qed.

Lemma take_words_bytes ws l : Forall is_word ws → take_words (length ws) ((ws ≫= word_bytes) ++ l) = Some (ws, l).
Proof.
  induction 1 as [|w ws Hw _ IH]; [done|]. cbn [mbind list_bind word_bytes app length take_words].
  cbn [mbind list_bind] in IH. rewrite IH. cbn [mbind option_bind]. by rewrite word_of_bytes.
Qed.

Lemma length_body p : packet_ok p → length (body_bytes p) = Z.to_nat (packet_length p).
Proof.
  destruct p as [[]|[]|[]]; cbn; [intros (_ & _ & ->)|intros [_ Hn]; cbn in Hn; rewrite Hn|]; done.
Qed.

Lemma decode_body_bytes p : packet_ok p → decode_body (packet_type p) (body_bytes p) = Some p.
Proof.
  destruct p as [[i f n]|[a b c d e f g n]|[a b c d]]; cbn [packet_ok packet_type]; unfold decode_body.
  - intros (? & ? & ?). change (1 =? 1) with true. cbv iota.
    change (body_bytes _) with (([i; f] ≫= word_bytes) ++ n).
    rewrite (take_words_bytes [i; f]); [done|by rewrite !Forall_cons, Forall_nil].
  - intros [Hw ?]. change (2 =? 1) with false. change (2 =? 2) with true. cbv iota.
    change (body_bytes _) with (([a; b; c; d; e; f; g] ≫= word_bytes) ++ n). by rewrite (take_words_bytes [a; b; c; d; e; f; g]).
  - intros Hw. change (3 =? 1) with false. change (3 =? 2) with false. change (3 =? 3) with true. cbv iota.
    change (body_bytes _) with ([a; b; c; d] ≫= word_bytes). rewrite <- (app_nil_r (_ ≫= _)).
    by rewrite (take_words_bytes [a; b; c; d]).
Qed.

Lemma decode1_bytes p l : packet_ok p → decode1 (packet_bytes p ++ l) = Some (p, l).
Proof.
  intros Hp. unfold packet_bytes.
  replace (([43; 43; 43; 43] ++ word_bytes (packet_type p) ++ word_bytes (packet_length p) ++ body_bytes p) ++ l)
    with (43 :: 43 :: 43 :: 43 :: ([packet_type p; packet_length p] ≫= word_bytes) ++ body_bytes p ++ l)
    by (cbn; by rewrite <- ?app_assoc).
  unfold decode1. rewrite (take_words_bytes [_; _]) by (rewrite !Forall_cons, Forall_nil; destruct p; done).
  rewrite <- (length_body p) by done. rewrite take_app_length, drop_app_length, decode_body_bytes by done. done.
Qed.

Lemma decode_in_bytes ps : ∀ fuel, Forall packet_ok ps → (length ps ≤ fuel)%nat → decode_in fuel (ps ≫= packet_bytes) = Some ps.
Proof.
  induction ps as [|p ps IH]; intros fuel Hok Hf; [by destruct fuel|].
  apply Forall_cons in Hok as [Hp Hps]. simpl in Hf. destruct fuel as [|fuel]; [lia|].
  assert (∀ l, decode_in (S fuel) (packet_bytes p ++ l) = '(p, l) ← decode1 (packet_bytes p ++ l); ps ← decode_in fuel l; Some (p :: ps)) as E by done.
  cbn [mbind list_bind]. rewrite E, decode1_bytes by done. cbn [mbind option_bind].
  setoid_rewrite IH; [done|done|lia].
Qed.

Lemma length_packets ps : (length ps ≤ length (ps ≫= packet_bytes))%nat.
Proof. induction ps as [|p ps IH]; [done|]. cbn [mbind list_bind length]. rewrite length_app. simpl. cbn [mbind list_bind] in IH. lia. Qed.

(** The stream of bytes is a code: a receiver that reads "++++", a type, a
    length and the fields, each with its lowest byte first, gets the packets
    back in their order, whatever the characters of the names. *)
Theorem packets_roundtrip (ps : list packet) :
  Forall packet_ok ps → decode (ps ≫= packet_bytes) = Some ps.
Proof. intros Hok. apply decode_in_bytes; [done|apply length_packets]. Qed.

(** ** The sets

    [slots]: the set [i] after the events [L] came to it since it had the array
    [old] and no record; [capped] is the set of threads, whose [size] does not
    grow where the array starts again, but for the first time.  The last 60 events are there, each at its place. *)
Section sets.
Context {A E : Type} (R : E → A → Prop) (capped : bool).
Implicit Types (i : info_set A) (L : list E).

Record slots (ov : Z) (old : list A) L i : Prop := {
  sl_total : total_size i = 60;
  sl_length : length (items i) = 60%nat;
  sl_ed : ed_idx i = Z.of_nat (length L) mod 60;
  sl_overflow : overflow i = ov + Z.of_nat (length L) / 60;
  sl_size : set_size i = Z.of_nat (length L) - (if capped then Z.max 0 (Z.of_nat (length L) / 60 - 1) else 0);
  sl_last : ∀ (j : nat) e, L !! j = Some e → (length L ≤ j + 60)%nat → ∃ x, items i !! (j mod 60)%nat = Some x ∧ R e x;
  sl_old : ∀ k : nat, (length L ≤ k)%nat → items i !! k = old !! k;
}.

Lemma fill_item_run f i x :
  aget (items i) (ed_idx i) = Some x → fill_item f i = Ret (tt, set_items (aset (ed_idx i) (f x) (items i)) i).
Proof. intros Hx. unfold fill_item. erewrite run_bind by done. by erewrite run_bind by (by apply run_deref). Qed.

(** The record at [ed_idx] is another one, and the set moves on. *)
Lemma slots_advance full ov old L i e x :
  (∀ n total, full n total = capped && (total <=? n)) →
  0 ≤ ov → ov + Z.of_nat (length L) + 1 < 2 ^ 32 → slots ov old L i → R e x →
  ∃ i', advance full (set_items (aset (ed_idx i) x (items i)) i) = Ret (tt, i') ∧ slots ov old (L ++ [e]) i' ∧
    items i' = aset (ed_idx i) x (items i).
Proof.
  intros Hfull Hov Hb [Ht Hl He Ho Hs Hlast Hold] HR.
  set (n := length L) in *.
  assert (Hed : ed_idx i = Z.of_nat (n mod 60)) by lia.
  assert (Hd : Z.of_nat n = 60 * (Z.of_nat n / 60) + Z.of_nat (n mod 60)) by lia.
  assert (n mod 60 < 60)%nat by (apply Nat.mod_upper_bound; lia).
  set (l' := aset (ed_idx i) x (items i)).
  assert (Hl' : l' = <[(n mod 60)%nat := x]> (items i)).
  { unfold l', aset. rewrite Hed, (proj2 (Z.leb_le 0 (Z.of_nat _)) (Nat2Z.is_nonneg _)), Nat2Z.id. done. }
  assert (∃ i', advance full (set_items l' i) = Ret (tt, i') ∧ items i' = l' ∧ total_size i' = 60 ∧
    ed_idx i' = Z.of_nat (S n) mod 60 ∧ overflow i' = ov + Z.of_nat (S n) / 60 ∧
    set_size i' = Z.of_nat (S n) - (if capped then Z.max 0 (Z.of_nat (S n) / 60 - 1) else 0)) as (i' & Hrun & Hi' & Ht' & Hed' & Ho' & Hs').
  { unfold advance, when. do 2 erewrite run_bind by done. cbn [set_items ed_idx total_size]. rewrite Ht.
    change (u32 (60 - 1)) with 59. destruct (Z.ltb_spec (ed_idx i) 59).
    - erewrite run_bind by done. eexists. split; [done|].
      cbn [set_set_size set_ed_idx set_items items total_size ed_idx overflow set_size].
      rewrite !wrapu_small by (destruct capped; lia). split_and!; try done; try lia. destruct capped; lia.
    - do 3 erewrite run_bind by done. rewrite Hfull. cbn [set_overflow set_ed_idx set_items set_size]. rewrite Hs.
      destruct capped; [destruct (Z.leb_spec 60 (Z.of_nat n - Z.max 0 (Z.of_nat n / 60 - 1)))|]; cbn [andb negb];
        (eexists; split; [done|]); cbn [set_set_size set_overflow set_ed_idx set_items items total_size ed_idx overflow set_size];
        rewrite !wrapu_small by lia; split_and!; try done; lia. }
  exists i'. split_and!; [done| |done]. split; rewrite ?length_app, ?Nat.add_1_r; try done.
  - rewrite Hi'. unfold l'. rewrite length_aset. done.
  - intros j e' Hj Hr. rewrite Hi', Hl'. destruct (decide (j = n)) as [->|Hne].
    + rewrite lookup_app_r, Nat.sub_diag in Hj by done. injection Hj as <-.
      exists x. split; [|done]. apply list_lookup_insert_eq. lia.
    + pose proof (lookup_lt_Some _ _ _ Hj) as Hlt. rewrite length_app in Hlt. simpl in Hlt.
      rewrite lookup_app_l in Hj by (fold n; lia). destruct (Hlast j e' Hj) as (y & Hy & HRy); [lia|].
      exists y. split; [|done]. rewrite list_lookup_insert_ne; [done|].
      intros Heq. assert (Z.of_nat n mod 60 = Z.of_nat j mod 60) by lia. lia.
  - intros k Hk. rewrite Hi', Hl', list_lookup_insert_ne by lia. apply Hold. lia.
Qed.

Lemma slots_item ov old L i : slots ov old L i → ∃ x, aget (items i) (ed_idx i) = Some x.
Proof. intros []. apply aget_is_Some. lia. Qed.

Lemma slots_fresh i : total_size i = 60 → length (items i) = 60%nat → ed_idx i = 0 → set_size i = 0 → slots (overflow i) (items i) [] i.
Proof. intros. split; try done; simpl; [rewrite Z.div_0_l; lia|by destruct capped]. Qed.

(** The records that are sent when no array was full. *)
Lemma slots_few ov old L i : slots ov old L i → (length L < 60)%nat → Forall2 R L (take (length L) (items i)).
Proof.
  intros [Ht Hl He Ho Hs Hlast Hold] HL. apply Forall2_same_length_lookup_2; [rewrite length_take; lia|].
  intros j e x Hj Hx. pose proof (lookup_lt_Some _ _ _ Hj). rewrite lookup_take_lt in Hx by lia.
  destruct (Hlast j e Hj) as (y & Hy & HR); [lia|]. rewrite Nat.mod_small in Hy by lia. congruence.
Qed.
End sets.

(** ** Events *)

(** A thread is created: its name, the tick, its address, and the thread. *)
Record creation : Type := mk_creation { new_name : list Z; new_tick : Z; new_addr : Z; new_thread : KTypes.thread }.

Inductive event : Type :=
  | Creation (c : creation)
  | Switching (w : thread_switch_info).

Definition creations (es : list event) : list creation := omap (λ e, match e with Creation c => Some c | _ => None end) es.
Definition switches (es : list event) : list thread_switch_info := omap (λ e, match e with Switching w => Some w | _ => None end) es.

(** What a record says of a creation.  The period of a periodic thread is not
    there. *)
Definition reports (c : creation) (t : thread_info) : Prop :=
  ti_policy t = t_policy (new_thread c) ∧ ti_prio t = u32 (t_prio (new_thread c)) ∧ ti_tcb_ptr t = new_addr c ∧
  ti_cpu t = t_cpu (new_thread c) ∧ ti_create_tick t = new_tick c ∧
  take (S (length (new_name c))) (ti_name t) = new_name c ++ [0] ∧
  (t_policy (new_thread c) = ACORAL_SCHED_POLICY_COMM → ti_period t = 0 ∧ ti_supercycle t = 0) ∧
  (t_policy (new_thread c) = ACORAL_SCHED_POLICY_PERIOD ∨ t_policy (new_thread c) = ACORAL_SCHED_POLICY_TIMED →
    ti_period t = 40000 ∧ ti_supercycle t = 40000).

Section events.
Context (period_time : Z → option Z).

Definition creation_ok (c : creation) : Prop :=
  (length (new_name c) < 32)%nat ∧ is_word (new_tick c) ∧ is_word (new_addr c) ∧
  is_word (t_policy (new_thread c)) ∧ is_word (t_cpu (new_thread c)) ∧
  (t_policy (new_thread c) = ACORAL_SCHED_POLICY_PERIOD → is_Some (period_time (t_private_data (new_thread c)))).

Definition event_ok (e : event) : Prop := match e with Creation c => creation_ok c | Switching w => switch_ok w end.

Definition add_event (e : event) : M mstate unit :=
  match e with
  | Creation c => acoral_tinfos_add period_time (new_name c) (new_tick c) (new_addr c) (new_thread c)
  | Switching w => acoral_tswinfos_add (ts_cpu w) (ts_tick w) (ts_from w) (ts_to w)
  end.

Fixpoint add_events (es : list event) : M mstate unit :=
  match es with [] => mret tt | e :: es => add_event e;; add_events es end.

Lemma fill_item_again {A} f (i : info_set A) x y :
  aget (items i) (ed_idx i) = Some y →
  fill_item f (set_items (aset (ed_idx i) x (items i)) i) = Ret (tt, set_items (aset (ed_idx i) (f x) (items i)) i).
Proof.
  intros Hy. erewrite fill_item_run by (by apply aget_aset_eq with y).
  cbn [set_items ed_idx items total_size st_idx info_type set_size item_bsize overflow]. by rewrite aset_aset.
Qed.

(** What a thread's record becomes. *)
Definition new_period (policy old : Z) : Z :=
  if policy =? ACORAL_SCHED_POLICY_COMM then 0 else
  if (policy =? ACORAL_SCHED_POLICY_PERIOD) || (policy =? ACORAL_SCHED_POLICY_TIMED) then 40000 else old.
Definition new_record (c : creation) (x : thread_info) : thread_info :=
  let th := new_thread c in
  mk_tinfo (t_policy th) (u32 (t_prio th)) (new_addr c) (new_period (t_policy th) (ti_period x)) (new_period (t_policy th) (ti_supercycle x))
    (t_cpu th) (new_tick c) (new_name c ++ 0 :: drop (S (length (new_name c))) (ti_name x)).

Lemma new_record_reports c x : reports c (new_record c x).
Proof.
  unfold reports, new_record, new_period. cbn [ti_policy ti_prio ti_tcb_ptr ti_period ti_supercycle ti_cpu ti_create_tick ti_name].
  split_and!; try done.
  - rewrite cons_middle, app_assoc. apply take_app_length'. rewrite length_app. simpl. lia.
  - by intros ->.
  - by intros [-> | ->].
Qed.

Lemma new_record_ok c x : creation_ok c → tinfo_ok x → tinfo_ok (new_record c x).
Proof.
  intros (Hn & Ht & Ha & Hp & Hc & _) [Hw Hx].
  rewrite !Forall_cons in Hw. destruct Hw as (_ & _ & _ & Hpe & Hsu & _).
  unfold tinfo_ok, new_record, new_period. cbn [ti_policy ti_prio ti_tcb_ptr ti_period ti_supercycle ti_cpu ti_create_tick ti_name].
  assert (is_word (u32 (t_prio (new_thread c)))) by (apply wrapu_range; lia).
  assert (is_word 0 ∧ is_word 40000) as [] by (unfold is_word; lia).
  split; [|rewrite length_app; simpl; rewrite length_drop; lia].
  rewrite !Forall_cons, Forall_nil. split_and!; try done; repeat case_match; done.
Qed.

Lemma tinfos_add_run c v ov old L :
  creation_ok c → 0 ≤ ov → ov + Z.of_nat (length L) + 1 < 2 ^ 32 →
  slots reports true ov old L (ms_tinfos v) → Forall tinfo_ok (items (ms_tinfos v)) →
  ∃ i, acoral_tinfos_add period_time (new_name c) (new_tick c) (new_addr c) (new_thread c) v = Ret (tt, set_ms_tinfos i v) ∧
    slots reports true ov old (L ++ [c]) i ∧ Forall tinfo_ok (items i).
Proof.
  intros Hc Hov Hb Hs Hok. set (i := ms_tinfos v) in *.
  destruct (slots_item _ _ _ _ _ _ Hs) as [x Hx].
  destruct (slots_advance reports true (λ n total, total <=? n) ov old L i c (new_record c x))
    as (i' & Hadv & Hs' & Hi'); try done; [apply new_record_reports|].
  exists i'. split_and!; [|done|].
  2:{ rewrite Hi'. apply Forall_aset; [done|]. apply new_record_ok; [done|]. by eapply Forall_aget. }
  pose proof Hc as (Hn & _ & _ & _ & _ & Hper).
  unfold acoral_tinfos_add. change (set_ms_tinfos i' v) with (update tinfos_lens i' v). apply run_zoom.
  change (view tinfos_lens v) with i. set (th := new_thread c) in *.
  erewrite run_bind by (by apply fill_item_run).
  set (x2 := mk_tinfo (t_policy th) (u32 (t_prio th)) (new_addr c) (new_period (t_policy th) (ti_period x))
    (new_period (t_policy th) (ti_supercycle x)) (ti_cpu x) (ti_create_tick x) (ti_name x)).
  rewrite (run_bind _ _ _ tt (set_items (aset (ed_idx i) x2 (items i)) i)).
  2:{ unfold x2, new_period. destruct (Z.eqb_spec (t_policy th) ACORAL_SCHED_POLICY_COMM); [by erewrite fill_item_again|].
      destruct (Z.eqb_spec (t_policy th) ACORAL_SCHED_POLICY_PERIOD) as [Hp|]; cbn [orb when].
      - destruct (Hper Hp) as [t Ht].
        erewrite run_bind by (erewrite run_bind by (by apply run_deref); by erewrite fill_item_again).
        by erewrite fill_item_again.
      - destruct (Z.eqb_spec (t_policy th) ACORAL_SCHED_POLICY_TIMED); cbn [when]; [|done].
        erewrite run_bind by done. by erewrite fill_item_again. }
  erewrite run_bind by (by eapply fill_item_again).
  erewrite run_bind by done. cbn [set_items ed_idx].
  erewrite run_bind by (apply run_deref; by apply aget_aset_eq with x).
  erewrite run_bind by (apply run_deref; unfold copy_name; by rewrite decide_True).
  erewrite run_bind by (by eapply fill_item_again). exact Hadv.
Qed.

Lemma tswinfos_add_run w v ov old L :
  0 ≤ ov → ov + Z.of_nat (length L) + 1 < 2 ^ 32 → switch_ok w →
  slots eq false ov old L (ms_tswinfos v) → Forall switch_ok (items (ms_tswinfos v)) →
  ∃ i, acoral_tswinfos_add (ts_cpu w) (ts_tick w) (ts_from w) (ts_to w) v = Ret (tt, set_ms_tswinfos i v) ∧
    slots eq false ov old (L ++ [w]) i ∧ Forall switch_ok (items i).
Proof.
  intros Hov Hb Hw Hs Hok. set (i := ms_tswinfos v) in *.
  destruct (slots_item _ _ _ _ _ _ Hs) as [x Hx].
  destruct (slots_advance eq false (λ _ _, false) ov old L i w w) as (i' & Hadv & Hs' & Hi'); try done.
  exists i'. split_and!; [|done|rewrite Hi'; by apply Forall_aset].
  unfold acoral_tswinfos_add. change (set_ms_tswinfos i' v) with (update tswinfos_lens i' v). apply run_zoom.
  change (view tswinfos_lens v) with i. erewrite run_bind by (by apply fill_item_run).
  destruct w. exact Hadv.
Qed.

(** The events [es] since the sets were sent for the last time. *)
Record pending (ov1 ov2 : Z) (old1 : list thread_info) (old2 : list thread_switch_info) (es : list event) (v : mstate) : Prop := {
  pe_tinfos : slots reports true ov1 old1 (creations es) (ms_tinfos v);
  pe_tswinfos : slots eq false ov2 old2 (switches es) (ms_tswinfos v);
  pe_created : Forall tinfo_ok (items (ms_tinfos v));
  pe_switched : Forall switch_ok (items (ms_tswinfos v));
  pe_lock : ms_send_lock v = 0;
}.

(** What stays while events are added. *)
Definition same_output (v v' : mstate) : Prop := ms_out v' = ms_out v ∧ ms_symbel v' = ms_symbel v.

Lemma length_events es : (length (creations es) + length (switches es) = length es)%nat.
Proof.
  unfold creations, switches. induction es as [|[c|w] es IH]; [done|..]; cbn [omap list_omap length]; cbn [omap list_omap] in IH; lia.
Qed.

Lemma add_events_run es es0 v ov1 ov2 old1 old2 :
  0 ≤ ov1 → 0 ≤ ov2 → ov1 + ov2 + Z.of_nat (length (es0 ++ es)) < 2 ^ 32 →
  Forall event_ok es → pending ov1 ov2 old1 old2 es0 v →
  ∃ v', add_events es v = Ret (tt, v') ∧ pending ov1 ov2 old1 old2 (es0 ++ es) v' ∧ same_output v v'.
Proof.
  intros H1 H2. revert es0 v. induction es as [|e es IH]; intros es0 v Hb Hok Hp.
  { exists v. rewrite app_nil_r. done. }
  apply Forall_cons in Hok as [He Hok]. pose proof Hp as [Hs1 Hs2 Ho1 Ho2 Hl].
  pose proof (length_events es0). rewrite length_app in Hb. simpl in Hb.
  assert (∃ v1, add_event e v = Ret (tt, v1) ∧ pending ov1 ov2 old1 old2 (es0 ++ [e]) v1 ∧ same_output v v1) as (v1 & Hrun & Hp1 & Hsame).
  { destruct e as [c|w].
    - destruct (tinfos_add_run c v ov1 old1 (creations es0)) as (i & Hrun & Hs & Ho); try done; [lia|].
      eexists. split_and!; [done| |done]. split; try done; unfold creations, switches in *; rewrite omap_app; [done|].
      cbn. by rewrite app_nil_r.
    - destruct (tswinfos_add_run w v ov2 old2 (switches es0)) as (i & Hrun & Hs & Ho); try done; [lia|].
      eexists. split_and!; [done| |done]. split; try done; unfold creations, switches in *; rewrite omap_app; [|done].
      cbn. by rewrite app_nil_r. }
  destruct (IH (es0 ++ [e]) v1) as (v2 & Hrun2 & Hp2 & Hsame2); [by rewrite <- app_assoc, length_app; simpl; lia|done|done|].
  exists v2. cbn [add_events]. erewrite run_bind by exact Hrun. rewrite <- app_assoc in Hp2. split_and!; [done|done|].
  destruct Hsame, Hsame2. split; congruence.
Qed.
End events.

(** ** Sending *)

(** The environment of a send: critical sections, and an allocator with room for
    a number of objects ([room]); neither changes what the monitor knows. *)
Class MonitorEnv {S : Type} `{!Critical S} (lm : lens S mstate)
    (acoral_vol_malloc : Z → M S Z) (acoral_vol_free : Z → M S unit) (room : nat → S → Prop) : Prop := {
  me_lens : LensLaws lm;
  me_update : ∀ k v s, room k s → room k (update lm v s);
  me_enter : ∀ k s, room k s → wp cr_enter (λ _ s', room k s' ∧ view lm s' = view lm s) s;
  me_exit : ∀ k s, room k s → wp cr_exit (λ _ s', room k s' ∧ view lm s' = view lm s) s;
  me_malloc : ∀ k n s, room (Datatypes.S k) s →
    wp (acoral_vol_malloc n) (λ p s', p ≠ 0 ∧ room k s' ∧ view lm s' = view lm s) s;
  me_free : ∀ k p s, room k s →
    wp (acoral_vol_free p) (λ _ s', room (Datatypes.S k) s' ∧ view lm s' = view lm s) s;
}.
#[export] Existing Instance me_lens.

(** The records of a set that a send transmits. *)
Definition sending {A} (i : info_set A) : list A :=
  if 0 <? set_size i then take (Z.to_nat (if 0 <? overflow i then total_size i else set_size i)) (items i) else [].

Definition cores (junk : list Z) : list packet :=
  let name0 := core_name [67; 80; 85; 32; 48] junk in
  [Core (mk_core 0 666000000 name0); Core (mk_core 1 666000000 (core_name [67; 80; 85; 32; 49] name0))].

(** The packets of a send. *)
Definition packets (junk : list Z) (v : mstate) : list packet :=
  (if ms_symbel v =? 0 then cores junk else []) ++ (Created <$> sending (ms_tinfos v)) ++ (Switched <$> sending (ms_tswinfos v)).

Definition after_reset {A} (i : info_set A) : info_set A := set_ed_idx 0 (set_st_idx 0 (set_set_size 0 i)).

(** A send's effect: [v] before it, [v'] after it. *)
Record sent (ps : list packet) (v v' : mstate) : Prop := {
  se_out : ms_out v' = ms_out v ++ (ps ≫= packet_bytes);
  se_tinfos : ms_tinfos v' = after_reset (ms_tinfos v);
  se_tswinfos : ms_tswinfos v' = after_reset (ms_tswinfos v);
  se_symbel : ms_symbel v' ≠ 0;
  se_lock : ms_send_lock v' = 0;
}.

Section send.
Context {S : Type} `{!Critical S} (lm : lens S mstate).
Context (acoral_vol_malloc : Z → M S Z) (acoral_vol_free : Z → M S unit) (room : nat → S → Prop).
Context `{!MonitorEnv lm acoral_vol_malloc acoral_vol_free room}.

(** [v'] is [v] but for the header and the output, to which [ps] is appended. *)
Record streamed (ps : list packet) (v v' : mstate) : Prop := {
  st_out : ms_out v' = ms_out v ++ (ps ≫= packet_bytes);
  st_tinfos : ms_tinfos v' = ms_tinfos v;
  st_tswinfos : ms_tswinfos v' = ms_tswinfos v;
  st_symbel : ms_symbel v ≠ 0 → ms_symbel v' ≠ 0;
  st_lock : ms_send_lock v = 0 → ms_send_lock v' = 0;
}.

Lemma streamed_refl v : streamed [] v v.
Proof. split; try done. cbn. by rewrite app_nil_r. Qed.

Lemma streamed_trans ps qs v v1 v2 : streamed ps v v1 → streamed qs v1 v2 → streamed (ps ++ qs) v v2.
Proof.
  intros [O1 T1 W1 S1 L1] [O2 T2 W2 S2 L2]. split; try congruence; auto. rewrite bind_app, O2, O1. by rewrite app_assoc.
Qed.

(** What a step leaves: room for [k] objects, and [ps] in the stream. *)
Definition streams (k : nat) (ps : list packet) (s s' : S) : Prop := room k s' ∧ streamed ps (view lm s) (view lm s').

Lemma send_loop_run data v : send_loop data v = Ret (tt, set_ms_out (ms_out v ++ data) v).
Proof.
  revert v. induction data as [|b data IH]; intros v; cbn [send_loop]; [rewrite app_nil_r; by destruct v|].
  erewrite run_bind by done. rewrite IH. cbn [set_ms_out ms_out]. by rewrite <- app_assoc.
Qed.

Lemma wp_zoom_run {A} (m : M mstate A) (Q : A → S → Prop) s a v :
  m (view lm s) = Ret (a, v) → Q a (update lm v s) → wp (zoom lm m) Q s.
Proof. intros Hm HQ. eapply wp_run; [by apply run_zoom|done]. Qed.

Lemma bytes_send_spec k data s :
  room k s → ms_send_lock (view lm s) = 0 →
  wp (acoral_bytes_send lm data) (λ _ s', room k s' ∧
    view lm s' = set_ms_out (ms_out (view lm s) ++ header_bytes (view lm s) ++ data) (view lm s)) s.
Proof.
  intros Hr Hl. unfold acoral_bytes_send. apply wp_bind.
  eapply wp_mono; [by apply me_enter|]. intros [] s1 [Hr1 Hv1]. set (v := view lm s) in *.
  apply wp_bind. eapply wp_zoom_run.
  { unfold send_spin_lock. erewrite run_bind by done. by rewrite Hv1, Hl. }
  apply wp_bind. eapply wp_zoom_run; [rewrite view_update; erewrite run_bind by done; apply send_loop_run|].
  apply wp_bind. eapply wp_zoom_run; [rewrite view_update; apply send_loop_run|].
  apply wp_bind. eapply wp_zoom_run; [done|]. rewrite view_update, !update_update.
  eapply wp_mono; [by apply me_exit, me_update|]. intros [] s2 [Hr2 Hv2]. split; [done|].
  rewrite Hv2, view_update. clearbody v. destruct v. cbn in *. subst. by rewrite <- app_assoc.
Qed.

(** A record behind a header of its type and length. *)
Lemma record_spec k p s :
  room k s → ms_send_lock (view lm s) = 0 →
  ms_type (view lm s) = packet_type p → ms_length (view lm s) = packet_length p →
  wp (acoral_bytes_send lm (body_bytes p)) (λ _ s', streams k [p] s s' ∧
    ms_type (view lm s') = packet_type p ∧ ms_length (view lm s') = packet_length p) s.
Proof.
  intros Hr Hl Ht Hn. eapply wp_mono; [by apply bytes_send_spec|]. intros [] s' [Hr' Hv].
  unfold streams. rewrite Hv. split_and!; try done. split; try done. cbn [set_ms_out ms_out mbind list_bind].
  unfold packet_bytes, header_bytes. by rewrite Ht, Hn, app_nil_r, <- !app_assoc.
Qed.

Lemma send_items_spec {A} (con : A → packet) (t n : Z) (bytes : A → list Z) (l : list A) k (num : nat) : ∀ (i : nat) s,
  (∀ x, bytes x = body_bytes (con x) ∧ packet_type (con x) = t ∧ packet_length (con x) = n) →
  room k s → ms_send_lock (view lm s) = 0 → ms_type (view lm s) = t → ms_length (view lm s) = n →
  (i + num ≤ length l)%nat →
  wp (send_items lm num (Z.of_nat i) bytes l) (λ _ s', streams k (con <$> take num (drop i l)) s s') s.
Proof.
  induction num as [|num IH]; intros i s Hcon Hr Hl Ht Hn Hi; cbn [send_items].
  { apply wp_ret. split; [done|apply streamed_refl]. }
  destruct (lookup_lt_is_Some_2 l i) as [x Hx]; [lia|]. destruct (Hcon x) as (Hb & Htx & Hnx).
  apply wp_bind. apply wp_deref with x; [unfold aget; rewrite (proj2 (Z.leb_le 0 (Z.of_nat i)) (Nat2Z.is_nonneg i)); by rewrite Nat2Z.id|].
  apply wp_bind. rewrite Hb. eapply wp_mono; [apply (record_spec k); [done|done|congruence..]|].
  intros [] s1 ((Hr1 & Hs1) & Ht1 & Hn1).
  replace (Z.of_nat i + 1) with (Z.of_nat (Datatypes.S i)) by lia.
  eapply wp_mono; [apply IH; [done|done|by apply (st_lock _ _ _ Hs1)|congruence|congruence|lia]|].
  intros [] s2 [Hr2 Hs2]. split; [done|]. rewrite (drop_S l x) by done. cbn [take fmap list_fmap].
  change (con x :: ?l) with ([con x] ++ l). by eapply streamed_trans.
Qed.

Lemma send_set_spec {A} (con : A → packet) (t n : Z) (bytes : A → list Z) (i : info_set A) k s :
  (∀ x, bytes x = body_bytes (con x) ∧ packet_type (con x) = t ∧ packet_length (con x) = n) →
  room k s → ms_send_lock (view lm s) = 0 →
  (Z.to_nat (if (0 <? overflow i)%Z then total_size i else set_size i) ≤ length (items i))%nat →
  wp (send_set lm t n bytes i) (λ _ s', streams k (con <$> sending i) s s') s.
Proof.
  intros Hcon Hr Hl Hi. unfold send_set, sending, when. destruct (0 <? set_size i)%Z.
  2:{ apply wp_ret. split; [done|apply streamed_refl]. }
  apply wp_bind. eapply wp_zoom_run; [done|]. cbv zeta.
  eapply wp_mono; [apply (send_items_spec con t n bytes (items i) k _ 0); rewrite ?view_update; try done; by apply me_update|].
  intros [] s' [Hr' Hs']. split; [done|]. rewrite view_update in Hs'. destruct Hs'; by split.
Qed.

(** The cores are sent once. *)
Lemma send_cores_spec junk k s :
  room (Datatypes.S k) s → ms_send_lock (view lm s) = 0 →
  wp (send_cores lm acoral_vol_malloc acoral_vol_free junk) (λ _ s',
    streams (Datatypes.S k) (if (ms_symbel (view lm s) =? 0)%Z then cores junk else []) s s' ∧ ms_symbel (view lm s') ≠ 0) s.
Proof.
  intros Hr Hl. unfold send_cores. apply wp_bind. eapply wp_zoom_run; [done|]. rewrite update_view.
  destruct (Z.eqb_spec (ms_symbel (view lm s)) 0); cbn [when].
  2:{ apply wp_ret. split; [|done]. split; [done|apply streamed_refl]. }
  set (v1 := set_ms_header 1 40 (set_ms_symbel 1 (view lm s))).
  apply wp_bind. eapply wp_zoom_run; [done|]. apply wp_bind. eapply wp_zoom_run; [done|].
  rewrite view_update, update_update. fold v1.
  assert (streamed [] (view lm s) v1) as H1 by (split; try done; cbn; by rewrite app_nil_r).
  apply wp_bind. eapply wp_mono; [by apply (me_malloc k), me_update|]. intros p s2 (Hp & Hr2 & Hv2).
  rewrite view_update in Hv2. rewrite (proj2 (Z.eqb_neq p 0)) by done. apply wp_bind, wp_ret. cbv zeta.
  change (core_bytes ?c) with (body_bytes (Core c)).
  apply wp_bind. eapply wp_mono; [apply (record_spec k); rewrite ?Hv2; done|]. intros [] s3 ((Hr3 & Hs3) & Ht3 & Hn3).
  rewrite Hv2 in Hs3.
  apply wp_bind. eapply wp_mono; [apply (record_spec k); try done; by apply (st_lock _ _ _ Hs3)|].
  intros [] s4 ((Hr4 & Hs4) & _).
  eapply wp_mono; [by apply (me_free k)|]. intros [] s5 [Hr5 Hv5]. unfold streams. rewrite Hv5. split_and!; [done| |].
  - pose proof (streamed_trans _ _ _ _ _ H1 (streamed_trans _ _ _ _ _ Hs3 Hs4)) as Hs. exact Hs.
  - apply (st_symbel _ _ _ Hs4), (st_symbel _ _ _ Hs3). done.
Qed.

Definition sendable {A} (i : info_set A) : Prop :=
  (Z.to_nat (if (0 <? overflow i)%Z then total_size i else set_size i) ≤ length (items i))%nat.

Lemma infos_send_spec junk k s :
  room (3 + k) s → ms_send_lock (view lm s) = 0 → sendable (ms_tinfos (view lm s)) → sendable (ms_tswinfos (view lm s)) →
  wp (acoral_infos_send lm acoral_vol_malloc acoral_vol_free junk) (λ _ s',
    room (3 + k) s' ∧ sent (packets junk (view lm s)) (view lm s) (view lm s')) s.
Proof.
  intros Hr Hl H1 H2. set (v := view lm s) in *. unfold acoral_infos_send.
  apply wp_bind. eapply wp_mono; [by apply (me_malloc (2 + k))|]. intros p s1 (Hp & Hr1 & Hv1).
  apply wp_bind. eapply wp_mono; [by apply (me_malloc (1 + k))|]. intros q s2 (Hq & Hr2 & Hv2).
  apply wp_bind. eapply wp_mono; [by apply me_enter|]. intros [] s3 (Hr3 & Hv3).
  assert (view lm s3 = v) as Hv by (rewrite Hv3, Hv2; exact Hv1).
  rewrite (proj2 (Z.eqb_neq p 0)), (proj2 (Z.eqb_neq q 0)) by done. apply wp_bind, wp_ret.
  apply wp_bind. eapply wp_zoom_run; [done|]. rewrite update_view. apply wp_bind. eapply wp_zoom_run; [done|]. rewrite update_view, Hv.
  set (v' := set_ms_tswinfos (after_reset (ms_tswinfos v)) (set_ms_tinfos (after_reset (ms_tinfos v)) v)).
  apply wp_bind. apply wp_zoom_run with tt v'; [by rewrite Hv|].
  apply wp_bind. eapply wp_mono; [by apply me_exit, me_update|]. intros [] s4 (Hr4 & Hv4). rewrite view_update in Hv4.
  apply wp_bind. eapply wp_mono; [apply (send_cores_spec junk k); rewrite ?Hv4; done|]. intros [] s5 ((Hr5 & Hs5) & Hsym).
  rewrite Hv4 in Hs5. change (ms_symbel v') with (ms_symbel v) in Hs5.
  pose proof (st_lock _ _ _ Hs5 Hl) as Hl5.
  apply wp_bind. eapply wp_mono; [by apply (send_set_spec Created _ _ _ _ (1 + k))|]. intros [] s6 (Hr6 & Hs6).
  apply wp_bind. eapply wp_mono; [apply (send_set_spec Switched _ _ _ _ (1 + k)); try done; by apply (st_lock _ _ _ Hs6)|].
  intros [] s7 (Hr7 & Hs7).
  apply wp_bind. eapply wp_mono; [by apply (me_free (1 + k))|]. intros [] s8 (Hr8 & Hv8).
  eapply wp_mono; [by apply (me_free (2 + k))|]. intros [] s9 (Hr9 & Hv9). split; [done|].
  assert (view lm s9 = view lm s7) as -> by congruence.
  pose proof (streamed_trans _ _ _ _ _ Hs5 (streamed_trans _ _ _ _ _ Hs6 Hs7)) as [Ho Ht Hw _ Hlk].
  split; [exact Ho|exact Ht|exact Hw| |by apply Hlk].
  apply (st_symbel _ _ _ Hs7), (st_symbel _ _ _ Hs6), Hsym.
Qed.
End send.

(** What is sent of a set: its records when the array was never full, all of the
    array when it was. *)
Lemma slots_sendable {A E} R capped ov old (L : list E) (i : info_set A) : 0 ≤ ov → slots R capped ov old L i → sendable i.
Proof.
  intros Hov [Ht Hl He Ho Hs _ _]. unfold sendable. rewrite Hl, Ht.
  destruct (Z.ltb_spec 0 (overflow i)); [done|]. rewrite Hs. destruct capped; lia.
Qed.

Lemma slots_reset {A E} R capped ov old (L : list E) (i : info_set A) :
  slots R capped ov old L i → slots R capped (ov + Z.of_nat (length L) / 60) (items i) [] (after_reset i).
Proof. intros [Ht Hl He Ho Hs _ _]. rewrite <- Ho. by apply (slots_fresh R capped (after_reset i)). Qed.

Lemma sending_few {A E} (R : E → A → Prop) capped old L (i : info_set A) :
  slots R capped 0 old L i → (length L < 60)%nat → sending i = take (length L) (items i) ∧ Forall2 R L (sending i).
Proof.
  intros Hs HL. pose proof (slots_few _ _ _ _ _ _ Hs HL) as HF. destruct Hs as [Ht Hl He Ho Hsz _ _].
  assert (sending i = take (length L) (items i)) as E1; [|by rewrite E1].
  unfold sending. rewrite Ho, Hsz, (Z.div_small (Z.of_nat (length L)) 60) by lia.
  change (0 <? 0 + 0) with false. replace (Z.max 0 (0 - 1)) with 0 by lia. cbv iota.
  replace (Z.of_nat (length L) - (if capped then 0 else 0)) with (Z.of_nat (length L)) by (destruct capped; lia).
  destruct (Z.ltb_spec 0 (Z.of_nat (length L))); [by rewrite Nat2Z.id|]. by replace (length L) with 0%nat by lia.
Qed.

Lemma sending_full {A E} (R : E → A → Prop) capped ov old L (i : info_set A) :
  slots R capped ov old L i → (0 < length L)%nat → 0 < ov + Z.of_nat (length L) / 60 → sending i = items i.
Proof.
  intros [Ht Hl He Ho Hs _ _] HL Hov. unfold sending. rewrite Ho, Hs, Ht.
  rewrite (proj2 (Z.ltb_lt 0 (ov + _))) by done. rewrite (proj2 (Z.ltb_lt 0 _)) by (destruct capped; lia).
  apply take_ge. lia.
Qed.

Lemma sending_none {A E} (R : E → A → Prop) capped ov old (i : info_set A) : slots R capped ov old [] i → sending i = [].
Proof. intros [_ _ _ _ Hs _ _]. unfold sending. rewrite Hs. by destruct capped. Qed.

Lemma slots_over {A} capped ov (old L : list A) (i : info_set A) :
  slots eq capped ov old L i → length old = 60%nat → (length L ≤ 60)%nat → items i = L ++ drop (length L) old.
Proof.
  intros [Ht Hl He Ho Hs Hlast Hold] Hlo HL. apply list_eq. intros k.
  destruct (decide (k < length L)%nat) as [Hk|Hk].
  - rewrite lookup_app_l by done. destruct (lookup_lt_is_Some_2 L k Hk) as [x Hx].
    destruct (Hlast k x Hx) as (y & Hy & ->); [lia|]. rewrite Nat.mod_small in Hy by lia. congruence.
  - rewrite Hold, lookup_app_r, lookup_drop by lia. f_equal. lia.
Qed.

Lemma only_switches L : creations (Switching <$> L) = [] ∧ switches (Switching <$> L) = L.
Proof.
  unfold creations, switches. induction L as [|w L [IH1 IH2]]; [done|].
  split; cbn [fmap list_fmap omap list_omap]; [done|by f_equal].
Qed.

(** ** Sessions *)
Section session.
Context {S : Type} `{!Critical S} (lm : lens S mstate).
Context (acoral_vol_malloc : Z → M S Z) (acoral_vol_free : Z → M S unit) (room : nat → S → Prop).
Context (period_time : Z → option Z) (junk : list Z).

(** The events of a round, and a send. *)
Definition round (es : list event) : M S unit :=
  zoom lm (add_events period_time es);; acoral_infos_send lm acoral_vol_malloc acoral_vol_free junk.

Fixpoint session (rounds : list (list event)) : M S unit :=
  match rounds with [] => mret tt | es :: rounds => round es;; session rounds end.

(** Both sets are empty, and were full [ov1] and [ov2] times. *)
Definition idle (ov1 ov2 : Z) (v : mstate) : Prop :=
  0 ≤ ov1 ∧ 0 ≤ ov2 ∧ pending ov1 ov2 (items (ms_tinfos v)) (items (ms_tswinfos v)) [] v.

Context `{!MonitorEnv lm acoral_vol_malloc acoral_vol_free room}.

Lemma round_run es s ov1 ov2 :
  room 3 s → idle ov1 ov2 (view lm s) → Forall (event_ok period_time) es → ov1 + ov2 + Z.of_nat (length es) < 2 ^ 32 →
  ∃ s' v, round es s = Ret (tt, s') ∧ room 3 s' ∧
    pending ov1 ov2 (items (ms_tinfos (view lm s))) (items (ms_tswinfos (view lm s))) es v ∧ same_output (view lm s) v ∧
    sent (packets junk v) v (view lm s') ∧
    idle (ov1 + Z.of_nat (length (creations es)) / 60) (ov2 + Z.of_nat (length (switches es)) / 60) (view lm s').
Proof.
  intros Hr (H1 & H2 & Hp) Hok Hb.
  destruct (add_events_run period_time es [] (view lm s) ov1 ov2 _ _ H1 H2 Hb Hok Hp) as (v & Hrun & Hpv & Hsame).
  pose proof Hpv as [Hs1 Hs2 Ho1 Ho2 Hl].
  assert (wp (acoral_infos_send lm acoral_vol_malloc acoral_vol_free junk)
    (λ _ s', room (3 + 0) s' ∧ sent (packets junk v) v (view lm s')) (update lm v s)) as Hw.
  { pose proof (infos_send_spec lm acoral_vol_malloc acoral_vol_free room junk 0 (update lm v s)) as H.
    rewrite view_update in H. apply H; [by apply me_update|done|exact (slots_sendable _ _ _ _ _ _ H1 Hs1)|exact (slots_sendable _ _ _ _ _ _ H2 Hs2)]. }
  apply wp_iff in Hw as ([] & s' & Hrun' & Hr' & Hsent). exists s', v. unfold round.
  erewrite run_bind by (by apply run_zoom). split_and!; try done.
  destruct Hsent as [_ Ht Hw _ Hlk]. split_and!; [lia..|]. rewrite Ht, Hw. 
  split; rewrite ?Ht, ?Hw; [exact (slots_reset _ _ _ _ _ _ Hs1)|exact (slots_reset _ _ _ _ _ _ Hs2)|exact Ho1|exact Ho2|done].
Qed.

(** ** No array gets full *)
Definition few (es : list event) : Prop := (length (creations es) < 60)%nat ∧ (length (switches es) < 60)%nat.

Definition delivered (e : event) (p : packet) : Prop :=
  match e, p with
  | Creation c, Created t => reports c t
  | Switching w, Switched w' => w = w'
  | _, _ => False
  end.

(** The order in which the events of a round are sent. *)
Definition in_order (es : list event) : list event := (Creation <$> creations es) ++ (Switching <$> switches es).

Lemma few_round_run es s :
  room 3 s → idle 0 0 (view lm s) → Forall (event_ok period_time) es → few es →
  ∃ s' ps, round es s = Ret (tt, s') ∧ room 3 s' ∧ idle 0 0 (view lm s') ∧ ms_symbel (view lm s') ≠ 0 ∧
    ms_out (view lm s') = ms_out (view lm s) ++
      (((if ms_symbel (view lm s) =? 0 then cores junk else []) ++ ps) ≫= packet_bytes) ∧
    Forall2 delivered (in_order es) ps ∧ Forall packet_ok ps.
Proof.
  intros Hr Hi Hok [Hc Hw]. pose proof (length_events es) as Hlen.
  destruct (round_run es s 0 0) as (s' & v & Hrun & Hr' & [Hs1 Hs2 Ho1 Ho2 _] & [Hout Hsym] & Hsent & Hi'); try done; [lia|].
  rewrite !Z.div_small in Hi' by lia. destruct Hsent as [Hso _ _ Hss _].
  destruct (sending_few _ _ _ _ _ Hs1 Hc) as [E1 F1]. destruct (sending_few _ _ _ _ _ Hs2 Hw) as [E2 F2].
  eexists s', (_ ++ _). split_and!; [done..| | |].
  - rewrite Hso, Hout. unfold packets. by rewrite Hsym.
  - apply Forall2_app; apply Forall2_fmap_2; [exact F1|exact F2].
  - rewrite E1, E2. apply Forall_app; split; apply Forall_fmap; by apply Forall_take.
Qed.

Lemma few_session_run rounds : ∀ s,
  room 3 s → idle 0 0 (view lm s) → Forall (Forall (event_ok period_time)) rounds → Forall few rounds → ms_symbel (view lm s) ≠ 0 →
  ∃ s' ps, session rounds s = Ret (tt, s') ∧ ms_out (view lm s') = ms_out (view lm s) ++ (ps ≫= packet_bytes) ∧
    Forall2 delivered (rounds ≫= in_order) ps ∧ Forall packet_ok ps.
Proof.
  induction rounds as [|es rounds IH]; intros s Hr Hi Hok Hf Hsym.
  { exists s, []. cbn. by rewrite app_nil_r. }
  apply Forall_cons in Hok as [He Hok]. apply Forall_cons in Hf as [Hfe Hf].
  destruct (few_round_run es s) as (s1 & ps & Hrun & Hr1 & Hi1 & Hs1 & Ho1 & Hd1 & Hp1); try done.
  destruct (IH s1) as (s2 & qs & Hrun2 & Ho2 & Hd2 & Hp2); try done.
  exists s2, (ps ++ qs). cbn [session]. erewrite run_bind by done. split_and!; [done| | |by apply Forall_app].
  - rewrite (proj2 (Z.eqb_neq _ 0)) in Ho1 by done. cbn [app] in Ho1. by rewrite Ho2, Ho1, bind_app, app_assoc.
  - cbn [mbind list_bind]. by apply Forall2_app.
Qed.

(** ** A full array *)
Lemma switches_ok L : Forall switch_ok L → Forall (event_ok period_time) (Switching <$> L).
Proof. intros H. apply Forall_fmap. exact H. Qed.

(** A round of switches where the set was full once, now or before. *)
Lemma full_round_run L s ov1 ov2 :
  room 3 s → idle ov1 ov2 (view lm s) → ms_symbel (view lm s) ≠ 0 → Forall switch_ok L →
  (0 < length L)%nat → 0 < ov2 + Z.of_nat (length L) / 60 → ov1 + ov2 + Z.of_nat (length L) < 2 ^ 32 →
  ∃ s' i, round (Switching <$> L) s = Ret (tt, s') ∧ room 3 s' ∧
    slots eq false ov2 (items (ms_tswinfos (view lm s))) L i ∧
    items (ms_tswinfos (view lm s')) = items i ∧ ms_symbel (view lm s') ≠ 0 ∧
    ms_out (view lm s') = ms_out (view lm s) ++ ((Switched <$> items i) ≫= packet_bytes) ∧
    idle ov1 (ov2 + Z.of_nat (length L) / 60) (view lm s').
Proof.
  intros Hr Hi Hsym Hok HL Hov Hb. destruct (only_switches L) as [E1 E2].
  destruct (round_run (Switching <$> L) s ov1 ov2) as (s' & v & Hrun & Hr' & [Hs1 Hs2 _ _ _] & [Ho Hy] & [Hso Hst Hsw Hss _] & Hi');
    [done|done|by apply switches_ok|by rewrite length_fmap|].
  rewrite E1, E2 in *. change (Z.of_nat (length ([] : list creation)) / 60) with 0 in Hi'. rewrite Z.add_0_r in Hi'.
  exists s', (ms_tswinfos v). split_and!; try done; [by rewrite Hsw|].
  rewrite Hso, Ho. unfold packets. rewrite Hy, (proj2 (Z.eqb_neq _ 0)) by done.
  by rewrite (sending_none _ _ _ _ _ Hs1), (sending_full _ _ _ _ _ _ Hs2).
Qed.

Lemma cores_ok : length junk = 32%nat → Forall packet_ok (cores junk).
Proof.
  intros Hj. unfold cores, core_name. rewrite !Forall_cons, Forall_nil. cbn [packet_ok ci_id ci_frequency ci_name].
  unfold is_word. split_and!; try lia; cbn [app length drop]; rewrite ?length_drop; cbn [length]; rewrite ?length_drop; lia.
Qed.
End session.

(** C21 Every record arrives, once and in its order.  The receiver of the stream
    of a session in which no round has 60 creations or 60 switches gets the two
    cores, and then of each round the creations and the switches; a switch
    arrives as it was, and a creation with the fields of the thread, but for the
    period of a periodic thread.  All this with three objects of memory, which
    are given back. *)
Theorem records_arrive {S : Type} `{!Critical S} (lm : lens S mstate) acoral_vol_malloc acoral_vol_free (room : nat → S → Prop)
    `{!MonitorEnv lm acoral_vol_malloc acoral_vol_free room} (period_time : Z → option Z) (junk : list Z)
    (es : list event) (rounds : list (list event)) (s : S) :
  room 3%nat s → idle 0 0 (view lm s) → ms_symbel (view lm s) = 0 → ms_out (view lm s) = [] → length junk = 32%nat →
  Forall (Forall (event_ok period_time)) (es :: rounds) → Forall few (es :: rounds) →
  ∃ s' ps, session lm acoral_vol_malloc acoral_vol_free period_time junk (es :: rounds) s = Ret (tt, s') ∧
    decode (ms_out (view lm s')) = Some (cores junk ++ ps) ∧ Forall2 delivered ((es :: rounds) ≫= in_order) ps.
Proof.
  intros Hr Hi Hsym Hout Hj [He Hok]%Forall_cons [Hfe Hf]%Forall_cons.
  destruct (few_round_run lm acoral_vol_malloc acoral_vol_free room period_time junk es s)
    as (s1 & ps & Hrun & Hr1 & Hi1 & Hs1 & Ho1 & Hd1 & Hp1); try done.
  destruct (few_session_run lm acoral_vol_malloc acoral_vol_free room period_time junk rounds s1)
    as (s2 & qs & Hrun2 & Ho2 & Hd2 & Hp2); try done.
  exists s2, (ps ++ qs). cbn [session]. erewrite run_bind by done. split_and!; [done| |].
  - rewrite Ho2, Ho1, Hout, Hsym. change (0 =? 0) with true. cbv iota. cbn [app]. rewrite <- bind_app, <- app_assoc.
    apply decode_in_bytes; [|apply length_packets].
    rewrite !Forall_app. split_and!; [by apply cores_ok|done..].
  - cbn [mbind list_bind]. by apply Forall2_app.
Qed.

(** [overflow] is not reset.  Once a round had 60 switches, a round of a few
    sends 60 records: the new ones, and behind them records of the earlier round
    once more. *)
Theorem full_array_repeats {S : Type} `{!Critical S} (lm : lens S mstate) acoral_vol_malloc acoral_vol_free (room : nat → S → Prop)
    `{!MonitorEnv lm acoral_vol_malloc acoral_vol_free room} (period_time : Z → option Z) (junk : list Z)
    (L1 L2 : list thread_switch_info) (ov1 ov2 : Z) (s : S) :
  room 3%nat s → idle ov1 ov2 (view lm s) → ms_symbel (view lm s) ≠ 0 →
  Forall switch_ok L1 → Forall switch_ok L2 → (60 ≤ length L1)%nat → (0 < length L2 ≤ 60)%nat →
  ov1 + ov2 + Z.of_nat (length L1) + Z.of_nat (length L2) < 2 ^ 32 →
  ∃ s' kept, session lm acoral_vol_malloc acoral_vol_free period_time junk [Switching <$> L1; Switching <$> L2] s = Ret (tt, s') ∧
    length kept = 60%nat ∧
    (∀ (j : nat) w, L1 !! j = Some w → (length L1 ≤ j + 60)%nat → kept !! (j mod 60)%nat = Some w) ∧
    ms_out (view lm s') = ms_out (view lm s) ++ ((Switched <$> kept ++ L2 ++ drop (length L2) kept) ≫= packet_bytes).
Proof.
  intros Hr Hi Hsym Hok1 Hok2 HL1 HL2 Hb. pose proof Hi as (H1 & H2 & _).
  destruct (full_round_run lm acoral_vol_malloc acoral_vol_free room period_time junk L1 s ov1 ov2)
    as (s1 & i1 & Hrun1 & Hr1 & Hs1 & Hk & Hy1 & Ho1 & Hi1); [done..|lia|lia|lia|].
  destruct (full_round_run lm acoral_vol_malloc acoral_vol_free room period_time junk L2 s1 ov1 (ov2 + Z.of_nat (length L1) / 60))
    as (s2 & i2 & Hrun2 & _ & Hs2 & _ & _ & Ho2 & _); [done..|lia|lia|lia|].
  exists s2, (items i1). cbn [session]. erewrite run_bind by done. split_and!; [by erewrite run_bind by done| | |].
  - by destruct Hs1.
  - intros j w Hj Hlt. destruct (sl_last _ _ _ _ _ _ Hs1 j w Hj Hlt) as (x & Hx & ->). done.
  - rewrite Ho2, Ho1. rewrite (slots_over _ _ _ _ _ Hs2); [|rewrite Hk; by destruct Hs1|lia].
    by rewrite Hk, (fmap_app _ (items i1)), bind_app, app_assoc.
Qed.

(** ** The theorems on an allocator with three objects *)
Module Bench.
#[local] Instance desk_critical : Critical (nat * mstate) := { cr_enter := mret tt; cr_exit := mret tt }.
Definition lm : lens (nat * mstate) mstate := Lens snd (λ v '(k, _), (k, v)).
Definition malloc (n : Z) : M (nat * mstate) Z := λ '(k, v), match k with O => Ret (0, (O, v)) | S k => Ret (4096, (k, v)) end.
Definition free (p : Z) : M (nat * mstate) unit := λ '(k, v), Ret (tt, (S k, v)).
Definition room (k : nat) (s : nat * mstate) : Prop := fst s = k.

#[local] Instance desk_env : MonitorEnv lm malloc free room.
Proof.
  split; unfold room; [split|..]; intros; repeat match goal with s : _ * _ |- _ => destruct s end; simpl in *; subst; done.
Qed.

Definition start (y : Z) : mstate := mk_mstate tinfos_real tswinfos_real y 0 0 0 [].
Definition times (p : Z) : option Z := if p =? 800 then Some 25 else None.
Definition thread : KTypes.thread := mk_thread 0 0 128 0 0 9 1 3 22 0 0 0 0 0 0 0 0 800 0.
Definition created : creation := mk_creation [103; 112; 115] 41 5120 thread.
Definition switched (n : Z) : thread_switch_info := mk_tswinfo (n mod 2) n 5120 5240.
Definition junk : list Z := replicate 32 7.

Lemma start_idle y : idle 0 0 (start y).
Proof.
  split; [done|]. split; [done|].
  split; [by apply (slots_fresh reports true tinfos_real)|by apply (slots_fresh eq false tswinfos_real)| | |done];
    apply Forall_replicate; unfold tinfo_ok, switch_ok, is_word; rewrite !Forall_cons, Forall_nil; cbn; lia.
Qed.

Lemma switched_ok n : 0 ≤ n < 2 ^ 32 → switch_ok (switched n).
Proof. intros Hn. unfold switch_ok, switched, is_word. cbn. rewrite !Forall_cons, Forall_nil. lia. Qed.

Lemma created_ok : creation_ok times created.
Proof. unfold creation_ok, is_word. cbn. split_and!; try lia. by exists 25. Qed.

Lemma records_arrive_witness :
  ∃ s' ps, session lm malloc free times junk [[Creation created; Switching (switched 42)]; []; [Switching (switched 44)]] (3%nat, start 0) = Ret (tt, s') ∧
    decode (ms_out (view lm s')) = Some (cores junk ++ ps) ∧
    Forall2 delivered [Creation created; Switching (switched 42); Switching (switched 44)] ps.
Proof.
  apply (records_arrive lm malloc free room times junk [Creation created; Switching (switched 42)] [[]; [Switching (switched 44)]] (3%nat, start 0));
    try done; [apply start_idle| |].
  - rewrite !Forall_cons, !Forall_nil. split_and!; try done; [apply created_ok|apply switched_ok; lia..].
  - rewrite !Forall_cons, !Forall_nil. unfold few. cbn. lia.
Defined.

Lemma packets_roundtrip_witness :
  let ps := [Switched (switched 7); Created (new_record created (mk_tinfo 0 0 0 0 0 0 0 (replicate 32 43)))] in
  decode (ps ≫= packet_bytes) = Some ps.
Proof.
  apply packets_roundtrip. rewrite !Forall_cons, Forall_nil. split_and!; [apply switched_ok; lia| |done].
  apply (new_record_ok times); [apply created_ok|]. split; [|done]. unfold is_word. rewrite !Forall_cons, Forall_nil. cbn. lia.
Defined.

Lemma full_array_repeats_witness :
  let L1 := switched <$> seqZ 0 60 in
  ∃ s' kept, session lm malloc free times junk [Switching <$> L1; [Switching (switched 99)]] (3%nat, start 1) = Ret (tt, s') ∧
    kept !! 59%nat = Some (switched 59) ∧
    ms_out (view lm s') = (Switched <$> kept ++ [switched 99] ++ drop 1 kept) ≫= packet_bytes.
Proof.
  destruct (full_array_repeats lm malloc free room times junk (switched <$> seqZ 0 60) [switched 99] 0 0 (3%nat, start 1))
    as (s' & kept & Hrun & _ & Hkept & Hout).
  - reflexivity.
  - apply start_idle.
  - discriminate.
  - apply Forall_fmap, Forall_forall. intros n Hn%elem_of_seqZ. apply switched_ok. lia.
  - apply Forall_singleton, switched_ok. lia.
  - rewrite length_fmap, length_seqZ. lia.
  - cbn. lia.
  - rewrite length_fmap, length_seqZ. cbn. lia.
  - exists s', kept. split; [exact Hrun|]. split; [|exact Hout].
    apply (Hkept 59%nat (switched 59)); [reflexivity|]. rewrite length_fmap, length_seqZ. lia.
Defined.
End Bench.
