(* ===== verification/Mmu.v ===== *)
(** * bsp/zynq7020/drivers/mmu: page tables and user spaces

    mmu.c fills the tables of the processor's short-descriptor format, usr_vspace.c
    gives spaces of their own tables and switches between them.  Memory is the
    words of the tables, by address; a store outside of them is an access to no
    object.  Of the processor there are the registers that the code writes and
    the barriers and invalidations it issues, in their order.  What [printf]
    prints is left out.  The addresses of the tables and of the areas of the
    linker script are the class [MmuLayout]. *)
From S2P Require Import Prelude.
From stdpp Require Import list gmap.
#[local] Open Scope Z_scope.

Inductive barrier : Type := ISB | DSB | TLBIALL | BPIALL.

Record mmu : Type := mk_mmu {
  u_mem : gmap Z Z;
  u_sctlr : Z;
  u_ttbr0 : Z;
  u_contextidr : Z;
  u_barriers : list barrier;
  u_usr_space_alloc_index : Z;
  u_L2tables_alloc_index : Z;
}.
Definition set_u_mem v s := mk_mmu v (u_sctlr s) (u_ttbr0 s) (u_contextidr s) (u_barriers s) (u_usr_space_alloc_index s) (u_L2tables_alloc_index s).
Definition set_u_sctlr v s := mk_mmu (u_mem s) v (u_ttbr0 s) (u_contextidr s) (u_barriers s) (u_usr_space_alloc_index s) (u_L2tables_alloc_index s).
Definition set_u_ttbr0 v s := mk_mmu (u_mem s) (u_sctlr s) v (u_contextidr s) (u_barriers s) (u_usr_space_alloc_index s) (u_L2tables_alloc_index s).
Definition set_u_contextidr v s := mk_mmu (u_mem s) (u_sctlr s) (u_ttbr0 s) v (u_barriers s) (u_usr_space_alloc_index s) (u_L2tables_alloc_index s).
Definition set_u_barriers v s := mk_mmu (u_mem s) (u_sctlr s) (u_ttbr0 s) (u_contextidr s) v (u_usr_space_alloc_index s) (u_L2tables_alloc_index s).
Definition set_u_usr_space_alloc_index v s := mk_mmu (u_mem s) (u_sctlr s) (u_ttbr0 s) (u_contextidr s) (u_barriers s) v (u_L2tables_alloc_index s).
Definition set_u_L2tables_alloc_index v s := mk_mmu (u_mem s) (u_sctlr s) (u_ttbr0 s) (u_contextidr s) (u_barriers s) (u_usr_space_alloc_index s) v.

Abbreviation U := (M mmu).

Class MmuLayout : Type := {
  adr_1st_page_table : Z;
  adr_2nd_page_table : Z;
  usr_space_start : Z;
  usr_space_end : Z;
  L2tables_start : Z;
  L2tables_end : Z;
}.

(** [*p = v] of a word. *)
Definition store32 (p v : Z) : U unit := λ s,
  match u_mem s !! p with
  | Some _ => Ret (tt, set_u_mem (<[p := v]> (u_mem s)) s)
  | None => Err Wild
  end.

Definition barriers (l : list barrier) : U unit := modify (λ s, set_u_barriers (u_barriers s ++ l) s).

(** ** Registers (cp15.h) *)
Definition SCTLR_M : Z := Z.shiftl 1 0.
Definition SCTLR_C : Z := Z.shiftl 1 2.
Definition SCTLR_I : Z := Z.shiftl 1 12.

Definition mmu_set_L1_table_addr (addr : Z) : U unit := modify (set_u_ttbr0 (Z.lor addr 0x5b)).

Definition mmu_set_CONTEXTIDR (procid asid : Z) : U Z :=
  if negb (Z.land procid (u32 (Z.lnot 0x00ffffff)) =? 0) || negb (Z.land asid (u32 (Z.lnot 0x000000ff)) =? 0)
  then mret (-1)
  else
    modify (set_u_contextidr (Z.lor (u32 (Z.shiftl procid 8)) (Z.shiftl asid 0)));;
    barriers [DSB; ISB];;
    mret 0.

Definition mmu_enable : U unit :=
  reg ← get u_sctlr; modify (set_u_sctlr (Z.lor reg SCTLR_M));; barriers [DSB; ISB].
Definition mmu_disable : U unit :=
  reg ← get u_sctlr; modify (set_u_sctlr (Z.land reg (u32 (Z.lnot SCTLR_M)))).
Definition mmu_tlb_invalidate : U unit := barriers [TLBIALL].
Definition mmu_branch_predictor_invalidate : U unit := barriers [BPIALL].
Definition cache_enable : U unit :=
  reg ← get u_sctlr; modify (set_u_sctlr (Z.lor reg (Z.lor SCTLR_C SCTLR_I)));; barriers [DSB].
Definition cache_disable : U unit :=
  reg ← get u_sctlr; modify (set_u_sctlr (Z.land reg (u32 (Z.lnot (Z.lor SCTLR_C SCTLR_I)))));; barriers [DSB].

(** ** mmu.c: the tables *)
Section tables.
Context `{!MmuLayout}.

(** [for (i = 0; i <= nSec; i++)] from [i] on, [n] times. *)
Fixpoint section_loop (n : nat) (i pTT paddr_start attr : Z) : U unit :=
  match n with
  | O => mret tt
  | S n =>
      store32 pTT (Z.lor attr (u32 (Z.shiftl (u32 (Z.shiftr paddr_start 20 + i)) 20)));;
      section_loop n (i + 1) (pTT + 4) paddr_start attr
  end.

(** The test is [(vaddr_end-vaddr_start+1) & (0xfffff != 0)]. *)
Definition mmu_set_L1table (vaddr_start vaddr_end paddr_start attr : Z) : U unit :=
  (if negb (Z.land (u32 (vaddr_end - vaddr_start + 1)) 1 =? 0) then fail Hang else mret tt);;
  let pTT := adr_1st_page_table + 4 * Z.shiftr vaddr_start 20 in
  let nSec := s32 (Z.shiftr vaddr_end 20 - Z.shiftr vaddr_start 20) in
  section_loop (Z.to_nat (nSec + 1)) 0 pTT paddr_start attr.

(** A table of the second level, from entry [j] on; [attr] is added to each
    address. *)
Fixpoint page_loop (n : nat) (j pte_2nd paddr attr : Z) : U unit :=
  match n with
  | O => mret tt
  | S n =>
      let target_paddr := u32 (paddr + Z.shiftl j 12) in
      (if negb (Z.land target_paddr (Z.shiftl 1 12 - 1) =? 0) then fail Hang else mret tt);;
      store32 pte_2nd (Z.lor target_paddr attr);;
      page_loop n (j + 1) (pte_2nd + 4) paddr attr
  end.

Fixpoint table_loop (n : nat) (i start ptr_1st paddr_start : Z) : U unit :=
  match n with
  | O => mret tt
  | S n =>
      let pte_2nd := adr_2nd_page_table + 1024 * (start + i) in
      (if negb (Z.land pte_2nd 0x3ff =? 0) then fail Hang else mret tt);;
      store32 ptr_1st (Z.lor pte_2nd 0x1e1);;
      page_loop 256 0 pte_2nd (paddr_start + Z.shiftl i 20) 0x576;;
      table_loop n (i + 1) start (ptr_1st + 4) paddr_start
  end.

Definition mmu_set_L2table (vaddr_start vaddr_end paddr_start : Z) : U unit :=
  let start := Z.shiftr vaddr_start 20 in
  let num := u32 (Z.shiftr vaddr_end 20 - Z.shiftr vaddr_start 20) in
  table_loop (Z.to_nat num) 0 start (adr_1st_page_table + 4 * start) paddr_start.

Definition mmu_set_attribute (addr attr : Z) : U unit :=
  let ptr_1st := adr_1st_page_table + 4 * Z.shiftr addr 20 in
  when (negb (ptr_1st =? 0)) (store32 ptr_1st (Z.lor (Z.land addr 0xFFF00000) attr));;
  mmu_tlb_invalidate;;
  mmu_branch_predictor_invalidate;;
  barriers [DSB; ISB].

Definition mmu_pre_init : U unit :=
  cache_disable;;
  mmu_disable;;
  mmu_set_L1table 0x0 0xffffffff 0x0 0x15de6;;
  mmu_set_L1_table_addr adr_1st_page_table;;
  mmu_enable.

Definition mmu_init : U unit :=
  cache_disable;;
  mmu_disable;;
  mmu_set_L1table 0x0 0xffffffff 0x0 0x15de6;;
  mmu_set_L1table 0x00000000 0x000fffff 0x00000000 0x14de6;;
  mmu_set_L1table 0x00100000 0x3fffffff 0x00100000 0x15de6;;
  mmu_set_L1table 0x40000000 0x7fffffff 0x40000000 0x00c02;;
  mmu_set_L1table 0x80000000 0xbfffffff 0x80000000 0x00c02;;
  mmu_set_L1table 0xc0000000 0xdfffffff 0xc0000000 0x00000;;
  mmu_set_L1table 0xe0000000 0xe02fffff 0xe0000000 0x00c06;;
  mmu_set_L1table 0xe0300000 0xe0ffffff 0xe0300000 0x00000;;
  mmu_set_L1table 0xe1000000 0xe1ffffff 0xe1000000 0x00c06;;
  mmu_set_L1table 0xe2000000 0xe3ffffff 0xe2000000 0x00c06;;
  mmu_set_L1table 0xe4000000 0xe5ffffff 0xe4000000 0x00c0e;;
  mmu_set_L1table 0xe6000000 0xf7ffffff 0xe6000000 0x00000;;
  mmu_set_L1table 0xf8000000 0xf8ffffff 0xf8000000 0x00c06;;
  mmu_set_L1table 0xf9000000 0xfbffffff 0xf9000000 0x00000;;
  mmu_set_L1table 0xfc000000 0xfdffffff 0xfc000000 0x00c0a;;
  mmu_set_L1table 0xfe000000 0xffefffff 0xfe000000 0x00000;;
  mmu_set_L1table 0xfff00000 0xffffffff 0xfff00000 0x04c0e;;
  mmu_set_L1_table_addr adr_1st_page_table;;
  mmu_enable.

(** ** usr_vspace.c: user spaces *)
Record usr_vspace_t : Type := mk_uvs {
  asid : Z;
  vaddr_start : Z;
  space_length : Z;
  L2table_addr : Z;
}.

Definition MMU_L2TBL_SIZE : Z := 256 * 4.

(** The result is [ret] and what is stored through the pointer, if anything. *)
Definition mmu_alloc_L2_table : U (Z * option Z) :=
  index ← get u_L2tables_alloc_index;
  if MMU_L2TBL_SIZE <=? u32 (L2tables_end - index) then
    modify (set_u_L2tables_alloc_index (u32 (index + MMU_L2TBL_SIZE)));;
    mret (0, Some (u32 (L2tables_start + index)))
  else mret (-1, None).

Definition mmu_alloc_usr_space_aligned (length : Z) : U (Z * option (Z * Z)) :=
  if Z.land length 0x00000fff =? 0 then
    index ← get u_usr_space_alloc_index;
    if length <=? u32 (usr_space_end - index) then
      t ← get u_L2tables_alloc_index;
      if MMU_L2TBL_SIZE <=? u32 (L2tables_end - t) then
        modify (set_u_L2tables_alloc_index (u32 (t + MMU_L2TBL_SIZE)));;
        modify (set_u_usr_space_alloc_index (u32 (index + length)));;
        mret (0, Some (u32 (L2tables_start + t), u32 (usr_space_start + index)))
      else mret (-1, None)
    else mret (-1, None)
  else mret (-1, None).

(** The number of entries of the first level of a space. *)
Definition ptr_1st_num (length : Z) : Z := if Z.shiftr length 20 =? 0 then 1 else Z.shiftr length 20.

Fixpoint map_loop (n : nat) (i pte_2nd paddr : Z) : U unit :=
  match n with
  | O => mret tt
  | S n =>
      (if negb (Z.land pte_2nd 0x3ff =? 0) then fail Hang else mret tt);;
      page_loop 256 0 pte_2nd (paddr + Z.shiftl i 20) 0xd76;;
      map_loop n (i + 1) (pte_2nd + 1024) paddr
  end.

(** The result is [ret], which is never set, and the space. *)
Definition mmu_map_usr_space (uvs : usr_vspace_t) (L2table_addr vaddr paddr len : Z) : U (Z * usr_vspace_t) :=
  map_loop (Z.to_nat (ptr_1st_num len)) 0 L2table_addr paddr;;
  mret (-1, mk_uvs (asid uvs) vaddr len L2table_addr).

Fixpoint activate_loop (n : nat) (ptr_1st pte_2nd : Z) : U unit :=
  match n with
  | O => mret tt
  | S n =>
      (if negb (Z.land pte_2nd 0x3ff =? 0) then fail Hang else mret tt);;
      store32 ptr_1st (Z.lor pte_2nd 0x1e1);;
      activate_loop n (ptr_1st + 4) (pte_2nd + 1024)
  end.

Definition mmu_activate_usr_space (uvs : usr_vspace_t) : U Z :=
  activate_loop (Z.to_nat (ptr_1st_num (space_length uvs))) (adr_1st_page_table + 4 * Z.shiftr (vaddr_start uvs) 20) (L2table_addr uvs);;
  mret (-1).

(** One switch of [test_usr_space], up to the access behind it. *)
Definition switch_space (id : Z) (uvs : usr_vspace_t) : U unit :=
  mmu_disable;;
  mmu_set_CONTEXTIDR 0 id;;
  mmu_activate_usr_space uvs;;
  mmu_enable.

Definition VADDR : Z := 0xc0000000.

(** [f] is the code that was put into the memory of the spaces.  The addresses of
    the tables have no value where the allocation failed. *)
Definition test_usr_space (f : U unit) : U unit :=
  cache_disable;;
  mmu_disable;;
  mmu_set_L1table 0x0 0xffffffff 0x0 0x15de6;;
  '(_, L2table1_addr) ← mmu_alloc_L2_table;
  '(_, L2table2_addr) ← mmu_alloc_L2_table;
  match L2table1_addr, L2table2_addr with
  | Some L2table1_addr, Some L2table2_addr =>
      '(_, uvs1) ← mmu_map_usr_space (mk_uvs 0 0 0 0) L2table1_addr VADDR 0x30000000 0x100000;
      '(_, uvs2) ← mmu_map_usr_space (mk_uvs 0 0 0 0) L2table2_addr VADDR 0x30100000 0x100000;
      mmu_set_L1_table_addr adr_1st_page_table;;
      mmu_enable;;
      switch_space 0x11 uvs1;; f;;
      switch_space 0x22 uvs2;; f;;
      switch_space 0x11 uvs1;; f
  | _, _ => fail Wild
  end.
End tables.
