(* ===== verification/MmuSpec.v ===== *)
(** * Correctness of the page tables

    The reference is the processor's table walk ([translate]) in the
    short-descriptor format, as the architecture documents it: from the base in
    TTBR0 over a section, or over a table of the second level.  The theorems say
    which addresses an operation maps where, and that it leaves the others. *)
From S2P Require Import Prelude Mmu.
From stdpp Require Import list gmap.
From Stdlib Require Import ZifyNat.
#[local] Open Scope Z_scope.

#[local] Ltac Zify.zify_post_hook ::= Z.to_euclidean_division_equations.

(** ** Reference: the walk *)

(** The address that a descriptor of the second level gives: a small page, a
    large page, or a fault. *)
Definition walk2 (l2 va : Z) : option Z :=
  if Z.testbit l2 1 then Some (2 ^ 12 * (l2 / 2 ^ 12) + va mod 2 ^ 12)
  else if Z.testbit l2 0 then Some (2 ^ 16 * (l2 / 2 ^ 16) + va mod 2 ^ 16)
  else None.

(** A descriptor of the first level: a table, a section or supersection, or a
    fault. *)
Definition walk1 (m : gmap Z Z) (l1 va : Z) : option Z :=
  if Z.testbit l1 1 then
    if Z.testbit l1 18 then Some (2 ^ 24 * (l1 / 2 ^ 24) + va mod 2 ^ 24)
    else Some (2 ^ 20 * (l1 / 2 ^ 20) + va mod 2 ^ 20)
  else if Z.testbit l1 0 then
    l2 ← m !! (2 ^ 10 * (l1 / 2 ^ 10) + 4 * (va / 2 ^ 12 mod 2 ^ 8)); walk2 l2 va
  else None.

Definition translate (s : mmu) (va : Z) : option Z :=
  l1 ← u_mem s !! (2 ^ 14 * (u_ttbr0 s / 2 ^ 14) + 4 * (va / 2 ^ 20)); walk1 (u_mem s) l1 va.

(** The index of an address in the first level. *)
Definition section (va : Z) : Z := va / 2 ^ 20.

(** ** Stores into tables *)

(** [m'] is [m] with [f 0], [f 1] up to [f (n - 1)] at [p]. *)
Record fills (p n : Z) (f : Z → Z) (m m' : gmap Z Z) : Prop := {
  fi_in : ∀ k, 0 ≤ k < n → m' !! (p + 4 * k) = Some (f k);
  fi_out : ∀ a, ¬ (p ≤ a < p + 4 * n) → m' !! a = m !! a;
}.

(** The words from [p] on are there. *)
Definition words (p n : Z) (m : gmap Z Z) : Prop := ∀ k, 0 ≤ k < n → is_Some (m !! (p + 4 * k)).

Lemma fills_nil p f m : fills p 0 f m m.
Proof. split; [lia|done]. Qed.

Lemma fills_cons p n f m m' :
  0 ≤ n → fills (p + 4) n (λ k, f (k + 1)) (<[p := f 0]> m) m' → fills p (n + 1) f m m'.
Proof.
  intros Hn [Hin Hout]. split.
  - intros k Hk. destruct (decide (k = 0)) as [->|Hne].
    + rewrite Hout by lia. rewrite Z.mul_0_r, Z.add_0_r. by rewrite lookup_insert_eq.
    + replace (p + 4 * k) with (p + 4 + 4 * (k - 1)) by lia. rewrite Hin by lia. by rewrite Z.sub_add.
  - intros a Ha. rewrite Hout, lookup_insert_ne by lia. done.
Qed.

Lemma fills_words p n f m m' q j : fills p n f m m' → (q - p) mod 4 = 0 → words q j m → words q j m'.
Proof.
  intros [Hin Hout] Ha Hw k Hk. destruct (decide (p ≤ q + 4 * k < p + 4 * n)) as [Hr|Hr]; [|rewrite Hout by done; by apply Hw].
  replace (q + 4 * k) with (p + 4 * ((q - p) / 4 + k)) by lia. rewrite Hin by lia. done.
Qed.

Lemma words_insert p n q v m : words p n m → words p n (<[q := v]> m).
Proof. intros Hw k Hk. apply lookup_insert_is_Some'. right. by apply Hw. Qed.

Lemma words_next p n m : words p (n + 1) m → words (p + 4) n m.
Proof. intros Hw k Hk. replace (p + 4 + 4 * k) with (p + 4 * (k + 1)) by lia. apply Hw. lia. Qed.

Lemma store32_run p v s : is_Some (u_mem s !! p) → store32 p v s = Ret (tt, set_u_mem (<[p := v]> (u_mem s)) s).
Proof. intros [x Hx]. unfold store32. by rewrite Hx. Qed.

Lemma set_mem_mem m m' s : set_u_mem m (set_u_mem m' s) = set_u_mem m s.
Proof. done. Qed.

(** ** Bits of descriptors *)

(** A base and an attribute below it. *)
Lemma lor_base b c n : 0 ≤ n → 0 ≤ c < 2 ^ n → b mod 2 ^ n = 0 → Z.lor b c = b + c.
Proof.
  intros Hn Hc Hb. pose proof (lor_shiftl_add (b / 2 ^ n) n c Hn Hc) as E.
  rewrite Z.shiftl_mul_pow2 in E by done. replace (b / 2 ^ n * 2 ^ n) with b in E; [exact E|].
  pose proof (Z.div_mod b (2 ^ n)). lia.
Qed.

Lemma testbit_low x n i : 0 ≤ i < n → Z.testbit x i = Z.testbit (x mod 2 ^ n) i.
Proof. intros Hi. by rewrite Z.mod_pow2_bits_low by lia. Qed.

Lemma testbit_sum b c n i : 0 ≤ i < n → b mod 2 ^ n = 0 → 0 ≤ c < 2 ^ n → Z.testbit (b + c) i = Z.testbit c i.
Proof.
  intros Hi Hb Hc. rewrite (testbit_low (b + c) n) by done. f_equal.
  rewrite Z.add_mod, Hb, Z.add_0_l, Zmod_mod by lia. by apply Z.mod_small.
Qed.

(** ** The loops *)
Definition section_desc (attr paddr i : Z) : Z := Z.lor attr (u32 (Z.shiftl (u32 (Z.shiftr paddr 20 + i)) 20)).
Definition page_desc (attr paddr j : Z) : Z := Z.lor (u32 (paddr + Z.shiftl j 12)) attr.

Lemma section_loop_run n : ∀ i p paddr attr s,
  words p (Z.of_nat n) (u_mem s) →
  ∃ m, section_loop n i p paddr attr s = Ret (tt, set_u_mem m s) ∧
    fills p (Z.of_nat n) (λ k, section_desc attr paddr (i + k)) (u_mem s) m.
Proof.
  induction n as [|n IH]; intros i p paddr attr s Hw; cbn [section_loop].
  { exists (u_mem s). split; [by destruct s|apply fills_nil]. }
  rewrite Nat2Z.inj_succ, <- Z.add_1_r in *.
  assert (is_Some (u_mem s !! p)) by (rewrite <- (Z.add_0_r p); apply (Hw 0); lia).
  erewrite run_bind by (by apply store32_run).
  match goal with |- context [section_loop n _ _ _ _ ?s1] =>
    destruct (IH (i + 1) (p + 4) paddr attr s1) as (m & Hrun & Hf); [by apply words_insert, words_next|] end.
  exists m. rewrite Hrun. split; [done|]. apply fills_cons; [lia|]. rewrite Z.add_0_r. 
  destruct Hf as [Hi Ho]. split; [|exact Ho]. intros k Hk. rewrite Hi by done. do 2 f_equal. lia.
Qed.

Lemma page_desc_aligned paddr j : paddr mod 2 ^ 12 = 0 → Z.land (u32 (paddr + Z.shiftl j 12)) (Z.shiftl 1 12 - 1) = 0.
Proof.
  intros Hp. change (Z.shiftl 1 12 - 1) with (Z.ones 12). rewrite Z.land_ones, Z.shiftl_mul_pow2 by lia.
  unfold wrapu. change (2 ^ 32) with 4294967296. change (2 ^ 12) with 4096 in *. lia.
Qed.

Lemma page_loop_run n : ∀ j p paddr attr s,
  paddr mod 2 ^ 12 = 0 → words p (Z.of_nat n) (u_mem s) →
  ∃ m, page_loop n j p paddr attr s = Ret (tt, set_u_mem m s) ∧
    fills p (Z.of_nat n) (λ k, page_desc attr paddr (j + k)) (u_mem s) m.
Proof.
  induction n as [|n IH]; intros j p paddr attr s Hp Hw; cbn [page_loop].
  { exists (u_mem s). split; [by destruct s|apply fills_nil]. }
  rewrite Nat2Z.inj_succ, <- Z.add_1_r in *.
  assert (is_Some (u_mem s !! p)) by (rewrite <- (Z.add_0_r p); apply (Hw 0); lia).
  rewrite page_desc_aligned by done. cbv zeta. change (negb (0 =? 0)) with false. cbv iota.
  erewrite run_bind by done. erewrite run_bind by (by apply store32_run).
  match goal with |- context [page_loop n _ _ _ _ ?s1] =>
    destruct (IH (j + 1) (p + 4) paddr attr s1) as (m & Hrun & Hf); [done|by apply words_insert, words_next|] end.
  exists m. rewrite Hrun. split; [done|]. apply fills_cons; [lia|]. rewrite Z.add_0_r.
  destruct Hf as [Hi Ho]. split; [|exact Ho]. intros k Hk. rewrite Hi by done. do 2 f_equal. lia.
Qed.

(** ** Layout *)

(** The linker's placement: the first-level table on 16 KB, the tables of the
    second level of mmu.c on 1 KB, in 32 bits, apart from each other. *)
Class MmuLaid `{!MmuLayout} : Prop := {
  laid_1st : adr_1st_page_table mod 2 ^ 14 = 0;
  laid_1st_range : 0 ≤ adr_1st_page_table ≤ 2 ^ 32 - 2 ^ 14;
  laid_2nd : adr_2nd_page_table mod 2 ^ 10 = 0;
  laid_2nd_range : 0 ≤ adr_2nd_page_table ≤ 2 ^ 32 - 2 ^ 22;
  laid_apart : adr_1st_page_table + 2 ^ 14 ≤ adr_2nd_page_table ∨ adr_2nd_page_table + 2 ^ 22 ≤ adr_1st_page_table;
}.

Section layout.
Context `{!MmuLayout, !MmuLaid}.

Definition entry (s : mmu) (k : Z) : option Z := u_mem s !! (adr_1st_page_table + 4 * k).

(** A table of the second level at [t]: on 1 KB, outside of the first level, and
    the one of its own section or none of mmu.c's. *)
Definition second (k t : Z) : Prop :=
  (t + 2 ^ 10 ≤ adr_1st_page_table ∨ adr_1st_page_table + 2 ^ 14 ≤ t) ∧
  (t = adr_2nd_page_table + 2 ^ 10 * k ∨ t + 2 ^ 10 ≤ adr_2nd_page_table ∨ adr_2nd_page_table + 2 ^ 22 ≤ t).

(** The tables are there, each entry that is a table leads to one of the second
    level, and the processor walks the first-level table. *)
Record tables (s : mmu) : Prop := {
  tb_1st : words adr_1st_page_table (2 ^ 12) (u_mem s);
  tb_2nd : words adr_2nd_page_table (2 ^ 20) (u_mem s);
  tb_second : ∀ k l1, 0 ≤ k < 2 ^ 12 → entry s k = Some l1 → Z.testbit l1 1 = false → Z.testbit l1 0 = true →
    second k (2 ^ 10 * (l1 / 2 ^ 10));
}.
Definition active (s : mmu) : Prop := 2 ^ 14 * (u_ttbr0 s / 2 ^ 14) = adr_1st_page_table.

Lemma translate_entry s va :
  active s → translate s va = (l1 ← entry s (section va); walk1 (u_mem s) l1 va).
Proof. unfold active, translate, entry, section. by intros ->. Qed.

(** What two states translate alike. *)
Lemma translate_same s s' va l1 :
  active s → active s' → 0 ≤ va < 2 ^ 32 → entry s (section va) = Some l1 → entry s' (section va) = Some l1 →
  (Z.testbit l1 1 = false → Z.testbit l1 0 = true → ∀ j, 0 ≤ j < 2 ^ 8 →
    u_mem s' !! (2 ^ 10 * (l1 / 2 ^ 10) + 4 * j) = u_mem s !! (2 ^ 10 * (l1 / 2 ^ 10) + 4 * j)) →
  translate s' va = translate s va.
Proof.
  intros Ha Ha' Hv He He' Hm. rewrite !translate_entry, He, He' by done. cbn [mbind option_bind].
  unfold walk1. destruct (Z.testbit l1 1); [done|]. destruct (Z.testbit l1 0); [|done].
  rewrite Hm; [done|done|done|]. apply Z.mod_pos_bound. lia.
Qed.

(** The descriptor of a section. *)
Definition block (attr paddr i : Z) : Z := 2 ^ 20 * ((paddr / 2 ^ 20 + i) mod 2 ^ 12) + attr.

Lemma section_desc_block attr paddr i : 0 ≤ attr < 2 ^ 20 → section_desc attr paddr i = block attr paddr i.
Proof.
  intros Ha. unfold section_desc, block, wrapu. rewrite Z.shiftr_div_pow2, Z.shiftl_mul_pow2 by lia.
  rewrite Z.lor_comm, (lor_base _ _ 20); [|done|done|];
    change (2 ^ 20) with 1048576 in *; change (2 ^ 32) with 4294967296 in *; change (2 ^ 12) with 4096 in *; lia.
Qed.

(** An attribute of a section, or of a fault. *)
Definition section_attr (attr : Z) : Prop := 0 ≤ attr < 2 ^ 18 ∧ (Z.testbit attr 1 = false → Z.testbit attr 0 = false).

Lemma block_bits attr paddr i n : 0 ≤ n < 20 → 0 ≤ attr < 2 ^ 20 → Z.testbit (block attr paddr i) n = Z.testbit attr n.
Proof.
  intros Hn Ha. unfold block. apply testbit_sum with 20; [done| |done]. rewrite Z.mul_comm. apply Z_mod_mult.
Qed.

Lemma walk_block m attr paddr i va :
  section_attr attr →
  walk1 m (block attr paddr i) va =
  if Z.testbit attr 1 then Some (2 ^ 20 * ((paddr / 2 ^ 20 + i) mod 2 ^ 12) + va mod 2 ^ 20) else None.
Proof.
  intros [Ha Hf]. unfold walk1. rewrite !block_bits by lia.
  assert (Z.testbit attr 18 = false) as ->.
  { rewrite <- (Z.mod_small attr (2 ^ 18)) by done. apply Z.mod_pow2_bits_high. lia. }
  destruct (Z.testbit attr 1); [|by rewrite Hf]. do 2 f_equal. unfold block.
  change (2 ^ 20) with 1048576 in *. change (2 ^ 18) with 262144 in *. lia.
Qed.

(** ** Sections *)

Lemma odd_test x : Z.land x 1 = x mod 2.
Proof. change 1 with (Z.ones 1) at 1. by rewrite Z.land_ones by lia. Qed.

(** [mmu_set_L1table] on the entries. *)
Lemma L1table_run vs ve paddr attr s :
  0 ≤ vs ≤ ve → ve < 2 ^ 32 → (ve - vs + 1) mod 2 = 0 → section_attr attr → tables s →
  ∃ m, mmu_set_L1table vs ve paddr attr s = Ret (tt, set_u_mem m s) ∧ tables (set_u_mem m s) ∧
    fills (adr_1st_page_table + 4 * section vs) (section ve - section vs + 1) (block attr paddr) (u_mem s) m.
Proof.
  intros Hvs Hve Hlen Hattr [H1 H2 H3]. unfold mmu_set_L1table, section in *. rewrite !Z.shiftr_div_pow2 by lia.
  change (2 ^ 32) with 4294967296 in *. 
  assert (Z.land (u32 (ve - vs + 1)) 1 = 0) as ->.
  { rewrite odd_test. unfold wrapu. change (2 ^ 32) with 4294967296. lia. }
  change (negb (0 =? 0)) with false. cbv iota zeta. erewrite run_bind by done.
  change (2 ^ 20) with 1048576 in *.
  rewrite wraps_small by lia.
  set (p := adr_1st_page_table + 4 * (vs / 1048576)). set (n := ve / 1048576 - vs / 1048576 + 1).
  assert (Hn : Z.of_nat (Z.to_nat n) = n) by lia.
  destruct (section_loop_run (Z.to_nat n) 0 p paddr attr s) as (m & Hrun & Hf).
  { rewrite Hn. intros k Hk. unfold p. replace (_ + _) with (adr_1st_page_table + 4 * (vs / 1048576 + k)) by lia. apply H1. lia. }
  rewrite Hn in Hf. exists m. split; [exact Hrun|].
  assert (Hfb : fills p n (block attr paddr) (u_mem s) m).
  { destruct Hf as [Hi Ho]. split; [|done]. intros k Hk. rewrite Hi by done. rewrite Z.add_0_l.
    rewrite section_desc_block; [done|]. destruct Hattr. change (2 ^ 18) with 262144 in *. change (2 ^ 20) with 1048576. lia. }
  split; [|exact Hfb]. pose proof laid_1st. pose proof laid_2nd. change (2 ^ 14) with 16384 in *. change (2 ^ 10) with 1024 in *.
  split; cbn [set_u_mem u_mem].
  - eapply fills_words; [exact Hfb|unfold p; lia|done].
  - eapply fills_words; [exact Hfb|unfold p; lia|done].
  - intros k l1 Hk. unfold entry. cbn [set_u_mem u_mem]. destruct Hfb as [Hi Ho].
    destruct (decide (vs / 1048576 ≤ k < vs / 1048576 + n)) as [Hr|Hr].
    + replace (adr_1st_page_table + 4 * k) with (p + 4 * (k - vs / 1048576)) by (unfold p; lia).
      rewrite Hi by lia. intros [= <-]. destruct Hattr as [Ha Hb]. change (2 ^ 18) with 262144 in *.
      rewrite !block_bits by (change (2 ^ 20) with 1048576; lia). intros Hb1 Hb0. rewrite Hb in Hb0 by done. done.
    + rewrite Ho by (unfold p; lia). apply H3. done.
Qed.

(** Addresses whose entry and whose table did not change. *)
Lemma translate_kept s s' va :
  tables s → active s → active s' → 0 ≤ va < 2 ^ 32 → entry s' (section va) = entry s (section va) →
  (∀ t, second (section va) t → ∀ j, 0 ≤ j < 2 ^ 8 → u_mem s' !! (t + 4 * j) = u_mem s !! (t + 4 * j)) →
  translate s' va = translate s va.
Proof.
  intros [H1 _ H3] Ha Ha' Hv He Hm.
  assert (Hr : 0 ≤ section va < 2 ^ 12) by (unfold section; change (2 ^ 32) with 4294967296 in *; change (2 ^ 20) with 1048576; change (2 ^ 12) with 4096; lia).
  destruct (H1 (section va) Hr) as [l1 Hl]. fold (entry s (section va)) in Hl.
  apply translate_same with l1; [done..|by rewrite He|]. intros Hb1 Hb0. apply Hm. by eapply H3.
Qed.

Lemma section_range va : 0 ≤ va < 2 ^ 32 → 0 ≤ section va < 2 ^ 12.
Proof. unfold section. change (2 ^ 32) with 4294967296. change (2 ^ 20) with 1048576. change (2 ^ 12) with 4096. lia. Qed.

(** The words of the first level do not lie in a table of the second. *)
Lemma second_apart k t j a :
  second k t → 0 ≤ j < 2 ^ 8 → adr_1st_page_table ≤ a < adr_1st_page_table + 2 ^ 14 → t + 4 * j ≠ a.
Proof. intros [Hs _]. change (2 ^ 8) with 256. change (2 ^ 10) with 1024 in *. lia. Qed.

(** ** Sections in mmu_init *)
Definition region : Type := Z * Z * Z * Z.

Definition set_region (r : region) : U unit := let '(vs, ve, paddr, attr) := r in mmu_set_L1table vs ve paddr attr.
Definition set_regions (rs : list region) (k : U unit) : U unit := fold_right (λ r k, set_region r;; k) k rs.

Definition region_ok (r : region) : Prop :=
  let '(vs, ve, _, attr) := r in 0 ≤ vs ≤ ve ∧ ve < 2 ^ 32 ∧ (ve - vs + 1) mod 2 = 0 ∧ section_attr attr.

(** The descriptor of section [k] after regions were set one after the other. *)
Definition descriptor (rs : list region) (k : Z) (old : option Z) : option Z :=
  fold_left (λ d '(vs, ve, paddr, attr),
    if (section vs <=? k) && (k <=? section ve) then Some (block attr paddr (k - section vs)) else d) rs old.

Lemma set_regions_run rs : ∀ s final,
  Forall region_ok rs → tables s →
  ∃ m, set_regions rs final s = final (set_u_mem m s) ∧ tables (set_u_mem m s) ∧
    (∀ k, 0 ≤ k < 2 ^ 12 → entry (set_u_mem m s) k = descriptor rs k (entry s k)).
Proof.
  induction rs as [|[[[vs ve] paddr] attr] rs IH]; intros s final Hok Ht.
  { exists (u_mem s). by destruct s. }
  apply Forall_cons in Hok as [(Hv & He & Hl & Ha) Hok].
  destruct (L1table_run vs ve paddr attr s) as (m1 & Hrun & Ht1 & [Hi Ho]); try done.
  destruct (IH (set_u_mem m1 s) final Hok Ht1) as (m & Hrun2 & Ht2 & Hd). rewrite set_mem_mem in *.
  exists m. cbn [set_regions fold_right set_region]. erewrite run_bind by exact Hrun. split_and!; [exact Hrun2|done|].
  intros k Hk. rewrite Hd by done. unfold descriptor. cbn [fold_left]. f_equal.
  unfold entry. cbn [set_u_mem u_mem].
  destruct (Z.leb_spec (section vs) k), (Z.leb_spec k (section ve)); cbn [andb]; [|apply Ho; lia..].
  replace (_ + 4 * k) with (adr_1st_page_table + 4 * section vs + 4 * (k - section vs)) by lia. apply Hi. lia.
Qed.

Definition init_regions : list region :=
  [(0x0, 0xffffffff, 0x0, 0x15de6);
   (0x00000000, 0x000fffff, 0x00000000, 0x14de6);
   (0x00100000, 0x3fffffff, 0x00100000, 0x15de6);
   (0x40000000, 0x7fffffff, 0x40000000, 0x00c02);
   (0x80000000, 0xbfffffff, 0x80000000, 0x00c02);
   (0xc0000000, 0xdfffffff, 0xc0000000, 0x00000);
   (0xe0000000, 0xe02fffff, 0xe0000000, 0x00c06);
   (0xe0300000, 0xe0ffffff, 0xe0300000, 0x00000);
   (0xe1000000, 0xe1ffffff, 0xe1000000, 0x00c06);
   (0xe2000000, 0xe3ffffff, 0xe2000000, 0x00c06);
   (0xe4000000, 0xe5ffffff, 0xe4000000, 0x00c0e);
   (0xe6000000, 0xf7ffffff, 0xe6000000, 0x00000);
   (0xf8000000, 0xf8ffffff, 0xf8000000, 0x00c06);
   (0xf9000000, 0xfbffffff, 0xf9000000, 0x00000);
   (0xfc000000, 0xfdffffff, 0xfc000000, 0x00c0a);
   (0xfe000000, 0xffefffff, 0xfe000000, 0x00000);
   (0xfff00000, 0xffffffff, 0xfff00000, 0x04c0e)].

Lemma mmu_init_regions : mmu_init =
  (cache_disable;; mmu_disable;; set_regions init_regions (mmu_set_L1_table_addr adr_1st_page_table;; mmu_enable)).
Proof. unfold mmu_init, init_regions, set_regions. cbn [fold_right set_region]. reflexivity. Qed.

(** The sections that [mmu_init] leaves without a translation. *)
Definition reserved (va : Z) : bool :=
  ((0xc0000000 <=? va) && (va <? 0xe0000000)) || ((0xe0300000 <=? va) && (va <? 0xe1000000)) ||
  ((0xe6000000 <=? va) && (va <? 0xf8000000)) || ((0xf9000000 <=? va) && (va <? 0xfc000000)) ||
  ((0xfe000000 <=? va) && (va <? 0xfff00000)).

Definition init_ok (k : Z) : bool :=
  match descriptor init_regions k None with
  | Some d =>
      if reserved (2 ^ 20 * k) then negb (Z.testbit d 1) && negb (Z.testbit d 0)
      else Z.testbit d 1 && negb (Z.testbit d 18) && (d / 2 ^ 20 =? k)
  | None => false
  end.

Lemma init_all_ok : forallb init_ok (seqZ 0 4096) = true.
Proof. vm_compute. reflexivity. Qed.

Lemma init_entry k : 0 ≤ k < 2 ^ 12 → init_ok k = true.
Proof. intros Hk. pose proof init_all_ok as Hall. rewrite forallb_forall in Hall. apply Hall, list_elem_of_In, elem_of_seqZ. lia. Qed.

Lemma active_lor : 2 ^ 14 * (Z.lor adr_1st_page_table 0x5b / 2 ^ 14) = adr_1st_page_table.
Proof. pose proof laid_1st as H1. rewrite (lor_base _ _ 14); [|done|done|done]. change (2 ^ 14) with 16384 in *. lia. Qed.

(** The first region covers all sections. *)
Lemma init_descriptor k old : 0 ≤ k < 2 ^ 12 → descriptor init_regions k old = descriptor init_regions k None.
Proof.
  intros Hk. change init_regions with ((0x0, 0xffffffff, 0x0, 0x15de6) :: drop 1 init_regions).
  unfold descriptor. cbn [fold_left]. do 2 f_equal. change (section 0x0) with 0. change (section 0xffffffff) with 4095.
  by rewrite (proj2 (Z.leb_le 0 k)), (proj2 (Z.leb_le k 4095)) by lia.
Qed.

Lemma init_regions_ok : Forall region_ok init_regions.
Proof.
  unfold init_regions. rewrite !Forall_cons, Forall_nil. unfold region_ok, section_attr.
  split_and!; try done; lia.
Qed.

(** A section is reserved as a whole. *)
Lemma reserved_section va : 0 ≤ va < 2 ^ 32 → reserved va = reserved (2 ^ 20 * section va).
Proof.
  intros Hv. unfold reserved, section. change (2 ^ 20) with 1048576.
  assert (∀ a, (1048576 * a <=? va) = (1048576 * a <=? 1048576 * (va / 1048576))) as E1.
  { intros a. destruct (Z.leb_spec (1048576 * a) va), (Z.leb_spec (1048576 * a) (1048576 * (va / 1048576))); lia || done. }
  assert (∀ a, (va <? 1048576 * a) = (1048576 * (va / 1048576) <? 1048576 * a)) as E2.
  { intros a. destruct (Z.ltb_spec va (1048576 * a)), (Z.ltb_spec (1048576 * (va / 1048576)) (1048576 * a)); lia || done. }
  change 0xc0000000 with (1048576 * 0xc00).
  change 0xe0000000 with (1048576 * 0xe00).
  change 0xe0300000 with (1048576 * 0xe03).
  change 0xe1000000 with (1048576 * 0xe10).
  change 0xe6000000 with (1048576 * 0xe60).
  change 0xf8000000 with (1048576 * 0xf80).
  change 0xf9000000 with (1048576 * 0xf90).
  change 0xfc000000 with (1048576 * 0xfc0).
  change 0xfe000000 with (1048576 * 0xfe0).
  change 0xfff00000 with (1048576 * 0xfff).
  rewrite (E1 0xc00), (E2 0xe00), (E1 0xe03), (E2 0xe10), (E1 0xe60), (E2 0xf80), (E1 0xf90), (E2 0xfc0), (E1 0xfe0), (E2 0xfff).
  done.
Qed.
(** ** Pages *)

(** Attributes of a small page. *)
Definition page_attr (attr : Z) : Prop := 0 ≤ attr < 2 ^ 12 ∧ Z.testbit attr 1 = true.

Lemma table_desc t : t mod 2 ^ 10 = 0 → Z.lor t 0x1e1 = t + 0x1e1.
Proof. intros Ht. by apply (lor_base t 0x1e1 10). Qed.

Lemma page_desc_sum attr paddr j :
  0 ≤ attr < 2 ^ 12 → paddr mod 2 ^ 12 = 0 → page_desc attr paddr j = u32 (paddr + 2 ^ 12 * j) + attr.
Proof.
  intros Ha Hp. unfold page_desc. rewrite Z.shiftl_mul_pow2, (Z.mul_comm j) by lia. apply (lor_base _ _ 12); [done..|].
  unfold wrapu. change (2 ^ 32) with 4294967296. change (2 ^ 12) with 4096 in *. lia.
Qed.

(** The page of an address and its offset. *)
Lemma page_address paddr attr va :
  0 ≤ attr < 2 ^ 12 → paddr mod 2 ^ 12 = 0 →
  2 ^ 12 * ((u32 (paddr + 2 ^ 12 * (va / 2 ^ 12 mod 2 ^ 8)) + attr) / 2 ^ 12) + va mod 2 ^ 12 = u32 (paddr + va mod 2 ^ 20).
Proof.
  unfold wrapu. change (2 ^ 32) with (4096 * 1048576). change (2 ^ 20) with 1048576. change (2 ^ 12) with 4096. change (2 ^ 8) with 256.
  intros Ha Hp. set (j := va / 4096 mod 256). assert (paddr = 4096 * (paddr / 4096)) as -> by lia. set (q := paddr / 4096).
  assert (va mod 1048576 = 4096 * j + va mod 4096) as -> by (unfold j; lia).
  rewrite <- Z.mul_add_distr_l, Z.mul_mod_distr_l by lia.
  rewrite Z.add_assoc, <- Z.mul_add_distr_l. generalize (q + j). intros x.
  assert ((4096 * (x mod 1048576) + attr) / 4096 = x mod 1048576) as -> by lia.
  set (y := va mod 4096). assert (0 ≤ y < 4096) by (unfold y; lia). clearbody y. lia.
Qed.

(** The walk over a table of pages. *)
Lemma translate_page s va t attr paddr :
  active s → page_attr attr → paddr mod 2 ^ 12 = 0 → t mod 2 ^ 10 = 0 →
  entry s (section va) = Some (Z.lor t 0x1e1) →
  u_mem s !! (t + 4 * (va / 2 ^ 12 mod 2 ^ 8)) = Some (page_desc attr paddr (va / 2 ^ 12 mod 2 ^ 8)) →
  translate s va = Some (u32 (paddr + va mod 2 ^ 20)).
Proof.
  intros Hac [Ha Hb] Hp Ht He Hm. rewrite translate_entry, He by done. cbn [mbind option_bind]. unfold walk1.
  rewrite table_desc by done. rewrite (testbit_sum t 0x1e1 10 1), (testbit_sum t 0x1e1 10 0) by done.
  change (Z.testbit 0x1e1 1) with false. change (Z.testbit 0x1e1 0) with true. cbv iota.
  assert (2 ^ 10 * ((t + 0x1e1) / 2 ^ 10) = t) as -> by (change (2 ^ 10) with 1024 in *; lia).
  rewrite Hm. cbn [mbind option_bind]. unfold walk2. rewrite page_desc_sum by done.
  rewrite (testbit_sum _ attr 12); [|done| |done].
  - rewrite Hb. f_equal. by apply page_address.
  - unfold wrapu. change (2 ^ 32) with 4294967296. change (2 ^ 12) with 4096 in *. lia.
Qed.

(** The second-level tables of the sections from [a] to [b] are filled with pages
    from [paddr] on, and linked. *)
Record linked (start paddr a b : Z) (m m' : gmap Z Z) : Prop := {
  ln_1st : ∀ k, a ≤ k < b → m' !! (adr_1st_page_table + 4 * k) = Some (Z.lor (adr_2nd_page_table + 1024 * k) 0x1e1);
  ln_2nd : ∀ k j, a ≤ k < b → 0 ≤ j < 256 →
    m' !! (adr_2nd_page_table + 1024 * k + 4 * j) = Some (page_desc 0x576 (paddr + Z.shiftl (k - start) 20) j);
  ln_out : ∀ x, ¬ (adr_1st_page_table + 4 * a ≤ x < adr_1st_page_table + 4 * b) →
    ¬ (adr_2nd_page_table + 1024 * a ≤ x < adr_2nd_page_table + 1024 * b) → m' !! x = m !! x;
  ln_words1 : words adr_1st_page_table (2 ^ 12) m';
  ln_words2 : words adr_2nd_page_table (2 ^ 20) m';
}.

Lemma shifted_aligned paddr i : paddr mod 2 ^ 12 = 0 → (paddr + Z.shiftl i 20) mod 2 ^ 12 = 0.
Proof. intros Hp. rewrite Z.shiftl_mul_pow2 by lia. change (2 ^ 20) with 1048576. change (2 ^ 12) with 4096 in *. lia. Qed.

Lemma table_loop_run n : ∀ i start paddr s,
  0 ≤ start + i → start + i + Z.of_nat n ≤ 4096 → paddr mod 2 ^ 12 = 0 →
  words adr_1st_page_table (2 ^ 12) (u_mem s) → words adr_2nd_page_table (2 ^ 20) (u_mem s) →
  ∃ m, table_loop n i start (adr_1st_page_table + 4 * (start + i)) paddr s = Ret (tt, set_u_mem m s) ∧
    linked start paddr (start + i) (start + i + Z.of_nat n) (u_mem s) m.
Proof.
  induction n as [|n IH]; intros i start paddr s Hlo Hhi Hp H1 H2; cbn [table_loop].
  { exists (u_mem s). rewrite Z.add_0_r. split; [by destruct s|]. split; done || lia. }
  pose proof laid_1st as L1. pose proof laid_2nd as L2. pose proof laid_apart as La.
  change (2 ^ 14) with 16384 in *. change (2 ^ 10) with 1024 in *. change (2 ^ 22) with 4194304 in *.
  change (2 ^ 12) with 4096 in H1. change (2 ^ 20) with 1048576 in H2.
  set (k := start + i) in *. set (t := adr_2nd_page_table + 1024 * k).
  assert (Z.land t 0x3ff = 0) as ->.
  { change 0x3ff with (Z.ones 10). rewrite Z.land_ones by lia. change (2 ^ 10) with 1024. unfold t. lia. }
  cbv zeta. change (negb (0 =? 0)) with false. cbv iota. erewrite run_bind by done.
  erewrite run_bind by (apply store32_run; apply H1; lia).
  set (s1 := set_u_mem _ s).
  destruct (page_loop_run 256 0 t (paddr + Z.shiftl i 20) 0x576 s1) as (m1 & Hrun1 & [Hi1 Ho1]).
  { by apply shifted_aligned. }
  { intros j Hj. unfold t. replace (_ + 4 * j) with (adr_2nd_page_table + 4 * (256 * k + j)) by lia.
    apply lookup_insert_is_Some'. right. apply H2. lia. }
  erewrite run_bind by exact Hrun1. set (s2 := set_u_mem m1 s1). change (Z.of_nat 256) with 256 in *.
  destruct (IH (i + 1) start paddr s2) as (m & Hrun & [N1 N2 No W1 W2]); [lia|lia|done| | |].
  { intros j Hj. cbn [s2 s1 set_u_mem u_mem]. rewrite Ho1 by (unfold t; change (2 ^ 12) with 4096 in *; lia).
    apply lookup_insert_is_Some'. right. by apply H1. }
  { intros j Hj. cbn [s2 s1 set_u_mem u_mem]. destruct (decide (t ≤ adr_2nd_page_table + 4 * j < t + 4 * 256)) as [Hr|Hr].
    - replace (adr_2nd_page_table + 4 * j) with (t + 4 * (j - 256 * k)) by (unfold t; lia). rewrite Hi1 by (unfold t in Hr; lia). done.
    - rewrite Ho1 by done. apply lookup_insert_is_Some'. right. by apply H2. }
  exists m. rewrite Z.add_assoc in Hrun. replace (adr_1st_page_table + 4 * k + 4) with (adr_1st_page_table + 4 * (k + 1)) by lia.
  split; [exact Hrun|].
  assert (Hk : ∀ x, t ≤ x < t + 1024 ∨ x = adr_1st_page_table + 4 * k → m !! x = m1 !! x).
  { intros x Hx. apply No; unfold t in Hx; lia. }
  rewrite Z.add_assoc in *. fold k in N1, N2, No.
  split; try done.
  - intros k' Hk'. destruct (decide (k' = k)) as [->|Hne]; [|apply N1; lia].
    rewrite Hk by (by right). rewrite Ho1 by (unfold t; lia). cbn [s1 set_u_mem u_mem]. apply lookup_insert_eq.
  - intros k' j Hk' Hj. destruct (decide (k' = k)) as [->|Hne]; [|apply N2; lia].
    fold t. rewrite Hk by lia. rewrite Hi1, Z.add_0_l by lia. unfold k. by replace (start + i - start) with i by lia.
  - intros x Hx1 Hx2. rewrite No by lia. cbn [s2 s1 set_u_mem u_mem].
    rewrite Ho1 by (unfold t; lia). cbn [s1 set_u_mem u_mem]. apply lookup_insert_ne. lia.
Qed.
End layout.

(** A region of sections.  [mmu_set_L1table] maps each section that the region
    meets, from its first address on, in order and around the end of memory, or
    takes its translation away; no other address is translated in another way.
    The test in front lets each even length pass, so that a region that is not
    of whole sections maps more than it says. *)
Theorem L1table_maps `{!MmuLayout, !MmuLaid} (vaddr_start vaddr_end paddr_start attr : Z) (s : mmu) :
  0 ≤ vaddr_start ≤ vaddr_end → vaddr_end < 2 ^ 32 → (vaddr_end - vaddr_start + 1) mod 2 = 0 →
  section_attr attr → tables s → active s →
  ∃ s', mmu_set_L1table vaddr_start vaddr_end paddr_start attr s = Ret (tt, s') ∧ tables s' ∧ active s' ∧
    ∀ va, 0 ≤ va < 2 ^ 32 →
      translate s' va =
      if (section vaddr_start <=? section va) && (section va <=? section vaddr_end) then
        if Z.testbit attr 1
        then Some (2 ^ 20 * ((paddr_start / 2 ^ 20 + (section va - section vaddr_start)) mod 2 ^ 12) + va mod 2 ^ 20)
        else None
      else translate s va.
Proof.
  intros Hv He Hl Ha Ht Hac. destruct (L1table_run vaddr_start vaddr_end paddr_start attr s) as (m & Hrun & Ht' & [Hi Ho]); try done.
  exists (set_u_mem m s). split_and!; [done..|]. intros va Hva.
  pose proof (section_range va Hva) as Hr.
  destruct (Z.leb_spec (section vaddr_start) (section va)), (Z.leb_spec (section va) (section vaddr_end)); cbn [andb].
  1: { rewrite translate_entry by done. unfold entry. cbn [set_u_mem u_mem].
    replace (adr_1st_page_table + 4 * section va)
      with (adr_1st_page_table + 4 * section vaddr_start + 4 * (section va - section vaddr_start)) by lia.
    rewrite Hi by lia. cbn [mbind option_bind]. by apply walk_block. }
  all: apply translate_kept; [done..| |]; unfold entry; cbn [set_u_mem u_mem]; [apply Ho; lia|];
    intros t Hsec j Hj; apply Ho; pose proof (section_range vaddr_start); pose proof (section_range vaddr_end);
    intros Hin; apply (second_apart _ _ j (t + 4 * j) Hsec Hj); [|done];
    change (2 ^ 14) with 16384; change (2 ^ 12) with 4096 in *; lia.
Qed.

(** C23 The map of the board.  After [mmu_init] the processor translates each
    address to itself, but for the five reserved ranges, which fault; the memory
    management unit is on and both caches are off. *)
Theorem mmu_init_map `{!MmuLayout, !MmuLaid} (s : mmu) :
  tables s →
  ∃ s', mmu_init s = Ret (tt, s') ∧ tables s' ∧ active s' ∧
    Z.testbit (u_sctlr s') 0 = true ∧ Z.testbit (u_sctlr s') 2 = false ∧ Z.testbit (u_sctlr s') 12 = false ∧
    ∀ va, 0 ≤ va < 2 ^ 32 → translate s' va = if reserved va then None else Some va.
Proof.
  intros Ht. rewrite mmu_init_regions.
  unfold cache_disable, mmu_disable. erewrite run_bind by (by erewrite run_bind by done).
  erewrite run_bind by (by erewrite run_bind by done).
  match goal with |- context [set_regions _ _ ?x] => set (s1 := x) end.
  assert (tables s1) as Ht1 by (by destruct Ht; split).
  destruct (set_regions_run init_regions s1 (mmu_set_L1_table_addr adr_1st_page_table;; mmu_enable) init_regions_ok Ht1)
    as (m & Hrun & Ht2 & Hd).
  rewrite Hrun. eexists. split; [by unfold mmu_set_L1_table_addr, mmu_enable, barriers; repeat erewrite run_bind by done|].
  assert (Hbit : ∀ n, 0 < n → Z.testbit (Z.land (u32 (Z.lnot (Z.lor SCTLR_C SCTLR_I))) (u32 (Z.lnot SCTLR_M))) n = false →
    Z.testbit (Z.lor (u_sctlr s1) SCTLR_M) n = false).
  { intros n Hn Hc. rewrite Z.lor_spec. change SCTLR_M with (2 ^ 0) at 1. rewrite Z.pow2_bits_false, orb_false_r by lia.
    cbn [s1 set_u_sctlr set_u_barriers u_sctlr]. rewrite <- Z.land_assoc, Z.land_spec, Hc. apply andb_false_r. }
  split_and!.
  - by destruct Ht2; split.
  - apply active_lor.
  - cbn [set_u_barriers set_u_sctlr set_u_ttbr0 set_u_mem u_sctlr]. rewrite Z.lor_spec. apply orb_true_r.
  - by apply (Hbit 2).
  - by apply (Hbit 12).
  - intros va Hva. pose proof (section_range va Hva) as Hr.
    rewrite translate_entry by apply active_lor.
    change (entry ?x (section va)) with (entry (set_u_mem m s1) (section va)).
    rewrite Hd, init_descriptor, reserved_section by done.
    pose proof (init_entry (section va) Hr) as Hok. unfold init_ok in Hok.
    destruct (descriptor init_regions (section va) None) as [d|]; [|done]. cbn [mbind option_bind]. unfold walk1.
    destruct (reserved (2 ^ 20 * section va)).
    + apply andb_true_iff in Hok as [->%negb_true_iff ->%negb_true_iff]. done.
    + apply andb_true_iff in Hok as [[-> ->%negb_true_iff]%andb_true_iff Hd20%Z.eqb_eq].
      rewrite Hd20. unfold section. f_equal. symmetry. by apply Z.div_mod.
Qed.

(** Sections of pages.  [mmu_set_L2table] maps the sections of the region by
    tables of small pages, in order, all but the last section that the region
    meets, which [mmu_set_L1table] would map: no other address, and none of that
    section, is translated in another way. *)
Theorem L2table_maps `{!MmuLayout, !MmuLaid} (vaddr_start vaddr_end paddr_start : Z) (s : mmu) :
  0 ≤ vaddr_start ≤ vaddr_end → vaddr_end < 2 ^ 32 → paddr_start mod 2 ^ 12 = 0 → tables s → active s →
  ∃ s', mmu_set_L2table vaddr_start vaddr_end paddr_start s = Ret (tt, s') ∧ tables s' ∧ active s' ∧
    ∀ va, 0 ≤ va < 2 ^ 32 →
      translate s' va =
      if (section vaddr_start <=? section va) && (section va <? section vaddr_end)
      then Some (u32 (paddr_start + (va - 2 ^ 20 * section vaddr_start)))
      else translate s va.
Proof.
  intros Hv He Hp Ht Hac. pose proof Ht as [H1 H2 H3].
  pose proof (section_range vaddr_start) as Hr1. pose proof (section_range vaddr_end) as Hr2.
  change (2 ^ 32) with 4294967296 in *. 
  unfold mmu_set_L2table. rewrite !Z.shiftr_div_pow2 by lia. fold (section vaddr_start) (section vaddr_end).
  assert (section vaddr_start ≤ section vaddr_end) by (unfold section; apply Z.div_le_mono; lia).
  change (2 ^ 12) with 4096 in Hr1, Hr2.
  rewrite wrapu_small by (change (2 ^ 32) with 4294967296; lia).
  set (a := section vaddr_start) in *. set (b := section vaddr_end) in *.
  destruct (table_loop_run (Z.to_nat (b - a)) 0 a paddr_start s) as (m & Hrun & [N1 N2 No W1 W2]); [lia|lia|done..|].
  rewrite Z.add_0_r in *. replace (a + Z.of_nat (Z.to_nat (b - a))) with b in * by lia.
  exists (set_u_mem m s). split; [exact Hrun|].
  pose proof laid_1st as L1. pose proof laid_2nd as L2. pose proof laid_apart as La.
  assert (Hent : ∀ k, 0 ≤ k < 4096 → entry (set_u_mem m s) k =
    if (a <=? k) && (k <? b) then Some (Z.lor (adr_2nd_page_table + 1024 * k) 0x1e1) else entry s k).
  { intros k Hk. unfold entry. cbn [set_u_mem u_mem].
    destruct (Z.leb_spec a k), (Z.ltb_spec k b); cbn [andb]; [by apply N1|apply No; change (2 ^ 14) with 16384 in *; change (2 ^ 22) with 4194304 in *; lia..]. }
  assert (Hmod : ∀ k, (adr_2nd_page_table + 1024 * k) mod 2 ^ 10 = 0) by (intros k; change (2 ^ 10) with 1024 in *; lia).
  split_and!.
  - split; [exact W1|exact W2|]. intros k l1 Hk. change (2 ^ 12) with 4096 in Hk. rewrite Hent by done.
    destruct (_ && _); [|by apply H3]. intros [= <-] _ _. rewrite table_desc by done.
    assert (2 ^ 10 * ((adr_2nd_page_table + 1024 * k + 0x1e1) / 2 ^ 10) = adr_2nd_page_table + 1024 * k) as ->
      by (specialize (Hmod k); change (2 ^ 10) with 1024 in *; lia).
    split; [|by left]. change (2 ^ 10) with 1024. change (2 ^ 14) with 16384 in *. change (2 ^ 22) with 4194304 in *. lia.
  - done.
  - intros va Hva. pose proof (section_range va Hva) as Hr. change (2 ^ 12) with 4096 in Hr.
    specialize (Hent (section va) Hr). destruct (Z.leb_spec a (section va)), (Z.ltb_spec (section va) b); cbn [andb] in *.
    1: { rewrite (translate_page _ va (adr_2nd_page_table + 1024 * section va) 0x576 (paddr_start + Z.shiftl (section va - a) 20));
        [|done|done|by apply shifted_aligned|done|done|apply N2; [lia|apply Z.mod_pos_bound; lia]].
      do 2 f_equal. rewrite Z.shiftl_mul_pow2 by lia. pose proof (Z.div_mod va (2 ^ 20)). unfold section in *. lia. }
    all: apply translate_kept; [done|done|done|exact Hva|exact Hent|]; intros t [Hs1 Hs2] j Hj; cbn [set_u_mem u_mem]; apply No;
      change (2 ^ 14) with 16384 in *; change (2 ^ 22) with 4194304 in *; change (2 ^ 10) with 1024 in *; change (2 ^ 8) with 256 in *; lia.
Qed.

(** ** The theorems on a board *)
Module Board.
#[export] Instance board_layout : MmuLayout := {
  adr_1st_page_table := 0x100000;
  adr_2nd_page_table := 0x400000;
  usr_space_start := 0x900000;
  usr_space_end := 0xa00000;
  L2tables_start := 0x800000;
  L2tables_end := 0x810000;
}.

#[export] Instance board_laid : MmuLaid.
Proof. split; cbn; lia. Qed.

(** Words of 0. *)
Definition zeros (p n : Z) : gmap Z Z := gset_to_gmap 0 (list_to_set ((λ k, p + 4 * k) <$> seqZ 0 n)).
Definition memory : gmap Z Z := zeros 0x100000 4096 ∪ (zeros 0x400000 1048576 ∪ zeros 0x800000 16384).
Definition reset : mmu := mk_mmu memory 0x1005 (0x100000 + 0x5b) 0 [] 0 0.

Lemma zeros_word p n k : 0 ≤ k < n → zeros p n !! (p + 4 * k) = Some 0.
Proof.
  intros Hk. unfold zeros. apply lookup_gset_to_gmap_Some. split; [|done].
  apply elem_of_list_to_set, list_elem_of_fmap. exists k. split; [done|]. apply elem_of_seqZ. lia.
Qed.

Lemma zeros_is_0 p n a x : zeros p n !! a = Some x → x = 0.
Proof. unfold zeros. by intros [_ ->]%lookup_gset_to_gmap_Some. Qed.

#[global] Opaque zeros.

Lemma memory_is_0 a x : memory !! a = Some x → x = 0.
Proof.
  unfold memory. intros [H|[_ [H|[_ H]]%lookup_union_Some_raw]]%lookup_union_Some_raw; exact (zeros_is_0 _ _ _ _ H).
Qed.

Lemma memory_word p n k :
  (p = 0x100000 ∧ n = 4096) ∨ (p = 0x400000 ∧ n = 1048576) ∨ (p = 0x800000 ∧ n = 16384) →
  0 ≤ k < n → is_Some (memory !! (p + 4 * k)).
Proof.
  intros Hp Hk. unfold memory. apply lookup_union_is_Some. rewrite lookup_union_is_Some.
  destruct Hp as [[-> ->]|[[-> ->]|[-> ->]]]; [left|right; left|right; right]; exists 0; by apply zeros_word.
Qed.

#[global] Opaque memory.

Lemma reset_tables : tables reset.
Proof.
  split; cbn [reset u_mem adr_1st_page_table adr_2nd_page_table board_layout].
  - intros k Hk. apply (memory_word _ 4096); lia.
  - intros k Hk. apply (memory_word _ 1048576); lia.
  - intros k l1 Hk Hl. change (memory !! (0x100000 + 4 * k) = Some l1) in Hl. apply memory_is_0 in Hl. subst l1. discriminate.
Qed.

Lemma reset_active : active reset.
Proof. reflexivity. Qed.

Lemma L1table_maps_witness :
  ∃ s', mmu_set_L1table 0x40100000 0x402fffff 0x300000 0x15de6 reset = Ret (tt, s') ∧
    translate s' 0x40234567 = Some 0x434567.
Proof.
  destruct (L1table_maps 0x40100000 0x402fffff 0x300000 0x15de6 reset) as (s' & Hrun & _ & _ & Htr);
    [lia|lia|reflexivity|split; [lia|discriminate]|apply reset_tables|apply reset_active|].
  exists s'. split; [exact Hrun|]. rewrite Htr by (split; [discriminate|reflexivity]). reflexivity.
Defined.

Lemma mmu_init_map_witness :
  ∃ s', mmu_init reset = Ret (tt, s') ∧ translate s' 0xe0001018 = Some 0xe0001018 ∧ translate s' 0xc0000000 = None.
Proof.
  destruct (mmu_init_map reset reset_tables) as (s' & Hrun & _ & _ & _ & _ & _ & Htr).
  exists s'. split; [exact Hrun|]. rewrite !Htr by (split; [discriminate|reflexivity]). split; reflexivity.
Defined.

Lemma L2table_maps_witness :
  ∃ s', mmu_set_L2table 0x40100000 0x402fffff 0x300000 reset = Ret (tt, s') ∧
    translate s' 0x40134567 = Some 0x334567 ∧ translate s' 0x40234567 = translate reset 0x40234567.
Proof.
  destruct (L2table_maps 0x40100000 0x402fffff 0x300000 reset) as (s' & Hrun & _ & _ & Htr);
    [lia|lia|reflexivity|apply reset_tables|apply reset_active|].
  exists s'. split; [exact Hrun|]. rewrite !Htr by (split; [discriminate|reflexivity]). split; reflexivity.
Defined.

End Board.
