(* ===== verification/MmuSpace.v ===== *)
(** * Correctness of the user spaces

    Spaces with tables of their own, allocated, mapped and activated; what the
    tables then describe behind the window of a space (the walk is
    [MmuSpec.translate]; [MmuTlb] adds what the processor remembers of walks). *)
From S2P Require Import Prelude Mmu MmuSpec.
From stdpp Require Import list gmap.
From Stdlib Require Import ZifyNat.
#[local] Open Scope Z_scope.

#[local] Ltac Zify.zify_post_hook ::= Z.to_euclidean_division_equations.

Section spaces.
Context `{!MmuLayout, !MmuLaid}.

Lemma aligned_test t : t mod 2 ^ 10 = 0 → Z.land t 0x3ff = 0.
Proof. intros Ht. change 0x3ff with (Z.ones 10). by rewrite Z.land_ones by lia. Qed.

Lemma words_app p n k m : 0 ≤ n → 0 ≤ k → words p (n + k) m → words p n m ∧ words (p + 4 * n) k m.
Proof.
  intros Hn Hk Hw. split; intros j Hj; [apply Hw; lia|].
  replace (p + 4 * n + 4 * j) with (p + 4 * (n + j)) by lia. apply Hw. lia.
Qed.

Lemma fills_app p n k f m m1 m2 :
  0 ≤ n → 0 ≤ k → fills p n f m m1 → fills (p + 4 * n) k (λ j, f (n + j)) m1 m2 → fills p (n + k) f m m2.
Proof.
  intros Hn Hk [I1 O1] [I2 O2]. split.
  - intros j Hj. destruct (decide (j < n)); [rewrite O2 by lia; apply I1; lia|].
    replace (p + 4 * j) with (p + 4 * n + 4 * (j - n)) by lia. rewrite I2 by lia. do 2 f_equal. lia.
  - intros a Ha. rewrite O2, O1 by lia. done.
Qed.

Lemma fills_ext p n f g m m' : (∀ k, 0 ≤ k < n → f k = g k) → fills p n f m m' → fills p n g m m'.
Proof. intros E [I O]. split; [|done]. intros k Hk. by rewrite I, E by done. Qed.

(** The pages of a space lie one behind the other over all of its tables. *)
Lemma map_loop_run n : ∀ i t paddr s,
  t mod 2 ^ 10 = 0 → paddr mod 2 ^ 12 = 0 → words t (256 * Z.of_nat n) (u_mem s) →
  ∃ m, map_loop n i t paddr s = Ret (tt, set_u_mem m s) ∧
    fills t (256 * Z.of_nat n) (λ k, page_desc 0xd76 paddr (256 * i + k)) (u_mem s) m.
Proof.
  induction n as [|n IH]; intros i t paddr s Ht Hp Hw; cbn [map_loop].
  { exists (u_mem s). split; [by destruct s|apply fills_nil]. }
  replace (256 * Z.of_nat (S n)) with (256 + 256 * Z.of_nat n) in * by lia.
  apply words_app in Hw as [Hw1 Hw2]; [|lia..].
  rewrite aligned_test by done. change (negb (0 =? 0)) with false. cbv iota. erewrite run_bind by done.
  destruct (page_loop_run 256 0 t (paddr + Z.shiftl i 20) 0xd76 s) as (m1 & Hrun1 & Hf1); [by apply shifted_aligned|done|].
  erewrite run_bind by exact Hrun1. change (Z.of_nat 256) with 256 in Hf1. change (t + 4 * 256) with (t + 1024) in Hw2.
  destruct (IH (i + 1) (t + 1024) paddr (set_u_mem m1 s)) as (m & Hrun & Hf).
  { change (2 ^ 10) with 1024 in *. lia. }
  { done. }
  { cbn [set_u_mem u_mem]. eapply fills_words; [exact Hf1|lia|exact Hw2]. }
  exists m. split; [exact Hrun|].
  apply fills_app with m1; [lia|lia| |].
  - eapply fills_ext; [|exact Hf1]. intros k Hk. cbv beta. unfold page_desc. rewrite !Z.shiftl_mul_pow2 by lia.
    do 2 f_equal. change (2 ^ 20) with 1048576. change (2 ^ 12) with 4096. lia.
  - cbn [set_u_mem u_mem] in Hf. eapply fills_ext; [|exact Hf]. intros k Hk. cbv beta. f_equal. lia.
Qed.

Lemma activate_loop_run n : ∀ p t s,
  t mod 2 ^ 10 = 0 → words p (Z.of_nat n) (u_mem s) →
  ∃ m, activate_loop n p t s = Ret (tt, set_u_mem m s) ∧
    fills p (Z.of_nat n) (λ k, Z.lor (t + 1024 * k) 0x1e1) (u_mem s) m.
Proof.
  induction n as [|n IH]; intros p t s Ht Hw; cbn [activate_loop].
  { exists (u_mem s). split; [by destruct s|apply fills_nil]. }
  rewrite Nat2Z.inj_succ, <- Z.add_1_r in *.
  rewrite aligned_test by done. change (negb (0 =? 0)) with false. cbv iota. erewrite run_bind by done.
  erewrite run_bind by (apply store32_run; rewrite <- (Z.add_0_r p); apply (Hw 0); lia).
  match goal with |- context [activate_loop n _ _ ?s1] => destruct (IH (p + 4) (t + 1024) s1) as (m & Hrun & Hf) end.
  { change (2 ^ 10) with 1024 in *. lia. }
  { by apply words_insert, words_next. }
  exists m. rewrite Hrun. split; [done|]. apply fills_cons; [lia|]. rewrite Z.mul_0_r, Z.add_0_r.
  eapply fills_ext; [|exact Hf]. intros k Hk. cbv beta. f_equal. lia.
Qed.

(** A space of [n] tables at [t] whose window begins at section [v]: its tables
    are on 1 KB and away from the tables of mmu.c. *)
Definition placed (t v n : Z) : Prop :=
  t mod 2 ^ 10 = 0 ∧ 0 < n ∧ 0 ≤ v ∧ v + n ≤ 2 ^ 12 ∧
  (t + 2 ^ 10 * n ≤ adr_1st_page_table ∨ adr_1st_page_table + 2 ^ 14 ≤ t) ∧
  (t + 2 ^ 10 * n ≤ adr_2nd_page_table ∨ adr_2nd_page_table + 2 ^ 22 ≤ t).

(** The tables at [t] map to [paddr] on. *)
Definition mapped (t n paddr : Z) (s : mmu) : Prop :=
  ∀ k, 0 ≤ k < 256 * n → u_mem s !! (t + 4 * k) = Some (page_desc 0xd76 paddr k).

(** No entry of the first level leads to the tables at [t]. *)
Definition unused (t n : Z) (s : mmu) : Prop :=
  ∀ k l1, 0 ≤ k < 2 ^ 12 → entry s k = Some l1 → Z.testbit l1 1 = false → Z.testbit l1 0 = true →
    2 ^ 10 * (l1 / 2 ^ 10) + 2 ^ 10 ≤ t ∨ t + 2 ^ 10 * n ≤ 2 ^ 10 * (l1 / 2 ^ 10).

Definition in_window (v n va : Z) : bool := (v <=? section va) && (section va <? v + n).

(** Stores into free tables: the walk of no address meets them. *)
Lemma tables_kept t v n f s m :
  placed t v n → tables s → fills t (256 * n) f (u_mem s) m → tables (set_u_mem m s).
Proof.
  intros (Ht & Hn & _ & _ & P1 & P2) [H1 H2 H3] [I O].
  change (2 ^ 10) with 1024 in *. change (2 ^ 14) with 16384 in *. change (2 ^ 22) with 4194304 in *.
  assert (E : ∀ k, 0 ≤ k < 4096 → entry (set_u_mem m s) k = entry s k) by (intros k Hk; apply O; lia).
  split; cbn [set_u_mem u_mem].
  - intros k Hk. rewrite O by (change (2 ^ 12) with 4096 in *; lia). by apply H1.
  - intros k Hk. rewrite O by (change (2 ^ 20) with 1048576 in *; lia). by apply H2.
  - intros k l1 Hk. rewrite E by (change (2 ^ 12) with 4096 in *; lia). by apply H3.
Qed.

Lemma unused_kept t v n f s m va :
  placed t v n → unused t n s → tables s → active s → fills t (256 * n) f (u_mem s) m → 0 ≤ va < 2 ^ 32 →
  translate (set_u_mem m s) va = translate s va.
Proof.
  intros (Ht & Hn & _ & _ & P1 & P2) Hu [H1 _ _] Ha [I O] Hva.
  change (2 ^ 10) with 1024 in *. change (2 ^ 14) with 16384 in *. 
  pose proof (section_range va Hva) as Hr. destruct (H1 (section va) Hr) as [l1 Hl]. fold (entry s (section va)) in Hl.
  apply translate_same with l1; [done|done|done|done| |].
  - rewrite <- Hl. apply O. change (2 ^ 12) with 4096 in Hr. lia.
  - intros Hb1 Hb0 j Hj. specialize (Hu _ _ Hr Hl Hb1 Hb0). apply O. change (2 ^ 10) with 1024 in *. change (2 ^ 8) with 256 in Hj. lia.
Qed.

(** [mmu_map_usr_space] *)
Lemma map_run u t va paddr len s :
  let n := ptr_1st_num len in
  placed t (section va) n → paddr mod 2 ^ 12 = 0 → words t (256 * n) (u_mem s) →
  ∃ m, mmu_map_usr_space u t va paddr len s = Ret ((-1, mk_uvs (asid u) va len t), set_u_mem m s) ∧
    mapped t n paddr (set_u_mem m s) ∧ fills t (256 * n) (page_desc 0xd76 paddr) (u_mem s) m.
Proof.
  intros n (Ht & Hn & _) Hp Hw. unfold mmu_map_usr_space. fold n.
  destruct (map_loop_run (Z.to_nat n) 0 t paddr s) as (m & Hrun & Hf); [done|done|by rewrite Z2Nat.id by lia|].
  rewrite Z2Nat.id in Hf by lia. exists m. erewrite run_bind by exact Hrun. split; [done|].
  assert (Hf' : fills t (256 * n) (page_desc 0xd76 paddr) (u_mem s) m) by (eapply fills_ext; [|exact Hf]; done).
  split; [|done]. intros k Hk. cbn [set_u_mem u_mem]. by apply (fi_in _ _ _ _ _ Hf').
Qed.

(** [mmu_activate_usr_space] *)
Lemma activate_run u paddr s :
  let n := ptr_1st_num (space_length u) in let v := section (vaddr_start u) in let t := L2table_addr u in
  placed t v n → mapped t n paddr s → paddr mod 2 ^ 12 = 0 → tables s → active s →
  ∃ s', mmu_activate_usr_space u s = Ret (-1, s') ∧ tables s' ∧ active s' ∧
    (∀ va, 0 ≤ va < 2 ^ 32 → translate s' va = if in_window v n va then Some (u32 (paddr + (va - 2 ^ 20 * v))) else translate s va) ∧
    (∀ t' v' n' p', placed t' v' n' → mapped t' n' p' s → mapped t' n' p' s') ∧
    (∃ m, s' = set_u_mem m s) ∧
    (∀ k, 0 ≤ k < 4096 → entry s' k = if (v <=? k) && (k <? v + n) then Some (Z.lor (t + 1024 * (k - v)) 0x1e1) else entry s k).
Proof.
  intros n v t (Ht & Hn & Hv & Hvn & P1 & P2) Hmap Hp [H1 H2 H3] Hac. unfold mmu_activate_usr_space. fold n t.
  rewrite Z.shiftr_div_pow2 by lia. change (vaddr_start u / 2 ^ 20) with v. change (2 ^ 12) with 4096 in Hvn, H1.
  destruct (activate_loop_run (Z.to_nat n) (adr_1st_page_table + 4 * v) t s) as (m & Hrun & [I O]); [done| |].
  { rewrite Z2Nat.id by lia. intros k Hk. replace (_ + 4 * k) with (adr_1st_page_table + 4 * (v + k)) by lia. apply H1. lia. }
  rewrite Z2Nat.id in I, O by lia. exists (set_u_mem m s). erewrite run_bind by exact Hrun.
  pose proof laid_1st as L1. pose proof laid_apart as La.
  change (2 ^ 10) with 1024 in *. change (2 ^ 14) with 16384 in *. change (2 ^ 22) with 4194304 in *.
  assert (Hent : ∀ k, 0 ≤ k < 4096 → entry (set_u_mem m s) k =
    if (v <=? k) && (k <? v + n) then Some (Z.lor (t + 1024 * (k - v)) 0x1e1) else entry s k).
  { intros k Hk. unfold entry. cbn [set_u_mem u_mem].
    destruct (Z.leb_spec v k), (Z.ltb_spec k (v + n)); cbn [andb]; [|apply O; lia..].
    rewrite <- I by lia. f_equal. lia. }
  assert (Hout : ∀ a, ¬ (adr_1st_page_table ≤ a < adr_1st_page_table + 16384) → m !! a = u_mem s !! a) by (intros a Ha; apply O; lia).
  split_and!; [done| |done| | |by exists m|exact Hent].
  - split; cbn [set_u_mem u_mem].
    + intros k Hk. change (2 ^ 12) with 4096 in Hk.
      change (m !! _) with (entry (set_u_mem m s) k). rewrite Hent by done.
      destruct (_ && _); [done|by apply H1].
    + intros k Hk. rewrite Hout by (change (2 ^ 20) with 1048576 in Hk; lia). by apply H2.
    + intros k l1 Hk. change (2 ^ 12) with 4096 in Hk. rewrite Hent by done. destruct (_ && _) eqn:E; [|by apply H3].
      apply andb_true_iff in E as [E1%Z.leb_le E2%Z.ltb_lt].
      intros [= <-] _ _. rewrite table_desc by (change (2 ^ 10) with 1024; lia). change (2 ^ 10) with 1024.
      assert (1024 * ((t + 1024 * (k - v) + 0x1e1) / 1024) = t + 1024 * (k - v)) as -> by lia.
      unfold second. change (2 ^ 10) with 1024. change (2 ^ 14) with 16384. change (2 ^ 22) with 4194304. split; [lia|right; lia].
  - intros va Hva. pose proof (section_range va Hva) as Hr. change (2 ^ 12) with 4096 in Hr. unfold in_window.
    specialize (Hent (section va) Hr). destruct (Z.leb_spec v (section va)), (Z.ltb_spec (section va) (v + n)); cbn [andb] in *.
    1: { rewrite (translate_page _ va (t + 1024 * (section va - v)) 0xd76 (paddr + Z.shiftl (section va - v) 20));
        [|done|done|by apply shifted_aligned|change (2 ^ 10) with 1024; lia|done|].
      - do 2 f_equal. rewrite Z.shiftl_mul_pow2 by lia. pose proof (Z.div_mod va (2 ^ 20)). unfold section in *. lia.
      - cbn [set_u_mem u_mem]. pose proof (Z.mod_pos_bound (va / 2 ^ 12) (2 ^ 8)) as Hj. set (j := (va / 2 ^ 12) mod 2 ^ 8) in *.
        change (2 ^ 8) with 256 in Hj. rewrite Hout by lia.
        replace (t + 1024 * (section va - v) + 4 * j) with (t + 4 * (256 * (section va - v) + j)) by lia. rewrite Hmap by lia.
        unfold page_desc. rewrite !Z.shiftl_mul_pow2 by lia. do 3 f_equal. change (2 ^ 20) with 1048576. change (2 ^ 12) with 4096. lia. }
    all: apply translate_kept; [done|done|done|exact Hva|exact Hent|]; intros t' [Hs1 Hs2] j Hj; cbn [set_u_mem u_mem]; apply Hout;
      change (2 ^ 14) with 16384 in *; change (2 ^ 10) with 1024 in *; change (2 ^ 8) with 256 in *; lia.
  - intros t' v' n' p' (_ & _ & _ & _ & Q1 & _) Hm k Hk. cbn [set_u_mem u_mem]. change (2 ^ 10) with 1024 in *. change (2 ^ 14) with 16384 in *.
    rewrite Hout by lia. by apply Hm.
Qed.

(** An allocation that has room. *)
Lemma alloc_run len s :
  let t := L2tables_start + u_L2tables_alloc_index s in
  let p := usr_space_start + u_usr_space_alloc_index s in
  len mod 2 ^ 12 = 0 → 0 ≤ len →
  0 ≤ u_usr_space_alloc_index s → u_usr_space_alloc_index s + len ≤ usr_space_end < 2 ^ 32 → 0 ≤ p < 2 ^ 32 →
  0 ≤ u_L2tables_alloc_index s → u_L2tables_alloc_index s + 1024 ≤ L2tables_end < 2 ^ 32 → 0 ≤ t < 2 ^ 32 →
  mmu_alloc_usr_space_aligned len s = Ret ((0, Some (t, p)),
    set_u_usr_space_alloc_index (u_usr_space_alloc_index s + len) (set_u_L2tables_alloc_index (u_L2tables_alloc_index s + 1024) s)).
Proof.
  intros t p Hl Hl0 Hu Hue Hp Ht Hte Htr. unfold mmu_alloc_usr_space_aligned.
  assert (Z.land len 0xfff = 0) as -> by (change 0xfff with (Z.ones 12); by rewrite Z.land_ones by lia).
  change (0 =? 0) with true. cbv iota. erewrite run_bind by done. rewrite !wrapu_small by lia.
  rewrite (proj2 (Z.leb_le len _)) by lia. erewrite run_bind by done. change MMU_L2TBL_SIZE with 1024.
  rewrite wrapu_small, (proj2 (Z.leb_le 1024 _)) by lia.
  do 2 erewrite run_bind by done. rewrite !wrapu_small by lia. done.
Qed.

(** Two spaces mapped at the same window, with tables of their own. *)
Lemma map_two (u1 u2 : usr_vspace_t) t1 t2 vaddr p1 p2 len s :
  let n := ptr_1st_num len in
  let v := section vaddr in
  placed t1 v n → placed t2 v n → t1 + 2 ^ 10 * n ≤ t2 ∨ t2 + 2 ^ 10 * n ≤ t1 →
  p1 mod 2 ^ 12 = 0 → p2 mod 2 ^ 12 = 0 →
  words t1 (256 * n) (u_mem s) → words t2 (256 * n) (u_mem s) → unused t1 n s → unused t2 n s →
  tables s → active s →
  ∃ m, let s' := set_u_mem m s in
    ('(r1, w1) ← mmu_map_usr_space u1 t1 vaddr p1 len;
     '(r2, w2) ← mmu_map_usr_space u2 t2 vaddr p2 len;
     mret (r1, w1, r2, w2)) s = Ret ((-1, mk_uvs (asid u1) vaddr len t1, -1, mk_uvs (asid u2) vaddr len t2), s') ∧
    tables s' ∧ active s' ∧ mapped t1 n p1 s' ∧ mapped t2 n p2 s' ∧
    (∀ va, 0 ≤ va < 2 ^ 32 → translate s' va = translate s va).
Proof.
  intros n v P1 P2 Hd Hp1 Hp2 W1 W2 U1 U2 Ht Ha.
  destruct (map_run u1 t1 vaddr p1 len s) as (m1 & R1 & M1 & F1); [done..|]. fold n in M1, F1.
  pose proof (tables_kept t1 v n _ s m1 P1 Ht F1) as T1.
  assert (Hu2 : unused t2 n (set_u_mem m1 s)).
  { intros k l1 Hk He. apply (U2 k l1 Hk). rewrite <- He. symmetry. apply F1. destruct P1 as (_ & _ & _ & _ & Q & _).
    change (2 ^ 10) with 1024 in *. change (2 ^ 14) with 16384 in *. change (2 ^ 12) with 4096 in *. lia. }
  destruct (map_run u2 t2 vaddr p2 len (set_u_mem m1 s)) as (m2 & R2 & M2 & F2); [done|done| |].
  { eapply fills_words; [exact F1| |exact W2]. destruct P1 as [Q1 _], P2 as [Q2 _]. change (2 ^ 10) with 1024 in *. lia. }
  fold n in M2, F2. pose proof (tables_kept t2 v n _ (set_u_mem m1 s) m2 P2 T1 F2) as T2. rewrite set_mem_mem in *.
  exists m2. split_and!; [|done|done| |done|].
  - erewrite run_bind by exact R1. cbv iota. erewrite run_bind by exact R2. done.
  - intros k Hk. cbn [set_u_mem u_mem]. destruct F2 as [_ O]. rewrite O by (change (2 ^ 10) with 1024 in *; lia). by apply M1.
  - intros va Hva. transitivity (translate (set_u_mem m1 s) va); [|by apply (unused_kept t1 v n _ s m1 va P1 U1 Ht Ha F1)].
    change (set_u_mem m2 s) with (set_u_mem m2 (set_u_mem m1 s)). by apply (unused_kept t2 v n _ (set_u_mem m1 s) m2 va P2 Hu2 T1 Ha F2).
Qed.
End spaces.

(** C40 Spaces are not apart.  A space of less than 1 MB maps the whole of its
    section: of two spaces that were allocated one after the other, the window of
    the first shows the memory of the second, from the address on where the
    first ends. *)
Theorem spaces_not_isolated `{!MmuLayout, !MmuLaid} (u : usr_vspace_t) (vaddr len1 len2 : Z) (s : mmu) :
  let t := L2tables_start + u_L2tables_alloc_index s in
  let p := usr_space_start + u_usr_space_alloc_index s in
  0 ≤ vaddr < 2 ^ 32 → vaddr mod 2 ^ 20 = 0 →
  0 ≤ u_L2tables_alloc_index s → 0 ≤ L2tables_start → t + 2048 < 2 ^ 32 → u_L2tables_alloc_index s + 2048 ≤ L2tables_end < 2 ^ 32 →
  0 ≤ u_usr_space_alloc_index s → 0 ≤ usr_space_start → p + len1 < 2 ^ 32 → p mod 2 ^ 12 = 0 →
  u_usr_space_alloc_index s + len1 + len2 ≤ usr_space_end < 2 ^ 32 →
  0 < len1 < 2 ^ 20 → len1 mod 2 ^ 12 = 0 → 0 ≤ len2 → len2 mod 2 ^ 12 = 0 →
  placed t (section vaddr) 1 → words t 256 (u_mem s) → tables s → active s →
  ∃ s' p2, (a1 ← mmu_alloc_usr_space_aligned len1;
           a2 ← mmu_alloc_usr_space_aligned len2;
           match a1, a2 with
           | (0, Some (t1, q1)), (0, Some (t2, q2)) =>
               '(_, w) ← mmu_map_usr_space u t1 vaddr q1 len1; mmu_activate_usr_space w;; mret q2
           | _, _ => fail Wild
           end) s = Ret (p2, s') ∧
    translate s' (vaddr + len1) = Some p2 ∧ p2 = p + len1.
Proof.
  intros t p Hv Hva Ht0 Hts Htb Hte Hu0 Hus Hpb Hpa Hue Hl1 Hl1a Hl2 Hl2a Hpl Hw Htab Hact.
  assert (Hn : ptr_1st_num len1 = 1) by (unfold ptr_1st_num; rewrite Z.shiftr_div_pow2, Z.div_small by lia; done).
  erewrite run_bind by (apply (alloc_run len1 s); lia).
  set (s1 := set_u_usr_space_alloc_index _ _).
  erewrite run_bind by (apply (alloc_run len2 s1); cbn [s1 set_u_usr_space_alloc_index set_u_L2tables_alloc_index u_usr_space_alloc_index u_L2tables_alloc_index]; lia).
  cbv iota. set (s2 := set_u_usr_space_alloc_index (u_usr_space_alloc_index s1 + len2) _).
  assert (Htab2 : tables s2) by (by destruct Htab; split).
  fold t p. destruct (map_run u t vaddr p len1 s2) as (m & R & Hm & Hf); rewrite ?Hn in *; [done..|].
  erewrite run_bind by exact R. cbv iota.
  pose proof (tables_kept t (section vaddr) 1 _ s2 m Hpl Htab2 Hf) as Htab3.
  destruct (activate_run (mk_uvs (asid u) vaddr len1 t) p (set_u_mem m s2)) as (s3 & R3 & _ & _ & Htr & _);
    cbn [space_length vaddr_start L2table_addr]; rewrite ?Hn; [done..|].
  cbn [space_length vaddr_start L2table_addr] in Htr. rewrite Hn in Htr.
  erewrite run_bind by exact R3. exists s3, (p + len1). split.
  { unfold mret, M_ret. do 2 f_equal. cbn [s1 set_u_usr_space_alloc_index u_usr_space_alloc_index]. unfold p. lia. }
  split; [|done].
  assert (section (vaddr + len1) = section vaddr) as Hs.
  { unfold section. change (2 ^ 20) with 1048576 in *. lia. }
  assert (2 ^ 20 * section vaddr = vaddr) as Hb.
  { unfold section. change (2 ^ 20) with 1048576 in *. lia. }
  rewrite Htr.
  - unfold in_window. rewrite Hs, (proj2 (Z.leb_le _ _)), (proj2 (Z.ltb_lt _ _)) by lia. cbn [andb]. rewrite Hb.
    replace (p + (vaddr + len1 - vaddr)) with (p + len1) by lia. rewrite wrapu_small; [done|]. unfold p. lia.
  - change (2 ^ 20) with 1048576 in *. change (2 ^ 32) with 4294967296 in *. lia.
Qed.

(** ** The theorems on the board *)
Module Spaces.
Import MmuSpec.Board.

Lemma reset_unused t n : unused t n reset.
Proof. intros k l1 Hk Hl. change (memory !! (0x100000 + 4 * k) = Some l1) in Hl. apply memory_is_0 in Hl. subst l1. discriminate. Qed.

Lemma reset_words j n : 0 ≤ j → 256 * j + n ≤ 16384 → words (0x800000 + 1024 * j) n (u_mem reset).
Proof.
  intros Hj Hn k Hk. replace (0x800000 + 1024 * j + 4 * k) with (0x800000 + 4 * (256 * j + k)) by lia.
  apply (memory_word _ 16384); lia.
Qed.

Lemma reset_placed j v n : 0 ≤ j → 0 < n → 0 ≤ v → v + n ≤ 4096 → placed (0x800000 + 1024 * j) v n.
Proof.
  intros Hj Hn Hv Hvn. unfold placed. cbn [adr_1st_page_table adr_2nd_page_table board_layout].
  change (2 ^ 10) with 1024. change (2 ^ 12) with 4096. change (2 ^ 14) with 16384. change (2 ^ 22) with 4194304. lia.
Qed.

Definition no_space : usr_vspace_t := mk_uvs 0 0 0 0.

Lemma spaces_not_isolated_witness :
  ∃ s', (a1 ← mmu_alloc_usr_space_aligned 0x2000;
         a2 ← mmu_alloc_usr_space_aligned 0x3000;
         match a1, a2 with
         | (0, Some (t1, q1)), (0, Some (t2, q2)) =>
             '(_, w) ← mmu_map_usr_space no_space t1 0xc0000000 q1 0x2000; mmu_activate_usr_space w;; mret q2
         | _, _ => fail Wild
         end) reset = Ret (0x902000, s') ∧ translate s' 0xc0002000 = Some 0x902000.
Proof.
  destruct (spaces_not_isolated no_space 0xc0000000 0x2000 0x3000 reset) as (s' & p2 & Hrun & Htr & Hp2);
    cbn [reset u_L2tables_alloc_index u_usr_space_alloc_index L2tables_start L2tables_end usr_space_start usr_space_end board_layout]; try lia.
  - apply (reset_placed 0); lia || by vm_compute.
  - apply (reset_words 0); lia.
  - apply reset_tables.
  - apply reset_active.
  - cbn in Hp2. exists s'. rewrite Hp2 in Hrun, Htr. split; [exact Hrun|exact Htr].
Defined.
End Spaces.
