(* ===== verification/MmuTlb.v ===== *)
(** * Switching between user spaces, with the translation buffer

    The processor translates by the tables ([MmuSpec.translate]) or by what its
    translation buffer holds from earlier walks.  As the architecture documents
    it, while the MMU is on the buffer may be filled with any walk and may lose
    any entry at any time; an entry of a page that is not global is marked with
    the address space identifier of CONTEXTIDR and only met under that one.
    Stores into the tables and writes of CONTEXTIDR leave the buffer alone. *)
From S2P Require Import Prelude Mmu MmuSpec MmuSpace.
From stdpp Require Import list gmap.
From Stdlib Require Import ZifyNat.
#[local] Open Scope Z_scope.

#[local] Ltac Zify.zify_post_hook ::= Z.to_euclidean_division_equations.

(** ** Reference: the buffer *)

(** What an entry says of one address: its identifier ([None] for a global page)
    and the address it translates to. *)
Record tlb_entry : Type := mk_tlb { e_va : Z; e_asid : option Z; e_pa : Z }.

Definition current_asid (s : mmu) : Z := Z.land (u_contextidr s) 0xff.



(** An entry that the processor may use for [va]. *)
Definition hits (s : mmu) (va : Z) (e : tlb_entry) : Prop :=
  e_va e = va ∧ (e_asid e = None ∨ e_asid e = Some (current_asid s)).

(** The addresses that an access to [va] may reach, with the MMU on. *)
Definition reaches (s : mmu) (T : list tlb_entry) (va pa : Z) : Prop :=
  translate s va = Some pa ∨ ∃ e, e ∈ T ∧ hits s va e ∧ e_pa e = pa.

Section tlb.
Context `{!MmuLayout, !MmuLaid}.








(** ** Two spaces behind one window *)
Section two_spaces.
Context (id : bool → Z) (space : bool → usr_vspace_t) (pa : bool → Z) (v n : Z) (walk0 : Z → option Z).
Context (Hid : ∀ b, 0 ≤ id b < 256) (Hne : id true ≠ id false) (Hpa : ∀ b, pa b mod 2 ^ 12 = 0).
Context (Hspace : ∀ b, section (vaddr_start (space b)) = v ∧ ptr_1st_num (space_length (space b)) = n ∧ placed (L2table_addr (space b)) v n).










End two_spaces.


(** [mmu_activate_usr_space] alone does not switch: what the buffer holds of the
    space before is still met, although the tables lead elsewhere. *)
Lemma activation_leaves_buffer s T a u paddr va pa :
  let n := ptr_1st_num (space_length u) in let v := section (vaddr_start u) in
  placed (L2table_addr u) v n → mapped (L2table_addr u) n paddr s → paddr mod 2 ^ 12 = 0 → tables s → active s →
  0 ≤ va < 2 ^ 32 → in_window v n va = true → current_asid s = a → mk_tlb va (Some a) pa ∈ T →
  ∃ s', mmu_activate_usr_space u s = Ret (-1, s') ∧ reaches s' T va pa ∧
    translate s' va = Some (u32 (paddr + (va - 2 ^ 20 * v))).
Proof.
  intros n v Hpl Hm Hp Ht Ha Hva Hw Hasid HT.
  destruct (activate_run u paddr s) as (s' & R & _ & _ & Htr & _ & [m ->] & _); [done..|]. fold n v in Htr.
  exists (set_u_mem m s). split_and!; [done| |by rewrite Htr, Hw].
  right. exists (mk_tlb va (Some a) pa). split_and!; [done|split; [done|right; by rewrite <- Hasid]|done].
Qed.
End tlb.

(** ** The theorem on the board *)
Module Switch.
Import MmuSpec.Board MmuSpace.Spaces.


End Switch.
