(* ===== verification/Floats.v ===== *)
(** * Floating-point arithmetic of the target

    C's [float] and [double] are the IEEE 754 binary formats: an operation gives
    the exact result rounded to the nearest number of the format, ties to even.
    A number is a rational; infinities and NaN do not occur (a division by zero
    has no result here, and no value of the program comes near the largest
    number).  The theorems of this file say when [ceil] and [floor] of a quotient
    in single precision are those of the exact quotient. *)
From S2P Require Import Prelude.
From Stdlib Require Import QArith Qround.
#[local] Open Scope Z_scope.

(** The integer nearest to [n / d], ties to even. *)
Definition nearest (n d : Z) : Z :=
  let m := n / d in
  if 2 * (n mod d) <? d then m else
  if d <? 2 * (n mod d) then m + 1 else
  if Z.even m then m else m + 1.

(** Is [2 ^ k] at most [a / d]? *)
Definition pow_le (k a d : Z) : bool := if 0 <=? k then 2 ^ k * d <=? a else d <=? a * 2 ^ (- k).

(** The exponent of the last of [p] digits of [a / d], not below [emin]. *)
Definition last_exp (p emin a d : Z) : Z :=
  let k := Z.log2 a - Z.log2 d in
  Z.max ((if pow_le k a d then k else k - 1) - (p - 1)) emin.

Definition scaled (e a d : Z) : Z := if 0 <=? e then nearest a (d * 2 ^ e) else nearest (a * 2 ^ (- e)) d.
Definition times_pow (m e : Z) : Q := if 0 <=? e then inject_Z (m * 2 ^ e) else m # Z.to_pos (2 ^ (- e)).

Definition fround (p emin : Z) (q : Q) : Q :=
  let q := Qred q in
  let a := Z.abs (Qnum q) in
  let d := Zpos (Qden q) in
  if a =? 0 then 0%Q else
  let e := last_exp p emin a d in
  times_pow (Z.sgn (Qnum q) * scaled e a d) e.

Definition fl (q : Q) : Q := fround 24 (-149) q.
Definition dbl (q : Q) : Q := fround 53 (-1074) q.

(** [(acoral_fl)z] and the quotient of two numbers in single precision. *)
Definition fl_of (z : Z) : Q := fl (inject_Z z).
Definition fl_div (x y : Q) : option Q := if Qeq_bool y 0 then None else Some (fl (x / y)).

(** The conversion of a [double] to [acoral_u32], when it has a result. *)
Definition to_u32 (q : Q) : option Z :=
  let z := Z.quot (Qnum q) (Zpos (Qden q)) in
  if (0 <=? z) && (z <? 2 ^ 32) then Some z else None.

(** ** Rounding *)
Lemma fround_Qeq p emin x y : (x == y)%Q → fround p emin x = fround p emin y.
Proof. intros E%Qred_complete. unfold fround. by rewrite E. Qed.

Lemma nearest_exact n d : 0 < d → nearest (n * d) d = n.
Proof.
  intros Hd. unfold nearest. rewrite Z.div_mul, Z.mod_mul by lia. by rewrite (proj2 (Z.ltb_lt (2 * 0) d)) by lia.
Qed.

(** Bounds by a multiple on either side, with a gap of more than a half. *)
Lemma nearest_le n d z : 0 < d → n ≤ z * d → nearest n d ≤ z.
Proof.
  intros Hd Hn. unfold nearest. pose proof (Z.div_mod n d). pose proof (Z.mod_pos_bound n d Hd).
  set (m := n / d) in *. set (r := n mod d) in *.
  assert (m < z ∨ (m = z ∧ r = 0) ∨ z < m) as [?|[[-> ->]|?]] by nia.
  - repeat case_match; lia.
  - by rewrite (proj2 (Z.ltb_lt (2 * 0) d)) by lia.
  - nia.
Qed.

Lemma nearest_ge n d z : 0 < d → z * d ≤ n → z ≤ nearest n d.
Proof.
  intros Hd Hn. unfold nearest. pose proof (Z.div_mod n d). pose proof (Z.mod_pos_bound n d Hd).
  set (m := n / d) in *. assert (z ≤ m) by nia. repeat case_match; lia.
Qed.

Lemma nearest_gt n d z : 0 < d → 2 * (z * d) + d < 2 * n → z < nearest n d.
Proof.
  intros Hd Hn. unfold nearest. pose proof (Z.div_mod n d). pose proof (Z.mod_pos_bound n d Hd).
  set (m := n / d) in *. set (r := n mod d) in *.
  destruct (Z.ltb_spec (2 * r) d), (Z.ltb_spec d (2 * r)); [nia..|]. destruct (Z.even m); nia.
Qed.

Lemma nearest_lt n d z : 0 < d → 2 * n + d < 2 * (z * d) → nearest n d < z.
Proof.
  intros Hd Hn. unfold nearest. pose proof (Z.div_mod n d). pose proof (Z.mod_pos_bound n d Hd).
  set (m := n / d) in *. set (r := n mod d) in *.
  destruct (Z.ltb_spec (2 * r) d), (Z.ltb_spec d (2 * r)); [nia..|]. destruct (Z.even m); nia.
Qed.

(** The digits: [2 ^ l <= a / d < 2 ^ (l + 1)], multiplied out by a power. *)
Lemma log_bounds a d : 0 < a → 0 < d →
  let k := Z.log2 a - Z.log2 d in
  let l := if pow_le k a d then k else k - 1 in
  ∀ s, 0 ≤ s → 0 ≤ s + l → 2 ^ (s + l) * d ≤ a * 2 ^ s < 2 ^ (s + l + 1) * d.
Proof.
  intros Ha Hd k l s Hs Hsl. pose proof (Z.log2_spec a Ha) as [Ha1 Ha2]. pose proof (Z.log2_spec d Hd) as [Hd1 Hd2].
  pose proof (Z.log2_nonneg a). pose proof (Z.log2_nonneg d).
  set (la := Z.log2 a) in *. set (ld := Z.log2 d) in *. rewrite Z.pow_succ_r in Ha2, Hd2 by lia.
  assert (Hp : 0 < 2 ^ s) by (apply Z.pow_pos_nonneg; lia).
  assert (Hmul : ∀ e, 0 ≤ e → (2 ^ e * d ≤ a * 2 ^ s ↔ 2 ^ e * d ≤ a * 2 ^ s)) by done.
  (* 2^(s+k) * 2^ld = 2^s * 2^la when the exponent is not negative *)
  assert (Hk : 0 ≤ s + k → 2 ^ (s + k) * 2 ^ ld = 2 ^ s * 2 ^ la).
  { intros. rewrite <- !Z.pow_add_r by lia. f_equal. unfold k. lia. }
  assert (Hk1 : 0 ≤ s + k - 1 → 2 * 2 ^ (s + k - 1) = 2 ^ (s + k)).
  { intros. rewrite <- Z.pow_succ_r by lia. f_equal. lia. }
  unfold l, pow_le in *. clear Hmul l.
  destruct (Z.leb_spec 0 k) as [Hk0|Hk0].
  - assert (2 ^ (s + k) = 2 ^ s * 2 ^ k) as E by (by apply Z.pow_add_r).
    destruct (Z.leb_spec (2 ^ k * d) a).
    + rewrite Z.add_1_r, Z.pow_succ_r by lia. specialize (Hk ltac:(lia)). nia.
    + replace (s + (k - 1) + 1) with (s + k) by lia. replace (s + (k - 1)) with (s + k - 1) in * by lia.
      specialize (Hk ltac:(lia)). specialize (Hk1 ltac:(lia)). nia.
  - destruct (Z.leb_spec d (a * 2 ^ (- k))) as [Hle|Hle].
    + assert (2 ^ s = 2 ^ (s + k) * 2 ^ (- k)) as E by (rewrite <- Z.pow_add_r by lia; f_equal; lia).
      assert (0 < 2 ^ (s + k)) by (apply Z.pow_pos_nonneg; lia).
      rewrite Z.add_1_r, Z.pow_succ_r by lia. specialize (Hk ltac:(lia)). nia.
    + replace (s + (k - 1) + 1) with (s + k) by lia. replace (s + (k - 1)) with (s + k - 1) in * by lia.
      assert (2 ^ s = 2 ^ (s + k) * 2 ^ (- k)) as E by (rewrite <- Z.pow_add_r by lia; f_equal; lia).
      assert (0 < 2 ^ (s + k)) by (apply Z.pow_pos_nonneg; lia).
      specialize (Hk ltac:(lia)). specialize (Hk1 ltac:(lia)). nia.
Qed.

(** The fraction in lowest terms is not larger. *)
Lemma Qred_le a d : 0 < a →
  ∃ a' d', Qred (a # d) = a' # d' ∧ 0 < a' ≤ a ∧ (d' ≤ d)%positive ∧ a' * Zpos d = a * Zpos d'.
Proof.
  intros Ha. destruct (Qred (a # d)) as [a' d'] eqn:E. exists a', d'.
  pose proof (Qred_correct (a # d)) as Hq. rewrite E in Hq. unfold Qeq in Hq. cbn [Qnum Qden] in Hq.
  pose proof (gcd_Qred (a # d)) as Hr. rewrite E in Hr. cbn [Qnum Qden] in Hr.
  assert ((a' | Zpos d' * a)%Z) as H1 by (exists (Zpos d); lia).
  apply Z.gauss in H1; [|exact Hr].
  assert ((Zpos d' | a' * Zpos d)%Z) as H2 by (exists a; lia).
  rewrite Z.gcd_comm in Hr. apply Z.gauss in H2; [|exact Hr].
  apply Z.divide_pos_le in H1; [|done]. apply Z.divide_pos_le in H2; [|done].
  split_and!; try done; nia.
Qed.

Lemma times_pow_neg m e : e ≤ 0 → (times_pow m e == m # Z.to_pos (2 ^ (- e)))%Q.
Proof.
  intros He. unfold times_pow. destruct (Z.leb_spec 0 e); [|done]. replace e with 0 by lia.
  unfold Qeq, inject_Z. cbn. lia.
Qed.

Lemma scaled_neg e a d : e ≤ 0 → scaled e a d = nearest (a * 2 ^ (- e)) d.
Proof.
  intros He. unfold scaled. destruct (Z.leb_spec 0 e); [|done]. replace e with 0 by lia.
  cbn. by rewrite !Z.mul_1_r.
Qed.

(** The rounding of a quotient of two numbers of [p] digits: [m / 2 ^ s], with
    all of [p] digits. *)
Lemma fround_quotient p emin a d :
  0 < p → emin ≤ 1 - 2 * p → 0 < a < 2 ^ p → Zpos d < 2 ^ p →
  ∃ s a' d', 0 ≤ s ∧ 0 < a' < 2 ^ p ∧ 0 < d' ∧ a' * Zpos d = a * d' ∧ 2 ^ (p - 1) * d' ≤ a' * 2 ^ s ∧
    (fround p emin (a # d) == nearest (a' * 2 ^ s) d' # Z.to_pos (2 ^ s))%Q.
Proof.
  intros Hp Hemin Ha Hd. destruct (Qred_le a d) as (a' & d' & E & Ha' & Hd' & Hr); [lia|].
  set (k := Z.log2 a' - Z.log2 (Zpos d')). set (l := if pow_le k a' (Zpos d') then k else k - 1).
  assert (Hl : - p ≤ l ≤ p - 1).
  { assert (Z.log2 a' ≤ p - 1) by (assert (Z.log2 a' < p) by (apply Z.log2_lt_pow2; lia); lia).
    assert (Z.log2 (Zpos d') ≤ p - 1) by (assert (Z.log2 (Zpos d') < p) by (apply Z.log2_lt_pow2; lia); lia).
    pose proof (Z.log2_nonneg a'). pose proof (Z.log2_nonneg (Zpos d')). unfold l, k. case_match; lia. }
  assert (He : last_exp p emin a' (Zpos d') = l - (p - 1)) by (unfold last_exp; fold k l; lia).
  exists (p - 1 - l), a', (Zpos d'). split_and!; try lia.
  - pose proof (log_bounds a' (Zpos d') ltac:(lia) ltac:(lia) (p - 1 - l) ltac:(lia)) as Hb. fold k l in Hb.
    replace (p - 1 - l + l) with (p - 1) in Hb by lia. apply Hb. lia.
  - unfold fround. rewrite E. cbn [Qnum Qden]. rewrite Z.abs_eq, (proj2 (Z.eqb_neq a' 0)), Z.sgn_pos, Z.mul_1_l by lia.
    rewrite He, scaled_neg, times_pow_neg by lia. by replace (- (l - (p - 1))) with (p - 1 - l) by lia.
Qed.

Lemma Qceiling_between m s n : 0 ≤ s → (n - 1) * 2 ^ s < m ≤ n * 2 ^ s → Qceiling (m # Z.to_pos (2 ^ s)) = n.
Proof.
  intros Hs Hm. assert (0 < 2 ^ s) by (by apply Z.pow_pos_nonneg). unfold Qceiling, Qfloor, Qopp. cbn [Qnum Qden].
  rewrite Z2Pos.id by done. pose proof (Z.div_mod (- m) (2 ^ s)). pose proof (Z.mod_pos_bound (- m) (2 ^ s)). nia.
Qed.

Lemma Qfloor_between m s n : 0 ≤ s → n * 2 ^ s ≤ m < (n + 1) * 2 ^ s → Qfloor (m # Z.to_pos (2 ^ s)) = n.
Proof.
  intros Hs Hm. assert (0 < 2 ^ s) by (by apply Z.pow_pos_nonneg). unfold Qfloor.
  rewrite Z2Pos.id by done. pose proof (Z.div_mod m (2 ^ s)). pose proof (Z.mod_pos_bound m (2 ^ s)). nia.
Qed.

(** Between a fraction of small numbers and an integer there is more than half of
    the last digit. *)
Lemma gap p a d s : 0 < p → 0 ≤ s → 0 < a < 2 ^ p → 0 < d → 2 ^ (p - 1) * d ≤ a * 2 ^ s → d < 2 * 2 ^ s.
Proof.
  intros Hp Hs Ha Hd Hle. assert (2 ^ p = 2 * 2 ^ (p - 1)) as E by (rewrite <- Z.pow_succ_r by lia; f_equal; lia).
  assert (0 < 2 ^ (p - 1)) by (apply Z.pow_pos_nonneg; lia). assert (0 < 2 ^ s) by (by apply Z.pow_pos_nonneg). nia.
Qed.

Definition cdiv (a d : Z) : Z := (a + d - 1) / d.

Lemma cdiv_spec a d n : 0 < d → (n - 1) * d < a ≤ n * d → cdiv a d = n.
Proof.
  intros Hd Ha. unfold cdiv. pose proof (Z.div_mod (a + d - 1) d). pose proof (Z.mod_pos_bound (a + d - 1) d Hd). nia.
Qed.

Lemma cdiv_bounds a d : 0 < d → (cdiv a d - 1) * d < a ≤ cdiv a d * d.
Proof.
  intros Hd. unfold cdiv. pose proof (Z.div_mod (a + d - 1) d). pose proof (Z.mod_pos_bound (a + d - 1) d Hd). nia.
Qed.

Lemma ceil_fround p emin a d :
  0 < p → emin ≤ 1 - 2 * p → 0 < a < 2 ^ p → Zpos d < 2 ^ p → Qceiling (fround p emin (a # d)) = cdiv a (Zpos d).
Proof.
  intros Hp He Ha Hd. destruct (fround_quotient p emin a d) as (s & a' & d' & Hs & Ha' & Hd' & Hr & Hdig & E); try done.
  rewrite E. pose proof (gap p a' d' s Hp Hs Ha' Hd' Hdig). assert (0 < 2 ^ s) by (by apply Z.pow_pos_nonneg).
  set (n := cdiv a (Zpos d)). pose proof (cdiv_bounds a (Zpos d) ltac:(lia)) as Hn. fold n in Hn.
  assert ((n - 1) * d' < a' ≤ n * d') as Hn' by nia. apply Qceiling_between; [done|]. split.
  - apply nearest_gt; [done|]. nia.
  - apply nearest_le; [done|]. nia.
Qed.

Lemma floor_fround p emin a d :
  0 < p → emin ≤ 1 - 2 * p → 0 < a < 2 ^ p → Zpos d < 2 ^ p → Qfloor (fround p emin (a # d)) = a / Zpos d.
Proof.
  intros Hp He Ha Hd. destruct (fround_quotient p emin a d) as (s & a' & d' & Hs & Ha' & Hd' & Hr & Hdig & E); try done.
  rewrite E. pose proof (gap p a' d' s Hp Hs Ha' Hd' Hdig). assert (0 < 2 ^ s) by (by apply Z.pow_pos_nonneg).
  set (n := a / Zpos d). pose proof (Z.div_mod a (Zpos d) ltac:(lia)) as Hdm. pose proof (Z.mod_pos_bound a (Zpos d) ltac:(lia)) as Hm.
  fold n in Hdm. assert (n * d' ≤ a' < (n + 1) * d') as Hn' by nia. apply Qfloor_between; [done|]. split.
  - apply nearest_ge; [done|]. nia.
  - apply nearest_lt; [done|]. nia.
Qed.

(** Integers of [p] digits are not rounded. *)
Lemma fround_int p emin z : 0 < p → emin ≤ 1 - 2 * p → 0 ≤ z < 2 ^ p → (fround p emin (inject_Z z) == inject_Z z)%Q.
Proof.
  intros Hp He Hz. destruct (decide (z = 0)) as [->|Hne]; [done|].
  unfold inject_Z. destruct (fround_quotient p emin z 1) as (s & a' & d' & Hs & Ha' & Hd' & Hr & Hdig & E); [lia..|].
  rewrite E. assert (0 < 2 ^ s) by (by apply Z.pow_pos_nonneg).
  rewrite Z.mul_1_r in Hr. replace (a' * 2 ^ s) with (z * 2 ^ s * d') by lia. rewrite nearest_exact by done.
  unfold Qeq. cbn [Qnum Qden]. rewrite Z2Pos.id by done. lia.
Qed.

(** ** Single and double precision *)
Lemma fl_of_exact z : 0 ≤ z < 2 ^ 24 → (fl_of z == inject_Z z)%Q.
Proof. intros Hz. by apply fround_int. Qed.

Lemma dbl_exact z : 0 ≤ z < 2 ^ 53 → (dbl (inject_Z z) == inject_Z z)%Q.
Proof. intros Hz. by apply fround_int. Qed.

Lemma fl_div_exact a d : 0 ≤ a < 2 ^ 24 → 0 < d < 2 ^ 24 → fl_div (fl_of a) (fl_of d) = Some (fl (a # Z.to_pos d)).
Proof.
  intros Ha Hd. unfold fl_div.
  assert (Qeq_bool (fl_of d) 0 = false) as ->.
  { apply not_true_iff_false. rewrite Qeq_bool_iff, fl_of_exact by lia. unfold Qeq, inject_Z. cbn. lia. }
  f_equal. apply fround_Qeq. rewrite !fl_of_exact by lia.
  destruct d as [|d|d]; [lia| |lia]. unfold Qeq, Qdiv, Qmult, Qinv, inject_Z. cbn. lia.
Qed.

Lemma ceil_div_exact a d : 0 ≤ a < 2 ^ 24 → 0 < d < 2 ^ 24 →
  ∃ x, fl_div (fl_of a) (fl_of d) = Some x ∧ Qceiling x = cdiv a d.
Proof.
  intros Ha Hd. eexists. split; [by apply fl_div_exact|]. destruct (decide (a = 0)) as [->|Hne].
  - symmetry. change (Qceiling _) with 0. apply cdiv_spec; lia.
  - unfold fl. rewrite ceil_fround by (rewrite ?Z2Pos.id; lia). by rewrite Z2Pos.id by lia.
Qed.

Lemma floor_div_exact a d : 0 ≤ a < 2 ^ 24 → 0 < d < 2 ^ 24 →
  ∃ x, fl_div (fl_of a) (fl_of d) = Some x ∧ Qfloor x = a / d.
Proof.
  intros Ha Hd. eexists. split; [by apply fl_div_exact|]. destruct (decide (a = 0)) as [->|Hne].
  - done.
  - unfold fl. rewrite floor_fround by (rewrite ?Z2Pos.id; lia). by rewrite Z2Pos.id by lia.
Qed.

Lemma to_u32_int q z : (q == inject_Z z)%Q → 0 ≤ z < 2 ^ 32 → to_u32 q = Some z.
Proof.
  intros Hq Hz. unfold to_u32. unfold Qeq, inject_Z in Hq. cbn [Qnum Qden] in Hq. rewrite Z.mul_1_r in Hq. rewrite Hq.
  rewrite Z.quot_mul by lia. by rewrite (proj2 (Z.leb_le 0 z)), (proj2 (Z.ltb_lt z _)) by lia.
Qed.
