(* ===== verification/Admis.v ===== *)
(** * components/tmp/lib/src/admis_ctl.c: admission control

    The data of the tasks and resources, the order of the cores by load, and the
    analysis that decides whether all tasks meet their deadlines.  The queues are
    the lists of their members, in order, by address; a traversal from [prev] to
    [prev] goes over the list backwards.  The variables that [acoral_dpcp_t **]
    points to are a map from their addresses.  Single and double precision are
    those of [Floats]; a conversion of a [double] without a result, like a
    division by zero, is the outcome [Wild]. *)
From S2P Require Import Prelude KTypes Pcp Floats.
From stdpp Require Import list gmap.
From Stdlib Require Import QArith Qround.
#[local] Open Scope Z_scope.


(** [admis_res_cache] and the fields of an [acoral_dpcp_t] that are used here;
    [data] of a resource is its cache. *)
Record admis_res_cache : Type := mk_cache {
  cpu_is_bind : Z;
  ceiling_cache : Z;
  type_cache : Z;
  bind_cnt : Z;
}.
Record acoral_dpcp_t : Type := mk_dpcp_t {
  dp_cpu : Z;
  dp_type : Z;
  dp_prio_ceiling : Z;
  dp_cache : admis_res_cache;
}.

Record acoral_admis_res_data : Type := mk_res_data {
  critical_cnt : Z;
  length_max : Z;
  rd_dpcp : Z;
}.

Record acoral_admis_ctl_data : Type := mk_ctl_data {
  ct_cpu : Z;
  dl_time : Z;
  wcet : Z;
  wcrt : Z;
  period_time : Z;
  res_queue : list Z;
  ct_prio : Z;
  prio_origin : Z;
  is_new : Z;
  task_id : Z;
}.
Definition set_wcrt v d := mk_ctl_data (ct_cpu d) (dl_time d) (wcet d) v (period_time d) (res_queue d) (ct_prio d) (prio_origin d) (is_new d) (task_id d).

Record admis : Type := mk_admis {
  a_ctl : gmap Z acoral_admis_ctl_data;
  a_res : gmap Z acoral_admis_res_data;
  a_dpcp_var : gmap Z Z;
  a_dpcp : gmap Z acoral_dpcp_t;
  acoral_admis_ctl_queue : list Z;
  acoral_dpcp_queue : list (list (list Z));
  acoral_timed_time : list (list Z);
  acoral_timed_h_period : list Z;
  timed_time_sum : list Z;
  cpu_load : list (list Q);
  cpu_load_list : list Z;
}.
Definition set_a_ctl v s := mk_admis v (a_res s) (a_dpcp_var s) (a_dpcp s) (acoral_admis_ctl_queue s) (acoral_dpcp_queue s) (acoral_timed_time s) (acoral_timed_h_period s) (timed_time_sum s) (cpu_load s) (cpu_load_list s).
Definition set_cpu_load_list v s := mk_admis (a_ctl s) (a_res s) (a_dpcp_var s) (a_dpcp s) (acoral_admis_ctl_queue s) (acoral_dpcp_queue s) (acoral_timed_time s) (acoral_timed_h_period s) (timed_time_sum s) (cpu_load s) v.

Abbreviation A := (M admis).

Definition ctl_at (p : Z) : A acoral_admis_ctl_data := deref (λ s, a_ctl s !! p).
Definition res_at (p : Z) : A acoral_admis_res_data := deref (λ s, a_res s !! p).
(** [*res_data->dpcp], and what it points to. *)
Definition dpcp_var (r : acoral_admis_res_data) : A Z := deref (λ s, a_dpcp_var s !! rd_dpcp r).
Definition dpcp_at (p : Z) : A acoral_dpcp_t := deref (λ s, a_dpcp s !! p).
Definition cache_of (r : acoral_admis_res_data) : A admis_res_cache := p ← dpcp_var r; d ← dpcp_at p; mret (dp_cache d).
Definition global_queue (cpu : Z) : A (list Z) :=
  deref (λ s, l ← aget (acoral_dpcp_queue s) ACORAL_DPCP_GLOBAL; aget l cpu).

(** [NL] of a use: the length of all of its critical sections. *)
Definition use_time (r : acoral_admis_res_data) : Z := u32 (critical_cnt r * length_max r).

(** ** Load *)

Definition CPU_LOAD_LAST : Z := 0.
Definition CPU_LOAD_THIS : Z := 1.

(** One turn of the inner loop: entries [i] and [i + j] of both arrays. *)
Definition exchange (i j : Z) : M (list Q * list Z) unit := λ '(loads, cpus),
  match aget loads i, aget loads (i + j), aget cpus i, aget cpus (i + j) with
  | Some x, Some y, Some c, Some d =>
      Ret (tt, if Qle_bool x y then (loads, cpus)
               else (aset (i + j) x (aset i y loads), aset (i + j) c (aset i d cpus)))
  | _, _, _, _ => Err Wild
  end.

Fixpoint inner_loop (n : nat) (i j : Z) : M (list Q * list Z) unit :=
  match n with
  | O => mret tt
  | S n => if i + j <? CFG_MAX_CPU then exchange i j;; inner_loop n i (j + 1) else mret tt
  end.
Fixpoint outer_loop (n : nat) (i : Z) : M (list Q * list Z) unit :=
  match n with
  | O => mret tt
  | S n => inner_loop (Z.to_nat CFG_MAX_CPU) i 1;; outer_loop n (i + 1)
  end.

Definition cpu_load_list_update : A unit := λ s,
  match aget (cpu_load s) CPU_LOAD_THIS with
  | Some loads =>
      match outer_loop (Z.to_nat CFG_MAX_CPU) 0 (loads, Z.of_nat <$> seq 0 (Z.to_nat CFG_MAX_CPU)) with
      | Ret (_, (_, cpus)) => Ret (tt, set_cpu_load_list cpus s)
      | Err e => Err e
      end
  | None => Err Wild
  end.

(** [u_g_time]: the first use of the resource of each task, from the back. *)
Fixpoint u_g_uses (rs : list Z) (dpcp period : Z) (ret : Q) : A Q :=
  match rs with
  | [] => mret ret
  | r :: rs =>
      r ← res_at r;
      if dpcp =? rd_dpcp r then
        x ← deref (λ _, fl_div (fl_of (use_time r)) (fl_of period));
        mret (fl (ret + x))
      else u_g_uses rs dpcp period ret
  end.
Fixpoint u_g_tasks (cs : list Z) (dpcp : Z) (ret : Q) : A Q :=
  match cs with
  | [] => mret ret
  | c :: cs =>
      c ← ctl_at c;
      ret ← u_g_uses (res_queue c) dpcp (period_time c) ret;
      u_g_tasks cs dpcp ret
  end.
Definition u_g_time (dpcp : Z) : A Q :=
  q ← get acoral_admis_ctl_queue; u_g_tasks (reverse q) dpcp 0%Q.

(** ** Latencies *)

(** [ret += ceil((acoral_fl)(t + wcrt - c)/(acoral_fl)period)*c] *)
Definition interference (t wcrt c period ret : Z) : A Z :=
  x ← deref (λ _, fl_div (fl_of (u32 (t + wcrt - c))) (fl_of period));
  deref (λ _, to_u32 (dbl (inject_Z ret + dbl (inject_Z (Qceiling x) * inject_Z c)))).

(** [latency_b_time] *)
Fixpoint b_global (rs : list Z) (global_n : Z) : A Z :=
  match rs with
  | [] => mret global_n
  | r :: rs =>
      r ← res_at r;
      k ← cache_of r;
      b_global rs (if type_cache k =? ACORAL_DPCP_GLOBAL then u8 (global_n + critical_cnt r) else global_n)
  end.
Fixpoint b_local (rs : list Z) (prio local_l_max : Z) : A Z :=
  match rs with
  | [] => mret local_l_max
  | r :: rs =>
      r ← res_at r;
      k ← cache_of r;
      b_local rs prio
        (if (type_cache k =? ACORAL_DPCP_LOCAL) && (ceiling_cache k <? prio) && (local_l_max <? length_max r)
         then length_max r else local_l_max)
  end.
Fixpoint b_tasks (cs : list Z) (cpu prio local_l_max : Z) : A Z :=
  match cs with
  | [] => mret local_l_max
  | c :: cs =>
      c ← ctl_at c;
      if (ct_cpu c =? cpu) && (prio <? ct_prio c) then
        m ← b_local (res_queue c) prio local_l_max;
        b_tasks cs cpu prio m
      else if ct_prio c <=? prio then mret local_l_max
      else b_tasks cs cpu prio local_l_max
  end.
Definition latency_b_time (data : Z) : A Z :=
  d ← ctl_at data;
  global_n ← b_global (res_queue d) 0;
  q ← get acoral_admis_ctl_queue;
  local_l_max ← b_tasks (reverse q) (ct_cpu d) (ct_prio d) 0;
  mret (u32 ((global_n + 1) * local_l_max)).

(** [latency_ng_time]: the time of a task outside of its global critical
    sections. *)
Fixpoint ng_time (rs : list Z) (c_ng : Z) : A Z :=
  match rs with
  | [] => mret c_ng
  | r :: rs =>
      r ← res_at r;
      k ← cache_of r;
      ng_time rs (if type_cache k =? ACORAL_DPCP_GLOBAL then u32 (c_ng - use_time r) else c_ng)
  end.
Fixpoint ng_tasks (cs : list Z) (t cpu prio ret : Z) : A Z :=
  match cs with
  | [] => mret ret
  | c :: cs =>
      c ← ctl_at c;
      if (ct_cpu c =? cpu) && (ct_prio c <? prio) then
        c_ng ← ng_time (res_queue c) (wcet c);
        ret ← interference t (wcrt c) c_ng (period_time c) ret;
        ng_tasks cs t cpu prio ret
      else if prio <=? ct_prio c then mret ret
      else ng_tasks cs t cpu prio ret
  end.
Definition latency_ng_time (t data : Z) : A Z :=
  d ← ctl_at data;
  q ← get acoral_admis_ctl_queue;
  ng_tasks q t (ct_cpu d) (ct_prio d) 0.

(** The list of the times of a core: start, length, start, length.  One that ends
    after a start is walked for ever. *)
Fixpoint eps_loop (l : list Z) (t ret : Z) : A Z :=
  match l with
  | [] => mret ret
  | v :: rest =>
      if u32 v <? t then
        match rest with
        | [] => fail Hang
        | len :: rest => eps_loop rest t (u32 (ret + len))
        end
      else mret ret
  end.
Definition epsilon (t cpu : Z) : A Z :=
  l ← deref (λ s, aget (acoral_timed_time s) cpu); eps_loop l t 0.

Fixpoint t_loop (l : list Z) (t cpu sum h latency_t_max : Z) : A Z :=
  match l with
  | [] => mret latency_t_max
  | v :: rest =>
      x ← deref (λ _, fl_div (fl_of (u32 (v + t))) (fl_of h));
      e1 ← epsilon (u32 (v + t) mod h) cpu;
      e2 ← epsilon (u32 v) cpu;
      lt ← deref (λ _, to_u32 (dbl (dbl (dbl (inject_Z sum * inject_Z (Qfloor x)) + inject_Z e1) - inject_Z e2)));
      let m := if latency_t_max <? lt then lt else latency_t_max in
      match rest with
      | [] => fail Hang
      | _ :: rest => t_loop rest t cpu sum h m
      end
  end.
Definition latency_t_time (t cpu : Z) : A Z :=
  l ← deref (λ s, aget (acoral_timed_time s) cpu);
  sum ← deref (λ s, aget (timed_time_sum s) cpu);
  h ← deref (λ s, aget (acoral_timed_h_period s) cpu);
  t_loop l t cpu sum h 0.

(** [h_g_time]: the uses of the resource [dp] by one task. *)
Fixpoint h_uses (rs : list Z) (dp h_g wcrt period h_g_temp : Z) : A Z :=
  match rs with
  | [] => mret h_g_temp
  | r :: rs =>
      r ← res_at r;
      p ← dpcp_var r;
      h_g_temp ← (if p =? dp then interference h_g wcrt (use_time r) period h_g_temp else mret h_g_temp);
      h_uses rs dp h_g wcrt period h_g_temp
  end.
Fixpoint h_tasks (cs : list Z) (dp prio h_g h_g_temp : Z) : A Z :=
  match cs with
  | [] => mret h_g_temp
  | c :: cs =>
      c ← ctl_at c;
      if ct_prio c <? prio then
        h_g_temp ← h_uses (res_queue c) dp h_g (wcrt c) (period_time c) h_g_temp;
        h_tasks cs dp prio h_g h_g_temp
      else mret h_g_temp
  end.
Fixpoint h_dpcps (dps cs : list Z) (prio h_g h_g_temp : Z) : A Z :=
  match dps with
  | [] => mret h_g_temp
  | dp :: dps =>
      h_g_temp ← h_tasks cs dp prio h_g h_g_temp;
      h_dpcps dps cs prio h_g h_g_temp
  end.

(** [while(h_g <= test_end)]; each turn that goes on has another value. *)
Fixpoint h_loop (fuel : nat) (start cpu prio test_end : Z) (dps cs : list Z) (h_g : Z) : A Z :=
  if h_g <=? test_end then
    h_g_temp ← h_dpcps dps cs prio h_g start;
    lt ← latency_t_time h_g cpu;
    let h_g_temp := u32 (h_g_temp + lt) in
    if h_g =? h_g_temp then mret h_g else
    match fuel with O => fail Diverge | S fuel => h_loop fuel start cpu prio test_end dps cs h_g_temp end
  else mret (u32 (test_end + 100)).

Definition h_g_time (start cpu data : Z) : A Z :=
  d ← ctl_at data;
  cs ← get acoral_admis_ctl_queue;
  dps ← global_queue cpu;
  h_loop (S (Z.to_nat (dl_time d))) start cpu (ct_prio d) (dl_time d) dps cs start.

(** [latency_g_time] on the task's own core: the uses of its global resources by
    the other tasks. *)
Fixpoint other_uses (rs : list Z) (dp t wcrt period ret : Z) : A Z :=
  match rs with
  | [] => mret ret
  | r :: rs =>
      r ← res_at r;
      p ← dpcp_var r;
      ret ← (if p =? dp then interference t wcrt (use_time r) period ret else mret ret);
      other_uses rs dp t wcrt period ret
  end.
Fixpoint own_tasks (cs : list Z) (data dp t ret : Z) : A Z :=
  match cs with
  | [] => mret ret
  | p :: cs =>
      c ← ctl_at p;
      ret ← (if p =? data then mret ret else other_uses (res_queue c) dp t (wcrt c) (period_time c) ret);
      own_tasks cs data dp t ret
  end.
Fixpoint own_dpcps (dps cs : list Z) (data t ret : Z) : A Z :=
  match dps with
  | [] => mret ret
  | dp :: dps => ret ← own_tasks cs data dp t ret; own_dpcps dps cs data t ret
  end.

(** On another core: does the task use one of its global resources? *)
Fixpoint uses_flag (rs : list Z) (dp flag : Z) : A Z :=
  match rs with
  | [] => mret flag
  | r :: rs => r ← res_at r; p ← dpcp_var r; uses_flag rs dp (if p =? dp then 1 else flag)
  end.
Fixpoint flag_dpcps (dps rs : list Z) (flag : Z) : A Z :=
  match dps with
  | [] => mret flag
  | dp :: dps => flag ← uses_flag rs dp flag; flag_dpcps dps rs flag
  end.

(** [PD_g]: the task's own uses, and those of the others. *)
Fixpoint this_uses (rs : list Z) (dp PD_g : Z) : A Z :=
  match rs with
  | [] => mret PD_g
  | r :: rs =>
      r ← res_at r;
      p ← dpcp_var r;
      this_uses rs dp (if p =? dp then u32 (PD_g + use_time r) else PD_g)
  end.
Fixpoint pd_tasks (cs : list Z) (data dp t PD_g : Z) : A Z :=
  match cs with
  | [] => mret PD_g
  | p :: cs =>
      c ← ctl_at p;
      PD_g ← (if p =? data then this_uses (res_queue c) dp PD_g
              else other_uses (res_queue c) dp t (wcrt c) (period_time c) PD_g);
      pd_tasks cs data dp t PD_g
  end.
Fixpoint pd_dpcps (dps cs : list Z) (data t PD_g : Z) : A Z :=
  match dps with
  | [] => mret PD_g
  | dp :: dps => PD_g ← pd_tasks cs data dp t PD_g; pd_dpcps dps cs data t PD_g
  end.

(** [DD_g]: [N_this] and [L_this] of a resource, and the longest critical section
    of a lower priority under a higher ceiling. *)
Fixpoint this_use (rs : list Z) (dp N_this L_this : Z) : A (Z * Z) :=
  match rs with
  | [] => mret (N_this, L_this)
  | r :: rs =>
      r ← res_at r;
      p ← dpcp_var r;
      if p =? dp then this_use rs dp (critical_cnt r) (length_max r) else this_use rs dp N_this L_this
  end.
Fixpoint l_uses (rs : list Z) (dp prio global_l_max : Z) : A Z :=
  match rs with
  | [] => mret global_l_max
  | r :: rs =>
      r ← res_at r;
      k ← cache_of r;
      p ← dpcp_var r;
      l_uses rs dp prio
        (if (p =? dp) && (ceiling_cache k <? prio) && (global_l_max <? length_max r) then length_max r else global_l_max)
  end.
Fixpoint l_tasks (cs : list Z) (dp prio global_l_max : Z) : A Z :=
  match cs with
  | [] => mret global_l_max
  | c :: cs =>
      c ← ctl_at c;
      m ← (if prio <? ct_prio c then l_uses (res_queue c) dp prio global_l_max else mret global_l_max);
      l_tasks cs dp prio m
  end.
Fixpoint l_dpcps (dps cs : list Z) (cpu prio global_l_max : Z) : A Z :=
  match dps with
  | [] => mret global_l_max
  | dp1 :: dps =>
      x ← dpcp_at dp1;
      m ← (if dp_cpu x =? cpu then l_tasks cs dp1 prio global_l_max else mret global_l_max);
      l_dpcps dps cs cpu prio m
  end.

(** What stays from one turn to the next: [DD_g], [N_this], [L_this] and
    [global_l_max]; no result is the return of [dl_time + 100]. *)
Record dd : Type := mk_dd { DD_g : Z; N_this : Z; L_this : Z; global_l_max : Z }.

Fixpoint dd_dpcps (dps all cs : list Z) (cpu data : Z) (d : acoral_admis_ctl_data) (x : dd) : A (option dd) :=
  match dps with
  | [] => mret (Some x)
  | dp :: dps =>
      y ← dpcp_at dp;
      '(n, l) ← this_use (res_queue d) dp (N_this x) (L_this x);
      m ← l_dpcps all cs (dp_cpu y) (ct_prio d) (global_l_max x);
      h_g_bound ← h_g_time (u32 (l + m)) cpu data;
      if h_g_bound <=? dl_time d
      then dd_dpcps dps all cs cpu data d (mk_dd (u32 (DD_g x + u32 (n * h_g_bound))) n l m)
      else mret None
  end.

(** The cores in order, with [ret], [flag], [PD_g] and the above. *)
Fixpoint g_cpus (n : nat) (i t data : Z) (d : acoral_admis_ctl_data) (cs : list Z) (ret flag PD_g : Z) (x : dd) : A Z :=
  match n with
  | O => mret ret
  | S n =>
      head ← global_queue i;
      if ct_cpu d =? i then
        ret ← own_dpcps head cs data t ret;
        g_cpus n (i + 1) t data d cs ret flag PD_g x
      else
        flag ← flag_dpcps head (res_queue d) flag;
        if flag =? 0 then g_cpus n (i + 1) t data d cs ret flag PD_g x else
        PD_g ← pd_dpcps head cs data t PD_g;
        lt ← latency_t_time t i;
        let PD_g := u32 (PD_g + lt) in
        y ← dd_dpcps head head cs i data d x;
        match y with
        | None => mret (u32 (dl_time d + 100))
        | Some x => g_cpus n (i + 1) t data d cs (u32 (ret + (if PD_g <? DD_g x then PD_g else DD_g x))) flag PD_g x
        end
  end.

Definition latency_g_time (t data : Z) : A Z :=
  d ← ctl_at data;
  cs ← get acoral_admis_ctl_queue;
  g_cpus (Z.to_nat CFG_MAX_CPU) 0 t data d cs 0 0 0 (mk_dd 0 0 0 0).

(** [response_time]; each turn that goes on has another value. *)
Fixpoint response_loop (fuel : nat) (data : Z) (d : acoral_admis_ctl_data) (response : Z) : A Z :=
  let test_end := dl_time d in
  if response <=? test_end then
    latency_ng ← latency_ng_time response data;
    if test_end <? latency_ng then mret (u32 (test_end + 100)) else
    latency_t ← latency_t_time response (ct_cpu d);
    if test_end <? latency_t then mret (u32 (test_end + 100)) else
    latency_g ← latency_g_time response data;
    if test_end <? latency_g then mret (u32 (test_end + 100)) else
    let response_temp := u32 (u32 (u32 (wcet d + latency_ng) + latency_t) + latency_g) in
    if response =? response_temp then
      latency_b ← latency_b_time data;
      mret (if test_end <? latency_b then u32 (test_end + 100) else u32 (response + latency_b))
    else
      match fuel with O => fail Diverge | S fuel => response_loop fuel data d response_temp end
  else mret (u32 (test_end + 100)).

Definition response_time (data : Z) : A Z :=
  d ← ctl_at data; response_loop (S (Z.to_nat (dl_time d))) data d (wcet d).

Fixpoint ansys_loop (cs : list Z) : A bool :=
  match cs with
  | [] => mret true
  | c :: cs =>
      d ← ctl_at c;
      if is_new d =? 1 then ansys_loop cs else
      response_bound ← response_time c;
      if response_bound <=? dl_time d then
        modify (λ s, set_a_ctl (<[c := set_wcrt response_bound d]> (a_ctl s)) s);;
        ansys_loop cs
      else mret false
  end.
Definition schedule_ansys : A bool := q ← get acoral_admis_ctl_queue; ansys_loop q.
