(* ===== verification/AdmisSpec.v ===== *)
(** * Correctness of the analysis of admission control

    The reference is over tasks and their uses of resources, in unbounded
    integers: the demand of the other tasks within a time, and the least time in
    which a task is done with all of it ([least]).  As long as the times have 24
    bits the code's single precision gives the same. *)
From S2P Require Import Prelude KTypes Pcp Floats Admis.
From stdpp Require Import list gmap sorting.
From Stdlib Require Import QArith Qround.
#[local] Open Scope Z_scope.

(** ** Reference: the least fixed point up to a bound *)
Fixpoint search (n : nat) (f : Z → Z) (x : Z) : option Z :=
  match n with O => None | S n => if f x =? x then Some x else search n f (x + 1) end.

(** The least [y] from [x] to [b] with [f y = y]. *)
Definition least (f : Z → Z) (b x : Z) : option Z := search (Z.to_nat (b + 1 - x)) f x.

Section least.
Context (f : Z → Z) (b : Z).

Lemma least_end x : b < x → least f b x = None.
Proof. intros Hx. unfold least. by replace (Z.to_nat (b + 1 - x)) with O by lia. Qed.

Lemma least_unfold x : x ≤ b → least f b x = if f x =? x then Some x else least f b (x + 1).
Proof.
  intros Hx. unfold least. replace (Z.to_nat (b + 1 - x)) with (S (Z.to_nat (b + 1 - (x + 1)))) by lia. done.
Qed.

(** Where there is no fixed point the search goes on. *)
Lemma least_skip x y : x ≤ y → (∀ z, x ≤ z < y → z ≤ b → f z ≠ z) → least f b x = least f b y.
Proof.
  intros Hxy. remember (Z.to_nat (y - x)) as n eqn:Hn. revert x Hxy Hn. induction n as [|n IH]; intros x Hxy Hn Hno.
  { by replace y with x by lia. }
  destruct (decide (x ≤ b)) as [Hb|Hb]; [|by rewrite !least_end by lia].
  rewrite least_unfold, (proj2 (Z.eqb_neq _ _)) by (lia || apply Hno; lia). apply IH; [lia|lia|]. intros z Hz. apply Hno. lia.
Qed.

(** The iteration of a monotone function does not jump over a fixed point. *)
Lemma least_step x0 x :
  (∀ y z, x0 ≤ y ≤ z → z ≤ b → f y ≤ f z) → x0 ≤ x ≤ b → x ≤ f x →
  least f b x = if f x =? x then Some x else least f b (f x).
Proof.
  intros Hmono Hx Hfx. destruct (Z.eqb_spec (f x) x) as [E|E].
  - rewrite least_unfold by lia. by rewrite (proj2 (Z.eqb_eq _ _)).
  - apply least_skip; [done|]. intros z Hz Hzb Hfz. specialize (Hmono x z). lia.
Qed.

(** What [least] is. *)
Lemma least_spec x :
  match least f b x with
  | Some y => x ≤ y ≤ b ∧ f y = y ∧ (∀ z, x ≤ z < y → f z ≠ z)
  | None => ∀ z, x ≤ z ≤ b → f z ≠ z
  end.
Proof.
  remember (Z.to_nat (b + 1 - x)) as n eqn:Hn. revert x Hn. induction n as [|n IH]; intros x Hn.
  { rewrite least_end by lia. lia. }
  rewrite least_unfold by lia. destruct (Z.eqb_spec (f x) x) as [E|E].
  { split_and!; [lia|lia|done|lia]. }
  specialize (IH (x + 1) ltac:(lia)). destruct (least f b (x + 1)) as [y|].
  - destruct IH as (Hy & Hf & Hz). split_and!; [lia|lia|done|]. intros z Hz'. destruct (decide (z = x)) as [->|]; [done|apply Hz; lia].
  - intros z Hz'. destruct (decide (z = x)) as [->|]; [done|apply IH; lia].
Qed.
End least.

(** ** Reference: tasks and demands *)
Record use : Type := mk_use { us_dp : Z; us_cnt : Z; us_len : Z; us_type : Z; us_ceiling : Z }.

Record task : Type := mk_task {
  tk_addr : Z;
  tk_cpu : Z;
  tk_prio : Z;
  tk_wcet : Z;
  tk_wcrt : Z;
  tk_period : Z;
  tk_dl : Z;
  tk_uses : list use;
}.

(** All critical sections of a use. *)
Definition us_time (u : use) : Z := us_cnt u * us_len u.

Definition sum (l : list Z) : Z := foldr Z.add 0 l.

(** A task that takes [c] in each of its periods, with its responses [r] late at
    most, takes this much within [t]. *)
Definition request (t r c period : Z) : Z := cdiv (t + r - c) period * c.

(** A task's time outside of its global critical sections. *)
Definition ng_part (k : task) : Z := tk_wcet k - sum (us_time <$> filter (λ u, us_type u = ACORAL_DPCP_GLOBAL) (tk_uses k)).

(** The tasks of the core with a higher priority. *)
Definition higher (d k : task) : Prop := tk_cpu k = tk_cpu d ∧ tk_prio k < tk_prio d.
#[export] Instance higher_dec d k : Decision (higher d k) := ltac:(unfold higher; apply _).

Definition ng_demand (ks : list task) (d : task) (t : Z) : Z :=
  sum ((λ k, request t (tk_wcrt k) (ng_part k) (tk_period k)) <$> filter (higher d) ks).

(** The uses of a resource by a task within [t]. *)
Definition use_demand (k : task) (dp t : Z) : Z :=
  sum ((λ u, request t (tk_wcrt k) (us_time u) (tk_period k)) <$> filter (λ u, us_dp u = dp) (tk_uses k)).

(** By the other tasks, on the resources [dps]. *)
Definition other_demand (ks : list task) (d : task) (dps : list Z) (t : Z) : Z :=
  sum ((λ dp, sum ((λ k, use_demand k dp t) <$> filter (λ k, tk_addr k ≠ tk_addr d) ks)) <$> dps).

(** By the tasks of a higher priority. *)
Definition higher_demand (ks : list task) (d : task) (dps : list Z) (t : Z) : Z :=
  sum ((λ dp, sum ((λ k, use_demand k dp t) <$> filter (λ k, tk_prio k < tk_prio d) ks)) <$> dps).

(** ** Reference: the table of times of a core, as starts and lengths *)
Record table : Type := mk_table { tt_slots : list (Z * Z); tt_period : Z }.

Definition table_sum (x : table) : Z := sum (snd <$> tt_slots x).

(** The execution that begins before [t] in one period, and in all time. *)
Definition before (x : table) (t : Z) : Z := sum (snd <$> filter (λ p : Z * Z, p.1 < t) (tt_slots x)).
Definition executed (x : table) (t : Z) : Z := table_sum x * (t / tt_period x) + before x (t mod tt_period x).

(** The most that begins in a window of [t] that opens at the start of a slot. *)
Definition window (x : table) (t : Z) : Z :=
  foldl Z.max 0 ((λ p : Z * Z, executed x (p.1 + t) - before x p.1) <$> tt_slots x).

(** ** Sums *)
Lemma sum_app l k : sum (l ++ k) = sum l + sum k.
Proof. unfold sum. induction l as [|x l IH]; cbn; lia. Qed.

Lemma sum_nonneg l : Forall (λ x, 0 ≤ x) l → 0 ≤ sum l.
Proof. unfold sum. induction 1; cbn; lia. Qed.

Lemma sum_le {B} (f g : B → Z) l : Forall (λ x, f x ≤ g x) l → sum (f <$> l) ≤ sum (g <$> l).
Proof. unfold sum. induction 1; cbn in *; lia. Qed.

Lemma Forall_filtered {B} (P Q : B → Prop) `{∀ x, Decision (P x)} l : Forall Q l → Forall Q (filter P l).
Proof. intros HQ. apply Forall_forall. intros x [_ Hx]%list_elem_of_filter. by eapply Forall_forall in HQ. Qed.

Lemma sum_filter_cons {B} (P : B → Prop) `{∀ x, Decision (P x)} (f : B → Z) x l :
  sum (f <$> filter P (x :: l)) = (if decide (P x) then f x else 0) + sum (f <$> filter P l).
Proof. rewrite filter_cons. by case_decide. Qed.

Lemma sum_filter {B} (P : B → Prop) `{∀ x, Decision (P x)} (f : B → Z) l :
  sum (f <$> filter P l) = sum ((λ x, if decide (P x) then f x else 0) <$> l).
Proof. induction l as [|x l IH]; [done|]. rewrite sum_filter_cons, IH. done. Qed.

Lemma sum_filter_nonneg {B} (P : B → Prop) `{∀ x, Decision (P x)} (f : B → Z) l :
  Forall (λ x, 0 ≤ f x) l → 0 ≤ sum (f <$> filter P l).
Proof. intros Hl. by apply sum_nonneg, Forall_fmap, Forall_filtered. Qed.

Lemma sum_fmap_nonneg {B} (f : B → Z) l : Forall (λ x, 0 ≤ f x) l → 0 ≤ sum (f <$> l).
Proof. intros Hl. by apply sum_nonneg, Forall_fmap. Qed.

Lemma cdiv_le a a' d : 0 < d → a ≤ a' → cdiv a d ≤ cdiv a' d.
Proof. intros Hd Ha. apply Z.div_le_mono; lia. Qed.

Lemma cdiv_nonneg a d : 0 < d → 0 ≤ a → 0 ≤ cdiv a d.
Proof. intros Hd Ha. apply Z.div_pos; lia. Qed.

Lemma request_nonneg t r c p : 0 < p → 0 ≤ c ≤ t + r → 0 ≤ request t r c p.
Proof. intros Hp Hc. unfold request. pose proof (cdiv_nonneg (t + r - c) p Hp). nia. Qed.

Lemma request_le t t' r c p : 0 < p → 0 ≤ c → t ≤ t' → request t r c p ≤ request t' r c p.
Proof. intros Hp Hc Ht. unfold request. pose proof (cdiv_le (t + r - c) (t' + r - c) p Hp). nia. Qed.

(** ** The program's arithmetic *)

(** Single precision is exact on times of 24 bits. *)
Lemma interference_exact t r c p ret s :
  0 < p < 2 ^ 24 → 0 ≤ c ≤ r → 0 ≤ t → t + r < 2 ^ 24 → 0 ≤ ret → ret + request t r c p < 2 ^ 32 →
  interference t r c p ret s = Ret (ret + request t r c p, s).
Proof.
  intros Hp Hc Ht Hr Hret Hb. unfold interference. rewrite wrapu_small by lia.
  destruct (ceil_div_exact (t + r - c) p) as (x & Hx & Hceil); [lia|lia|].
  erewrite run_bind by (by apply run_deref). rewrite Hceil. apply run_deref. fold (request t r c p).
  pose proof (request_nonneg t r c p ltac:(lia) ltac:(lia)) as Hq. apply to_u32_int; [|lia].
  assert ((dbl (inject_Z (cdiv (t + r - c) p) * inject_Z c) == inject_Z (request t r c p))%Q) as E.
  { rewrite <- inject_Z_mult. apply dbl_exact. unfold request in *. lia. }
  unfold dbl at 1. rewrite (fround_Qeq _ _ _ (inject_Z (ret + request t r c p))) by (by rewrite E, inject_Z_plus).
  apply dbl_exact. lia.
Qed.

(** ** The data in memory *)
Definition use_rep (s : admis) (r : Z) (u : use) : Prop :=
  ∃ rd dp, a_res s !! r = Some rd ∧ a_dpcp_var s !! rd_dpcp rd = Some (us_dp u) ∧ a_dpcp s !! us_dp u = Some dp ∧
    critical_cnt rd = us_cnt u ∧ length_max rd = us_len u ∧
    type_cache (dp_cache dp) = us_type u ∧ ceiling_cache (dp_cache dp) = us_ceiling u.

Definition ctl_rep (s : admis) (d : acoral_admis_ctl_data) (k : task) : Prop :=
  ct_cpu d = tk_cpu k ∧ ct_prio d = tk_prio k ∧ wcet d = tk_wcet k ∧ wcrt d = tk_wcrt k ∧
  period_time d = tk_period k ∧ dl_time d = tk_dl k ∧ Forall2 (use_rep s) (res_queue d) (tk_uses k).

Definition task_rep (s : admis) (k : task) : Prop := ∃ d, a_ctl s !! tk_addr k = Some d ∧ ctl_rep s d k.

(** The tasks in the order of the queue, which is that of their priorities. *)
Record system (s : admis) (ks : list task) : Prop := {
  sy_queue : acoral_admis_ctl_queue s = tk_addr <$> ks;
  sy_tasks : Forall (task_rep s) ks;
  sy_sorted : StronglySorted (λ a b, tk_prio a ≤ tk_prio b) ks;
}.

(** Times of 24 bits, within a horizon [b]. *)
Definition use_ok (k : task) (u : use) : Prop := 0 < us_cnt u ∧ 0 ≤ us_len u ∧ us_time u ≤ tk_wcrt k.

Record task_ok (b : Z) (k : task) : Prop := {
  ok_period : 0 < tk_period k < 2 ^ 24;
  ok_horizon : b + tk_wcrt k < 2 ^ 24;
  ok_wcet : tk_wcet k ≤ tk_wcrt k;
  ok_ng : 0 ≤ ng_part k;
  ok_uses : Forall (use_ok k) (tk_uses k);
}.

Section loops.
Context (s : admis) (b : Z).

Lemma run_ctl k d : a_ctl s !! tk_addr k = Some d → ctl_at (tk_addr k) s = Ret (d, s).
Proof. intros Hd. by apply run_deref. Qed.

Lemma run_res r u : use_rep s r u → ∃ rd, res_at r s = Ret (rd, s) ∧ critical_cnt rd = us_cnt u ∧ length_max rd = us_len u ∧
  dpcp_var rd s = Ret (us_dp u, s) ∧ ∃ k, cache_of rd s = Ret (k, s) ∧ type_cache k = us_type u ∧ ceiling_cache k = us_ceiling u.
Proof.
  intros (rd & dp & Hr & Hv & Hd & Hc & Hl & Ht & Hk). exists rd.
  assert (dpcp_var rd s = Ret (us_dp u, s)) as Hdp by (by apply run_deref).
  split_and!; [by apply run_deref|done..|]. exists (dp_cache dp). split_and!; [|done..].
  unfold cache_of. erewrite run_bind by done. by erewrite run_bind by (by apply run_deref).
Qed.

Lemma use_time_ok k u rd : 0 ≤ b → task_ok b k → use_ok k u → critical_cnt rd = us_cnt u → length_max rd = us_len u →
  use_time rd = us_time u ∧ 0 ≤ us_time u ≤ tk_wcrt k.
Proof.
  intros Hb Hk (H1 & H2 & H3) E1 E2. unfold use_time, us_time in *. rewrite E1, E2. pose proof (ok_horizon _ _ Hk).
  rewrite wrapu_small; nia.
Qed.

Definition global_time (us : list use) : Z := sum (us_time <$> filter (λ u, us_type u = ACORAL_DPCP_GLOBAL) us).

Lemma ng_time_run k rs us : ∀ c,
  0 ≤ b → task_ok b k → Forall2 (use_rep s) rs us → Forall (use_ok k) us → global_time us ≤ c < 2 ^ 32 →
  ng_time rs c s = Ret (c - global_time us, s).
Proof.
  intros c Hb Hk Hrs. revert c. induction Hrs as [|r u rs us Hr _ IH]; intros c Hus Hc; cbn [ng_time].
  { unfold global_time, sum. cbn. by rewrite Z.sub_0_r. }
  apply Forall_cons in Hus as [Hu Hus]. destruct (run_res r u Hr) as (rd & Hrd & Hcnt & Hlen & _ & kk & Hcache & Ht & _).
  destruct (use_time_ok k u rd Hb Hk Hu Hcnt Hlen) as [E Hu0].
  erewrite run_bind by exact Hrd. erewrite run_bind by exact Hcache. rewrite Ht, E.
  assert (0 ≤ global_time us) as Hg.
  { apply sum_nonneg, Forall_fmap, Forall_filtered. eapply Forall_impl; [exact Hus|]. intros x (? & ? & ?). unfold us_time. cbn. nia. }
  unfold global_time in Hc |- *. rewrite filter_cons in Hc |- *.
  destruct (Z.eqb_spec (us_type u) ACORAL_DPCP_GLOBAL); [rewrite decide_True in Hc |- * by done|rewrite decide_False in Hc |- * by done].
  - change (sum (us_time <$> u :: ?l)) with (us_time u + sum (us_time <$> l)) in Hc |- *. fold (global_time us) in Hc |- *.
    rewrite wrapu_small by lia. rewrite IH by (done || lia). do 2 f_equal. lia.
  - by apply IH.
Qed.

(** A term of the sum and the rest of it. *)
Lemma sum_cons_bound x l : 0 ≤ x → Forall (λ y, 0 ≤ y) l → 0 ≤ sum l ∧ x ≤ x + sum l.
Proof. intros Hx Hl. pose proof (sum_nonneg l Hl). lia. Qed.

Lemma ng_request_nonneg t k : 0 ≤ t ≤ b → task_ok b k → 0 ≤ request t (tk_wcrt k) (ng_part k) (tk_period k) ∧ 0 ≤ ng_part k ≤ tk_wcrt k.
Proof.
  intros Ht [Hp Hh Hw Hn Hu].
  assert (0 ≤ global_time (tk_uses k)) as Hg.
  { apply sum_nonneg, Forall_fmap, Forall_filtered. eapply Forall_impl; [exact Hu|]. intros x (? & ? & ?). unfold us_time. cbn. nia. }
  unfold ng_part in *. fold (global_time (tk_uses k)) in *.
  split; [apply request_nonneg; lia|lia].
Qed.

Lemma ng_tasks_run d ks : ∀ t ret,
  0 ≤ t ≤ b → Forall (task_rep s) ks → Forall (task_ok b) ks → StronglySorted (λ x y, tk_prio x ≤ tk_prio y) ks →
  0 ≤ ret → ret + ng_demand ks d t < 2 ^ 32 →
  ng_tasks (tk_addr <$> ks) t (tk_cpu d) (tk_prio d) ret s = Ret (ret + ng_demand ks d t, s).
Proof.
  induction ks as [|k ks IH]; intros t ret Ht Hrep Hok Hsort Hret Hb; cbn [fmap list_fmap ng_tasks].
  { unfold ng_demand, sum. cbn. by rewrite Z.add_0_r. }
  apply Forall_cons in Hrep as [(x & Hx & E1 & E2 & E3 & E4 & E5 & E6 & Huses) Hrep]. apply Forall_cons in Hok as [Hk Hok].
  apply StronglySorted_inv in Hsort as [Hsort Hhead].
  erewrite run_bind by (by apply run_ctl). rewrite E1, E2.
  assert (Forall (λ y, 0 ≤ y) ((λ k, request t (tk_wcrt k) (ng_part k) (tk_period k)) <$> filter (higher d) ks)) as Hnn.
  { apply Forall_fmap, Forall_filtered. eapply Forall_impl; [exact Hok|]. intros y Hy. by apply (ng_request_nonneg t y). }
  unfold ng_demand in Hb |- *. rewrite filter_cons in Hb |- *.
  destruct (ng_request_nonneg t k Ht Hk) as [Hq Hng].
  destruct (Z.eqb_spec (tk_cpu k) (tk_cpu d)) as [Ec|Ec], (Z.ltb_spec (tk_prio k) (tk_prio d)) as [Ep|Ep]; cbn [andb].
  1: { rewrite decide_True in Hb |- * by done.
    change (sum (?f <$> k :: ?l)) with (f k + sum (f <$> l)) in Hb |- *. fold (ng_demand ks d t) in Hb, Hnn |- *. cbv beta in Hb |- *.
    pose proof (sum_nonneg _ Hnn).
    assert (global_time (tk_uses k) ≤ wcet x < 2 ^ 32) as Hg.
    { unfold ng_part in Hng. fold (global_time (tk_uses k)) in Hng. rewrite E3. pose proof (ok_wcet _ _ Hk). pose proof (ok_horizon _ _ Hk). lia. }
    erewrite run_bind by (apply (ng_time_run k); [lia|done|done|apply Hk|done]).
    rewrite E3, E4, E5. change (tk_wcet k - global_time (tk_uses k)) with (ng_part k).
    pose proof (ok_period _ _ Hk). pose proof (ok_horizon _ _ Hk).
    erewrite run_bind by (apply interference_exact; [done|done|lia|lia|done|unfold ng_demand in *; lia]).
    rewrite IH by (done || unfold ng_demand in *; lia). do 2 f_equal. unfold ng_demand. lia. }
  all: rewrite decide_False in Hb |- * by (unfold higher; lia); fold (ng_demand ks d t) in Hb |- *.
  all: destruct (Z.leb_spec (tk_prio d) (tk_prio k)); [|try lia; by apply IH].
  all: assert (filter (higher d) ks = []) as E
    by (apply list_filter_none; eapply Forall_impl; [exact Hhead|]; intros y Hy [_ ?]; cbv beta in Hy; lia);
    unfold ng_demand; rewrite E; cbn; by rewrite Z.add_0_r.
Qed.

(** ** The uses of a resource *)
Lemma use_request_nonneg t k u : 0 ≤ t ≤ b → task_ok b k → use_ok k u →
  0 ≤ request t (tk_wcrt k) (us_time u) (tk_period k) ∧ 0 ≤ us_time u ≤ tk_wcrt k.
Proof.
  intros Ht [Hp Hh _ _ _] (H1 & H2 & H3). assert (0 ≤ us_time u) by (unfold us_time; nia).
  split; [apply request_nonneg; lia|lia].
Qed.

Lemma use_demand_nonneg k dp t : 0 ≤ t ≤ b → task_ok b k → 0 ≤ use_demand k dp t.
Proof.
  intros Ht Hk. apply sum_filter_nonneg. eapply Forall_impl; [apply Hk|]. intros u Hu. by apply (use_request_nonneg t k u).
Qed.

Lemma other_uses_run k rs us dp t : ∀ ret,
  0 ≤ t ≤ b → task_ok b k → Forall2 (use_rep s) rs us → Forall (use_ok k) us → 0 ≤ ret →
  let demand := sum ((λ u, request t (tk_wcrt k) (us_time u) (tk_period k)) <$> filter (λ u, us_dp u = dp) us) in
  ret + demand < 2 ^ 32 →
  other_uses rs dp t (tk_wcrt k) (tk_period k) ret s = Ret (ret + demand, s).
Proof.
  intros ret Ht Hk Hrs. revert ret. induction Hrs as [|r u rs us Hr _ IH]; intros ret Hus Hret; cbn [other_uses].
  { intros _. unfold sum. cbn. by rewrite Z.add_0_r. }
  apply Forall_cons in Hus as [Hu Hus]. destruct (run_res r u Hr) as (rd & Hrd & Hcnt & Hlen & Hdp & _).
  destruct (use_time_ok k u rd ltac:(lia) Hk Hu Hcnt Hlen) as [E _].
  destruct (use_request_nonneg t k u Ht Hk Hu) as [Hq Hut].
  rewrite sum_filter_cons. cbv beta zeta. intros Hb. erewrite run_bind by exact Hrd. erewrite run_bind by exact Hdp.
  assert (0 ≤ sum ((λ u, request t (tk_wcrt k) (us_time u) (tk_period k)) <$> filter (λ u, us_dp u = dp) us)) as Hrest.
  { apply sum_filter_nonneg. eapply Forall_impl; [exact Hus|]. intros y Hy. by apply (use_request_nonneg t k y). }
  pose proof (ok_period _ _ Hk). pose proof (ok_horizon _ _ Hk).
  destruct (Z.eqb_spec (us_dp u) dp); [rewrite decide_True in Hb |- * by done|rewrite decide_False in Hb |- * by done].
  - rewrite E. erewrite run_bind by (apply interference_exact; [done|done|lia|lia|done|lia]).
    rewrite IH by (done || lia). do 2 f_equal. lia.
  - erewrite run_bind by done. rewrite IH by (done || lia). done.
Qed.

(** A loop that adds a term for each element. *)
Lemma sums_run {B} (f : B → Z) (loop : list B → Z → A Z) xs : ∀ ret,
  (∀ r, loop [] r s = Ret (r, s)) →
  Forall (λ x, 0 ≤ f x ∧ ∀ xs r, 0 ≤ r → r + f x < 2 ^ 32 → loop (x :: xs) r s = loop xs (r + f x) s) xs →
  0 ≤ ret → ret + sum (f <$> xs) < 2 ^ 32 →
  loop xs ret s = Ret (ret + sum (f <$> xs), s).
Proof.
  intros ret Hnil Hxs. revert ret. induction Hxs as [|x xs [Hf Hx] Hxs IH]; intros ret Hret Hb.
  { rewrite Hnil. unfold sum. cbn. by rewrite Z.add_0_r. }
  change (sum (f <$> x :: xs)) with (f x + sum (f <$> xs)) in Hb |- *.
  assert (0 ≤ sum (f <$> xs)) as Hrest by (apply sum_fmap_nonneg; eapply Forall_impl; [exact Hxs|]; by intros y []).
  rewrite Hx by lia. rewrite IH by lia. do 2 f_equal. lia.
Qed.

(** ** Demands on the resources of a core *)
Definition others_on (ks : list task) (d : task) (dp t : Z) : Z :=
  sum ((λ k, if decide (tk_addr k ≠ tk_addr d) then use_demand k dp t else 0) <$> ks).

Lemma others_on_filter ks d dp t : others_on ks d dp t = sum ((λ k, use_demand k dp t) <$> filter (λ k, tk_addr k ≠ tk_addr d) ks).
Proof. symmetry. apply sum_filter. Qed.

Lemma if_nonneg (P : Prop) `{!Decision P} x : 0 ≤ x → 0 ≤ if decide P then x else 0.
Proof. by case_decide. Qed.

Lemma others_on_nonneg ks d dp t : 0 ≤ t ≤ b → Forall (task_ok b) ks → 0 ≤ others_on ks d dp t.
Proof.
  intros Ht Hok. apply sum_fmap_nonneg. eapply Forall_impl; [exact Hok|]. intros k Hk. by apply if_nonneg, use_demand_nonneg.
Qed.

Lemma own_tasks_run ks d dp t ret :
  0 ≤ t ≤ b → Forall (task_rep s) ks → Forall (task_ok b) ks → 0 ≤ ret → ret + others_on ks d dp t < 2 ^ 32 →
  own_tasks (tk_addr <$> ks) (tk_addr d) dp t ret s = Ret (ret + others_on ks d dp t, s).
Proof.
  intros Ht Hrep Hok Hret Hb.
  apply (sums_run (λ k, if decide (tk_addr k ≠ tk_addr d) then use_demand k dp t else 0)
    (λ ks ret, own_tasks (tk_addr <$> ks) (tk_addr d) dp t ret)); [done| |done|done].
  apply Forall_forall. intros k Hin. eapply Forall_forall in Hrep as (x & Hx & E1 & E2 & E3 & E4 & E5 & E6 & Huses); [|exact Hin].
  eapply Forall_forall in Hok as Hk; [|exact Hin].
  split; [by apply if_nonneg, use_demand_nonneg|]. intros ks' r Hr Hb'. cbn [fmap list_fmap own_tasks].
  erewrite run_bind by (by apply run_ctl). destruct (Z.eqb_spec (tk_addr k) (tk_addr d)).
  - rewrite decide_False by (by intros []). erewrite run_bind by done. by rewrite Z.add_0_r.
  - rewrite decide_True in Hb' |- * by done. rewrite E4, E5.
    erewrite run_bind by (apply (other_uses_run k); [done|done|done|apply Hk|done|done]). done.
Qed.

Lemma own_dpcps_run ks d dps t ret :
  0 ≤ t ≤ b → Forall (task_rep s) ks → Forall (task_ok b) ks → 0 ≤ ret → ret + other_demand ks d dps t < 2 ^ 32 →
  own_dpcps dps (tk_addr <$> ks) (tk_addr d) t ret s = Ret (ret + other_demand ks d dps t, s).
Proof.
  intros Ht Hrep Hok Hret Hb.
  assert (other_demand ks d dps t = sum ((λ dp, others_on ks d dp t) <$> dps)) as E.
  { unfold other_demand. f_equal. apply list_fmap_ext. intros i dp _. symmetry. apply others_on_filter. }
  rewrite E in *.
  apply (sums_run (λ dp, others_on ks d dp t) (λ dps ret, own_dpcps dps (tk_addr <$> ks) (tk_addr d) t ret)); [done| |done|done].
  apply Forall_forall. intros dp _. split; [by apply others_on_nonneg|]. intros xs r Hr Hb'. cbn [own_dpcps].
  by erewrite run_bind by (by apply own_tasks_run).
Qed.

(** [h_g_time]'s loops are those of the tasks with a higher priority. *)
Lemma h_uses_other rs : ∀ dp t w p ret, h_uses rs dp t w p ret = other_uses rs dp t w p ret.
Proof. reflexivity. Qed.

Definition higher_on (ks : list task) (d : task) (dp t : Z) : Z := sum ((λ k, use_demand k dp t) <$> filter (λ k, tk_prio k < tk_prio d) ks).

Lemma higher_on_nonneg ks d dp t : 0 ≤ t ≤ b → Forall (task_ok b) ks → 0 ≤ higher_on ks d dp t.
Proof.
  intros Ht Hok. apply sum_filter_nonneg. eapply Forall_impl; [exact Hok|]. intros k Hk. by apply use_demand_nonneg.
Qed.

Lemma h_tasks_run ks d dp t : ∀ ret,
  0 ≤ t ≤ b → Forall (task_rep s) ks → Forall (task_ok b) ks → StronglySorted (λ x y, tk_prio x ≤ tk_prio y) ks →
  0 ≤ ret → ret + higher_on ks d dp t < 2 ^ 32 →
  h_tasks (tk_addr <$> ks) dp (tk_prio d) t ret s = Ret (ret + higher_on ks d dp t, s).
Proof.
  induction ks as [|k ks IH]; intros ret Ht Hrep Hok Hsort Hret Hb; cbn [fmap list_fmap h_tasks].
  { unfold higher_on, sum. cbn. by rewrite Z.add_0_r. }
  apply Forall_cons in Hrep as [(x & Hx & E1 & E2 & E3 & E4 & E5 & E6 & Huses) Hrep]. apply Forall_cons in Hok as [Hk Hok].
  apply StronglySorted_inv in Hsort as [Hsort Hhead].
  erewrite run_bind by (by apply run_ctl). rewrite E2.
  pose proof (higher_on_nonneg ks d dp t Ht Hok) as Hrest. pose proof (use_demand_nonneg k dp t Ht Hk) as Hud.
  unfold higher_on in Hb |- *. rewrite sum_filter_cons in Hb |- *. cbv beta in Hb |- *. fold (higher_on ks d dp t) in Hb |- *.
  destruct (Z.ltb_spec (tk_prio k) (tk_prio d)).
  - rewrite decide_True in Hb |- * by done. rewrite E4, E5.
    erewrite run_bind by (apply (other_uses_run k); [done|done|done|apply Hk|done|unfold use_demand in *; lia]).
    rewrite IH by (done || unfold use_demand in *; lia). do 2 f_equal. unfold use_demand. lia.
  - rewrite decide_False in Hb |- * by lia.
    assert (higher_on ks d dp t = 0) as ->; [|by rewrite !Z.add_0_r].
    unfold higher_on. rewrite list_filter_none; [done|]. eapply Forall_impl; [exact Hhead|]. intros y Hy ?. cbv beta in Hy. lia.
Qed.

Lemma h_dpcps_run ks d dps t ret :
  0 ≤ t ≤ b → Forall (task_rep s) ks → Forall (task_ok b) ks → StronglySorted (λ x y, tk_prio x ≤ tk_prio y) ks →
  0 ≤ ret → ret + higher_demand ks d dps t < 2 ^ 32 →
  h_dpcps dps (tk_addr <$> ks) (tk_prio d) t ret s = Ret (ret + higher_demand ks d dps t, s).
Proof.
  intros Ht Hrep Hok Hsort Hret Hb.
  apply (sums_run (λ dp, higher_on ks d dp t) (λ dps ret, h_dpcps dps (tk_addr <$> ks) (tk_prio d) t ret)); [done| |done|done].
  apply Forall_forall. intros dp _. split; [by apply higher_on_nonneg|]. intros xs r Hr Hb'. cbn [h_dpcps].
  by erewrite run_bind by (by apply h_tasks_run).
Qed.
End loops.

(** ** Tables of times *)

(** Before [b] after any start of a slot, in 24 bits; the executions in 32. *)
Record table_ok (b : Z) (x : table) : Prop := {
  to_sorted : StronglySorted (λ p q : Z * Z, p.1 ≤ q.1) (tt_slots x);
  to_slots : Forall (λ p : Z * Z, 0 ≤ p.1 < tt_period x ∧ 0 ≤ p.2 ∧ p.1 + b < 2 ^ 24 ∧ executed x (p.1 + b) < 2 ^ 32) (tt_slots x);
  to_period : tt_slots x ≠ [] → tt_period x < 2 ^ 24;
  to_sum : table_sum x < 2 ^ 32;
}.

Definition flat (ps : list (Z * Z)) : list Z := ps ≫= λ p, [p.1; p.2].

Definition table_rep (s : admis) (cpu : Z) (x : table) : Prop :=
  aget (acoral_timed_time s) cpu = Some (flat (tt_slots x)) ∧
  aget (timed_time_sum s) cpu = Some (table_sum x) ∧
  aget (acoral_timed_h_period s) cpu = Some (tt_period x).

Section tables.
Context (s : admis) (b cpu : Z) (x : table).
Context (Hrep : table_rep s cpu x) (Hok : table_ok b x).

Lemma before_nonneg t : 0 ≤ before x t.
Proof.
  destruct Hok as [_ Hs _ _]. apply sum_filter_nonneg. eapply Forall_impl; [exact Hs|]. intros p (_ & Hp & _). done.
Qed.

Lemma before_le t t' : t ≤ t' → before x t ≤ before x t'.
Proof.
  intros Ht. unfold before. rewrite !sum_filter. apply sum_le. destruct Hok as [_ Hs _ _].
  eapply Forall_impl; [exact Hs|]. intros p (_ & Hp & _). repeat case_decide; lia.
Qed.

Lemma before_sum t : before x t ≤ table_sum x.
Proof.
  unfold before, table_sum. rewrite sum_filter. apply sum_le. destruct Hok as [_ Hs _ _].
  eapply Forall_impl; [exact Hs|]. intros p (_ & Hp & _). case_decide; lia.
Qed.

Lemma executed_le t t' : 0 < tt_period x → t ≤ t' → executed x t ≤ executed x t'.
Proof.
  intros Hp Ht. unfold executed. pose proof (Z.div_le_mono t t' _ Hp Ht) as Hq.
  pose proof (before_sum (t mod tt_period x)). pose proof (before_nonneg (t' mod tt_period x)). pose proof (before_nonneg (t mod tt_period x)).
  destruct (decide (t / tt_period x = t' / tt_period x)) as [E|E].
  - rewrite E. pose proof (before_le (t mod tt_period x) (t' mod tt_period x)) as Hm.
    pose proof (Z.div_mod t (tt_period x)). pose proof (Z.div_mod t' (tt_period x)). rewrite E in *. lia.
  - nia.
Qed.

Lemma executed_start v : 0 ≤ v < tt_period x → executed x v = before x v.
Proof. intros Hv. unfold executed. rewrite Z.div_small, Z.mod_small by done. lia. Qed.

Lemma eps_loop_run ps t : ∀ ret,
  StronglySorted (λ p q : Z * Z, p.1 ≤ q.1) ps → Forall (λ p : Z * Z, 0 ≤ p.1 < 2 ^ 24 ∧ 0 ≤ p.2) ps →
  0 ≤ ret → ret + sum (snd <$> filter (λ p : Z * Z, p.1 < t) ps) < 2 ^ 32 →
  eps_loop (flat ps) t ret s = Ret (ret + sum (snd <$> filter (λ p : Z * Z, p.1 < t) ps), s).
Proof.
  induction ps as [|[v c] ps IH]; intros ret Hsort Hps Hret Hb; cbn [flat mbind list_bind app eps_loop fst snd].
  { unfold sum. cbn. by rewrite Z.add_0_r. }
  apply StronglySorted_inv in Hsort as [Hsort Hhead]. apply Forall_cons in Hps as [[Hv Hc] Hps]. cbn [fst snd] in Hv, Hc.
  rewrite wrapu_small by lia. rewrite sum_filter_cons in Hb |- *. cbn [fst snd] in Hb |- *.
  assert (0 ≤ sum (snd <$> filter (λ p : Z * Z, p.1 < t) ps)) as Hrest.
  { apply sum_filter_nonneg. eapply Forall_impl; [exact Hps|]. by intros p []. }
  destruct (Z.ltb_spec v t).
  - rewrite decide_True in Hb |- * by done. rewrite wrapu_small by lia.
    change (ps ≫= λ p, [p.1; p.2]) with (flat ps). rewrite IH by (done || lia). do 2 f_equal. lia.
  - rewrite decide_False by lia. rewrite list_filter_none; [unfold sum; cbn; by rewrite !Z.add_0_r|].
    eapply Forall_impl; [exact Hhead|]. intros p Hp ?. cbv beta in Hp. cbn [fst] in Hp. lia.
Qed.

Lemma epsilon_run t : 0 ≤ b → epsilon t cpu s = Ret (before x t, s).
Proof.
  intros Hb. destruct Hrep as (Ht & _ & _). unfold epsilon. erewrite run_bind by (by apply run_deref).
  destruct Hok as [Hsort Hs _ Hsum]. rewrite eps_loop_run; [done|done| |lia|].
  - eapply Forall_impl; [exact Hs|]. intros p (H1 & H2 & H3 & _). lia.
  - pose proof (before_sum t). unfold before in *. lia.
Qed.

(** The window that opens at a slot. *)
Lemma slot_time_run p t :
  p ∈ tt_slots x → 0 ≤ t ≤ b →
  0 ≤ executed x (p.1 + t) - before x p.1 < 2 ^ 32 ∧
  (∃ y, fl_div (fl_of (u32 (p.1 + t))) (fl_of (tt_period x)) = Some y ∧
    to_u32 (dbl (dbl (dbl (inject_Z (table_sum x) * inject_Z (Qfloor y)) + inject_Z (before x (u32 (p.1 + t) mod tt_period x))) - inject_Z (before x p.1)))
      = Some (executed x (p.1 + t) - before x p.1)).
Proof.
  intros Hp Ht. destruct Hok as [_ Hs Hper _].
  assert (tt_slots x ≠ []) as Hne by (intros E; rewrite E in Hp; by apply not_elem_of_nil in Hp).
  specialize (Hper Hne). eapply Forall_forall in Hs as (Hv & Hc & Hvb & He); [|exact Hp].
  pose proof (executed_le (p.1 + t) (p.1 + b) ltac:(lia) ltac:(lia)).
  pose proof (executed_le p.1 (p.1 + t) ltac:(lia) ltac:(lia)) as Hge. rewrite (executed_start p.1) in Hge by done.
  pose proof (before_nonneg p.1). pose proof (before_nonneg ((p.1 + t) mod tt_period x)).
  assert (0 ≤ table_sum x) by (pose proof (before_sum 0); pose proof (before_nonneg 0); lia).
  assert (0 ≤ (p.1 + t) / tt_period x) by (apply Z.div_pos; lia).
  assert (0 ≤ table_sum x * ((p.1 + t) / tt_period x) ≤ executed x (p.1 + t)) as Hq by (unfold executed; nia).
  split; [lia|].
  rewrite wrapu_small by lia. destruct (floor_div_exact (p.1 + t) (tt_period x)) as (y & Hy & Hfl); [lia|lia|].
  exists y. split; [done|]. rewrite Hfl. apply to_u32_int; [|lia].
  assert ((dbl (inject_Z (table_sum x) * inject_Z ((p.1 + t) / tt_period x)) == inject_Z (table_sum x * ((p.1 + t) / tt_period x)))%Q) as E1.
  { rewrite <- inject_Z_mult. apply dbl_exact. lia. }
  set (z := dbl (_ * _)) in *.
  assert ((dbl (z + inject_Z (before x ((p.1 + t) mod tt_period x))) == inject_Z (executed x (p.1 + t)))%Q) as E2.
  { unfold dbl. rewrite (fround_Qeq _ _ _ (inject_Z (executed x (p.1 + t)))).
    - apply dbl_exact. lia.
    - rewrite E1. unfold executed. by rewrite inject_Z_plus. }
  unfold dbl at 1. rewrite (fround_Qeq _ _ _ (inject_Z (executed x (p.1 + t) - before x p.1))).
  - apply dbl_exact. lia.
  - rewrite E2. unfold Zminus, Qminus. by rewrite inject_Z_plus, inject_Z_opp.
Qed.

Definition slot_time (t : Z) (p : Z * Z) : Z := executed x (p.1 + t) - before x p.1.

Lemma t_loop_run ps t : ∀ m,
  ps ⊆ tt_slots x → 0 ≤ t ≤ b →
  t_loop (flat ps) t cpu (table_sum x) (tt_period x) m s = Ret (foldl Z.max m (slot_time t <$> ps), s).
Proof.
  induction ps as [|p ps IH]; intros m Hin Ht; cbn [flat mbind list_bind app t_loop]; [done|].
  destruct (slot_time_run p t) as [Hb (y & Hy & Hu)]; [apply Hin; left|done|].
  assert (u32 p.1 = p.1) as Ev.
  { destruct Hok as [_ Hs _ _]. eapply Forall_forall in Hs as (Hv & _ & Hvb & _); [|apply Hin; left]. apply wrapu_small. lia. }
  erewrite run_bind by (by apply run_deref). erewrite run_bind by (apply epsilon_run; lia).
  rewrite Ev. erewrite run_bind by (apply epsilon_run; lia). erewrite run_bind by (by apply run_deref).
  cbv zeta. change (ps ≫= λ p, [p.1; p.2]) with (flat ps). rewrite IH by (done || intros q Hq; apply Hin; by right).
  cbn [fmap list_fmap foldl]. do 3 f_equal. unfold slot_time. destruct (Z.ltb_spec m (executed x (p.1 + t) - before x p.1)); lia.
Qed.

Lemma latency_t_run t : 0 ≤ t ≤ b → latency_t_time t cpu s = Ret (window x t, s).
Proof.
  intros Ht. destruct Hrep as (H1 & H2 & H3). unfold latency_t_time.
  do 3 erewrite run_bind by (by apply run_deref). by apply t_loop_run.
Qed.

Lemma foldl_max_le {B} (f g : B → Z) l : ∀ m m', m ≤ m' → Forall (λ y, f y ≤ g y) l → foldl Z.max m (f <$> l) ≤ foldl Z.max m' (g <$> l).
Proof.
  induction l as [|y l IH]; intros m m' Hm Hl; cbn; [done|]. apply Forall_cons in Hl as [Hy Hl]. apply IH; [lia|done].
Qed.

Lemma foldl_max_ge l : ∀ m, m ≤ foldl Z.max m l.
Proof. induction l as [|y l IH]; intros m; cbn; [done|]. pose proof (IH (Z.max m y)). lia. Qed.

Lemma foldl_max_lt l c : ∀ m, m < c → Forall (λ y, y < c) l → foldl Z.max m l < c.
Proof. induction l as [|y l IH]; intros m Hm Hl; cbn; [done|]. apply Forall_cons in Hl as [Hy Hl]. apply IH; [lia|done]. Qed.

Lemma window_le t t' : 0 ≤ t ≤ t' → window x t ≤ window x t'.
Proof.
  intros Ht. apply foldl_max_le; [done|]. destruct Hok as [_ Hs _ _]. eapply Forall_impl; [exact Hs|].
  intros p (Hp & _). pose proof (executed_le (p.1 + t) (p.1 + t')). lia.
Qed.

Lemma window_range t : 0 ≤ t ≤ b → 0 ≤ window x t < 2 ^ 32.
Proof.
  intros Ht. split; [apply foldl_max_ge|]. apply foldl_max_lt; [lia|]. apply Forall_fmap, Forall_forall. intros p Hp.
  by apply slot_time_run.
Qed.
End tables.

(** ** Waiting for one request of a global resource *)

(** The own request, that of one lower critical section ([start]), those of the
    higher tasks and the table of the core. *)
Definition higher_total (ks : list task) (d : task) (dps : list Z) (x : table) (start t : Z) : Z :=
  start + higher_demand ks d dps t + window x t.
Definition higher_time (ks : list task) (d : task) (dps : list Z) (x : table) (start : Z) : Z :=
  match least (higher_total ks d dps x start) (tk_dl d) start with Some h => h | None => tk_dl d + 100 end.

Lemma use_demand_le b k dp t t' : 0 ≤ t ≤ t' → t' ≤ b → task_ok b k → use_demand k dp t ≤ use_demand k dp t'.
Proof.
  intros Ht Hb Hk. unfold use_demand. rewrite !sum_filter. apply sum_le. eapply Forall_impl; [apply Hk|]. intros u Hu.
  pose proof (ok_period _ _ Hk). pose proof (use_request_nonneg b t k u ltac:(lia) Hk Hu).
  case_decide; [|lia]. apply request_le; lia.
Qed.

Lemma sum_demands_le b (P : task → Prop) `{∀ k, Decision (P k)} ks (dps : list Z) t t' :
  0 ≤ t ≤ t' → t' ≤ b → Forall (task_ok b) ks →
  sum ((λ dp, sum ((λ k, use_demand k dp t) <$> filter P ks)) <$> dps) ≤
  sum ((λ dp, sum ((λ k, use_demand k dp t') <$> filter P ks)) <$> dps).
Proof.
  intros Ht Hb Hok. apply sum_le. apply Forall_forall. intros dp _. rewrite !sum_filter. apply sum_le.
  eapply Forall_impl; [exact Hok|]. intros k Hk. pose proof (use_demand_le b k dp t t' Ht Hb Hk). case_decide; lia.
Qed.

Lemma ng_demand_le b ks d t t' : 0 ≤ t ≤ t' → t' ≤ b → Forall (task_ok b) ks → ng_demand ks d t ≤ ng_demand ks d t'.
Proof.
  intros Ht Hb Hok. unfold ng_demand. rewrite !sum_filter. apply sum_le. eapply Forall_impl; [exact Hok|]. intros k Hk.
  pose proof (ok_period _ _ Hk). pose proof (ng_request_nonneg b t k ltac:(lia) Hk). case_decide; [|lia]. apply request_le; lia.
Qed.

Lemma higher_total_le b ks d dps x start t t' :
  0 ≤ t ≤ t' → t' ≤ b → Forall (task_ok b) ks → table_ok b x → higher_total ks d dps x start t ≤ higher_total ks d dps x start t'.
Proof.
  intros Ht Hb Hok Hx. unfold higher_total, higher_demand.
  pose proof (sum_demands_le b (λ k, tk_prio k < tk_prio d) ks dps t t' Ht Hb Hok).
  pose proof (window_le b x Hx t t' Ht). lia.
Qed.

Lemma higher_demand_nonneg b ks d dps t : 0 ≤ t ≤ b → Forall (task_ok b) ks → 0 ≤ higher_demand ks d dps t.
Proof.
  intros Ht Hok. apply sum_fmap_nonneg, Forall_forall. intros dp _. by apply (higher_on_nonneg b).
Qed.

Section requests.
Context (s : admis) (b cpu : Z) (x : table) (ks : list task) (d : task) (dps : list Z).
Context (Hx : table_rep s cpu x) (Hxok : table_ok b x).
Context (Hks : Forall (task_rep s) ks) (Hok : Forall (task_ok b) ks) (Hsort : StronglySorted (λ y z, tk_prio y ≤ tk_prio z) ks).
Context (Hdl : 0 ≤ tk_dl d ≤ b) (Hb : b < 2 ^ 24).

Lemma h_loop_run start fuel : ∀ h,
  0 ≤ start ≤ h → higher_total ks d dps x start (tk_dl d) < 2 ^ 32 →
  (h ≤ tk_dl d → h ≤ higher_total ks d dps x start h) → tk_dl d - h < Z.of_nat fuel →
  h_loop fuel start cpu (tk_prio d) (tk_dl d) dps (tk_addr <$> ks) h s =
  Ret (match least (higher_total ks d dps x start) (tk_dl d) h with Some y => y | None => tk_dl d + 100 end, s).
Proof.
  induction fuel as [|fuel IH]; intros h Hh Hsmall Hinv Hf; cbn [h_loop].
  all: destruct (Z.leb_spec h (tk_dl d)) as [Hhd|Hhd]; [|rewrite least_end by done; by rewrite wrapu_small by lia].
  { lia. }
  specialize (Hinv Hhd).
  pose proof (higher_total_le b ks d dps x start h (tk_dl d) ltac:(lia) ltac:(lia) Hok Hxok) as Hle.
  pose proof (higher_demand_nonneg b ks d dps h ltac:(lia) Hok). pose proof (window_range b x Hxok h ltac:(lia)).
  erewrite run_bind by (apply (h_dpcps_run s b); [lia|done|done|done|lia|unfold higher_total in *; lia]).
  erewrite run_bind by (apply (latency_t_run s b cpu x Hx Hxok); lia).
  fold (higher_total ks d dps x start h). cbv zeta. rewrite wrapu_small by (unfold higher_total in *; lia).
  rewrite (least_step _ _ start) by (try (intros; apply (higher_total_le b)); lia || done).
  rewrite Z.eqb_sym. destruct (Z.eqb_spec (higher_total ks d dps x start h) h) as [E|E]; [done|].
  apply IH; [lia|done| |lia]. intros. apply (higher_total_le b); lia || done.
Qed.

Lemma h_g_time_run dd start :
  a_ctl s !! tk_addr d = Some dd → ctl_rep s dd d → acoral_admis_ctl_queue s = tk_addr <$> ks → global_queue cpu s = Ret (dps, s) →
  0 ≤ start → higher_total ks d dps x start (tk_dl d) < 2 ^ 32 →
  h_g_time start cpu (tk_addr d) s = Ret (higher_time ks d dps x start, s).
Proof.
  intros Hd (E1 & E2 & E3 & E4 & E5 & E6 & Huses) Hq Hg Hs Hsmall. unfold h_g_time.
  erewrite run_bind by (by apply run_ctl). erewrite run_bind by done. rewrite Hq. erewrite run_bind by exact Hg. rewrite E2, E6.
  apply h_loop_run; [lia|done| |lia]. intros Hle.
  pose proof (higher_demand_nonneg b ks d dps start ltac:(lia) Hok). pose proof (window_range b x Hxok start ltac:(lia)).
  unfold higher_total. lia.
Qed.
End requests.

(** ** Where single precision is too small *)

(** A period more than a second begins in this window: the quotient is just above
    1, and its nearest single is 1. *)
Example interference_rounds s :
  interference (2 ^ 24 + 2) 0 1 (2 ^ 24) 0 s = Ret (1, s) ∧ request (2 ^ 24 + 2) 0 1 (2 ^ 24) = 2.
Proof. split; vm_compute; reflexivity. Qed.

(** ** The cores by load *)
Definition load_of (loads : list Q) (c : Z) : Q := default 0%Q (aget loads c).

Lemma sort_two x y c d :
  outer_loop (Z.to_nat CFG_MAX_CPU) 0 ([x; y], [c; d]) = Ret (tt, if Qle_bool x y then ([x; y], [c; d]) else ([y; x], [d; c])).
Proof. reflexivity. Qed.

(** The list has each core once, with no core before one of less load. *)
Lemma cpu_load_list_sorted s loads :
  aget (cpu_load s) CPU_LOAD_THIS = Some loads → Z.of_nat (length loads) = CFG_MAX_CPU →
  ∃ l, cpu_load_list_update s = Ret (tt, set_cpu_load_list l s) ∧ l ≡ₚ [0; 1] ∧
    StronglySorted (λ c c', (load_of loads c <= load_of loads c')%Q) l.
Proof.
  intros Hl Hlen. destruct loads as [|x [|y [|]]]; change CFG_MAX_CPU with 2 in Hlen; cbn [length] in Hlen; try lia. unfold cpu_load_list_update.
  change (Z.of_nat <$> seq 0 (Z.to_nat CFG_MAX_CPU)) with [0; 1]. rewrite Hl, sort_two. destruct (Qle_bool x y) eqn:E.
  - exists [0; 1]. split_and!; [done|done|]. repeat constructor. by apply Qle_bool_iff.
  - exists [1; 0]. split_and!; [done|by apply Permutation_swap|]. repeat constructor. change (y <= x)%Q.
    destruct (Qlt_le_dec y x) as [?|Hle]; [by apply Qlt_le_weak|]. apply Qle_bool_iff in Hle. congruence.
Qed.
