(* ===== verification/AdmisResp.v ===== *)
(** * Response times of admission control

    What [latency_b_time], [latency_g_time] and [response_time] calculate, over
    the tasks, demands and tables of [AdmisSpec]. *)
From S2P Require Import Prelude KTypes Pcp Floats Admis AdmisSpec.
From stdpp Require Import list gmap sorting.
From Stdlib Require Import QArith Qround.
#[local] Open Scope Z_scope.

(** ** The longest of some times *)
Definition longest (l : list Z) : Z := foldr Z.max 0 l.

Lemma longest_nonneg l : 0 ≤ longest l.
Proof. unfold longest. induction l as [|x l IH]; cbn; lia. Qed.

Lemma longest_app l k : longest (l ++ k) = Z.max (longest l) (longest k).
Proof. unfold longest. pose proof (longest_nonneg k) as Hk. unfold longest in Hk. induction l as [|x l IH]; cbn; lia. Qed.

#[export] Instance longest_perm : Proper (Permutation ==> eq) longest.
Proof. unfold longest. induction 1; cbn; lia. Qed.

Lemma StronglySorted_reverse {B} (R : B → B → Prop) l : StronglySorted R l → StronglySorted (flip R) (reverse l).
Proof.
  induction 1 as [|x l Hl IH Hx]; [constructor|]. rewrite reverse_cons. apply StronglySorted_app_2; [|done|by repeat constructor].
  intros y z Hy ->%list_elem_of_singleton. rewrite elem_of_reverse in Hy. by eapply Forall_forall in Hx.
Qed.

(** A loop that keeps the greater. *)
Lemma longest_step m x : (if m <? x then x else m) = Z.max m x.
Proof. destruct (Z.ltb_spec m x); lia. Qed.

(** ** Reference: blocking by local resources *)

(** Critical sections of a task under local resources whose ceiling is above the
    priority of [d]. *)
Definition local_sections (d k : task) : list Z :=
  us_len <$> filter (λ u, us_type u = ACORAL_DPCP_LOCAL ∧ us_ceiling u < tk_prio d) (tk_uses k).

Definition lower (d k : task) : Prop := tk_cpu k = tk_cpu d ∧ tk_prio d < tk_prio k.
#[export] Instance lower_dec d k : Decision (lower d k) := ltac:(unfold lower; apply _).

Definition requests (d : task) : Z := sum (us_cnt <$> filter (λ u, us_type u = ACORAL_DPCP_GLOBAL) (tk_uses d)).

(** One section of a lower task at the start, and after each request. *)
Definition blocking (ks : list task) (d : task) : Z :=
  (requests d + 1) * longest ((λ k, longest (local_sections d k)) <$> filter (lower d) ks).

Lemma longest_filter_cons {B} (P : B → Prop) `{∀ x, Decision (P x)} (f : B → Z) x l :
  longest (f <$> filter P (x :: l)) = Z.max (if decide (P x) then f x else 0) (longest (f <$> filter P l)).
Proof.
  rewrite filter_cons. pose proof (longest_nonneg (f <$> filter P l)). case_decide; [done|]. cbn. lia.
Qed.

Lemma longest_filter_none {B} (P : B → Prop) `{∀ x, Decision (P x)} (f : B → Z) l :
  Forall (λ x, ¬ P x) l → longest (f <$> filter P l) = 0.
Proof. intros Hl. by rewrite list_filter_none. Qed.

Section blocking.
Context (s : admis) (b : Z) (Hb : 0 ≤ b).

Lemma b_global_run k rs us : ∀ n,
  Forall2 (use_rep s) rs us → Forall (use_ok k) us → 0 ≤ n →
  n + sum (us_cnt <$> filter (λ u, us_type u = ACORAL_DPCP_GLOBAL) us) < 256 →
  b_global rs n s = Ret (n + sum (us_cnt <$> filter (λ u, us_type u = ACORAL_DPCP_GLOBAL) us), s).
Proof.
  intros n Hrs. revert n. induction Hrs as [|r u rs us Hr _ IH]; intros n Hus Hn; cbn [b_global].
  { intros _. unfold sum. cbn. by rewrite Z.add_0_r. }
  apply Forall_cons in Hus as [(Hu & _) Hus]. destruct (run_res s r u Hr) as (rd & Hrd & Hcnt & _ & _ & kk & Hcache & Ht & _).
  rewrite sum_filter_cons. intros Hlt. erewrite run_bind by exact Hrd. erewrite run_bind by exact Hcache. rewrite Ht, Hcnt.
  assert (0 ≤ sum (us_cnt <$> filter (λ u, us_type u = ACORAL_DPCP_GLOBAL) us)) as Hrest.
  { apply sum_filter_nonneg. eapply Forall_impl; [exact Hus|]. intros y []. lia. }
  destruct (Z.eqb_spec (us_type u) ACORAL_DPCP_GLOBAL); [rewrite decide_True in Hlt |- * by done|rewrite decide_False in Hlt |- * by done].
  - rewrite wrapu_small by lia. rewrite IH by (done || lia). do 2 f_equal. lia.
  - rewrite IH by (done || lia). done.
Qed.

(** A loop that takes the maximum with a value of each element. *)
Lemma maxes_run {B} (P : B → Prop) (f : B → Z) (loop : list B → Z → A Z) xs : ∀ m,
  (∀ r, loop [] r s = Ret (r, s)) → Forall P xs →
  (∀ x xs r, P x → 0 ≤ r → loop (x :: xs) r s = loop xs (Z.max r (f x)) s) →
  0 ≤ m → loop xs m s = Ret (Z.max m (longest (f <$> xs)), s).
Proof.
  intros m Hnil Hxs Hloop. revert m. induction Hxs as [|x xs Hx Hxs IH]; intros m Hm.
  { rewrite Hnil. unfold longest. cbn. by rewrite Z.max_l by lia. }
  rewrite Hloop, IH by (done || lia). change (longest (f <$> x :: xs)) with (Z.max (f x) (longest (f <$> xs))). do 2 f_equal. lia.
Qed.

Lemma longest_filter {B} (P : B → Prop) `{∀ x, Decision (P x)} (f : B → Z) l :
  longest (f <$> filter P l) = longest ((λ x, if decide (P x) then f x else 0) <$> l).
Proof. induction l as [|x l IH]; [done|]. rewrite longest_filter_cons, IH. done. Qed.

(** The same over pairs of an address and what is there. *)
Lemma maxes_run2 {B} (R : Z → B → Prop) (f : B → Z) (loop : list Z → Z → A Z) rs us : ∀ m,
  (∀ r, loop [] r s = Ret (r, s)) → Forall2 R rs us →
  (∀ p u rs r, R p u → 0 ≤ r → loop (p :: rs) r s = loop rs (Z.max r (f u)) s) →
  0 ≤ m → loop rs m s = Ret (Z.max m (longest (f <$> us)), s).
Proof.
  intros m Hnil Hrs Hloop. revert m. induction Hrs as [|p u rs us Hp Hrs IH]; intros m Hm.
  { rewrite Hnil. unfold longest. cbn. by rewrite Z.max_l by lia. }
  rewrite (Hloop p u), IH by (done || lia). change (longest (f <$> u :: us)) with (Z.max (f u) (longest (f <$> us))). do 2 f_equal. lia.
Qed.

Lemma b_local_run d rs us m :
  Forall2 (use_rep s) rs us → 0 ≤ m →
  b_local rs (tk_prio d) m s =
  Ret (Z.max m (longest (us_len <$> filter (λ u, us_type u = ACORAL_DPCP_LOCAL ∧ us_ceiling u < tk_prio d) us)), s).
Proof.
  intros Hrs Hm. rewrite longest_filter. apply (maxes_run2 _ _ (λ rs m, b_local rs (tk_prio d) m) _ _ m (λ r, eq_refl) Hrs); [|done].
  intros r u rs' n Hr Hn. destruct (run_res s r u Hr) as (rd & Hrd & _ & Hlen & _ & kk & Hcache & Ht & Hk). cbn [b_local].
  erewrite run_bind by exact Hrd. erewrite run_bind by exact Hcache. rewrite Ht, Hk, Hlen. f_equal.
  destruct (Z.eqb_spec (us_type u) ACORAL_DPCP_LOCAL) as [E|E], (Z.ltb_spec (us_ceiling u) (tk_prio d)) as [L|L]; cbn [andb].
  1: by rewrite decide_True, longest_step by done.
  all: rewrite decide_False by (intros []; lia || congruence); lia.
Qed.

Lemma b_tasks_run d ks : ∀ m,
  Forall (task_rep s) ks → StronglySorted (λ x y, tk_prio y ≤ tk_prio x) ks → 0 ≤ m →
  b_tasks (tk_addr <$> ks) (tk_cpu d) (tk_prio d) m s =
  Ret (Z.max m (longest ((λ k, longest (local_sections d k)) <$> filter (lower d) ks)), s).
Proof.
  induction ks as [|k ks IH]; intros m Hrep Hsort Hm; cbn [fmap list_fmap b_tasks].
  { unfold longest. cbn. by rewrite Z.max_l by lia. }
  apply Forall_cons in Hrep as [(x & Hx & E1 & E2 & E3 & E4 & E5 & E6 & Huses) Hrep].
  apply StronglySorted_inv in Hsort as [Hsort Hhead].
  erewrite run_bind by (by apply run_ctl). rewrite E1, E2, longest_filter_cons.
  destruct (Z.eqb_spec (tk_cpu k) (tk_cpu d)) as [Ec|Ec], (Z.ltb_spec (tk_prio d) (tk_prio k)) as [Ep|Ep]; cbn [andb].
  1: { rewrite decide_True by done. erewrite run_bind by (by apply b_local_run).
    fold (local_sections d k). rewrite IH by (done || lia). do 2 f_equal. lia. }
  all: rewrite decide_False by (intros []; lia).
  all: destruct (Z.leb_spec (tk_prio k) (tk_prio d)); try lia.
  2: { rewrite IH by done. do 2 f_equal.
    pose proof (longest_nonneg ((λ k, longest (local_sections d k)) <$> filter (lower d) ks)). lia. }
  all: rewrite (longest_filter_none (lower d)) by
    (eapply Forall_impl; [exact Hhead|]; intros y Hy [_ ?]; cbv beta in Hy; lia); by rewrite !Z.max_l by lia.
Qed.

Lemma latency_b_run ks d :
  system s ks → d ∈ ks → Forall (task_ok b) ks → requests d < 256 - 1 → blocking ks d < 2 ^ 32 →
  latency_b_time (tk_addr d) s = Ret (blocking ks d, s).
Proof.
  intros [Hq Hks Hsort] Hd Hok Hreq Hbl. unfold latency_b_time.
  eapply Forall_forall in Hks as Hrep; [|exact Hd]. eapply Forall_forall in Hok as Hdok; [|exact Hd].
  destruct Hrep as (x & Hx & E1 & E2 & _ & _ & _ & _ & Huses).
  assert (0 ≤ requests d) as Hn.
  { apply sum_filter_nonneg. eapply Forall_impl; [apply Hdok|]. intros u []. lia. }
  erewrite run_bind by (by apply run_ctl). erewrite run_bind by (apply (b_global_run d); [done|apply Hdok|done|unfold requests in *; lia]).
  fold (requests d). erewrite run_bind by done. rewrite Hq, <- fmap_reverse, E1, E2.
  erewrite run_bind by (apply b_tasks_run; [by rewrite reverse_Permutation|by apply StronglySorted_reverse|done]).
  rewrite reverse_Permutation, Z.max_r by apply longest_nonneg. rewrite Z.add_0_l. unfold blocking in *.
  rewrite wrapu_small; [done|]. pose proof (longest_nonneg ((λ k, longest (local_sections d k)) <$> filter (lower d) ks)). nia.
Qed.
End blocking.

(** ** Reference: requests of the resources of another core *)

Definition own_time (k : task) (dp : Z) : Z := sum (us_time <$> filter (λ u, us_dp u = dp) (tk_uses k)).

(** All uses of the resources [dps] within [t]: once by [d], and by the other
    tasks as often as they come. *)
Definition share (d : task) (dp t : Z) (k : task) : Z := if decide (tk_addr k = tk_addr d) then own_time k dp else use_demand k dp t.
Definition all_demand (ks : list task) (d : task) (dps : list Z) (t : Z) : Z := sum ((λ dp, sum (share d dp t <$> ks)) <$> dps).

Definition touches (us : list use) (dps : list Z) : bool := existsb (λ dp, existsb (λ u, us_dp u =? dp) us) dps.

(** The longest section of a lower task, of any core, under one of the resources. *)
Definition lower_section (ks : list task) (d : task) (dps : list Z) : Z :=
  longest ((λ dp, longest ((λ k, longest (us_len <$> filter (λ u, us_dp u = dp ∧ us_ceiling u < tk_prio d) (tk_uses k)))
    <$> filter (λ k, tk_prio d < tk_prio k) ks)) <$> dps).

(** Number and length of the sections of [d] under [dp]; those of the resource
    before it when there are none. *)
Definition last_use (us : list use) (dp : Z) (nl : Z * Z) : Z * Z :=
  foldl (λ nl u, if us_dp u =? dp then (us_cnt u, us_len u) else nl) nl us.

(** The time of all requests of [d], each on its own; [time] is what one takes. *)
Fixpoint each_request (time : Z → Z) (dl : Z) (us : list use) (dps : list Z) (nl : Z * Z) : option Z :=
  match dps with
  | [] => Some 0
  | dp :: dps =>
      let nl := last_use us dp nl in
      if time nl.2 <=? dl then r ← each_request time dl us dps nl; Some (nl.1 * time nl.2 + r) else None
  end.

Section remote.
Context (s : admis) (b : Z).

Lemma own_time_nonneg k dp : Forall (use_ok k) (tk_uses k) → 0 ≤ own_time k dp.
Proof. intros Hk. apply sum_filter_nonneg. eapply Forall_impl; [exact Hk|]. intros u (H1 & H2 & _). unfold us_time. nia. Qed.

Lemma share_nonneg d dp t k : 0 ≤ t ≤ b → task_ok b k → 0 ≤ share d dp t k.
Proof.
  intros Ht Hk. unfold share. case_decide; [by apply own_time_nonneg, Hk|by apply (use_demand_nonneg b)].
Qed.

Lemma this_uses_run k dp rs us : ∀ r,
  0 ≤ b → task_ok b k → Forall2 (use_rep s) rs us → Forall (use_ok k) us → 0 ≤ r →
  r + sum (us_time <$> filter (λ u, us_dp u = dp) us) < 2 ^ 32 →
  this_uses rs dp r s = Ret (r + sum (us_time <$> filter (λ u, us_dp u = dp) us), s).
Proof.
  intros r Hb Hk Hrs. revert r. induction Hrs as [|p u rs us Hp _ IH]; intros r Hus Hr; cbn [this_uses].
  { intros _. unfold sum. cbn. by rewrite Z.add_0_r. }
  apply Forall_cons in Hus as [Hu Hus]. destruct (run_res s p u Hp) as (rd & Hrd & Hcnt & Hlen & Hdp & _).
  destruct (use_time_ok b k u rd Hb Hk Hu Hcnt Hlen) as [E Hut].
  rewrite sum_filter_cons. intros Hlt. erewrite run_bind by exact Hrd. erewrite run_bind by exact Hdp. rewrite E.
  assert (0 ≤ sum (us_time <$> filter (λ u, us_dp u = dp) us)) as Hrest.
  { apply sum_filter_nonneg. eapply Forall_impl; [exact Hus|]. intros y (H1 & H2 & _). unfold us_time. nia. }
  destruct (Z.eqb_spec (us_dp u) dp); [rewrite decide_True in Hlt |- * by done|rewrite decide_False in Hlt |- * by done].
  - rewrite wrapu_small by lia. rewrite IH by (done || lia). do 2 f_equal. lia.
  - rewrite IH by (done || lia). done.
Qed.

Lemma pd_tasks_run ks d dp t r :
  0 ≤ t ≤ b → Forall (task_rep s) ks → Forall (task_ok b) ks → 0 ≤ r → r + sum (share d dp t <$> ks) < 2 ^ 32 →
  pd_tasks (tk_addr <$> ks) (tk_addr d) dp t r s = Ret (r + sum (share d dp t <$> ks), s).
Proof.
  intros Ht Hrep Hok Hr Hlt.
  apply (sums_run s (share d dp t) (λ ks r, pd_tasks (tk_addr <$> ks) (tk_addr d) dp t r)); [done| |done|done].
  apply Forall_forall. intros k Hin. eapply Forall_forall in Hrep as (x & Hx & E1 & E2 & E3 & E4 & E5 & E6 & Huses); [|exact Hin].
  eapply Forall_forall in Hok as Hk; [|exact Hin]. split; [by apply share_nonneg|]. intros ks' r' Hr' Hlt'. cbn [fmap list_fmap pd_tasks].
  erewrite run_bind by (by apply run_ctl). unfold share in *. destruct (Z.eqb_spec (tk_addr k) (tk_addr d)).
  - rewrite decide_True in Hlt' |- * by done. by erewrite run_bind by (apply (this_uses_run k); [lia|done|done|apply Hk|done|done]).
  - rewrite decide_False in Hlt' |- * by done. rewrite E4, E5.
    by erewrite run_bind by (apply (other_uses_run s b k); [done|done|done|apply Hk|done|done]).
Qed.

Lemma pd_dpcps_run ks d dps t r :
  0 ≤ t ≤ b → Forall (task_rep s) ks → Forall (task_ok b) ks → 0 ≤ r → r + all_demand ks d dps t < 2 ^ 32 →
  pd_dpcps dps (tk_addr <$> ks) (tk_addr d) t r s = Ret (r + all_demand ks d dps t, s).
Proof.
  intros Ht Hrep Hok Hr Hlt.
  apply (sums_run s (λ dp, sum (share d dp t <$> ks)) (λ dps r, pd_dpcps dps (tk_addr <$> ks) (tk_addr d) t r)); [done| |done|done].
  apply Forall_forall. intros dp _. split.
  { apply sum_fmap_nonneg. eapply Forall_impl; [exact Hok|]. intros k Hk. by apply share_nonneg. }
  intros xs r' Hr' Hlt'. cbn [pd_dpcps]. by erewrite run_bind by (by apply pd_tasks_run).
Qed.

Lemma uses_flag_run rs us dp : ∀ f,
  Forall2 (use_rep s) rs us → uses_flag rs dp f s = Ret (if existsb (λ u, us_dp u =? dp) us then 1 else f, s).
Proof.
  intros f Hrs. revert f. induction Hrs as [|p u rs us Hp _ IH]; intros f; cbn [uses_flag existsb]; [done|].
  destruct (run_res s p u Hp) as (rd & Hrd & _ & _ & Hdp & _).
  erewrite run_bind by exact Hrd. erewrite run_bind by exact Hdp. rewrite IH. destruct (us_dp u =? dp), (existsb _ us); done.
Qed.

Lemma flag_dpcps_run rs us dps : ∀ f,
  Forall2 (use_rep s) rs us → flag_dpcps dps rs f s = Ret (if touches us dps then 1 else f, s).
Proof.
  intros f Hrs. revert f. induction dps as [|dp dps IH]; intros f; cbn [flag_dpcps touches existsb]; [done|].
  erewrite run_bind by (by apply uses_flag_run). rewrite IH. unfold touches. destruct (existsb _ us), (existsb _ dps); done.
Qed.

Lemma this_use_run rs us dp : ∀ nl,
  Forall2 (use_rep s) rs us → this_use rs dp nl.1 nl.2 s = Ret (last_use us dp nl, s).
Proof.
  intros nl Hrs. revert nl. induction Hrs as [|p u rs us Hp _ IH]; intros nl; cbn [this_use]; [by destruct nl|].
  destruct (run_res s p u Hp) as (rd & Hrd & Hcnt & Hlen & Hdp & _).
  erewrite run_bind by exact Hrd. erewrite run_bind by exact Hdp. rewrite Hcnt, Hlen. unfold last_use. cbn [foldl].
  destruct (us_dp u =? dp); [apply (IH (us_cnt u, us_len u))|apply IH].
Qed.

Lemma l_uses_run rs us d dp m :
  Forall2 (use_rep s) rs us → 0 ≤ m →
  l_uses rs dp (tk_prio d) m s = Ret (Z.max m (longest (us_len <$> filter (λ u, us_dp u = dp ∧ us_ceiling u < tk_prio d) us)), s).
Proof.
  intros Hrs Hm. rewrite longest_filter. apply (maxes_run2 s _ _ (λ rs m, l_uses rs dp (tk_prio d) m) _ _ m (λ r, eq_refl) Hrs); [|done].
  intros r u rs' n Hr Hn. destruct (run_res s r u Hr) as (rd & Hrd & _ & Hlen & Hdp & kk & Hcache & _ & Hk). cbn [l_uses].
  erewrite run_bind by exact Hrd. erewrite run_bind by exact Hcache. erewrite run_bind by exact Hdp. rewrite Hk, Hlen. f_equal.
  destruct (Z.eqb_spec (us_dp u) dp) as [E|E], (Z.ltb_spec (us_ceiling u) (tk_prio d)) as [L|L]; cbn [andb].
  1: by rewrite decide_True, longest_step by done.
  all: rewrite decide_False by (intros []; lia || congruence); lia.
Qed.

Definition lower_on (ks : list task) (d : task) (dp : Z) : Z :=
  longest ((λ k, longest (us_len <$> filter (λ u, us_dp u = dp ∧ us_ceiling u < tk_prio d) (tk_uses k))) <$> filter (λ k, tk_prio d < tk_prio k) ks).

Lemma l_tasks_run ks d dp m :
  Forall (task_rep s) ks → 0 ≤ m → l_tasks (tk_addr <$> ks) dp (tk_prio d) m s = Ret (Z.max m (lower_on ks d dp), s).
Proof.
  intros Hrep Hm. unfold lower_on. rewrite longest_filter.
  apply (maxes_run s (task_rep s) _ (λ ks m, l_tasks (tk_addr <$> ks) dp (tk_prio d) m) _ m); [done|done| |done].
  intros k ks' r (x & Hx & E1 & E2 & E3 & E4 & E5 & E6 & Huses) Hr. cbn [fmap list_fmap l_tasks].
  erewrite run_bind by (by apply run_ctl). rewrite E2. destruct (Z.ltb_spec (tk_prio d) (tk_prio k)).
  - rewrite decide_True by done. by erewrite run_bind by (by apply l_uses_run).
  - rewrite decide_False by lia. erewrite run_bind by done. do 2 f_equal. lia.
Qed.

(** The resources in the queue of a core belong to it. *)
Definition of_core (cpu dp : Z) : Prop := ∃ x, a_dpcp s !! dp = Some x ∧ dp_cpu x = cpu.

Lemma l_dpcps_run ks d dps cpu m :
  Forall (task_rep s) ks → Forall (of_core cpu) dps → 0 ≤ m →
  l_dpcps dps (tk_addr <$> ks) cpu (tk_prio d) m s = Ret (Z.max m (lower_section ks d dps), s).
Proof.
  intros Hrep Hdps Hm.
  apply (maxes_run s (of_core cpu) (lower_on ks d) (λ dps m, l_dpcps dps (tk_addr <$> ks) cpu (tk_prio d) m) _ m); [done|done| |done].
  intros dp dps' r (x & Hx & Ecpu) Hr. cbn [l_dpcps]. erewrite run_bind by (by apply run_deref).
  rewrite Ecpu, Z.eqb_refl. by erewrite run_bind by (by apply l_tasks_run).
Qed.
End remote.

(** ** The remote core *)
Lemma wrapu_add w x y : wrapu w (wrapu w x + wrapu w y) = wrapu w (x + y).
Proof. unfold wrapu. by rewrite <- Zplus_mod. Qed.

Lemma longest_lt l c : 0 < c → Forall (λ x, x < c) l → longest l < c.
Proof. intros Hc. unfold longest. induction 1; cbn; lia. Qed.

Section direct.
Context (s : admis) (b cpu : Z) (x : table) (ks : list task) (d : task) (dps : list Z).
Context (Hx : table_rep s cpu x) (Hxok : table_ok b x).
Context (Hsys : system s ks) (Hin : d ∈ ks) (Hok : Forall (task_ok b) ks).
Context (Hdl : 0 ≤ tk_dl d ≤ b) (Hb : b < 2 ^ 24).
Context (Hq : global_queue cpu s = Ret (dps, s)) (Hdps : Forall (of_core s cpu) dps).
Context (Hsmall : higher_total ks d dps x (2 ^ 25) (tk_dl d) < 2 ^ 32).

Lemma us_len_small k u : task_ok b k → use_ok k u → 0 ≤ us_len u < 2 ^ 24.
Proof. intros [_ Hh _ _ _] (H1 & H2 & H3). unfold us_time in *. nia. Qed.

Lemma lower_section_small : 0 ≤ lower_section ks d dps < 2 ^ 24.
Proof.
  split; [apply longest_nonneg|]. apply longest_lt; [done|]. apply Forall_fmap, Forall_forall. intros dp _.
  apply longest_lt; [done|]. apply Forall_fmap, Forall_filtered. eapply Forall_impl; [exact Hok|]. intros k Hk.
  apply longest_lt; [done|]. apply Forall_fmap, Forall_filtered. eapply Forall_impl; [apply Hk|]. intros u Hu. by apply (us_len_small k).
Qed.

Lemma last_use_small us dp : ∀ nl : Z * Z,
  Forall (use_ok d) us → task_ok b d → 0 ≤ nl.2 < 2 ^ 24 → 0 ≤ (last_use us dp nl).2 < 2 ^ 24.
Proof.
  induction us as [|u us IH]; intros nl Hus Hd Hnl; [done|]. apply Forall_cons in Hus as [Hu Hus]. apply IH; [done|done|].
  destruct (us_dp u =? dp); [by apply (us_len_small d)|done].
Qed.

(** What one request takes whose own section is [len]. *)
Definition request_time (len : Z) : Z := higher_time ks d dps x (len + lower_section ks d dps).

Lemma dd_dpcps_run dd ps : ∀ st,
  a_ctl s !! tk_addr d = Some dd → ctl_rep s dd d → Forall (of_core s cpu) ps →
  0 ≤ L_this st < 2 ^ 24 → 0 ≤ global_l_max st ≤ lower_section ks d dps →
  ∃ st', dd_dpcps ps dps (tk_addr <$> ks) cpu (tk_addr d) dd st s = Ret (st', s) ∧
    match each_request request_time (tk_dl d) (tk_uses d) ps (N_this st, L_this st) with
    | Some r => ∃ y, st' = Some y ∧ u32 (DD_g y) = u32 (DD_g st + r) ∧ (ps ≠ [] → 0 ≤ DD_g y < 2 ^ 32) ∧ (ps = [] → y = st)
    | None => st' = None
    end.
Proof.
  destruct Hsys as [Hqu Hks Hsort].
  induction ps as [|dp ps IH]; intros st Hd Hdd Hps HL Hm; cbn [dd_dpcps each_request].
  { eexists. split; [done|]. exists st. split_and!; [done|by rewrite Z.add_0_r|done|done]. }
  apply Forall_cons in Hps as [(y & Hy & Ey) Hps].
  pose proof Hdd as (E1 & E2 & E3 & E4 & E5 & E6 & Huses). eapply Forall_forall in Hok as Hdok; [|exact Hin].
  erewrite run_bind by (by apply run_deref).
  erewrite run_bind by (by apply (this_use_run s _ (tk_uses d) dp (N_this st, L_this st))).
  pose proof (last_use_small (tk_uses d) dp (N_this st, L_this st) (ok_uses _ _ Hdok) Hdok HL) as HL'.
  destruct (last_use (tk_uses d) dp (N_this st, L_this st)) as [n l] eqn:El. cbn [snd fst] in *. rewrite Ey, E2, E6.
  erewrite run_bind by (apply l_dpcps_run; [done|done|lia]). rewrite Z.max_r by lia.
  pose proof lower_section_small as Hlow. rewrite wrapu_small by lia.
  erewrite run_bind by (apply (h_g_time_run s b cpu x ks d dps Hx Hxok Hks Hok Hsort Hdl Hb dd); [done|done|done|done|lia|unfold higher_total in *; lia]).
  fold (request_time l). destruct (request_time l <=? tk_dl d); [|eexists; done].
  destruct (IH (mk_dd (u32 (DD_g st + u32 (n * request_time l))) n l (lower_section ks d dps)) Hd Hdd Hps) as (st' & Hrun & Hst); [cbn; lia|cbn; lia|].
  exists st'. split; [exact Hrun|]. cbn [N_this L_this DD_g] in Hst.
  destruct (each_request request_time (tk_dl d) (tk_uses d) ps (n, l)) as [r|]; cbn [mbind option_bind]; [|done].
  destruct Hst as (z & -> & Hz & Hz1 & Hz2). exists z. split_and!; [done| | |done].
  - rewrite Hz. rewrite <- (wrapu_add 32 _ r).
    assert (wrapu 32 (wrapu 32 (DD_g st + wrapu 32 (n * request_time l))) = wrapu 32 (DD_g st + n * request_time l)) as ->.
    { rewrite (wrapu_small 32 (wrapu 32 _)) by (apply wrapu_range; lia). unfold wrapu. by rewrite Zplus_mod_idemp_r. }
    rewrite wrapu_add. f_equal. lia.
  - intros _. destruct ps; [|by apply Hz1]. rewrite (Hz2 eq_refl). cbn. apply wrapu_range. lia.
Qed.
End direct.

(** ** Both cores *)

(** The own core of a task and the other one: the resources of their global
    queues and their tables. *)
Record cores : Type := mk_cores { own_dps : list Z; own_table : table; remote_dps : list Z; remote_table : table }.

Definition remote (c : Z) : Z := 1 - c.

Record cores_rep (s : admis) (c : Z) (p : cores) : Prop := {
  co_cpu : c = 0 ∨ c = 1;
  co_own : global_queue c s = Ret (own_dps p, s);
  co_own_table : table_rep s c (own_table p);
  co_remote : global_queue (remote c) s = Ret (remote_dps p, s);
  co_remote_table : table_rep s (remote c) (remote_table p);
  co_of : Forall (of_core s (remote c)) (remote_dps p);
}.

(** All requests of the other core's resources, one by one. *)
Definition direct (ks : list task) (d : task) (p : cores) : option Z :=
  if touches (tk_uses d) (remote_dps p)
  then each_request (request_time (remote_table p) ks d (remote_dps p)) (tk_dl d) (tk_uses d) (remote_dps p) (0, 0)
  else Some 0.

(** All that uses them within [t], if that is less. *)
Definition contention (ks : list task) (d : task) (p : cores) (t : Z) : Z := all_demand ks d (remote_dps p) t + window (remote_table p) t.
Definition remote_time (ks : list task) (d : task) (p : cores) (D t : Z) : Z :=
  if touches (tk_uses d) (remote_dps p) then Z.min (contention ks d p t) D else 0.

Definition global_time_of (ks : list task) (d : task) (p : cores) (D t : Z) : Z := other_demand ks d (own_dps p) t + remote_time ks d p D t.

(** The time by which a task is done when it takes [t]. *)
Definition total (ks : list task) (d : task) (p : cores) (D t : Z) : Z :=
  tk_wcet d + ng_demand ks d t + window (own_table p) t + global_time_of ks d p D t.

(** All sums of the analysis in 32 bits, at the deadline. *)
Record bounded (ks : list task) (d : task) (p : cores) : Prop := {
  bd_total : tk_wcet d + ng_demand ks d (tk_dl d) + window (own_table p) (tk_dl d) + other_demand ks d (own_dps p) (tk_dl d) +
    contention ks d p (tk_dl d) < 2 ^ 32;
  bd_higher : higher_total ks d (remote_dps p) (remote_table p) (2 ^ 25) (tk_dl d) < 2 ^ 32;
  bd_direct : ∀ D, direct ks d p = Some D → D < 2 ^ 32;
  bd_requests : requests d < 255;
  bd_blocking : blocking ks d < 2 ^ 32;
}.

Lemma each_request_nonneg time dl us dps : ∀ (nl : Z * Z) r,
  (∀ l, 0 ≤ l → 0 ≤ time l) → Forall (λ u, 0 ≤ us_cnt u ∧ 0 ≤ us_len u) us → 0 ≤ nl.1 → 0 ≤ nl.2 →
  each_request time dl us dps nl = Some r → 0 ≤ r.
Proof.
  induction dps as [|dp dps IH]; intros nl r Htime Hus H1 H2; cbn [each_request]; [intros [= <-]; done|].
  assert (0 ≤ (last_use us dp nl).1 ∧ 0 ≤ (last_use us dp nl).2) as [L1 L2].
  { clear IH. unfold last_use. revert nl H1 H2. induction Hus as [|u us [Hc Hl] _ IHu]; intros nl H1 H2; [done|]. cbn [foldl].
    apply IHu; by destruct (us_dp u =? dp). }
  destruct (_ <=? dl); [|done]. destruct (each_request time dl us dps _) as [r'|] eqn:E; [|done]. cbn. intros [= <-].
  pose proof (IH _ _ Htime Hus L1 L2 E). pose proof (Htime _ L2). nia.
Qed.

Lemma higher_time_nonneg ks d dps x start : 0 ≤ start → 0 ≤ tk_dl d → 0 ≤ higher_time ks d dps x start.
Proof.
  intros Hs Hd. unfold higher_time. pose proof (least_spec (higher_total ks d dps x start) (tk_dl d) start) as Hl.
  destruct (least _ _ _); lia.
Qed.

Lemma wcet_nonneg b k : task_ok b k → 0 ≤ tk_wcet k.
Proof.
  intros Hk. pose proof (ok_ng _ _ Hk) as Hng. unfold ng_part in Hng.
  assert (0 ≤ sum (us_time <$> filter (λ u, us_type u = ACORAL_DPCP_GLOBAL) (tk_uses k))); [|lia].
  apply sum_filter_nonneg. eapply Forall_impl; [apply Hk|]. intros u (? & ? & _). unfold us_time. nia.
Qed.

Section both.
Context (s : admis) (b : Z) (ks : list task) (d : task) (p : cores).
Context (Hco : cores_rep s (tk_cpu d) p) (Hown : table_ok b (own_table p)) (Hremote : table_ok b (remote_table p)).
Context (Hsys : system s ks) (Hin : d ∈ ks) (Hok : Forall (task_ok b) ks).
Context (Hdl : 0 ≤ tk_dl d ≤ b) (Hb : b < 2 ^ 24) (Hbd : bounded ks d p).

Lemma direct_nonneg D : direct ks d p = Some D → 0 ≤ D.
Proof.
  unfold direct. destruct (touches _ _); [|intros [= <-]; done].
  eapply Forall_forall in Hok as Hd; [|exact Hin]. apply each_request_nonneg; [|eapply Forall_impl; [apply Hd|]; intros u (? & ? & _); lia|done|done].
  intros l Hl. apply higher_time_nonneg; [|lia]. pose proof (lower_section_small b ks d (remote_dps p) Hok). lia.
Qed.

Lemma all_demand_nonneg dps t : 0 ≤ t ≤ b → 0 ≤ all_demand ks d dps t.
Proof.
  intros Ht. apply sum_fmap_nonneg, Forall_forall. intros dp _. apply sum_fmap_nonneg. eapply Forall_impl; [exact Hok|].
  intros k Hk. by apply (share_nonneg b).
Qed.

Lemma other_demand_nonneg dps t : 0 ≤ t ≤ b → 0 ≤ other_demand ks d dps t.
Proof.
  intros Ht. apply sum_fmap_nonneg, Forall_forall. intros dp _. rewrite <- others_on_filter. by apply (others_on_nonneg b).
Qed.

Lemma all_demand_le dps t t' : 0 ≤ t ≤ t' → t' ≤ b → all_demand ks d dps t ≤ all_demand ks d dps t'.
Proof.
  intros Ht Hb'. apply sum_le, Forall_forall. intros dp _. apply sum_le. eapply Forall_impl; [exact Hok|].
  intros k Hk. unfold share. case_decide; [done|by apply (use_demand_le b)].
Qed.

Lemma contention_le t t' : 0 ≤ t ≤ t' → t' ≤ b → contention ks d p t ≤ contention ks d p t'.
Proof.
  intros Ht Hb'. unfold contention. pose proof (all_demand_le (remote_dps p) t t' Ht Hb').
  pose proof (window_le b _ Hremote t t' Ht). lia.
Qed.

Lemma contention_nonneg t : 0 ≤ t ≤ b → 0 ≤ contention ks d p t.
Proof.
  intros Ht. unfold contention. pose proof (all_demand_nonneg (remote_dps p) t Ht). pose proof (window_range b _ Hremote t Ht). lia.
Qed.

Lemma other_demand_le t t' : 0 ≤ t ≤ t' → t' ≤ b → other_demand ks d (own_dps p) t ≤ other_demand ks d (own_dps p) t'.
Proof. intros Ht Hb'. by apply (sum_demands_le b). Qed.

(** The parts within the deadline, and their sum. *)
Lemma parts t : 0 ≤ t ≤ tk_dl d →
  0 ≤ ng_demand ks d t ∧ 0 ≤ window (own_table p) t ∧ 0 ≤ other_demand ks d (own_dps p) t ∧ 0 ≤ contention ks d p t ∧
  tk_wcet d + ng_demand ks d t + window (own_table p) t + other_demand ks d (own_dps p) t + contention ks d p t < 2 ^ 32.
Proof.
  intros Ht. pose proof (bd_total _ _ _ Hbd). pose proof (ng_demand_le b ks d t (tk_dl d) Ht ltac:(lia) Hok).
  pose proof (window_le b _ Hown t (tk_dl d) Ht). pose proof (other_demand_le t (tk_dl d) Ht ltac:(lia)).
  pose proof (contention_le t (tk_dl d) Ht ltac:(lia)). pose proof (contention_nonneg t ltac:(lia)).
  pose proof (window_range b _ Hown t ltac:(lia)). pose proof (other_demand_nonneg (own_dps p) t ltac:(lia)).
  assert (0 ≤ ng_demand ks d t); [|lia].
  apply sum_filter_nonneg. eapply Forall_impl; [exact Hok|]. intros k Hk. apply (ng_request_nonneg b t k); [lia|done].
Qed.

(** The turn of the own core, and that of the other one. *)
Lemma own_turn dd n t r flag PD x :
  ctl_rep s dd d → 0 ≤ t ≤ tk_dl d → 0 ≤ r → r + other_demand ks d (own_dps p) t < 2 ^ 32 →
  g_cpus (S n) (tk_cpu d) t (tk_addr d) dd (tk_addr <$> ks) r flag PD x s =
  g_cpus n (tk_cpu d + 1) t (tk_addr d) dd (tk_addr <$> ks) (r + other_demand ks d (own_dps p) t) flag PD x s.
Proof.
  intros (E1 & _) Ht Hr Hlt. cbn [g_cpus]. erewrite run_bind by apply Hco. rewrite E1, Z.eqb_refl.
  by erewrite run_bind by (apply (own_dpcps_run s b); [lia|apply Hsys|done..]).
Qed.

Lemma remote_turn dd n t r :
  a_ctl s !! tk_addr d = Some dd → ctl_rep s dd d → 0 ≤ t ≤ tk_dl d → 0 ≤ r → r + contention ks d p t < 2 ^ 32 →
  ∃ flag PD x,
  g_cpus (S n) (remote (tk_cpu d)) t (tk_addr d) dd (tk_addr <$> ks) r 0 0 (mk_dd 0 0 0 0) s =
  match direct ks d p with
  | Some D => g_cpus n (remote (tk_cpu d) + 1) t (tk_addr d) dd (tk_addr <$> ks) (r + remote_time ks d p D t) flag PD x s
  | None => Ret (tk_dl d + 100, s)
  end.
Proof.
  intros Hd Hdd Ht Hr Hlt. pose proof Hdd as (E1 & _ & _ & _ & _ & E6 & Huses). destruct Hco as [Hc _ _ Hq Hrt Hof].
  pose proof (bd_direct _ _ _ Hbd) as HD. pose proof direct_nonneg as HD0. unfold direct, remote_time in *. cbn [g_cpus].
  erewrite run_bind by exact Hq. rewrite E1, (proj2 (Z.eqb_neq _ _)) by (unfold remote; lia).
  erewrite run_bind by (by apply flag_dpcps_run). destruct (touches (tk_uses d) (remote_dps p)) eqn:Et.
  2: { do 3 eexists. by rewrite Z.add_0_r. }
  cbn [Z.eqb Pos.eqb].
  pose proof (contention_nonneg t ltac:(lia)) as Hct. pose proof (window_range b _ Hremote t ltac:(lia)).
  pose proof (all_demand_nonneg (remote_dps p) t ltac:(lia)).
  erewrite run_bind by (apply (pd_dpcps_run s b); [lia|apply Hsys|done|lia|unfold contention in *; lia]).
  erewrite run_bind by (apply (latency_t_run s b _ _ Hrt Hremote); lia). rewrite Z.add_0_l. fold (contention ks d p t). cbv zeta.
  rewrite wrapu_small by lia.
  pose proof (lower_section_small b ks d (remote_dps p) Hok).
  destruct (dd_dpcps_run s b _ _ ks d _ Hrt Hremote Hsys Hin Hok Hdl Hb Hq Hof (bd_higher _ _ _ Hbd) dd _ (mk_dd 0 0 0 0) Hd Hdd Hof)
    as (st & Hrun & Hst); [cbn; lia|cbn; lia|].
  erewrite run_bind by exact Hrun. cbn [N_this L_this DD_g] in Hst.
  destruct (each_request _ _ _ _ _) as [D|].
  - destruct Hst as (y & -> & Hy & Hy1 & _). specialize (HD D eq_refl). specialize (HD0 D eq_refl).
    assert (remote_dps p ≠ []) as Hne by (intros E; by rewrite E in Et).
    rewrite (wrapu_small 32 (DD_g y)) in Hy by (by apply Hy1). rewrite Z.add_0_l, wrapu_small in Hy by lia. rewrite Hy.
    assert ((if contention ks d p t <? D then contention ks d p t else D) = Z.min (contention ks d p t) D) as ->
      by (destruct (Z.ltb_spec (contention ks d p t) D); lia).
    rewrite wrapu_small by lia. by do 3 eexists.
  - subst st. exists 0, 0, (mk_dd 0 0 0 0). rewrite E6, wrapu_small by lia. done.
Qed.

Lemma latency_g_run t : 0 ≤ t ≤ tk_dl d →
  latency_g_time t (tk_addr d) s =
  Ret (match direct ks d p with Some D => global_time_of ks d p D t | None => tk_dl d + 100 end, s).
Proof.
  intros Ht. pose proof (parts t Ht) as (P1 & P2 & P3 & P4 & P5).
  destruct Hsys as [Hqu Hks Hsort]. eapply Forall_forall in Hks as (dd & Hd & Hdd); [|exact Hin].
  eapply Forall_forall in Hok as Hdok; [|exact Hin].
  pose proof (wcet_nonneg b d Hdok) as Hwcet.
  unfold latency_g_time. erewrite run_bind by (by apply run_ctl). erewrite run_bind by done. rewrite Hqu. unfold global_time_of. change (Z.to_nat CFG_MAX_CPU) with 2%nat.
  destruct (co_cpu _ _ _ Hco) as [Ec|Ec].
  - destruct (remote_turn dd 0 t (other_demand ks d (own_dps p) t) Hd Hdd Ht P3 ltac:(lia)) as (f & PD & x & Hrun).
    pose proof (own_turn dd 1 t 0 0 0 (mk_dd 0 0 0 0) Hdd Ht ltac:(lia) ltac:(lia)) as Hown'. rewrite Ec in Hrun, Hown'.
    change (remote 0) with 1 in Hrun. change (0 + 1) with 1 in Hown'. rewrite Hown', Z.add_0_l, Hrun. by destruct (direct ks d p).
  - destruct (remote_turn dd 1 t 0 Hd Hdd Ht ltac:(lia) ltac:(lia)) as (f & PD & x & Hrun). rewrite Ec in Hrun.
    change (remote 1) with 0 in Hrun. change (0 + 1) with 1 in Hrun. rewrite Hrun. destruct (direct ks d p) as [D|] eqn:ED; [|done].
    assert (0 ≤ remote_time ks d p D t ≤ contention ks d p t) as Hrt.
    { pose proof (direct_nonneg D ED). unfold remote_time. destruct (touches _ _); lia. }
    pose proof (own_turn dd 0 t (remote_time ks d p D t) f PD x Hdd Ht ltac:(lia) ltac:(lia)) as Hown'. rewrite Ec in Hown'.
    rewrite Z.add_0_l. rewrite Hown'. cbn [g_cpus]. unfold mret, M_ret. do 2 f_equal. lia.
Qed.
End both.

(** ** The response time *)

(** The bound on the response of [d]: the least time that is enough for the task
    and for all that delays it, and the blocking; [dl_time + 100] where there is
    none up to the deadline, or where one request or the blocking takes longer. *)
Definition bound (ks : list task) (d : task) (p : cores) : Z :=
  let late := tk_dl d + 100 in
  match direct ks d p with
  | Some D =>
      match least (total ks d p D) (tk_dl d) (tk_wcet d) with
      | Some r => if tk_dl d <? blocking ks d then late else r + blocking ks d
      | None => late
      end
  | None => late
  end.

Section response.
Context (s : admis) (b : Z) (ks : list task) (d : task) (p : cores).
Context (Hco : cores_rep s (tk_cpu d) p) (Hown : table_ok b (own_table p)) (Hremote : table_ok b (remote_table p)).
Context (Hsys : system s ks) (Hin : d ∈ ks) (Hok : Forall (task_ok b) ks).
Context (Hdl : 0 ≤ tk_dl d ≤ b) (Hb : b < 2 ^ 24) (Hbd : bounded ks d p).

Lemma total_mono D t t' : 0 ≤ t ≤ t' → t' ≤ tk_dl d → total ks d p D t ≤ total ks d p D t'.
Proof.
  intros Ht Hd. pose proof (ng_demand_le b ks d t t' Ht ltac:(lia) Hok). pose proof (window_le b _ Hown t t' Ht).
  pose proof (other_demand_le b ks d p Hok t t' Ht ltac:(lia)). pose proof (contention_le b ks d p Hremote Hok t t' Ht ltac:(lia)).
  unfold total, global_time_of, remote_time. destruct (touches _ _); lia.
Qed.

Lemma remote_range D t : direct ks d p = Some D → 0 ≤ t ≤ tk_dl d → 0 ≤ remote_time ks d p D t ≤ contention ks d p t.
Proof.
  intros HD Ht. pose proof (direct_nonneg b ks d p Hin Hok Hdl D HD). pose proof (contention_nonneg b ks d p Hremote Hok t ltac:(lia)).
  unfold remote_time. destruct (touches _ _); lia.
Qed.

(** What is left when [total] is beyond the deadline: nothing. *)
Lemma least_late D t : 0 ≤ t ≤ tk_dl d → tk_dl d < total ks d p D t → least (total ks d p D) (tk_dl d) t = None.
Proof.
  intros Ht Hlate. rewrite (least_step _ _ 0) by (try (intros; apply total_mono); lia).
  rewrite (proj2 (Z.eqb_neq _ _)) by lia. by apply least_end.
Qed.

Lemma response_loop_run dd fuel : ∀ t,
  a_ctl s !! tk_addr d = Some dd → ctl_rep s dd d →
  0 ≤ t → (∀ D, direct ks d p = Some D → t ≤ tk_dl d → t ≤ total ks d p D t) → tk_dl d - t < Z.of_nat fuel →
  response_loop fuel (tk_addr d) dd t s =
  Ret (match direct ks d p with
       | Some D =>
           match least (total ks d p D) (tk_dl d) t with
           | Some r => if tk_dl d <? blocking ks d then tk_dl d + 100 else r + blocking ks d
           | None => tk_dl d + 100
           end
       | None => tk_dl d + 100
       end, s).
Proof.
  induction fuel as [|fuel IH]; intros t Hd Hdd Ht Hinv Hf; cbn [response_loop].
  all: pose proof Hdd as (E1 & E2 & E3 & E4 & E5 & E6 & Huses); rewrite E6.
  all: destruct (Z.leb_spec t (tk_dl d)) as [Htd|Htd];
    [|rewrite wrapu_small by lia; destruct (direct ks d p); [by rewrite least_end|done]].
  { lia. }
  pose proof (parts b ks d p Hown Hremote Hok Hdl Hbd t ltac:(lia)) as (P1 & P2 & P3 & P4 & P5).
  eapply Forall_forall in Hok as Hdok; [|exact Hin]. pose proof (wcet_nonneg b d Hdok) as Hw.
  assert (u32 (tk_dl d + 100) = tk_dl d + 100) as Elate by (by rewrite wrapu_small by lia). rewrite Elate.
  (* a part alone may be beyond the deadline *)
  assert (∀ D, direct ks d p = Some D → tk_dl d < total ks d p D t →
    match least (total ks d p D) (tk_dl d) t with Some r => if tk_dl d <? blocking ks d then tk_dl d + 100 else r + blocking ks d | None => tk_dl d + 100 end
    = tk_dl d + 100) as Hlate by (intros D _ Hl; by rewrite least_late by lia).
  assert (latency_ng_time t (tk_addr d) s = Ret (ng_demand ks d t, s)) as Eng.
  { unfold latency_ng_time. erewrite run_bind by (by apply run_ctl). erewrite run_bind by done. destruct Hsys as [Hqu Hks Hsort].
    rewrite Hqu, E1, E2. rewrite (ng_tasks_run s b) by (done || lia). by rewrite Z.add_0_l. }
  erewrite run_bind by exact Eng.
  destruct (Z.ltb_spec (tk_dl d) (ng_demand ks d t)) as [L1|L1].
  { destruct (direct ks d p) as [D|] eqn:ED; [|done]. rewrite (Hlate D eq_refl); [done|].
    pose proof (remote_range D t ED ltac:(lia)). unfold total, global_time_of. lia. }
  rewrite E1. erewrite run_bind by (apply (latency_t_run s b _ _ (co_own_table _ _ _ Hco) Hown); lia).
  destruct (Z.ltb_spec (tk_dl d) (window (own_table p) t)) as [L2|L2].
  { destruct (direct ks d p) as [D|] eqn:ED; [|done]. rewrite (Hlate D eq_refl); [done|].
    pose proof (remote_range D t ED ltac:(lia)). unfold total, global_time_of. lia. }
  erewrite run_bind by (apply (latency_g_run s b); (done || lia)).
  destruct (direct ks d p) as [D|] eqn:ED; [|by rewrite (proj2 (Z.ltb_lt _ _)) by lia].
  pose proof (remote_range D t ED ltac:(lia)) as Hr.
  destruct (Z.ltb_spec (tk_dl d) (global_time_of ks d p D t)) as [L3|L3].
  { rewrite (Hlate D eq_refl); [done|]. unfold total. lia. }
  rewrite E3. cbv zeta. rewrite !wrapu_small by (rewrite ?wrapu_small by (rewrite ?wrapu_small by lia; lia); unfold global_time_of in *; lia).
  fold (total ks d p D t). specialize (Hinv D eq_refl Htd).
  rewrite (least_step _ _ 0) by (try (intros; apply total_mono); lia). rewrite Z.eqb_sym.
  destruct (Z.eqb_spec (total ks d p D t) t) as [E|E].
  - assert (latency_b_time (tk_addr d) s = Ret (blocking ks d, s)) as Ebl.
    { apply (latency_b_run s b); [done|done|done|pose proof (bd_requests _ _ _ Hbd); lia|by apply bd_blocking with p]. }
    erewrite run_bind by exact Ebl.
    destruct (Z.ltb_spec (tk_dl d) (blocking ks d)); [done|]. rewrite wrapu_small; [done|].
    assert (0 ≤ blocking ks d); [|lia]. pose proof (longest_nonneg ((λ k, longest (local_sections d k)) <$> filter (lower d) ks)).
    assert (0 ≤ requests d); [|unfold blocking; nia].
    apply sum_filter_nonneg. eapply Forall_impl; [apply Hdok|]. intros u []. lia.
  - rewrite IH; [done|done|done|lia| |lia]. intros D' [= <-] Hle. apply total_mono; lia.
Qed.
End response.

(** C17 In a system whose times have 24 bits, [response_time] returns after at
    most as many turns as the deadline, without a write, and the value is [bound]:
    a value up to the deadline is the blocking more than the least time [r] in
    which the task can be done with itself, the higher tasks of its core, the
    table of its core, the other tasks' requests of its core's resources, and its
    requests of the other core's resources (all that is on them, or each of them in
    turn, what is less). *)
Theorem response_time_correct s b ks d p :
  cores_rep s (tk_cpu d) p → table_ok b (own_table p) → table_ok b (remote_table p) →
  system s ks → d ∈ ks → Forall (task_ok b) ks → 0 ≤ tk_dl d ≤ b → b < 2 ^ 24 → bounded ks d p →
  response_time (tk_addr d) s = Ret (bound ks d p, s) ∧
  (bound ks d p ≤ tk_dl d → ∃ D r, direct ks d p = Some D ∧ bound ks d p = r + blocking ks d ∧
     tk_wcet d ≤ r ∧ total ks d p D r = r ∧ ∀ t, tk_wcet d ≤ t < r → t < total ks d p D t).
Proof.
  intros Hco Hown Hremote Hsys Hin Hok Hdl Hb Hbd.
  pose proof Hsys as [_ Hks _]. eapply Forall_forall in Hks as (dd & Hd & Hdd); [|exact Hin].
  eapply Forall_forall in Hok as Hdok; [|exact Hin]. pose proof (wcet_nonneg b d Hdok) as Hw.
  assert (∀ D, direct ks d p = Some D → ∀ t, 0 ≤ t ≤ tk_dl d → tk_wcet d ≤ total ks d p D t) as Hge.
  { intros D ED t Ht. pose proof (parts b ks d p Hown Hremote Hok Hdl Hbd t Ht).
    pose proof (remote_range b ks d p Hremote Hin Hok Hdl D t ED Ht). unfold total, global_time_of. lia. }
  split.
  - unfold response_time. erewrite run_bind by (by apply run_ctl). pose proof Hdd as (_ & _ & E3 & _ & _ & E6 & _). rewrite E3, E6.
    erewrite (response_loop_run s b) by (done || lia || intros; by eapply Hge). done.
  - unfold bound. destruct (direct ks d p) as [D|] eqn:ED; [|lia].
    pose proof (least_spec (total ks d p D) (tk_dl d) (tk_wcet d)) as Hl. destruct (least _ _ _) as [r|]; [|lia].
    destruct (Z.ltb_spec (tk_dl d) (blocking ks d)); [lia|]. intros _. destruct Hl as (Hr & Hfix & Hno).
    exists D, r. split_and!; [done|done|lia|done|]. intros t Ht.
    (* from the execution time on, [total] is above [t] up to its first fixed point *)
    destruct (Z.lt_trichotomy t (total ks d p D t)) as [?|[E|L]]; [done|by destruct (Hno t Ht)|exfalso].
    pose proof (Hge D eq_refl t ltac:(lia)) as Ht0.
    assert (∀ n, (Z.to_nat (t - tk_wcet d) ≤ n)%nat → tk_wcet d ≤ t < r → total ks d p D t < t → False) as Hdown; [|by eapply Hdown].
    clear L Ht Ht0. intros n. revert t. induction n as [|n IH]; intros t Hn Ht L;
      pose proof (Hge D eq_refl t ltac:(lia)) as Ht0; [lia|].
    pose proof (total_mono b ks d p Hown Hremote Hok Hdl D (total ks d p D t) t ltac:(lia) ltac:(lia)) as Hm.
    assert (total ks d p D (total ks d p D t) ≠ total ks d p D t) by (apply Hno; lia).
    apply (IH (total ks d p D t)); lia.
Qed.

(** ** Two tasks on two cores that share a resource of the second core *)
Module TwoCores.
Definition res (cnt len : Z) : use := mk_use 7 cnt len ACORAL_DPCP_GLOBAL 10.
Definition first : task := mk_task 100 0 10 5 50 100 50 [res 1 2].
Definition second : task := mk_task 200 1 20 8 80 120 80 [res 2 3].
Definition table0 : table := mk_table [(0, 4); (20, 3)] 40.
Definition table1 : table := mk_table [] 100.
Definition both : cores := mk_cores [] table0 [7] table1.

Definition data_of (k : task) (r : Z) : acoral_admis_ctl_data := mk_ctl_data (tk_cpu k) (tk_dl k) (tk_wcet k) (tk_wcrt k) (tk_period k) [r] (tk_prio k) (tk_prio k) 0 0.
Definition mem : admis := {|
  a_ctl := <[100 := data_of first 31]> (<[200 := data_of second 32]> ∅);
  a_res := <[31 := mk_res_data 1 2 4]> (<[32 := mk_res_data 2 3 4]> ∅);
  a_dpcp_var := <[4 := 7]> ∅;
  a_dpcp := <[7 := mk_dpcp_t 1 ACORAL_DPCP_GLOBAL 10 (mk_cache 1 10 ACORAL_DPCP_GLOBAL 2)]> ∅;
  acoral_admis_ctl_queue := [100; 200];
  acoral_dpcp_queue := [[[]; []]; [[]; [7]]];
  acoral_timed_time := [[0; 4; 20; 3]; []];
  acoral_timed_h_period := [40; 100];
  timed_time_sum := [7; 0];
  cpu_load := [];
  cpu_load_list := [];
|}.
End TwoCores.

Lemma response_time_correct_witness :
  response_time 100 TwoCores.mem = Ret (11, TwoCores.mem) ∧
  bound [TwoCores.first; TwoCores.second] TwoCores.first TwoCores.both = 11.
Proof.
  assert (bound [TwoCores.first; TwoCores.second] TwoCores.first TwoCores.both = 11) as E by (vm_compute; reflexivity).
  split; [|exact E]. rewrite <- E.
  assert (use_rep TwoCores.mem 31 (TwoCores.res 1 2)) as U1 by (by do 2 eexists).
  assert (use_rep TwoCores.mem 32 (TwoCores.res 2 3)) as U2 by (by do 2 eexists).
  assert (task_rep TwoCores.mem TwoCores.first) as R1 by (eexists; split; [done|]; split_and!; try done; by repeat constructor).
  assert (task_rep TwoCores.mem TwoCores.second) as R2 by (eexists; split; [done|]; split_and!; try done; by repeat constructor).
  apply (response_time_correct TwoCores.mem 50 [TwoCores.first; TwoCores.second] TwoCores.first TwoCores.both).
  - split; [by left|done|done|done|done|]. repeat constructor. by eexists.
  - split; [repeat constructor; done|repeat constructor; done|done|done].
  - split; [repeat constructor; done|repeat constructor; done|done|done].
  - split; [done|by repeat constructor|repeat constructor; cbn; lia].
  - left.
  - repeat constructor; cbn; try lia; done.
  - cbn. lia.
  - lia.
  - split; [done|done| |done|done]. intros D HD. vm_compute in HD. injection HD as <-. lia.
Defined.
