(* ===== verification/AdmisCtl.v ===== *)
(** * components/tmp/lib/src/admis_ctl.c: the thread of admission control

    The thread goes over the new tasks.  For each one it tries the cores, in the
    order of their load: it gives the task the core and a priority between its
    neighbours, marks its resources, runs the analysis of [Admis], and either
    makes all of it real ([admis_ctl_create]) or takes it back
    ([admis_ctl_restore]).  The threads, the messages between the cores, the
    memory and the stacks of the protocol are the kernel's, modelled in their own
    files; here they are arguments over a state [K]. *)
From S2P Require Import Prelude KTypes Cpu Pcp Floats Admis.
From stdpp Require Import list gmap.
From Stdlib Require Import QArith.
#[local] Open Scope Z_scope.

Definition ACORAL_MAX_PRIO : Z := 1.
Definition FIRST_PRIO : Z := Z.quot (ACORAL_MINI_PRIO + ACORAL_MAX_PRIO + 1) 2.

(** ** Fields *)
Definition set_ct_cpu v d := mk_ctl_data v (dl_time d) (wcet d) (wcrt d) (period_time d) (res_queue d) (ct_prio d) (prio_origin d) (is_new d) (task_id d).
Definition set_res_queue v d := mk_ctl_data (ct_cpu d) (dl_time d) (wcet d) (wcrt d) (period_time d) v (ct_prio d) (prio_origin d) (is_new d) (task_id d).
Definition set_ct_prio v d := mk_ctl_data (ct_cpu d) (dl_time d) (wcet d) (wcrt d) (period_time d) (res_queue d) v (prio_origin d) (is_new d) (task_id d).
Definition set_prio_origin v d := mk_ctl_data (ct_cpu d) (dl_time d) (wcet d) (wcrt d) (period_time d) (res_queue d) (ct_prio d) v (is_new d) (task_id d).
Definition set_is_new v d := mk_ctl_data (ct_cpu d) (dl_time d) (wcet d) (wcrt d) (period_time d) (res_queue d) (ct_prio d) (prio_origin d) v (task_id d).
Definition set_task_id v d := mk_ctl_data (ct_cpu d) (dl_time d) (wcet d) (wcrt d) (period_time d) (res_queue d) (ct_prio d) (prio_origin d) (is_new d) v.

Definition set_cpu_is_bind v k := mk_cache v (ceiling_cache k) (type_cache k) (bind_cnt k).
Definition set_ceiling_cache v k := mk_cache (cpu_is_bind k) v (type_cache k) (bind_cnt k).
Definition set_type_cache v k := mk_cache (cpu_is_bind k) (ceiling_cache k) v (bind_cnt k).
Definition set_bind_cnt v k := mk_cache (cpu_is_bind k) (ceiling_cache k) (type_cache k) v.

Definition set_dp_core v x := mk_dpcp_t v (dp_type x) (dp_prio_ceiling x) (dp_cache x).
Definition set_dp_attr ty ceiling x := mk_dpcp_t (dp_cpu x) ty ceiling (dp_cache x).
Definition set_dp_cache v x := mk_dpcp_t (dp_cpu x) (dp_type x) (dp_prio_ceiling x) v.

Definition set_a_res v s := mk_admis (a_ctl s) v (a_dpcp_var s) (a_dpcp s) (acoral_admis_ctl_queue s) (acoral_dpcp_queue s) (acoral_timed_time s) (acoral_timed_h_period s) (timed_time_sum s) (cpu_load s) (cpu_load_list s).
Definition set_a_dpcp_var v s := mk_admis (a_ctl s) (a_res s) v (a_dpcp s) (acoral_admis_ctl_queue s) (acoral_dpcp_queue s) (acoral_timed_time s) (acoral_timed_h_period s) (timed_time_sum s) (cpu_load s) (cpu_load_list s).
Definition set_a_dpcp v s := mk_admis (a_ctl s) (a_res s) (a_dpcp_var s) v (acoral_admis_ctl_queue s) (acoral_dpcp_queue s) (acoral_timed_time s) (acoral_timed_h_period s) (timed_time_sum s) (cpu_load s) (cpu_load_list s).
Definition set_ctl_queue v s := mk_admis (a_ctl s) (a_res s) (a_dpcp_var s) (a_dpcp s) v (acoral_dpcp_queue s) (acoral_timed_time s) (acoral_timed_h_period s) (timed_time_sum s) (cpu_load s) (cpu_load_list s).
Definition set_dpcp_queue v s := mk_admis (a_ctl s) (a_res s) (a_dpcp_var s) (a_dpcp s) (acoral_admis_ctl_queue s) v (acoral_timed_time s) (acoral_timed_h_period s) (timed_time_sum s) (cpu_load s) (cpu_load_list s).
Definition set_cpu_load v s := mk_admis (a_ctl s) (a_res s) (a_dpcp_var s) (a_dpcp s) (acoral_admis_ctl_queue s) (acoral_dpcp_queue s) (acoral_timed_time s) (acoral_timed_h_period s) (timed_time_sum s) v (cpu_load_list s).

Definition on_ctl (p : Z) (f : acoral_admis_ctl_data → acoral_admis_ctl_data) : A unit :=
  d ← ctl_at p; modify (λ s, set_a_ctl (<[p := f d]> (a_ctl s)) s).
Definition on_dpcp (p : Z) (f : acoral_dpcp_t → acoral_dpcp_t) : A unit :=
  x ← dpcp_at p; modify (λ s, set_a_dpcp (<[p := f x]> (a_dpcp s)) s).
Definition on_cache (p : Z) (f : admis_res_cache → admis_res_cache) : A unit :=
  on_dpcp p (λ x, set_dp_cache (f (dp_cache x)) x).

(** ** The queues of resources, by type and core *)
Definition queue_at (ty cpu : Z) : A (list Z) := deref (λ s, l ← aget (acoral_dpcp_queue s) ty; aget l cpu).

Definition queued (p : Z) (qs : list (list (list Z))) : bool := existsb (existsb (existsb (Z.eqb p))) qs.

(** A node that is in a queue already would be in two. *)
Definition queue_add (ty cpu p : Z) : A unit := λ s,
  match l ← aget (acoral_dpcp_queue s) ty; q ← aget l cpu; Some (l, q) with
  | Some (l, q) =>
      if queued p (acoral_dpcp_queue s) then Err Wild
      else Ret (tt, set_dpcp_queue (aset ty (aset cpu (p :: q) l) (acoral_dpcp_queue s)) s)
  | None => Err Wild
  end.

(** The node leaves the queue it is in, whatever queue is given; one that is in
    none is its own neighbour, whose lock is taken twice. *)
Definition unlink (p : Z) : A unit := λ s,
  if queued p (acoral_dpcp_queue s)
  then Ret (tt, set_dpcp_queue (map (map (filter (λ x, x ≠ p))) (acoral_dpcp_queue s)) s)
  else Err Deadlock.
Definition queue_del (ty cpu p : Z) : A unit := _ ← queue_at ty cpu; unlink p.

(** ** Load *)
Definition load_at (row cpu : Z) : A Q := deref (λ s, l ← aget (cpu_load s) row; aget l cpu).
Definition set_load (row cpu : Z) (q : Q) : A unit := λ s,
  match aget (cpu_load s) row with
  | Some l => Ret (tt, set_cpu_load (aset row (aset cpu q l) (cpu_load s)) s)
  | None => Err Wild
  end.
(** [cpu_load[CPU_LOAD_THIS][cpu] += x] *)
Definition add_load (cpu : Z) (x : Q) : A unit :=
  v ← load_at CPU_LOAD_THIS cpu; set_load CPU_LOAD_THIS cpu (fl (v + x)).

(** ** The try of a core: priority *)

(** The neighbours of a task in the queue. *)
Fixpoint neighbours (c : Z) (prev : option Z) (q : list Z) : option (option Z * option Z) :=
  match q with
  | [] => None
  | x :: q => if x =? c then Some (prev, head q) else neighbours c (Some x) q
  end.

Definition middle_prio (c : Z) : A Z :=
  '(prev, next) ← deref (λ s, neighbours c None (acoral_admis_ctl_queue s));
  match prev, next with
  | None, Some n => n ← ctl_at n; mret (u8 (Z.quot (ACORAL_MAX_PRIO + 1 + ct_prio n) 2))
  | None, None => fail Wild
  | Some p, None => p ← ctl_at p; mret (u8 (Z.quot (ct_prio p + ACORAL_MINI_PRIO) 2))
  | Some p, Some n => p ← ctl_at p; n ← ctl_at n; mret (u8 (Z.quot (ct_prio p + ct_prio n) 2))
  end.

(** ** The try of a core: resources *)
Definition bind_core (d : acoral_admis_ctl_data) (r : acoral_admis_res_data) (p : Z) : A unit :=
  x ← dpcp_at p;
  if dp_cpu x =? UNBIND_CPU then
    on_dpcp p (set_dp_core (ct_cpu d));; queue_add ACORAL_DPCP_LOCAL (ct_cpu d) p
  else if negb (ct_cpu d =? dp_cpu x) then
    on_cache p (set_type_cache ACORAL_DPCP_GLOBAL);;
    u ← u_g_time (rd_dpcp r);
    add_load (dp_cpu x) u;;
    queue_del ACORAL_DPCP_LOCAL (dp_cpu x) p;;
    queue_add ACORAL_DPCP_GLOBAL (dp_cpu x) p
  else mret tt.

Definition bind_load (d : acoral_admis_ctl_data) (r : acoral_admis_res_data) (p : Z) : A unit :=
  x ← dpcp_at p;
  if type_cache (dp_cache x) =? ACORAL_DPCP_GLOBAL then
    y ← deref (λ _, fl_div (fl_of (use_time r)) (fl_of (period_time d)));
    add_load (ct_cpu d) (- y)%Q
  else mret tt.

Definition bind_res (d : acoral_admis_ctl_data) (r : Z) : A unit :=
  r ← res_at r;
  p ← dpcp_var r;
  bind_core d r p;;
  x ← dpcp_at p;
  when (ct_prio d <? ceiling_cache (dp_cache x)) (on_cache p (set_ceiling_cache (ct_prio d)));;
  bind_load d r p.

Fixpoint bind_all (d : acoral_admis_ctl_data) (rs : list Z) : A unit :=
  match rs with [] => mret tt | r :: rs => bind_res d r;; bind_all d rs end.

(** The analysis, with the task not new. *)
Definition judge (c : Z) : A bool :=
  on_ctl c (set_is_new 0);;
  admis_ok ← schedule_ansys;
  on_ctl c (set_is_new 1);;
  mret admis_ok.

(** ** [admis_ctl_restore] *)
Definition restore_core (p : Z) : A unit :=
  x ← dpcp_at p;
  when (cpu_is_bind (dp_cache x) =? 0) (queue_del ACORAL_DPCP_LOCAL (dp_cpu x) p;; on_dpcp p (set_dp_core UNBIND_CPU)).

Definition restore_type (p : Z) : A unit :=
  x ← dpcp_at p;
  when (negb (type_cache (dp_cache x) =? dp_type x))
    (queue_del (type_cache (dp_cache x)) (dp_cpu x) p;;
     on_cache p (set_type_cache (dp_type x));;
     queue_add (dp_type x) (dp_cpu x) p).

Definition restore_res (r : Z) : A unit :=
  r ← res_at r;
  p ← dpcp_var r;
  restore_core p;;
  x ← dpcp_at p;
  when (0 <? bind_cnt (dp_cache x))
    (when (negb (ceiling_cache (dp_cache x) =? dp_prio_ceiling x)) (on_cache p (set_ceiling_cache (dp_prio_ceiling x)));;
     restore_type p).

Fixpoint restore_all (rs : list Z) : A unit :=
  match rs with [] => mret tt | r :: rs => restore_res r;; restore_all rs end.

Fixpoint restore_tasks (cs : list Z) : A unit :=
  match cs with
  | [] => mret tt
  | c :: cs =>
      d ← ctl_at c;
      when (negb (ct_prio d =? prio_origin d))
        (on_ctl c (set_ct_prio (prio_origin d));; restore_all (res_queue d));;
      restore_tasks cs
  end.

(** The loads of all cores, from one row to the other. *)
Fixpoint copy_loads (n : nat) (from to i : Z) : A unit :=
  match n with
  | O => mret tt
  | S n =>
      x ← load_at from i;
      y ← load_at to i;
      when (negb (Qeq_bool x y)) (set_load to i x);;
      copy_loads n from to (i + 1)
  end.

Definition admis_ctl_restore : A unit :=
  q ← get acoral_admis_ctl_queue;
  restore_tasks (reverse q);;
  copy_loads (Z.to_nat CFG_MAX_CPU) CPU_LOAD_LAST CPU_LOAD_THIS 0.

(** ** The thread and the kernel *)
Record ctl (K : Type) : Type := mk_ctl {
  c_admis : admis;
  acoral_have_new_thread : Z;
  task_cnt : Z;
  first_thread : Z;
  this_is_first : Z;
  c_kernel : K;
}.
Arguments mk_ctl {K}. Arguments c_admis {K}. Arguments acoral_have_new_thread {K}. Arguments task_cnt {K}.
Arguments first_thread {K}. Arguments this_is_first {K}. Arguments c_kernel {K}.

Section thread.
Context {K : Type}.

Definition set_have_new v (s : ctl K) := mk_ctl (c_admis s) v (task_cnt s) (first_thread s) (this_is_first s) (c_kernel s).
Definition set_task_cnt v (s : ctl K) := mk_ctl (c_admis s) (acoral_have_new_thread s) v (first_thread s) (this_is_first s) (c_kernel s).
Definition set_first_thread v (s : ctl K) := mk_ctl (c_admis s) (acoral_have_new_thread s) (task_cnt s) v (this_is_first s) (c_kernel s).
Definition set_this_is_first v (s : ctl K) := mk_ctl (c_admis s) (acoral_have_new_thread s) (task_cnt s) (first_thread s) v (c_kernel s).

Definition ladmis : lens (ctl K) admis :=
  Lens c_admis (λ a s, mk_ctl a (acoral_have_new_thread s) (task_cnt s) (first_thread s) (this_is_first s) (c_kernel s)).
Definition lkernel : lens (ctl K) K :=
  Lens c_kernel (λ k s, mk_ctl (c_admis s) (acoral_have_new_thread s) (task_cnt s) (first_thread s) (this_is_first s) k).
Definition ad {X} (m : A X) : M (ctl K) X := zoom ladmis m.
Definition kern {X} (m : M K X) : M (ctl K) X := zoom lkernel m.

(** [acoral_create_thread] with the task's data and the periodic policy's;
    [acoral_thread_change_prio_by_id]; [acoral_ipi_cmd_send]; what
    [acoral_dpcp_set] does to the stacks of the protocol, with the answer whether
    it moves the resource between the queues; [acoral_dpcp_create] without the
    fields above, and the cache's memory; [acoral_dpcp_del]; [acoral_free]. *)
Context (acoral_create_thread : acoral_admis_ctl_data → M K Z).
Context (acoral_thread_change_prio_by_id : Z → Z → M K unit).
Context (acoral_ipi_cmd_send : Z → Z → Z → Z → M K unit).
Context (stack_set : Z → Z → Z → M K bool).
Context (dpcp_alloc : M K Z).
Context (acoral_dpcp_del : Z → M K unit).
Context (acoral_free : Z → M K unit).
Context (acoral_current_cpu : Z).

Abbreviation C := (M (ctl K)).

Definition acoral_admis_ctl_change_prio (ctl_data : Z) : C unit :=
  d ← ad (ctl_at ctl_data); kern (acoral_thread_change_prio_by_id (task_id d) (ct_prio d)).

(** [acoral_dpcp_set] *)
Definition dpcp_set (p ty ceiling : Z) : C unit :=
  x ← ad (dpcp_at p);
  moved ← kern (stack_set p ty ceiling);
  when moved (ad (queue_del (dp_type x) (dp_cpu x) p;; queue_add ty (dp_cpu x) p));;
  ad (on_dpcp p (set_dp_attr ty ceiling)).

Definition acoral_admis_ctl_change_res (res_data : Z) : C unit :=
  r ← ad (res_at res_data);
  p ← ad (dpcp_var r);
  x ← ad (dpcp_at p);
  dpcp_set p (type_cache (dp_cache x)) (ceiling_cache (dp_cache x)).

Definition create_res (c r : Z) : C unit :=
  rd ← ad (res_at r);
  p ← ad (dpcp_var rd);
  x ← ad (dpcp_at p);
  when (cpu_is_bind (dp_cache x) =? 0) (ad (on_cache p (set_cpu_is_bind 1)));;
  when (negb (ceiling_cache (dp_cache x) =? dp_prio_ceiling x) || negb (type_cache (dp_cache x) =? dp_type x))
    (if dp_cpu x =? acoral_current_cpu then acoral_admis_ctl_change_res r
     else d ← ad (ctl_at c); kern (acoral_ipi_cmd_send (dp_cpu x) ACORAL_IPI_ADMIS_CHG_RES (task_id d) r)).

Fixpoint create_all (c : Z) (rs : list Z) : C unit :=
  match rs with [] => mret tt | r :: rs => create_res c r;; create_all c rs end.

Definition create_task (c : Z) : C unit :=
  d ← ad (ctl_at c);
  ad (on_ctl c (set_prio_origin (ct_prio d)));;
  (if negb (is_new d =? 0) then
     d ← ad (ctl_at c);
     id ← kern (acoral_create_thread d);
     ad (on_ctl c (set_task_id id));;
     ad (on_ctl c (set_is_new 0))
   else if ct_cpu d =? acoral_current_cpu then acoral_admis_ctl_change_prio c
   else kern (acoral_ipi_cmd_send (ct_cpu d) ACORAL_IPI_ADMIS_CHG_PRIO (task_id d) c));;
  create_all c (res_queue d).

Fixpoint create_tasks (cs : list Z) : C unit :=
  match cs with
  | [] => mret tt
  | c :: cs =>
      d ← ad (ctl_at c);
      when (negb (ct_prio d =? prio_origin d)) (create_task c);;
      create_tasks cs
  end.

Definition admis_ctl_create : C unit :=
  q ← ad (get acoral_admis_ctl_queue);
  create_tasks (reverse q);;
  ad (copy_loads (Z.to_nat CFG_MAX_CPU) CPU_LOAD_THIS CPU_LOAD_LAST 0).

(** ** [acoral_admis_ctl_task] *)

Definition give_prio (c : Z) : C unit :=
  first ← get first_thread;
  if negb (first =? 0) then
    ad (on_ctl c (set_ct_prio FIRST_PRIO));; modify (set_this_is_first 1);; modify (set_first_thread 0)
  else p ← ad (middle_prio c); ad (on_ctl c (set_ct_prio p)).

(** One core for the task [c]: true when it is accepted. *)
Definition try_core (c cpu : Z) : C bool :=
  ad (on_ctl c (set_ct_cpu cpu));;
  d ← ad (ctl_at c);
  y ← ad (deref (λ _, fl_div (fl_of (wcet d)) (fl_of (period_time d))));
  ad (add_load cpu y);;
  give_prio c;;
  d ← ad (ctl_at c);
  ad (bind_all d (res_queue d));;
  admis_ok ← ad (judge c);
  if (admis_ok : bool) then modify (set_this_is_first 0);; admis_ctl_create;; mret true
  else
    first ← get this_is_first;
    when (negb (first =? 0)) (modify (set_this_is_first 0);; modify (set_first_thread 1));;
    ad admis_ctl_restore;;
    mret false.

Fixpoint try_cores (n : nat) (i c : Z) : C unit :=
  match n with
  | O => mret tt
  | S n =>
      cpu ← ad (deref (λ s, aget (cpu_load_list s) i));
      ok ← try_core c cpu;
      if (ok : bool) then mret tt else try_cores n (i + 1) c
  end.

(** A task without a core leaves, with its uses; a resource nobody uses any more
    leaves too. *)
Definition drop_res (r : Z) : C unit :=
  rd ← ad (res_at r);
  p ← ad (dpcp_var rd);
  x ← ad (dpcp_at p);
  when (0 <? bind_cnt (dp_cache x)) (ad (on_cache p (set_bind_cnt (bind_cnt (dp_cache x) - 1))));;
  x ← ad (dpcp_at p);
  when (bind_cnt (dp_cache x) =? 0)
    (when (cpu_is_bind (dp_cache x) =? 1)
       (ad (queue_del ACORAL_DPCP_LOCAL (dp_cpu x) p);; ad (on_dpcp p (set_dp_core UNBIND_CPU)));;
     kern (acoral_dpcp_del p);;
     ad (modify (λ s, set_a_dpcp (delete p (a_dpcp s)) s));;
     ad (modify (λ s, set_a_dpcp_var (<[rd_dpcp rd := 0]> (a_dpcp_var s)) s)));;
  ad (modify (λ s, set_a_res (delete r (a_res s)) s));;
  kern (acoral_free r).

Fixpoint drop_all (rs : list Z) : C unit :=
  match rs with [] => mret tt | r :: rs => drop_res r;; drop_all rs end.

Definition drop_task (c : Z) : C unit :=
  modify (λ s, set_task_cnt (u8 (task_cnt s - 1)) s);;
  d ← ad (ctl_at c);
  drop_all (res_queue d);;
  ad (modify (λ s, set_ctl_queue (filter (λ x, x ≠ c) (acoral_admis_ctl_queue s)) s));;
  ad (modify (λ s, set_a_ctl (delete c (a_ctl s)) s));;
  kern (acoral_free c).

Definition new_task (c : Z) : C unit :=
  modify (λ s, set_task_cnt (u8 (task_cnt s + 1)) s);;
  ad cpu_load_list_update;;
  try_cores (Z.to_nat CFG_MAX_CPU) 0 c;;
  d ← ad (ctl_at c);
  when (negb (is_new d =? 0)) (drop_task c).

Fixpoint new_tasks (cs : list Z) : C unit :=
  match cs with
  | [] => mret tt
  | c :: cs =>
      d ← ad (ctl_at c);
      when (negb (is_new d =? 0)) (new_task c);;
      new_tasks cs
  end.

Definition acoral_admis_ctl_task : C unit :=
  n ← get acoral_have_new_thread;
  when (negb (n =? 0))
    (q ← ad (get acoral_admis_ctl_queue);
     new_tasks (reverse q);;
     modify (set_have_new 0)).

(** ** Entry of a task and of its uses *)

(** [acoral_prio_queue_add] by the deadline. *)
Fixpoint by_deadline (v c : Z) (q : list Z) : A (list Z) :=
  match q with
  | [] => mret [c]
  | x :: q' =>
      d ← ctl_at x;
      if v <? s32 (dl_time d) then mret (c :: q)
      else l ← by_deadline v c q'; mret (x :: l)
  end.

Definition acoral_admis_ctl_data_init (data dl wc period : Z) : A unit :=
  d ← ctl_at data;
  modify (λ s, set_a_ctl (<[data := mk_ctl_data (ct_cpu d) dl wc dl period [] ACORAL_MINI_PRIO ACORAL_MINI_PRIO 1 (task_id d)]> (a_ctl s)) s);;
  q ← get acoral_admis_ctl_queue;
  l ← by_deadline (s32 dl) data q;
  modify (set_ctl_queue l).

Definition acoral_admis_res_data_init (ctl_data res_data dpcp critical length : Z) : C unit :=
  v ← ad (deref (λ s, a_dpcp_var s !! dpcp));
  when (v =? 0)
    (p ← kern dpcp_alloc;
     ad (modify (λ s, set_a_dpcp_var (<[dpcp := p]> (a_dpcp_var s)) s));;
     ad (modify (λ s, set_a_dpcp (<[p := mk_dpcp_t UNBIND_CPU ACORAL_DPCP_LOCAL ACORAL_MAX_PRIO_NUM
       (mk_cache 0 ACORAL_MAX_PRIO_NUM ACORAL_DPCP_LOCAL 0)]> (a_dpcp s)) s)));;
  p ← ad (deref (λ s, a_dpcp_var s !! dpcp));
  ad (modify (λ s, set_a_res (<[res_data := mk_res_data critical length dpcp]> (a_res s)) s));;
  ad (on_cache p (λ k, set_bind_cnt (u8 (bind_cnt k + 1)) k));;
  ad (on_ctl ctl_data (λ d, set_res_queue (res_data :: res_queue d) d)).
End thread.
