(* ===== verification/AdmisUndo.v ===== *)
(** * Taking back a try of admission control

    The analysis writes nothing but response times.  When it refuses a task on a
    core, [admis_ctl_restore] puts the task's resources back as they were: their
    cores, types, ceilings and queues, and the loads. *)
From S2P Require Import Prelude KTypes Pcp Floats Admis AdmisSpec AdmisCtl.
From stdpp Require Import list gmap.
From Stdlib Require Import QArith.
#[local] Open Scope Z_scope.

(** ** Functions that only read *)
Definition reader {X} (m : A X) : Prop := ∀ s x s', m s = Ret (x, s') → s' = s.

Lemma reader_ret {X} (x : X) : reader (mret x).
Proof. by intros s y s' [= _ <-]. Qed.
Lemma reader_fail {X} e : reader (X:=X) (fail e).
Proof. intros s y s' [=]. Qed.
Lemma reader_get {X} (f : admis → X) : reader (get f).
Proof. by intros s y s' [= _ <-]. Qed.
Lemma reader_deref {X} (f : admis → option X) : reader (deref f).
Proof. intros s y s'. unfold deref. destruct (f s); [by intros [= _ <-]|done]. Qed.
Lemma reader_bind {X Y} (m : A X) (k : X → A Y) : reader m → (∀ x, reader (k x)) → reader (x ← m; k x).
Proof.
  intros Hm Hk s y s'. unfold mbind, M_bind. destruct (m s) as [[x s1]|] eqn:E; [|done]. rewrite (Hm _ _ _ E). apply Hk.
Qed.

Create HintDb reader.
#[export] Hint Resolve reader_ret reader_fail reader_get reader_deref : reader.
Ltac reader := repeat first [apply reader_bind; [|intros] | solve [eauto with reader] | case_match].

Lemma reader_ctl p : reader (ctl_at p).  Proof. apply reader_deref. Qed.
Lemma reader_res p : reader (res_at p).  Proof. apply reader_deref. Qed.
Lemma reader_var r : reader (dpcp_var r).  Proof. apply reader_deref. Qed.
Lemma reader_dpcp p : reader (dpcp_at p).  Proof. apply reader_deref. Qed.
Lemma reader_queue c : reader (global_queue c).  Proof. apply reader_deref. Qed.
#[export] Hint Resolve reader_ctl reader_res reader_var reader_dpcp reader_queue : reader.
Lemma reader_cache r : reader (cache_of r).
Proof. unfold cache_of. reader. Qed.
Lemma reader_interference t r c p ret : reader (interference t r c p ret).
Proof. unfold interference. reader. Qed.
#[export] Hint Resolve reader_cache reader_interference : reader.

(** A loop over a list, by induction. *)
Ltac reader_loop l := induction l; intros; cbn; reader.

Lemma reader_b_global rs : ∀ n, reader (b_global rs n).  Proof. reader_loop rs. Qed.
Lemma reader_b_local rs : ∀ p m, reader (b_local rs p m).  Proof. reader_loop rs. Qed.
#[export] Hint Resolve reader_b_global reader_b_local : reader.
Lemma reader_b_tasks cs : ∀ c p m, reader (b_tasks cs c p m).  Proof. reader_loop cs. Qed.
#[export] Hint Resolve reader_b_tasks : reader.
Lemma reader_latency_b d : reader (latency_b_time d).  Proof. unfold latency_b_time. reader. Qed.

Lemma reader_ng_time rs : ∀ c, reader (ng_time rs c).  Proof. reader_loop rs. Qed.
#[export] Hint Resolve reader_ng_time : reader.
Lemma reader_ng_tasks cs : ∀ t c p r, reader (ng_tasks cs t c p r).  Proof. reader_loop cs. Qed.
#[export] Hint Resolve reader_ng_tasks : reader.
Lemma reader_latency_ng t d : reader (latency_ng_time t d).  Proof. unfold latency_ng_time. reader. Qed.

(** Two entries at a turn. *)
Lemma pairs_ind {B} (P : list B → Prop) : P [] → (∀ x, P [x]) → (∀ x y l, P l → P (x :: y :: l)) → ∀ l, P l.
Proof. intros H0 H1 H2. fix IH 1. intros [|x [|y l]]; [done|apply H1|apply H2, IH]. Qed.

Lemma reader_eps_loop l : ∀ t r, reader (eps_loop l t r).
Proof. induction l using pairs_ind; intros; cbn; reader. Qed.
#[export] Hint Resolve reader_eps_loop : reader.
Lemma reader_epsilon t c : reader (epsilon t c).  Proof. unfold epsilon. reader. Qed.
#[export] Hint Resolve reader_epsilon : reader.
Lemma reader_t_loop l : ∀ t c s h m, reader (t_loop l t c s h m).
Proof. induction l using pairs_ind; intros; cbn; reader. Qed.
#[export] Hint Resolve reader_t_loop : reader.
Lemma reader_latency_t t c : reader (latency_t_time t c).  Proof. unfold latency_t_time. reader. Qed.
#[export] Hint Resolve reader_latency_b reader_latency_ng reader_latency_t : reader.

Lemma reader_h_uses rs : ∀ dp h w p r, reader (h_uses rs dp h w p r).  Proof. reader_loop rs. Qed.
#[export] Hint Resolve reader_h_uses : reader.
Lemma reader_h_tasks cs : ∀ dp p h r, reader (h_tasks cs dp p h r).  Proof. reader_loop cs. Qed.
#[export] Hint Resolve reader_h_tasks : reader.
Lemma reader_h_dpcps ds : ∀ cs p h r, reader (h_dpcps ds cs p h r).  Proof. reader_loop ds. Qed.
#[export] Hint Resolve reader_h_dpcps : reader.
Lemma reader_h_loop n : ∀ st c p e ds cs h, reader (h_loop n st c p e ds cs h).  Proof. reader_loop n. Qed.
#[export] Hint Resolve reader_h_loop : reader.
Lemma reader_h_g st c d : reader (h_g_time st c d).  Proof. unfold h_g_time. reader. Qed.
#[export] Hint Resolve reader_h_g : reader.

Lemma reader_other_uses rs : ∀ dp t w p r, reader (other_uses rs dp t w p r).  Proof. reader_loop rs. Qed.
#[export] Hint Resolve reader_other_uses : reader.
Lemma reader_own_tasks cs : ∀ d dp t r, reader (own_tasks cs d dp t r).  Proof. reader_loop cs. Qed.
#[export] Hint Resolve reader_own_tasks : reader.
Lemma reader_own_dpcps ds : ∀ cs d t r, reader (own_dpcps ds cs d t r).  Proof. reader_loop ds. Qed.
Lemma reader_uses_flag rs : ∀ dp f, reader (uses_flag rs dp f).  Proof. reader_loop rs. Qed.
#[export] Hint Resolve reader_own_dpcps reader_uses_flag : reader.
Lemma reader_flag_dpcps ds : ∀ rs f, reader (flag_dpcps ds rs f).  Proof. reader_loop ds. Qed.
Lemma reader_this_uses rs : ∀ dp r, reader (this_uses rs dp r).  Proof. reader_loop rs. Qed.
#[export] Hint Resolve reader_flag_dpcps reader_this_uses : reader.
Lemma reader_pd_tasks cs : ∀ d dp t r, reader (pd_tasks cs d dp t r).  Proof. reader_loop cs. Qed.
#[export] Hint Resolve reader_pd_tasks : reader.
Lemma reader_pd_dpcps ds : ∀ cs d t r, reader (pd_dpcps ds cs d t r).  Proof. reader_loop ds. Qed.
Lemma reader_this_use rs : ∀ dp n l, reader (this_use rs dp n l).  Proof. reader_loop rs. Qed.
Lemma reader_l_uses rs : ∀ dp p m, reader (l_uses rs dp p m).  Proof. reader_loop rs. Qed.
#[export] Hint Resolve reader_pd_dpcps reader_this_use reader_l_uses : reader.
Lemma reader_l_tasks cs : ∀ dp p m, reader (l_tasks cs dp p m).  Proof. reader_loop cs. Qed.
#[export] Hint Resolve reader_l_tasks : reader.
Lemma reader_l_dpcps ds : ∀ cs c p m, reader (l_dpcps ds cs c p m).  Proof. reader_loop ds. Qed.
#[export] Hint Resolve reader_l_dpcps : reader.
Lemma reader_dd_dpcps ds : ∀ all cs c p d x, reader (dd_dpcps ds all cs c p d x).  Proof. reader_loop ds. Qed.
#[export] Hint Resolve reader_dd_dpcps : reader.
Lemma reader_g_cpus n : ∀ i t p d cs r f pd x, reader (g_cpus n i t p d cs r f pd x).  Proof. reader_loop n. Qed.
#[export] Hint Resolve reader_g_cpus : reader.
Lemma reader_latency_g t d : reader (latency_g_time t d).  Proof. unfold latency_g_time. reader. Qed.
#[export] Hint Resolve reader_latency_g : reader.
Lemma reader_response_loop n : ∀ p d r, reader (response_loop n p d r).  Proof. reader_loop n. Qed.
#[export] Hint Resolve reader_response_loop : reader.
Lemma reader_response p : reader (response_time p).  Proof. unfold response_time. reader. Qed.

(** ** The queues of resources *)

(** Two types, two cores. *)
Definition shape {B} (qs : list (list B)) : Prop := ∃ a b c d, qs = [[a; b]; [c; d]].

Definition member (qs : list (list (list Z))) (ty c p : Z) : Prop := ∃ l q, aget qs ty = Some l ∧ aget l c = Some q ∧ p ∈ q.

(** Where a resource is, and where it belongs: nowhere without a core. *)
Definition at_place (qs : list (list (list Z))) (p : Z) (o : option (Z * Z)) : Prop := ∀ ty c, member qs ty c p ↔ o = Some (ty, c).
Definition place_of (x : acoral_dpcp_t) : option (Z * Z) :=
  if dp_cpu x =? UNBIND_CPU then None else Some (type_cache (dp_cache x), dp_cpu x).

(** Only [p] changes its place. *)
Definition moved (qs qs' : list (list (list Z))) (p : Z) (o : option (Z * Z)) : Prop :=
  shape qs' ∧ at_place qs' p o ∧ ∀ p', p' ≠ p → ∀ ty c, member qs' ty c p' ↔ member qs ty c p'.

Lemma moved_trans q1 q2 q3 p o o' : moved q1 q2 p o → moved q2 q3 p o' → moved q1 q3 p o'.
Proof. intros (_ & _ & H12) (S3 & A3 & H23). split_and!; [done|done|]. intros p' Hp ty c. by rewrite H23, H12. Qed.

Lemma moved_refl qs p o : shape qs → at_place qs p o → moved qs qs p o.
Proof. intros Hs Ha. split; [done|]. split; [done|]. intros p' _ ty c. reflexivity. Qed.

Lemma aget_two {B} (x y z : B) i : aget [x; y] i = Some z ↔ (i = 0 ∧ z = x) ∨ (i = 1 ∧ z = y).
Proof.
  split.
  - intros Hi. pose proof (aget_lt _ _ _ Hi) as Hr. cbn in Hr. assert (i = 0 ∨ i = 1) as [-> | ->] by lia; cbn in Hi; naive_solver.
  - by intros [[-> ->]|[-> ->]].
Qed.

Lemma member_shape a b c d ty cpu p :
  member [[a; b]; [c; d]] ty cpu p ↔
  (ty = 0 ∧ cpu = 0 ∧ p ∈ a) ∨ (ty = 0 ∧ cpu = 1 ∧ p ∈ b) ∨ (ty = 1 ∧ cpu = 0 ∧ p ∈ c) ∨ (ty = 1 ∧ cpu = 1 ∧ p ∈ d).
Proof.
  unfold member. split.
  - intros (l & q & Hl & Hq & Hp). apply aget_two in Hl as [[-> ->]|[-> ->]]; apply aget_two in Hq as [[-> ->]|[-> ->]]; naive_solver.
  - intros [(-> & -> & Hp)|[(-> & -> & Hp)|[(-> & -> & Hp)|(-> & -> & Hp)]]]; by do 2 eexists.
Qed.

Lemma existsb_eqb p l : existsb (Z.eqb p) l = true ↔ p ∈ l.
Proof.
  rewrite existsb_exists, list_elem_of_In. split; [|by exists p; rewrite Z.eqb_refl]. by intros (x & Hx & <-%Z.eqb_eq).
Qed.

Lemma queued_spec qs p : shape qs → queued p qs = true ↔ ∃ ty c, member qs ty c p.
Proof.
  intros (a & b & c & d & ->). unfold queued. cbn [existsb]. rewrite !orb_true_iff, !existsb_eqb. split.
  - intros H. assert (p ∈ a ∨ p ∈ b ∨ p ∈ c ∨ p ∈ d) as Hp by naive_solver.
    destruct Hp as [Hp|[Hp|[Hp|Hp]]]; [exists 0, 0|exists 0, 1|exists 1, 0|exists 1, 1]; apply member_shape; naive_solver.
  - intros (ty & cpu & Hm%member_shape). naive_solver.
Qed.

Definition is_core (c : Z) : Prop := c = 0 ∨ c = 1.

Lemma queue_add_run s ty c p :
  shape (acoral_dpcp_queue s) → at_place (acoral_dpcp_queue s) p None → is_core ty → is_core c →
  ∃ qs, queue_add ty c p s = Ret (tt, set_dpcp_queue qs s) ∧ moved (acoral_dpcp_queue s) qs p (Some (ty, c)).
Proof.
  intros Hs Hat Hty Hc. pose proof (queued_spec _ p Hs) as Hq. unfold queue_add.
  assert (queued p (acoral_dpcp_queue s) = false) as E.
  { apply not_true_is_false. rewrite Hq. intros (ty' & c' & Hm). by apply Hat in Hm. }
  rewrite E. assert (∃ qs, match l ← aget (acoral_dpcp_queue s) ty; q ← aget l c; Some (l, q) with
      | Some (l, q) => Ret (tt, set_dpcp_queue (aset ty (aset c (p :: q) l) (acoral_dpcp_queue s)) s) | None => Err Wild end =
      Ret (tt, set_dpcp_queue qs s) ∧ shape qs ∧
      ∀ ty' c' p', member qs ty' c' p' ↔ member (acoral_dpcp_queue s) ty' c' p' ∨ (ty' = ty ∧ c' = c ∧ p' = p)) as (qs & Hrun & Hs' & Hm).
  { destruct Hs as (x & y & z & w & Eq). rewrite Eq. destruct Hty as [-> | ->], Hc as [-> | ->];
      [exists [[p :: x; y]; [z; w]]|exists [[x; p :: y]; [z; w]]|exists [[x; y]; [p :: z; w]]|exists [[x; y]; [z; p :: w]]];
      (split; [reflexivity|split; [by do 4 eexists|]]); intros ty' c' p'; rewrite !member_shape, elem_of_cons; tauto. }
  exists qs. split; [exact Hrun|]. split; [done|]. split.
  - intros ty' c'. rewrite Hm, (Hat ty' c'). split; [by intros [?|(-> & -> & _)]|]. intros [= -> ->]. by right.
  - intros p' Hp ty' c'. rewrite Hm. tauto.
Qed.

Lemma queue_del_run s ty c p o :
  shape (acoral_dpcp_queue s) → at_place (acoral_dpcp_queue s) p (Some o) → is_core ty → is_core c →
  ∃ qs, queue_del ty c p s = Ret (tt, set_dpcp_queue qs s) ∧ moved (acoral_dpcp_queue s) qs p None.
Proof.
  intros Hs Hat Hty Hc. pose proof (queued_spec _ p Hs) as Hq. unfold queue_del, queue_at, unlink.
  assert (queued p (acoral_dpcp_queue s) = true) as E.
  { apply Hq. destruct o as [ty' c']. exists ty', c'. by apply Hat. }
  assert (∃ q, (l ← aget (acoral_dpcp_queue s) ty; aget l c) = Some q) as [q Hl].
  { destruct Hs as (x & y & z & w & ->), Hty as [-> | ->], Hc as [-> | ->]; by eexists. }
  erewrite run_bind by (by apply run_deref). rewrite E. eexists. split; [reflexivity|].
  destruct Hs as (x & y & z & w & Eq). rewrite Eq. cbn [map]. split_and!; [by do 4 eexists| |].
  - intros ty' c'. rewrite member_shape, !list_elem_of_filter. naive_solver.
  - intros p' Hp ty' c'. rewrite !member_shape, !list_elem_of_filter. naive_solver.
Qed.

(** ** The loads *)

(** Both rows, the first one as it was. *)
Definition kept (l l' : list (list Q)) : Prop := shape l' ∧ aget l' CPU_LOAD_LAST = aget l CPU_LOAD_LAST.

Lemma kept_trans l1 l2 l3 : kept l1 l2 → kept l2 l3 → kept l1 l3.
Proof. intros [_ E] [S E']. split; [done|congruence]. Qed.

Lemma add_load_run s c x : shape (cpu_load s) → is_core c → ∃ l, add_load c x s = Ret (tt, set_cpu_load l s) ∧ kept (cpu_load s) l.
Proof.
  intros (x0 & x1 & y0 & y1 & E) Hc. unfold add_load, load_at, set_load, kept, CPU_LOAD_THIS, CPU_LOAD_LAST.
  destruct Hc as [-> | ->].
  - exists [[x0; x1]; [fl (y0 + x); y1]]. erewrite run_bind by (apply run_deref; rewrite E; reflexivity).
    rewrite E. split; [reflexivity|]. split; [by do 4 eexists|done].
  - exists [[x0; x1]; [y0; fl (y1 + x)]]. erewrite run_bind by (apply run_deref; rewrite E; reflexivity).
    rewrite E. split; [reflexivity|]. split; [by do 4 eexists|done].
Qed.

Definition period_ok (d : acoral_admis_ctl_data) : Prop := 0 < period_time d < 2 ^ 24.

Lemma share_run d x : period_ok d → ∃ y, fl_div x (fl_of (period_time d)) = Some y.
Proof.
  intros Hd. unfold fl_div. destruct (Qeq_bool (fl_of (period_time d)) 0) eqn:E; [|by eexists]. exfalso.
  apply Qeq_bool_iff in E. rewrite fl_of_exact in E by (unfold period_ok in Hd; lia). unfold Qeq in E. cbn in E. unfold period_ok in Hd. lia.
Qed.

(** What [u_g_time] reads: the tasks of the queue and their uses. *)
Definition tasks_there (s : admis) : Prop :=
  Forall (λ c, ∃ d, a_ctl s !! c = Some d ∧ period_ok d ∧ Forall (λ r, is_Some (a_res s !! r)) (res_queue d)) (acoral_admis_ctl_queue s).

Lemma u_g_uses_run s rs v d : ∀ q,
  period_ok d → Forall (λ r, is_Some (a_res s !! r)) rs → ∃ q', u_g_uses rs v (period_time d) q s = Ret (q', s).
Proof.
  intros q Hd Hrs. induction Hrs as [|r rs [rd Hr] Hrs IH]; cbn [u_g_uses]; [by eexists|].
  erewrite run_bind by (by apply run_deref). destruct (v =? rd_dpcp rd); [|done].
  destruct (share_run d (fl_of (use_time rd)) Hd) as [y Hy]. erewrite run_bind by (by apply run_deref). by eexists.
Qed.

Lemma u_g_run s v : tasks_there s → ∃ q, u_g_time v s = Ret (q, s).
Proof.
  intros Hs. unfold u_g_time. erewrite run_bind by done.
  assert (∀ cs q, Forall (λ c, ∃ d, a_ctl s !! c = Some d ∧ period_ok d ∧ Forall (λ r, is_Some (a_res s !! r)) (res_queue d)) cs →
    ∃ q', u_g_tasks cs v q s = Ret (q', s)) as Hrun.
  { induction cs as [|c cs IH]; intros q Hcs; cbn [u_g_tasks]; [by eexists|].
    apply Forall_cons in Hcs as [(d & Hd & Hp & Hr) Hcs]. erewrite run_bind by (by apply run_deref).
    destruct (u_g_uses_run s (res_queue d) v d q Hp Hr) as [q' Hq']. erewrite run_bind by exact Hq'. by apply IH. }
  apply Hrun. by apply Forall_reverse.
Qed.

(** ** The state with other resources, queues and loads *)
Definition upd (m : gmap Z acoral_dpcp_t) (qs : list (list (list Z))) (l : list (list Q)) (s : admis) : admis :=
  set_cpu_load l (set_dpcp_queue qs (set_a_dpcp m s)).

(** An operation on the resource [p], which becomes [x]. *)
Definition op_on (m : A unit) (s : admis) (p : Z) (x : acoral_dpcp_t) (o : option (Z * Z)) : Prop :=
  ∃ qs l, m s = Ret (tt, upd (<[p := x]> (a_dpcp s)) qs l s) ∧ moved (acoral_dpcp_queue s) qs p o ∧ kept (cpu_load s) l.

Lemma op_seq m1 m2 s p x1 x2 o1 o2 :
  op_on m1 s p x1 o1 →
  (∀ qs l, moved (acoral_dpcp_queue s) qs p o1 → kept (cpu_load s) l → op_on m2 (upd (<[p := x1]> (a_dpcp s)) qs l s) p x2 o2) →
  op_on (m1;; m2) s p x2 o2.
Proof.
  intros (qs & l & Hrun & Hm & Hk) H2. destruct (H2 qs l Hm Hk) as (qs' & l' & Hrun' & Hm' & Hk').
  exists qs', l'. split_and!.
  - erewrite run_bind by exact Hrun. rewrite Hrun'. cbn. by rewrite insert_insert_eq.
  - by eapply moved_trans.
  - by eapply kept_trans.
Qed.

Lemma upd_same s p x : a_dpcp s !! p = Some x → upd (<[p := x]> (a_dpcp s)) (acoral_dpcp_queue s) (cpu_load s) s = s.
Proof. intros Hx. unfold upd, set_a_dpcp. rewrite insert_id by done. by destruct s. Qed.

(** The resource, its place, and the form of queues and loads. *)
Record op_pre (s : admis) (p : Z) (x : acoral_dpcp_t) (o : option (Z * Z)) : Prop := {
  pre_dpcp : a_dpcp s !! p = Some x;
  pre_queues : shape (acoral_dpcp_queue s);
  pre_place : at_place (acoral_dpcp_queue s) p o;
  pre_loads : shape (cpu_load s);
}.

Lemma op_then m1 m2 s p x1 x2 o1 o2 :
  op_on m1 s p x1 o1 →
  (∀ qs l, op_pre (upd (<[p := x1]> (a_dpcp s)) qs l s) p x1 o1 → op_on m2 (upd (<[p := x1]> (a_dpcp s)) qs l s) p x2 o2) →
  op_on (m1;; m2) s p x2 o2.
Proof.
  intros H1 H2. eapply op_seq; [exact H1|]. intros qs l (S & P & _) [S' _]. apply H2. split; [apply lookup_insert_eq|done..].
Qed.

Lemma op_read {X} (m : A X) k v s p x o : m s = Ret (v, s) → op_on (k v) s p x o → op_on (y ← m; k y) s p x o.
Proof. intros Hm (qs & l & Hrun & H). exists qs, l. by erewrite run_bind by exact Hm. Qed.

Section ops.
Context (s : admis) (p : Z) (x : acoral_dpcp_t) (o : option (Z * Z)) (Hpre : op_pre s p x o).

Lemma run_dpcp : dpcp_at p s = Ret (x, s).
Proof. apply run_deref, Hpre. Qed.

Lemma op_skip : op_on (mret tt) s p x o.
Proof.
  destruct Hpre as [Hx Hq Ho Hl]. exists (acoral_dpcp_queue s), (cpu_load s). rewrite upd_same by done. split_and!; [done|by apply moved_refl|done].
Qed.

Lemma op_dpcp f : op_on (on_dpcp p f) s p (f x) o.
Proof.
  destruct Hpre as [Hx Hq Ho Hl]. exists (acoral_dpcp_queue s), (cpu_load s). split_and!; [|by apply moved_refl|done].
  unfold on_dpcp. erewrite run_bind by apply run_dpcp. by destruct s.
Qed.

Lemma op_load c v : is_core c → op_on (add_load c v) s p x o.
Proof.
  destruct Hpre as [Hx Hq Ho Hl]. intros Hc. destruct (add_load_run s c v Hl Hc) as (l & Hrun & Hk).
  exists (acoral_dpcp_queue s), l. split_and!; [|by apply moved_refl|done]. rewrite Hrun. unfold upd, set_a_dpcp. rewrite insert_id by done. by destruct s.
Qed.

Lemma op_add ty c : o = None → is_core ty → is_core c → op_on (queue_add ty c p) s p x (Some (ty, c)).
Proof.
  destruct Hpre as [Hx Hq Ho Hl]. intros -> Hty Hc. destruct (queue_add_run s ty c p Hq Ho Hty Hc) as (qs & Hrun & Hm).
  exists qs, (cpu_load s). split_and!; [|done|done]. rewrite Hrun. unfold upd, set_a_dpcp. rewrite insert_id by done. by destruct s.
Qed.

Lemma op_del ty c o' : o = Some o' → is_core ty → is_core c → op_on (queue_del ty c p) s p x None.
Proof.
  destruct Hpre as [Hx Hq Ho Hl]. intros -> Hty Hc. destruct (queue_del_run s ty c p o' Hq Ho Hty Hc) as (qs & Hrun & Hm).
  exists qs, (cpu_load s). split_and!; [|done|done]. rewrite Hrun. unfold upd, set_a_dpcp. rewrite insert_id by done. by destruct s.
Qed.

Lemma op_when (b : bool) m f : (b = true → op_on m s p (f x) o) → op_on (when b m) s p (if b then f x else x) o.
Proof. intros H. destruct b; [by apply H|apply op_skip]. Qed.
End ops.

(** ** A try and its undoing, for one resource *)

(** A resource nothing is pending for: its cache is as it is, and it is marked
    as bound when it has a core. *)
Record settled (x : acoral_dpcp_t) : Prop := {
  se_type : type_cache (dp_cache x) = dp_type x;
  se_ceiling : ceiling_cache (dp_cache x) = dp_prio_ceiling x;
  se_used : 0 < bind_cnt (dp_cache x);
  se_core : dp_cpu x = UNBIND_CPU ∧ cpu_is_bind (dp_cache x) = 0 ∧ dp_type x = ACORAL_DPCP_LOCAL ∨
            is_core (dp_cpu x) ∧ cpu_is_bind (dp_cache x) = 1 ∧ is_core (dp_type x);
}.

Definition lowered (prio : Z) (x : acoral_dpcp_t) : acoral_dpcp_t :=
  if prio <? ceiling_cache (dp_cache x) then set_dp_cache (set_ceiling_cache prio (dp_cache x)) x else x.
Definition taken (cpu : Z) (x : acoral_dpcp_t) : acoral_dpcp_t :=
  if dp_cpu x =? UNBIND_CPU then set_dp_core cpu x
  else if cpu =? dp_cpu x then x else set_dp_cache (set_type_cache ACORAL_DPCP_GLOBAL (dp_cache x)) x.

(** What a task makes of a resource that it uses. *)
Definition tried (d : acoral_admis_ctl_data) (x : acoral_dpcp_t) : acoral_dpcp_t := lowered (ct_prio d) (taken (ct_cpu d) x).

Lemma lowered_place prio x : place_of (lowered prio x) = place_of x.
Proof. unfold lowered. by destruct (_ <? _). Qed.

Section one.
Context (d : acoral_admis_ctl_data) (Hcpu : is_core (ct_cpu d)) (Hper : period_ok d).

Lemma core_bound c : is_core c → (c =? UNBIND_CPU) = false.
Proof. by intros [-> | ->]. Qed.

Lemma bind_core_run s p x r :
  op_pre s p x (place_of x) → settled x → tasks_there s → op_on (bind_core d r p) s p (taken (ct_cpu d) x) (place_of (taken (ct_cpu d) x)).
Proof.
  intros Hpre Hx Ht. unfold bind_core, taken. apply (op_read _ _ x); [by eapply run_dpcp|].
  destruct Hx as [E1 E2 _ [(Ec & _ & Et)|(Hc & _ & Et)]].
  - rewrite Ec, Z.eqb_refl.
    assert (place_of x = None) as Ep by (unfold place_of; by rewrite Ec). rewrite Ep in Hpre.
    assert (place_of (set_dp_core (ct_cpu d) x) = Some (ACORAL_DPCP_LOCAL, ct_cpu d)) as ->.
    { unfold place_of. cbn. by rewrite core_bound, E1, Et by done. }
    eapply op_then; [by apply op_dpcp|]. intros qs l Hpre'. eapply op_add; [exact Hpre'|done|by left|done].
  - rewrite core_bound by done. destruct (Z.eqb_spec (ct_cpu d) (dp_cpu x)) as [E|E]; cbn [negb]; [by apply op_skip|].
    assert (place_of x = Some (type_cache (dp_cache x), dp_cpu x)) as Ep by (unfold place_of; by rewrite core_bound).
    set (x' := set_dp_cache (set_type_cache ACORAL_DPCP_GLOBAL (dp_cache x)) x).
    assert (place_of x' = Some (ACORAL_DPCP_GLOBAL, dp_cpu x)) as -> by (unfold place_of, x'; cbn; by rewrite core_bound). rewrite Ep in Hpre.
    eapply op_then; [by apply op_dpcp|]. intros qs l Hpre'. fold x' in Hpre' |- *.
    destruct (u_g_run (upd (<[p:=x']> (a_dpcp s)) qs l s) (rd_dpcp r) Ht) as [u Hu].
    eapply op_read; [exact Hu|].
    eapply op_then; [by apply (op_load _ _ _ _ Hpre')|]. intros qs1 l1 Hpre1.
    eapply op_then; [eapply op_del; [exact Hpre1|done|by left|done]|]. intros qs2 l2 Hpre2.
    eapply op_add; [exact Hpre2|done|by right|done].
Qed.

Lemma bind_load_run s p x r : op_pre s p x (place_of x) → op_on (bind_load d r p) s p x (place_of x).
Proof.
  intros Hpre. unfold bind_load. eapply op_read; [by eapply run_dpcp|].
  destruct (_ =? _); [|by apply op_skip]. destruct (share_run d (fl_of (use_time r)) Hper) as [y Hy].
  eapply op_read; [by apply run_deref|]. by apply (op_load _ _ _ _ Hpre).
Qed.

Lemma bind_res_run s r rd p x :
  a_res s !! r = Some rd → a_dpcp_var s !! rd_dpcp rd = Some p → op_pre s p x (place_of x) → settled x → tasks_there s →
  op_on (bind_res d r) s p (tried d x) (place_of (tried d x)).
Proof.
  intros Hr Hv Hpre Hx Ht. unfold bind_res, tried. eapply op_read; [by apply run_deref|]. eapply op_read; [by apply run_deref|].
  eapply op_then; [by apply bind_core_run|]. intros qs l Hpre1. eapply op_read; [by eapply run_dpcp|].
  rewrite lowered_place. eapply op_then.
  - apply (op_when _ _ _ _ Hpre1 _ _ (λ x, set_dp_cache (set_ceiling_cache (ct_prio d) (dp_cache x)) x)). intros _.
    by apply (op_dpcp _ _ _ _ Hpre1 (λ x, set_dp_cache (set_ceiling_cache (ct_prio d) (dp_cache x)) x)).
  - intros qs1 l1 Hpre2. fold (lowered (ct_prio d) (taken (ct_cpu d) x)) in Hpre2 |- *.
    rewrite <- (lowered_place (ct_prio d)) in Hpre2 |- *. by apply bind_load_run.
Qed.
End one.

(** ** [admis_ctl_restore] for one resource *)
Section restore.
Context (d : acoral_admis_ctl_data) (Hcpu : is_core (ct_cpu d)).

(** The resource after [restore_core]. *)
Definition uncored (x : acoral_dpcp_t) : acoral_dpcp_t := if cpu_is_bind (dp_cache x) =? 0 then set_dp_core UNBIND_CPU x else x.
Definition ceiled (x : acoral_dpcp_t) : acoral_dpcp_t :=
  if negb (ceiling_cache (dp_cache x) =? dp_prio_ceiling x) then set_dp_cache (set_ceiling_cache (dp_prio_ceiling x) (dp_cache x)) x else x.

Lemma tried_fields x :
  dp_type (tried d x) = dp_type x ∧ dp_prio_ceiling (tried d x) = dp_prio_ceiling x ∧
  cpu_is_bind (dp_cache (tried d x)) = cpu_is_bind (dp_cache x) ∧ bind_cnt (dp_cache (tried d x)) = bind_cnt (dp_cache x).
Proof. unfold tried, lowered, taken. by repeat case_match. Qed.

Lemma restore_core_run s p x :
  settled x → op_pre s p (tried d x) (place_of (tried d x)) →
  op_on (restore_core p) s p (uncored (tried d x)) (place_of (uncored (tried d x))).
Proof.
  intros Hx Hpre. destruct (tried_fields x) as (_ & _ & Eb & _). unfold restore_core, uncored.
  eapply op_read; [by eapply run_dpcp|]. destruct Hx as [E1 E2 _ [(Ec & Hb & Et)|(Hc & Hb & Et)]]; rewrite Eb, Hb; [|by apply op_skip].
  cbn [Z.eqb when].
  assert (dp_cpu (tried d x) = ct_cpu d) as Ecpu by (unfold tried, taken; rewrite Ec; unfold lowered; by case_match).
  assert (∃ ty, place_of (tried d x) = Some (ty, ct_cpu d)) as [ty Ep].
  { unfold place_of. rewrite Ecpu, core_bound by done. by eexists. }
  rewrite Ep in Hpre. rewrite Ecpu. change (place_of (set_dp_core UNBIND_CPU (tried d x))) with (@None (Z * Z)).
  eapply op_then; [eapply op_del; [exact Hpre|done|by left|done]|]. intros qs l Hpre'. by apply op_dpcp.
Qed.

Lemma restore_type_run s p y :
  dp_cpu y = UNBIND_CPU ∧ type_cache (dp_cache y) = dp_type y ∨ is_core (dp_cpu y) ∧ is_core (dp_type y) ∧ is_core (type_cache (dp_cache y)) →
  op_pre s p y (place_of y) →
  op_on (restore_type p) s p (set_dp_cache (set_type_cache (dp_type y) (dp_cache y)) y) (place_of (set_dp_cache (set_type_cache (dp_type y) (dp_cache y)) y)).
Proof.
  intros Hy Hpre. unfold restore_type. eapply op_read; [by eapply run_dpcp|].
  destruct (Z.eqb_spec (type_cache (dp_cache y)) (dp_type y)) as [E|E]; cbn [negb when].
  { assert (set_dp_cache (set_type_cache (dp_type y) (dp_cache y)) y = y) as ->; [|by apply op_skip].
    rewrite <- E. destruct y as [? ? ? []]. done. }
  destruct Hy as [[_ ?]|(Hc & Ht & Ht')]; [done|].
  assert (place_of y = Some (type_cache (dp_cache y), dp_cpu y)) as Ep by (unfold place_of; by rewrite core_bound). rewrite Ep in Hpre.
  assert (place_of (set_dp_cache (set_type_cache (dp_type y) (dp_cache y)) y) = Some (dp_type y, dp_cpu y)) as ->.
  { unfold place_of. cbn. by rewrite core_bound. }
  eapply op_then; [eapply op_del; [exact Hpre|done|done|done]|]. intros qs l Hpre1.
  eapply op_then; [apply (op_dpcp _ _ _ _ Hpre1)|]. intros qs1 l1 Hpre2. eapply op_add; [exact Hpre2|done|done|done].
Qed.

(** The three steps give the resource as it was. *)
Definition retyped (y : acoral_dpcp_t) : acoral_dpcp_t := set_dp_cache (set_type_cache (dp_type y) (dp_cache y)) y.

Lemma undo_tried x : settled x → retyped (ceiled (uncored (tried d x))) = x.
Proof.
  intros [E1 E2 _ Hcase]. destruct x as [cpu ty ceil [bind cc tc cnt]]. cbn in *. subst tc cc.
  unfold retyped, ceiled, uncored, tried, lowered, taken. cbn.
  destruct Hcase as [(-> & -> & ->)|(Hc & -> & Ht)].
  - rewrite Z.eqb_refl. cbn. destruct (ct_prio d <? ceil); cbn; [|by rewrite Z.eqb_refl].
    destruct (Z.eqb_spec (ct_prio d) ceil) as [->|]; done.
  - rewrite core_bound by done.
    destruct (ct_cpu d =? cpu); cbn; (destruct (ct_prio d <? ceil); cbn; [|by rewrite Z.eqb_refl]);
      destruct (Z.eqb_spec (ct_prio d) ceil) as [->|]; done.
Qed.

Lemma before_retype x : settled x → let y := ceiled (uncored (tried d x)) in
  dp_cpu y = UNBIND_CPU ∧ type_cache (dp_cache y) = dp_type y ∨ is_core (dp_cpu y) ∧ is_core (dp_type y) ∧ is_core (type_cache (dp_cache y)).
Proof.
  intros [E1 E2 _ Hcase]. destruct x as [cpu ty ceil [bind cc tc cnt]]. cbn in *. subst tc cc.
  unfold ceiled, uncored, tried, lowered, taken. cbn. destruct Hcase as [(-> & -> & ->)|(Hc & -> & Ht)].
  - left. rewrite Z.eqb_refl. cbn. by destruct (ct_prio d <? ceil); cbn; case_match.
  - right. rewrite core_bound by done. destruct (ct_cpu d =? cpu); cbn; destruct (ct_prio d <? ceil); cbn; case_match; cbn;
      split_and!; done || by right.
Qed.

Lemma restore_res_run s r rd p x :
  a_res s !! r = Some rd → a_dpcp_var s !! rd_dpcp rd = Some p → settled x →
  op_pre s p (tried d x) (place_of (tried d x)) → op_on (restore_res r) s p x (place_of x).
Proof.
  intros Hr Hv Hx Hpre. unfold restore_res. eapply op_read; [by apply run_deref|]. eapply op_read; [by apply run_deref|].
  eapply op_then; [by apply restore_core_run|]. intros qs l Hpre1. eapply op_read; [by eapply run_dpcp|].
  set (y := uncored (tried d x)) in *. destruct (tried_fields x) as (F1 & F2 & F3 & F4).
  assert (bind_cnt (dp_cache y) = bind_cnt (dp_cache x)) as Ey by (rewrite <- F4; unfold y, uncored; by case_match).
  rewrite Ey, (proj2 (Z.ltb_lt _ _)) by apply Hx. cbn [when].
  rewrite <- (undo_tried x Hx). fold y. eapply op_then.
  - apply (op_when _ _ _ _ Hpre1 _ _ (λ y, set_dp_cache (set_ceiling_cache (dp_prio_ceiling y) (dp_cache y)) y)). intros _.
    apply (op_dpcp _ _ _ _ Hpre1 (λ z, set_dp_cache (set_ceiling_cache (dp_prio_ceiling y) (dp_cache z)) z)).
  - intros qs1 l1 Hpre2. fold (ceiled y) in Hpre2 |- *.
    assert (place_of y = place_of (ceiled y)) as Ep by (unfold ceiled; by case_match). rewrite Ep in Hpre2.
    apply restore_type_run; [|done].
    by apply before_retype.
Qed.
End restore.

(** ** All resources of a task *)

Definition uses_there (s : admis) (rs ps : list Z) : Prop :=
  Forall2 (λ r p, ∃ rd, a_res s !! r = Some rd ∧ a_dpcp_var s !! rd_dpcp rd = Some p) rs ps.

(** The resources [ps] become [Y], and are where they belong then. *)
Record all_on (s s' : admis) (ps : list Z) (Y : Z → acoral_dpcp_t) : Prop := {
  all_upd : s' = upd (a_dpcp s') (acoral_dpcp_queue s') (cpu_load s') s;
  all_in : ∀ p, p ∈ ps → a_dpcp s' !! p = Some (Y p) ∧ at_place (acoral_dpcp_queue s') p (place_of (Y p));
  all_out : ∀ p, p ∉ ps → a_dpcp s' !! p = a_dpcp s !! p ∧ ∀ ty c, member (acoral_dpcp_queue s') ty c p ↔ member (acoral_dpcp_queue s) ty c p;
  all_queues : shape (acoral_dpcp_queue s');
  all_loads : kept (cpu_load s) (cpu_load s');
}.

Section loop.
Context (step : Z → A unit) (loop : list Z → A unit) (inv : admis → Prop) (R : acoral_dpcp_t → acoral_dpcp_t → Prop).
Context (loop_nil : loop [] = mret tt) (loop_cons : ∀ r rs, loop (r :: rs) = (step r;; loop rs)).
Context (inv_upd : ∀ s m qs l, inv s → inv (upd m qs l s)).
Context (step_run : ∀ s r rd p x y, a_res s !! r = Some rd → a_dpcp_var s !! rd_dpcp rd = Some p → inv s → R x y →
  op_pre s p x (place_of x) → op_on (step r) s p y (place_of y)).

Lemma loop_run rs ps Y : ∀ s,
  uses_there s rs ps → NoDup ps → inv s → shape (acoral_dpcp_queue s) → shape (cpu_load s) →
  (∀ p, p ∈ ps → ∃ x, a_dpcp s !! p = Some x ∧ at_place (acoral_dpcp_queue s) p (place_of x) ∧ R x (Y p)) →
  ∃ s', loop rs s = Ret (tt, s') ∧ all_on s s' ps Y.
Proof.
  intros s Hrs. change (uses_there s rs ps) in Hrs. unfold uses_there in Hrs.
  revert s ps Hrs. induction rs as [|r rs IH]; intros s ps Hrs Hnd Hinv Hq Hl Hps.
  { apply Forall2_nil_inv_l in Hrs as ->. exists s. rewrite loop_nil. split; [done|]. split; [by destruct s|set_solver|done|done|done]. }
  apply Forall2_cons_inv_l in Hrs as (p & ps' & (rd & Hr & Hv) & Hrs & ->). apply NoDup_cons in Hnd as [Hp Hnd].
  destruct (Hps p) as (x & Hx & Hat & HR); [by left|].
  destruct (step_run s r rd p x (Y p) Hr Hv Hinv HR) as (qs & l & Hrun & (Hq' & Hat' & Hout) & Hk); [done|].
  set (s1 := upd (<[p := Y p]> (a_dpcp s)) qs l s) in *.
  destruct (IH s1 ps') as (s' & Hrun' & Hall); [done|done|by apply inv_upd|done|apply Hk| |].
  { intros p' Hp'. assert (p' ≠ p) as Hne by (intros ->; done). destruct (Hps p') as (x' & Hx' & Hat1 & HR'); [by right|].
    exists x'. split_and!; [|intros ty c; rewrite <- (Hat1 ty c); by apply Hout|done]. cbn. by rewrite lookup_insert_ne. }
  exists s'. rewrite loop_cons. split; [by erewrite run_bind by exact Hrun|]. destruct Hall as [A1 A2 A3 A4 A5]. split.
  - rewrite A1 at 1. done.
  - intros p' [->|Hp']%elem_of_cons; [|by apply A2]. destruct (A3 p Hp) as [B1 B2]. split; [rewrite B1; cbn; by rewrite lookup_insert_eq|].
    intros ty c. rewrite B2. apply Hat'.
  - intros p' Hp'. rewrite elem_of_cons in Hp'. destruct (A3 p') as [B1 B2]; [naive_solver|]. split.
    + rewrite B1. cbn. rewrite lookup_insert_ne by naive_solver. done.
    + intros ty c. rewrite B2. apply Hout. naive_solver.
  - done.
  - by eapply kept_trans.
Qed.
End loop.

Lemma bind_all_run s d ps rs Y :
  is_core (ct_cpu d) → period_ok d → uses_there s rs ps → NoDup ps → tasks_there s → shape (acoral_dpcp_queue s) → shape (cpu_load s) →
  (∀ p, p ∈ ps → ∃ x, a_dpcp s !! p = Some x ∧ at_place (acoral_dpcp_queue s) p (place_of x) ∧ (settled x ∧ Y p = tried d x)) →
  ∃ s', bind_all d rs s = Ret (tt, s') ∧ all_on s s' ps Y.
Proof.
  intros Hc Hper. apply (loop_run (bind_res d) (bind_all d) tasks_there (λ x y, settled x ∧ y = tried d x)); [done|done|done|].
  intros s1 r rd p x y Hr Hv Ht [Hx ->] Hpre. by apply (bind_res_run d Hc Hper s1 r rd).
Qed.

Lemma restore_all_run s d ps rs Y :
  is_core (ct_cpu d) → uses_there s rs ps → NoDup ps → shape (acoral_dpcp_queue s) → shape (cpu_load s) →
  (∀ p, p ∈ ps → ∃ z, a_dpcp s !! p = Some z ∧ at_place (acoral_dpcp_queue s) p (place_of z) ∧ (settled (Y p) ∧ z = tried d (Y p))) →
  ∃ s', restore_all rs s = Ret (tt, s') ∧ all_on s s' ps Y.
Proof.
  intros Hc Hrs Hnd Hq Hl. apply (loop_run restore_res restore_all (λ _, True) (λ z x, settled x ∧ z = tried d x)); try done.
  intros s1 r rd p z x Hr Hv _ [Hx ->] Hpre. by apply (restore_res_run d Hc s1 r rd).
Qed.

(** ** The analysis writes response times only *)
Definition forget (d : acoral_admis_ctl_data) : acoral_admis_ctl_data := set_wcrt 0 d.

Lemma ansys_loop_writes cs : ∀ s b s',
  ansys_loop cs s = Ret (b, s') → ∃ m, s' = set_a_ctl m s ∧ forget <$> m = forget <$> a_ctl s.
Proof.
  induction cs as [|c cs IH]; intros s b s'; cbn [ansys_loop].
  { intros [= _ <-]. exists (a_ctl s). by destruct s. }
  unfold mbind, M_bind. unfold ctl_at at 1, deref. destruct (a_ctl s !! c) as [d|] eqn:Hd; [|done].
  destruct (is_new d =? 1); [apply IH|]. destruct (response_time c s) as [[r s1]|] eqn:E; [|done].
  pose proof (reader_response c s r s1 E) as ->. destruct (r <=? dl_time d).
  - intros Hrun. apply IH in Hrun as (m & -> & Hm). exists m. split; [done|]. rewrite Hm. cbn.
    rewrite fmap_insert. apply insert_id. rewrite lookup_fmap, Hd. done.
  - intros [= _ <-]. exists (a_ctl s). by destruct s.
Qed.

(** A task that is new, or whose response is in time. *)
Definition in_time (s : admis) (c : Z) : Prop := ∃ d, a_ctl s !! c = Some d ∧ (is_new d = 1 ∨ wcrt d ≤ dl_time d).

Lemma ansys_loop_in_time cs : ∀ s s', ansys_loop cs s = Ret (true, s') → ∀ c, c ∈ cs ∨ in_time s c → in_time s' c.
Proof.
  induction cs as [|c cs IH]; intros s s'; cbn [ansys_loop].
  { intros [= <-] c [[]%elem_of_nil|Hc]. done. }
  unfold mbind, M_bind. unfold ctl_at at 1, deref. destruct (a_ctl s !! c) as [d|] eqn:Hd; [|done].
  destruct (Z.eqb_spec (is_new d) 1) as [En|En].
  { intros Hrun c' [[->|Hc]%elem_of_cons|Hc]; apply (IH _ _ Hrun); [right; exists d; by split; [|left]|by left|by right]. }
  destruct (response_time c s) as [[r s1]|] eqn:E; [|done]. pose proof (reader_response c s r s1 E) as ->.
  destruct (Z.leb_spec r (dl_time d)); [|by intros [=]]. intros Hrun c' Hc'. apply (IH _ _ Hrun).
  destruct (decide (c' = c)) as [->|Hne]; [right; exists (set_wcrt r d); split; [by cbn; rewrite lookup_insert_eq|by right]|].
  destruct Hc' as [Hc'|(d' & Hd' & H')]; [left; set_solver|right]. exists d'. split; [|done]. cbn. by rewrite lookup_insert_ne.
Qed.

(** When the analysis accepts, every task that is not new has a response in time. *)
Lemma accepted_in_time s s' :
  schedule_ansys s = Ret (true, s') → Forall (in_time s') (acoral_admis_ctl_queue s).
Proof. intros Hrun. apply Forall_forall. intros c Hc. eapply ansys_loop_in_time; [exact Hrun|by left]. Qed.

Lemma forget_lookup (m m' : gmap Z acoral_admis_ctl_data) c d :
  forget <$> m = forget <$> m' → m' !! c = Some d → ∃ d', m !! c = Some d' ∧ forget d' = forget d.
Proof.
  intros E Hd. apply (f_equal (lookup c)) in E. rewrite !lookup_fmap, Hd in E. destruct (m !! c) as [d'|]; [|done].
  exists d'. split; [done|]. cbn in E. by apply (inj Some) in E.
Qed.

Lemma forget_fields d d' : forget d' = forget d → res_queue d' = res_queue d ∧ ct_prio d' = ct_prio d ∧ prio_origin d' = prio_origin d.
Proof. destruct d, d'. unfold forget, set_wcrt. cbn. intros E. injection E. by intros; subst. Qed.

Lemma judge_writes c s b s' d :
  a_ctl s !! c = Some d → judge c s = Ret (b, s') →
  ∃ m, s' = set_a_ctl m s ∧ forget <$> m = forget <$> <[c := set_is_new 1 d]> (a_ctl s).
Proof.
  intros Hd. unfold judge, on_ctl, ctl_at. unfold mbind, M_bind. unfold deref at 1. rewrite Hd. cbn [modify].
  unfold modify. destruct (schedule_ansys _) as [[ok s1]|] eqn:E; [|done].
  apply ansys_loop_writes in E as (m & -> & Hm). cbn in Hm.
  destruct (forget_lookup m _ c (set_is_new 0 d) Hm) as (d' & Hd' & Ed); [by rewrite lookup_insert_eq|].
  unfold deref. cbn. rewrite Hd'. intros [= _ <-]. eexists. split; [reflexivity|].
  rewrite !fmap_insert, Hm, fmap_insert, insert_insert_eq. f_equal.
  destruct d, d'. unfold forget, set_is_new, set_wcrt in *. cbn in *. injection Ed. by intros; subst.
Qed.

(** ** Restore *)
Definition kept_prio (s : admis) (c : Z) : Prop := ∃ d, a_ctl s !! c = Some d ∧ ct_prio d = prio_origin d.

Lemma restore_skip cs s : Forall (kept_prio s) cs → restore_tasks cs s = Ret (tt, s).
Proof.
  induction 1 as [|c cs (d & Hd & E) _ IH]; [done|]. cbn [restore_tasks]. erewrite run_bind by (by apply run_deref).
  by rewrite E, Z.eqb_refl.
Qed.

Lemma restore_tasks_run s cs1 c cs2 d s' :
  Forall (kept_prio s) cs1 → c ∉ cs1 → c ∉ cs2 → Forall (kept_prio s) cs2 →
  a_ctl s !! c = Some d → ct_prio d ≠ prio_origin d →
  restore_all (res_queue d) (set_a_ctl (<[c := set_ct_prio (prio_origin d) d]> (a_ctl s)) s) = Ret (tt, s') →
  a_ctl s' = <[c := set_ct_prio (prio_origin d) d]> (a_ctl s) →
  restore_tasks (cs1 ++ c :: cs2) s = Ret (tt, s').
Proof.
  intros Hcs1 Hc1 Hc2 Hcs2 Hd Hp Hrun Hs'. induction Hcs1 as [|c1 cs1 (d1 & Hd1 & E) _ IH]; cbn [restore_tasks app].
  - erewrite run_bind by (by apply run_deref). rewrite (proj2 (Z.eqb_neq _ _)) by done. cbn [negb when].
    erewrite run_bind.
    2: { unfold on_ctl. erewrite run_bind; [exact Hrun|]. unfold on_ctl. by erewrite run_bind by (by apply run_deref). }
    apply restore_skip. apply Forall_forall. intros c' Hc'. eapply Forall_forall in Hcs2 as (d' & Hd' & E); [|exact Hc'].
    exists d'. split; [|done]. rewrite Hs', lookup_insert_ne; [done|]. intros ->. done.
  - erewrite run_bind by (by apply run_deref). rewrite E, Z.eqb_refl. apply IH. set_solver.
Qed.

Definition row (l : list (list Q)) (r c : Z) : option Q := q ← aget l r; aget q c.

(** Each load of [CPU_LOAD_THIS] has the value of [CPU_LOAD_LAST] then. *)
Definition same_loads (l : list (list Q)) : Prop :=
  ∀ c, is_core c → ∃ x y, row l CPU_LOAD_THIS c = Some x ∧ row l CPU_LOAD_LAST c = Some y ∧ (x == y)%Q.

Lemma copy_loads_run s :
  shape (cpu_load s) →
  ∃ l, copy_loads (Z.to_nat CFG_MAX_CPU) CPU_LOAD_LAST CPU_LOAD_THIS 0 s = Ret (tt, set_cpu_load l s) ∧ kept (cpu_load s) l ∧ same_loads l.
Proof.
  intros (x0 & x1 & y0 & y1 & E).
  exists [[x0; x1]; [if Qeq_bool x0 y0 then y0 else x0; if Qeq_bool x1 y1 then y1 else x1]]. split_and!.
  - change (Z.to_nat CFG_MAX_CPU) with 2%nat. cbn [copy_loads]. unfold load_at, set_load.
    erewrite run_bind by (apply run_deref; rewrite E; reflexivity). erewrite run_bind by (apply run_deref; rewrite E; reflexivity).
    destruct (Qeq_bool x0 y0); cbn [negb when].
    + erewrite run_bind by done. erewrite run_bind by (apply run_deref; rewrite E; reflexivity). erewrite run_bind by (apply run_deref; rewrite E; reflexivity).
      destruct (Qeq_bool x1 y1); cbn [negb when]; [rewrite <- E; by destruct s|]. unfold mbind, M_bind. by rewrite E.
    + erewrite run_bind by (rewrite E; reflexivity). erewrite run_bind by (by apply run_deref). erewrite run_bind by (by apply run_deref).
      by destruct (Qeq_bool x1 y1).
  - split; [by do 4 eexists|by rewrite E].
  - intros c [-> | ->].
    + do 2 eexists. split_and!; [reflexivity..|]. destruct (Qeq_bool x0 y0) eqn:B; [symmetry; by apply Qeq_bool_iff|done].
    + do 2 eexists. split_and!; [reflexivity..|]. destruct (Qeq_bool x1 y1) eqn:B; [symmetry; by apply Qeq_bool_iff|done].
Qed.

(** A task [c] that is tried on its core, with uses [ps]; the other tasks have
    their priorities, and the resources nothing pending. *)
Record on_trial (s : admis) (c : Z) (d : acoral_admis_ctl_data) (ps : list Z) : Prop := {
  tr_task : a_ctl s !! c = Some d;
  tr_queue : c ∈ acoral_admis_ctl_queue s;
  tr_once : NoDup (acoral_admis_ctl_queue s);
  tr_others : Forall (λ c', c' ≠ c → kept_prio s c') (acoral_admis_ctl_queue s);
  tr_prio : ct_prio d ≠ prio_origin d;
  tr_core : is_core (ct_cpu d);
  tr_there : tasks_there s;
  tr_uses : uses_there s (res_queue d) ps;
  tr_distinct : NoDup ps;
  tr_settled : ∀ p, p ∈ ps → ∃ x, a_dpcp s !! p = Some x ∧ at_place (acoral_dpcp_queue s) p (place_of x) ∧ settled x;
  tr_shapes : shape (acoral_dpcp_queue s) ∧ shape (cpu_load s);
}.

(** The tasks after the analysis: only [c]'s priority is not its old one. *)
Lemma restore_run s m c d s3 :
  c ∈ acoral_admis_ctl_queue s → NoDup (acoral_admis_ctl_queue s) →
  Forall (λ c', c' ≠ c → kept_prio (set_a_ctl m s) c') (acoral_admis_ctl_queue s) →
  m !! c = Some d → ct_prio d ≠ prio_origin d →
  restore_all (res_queue d) (set_a_ctl (<[c := set_ct_prio (prio_origin d) d]> m) s) = Ret (tt, s3) →
  a_ctl s3 = <[c := set_ct_prio (prio_origin d) d]> m → shape (cpu_load s3) →
  ∃ l, admis_ctl_restore (set_a_ctl m s) = Ret (tt, set_cpu_load l s3) ∧ kept (cpu_load s3) l ∧ same_loads l.
Proof.
  intros Hin Honce Hothers Hd Hprio Hrun Hctl Hl. destruct (copy_loads_run s3 Hl) as (l & Hcopy & Hk & Hsame).
  exists l. split_and!; [|done..]. unfold admis_ctl_restore. erewrite run_bind by done.
  change (acoral_admis_ctl_queue (set_a_ctl m s)) with (acoral_admis_ctl_queue s).
  apply list_elem_of_split in Hin as (q1 & q2 & Eqs). rewrite Eqs in Honce, Hothers |- *.
  apply NoDup_app in Honce as (_ & Hd1 & [Hd2 _]%NoDup_cons). apply Forall_app in Hothers as [Ho1 [_ Ho2]%Forall_cons].
  assert (∀ q, c ∉ q → Forall (λ c', c' ≠ c → kept_prio (set_a_ctl m s) c') q → Forall (kept_prio (set_a_ctl m s)) (reverse q)) as Hkeep.
  { intros q Hc Hk'. apply Forall_reverse, Forall_forall. intros c' Hc'. eapply Forall_forall in Hk' as Hkp; [|exact Hc'].
    apply Hkp. by intros ->. }
  assert (c ∉ q1) as Hc1 by (intros Hc; apply (Hd1 c Hc); by left).
  rewrite reverse_app, reverse_cons, <- app_assoc. cbn [app]. erewrite run_bind; [exact Hcopy|].
  by apply (restore_tasks_run _ _ _ _ d); [apply Hkeep|rewrite elem_of_reverse|rewrite elem_of_reverse|apply Hkeep|..].
Qed.

(** C18 The trial of a task on a core returns, and when the analysis has answered,
    [admis_ctl_restore] takes the trial back: all resources are as they were, in
    the queues they were in; the loads are the last ones; the task is new with its
    old priority, and the other tasks are as they were but for the response times
    the analysis wrote. *)
Theorem trial_taken_back s c d ps :
  on_trial s c d ps →
  ∃ s1, bind_all d (res_queue d) s = Ret (tt, s1) ∧ (∀ p, p ∈ ps → ∃ x, a_dpcp s !! p = Some x ∧ a_dpcp s1 !! p = Some (tried d x)) ∧
  ∀ b s2, judge c s1 = Ret (b, s2) →
  ∃ s3, admis_ctl_restore s2 = Ret (tt, s3) ∧
    a_dpcp s3 = a_dpcp s ∧ (∀ ty cpu p, member (acoral_dpcp_queue s3) ty cpu p ↔ member (acoral_dpcp_queue s) ty cpu p) ∧
    aget (cpu_load s3) CPU_LOAD_LAST = aget (cpu_load s) CPU_LOAD_LAST ∧ same_loads (cpu_load s3) ∧
    forget <$> a_ctl s3 = forget <$> <[c := set_is_new 1 (set_ct_prio (prio_origin d) d)]> (a_ctl s).
Proof.
  intros [Hd Hin Honce Hothers Hprio Hcore Hthere Huses Hdist Hset [Hq Hl]].
  pose (Y := λ p, default (mk_dpcp_t 0 0 0 (mk_cache 0 0 0 0)) (a_dpcp s !! p)).
  assert (∀ p x, a_dpcp s !! p = Some x → Y p = x) as HY by (intros p x Hx; unfold Y; by rewrite Hx).
  assert (period_ok d) as Hper.
  { unfold tasks_there in Hthere. eapply Forall_forall in Hthere as (d' & Hd' & Hp & _); [|exact Hin]. by simplify_eq. }
  destruct (bind_all_run s d ps (res_queue d) (λ p, tried d (Y p)) Hcore Hper Huses Hdist Hthere Hq Hl) as (s1 & Hrun & [A1 A2 A3 A4 A5]).
  { intros p Hp. destruct (Hset p Hp) as (x & Hx & Hat & Hs). exists x. by rewrite (HY p x Hx). }
  exists s1. split; [done|]. split.
  { intros p Hp. destruct (Hset p Hp) as (x & Hx & _). exists x. split; [done|]. rewrite <- (HY p x Hx). by apply A2. }
  assert (a_ctl s1 = a_ctl s) as Ec1 by (rewrite A1; done).
  intros b s2 Hj. rewrite <- Ec1 in Hd. destruct (judge_writes c s1 b s2 d Hd Hj) as (m & -> & Hm). rewrite Ec1 in *.
  destruct (forget_lookup m _ c (set_is_new 1 d) Hm) as (d2 & Hd2 & E2); [by rewrite lookup_insert_eq|].
  destruct (forget_fields (set_is_new 1 d) d2 E2) as (Er & Ep & Eo). cbn in Er, Ep, Eo.
  set (s2' := set_a_ctl (<[c := set_ct_prio (prio_origin d2) d2]> m) (set_a_ctl m s1)).
  destruct (restore_all_run s2' d ps (res_queue d2) Y) as (s3 & Hrun3 & [B1 B2 B3 B4 B5]).
  { done. } { rewrite Er. unfold s2'. rewrite A1. exact Huses. } { done. } { exact A4. } { exact (proj1 A5). }
  { intros p Hp. destruct (Hset p Hp) as (x & Hx & _ & Hs). destruct (A2 p Hp) as [Hz Hat]. exists (tried d (Y p)).
    split_and!; [exact Hz|exact Hat|by rewrite (HY p x Hx)|done]. }
  assert (a_ctl s3 = <[c := set_ct_prio (prio_origin d2) d2]> m) as Ec3 by (rewrite B1; done).
  assert (acoral_admis_ctl_queue s1 = acoral_admis_ctl_queue s) as Eq by (rewrite A1; done).
  destruct (restore_run s1 m c d2 s3) as (l & Hres & Hk & Hsame); rewrite ?Eq; [done|done| |done|congruence|exact Hrun3|done|exact (proj1 B5)|].
  { eapply Forall_impl; [exact Hothers|]. intros c' Hkp Hne. destruct (Hkp Hne) as (d' & Hd' & E').
    destruct (forget_lookup m _ c' d' Hm) as (d3 & Hd3 & E3); [by rewrite lookup_insert_ne|].
    exists d3. split; [done|]. destruct (forget_fields _ _ E3) as (_ & -> & ->). done. }
  exists (set_cpu_load l s3). split_and!.
  - exact Hres.
  - change (a_dpcp s3 = a_dpcp s). apply map_eq. intros p. destruct (decide (p ∈ ps)) as [Hp|Hp].
    + destruct (Hset p Hp) as (x & Hx & _). rewrite Hx, <- (HY p x Hx). by apply B2.
    + destruct (B3 p Hp) as [-> _]. apply (A3 p Hp).
  - intros ty cpu p. change (member (acoral_dpcp_queue s3) ty cpu p ↔ member (acoral_dpcp_queue s) ty cpu p).
    destruct (decide (p ∈ ps)) as [Hp|Hp].
    + destruct (Hset p Hp) as (x & Hx & Hat & _). rewrite (Hat ty cpu), <- (HY p x Hx). by apply (B2 p Hp).
    + destruct (B3 p Hp) as [_ ->]. apply (A3 p Hp).
  - change (aget l CPU_LOAD_LAST = aget (cpu_load s) CPU_LOAD_LAST). rewrite (proj2 Hk), (proj2 B5). apply A5.
  - exact Hsame.
  - change (forget <$> a_ctl s3 = forget <$> <[c:=set_is_new 1 (set_ct_prio (prio_origin d) d)]> (a_ctl s)).
    rewrite Ec3, !fmap_insert, Hm, fmap_insert, insert_insert_eq. f_equal.
    destruct d, d2. unfold forget, set_is_new, set_ct_prio, set_wcrt in *. cbn in *. injection E2. by intros; subst.
Qed.

(** ** A task that is too long, on the second core: a resource of the first core
    becomes global, a free one gets a core, and both go back. *)
Module Trial.
Definition old : acoral_admis_ctl_data := mk_ctl_data 0 60 5 60 100 [31] 31 31 0 1.
Definition new : acoral_admis_ctl_data := mk_ctl_data 1 80 90 80 120 [32; 33] 45 60 1 0.
Definition mem : admis := {|
  a_ctl := <[100 := old]> (<[200 := new]> ∅);
  a_res := <[31 := mk_res_data 1 2 4]> (<[32 := mk_res_data 2 3 4]> (<[33 := mk_res_data 1 1 5]> ∅));
  a_dpcp_var := <[4 := 7]> (<[5 := 8]> ∅);
  a_dpcp := <[7 := mk_dpcp_t 0 ACORAL_DPCP_LOCAL 31 (mk_cache 1 31 ACORAL_DPCP_LOCAL 2)]>
    (<[8 := mk_dpcp_t UNBIND_CPU ACORAL_DPCP_LOCAL 61 (mk_cache 0 61 ACORAL_DPCP_LOCAL 1)]> ∅);
  acoral_admis_ctl_queue := [100; 200];
  acoral_dpcp_queue := [[[7]; []]; [[]; []]];
  acoral_timed_time := [[]; []];
  acoral_timed_h_period := [100; 100];
  timed_time_sum := [0; 0];
  cpu_load := [[(1 # 4)%Q; 0%Q]; [(1 # 4)%Q; (3 # 4)%Q]];
  cpu_load_list := [1; 0];
|}.
Definition bound : admis := match bind_all new (res_queue new) mem with Ret (_, s) => s | Err _ => mem end.
Definition judged : admis := match judge 200 bound with Ret (_, s) => s | Err _ => mem end.
End Trial.

Lemma first_queue p ty c : member [[[p]; []]; [[]; []]] ty c p ↔ Some (0, 0) = Some (ty, c).
Proof. rewrite member_shape, !elem_of_nil, list_elem_of_singleton. naive_solver. Qed.
Lemma no_queue p p' ty c : p ≠ p' → member [[[p]; []]; [[]; []]] ty c p' ↔ None = Some (ty, c).
Proof. intros Hp. rewrite member_shape, !elem_of_nil, list_elem_of_singleton. naive_solver. Qed.

Lemma trial_taken_back_witness :
  judge 200 Trial.bound = Ret (false, Trial.judged) ∧ a_dpcp Trial.bound ≠ a_dpcp Trial.mem ∧
  ∃ s3, admis_ctl_restore Trial.judged = Ret (tt, s3) ∧ a_dpcp s3 = a_dpcp Trial.mem.
Proof.
  assert (judge 200 Trial.bound = Ret (false, Trial.judged)) as Hj by (vm_compute; reflexivity).
  split; [exact Hj|]. split.
  { intros E. apply (f_equal (λ m, dp_cpu <$> m !! 8)) in E. vm_compute in E. discriminate E. }
  destruct (trial_taken_back Trial.mem 200 Trial.new [7; 8]) as (s1 & Hb & _ & H).
  - split.
    + reflexivity.
    + right. left.
    + change (NoDup [100; 200]). apply NoDup_cons. split; [by intros ?%list_elem_of_singleton|apply NoDup_singleton].
    + apply Forall_cons. split; [intros _; exists Trial.old; by split|]. apply Forall_cons. split; [by intros []|constructor].
    + discriminate.
    + by right.
    + apply Forall_cons. split; [exists Trial.old|apply Forall_cons; split; [exists Trial.new|constructor]].
      all: split; [reflexivity|split; [by split|]]; repeat (apply Forall_cons; split; [eexists; reflexivity|]); constructor.
    + apply Forall2_cons. split; [eexists; split; reflexivity|]. apply Forall2_cons. split; [eexists; split; reflexivity|constructor].
    + change (NoDup [7; 8]). apply NoDup_cons. split; [by intros ?%list_elem_of_singleton|apply NoDup_singleton].
    + intros p [->|Hp%list_elem_of_singleton]%elem_of_cons.
      * eexists. split; [reflexivity|]. split; [exact (first_queue 7)|]. split; [exact eq_refl|exact eq_refl|exact eq_refl|].
        right. split; [by left|]. split; [reflexivity|by left].
      * rewrite Hp. eexists. split; [reflexivity|]. split; [exact (λ ty c, no_queue 7 8 ty c ltac:(lia))|]. split; [exact eq_refl|exact eq_refl|exact eq_refl|].
        left. split; [reflexivity|]. split; reflexivity.
    + split; by do 4 eexists.
  - assert (bind_all Trial.new (res_queue Trial.new) Trial.mem = Ret (tt, Trial.bound)) as Hb' by (vm_compute; reflexivity).
    rewrite Hb in Hb'. injection Hb' as ->. destruct (H false Trial.judged Hj) as (s3 & Hr & Hd & _). exists s3. split; [exact Hr|exact Hd].
Defined.
