(* ===== verification/AdmisInit.v ===== *)
(** * components/tmp/lib/src/admis_ctl.c: the slots of the admission thread

    [acoral_admis_ctl_init] looks for times at which the thread of admission control
    can run on a core: behind and before the slots of the core's timed threads, at
    the ends of the period, and then wherever two of its times are more than
    [interval] apart.  It creates the thread with these times and turns the queues
    of starts and ends into starts and lengths for the analysis.  A queue is the
    list of the values of its nodes; the walks over it change values in place and
    add nodes as the code does. *)
From S2P Require Import Prelude KTypes TimedTable Floats Admis AdmisCtl.
From stdpp Require Import list.
From Stdlib Require Import QArith.
#[local] Open Scope Z_scope.

Definition CA : Z := 50.
Definition ADMIS_CTL_STACK_SIZE : Z := TIMED_STACK_SIZE * 20.

(** Room behind each slot: its end is a start, and moves by [CA]. *)
Fixpoint behind (l starts : list Z) : option (list Z * list Z) :=
  match l with
  | [] => Some ([], starts)
  | [_] => None
  | a :: e :: l => '(l, starts) ← behind l (add_time e starts); Some (a :: s32 (e + CA) :: l, starts)
  end.

(** Room before each slot, from the end of the one before: [behind] runs first over
    all ends, so the order of the starts is kept by its caller. *)
Fixpoint ahead (prev : Z) (l starts : list Z) : option (list Z * list Z) :=
  match l with
  | [] => Some ([], starts)
  | [_] => None
  | a :: e :: l =>
      let room := CA <=? a - prev in
      let a' := if room then a - CA else a in
      '(l, starts) ← ahead e l (if room then add_time a' starts else starts);
      Some (a' :: e :: l, starts)
  end.

(** A start and its slot. *)
Definition add_slot (v e : Z) (table : list Z) : list Z := add_time (s32 e) (add_time (s32 v) table).

Definition at_begin (x : list Z * list Z) : list Z * list Z :=
  let '(table, starts) := x in
  if CA <=? default 0 (head table) then (add_slot 0 CA table, add_time 0 starts) else x.
Definition at_end (h : Z) (x : list Z * list Z) : list Z * list Z :=
  let '(table, starts) := x in
  if CA <=? u32 (h - default 0 (last table)) then (add_slot (u32 (h - CA)) h table, add_time (s32 (u32 (h - CA))) starts) else x.

(** One pass over the starts, from [prev] over the nodes [xs] behind it: a gap over
    [interval] gets a start, which is the node before the current one from then on;
    the slot is [interval] behind that. *)
Fixpoint gap_pass (xs : list Z) (prev interval : Z) (x : list Z * list Z) : bool * (list Z * list Z) :=
  match xs with
  | [] => (false, x)
  | v :: xs =>
      if interval <? u32 (v - prev) then
        let n := s32 (u32 (prev + interval)) in
        let slot := u32 (n + interval) in
        (true, (gap_pass xs v interval (add_slot slot (u32 (slot + CA)) x.1, add_time n x.2)).2)
      else gap_pass xs v interval x
  end.

(** [while(flag)] *)
Fixpoint gap_loop (fuel : nat) (interval : Z) (x : list Z * list Z) : option (list Z * list Z) :=
  match x.2 with
  | [] => None
  | a :: xs =>
      let '(flag, x) := gap_pass xs a interval x in
      if flag : bool then match fuel with O => None | S fuel => gap_loop fuel interval x end else Some x
  end.

(** A pass leaves no gap that was longer as long as before. *)
Definition gap_fuel (starts : list Z) : nat := Z.to_nat (default 0 (last starts) - default 0 (head starts)).

(** The cells of the thread's table; the last one is the period. *)
Definition start_cells (h : Z) (starts : list Z) : list Z :=
  let cells := starts ≫= λ v, [v; v + CA] in aset (2 * Z.of_nat (length starts) - 1) h cells.

(** Two slots that touch: both nodes are taken out, but the second [del] is of the
    first node again, which is its own neighbour then. *)
Fixpoint join_slots (l : list Z) : outcome unit :=
  match l with
  | [] => Ret tt
  | [_] => Err Hang
  | _ :: e :: rest =>
      match rest with
      | [] => Ret tt
      | a :: _ => if e =? a then Err Deadlock else join_slots rest
      end
  end.

(** Starts and ends to starts and lengths, with the sum of the lengths. *)
Fixpoint lengths (l : list Z) (sum : Z) : option (list Z * Z) :=
  match l with
  | [] => Some ([], sum)
  | [_] => None
  | a :: e :: l => '(l, sum) ← lengths l (u32 (sum + (e - a))); Some (a :: e - a :: l, sum)
  end.

(** The data of the thread: core, number of times, cells. *)
Record ctl_thread : Type := mk_ctl_thread { ct_core : Z; ct_frequency : Z; ct_cells : list Z }.

Section init.
Context {K : Type} (create_ctl_thread : ctl_thread → M K Z).
Abbreviation C := (M (ctl K)).

Definition set_timed_time v s := mk_admis (a_ctl s) (a_res s) (a_dpcp_var s) (a_dpcp s) (acoral_admis_ctl_queue s) (acoral_dpcp_queue s) v (acoral_timed_h_period s) (timed_time_sum s) (cpu_load s) (cpu_load_list s).
Definition set_h_period v s := mk_admis (a_ctl s) (a_res s) (a_dpcp_var s) (a_dpcp s) (acoral_admis_ctl_queue s) (acoral_dpcp_queue s) (acoral_timed_time s) v (timed_time_sum s) (cpu_load s) (cpu_load_list s).
Definition set_time_sum v s := mk_admis (a_ctl s) (a_res s) (a_dpcp_var s) (a_dpcp s) (acoral_admis_ctl_queue s) (acoral_dpcp_queue s) (acoral_timed_time s) (acoral_timed_h_period s) v (cpu_load s) (cpu_load_list s).

(** The starts and the core's queue; a core without timed threads gets a period. *)
Definition place (h interval : Z) (table : list Z) : option (Z * list Z * list Z) :=
  match table with
  | [] => Some (CA * 5, add_slot 0 CA [], [0])
  | _ =>
      '(table, starts) ← behind table [];
      x ← ahead 0 table starts;
      let x := at_end h (at_begin x) in
      '(table, starts) ← gap_loop (gap_fuel x.2) interval x;
      Some (h, table, starts)
  end.

(** The load of the timed threads of one core. *)
Definition load_core (i : Z) : A unit :=
  l ← deref (λ s, aget (acoral_timed_time s) i);
  sum ← deref (λ s, aget (timed_time_sum s) i);
  '(l, sum) ← deref (λ _, lengths l sum);
  modify (λ s, set_timed_time (aset i l (acoral_timed_time s)) s);;
  modify (λ s, set_time_sum (aset i sum (timed_time_sum s)) s);;
  h ← deref (λ s, aget (acoral_timed_h_period s) i);
  q ← deref (λ _, fl_div (fl_of sum) (fl_of h));
  v ← load_at CPU_LOAD_LAST i;
  set_load CPU_LOAD_LAST i (fl (v + q));;
  set_load CPU_LOAD_THIS i (fl (v + q)).

Definition run_join (l : list Z) : A unit := λ s, match join_slots l with Ret _ => Ret (tt, s) | Err e => Err e end.
Definition join_core (i : Z) : A unit := l ← deref (λ s, aget (acoral_timed_time s) i); run_join l.

Definition acoral_admis_ctl_init (cpu max_time_min : Z) : C Z :=
  let interval := u32 (u32 (2 * max_time_min) + 3 * CA) in
  ad (modify (set_ctl_queue []));;
  table ← ad (deref (λ s, aget (acoral_timed_time s) cpu));
  h ← ad (deref (λ s, aget (acoral_timed_h_period s) cpu));
  '(h, table, starts) ← ad (deref (λ _, place h interval table));
  ad (modify (λ s, set_timed_time (aset cpu table (acoral_timed_time s)) s));;
  ad (modify (λ s, set_h_period (aset cpu h (acoral_timed_h_period s)) s));;
  id ← kern (create_ctl_thread (mk_ctl_thread cpu (Z.of_nat (length starts)) (start_cells h starts)));
  for_up (Z.to_nat CFG_MAX_CPU) 0 (λ i, ad (join_core i));;
  for_up (Z.to_nat CFG_MAX_CPU) 0 (λ i, ad (load_core i));;
  mret id.
End init.
