(* ===== verification/AdmisInitSpec.v ===== *)
(** * Correctness of the times of the admission thread

    The loop over the gaps ends, and then the thread's times are in order, with no
    two neighbours more than [interval] apart; the times found before are among
    them.  The slots that the loop enters into the core's table are others, an
    interval late. *)
From S2P Require Import Prelude KTypes TimedTable TimedTableSpec Floats Admis AdmisCtl AdmisInit.
From stdpp Require Import list sorting.
#[local] Open Scope Z_scope.

(** ** Gaps *)

(** The longest gap from [prev] over [xs]. *)
Fixpoint max_gap (prev : Z) (xs : list Z) : Z :=
  match xs with [] => 0 | v :: xs => Z.max (v - prev) (max_gap v xs) end.

(** What one pass makes of them. *)
Fixpoint fill (interval prev : Z) (xs : list Z) : list Z :=
  match xs with
  | [] => []
  | v :: xs => if interval <? v - prev then prev + interval :: v :: fill interval v xs else v :: fill interval v xs
  end.

(** Times of 30 bits in order. *)
Definition times_ok (l : list Z) : Prop := StronglySorted Z.le l ∧ Forall (λ v, 0 ≤ v < 2 ^ 30) l.

Lemma times_ok_cons v l : times_ok (v :: l) ↔ 0 ≤ v < 2 ^ 30 ∧ Forall (λ y, v ≤ y) l ∧ times_ok l.
Proof.
  unfold times_ok. rewrite Forall_cons. split.
  - by intros [[? ?]%StronglySorted_inv [? ?]].
  - intros (? & ? & ? & ?). split; [by constructor|done].
Qed.

Lemma times_ok_add v l : 0 ≤ v < 2 ^ 30 → times_ok l → times_ok (add_time v l).
Proof. intros Hv [Hs Hr]. split; [by apply add_time_sorted|]. rewrite add_time_perm. by constructor. Qed.

Lemma add_time_at n v l1 l2 : Forall (λ y, y ≤ n) l1 → n < v → add_time n (l1 ++ v :: l2) = l1 ++ n :: v :: l2.
Proof.
  induction 1 as [|y l1 Hy _ IH]; intros Hv; cbn [app add_time]; [by rewrite (proj2 (Z.ltb_lt n v))|].
  rewrite (proj2 (Z.ltb_ge n y)) by lia. by rewrite IH.
Qed.

Section gaps.
Context (interval : Z) (Hint : 0 < interval < 2 ^ 30).

Lemma fill_ok prev xs : times_ok (prev :: xs) → times_ok (prev :: fill interval prev xs).
Proof.
  revert prev. induction xs as [|v xs IH]; intros prev Hok; [done|]. cbn [fill].
  apply times_ok_cons in Hok as (Hp & Hle & Hok). pose proof (IH v Hok) as IHv. apply Forall_cons in Hle as [Hpv Hle].
  pose proof IHv as (Hv & Hf & _)%times_ok_cons.
  assert (∀ x, x ≤ v → Forall (λ y, x ≤ y) (v :: fill interval v xs)) as Hall.
  { intros x Hx. constructor; [done|]. eapply Forall_impl; [exact Hf|]. intros y Hy. cbv beta in *. lia. }
  destruct (Z.ltb_spec interval (v - prev)).
  - apply times_ok_cons. split; [done|]. split; [constructor; [lia|]; apply Hall; lia|].
    apply times_ok_cons. split; [lia|]. split; [apply Hall; lia|done].
  - apply times_ok_cons. split; [done|]. split; [apply Hall; lia|done].
Qed.

Lemma fill_super xs : ∀ prev, xs ⊆+ fill interval prev xs.
Proof.
  induction xs as [|v xs IH]; intros prev; cbn [fill]; [done|]. destruct (interval <? v - prev).
  - apply submseteq_cons, submseteq_skip, IH.
  - apply submseteq_skip, IH.
Qed.

Lemma max_gap_nonneg xs : ∀ prev, 0 ≤ max_gap prev xs.
Proof. induction xs as [|v xs IH]; intros prev; cbn; [done|]. pose proof (IH v). lia. Qed.

Lemma max_gap_fill xs : ∀ prev, max_gap prev (fill interval prev xs) ≤ Z.max interval (max_gap prev xs - interval).
Proof.
  induction xs as [|v xs IH]; intros prev; cbn [fill max_gap]; [lia|]. pose proof (IH v). pose proof (max_gap_nonneg xs v).
  destruct (Z.ltb_spec interval (v - prev)); cbn [max_gap]; lia.
Qed.

Lemma max_gap_span xs : ∀ prev, times_ok (prev :: xs) → max_gap prev xs ≤ default prev (last (prev :: xs)) - prev.
Proof.
  induction xs as [|v xs IH]; intros prev Hok; [cbn; lia|]. apply times_ok_cons in Hok as (_ & Hle & Hok).
  pose proof (IH v Hok) as IHv. apply Forall_cons in Hle as [Hpv _]. rewrite last_cons_cons. cbn [max_gap].
  assert (is_Some (last (v :: xs))) as [z Hz] by (apply last_is_Some; done). rewrite Hz in *. cbn in *.
  pose proof (max_gap_nonneg xs v). lia.
Qed.

(** One pass over the queue. *)
Lemma gap_pass_run xs : ∀ pre prev table,
  times_ok (pre ++ prev :: xs) →
  ∃ table', gap_pass xs prev interval (table, pre ++ prev :: xs) =
    (interval <? max_gap prev xs, (table', pre ++ prev :: fill interval prev xs)).
Proof.
  induction xs as [|v xs IH]; intros pre prev table Hok; cbn [gap_pass fill max_gap].
  { exists table. by rewrite (proj2 (Z.ltb_ge interval 0)) by lia. }
  pose proof Hok as [Hs Hr]. apply StronglySorted_app in Hs as (Hpre & _ & [Hs Hle]%StronglySorted_inv).
  apply Forall_app in Hr as [_ [Hp [Hv _]%Forall_cons]%Forall_cons]. apply Forall_cons in Hle as [Hpv _].
  rewrite (wrapu_small 32 (v - prev)) by lia. pose proof (max_gap_nonneg xs v).
  destruct (Z.ltb_spec interval (v - prev)) as [L|L].
  - rewrite (wrapu_small 32 (prev + interval)), wraps_small by lia. cbn [fst snd].
    assert (add_time (prev + interval) (pre ++ prev :: v :: xs) = (pre ++ [prev; prev + interval]) ++ v :: xs) as E.
    { rewrite cons_middle, app_assoc, add_time_at; [by rewrite <- !app_assoc| |lia]. apply Forall_app. split.
      - apply Forall_forall. intros y Hy. pose proof (Hpre y prev Hy ltac:(left)). lia.
      - repeat constructor. lia. }
    rewrite E. match goal with |- context [gap_pass xs v interval (?t, _)] => destruct (IH (pre ++ [prev; prev + interval]) v t) as [t' Ht'] end.
    { rewrite <- E. apply times_ok_add; [lia|done]. }
    rewrite Ht'. exists t'. rewrite (proj2 (Z.ltb_lt interval (Z.max (v - prev) (max_gap v xs)))) by lia. cbn. by rewrite <- app_assoc.
  - destruct (IH (pre ++ [prev]) v table) as [t' Ht']; [by rewrite <- app_assoc|].
    rewrite <- app_assoc in Ht'. cbn [app] in Ht'. rewrite Ht'. exists t'. rewrite <- app_assoc. cbn [app].
    f_equal. destruct (Z.ltb_spec interval (max_gap v xs)); [rewrite (proj2 (Z.ltb_lt _ _)) by lia|rewrite (proj2 (Z.ltb_ge _ _)) by lia]; done.
Qed.

Lemma fill_same xs : ∀ prev, max_gap prev xs ≤ interval → fill interval prev xs = xs.
Proof.
  induction xs as [|v xs IH]; intros prev Hm; cbn [fill max_gap] in *; [done|].
  rewrite (proj2 (Z.ltb_ge interval (v - prev))) by lia. by rewrite IH by lia.
Qed.

(** The loop ends, without a gap over [interval]. *)
Lemma gap_loop_run fuel : ∀ table a xs,
  times_ok (a :: xs) → max_gap a xs ≤ (Z.of_nat fuel + 1) * interval →
  ∃ table' xs', gap_loop fuel interval (table, a :: xs) = Some (table', a :: xs') ∧
    times_ok (a :: xs') ∧ max_gap a xs' ≤ interval ∧ xs ⊆+ xs'.
Proof.
  induction fuel as [|fuel IH]; intros table a xs Hok Hm; cbn [gap_loop snd];
    destruct (gap_pass_run xs [] a table Hok) as [t Ht]; cbn [app] in Ht; rewrite Ht.
  - rewrite (proj2 (Z.ltb_ge _ _)) by lia. exists t, xs. rewrite fill_same by lia. split_and!; [done|done|lia|done].
  - destruct (Z.ltb_spec interval (max_gap a xs)).
    + destruct (IH t a (fill interval a xs)) as (t' & xs' & Hrun & Hok' & Hm' & Hsub); [by apply fill_ok| |].
      { pose proof (max_gap_fill xs a). lia. }
      exists t', xs'. split_and!; [done|done|done|]. etransitivity; [apply fill_super|done].
    + exists t, xs. rewrite fill_same by lia. split_and!; [done|done|lia|done].
Qed.
End gaps.

(** ** The times that are found first *)
Definition pairs (ps : list (Z * Z)) : list Z := ps ≫= λ p, [p.1; p.2].

Lemma behind_run h ps : ∀ starts,
  h < 2 ^ 29 → Forall (λ p : Z * Z, 0 ≤ p.1 ∧ 0 ≤ p.2 ≤ h) ps → times_ok starts →
  ∃ starts', behind (pairs ps) starts = Some (pairs ((λ p, (p.1, p.2 + CA)) <$> ps), starts') ∧
    times_ok starts' ∧ starts' ≡ₚ (snd <$> ps) ++ starts.
Proof.
  intros starts Hh Hps. revert starts. induction Hps as [|[a e] ps [Ha He] Hps IH]; intros starts Hok; [by exists starts|].
  cbn [fst snd] in *. destruct (IH (add_time e starts)) as (s' & Hrun & Hok' & Hperm); [apply times_ok_add; [lia|done]|].
  exists s'. split_and!; [|done|].
  - cbn. change (ps ≫= _) with (pairs ps). rewrite Hrun. cbn. by rewrite wraps_small by (unfold CA; lia).
  - rewrite Hperm, add_time_perm. cbn. by rewrite Permutation_middle.
Qed.

Lemma ahead_run ps : ∀ prev starts,
  0 ≤ prev → Forall (λ p : Z * Z, p.1 < 2 ^ 30 ∧ 0 ≤ p.2) ps → times_ok starts →
  ∃ table starts', ahead prev (pairs ps) starts = Some (table, starts') ∧ times_ok starts' ∧ starts ⊆+ starts'.
Proof.
  intros prev starts Hp Hps. revert prev starts Hp. induction Hps as [|[a e] ps [Ha He] Hps IH]; intros prev starts Hp Hok.
  { by exists [], starts. }
  cbn [fst snd] in *. cbn. change (ps ≫= _) with (pairs ps).
  destruct (Z.leb_spec CA (a - prev)) as [L|L].
  - destruct (IH e (add_time (a - CA) starts)) as (t & s' & Hrun & Hok' & Hsub); [done|apply times_ok_add; [unfold CA in *; lia|done]|].
    rewrite Hrun. do 2 eexists. split_and!; [done|done|]. etransitivity; [|exact Hsub]. rewrite add_time_perm. by apply submseteq_cons.
  - destruct (IH e starts) as (t & s' & Hrun & Hok' & Hsub); [done|done|]. rewrite Hrun. by do 2 eexists.
Qed.

Lemma at_begin_ok x : times_ok x.2 → times_ok (at_begin x).2 ∧ x.2 ⊆+ (at_begin x).2.
Proof.
  destruct x as [t s]. unfold at_begin. intros Hok. case_match; [|done]. cbn in *.
  split; [by apply times_ok_add|]. rewrite add_time_perm. by apply submseteq_cons.
Qed.

Lemma at_end_ok h x : CA ≤ h < 2 ^ 29 → times_ok x.2 → times_ok (at_end h x).2 ∧ x.2 ⊆+ (at_end h x).2.
Proof.
  destruct x as [t s]. unfold at_end. intros Hh Hok. case_match; [|done]. cbn [snd] in *. unfold CA in *.
  rewrite (wrapu_small 32 (h - 50)), wraps_small by lia.
  split; [apply times_ok_add; [lia|done]|]. rewrite add_time_perm. by apply submseteq_cons.
Qed.

(** C20 On a core with timed threads, whose queue has a start and an end for each
    slot, the search for times ends: the times are in order, the end of each slot
    is one of them, and no two neighbours are more than [interval] apart. *)
Theorem place_close h interval ps :
  ps ≠ [] → Forall (λ p : Z * Z, 0 ≤ p.1 < 2 ^ 30 ∧ 0 ≤ p.2 ≤ h) ps → CA ≤ h < 2 ^ 29 → 0 < interval < 2 ^ 30 →
  ∃ table a starts, place h interval (pairs ps) = Some (h, table, a :: starts) ∧
    times_ok (a :: starts) ∧ max_gap a starts ≤ interval ∧ (snd <$> ps) ⊆+ a :: starts.
Proof.
  intros Hne Hps Hh Hint.
  destruct (behind_run h ps []) as (s1 & Hbehind & Hok1 & Hperm); [lia|eapply Forall_impl; [exact Hps|]; intros p Hp; cbv beta in *; lia|by repeat constructor|].
  destruct (ahead_run ((λ p, (p.1, p.2 + CA)) <$> ps) 0 s1) as (t2 & s2 & Hahead & Hok2 & Hsub2); [done| |done|].
  { apply Forall_fmap. eapply Forall_impl; [exact Hps|]. intros p Hp. unfold CA. cbn in *. lia. }
  destruct (at_begin_ok (t2, s2) Hok2) as [Hok3 Hsub3]. destruct (at_end_ok h _ Hh Hok3) as [Hok4 Hsub4].
  set (x := at_end h (at_begin (t2, s2))) in *.
  assert ((snd <$> ps) ⊆+ x.2) as Hall.
  { transitivity s1; [by rewrite Hperm, app_nil_r|]. transitivity s2; [done|]. etransitivity; [exact Hsub3|exact Hsub4]. }
  destruct x as [t [|a xs]] eqn:Ex; cbn [snd] in *.
  { destruct ps as [|p ps]; [done|]. by apply submseteq_nil_r in Hall. }
  destruct (gap_loop_run interval Hint (gap_fuel (a :: xs)) t a xs Hok4) as (t' & xs' & Hrun & Hok' & Hm & Hsub).
  { pose proof (max_gap_span xs a Hok4) as Hspan. unfold gap_fuel. cbn [head] in *.
    assert (is_Some (last (a :: xs))) as [z Hz] by (by apply last_is_Some). rewrite Hz in *. cbn in *. nia. }
  exists t', a, xs'. split_and!; [|done|done|etransitivity; [exact Hall|by apply submseteq_skip]].
  unfold place. destruct ps as [|p ps]; [done|]. change (pairs (p :: ps)) with (p.1 :: p.2 :: pairs ps) in *.
  rewrite Hbehind. cbn [mbind option_bind]. rewrite Hahead. cbn [mbind option_bind]. fold x. rewrite Ex. cbn [snd]. by rewrite Hrun.
Qed.

Lemma place_close_witness :
  ∃ table a starts, place 40000 8150 [7000; 11000] = Some (40000, table, a :: starts) ∧ max_gap a starts ≤ 8150.
Proof.
  destruct (place_close 40000 8150 [(7000, 11000)]) as (t & a & s & H1 & _ & H2 & _); [done|repeat constructor; cbn; lia|unfold CA; lia|lia|].
  by exists t, a, s.
Defined.

(** The starts that the loop adds are at 19150, 27300 and 35450; the slots that it
    adds begin at 27300, 35450 and 43600, the last behind the end of the period. *)
Example slots_late :
  place 40000 8150 [7000; 11000] =
  Some (40000, [0; 50; 6950; 11050; 27300; 27350; 35450; 35500; 39950; 40000; 43600; 43650], [0; 6950; 11000; 19150; 27300; 35450; 39950]).
Proof. vm_compute. reflexivity. Qed.

(** Two slots that touch: the node of an end is deleted twice. *)
Example join_deadlock : join_slots [0; 50; 50; 100] = Err Deadlock.
Proof. reflexivity. Qed.
