(* ===== verification/VolMem.v ===== *)
(** * kernel/src/mem.c, second half: allocation of blocks of any size

    [vol_malloc] cuts its region into blocks.  Each starts with a header word
    that holds its size (header included), a magic number and a used bit; the
    blocks follow each other from [down_p] to [top_p].  Allocation is next-fit
    from [freep_p], with one wrap around; freeing merges with a free successor
    and a free predecessor.

    The state has the words of memory by address, so that a header may be read
    anywhere, and [Wild] is an access outside the map.  The region comes from
    the block allocator of the first half and the functions run under a mutex:
    both are interfaces here ([Allocator], [Mutex]). *)
From S2P Require Import Prelude Interfaces.
From stdpp Require Import list.
#[local] Open Scope Z_scope.

Definition CFG_MEM_VOL_SIZE : Z := 327680.
Definition MAGIC : Z := 0xcc.
Definition MAGIC_MASK : Z := 0xfe.
Definition USETAG_MASK : Z := 0x1.
Definition SIZE_MASK : Z := 0xffffff00.
Definition SIZE_SHIFT : Z := 8.

Definition BLOCK_CHECK (v : Z) : bool := Z.land v MAGIC_MASK =? MAGIC.
Definition BLOCK_GET_SIZE (v : Z) : Z := Z.shiftr (Z.land v SIZE_MASK) SIZE_SHIFT.
Definition BLOCK_IS_FREE (v : Z) : bool := Z.land v USETAG_MASK =? 0.
Definition BLOCK_IS_USED (v : Z) : bool := Z.land v USETAG_MASK =? 1.

(** The words [BLOCK_SET_USED] and [BLOCK_SET_FREE] store. *)
Definition block_used (size : Z) : Z := u32 (Z.lor (Z.lor (Z.shiftl size SIZE_SHIFT) 0x1) MAGIC).
Definition block_free (size : Z) : Z := u32 (Z.lor (Z.shiftl size SIZE_SHIFT) MAGIC).

(** [struct vol_mem_ctrl_t] without its mutex, and the memory. *)
Record vstate : Type := mk_v {
  v_mem : gmap Z Z;
  v_top : Z;
  v_down : Z;
  v_freep : Z;
  v_state : Z;
}.

Definition set_v_mem (m : gmap Z Z) (v : vstate) : vstate :=
  mk_v m (v_top v) (v_down v) (v_freep v) (v_state v).

Definition set_v_freep (p : Z) (v : vstate) : vstate :=
  mk_v (v_mem v) (v_top v) (v_down v) p (v_state v).

Definition set_v_state (x : Z) (v : vstate) : vstate :=
  mk_v (v_mem v) (v_top v) (v_down v) (v_freep v) x.

Definition set_v_region (down top : Z) (v : vstate) : vstate :=
  mk_v (v_mem v) top down down (v_state v).

Definition mload (a : Z) : M vstate Z := deref (λ v, v_mem v !! a).

Definition mstore (a x : Z) : M vstate unit := λ v,
  match v_mem v !! a with
  | Some _ => Ret (tt, set_v_mem (<[a := x]> (v_mem v)) v)
  | None => Err Wild
  end.

(** The search shared by the two loops of [vol_r_malloc]: [Some r] is the
    result the function returns, [None] the end of the loop.  [size] is
    [acoral_32]; comparing it with [b_size] converts it to unsigned. *)
Fixpoint vol_search (fuel : nat) (ctp stop size : Z) : M vstate (option Z) :=
  if ctp <? stop then
    h ← mload ctp;
    if BLOCK_GET_SIZE h =? 0 then mret (Some 0)
    else if BLOCK_IS_USED h || (BLOCK_GET_SIZE h <? u32 size) then
      match fuel with
      | O => fail Diverge
      | S fuel => vol_search fuel (ctp + BLOCK_GET_SIZE h) stop size
      end
    else
      mstore ctp (block_used size);;
      when (0 <? u32 (BLOCK_GET_SIZE h - size))
        (mstore (ctp + size) (block_free (u32 (BLOCK_GET_SIZE h - size))));;
      modify (set_v_freep (ctp + size));;
      mret (Some (ctp + size - size + 4))
  else mret None.

(** [vol_r_malloc] between [acoral_mutex_pend] and [acoral_mutex_post], which
    it calls on every path. *)
Definition vol_r_malloc_body (arg : Z) : M vstate Z :=
  let len := s32 (arg + 4) in
  freep ← get v_freep;
  top ← get v_top;
  fuel ← get (λ v, size (v_mem v));
  r ← vol_search fuel freep top len;
  match r with
  | Some p => mret p
  | None =>
      down ← get v_down;
      freep ← get v_freep;
      r ← vol_search fuel down freep len;
      match r with
      | Some p => mret p
      | None => mret 0
      end
  end.

(** The walk of [vol_free] to the block before [p]: its address and size, or
    [None] on a block of size 0. *)
Fixpoint vol_find_prev (fuel : nat) (ctp p prev sz : Z) : M vstate (option (Z * Z)) :=
  if ctp <? p then
    h ← mload ctp;
    if BLOCK_GET_SIZE h =? 0 then mret None
    else
      match fuel with
      | O => fail Diverge
      | S fuel => vol_find_prev fuel (ctp + BLOCK_GET_SIZE h) p ctp (BLOCK_GET_SIZE h)
      end
  else mret (Some (prev, sz)).

(** Merging with the successor at [tp]: the size of the merged block, or
    [None] when the successor is free and has size 0. *)
Definition vol_merge_next (tp b_size : Z) : M vstate (option Z) :=
  h ← mload tp;
  if BLOCK_IS_FREE h then
    if BLOCK_GET_SIZE h =? 0 then mret None
    else mstore tp 0;; mret (Some (u32 (b_size + BLOCK_GET_SIZE h)))
  else mret (Some b_size).

(** [vol_free] after [acoral_mutex_pend]; the result says whether it calls
    [acoral_mutex_post] before it returns. *)
Definition vol_free_body (p : Z) : M vstate bool :=
  down ← get v_down;
  top ← get v_top;
  if (p =? 0) || (p <? down) || (top <=? p) then mret false else
  h ← mload p;
  if negb (BLOCK_CHECK h) then mret false else
  if BLOCK_IS_FREE h then mret false else
  r ← vol_merge_next (p + BLOCK_GET_SIZE h) (BLOCK_GET_SIZE h);
  match r with
  | None => mret true
  | Some b_size =>
      mstore p (block_free b_size);;
      modify (set_v_freep p);;
      if p =? down then mret true else
      fuel ← get (λ v, size (v_mem v));
      r ← vol_find_prev fuel down p p 0;
      match r with
      | None => mret true
      | Some (prev, sz) =>
          hp ← mload prev;
          (if BLOCK_IS_FREE hp then
             mstore p 0;;
             mstore prev (block_free (u32 (b_size + sz)));;
             modify (set_v_freep prev)
           else mret tt);;
          mret true
      end
  end.

(** The lines of [vol_mem_scan]: address, used, size; the second component
    says that a block of size 0 stopped it. *)
Fixpoint vol_scan_loop (fuel : nat) (ctp : Z) (out : list (Z * bool * Z)) :
    M vstate (list (Z * bool * Z) * bool) :=
  h ← mload ctp;
  if BLOCK_GET_SIZE h =? 0 then mret (out, true) else
  let out := out ++ [(ctp, BLOCK_IS_USED h, BLOCK_GET_SIZE h)] in
  top ← get v_top;
  if ctp + BLOCK_GET_SIZE h <? top then
    match fuel with
    | O => fail Diverge
    | S fuel => vol_scan_loop fuel (ctp + BLOCK_GET_SIZE h) out
    end
  else mret (out, false).

Definition vol_mem_scan : M vstate (list (Z * bool * Z) * bool) :=
  st ← get v_state;
  if st =? 0 then mret ([], true) else
  down ← get v_down;
  fuel ← get (λ v, size (v_mem v));
  vol_scan_loop fuel down [].

Section vol_ops.
Context {S : Type} `{!Allocator S, !Mutex S} (lv : lens S vstate).

Definition vol_mem_init : M S unit :=
  len ← al_malloc_size CFG_MEM_VOL_SIZE;
  p ← al_malloc len;
  if p =? 0 then zoom lv (modify (set_v_state 0))
  else
    zoom lv (modify (set_v_state 1));;
    mx_init;;
    zoom lv (modify (set_v_region p (p + len)));;
    zoom lv (mstore p (block_free len)).

Definition vol_r_malloc (arg : Z) : M S Z :=
  mx_pend;;
  r ← zoom lv (vol_r_malloc_body arg);
  mx_post;;
  mret r.

Definition vol_malloc (arg : Z) : M S Z :=
  st ← zoom lv (get v_state);
  if st =? 0 then mret 0
  else vol_r_malloc (Z.land (s32 (arg + 3)) (Z.lnot 3)).

Definition vol_free (p : Z) : M S unit :=
  st ← zoom lv (get v_state);
  if st =? 0 then mret tt else
  mx_pend;;
  posted ← zoom lv (vol_free_body (u32 (p - 4)));
  if (posted : bool) then mx_post else mret tt.
End vol_ops.

(** ** The words of a header *)
Definition word_ok (n : Z) : Prop := 4 ≤ n < 2 ^ 24 ∧ n mod 4 = 0.

Definition block_word (b : bool * Z) : Z := if b.1 then block_used b.2 else block_free b.2.

Lemma testbit_small c i : 0 ≤ c < 256 → 8 ≤ i → Z.testbit c i = false.
Proof.
  intros Hc Hi. rewrite <- (Z.mod_small c (2 ^ 8)) by (simpl; lia).
  by rewrite Z.mod_pow2_bits_high by lia.
Qed.

Lemma header_bit n c i : 0 ≤ c < 256 → 0 ≤ i →
  Z.testbit (Z.lor (Z.shiftl n 8) c) i = if decide (i < 8) then Z.testbit c i else Z.testbit n (i - 8).
Proof.
  intros Hc Hi. rewrite Z.lor_spec, Z.shiftl_spec by done. case_decide.
  - by rewrite Z.testbit_neg_r by lia.
  - rewrite (testbit_small c) by lia. apply orb_false_r.
Qed.

Lemma header_u32 n c : 0 ≤ n < 2 ^ 24 → 0 ≤ c < 256 →
  u32 (Z.lor (Z.shiftl n 8) c) = Z.lor (Z.shiftl n 8) c.
Proof.
  intros Hn Hc. apply Z.bits_inj'. intros i Hi. rewrite wrapu_testbit by lia.
  rewrite header_bit by done. case_bool_decide; [done|]. rewrite decide_False by lia.
  rewrite <- (Z.mod_small n (2 ^ 24)) by lia. by rewrite Z.mod_pow2_bits_high by lia.
Qed.

Lemma header_low n c m : 0 ≤ c < 256 → 0 ≤ m < 256 →
  Z.land (Z.lor (Z.shiftl n 8) c) m = Z.land c m.
Proof.
  intros Hc Hm. apply Z.bits_inj'. intros i Hi. rewrite !Z.land_spec, header_bit by done.
  case_decide; [done|]. by rewrite (testbit_small m), !andb_false_r by lia.
Qed.

Lemma header_size n c : 0 ≤ n < 2 ^ 24 → 0 ≤ c < 256 →
  BLOCK_GET_SIZE (Z.lor (Z.shiftl n 8) c) = n.
Proof.
  intros Hn Hc. unfold BLOCK_GET_SIZE, SIZE_SHIFT. rewrite Z.shiftr_land.
  change (Z.shiftr SIZE_MASK 8) with (Z.ones 24).
  apply Z.bits_inj'. intros i Hi. rewrite Z.land_spec, Z.shiftr_spec, header_bit by lia.
  rewrite decide_False by lia. replace (i + 8 - 8) with i by lia.
  destruct (decide (i < 24)).
  - rewrite Z.ones_spec_low by lia. apply andb_true_r.
  - rewrite Z.ones_spec_high by lia. rewrite <- (Z.mod_small n (2 ^ 24)) by lia.
    by rewrite Z.mod_pow2_bits_high by lia.
Qed.

(** The fields of a header are the ones stored in it. *)
Lemma block_word_fields u n : 0 ≤ n < 2 ^ 24 →
  BLOCK_GET_SIZE (block_word (u, n)) = n ∧ BLOCK_IS_USED (block_word (u, n)) = u ∧
  BLOCK_IS_FREE (block_word (u, n)) = negb u ∧ BLOCK_CHECK (block_word (u, n)) = true.
Proof.
  intros Hn. assert (∃ c, 0 ≤ c < 256 ∧ block_word (u, n) = Z.lor (Z.shiftl n 8) c ∧
    Z.land c USETAG_MASK = (if u then 1 else 0) ∧ Z.land c MAGIC_MASK = MAGIC) as (c & Hc & -> & Hu & Hm).
  { destruct u; unfold block_word, block_used, block_free, SIZE_SHIFT; simpl fst; simpl snd; cbn iota.
    - exists (Z.lor 1 MAGIC). rewrite <- Z.lor_assoc, header_u32 by (done || (unfold MAGIC; simpl; lia)).
      by split_and!.
    - exists MAGIC. rewrite header_u32 by (done || (unfold MAGIC; simpl; lia)). by split_and!. }
  split_and!; [by apply header_size|..].
  - unfold BLOCK_IS_USED. rewrite header_low, Hu by done. by destruct u.
  - unfold BLOCK_IS_FREE. rewrite header_low, Hu by done. by destruct u.
  - unfold BLOCK_CHECK. rewrite header_low, Hm by done. done.
Qed.

(** ** The blocks of the region *)

(** [bs], in address order, are the blocks from address [a]: used, size. *)
Fixpoint tiles (m : gmap Z Z) (a : Z) (bs : list (bool * Z)) : Prop :=
  match bs with
  | [] => True
  | b :: bs => word_ok b.2 ∧ m !! a = Some (block_word b) ∧ tiles m (a + b.2) bs
  end.

Definition total (bs : list (bool * Z)) : Z := foldr (λ b t, b.2 + t) 0 bs.

(** The addresses of the headers. *)
Fixpoint headers (a : Z) (bs : list (bool * Z)) : list Z :=
  match bs with
  | [] => []
  | b :: bs => a :: headers (a + b.2) bs
  end.

(** The blocks that are in use: address of the header and size. *)
Fixpoint live (a : Z) (bs : list (bool * Z)) : list (Z * Z) :=
  match bs with
  | [] => []
  | b :: bs => (if b.1 then [(a, b.2)] else []) ++ live (a + b.2) bs
  end.

(** No two neighbours are both free. *)
Fixpoint coalesced (bs : list (bool * Z)) : Prop :=
  match bs with
  | b :: (c :: _) as bs' => (b.1 || c.1 = true) ∧ coalesced bs'
  | _ => True
  end.

(** The abstract state of the allocator is a list of blocks and a cursor: the
    blocks [pre ++ suf] tile the region, no two free ones are adjacent,
    [freep_p] is the address of the first block of [suf] (the end, if there is
    none), and every word of the region is in memory. *)
Record vrep (v : vstate) (pre suf : list (bool * Z)) : Prop := {
  vr_tiles : tiles (v_mem v) (v_down v) (pre ++ suf);
  vr_top : v_down v + total (pre ++ suf) = v_top v;
  vr_bound : 0 < v_down v ∧ v_top v < 2 ^ 32 ∧ total (pre ++ suf) < 2 ^ 24;
  vr_freep : v_freep v = v_down v + total pre;
  vr_words : ∀ x, v_down v ≤ x < v_top v → (x - v_down v) mod 4 = 0 → is_Some (v_mem v !! x);
  vr_merged : coalesced (pre ++ suf);
}.

Lemma total_app l k : total (l ++ k) = total l + total k.
Proof. unfold total. induction l as [|b l IH]; simpl; lia. Qed.

Lemma total_cons b l : total (b :: l) = b.2 + total l.
Proof. done. Qed.

Lemma tiles_app m l : ∀ a k, tiles m a (l ++ k) ↔ tiles m a l ∧ tiles m (a + total l) k.
Proof.
  induction l as [|b l IH]; intros a k; simpl.
  - rewrite Z.add_0_r. naive_solver.
  - rewrite IH, Z.add_assoc. naive_solver.
Qed.

Lemma tiles_ok m a l : tiles m a l → 0 ≤ total l ∧ total l mod 4 = 0 ∧ 4 * Z.of_nat (length l) ≤ total l.
Proof.
  revert a. induction l as [|b l IH]; intros a; simpl; [done|].
  intros ([? Hm] & _ & (? & ? & ?)%IH). split_and!; [lia| |lia].
  rewrite <- Zplus_mod_idemp_l, Hm, Z.add_0_l. done.
Qed.

Lemma headers_app l : ∀ a k, headers a (l ++ k) = headers a l ++ headers (a + total l) k.
Proof.
  induction l as [|b l IH]; intros a k; simpl; [by rewrite Z.add_0_r|].
  by rewrite IH, Z.add_assoc.
Qed.

Lemma headers_range m l : ∀ a x, tiles m a l → x ∈ headers a l → a ≤ x < a + total l ∧ is_Some (m !! x).
Proof.
  induction l as [|b l IH]; intros a x; simpl; [intros _ []%elem_of_nil|].
  intros ([? Hm] & Ha & Ht) [->|Hx]%elem_of_cons.
  - pose proof (tiles_ok _ _ _ Ht). split; [lia|eauto].
  - destruct (IH _ _ Ht Hx) as [? ?]. split; [lia|done].
Qed.

(** Writing outside the headers of a list of blocks. *)
Lemma tiles_store m l y w : ∀ a, y ∉ headers a l → tiles m a l → tiles (<[y := w]> m) a l.
Proof.
  induction l as [|b l IH]; intros a; simpl; [done|].
  rewrite not_elem_of_cons. intros [Hy Hr] (Hok & Ha & Ht).
  split; [done|]. split; [by rewrite lookup_insert_ne|by apply IH].
Qed.

Lemma headers_after m l a y : tiles m a l → y < a → y ∉ headers a l.
Proof. intros Ht Hy Hin. destruct (headers_range _ _ _ _ Ht Hin). lia. Qed.

Lemma headers_before m l a y : tiles m a l → a + total l ≤ y → y ∉ headers a l.
Proof. intros Ht Hy Hin. destruct (headers_range _ _ _ _ Ht Hin). lia. Qed.

(** The words of memory outnumber the blocks: the fuel of the loops. *)
Lemma tiles_fuel m a l : tiles m a l → (length l ≤ size m)%nat.
Proof.
  intros Ht. assert (NoDup (headers a l)) as Hnd.
  { revert a Ht. induction l as [|b l IH]; intros a; simpl; [constructor|].
    intros ([? _] & _ & Ht). constructor; [|by apply IH]. by eapply headers_after; [|lia]. }
  assert (length (headers a l) = length l) as <-.
  { clear. revert a. induction l; intros; simpl; congruence. }
  rewrite <- size_dom, <- (size_list_to_set (C := gset Z)) by done.
  apply subseteq_size. intros x Hx%elem_of_list_to_set. apply elem_of_dom.
  by eapply headers_range.
Qed.

Lemma run_mload a x v : v_mem v !! a = Some x → mload a v = Ret (x, v).
Proof. exact (run_deref (λ v, v_mem v !! a) v x). Qed.

Lemma run_mstore a x v : is_Some (v_mem v !! a) → mstore a x v = Ret (tt, set_v_mem (<[a := x]> (v_mem v)) v).
Proof. intros [y Hy]. unfold mstore. by rewrite Hy. Qed.

(** ** Allocation *)
Definition no_fit (len : Z) (b : bool * Z) : Prop := b.1 = true ∨ b.2 < len.

Fixpoint first_fit (len : Z) (bs : list (bool * Z)) : option (list (bool * Z) * Z * list (bool * Z)) :=
  match bs with
  | [] => None
  | b :: bs =>
      if negb b.1 && (len <=? b.2) then Some ([], b.2, bs)
      else match first_fit len bs with
           | Some (l, n, r) => Some (b :: l, n, r)
           | None => None
           end
  end.

(** What is left of a block of size [n] after [len] bytes are taken from it. *)
Definition remainder (n len : Z) : list (bool * Z) := if n =? len then [] else [(false, n - len)].

(** Allocation on the abstract state: from the cursor to the end, then from the
    start to the cursor. *)
Definition next_fit (len : Z) (pre suf : list (bool * Z)) : option (list (bool * Z) * list (bool * Z)) :=
  match first_fit len suf with
  | Some (l, n, r) => Some (pre ++ l ++ [(true, len)], remainder n len ++ r)
  | None =>
      match first_fit len pre with
      | Some (l, n, r) => Some (l ++ [(true, len)], remainder n len ++ r ++ suf)
      | None => None
      end
  end.

Lemma first_fit_spec len bs :
  match first_fit len bs with
  | Some (l, n, r) => bs = l ++ (false, n) :: r ∧ Forall (no_fit len) l ∧ len ≤ n
  | None => Forall (no_fit len) bs
  end.
Proof.
  induction bs as [|b bs IH]; simpl; [done|].
  destruct (negb b.1 && (len <=? b.2)) eqn:E.
  - apply andb_true_iff in E as [Hu%negb_true_iff Hl%Z.leb_le].
    destruct b as [u n]; simpl in *; subst. by split_and!.
  - assert (no_fit len b) as Hno.
    { apply andb_false_iff in E as [Hu%negb_false_iff|Hl%Z.leb_gt]; [by left|by right]. }
    destruct (first_fit len bs) as [[[l k] r]|]; [|by constructor].
    destruct IH as (-> & ? & ?). split; [done|]. split; [by constructor|done].
Qed.

Section search.
Context (v : vstate) (len : Z) (Hlen : word_ok len).

Lemma len_u32 : u32 len = len.
Proof. apply wrapu_small. destruct Hlen. lia. Qed.

(** Blocks that do not fit are skipped. *)
Lemma search_skip mid : ∀ fuel a stop,
  tiles (v_mem v) a mid → Forall (no_fit len) mid → a + total mid ≤ stop → (length mid ≤ fuel)%nat →
  ∃ fuel', vol_search fuel a stop len v = vol_search fuel' (a + total mid) stop len v.
Proof.
  induction mid as [|[u n] mid IH]; intros fuel a stop Ht Hn Hs Hf; simpl in *.
  - exists fuel. by rewrite Z.add_0_r.
  - destruct Ht as ([Hok Hmod] & Ha & Ht). apply Forall_cons in Hn as [Hno Hn].
    pose proof (tiles_ok _ _ _ Ht). destruct (block_word_fields u n) as (HS & HU & _ & _); [lia|].
    destruct fuel as [|fuel]; [lia|]. cbn [vol_search].
    destruct (Z.ltb_spec a stop); [|lia].
    destruct (IH fuel (a + n) stop) as [f' Hf']; [done..|lia|lia|]. exists f'.
    erewrite run_bind by (by apply run_mload). rewrite HS, HU, len_u32.
    destruct (Z.eqb_spec n 0); [lia|]. rewrite Z.add_assoc, <- Hf'.
    destruct Hno as [Hu | Hno]; simpl in *; [by rewrite Hu|].
    by rewrite (proj2 (Z.ltb_lt _ _)), orb_true_r by lia.
Qed.

Lemma search_end fuel a : vol_search fuel a a len v = Ret (None, v).
Proof. destruct fuel; cbn [vol_search]; by rewrite Z.ltb_irrefl. Qed.

(** The words a successful search leaves. *)
Definition cut (a n : Z) : vstate :=
  set_v_freep (a + len) (set_v_mem
    (if n =? len then <[a := block_word (true, len)]> (v_mem v)
     else <[a + len := block_word (false, n - len)]> (<[a := block_word (true, len)]> (v_mem v))) v).

Lemma search_hit fuel a stop n :
  a < stop → word_ok n → len ≤ n → v_mem v !! a = Some (block_word (false, n)) →
  (n ≠ len → is_Some (v_mem v !! (a + len))) →
  vol_search fuel a stop len v = Ret (Some (a + 4), cut a n).
Proof.
  intros Hs [Hn _] Hle Ha Hw. destruct (block_word_fields false n) as (HS & HU & _ & _); [lia|].
  destruct Hlen as [? _].
  assert (vol_search fuel a stop len v =
    (mstore a (block_used len);;
     when (0 <? u32 (n - len)) (mstore (a + len) (block_free (u32 (n - len))));;
     modify (set_v_freep (a + len));;
     mret (Some (a + len - len + 4))) v) as ->.
  { destruct fuel; cbn [vol_search]; (destruct (Z.ltb_spec a stop); [|lia]);
      erewrite run_bind by (by apply run_mload); rewrite HS, HU, len_u32;
      (destruct (Z.eqb_spec n 0); [lia|]); rewrite (proj2 (Z.ltb_ge _ _)) by done; reflexivity. }
  rewrite (wrapu_small 32 (n - len)) by lia.
  erewrite run_bind by (apply run_mstore; eauto). unfold cut, when.
  replace (a + len - len + 4) with (a + 4) by lia.
  destruct (Z.eqb_spec n len) as [->|Hne].
  - rewrite Z.sub_diag. done.
  - rewrite (proj2 (Z.ltb_lt _ _)) by lia.
    erewrite run_bind by (apply run_mstore; simpl; rewrite lookup_insert_ne by lia; by apply Hw).
    reflexivity.
Qed.
End search.

(** The tiling after a cut. *)
Lemma cut_tiles m d l n r len :
  tiles m d (l ++ (false, n) :: r) → word_ok len → len ≤ n → (n - len) mod 4 = 0 →
  let a := d + total l in
  tiles (if n =? len then <[a := block_word (true, len)]> m
         else <[a + len := block_word (false, n - len)]> (<[a := block_word (true, len)]> m))
    d (l ++ (true, len) :: remainder n len ++ r).
Proof.
  intros [Hl (Hok & Ha & Hr)]%tiles_app Hlen Hle Hmod a. simpl in *.
  pose proof (tiles_ok _ _ _ Hl). pose proof (tiles_ok _ _ _ Hr). destruct Hlen as [? ?].
  apply tiles_app. unfold remainder. destruct (Z.eqb_spec n len) as [->|Hne]; simpl.
  - split; [apply tiles_store; [by eapply headers_before; [|unfold a]|done]|].
    split; [done|]. split; [apply lookup_insert_eq|].
    apply tiles_store; [|done]. eapply headers_after; [done|unfold a; lia].
  - assert (word_ok (n - len)) as Hrest.
    { split; [|done]. destruct Hok as [? _]. split; [|lia].
      assert ((n - len) mod 4 ≤ n - len) by (apply Z.mod_le; lia).
      destruct (Z.eq_dec (n - len) 0); [lia|].
      assert (∃ k, n - len = 4 * k) as [k ?] by (exists ((n - len) / 4); apply Z.div_exact; lia). lia. }
    split; [do 2 (apply tiles_store; [eapply headers_before; [done|unfold a; lia]|]); done|].
    split; [done|]. split; [rewrite lookup_insert_ne by lia; apply lookup_insert_eq|].
    split; [done|]. split; [apply lookup_insert_eq|].
    replace (d + total l + len + (n - len)) with (d + total l + n) by lia.
    do 2 (apply tiles_store; [eapply headers_after; [done|unfold a; lia]|]). done.
Qed.

Lemma total_cut l n r len : total (l ++ (true, len) :: remainder n len ++ r) = total (l ++ (false, n) :: r).
Proof.
  rewrite !total_app. simpl. rewrite total_app. unfold remainder.
  destruct (Z.eqb_spec n len); simpl; lia.
Qed.

Lemma live_app l : ∀ a k, live a (l ++ k) = live a l ++ live (a + total l) k.
Proof.
  induction l as [|b l IH]; intros a k; simpl; [by rewrite Z.add_0_r|].
  by rewrite IH, Z.add_assoc, app_assoc.
Qed.

Lemma live_cut a l n r len :
  live a (l ++ (true, len) :: remainder n len ++ r) ≡ₚ (a + total l, len) :: live a (l ++ (false, n) :: r).
Proof.
  rewrite !live_app. simpl. rewrite live_app. unfold remainder.
  destruct (Z.eqb_spec n len) as [->|]; simpl.
  - rewrite Z.add_0_r. by rewrite Permutation_middle.
  - replace (a + total l + len + (n - len + 0)) with (a + total l + n) by lia.
    by rewrite Permutation_middle.
Qed.

Lemma coalesced_app l b k : coalesced (l ++ b :: k) ↔ coalesced (l ++ [b]) ∧ coalesced (b :: k).
Proof.
  induction l as [|c [|d l] IH]; simpl in *; [naive_solver..|].
  split; [intros [? [? ?]%IH]|intros [[? ?] ?]]; split_and!; try done. by apply IH.
Qed.

Lemma coalesced_cut l n r len :
  coalesced (l ++ (false, n) :: r) → coalesced (l ++ (true, len) :: remainder n len ++ r).
Proof.
  intros [Hl Hr]%coalesced_app. apply coalesced_app. split.
  - clear Hr. induction l as [|c [|d l] IH]; simpl in *; [done|by rewrite orb_true_r|].
    destruct Hl. split; [done|by apply IH].
  - unfold remainder. destruct r as [|b r]; destruct (Z.eqb_spec n len); simpl in *; naive_solver.
Qed.

Lemma headers_cut l : ∀ a n r len,
  headers a (l ++ (false, n) :: r) ⊆ headers a (l ++ (true, len) :: remainder n len ++ r).
Proof.
  intros a n r len. rewrite !headers_app. simpl. rewrite headers_app. unfold remainder.
  destruct (Z.eqb_spec n len) as [->|]; simpl; [by rewrite Z.add_0_r|].
  replace (a + total l + len + (n - len + 0)) with (a + total l + n) by lia.
  intros x. rewrite !elem_of_app, !elem_of_cons. naive_solver.
Qed.

(** What an allocation of [len] bytes at block [a] has changed. *)
Record allocated (v : vstate) (bs : list (bool * Z)) (a len : Z) (v' : vstate)
    (pre' suf' : list (bool * Z)) : Prop := {
  al_rep : vrep v' pre' suf';
  al_region : v_down v' = v_down v ∧ v_top v' = v_top v ∧ v_state v' = v_state v;
  al_from : ∃ l n r, bs = l ++ (false, n) :: r ∧ len ≤ n ∧ a = v_down v + total l;
  al_live : live (v_down v) (pre' ++ suf') ≡ₚ (a, len) :: live (v_down v) bs;
  al_frame : ∀ x, x ∉ headers (v_down v) (pre' ++ suf') → v_mem v' !! x = v_mem v !! x;
}.

Lemma cut_allocated v pre suf l n r len :
  vrep v pre suf → pre ++ suf = l ++ (false, n) :: r → word_ok len → len ≤ n →
  allocated v (pre ++ suf) (v_down v + total l) len (cut v len (v_down v + total l) n)
    (l ++ [(true, len)]) (remainder n len ++ r).
Proof.
  intros [Ht Htop Hb Hf Hw Hm] Hbs Hlen Hle. rewrite Hbs in *.
  assert (word_ok n) as [? Hn] by (apply tiles_app in Ht; apply Ht). pose proof Hlen as [? Hl].
  assert ((n - len) mod 4 = 0) as Hmod by (rewrite Zminus_mod, Hn, Hl; done).
  pose proof (cut_tiles _ _ _ _ _ _ Ht Hlen Hle Hmod) as Hcut.
  assert ((l ++ [(true, len)]) ++ remainder n len ++ r = l ++ (true, len) :: remainder n len ++ r) as E
    by by rewrite <- app_assoc.
  split.
  - split; simpl; rewrite ?E, ?total_cut; try done.
    + rewrite total_app. simpl. lia.
    + intros x Hx Hx4. destruct (Hw x Hx Hx4). case_match; rewrite ?lookup_insert_is_Some'; eauto.
    + by apply coalesced_cut.
  - done.
  - eauto 10.
  - rewrite E. apply live_cut.
  - intros x Hx. rewrite E in Hx. simpl.
    rewrite headers_app, not_elem_of_app in Hx. simpl in Hx. rewrite not_elem_of_cons in Hx.
    destruct Hx as (_ & Hxa & Hx). unfold remainder in Hx.
    destruct (Z.eqb_spec n len); rewrite ?lookup_insert_ne by done; [done|].
    simpl in Hx. apply not_elem_of_cons in Hx as [Hx _].
    by rewrite !lookup_insert_ne by congruence.
Qed.

(** The header that a cut writes after the block is in memory. *)
Lemma cut_room v pre suf l n r len :
  vrep v pre suf → pre ++ suf = l ++ (false, n) :: r → word_ok len → len ≤ n → n ≠ len →
  is_Some (v_mem v !! (v_down v + total l + len)).
Proof.
  intros [Ht Htop _ _ Hw _] Hbs [? Hl] Hle Hne. rewrite Hbs in *.
  apply tiles_app in Ht as [Ht1 [_ [_ Ht2]]]. rewrite total_app in Htop. simpl in *.
  pose proof (tiles_ok _ _ _ Ht1). pose proof (tiles_ok _ _ _ Ht2).
  apply Hw; [lia|]. replace (_ - v_down v) with (total l + len) by lia.
  rewrite Zplus_mod, Hl. replace (total l mod 4) with 0 by lia. done.
Qed.

Lemma total_le l u n r m a : tiles m a (l ++ (u, n) :: r) → 0 ≤ total l ∧ total l + n ≤ total (l ++ (u, n) :: r).
Proof.
  intros [H1 (_ & _ & H2)]%tiles_app. rewrite total_app. simpl in *.
  pose proof (tiles_ok _ _ _ H1). pose proof (tiles_ok _ _ _ H2). lia.
Qed.

(** Searching [mid], the blocks from address [a] to [stop]. *)
Lemma search_run v pre suf p mid q fuel len :
  vrep v pre suf → pre ++ suf = p ++ mid ++ q → word_ok len → (length mid ≤ fuel)%nat →
  vol_search fuel (v_down v + total p) (v_down v + total p + total mid) len v =
    match first_fit len mid with
    | Some (l, n, r) =>
        Ret (Some (v_down v + total (p ++ l) + 4), cut v len (v_down v + total (p ++ l)) n)
    | None => Ret (None, v)
    end.
Proof.
  intros HV Hbs Hlen Hf. pose proof (vr_tiles _ _ _ HV) as Ht. rewrite Hbs in Ht.
  apply tiles_app in Ht as [_ [Ht _]%tiles_app].
  pose proof (first_fit_spec len mid) as Hff. destruct (first_fit len mid) as [[[l n] r]|].
  - destruct Hff as (-> & Hno & Hle). pose proof (total_le _ _ _ _ _ _ Ht).
    apply tiles_app in Ht as [Hl (Hok & Ha & _)]. simpl in *. rewrite length_app in Hf.
    destruct Hok as [? ?].
    destruct (search_skip v len Hlen l fuel (v_down v + total p)
      (v_down v + total p + total (l ++ (false, n) :: r))) as [f ->]; [done..|lia|lia|].
    rewrite (total_app p l), Z.add_assoc. apply search_hit; [done|lia|done..|].
    intros Hne. rewrite <- (Z.add_assoc _ (total p)), <- (total_app p l).
    eapply (cut_room v pre suf (p ++ l) n (r ++ q)); [done| |done..].
    rewrite Hbs, <- !app_assoc. done.
  - destruct (search_skip v len Hlen mid fuel (v_down v + total p) (v_down v + total p + total mid))
      as [f ->]; [done..|lia|done|]. apply search_end.
Qed.

(** The length that [vol_malloc] allocates for a request. *)
Definition vol_len (arg : Z) : Z := (arg + 3) / 4 * 4 + 4.

Lemma vol_len_ok arg : 0 ≤ arg ≤ 2 ^ 24 - 8 →
  word_ok (vol_len arg) ∧ vol_len arg = s32 (Z.land (s32 (arg + 3)) (Z.lnot 3) + 4).
Proof.
  intros Ha. assert (0 ≤ (arg + 3) / 4 ≤ 2 ^ 22 - 2) as Hq.
  { split; [apply Z.div_pos; lia|].
    assert ((arg + 3) / 4 < 2 ^ 22 - 1); [apply Z.div_lt_upper_bound|]; lia. }
  unfold vol_len. split.
  - split; [lia|]. rewrite <- Zplus_mod_idemp_l, Z_mod_mult. done.
  - rewrite (wraps_small 32 (arg + 3)) by lia.
    assert (Z.land (arg + 3) (Z.lnot 3) = (arg + 3) / 4 * 4) as ->.
    { change 3 with (Z.ones 2) at 2. rewrite <- Z.ldiff_land, Z.ldiff_ones_r by done.
      rewrite Z.shiftl_mul_pow2, Z.shiftr_div_pow2 by done. done. }
    rewrite wraps_small; lia.
Qed.

Lemma malloc_body_run v pre suf len :
  vrep v pre suf → word_ok len → len = s32 (len - 4 + 4) →
  vol_r_malloc_body (len - 4) v =
    match first_fit len suf with
    | Some (l, n, r) => Ret (v_down v + total (pre ++ l) + 4, cut v len (v_down v + total (pre ++ l)) n)
    | None =>
        match first_fit len pre with
        | Some (l, n, r) => Ret (v_down v + total l + 4, cut v len (v_down v + total l) n)
        | None => Ret (0, v)
        end
    end.
Proof.
  intros HV Hlen Hs. unfold vol_r_malloc_body. rewrite <- Hs.
  pose proof (tiles_fuel _ _ _ (vr_tiles _ _ _ HV)) as Hfuel. rewrite length_app in Hfuel.
  pose proof (vr_top _ _ _ HV) as Htop. rewrite total_app in Htop.
  do 3 erewrite run_bind by reflexivity. rewrite (vr_freep _ _ _ HV).
  assert (v_top v = v_down v + total pre + total suf) as -> by lia.
  pose proof (search_run v pre suf pre suf [] (size (v_mem v)) len HV) as H1.
  unfold mbind at 1, M_bind at 1. rewrite H1; [|by rewrite app_nil_r|done|lia]. clear H1.
  destruct (first_fit len suf) as [[[l n] r]|]; [done|].
  do 2 erewrite run_bind by reflexivity. rewrite (vr_freep _ _ _ HV).
  pose proof (search_run v pre suf [] pre suf (size (v_mem v)) len HV) as H2.
  change (total []) with 0 in H2. rewrite !Z.add_0_r in H2.
  unfold mbind at 1, M_bind at 1. rewrite H2 by (done || lia).
  destruct (first_fit len pre) as [[[l n] r]|]; done.
Qed.

(** The allocator as a whole: either a block is allocated or none is large enough. *)
Lemma malloc_body_spec v pre suf len :
  vrep v pre suf → word_ok len → len = s32 (len - 4 + 4) →
  match next_fit len pre suf with
  | Some (pre', suf') => ∃ a v',
      vol_r_malloc_body (len - 4) v = Ret (a + 4, v') ∧ allocated v (pre ++ suf) a len v' pre' suf'
  | None => vol_r_malloc_body (len - 4) v = Ret (0, v) ∧ Forall (no_fit len) (pre ++ suf)
  end.
Proof.
  intros HV Hlen Hs. rewrite (malloc_body_run v pre suf len) by done. unfold next_fit.
  pose proof (first_fit_spec len suf) as H1. destruct (first_fit len suf) as [[[l n] r]|].
  - destruct H1 as (E & _ & Hle). eexists _, _. split; [done|].
    rewrite app_assoc. eapply cut_allocated; [done| |done..]. by rewrite E, <- app_assoc.
  - pose proof (first_fit_spec len pre) as H2. destruct (first_fit len pre) as [[[l n] r]|].
    + destruct H2 as (E & _ & Hle). eexists _, _. split; [done|].
      eapply cut_allocated; [done| |done..]. by rewrite E, <- app_assoc.
    + split; [done|]. by apply Forall_app.
Qed.

(** ** Freeing *)
Definition merge_next (n : Z) (rest : list (bool * Z)) : Z * list (bool * Z) :=
  match rest with (false, k) :: r => (n + k, r) | _ => (n, rest) end.

Definition merge_prev (l : list (bool * Z)) (n : Z) : list (bool * Z) * Z :=
  match reverse l with (false, k) :: q => (reverse q, n + k) | _ => (l, n) end.

Definition starts_used (r : list (bool * Z)) : Prop := match r with b :: _ => b.1 = true | [] => True end.
Definition ends_used (l : list (bool * Z)) : Prop := starts_used (reverse l).

Lemma coalesced_cons b r :
  coalesced (b :: r) ↔ coalesced r ∧ (b.1 = true ∨ starts_used r).
Proof. destruct r as [|c r]; simpl; [naive_solver|]. rewrite orb_true_iff. naive_solver. Qed.

Lemma coalesced_snoc l b : coalesced (l ++ [b]) ↔ coalesced l ∧ (b.1 = true ∨ ends_used l).
Proof.
  induction l as [|c l IH]; [simpl; unfold ends_used; simpl; naive_solver|].
  change ((c :: l) ++ [b]) with (c :: (l ++ [b])). rewrite !coalesced_cons, IH.
  unfold ends_used. rewrite reverse_cons. destruct l as [|e l]; simpl; [naive_solver|].
  rewrite reverse_cons. destruct (reverse l); simpl; naive_solver.
Qed.

Lemma coalesced_mid l b r :
  coalesced (l ++ b :: r) ↔
  coalesced l ∧ coalesced r ∧ (b.1 = true ∨ (ends_used l ∧ starts_used r)).
Proof. rewrite coalesced_app, coalesced_snoc, coalesced_cons. naive_solver. Qed.

Lemma merge_next_spec n rest n' rest' :
  coalesced rest → merge_next n rest = (n', rest') →
  starts_used rest' ∧ coalesced rest' ∧ n' + total rest' = n + total rest.
Proof.
  intros Hc. destruct rest as [|[[] k] r]; simpl; intros [= <- <-]; split_and!; try done; try lia.
  - apply coalesced_cons in Hc as [_ [|]]; done.
  - by apply coalesced_cons in Hc as [? _].
Qed.

Lemma merge_prev_snoc l u k n :
  merge_prev (l ++ [(u, k)]) n = if (u : bool) then (l ++ [(u, k)], n) else (l, n + k).
Proof. unfold merge_prev. rewrite reverse_snoc. destruct u; [done|]. by rewrite reverse_involutive. Qed.

Lemma live_free a n : ∀ r, live a ((false, n) :: r) = live (a + n) r.
Proof. done. Qed.

(** Merging with the successor: memory, blocks and the addresses written. *)
Lemma free_next_run v l n b r d :
  tiles (v_mem v) d (l ++ (true, n) :: b :: r) → total (l ++ (true, n) :: b :: r) < 2 ^ 24 →
  ∃ m, vol_merge_next (d + total l + n) n v = Ret (Some (merge_next n (b :: r)).1, set_v_mem m v) ∧
    tiles (<[d + total l := block_free (merge_next n (b :: r)).1]> m) d
      (l ++ (false, (merge_next n (b :: r)).1) :: (merge_next n (b :: r)).2) ∧
    (∀ x, x ∉ headers d (l ++ (true, n) :: b :: r) → m !! x = v_mem v !! x) ∧
    (∀ x, is_Some (v_mem v !! x) → is_Some (m !! x)).
Proof.
  intros Ht Htot. assert (Ht' := Ht). apply tiles_app in Ht' as [Hl (Hok & Ha & Hokb & Hb & Hr)].
  destruct b as [u k]. simpl in *. rewrite total_app in Htot. simpl in Htot.
  pose proof (tiles_ok _ _ _ Hl). pose proof (tiles_ok _ _ _ Hr).
  pose proof Hok as [? Hn4]. pose proof Hokb as [? Hk4].
  destruct (block_word_fields u k) as (HS & _ & HF & _); [lia|].
  unfold vol_merge_next. erewrite run_bind by (by apply run_mload). rewrite HS, HF.
  destruct u; simpl.
  - exists (v_mem v). split; [by destruct v|]. split; [|done].
    apply tiles_app. split; [apply tiles_store; [by eapply headers_before; [|lia]|done]|].
    split; [done|]. split; [apply lookup_insert_eq|]. split; [done|].
    simpl. split; [by rewrite lookup_insert_ne by lia|].
    apply tiles_store; [|done]. eapply headers_after; [done|lia].
  - destruct (Z.eqb_spec k 0); [lia|]. exists (<[d + total l + n := 0]> (v_mem v)).
    assert (word_ok (n + k)) as Hnk.
    { split; [lia|]. by rewrite <- Zplus_mod_idemp_l, Hn4, Z.add_0_l. }
    split_and!.
    + erewrite run_bind by (apply run_mstore; eauto). rewrite wrapu_small by lia. done.
    + apply tiles_app. split; [do 2 (apply tiles_store; [by eapply headers_before; [|lia]|]); done|].
      split; [done|]. split; [apply lookup_insert_eq|]. simpl snd. rewrite Z.add_assoc.
      do 2 (apply tiles_store; [by eapply headers_after; [|lia]|]). done.
    + intros x Hx. apply lookup_insert_ne. intros <-. apply Hx. rewrite headers_app. simpl.
      rewrite elem_of_app, !elem_of_cons. naive_solver.
    + intros x Hx. rewrite lookup_insert_is_Some'. eauto.
Qed.

(** The walk to the predecessor. *)
Lemma find_prev_run v l : ∀ fuel a u k prev sz,
  tiles (v_mem v) a (l ++ [(u, k)]) → (length l < fuel)%nat →
  vol_find_prev fuel a (a + total (l ++ [(u, k)])) prev sz v = Ret (Some (a + total l, k), v).
Proof.
  assert (∀ fuel p prev sz, vol_find_prev fuel p p prev sz v = Ret (Some (prev, sz), v)) as Hend.
  { intros [] p prev sz; cbn [vol_find_prev]; by rewrite Z.ltb_irrefl. }
  induction l as [|[u' k'] l IH]; intros fuel a u k prev sz Ht Hf;
    (destruct fuel as [|fuel]; [simpl in Hf; lia|]); simpl app in *; cbn [vol_find_prev].
  - destruct Ht as ([? _] & Ha & _). simpl in *. destruct (block_word_fields u k) as (HS & _); [lia|].
    rewrite (proj2 (Z.ltb_lt _ _)) by lia. erewrite run_bind by (by apply run_mload). rewrite HS.
    destruct (Z.eqb_spec k 0); [lia|].
    replace (a + (k + 0)) with (a + k) by lia. rewrite Hend. by rewrite Z.add_0_r.
  - destruct Ht as ([? _] & Ha & Ht). pose proof (tiles_ok _ _ _ Ht) as (? & _ & _). simpl in *.
    destruct (block_word_fields u' k') as (HS & _); [lia|].
    rewrite (proj2 (Z.ltb_lt _ _)) by lia. erewrite run_bind by (by apply run_mload). rewrite HS.
    destruct (Z.eqb_spec k' 0); [lia|]. rewrite Z.add_assoc, IH by (done || lia).
    by rewrite Z.add_assoc.
Qed.

(** What freeing block [(a, n)] has changed. *)
Record freed (v : vstate) (bs : list (bool * Z)) (a n : Z) (v' : vstate)
    (pre' suf' : list (bool * Z)) : Prop := {
  fr_rep : vrep v' pre' suf';
  fr_region : v_down v' = v_down v ∧ v_top v' = v_top v ∧ v_state v' = v_state v;
  fr_cursor : ∃ k rest, suf' = (false, k) :: rest ∧ v_down v + total pre' ≤ a ∧
    a + n ≤ v_down v + total pre' + k;
  fr_live : (a, n) :: live (v_down v) (pre' ++ suf') ≡ₚ live (v_down v) bs;
  fr_frame : ∀ x, x ∉ headers (v_down v) bs → v_mem v' !! x = v_mem v !! x;
}.

(** The abstract effect of the two merges. *)
Lemma merge_next_live a n rest :
  live (a + n) rest = live (a + (merge_next n rest).1) (merge_next n rest).2.
Proof. destruct rest as [|[[] k] r]; [done..|]. simpl. by rewrite Z.add_assoc. Qed.

Lemma merge_prev_spec m a l n rest :
  tiles m a l → coalesced l → starts_used rest → coalesced rest →
  let l' := (merge_prev l n).1 in let n' := (merge_prev l n).2 in
  live a (l' ++ (false, n') :: rest) = live a (l ++ (false, n) :: rest) ∧
  coalesced (l' ++ (false, n') :: rest) ∧ total l' + n' = total l + n ∧ total l' ≤ total l.
Proof.
  intros Ht Hl Hu Hr. destruct l as [|[u k] l _] using rev_ind.
  { cbn -[coalesced]. rewrite coalesced_cons. split; [done|]. by split; [auto|]. }
  rewrite merge_prev_snoc. destruct u; cbn [fst snd].
  - split; [done|]. split; [|done]. apply coalesced_mid. split; [done|]. split; [done|].
    right. split; [|done]. unfold ends_used. by rewrite reverse_snoc.
  - apply coalesced_snoc in Hl as [Hl [|Hend]]; [done|]. apply tiles_app in Ht as [_ ([? _] & _)].
    cbn [snd] in *. split; [|split; [apply coalesced_mid; auto|rewrite !total_app; simpl; lia]].
    rewrite <- app_assoc, !live_app. simpl. do 2 f_equal. lia.
Qed.

(** The end of [vol_free_body], after the successor was merged. *)
Definition free_tail (a n : Z) : M vstate bool :=
  down ← get v_down;
  if a =? down then mret true else
  fuel ← get (λ v, size (v_mem v));
  r ← vol_find_prev fuel down a a 0;
  match r with
  | None => mret true
  | Some (prev, sz) =>
      hp ← mload prev;
      (if BLOCK_IS_FREE hp then
         mstore a 0;;
         mstore prev (block_free (u32 (n + sz)));;
         modify (set_v_freep prev)
       else mret tt);;
      mret true
  end.

Lemma free_tail_run v l n rest :
  tiles (v_mem v) (v_down v) (l ++ (false, n) :: rest) → total (l ++ (false, n) :: rest) < 2 ^ 24 →
  let a := v_down v + total l in
  v_freep v = a →
  ∃ m, free_tail a n v = Ret (true, set_v_freep (v_down v + total (merge_prev l n).1) (set_v_mem m v)) ∧
    tiles m (v_down v) ((merge_prev l n).1 ++ (false, (merge_prev l n).2) :: rest) ∧
    (∀ x, x ∉ headers (v_down v) (l ++ (false, n) :: rest) → m !! x = v_mem v !! x) ∧
    (∀ x, is_Some (v_mem v !! x) → is_Some (m !! x)).
Proof.
  intros Ht Htot a Hfp. unfold free_tail. erewrite run_bind by reflexivity.
  destruct l as [|[u k] l _] using rev_ind.
  { exists (v_mem v). rewrite (proj2 (Z.eqb_eq a (v_down v))) by (unfold a, total; simpl; lia).
    split_and!; try done. change (v_down v + total (merge_prev [] n).1) with a. rewrite <- Hfp. by destruct v. }
  assert (Ht' := Ht). apply tiles_app in Ht' as [Hl (Hn & Ha & Hr)]. fold a in Ha, Hr. cbn [snd] in Hn, Hr.
  pose proof Hl as [Hl0 (Hk & Hprev & _)]%tiles_app. cbn [snd] in Hk.
  pose proof (tiles_ok _ _ _ Hl0). pose proof (tiles_ok _ _ _ Hr) as [? _].
  rewrite total_app, total_cons in Htot. cbn [snd] in Htot.
  assert (a = v_down v + total l + k) as Hak by (unfold a; rewrite total_app; simpl; lia).
  assert (total (l ++ [(u, k)]) = total l + k) as Etot by (rewrite total_app; simpl; lia).
  pose proof Hk as [? Hk4]. pose proof Hn as [? Hn4].
  rewrite (proj2 (Z.eqb_neq a (v_down v))) by lia. erewrite run_bind by reflexivity.
  erewrite run_bind by (apply find_prev_run; [done|];
    pose proof (tiles_fuel _ _ _ Hl) as Hf; rewrite length_app in Hf; simpl in Hf; lia).
  cbn iota. erewrite run_bind by (by apply run_mload). fold a.
  destruct (block_word_fields u k) as (_ & _ & HF & _); [lia|]. rewrite HF, merge_prev_snoc.
  destruct u; cbn [negb fst snd].
  - exists (v_mem v). split_and!; try done. fold a. rewrite <- Hfp. by destruct v.
  - exists (<[v_down v + total l := block_word (false, n + k)]> (<[a := 0]> (v_mem v))).
    rewrite (wrapu_small 32 (n + k)) by lia.
    split; [|split; [|split]].
    + unfold mbind at 1, M_bind at 1.
      erewrite run_bind by (apply run_mstore; eauto).
      erewrite run_bind by (apply run_mstore; simpl; rewrite lookup_insert_is_Some'; eauto). done.
    + apply tiles_app. split; [do 2 (apply tiles_store; [eapply headers_before; [done|lia]|]); done|].
      split; [split; [cbn [snd]; lia|cbn [snd]; by rewrite <- Zplus_mod_idemp_l, Hn4]|].
      split; [apply lookup_insert_eq|]. cbn [snd].
      replace (v_down v + total l + (n + k)) with (a + n) by lia.
      do 2 (apply tiles_store; [eapply headers_after; [done|lia]|]). done.
    + intros x Hx. rewrite !headers_app in Hx. simpl in Hx. fold a in Hx.
      rewrite !not_elem_of_app, !not_elem_of_cons in Hx.
      rewrite !lookup_insert_ne by naive_solver. done.
    + intros x Hx. rewrite !lookup_insert_is_Some'. eauto.
Qed.

(** [vol_free] on a block in use that is not the last of the region. *)
Lemma free_body_run v pre suf l n b r :
  vrep v pre suf → pre ++ suf = l ++ (true, n) :: b :: r →
  let a := v_down v + total l in
  let n1 := (merge_next n (b :: r)).1 in
  ∃ m, (∀ x, x ∉ headers (v_down v) (pre ++ suf) → m !! x = v_mem v !! x) ∧
    (∀ x, is_Some (v_mem v !! x) → is_Some (m !! x)) ∧
    tiles m (v_down v) (l ++ (false, n1) :: (merge_next n (b :: r)).2) ∧
    vol_free_body a v = free_tail a n1 (set_v_freep a (set_v_mem m v)).
Proof.
  intros HV Hbs a n1. pose proof (vr_tiles _ _ _ HV) as Ht.
  pose proof (vr_bound _ _ _ HV) as (Hd & _ & Htot). pose proof (vr_top _ _ _ HV) as Htop. rewrite Hbs in *.
  destruct (free_next_run v l n b r (v_down v) Ht Htot) as (m & Hrun & Ht1 & Hfr & Hdom).
  fold n1 a in Hrun, Ht1. assert (Ht' := Ht). apply tiles_app in Ht' as [Hl ([Hok _] & Ha & Hb)].
  simpl in Hok. pose proof (tiles_ok _ _ _ Hl). pose proof (tiles_ok _ _ _ Hb) as [? _].
  rewrite total_app, total_cons in Htop. cbn [snd] in Htop.
  destruct (block_word_fields true n) as (HS & _ & HF & HC); [lia|].
  assert (a ∈ headers (v_down v) (l ++ (true, n) :: b :: r)) as Hain.
  { rewrite headers_app. simpl. rewrite elem_of_app, elem_of_cons. auto. }
  exists (<[a := block_free n1]> m). split_and!.
  - intros x Hx. rewrite lookup_insert_ne by congruence. by apply Hfr.
  - intros x Hx. rewrite lookup_insert_is_Some'. eauto.
  - done.
  - unfold vol_free_body. do 2 erewrite run_bind by reflexivity.
    rewrite (proj2 (Z.eqb_neq a 0)), (proj2 (Z.ltb_ge a (v_down v))), (proj2 (Z.leb_gt (v_top v) a)) by lia.
    cbn [orb]. erewrite run_bind by (by apply run_mload). rewrite HC, HF. cbn [negb].
    rewrite HS. erewrite run_bind by exact Hrun. cbn iota.
    erewrite run_bind by (apply run_mstore, Hdom; eauto). reflexivity.
Qed.

Lemma free_body_spec v pre suf l n b r :
  vrep v pre suf → pre ++ suf = l ++ (true, n) :: b :: r →
  ∃ v' pre' suf', vol_free_body (v_down v + total l) v = Ret (true, v') ∧
    freed v (pre ++ suf) (v_down v + total l) n v' pre' suf'.
Proof.
  intros HV Hbs. destruct (free_body_run v pre suf l n b r HV Hbs) as (m & Hfr & Hdom & Ht & Hrun).
  destruct HV as [Ht0 Htop Hb _ Hw Hc]. rewrite Hbs in *.
  apply coalesced_mid in Hc as (Hcl & Hcr & _). destruct (tiles_app (v_mem v) l (v_down v) ((true, n) :: b :: r)) as [E _].
  destruct (E Ht0) as [Hl0 _]. clear E.
  destruct (merge_next n (b :: r)) as [n1 rest] eqn:Emn. cbn [fst snd] in *.
  destruct (merge_next_spec n (b :: r) n1 rest Hcr Emn) as (Hsu & Hcrest & Hn1).
  assert (total (l ++ (false, n1) :: rest) = total (l ++ (true, n) :: b :: r)) as Htot.
  { rewrite !total_app, !(total_cons (_, _)). cbn [snd]. lia. }
  assert (n ≤ n1) as Hle.
  { apply tiles_app in Ht0 as (_ & _ & _ & Hr0). destruct Hr0 as ([? _] & _).
    destruct b as [[] k]; simpl in *; injection Emn; intros; subst; lia. }
  set (a := v_down v + total l) in *. set (v1 := set_v_freep a (set_v_mem m v)) in *.
  destruct (free_tail_run v1 l n1 rest) as (m' & Hrun' & Ht' & Hfr' & Hdom'); [done|simpl; lia|done|].
  change (v_down v1 + total l) with a in Hrun'. rewrite Hrun, Hrun'.
  destruct (merge_prev_spec m (v_down v) l n1 rest) as (Hlive & Hco & Hsum & Hlen); [|done..|].
  { by apply tiles_app in Ht as [? _]. }
  destruct (merge_prev l n1) as [l' n'] eqn:Emp. cbn [fst snd] in *.
  eexists _, l', ((false, n') :: rest). split; [done|].
  assert (total (l' ++ (false, n') :: rest) = total (l ++ (true, n) :: b :: r)) as Htot'.
  { rewrite <- Htot, !total_app, !total_cons. cbn [snd]. lia. }
  split; try done.
  - split; simpl; rewrite ?Htot'; try done. intros x Hx Hx4. by apply Hdom', Hdom, Hw.
  - exists n', rest. split; [done|]. unfold a. simpl. lia.
  - rewrite Hlive, !live_app, live_free. cbn [live fst snd app]. fold a.
    pose proof (merge_next_live a n (b :: r)) as Hm. rewrite Emn in Hm. cbn [fst snd] in Hm.
    rewrite <- Hm. by rewrite Permutation_middle.
  - intros x Hx. simpl. rewrite Hfr'; [apply Hfr, Hx|]. intros Hin. apply Hx.
    rewrite headers_app in Hin |- *. apply elem_of_app in Hin as [Hin|Hin]; [by apply elem_of_app; left|].
    apply elem_of_app. right. cbn [headers snd] in Hin |- *. fold a in Hin |- *.
    apply elem_of_cons in Hin as [->|Hin]; [by left|]. right.
    destruct b as [[] k]; simpl in Emn; injection Emn as <- <-; [done|].
    right. by rewrite Z.add_assoc in Hin.
Qed.

(** ** What the clients see *)

(** The promise of the mutex, for the one thread that runs: [held] says that
    the mutex is taken, and pending on a taken mutex does not return. *)
Class MutexLaws {S : Type} `{!Mutex S} (lv : lens S vstate) (held : S → bool) : Prop := {
  ml_init : ∀ s, ∃ s', mx_init s = Ret (tt, s') ∧ held s' = false ∧ view lv s' = view lv s;
  ml_pend : ∀ s, held s = false →
    ∃ s', mx_pend s = Ret (tt, s') ∧ held s' = true ∧ view lv s' = view lv s;
  ml_blocked : ∀ s, held s = true → mx_pend s = Err Deadlock;
  ml_post : ∀ s, held s = true →
    ∃ s', mx_post s = Ret (tt, s') ∧ held s' = false ∧ view lv s' = view lv s;
  ml_update : ∀ s v, held (update lv v s) = held s;
}.

(** The promise of the block allocator: [acoral_malloc_size] is the size of the
    block it would give, and the words of a block it gives are memory. *)
Class AllocatorLaws {S : Type} `{!Allocator S} (lv : lens S vstate) : Prop := {
  am_size : ∀ n s, 0 < n ≤ CFG_MEM_VOL_SIZE →
    ∃ len, al_malloc_size n s = Ret (len, s) ∧ n ≤ len ∧ word_ok len;
  am_malloc : ∀ len s, word_ok len → ∃ p s', al_malloc len s = Ret (p, s') ∧
    (p ≠ 0 → 0 < p ∧ p + len < 2 ^ 32 ∧
      ∀ x, p ≤ x < p + len → (x - p) mod 4 = 0 → is_Some (v_mem (view lv s') !! x));
}.

Section clients.
Context {S : Type} `{!Allocator S, !Mutex S} (lv : lens S vstate) `{!LensLaws lv}.
Context (held : S → bool) `{!MutexLaws lv held, !AllocatorLaws lv}.
Implicit Types s : S.

(** [m] under the mutex, posting it when [post] says so. *)
Lemma mutex_run {A} (m : M vstate A) (post : A → bool) s a v :
  held s = false → m (view lv s) = Ret (a, v) →
  ∃ s', (mx_pend;; r ← zoom lv m; if post r then mx_post;; mret r else mret r) s = Ret (a, s') ∧
    held s' = negb (post a) ∧ view lv s' = v.
Proof.
  intros Hs Hm. destruct (ml_pend s Hs) as (s1 & H1 & Hh1 & Hv1).
  erewrite run_bind by done. rewrite <- Hv1 in Hm. erewrite run_bind by (by apply run_zoom).
  destruct (post a).
  - destruct (ml_post (lv := lv) (held := held) (update lv v s1)) as (s2 & H2 & Hh2 & Hv2); [by rewrite ml_update|].
    exists s2. erewrite run_bind by done. split; [done|]. split; [done|]. by rewrite Hv2, view_update.
  - exists (update lv v s1). split; [done|]. rewrite ml_update. split; [done|]. apply view_update.
Qed.

Lemma vol_malloc_run s pre suf arg r v :
  v_state (view lv s) ≠ 0 → held s = false → 0 ≤ arg ≤ 2 ^ 24 - 8 →
  vol_r_malloc_body (vol_len arg - 4) (view lv s) = Ret (r, v) →
  vrep (view lv s) pre suf →
  ∃ s', vol_malloc lv arg s = Ret (r, s') ∧ held s' = false ∧ view lv s' = v.
Proof.
  intros Hst Hh Harg Hrun HV. destruct (vol_len_ok arg Harg) as [_ Heq].
  destruct (mutex_run (vol_r_malloc_body (vol_len arg - 4)) (λ _, true) s r v Hh Hrun) as (s' & Hr & ? & ?).
  exists s'. split; [|done]. unfold vol_malloc. erewrite run_bind by (by apply run_zoom).
  rewrite update_view, (proj2 (Z.eqb_neq _ 0)) by done. rewrite <- Hr. unfold vol_r_malloc.
  assert (Z.land (s32 (arg + 3)) (Z.lnot 3) = vol_len arg - 4) as ->; [|done].
  unfold vol_len. rewrite (wraps_small 32 (arg + 3)) by lia.
  change 3 with (Z.ones 2) at 2. rewrite <- Z.ldiff_land, Z.ldiff_ones_r by done.
  rewrite Z.shiftl_mul_pow2, Z.shiftr_div_pow2 by done. change (2 ^ 2) with 4. lia.
Qed.

(** C4 [vol_malloc] is a next-fit allocator.  When the blocks [pre ++ suf] tile
    the region with the cursor between [pre] and [suf], a request of [arg] bytes
    returns with the mutex free, and either there is a free block of
    [vol_len arg] bytes (the request rounded up to 4, plus the header), the
    first one from the cursor on with one wrap around: then its address plus 4
    is returned, exactly that block joins the live ones, what is left of it
    stays free, the blocks still tile the region with the cursor behind the new
    block, no two free blocks are adjacent, and no word of memory other than the
    headers has changed; or no free block is large enough: then 0 is returned
    and nothing has changed. *)
Theorem vol_malloc_correct s pre suf arg :
  vrep (view lv s) pre suf → v_state (view lv s) ≠ 0 → held s = false → 0 ≤ arg ≤ 2 ^ 24 - 8 →
  ∃ r s', vol_malloc lv arg s = Ret (r, s') ∧ held s' = false ∧
    match next_fit (vol_len arg) pre suf with
    | Some (pre', suf') =>
        0 < r ∧ allocated (view lv s) (pre ++ suf) (r - 4) (vol_len arg) (view lv s') pre' suf'
    | None => r = 0 ∧ view lv s' = view lv s ∧ Forall (no_fit (vol_len arg)) (pre ++ suf)
    end.
Proof.
  intros HV Hst Hh Harg. destruct (vol_len_ok arg Harg) as [Hok _].
  pose proof (malloc_body_spec (view lv s) pre suf (vol_len arg) HV Hok) as Hspec.
  destruct (next_fit (vol_len arg) pre suf) as [[pre' suf']|].
  - destruct Hspec as (a & v & Hrun & Hal); [rewrite wraps_small; destruct Hok; lia|].
    destruct (vol_malloc_run s pre suf arg (a + 4) v) as (s' & Hr & Hh' & Hv); [done..|].
    exists (a + 4), s'. rewrite Hv. replace (a + 4 - 4) with a by lia. split_and!; try done.
    destruct Hal as [_ _ (l & n & r & E & _ & ->) _ _].
    pose proof (vr_tiles _ _ _ HV) as Ht. rewrite E in Ht. apply total_le in Ht.
    pose proof (vr_bound _ _ _ HV). lia.
  - destruct Hspec as [Hrun Hno]; [rewrite wraps_small; destruct Hok; lia|].
    destruct (vol_malloc_run s pre suf arg 0 (view lv s)) as (s' & Hr & Hh' & Hv); [done..|]. eauto 10.
Qed.

Lemma vol_free_run s p ok v :
  v_state (view lv s) ≠ 0 → held s = false → 4 ≤ p < 2 ^ 32 →
  vol_free_body (p - 4) (view lv s) = Ret (ok, v) →
  ∃ s', vol_free lv p s = Ret (tt, s') ∧ held s' = negb ok ∧ view lv s' = v.
Proof.
  intros Hst Hh Hp Hrun. destruct (mutex_run (vol_free_body (p - 4)) id s ok v Hh Hrun) as (s' & Hr & ? & ?).
  exists s'. split; [|done]. unfold vol_free. erewrite run_bind by (by apply run_zoom).
  rewrite update_view, (proj2 (Z.eqb_neq _ 0)) by done. rewrite wrapu_small by lia.
  revert Hr. unfold mbind, M_bind. destruct (mx_pend s) as [[[] s1]|]; [|done].
  destruct (zoom lv (vol_free_body (p - 4)) s1) as [[[] s2]|]; simpl; [|by intros [= <- <-]|done].
  destruct (mx_post s2) as [[[] s3]|]; [by intros [= <- <-]|done].
Qed.

(** C31 [vol_free] of a live block that is not the last one of the region returns
    with the mutex free; exactly that block has left the live ones, it has been
    merged with its free neighbours (the cursor is at the merged block, no two
    free blocks are adjacent), the blocks tile the region and no word other than
    the old headers has changed. *)
Theorem vol_free_correct s pre suf l n b r :
  vrep (view lv s) pre suf → v_state (view lv s) ≠ 0 → held s = false →
  pre ++ suf = l ++ (true, n) :: b :: r →
  let a := v_down (view lv s) + total l in
  ∃ s' pre' suf', vol_free lv (a + 4) s = Ret (tt, s') ∧ held s' = false ∧
    freed (view lv s) (pre ++ suf) a n (view lv s') pre' suf'.
Proof.
  intros HV Hst Hh Hbs a. destruct (free_body_spec _ _ _ _ _ _ _ HV Hbs) as (v & pre' & suf' & Hrun & Hfr).
  fold a in Hrun. pose proof (vr_tiles _ _ _ HV) as Ht. pose proof (vr_top _ _ _ HV) as Htop.
  rewrite Hbs in Ht, Htop. pose proof (total_le _ _ _ _ _ _ Ht).
  apply tiles_app in Ht as [_ [[? _] _]]. cbn [snd] in *. pose proof (vr_bound _ _ _ HV).
  destruct (vol_free_run s (a + 4) true v) as (s' & Hr & ? & Hv); [done..|unfold a; lia| |].
  - by replace (a + 4 - 4) with a by lia.
  - exists s', pre', suf'. by rewrite Hv.
Qed.

(** The error paths of [vol_free].  For an address outside the region, a
    word without the magic number or a block that is already free it returns
    without [acoral_mutex_post]: memory is unchanged but the mutex stays taken,
    and the next [vol_malloc] never returns.  For the last block of the region it
    reads the word after the region as if it were a header. *)
Theorem vol_free_misuse s p :
  v_state (view lv s) ≠ 0 → held s = false → 4 ≤ p < 2 ^ 32 →
  (p - 4 < v_down (view lv s) ∨ v_top (view lv s) ≤ p - 4 ∨
   (∃ w, v_mem (view lv s) !! (p - 4) = Some w ∧ (BLOCK_CHECK w = false ∨ BLOCK_IS_FREE w = true)) →
   ∃ s', vol_free lv p s = Ret (tt, s') ∧ held s' = true ∧ view lv s' = view lv s ∧
     ∀ arg, vol_malloc lv arg s' = Err Deadlock) ∧
  (∀ pre suf l n, vrep (view lv s) pre suf → pre ++ suf = l ++ [(true, n)] →
     p - 4 = v_down (view lv s) + total l → v_mem (view lv s) !! v_top (view lv s) = None →
     vol_free lv p s = Err Wild).
Proof.
  intros Hst Hh Hp. split.
  - intros Hbad. assert (vol_free_body (p - 4) (view lv s) = Ret (false, view lv s)) as Hrun.
    { unfold vol_free_body. do 2 erewrite run_bind by reflexivity.
      destruct ((p - 4 =? 0) || (p - 4 <? v_down (view lv s)) || (v_top (view lv s) <=? p - 4)) eqn:E; [done|].
      apply orb_false_iff in E as [[_ ?%Z.ltb_ge]%orb_false_iff ?%Z.leb_gt].
      destruct Hbad as [?|[?|(w & Hw & Hc)]]; [lia..|].
      erewrite run_bind by (by apply run_mload). destruct Hc as [-> | ->]; [done|]. by case_match. }
    destruct (vol_free_run s p false _ Hst Hh Hp Hrun) as (s' & Hr & Hh' & Hv).
    exists s'. split_and!; [done..|]. intros arg. unfold vol_malloc.
    erewrite run_bind by (by apply run_zoom). rewrite update_view, Hv, (proj2 (Z.eqb_neq _ 0)) by done.
    unfold vol_r_malloc, mbind, M_bind. by rewrite ml_blocked.
  - intros pre suf l n HV Hbs Ha Htop. destruct (ml_pend s Hh) as (s1 & H1 & _ & Hv1).
    unfold vol_free. erewrite run_bind by (by apply run_zoom).
    rewrite update_view, (proj2 (Z.eqb_neq _ 0)) by done. rewrite wrapu_small by lia.
    erewrite run_bind by done. unfold mbind at 1, M_bind at 1, zoom at 1. rewrite Hv1.
    destruct HV as [Ht Hsum Hb _ _ _]. rewrite Hbs in *. rewrite total_app, total_cons in Hsum, Hb.
    change (total []) with 0 in *. apply tiles_app in Ht as [Hl ([Hok _] & Hw & _)]. cbn [snd] in *.
    pose proof (tiles_ok _ _ _ Hl). destruct (block_word_fields true n) as (HS & _ & HF & HC); [lia|].
    unfold vol_free_body. do 2 erewrite run_bind by reflexivity.
    rewrite (proj2 (Z.eqb_neq (p - 4) 0)), (proj2 (Z.ltb_ge (p - 4) (v_down (view lv s)))),
      (proj2 (Z.leb_gt (v_top (view lv s)) (p - 4))) by lia. cbn [orb].
    erewrite run_bind by (apply run_mload; by rewrite Ha). rewrite HC, HF, HS. cbn [negb].
    unfold vol_merge_next, mbind, M_bind, mload, deref.
    replace (p - 4 + n) with (v_top (view lv s)) by lia. by rewrite Htop.
Qed.
(** [vol_mem_init] returns.  When the block allocator has no block, the
    allocator is marked unusable: [vol_malloc] gives 0 and [vol_free] does
    nothing.  Otherwise the region of at least [CFG_MEM_VOL_SIZE] bytes is one
    free block, with the cursor at it and the mutex free. *)
Theorem vol_mem_init_correct s :
  ∃ s', vol_mem_init lv s = Ret (tt, s') ∧
    ((v_state (view lv s') = 0 ∧ (∀ arg, vol_malloc lv arg s' = Ret (0, s')) ∧
      ∀ p, vol_free lv p s' = Ret (tt, s')) ∨
     (v_state (view lv s') = 1 ∧ held s' = false ∧
      ∃ len, CFG_MEM_VOL_SIZE ≤ len ∧ vrep (view lv s') [] [(false, len)])).
Proof.
  destruct (am_size (lv := lv) CFG_MEM_VOL_SIZE s) as (len & H1 & Hlen & Hok); [done|].
  destruct (am_malloc (lv := lv) len s Hok) as (p & s1 & H2 & Hp).
  unfold vol_mem_init. do 2 (erewrite run_bind by done).
  destruct (Z.eqb_spec p 0) as [Hz|Hnz].
  - eexists. split; [by apply run_zoom|]. left. rewrite view_update. split; [done|].
    split; intros x; [unfold vol_malloc|unfold vol_free];
      (erewrite run_bind by (by apply run_zoom)); rewrite update_view, view_update; done.
  - specialize (Hp Hnz) as (Hpos & Hhi & Hwords).
    erewrite run_bind by (by apply run_zoom).
    destruct (ml_init (lv := lv) (held := held) (update lv (set_v_state 1 (view lv s1)) s1)) as (s2 & H3 & Hh & Hv).
    erewrite run_bind by done. rewrite view_update in Hv.
    erewrite run_bind by (by apply run_zoom). rewrite Hv.
    eexists. split.
    { apply run_zoom. rewrite view_update. apply run_mstore. simpl. apply Hwords; [destruct Hok; lia|].
      by rewrite Z.sub_diag. }
    right. rewrite view_update, !ml_update. split; [done|]. split; [done|]. exists len. split; [done|].
    split; simpl; rewrite ?Z.add_0_r; try done.
    + split; [done|]. split; [apply lookup_insert_eq|done].
    + destruct Hok as [? _]. lia.
    + intros x Hx Hx4. rewrite lookup_insert_is_Some'. right. by apply Hwords.
Qed.
End clients.

(** ** A concrete client *)
Module Sample.
Definition pages (p len : Z) : gmap Z Z :=
  gset_to_gmap 0 (list_to_set ((λ i, p + 4 * i) <$> seqZ 0 (len / 4))).

Lemma pages_words p len x : p ≤ x < p + len → (x - p) mod 4 = 0 → len mod 4 = 0 → is_Some (pages p len !! x).
Proof.
  intros Hx Hx4 Hl. exists 0. unfold pages. apply lookup_gset_to_gmap_Some. split; [|done].
  apply elem_of_list_to_set, list_elem_of_fmap. exists ((x - p) / 4).
  assert (x - p = 4 * ((x - p) / 4)) as E by (by apply Z.div_exact).
  assert (len = 4 * (len / 4)) as E' by (by apply Z.div_exact).
  split; [lia|]. apply elem_of_seqZ. lia.
Qed.

Definition st : Type := vstate * bool.
Definition lv : lens st vstate := Lens fst (λ v s, (v, s.2)).
Definition held (s : st) : bool := s.2.

#[local] Instance mutex : Mutex st := {
  mx_init := λ s, Ret (tt, (s.1, false));
  mx_pend := λ s, if s.2 then Err Deadlock else Ret (tt, (s.1, true));
  mx_post := λ s, Ret (tt, (s.1, false));
}.

#[local] Instance allocator : Allocator st := {
  al_malloc_size := λ n s, Ret (524288, s);
  al_malloc := λ len s, Ret (4096, (set_v_mem (pages 4096 len) s.1, s.2));
  al_free := λ _, mret tt;
}.

#[local] Instance lens_laws : LensLaws lv.
Proof. split; [done| |done]. by intros []. Qed.

#[local] Instance mutex_laws : MutexLaws lv held.
Proof.
  split; simpl; unfold held; [by eauto|..]; [intros s ->; by eauto|by intros s ->|by eauto|done].
Qed.

#[local] Instance allocator_laws : AllocatorLaws lv.
Proof.
  split.
  - intros n s Hn. exists 524288. split_and!; [done|unfold CFG_MEM_VOL_SIZE in Hn; lia|done..].
  - intros len s [Hlen Hl4]. eexists _, _. split; [done|]. intros _. split_and!; [done|lia|].
    intros x Hx Hx4. by apply pages_words.
Qed.

(** Three blocks in a region of 64 bytes, the cursor at the second one. *)
Definition region : vstate :=
  mk_v (<[4096 := block_word (true, 16)]> (<[4112 := block_word (false, 32)]>
    (<[4144 := block_word (true, 16)]> (pages 4096 64)))) 4160 4096 4112 1.

Lemma region_rep : vrep region [(true, 16)] [(false, 32); (true, 16)].
Proof.
  split; try (by vm_compute).
  - intros x Hx Hx4. assert (is_Some (pages 4096 64 !! x)) as Hp by (by apply pages_words).
    cbn [region v_mem]. do 3 (apply lookup_insert_is_Some'; right). done.
Qed.

Lemma vol_malloc_correct_witness :
  ∃ s', vol_malloc lv 10 (region, false) = Ret (4116, s') ∧
    vrep s'.1 [(true, 16); (true, 16)] [(false, 16); (true, 16)].
Proof.
  destruct (vol_malloc_correct lv held (region, false) _ _ 10 region_rep ltac:(done) eq_refl ltac:(lia))
    as (r & s' & Hr & _ & Hal).
  change (next_fit (vol_len 10) [(true, 16)] [(false, 32); (true, 16)])
    with (Some ([(true, 16); (true, 16)], [(false, 16); (true, 16)])) in Hal.
  destruct Hal as [_ [Hrep _ (l & n & q & E & Hn & Ha) _ _]].
  exists s'. split; [|exact Hrep].
  rewrite Hr. vm_compute in Hr. injection Hr as <- <-. done.
Defined.

Lemma vol_free_correct_witness :
  ∃ s' pre' suf', vol_free lv 4100 (region, false) = Ret (tt, s') ∧
    freed region [(true, 16); (false, 32); (true, 16)] 4096 16 s'.1 pre' suf'.
Proof.
  destruct (vol_free_correct lv held (region, false) _ _ [] 16 (false, 32) [(true, 16)] region_rep
    ltac:(done) eq_refl eq_refl) as (s' & pre' & suf' & Hr & _ & Hfr).
  exists s', pre', suf'. split; [exact Hr|exact Hfr].
Defined.

Lemma vol_free_misuse_witness :
  (∃ s', vol_free lv 4116 (region, false) = Ret (tt, s') ∧ held s' = true) ∧
  vol_free lv 4148 (region, false) = Err Wild.
Proof.
  split.
  - destruct (vol_free_misuse lv held (region, false) 4116 ltac:(done) eq_refl ltac:(lia)) as [H _].
    destruct H as (s' & Hr & Hh & _); [|by exists s'].
    right. right. exists (block_word (false, 32)). split; [by vm_compute|by right].
  - destruct (vol_free_misuse lv held (region, false) 4148 ltac:(done) eq_refl ltac:(lia)) as [_ H].
    by apply (H _ _ [(true, 16); (false, 32)] 16 region_rep).
Defined.

Lemma vol_mem_init_correct_witness :
  ∃ s', vol_mem_init lv (mk_v ∅ 0 0 0 0, false) = Ret (tt, s').
Proof.
  destruct (vol_mem_init_correct lv held (mk_v ∅ 0 0 0 0, false)) as (s' & Hs & _). by exists s'.
Defined.
End Sample.
