(* ===== verification/Buddy.v ===== *)
(** * kernel/src/mem.c, first half: the buddy system

    Memory is cut into basic blocks of 128 bytes.  Level [l] has blocks of
    [2^l] basic blocks; below the top level one bit stands for two buddies, and
    is set when exactly one of them is free; on the top level one bit stands for
    one block.  [free_cur[l]] heads a list, through [free_list[l]], of the words
    of [bitmap[l]] that are not 0.  [level_0] of entry [n / 2] of
    [acoral_mem_blocks] is the level from which the block that starts at the
    even basic block [n] was allocated, negative when it is not allocated.

    The arrays are lists; the C arrays live in the heap one after the other, so
    an access outside a list, which is [Wild] here, would touch a neighbour
    there.  [acoral_mem_blocks] is not initialised: [buddy_init] takes what the
    memory held. *)
From S2P Require Import Prelude Interfaces Bitops KTypes.
From stdpp Require Import list.
#[local] Open Scope Z_scope.

Definition LEVEL : Z := 14.
Definition BLOCK_INDEX (index : Z) : Z := Z.shiftr index 1.
Definition BLOCK_SHIFT : Z := 7.
Definition BLOCK_SIZE : Z := Z.shiftl 1 BLOCK_SHIFT.
Definition MEM_NO_ALLOC : Z := 0.
Definition MEM_OK : Z := 1.

(** [sizeof(acoral_block_ctr_t)]: four arrays of 14 words, two bytes padded to
    a word, five words and the lock. *)
Definition sizeof_block_ctr : Z := 4 * LEVEL * 4 + 4 + 5 * 4 + 4.

(** [acoral_block_ctr_t] and [acoral_mem_blocks]. *)
Record bstate : Type := mk_b {
  b_free_list : list (list Z);
  b_bitmap : list (list Z);
  b_free_cur : list Z;
  b_num_l : list Z;
  b_level : Z;
  b_state : Z;
  b_start_adr : Z;
  b_end_adr : Z;
  b_block_num : Z;
  b_free_num : Z;
  b_block_size : Z;
  b_lock : Z;
  b_blocks : list Z;           (* acoral_mem_blocks[i].level_0 *)
}.

Definition set_b_free_list x (b : bstate) : bstate :=
  mk_b x (b_bitmap b) (b_free_cur b) (b_num_l b) (b_level b) (b_state b) (b_start_adr b)
    (b_end_adr b) (b_block_num b) (b_free_num b) (b_block_size b) (b_lock b) (b_blocks b).
Definition set_b_bitmap x (b : bstate) : bstate :=
  mk_b (b_free_list b) x (b_free_cur b) (b_num_l b) (b_level b) (b_state b) (b_start_adr b)
    (b_end_adr b) (b_block_num b) (b_free_num b) (b_block_size b) (b_lock b) (b_blocks b).
Definition set_b_free_cur x (b : bstate) : bstate :=
  mk_b (b_free_list b) (b_bitmap b) x (b_num_l b) (b_level b) (b_state b) (b_start_adr b)
    (b_end_adr b) (b_block_num b) (b_free_num b) (b_block_size b) (b_lock b) (b_blocks b).
Definition set_b_num_l x (b : bstate) : bstate :=
  mk_b (b_free_list b) (b_bitmap b) (b_free_cur b) x (b_level b) (b_state b) (b_start_adr b)
    (b_end_adr b) (b_block_num b) (b_free_num b) (b_block_size b) (b_lock b) (b_blocks b).
Definition set_b_state x (b : bstate) : bstate :=
  mk_b (b_free_list b) (b_bitmap b) (b_free_cur b) (b_num_l b) (b_level b) x (b_start_adr b)
    (b_end_adr b) (b_block_num b) (b_free_num b) (b_block_size b) (b_lock b) (b_blocks b).
Definition set_b_region level start_adr end_adr num (b : bstate) : bstate :=
  mk_b (b_free_list b) (b_bitmap b) (b_free_cur b) (b_num_l b) level (b_state b) start_adr
    end_adr num num BLOCK_SIZE (b_lock b) (b_blocks b).
Definition set_b_free_num x (b : bstate) : bstate :=
  mk_b (b_free_list b) (b_bitmap b) (b_free_cur b) (b_num_l b) (b_level b) (b_state b)
    (b_start_adr b) (b_end_adr b) (b_block_num b) x (b_block_size b) (b_lock b) (b_blocks b).
Definition set_b_lock x (b : bstate) : bstate :=
  mk_b (b_free_list b) (b_bitmap b) (b_free_cur b) (b_num_l b) (b_level b) (b_state b)
    (b_start_adr b) (b_end_adr b) (b_block_num b) (b_free_num b) (b_block_size b) x (b_blocks b).
Definition set_b_blocks x (b : bstate) : bstate :=
  mk_b (b_free_list b) (b_bitmap b) (b_free_cur b) (b_num_l b) (b_level b) (b_state b)
    (b_start_adr b) (b_end_adr b) (b_block_num b) (b_free_num b) (b_block_size b) (b_lock b) x.

Abbreviation B := (M bstate).

Definition lfree_list : lens bstate (list (list Z)) := Lens b_free_list set_b_free_list.
Definition lbitmap : lens bstate (list (list Z)) := Lens b_bitmap set_b_bitmap.
Definition lfree_cur : lens bstate (list Z) := Lens b_free_cur set_b_free_cur.
Definition lnum_l : lens bstate (list Z) := Lens b_num_l set_b_num_l.
Definition lblocks : lens bstate (list Z) := Lens b_blocks set_b_blocks.

(** [m] on row [i] of a matrix. *)
Definition on_row {A} (i : Z) (m : M (list Z) A) : M (list (list Z)) A := λ rows,
  match aget rows i with
  | Some r => match m r with Ret (a, r') => Ret (a, aset i r' rows) | Err e => Err e end
  | None => Err Wild
  end.

Definition bitmap {A} (level : Z) (m : M (list Z) A) : B A := zoom lbitmap (on_row level m).
Definition free_list (level i : Z) : B Z := zoom lfree_list (on_row level (rd i)).
Definition set_free_list (level i x : Z) : B unit := zoom lfree_list (on_row level (wr i x)).
Definition free_cur (level : Z) : B Z := zoom lfree_cur (rd level).
Definition set_free_cur (level x : Z) : B unit := zoom lfree_cur (wr level x).
Definition block_level (i : Z) : B Z := zoom lblocks (rd i).
Definition set_block_level (i x : Z) : B unit := zoom lblocks (wr i x).

Definition blk_lock : B unit :=
  l ← get b_lock; if (l : Z) =? 0 then modify (set_b_lock 1) else fail Deadlock.
Definition blk_unlock : B unit := modify (set_b_lock 0).

Definition align4 (x : Z) : Z := Z.land x (u32 (Z.lnot 3)).

(** ** buddy_init *)

(** The number of levels and of basic blocks that cover the region. *)
Fixpoint count_levels (fuel : nat) (start_adr end_adr resize_size num level : Z) :
    B (Z * Z * Z) :=
  if end_adr <=? u32 (start_adr + resize_size) then mret (resize_size, num, level)
  else match fuel with
  | O => fail Diverge
  | S fuel => count_levels fuel start_adr end_adr (u32 (Z.shiftl resize_size 1)) (u32 (Z.shiftl num 1)) (level + 1)
  end.

(** Room for the bit map and the list of level [i], [num] words each, below
    [save_adr]; the new [save_adr]. *)
Definition init_level (i num save_adr : Z) : B Z :=
  let save_adr := align4 (u32 (save_adr - num * 4)) in
  zoom lbitmap (wr i (replicate (Z.to_nat num) 0));;
  zoom lnum_l (wr i num);;
  let save_adr := align4 (u32 (save_adr - num * 4)) in
  zoom lfree_list (wr i (replicate (Z.to_nat num) (-1)));;
  set_free_cur i (-1);;
  mret save_adr.

Fixpoint init_levels (n : nat) (i num save_adr : Z) : B (Z * Z * Z) :=
  match n with
  | O => mret (i, num, save_adr)
  | S n =>
      let num := Z.shiftr num 1 in
      let num := if num =? 0 then 1 else num in
      save_adr ← init_level i num save_adr;
      init_levels n (i + 1) num save_adr
  end.

(** The words of the top level that are full. *)
Fixpoint fill_words (fuel : nat) (top max_num num o_num i : Z) : B (Z * Z * Z) :=
  if u32 (max_num * 32) <=? num then
    bitmap top (wr i (u32 (-1)));;
    set_free_list top i (i + 1);;
    match fuel with
    | O => fail Diverge
    | S fuel => fill_words fuel top max_num (num - u32 (max_num * 32)) (o_num + u32 (max_num * 32)) (i + 1)
    end
  else mret (num, o_num, i).

(** The remaining blocks of the top level. *)
Fixpoint fill_blocks (fuel : nat) (top max_num num o_num : Z) : B (Z * Z) :=
  if max_num <=? num then
    bitmap top (acoral_set_bit (Z.shiftr o_num top));;
    match fuel with
    | O => fail Diverge
    | S fuel => fill_blocks fuel top max_num (num - max_num) (o_num + max_num)
    end
  else mret (num, o_num).

(** [while(--level_1>0)], entered with [n] for the decremented [level_1]. *)
Fixpoint fill_rest (n : nat) (num o_num : Z) : B unit :=
  match n with
  | O => mret tt
  | S n' =>
      let level_1 := Z.of_nat n in
      let index := Z.shiftr o_num level_1 in
      if num =? 0 then mret tt
      else
        let cur := index / 32 in
        let max_num := Z.shiftl 1 (level_1 - 1) in
        if max_num <=? num then
          set_block_level (BLOCK_INDEX o_num) (-1);;
          bitmap (level_1 - 1) (acoral_set_bit index);;
          set_free_list (level_1 - 1) cur (-1);;
          set_free_cur (level_1 - 1) cur;;
          fill_rest n' (num - max_num) (o_num + max_num)
        else fill_rest n' num o_num
  end.

(** [garbage] is what memory held at [acoral_mem_blocks]. *)
Definition buddy_init (garbage : Z → Z) (start_adr end_adr : Z) : B Z :=
  let start_adr := align4 (u32 (start_adr + 3)) in
  let end_adr := align4 end_adr in
  let end_adr := align4 (u32 (end_adr - sizeof_block_ctr)) in
  if (end_adr <? start_adr) || (u32 (end_adr - start_adr) <? BLOCK_SIZE) then
    modify (set_b_state MEM_NO_ALLOC);;
    mret (u32 (err_code KR_MEM_ERR_LESS))
  else
    modify (set_b_state MEM_OK);;
    '(resize_size, num, adjust_level_1) ← count_levels 32 start_adr end_adr BLOCK_SIZE 1 1;
    modify (set_b_blocks (garbage <$> seqZ 0 num));;
    let save_adr := u32 (end_adr - num) in
    let level_1 := if LEVEL <? adjust_level_1 then LEVEL else adjust_level_1 in
    '(i, num, save_adr) ← init_levels (Z.to_nat (level_1 - 1)) 0 (num / 32) save_adr;
    let num := if num =? 0 then 1 else num in
    save_adr ← init_level i num save_adr;
    let adjust_level_1 :=
      if save_adr <=? u32 (start_adr + Z.shiftr resize_size 1) then adjust_level_1 - 1 else adjust_level_1 in
    let level_1 := if LEVEL <? adjust_level_1 then LEVEL else level_1 in
    let num := Z.shiftr (u32 (save_adr - start_adr)) BLOCK_SHIFT in
    modify (set_b_region level_1 start_adr (u32 (start_adr + Z.shiftl num BLOCK_SHIFT)) num);;
    let max_num := Z.shiftl 1 (level_1 - 1) in
    set_free_cur (level_1 - 1) (if 0 <? num then 0 else -1);;
    '(num, o_num, i) ← fill_words (Z.to_nat (num / (max_num * 32))) (level_1 - 1) max_num num 0 0;
    when (num =? 0) (set_free_list (level_1 - 1) (i - 1) (-1));;
    '(num, o_num) ← fill_blocks 32 (level_1 - 1) max_num num o_num;
    set_free_list (level_1 - 1) i (-1);;
    fill_rest (Z.to_nat (level_1 - 1)) num o_num;;
    blk_unlock;;
    mret (u32 (err_code KR_OK)).

(** ** Allocation *)
Fixpoint recus_malloc (fuel : nat) (level_0 : Z) : B Z :=
  level ← get b_level;
  if level <=? level_0 then mret (err_code KR_MEM_ERR_UNDEF) else
  cur ← free_cur level_0;
  if cur <? 0 then
    match fuel with
    | O => fail Diverge
    | S fuel =>
        num ← recus_malloc fuel (level_0 + 1);
        if num <? 0 then mret (err_code KR_MEM_ERR_UNDEF) else
        let index := Z.shiftr num (level_0 + 1) in
        let cur := index / 32 in
        bitmap level_0 (acoral_set_bit index);;
        set_free_list level_0 cur (-1);;
        set_free_cur level_0 cur;;
        mret num
    end
  else
    w ← bitmap level_0 (rd cur);
    let index := u32 (cur * 32 + acoral_ffs w) in
    bitmap level_0 (acoral_clear_bit index);;
    w ← bitmap level_0 (rd cur);
    (if w =? 0 then next ← free_list level_0 cur; set_free_cur level_0 next else mret tt);;
    let num := s32 (Z.shiftl index (level_0 + 1)) in
    block_num ← get b_block_num;
    if level_0 =? level - 1 then
      if block_num <? u32 (Z.shiftr num 1 + Z.shiftl 1 level_0) then mret (err_code KR_MEM_ERR_UNDEF)
      else mret (Z.shiftr num 1)
    else
      l ← block_level (BLOCK_INDEX num);
      if 0 <=? l then mret (num + Z.shiftl 1 level_0) else mret num.

(** [buddy_r_malloc] between the critical section and the lock. *)
Definition buddy_r_malloc_body (level_0 : Z) : B Z :=
  blk_lock;;
  modify (λ b, set_b_free_num (u32 (b_free_num b - Z.shiftl 1 level_0)) b);;
  num ← recus_malloc (Z.to_nat LEVEL) level_0;
  when (Z.land num 1 =? 0) (set_block_level (BLOCK_INDEX num) level_0);;
  blk_unlock;;
  mret num.

(** The level and size of a request: [while(resize_size<size && ...)]. *)
Fixpoint size_loop (fuel : nat) (bound : Z → bool) (size resize_size num level_0 : Z) : option (Z * Z * Z) :=
  if (resize_size <? size) && bound level_0 then
    match fuel with
    | O => None
    | S fuel => size_loop fuel bound size (u32 (Z.shiftl resize_size 1)) (u32 (Z.shiftl num 1)) (u8 (level_0 + 1))
    end
  else Some (resize_size, num, level_0).

Definition buddy_malloc_size (size : Z) : B Z :=
  state ← get b_state;
  if state =? MEM_NO_ALLOC then mret 0 else
  level ← get b_level;
  match size_loop 32 (λ l, l <? level) size BLOCK_SIZE 1 0 with
  | Some (resize_size, _, _) => mret resize_size
  | None => fail Diverge
  end.

(** ** Freeing *)

(** The address check of [buddy_free]: the basic block, or [None]. *)
Definition free_check (adr : Z) : B (option Z) :=
  start_adr ← get b_start_adr;
  end_adr ← get b_end_adr;
  if (adr =? 0) || (adr <? start_adr) || (end_adr <? u32 (adr + BLOCK_SIZE)) then mret None else
  let num := Z.shiftr (u32 (adr - start_adr)) BLOCK_SHIFT in
  if adr =? u32 (start_adr + Z.shiftl num BLOCK_SHIFT) then mret (Some num) else mret None.

(** The level of a block that is freed, or [None] when it is not allocated. *)
Definition free_level (num : Z) : B (option Z) :=
  if Z.land num 1 =? 1 then
    l ← block_level (BLOCK_INDEX num);
    if 0 <? l then mret None else
    bit ← bitmap 0 (acoral_get_bit (BLOCK_INDEX num));
    if (l =? 0) && negb (bit =? 0) then mret None
    else if (l <? 0) && (bit =? 0) then mret None
    else mret (Some 0)
  else
    l ← block_level (BLOCK_INDEX num);
    if l <? 0 then mret None else
    modify (λ b, set_b_free_num (u32 (b_free_num b + Z.shiftl 1 l)) b);;
    set_block_level (BLOCK_INDEX num) (-1);;
    mret (Some l).

(** The place of word [cur] in the list of level [l]. *)
Fixpoint list_place (fuel : nat) (l cur temp_cur : Z) : B Z :=
  next ← free_list l temp_cur;
  if negb (next =? -1) && (next <? cur) then
    match fuel with O => fail Diverge | S fuel => list_place fuel l cur next end
  else mret temp_cur.

Fixpoint list_scan (fuel : nat) (l cur temp_cur : Z) : B Z :=
  if cur =? temp_cur then mret temp_cur else
  temp_cur ← free_list l temp_cur;
  next ← free_list l temp_cur;
  if next =? cur then mret temp_cur
  else match fuel with O => fail Diverge | S fuel => list_scan fuel l cur temp_cur end.

(** Marking a pair on level [l]: one of its halves is free now. *)
Definition mark_free (fuel : nat) (l index : Z) : B unit :=
  let cur := index / 32 in
  bitmap l (acoral_set_bit index);;
  fc ← free_cur l;
  if (fc <? 0) || (cur <? fc) then
    set_free_list l cur fc;;
    set_free_cur l cur
  else if fc <? cur then
    temp_cur ← list_place fuel l cur fc;
    next ← free_list l temp_cur;
    set_free_list l cur next;;
    set_free_list l temp_cur cur
  else mret tt.

(** The loop over the levels: [n] is [max_level_1 - level_0]. *)
Fixpoint free_up (n : nat) (fuel : nat) (max_level_1 l index : Z) : B unit :=
  match n with
  | O => mret tt
  | S n =>
      let cur := index / 32 in
      bit ← bitmap l (acoral_get_bit index);
      if bit =? 0 then mark_free fuel l index
      else
        bitmap l (acoral_clear_bit index);;
        fc ← free_cur l;
        temp_cur ← list_scan fuel l cur fc;
        w ← bitmap l (rd temp_cur);
        (if w =? 0 then next ← free_list l cur; set_free_cur l next else mret tt);;
        free_up n fuel max_level_1 (l + 1) (if l + 1 <? max_level_1 - 1 then Z.shiftr index 1 else index)
  end.

(** The rest of [buddy_free] for a block of level [l]; the result says whether
    it unlocks before it leaves the critical section. *)
Definition free_body (num l : Z) : B bool :=
  max_level_1 ← get b_level;
  if l =? max_level_1 - 1 then
    bitmap l (acoral_set_bit (Z.shiftr num l));;
    mret true
  else
    rows ← get b_num_l;
    free_up (Z.to_nat (max_level_1 - l)) (Z.to_nat (foldr Z.max 0 rows)) max_level_1 l
      (Z.shiftr num (1 + l));;
    mret false.

(** ** What buddy_scan prints: per level its words and its list head, and the
    number of free blocks. *)
Definition buddy_scan : B (list (list Z * Z) * Z) :=
  level ← get b_level;
  rows ← get (λ b, take (Z.to_nat level) (zip (b_bitmap b) (b_free_cur b)));
  free_num ← get b_free_num;
  mret (rows, free_num).

Section buddy_ops.
Context {S : Type} `{!Critical S} (lb : lens S bstate).

Definition buddy_r_malloc (level_0 : Z) : M S Z :=
  cr_enter;;
  num ← zoom lb (buddy_r_malloc_body level_0);
  cr_exit;;
  start_adr ← zoom lb (get b_start_adr);
  mret (u32 (start_adr + u32 (Z.shiftl num BLOCK_SHIFT))).

Definition buddy_malloc (size : Z) : M S Z :=
  state ← zoom lb (get b_state);
  if state =? MEM_NO_ALLOC then mret 0 else
  match size_loop 32 (λ _, true) size BLOCK_SIZE 1 0 with
  | None => fail Diverge
  | Some (_, num, level_0) =>
      free_num ← zoom lb (get b_free_num);
      level ← zoom lb (get b_level);
      if free_num <? num then mret 0
      else if level <=? level_0 then mret 0
      else buddy_r_malloc level_0
  end.

Definition buddy_free (adr : Z) : M S unit :=
  state ← zoom lb (get b_state);
  if state =? MEM_NO_ALLOC then mret tt else
  num ← zoom lb (free_check adr);
  match num with
  | None => mret tt
  | Some num =>
      cr_enter;;
      zoom lb blk_lock;;
      l ← zoom lb (free_level num);
      match l with
      | None => zoom lb blk_unlock;; cr_exit
      | Some l =>
          unlocked ← zoom lb (free_body num l);
          if (unlocked : bool) then zoom lb blk_unlock;; cr_exit
          else cr_exit;; zoom lb blk_unlock
      end
  end.

(** [acoral_malloc_size], [acoral_malloc] and [acoral_free] of mem.h. *)
Definition buddy_allocator : Allocator S := {|
  al_malloc_size := λ size, zoom lb (buddy_malloc_size size);
  al_malloc := buddy_malloc;
  al_free := buddy_free;
|}.
End buddy_ops.

(** ** Sizes *)
Lemma shiftl_step x : u32 (Z.shiftl x 1) = u32 (2 * x).
Proof. done. Qed.

Lemma pow2_step j : 0 ≤ j → 2 * 2 ^ j = 2 ^ (j + 1).
Proof. intros Hj. rewrite Z.pow_add_r by lia. lia. Qed.

(** The loop from step [j]: it stops at the first step [k] where the size is
    large enough or the bound is reached. *)
Lemma size_loop_run (bound : Z → bool) size k n : ∀ fuel j,
  0 ≤ j → k = j + Z.of_nat n → k ≤ 24 → (n ≤ fuel)%nat →
  (∀ i, j ≤ i < k → BLOCK_SIZE * 2 ^ i < size ∧ bound i = true) →
  (size ≤ BLOCK_SIZE * 2 ^ k ∨ bound k = false) →
  size_loop fuel bound size (BLOCK_SIZE * 2 ^ j) (2 ^ j) j = Some (BLOCK_SIZE * 2 ^ k, 2 ^ k, k).
Proof.
  induction n as [|n IH]; intros fuel j Hj Hk Hk24 Hf Hlt Hstop.
  - replace k with j in * by lia.
    assert ((BLOCK_SIZE * 2 ^ j <? size) && bound j = false) as E.
    { destruct Hstop as [? | ->]; [|apply andb_false_r]. by rewrite (proj2 (Z.ltb_ge _ _)). }
    destruct fuel; simpl; by rewrite E.
  - destruct fuel as [|fuel]; [lia|]. cbn [size_loop].
    destruct (Hlt j ltac:(lia)) as [Hs Hb]. rewrite (proj2 (Z.ltb_lt _ _)), Hb by done. cbn [andb].
    assert (2 ^ (j + 1) ≤ 2 ^ 24) by (apply Z.pow_le_mono_r; lia).
    assert (0 < 2 ^ (j + 1)) by (apply Z.pow_pos_nonneg; lia).
    rewrite !shiftl_step. change BLOCK_SIZE with 128 in *.
    replace (2 * (128 * 2 ^ j)) with (128 * 2 ^ (j + 1)) by (rewrite <- pow2_step by done; lia).
    rewrite pow2_step by done.
    rewrite (wrapu_small 32), (wrapu_small 32), (wrapu_small 8) by lia.
    apply IH; [lia..|intros i Hi; apply Hlt; lia|done].
Qed.

(** Once the size has wrapped to 0 the loop of [buddy_malloc] never stops. *)
Lemma size_loop_zero size num : 0 < size → ∀ fuel level_0,
  size_loop fuel (λ _, true) size 0 num level_0 = None.
Proof.
  intros Hs fuel. revert num. induction fuel as [|fuel IH]; intros num l; simpl;
    (rewrite (proj2 (Z.ltb_lt _ _)) by done); [done|apply IH].
Qed.

Lemma size_loop_huge size fuel : 2 ^ 31 < size → size_loop fuel (λ _, true) size BLOCK_SIZE 1 0 = None.
Proof.
  intros Hs. assert (∀ n fuel j, 0 ≤ j → j + Z.of_nat n = 24 →
    size_loop fuel (λ _, true) size (BLOCK_SIZE * 2 ^ j) (2 ^ j) j = None) as H.
  { clear fuel. induction n as [|n IH]; intros fuel j Hj Hn;
      assert (2 ^ j ≤ 2 ^ 24) by (apply Z.pow_le_mono_r; lia); change BLOCK_SIZE with 128 in *;
      (destruct fuel as [|fuel]; simpl; (rewrite (proj2 (Z.ltb_lt _ _)) by lia); [done|]);
      cbn [andb]; rewrite !shiftl_step.
    - replace j with 24 by lia. apply size_loop_zero. lia.
    - replace (2 * (128 * 2 ^ j)) with (128 * 2 ^ (j + 1)) by (rewrite <- pow2_step by done; lia).
      rewrite pow2_step by done.
      assert (2 ^ (j + 1) ≤ 2 ^ 24) by (apply Z.pow_le_mono_r; lia).
      assert (0 < 2 ^ (j + 1)) by (apply Z.pow_pos_nonneg; lia).
      rewrite (wrapu_small 32), (wrapu_small 32), (wrapu_small 8) by lia. apply IH; lia. }
  specialize (H 24%nat fuel 0). by apply H.
Qed.

(** The level of a request: the least [k] with [128 * 2^k >= size]. *)
Definition size_level (size : Z) : Z := Z.log2_up ((size + BLOCK_SIZE - 1) / BLOCK_SIZE).

Lemma size_level_spec size : 0 ≤ size ≤ 2 ^ 31 →
  0 ≤ size_level size ≤ 24 ∧ size ≤ BLOCK_SIZE * 2 ^ size_level size ∧
  ∀ i, 0 ≤ i < size_level size → BLOCK_SIZE * 2 ^ i < size.
Proof.
  intros Hs. unfold size_level. change BLOCK_SIZE with 128. set (q := (size + 128 - 1) / 128).
  assert (128 * q ≤ size + 127 < 128 * q + 128) as Hq.
  { unfold q. replace (size + 128 - 1) with (size + 127) by lia.
    pose proof (Z.div_mod (size + 127) 128 ltac:(lia)). pose proof (Z.mod_pos_bound (size + 127) 128 ltac:(lia)). lia. }
  assert (0 ≤ q ≤ 2 ^ 24) as Hq2 by (change (2 ^ 24) with 16777216; lia).
  destruct (decide (q ≤ 1)).
  { assert (Z.log2_up q = 0) as -> by (destruct (decide (q = 1)) as [->|]; [done|by apply Z.log2_up_nonpos; lia]).
    split; [lia|]. split; lia. }
  destruct (Z.log2_up_spec q ltac:(lia)) as [Hlo Hhi].
  assert (Z.log2_up q ≤ 24) by (apply Z.log2_up_le_pow2; lia). pose proof (Z.log2_up_nonneg q).
  split; [lia|]. split; [lia|].
  intros i Hi. assert (2 ^ i ≤ 2 ^ Z.pred (Z.log2_up q)) by (apply Z.pow_le_mono_r; lia). lia.
Qed.

(** The size computations.  With [level] levels, [buddy_malloc_size] returns
    for a size up to [128 * 2^level] the least [128 * 2^k] that is at least the
    size, and [128 * 2^level] for every larger one; it changes nothing.
    [buddy_malloc] computes the same [k] and the block count [2^k] for sizes up
    to [2^31]; above that its 32-bit size wraps to 0 and the loop never ends. *)
Theorem buddy_sizes b size :
  b_state b ≠ MEM_NO_ALLOC → 0 ≤ b_level b ≤ LEVEL → 0 ≤ size < 2 ^ 32 →
  buddy_malloc_size size b = Ret (BLOCK_SIZE * 2 ^ Z.min (size_level size) (b_level b), b) ∧
  (size ≤ 2 ^ 31 →
   size ≤ BLOCK_SIZE * 2 ^ size_level size ∧
   (∀ i, 0 ≤ i < size_level size → BLOCK_SIZE * 2 ^ i < size) ∧
   size_loop 32 (λ _, true) size BLOCK_SIZE 1 0
     = Some (BLOCK_SIZE * 2 ^ size_level size, 2 ^ size_level size, size_level size)) ∧
  (2 ^ 31 < size → ∀ fuel, size_loop fuel (λ _, true) size BLOCK_SIZE 1 0 = None).
Proof.
  intros Hst Hl Hs. change LEVEL with 14 in Hl. split_and!.
  - unfold buddy_malloc_size. erewrite run_bind by reflexivity.
    rewrite (proj2 (Z.eqb_neq _ _)) by done. erewrite run_bind by reflexivity.
    assert (0 ≤ Z.min (size_level size) (b_level b) ≤ 14 ∧
      (∀ i, 0 ≤ i < Z.min (size_level size) (b_level b) → BLOCK_SIZE * 2 ^ i < size ∧ (i <? b_level b) = true) ∧
      (size ≤ BLOCK_SIZE * 2 ^ Z.min (size_level size) (b_level b) ∨
        (Z.min (size_level size) (b_level b) <? b_level b) = false)) as (Hk & Hlt & Hstop).
    { destruct (decide (size ≤ 2 ^ 31)).
      - destruct (size_level_spec size) as (? & ? & Hlt); [lia|]. split; [lia|]. split.
        + intros i Hi. split; [apply Hlt; lia|apply Z.ltb_lt; lia].
        + destruct (Z.min_spec (size_level size) (b_level b)) as [[? ->]|[? ->]]; [by left|right; apply Z.ltb_irrefl].
      - assert (14 < size_level size).
        { unfold size_level. apply Z.log2_up_lt_pow2; [apply Z.div_str_pos; change BLOCK_SIZE with 128; lia|].
          apply Z.lt_le_trans with (2 ^ 24); [done|]. apply Z.div_le_lower_bound; change BLOCK_SIZE with 128; lia. }
        rewrite Z.min_r by lia. split; [lia|]. split; [|right; apply Z.ltb_irrefl].
        intros i Hi. split; [|apply Z.ltb_lt; lia]. change BLOCK_SIZE with 128.
        assert (2 ^ i ≤ 2 ^ 14) by (apply Z.pow_le_mono_r; lia). lia. }
    pose proof (size_loop_run (λ l, l <? b_level b) size (Z.min (size_level size) (b_level b)) (Z.to_nat (Z.min (size_level size) (b_level b))) 32 0
      ltac:(done) ltac:(lia) ltac:(lia) ltac:(lia) Hlt Hstop) as E.
    change (BLOCK_SIZE * 2 ^ 0) with BLOCK_SIZE in E. change (2 ^ 0) with 1 in E.
    by rewrite E.
  - intros Hs'. destruct (size_level_spec size) as (? & ? & Hlt); [lia|]. split_and!; [done..|].
    pose proof (size_loop_run (λ _, true) size (size_level size) (Z.to_nat (size_level size)) 32 0
      ltac:(done) ltac:(lia) ltac:(lia) ltac:(lia)) as E. apply E; [by auto|by left].
  - intros Hs' fuel. by apply size_loop_huge.
Qed.

(** The promise of the critical section to the allocator: it returns and does
    not touch the allocator's state. *)
Class CriticalLaws {S : Type} `{!Critical S} (lb : lens S bstate) : Prop := {
  cl_enter : ∀ s, ∃ s', cr_enter s = Ret (tt, s') ∧ view lb s' = view lb s;
  cl_exit : ∀ s, ∃ s', cr_exit s = Ret (tt, s') ∧ view lb s' = view lb s;
}.

(** The starts of basic blocks, and the addresses that are none of the region. *)
Definition block_start (b : bstate) (adr : Z) : Prop := (adr - b_start_adr b) mod BLOCK_SIZE = 0.
Definition bad_address (b : bstate) (adr : Z) : Prop :=
  adr = 0 ∨ adr < b_start_adr b ∨ b_end_adr b < adr + BLOCK_SIZE ∨ ¬ block_start b adr.

Lemma free_check_bad b adr :
  0 ≤ b_start_adr b → 0 ≤ adr < 2 ^ 32 → bad_address b adr → adr + BLOCK_SIZE < 2 ^ 32 ∨ ¬ block_start b adr →
  free_check adr b = Ret (None, b).
Proof.
  unfold bad_address, block_start. change BLOCK_SIZE with 128.
  intros Hst Ha Hbad Hwrap. unfold free_check. do 2 erewrite run_bind by reflexivity. change BLOCK_SIZE with 128.
  destruct ((adr =? 0) || (adr <? b_start_adr b) || (b_end_adr b <? u32 (adr + 128))) eqn:E; [done|].
  apply orb_false_iff in E as [[?%Z.eqb_neq ?%Z.ltb_ge]%orb_false_iff Hend%Z.ltb_ge].
  assert ((adr - b_start_adr b) mod 128 ≠ 0) as Hmod.
  { destruct Hwrap as [Hwrap|]; [|done]. rewrite wrapu_small in Hend by lia. destruct Hbad as [?|[?|[?|?]]]; [lia..|done]. }
  rewrite (proj2 (Z.eqb_neq _ _)); [done|]. rewrite (wrapu_small 32 (adr - _)) by lia.
  unfold BLOCK_SHIFT. rewrite Z.shiftr_div_pow2, Z.shiftl_mul_pow2 by done. change (2 ^ 7) with 128.
  pose proof (Z.div_mod (adr - b_start_adr b) 128 ltac:(done)).
  pose proof (Z.mod_pos_bound (adr - b_start_adr b) 128 ltac:(done)).
  rewrite wrapu_small by lia. lia.
Qed.

(** The check of the end wraps around: the last block of the address space
    passes it. *)
Lemma free_check_wraps b adr :
  0 < b_start_adr b ≤ adr → 0 ≤ b_end_adr b → adr < 2 ^ 32 ≤ adr + BLOCK_SIZE → u32 (adr + BLOCK_SIZE) ≤ b_end_adr b →
  block_start b adr → free_check adr b = Ret (Some ((adr - b_start_adr b) / BLOCK_SIZE), b).
Proof.
  unfold block_start. change BLOCK_SIZE with 128. intros Hst Hend Ha Hwrap Hmod.
  unfold free_check. do 2 erewrite run_bind by reflexivity. change BLOCK_SIZE with 128.
  rewrite (proj2 (Z.eqb_neq adr 0)), !(proj2 (Z.ltb_ge _ _)) by lia. cbn [orb].
  rewrite (wrapu_small 32 (adr - _)) by lia. unfold BLOCK_SHIFT.
  rewrite Z.shiftr_div_pow2, Z.shiftl_mul_pow2 by done. change (2 ^ 7) with 128.
  pose proof (Z.div_mod (adr - b_start_adr b) 128 ltac:(done)).
  rewrite wrapu_small by lia. by rewrite (proj2 (Z.eqb_eq _ _)) by lia.
Qed.

Lemma free_check_good b n :
  0 < b_start_adr b → 0 ≤ n → b_start_adr b + BLOCK_SIZE * n + BLOCK_SIZE ≤ b_end_adr b < 2 ^ 32 →
  free_check (b_start_adr b + BLOCK_SIZE * n) b = Ret (Some n, b).
Proof.
  intros Hst Hn Hend. change BLOCK_SIZE with 128 in *. unfold free_check. do 2 erewrite run_bind by reflexivity.
  change BLOCK_SIZE with 128. rewrite (wrapu_small 32 (_ + 128)) by lia.
  rewrite (proj2 (Z.eqb_neq _ 0)), !(proj2 (Z.ltb_ge _ _)) by lia. cbn [orb].
  rewrite (wrapu_small 32 (_ - _)) by lia. unfold BLOCK_SHIFT.
  replace (b_start_adr b + 128 * n - b_start_adr b) with (n * 2 ^ 7) by lia.
  rewrite Z.shiftr_div_pow2, Z.div_mul, Z.shiftl_mul_pow2 by done.
  rewrite wrapu_small by (change (2 ^ 7) with 128; lia).
  by rewrite (proj2 (Z.eqb_eq _ _)) by (change (2 ^ 7) with 128; lia).
Qed.

Lemma set_lock_id b : b_lock b = 0 → set_b_lock 0 (set_b_blocks (b_blocks b) (set_b_lock 1 b)) = b.
Proof. destruct b. simpl. by intros ->. Qed.

(** The bit of pair [n] on level 0. *)
Definition pair_bit (n : Z) (b : bstate) (w : Z) : Prop := bitmap 0 (acoral_get_bit n) b = Ret (w, b).

Lemma pair_bit_locked n b w v : pair_bit n b w → pair_bit n (set_b_lock v b) w.
Proof.
  unfold pair_bit, bitmap, zoom. cbn [view lbitmap update b_bitmap set_b_lock].
  destruct (on_row 0 (acoral_get_bit n) (b_bitmap b)) as [[a t]|e]; [|done]. intros [= -> Heq].
  assert (t = b_bitmap b) as -> by (by rewrite <- Heq). by destruct b.
Qed.

(** When a block of level 0, the second of a pair, counts as not allocated. *)
Definition odd_refused (l w : Z) : Prop := 0 < l ∨ (l = 0 ∧ w ≠ 0) ∨ (l < 0 ∧ w = 0).

Lemma free_level_odd n l w b :
  aget (b_blocks b) n = Some l → pair_bit n b w → odd_refused l w → free_level (2 * n + 1) b = Ret (None, b).
Proof.
  intros Hl Hw Href. unfold free_level.
  assert (Z.land (2 * n + 1) 1 = 1) as ->.
  { change 1 with (Z.ones 1) at 2. rewrite Z.land_ones by done. rewrite Z.mul_comm, Z.add_comm. by rewrite Z.mod_add. }
  assert (BLOCK_INDEX (2 * n + 1) = n) as ->.
  { unfold BLOCK_INDEX. rewrite Z.shiftr_div_pow2, Z.mul_comm, Z.add_comm by done. by rewrite Z.div_add. }
  cbn [Z.eqb Pos.eqb]. erewrite run_bind.
  2:{ apply run_zoom. by apply run_deref. }
  cbn [update lblocks]. replace (set_b_blocks (view lblocks b) b) with b by (by destruct b).
  destruct (Z.ltb_spec 0 l); [done|]. erewrite run_bind by exact Hw.
  destruct (Z.eqb_spec l 0), (Z.eqb_spec w 0), (Z.ltb_spec l 0); cbn [andb negb]; try done; destruct Href; lia.
Qed.

Lemma free_level_even n l b :
  aget (b_blocks b) n = Some l →
  free_level (2 * n) b = if l <? 0 then Ret (None, b)
    else Ret (Some l, set_b_blocks (aset n (-1) (b_blocks b)) (set_b_free_num (u32 (b_free_num b + 2 ^ l)) b)).
Proof.
  intros Hl. unfold free_level.
  assert (Z.land (2 * n) 1 = 0) as ->.
  { rewrite Z.mul_comm. change 1 with (Z.ones 1). rewrite Z.land_ones by done. by rewrite Z.mod_mul. }
  cbn [Z.eqb]. assert (BLOCK_INDEX (2 * n) = n) as ->.
  { unfold BLOCK_INDEX. by rewrite Z.shiftr_div_pow2, Z.mul_comm, Z.div_mul. }
  erewrite run_bind.
  2:{ apply run_zoom. by apply run_deref. }
  cbn [update lblocks]. replace (set_b_blocks (view lblocks b) b) with b by (by destruct b).
  destruct (Z.ltb_spec l 0); [done|]. rewrite Z.shiftl_1_l. erewrite run_bind by reflexivity.
  erewrite run_bind; [done|]. apply run_zoom. unfold wr. simpl. by rewrite Hl.
Qed.

Lemma free_level_beyond num b :
  Z.of_nat (length (b_blocks b)) ≤ BLOCK_INDEX num → free_level num b = Err Wild.
Proof.
  intros Hlen. assert (block_level (BLOCK_INDEX num) b = Err Wild) as Hr.
  { unfold block_level, zoom, rd, deref. cbn [view lblocks]. unfold aget. rewrite (proj2 (Z.leb_le _ _)) by lia.
    by rewrite lookup_ge_None_2 by lia. }
  unfold free_level. unfold mbind, M_bind. by destruct (Z.land num 1 =? 1); rewrite Hr.
Qed.

Section guards.
Context {S : Type} `{!Critical S} (lb : lens S bstate) `{!LensLaws lb, !CriticalLaws lb}.

(** [buddy_free] after its address check. *)
Lemma buddy_free_checked s adr x :
  b_state (view lb s) ≠ MEM_NO_ALLOC → free_check adr (view lb s) = Ret (x, view lb s) →
  buddy_free lb adr s = (match x with
    | None => mret tt
    | Some num =>
        cr_enter;;
        zoom lb blk_lock;;
        l ← zoom lb (free_level num);
        match l with
        | None => zoom lb blk_unlock;; cr_exit
        | Some l =>
            unlocked ← zoom lb (free_body num l);
            if (unlocked : bool) then zoom lb blk_unlock;; cr_exit
            else cr_exit;; zoom lb blk_unlock
        end
    end) s.
Proof.
  intros Hst Hx. unfold buddy_free. erewrite run_bind by (by apply run_zoom).
  rewrite update_view, (proj2 (Z.eqb_neq _ _)) by done.
  erewrite run_bind by (by apply run_zoom). by rewrite update_view.
Qed.

(** A block that counts as not allocated. *)
Lemma buddy_free_refused s b adr num :
  view lb s = b → b_state b ≠ MEM_NO_ALLOC → b_lock b = 0 → free_check adr b = Ret (Some num, b) →
  free_level num (set_b_lock 1 b) = Ret (None, set_b_lock 1 b) →
  ∃ s', buddy_free lb adr s = Ret (tt, s') ∧ view lb s' = b.
Proof.
  intros <- Hst Hlock Hcheck Hlevel. rewrite (buddy_free_checked s adr (Some num)) by done.
  destruct (cl_enter (lb := lb) s) as (s1 & H1 & Hv1). erewrite run_bind by done.
  erewrite run_bind; [|apply run_zoom; rewrite Hv1; unfold blk_lock; erewrite run_bind by reflexivity; by rewrite Hlock].
  erewrite run_bind by (apply run_zoom; rewrite view_update; exact Hlevel).
  cbn iota. erewrite run_bind by (by apply run_zoom).
  match goal with |- context [cr_exit ?x] => destruct (cl_exit (lb := lb) x) as (s2 & H2 & Hv2) end.
  exists s2. split; [done|]. rewrite Hv2, !view_update. by apply (set_lock_id (view lb s)).
Qed.

(** C32 What [buddy_free] refuses, and what it lets through.  For an address that
    is [NULL], outside of the managed region or not the start of a basic block,
    and not in the last 128 bytes of the address space, it returns and changes
    nothing.  For the first basic block of a pair whose entry is negative, and
    for the second one whose entry names a higher level, or whose pair already
    has a free half although both were allocated, or no free half although one
    was, it returns with the lock released and the allocator's state as before.
    The start of a block in the last 128 bytes passes
    the test of the end of the region, which wraps around, and the entry that
    is then read lies behind the array.  And the first block of a pair with an
    entry of 0 or more, which is what [buddy_init] may leave there as it does
    not write the entries, counts as allocated: [free_level] adds its size to
    the free blocks, whatever the bit maps say. *)
Theorem buddy_free_guards s b :
  view lb s = b → b_state b ≠ MEM_NO_ALLOC → 0 < b_start_adr b → 0 ≤ b_end_adr b < 2 ^ 32 → b_lock b = 0 →
  (∀ adr, 0 ≤ adr < 2 ^ 32 → bad_address b adr → adr + BLOCK_SIZE < 2 ^ 32 ∨ ¬ block_start b adr →
    buddy_free lb adr s = Ret (tt, s)) ∧
  (∀ n l, 0 ≤ n → b_start_adr b + BLOCK_SIZE * (2 * n) + BLOCK_SIZE ≤ b_end_adr b →
    aget (b_blocks b) n = Some l → l < 0 →
    ∃ s', buddy_free lb (b_start_adr b + BLOCK_SIZE * (2 * n)) s = Ret (tt, s') ∧ view lb s' = b) ∧
  (∀ n l w, 0 ≤ n → b_start_adr b + BLOCK_SIZE * (2 * n + 1) + BLOCK_SIZE ≤ b_end_adr b →
    aget (b_blocks b) n = Some l → pair_bit n b w → odd_refused l w →
    ∃ s', buddy_free lb (b_start_adr b + BLOCK_SIZE * (2 * n + 1)) s = Ret (tt, s') ∧ view lb s' = b) ∧
  (∀ adr, b_start_adr b ≤ adr < 2 ^ 32 → 2 ^ 32 ≤ adr + BLOCK_SIZE → block_start b adr →
    u32 (adr + BLOCK_SIZE) ≤ b_end_adr b →
    Z.of_nat (length (b_blocks b)) ≤ BLOCK_INDEX ((adr - b_start_adr b) / BLOCK_SIZE) →
    buddy_free lb adr s = Err Wild) ∧
  (∀ n l, aget (b_blocks b) n = Some l → 0 ≤ l →
    free_level (2 * n) b =
      Ret (Some l, set_b_blocks (aset n (-1) (b_blocks b)) (set_b_free_num (u32 (b_free_num b + 2 ^ l)) b))).
Proof.
  intros Hb Hst Hstart Hend Hlock. split_and!.
  - intros adr Ha Hbad Hwrap. rewrite (buddy_free_checked s adr None) by (rewrite Hb; first [done|apply free_check_bad; [lia|done..]]).
    done.
  - intros n l Hn Hin Hl Hneg. eapply buddy_free_refused; [done..|apply (free_check_good b (2 * n)); lia|].
    rewrite (free_level_even n l) by done. by rewrite (proj2 (Z.ltb_lt _ _)).
  - intros n l w Hn Hin Hl Hw Href.
    eapply buddy_free_refused; [done..|apply (free_check_good b (2 * n + 1)); lia|].
    eapply free_level_odd; [done|by apply pair_bit_locked|done].
  - intros adr Ha Hwrap Hal Hlow Hlen. subst b.
    rewrite (buddy_free_checked s adr _ Hst (free_check_wraps (view lb s) adr ltac:(lia) ltac:(lia) ltac:(lia) Hlow Hal)).
    destruct (cl_enter (lb := lb) s) as (s1 & H1 & Hv1). erewrite run_bind by done.
    erewrite run_bind.
    2:{ apply run_zoom. rewrite Hv1. unfold blk_lock. erewrite run_bind by reflexivity. by rewrite Hlock. }
    unfold mbind at 1, M_bind at 1. unfold zoom at 1. rewrite free_level_beyond; [done|]. by rewrite view_update.
  - intros n l Hl Hpos. rewrite (free_level_even n l) by done. by rewrite (proj2 (Z.ltb_ge _ _)).
Qed.
End guards.

(** ** Runs from [buddy_init] *)
Module Sample.
#[export] Instance critical : Critical bstate := { cr_enter := mret tt; cr_exit := mret tt }.
Definition lb : lens bstate bstate := Lens id (λ x _, x).

#[export] Instance lens_laws : LensLaws lb.
Proof. by split. Qed.

#[export] Instance critical_laws : CriticalLaws lb.
Proof. split; intros s; by exists s. Qed.

(** The control block before [buddy_init]. *)
Definition blank : bstate :=
  mk_b (replicate 14 []) (replicate 14 []) (replicate 14 0) (replicate 14 0) 0 0 0 0 0 0 0 0 [].

(** A region of 10000 bytes at 4096: 74 blocks, as 64 + 8 + 2. *)
Definition boot : B Z := buddy_init (λ _, -1) 4096 14096.

Definition booted : bstate := match boot blank with Ret (_, b) => b | Err _ => blank end.

Definition value_of {A} (x : outcome (A * bstate)) : option A :=
  match x with Ret (a, _) => Some a | Err _ => None end.

Definition free_blocks (x : outcome (unit * bstate)) : option Z :=
  match x with Ret (_, b) => Some (b_free_num b) | Err _ => None end.

(** Three defects of the buddy system, each on a run from [buddy_init].
    - Two live blocks overlap: after four allocations of 128 bytes, of which
      the last two, at 4096 + 128 * 64 and the block behind it, share the first
      half of a block of level 1, freeing the first of the two and allocating
      256 bytes returns its address again, with the second still in use.
    - Freeing an odd basic block does not give its size back to [free_num].
    - When the free blocks are too scattered for a request that [free_num]
      allows, the error code -254 of [recus_malloc] is used as a block number:
      the store to [acoral_mem_blocks[-127]] is out of bounds. *)
Theorem buddy_defects :
  value_of ((x ← buddy_malloc lb 128; y ← buddy_malloc lb 128;
             a ← buddy_malloc lb 128; b ← buddy_malloc lb 128;
             buddy_free lb a;; c ← buddy_malloc lb 256;
             mret (x, y, a, b, c)) booted)
    = Some (13312, 13440, 12288, 12416, 12288) ∧
  free_blocks ((a ← buddy_malloc lb 128; b ← buddy_malloc lb 128;
             buddy_free lb b;; buddy_free lb a) booted) = Some (b_free_num booted - 1) ∧
  (x ← buddy_malloc lb 8192; y ← buddy_malloc lb 512;
   a ← buddy_malloc lb 128; b ← buddy_malloc lb 128;
   c ← buddy_malloc lb 128; d ← buddy_malloc lb 128;
   e ← buddy_malloc lb 128; f ← buddy_malloc lb 128;
   buddy_free lb c;; buddy_free lb e;; buddy_malloc lb 256) booted = Err Wild.
Proof. split; [|split]; vm_compute; reflexivity. Qed.

Lemma lb_view b : view lb b = b.
Proof. done. Qed.

Lemma buddy_sizes_witness : buddy_malloc_size 300 booted = Ret (512, booted).
Proof.
  destruct (buddy_sizes booted 300) as [H _]; [by vm_compute|by vm_compute|lia|].
  etransitivity; [exact H|vm_compute; reflexivity].
Defined.

(** What the address check and the entry of an even block let through, on the
    booted region: the last 128 bytes of the address space, and a block that was
    never allocated, when the memory of the entries held 0. *)
Definition booted_zero : bstate := match buddy_init (λ _, 0) 4096 14096 blank with Ret (_, b) => b | Err _ => blank end.

Lemma buddy_guard_defects :
  buddy_free lb 0xFFFFFF80 booted = Err Wild ∧
  (b_free_num booted_zero, free_blocks (buddy_free lb 4352 booted_zero)) = (74, Some 75).
Proof. split; vm_compute; reflexivity. Qed.

Lemma buddy_free_guards_witness :
  buddy_free lb 4100 booted = Ret (tt, booted) ∧ buddy_free lb 0x10000 booted = Ret (tt, booted) ∧
  (∃ s', buddy_free lb 4352 booted = Ret (tt, s') ∧ view lb s' = booted) ∧
  (∃ s', buddy_free lb 4480 booted = Ret (tt, s') ∧ view lb s' = booted) ∧
  buddy_free lb 0xFFFFFF80 booted = Err Wild ∧
  ∃ b', free_level 2 booted_zero = Ret (Some 0, b') ∧ b_free_num b' = b_free_num booted_zero + 1.
Proof.
  destruct (buddy_free_guards lb booted booted (lb_view booted)) as (H1 & H2 & H3 & H4 & _); [by vm_compute..|].
  destruct (buddy_free_guards lb booted_zero booted_zero (lb_view booted_zero)) as (_ & _ & _ & _ & H5); [by vm_compute..|].
  split; [|split; [|split; [|split; [|split]]]].
  - apply H1; [done|right; right; right; by vm_compute|right; by vm_compute].
  - apply H1; [done|right; right; left; by vm_compute|left; by vm_compute].
  - apply (H2 1 (-1)); by vm_compute.
  - apply (H3 1 (-1) 0); [by vm_compute..|]. right. right. done.
  - apply H4; by vm_compute.
  - eexists. split; [apply (H5 1 0); by vm_compute|vm_compute; reflexivity].
Defined.
End Sample.
